(* ===== verification/_CoqProject ===== *)
-Q . S2P
Prelude.v
Codec.v
Prm.v
PrmCaps.v
Dcmd.v
Own.v
Sim.v
Obj.v
Uar.v
Queue.v
QState.v
Rq.v
Sq.v
Cq.v
Adapter.v
Mkey.v
Tir.v
Fr.v
Writes.v
Matcher.v
FlowAction.v
FlowTable.v
FlowRuleEx.v
Steering.v
SteerLife.v
Dek.v
Caps.v
AdapterLife.v
ParserGraph.v
Provider.v
PrmContexts.v
PrmRegisters.v
PrmCommands.v
PrmAll.v
PrmEnums.v
AppLife.v
Windows.v
Portable.v
Process.v
CompChannel.v
WinFlow.v
WinDevice.v
Utils.v
