(* ===== verification/Prelude.v ===== *)
(** * libdpcp: a verification development

    libdpcp is a C++ library that drives the objects of a ConnectX adapter
    (queues, memory keys, transport interfaces, steering rules) from user space.
    Each object is created, modified and queried by a command mailbox, a buffer
    of big-endian bit-fields laid out by the device's reference manual (PRM).
    The library has two layers: [dcmd] (src/src/dcmd), which wraps the calls of
    the device library, and [dpcp] (src/src/dpcp, interface in
    src/src/api/dpcp.h), whose classes fill the mailboxes, own the memory behind
    the objects and undo what they did when a step fails.  [dcmd] has two back
    ends, one over mlx5dv (Linux) and one over the vendor's DevX library
    (Windows).  The [dpcp] classes are modelled over the first; the second is
    modelled as well and shown to do for its clients what the first does.

    ** How the program is modelled

    A machine integer is a [Z]; where its width matters the wrap-around is
    written out with [wrap] and [swrap].  A mailbox is a list of bytes.  A
    stateful function is a computation of the monad [M D] (Dcmd.v) over a
    [world]: the device, the live heap blocks, the outcomes of the coming
    allocations ([new (std::nothrow)] may return null at any point) and the calls
    made to the device library so far.  Undefined behaviour (a double free, an
    access to a freed block, a null dereference, a signed overflow, an unchecked
    index) is the result [UB], and [wp m Q w] says that [m] has none and ends in
    [Q].  The device library is not in the repository: it is the class [DevX], an
    argument of everything, and its answers are arbitrary except where a theorem
    names what it relies on ([DevXLaws], [QueueDevice] of QState.v, which reads
    the commands by the layouts of the header, [TirDevice] of Tir.v, [DevXStatus] of Steering.v, [answers] of Caps.v).  Each such
    assumption has an instance: [sim], [qsim], [tsim].  The calls that only the
    adapter and the provider make are the classes [DevXDomain] and [DevXEnum].
    The libraries below the Windows classes and the completion channels are the
    classes [WinDevX], [WinRules], [WinEnum], [WinEvents] and [DevXEvents]; the
    structure [devx_fs_rule_add_in] of the vendor's header is the class [RuleIn],
    which says only that its members do not overlap.

    Classes are records; a constructor is [x_new], a destructor [x_delete] (it
    runs the destructors of the bases too), a method [class_method].  An object
    passed by pointer is threaded through the computation; out-parameters are
    extra results.  Log statements are left out.

    ** Files

    - Prelude.v: status codes ([enum status]), machine integers, tactics.
    - Codec.v: PRM layouts and the [MLX5_SET]/[MLX5_GET] macros
      (src/src/dcmd/windows/def.h), the laws of the accesses and the tactic
      [mbox] that reads a member of a filled mailbox.
    - Prm.v, PrmCaps.v: the structures of src/src/dcmd/prm.h that the library
      uses, member by member, and the constants; PrmCaps.v the capabilities.
    - PrmContexts.v, PrmRegisters.v, PrmCommands.v: the other structures of that
      header (contexts and counters, registers, commands and answers, command
      codes); PrmAll.v: what holds of the whole header; PrmEnums.v: its
      enumerations.
    - Dcmd.v: the classes [ctx], [obj], [umem], [uar], [flow] of
      src/src/dcmd/linux, the world, the monad and its rules.
    - Own.v: the ownership logic: [own l h w] lists the blocks a caller holds;
      rules for the operations of Dcmd.v.  Leak freedom and absence of double
      frees are statements [own l h] before and after.
    - Sim.v: a simulated device for witnesses.
    - Obj.v: [dpcp::obj] (dpcp_obj.cpp), the base class.
    - Uar.v: [uar_collection] (adapter.cpp), the pool of doorbell pages.
    - Queue.v: what queues share: [ilog2], page rounding, [reg_mem], resources.
    - QState.v: [rq::modify_state] and [sq::modify_state], one state machine
      over the interface [queue_cmds] of the two command formats.
    - Rq.v: [rq], [basic_rq], [striding_rq], [regular_rq], [ibq_rq] (rq.cpp).
    - Sq.v: [sq], [pp_sq] (sq.cpp), [packet_pacing] (internal.h, adapter.cpp).
    - Cq.v: [cq] (cq.cpp).
    - Adapter.v: the queue factories of [adapter] (adapter.cpp).
    - Mkey.v: every kind of memory key (mkey.cpp) and its factories.
    - Tir.v: [tir] and [tis] (tir.cpp, tis.cpp) and their factories.
    - Fr.v: [flow_rule] (fr.cpp) and its factory.
    - Writes.v: mailbox statements moved to a pointer and reordered.
    - Matcher.v: [flow_matcher] (flow_matcher.cpp).
    - FlowAction.v: the five flow actions and their generator
      (flow_action.cpp), [forwardable_obj], the [dcmd] forward action.
    - FlowTable.v: [flow_table_prm], [flow_table_kernel] (flow_table.cpp) and
      [flow_group] (flow_group.cpp), each object on its own.
    - FlowRuleEx.v: [flow_rule_ex] (flow_rule_ex.cpp) and the store of steering
      objects: shared and weak pointers are addresses into the store.
    - Steering.v: invariant and ownership of the store, operation by operation.
    - SteerLife.v: the client's operations on the store and their sequences.
    - Dek.v: [dek] with its three classes (dek.cpp), [tag_buffer_table_obj] and
      the factories.
    - Caps.v: [query_hca_caps] and the functions [store_hca_*] (adapter.cpp).
    - AdapterLife.v: constructor, domains, [open], clock and destructor of
      [adapter]; [pd_devx], [pd_ibv], [td] (internal.h); the [ctx] functions
      they call (src/src/dcmd/linux/ctx.cpp).
    - ParserGraph.v: [parser_graph_node] and its factory.
    - Provider.v: [dpcp::provider] (dpcp.cpp) over [dcmd::provider] and
      [dcmd::device] (src/src/dcmd/linux).
    - AppLife.v: an application on an adapter: requests that run the factories,
      methods and destructors of the classes above, and their sequences.
    - Windows.v: [ctx], [obj], [umem], [uar] of src/src/dcmd/windows, the
      operations of [dcmd] on any number of contexts as an inductive type,
      programs over them, and the simulation between the two back ends.
    - Portable.v: the classes of [dpcp] as such programs (the class [Client], one
      instance per operation), and with them the application on Windows.
    - Process.v: the operations on the adapter (AdapterLife.v) interleaved with
      the requests of the application (AppLife.v).
    - CompChannel.v: [comp_channel] (eq.cpp) against the interface [Channel] of
      [dcmd::compchannel] with its laws, and the classes of both back ends, which
      are instances of it.
    - WinFlow.v: [flow] and [action_fwd] of src/src/dcmd/windows.
    - WinDevice.v: [device], [provider] and the rest of [ctx] of
      src/src/dcmd/windows.
    - Utils.v: trace level, dump of a buffer and cache line size (src/src/utils).

    ** What is shown

    - The codec: reading a member back gives the value cut to its width, and a
      write disturbs no other member, for every layout the macros accept; every
      structure of the header is such a layout (C11, C12, C13, [devx_get_set64]);
      the one structure with which answers are read fits all that declare a
      status, and the numbers of objects up to 24 bits (C19);
      an enumerator written to its member reads back as the same enumerator
      ([enum_member_roundtrip]).
    - The whole: a process that constructs an adapter, works on it and on its
      objects in any order and leaves, leaves nothing behind but the domains that
      an operation on the adapter replaced while it held them (C2, which states
      exactly which); its parts are [adapter_life] and [app_leaves_nothing].  The
      requests are those for which the code is defined: objects that are held,
      queue sizes up to 2^30, readable key blobs, parser nodes with an arc numbered
      below 32 on sane capabilities, a key counter below its last value
      ([attrs_ok], [holds]).
    - Two back ends, one behaviour: what is shown of a client of [dcmd] on Linux
      holds on Windows (C4), and the classes of the application are such clients,
      so that within the same limits it leaves nothing behind there either (C3);
      completion channels follow one contract, computed from the answers of the
      platform (C10), up to their deletion, which Windows defines
      ([channel_deletion]) and Linux does not ([linux_channel_deletion_ub]); and the
      clocks read one register ([clocks_agree]).
    - Safety of the object graph: creating, using and destroying objects,
      queues, keys, transport objects, rules, the steering store and the adapter
      itself has no undefined behaviour and gives back everything on every path,
      for every answer of the device and, where the theorem does not say
      otherwise, of the allocator (C1, C6, C8, C9, C23,
      C25, C32 to C34, C37, C38, and the plain theorems [pp_sq_modify_ok], [create_pattern_mkey_safe], [win_device_list_ok]); the
      paths where the code does leak or free twice are proved too
      ([create_cq_double_free], [free_pool_forgotten], [pp_sq_init_leaks],
      [apply_twice_leaks], [reopen_leaks_td], [unopened_device_leaks],
      [modify_refused_leaks]).
    - State machines and contracts: the queue state machine, alone (C7) and in step
      with a device that follows the manual (C18, [modify_state_ok]), the cached
      attributes of a TIR as a refinement of a
      register (C5), the pool of UARs (C20), the key counter under every
      interleaving ([cas_winners_distinct], and [cas_duplicate] where it fails),
      opening an adapter from any state, the half-made ones included (C30), the
      devices an instance lists against those the library opens (C34), and chains
      of miss tables that end (C16).
    - Independence of order: the actions of a rule in the order of the hash map
      (C14), the unrolled switch of the samples against a loop (C15), the
      functions that decode the capabilities (C17).
    - The commands: what each mailbox says to the device, member by member, read
      back by the device where the code has no decoder of its own, and the exact
      status of every branch (C21, C22, C24, C26 to C29, C31, C35, and the plain
      theorems [table_in_ok], [get_key_params_ok], [flow_rule_match_fields],
      [cq_in_fields], [pp_sq_in_fields], [modify_in_fields],
      [pattern_mkey_in_entries], [root_encoding]).
    - Texts: versions (C35), the identifiers of Windows devices (C36), and dumps
      that read back as the buffer ([hexdump_roundtrip]).
    - Bounds: the real time (C39), the pages of a queue's buffer (C40), and
      [ilog2_ok], the rounding of a logarithm.
    - Where the documentation and the code part, the theorem is about the cases in
      which they agree and says which they are (C26, C29, C33), and the rest is a
      lemma of its own.

    ** Bounds

    [ilog2] runs with fuel 32, enough for the 31 iterations after which the
    shift overflows; [ilog2_ok] shows that it returns for every argument up to
    2^30.  Theorems on queue sizes carry the bound 2^30 from it.  A chain of miss
    tables is followed for 256 steps, one per level of a table, and is shown to
    end within them.  The text of a LUID is built with fuel 16, the digits of 64
    bits; C36 shows that this is enough.  No other definition uses fuel: the
    remaining loops are over lists.  Allocation sizes do not matter to the heap,
    which refuses requests at will.  The numbers of a version text are taken to fit an [int] and those
    of a plug-and-play identifier 32 bits, as [sscanf] requires.

    ** What is not modelled

    The constructor of [adapter] is taken with enough memory for its capability
    buffers (the code does not check those allocations).  The destruction of the
    root tables after the context is a finding, and the store of steering objects
    (SteerLife.v) is destroyed apart from the adapter (AdapterLife.v, Process.v).

    The requests of AppLife.v leave out what the theorem does not hold of: a send
    queue whose pacing object the code can lose ([pp_sq_init_leaks]) and a
    completion queue, whose factory frees twice when a step fails
    ([create_cq_double_free]); these have their own theorems in Adapter.v, Sq.v
    and Cq.v.  Flow rules and the steering store are not ported by Portable.v: the
    descriptor of a rule differs between the two platforms, and the rules of the
    Windows back end are modelled from their own source in WinFlow.v.  Channels and
    devices of the two back ends are modelled side by side in the same way.

    Left out: what ibverbs and the vendor library do behind their calls; the log
    statements, which print and change no result; the class declarations of the
    headers beyond their data, whose methods are modelled where they are defined;
    the one structure of src/src/dcmd/prm.h that holds a host pointer
    ([query_packet_reformat_context_out]); the unit tests and examples. *)

From Stdlib Require Export ZArith Lia.
From stdpp Require Export base list gmap sets strings option.
From Stdlib Require Import Btauto.

#[global] Open Scope Z_scope.

(** ** Status codes (src/src/api/dpcp.h, [enum status]) *)

Inductive status : Type :=
| DPCP_OK
| DPCP_ERR_NO_SUPPORT
| DPCP_ERR_NO_PROVIDER
| DPCP_ERR_NO_DEVICES
| DPCP_ERR_NO_MEMORY
| DPCP_ERR_OUT_OF_RANGE
| DPCP_ERR_INVALID_ID
| DPCP_ERR_NO_CONTEXT
| DPCP_ERR_INVALID_PARAM
| DPCP_ERR_CREATE
| DPCP_ERR_MODIFY
| DPCP_ERR_QUERY
| DPCP_ERR_UMEM
| DPCP_ERR_ALLOC_UAR
| DPCP_ERR_NOT_APPLIED.

#[global] Instance status_eq_dec : EqDecision status.
Proof. solve_decision. Defined.

(** [DPCP_OK == s], the test every caller makes. *)
Definition is_ok (s : status) : bool :=
  match s with DPCP_OK => true | _ => false end.

Lemma is_ok_true s : is_ok s = true <-> s = DPCP_OK.
Proof. by destruct s. Qed.

Lemma is_ok_false s : is_ok s = false <-> s ≠ DPCP_OK.
Proof. by destruct s. Qed.

(** ** Machine integers: a value of a [w]-bit unsigned type is a [Z] kept in
    range by [wrap w]. *)

Definition wrap (w z : Z) : Z := z mod 2 ^ w.

Abbreviation u8 := (wrap 8).
Abbreviation u16 := (wrap 16).
Abbreviation u32 := (wrap 32).
Abbreviation u64 := (wrap 64).

(** Conversion of an unsigned value to a signed [w]-bit one (two's complement). *)
Definition swrap (w z : Z) : Z := (z + 2 ^ (w - 1)) mod 2 ^ w - 2 ^ (w - 1).

Abbreviation i32 := (swrap 32).

Lemma wrap_range w z : 0 <= w -> 0 <= wrap w z < 2 ^ w.
Proof. intros. apply Z.mod_pos_bound. lia. Qed.

Lemma wrap_small w z : 0 <= z < 2 ^ w -> wrap w z = z.
Proof. apply Z.mod_small. Qed.

Lemma wrap_wrap w z : wrap w (wrap w z) = wrap w z.
Proof. unfold wrap. by rewrite Z.mod_mod_divide by apply Z.divide_refl. Qed.

Lemma wrap_land w z : 0 <= w -> wrap w z = Z.land z (Z.ones w).
Proof. intros. unfold wrap. by rewrite Z.land_ones. Qed.

Lemma swrap_small w z :
  0 < w -> - 2 ^ (w - 1) <= z < 2 ^ (w - 1) -> swrap w z = z.
Proof.
  intros Hw Hz. unfold swrap.
  assert (2 ^ w = 2 * 2 ^ (w - 1)) as E
    by (rewrite <- Z.pow_succ_r by lia; f_equal; lia).
  rewrite Z.mod_small; lia.
Qed.

(** Bit tests used as C conditions: [x & m]. *)
Definition has_flag (x m : Z) : bool := negb (Z.land x m =? 0).

(** ** Generic list facts *)

Definition zeros (n : Z) : list Z := replicate (Z.to_nat n) 0.

Lemma length_zeros n : 0 <= n -> Z.of_nat (length (zeros n)) = n.
Proof. intros. unfold zeros. rewrite length_replicate. lia. Qed.

(** ** Hints and tactics of the development *)

Create HintDb dpcp discriminated.
#[export] Hint Resolve wrap_range : dpcp.

(** Case analysis on the [if] or [match] of the goal or of a hypothesis. *)
Ltac case_if :=
  match goal with
  | |- context [if ?b then _ else _] => let E := fresh "E" in destruct b eqn:E
  end.

Ltac case_if_in H :=
  match type of H with
  | context [if ?b then _ else _] => let E := fresh "E" in destruct b eqn:E
  end.

(** Turn boolean comparisons among the hypotheses into propositions. *)
Ltac bool_hyps :=
  repeat match goal with
    | H : (_ && _)%bool = true |- _ => apply andb_prop in H as [? ?]
    | H : (_ || _)%bool = false |- _ => apply orb_false_elim in H as [? ?]
    | H : negb _ = true |- _ => apply negb_true_iff in H
    | H : negb _ = false |- _ => apply negb_false_iff in H
    | H : (_ =? _) = true |- _ => apply Z.eqb_eq in H
    | H : (_ =? _) = false |- _ => apply Z.eqb_neq in H
    | H : (_ <? _) = true |- _ => apply Z.ltb_lt in H
    | H : (_ <? _) = false |- _ => apply Z.ltb_ge in H
    | H : (_ <=? _) = true |- _ => apply Z.leb_le in H
    | H : (_ <=? _) = false |- _ => apply Z.leb_gt in H
    | H : is_ok _ = true |- _ => apply is_ok_true in H
    | H : is_ok _ = false |- _ => apply is_ok_false in H
    | H : bool_decide _ = true |- _ => apply bool_decide_eq_true in H
    | H : bool_decide _ = false |- _ => apply bool_decide_eq_false in H
    end.

(** Equality of two integers bit by bit. *)
Ltac zbits := apply Z.bits_inj'; intros.

(** Application in source order: [b |> f] is [f b]. *)
Declare Scope dpcp_scope.
Delimit Scope dpcp_scope with dpcp.
Notation "b |> f" := (f b) (at level 61, left associativity, only parsing) : dpcp_scope.

(** [when c f]: the statement [if (c) { f }]. *)
Definition when {A : Type} (c : bool) (f : A -> A) (x : A) : A :=
  if c then f x else x.
