(* ===== verification/Codec.v ===== *)
(** * Mailbox codec: PRM bit layouts and the [MLX5_SET]/[MLX5_GET] macros

    A PRM structure of [src/src/dcmd/prm.h] declares one [u8] array cell per
    bit, so [sizeof] is a size in bits and the address of a member in the null
    structure is its bit offset.  [layout] is that description and [resolve]
    computes what [__mlx5_bit_off] and [__mlx5_bit_sz] of
    [src/src/dcmd/windows/def.h] compute.  A mailbox is a list of bytes, a
    pointer into it a byte offset, and [DEVX_SET] and the other macros are the
    read-modify-write of one big-endian word that the macros expand to. *)

From S2P Require Import Prelude.
From Stdlib Require Import Btauto.

Set Warnings "-register-all".
Open Scope dpcp_scope.

(** ** Layouts *)

Inductive layout : Type :=
| LBits (n : Z)
| LStruct (fs : list (string * layout))
| LUnion (fs : list (string * layout))
| LArr (n : Z) (elt : layout).

(** A member designator: [.name] or [[i]]. *)
Inductive step : Type :=
| F (name : string)
| I (i : Z).

Coercion F : string >-> step.

(** A list literal is checked against its expected type first, so that the
    strings of a designator are coerced. *)
#[global] Arguments cons {A}%_type_scope & a l.

(** [sizeof], in bits. *)
Fixpoint size_of (l : layout) : Z :=
  match l with
  | LBits n => n
  | LStruct fs =>
      (fix sum (fs : list (string * layout)) : Z :=
         match fs with [] => 0 | (_, t) :: r => size_of t + sum r end) fs
  | LUnion fs =>
      (fix mx (fs : list (string * layout)) : Z :=
         match fs with [] => 0 | (_, t) :: r => Z.max (size_of t) (mx r) end) fs
  | LArr n e => n * size_of e
  end.

(** The member [name] of a structure: its bit offset and its layout. *)
Fixpoint find_member (off : Z) (fs : list (string * layout)) (name : string)
  : option (Z * layout) :=
  match fs with
  | [] => None
  | (s, t) :: r =>
      if String.eqb s name then Some (off, t)
      else find_member (off + size_of t) r name
  end.

Fixpoint find_alt (fs : list (string * layout)) (name : string) : option layout :=
  match fs with
  | [] => None
  | (s, t) :: r => if String.eqb s name then Some t else find_alt r name
  end.

(** [(__mlx5_bit_off, __mlx5_bit_sz)] of a designator. *)
Fixpoint resolve (l : layout) (p : list step) : option (Z * Z) :=
  match p with
  | [] => Some (0, size_of l)
  | F name :: r =>
      match l with
      | LStruct fs =>
          match find_member 0 fs name with
          | Some (off, t) =>
              match resolve t r with
              | Some (o, sz) => Some (off + o, sz)
              | None => None
              end
          | None => None
          end
      | LUnion fs =>
          match find_alt fs name with
          | Some t => resolve t r
          | None => None
          end
      | _ => None
      end
  | I i :: r =>
      match l with
      | LArr _ e =>
          match resolve e r with
          | Some (o, sz) => Some (i * size_of e + o, sz)
          | None => None
          end
      | _ => None
      end
  end.

Definition ST_SZ_BYTES (l : layout) : Z := size_of l / 8.

Definition bit_off (l : layout) (p : list step) : Z :=
  match resolve l p with Some (o, _) => o | None => 0 end.

Definition bit_sz (l : layout) (p : list step) : Z :=
  match resolve l p with Some (_, s) => s | None => 0 end.

(** [DEVX_ADDR_OF(typ, p, fld)] *)
Definition ADDR_OF (l : layout) (p : Z) (fld : list step) : Z :=
  p + bit_off l fld / 8.

(** ** Big-endian words in a byte buffer *)

Definition rd (b : list Z) (a : Z) : Z := default 0 (b !! Z.to_nat a).

Definition wr (a v : Z) (b : list Z) : list Z := <[Z.to_nat a := v]> b.

Definition be32_to_cpu (b : list Z) (a : Z) : Z :=
  rd b a * 2 ^ 24 + rd b (a + 1) * 2 ^ 16 + rd b (a + 2) * 2 ^ 8 + rd b (a + 3).

Definition cpu_to_be32 (a w : Z) (b : list Z) : list Z :=
  b |> wr a (u8 (w / 2 ^ 24)) |> wr (a + 1) (u8 (w / 2 ^ 16))
    |> wr (a + 2) (u8 (w / 2 ^ 8)) |> wr (a + 3) (u8 w).

Definition be64_to_cpu (b : list Z) (a : Z) : Z :=
  be32_to_cpu b a * 2 ^ 32 + be32_to_cpu b (a + 4).

Definition cpu_to_be64 (a w : Z) (b : list Z) : list Z :=
  b |> cpu_to_be32 a (w / 2 ^ 32) |> cpu_to_be32 (a + 4) w.

(** [memcpy(b + a, src, length src)] *)
Fixpoint memcpy (a : Z) (src : list Z) (b : list Z) : list Z :=
  match src with
  | [] => b
  | x :: r => memcpy (a + 1) r (wr a x b)
  end.

(** The bytes [b[a], ..., b[a+n-1]]. *)
Fixpoint bytes_at (b : list Z) (a : Z) (n : nat) : list Z :=
  match n with
  | O => []
  | S m => rd b a :: bytes_at b (a + 1) m
  end.

(** ** Fields and the access macros *)

(** What the macros need of a field at a pointer: the byte address of its
    dword, [__mlx5_dw_bit_off] and [__mlx5_bit_sz]. *)
Record field := mkField { f_addr : Z; f_sh : Z; f_sz : Z }.

Definition fld (l : layout) (p : Z) (path : list step) : field :=
  let off := bit_off l path in
  let sz := bit_sz l path in
  mkField (p + 4 * (off / 32)) (32 - sz - Z.land off 31) sz.

Definition set_field (f : field) (v : Z) (b : list Z) : list Z :=
  let mask := Z.ones (f_sz f) in
  let dw_mask := Z.shiftl mask (f_sh f) in
  cpu_to_be32 (f_addr f)
    (Z.lor (Z.land (be32_to_cpu b (f_addr f)) (Z.lnot dw_mask))
           (Z.shiftl (Z.land v mask) (f_sh f))) b.

Definition get_field (f : field) (b : list Z) : Z :=
  Z.land (Z.shiftr (be32_to_cpu b (f_addr f)) (f_sh f)) (Z.ones (f_sz f)).

Definition DEVX_GET (l : layout) (p : Z) (path : list step) (b : list Z) : Z :=
  get_field (fld l p path) b.

(** The byte address a 64-bit access uses. *)
Definition fld64 (l : layout) (p : Z) (path : list step) : Z :=
  p + 8 * (bit_off l path / 64).

(** [MLX5_GET64] reads a member that is not 8-byte aligned in its structure at
    its byte address. *)
Definition DEVX_GET64 (l : layout) (p : Z) (path : list step) (b : list Z) : Z :=
  if bit_off l path mod 64 =? 0 then be64_to_cpu b (fld64 l p path)
  else be64_to_cpu b (ADDR_OF l p path).

(** The statements that fill a mailbox, and their execution in order. *)
Inductive write : Type :=
| W32 (f : field) (v : Z)
| W64 (a v : Z)
| WMem (a : Z) (src : list Z).

Definition DEVX_SET (l : layout) (p : Z) (path : list step) (v : Z) : write :=
  W32 (fld l p path) v.

Definition DEVX_SET64 (l : layout) (p : Z) (path : list step) (v : Z) : write :=
  W64 (fld64 l p path) v.

Definition exec1 (w : write) (b : list Z) : list Z :=
  match w with
  | W32 f v => set_field f v b
  | W64 a v => cpu_to_be64 a v b
  | WMem a src => memcpy a src b
  end.

Fixpoint exec (ws : list write) (b : list Z) : list Z :=
  match ws with
  | [] => b
  | w :: r => exec r (exec1 w b)
  end.

(** The block [if (c) { ws }]. *)
Definition only (c : bool) (ws : list write) : list write := if c then ws else [].

(** A zeroed mailbox of structure [l] after the statements [ws]. *)
Definition mailbox (l : layout) (ws : list write) : list Z :=
  exec ws (zeros (ST_SZ_BYTES l)).

(** ** Laws of the byte accesses *)

Lemma length_wr a v b : length (wr a v b) = length b.
Proof. apply length_insert. Qed.

Lemma rd_wr_eq a v b : 0 <= a < Z.of_nat (length b) -> rd (wr a v b) a = v.
Proof. intros. unfold rd, wr. by rewrite list_lookup_insert_eq by lia. Qed.

Lemma rd_wr_ne a c v b : 0 <= a -> 0 <= c -> a ≠ c -> rd (wr a v b) c = rd b c.
Proof. intros. unfold rd, wr. by rewrite list_lookup_insert_ne by lia. Qed.

Lemma length_cpu_to_be32 a w b : length (cpu_to_be32 a w b) = length b.
Proof. unfold cpu_to_be32. by rewrite !length_wr. Qed.

Lemma length_cpu_to_be64 a w b : length (cpu_to_be64 a w b) = length b.
Proof. unfold cpu_to_be64. by rewrite !length_cpu_to_be32. Qed.

Lemma length_memcpy src a b : length (memcpy a src b) = length b.
Proof.
  revert a b; induction src as [|x r IH]; intros a b; [done|].
  simpl. by rewrite IH, length_wr.
Qed.

Lemma length_set_field f v b : length (set_field f v b) = length b.
Proof. apply length_cpu_to_be32. Qed.

Lemma rd_be32_other a w b c :
  0 <= a -> 0 <= c -> (c < a \/ a + 4 <= c) -> rd (cpu_to_be32 a w b) c = rd b c.
Proof. intros. unfold cpu_to_be32. by rewrite !rd_wr_ne by lia. Qed.

Lemma word_of_bytes w :
  u8 (w / 2 ^ 24) * 2 ^ 24 + u8 (w / 2 ^ 16) * 2 ^ 16 + u8 (w / 2 ^ 8) * 2 ^ 8 + u8 w
  = u32 w.
Proof. unfold wrap. Z.div_mod_to_equations. lia. Qed.

Lemma be32_read_same a w b :
  0 <= a -> a + 4 <= Z.of_nat (length b) -> be32_to_cpu (cpu_to_be32 a w b) a = u32 w.
Proof.
  intros Ha Hl. rewrite <- word_of_bytes. unfold be32_to_cpu, cpu_to_be32.
  repeat first [ rewrite rd_wr_eq by (rewrite ?length_wr; lia)
               | rewrite rd_wr_ne by lia ].
  done.
Qed.

Lemma be32_read_other a w b c :
  0 <= a -> 0 <= c -> (c + 4 <= a \/ a + 4 <= c) ->
  be32_to_cpu (cpu_to_be32 a w b) c = be32_to_cpu b c.
Proof. intros. unfold be32_to_cpu. by rewrite !rd_be32_other by lia. Qed.

Lemma be64_read_same a w b :
  0 <= a -> a + 8 <= Z.of_nat (length b) -> be64_to_cpu (cpu_to_be64 a w b) a = u64 w.
Proof.
  intros Ha Hl. unfold be64_to_cpu, cpu_to_be64.
  rewrite be32_read_other, !be32_read_same by (rewrite ?length_cpu_to_be32; lia).
  unfold wrap. Z.div_mod_to_equations. lia.
Qed.

Lemma be64_read_other a w b c :
  0 <= a -> 0 <= c -> (c + 8 <= a \/ a + 4 <= c) ->
  be64_to_cpu (cpu_to_be32 a w b) c = be64_to_cpu b c.
Proof. intros. unfold be64_to_cpu. by rewrite !be32_read_other by lia. Qed.

Lemma be32_write64_other a w b c :
  0 <= a -> 0 <= c -> (c + 4 <= a \/ a + 8 <= c) ->
  be32_to_cpu (cpu_to_be64 a w b) c = be32_to_cpu b c.
Proof. intros. unfold cpu_to_be64. by rewrite !be32_read_other by lia. Qed.

Lemma rd_memcpy_out src a b c :
  0 <= a -> 0 <= c -> (c < a \/ a + Z.of_nat (length src) <= c) ->
  rd (memcpy a src b) c = rd b c.
Proof.
  revert a b; induction src as [|x r IH]; intros a b Ha Hc Ho; [done|].
  simpl in *. rewrite IH by lia. apply rd_wr_ne; lia.
Qed.

Lemma be32_memcpy_out src a b c :
  0 <= a -> 0 <= c -> (c + 4 <= a \/ a + Z.of_nat (length src) <= c) ->
  be32_to_cpu (memcpy a src b) c = be32_to_cpu b c.
Proof. intros. unfold be32_to_cpu. by rewrite !rd_memcpy_out by lia. Qed.

Lemma bytes_at_ext b b' a n :
  (forall i, a <= i < a + Z.of_nat n -> rd b i = rd b' i) ->
  bytes_at b a n = bytes_at b' a n.
Proof.
  revert a; induction n as [|n IH]; intros a H; [done|]. simpl.
  rewrite H by lia. f_equal. apply IH. intros; apply H; lia.
Qed.

Lemma bytes_at_memcpy src a b :
  0 <= a -> a + Z.of_nat (length src) <= Z.of_nat (length b) ->
  bytes_at (memcpy a src b) a (length src) = src.
Proof.
  revert a b; induction src as [|x r IH]; intros a b Ha Hl; [done|].
  cbn [memcpy bytes_at length]. f_equal.
  - rewrite rd_memcpy_out by lia. apply rd_wr_eq. simpl in Hl. lia.
  - apply IH; [lia|]. rewrite length_wr. simpl in Hl. lia.
Qed.

Lemma rd_zeros n a : rd (zeros n) a = 0.
Proof.
  unfold rd, zeros. destruct (replicate _ _ !! _) as [x|] eqn:E; [|done].
  by apply lookup_replicate in E as [-> _].
Qed.

Lemma be32_zeros n a : be32_to_cpu (zeros n) a = 0.
Proof. unfold be32_to_cpu. by rewrite !rd_zeros. Qed.

(** ** Laws of the fields *)

(** The field lies in one dword, as the [BUILD_BUG_ON]s of the macros ask. *)
Definition f_ok (f : field) : bool :=
  (0 <=? f_addr f) && (0 <=? f_sh f) && (0 <=? f_sz f) && (f_sh f + f_sz f <=? 32).

(** The field lies in a buffer of [n] bytes. *)
Definition f_in (f : field) (n : Z) : bool := f_ok f && (f_addr f + 4 <=? n).

(** Two fields share no bit. *)
Definition f_disj (f g : field) : bool :=
  (f_addr f + 4 <=? f_addr g) || (f_addr g + 4 <=? f_addr f)
  || ((f_addr f =? f_addr g)
      && ((f_sh f + f_sz f <=? f_sh g) || (f_sh g + f_sz g <=? f_sh f))).

(** A field lies outside the bytes [a, a + n). *)
Definition f_out (f : field) (a n : Z) : bool :=
  (f_addr f + 4 <=? a) || (a + n <=? f_addr f).

Section bits.
Context (old v sh sz : Z) (Hsh : 0 <= sh) (Hsz : 0 <= sz) (Hw : sh + sz <= 32).

Let new := Z.lor (Z.land old (Z.lnot (Z.shiftl (Z.ones sz) sh)))
                 (Z.shiftl (Z.land v (Z.ones sz)) sh).

Lemma bits_same : Z.land (Z.shiftr (u32 new) sh) (Z.ones sz) = v mod 2 ^ sz.
Proof using Hsh Hsz Hw.
  rewrite <- Z.land_ones by lia. zbits.
  rewrite !Z.land_spec, Z.shiftr_spec by lia.
  destruct (Z.lt_ge_cases n sz) as [Hn|Hn].
  - unfold wrap, new. rewrite Z.mod_pow2_bits_low by lia.
    rewrite Z.lor_spec, Z.land_spec, Z.lnot_spec, !Z.shiftl_spec, Z.land_spec by lia.
    replace (n + sh - sh) with n by lia.
    rewrite Z.ones_spec_low by lia. btauto.
  - rewrite Z.ones_spec_high by lia. by rewrite !andb_false_r.
Qed.

Lemma bits_other sh' sz' :
  0 <= sh' -> 0 <= sz' -> sh' + sz' <= 32 ->
  (sh' + sz' <= sh \/ sh + sz <= sh') ->
  Z.land (Z.shiftr (u32 new) sh') (Z.ones sz')
  = Z.land (Z.shiftr old sh') (Z.ones sz').
Proof using Hsh Hsz Hw.
  intros H1 H2 H3 Hd. zbits.
  rewrite !Z.land_spec, !Z.shiftr_spec by lia.
  destruct (Z.lt_ge_cases n sz') as [Hn|Hn];
    [|rewrite Z.ones_spec_high by lia; by rewrite !andb_false_r].
  unfold wrap, new. rewrite Z.mod_pow2_bits_low by lia.
  rewrite Z.lor_spec, Z.land_spec, Z.lnot_spec, !Z.shiftl_spec, Z.land_spec by lia.
  assert (Z.testbit (Z.ones sz) (n + sh' - sh) = false) as ->.
  { destruct (Z.lt_ge_cases (n + sh') sh);
      [apply Z.testbit_neg_r | apply Z.ones_spec_high]; lia. }
  btauto.
Qed.
End bits.

Lemma get_set_same f v b :
  f_in f (Z.of_nat (length b)) = true ->
  get_field f (set_field f v b) = v mod 2 ^ f_sz f.
Proof.
  unfold f_in, f_ok. intros H. bool_hyps. unfold get_field, set_field.
  rewrite be32_read_same by lia. by apply bits_same.
Qed.

Lemma get_set_other f g v b :
  f_in f (Z.of_nat (length b)) = true -> f_ok g = true -> f_disj f g = true ->
  get_field f (set_field g v b) = get_field f b.
Proof.
  unfold f_in, f_ok, f_disj. intros Hf Hg Hd. bool_hyps. unfold get_field, set_field.
  apply orb_prop in Hd as [Hd|Hd]; [apply orb_prop in Hd as [Hd|Hd]; bool_hyps|].
  1,2: by rewrite be32_read_other by lia.
  bool_hyps. replace (f_addr f) with (f_addr g) in * by lia.
  rewrite be32_read_same by lia. apply bits_other; lia.
Qed.

Lemma get_field_ext f b b' :
  be32_to_cpu b (f_addr f) = be32_to_cpu b' (f_addr f) -> get_field f b = get_field f b'.
Proof. unfold get_field. by intros ->. Qed.

Lemma get_zeros f n : get_field f (zeros n) = 0.
Proof. unfold get_field. by rewrite be32_zeros, Z.shiftr_0_l, Z.land_0_l. Qed.

(** ** Reading a field of an executed statement list *)

Lemma exec_app ws1 ws2 b : exec (ws1 ++ ws2) b = exec ws2 (exec ws1 b).
Proof. revert b; induction ws1; intros; simpl; auto. Qed.

Lemma length_exec1 w b : length (exec1 w b) = length b.
Proof.
  destruct w; simpl;
    auto using length_set_field, length_cpu_to_be64, length_memcpy.
Qed.

Lemma length_exec ws b : length (exec ws b) = length b.
Proof.
  revert b; induction ws as [|w r IH]; intros b; [done|].
  simpl. by rewrite IH, length_exec1.
Qed.

Lemma length_mailbox l ws :
  0 <= ST_SZ_BYTES l -> Z.of_nat (length (mailbox l ws)) = ST_SZ_BYTES l.
Proof. intros. unfold mailbox. rewrite length_exec. by apply length_zeros. Qed.

(** What one statement does to a field: writes a value to it, leaves it alone,
    or clashes with it. *)
Inductive hit := Miss | Val (v : Z) | Clash.

Definition f_eqb (f g : field) : bool :=
  (f_addr f =? f_addr g) && (f_sh f =? f_sh g) && (f_sz f =? f_sz g).

Definition hit1 (f : field) (w : write) : hit :=
  match w with
  | W32 g v => if f_eqb f g then Val v
               else if f_ok g && f_disj f g then Miss else Clash
  | W64 a _ => if (0 <=? a) && f_out f a 8 then Miss else Clash
  | WMem a src => if (0 <=? a) && f_out f a (Z.of_nat (length src)) then Miss else Clash
  end.

(** The last statement of [ws] that touches [f]. *)
Fixpoint seek (f : field) (ws : list write) : hit :=
  match ws with
  | [] => Miss
  | w :: r => match seek f r with Miss => hit1 f w | h => h end
  end.

Lemma f_eqb_eq f g : f_eqb f g = true -> f = g.
Proof. unfold f_eqb. destruct f, g; simpl. intros. bool_hyps. by subst. Qed.

Lemma get_exec1 f w b :
  f_in f (Z.of_nat (length b)) = true ->
  match hit1 f w with
  | Miss => get_field f (exec1 w b) = get_field f b
  | Val v => get_field f (exec1 w b) = v mod 2 ^ f_sz f
  | Clash => True
  end.
Proof.
  intros Hf. pose proof Hf as Hf'. unfold f_in, f_ok in Hf'. bool_hyps.
  destruct w as [g v|a v|a src]; simpl.
  - destruct (f_eqb f g) eqn:E.
    + apply f_eqb_eq in E as <-. by apply get_set_same.
    + case_if; [|done]. bool_hyps. by apply get_set_other.
  - case_if; [|done]. bool_hyps. unfold f_out in *. apply get_field_ext, be32_write64_other; lia.
  - case_if; [|done]. bool_hyps. unfold f_out in *. apply get_field_ext, be32_memcpy_out; lia.
Qed.

Lemma get_exec f ws b :
  f_in f (Z.of_nat (length b)) = true ->
  match seek f ws with
  | Miss => get_field f (exec ws b) = get_field f b
  | Val v => get_field f (exec ws b) = v mod 2 ^ f_sz f
  | Clash => True
  end.
Proof.
  revert b; induction ws as [|w r IH]; intros b Hf; [done|]. simpl.
  specialize (IH (exec1 w b)). rewrite length_exec1 in IH. specialize (IH Hf).
  destruct (seek f r); [|exact IH|done].
  pose proof (get_exec1 f w b Hf) as H1. destruct (hit1 f w); congruence || done.
Qed.

Lemma seek_app f ws1 ws2 :
  seek f (ws1 ++ ws2) = match seek f ws2 with Miss => seek f ws1 | h => h end.
Proof.
  induction ws1 as [|w r IH]; simpl; [by destruct (seek f ws2)|].
  rewrite IH. by destruct (seek f ws2), (seek f r).
Qed.

Lemma seek_only f c ws : seek f (only c ws) = if c then seek f ws else Miss.
Proof. by destruct c. Qed.

(** The value a field of a fresh mailbox has, given what [seek] finds. *)
Definition hit_val (f : field) (h : hit) : Z :=
  match h with Val v => v mod 2 ^ f_sz f | _ => 0 end.

Lemma mailbox_get l ws f :
  f_in f (ST_SZ_BYTES l) = true -> seek f ws ≠ Clash ->
  get_field f (mailbox l ws) = hit_val f (seek f ws).
Proof.
  intros Hf Hc. pose proof Hf as Hf'. unfold f_in, f_ok in Hf'. bool_hyps.
  assert (Hl : f_in f (Z.of_nat (length (zeros (ST_SZ_BYTES l)))) = true).
  { by rewrite length_zeros by lia. }
  pose proof (get_exec f ws _ Hl) as H'. unfold mailbox.
  destruct (seek f ws); simpl; [by rewrite H', get_zeros | done | done].
Qed.

(** The same for a 64-bit access. *)
Definition hit64 (a : Z) (w : write) : hit :=
  match w with
  | W64 c v => if a =? c then Val v
               else if (0 <=? c) && ((a + 8 <=? c) || (c + 8 <=? a)) then Miss else Clash
  | W32 g _ => if (0 <=? f_addr g) && ((a + 8 <=? f_addr g) || (f_addr g + 4 <=? a))
               then Miss else Clash
  | WMem c src => if (0 <=? c) && ((a + 8 <=? c) || (c + Z.of_nat (length src) <=? a))
                  then Miss else Clash
  end.

Fixpoint seek64 (a : Z) (ws : list write) : hit :=
  match ws with
  | [] => Miss
  | w :: r => match seek64 a r with Miss => hit64 a w | h => h end
  end.

Lemma seek64_app a ws1 ws2 :
  seek64 a (ws1 ++ ws2) = match seek64 a ws2 with Miss => seek64 a ws1 | h => h end.
Proof.
  induction ws1 as [|w r IH]; simpl; [by destruct (seek64 a ws2)|].
  rewrite IH. by destruct (seek64 a ws2), (seek64 a r).
Qed.

Lemma seek64_only a c ws : seek64 a (only c ws) = if c then seek64 a ws else Miss.
Proof. by destruct c. Qed.

Lemma be64_memcpy_out src a b c :
  0 <= a -> 0 <= c -> (c + 8 <= a \/ a + Z.of_nat (length src) <= c) ->
  be64_to_cpu (memcpy a src b) c = be64_to_cpu b c.
Proof. intros. unfold be64_to_cpu. by rewrite !be32_memcpy_out by lia. Qed.

Lemma get64_exec a ws b :
  0 <= a -> a + 8 <= Z.of_nat (length b) ->
  match seek64 a ws with
  | Miss => be64_to_cpu (exec ws b) a = be64_to_cpu b a
  | Val v => be64_to_cpu (exec ws b) a = u64 v
  | Clash => True
  end.
Proof.
  intros Ha. revert b; induction ws as [|w r IH]; intros b Hl; [done|]. simpl.
  specialize (IH (exec1 w b)). rewrite length_exec1 in IH. specialize (IH Hl).
  destruct (seek64 a r); [rewrite IH; clear IH|exact IH|done].
  destruct w as [g v|c v|c src]; simpl; repeat case_if; try done.
  - unfold set_field. apply be64_read_other; lia.
  - bool_hyps. subst c. by apply be64_read_same.
  - unfold cpu_to_be64. by rewrite !be64_read_other by lia.
  - apply be64_memcpy_out; lia.
Qed.

Lemma mailbox_get64 l ws a :
  0 <= a -> a + 8 <= ST_SZ_BYTES l -> seek64 a ws ≠ Clash ->
  be64_to_cpu (mailbox l ws) a = match seek64 a ws with Val v => u64 v | _ => 0 end.
Proof.
  intros Ha Hl Hc. assert (a + 8 <= Z.of_nat (length (zeros (ST_SZ_BYTES l)))) as Hl'.
  { rewrite length_zeros by lia. lia. }
  pose proof (get64_exec a ws _ Ha Hl') as H'. unfold mailbox.
  destruct (seek64 a ws); [|done|done]. rewrite H'. unfold be64_to_cpu.
  by rewrite !be32_zeros.
Qed.

(** ** Tactics for fields of mailboxes

    [mbox] proves [DEVX_GET l p path (mailbox m ws) = v]: the field is resolved
    by computation, the conditional blocks of [ws] are split, and the last
    statement that touches the field is looked up. *)

Lemma hit_val_ok (f : field) (h : hit) (v : Z) :
  match h with Miss => v = 0 | Val x => v = x mod 2 ^ f_sz f | Clash => False end ->
  h ≠ Clash /\ hit_val f h = v.
Proof. by destruct h; simpl; intros; subst. Qed.

Lemma mailbox_DEVX_GET m ws l p path v :
  f_in (fld l p path) (ST_SZ_BYTES m) = true ->
  match seek (fld l p path) ws with
  | Miss => v = 0
  | Val x => v = x mod 2 ^ f_sz (fld l p path)
  | Clash => False
  end ->
  DEVX_GET l p path (mailbox m ws) = v.
Proof.
  intros Hf Hs. apply hit_val_ok in Hs as [? <-]. by apply mailbox_get.
Qed.

Lemma mailbox_DEVX_GET64 m ws l p path v :
  0 <= fld64 l p path -> fld64 l p path + 8 <= ST_SZ_BYTES m ->
  bit_off l path mod 64 = 0 ->
  match seek64 (fld64 l p path) ws with
  | Miss => v = 0
  | Val x => v = u64 x
  | Clash => False
  end ->
  DEVX_GET64 l p path (mailbox m ws) = v.
Proof.
  intros H1 H2 H3 Hs. unfold DEVX_GET64. rewrite H3. simpl.
  rewrite mailbox_get64 by (try done; by destruct (seek64 _ _)).
  by destruct (seek64 _ _).
Qed.

Ltac norm_fld :=
  repeat match goal with
    | |- context [fld ?l ?p ?q] =>
        let r := eval vm_compute in (fld l p q) in
        change (fld l p q) with r
    | |- context [fld64 ?l ?p ?q] =>
        let r := eval vm_compute in (fld64 l p q) in
        change (fld64 l p q) with r
    end.

Ltac mbox_seek :=
  norm_fld;
  rewrite ?seek_app, ?seek_only, ?seek64_app, ?seek64_only;
  cbv [seek hit1 seek64 hit64 f_eqb f_disj f_ok f_out f_addr f_sh f_sz
       Z.add Z.mul Z.eqb Z.leb Z.compare andb orb Z.pow Z.pow_pos Pos.iter
       Pos.mul Pos.add Pos.succ Pos.compare Pos.compare_cont Pos.eqb Z.of_nat length].

Ltac mbox :=
  match goal with
  | |- DEVX_GET _ _ _ (mailbox _ _) = _ =>
      apply mailbox_DEVX_GET; [vm_compute; reflexivity | unfold DEVX_SET, DEVX_SET64; mbox_seek]
  | |- DEVX_GET64 _ _ _ (mailbox _ _) = _ =>
      apply mailbox_DEVX_GET64; [by vm_compute | by vm_compute | by vm_compute |
                                 unfold DEVX_SET, DEVX_SET64; mbox_seek]
  end.

(** ** Members of a layout do not overlap *)

Fixpoint wf_layout (l : layout) : bool :=
  match l with
  | LBits n => 0 <=? n
  | LStruct fs | LUnion fs =>
      (fix all (fs : list (string * layout)) : bool :=
         match fs with [] => true | (_, t) :: r => wf_layout t && all r end) fs
  | LArr n e => (0 <=? n) && wf_layout e
  end.

(** Every array index of the designator is in range. *)
Fixpoint path_in (l : layout) (p : list step) : bool :=
  match p with
  | [] => true
  | F name :: r =>
      match l with
      | LStruct fs => match find_member 0 fs name with Some (_, t) => path_in t r | None => false end
      | LUnion fs => match find_alt fs name with Some t => path_in t r | None => false end
      | _ => false
      end
  | I i :: r =>
      match l with LArr n e => (0 <=? i) && (i <? n) && path_in e r | _ => false end
  end.

(** Two designators part at a member of a structure or at an array index. *)
Fixpoint diverge (l : layout) (p q : list step) : bool :=
  match p, q with
  | F a :: p', F b :: q' =>
      match l with
      | LStruct fs =>
          if String.eqb a b
          then match find_member 0 fs a with Some (_, t) => diverge t p' q' | None => false end
          else true
      | LUnion fs =>
          if String.eqb a b
          then match find_alt fs a with Some t => diverge t p' q' | None => false end
          else false
      | _ => false
      end
  | I i :: p', I j :: q' =>
      match l with LArr _ e => if i =? j then diverge e p' q' else true | _ => false end
  | _, _ => false
  end.

Lemma size_of_nonneg : forall l, wf_layout l = true -> 0 <= size_of l.
Proof.
  fix IH 1. intros [n|fs|fs|n e] H; simpl in *.
  - lia.
  - induction fs as [|[s t] r IHr]; [lia|]. bool_hyps.
    pose proof (IH t ltac:(assumption)). specialize (IHr ltac:(assumption)). lia.
  - induction fs as [|[s t] r IHr]; [lia|]. bool_hyps.
    pose proof (IH t ltac:(assumption)). specialize (IHr ltac:(assumption)). lia.
  - bool_hyps. pose proof (IH e ltac:(assumption)). nia.
Qed.

Definition fields_size (fs : list (string * layout)) : Z := size_of (LStruct fs).
Definition wf_fields (fs : list (string * layout)) : bool := wf_layout (LStruct fs).

Lemma find_member_in fs off name o t :
  wf_fields fs = true -> find_member off fs name = Some (o, t) ->
  wf_layout t = true /\ off <= o /\ o + size_of t <= off + fields_size fs.
Proof.
  unfold wf_fields, fields_size. revert off.
  induction fs as [|[s x] r IH]; intros off Hw Hf; simpl in *; [done|].
  bool_hyps. pose proof (size_of_nonneg x ltac:(assumption)).
  pose proof (size_of_nonneg (LStruct r) ltac:(assumption)) as Hr. simpl in Hr.
  destruct (String.eqb s name); [simplify_eq; split_and!; lia || done|].
  specialize (IH _ ltac:(assumption) Hf). destruct IH as (? & ? & ?). split_and!; lia || done.
Qed.

Lemma find_member_disjoint fs off a b oa ta ob tb :
  wf_fields fs = true -> a ≠ b ->
  find_member off fs a = Some (oa, ta) -> find_member off fs b = Some (ob, tb) ->
  oa + size_of ta <= ob \/ ob + size_of tb <= oa.
Proof.
  revert off. induction fs as [|[s x] r IH]; intros off Hw Hn Ha Hb; simpl in *; [done|].
  unfold wf_fields in *. simpl in Hw. bool_hyps.
  destruct (String.eqb_spec s a) as [Ea|], (String.eqb_spec s b) as [Eb|]; simplify_eq.
  - apply find_member_in in Hb as (? & ? & ?); [lia|done].
  - apply find_member_in in Ha as (? & ? & ?); [lia|done].
  - eauto.
Qed.

Lemma find_alt_in fs name t :
  wf_fields fs = true -> find_alt fs name = Some t ->
  wf_layout t = true /\ size_of t <= size_of (LUnion fs).
Proof.
  unfold wf_fields. induction fs as [|[s x] r IH]; intros Hw Hf; simpl in *; [done|].
  bool_hyps. destruct (String.eqb s name); [simplify_eq; split; lia || done|].
  destruct (IH ltac:(assumption) Hf). simpl in *. split; lia || done.
Qed.

Lemma resolve_in p : forall l o s,
  wf_layout l = true -> path_in l p = true -> resolve l p = Some (o, s) ->
  0 <= o /\ 0 <= s /\ o + s <= size_of l.
Proof.
  induction p as [|st r IH]; intros l o s Hw Hp Hr.
  { simpl in Hr. simplify_eq. pose proof (size_of_nonneg l Hw). lia. }
  destruct st as [name|i], l as [n|fs|fs|n e]; simpl in Hp, Hr; try discriminate.
  - destruct (find_member 0 fs name) as [[off t]|] eqn:Hm; [|done].
    destruct (resolve t r) as [[o' s']|] eqn:Hr'; [|done]. simplify_eq.
    apply find_member_in in Hm as (Ht & ? & Hb); [|done].
    specialize (IH _ _ _ Ht Hp Hr'). change (fields_size fs) with (size_of (LStruct fs)) in Hb. lia.
  - destruct (find_alt fs name) as [t|] eqn:Hm; [|done].
    apply find_alt_in in Hm as (Ht & Hb); [|done].
    specialize (IH _ _ _ Ht Hp Hr). lia.
  - destruct (resolve e r) as [[o' s']|] eqn:Hr'; [|done]. simplify_eq.
    simpl in Hw. bool_hyps. specialize (IH _ _ _ ltac:(eassumption) ltac:(eassumption) Hr').
    simpl. nia.
Qed.

Lemma resolve_disjoint p : forall l q o s o' s',
  wf_layout l = true -> path_in l p = true -> path_in l q = true ->
  resolve l p = Some (o, s) -> resolve l q = Some (o', s') ->
  diverge l p q = true -> o + s <= o' \/ o' + s' <= o.
Proof.
  induction p as [|st r IH]; intros l q o s o' s' Hw Hp Hq Hr Hr' Hd; [done|].
  destruct q as [|st' r']; [by destruct st|].
  destruct st as [a|i], st' as [b|j], l as [n|fs|fs|n e]; simpl in Hd, Hp, Hq, Hr, Hr';
    try discriminate.
  - destruct (find_member 0 fs a) as [[oa ta]|] eqn:Ha; [|done].
    destruct (resolve ta r) as [[o1 s1]|] eqn:Hr1; [|done].
    destruct (find_member 0 fs b) as [[ob tb]|] eqn:Hb; [|done].
    destruct (resolve tb r') as [[o2 s2]|] eqn:Hr2; [|done]. simplify_eq.
    pose proof (find_member_in _ _ _ _ _ Hw Ha) as (Hta & ? & ?).
    pose proof (find_member_in _ _ _ _ _ Hw Hb) as (Htb & ? & ?).
    destruct (String.eqb_spec a b) as [->|Hne].
    + simplify_eq. specialize (IH _ _ _ _ _ _ Hta Hp Hq Hr1 Hr2 Hd). lia.
    + pose proof (resolve_in _ _ _ _ Hta Hp Hr1). pose proof (resolve_in _ _ _ _ Htb Hq Hr2).
      pose proof (find_member_disjoint _ _ _ _ _ _ _ _ Hw Hne Ha Hb). lia.
  - destruct (String.eqb_spec a b) as [->|Hne]; [|done].
    destruct (find_alt fs b) as [t|] eqn:Hm; [|done].
    apply find_alt_in in Hm as (Ht & _); [|done]. by eapply IH.
  - destruct (resolve e r) as [[o1 s1]|] eqn:Hr1; [|done].
    destruct (resolve e r') as [[o2 s2]|] eqn:Hr2; [|done]. simplify_eq.
    simpl in Hw. bool_hyps.
    destruct (Z.eqb_spec i j) as [->|Hne].
    + assert (o1 + s <= o2 \/ o2 + s' <= o1) by (eapply IH; eassumption). lia.
    + pose proof (resolve_in r _ _ _ ltac:(eassumption) ltac:(eassumption) Hr1).
      pose proof (resolve_in r' _ _ _ ltac:(eassumption) ltac:(eassumption) Hr2).
      destruct (Z.lt_trichotomy i j) as [|[|]]; nia.
Qed.

(** ** The access theorems, in terms of layouts *)

(** A designator that the 32-bit macros accept: it names a member, its indices
    are in range and the member does not straddle a dword. *)
Definition dw_member (l : layout) (path : list step) : bool :=
  path_in l path
  && match resolve l path with
     | Some (o, s) => o mod 32 + s <=? 32
     | None => false
     end.

Lemma land_31 o : Z.land o 31 = o mod 32.
Proof. change 31 with (Z.ones 5). by rewrite Z.land_ones by lia. Qed.

Lemma dw_member_in l p path n :
  wf_layout l = true -> size_of l mod 32 = 0 -> dw_member l path = true ->
  0 < bit_sz l path -> 0 <= p -> p + ST_SZ_BYTES l <= n ->
  f_in (fld l p path) n = true.
Proof.
  unfold dw_member, f_in, f_ok, fld, bit_off, bit_sz, ST_SZ_BYTES.
  intros Hw Hsz Hm Hs Hp Hn. bool_hyps.
  destruct (resolve l path) as [[o s]|] eqn:E; [|done]. bool_hyps.
  pose proof (resolve_in path _ _ _ Hw ltac:(eassumption) E). simpl. rewrite land_31.
  rewrite !andb_true_iff, !Z.leb_le. Z.div_mod_to_equations. lia.
Qed.

Lemma dw_member_disj l p a b :
  wf_layout l = true -> dw_member l a = true -> dw_member l b = true ->
  diverge l a b = true -> f_disj (fld l p a) (fld l p b) = true.
Proof.
  unfold dw_member, f_disj, fld, bit_off, bit_sz. intros Hw Ha Hb Hd. bool_hyps.
  destruct (resolve l a) as [[o s]|] eqn:E; [|done].
  destruct (resolve l b) as [[o' s']|] eqn:E'; [|done]. bool_hyps.
  pose proof (resolve_disjoint a l b _ _ _ _ Hw ltac:(eassumption) ltac:(eassumption) E E' Hd).
  pose proof (resolve_in a _ _ _ Hw ltac:(eassumption) E).
  pose proof (resolve_in b _ _ _ Hw ltac:(eassumption) E').
  simpl. rewrite !land_31, !orb_true_iff, andb_true_iff, orb_true_iff, !Z.leb_le, Z.eqb_eq.
  Z.div_mod_to_equations. lia.
Qed.

(** C11. Reading a member back after writing it gives the value truncated to the
    member's width, for every member of every layout that the 32-bit macros
    accept, at every pointer whose structure lies in the buffer. *)
Theorem devx_get_set l p path v b :
  wf_layout l = true -> size_of l mod 32 = 0 ->
  dw_member l path = true -> 0 < bit_sz l path ->
  0 <= p -> p + ST_SZ_BYTES l <= Z.of_nat (length b) ->
  DEVX_GET l p path (exec1 (DEVX_SET l p path v) b) = wrap (bit_sz l path) v.
Proof.
  intros Hw Hsz Hm Hs Hp Hn. apply get_set_same. by apply dw_member_in.
Qed.

(** C12. Writing a member leaves every other member of the structure unchanged:
    two designators that part at a structure member or at an array index never
    interfere, whatever value is written. *)
Theorem devx_set_frame l p a c v b :
  wf_layout l = true -> size_of l mod 32 = 0 ->
  dw_member l a = true -> dw_member l c = true ->
  0 < bit_sz l a -> 0 < bit_sz l c -> diverge l c a = true ->
  0 <= p -> p + ST_SZ_BYTES l <= Z.of_nat (length b) ->
  DEVX_GET l p c (exec1 (DEVX_SET l p a v) b) = DEVX_GET l p c b.
Proof.
  intros Hw Hsz Ha Hc Hsa Hsc Hd Hp Hn. apply get_set_other.
  - by apply dw_member_in.
  - pose proof (dw_member_in l p a _ Hw Hsz Ha Hsa Hp Hn) as H.
    unfold f_in in H. by bool_hyps.
  - by apply dw_member_disj.
Qed.

(** The 64-bit accesses round-trip too, and a 64-bit write does not change a
    32-bit member outside its eight bytes. *)
Theorem devx_get_set64 l p path v b :
  0 <= fld64 l p path -> fld64 l p path + 8 <= Z.of_nat (length b) ->
  bit_off l path mod 64 = 0 ->
  DEVX_GET64 l p path (exec1 (DEVX_SET64 l p path v) b) = u64 v
  /\ (forall f, f_in f (Z.of_nat (length b)) = true ->
        f_out f (fld64 l p path) 8 = true ->
        get_field f (exec1 (DEVX_SET64 l p path v) b) = get_field f b).
Proof.
  intros Ha Hl Hm. split.
  - unfold DEVX_GET64. rewrite Hm. by apply be64_read_same.
  - intros f Hf Ho. pose proof (get_exec1 f (DEVX_SET64 l p path v) b Hf) as H.
    simpl in H. rewrite Ho in H. replace (0 <=? fld64 l p path) with true in H by lia. done.
Qed.
