(* ===== verification/Prm.v ===== *)
(** * The PRM structures and constants of [src/src/dcmd/prm.h] that the
    commands use

    [ifc.x] is [struct mlx5_ifc_x_bits], member for member, and the constants
    are the enumerators of the same names. *)

From S2P Require Import Prelude Codec.
Open Scope string_scope.
Open Scope list_scope.
Open Scope Z_scope.

Module ifc.

Definition status_out : layout :=
  LStruct [
    ("status", LBits 0x8); ("reserved_at_8", LBits 0x18); ("syndrome", LBits 0x20);
    ("reserved_at_40", LBits 0x8); ("id", LBits 0x18) ].

Definition mkc : layout :=
  LStruct [
    ("reserved_at_0", LBits 0x1); ("free", LBits 0x1); ("reserved_at_2", LBits 0x1);
    ("access_mode_4_2", LBits 0x3); ("reserved_at_6", LBits 0x7);
    ("relaxed_ordering_write", LBits 0x1); ("reserved_at_e", LBits 0x1);
    ("small_fence_on_rdma_read_response", LBits 0x1); ("umr_en", LBits 0x1); ("a", LBits 0x1);
    ("rw", LBits 0x1); ("rr", LBits 0x1); ("lw", LBits 0x1); ("lr", LBits 0x1);
    ("access_mode_1_0", LBits 0x2); ("reserved_at_18", LBits 0x8); ("qpn", LBits 0x18);
    ("mkey_7_0", LBits 0x8); ("reserved_at_40", LBits 0x20); ("length64", LBits 0x1);
    ("bsf_en", LBits 0x1); ("sync_umr", LBits 0x1); ("reserved_at_63", LBits 0x2);
    ("expected_sigerr_count", LBits 0x1); ("reserved_at_66", LBits 0x1);
    ("en_rinval", LBits 0x1); ("pd", LBits 0x18); ("start_addr", LBits 0x40);
    ("len", LBits 0x40); ("bsf_octword_size", LBits 0x20); ("reserved_at_120", LBits 0x80);
    ("translations_octword_size", LBits 0x20); ("reserved_at_1c0", LBits 0x1b);
    ("log_entity_size", LBits 0x5); ("reserved_at_1e0", LBits 0x3); ("crypto_en", LBits 0x2);
    ("reserved_at_1e5", LBits 0x1b) ].

Definition create_mkey_in : layout :=
  LStruct [
    ("opcode", LBits 0x10); ("uid", LBits 0x10); ("reserved_at_20", LBits 0x10);
    ("op_mod", LBits 0x10); ("reserved_at_40", LBits 0x20); ("pg_access", LBits 0x1);
    ("mkey_umem_valid", LBits 0x1); ("cmd_on_behalf", LBits 0x1); ("reserved_at_63", LBits 0xd);
    ("function_id", LBits 0x10); ("memory_key_mkey_entry", mkc);
    ("reserved_at_280", LBits 0x80); ("translations_octword_actual_size", LBits 0x20);
    ("mkey_umem_id", LBits 0x20); ("mkey_umem_offset", LBits 0x40);
    ("reserved_at_380", LBits 0x10); ("bsf_octword_actual_size", LBits 0x10);
    ("reserved_at_3a0", LBits 0x4e0); ("klm_pas_mtt_bsf", LArr 0 (LBits 0x20)) ].

Definition create_mkey_out : layout :=
  LStruct [
    ("status", LBits 0x8); ("reserved_at_8", LBits 0x18); ("syndrome", LBits 0x20);
    ("reserved_at_40", LBits 0x8); ("mkey_index", LBits 0x18); ("reserved_at_60", LBits 0x20) ].

Definition cqc : layout :=
  LStruct [
    ("status", LBits 0x4); ("reserved_at_4", LBits 0x4); ("cqe_sz", LBits 0x3);
    ("cc", LBits 0x1); ("reserved_at_c", LBits 0x1); ("scqe_break_moderation_en", LBits 0x1);
    ("oi", LBits 0x1); ("cq_period_mode", LBits 0x2); ("cqe_compression_en", LBits 0x1);
    ("mini_cqe_res_format", LBits 0x2); ("st", LBits 0x4); ("reserved_at_18", LBits 0x8);
    ("dbr_umem_id", LBits 0x20); ("reserved_at_40", LBits 0x14); ("page_offset", LBits 0x6);
    ("reserved_at_5a", LBits 0x6); ("reserved_at_60", LBits 0x3); ("log_cq_size", LBits 0x5);
    ("uar_page", LBits 0x18); ("reserved_at_80", LBits 0x4); ("cq_period", LBits 0xc);
    ("cq_max_count", LBits 0x10); ("reserved_at_a0", LBits 0x18); ("c_eqn", LBits 0x8);
    ("reserved_at_c0", LBits 0x3); ("log_page_size", LBits 0x5); ("reserved_at_c8", LBits 0x18);
    ("reserved_at_e0", LBits 0x20); ("reserved_at_100", LBits 0x8);
    ("last_notified_index", LBits 0x18); ("reserved_at_120", LBits 0x8);
    ("last_solicit_index", LBits 0x18); ("reserved_at_140", LBits 0x8);
    ("consumer_counter", LBits 0x18); ("reserved_at_160", LBits 0x8);
    ("producer_counter", LBits 0x18); ("reserved_at_180", LBits 0x40); ("dbr_addr", LBits 0x40) ].

Definition create_cq_in : layout :=
  LStruct [
    ("opcode", LBits 0x10); ("uid", LBits 0x10); ("reserved_at_20", LBits 0x10);
    ("op_mod", LBits 0x10); ("reserved_at_40", LBits 0x40); ("cq_context", cqc);
    ("e_mtt_pointer_or_cq_umem_offset", LBits 0x40); ("cq_umem_id", LBits 0x20);
    ("reserved_at_2e0", LBits 0x5a0); ("pas", LArr 0 (LBits 0x40)) ].

Definition create_cq_out : layout :=
  LStruct [
    ("status", LBits 0x8); ("reserved_at_8", LBits 0x18); ("syndrome", LBits 0x20);
    ("reserved_at_40", LBits 0x8); ("cqn", LBits 0x18); ("reserved_at_60", LBits 0x20) ].

Definition cmd_pas : layout :=
  LStruct [
    ("pa_h", LBits 0x20); ("pa_l", LBits 0x14); ("reserved_at_34", LBits 0xc) ].

Definition wq : layout :=
  LStruct [
    ("wq_type", LBits 0x4); ("wq_signature", LBits 0x1); ("end_padding_mode", LBits 0x2);
    ("cd_slave", LBits 0x1); ("reserved_at_8", LBits 0x18); ("hds_skip_first_sge", LBits 0x1);
    ("log2_hds_buf_size", LBits 0x3); ("reserved_at_24", LBits 0x7); ("page_offset", LBits 0x5);
    ("lwm", LBits 0x10); ("reserved_at_40", LBits 0x8); ("pd", LBits 0x18);
    ("reserved_at_60", LBits 0x8); ("uar_page", LBits 0x18); ("dbr_addr", LBits 0x40);
    ("hw_counter", LBits 0x20); ("sw_counter", LBits 0x20); ("reserved_at_100", LBits 0xc);
    ("log_wq_stride", LBits 0x4); ("reserved_at_110", LBits 0x3); ("log_wq_pg_sz", LBits 0x5);
    ("reserved_at_118", LBits 0x3); ("log_wq_sz", LBits 0x5); ("dbr_umem_valid", LBits 0x1);
    ("wq_umem_valid", LBits 0x1); ("reserved_at_122", LBits 0x1);
    ("log_hairpin_num_packets", LBits 0x5); ("reserved_at_128", LBits 0x3);
    ("log_hairpin_data_sz", LBits 0x5); ("reserved_at_130", LBits 0x4);
    ("single_wqe_log_num_of_strides", LBits 0x4); ("two_byte_shift_en", LBits 0x1);
    ("reserved_at_139", LBits 0x4); ("single_stride_log_num_of_bytes", LBits 0x3);
    ("dbr_umem_id", LBits 0x20); ("wq_umem_id", LBits 0x20); ("wq_umem_offset", LBits 0x40);
    ("reserved_at_1c0", LBits 0x440); ("pas", LArr 0 (cmd_pas)) ].

Definition rqc : layout :=
  LStruct [
    ("rlkey", LBits 0x1); ("delay_drop_en", LBits 0x1); ("scatter_fcs", LBits 0x1);
    ("vlan_strip_disable", LBits 0x1); ("mem_rq_type", LBits 0x4); ("state", LBits 0x4);
    ("reserved_at_c", LBits 0x1); ("flush_in_error_en", LBits 0x1); ("hairpin", LBits 0x1);
    ("reserved_at_f", LBits 0xb); ("ts_format", LBits 0x2); ("resered_at_t", LBits 0x4);
    ("reserved_at_20", LBits 0x8); ("user_index", LBits 0x18); ("reserved_at_40", LBits 0x8);
    ("cqn", LBits 0x18); ("counter_set_id", LBits 0x8); ("reserved_at_68", LBits 0x18);
    ("reserved_at_80", LBits 0x8); ("rmpn", LBits 0x18); ("ibq_wire_protocol", LBits 0x8);
    ("hairpin_peer_sq", LBits 0x18); ("ibq_segment_size", LBits 0x10);
    ("hairpin_peer_vhca", LBits 0x10); ("ibq_mkey", LBits 0x20);
    ("reserved_at_100", LBits 0x10); ("ibq_scatter_offset", LBits 0x8);
    ("reserved_at_118", LBits 0x3); ("log_ibq_buffer_size", LBits 0x5);
    ("reserved_at_120", LBits 0x60); ("wq", wq) ].

Definition create_rq_in : layout :=
  LStruct [
    ("opcode", LBits 0x10); ("uid", LBits 0x10); ("reserved_at_20", LBits 0x10);
    ("op_mod", LBits 0x10); ("reserved_at_40", LBits 0xc0); ("ctx", rqc) ].

Definition create_rq_out : layout :=
  LStruct [
    ("status", LBits 0x8); ("reserved_at_8", LBits 0x18); ("syndrome", LBits 0x20);
    ("reserved_at_40", LBits 0x8); ("rqn", LBits 0x18); ("reserved_at_60", LBits 0x20) ].

Definition modify_rq_in : layout :=
  LStruct [
    ("opcode", LBits 0x10); ("uid", LBits 0x10); ("reserved_at_20", LBits 0x10);
    ("op_mod", LBits 0x10); ("rq_state", LBits 0x4); ("reserved_at_44", LBits 0x4);
    ("rqn", LBits 0x18); ("reserved_at_60", LBits 0x20); ("modify_bitmask", LBits 0x40);
    ("reserved_at_c0", LBits 0x40); ("ctx", rqc) ].

Definition modify_rq_out : layout :=
  LStruct [
    ("status", LBits 0x8); ("reserved_at_8", LBits 0x18); ("syndrome", LBits 0x20);
    ("reserved_at_40", LBits 0x40) ].

Definition query_rq_in : layout :=
  LStruct [
    ("opcode", LBits 0x10); ("uid", LBits 0x10); ("reserved_at_20", LBits 0x10);
    ("op_mod", LBits 0x10); ("reserved_at_40", LBits 0x8); ("rqn", LBits 0x18);
    ("reserved_at_60", LBits 0x20) ].

Definition query_rq_out : layout :=
  LStruct [
    ("status", LBits 0x8); ("reserved_at_8", LBits 0x18); ("syndrome", LBits 0x20);
    ("reserved_at_40", LBits 0xc0); ("rq_context", rqc) ].

Definition sqc : layout :=
  LStruct [
    ("rlkey", LBits 0x1); ("cd_master", LBits 0x1); ("fre", LBits 0x1);
    ("flush_in_error_en", LBits 0x1); ("allow_multi_pkt_send_wqe", LBits 0x1);
    ("min_wqe_inline_mode", LBits 0x3); ("state", LBits 0x4); ("reg_umr", LBits 0x1);
    ("allow_swp", LBits 0x1); ("hairpin", LBits 0x1); ("reserved_at_f", LBits 0xb);
    ("ts_format", LBits 0x2); ("hairpin_offload_type", LBits 0x4);
    ("reserved_at_20", LBits 0x8); ("user_index", LBits 0x18); ("reserved_at_40", LBits 0x8);
    ("cqn", LBits 0x18); ("reserved_at_60", LBits 0x8); ("hairpin_peer_rq", LBits 0x18);
    ("reserved_at_80", LBits 0x10); ("hairpin_peer_vhca", LBits 0x10);
    ("reserved_at_a0", LBits 0x50); ("packet_pacing_rate_limit_index", LBits 0x10);
    ("tis_lst_sz", LBits 0x10); ("reserved_at_110", LBits 0x10);
    ("reserved_at_120", LBits 0x40); ("reserved_at_160", LBits 0x8); ("tis_num_0", LBits 0x18);
    ("wq", wq) ].

Definition create_sq_in : layout :=
  LStruct [
    ("opcode", LBits 0x10); ("uid", LBits 0x10); ("reserved_at_20", LBits 0x10);
    ("op_mod", LBits 0x10); ("reserved_at_40", LBits 0xc0); ("ctx", sqc) ].

Definition create_sq_out : layout :=
  LStruct [
    ("status", LBits 0x8); ("reserved_at_8", LBits 0x18); ("syndrome", LBits 0x20);
    ("reserved_at_40", LBits 0x8); ("sqn", LBits 0x18); ("reserved_at_60", LBits 0x20) ].

Definition modify_sq_in : layout :=
  LStruct [
    ("opcode", LBits 0x10); ("uid", LBits 0x10); ("reserved_at_20", LBits 0x10);
    ("op_mod", LBits 0x10); ("sq_state", LBits 0x4); ("reserved_at_44", LBits 0x4);
    ("sqn", LBits 0x18); ("reserved_at_60", LBits 0x20); ("modify_bitmask", LBits 0x40);
    ("reserved_at_c0", LBits 0x40); ("ctx", sqc) ].

Definition modify_sq_out : layout :=
  LStruct [
    ("status", LBits 0x8); ("reserved_at_8", LBits 0x18); ("syndrome", LBits 0x20);
    ("reserved_at_40", LBits 0x40) ].

Definition query_sq_in : layout :=
  LStruct [
    ("opcode", LBits 0x10); ("uid", LBits 0x10); ("reserved_at_20", LBits 0x10);
    ("op_mod", LBits 0x10); ("reserved_at_40", LBits 0x8); ("sqn", LBits 0x18);
    ("reserved_at_60", LBits 0x20) ].

Definition query_sq_out : layout :=
  LStruct [
    ("status", LBits 0x8); ("reserved_at_8", LBits 0x18); ("syndrome", LBits 0x20);
    ("reserved_at_40", LBits 0xc0); ("sq_context", sqc) ].

Definition rx_hash_field_select : layout :=
  LStruct [
    ("l3_prot_type", LBits 0x1); ("l4_prot_type", LBits 0x1); ("selected_fields", LBits 0x1e) ].

Definition tirc : layout :=
  LStruct [
    ("reserved_at_0", LBits 0x20); ("disp_type", LBits 0x4); ("tls_en", LBits 0x1);
    ("nvmeotcp_zerocopy_en", LBits 0x1); ("nvmeotcp_crc_en", LBits 0x1);
    ("reserved_at_27", LBits 0x19); ("reserved_at_40", LBits 0x40);
    ("reserved_at_80", LBits 0x4); ("lro_timeout_period_usecs", LBits 0x10);
    ("lro_enable_mask", LBits 0x4); ("lro_max_ip_payload_size", LBits 0x8);
    ("reserved_at_a0", LBits 0x40); ("reserved_at_e0", LBits 0x8); ("inline_rqn", LBits 0x18);
    ("rx_hash_symmetric", LBits 0x1); ("reserved_at_101", LBits 0x1);
    ("tunneled_offload_en", LBits 0x1); ("reserved_at_103", LBits 0x5);
    ("indirect_table", LBits 0x18); ("rx_hash_fn", LBits 0x4); ("reserved_at_124", LBits 0x2);
    ("self_lb_block", LBits 0x2); ("transport_domain", LBits 0x18);
    ("rx_hash_toeplitz_key", LArr 10 (LBits 0x20));
    ("rx_hash_field_selector_outer", rx_hash_field_select);
    ("rx_hash_field_selector_inner", rx_hash_field_select);
    ("nvmeotcp_tag_buffer_table_id", LBits 0x20); ("reserved_at_2e0", LBits 0x4a0) ].

Definition create_tir_in : layout :=
  LStruct [
    ("opcode", LBits 0x10); ("uid", LBits 0x10); ("reserved_at_20", LBits 0x10);
    ("op_mod", LBits 0x10); ("reserved_at_40", LBits 0xc0); ("tir_context", tirc) ].

Definition create_tir_out : layout :=
  LStruct [
    ("status", LBits 0x8); ("reserved_at_8", LBits 0x18); ("syndrome", LBits 0x20);
    ("reserved_at_40", LBits 0x8); ("tirn", LBits 0x18); ("reserved_at_60", LBits 0x20) ].

Definition modify_tir_bitmask : layout :=
  LStruct [
    ("reserved_at_0", LBits 0x20); ("reserved_at_20", LBits 0x1b); ("self_lb_en", LBits 0x1);
    ("reserved_at_3c", LBits 0x1); ("hash", LBits 0x1); ("reserved_at_3e", LBits 0x1);
    ("lro", LBits 0x1) ].

Definition modify_tir_in : layout :=
  LStruct [
    ("opcode", LBits 0x10); ("uid", LBits 0x10); ("reserved_at_20", LBits 0x10);
    ("op_mod", LBits 0x10); ("reserved_at_40", LBits 0x8); ("tirn", LBits 0x18);
    ("reserved_at_60", LBits 0x20); ("bitmask", modify_tir_bitmask);
    ("reserved_at_c0", LBits 0x40); ("tir_context", tirc) ].

Definition modify_tir_out : layout :=
  LStruct [
    ("status", LBits 0x8); ("reserved_at_8", LBits 0x18); ("syndrome", LBits 0x20);
    ("reserved_at_40", LBits 0x40) ].

Definition query_tir_in : layout :=
  LStruct [
    ("opcode", LBits 0x10); ("uid", LBits 0x10); ("reserved_at_20", LBits 0x10);
    ("op_mod", LBits 0x10); ("reserved_at_40", LBits 0x8); ("tirn", LBits 0x18);
    ("reserved_at_60", LBits 0x20) ].

Definition query_tir_out : layout :=
  LStruct [
    ("status", LBits 0x8); ("reserved_at_8", LBits 0x18); ("syndrome", LBits 0x20);
    ("reserved_at_40", LBits 0xc0); ("tir_context", tirc) ].

Definition tisc : layout :=
  LStruct [
    ("strict_lag_tx_port_affinity", LBits 0x1); ("tls_en", LBits 0x1);
    ("nvmeotcp_en", LBits 0x1); ("reserved_at_3", LBits 0x1);
    ("lag_tx_port_affinity", LBits 0x04); ("reserved_at_8", LBits 0x4); ("prio", LBits 0x4);
    ("reserved_at_10", LBits 0x10); ("reserved_at_20", LBits 0x100);
    ("reserved_at_120", LBits 0x8); ("transport_domain", LBits 0x18);
    ("reserved_at_140", LBits 0x8); ("underlay_qpn", LBits 0x18);
    ("reserved_at_160", LBits 0x8); ("pd", LBits 0x18); ("reserved_at_180", LBits 0x380) ].

Definition create_tis_in : layout :=
  LStruct [
    ("opcode", LBits 0x10); ("uid", LBits 0x10); ("reserved_at_20", LBits 0x10);
    ("op_mod", LBits 0x10); ("reserved_at_40", LBits 0xc0); ("ctx", tisc) ].

Definition create_tis_out : layout :=
  LStruct [
    ("status", LBits 0x8); ("reserved_at_8", LBits 0x18); ("syndrome", LBits 0x20);
    ("reserved_at_40", LBits 0x8); ("tisn", LBits 0x18); ("reserved_at_60", LBits 0x20) ].

Definition query_tis_in : layout :=
  LStruct [
    ("opcode", LBits 0x10); ("uid", LBits 0x10); ("reserved_at_20", LBits 0x10);
    ("op_mod", LBits 0x10); ("reserved_at_40", LBits 0x8); ("tisn", LBits 0x18);
    ("reserved_at_60", LBits 0x20) ].

Definition query_tis_out : layout :=
  LStruct [
    ("status", LBits 0x8); ("reserved_at_8", LBits 0x18); ("syndrome", LBits 0x20);
    ("reserved_at_40", LBits 0x40); ("tis_context", tisc) ].

Definition alloc_pd_in : layout :=
  LStruct [
    ("opcode", LBits 0x10); ("uid", LBits 0x10); ("reserved_at_20", LBits 0x10);
    ("op_mod", LBits 0x10); ("reserved_at_40", LBits 0x40) ].

Definition alloc_pd_out : layout :=
  LStruct [
    ("status", LBits 0x8); ("reserved_at_8", LBits 0x18); ("syndrome", LBits 0x20);
    ("reserved_at_40", LBits 0x8); ("pd", LBits 0x18); ("reserved_at_60", LBits 0x20) ].

Definition alloc_transport_domain_in : layout :=
  LStruct [
    ("opcode", LBits 0x10); ("uid", LBits 0x10); ("reserved_at_20", LBits 0x10);
    ("op_mod", LBits 0x10); ("reserved_at_40", LBits 0x40) ].

Definition alloc_transport_domain_out : layout :=
  LStruct [
    ("status", LBits 0x8); ("reserved_at_8", LBits 0x18); ("syndrome", LBits 0x20);
    ("reserved_at_40", LBits 0x8); ("transport_domain", LBits 0x18);
    ("reserved_at_60", LBits 0x20) ].

Definition general_obj_in_cmd_hdr : layout :=
  LStruct [
    ("opcode", LBits 0x10); ("uid", LBits 0x10); ("reserved_at_20", LBits 0x10);
    ("obj_type", LBits 0x10); ("obj_id", LBits 0x20); ("reserved_at_60", LBits 0x20) ].

Definition encryption_key_obj : layout :=
  LStruct [
    ("modify_field_select", LBits 0x40); ("reserved_at_40", LBits 0x8);
    ("sw_wrapped", LBits 0x1); ("reserved_at_49", LBits 0xB); ("key_size", LBits 0x4);
    ("has_keytag", LBits 0x1); ("reserved_at_59", LBits 0x3); ("key_type", LBits 0x4);
    ("reserved_at_60", LBits 0x8); ("pd", LBits 0x18); ("reserved_at_80", LBits 0x100);
    ("opaque", LBits 0x40); ("reserved_at_1c0", LBits 0x40); ("key", LArr 8 (LBits 0x20));
    ("reserved_at_300", LBits 0x300); ("sw_wrapped_dek", LBits 0x400);
    ("reserved_at_A00", LBits 0x600) ].

Definition create_encryption_key_in : layout :=
  LStruct [
    ("general_obj_in_cmd_hdr", general_obj_in_cmd_hdr);
    ("encryption_key_object", encryption_key_obj) ].

Definition general_obj_out_cmd_hdr : layout :=
  LStruct [
    ("status", LBits 0x8); ("reserved_at_8", LBits 0x18); ("syndrome", LBits 0x20);
    ("obj_id", LBits 0x20); ("reserved_at_60", LBits 0x20) ].

Definition query_encryption_key_out : layout :=
  LStruct [
    ("general_obj_out_cmd_hdr", general_obj_out_cmd_hdr);
    ("encryption_key_object", encryption_key_obj) ].

Definition flow_table_context : layout :=
  LStruct [
    ("reformat_en", LBits 0x1); ("decap_en", LBits 0x1); ("sw_owner", LBits 0x1);
    ("termination_table", LBits 0x1); ("table_miss_action", LBits 0x4); ("level", LBits 0x8);
    ("reserved_at_10", LBits 0x8); ("log_size", LBits 0x8); ("reserved_at_20", LBits 0x8);
    ("table_miss_id", LBits 0x18); ("reserved_at_40", LBits 0x8);
    ("lag_master_next_table_id", LBits 0x18); ("reserved_at_60", LBits 0x60);
    ("sw_owner_icm_root_1", LBits 0x40); ("sw_owner_icm_root_0", LBits 0x40) ].

Definition create_flow_table_in : layout :=
  LStruct [
    ("opcode", LBits 0x10); ("reserved_at_10", LBits 0x10); ("reserved_at_20", LBits 0x10);
    ("op_mod", LBits 0x10); ("other_vport", LBits 0x1); ("reserved_at_41", LBits 0xf);
    ("vport_number", LBits 0x10); ("reserved_at_60", LBits 0x20); ("table_type", LBits 0x8);
    ("reserved_at_88", LBits 0x18); ("reserved_at_a0", LBits 0x20);
    ("flow_table_context", flow_table_context) ].

Definition create_flow_table_out : layout :=
  LStruct [
    ("status", LBits 0x8); ("icm_address_63_40", LBits 0x18); ("syndrome", LBits 0x20);
    ("icm_address_39_32", LBits 0x8); ("table_id", LBits 0x18); ("icm_address_31_0", LBits 0x20) ].

Definition query_flow_table_in : layout :=
  LStruct [
    ("opcode", LBits 0x10); ("uid", LBits 0x10); ("reserved_at_20", LBits 0x10);
    ("op_mod", LBits 0x10); ("reserved_at_40", LBits 0x40); ("table_type", LBits 0x8);
    ("reserved_at_88", LBits 0x18); ("reserved_at_a0", LBits 0x8); ("table_id", LBits 0x18);
    ("reserved_at_c0", LBits 0x140) ].

Definition query_flow_table_out : layout :=
  LStruct [
    ("status", LBits 0x8); ("reserved_at_8", LBits 0x18); ("syndrome", LBits 0x20);
    ("reserved_at_40", LBits 0x80); ("flow_table_context", flow_table_context) ].

Definition ipv6_layout : layout :=
  LStruct [
    ("ipv6", LArr 16 (LBits 0x8)) ].

Definition ipv4_layout : layout :=
  LStruct [
    ("reserved_at_0", LBits 0x60); ("ipv4", LBits 0x20) ].

Definition ipv6_layout_ipv4_layout_auto : layout :=
  LUnion [
    ("ipv6_layout", ipv6_layout); ("ipv4_layout", ipv4_layout); ("reserved_at_0", LBits 0x80) ].

Definition fte_match_set_lyr_2_4 : layout :=
  LStruct [
    ("smac_47_16", LBits 0x20); ("smac_15_0", LBits 0x10); ("ethertype", LBits 0x10);
    ("dmac_47_16", LBits 0x20); ("dmac_15_0", LBits 0x10); ("first_prio", LBits 0x3);
    ("first_cfi", LBits 0x1); ("first_vid", LBits 0xc); ("ip_protocol", LBits 0x8);
    ("ip_dscp", LBits 0x6); ("ip_ecn", LBits 0x2); ("cvlan_tag", LBits 0x1);
    ("svlan_tag", LBits 0x1); ("frag", LBits 0x1); ("ip_version", LBits 0x4);
    ("tcp_flags", LBits 0x9); ("tcp_sport", LBits 0x10); ("tcp_dport", LBits 0x10);
    ("reserved_at_c0", LBits 0x18); ("ttl_hoplimit", LBits 0x8); ("udp_sport", LBits 0x10);
    ("udp_dport", LBits 0x10); ("src_ipv4_src_ipv6", ipv6_layout_ipv4_layout_auto);
    ("dst_ipv4_dst_ipv6", ipv6_layout_ipv4_layout_auto) ].

Definition fte_match_set_misc : layout :=
  LStruct [
    ("reserved_at_0", LBits 0x8); ("source_sqn", LBits 0x18); ("reserved_at_20", LBits 0x10);
    ("source_port", LBits 0x10); ("outer_second_prio", LBits 0x3);
    ("outer_second_cfi", LBits 0x1); ("outer_second_vid", LBits 0xc);
    ("inner_second_prio", LBits 0x3); ("inner_second_cfi", LBits 0x1);
    ("inner_second_vid", LBits 0xc); ("outer_second_cvlan_tag", LBits 0x1);
    ("inner_second_cvlan_tag", LBits 0x1); ("outer_second_svlan_tag", LBits 0x1);
    ("inner_second_svlan_tag", LBits 0x1); ("reserved_at_64", LBits 0xc);
    ("gre_protocol", LBits 0x10); ("gre_key_h", LBits 0x18); ("gre_key_l", LBits 0x8);
    ("vxlan_vni", LBits 0x18); ("reserved_at_b8", LBits 0x8); ("reserved_at_c0", LBits 0x20);
    ("reserved_at_e0", LBits 0xc); ("outer_ipv6_flow_label", LBits 0x14);
    ("reserved_at_100", LBits 0xc); ("inner_ipv6_flow_label", LBits 0x14);
    ("reserved_at_120", LBits 0x28); ("bth_dst_qp", LBits 0x18);
    ("reserved_at_160", LBits 0x20); ("outer_esp_spi", LBits 0x20);
    ("reserved_at_1a0", LBits 0x60) ].

Definition fte_match_mpls : layout :=
  LStruct [
    ("mpls_label", LBits 0x14); ("mpls_exp", LBits 0x3); ("mpls_s_bos", LBits 0x1);
    ("mpls_ttl", LBits 0x8) ].

Definition fte_match_set_misc2 : layout :=
  LStruct [
    ("outer_first_mpls", fte_match_mpls); ("inner_first_mpls", fte_match_mpls);
    ("outer_first_mpls_over_gre", fte_match_mpls);
    ("outer_first_mpls_over_udp", fte_match_mpls); ("metadata_reg_c_7", LBits 0x20);
    ("metadata_reg_c_6", LBits 0x20); ("metadata_reg_c_5", LBits 0x20);
    ("metadata_reg_c_4", LBits 0x20); ("metadata_reg_c_3", LBits 0x20);
    ("metadata_reg_c_2", LBits 0x20); ("metadata_reg_c_1", LBits 0x20);
    ("metadata_reg_c_0", LBits 0x20); ("metadata_reg_a", LBits 0x20);
    ("psp_syndrome", LBits 0x8); ("reserved_at_1a8", LBits 0x8); ("ipsec_syndrome", LBits 0x8);
    ("ipsec_next_header", LBits 0x8); ("reserved_at_1c0", LBits 0x20);
    ("reserved_at_1e0", LBits 0x20) ].

Definition fte_match_set_misc3 : layout :=
  LStruct [
    ("inner_tcp_seq_num", LBits 0x20); ("outer_tcp_seq_num", LBits 0x20);
    ("inner_tcp_ack_num", LBits 0x20); ("outer_tcp_ack_num", LBits 0x20);
    ("reserved_at_80", LBits 0x8); ("outer_vxlan_gpe_vni", LBits 0x18);
    ("outer_vxlan_gpe_next_protocol", LBits 0x8); ("outer_vxlan_gpe_flags", LBits 0x8);
    ("reserved_at_b0", LBits 0x10); ("icmp_header_data", LBits 0x20);
    ("icmpv6_header_data", LBits 0x20); ("icmp_type", LBits 0x8); ("icmp_code", LBits 0x8);
    ("icmpv6_type", LBits 0x8); ("icmpv6_code", LBits 0x8);
    ("geneve_tlv_option_0_data", LBits 0x20); ("gtpu_teid", LBits 0x20);
    ("gtpu_msg_type", LBits 0x8); ("gtpu_msg_flags", LBits 0x8);
    ("reserved_at_170", LBits 0x10); ("gtpu_dw_2", LBits 0x20);
    ("gtpu_first_ext_dw_0", LBits 0x20); ("gtpu_dw_0", LBits 0x20);
    ("reserved_at_1e0", LBits 0x20) ].

Definition fte_match_set_misc4 : layout :=
  LStruct [
    ("prog_sample_field_value_0", LBits 0x20); ("prog_sample_field_id_0", LBits 0x20);
    ("prog_sample_field_value_1", LBits 0x20); ("prog_sample_field_id_1", LBits 0x20);
    ("prog_sample_field_value_2", LBits 0x20); ("prog_sample_field_id_2", LBits 0x20);
    ("prog_sample_field_value_3", LBits 0x20); ("prog_sample_field_id_3", LBits 0x20);
    ("prog_sample_field_value_4", LBits 0x20); ("prog_sample_field_id_4", LBits 0x20);
    ("prog_sample_field_value_5", LBits 0x20); ("prog_sample_field_id_5", LBits 0x20);
    ("prog_sample_field_value_6", LBits 0x20); ("prog_sample_field_id_6", LBits 0x20);
    ("prog_sample_field_value_7", LBits 0x20); ("prog_sample_field_id_7", LBits 0x20) ].

Definition fte_match_set_misc5 : layout :=
  LStruct [
    ("macsec_tag_0", LBits 0x20); ("macsec_tag_1", LBits 0x20); ("macsec_tag_2", LBits 0x20);
    ("macsec_tag_3", LBits 0x20); ("tunnel_header_0", LBits 0x20);
    ("tunnel_header_1", LBits 0x20); ("tunnel_header_2", LBits 0x20);
    ("tunnel_header_3", LBits 0x20); ("reserved_at_100", LBits 0x20);
    ("reserved_at_120", LBits 0x20); ("reserved_at_140", LBits 0x20);
    ("reserved_at_160", LBits 0x20); ("reserved_at_180", LBits 0x20);
    ("reserved_at_1a0", LBits 0x20); ("reserved_at_1c0", LBits 0x20);
    ("reserved_at_1e0", LBits 0x20) ].

Definition fte_match_param : layout :=
  LStruct [
    ("outer_headers", fte_match_set_lyr_2_4); ("misc_parameters", fte_match_set_misc);
    ("inner_headers", fte_match_set_lyr_2_4); ("misc_parameters_2", fte_match_set_misc2);
    ("misc_parameters_3", fte_match_set_misc3); ("misc_parameters_4", fte_match_set_misc4);
    ("misc_parameters_5", fte_match_set_misc5); ("reserved_at_e00", LBits 0x200) ].

Definition create_flow_group_in : layout :=
  LStruct [
    ("opcode", LBits 0x10); ("uid", LBits 0x10); ("reserved_at_20", LBits 0x10);
    ("op_mod", LBits 0x10); ("other_vport", LBits 0x1); ("reserved_at_41", LBits 0xf);
    ("vport_number", LBits 0x10); ("reserved_at_60", LBits 0x20); ("table_type", LBits 0x8);
    ("reserved_at_88", LBits 0x18); ("reserved_at_a0", LBits 0x8); ("table_id", LBits 0x18);
    ("reserved_at_c0", LBits 0x20); ("start_flow_index", LBits 0x20);
    ("reserved_at_100", LBits 0x20); ("end_flow_index", LBits 0x20);
    ("reserved_at_140", LBits 0xa0); ("reserved_at_1e0", LBits 0x18);
    ("match_criteria_enable", LBits 0x8); ("match_criteria", fte_match_param);
    ("reserved_at_1200", LBits 0xe00) ].

Definition create_flow_group_out : layout :=
  LStruct [
    ("status", LBits 0x8); ("reserved_at_8", LBits 0x18); ("syndrome", LBits 0x20);
    ("reserved_at_40", LBits 0x8); ("group_id", LBits 0x18); ("reserved_at_60", LBits 0x20) ].

Definition vlan : layout :=
  LStruct [
    ("ethtype", LBits 0x10); ("prio", LBits 0x3); ("cfi", LBits 0x1); ("vid", LBits 0xc) ].

Definition dest_format_struct : layout :=
  LStruct [
    ("destination_type", LBits 0x8); ("destination_id", LBits 0x18);
    ("reserved_at_20", LBits 0x20) ].

Definition flow_counter_list : layout :=
  LStruct [
    ("flow_counter_id", LBits 0x20); ("reserved_at_20", LBits 0x20) ].

Definition dest_format_struct_flow_counter_list_auto : layout :=
  LUnion [
    ("dest_format_struct", dest_format_struct); ("flow_counter_list", flow_counter_list);
    ("reserved_at_0", LBits 0x40) ].

Definition flow_context : layout :=
  LStruct [
    ("push_vlan", vlan); ("group_id", LBits 0x20); ("reserved_at_40", LBits 0x8);
    ("flow_tag", LBits 0x18); ("reserved_at_60", LBits 0x10); ("action", LBits 0x10);
    ("reserved_at_80", LBits 0x8); ("destination_list_size", LBits 0x18);
    ("reserved_at_a0", LBits 0x8); ("flow_counter_list_size", LBits 0x18);
    ("packet_reformat_id", LBits 0x20); ("modify_header_id", LBits 0x20);
    ("reserved_at_100", LBits 0x100); ("match_value", fte_match_param);
    ("reserved_at_1200", LBits 0x600);
    ("destination", LArr 0 (dest_format_struct_flow_counter_list_auto)) ].

Definition set_fte_in : layout :=
  LStruct [
    ("opcode", LBits 0x10); ("uid", LBits 0x10); ("reserved_at_20", LBits 0x10);
    ("op_mod", LBits 0x10); ("other_vport", LBits 0x1); ("reserved_at_41", LBits 0xf);
    ("vport_number", LBits 0x10); ("reserved_at_60", LBits 0x20); ("table_type", LBits 0x8);
    ("reserved_at_88", LBits 0x18); ("reserved_at_a0", LBits 0x8); ("table_id", LBits 0x18);
    ("reserved_at_c0", LBits 0x18); ("modify_enable_mask", LBits 0x8);
    ("reserved_at_e0", LBits 0x20); ("flow_index", LBits 0x20); ("reserved_at_120", LBits 0xe0);
    ("flow_context", flow_context) ].

Definition set_fte_out : layout :=
  LStruct [
    ("status", LBits 0x8); ("reserved_at_8", LBits 0x18); ("syndrome", LBits 0x20);
    ("reserved_at_40", LBits 0x40) ].

Definition set_action_in : layout :=
  LStruct [
    ("action_type", LBits 0x4); ("field", LBits 0xc); ("reserved_at_10", LBits 0x3);
    ("offset", LBits 0x5); ("reserved_at_18", LBits 0x3); ("length", LBits 0x5);
    ("data", LBits 0x20) ].

Definition copy_action_in : layout :=
  LStruct [
    ("action_type", LBits 0x4); ("src_field", LBits 0xc); ("reserved_at_10", LBits 0x3);
    ("src_offset", LBits 0x5); ("reserved_at_18", LBits 0x3); ("length", LBits 0x5);
    ("reserved_at_20", LBits 0x4); ("dst_field", LBits 0xc); ("reserved_at_30", LBits 0x3);
    ("dst_offset", LBits 0x5); ("reserved_at_38", LBits 0x8) ].

Definition add_action_in : layout :=
  LStruct [
    ("action_type", LBits 0x4); ("field", LBits 0xc); ("reserved_at_10", LBits 0x10);
    ("data", LBits 0x20) ].

Definition set_add_copy_action_in_auto : layout :=
  LUnion [
    ("set_action_in", set_action_in); ("add_action_in", add_action_in);
    ("copy_action_in", copy_action_in); ("reserved_at_0", LBits 0x40) ].

Definition alloc_modify_header_context_in : layout :=
  LStruct [
    ("opcode", LBits 0x10); ("uid", LBits 0x10); ("reserved_at_20", LBits 0x10);
    ("op_mod", LBits 0x10); ("reserved_at_40", LBits 0x20); ("table_type", LBits 0x8);
    ("reserved_at_68", LBits 0x10); ("num_of_actions", LBits 0x8);
    ("actions", LArr 0 (set_add_copy_action_in_auto)) ].

Definition alloc_modify_header_context_out : layout :=
  LStruct [
    ("status", LBits 0x8); ("reserved_at_8", LBits 0x18); ("syndrome", LBits 0x20);
    ("modify_header_id", LBits 0x20); ("reserved_at_60", LBits 0x20) ].

Definition packet_reformat_context_in : layout :=
  LStruct [
    ("reformat_type", LBits 0x8); ("reserved_at_8", LBits 0x4); ("reformat_param_0", LBits 0x4);
    ("reserved_at_10", LBits 0x6); ("reformat_data_size", LBits 0xa);
    ("reformat_param_1", LBits 0x8); ("reserved_at_28", LBits 0x8);
    ("reformat_data", LArr 2 (LBits 0x8)); ("more_reformat_data", LArr 0 (LBits 0x8)) ].

Definition alloc_packet_reformat_context_in : layout :=
  LStruct [
    ("opcode", LBits 0x10); ("reserved_at_10", LBits 0x10); ("reserved_at_20", LBits 0x10);
    ("op_mod", LBits 0x10); ("reserved_at_40", LBits 0xa0);
    ("packet_reformat_context", packet_reformat_context_in) ].

Definition alloc_packet_reformat_context_out : layout :=
  LStruct [
    ("status", LBits 0x8); ("reserved_at_8", LBits 0x18); ("syndrome", LBits 0x20);
    ("packet_reformat_id", LBits 0x20); ("reserved_at_60", LBits 0x20) ].

Definition set_pp_rate_limit_context : layout :=
  LStruct [
    ("rate_limit", LBits 0x20); ("burst_upper_bound", LBits 0x20);
    ("reserved_at_40", LBits 0xC); ("rate_mode", LBits 0x4);
    ("typical_packet_size", LBits 0x10); ("reserved_at_60", LBits 0x120) ].

Definition query_hca_cap_in : layout :=
  LStruct [
    ("opcode", LBits 0x10); ("uid", LBits 0x10); ("reserved_at_20", LBits 0x10);
    ("op_mod", LBits 0x10); ("reserved_at_40", LBits 0x40) ].

Definition sync_crypto_in : layout :=
  LStruct [
    ("opcode", LBits 0x10); ("uid", LBits 0x10); ("reserved_at_20", LBits 0x10);
    ("op_mod", LBits 0x10); ("reserved_at_40", LBits 0x30); ("crypto_type", LBits 0x10);
    ("reserved_at_80", LBits 0x80) ].

Definition sync_crypto_out : layout :=
  LStruct [
    ("status", LBits 0x8); ("reserved_at_8", LBits 0x18); ("syndrome", LBits 0x20);
    ("reserved_at_40", LBits 0x40) ].

Definition parse_graph_flow_match_sample : layout :=
  LStruct [
    ("flow_match_sample_en", LBits 0x1); ("reserved_at_1", LBits 0x3);
    ("flow_match_sample_offset_mode", LBits 0x4); ("reserved_at_5", LBits 0x8);
    ("flow_match_sample_field_offset", LBits 0x10); ("reserved_at_32", LBits 0x4);
    ("flow_match_sample_field_offset_shift", LBits 0x4);
    ("flow_match_sample_field_base_offset", LBits 0x8); ("reserved_at_48", LBits 0xd);
    ("flow_match_sample_tunnel_mode", LBits 0x3);
    ("flow_match_sample_field_offset_mask", LBits 0x20);
    ("flow_match_sample_field_id", LBits 0x20) ].

Definition parse_graph_arc : layout :=
  LStruct [
    ("start_inner_tunnel", LBits 0x1); ("reserved_at_1", LBits 0x7);
    ("arc_parse_graph_node", LBits 0x8); ("compare_condition_value", LBits 0x10);
    ("parse_graph_node_handle", LBits 0x20); ("reserved_at_40", LBits 0x40) ].

Definition parse_graph_node : layout :=
  LStruct [
    ("modify_field_select", LBits 0x40); ("reserved_at_64", LBits 0x20);
    ("header_length_base_value", LBits 0x10); ("reserved_at_112", LBits 0x4);
    ("header_length_field_shift", LBits 0x4); ("reserved_at_120", LBits 0x4);
    ("header_length_mode", LBits 0x4); ("header_length_field_offset", LBits 0x10);
    ("next_header_field_offset", LBits 0x10); ("reserved_at_160", LBits 0x1b);
    ("next_header_field_size", LBits 0x5); ("header_length_field_mask", LBits 0x20);
    ("reserved_at_224", LBits 0x20);
    ("flow_match_sample", LArr 8 (parse_graph_flow_match_sample));
    ("input_arc", LArr 8 (parse_graph_arc)); ("output_arc", LArr 8 (parse_graph_arc)) ].

Definition create_parse_graph_node_in : layout :=
  LStruct [
    ("hdr", general_obj_in_cmd_hdr); ("node", parse_graph_node) ].

Definition create_parse_graph_node_out : layout :=
  LStruct [
    ("hdr", general_obj_in_cmd_hdr); ("node", parse_graph_node) ].

Definition tag_buffer_table_obj : layout :=
  LStruct [
    ("modify_field_select", LBits 0x40); ("reserved_at_40", LBits 0x20);
    ("reserved_at_60", LBits 0x1b); ("log_tag_buffer_table_size", LBits 0x5) ].

Definition create_tag_buffer_table_obj_in : layout :=
  LStruct [
    ("general_obj_in_cmd_hdr", general_obj_in_cmd_hdr);
    ("tag_buffer_table_object", tag_buffer_table_obj) ].

Definition query_tag_buffer_table_obj_out : layout :=
  LStruct [
    ("general_obj_out_cmd_hdr", general_obj_out_cmd_hdr);
    ("tag_buffer_table_object", tag_buffer_table_obj) ].

End ifc.

Definition MLX5_CMD_OP_QUERY_HCA_CAP : Z := 0x100.
Definition MLX5_CMD_OP_CREATE_MKEY : Z := 0x200.
Definition MLX5_CMD_OP_CREATE_CQ : Z := 0x400.
Definition MLX5_CMD_OP_ALLOC_PD : Z := 0x800.
Definition MLX5_CMD_OP_ALLOC_TRANSPORT_DOMAIN : Z := 0x816.
Definition MLX5_CMD_OP_CREATE_TIR : Z := 0x900.
Definition MLX5_CMD_OP_MODIFY_TIR : Z := 0x901.
Definition MLX5_CMD_OP_QUERY_TIR : Z := 0x903.
Definition MLX5_CMD_OP_CREATE_SQ : Z := 0x904.
Definition MLX5_CMD_OP_MODIFY_SQ : Z := 0x905.
Definition MLX5_CMD_OP_QUERY_SQ : Z := 0x907.
Definition MLX5_CMD_OP_CREATE_RQ : Z := 0x908.
Definition MLX5_CMD_OP_MODIFY_RQ : Z := 0x909.
Definition MLX5_CMD_OP_QUERY_RQ : Z := 0x90b.
Definition MLX5_CMD_OP_CREATE_TIS : Z := 0x912.
Definition MLX5_CMD_OP_QUERY_TIS : Z := 0x915.
Definition MLX5_CMD_OP_CREATE_FLOW_TABLE : Z := 0x930.
Definition MLX5_CMD_OP_QUERY_FLOW_TABLE : Z := 0x932.
Definition MLX5_CMD_OP_CREATE_FLOW_GROUP : Z := 0x933.
Definition MLX5_CMD_OP_SET_FLOW_TABLE_ENTRY : Z := 0x936.
Definition MLX5_CMD_OP_ALLOC_PACKET_REFORMAT_CONTEXT : Z := 0x93d.
Definition MLX5_CMD_OP_ALLOC_MODIFY_HEADER_CONTEXT : Z := 0x940.
Definition MLX5_CMD_OP_CREATE_GENERAL_OBJECT : Z := 0xa00.
Definition MLX5_CMD_OP_MODIFY_GENERAL_OBJECT : Z := 0xa01.
Definition MLX5_CMD_OP_QUERY_GENERAL_OBJECT : Z := 0xa02.
Definition MLX5_CMD_OP_SYNC_CRYPTO : Z := 0xB12.
Definition MLX5_MKC_ACCESS_MODE_KLMS : Z := 0x2.
Definition MLX5_GENERAL_OBJECT_TYPES_ENCRYPTION_KEY : Z := 0xc.
Definition MLX5_GENERAL_OBJECT_TYPES_PARSE_GRAPH_NODE : Z := 0x22.
Definition MLX5_GENERAL_OBJECT_TYPES_NVMEOTCP_TAG_BUFFER_TABLE : Z := 0x21.
Definition MLX5_GENERAL_OBJECT_TYPE_ENCRYPTION_KEY_KEY_SIZE_128 : Z := 0x0.
Definition MLX5_GENERAL_OBJECT_TYPE_ENCRYPTION_KEY_KEY_SIZE_256 : Z := 0x1.
Definition MLX5_GENERAL_OBJECT_TYPE_ENCRYPTION_KEY_TYPE_TLS : Z := 0x1.
Definition MLX5_GENERAL_OBJECT_TYPE_ENCRYPTION_KEY_TYPE_IPSEC : Z := 0x2.
Definition MLX5_GENERAL_OBJECT_TYPE_ENCRYPTION_KEY_TYPE_AES_XTS : Z := 0x3.
Definition MLX5_FLOW_CONTEXT_ACTION_FWD_DEST : Z := 0x4.
Definition MLX5_FLOW_CONTEXT_ACTION_PACKET_REFORMAT : Z := 0x10.
Definition MLX5_FLOW_CONTEXT_ACTION_MOD_HDR : Z := 0x40.
Definition MLX5_FLOW_CONTEXT_ACTION_REPARSE : Z := 0x8000.
Definition MLX5_FLOW_DESTINATION_TYPE_TIR : Z := 0x2.
Definition MLX5_FLOW_DESTINATION_TYPE_FLOW_TABLE : Z := 0x1.
Definition MLX5_ACTION_TYPE_SET : Z := 0x1.
Definition MLX5_ACTION_TYPE_COPY : Z := 0x3.
Definition MLX5_REFORMAT_TYPE_INSERT_HDR : Z := 0xf.
Definition MLX5_CAP_GENERAL : Z := 0.
Definition MLX5_CAP_PARSE_GRAPH_NODE : Z := 0x1C.
Definition MLX5_CAP_GENERAL_2 : Z := 0x20.
Definition MLX5_CAP_DPP : Z := 0x12.
Definition MLX5_CAP_NVMEOTCP : Z := 0x19.
Definition MLX5_CAP_CRYPTO : Z := 0x1A.
Definition HCA_CAP_OPMOD_GET_CUR : Z := 1.
Definition HCA_CAP_OPMOD_GET_MAX : Z := 0.
Definition MLX5_HCA_CAP_GENERAL_OBJECT_TYPES_ENCRYPTION_KEY : Z :=
  Z.shiftl 1 MLX5_GENERAL_OBJECT_TYPES_ENCRYPTION_KEY.
Definition MLX5_HCA_CAP_GENERAL_OBJECT_TYPES_PARSE_GRAPH_NODE : Z :=
  Z.shiftl 1 MLX5_GENERAL_OBJECT_TYPES_PARSE_GRAPH_NODE.
Definition MLX5_CAP_ETHERNET_OFFLOADS : Z := 1.
Definition MLX5_CAP_FLOW_TABLE : Z := 7.
Definition MLX5_CAP_TLS : Z := 17.

(** ** The structures as the access macros need them *)

(** The designators of the members that hold bits. *)
Fixpoint leaves (l : layout) : list (list step) :=
  match l with
  | LBits _ => [[]]
  | LStruct fs | LUnion fs =>
      (fix go (fs : list (string * layout)) : list (list step) :=
         match fs with
         | [] => []
         | (s, t) :: r => map (cons (F s)) (leaves t) ++ go r
         end) fs
  | LArr n e =>
      flat_map (fun i => map (cons (I (Z.of_nat i))) (leaves e)) (List.seq 0 (Z.to_nat n))
  end.

(** Sizes are not negative, the structure is a whole number of dwords, and every
    member of at most 32 bits lies in one dword. *)
Definition layout_ok (l : layout) : bool :=
  wf_layout l && (size_of l mod 32 =? 0)
  && forallb (fun p => (32 <? bit_sz l p) || (bit_sz l p =? 0) || dw_member l p) (leaves l).

Definition command_layouts : list layout :=
  [ifc.status_out; ifc.mkc; ifc.create_mkey_in; ifc.create_mkey_out; ifc.cqc;
    ifc.create_cq_in; ifc.create_cq_out; ifc.cmd_pas; ifc.wq; ifc.rqc; ifc.create_rq_in;
    ifc.create_rq_out; ifc.modify_rq_in; ifc.modify_rq_out; ifc.query_rq_in;
    ifc.query_rq_out; ifc.sqc; ifc.create_sq_in; ifc.create_sq_out; ifc.modify_sq_in;
    ifc.modify_sq_out; ifc.query_sq_in; ifc.query_sq_out; ifc.rx_hash_field_select;
    ifc.tirc; ifc.create_tir_in; ifc.create_tir_out; ifc.modify_tir_bitmask;
    ifc.modify_tir_in; ifc.modify_tir_out; ifc.query_tir_in; ifc.query_tir_out; ifc.tisc;
    ifc.create_tis_in; ifc.create_tis_out; ifc.query_tis_in; ifc.query_tis_out;
    ifc.alloc_pd_in; ifc.alloc_pd_out; ifc.alloc_transport_domain_in;
    ifc.alloc_transport_domain_out; ifc.general_obj_in_cmd_hdr; ifc.encryption_key_obj;
    ifc.create_encryption_key_in; ifc.general_obj_out_cmd_hdr; ifc.query_encryption_key_out;
    ifc.flow_table_context; ifc.create_flow_table_in; ifc.create_flow_table_out;
    ifc.query_flow_table_in; ifc.query_flow_table_out; ifc.ipv6_layout; ifc.ipv4_layout;
    ifc.ipv6_layout_ipv4_layout_auto; ifc.fte_match_set_lyr_2_4; ifc.fte_match_set_misc;
    ifc.fte_match_mpls; ifc.fte_match_set_misc2; ifc.fte_match_set_misc3;
    ifc.fte_match_set_misc4; ifc.fte_match_set_misc5; ifc.fte_match_param;
    ifc.create_flow_group_in; ifc.create_flow_group_out; ifc.vlan; ifc.dest_format_struct;
    ifc.flow_counter_list; ifc.dest_format_struct_flow_counter_list_auto; ifc.flow_context;
    ifc.set_fte_in; ifc.set_fte_out; ifc.set_action_in; ifc.copy_action_in;
    ifc.add_action_in; ifc.set_add_copy_action_in_auto; ifc.alloc_modify_header_context_in;
    ifc.alloc_modify_header_context_out; ifc.packet_reformat_context_in;
    ifc.alloc_packet_reformat_context_in; ifc.alloc_packet_reformat_context_out;
    ifc.set_pp_rate_limit_context; ifc.query_hca_cap_in; ifc.sync_crypto_in;
    ifc.sync_crypto_out; ifc.parse_graph_flow_match_sample; ifc.parse_graph_arc;
    ifc.parse_graph_node; ifc.create_parse_graph_node_in; ifc.create_parse_graph_node_out;
    ifc.tag_buffer_table_obj; ifc.create_tag_buffer_table_obj_in;
    ifc.query_tag_buffer_table_obj_out]%list.

(** Every command structure is well formed for the access macros: the
    hypotheses of the round-trip and frame theorems hold of each of its members
    of at most 32 bits. *)
Theorem command_layouts_ok : Forall (fun l => layout_ok l = true) command_layouts.
Proof. repeat (constructor; [vm_compute; reflexivity|]). constructor. Qed.

(** The key context: [lr] is read back and [qpn] is not disturbed. *)
Lemma devx_get_set_witness :
  DEVX_GET ifc.mkc 16 ["lr"] (exec1 (DEVX_SET ifc.mkc 16 ["lr"] 1) (zeros 80)) = 1.
Proof. apply (devx_get_set ifc.mkc 16 ["lr"] 1 (zeros 80)); by vm_compute. Defined.

Lemma devx_set_frame_witness :
  DEVX_GET ifc.mkc 16 ["mkey_7_0"]
    (exec1 (DEVX_SET ifc.mkc 16 ["qpn"] 0xffffff) (repeat 7 80)) = 7.
Proof.
  rewrite (devx_set_frame ifc.mkc 16 ["qpn"] ["mkey_7_0"]
             0xffffff (repeat 7 80)); by vm_compute.
Defined.

Lemma devx_get_set64_witness :
  DEVX_GET64 ifc.mkc 16 ["start_addr"]
    (exec1 (DEVX_SET64 ifc.mkc 16 ["start_addr"] 0x123456789a) (zeros 80))
  = 0x123456789a.
Proof.
  apply (devx_get_set64 ifc.mkc 16 ["start_addr"] 0x123456789a (zeros 80));
    by vm_compute.
Defined.
