(* ===== verification/PrmCaps.v ===== *)
(** * The capability structures of [src/src/dcmd/prm.h]

    The members of [union mlx5_ifc_hca_cap_union_bits], which
    [QUERY_HCA_CAP] returns. *)

From S2P Require Import Prelude Codec Prm.
Open Scope string_scope.
Open Scope list_scope.
Open Scope Z_scope.

Module cap.

Definition cmd_hca_cap_members_1 : list (string * layout) :=
  [
    ("reserved_at_0", LBits 0x30); ("vhca_id", LBits 0x10); ("reserved_at_40", LBits 0x40);
    ("log_max_srq_sz", LBits 0x8); ("log_max_qp_sz", LBits 0x8); ("reserved_at_90", LBits 0x6);
    ("nvmeotcp", LBits 0x1); ("reserved_at_97", LBits 0x4); ("log_max_qp", LBits 0x5);
    ("reserved_at_a0", LBits 0xb); ("log_max_srq", LBits 0x5); ("reserved_at_b0", LBits 0x10);
    ("reserved_at_c0", LBits 0x8); ("log_max_cq_sz", LBits 0x8); ("reserved_at_d0", LBits 0xb);
    ("log_max_cq", LBits 0x5); ("log_max_eq_sz", LBits 0x8); ("reserved_at_e8", LBits 0x2);
    ("log_max_mkey", LBits 0x6); ("reserved_at_f0", LBits 0x4); ("cmd_on_behalf", LBits 0x1);
    ("device_emulation_manager", LBits 0x1); ("reserved_at_f6", LBits 0x3); ("ibq", LBits 0x1);
    ("reserved_at_f7", LBits 0x2); ("log_max_eq", LBits 0x4); ("max_indirection", LBits 0x8);
    ("fixed_buffer_size", LBits 0x1); ("log_max_mrw_sz", LBits 0x7);
    ("force_teardown", LBits 0x1); ("reserved_at_111", LBits 0x1);
    ("log_max_bsf_list_size", LBits 0x6); ("umr_extended_translation_offset", LBits 0x1);
    ("null_mkey", LBits 0x1); ("log_max_klm_list_size", LBits 0x6);
    ("reserved_at_120", LBits 0xa); ("log_max_ra_req_dc", LBits 0x6);
    ("reserved_at_130", LBits 0xa); ("log_max_ra_res_dc", LBits 0x6);
    ("reserved_at_140", LBits 0xa); ("log_max_ra_req_qp", LBits 0x6);
    ("reserved_at_150", LBits 0xa); ("log_max_ra_res_qp", LBits 0x6); ("end_pad", LBits 0x1);
    ("cc_query_allowed", LBits 0x1); ("cc_modify_allowed", LBits 0x1); ("start_pad", LBits 0x1);
    ("cache_line_128byte", LBits 0x1); ("reserved_at_165", LBits 0xa); ("qcam_reg", LBits 0x1);
    ("gid_table_size", LBits 0x10); ("out_of_seq_cnt", LBits 0x1);
    ("vport_counters", LBits 0x1); ("retransmission_q_counters", LBits 0x1);
    ("debug", LBits 0x1); ("modify_rq_counter_set_id", LBits 0x1); ("rq_delay_drop", LBits 0x1);
    ("max_qp_cnt", LBits 0xa); ("pkey_table_size", LBits 0x10);
    ("vport_group_manager", LBits 0x1); ("vhca_group_manager", LBits 0x1);
    ("ib_virt", LBits 0x1); ("eth_virt", LBits 0x1); ("vnic_env_queue_counters", LBits 0x1);
    ("ets", LBits 0x1); ("nic_flow_table", LBits 0x1); ("eswitch_flow_table", LBits 0x1);
    ("device_memory", LBits 0x1); ("mcam_reg", LBits 0x1); ("pcam_reg", LBits 0x1);
    ("local_ca_ack_delay", LBits 0x5); ("port_module_event", LBits 0x1);
    ("enhanced_error_q_counters", LBits 0x1); ("ports_check", LBits 0x1);
    ("reserved_at_1b3", LBits 0x1); ("disable_link_up", LBits 0x1); ("beacon_led", LBits 0x1);
    ("port_type", LBits 0x2); ("num_ports", LBits 0x8); ("reserved_at_1c0", LBits 0x1);
    ("pps", LBits 0x1); ("pps_modify", LBits 0x1); ("log_max_msg", LBits 0x5);
    ("reserved_at_1c8", LBits 0x4); ("max_tc", LBits 0x4); ("reserved_at_1d0", LBits 0x1);
    ("dcbx", LBits 0x1); ("general_notification_event", LBits 0x1);
    ("reserved_at_1d3", LBits 0x2); ("fpga", LBits 0x1); ("rol_s", LBits 0x1);
    ("rol_g", LBits 0x1); ("reserved_at_1d8", LBits 0x1); ("wol_s", LBits 0x1);
    ("wol_g", LBits 0x1); ("wol_a", LBits 0x1); ("wol_b", LBits 0x1); ("wol_m", LBits 0x1);
    ("wol_u", LBits 0x1); ("wol_p", LBits 0x1); ("stat_rate_support", LBits 0x10);
    ("reserved_at_1f0", LBits 0xc); ("cqe_version", LBits 0x4);
    ("compact_address_vector", LBits 0x1); ("striding_rq", LBits 0x1);
    ("reserved_at_202", LBits 0x1) ].

Definition cmd_hca_cap_members_2 : list (string * layout) :=
  [
    ("ipoib_enhanced_offloads", LBits 0x1); ("ipoib_basic_offloads", LBits 0x1);
    ("reserved_at_205", LBits 0x1); ("repeated_block_disabled", LBits 0x1);
    ("umr_modify_entity_size_disabled", LBits 0x1); ("umr_modify_atomic_disabled", LBits 0x1);
    ("umr_indirect_mkey_disabled", LBits 0x1); ("umr_fence", LBits 0x2);
    ("reserved_at_20c", LBits 0x3); ("drain_sigerr", LBits 0x1); ("cmdif_checksum", LBits 0x2);
    ("sigerr_cqe", LBits 0x1); ("reserved_at_213", LBits 0x1); ("wq_signature", LBits 0x1);
    ("sctr_data_cqe", LBits 0x1); ("bsf_in_create_mkey", LBits 0x1); ("sho", LBits 0x1);
    ("tph", LBits 0x1); ("rf", LBits 0x1); ("dct", LBits 0x1); ("qos", LBits 0x1);
    ("eth_net_offloads", LBits 0x1); ("roce", LBits 0x1); ("atomic", LBits 0x1);
    ("reserved_at_21f", LBits 0x1); ("cq_oi", LBits 0x1); ("cq_resize", LBits 0x1);
    ("cq_moderation", LBits 0x1); ("reserved_at_223", LBits 0x3); ("cq_eq_remap", LBits 0x1);
    ("pg", LBits 0x1); ("block_lb_mc", LBits 0x1); ("reserved_at_229", LBits 0x1);
    ("scqe_break_moderation", LBits 0x1); ("cq_period_start_from_cqe", LBits 0x1);
    ("cd", LBits 0x1); ("reserved_at_22d", LBits 0x1); ("apm", LBits 0x1);
    ("vector_calc", LBits 0x1); ("umr_ptr_rlky", LBits 0x1); ("imaicl", LBits 0x1);
    ("reserved_at_232", LBits 0x4); ("qkv", LBits 0x1); ("pkv", LBits 0x1);
    ("set_deth_sqpn", LBits 0x1); ("reserved_at_239", LBits 0x3); ("xrc", LBits 0x1);
    ("ud", LBits 0x1); ("uc", LBits 0x1); ("rc", LBits 0x1); ("uar_4k", LBits 0x1);
    ("reserved_at_241", LBits 0x9); ("uar_sz", LBits 0x6); ("reserved_at_250", LBits 0x8);
    ("log_pg_sz", LBits 0x8); ("bf", LBits 0x1); ("driver_version", LBits 0x1);
    ("pad_tx_eth_packet", LBits 0x1); ("reserved_at_263", LBits 0x8);
    ("log_bf_reg_size", LBits 0x5); ("reserved_at_270", LBits 0xb); ("lag_master", LBits 0x1);
    ("num_lag_ports", LBits 0x4); ("reserved_at_280", LBits 0x10);
    ("max_wqe_sz_sq", LBits 0x10); ("reserved_at_2a0", LBits 0x10);
    ("max_wqe_sz_rq", LBits 0x10); ("max_flow_counter_31_16", LBits 0x10);
    ("max_wqe_sz_sq_dc", LBits 0x10); ("reserved_at_2e0", LBits 0x7);
    ("max_qp_mcg", LBits 0x19); ("reserved_at_300", LBits 0x18); ("log_max_mcg", LBits 0x8);
    ("reserved_at_320", LBits 0x3); ("log_max_transport_domain", LBits 0x5);
    ("reserved_at_328", LBits 0x3); ("log_max_pd", LBits 0x5); ("reserved_at_330", LBits 0xb);
    ("log_max_xrcd", LBits 0x5); ("nic_receive_steering_discard", LBits 0x1);
    ("receive_discard_vport_down", LBits 0x1); ("transmit_discard_vport_down", LBits 0x1);
    ("reserved_at_343", LBits 0x5); ("log_max_flow_counter_bulk", LBits 0x8);
    ("max_flow_counter_15_0", LBits 0x10); ("reserved_at_360", LBits 0x3);
    ("log_max_rq", LBits 0x5); ("reserved_at_368", LBits 0x3); ("log_max_sq", LBits 0x5);
    ("reserved_at_370", LBits 0x3); ("log_max_tir", LBits 0x5); ("reserved_at_378", LBits 0x3);
    ("log_max_tis", LBits 0x5); ("basic_cyclic_rcv_wqe", LBits 0x1);
    ("reserved_at_381", LBits 0x2); ("log_max_rmp", LBits 0x5); ("reserved_at_388", LBits 0x3);
    ("log_max_rqt", LBits 0x5); ("reserved_at_390", LBits 0x3); ("log_max_rqt_size", LBits 0x5);
    ("reserved_at_398", LBits 0x3); ("log_max_tis_per_sq", LBits 0x5);
    ("ext_stride_num_range", LBits 0x1); ("reserved_at_3a1", LBits 0x2);
    ("log_max_stride_sz_rq", LBits 0x5); ("reserved_at_3a8", LBits 0x3) ].

Definition cmd_hca_cap_members_3 : list (string * layout) :=
  [
    ("log_min_stride_sz_rq", LBits 0x5); ("reserved_at_3b0", LBits 0x3);
    ("log_max_stride_sz_sq", LBits 0x5); ("reserved_at_3b8", LBits 0x3);
    ("log_min_stride_sz_sq", LBits 0x5); ("hairpin", LBits 0x1); ("reserved_at_3c1", LBits 0x2);
    ("log_max_hairpin_queues", LBits 0x5); ("reserved_at_3c8", LBits 0x3);
    ("log_max_hairpin_wq_data_sz", LBits 0x5); ("reserved_at_3d0", LBits 0x3);
    ("log_max_hairpin_num_packets", LBits 0x5); ("reserved_at_3d8", LBits 0x3);
    ("log_max_wq_sz", LBits 0x5); ("nic_vport_change_event", LBits 0x1);
    ("disable_local_lb_uc", LBits 0x1); ("disable_local_lb_mc", LBits 0x1);
    ("log_min_hairpin_wq_data_sz", LBits 0x5); ("reserved_at_3e8", LBits 0x3);
    ("log_max_vlan_list", LBits 0x5); ("aes_xts_tweak_inc_64", LBits 0x1);
    ("aes_xts_single_block_le_tweak", LBits 0x1); ("aes_xts_multi_block_be_tweak", LBits 0x1);
    ("log_max_current_mc_list", LBits 0x5); ("aes_xts_tweak_inc_shift", LBits 0x1);
    ("reserved_at_3f8", LBits 0x2); ("log_max_current_uc_list", LBits 0x5);
    ("general_obj_types", LBits 0x40); ("sq_ts_format", LBits 0x2); ("rq_ts_format", LBits 0x2);
    ("reserved_at_443", LBits 0x24); ("aes_xts_multi_block_le_tweak", LBits 0x1);
    ("crypto", LBits 0x1); ("reserved_at_46a", LBits 0x16); ("reserved_at_480", LBits 0x1);
    ("tls_tx", LBits 0x1); ("tls_rx", LBits 0x1); ("log_max_l2_table", LBits 0x5);
    ("reserved_at_488", LBits 0x8); ("log_uar_page_sz", LBits 0x10);
    ("reserved_at_4a0", LBits 0x20); ("device_frequency_mhz", LBits 0x20);
    ("device_frequency_khz", LBits 0x20); ("reserved_at_500", LBits 0x20);
    ("num_of_uars_per_page", LBits 0x20); ("reserved_at_540", LBits 0x40);
    ("reserved_at_580", LBits 0x33); ("log_max_dek", LBits 0x5); ("reserved_at_5b8", LBits 0x4);
    ("mini_cqe_resp_stride_index", LBits 0x1); ("cqe_128_always", LBits 0x1);
    ("cqe_compression_128", LBits 0x1); ("cqe_compression", LBits 0x1);
    ("cqe_compression_timeout", LBits 0x10); ("cqe_compression_max_num", LBits 0x10);
    ("reserved_at_5e0", LBits 0x10); ("tag_matching", LBits 0x1);
    ("rndv_offload_rc", LBits 0x1); ("rndv_offload_dc", LBits 0x1);
    ("log_tag_matching_list_sz", LBits 0x5); ("reserved_at_5f8", LBits 0x3);
    ("log_max_xrq", LBits 0x5); ("affiliate_nic_vport_criteria", LBits 0x8);
    ("native_port_num", LBits 0x8); ("num_vhca_ports", LBits 0x8);
    ("reserved_at_618", LBits 0x6); ("sw_owner_id", LBits 0x1);
    ("reserve_not_to_use", LBits 0x1); ("reserved_at_620", LBits 0xa0);
    ("reserved_at_6c0", LBits 0x4); ("flex_parser_id_geneve_opt_0", LBits 0x4);
    ("flex_parser_id_icmp_dw1", LBits 0x4); ("flex_parser_id_icmp_dw0", LBits 0x4);
    ("flex_parser_id_icmpv6_dw1", LBits 0x4); ("flex_parser_id_icmpv6_dw0", LBits 0x4);
    ("flex_parser_id_outer_first_mpls_over_gre", LBits 0x4);
    ("flex_parser_id_outer_first_mpls_over_udp_label", LBits 0x4);
    ("reserved_at_6e0", LBits 0x20); ("flex_parser_id_gtpu_dw_2", LBits 0x4);
    ("flex_parser_id_gtpu_first_ext_dw_0", LBits 0x4); ("reserved_at_708", LBits 0x18);
    ("reserved_at_720", LBits 0x20); ("reserved_at_740", LBits 0x8); ("dma_mmo_qp", LBits 0x1);
    ("reserved_at_749", LBits 0x17); ("reserved_at_760", LBits 0x3);
    ("log_max_num_header_modify_argument", LBits 0x5); ("reserved_at_768", LBits 0x4);
    ("log_header_modify_argument_granularity", LBits 0x4); ("reserved_at_770", LBits 0x3);
    ("log_header_modify_argument_max_alloc", LBits 0x5); ("reserved_at_778", LBits 0x3);
    ("max_flow_execute_aso", LBits 0x5); ("reserved_at_780", LBits 0x80) ].

Definition cmd_hca_cap : layout :=
  Eval cbv [app cmd_hca_cap_members_1 cmd_hca_cap_members_2 cmd_hca_cap_members_3] in
  LStruct (cmd_hca_cap_members_1 ++ cmd_hca_cap_members_2 ++ cmd_hca_cap_members_3).

Definition cmd_hca_cap_2 : layout :=
  LStruct [
    ("reserved_at_0", LBits 0xa0); ("max_reformat_insert_size", LBits 0x8);
    ("max_reformat_insert_offset", LBits 0x8); ("max_reformat_remove_size", LBits 0x8);
    ("max_reformat_remove_offset", LBits 0x8); ("multi_sl_qp", LBits 0x1);
    ("non_tunnel_reformat", LBits 0x1); ("reserved_at_c2", LBits 0x73e) ].

Definition odp_per_transport_service_cap : layout :=
  LStruct [
    ("send", LBits 0x1); ("receive", LBits 0x1); ("write", LBits 0x1); ("read", LBits 0x1);
    ("atomic", LBits 0x1); ("srq_receive", LBits 0x1); ("reserved_at_6", LBits 0x1a) ].

Definition odp_cap : layout :=
  LStruct [
    ("reserved_at_0", LBits 0x40); ("sig", LBits 0x1); ("reserved_at_41", LBits 0x1f);
    ("reserved_at_60", LBits 0x20); ("rc_odp_caps", odp_per_transport_service_cap);
    ("uc_odp_caps", odp_per_transport_service_cap);
    ("ud_odp_caps", odp_per_transport_service_cap); ("reserved_at_e0", LBits 0x720) ].

Definition atomic_caps : layout :=
  LStruct [
    ("reserved_at_0", LBits 0x40); ("atomic_req_8B_endianness_mode", LBits 0x2);
    ("reserved_at_42", LBits 0x4); ("supported_atomic_req_8B_endianness_mode_1", LBits 0x1);
    ("reserved_at_47", LBits 0x19); ("reserved_at_60", LBits 0x20);
    ("reserved_at_80", LBits 0x10); ("atomic_operations", LBits 0x10);
    ("reserved_at_a0", LBits 0x10); ("atomic_size_qp", LBits 0x10);
    ("reserved_at_c0", LBits 0x10); ("atomic_size_dc", LBits 0x10);
    ("reserved_at_e0", LBits 0x720) ].

Definition roce_cap : layout :=
  LStruct [
    ("roce_apm", LBits 0x1); ("reserved_at_1", LBits 0x1f); ("reserved_at_20", LBits 0x60);
    ("reserved_at_80", LBits 0xc); ("l3_type", LBits 0x4); ("reserved_at_90", LBits 0x8);
    ("roce_version", LBits 0x8); ("reserved_at_a0", LBits 0x10);
    ("r_roce_dest_udp_port", LBits 0x10); ("r_roce_max_src_udp_port", LBits 0x10);
    ("r_roce_min_src_udp_port", LBits 0x10); ("reserved_at_e0", LBits 0x10);
    ("roce_address_table_size", LBits 0x10); ("reserved_at_100", LBits 0x700) ].

Definition per_protocol_networking_offload_caps : layout :=
  LStruct [
    ("csum_cap", LBits 0x1); ("vlan_cap", LBits 0x1); ("lro_cap", LBits 0x1);
    ("lro_psh_flag", LBits 0x1); ("lro_time_stamp", LBits 0x1);
    ("lro_max_msg_sz_mode", LBits 0x2); ("wqe_vlan_insert", LBits 0x1);
    ("self_lb_en_modifiable", LBits 0x1); ("reserved_at_9", LBits 0x2);
    ("max_lso_cap", LBits 0x5); ("multi_pkt_send_wqe", LBits 0x2);
    ("wqe_inline_mode", LBits 0x2); ("rss_ind_tbl_cap", LBits 0x4); ("reg_umr_sq", LBits 0x1);
    ("scatter_fcs", LBits 0x1); ("enhanced_multi_pkt_send_wqe", LBits 0x1);
    ("tunnel_lso_const_out_ip_id", LBits 0x1); ("reserved_at_1c", LBits 0x2);
    ("tunnel_stateless_gre", LBits 0x1); ("tunnel_stateless_vxlan", LBits 0x1);
    ("swp", LBits 0x1); ("swp_csum", LBits 0x1); ("swp_lso", LBits 0x1);
    ("reserved_at_23", LBits 0x1b); ("max_geneve_opt_len", LBits 0x1);
    ("tunnel_stateless_geneve_rx", LBits 0x1); ("reserved_at_40", LBits 0x10);
    ("lro_min_mss_size", LBits 0x10); ("reserved_at_60", LBits 0x120);
    ("lro_timer_supported_periods", LArr 4 (LBits 0x20)); ("reserved_at_200", LBits 0x600) ].

Definition flow_table_fields_supported : layout :=
  LStruct [
    ("outer_dmac", LBits 0x1); ("outer_smac", LBits 0x1); ("outer_ether_type", LBits 0x1);
    ("outer_ip_version", LBits 0x1); ("outer_first_prio", LBits 0x1);
    ("outer_first_cfi", LBits 0x1); ("outer_first_vid", LBits 0x1);
    ("outer_ipv4_ttl", LBits 0x1); ("outer_second_prio", LBits 0x1);
    ("outer_second_cfi", LBits 0x1); ("outer_second_vid", LBits 0x1);
    ("reserved_at_b", LBits 0x1); ("outer_sip", LBits 0x1); ("outer_dip", LBits 0x1);
    ("outer_frag", LBits 0x1); ("outer_ip_protocol", LBits 0x1); ("outer_ip_ecn", LBits 0x1);
    ("outer_ip_dscp", LBits 0x1); ("outer_udp_sport", LBits 0x1);
    ("outer_udp_dport", LBits 0x1); ("outer_tcp_sport", LBits 0x1);
    ("outer_tcp_dport", LBits 0x1); ("outer_tcp_flags", LBits 0x1);
    ("outer_gre_protocol", LBits 0x1); ("outer_gre_key", LBits 0x1);
    ("outer_vxlan_vni", LBits 0x1); ("outer_geneve_vni", LBits 0x1);
    ("outer_geneve_oam", LBits 0x1); ("outer_geneve_protocol_type", LBits 0x1);
    ("outer_geneve_opt_len", LBits 0x1); ("reserved_at_1e", LBits 0x1);
    ("source_eswitch_port", LBits 0x1); ("inner_dmac", LBits 0x1); ("inner_smac", LBits 0x1);
    ("inner_ether_type", LBits 0x1); ("inner_ip_version", LBits 0x1);
    ("inner_first_prio", LBits 0x1); ("inner_first_cfi", LBits 0x1);
    ("inner_first_vid", LBits 0x1); ("reserved_at_27", LBits 0x1);
    ("inner_second_prio", LBits 0x1); ("inner_second_cfi", LBits 0x1);
    ("inner_second_vid", LBits 0x1); ("reserved_at_2b", LBits 0x1); ("inner_sip", LBits 0x1);
    ("inner_dip", LBits 0x1); ("inner_frag", LBits 0x1); ("inner_ip_protocol", LBits 0x1);
    ("inner_ip_ecn", LBits 0x1); ("inner_ip_dscp", LBits 0x1); ("inner_udp_sport", LBits 0x1);
    ("inner_udp_dport", LBits 0x1); ("inner_tcp_sport", LBits 0x1);
    ("inner_tcp_dport", LBits 0x1); ("inner_tcp_flags", LBits 0x1);
    ("outer_tcp_seq_num", LBits 0x1); ("inner_tcp_seq_num", LBits 0x1);
    ("prog_sample_field", LBits 0x1); ("reserved_at_3a", LBits 0x6);
    ("geneve_tlv_option_0_data", LBits 0x1); ("reserved_at_41", LBits 0x4);
    ("outer_first_mpls_over_udp", LBits 0x4); ("outer_first_mpls_over_gre", LBits 0x4);
    ("inner_first_mpls", LBits 0x4); ("outer_first_mpls", LBits 0x4);
    ("reserved_at_55", LBits 0x2); ("outer_esp_spi", LBits 0x1); ("reserved_at_58", LBits 0x2);
    ("bth_dst_qp", LBits 0x1); ("reserved_at_5b", LBits 0x5); ("reserved_at_60", LBits 0x18);
    ("metadata_reg_c_7", LBits 0x1); ("metadata_reg_c_6", LBits 0x1);
    ("metadata_reg_c_5", LBits 0x1); ("metadata_reg_c_4", LBits 0x1);
    ("metadata_reg_c_3", LBits 0x1); ("metadata_reg_c_2", LBits 0x1);
    ("metadata_reg_c_1", LBits 0x1); ("metadata_reg_c_0", LBits 0x1) ].

Definition flow_table_prop_layout : layout :=
  LStruct [
    ("ft_support", LBits 0x1); ("flow_tag", LBits 0x1); ("flow_counter", LBits 0x1);
    ("flow_modify_en", LBits 0x1); ("modify_root", LBits 0x1);
    ("identified_miss_table", LBits 0x1); ("flow_table_modify", LBits 0x1);
    ("reformat", LBits 0x1); ("decap", LBits 0x1); ("reset_root_to_default", LBits 0x1);
    ("pop_vlan", LBits 0x1); ("push_vlan", LBits 0x1); ("fpga_vendor_acceleration", LBits 0x1);
    ("pop_vlan_2", LBits 0x1); ("push_vlan_2", LBits 0x1);
    ("reformat_and_vlan_action", LBits 0x1); ("modify_and_vlan_action", LBits 0x1);
    ("sw_owner", LBits 0x1); ("reformat_l3_tunnel_to_l2", LBits 0x1);
    ("reformat_l2_to_l3_tunnel", LBits 0x1); ("reformat_and_modify_action", LBits 0x1);
    ("ignore_flow_level", LBits 0x1); ("ip_type", LBits 0x1);
    ("table_miss_action_domain", LBits 0x1); ("termination_table", LBits 0x1);
    ("reformat_and_fwd_to_table", LBits 0x1); ("forward_vhca_rx", LBits 0x1);
    ("forward_vhca_tx", LBits 0x1); ("ipsec_encrypt", LBits 0x1); ("ipsec_decrypt", LBits 0x1);
    ("sw_owner_v2", LBits 0x1); ("reserved_at_1f", LBits 0x1); ("reserved_at_20", LBits 0x2);
    ("log_max_ft_size", LBits 0x6); ("log_max_modify_header_context", LBits 0x8);
    ("max_modify_header_actions", LBits 0x8); ("max_ft_level", LBits 0x8);
    ("reserved_at_40", LBits 0x10); ("metadata_reg_b_width", LBits 0x8);
    ("metadata_reg_a_width", LBits 0x8); ("reformat_l2_to_l3_psp_tunnel", LBits 0x1);
    ("reformat_l3_psp_tunnel_to_l2", LBits 0x1); ("reformat_insert", LBits 0x1);
    ("reformat_remove", LBits 0x1); ("macsec_encrypt", LBits 0x1);
    ("macsec_decrypt", LBits 0x1); ("psp_encrypt", LBits 0x1); ("psp_decrypt", LBits 0x1);
    ("reformat_and_macsec", LBits 0x1); ("reformat_remove_macsec", LBits 0x1);
    ("reparse", LBits 0x1); ("reserved_at_6b", LBits 0xd); ("log_max_ft_num", LBits 0x8);
    ("reserved_at_80", LBits 0x18); ("log_max_destination", LBits 0x8);
    ("log_max_flow_counter", LBits 0x8); ("reserved_at_a8", LBits 0x10);
    ("log_max_flow", LBits 0x8); ("reserved_at_c0", LBits 0x40);
    ("ft_field_support", flow_table_fields_supported);
    ("ft_field_bitmask_support", flow_table_fields_supported) ].

Definition header_modify_cap_properties : layout :=
  LStruct [
    ("set_action_field_support", flow_table_fields_supported); ("reserved_at_80", LBits 0x80);
    ("add_action_field_support", flow_table_fields_supported); ("reserved_at_180", LBits 0x80);
    ("copy_action_field_support", flow_table_fields_supported); ("reserved_at_280", LBits 0x80);
    ("reserved_at_300", LBits 0x100) ].

Definition flow_table_fields_supported_2 : layout :=
  LStruct [
    ("reserved_at_0", LBits 0x17); ("inner_l3_ok", LBits 0x1); ("inner_l4_ok", LBits 0x1);
    ("outer_l3_ok", LBits 0x1); ("outer_l4_ok", LBits 0x1); ("psp_header", LBits 0x1);
    ("inner_ipv4_checksum_ok", LBits 0x1); ("inner_l4_checksum_ok", LBits 0x1);
    ("outer_ipv4_checksum_ok", LBits 0x1); ("outer_l4_checksum_ok", LBits 0x1);
    ("reserved_at_20", LBits 0x60) ].

Definition flow_table_nic_cap : layout :=
  LStruct [
    ("nic_rx_multi_path_tirs", LBits 0x1); ("nic_rx_multi_path_tirs_fts", LBits 0x1);
    ("allow_sniffer_and_nic_rx_shared_tir", LBits 0x1); ("reserved_at_3", LBits 0x1);
    ("nic_rx_flow_tag_multipath_en", LBits 0x1); ("reserved_at_5", LBits 0x13);
    ("nic_receive_max_steering_depth", LBits 0x8); ("encap_general_header", LBits 0x1);
    ("reserved_at_21", LBits 0xa); ("log_max_packet_reformat_context", LBits 0x5);
    ("reserved_at_30", LBits 0x6); ("max_encap_header_size", LBits 0xa);
    ("reserved_at_40", LBits 0x1c0);
    ("flow_table_properties_nic_receive", flow_table_prop_layout);
    ("flow_table_properties_nic_receive_rdma", flow_table_prop_layout);
    ("flow_table_properties_nic_receive_sniffer", flow_table_prop_layout);
    ("flow_table_properties_nic_transmit", flow_table_prop_layout);
    ("flow_table_properties_nic_transmit_rdma", flow_table_prop_layout);
    ("flow_table_properties_nic_transmit_sniffer", flow_table_prop_layout);
    ("reserved_at_e00", LBits 0x200);
    ("header_modify_nic_receive", header_modify_cap_properties);
    ("ft_field_support_2_nic_receive", flow_table_fields_supported_2);
    ("ft_field_bitmask_support_2_nic_receive", flow_table_fields_supported_2);
    ("ft_field_support_2_nic_receive_rdma", flow_table_fields_supported_2);
    ("ft_field_bitmask_support_2_nic_receive_rdma", flow_table_fields_supported_2);
    ("ft_field_support_2_nic_receive_sniffer", flow_table_fields_supported_2);
    ("ft_field_bitmask_support_2_nic_receive_sniffer", flow_table_fields_supported_2);
    ("ft_field_support_2_nic_transmit", flow_table_fields_supported_2);
    ("ft_field_bitmask_support_2_nic_transmit", flow_table_fields_supported_2);
    ("ft_field_support_2_nic_transmit_rdma", flow_table_fields_supported_2);
    ("ft_field_bitmask_support_2_nic_transmit_rdma", flow_table_fields_supported_2);
    ("ft_field_support_2_nic_transmit_sniffer", flow_table_fields_supported_2);
    ("ft_field_bitmask_support_2_nic_transmit_sniffer", flow_table_fields_supported_2);
    ("reserved_at_1400", LBits 0x200);
    ("header_modify_nic_transmit", header_modify_cap_properties);
    ("sw_steering_nic_rx_action_drop_icm_address", LBits 0x40);
    ("sw_steering_nic_tx_action_drop_icm_address", LBits 0x40);
    ("sw_steering_nic_tx_action_allow_icm_address", LBits 0x40);
    ("reserved_at_20c0", LBits 0x5f40) ].

Definition flow_table_eswitch_cap : layout :=
  LStruct [
    ("reserved_at_0", LBits 0x200);
    ("flow_table_properties_nic_esw_fdb", flow_table_prop_layout);
    ("flow_table_properties_esw_acl_ingress", flow_table_prop_layout);
    ("flow_table_properties_esw_acl_egress", flow_table_prop_layout);
    ("reserved_at_800", LBits 0x7800) ].

Definition e_switch_cap : layout :=
  LStruct [
    ("vport_svlan_strip", LBits 0x1); ("vport_cvlan_strip", LBits 0x1);
    ("vport_svlan_insert", LBits 0x1); ("vport_cvlan_insert_if_not_exist", LBits 0x1);
    ("vport_cvlan_insert_overwrite", LBits 0x1); ("reserved_at_5", LBits 0x19);
    ("nic_vport_node_guid_modify", LBits 0x1); ("nic_vport_port_guid_modify", LBits 0x1);
    ("vxlan_encap_decap", LBits 0x1); ("nvgre_encap_decap", LBits 0x1);
    ("reserved_at_22", LBits 0x9); ("log_max_encap_headers", LBits 0x5);
    ("reserved_2b", LBits 0x6); ("max_encap_header_size", LBits 0xa);
    ("reserved_40", LBits 0x7c0) ].

Definition calc_op : layout :=
  LStruct [
    ("reserved_at_0", LBits 0x10); ("reserved_at_10", LBits 0x9);
    ("op_swap_endianness", LBits 0x1); ("op_min", LBits 0x1); ("op_xor", LBits 0x1);
    ("op_or", LBits 0x1); ("op_and", LBits 0x1); ("op_max", LBits 0x1); ("op_add", LBits 0x1) ].

Definition vector_calc_cap : layout :=
  LStruct [
    ("calc_matrix", LBits 0x1); ("reserved_at_1", LBits 0x1f); ("reserved_at_20", LBits 0x8);
    ("max_vec_count", LBits 0x8); ("reserved_at_30", LBits 0xd); ("max_chunk_size", LBits 0x3);
    ("calc0", calc_op); ("calc1", calc_op); ("calc2", calc_op); ("calc3", calc_op);
    ("reserved_at_e0", LBits 0x720) ].

Definition qos_cap : layout :=
  LStruct [
    ("packet_pacing", LBits 0x1); ("esw_scheduling", LBits 0x1); ("esw_bw_share", LBits 0x1);
    ("esw_rate_limit", LBits 0x1); ("reserved_at_4", LBits 0x1);
    ("packet_pacing_burst_bound", LBits 0x1); ("packet_pacing_typical_size", LBits 0x1);
    ("reserved_at_7", LBits 0x19); ("reserved_at_20", LBits 0x20);
    ("packet_pacing_max_rate", LBits 0x20); ("packet_pacing_min_rate", LBits 0x20);
    ("reserved_at_80", LBits 0x10); ("packet_pacing_rate_table_size", LBits 0x10);
    ("esw_element_type", LBits 0x10); ("esw_tsar_type", LBits 0x10);
    ("reserved_at_c0", LBits 0x10); ("max_qos_para_vport", LBits 0x10);
    ("max_tsar_bw_share", LBits 0x20); ("reserved_at_100", LBits 0x700) ].

Definition tls_cap : layout :=
  LStruct [
    ("tls_1_2_aes_gcm_128", LBits 0x1); ("tls_1_3_aes_gcm_128", LBits 0x1);
    ("tls_1_2_aes_gcm_256", LBits 0x1); ("tls_1_3_aes_gcm_256", LBits 0x1);
    ("reserved_at_4", LBits 0x1c); ("reserved_at_20", LBits 0x7e0) ].

Definition emulation_cap : layout :=
  LStruct [
    ("nvme_offload_type_doorbell_only", LBits 0x1); ("nvme_offload_type_sqe", LBits 0x1);
    ("reserved_at_0", LBits 0x1e); ("reserved_at_20", LBits 0x10);
    ("registers_size", LBits 0x10); ("reserved_at_40", LBits 0x7c0) ].

Definition ibq_cap : layout :=
  LStruct [
    ("ibq_wire_protocol", LBits 0x40); ("reserverd_at_40", LBits 0x28);
    ("ibq_max_scatter_offset", LBits 0x8); ("reserverd_at_70", LBits 0x10);
    ("reserverd_at_80", LBits 0x760) ].

Definition parse_graph_node_cap : layout :=
  LStruct [
    ("parse_graph_node_in", LBits 0x20); ("parse_graph_node_out", LBits 0x20);
    ("parse_graph_header_length_mode", LBits 0x10);
    ("parse_graph_flow_match_sample_offset_mode", LBits 0x10);
    ("max_num_parse_graph_arc_in", LBits 0x8); ("max_num_parse_graph_arc_out", LBits 0x8);
    ("max_num_parse_graph_flow_match_sample", LBits 0x8); ("reserved_at_78", LBits 0x7);
    ("parse_graph_flow_match_sample_id_in_out", LBits 0x1);
    ("max_parse_graph_header_length_base_value", LBits 0x10); ("reserved_at_90", LBits 0x8);
    ("max_parse_graph_flow_match_sample_field_base_offset_value", LBits 0x8);
    ("parse_graph_max_next_header_field_offset", LBits 0x10); ("reserved_at_b0", LBits 0x8);
    ("parse_graph_header_length_field_mask_width", LBits 0x8); ("reserved_at_c0", LBits 0x720) ].

Definition crypto_cap : layout :=
  LStruct [
    ("reserved_at_0", LBits 0x2); ("sw_wrapped_dek", LBits 0x1); ("synchronize_dek", LBits 0x1);
    ("int_kek_manual", LBits 0x1); ("int_kek_auto", LBits 0x1); ("reserved_at_6", LBits 0x1a);
    ("reserved_at_20", LBits 0x3); ("log_dek_max_alloc", LBits 0x5);
    ("reserved_at_28", LBits 0x3); ("log_max_num_deks", LBits 0x5);
    ("reserved_at_30", LBits 0x3); ("log_max_num_import_keks", LBits 0x5);
    ("reserved_at_38", LBits 0x8); ("reserved_at_40", LBits 0x20);
    ("reserved_at_60", LBits 0xB); ("log_max_num_int_kek", LBits 0x5);
    ("reserved_at_70", LBits 0x10); ("reserved_at_80", LBits 0x780) ].

Definition nvmeotcp_cap : layout :=
  LStruct [
    ("zerocopy", LBits 0x1); ("crc_rx", LBits 0x1); ("crc_tx", LBits 0x1);
    ("reserved_at_3", LBits 0x15); ("version", LBits 0x8); ("reserved_at_20", LBits 0x13);
    ("log_max_nvmeotcp_tag_buffer_table", LBits 0x5); ("reserved_at_38", LBits 0x3);
    ("log_max_nvmeotcp_tag_buffer_size", LBits 0x5); ("reserved_at_40", LBits 0x7c0) ].

Definition hca_cap_union : layout :=
  LUnion [
    ("cmd_hca_cap", cmd_hca_cap); ("cmd_hca_cap_2", cmd_hca_cap_2); ("odp_cap", odp_cap);
    ("atomic_caps", atomic_caps); ("roce_cap", roce_cap);
    ("per_protocol_networking_offload_caps", per_protocol_networking_offload_caps);
    ("flow_table_nic_cap", flow_table_nic_cap);
    ("flow_table_eswitch_cap", flow_table_eswitch_cap); ("e_switch_cap", e_switch_cap);
    ("vector_calc_cap", vector_calc_cap); ("qos_cap", qos_cap); ("tls_cap", tls_cap);
    ("emulation_cap", emulation_cap); ("ibq_cap", ibq_cap);
    ("parse_graph_node_cap", parse_graph_node_cap); ("crypto_cap", crypto_cap);
    ("nvmeotcp_cap", nvmeotcp_cap); ("reserved_at_0", LBits 0x8000) ].

Definition query_hca_cap_out : layout :=
  LStruct [
    ("status", LBits 0x8); ("reserved_at_8", LBits 0x18); ("syndrome", LBits 0x20);
    ("reserved_at_40", LBits 0x40); ("capability", hca_cap_union) ].

End cap.
