(* ===== verification/Dcmd.v ===== *)
(** * The dcmd layer (src/src/dcmd/linux)

    The wrappers of [mlx5dv] that libdpcp calls: [ctx::create_obj],
    [ctx::create_umem], [ctx::create_uar], the [obj], [umem] and [uar] classes
    and the packet-pacing handles.  The functions of [mlx5dv] and [ibverbs]
    themselves are not part of the repository: they are the operations of the
    class [DevX], an argument of everything built on them.

    Memory is explicit.  A [world] holds the device, the live heap blocks, the
    outcomes of the coming allocations and the calls made to the device so far.
    Releasing or dereferencing a block that is not live is undefined behaviour,
    the result [UB], never a value. *)

From S2P Require Import Prelude Codec Prm.

(** ** The device library *)

(** [struct mlx5dv_flow_matcher_attr], the fields that vary. *)
Record matcher_attr := mkMatcher {
  ma_priority : Z;
  ma_criteria_enable : Z;
  ma_mask : list Z
}.

(** [struct mlx5dv_flow_action_attr] *)
Inductive flow_action_attr : Type :=
| ActTag (v : Z)
| ActModify (action : Z)
| ActDest (obj : Z).

Class DevX (D : Type) := {
  mlx5dv_devx_obj_create : Z -> list Z -> list Z -> D -> option Z * list Z * D;
  mlx5dv_devx_obj_destroy : Z -> D -> Z * D;
  mlx5dv_devx_obj_modify : Z -> list Z -> list Z -> D -> Z * list Z * D;
  mlx5dv_devx_obj_query : Z -> list Z -> list Z -> D -> Z * list Z * D;
  mlx5dv_devx_general_cmd : Z -> list Z -> list Z -> D -> Z * list Z * D;
  mlx5dv_devx_umem_reg : Z -> Z -> Z -> Z -> D -> option Z * D;
  mlx5dv_devx_umem_dereg : Z -> D -> Z * D;
  devx_umem_id : Z -> D -> Z;
  MLX5_IB_UAPI_UAR_ALLOC_TYPE_BF : Z;
  MLX5_IB_UAPI_UAR_ALLOC_TYPE_NC : Z;
  mlx5dv_devx_alloc_uar : Z -> Z -> D -> option Z * D;
  mlx5dv_devx_free_uar : Z -> D -> D;
  devx_uar_page_id : Z -> D -> Z;
  devx_uar_base_addr : Z -> D -> Z;
  devx_uar_reg_addr : Z -> D -> Z;
  mlx5dv_pp_alloc : Z -> list Z -> D -> option Z * D;
  mlx5dv_pp_free : Z -> D -> D;
  devx_pp_index : Z -> D -> Z;
  ibv_reg_mr : Z -> Z -> Z -> Z -> D -> option Z * D;
  ibv_reg_mr_iova : Z -> Z -> Z -> Z -> Z -> D -> option Z * D;
  ibv_dereg_mr : Z -> D -> Z * D;
  ibv_mr_lkey : Z -> D -> Z;
  mlx5dv_create_flow_matcher : Z -> matcher_attr -> D -> option Z * D;
  mlx5dv_destroy_flow_matcher : Z -> D -> D;
  mlx5dv_create_flow_action_modify_header : Z -> list Z -> D -> option Z * D;
  mlx5dv_create_flow : Z -> list Z -> list flow_action_attr -> D -> option Z * D;
  ibv_destroy_flow : Z -> D -> D
}.

(** What the code relies on: the device fills the answer buffer it is given, it
    does not resize it. *)
Class DevXLaws (D : Type) `{DevX D} : Prop := {
  create_out_len c i o d : length (snd (fst (mlx5dv_devx_obj_create c i o d))) = length o;
  modify_out_len h i o d : length (snd (fst (mlx5dv_devx_obj_modify h i o d))) = length o;
  query_out_len h i o d : length (snd (fst (mlx5dv_devx_obj_query h i o d))) = length o
}.

(** ** The world *)

(** A live heap block: a buffer of [aligned_alloc], the storage of an object of
    libdpcp, or a dcmd object with its [m_handle]. *)
Inductive blk : Type :=
| BRaw (n : Z)
| BMem
| BObj (h : option Z)
| BUmem (h : Z)
| BUar (h : Z)
| BPp (h : option Z)
| BFlow (h matcher : Z)
(* objects of the Windows back end: a [dcmd::obj] also keeps its context, a
   [dcmd::umem] its number, a [dcmd::flow] the object of its modify action *)
| BWinObj (ctx : Z) (h : option Z)
| BWinUmem (h id : Z)
| BWinFlow (h : Z) (modify : option Z).

(** Calls to the device library, in the order they are made. *)
Inductive call : Type :=
| CObjCreate (inb : list Z) (r : option Z)
| CObjDestroy (h : Z)
| CObjModify (h : Z) (inb : list Z)
| CObjQuery (h : Z) (inb : list Z)
| CUmemReg (addr sz : Z) (r : option Z)
| CUmemDereg (h : Z)
| CUarAlloc (flags : Z) (r : option Z)
| CUarFree (h : Z)
| CPpAlloc (inb : list Z) (r : option Z)
| CPpFree (h : Z)
| CMrReg (addr sz : Z) (r : option Z)
| CMrDereg (h : Z)
| CMatcherCreate (a : matcher_attr) (r : option Z)
| CMatcherDestroy (m : Z)
| CActionCreate (actions : list Z) (r : option Z)
| CFlowCreate (m : Z) (value : list Z) (acts : list flow_action_attr) (r : option Z)
| CFlowDestroy (h : Z)
| CGeneralCmd (inb : list Z)
| CPdAlloc (r : option Z)
| CPdDealloc (h : Z)
| CQueryDevice
| CQueryEqn (vector : Z)
| CCloseDevice (ctx : Z)
| CRuleAdd (inb : list Z) (r : option Z)
| CRuleDel (h : Z)
| CChanCreate (r : option Z)
| CChanDestroy (ch : Z)
| CNotify (cq : Z) (solicited : bool)
| CGetEvent
| CAckEvents (cq n : Z)
| CFileOpen (r : option Z)
| CFileClose (h : Z)
| CIoEnable (cq : Z)
| CIoPark (ch cq : Z)
| CIoFlush (cq : Z).

Record world (D : Type) := mkWorld {
  dev : D;                 (* the device library *)
  heap : gmap Z blk;       (* live blocks *)
  next : Z;                (* the next fresh address *)
  oom : list bool;         (* coming allocations: [true] fails; all succeed at the end *)
  calls : list call        (* device calls so far, last first *)
}.
Arguments mkWorld {D}.
Arguments dev {D}.
Arguments heap {D}.
Arguments next {D}.
Arguments oom {D}.
Arguments calls {D}.

(** ** Computations *)

Inductive res (A : Type) : Type :=
| Ret (a : A)
| UB (why : string).
Arguments Ret {A}.
Arguments UB {A}.

Definition M (D A : Type) : Type := world D -> res (A * world D).

Definition ret {D A} (a : A) : M D A := fun w => Ret (a, w).

Definition bind {D A B} (m : M D A) (k : A -> M D B) : M D B :=
  fun w => match m w with Ret (a, w') => k a w' | UB e => UB e end.

Definition ub {D A} (why : string) : M D A := fun _ => UB why.

(** A value, or undefined behaviour. *)
Definition need {D A} (o : option A) (why : string) : M D A :=
  match o with Some a => ret a | None => ub why end.

Declare Scope m_scope.
Delimit Scope m_scope with m.
Notation "x <- m ;; k" := (bind m (fun x => k))
  (at level 100, m at next level, right associativity) : m_scope.
Set Warnings "-notation-incompatible-prefix".
Notation "' p <- m ;; k" := (bind m (fun x => match x with p => k end))
  (at level 100, p pattern, m at next level, right associativity) : m_scope.
Notation "m ;; k" := (bind m (fun _ => k)) (at level 100, right associativity) : m_scope.
Open Scope m_scope.

Section prims.
Context {D : Type}.

(** [new (std::nothrow)] and [aligned_alloc]: [None] is a null pointer. *)
Definition alloc (b : blk) : M D (option Z) := fun w =>
  match oom w with
  | true :: r => Ret (None, mkWorld (dev w) (heap w) (next w) r (calls w))
  | _ => Ret (Some (next w),
              mkWorld (dev w) (<[next w := b]> (heap w)) (next w + 1)
                      (tail (oom w)) (calls w))
  end.

(** [free] of a block that must be live. *)
Definition dealloc (p : Z) : M D unit := fun w =>
  match heap w !! p with
  | Some _ => Ret (tt, mkWorld (dev w) (delete p (heap w)) (next w) (oom w) (calls w))
  | None => UB "free of a block that is not live"
  end.

Definition load (p : Z) : M D blk := fun w =>
  match heap w !! p with
  | Some b => Ret (b, w)
  | None => UB "access to a block that is not live"
  end.

Definition store (p : Z) (b : blk) : M D unit := fun w =>
  match heap w !! p with
  | Some _ => Ret (tt, mkWorld (dev w) (<[p := b]> (heap w)) (next w) (oom w) (calls w))
  | None => UB "access to a block that is not live"
  end.

(** A call to the device library, recorded. *)
Definition device {A} (f : D -> A * D) (c : A -> call) : M D A := fun w =>
  let '(a, d) := f (dev w) in
  Ret (a, mkWorld d (heap w) (next w) (oom w) (c a :: calls w)).

(** A field of a device handle. *)
Definition peek {A} (f : D -> A) : M D A := fun w => Ret (f (dev w), w).
End prims.

Section dcmd.
Context {D : Type} `{DevX D}.

Definition DCMD_EOK : Z := 0.
Definition DCMD_EIO : Z := 5.

(** ** [dcmd::obj] *)

(** [ctx::exec_cmd]: the result and the answer buffer. *)
Definition exec_cmd (ctx : Z) (inb outb : list Z) : M D (Z * list Z) :=
  '(r, o) <- device (fun d => let '(r, o, d') := mlx5dv_devx_general_cmd ctx inb outb d in
                              ((r, o), d')) (fun _ => CGeneralCmd inb);;
  ret (if r =? 0 then DCMD_EOK else DCMD_EIO, o).

(** [ctx::create_obj]: [new obj(m_handle, desc)]; a constructor that throws
    releases the storage and the result is null.  The answer buffer is
    returned too. *)
Definition create_obj (ctx : Z) (inb outb : list Z) : M D (option Z * list Z) :=
  p <- alloc (BObj None);;
  match p with
  | None => ret (None, outb)
  | Some p =>
      '(h, out') <- device (fun d => let '(h, o, d') := mlx5dv_devx_obj_create ctx inb outb d in
                                     ((h, o), d'))
                           (fun r => CObjCreate inb (fst r));;
      match h with
      | None => dealloc p;; ret (None, out')
      | Some h => store p (BObj (Some h));; ret (Some p, out')
      end
  end.

(** [obj::destroy] *)
Definition dobj_destroy (p : Z) : M D Z :=
  b <- load p;;
  match b with
  | BObj (Some h) =>
      r <- device (mlx5dv_devx_obj_destroy h) (fun _ => CObjDestroy h);;
      store p (BObj None);; ret r
  | BObj None => ret DCMD_EOK
  | _ => ub "not a dcmd::obj"
  end.

(** [delete] of a [dcmd::obj*]: the destructor calls [destroy]. *)
Definition delete_obj (p : option Z) : M D unit :=
  match p with
  | None => ret tt
  | Some p => _ <- dobj_destroy p;; dealloc p
  end.

(** [obj::query], [obj::modify]: the [mlx5dv] result folded to EIO or EOK. *)
Definition dobj_query (p : Z) (inb outb : list Z) : M D (Z * list Z) :=
  b <- load p;;
  match b with
  | BObj (Some h) =>
      '(r, o) <- device (fun d => let '(r, o, d') := mlx5dv_devx_obj_query h inb outb d in
                                  ((r, o), d')) (fun _ => CObjQuery h inb);;
      ret (if r =? 0 then DCMD_EOK else DCMD_EIO, o)
  | _ => ub "query of a null device handle"
  end.

Definition dobj_modify (p : Z) (inb outb : list Z) : M D (Z * list Z) :=
  b <- load p;;
  match b with
  | BObj (Some h) =>
      '(r, o) <- device (fun d => let '(r, o, d') := mlx5dv_devx_obj_modify h inb outb d in
                                  ((r, o), d')) (fun _ => CObjModify h inb);;
      ret (if r =? 0 then DCMD_EOK else DCMD_EIO, o)
  | _ => ub "modify of a null device handle"
  end.

(** ** [dcmd::umem] *)

Definition create_umem (ctx addr sz access : Z) : M D (option Z) :=
  p <- alloc BMem;;
  match p with
  | None => ret None
  | Some p =>
      h <- device (mlx5dv_devx_umem_reg ctx addr sz access) (CUmemReg addr sz);;
      match h with
      | None => dealloc p;; ret None
      | Some h => store p (BUmem h);; ret (Some p)
      end
  end.

Definition delete_umem (p : option Z) : M D unit :=
  match p with
  | None => ret tt
  | Some p =>
      b <- load p;;
      match b with
      | BUmem h =>
          _ <- device (mlx5dv_devx_umem_dereg h) (fun _ => CUmemDereg h);;
          dealloc p
      | _ => ub "not a dcmd::umem"
      end
  end.

Definition umem_get_id (p : Z) : M D Z :=
  b <- load p;;
  match b with
  | BUmem h => peek (devx_umem_id h)
  | _ => ub "not a dcmd::umem"
  end.

(** ** [dcmd::uar] *)

(** BlueFlame first, then No Cache. *)
Definition create_uar (ctx flags : Z) : M D (option Z) :=
  p <- alloc BMem;;
  match p with
  | None => ret None
  | Some p =>
      let f1 := Z.land (Z.lor flags MLX5_IB_UAPI_UAR_ALLOC_TYPE_BF)
                       (Z.lnot MLX5_IB_UAPI_UAR_ALLOC_TYPE_NC) in
      h <- device (mlx5dv_devx_alloc_uar ctx f1) (CUarAlloc f1);;
      match h with
      | Some h => store p (BUar h);; ret (Some p)
      | None =>
          let f2 := Z.land (Z.lor f1 MLX5_IB_UAPI_UAR_ALLOC_TYPE_NC)
                           (Z.lnot MLX5_IB_UAPI_UAR_ALLOC_TYPE_BF) in
          h <- device (mlx5dv_devx_alloc_uar ctx f2) (CUarAlloc f2);;
          match h with
          | Some h => store p (BUar h);; ret (Some p)
          | None => dealloc p;; ret None
          end
      end
  end.

Definition delete_uar (p : option Z) : M D unit :=
  match p with
  | None => ret tt
  | Some p =>
      b <- load p;;
      match b with
      | BUar h => _ <- device (fun d => (tt, mlx5dv_devx_free_uar h d)) (fun _ => CUarFree h);;
                  dealloc p
      | _ => ub "not a dcmd::uar"
      end
  end.

Definition uar_handle (p : Z) : M D Z :=
  b <- load p;;
  match b with BUar h => ret h | _ => ub "not a dcmd::uar" end.

Definition uar_get_id (p : Z) : M D Z := h <- uar_handle p;; peek (devx_uar_page_id h).
Definition uar_get_page (p : Z) : M D Z := h <- uar_handle p;; peek (devx_uar_base_addr h).
Definition uar_get_reg (p : Z) : M D Z := h <- uar_handle p;; peek (devx_uar_reg_addr h).

(** [::aligned_free]: [free], a null pointer is ignored. *)
Definition aligned_free (p : option Z) : M D unit :=
  match p with None => ret tt | Some p => dealloc p end.

(** ** Memory regions of verbs *)

(** [ctx::ibv_reg_mem_reg], [ctx::ibv_reg_mem_reg_iova], [ctx::ibv_dereg_mem_reg] *)
Definition ibv_reg_mem_reg (pd addr len access : Z) : M D (option Z) :=
  device (ibv_reg_mr pd addr len access) (CMrReg addr len).
Definition ibv_reg_mem_reg_iova (pd addr len iova access : Z) : M D (option Z) :=
  device (ibv_reg_mr_iova pd addr len iova access) (CMrReg addr len).
Definition ibv_dereg_mem_reg (mr : Z) : M D Z := device (ibv_dereg_mr mr) (fun _ => CMrDereg mr).

(** ** [dcmd::flow] *)

Definition MLX5_CREATE_FLOW_GROUP_IN_MATCH_CRITERIA_ENABLE_OUTER_HEADERS : Z := 0.

(** [struct flow_desc]; an entry of [dst_obj] that was never stored to is [None].
    [dst_formats] is left out: this back end does not read it. *)
Record flow_desc := mkFlowDesc {
  match_criteria : list Z;
  match_value : list Z;
  dst_obj : list (option Z);
  flow_id : Z;
  fd_priority : Z;
  modify_actions : option (list Z)
}.

(** The modify-header action of a flow: none asked for, refused, or created. *)
Definition flow_modify (ctx : Z) (ma : option (list Z)) : M D (option (list flow_action_attr)) :=
  match ma with
  | None => ret (Some [])
  | Some ma =>
      a <- device (mlx5dv_create_flow_action_modify_header ctx ma) (CActionCreate ma);;
      ret (match a with None => None | Some a => Some [ActModify a] end)
  end.

Definition flow_tag (id : Z) : list flow_action_attr := if id =? 0 then [] else [ActTag id].

(** [new flow(m_handle, desc)] in [ctx::create_flow]; a constructor that throws
    releases the storage and the result is null.  When it is the modify action
    that failed, the matcher is left behind. *)
Definition create_flow (ctx : Z) (desc : flow_desc) : M D (option Z) :=
  p <- alloc BMem;;
  match p with
  | None => ret None
  | Some p =>
      let attr := mkMatcher (fd_priority desc)
        (Z.shiftl 1 MLX5_CREATE_FLOW_GROUP_IN_MATCH_CRITERIA_ENABLE_OUTER_HEADERS)
        (match_criteria desc) in
      m <- device (mlx5dv_create_flow_matcher ctx attr) (CMatcherCreate attr);;
      match m with
      | None => dealloc p;; ret None
      | Some m =>
          acts <- flow_modify ctx (modify_actions desc);;
          match acts with
          | None => dealloc p;; ret None
          | Some acts =>
              dst <- need (mapM id (dst_obj desc)) "uninitialised destination";;
              let all := flow_tag (flow_id desc) ++ acts ++ map ActDest dst in
              f <- device (mlx5dv_create_flow m (match_value desc) all)
                          (CFlowCreate m (match_value desc) all);;
              match f with
              | None =>
                  _ <- device (fun d => (tt, mlx5dv_destroy_flow_matcher m d))
                              (fun _ => CMatcherDestroy m);;
                  dealloc p;; ret None
              | Some f => store p (BFlow f m);; ret (Some p)
              end
          end
      end
  end.

(** [delete] of a [dcmd::flow*] *)
Definition delete_flow (p : option Z) : M D unit :=
  match p with
  | None => ret tt
  | Some p =>
      b <- load p;;
      match b with
      | BFlow f m =>
          _ <- device (fun d => (tt, ibv_destroy_flow f d)) (fun _ => CFlowDestroy f);;
          _ <- device (fun d => (tt, mlx5dv_destroy_flow_matcher m d)) (fun _ => CMatcherDestroy m);;
          dealloc p
      | _ => ub "not a dcmd::flow"
      end
  end.
End dcmd.

(** ** Reasoning about computations

    [wp m Q w]: [m] run in [w] has no undefined behaviour and ends in a value and
    a world that satisfy [Q]. *)

Definition wp {D A} (m : M D A) (Q : A -> world D -> Prop) (w : world D) : Prop :=
  match m w with Ret (a, w') => Q a w' | UB _ => False end.

(** Addresses from [next] on are not in use. *)
Definition fresh_ok {D} (w : world D) : Prop :=
  forall p, next w <= p -> heap w !! p = None.

Section wp.
Context {D : Type}.
Implicit Types w : world D.

Lemma wp_ret {A} (a : A) (Q : A -> world D -> Prop) w : Q a w -> wp (ret a) Q w.
Proof. done. Qed.

Lemma wp_bind {A B} (m : M D A) (k : A -> M D B) Q w :
  wp m (fun a w' => wp (k a) Q w') w -> wp (bind m k) Q w.
Proof. unfold wp, bind. by destruct (m w) as [[a w']|]. Qed.

Lemma wp_bind_inv {A B} (m : M D A) (k : A -> M D B) Q w :
  wp (bind m k) Q w -> wp m (fun a w' => wp (k a) Q w') w.
Proof. unfold wp, bind. by destruct (m w) as [[a w']|]. Qed.

Lemma wp_mono {A} (m : M D A) (Q R : A -> world D -> Prop) w :
  (forall a w', Q a w' -> R a w') -> wp m Q w -> wp m R w.
Proof. unfold wp. intros HQ. destruct (m w) as [[a w']|]; auto. Qed.

(** The run itself, besides what is known of it. *)
Lemma wp_eq {A} (m : M D A) (Q : A -> world D -> Prop) w :
  wp m Q w -> wp m (fun a w' => Q a w' /\ m w = Ret (a, w')) w.
Proof. unfold wp. by destruct (m w) as [[a w']|]. Qed.

Lemma wp_and {A} (m : M D A) (Q R : A -> world D -> Prop) w :
  wp m Q w -> wp m R w -> wp m (fun a w' => Q a w' /\ R a w') w.
Proof. unfold wp. by destruct (m w) as [[a w']|]. Qed.

Lemma wp_alloc b Q w :
  fresh_ok w ->
  (forall w', fresh_ok w' -> heap w' = heap w -> calls w' = calls w -> dev w' = dev w ->
              next w' = next w -> Q None w') ->
  (forall p w', fresh_ok w' -> p = next w -> heap w !! p = None ->
                heap w' = <[p := b]> (heap w) -> calls w' = calls w -> dev w' = dev w ->
                next w' = next w + 1 -> Q (Some p) w') ->
  wp (alloc b) Q w.
Proof.
  intros Hf HN HS. unfold wp, alloc.
  assert (fresh_ok (mkWorld (dev w) (<[next w:=b]> (heap w)) (next w + 1)
                            (tail (oom w)) (calls w))) as Hf'.
  { intros p Hp. simpl in *. rewrite lookup_insert_ne by lia. apply Hf. lia. }
  destruct (oom w) as [|[] r]; [|by apply HN|];
    (apply HS; [exact Hf'|done|apply Hf; lia|done..]).
Qed.

Lemma wp_dealloc p b Q w :
  heap w !! p = Some b ->
  (forall w', heap w' = delete p (heap w) -> next w' = next w -> calls w' = calls w ->
              dev w' = dev w -> oom w' = oom w -> Q tt w') ->
  wp (dealloc p) Q w.
Proof. unfold wp, dealloc. intros -> HQ. by apply HQ. Qed.

Lemma wp_load p b Q w : heap w !! p = Some b -> Q b w -> wp (load p) Q w.
Proof. unfold wp, load. by intros ->. Qed.

Lemma wp_store p b b' Q w :
  heap w !! p = Some b ->
  (forall w', heap w' = <[p := b']> (heap w) -> next w' = next w -> calls w' = calls w ->
              dev w' = dev w -> oom w' = oom w -> Q tt w') ->
  wp (store p b') Q w.
Proof. unfold wp, store. intros -> HQ. by apply HQ. Qed.

Lemma wp_device {A} (f : D -> A * D) (c : A -> call) Q w :
  (forall a d w', f (dev w) = (a, d) -> heap w' = heap w -> next w' = next w ->
                  oom w' = oom w -> calls w' = c a :: calls w -> dev w' = d -> Q a w') ->
  wp (device f c) Q w.
Proof.
  unfold wp, device. destruct (f (dev w)) as [a d] eqn:E. intros HQ. by apply (HQ a d).
Qed.

Lemma wp_peek {A} (f : D -> A) Q w : Q (f (dev w)) w -> wp (peek f) Q w.
Proof. done. Qed.
End wp.

(** Host memory operations make no device call. *)
Lemma wp_alloc_calls {D} b (Q : option Z -> world D -> Prop) w :
  wp (alloc b) Q w -> wp (alloc b) (fun p w' => Q p w' /\ calls w' = calls w) w.
Proof. unfold wp, alloc. by destruct (oom w) as [|[] r]. Qed.

Lemma wp_dealloc_calls {D} p (Q : unit -> world D -> Prop) w :
  wp (dealloc p) Q w -> wp (dealloc p) (fun u w' => Q u w' /\ calls w' = calls w) w.
Proof. unfold wp, dealloc. by destruct (heap w !! p). Qed.

(** [fails m w]: [m] run in [w] has undefined behaviour. *)
Definition fails {D A} (m : M D A) (w : world D) : Prop := exists e, m w = UB e.

Section fails.
Context {D : Type}.
Implicit Types w : world D.

Lemma fails_bind {A B} (m : M D A) (k : A -> M D B) w :
  wp m (fun a w' => fails (k a) w') w -> fails (bind m k) w.
Proof. unfold wp, fails, bind. destruct (m w) as [[a w']|]; [done|]. by eexists. Qed.

Lemma fails_head {A B} (m : M D A) (k : A -> M D B) w : fails m w -> fails (bind m k) w.
Proof. intros [e He]. exists e. unfold bind. by rewrite He. Qed.

Lemma fails_dealloc p w : heap w !! p = None -> fails (dealloc p) w.
Proof. intros Hp. unfold fails, dealloc. rewrite Hp. by eexists. Qed.
End fails.

(** [returns P m]: whatever the world, the value [m] returns satisfies [P]. *)
Definition returns {D A} (P : A -> Prop) (m : M D A) : Prop :=
  forall w, match m w with Ret (a, _) => P a | UB _ => True end.

Section returns.
Context {D : Type}.

Lemma returns_bind {A B} (P : B -> Prop) (m : M D A) k : (forall a, returns P (k a)) -> returns P (bind m k).
Proof. intros Hk w. unfold bind. destruct (m w) as [[a w1]|]; [|done]. apply Hk. Qed.

Lemma returns_ret {A} (P : A -> Prop) a : P a -> returns (D := D) P (ret a).
Proof. by intros ? w. Qed.

Lemma returns_run {A} (P : A -> Prop) (m : M D A) w a w' : returns P m -> m w = Ret (a, w') -> P a.
Proof. intros Hm E. specialize (Hm w). by rewrite E in Hm. Qed.
End returns.

(** [wlp m Q w]: when [m] run in [w] ends, it ends in [Q]. *)
Definition wlp {D A} (m : M D A) (Q : A -> world D -> Prop) (w : world D) : Prop :=
  match m w with Ret (a, w') => Q a w' | UB _ => True end.

Section wlp.
Context {D : Type}.
Implicit Types w : world D.

Lemma wlp_ret {A} (a : A) (Q : A -> world D -> Prop) w : Q a w -> wlp (ret a) Q w.
Proof. done. Qed.

Lemma wlp_bind {A B} (m : M D A) (k : A -> M D B) Q w :
  wlp m (fun a w' => wlp (k a) Q w') w -> wlp (bind m k) Q w.
Proof. unfold wlp, bind. by destruct (m w) as [[a w']|]. Qed.

(** Whatever the first part does. *)
Lemma wlp_any {A B} (m : M D A) (k : A -> M D B) Q w : (forall a w', wlp (k a) Q w') -> wlp (bind m k) Q w.
Proof. intros Hk. apply wlp_bind. unfold wlp at 1. destruct (m w) as [[a w']|]; [apply Hk|done]. Qed.

Lemma wlp_mono {A} (m : M D A) (Q R : A -> world D -> Prop) w :
  (forall a w', Q a w' -> R a w') -> wlp m Q w -> wlp m R w.
Proof. unfold wlp. intros HQ. destruct (m w) as [[a w']|]; auto. Qed.

Lemma wp_wlp {A} (m : M D A) (Q R : A -> world D -> Prop) w :
  wp m Q w -> wlp m R w -> wp m (fun a w' => Q a w' /\ R a w') w.
Proof. unfold wp, wlp. by destruct (m w) as [[a w']|]. Qed.
End wlp.

(** Rewrite the heap equations of the worlds passed through. *)
Ltac heap_eqs :=
  repeat match goal with
    | H : heap ?w = _ |- context [heap ?w] => rewrite H
    end.
