(* ===== verification/Own.v ===== *)
(** * Ownership of heap blocks

    [own l h w] says that, in the world [w], the caller holds exactly the live
    blocks listed in [l], each of the kind listed with it, on top of the heap
    [h] it must not touch.  A computation that ends in [own [] h] has given back
    everything it allocated.  The rules below are those of the primitive
    operations and of the dcmd constructors and destructors; the order of [l]
    does not matter. *)

From S2P Require Import Prelude Dcmd.

(** What a block is, without the device handle in it. *)
Inductive kind : Type := KRaw | KMem | KObj | KUmem | KUar | KPp | KFlow | KWinObj | KWinUmem | KWinFlow.

Definition kind_of (b : blk) : kind :=
  match b with
  | BRaw _ => KRaw | BMem => KMem | BObj _ => KObj
  | BUmem _ => KUmem | BUar _ => KUar | BPp _ => KPp | BFlow _ _ => KFlow
  | BWinObj _ _ => KWinObj | BWinUmem _ _ => KWinUmem | BWinFlow _ _ => KWinFlow
  end.

Definition live {D} (w : world D) (pk : Z * kind) : Prop :=
  exists b, heap w !! pk.1 = Some b /\ kind_of b = pk.2.

Lemma kind_obj b : kind_of b = KObj -> exists h, b = BObj h.
Proof. destruct b; try done. by eexists. Qed.

Lemma kind_pp b : kind_of b = KPp -> exists h, b = BPp h.
Proof. destruct b; try done. by eexists. Qed.

(** The heap without the listed blocks. *)
Definition without (ps : list Z) (h : gmap Z blk) : gmap Z blk :=
  filter (fun pb => pb.1 ∉ ps) h.

Definition own {D} (l : list (Z * kind)) (h : gmap Z blk) (w : world D) : Prop :=
  fresh_ok w /\ NoDup l.*1 /\ Forall (live w) l /\ without l.*1 (heap w) = h.

#[global] Instance own_perm {D} : Proper (Permutation ==> eq ==> eq ==> iff) (@own D).
Proof.
  assert (forall (h : gmap Z blk) (w : world D) l l', l ≡ₚ l' -> own l h w -> own l' h w) as P.
  { intros h w l l' Hl (Hf & Hn & Ha & <-). split_and!; [done| | |].
    - by rewrite <- Hl.
    - by rewrite <- Hl.
    - unfold without. apply map_filter_ext. intros i x _. simpl. by rewrite Hl. }
  intros l l' Hl h ? <- w ? <-. split; apply P; [done|by symmetry].
Qed.

Lemma lookup_without ps h i :
  without ps h !! i = if decide (i ∈ ps) then None else h !! i.
Proof.
  unfold without. destruct (decide (i ∈ ps)) as [Hi|Hi].
  - apply map_lookup_filter_None. right. intros x _. naive_solver.
  - destruct (h !! i) as [x|] eqn:E.
    + by apply map_lookup_filter_Some.
    + apply map_lookup_filter_None. by left.
Qed.

Lemma without_nil h : without [] h = h.
Proof. apply map_eq. intros i. rewrite lookup_without. case_decide; set_solver. Qed.

Lemma without_delete p ps h : without ps (delete p h) = without (p :: ps) h.
Proof.
  apply map_eq. intros i. rewrite !lookup_without.
  destruct (decide (i = p)) as [->|]; rewrite ?lookup_delete_eq, ?lookup_delete_ne by done;
    repeat case_decide; set_solver.
Qed.

Lemma without_insert p b ps h : p ∈ ps -> without ps (<[p := b]> h) = without ps h.
Proof.
  intros Hp. apply map_eq. intros i. rewrite !lookup_without.
  case_decide; [done|]. rewrite lookup_insert_ne by naive_solver. done.
Qed.

Lemma without_fresh p b ps h :
  h !! p = None -> without (p :: ps) (<[p := b]> h) = without ps h.
Proof.
  intros Hp. rewrite <- without_delete. f_equal. by apply delete_insert_id.
Qed.

Lemma own_nil {D} (w : world D) : fresh_ok w -> own [] (heap w) w.
Proof. intros. split_and!; [done|apply NoDup_nil_2|done|apply without_nil]. Qed.

Lemma own_nil_heap {D} h (w : world D) : own [] h w -> heap w = h.
Proof. intros (_ & _ & _ & <-). by rewrite without_nil. Qed.

Lemma own_live {D} p k l h (w : world D) : own ((p, k) :: l) h w -> live w (p, k).
Proof. intros (_ & _ & Ha & _). by inversion Ha. Qed.

Lemma own_fresh {D} l h (w : world D) : own l h w -> fresh_ok w.
Proof. by intros [? _]. Qed.

(** What is not owned is as it was. *)
Lemma own_frame {D} p b l h (w : world D) :
  own l h w -> h !! p = Some b -> heap w !! p = Some b.
Proof.
  intros (_ & _ & _ & <-). rewrite lookup_without. by case_decide.
Qed.

(** A block that was given up is dead. *)
Lemma own_dead {D} p k l h (w w' : world D) :
  own ((p, k) :: l) h w -> own l h w' -> heap w' !! p = None.
Proof.
  intros (_ & Hn & _ & <-) (_ & _ & _ & He). csimpl in *. apply list.NoDup_cons in Hn as [Hp _].
  assert (without l.*1 (heap w') !! p = None) as E.
  { rewrite He, lookup_without. case_decide; [done|set_solver]. }
  rewrite lookup_without in E. by case_decide.
Qed.

(** Worlds with the same heap and allocation pointer own the same. *)
Lemma own_same {D} l h (w w' : world D) :
  heap w' = heap w -> next w' = next w -> own l h w -> own l h w'.
Proof.
  intros Hh Hn (Hf & Hd & Ha & He). split_and!; [|done| |by rewrite Hh].
  - intros p. rewrite Hh, Hn. apply Hf.
  - revert Ha. apply Forall_impl. intros pk. unfold live. by rewrite Hh.
Qed.

Lemma live_update {D} (w w' : world D) p l :
  (forall q, q <> p -> heap w' !! q = heap w !! q) -> p ∉ l.*1 ->
  Forall (live w) l -> Forall (live w') l.
Proof.
  intros Hq Hp Ha. rewrite list.Forall_forall in *. intros [q k] Hin.
  destruct (Ha _ Hin) as (b & Hb & Hk). exists b. simpl in *. rewrite Hq; [done|].
  intros ->. apply Hp. apply list_elem_of_fmap. by exists (p, k).
Qed.

(** Moving a block between what is owned and the rest of the heap. *)
Lemma own_give {D} p k b l h (w : world D) :
  own ((p, k) :: l) h w -> heap w !! p = Some b -> own l (<[p := b]> h) w /\ h !! p = None.
Proof.
  intros (Hf & Hn & Ha & <-) Hb. csimpl in *. apply list.NoDup_cons in Hn as [Hp Hn].
  inversion Ha; subst. split; [|rewrite lookup_without; case_decide; set_solver].
  split_and!; try done. apply map_eq. intros i. destruct (decide (i = p)) as [->|Hi].
  - rewrite lookup_insert_eq, lookup_without. by case_decide.
  - rewrite lookup_insert_ne, !lookup_without by done. repeat case_decide; set_solver.
Qed.

Lemma own_take {D} p b l h (w : world D) :
  own l (<[p := b]> h) w -> h !! p = None -> own ((p, kind_of b) :: l) h w.
Proof.
  intros (Hf & Hn & Ha & He) Hp.
  assert (without l.*1 (heap w) !! p = Some b) as E by (by rewrite He, lookup_insert_eq).
  rewrite lookup_without in E. case_decide as Hin; [done|].
  split_and!; [done|csimpl; by apply list.NoDup_cons|constructor; [by exists b|done]|].
  csimpl. rewrite <- without_delete. apply map_eq. intros i.
  assert (without l.*1 (heap w) !! i = (<[p:=b]> h) !! i) as Ei by (by rewrite He).
  rewrite !lookup_without in *. destruct (decide (i = p)) as [->|Hi].
  - rewrite lookup_delete_eq, Hp. by case_decide.
  - rewrite lookup_delete_ne by done. by rewrite lookup_insert_ne in Ei.
Qed.

(** The frame rule: what is done with [F] alone leaves the rest of what is owned as
    it was. *)
Lemma own_split {D} L : forall (F : list (Z * kind)) h (w : world D), own (F ++ L) h w ->
  exists H, own F H w /\ forall F' (w' : world D), own F' H w' ->
    own (F' ++ L) h w' /\ forall p, p ∈ L.*1 -> heap w' !! p = heap w !! p.
Proof.
  induction L as [|[p k] L IH]; intros F h w Ho.
  - exists h. rewrite app_nil_r in Ho. split; [done|]. intros F' w' Ho'. rewrite app_nil_r. split; [done|]. set_solver.
  - rewrite <- Permutation_middle in Ho. destruct (own_live _ _ _ _ _ Ho) as (b & Hb & Hk). simpl in Hb, Hk.
    destruct (own_give _ _ _ _ _ _ Ho Hb) as [Ho1 Hp]. destruct (IH _ _ _ Ho1) as (H & HF & Hrest).
    exists H. split; [done|]. intros F' w' Ho'. destruct (Hrest F' w' Ho') as [Ho2 Hsame].
    split.
    + rewrite <- Permutation_middle, <- Hk. by apply own_take.
    + csimpl. intros q [->|Hq]%elem_of_cons; [|by apply Hsame]. rewrite Hb.
      eapply own_frame; [exact Ho2|]. apply lookup_insert_eq.
Qed.

Section rules.
Context {D : Type}.
Implicit Types (w : world D) (l : list (Z * kind)) (h : gmap Z blk).

Lemma own_alloc b l h Q w :
  own l h w ->
  (forall w', own l h w' -> Q None w') ->
  (forall p w', own ((p, kind_of b) :: l) h w' -> Q (Some p) w') ->
  wp (alloc b) Q w.
Proof.
  intros (Hf & Hd & Ha & He) HN HS. apply wp_alloc; [done| |].
  - intros w' Hf' Hh' _ _ Hn'. apply HN. apply (own_same _ _ w); [done|done|by split_and!].
  - intros p w' Hf' -> Hp Hh' _ _ _. apply HS. 
    assert (next w ∉ l.*1) as Hni.
    { intros [[q k] [Hq Hin]]%list_elem_of_fmap. rewrite list.Forall_forall in Ha.
      destruct (Ha _ Hin) as (x & Hx & _). simpl in *. congruence. }
    split_and!; [done| | |].
    + csimpl. by constructor.
    + constructor; [exists b; by rewrite Hh', lookup_insert_eq|].
      apply (live_update w w' (next w)); [|done|done].
      intros q Hq. by rewrite Hh', lookup_insert_ne.
    + csimpl. by rewrite Hh', without_fresh.
Qed.

Lemma own_dealloc p k l h Q w :
  own ((p, k) :: l) h w -> (forall w', own l h w' -> Q tt w') -> wp (dealloc p) Q w.
Proof.
  intros (Hf & Hd & Ha & He) HQ. inversion Ha as [|? ? (b & Hb & Hk) Ha']; subst.
  csimpl in *. apply list.NoDup_cons in Hd as [Hni Hd].
  eapply wp_dealloc; [exact Hb|]. intros w' Hh' Hn' _ _ _. apply HQ. split_and!; [|done| |].
  - intros q Hq. rewrite Hh'. rewrite lookup_delete_None. right. apply Hf. lia.
  - apply (live_update w w' p); [|done|done]. intros q Hq. by rewrite Hh', lookup_delete_ne.
  - by rewrite Hh', without_delete.
Qed.

Lemma own_store p k b l h Q w :
  own ((p, k) :: l) h w -> (forall w', own ((p, kind_of b) :: l) h w' -> Q tt w') ->
  wp (store p b) Q w.
Proof.
  intros (Hf & Hd & Ha & He) HQ. inversion Ha as [|? ? (b0 & Hb & Hk) Ha']; subst.
  csimpl in *. pose proof (proj1 (list.NoDup_cons _ _) Hd) as [Hni _].
  eapply wp_store; [exact Hb|]. intros w' Hh' Hn' _ _ _. apply HQ. split_and!; [|done| |].
  - intros q Hq. rewrite Hh'. rewrite lookup_insert_ne; [apply Hf; lia|].
    intros ->. rewrite Hf in Hb by lia. done.
  - constructor; [exists b; by rewrite Hh', lookup_insert_eq|].
    apply (live_update w w' p); [|done|done]. intros q Hq. by rewrite Hh', lookup_insert_ne.
  - csimpl. rewrite Hh', without_insert; [done|set_solver].
Qed.

Lemma own_load p k l h Q w :
  own ((p, k) :: l) h w -> (forall b, kind_of b = k -> Q b w) -> wp (load p) Q w.
Proof.
  intros Ho HQ. destruct (own_live _ _ _ _ _ Ho) as (b & Hb & Hk).
  eapply wp_load; [exact Hb|]. by apply HQ.
Qed.

Lemma own_device {A} (f : D -> A * D) (c : A -> call) l h Q w :
  own l h w -> (forall a w', own l h w' -> Q a w') -> wp (device f c) Q w.
Proof.
  intros Ho HQ. apply wp_device. intros a d w' _ Hh Hn _ _ _. apply HQ.
  by apply (own_same _ _ w).
Qed.

Lemma own_peek {A} (f : D -> A) l h Q w :
  own l h w -> (forall a, Q a w) -> wp (peek f) Q w.
Proof. intros _ HQ. by apply wp_peek. Qed.

(** No allocation to come fails. *)
Definition plenty w : Prop := Forall (eq false) (oom w).

(** The rules that keep the device and the coming allocations in sight. *)
Lemma alloc_track x l h Q w :
  own l h w ->
  (forall w', own l h w' -> dev w' = dev w -> ~ plenty w -> Q None w') ->
  (forall p w', own ((p, kind_of x) :: l) h w' -> dev w' = dev w -> (plenty w -> plenty w') -> Q (Some p) w') ->
  wp (alloc x) Q w.
Proof.
  intros Ho HN HS.
  pose proof (own_alloc x l h (fun r w' => alloc x w = Ret (r, w') ->
    match r with Some p => own ((p, kind_of x) :: l) h w' | None => own l h w' end) w Ho) as Hown.
  unfold wp, alloc in *. unfold plenty in *. destruct (oom w) as [|[] r] eqn:E; cbv beta iota in *.
  - apply HS; [apply Hown; by intros|done|by intros _].
  - apply HN; [apply Hown; by intros|done|]. intros Hf. by inversion Hf.
  - apply HS; [apply Hown; by intros|done|]. intros Hf. by inversion Hf.
Qed.

Lemma dealloc_track p k l h Q w :
  own ((p, k) :: l) h w -> (forall w', own l h w' -> dev w' = dev w -> oom w' = oom w -> Q tt w') -> wp (dealloc p) Q w.
Proof.
  intros Ho HQ. pose proof (own_dealloc p k l h (fun _ w' => dev w' = dev w -> oom w' = oom w -> Q tt w') w Ho) as Hw.
  unfold wp, dealloc in *. destruct (heap w !! p); apply Hw; auto.
Qed.

Lemma device_track {A} (f : D -> A * D) c l h Q w :
  own l h w -> (forall a w', own l h w' -> f (dev w) = (a, dev w') -> oom w' = oom w -> Q a w') -> wp (device f c) Q w.
Proof.
  intros Ho HQ. apply wp_device. intros a d w' E Hh Hn Hm _ <-. apply HQ; [|done|done]. by apply (own_same _ _ w).
Qed.

#[global] Instance plenty_dec w : Decision (plenty w).
Proof. unfold plenty. apply _. Defined.
End rules.

(** A pointer that may be null. *)
Definition ptr (p : option Z) (k : kind) : list (Z * kind) :=
  match p with Some p => [(p, k)] | None => [] end.

Section dcmd_rules.
Context {D : Type} `{DevX D}.
Implicit Types (w : world D) (l : list (Z * kind)) (h : gmap Z blk).

Lemma own_create_obj ctx inb outb l h Q w :
  own l h w ->
  (forall p out w', own (ptr p KObj ++ l) h w' -> Q (p, out) w') ->
  wp (create_obj ctx inb outb) Q w.
Proof.
  intros Ho HQ. apply wp_bind. eapply own_alloc; [exact Ho| |].
  - intros w' Ho'. apply wp_ret. by apply (HQ None).
  - intros p w1 Ho1. apply wp_bind. eapply own_device; [exact Ho1|].
    intros [[x|] out] w2 Ho2; cbn beta iota; apply wp_bind.
    + eapply own_store; [exact Ho2|]. intros w3 Ho3. apply wp_ret. by apply (HQ (Some p)).
    + eapply own_dealloc; [exact Ho2|]. intros w3 Ho3. apply wp_ret. by apply (HQ None).
Qed.

Lemma own_dobj_destroy p l h Q w :
  own ((p, KObj) :: l) h w ->
  (forall r w', own ((p, KObj) :: l) h w' -> Q r w') -> wp (dobj_destroy p) Q w.
Proof.
  intros Ho HQ. apply wp_bind. eapply own_load; [exact Ho|].
  intros b Hk. destruct (kind_obj b Hk) as [[x|] ->].
  - apply wp_bind. eapply own_device; [exact Ho|]. intros r w1 Ho1.
    apply wp_bind. eapply own_store; [exact Ho1|]. intros w2 Ho2. apply wp_ret. by apply HQ.
  - apply wp_ret. by apply HQ.
Qed.

Lemma own_delete_obj p l h Q w :
  own (ptr p KObj ++ l) h w -> (forall w', own l h w' -> Q tt w') -> wp (delete_obj p) Q w.
Proof.
  intros Ho HQ. destruct p as [p|]; [|apply wp_ret; by apply HQ].
  apply wp_bind. eapply own_dobj_destroy; [exact Ho|]. intros r w1 Ho1.
  eapply own_dealloc; [exact Ho1|]. done.
Qed.

Lemma own_dobj_query p inb outb l h Q w :
  own ((p, KObj) :: l) h w -> heap w !! p <> Some (BObj None) ->
  (forall r w', own ((p, KObj) :: l) h w' -> Q r w') -> wp (dobj_query p inb outb) Q w.
Proof.
  intros Ho Hn HQ. apply wp_bind. destruct (own_live _ _ _ _ _ Ho) as (b & Hb & Hk).
  eapply wp_load; [exact Hb|]. destruct (kind_obj b Hk) as [[x|] ->]; [|done].
  apply wp_bind. eapply own_device; [exact Ho|]. intros [r o] w1 Ho1. apply wp_ret. by apply HQ.
Qed.

Lemma own_create_umem ctx a sz acc l h Q w :
  own l h w -> (forall p w', own (ptr p KUmem ++ l) h w' -> Q p w') ->
  wp (create_umem ctx a sz acc) Q w.
Proof.
  intros Ho HQ. apply wp_bind. eapply own_alloc; [exact Ho| |].
  - intros w' Ho'. apply wp_ret. by apply (HQ None).
  - intros p w1 Ho1. apply wp_bind. eapply own_device; [exact Ho1|].
    intros [x|] w2 Ho2; cbn beta iota; apply wp_bind.
    + eapply own_store; [exact Ho2|]. intros w3 Ho3. apply wp_ret. by apply (HQ (Some p)).
    + eapply own_dealloc; [exact Ho2|]. intros w3 Ho3. apply wp_ret. by apply (HQ None).
Qed.

Lemma own_delete_umem p l h Q w :
  own (ptr p KUmem ++ l) h w -> (forall w', own l h w' -> Q tt w') -> wp (delete_umem p) Q w.
Proof.
  intros Ho HQ. destruct p as [p|]; [|apply wp_ret; by apply HQ].
  apply wp_bind. eapply own_load; [exact Ho|]. intros [] Hk; try done.
  apply wp_bind. eapply own_device; [exact Ho|]. intros r w1 Ho1.
  eapply own_dealloc; [exact Ho1|]. done.
Qed.

Lemma own_umem_get_id p l h Q w :
  own ((p, KUmem) :: l) h w -> (forall i, Q i w) -> wp (umem_get_id p) Q w.
Proof.
  intros Ho HQ. apply wp_bind. eapply own_load; [exact Ho|]. intros [] Hk; try done.
  by apply wp_peek.
Qed.

Lemma own_create_uar ctx fl l h Q w :
  own l h w -> (forall p w', own (ptr p KUar ++ l) h w' -> Q p w') ->
  wp (create_uar ctx fl) Q w.
Proof.
  intros Ho HQ. apply wp_bind. eapply own_alloc; [exact Ho| |].
  - intros w' Ho'. apply wp_ret. by apply (HQ None).
  - intros p w1 Ho1. apply wp_bind. eapply own_device; [exact Ho1|].
    intros [x|] w2 Ho2; cbn beta iota zeta; apply wp_bind.
    + eapply own_store; [exact Ho2|]. intros w3 Ho3. apply wp_ret. by apply (HQ (Some p)).
    + eapply own_device; [exact Ho2|]. intros [x|] w3 Ho3; cbn beta iota zeta; apply wp_bind.
      * eapply own_store; [exact Ho3|]. intros w4 Ho4. apply wp_ret. by apply (HQ (Some p)).
      * eapply own_dealloc; [exact Ho3|]. intros w4 Ho4. apply wp_ret. by apply (HQ None).
Qed.

Lemma own_delete_uar p l h Q w :
  own (ptr p KUar ++ l) h w -> (forall w', own l h w' -> Q tt w') -> wp (delete_uar p) Q w.
Proof.
  intros Ho HQ. destruct p as [p|]; [|apply wp_ret; by apply HQ].
  apply wp_bind. eapply own_load; [exact Ho|]. intros [] Hk; try done.
  apply wp_bind. eapply own_device; [exact Ho|]. intros r w1 Ho1.
  eapply own_dealloc; [exact Ho1|]. done.
Qed.

Lemma own_aligned_free p k l h Q w :
  own (ptr p k ++ l) h w -> (forall w', own l h w' -> Q tt w') -> wp (aligned_free p) Q w.
Proof.
  intros Ho HQ. destruct p as [p|]; [|apply wp_ret; by apply HQ].
  eapply own_dealloc; [exact Ho|done].
Qed.

(** A flow: the storage, with the calls the constructor and the destructor make. *)
Lemma own_delete_flow p l h Q w :
  own (ptr p KFlow ++ l) h w -> (forall w', own l h w' -> Q tt w') -> wp (delete_flow p) Q w.
Proof.
  intros Ho HQ. destruct p as [p|]; [|apply wp_ret; by apply HQ].
  apply wp_bind. eapply own_load; [exact Ho|]. intros [] Hk; try done.
  apply wp_bind. eapply own_device; [exact Ho|]. intros r1 w1 Ho1.
  apply wp_bind. eapply own_device; [exact Ho1|]. intros r2 w2 Ho2.
  eapply own_dealloc; [exact Ho2|]. done.
Qed.
End dcmd_rules.

(** Bring the block of a pointer to the front of the owned list. *)
Ltac own_perm H :=
  eapply own_perm; [| reflexivity | reflexivity | exact H]; simpl; solve_Permutation.
