(* ===== verification/Sim.v ===== *)
(** * A simulated device

    A concrete instance of the device library, used to evaluate the model and
    to show that the hypotheses of the theorems can be met: handles are drawn
    from a counter, the answer of a command carries status zero and the handle
    as identifier, and a list of booleans decides which of the coming commands
    and registrations fail. *)

From S2P Require Import Prelude Codec Prm Dcmd.
Open Scope string_scope.
Open Scope list_scope.
Open Scope Z_scope.

Record sim := mkSim { s_next : Z; s_fail : list bool }.

(** The next outcome: whether the coming command fails. *)
Definition sim_fails (d : sim) : bool := match s_fail d with true :: _ => true | _ => false end.

Definition sim_tick (d : sim) : sim :=
  mkSim (if sim_fails d then s_next d else s_next d + 1) (tail (s_fail d)).

Definition sim_handle (d : sim) : option Z := if sim_fails d then None else Some (s_next d).

Definition sim_answer (d : sim) (outb : list Z) : list Z :=
  exec [DEVX_SET ifc.status_out 0 ["status"] (if sim_fails d then 3 else 0);
        DEVX_SET ifc.status_out 0 ["id"] (s_next d)] outb.

(** A general command is answered with one register that is not zero. *)
Definition sim_register (outb : list Z) : list Z := cpu_to_be32 172 156250 outb.

Definition sim_result (d : sim) : Z := if sim_fails d then -1 else 0.

#[global] Instance sim_devx : DevX sim := {
  mlx5dv_devx_obj_create _ _ o d := (sim_handle d, sim_answer d o, sim_tick d);
  mlx5dv_devx_obj_destroy _ d := (0, d);
  mlx5dv_devx_obj_modify _ _ o d := (sim_result d, sim_answer d o, sim_tick d);
  mlx5dv_devx_obj_query _ _ o d := (sim_result d, sim_answer d o, sim_tick d);
  mlx5dv_devx_general_cmd _ _ o d := (sim_result d, sim_register o, sim_tick d);
  mlx5dv_devx_umem_reg _ _ _ _ d := (sim_handle d, sim_tick d);
  mlx5dv_devx_umem_dereg _ d := (0, d);
  devx_umem_id h _ := h;
  MLX5_IB_UAPI_UAR_ALLOC_TYPE_BF := 0;
  MLX5_IB_UAPI_UAR_ALLOC_TYPE_NC := 1;
  mlx5dv_devx_alloc_uar _ _ d := (sim_handle d, sim_tick d);
  mlx5dv_devx_free_uar _ d := d;
  devx_uar_page_id h _ := h;
  devx_uar_base_addr h _ := 4096 * h;
  devx_uar_reg_addr h _ := 4096 * h + 2048;
  mlx5dv_pp_alloc _ _ d := (sim_handle d, sim_tick d);
  mlx5dv_pp_free _ d := d;
  devx_pp_index h _ := h;
  ibv_reg_mr _ _ _ _ d := (sim_handle d, sim_tick d);
  ibv_reg_mr_iova _ _ _ _ _ d := (sim_handle d, sim_tick d);
  ibv_dereg_mr _ d := (0, d);
  ibv_mr_lkey h _ := h;
  mlx5dv_create_flow_matcher _ _ d := (sim_handle d, sim_tick d);
  mlx5dv_destroy_flow_matcher _ d := d;
  mlx5dv_create_flow_action_modify_header _ _ d := (sim_handle d, sim_tick d);
  mlx5dv_create_flow _ _ _ d := (sim_handle d, sim_tick d);
  ibv_destroy_flow _ d := d
}.

#[global] Instance sim_laws : DevXLaws sim.
Proof.
  split; intros; apply length_exec.
Qed.

(** A fresh process: nothing allocated, every allocation and command succeeds. *)
Definition sim_world : world sim := mkWorld (mkSim 1 []) ∅ 1 [] [].

Lemma sim_world_fresh : fresh_ok sim_world.
Proof. by intros p Hp. Qed.
