(* ===== verification/Obj.v ===== *)
(** * [dpcp::obj] (src/src/dpcp/dpcp_obj.cpp)

    The base class of every PRM object: it owns the dcmd object that stands for
    the hardware object, sends the create, modify and query commands and keeps
    the identifier, status and syndrome of the last answer. *)

From S2P Require Import Prelude Codec Prm Dcmd Own Sim.
Open Scope string_scope.
Open Scope list_scope.
Open Scope Z_scope.
Open Scope m_scope.

Record obj := mkObj {
  m_id : Z;
  m_obj_handle : option Z;     (* dcmd::obj* *)
  m_ctx : option Z;            (* dcmd::ctx* *)
  m_last_status : Z;
  m_last_syndrome : Z
}.

Section obj.
Context {D : Type} `{DevX D}.

(** [obj::obj(ctx)] *)
Definition obj_new (ctx : option Z) : obj := mkObj 0 None ctx 0 0.

(** [obj::destroy]: the hardware object is destroyed, the dcmd object stays. *)
Definition obj_destroy (o : obj) : M D status :=
  match m_obj_handle o with
  | Some p => _ <- dobj_destroy p;; ret DPCP_OK
  | None => ret DPCP_OK
  end.

(** [obj::~obj] *)
Definition obj_delete (o : obj) : M D obj :=
  delete_obj (m_obj_handle o);;
  ret (mkObj 0 None None (m_last_status o) (m_last_syndrome o)).

(** [obj::get_id]: the status and, when it is OK, the identifier. *)
Definition obj_get_id (o : obj) : status * Z :=
  match m_obj_handle o with
  | Some _ => (DPCP_OK, m_id o)
  | None => (DPCP_ERR_INVALID_ID, 0)
  end.

(** [obj::get_handle] *)
Definition obj_get_handle (o : obj) : M D (status * Z) :=
  match m_obj_handle o with
  | Some p =>
      b <- load p;;
      match b with
      | BObj h => ret (DPCP_OK, default 0 h)
      | _ => ub "not a dcmd::obj"
      end
  | None => ret (DPCP_ERR_CREATE, 0)
  end.

(** The length guard the three commands share. *)
Definition bad_args (inb outb : option (list Z)) : bool :=
  match inb, outb with
  | Some i, Some o => (Z.of_nat (length i) <? 16) || (Z.of_nat (length o) <? 16)
  | _, _ => true
  end.

Definition out_status (outb : list Z) : Z := DEVX_GET ifc.status_out 0 ["status"] outb.
Definition out_syndrome (outb : list Z) : Z := DEVX_GET ifc.status_out 0 ["syndrome"] outb.
Definition out_id (outb : list Z) : Z := DEVX_GET ifc.status_out 0 ["id"] outb.

(** [obj::create]: the status, the object and the answer buffer. *)
Definition obj_create (o : obj) (inb outb : option (list Z))
  : M D (status * obj * list Z) :=
  match m_ctx o with
  | None => ret (DPCP_ERR_NO_CONTEXT, o, default [] outb)
  | Some ctx =>
      if bad_args inb outb then ret (DPCP_ERR_INVALID_PARAM, o, default [] outb)
      else
        '(h, out') <- create_obj ctx (default [] inb) (default [] outb);;
        let o' := mkObj (out_id out') h (m_ctx o) (out_status out') (out_syndrome out') in
        if (match h with None => true | _ => false end) || negb (out_status out' =? 0)
        then ret (DPCP_ERR_CREATE, o', out')
        else ret (DPCP_OK, o', out')
  end.

(** [obj::modify] *)
Definition obj_modify (o : obj) (inb outb : option (list Z))
  : M D (status * obj * list Z) :=
  match m_ctx o with
  | None => ret (DPCP_ERR_NO_CONTEXT, o, default [] outb)
  | Some _ =>
      if bad_args inb outb then ret (DPCP_ERR_INVALID_PARAM, o, default [] outb)
      else
        match m_obj_handle o with
        | None => ub "modify through a null dcmd::obj"
        | Some p =>
            '(r, out') <- dobj_modify p (default [] inb) (default [] outb);;
            let o' := mkObj (m_id o) (m_obj_handle o) (m_ctx o)
                            (out_status out') (out_syndrome out') in
            if negb (r =? DCMD_EOK) then ret (DPCP_ERR_MODIFY, o', out')
            else if negb (out_status out' =? 0) then ret (DPCP_ERR_MODIFY, o', out')
            else ret (DPCP_OK, o', out')
        end
  end.

(** [obj::query] *)
Definition obj_query (o : obj) (inb outb : option (list Z))
  : M D (status * obj * list Z) :=
  match m_ctx o with
  | None => ret (DPCP_ERR_NO_CONTEXT, o, default [] outb)
  | Some _ =>
      if bad_args inb outb then ret (DPCP_ERR_INVALID_PARAM, o, default [] outb)
      else
        match m_obj_handle o with
        | None => ub "query through a null dcmd::obj"
        | Some p =>
            '(r, out') <- dobj_query p (default [] inb) (default [] outb);;
            let o' := mkObj (m_id o) (m_obj_handle o) (m_ctx o)
                            (out_status out') (out_syndrome out') in
            if negb (r =? DCMD_EOK) || negb (out_status out' =? 0)
            then ret (DPCP_ERR_QUERY, o', out')
            else ret (DPCP_OK, o', out')
        end
  end.
End obj.

Arguments out_status : simpl never.
Arguments out_syndrome : simpl never.
Arguments out_id : simpl never.

(** ** The ownership invariant *)

(** The dcmd object an [obj] owns is live and is a [dcmd::obj]. *)
Definition owns {D} (o : obj) (w : world D) : Prop :=
  match m_obj_handle o with
  | Some p => exists h, heap w !! p = Some (BObj h)
  | None => True
  end.

(** The hardware handle of the object, if it has one. *)
Definition hw_handle {D} (o : obj) (w : world D) : option Z :=
  match m_obj_handle o with
  | Some p => match heap w !! p with Some (BObj h) => h | _ => None end
  | None => None
  end.

Section facts.
Context {D : Type} `{DevX D}.
Implicit Types w : world D.

Lemma wp_create_obj ctx inb outb Q w :
  fresh_ok w ->
  (forall out' w', fresh_ok w' -> heap w' = heap w ->
      (calls w' = calls w \/ calls w' = CObjCreate inb None :: calls w) ->
      Q (None, out') w') ->
  (forall p h out' w', fresh_ok w' -> p = next w -> heap w !! p = None ->
      heap w' = <[p := BObj (Some h)]> (heap w) ->
      calls w' = CObjCreate inb (Some h) :: calls w -> Q (Some p, out') w') ->
  wp (create_obj ctx inb outb) Q w.
Proof.
  intros Hf HN HS. unfold create_obj. apply wp_bind, wp_alloc; [done| |].
  - intros w' ? ? ? ? ?. apply wp_ret, HN; auto.
  - intros p w1 Hf1 -> Hp Hh Hc Hd Hn. apply wp_bind, wp_device.
    intros [[h|] out'] d w2 Hdev Hh2 Hn2 Ho2 Hc2 Hd2; cbn beta iota.
    + apply wp_bind. eapply wp_store with (b := BObj None).
      { by rewrite Hh2, Hh, lookup_insert_eq. }
      intros w3 Hh3 Hn3 Hc3 _ _. apply wp_ret. eapply HS; [|done|done|..].
      * intros q Hq. rewrite Hh3, Hh2, lookup_insert_ne by lia. apply Hf1. lia.
      * by rewrite Hh3, Hh2, Hh, insert_insert_eq.
      * by rewrite Hc3, Hc2, Hc.
    + apply wp_bind. eapply wp_dealloc with (b := BObj None).
      { by rewrite Hh2, Hh, lookup_insert_eq. }
      intros w3 Hh3 Hn3 Hc3 _ _. apply wp_ret, HN; [| |right; simpl in *; congruence].
      * intros q Hq. rewrite Hh3, Hh2, lookup_delete_ne by lia. apply Hf1. lia.
      * rewrite Hh3, Hh2, Hh. by apply delete_insert_id.
Qed.

Lemma create_obj_total ctx inb outb w :
  exists h out' w', create_obj ctx inb outb w = Ret (h, out', w').
Proof.
  unfold create_obj, bind, alloc, device, store, dealloc.
  destruct (oom w) as [|[] r]; simpl; [|by do 3 eexists|];
    destruct (mlx5dv_devx_obj_create ctx inb outb (dev w)) as [[[h|] o] d];
    simpl; rewrite lookup_insert_eq; by do 3 eexists.
Qed.

Lemma wp_dobj_destroy p h Q w :
  heap w !! p = Some (BObj h) ->
  (forall r w', heap w' = <[p := BObj None]> (heap w) -> next w' = next w ->
      calls w' = match h with Some h => CObjDestroy h :: calls w | None => calls w end ->
      Q r w') ->
  wp (dobj_destroy p) Q w.
Proof.
  intros Hp HQ. unfold dobj_destroy. apply wp_bind. eapply wp_load; [exact Hp|].
  destruct h as [h|].
  - apply wp_bind, wp_device. intros r d w1 _ Hh Hn Ho Hc Hd.
    apply wp_bind. eapply wp_store with (b := BObj (Some h)); [by rewrite Hh|].
    intros w2 Hh2 Hn2 Hc2 _ _. apply wp_ret, HQ; congruence.
  - apply wp_ret, HQ; try done. by rewrite insert_id.
Qed.

Lemma wp_delete_obj p h Q w :
  heap w !! p = Some (BObj h) ->
  (forall w', heap w' = delete p (heap w) -> next w' = next w ->
      calls w' = match h with Some h => CObjDestroy h :: calls w | None => calls w end ->
      Q tt w') ->
  wp (delete_obj (Some p)) Q w.
Proof.
  intros Hp HQ. unfold delete_obj. apply wp_bind. eapply wp_dobj_destroy; [exact Hp|].
  intros r w1 Hh Hn Hc. eapply wp_dealloc with (b := BObj None).
  { by rewrite Hh, lookup_insert_eq. }
  intros w2 Hh2 Hn2 Hc2 _ _. apply HQ; [|congruence|congruence].
  by rewrite Hh2, Hh, delete_insert_eq.
Qed.

(** [n] explicit calls of [destroy] and then the destructor. *)
Fixpoint destroy_n (n : nat) (o : obj) : M D unit :=
  match n with
  | O => ret tt
  | S m => _ <- obj_destroy o;; destroy_n m o
  end.

Lemma wp_destroy_n n o p h Q w :
  m_obj_handle o = Some p -> heap w !! p = Some (BObj h) ->
  (forall w' h', heap w' = <[p := BObj h']> (heap w) -> next w' = next w ->
      match h' with Some x => CObjDestroy x :: calls w' | None => calls w' end
      = match h with Some x => CObjDestroy x :: calls w | None => calls w end ->
      Q tt w') ->
  wp (destroy_n n o) Q w.
Proof.
  revert h w. induction n as [|n IH]; intros h w Ho Hp HQ; simpl.
  - apply wp_ret, (HQ w h); [|done|done]. by rewrite insert_id.
  - apply wp_bind. unfold obj_destroy. rewrite Ho. apply wp_bind.
    eapply wp_dobj_destroy; [exact Hp|]. intros r w1 Hh Hn Hc. apply wp_ret.
    apply (IH None); [done|by rewrite Hh, lookup_insert_eq|].
    intros w2 h' Hh2 Hn2 Hc2. apply (HQ w2 h'); [|congruence|congruence].
    by rewrite Hh2, Hh, insert_insert_eq.
Qed.

(** What may have happened between creating an object and deleting it: the
    hardware object was destroyed exactly once, or there never was one. *)
Definition lifecycle_post (inb : list Z) (w : world D) (st : status) (w' : world D) : Prop :=
  heap w' = heap w /\
  ((st <> DPCP_OK /\ calls w' = calls w)
   \/ (st <> DPCP_OK /\ calls w' = CObjCreate inb None :: calls w)
   \/ exists h, calls w' = CObjDestroy h :: CObjCreate inb (Some h) :: calls w).

Definition finish (n : nat) (r : status * obj * list Z) : M D status :=
  let '(st, o', _) := r in
  destroy_n n o';; _ <- obj_delete o';; ret st.

Lemma finish_none n o st out inb w w' :
  m_obj_handle o = None -> heap w' = heap w -> st <> DPCP_OK ->
  (calls w' = calls w \/ calls w' = CObjCreate inb None :: calls w) ->
  wp (finish n (st, o, out)) (lifecycle_post inb w) w'.
Proof.
  intros Ho Hh Hst Hc. unfold finish.
  assert (Hd : forall m, destroy_n m o w' = Ret (tt, w')).
  { induction m as [|m IH]; [done|]. simpl. unfold bind, obj_destroy. by rewrite Ho. }
  unfold wp, bind. rewrite Hd. unfold obj_delete, bind. rewrite Ho. simpl.
  split; [done|]. tauto.
Qed.

Lemma finish_some n o st out inb h p w w' :
  m_obj_handle o = Some p -> heap w !! p = None ->
  heap w' = <[p := BObj (Some h)]> (heap w) ->
  calls w' = CObjCreate inb (Some h) :: calls w ->
  wp (finish n (st, o, out)) (lifecycle_post inb w) w'.
Proof.
  intros Ho Hp Hh Hc. apply wp_bind.
  eapply (wp_destroy_n n o p (Some h)); [done|by rewrite Hh, lookup_insert_eq|].
  intros w2 h' Hh2 Hn2 Hc2. apply wp_bind. unfold obj_delete. rewrite Ho.
  apply wp_bind. eapply wp_delete_obj; [by rewrite Hh2, lookup_insert_eq|].
  intros w3 Hh3 Hn3 Hc3. apply wp_ret, wp_ret. split.
  - rewrite Hh3, Hh2, Hh, insert_insert_eq. by apply delete_insert_id.
  - right; right. exists h. rewrite Hc3. congruence.
Qed.

(** C9. Life cycle of a PRM object: creating it, destroying it explicitly any
    number of times (none included) and then running the destructor never
    touches a dead block, gives back all the memory, and destroys a hardware
    object exactly once when one was created and never otherwise, whatever the
    device and the allocator answer. *)
Theorem obj_lifecycle n o inb outb w :
  fresh_ok w -> m_obj_handle o = None ->
  wp (r <- obj_create o (Some inb) (Some outb);; finish n r) (lifecycle_post inb w) w.
Proof.
  intros Hf Ho. apply wp_bind. unfold obj_create.
  destruct (m_ctx o) as [ctx|]; [|by apply wp_ret, finish_none; auto].
  case_if; [by apply wp_ret, finish_none; auto|].
  apply wp_bind, wp_create_obj; [done| |].
  - intros out' w1 Hf1 Hh Hc. apply wp_ret. by apply finish_none.
  - intros p h out' w1 Hf1 -> Hp Hh Hc. cbn beta iota.
    case_if; apply wp_ret; by eapply finish_some.
Qed.

(** The status of [create] is decided by the context, the buffers and the
    answer, in that order: without a context or with a missing or short buffer
    nothing is sent to the device, and otherwise the result is OK exactly when
    the device returned an object and a zero status, in which case the object
    carries the identifier of the answer. *)
Theorem obj_create_status o inb outb w :
  match obj_create o inb outb w with
  | Ret (st, o', out', w') =>
      if bool_decide (m_ctx o = None) then st = DPCP_ERR_NO_CONTEXT /\ o' = o /\ w' = w
      else if bad_args inb outb then st = DPCP_ERR_INVALID_PARAM /\ o' = o /\ w' = w
      else (st = DPCP_OK \/ st = DPCP_ERR_CREATE)
           /\ (st = DPCP_OK <-> m_obj_handle o' <> None /\ out_status out' = 0)
           /\ m_id o' = out_id out' /\ m_last_status o' = out_status out'
           /\ m_last_syndrome o' = out_syndrome out' /\ m_ctx o' = m_ctx o
  | UB _ => False
  end.
Proof.
  unfold obj_create. destruct (m_ctx o) as [ctx|] eqn:Ec; [|by simpl].
  destruct (bad_args inb outb) eqn:Eb; [by simpl|]. unfold bind.
  destruct (create_obj_total ctx (default [] inb) (default [] outb) w) as (h & out' & w1 & ->).
  rewrite bool_decide_false by done.
  destruct h as [p|], (out_status out' =? 0) eqn:Es; simpl; bool_hyps;
    split_and!; try done; auto; split; try done; by intros [? ?].
Qed.

(** A modify or query command on a live object, as an equation. *)
Lemma obj_modify_run o inb outb p h w :
  m_ctx o <> None -> bad_args (Some inb) (Some outb) = false ->
  m_obj_handle o = Some p -> heap w !! p = Some (BObj (Some h)) ->
  obj_modify o (Some inb) (Some outb) w
  = let '(r, out', d) := mlx5dv_devx_obj_modify h inb outb (dev w) in
    Ret (if (r =? 0) && (out_status out' =? 0) then DPCP_OK else DPCP_ERR_MODIFY,
         mkObj (m_id o) (m_obj_handle o) (m_ctx o) (out_status out') (out_syndrome out'), out',
         mkWorld d (heap w) (next w) (oom w) (CObjModify h inb :: calls w)).
Proof.
  intros Hc Hb Ho Hp. destruct (m_ctx o) as [ctx|] eqn:Ec; [|done].
  unfold obj_modify. rewrite Ec, Hb, Ho. unfold bind, dobj_modify, bind, load, device.
  rewrite Hp. cbn [default from_option id].
  destruct (mlx5dv_devx_obj_modify h inb outb (dev w)) as [[r out'] d]. unfold ret.
  change DCMD_EOK with 0; change DCMD_EIO with 5.
  destruct (r =? 0); cbn [Z.eqb negb orb andb fst snd]; by destruct (out_status out' =? 0).
Qed.

Lemma obj_query_run o inb outb p h w :
  m_ctx o <> None -> bad_args (Some inb) (Some outb) = false ->
  m_obj_handle o = Some p -> heap w !! p = Some (BObj (Some h)) ->
  obj_query o (Some inb) (Some outb) w
  = let '(r, out', d) := mlx5dv_devx_obj_query h inb outb (dev w) in
    Ret (if (r =? 0) && (out_status out' =? 0) then DPCP_OK else DPCP_ERR_QUERY,
         mkObj (m_id o) (m_obj_handle o) (m_ctx o) (out_status out') (out_syndrome out'), out',
         mkWorld d (heap w) (next w) (oom w) (CObjQuery h inb :: calls w)).
Proof.
  intros Hc Hb Ho Hp. destruct (m_ctx o) as [ctx|] eqn:Ec; [|done].
  unfold obj_query. rewrite Ec, Hb, Ho. unfold bind, dobj_query, bind, load, device.
  rewrite Hp. cbn [default from_option id].
  destruct (mlx5dv_devx_obj_query h inb outb (dev w)) as [[r out'] d]. unfold ret.
  change DCMD_EOK with 0; change DCMD_EIO with 5.
  destruct (r =? 0); cbn [Z.eqb negb orb andb fst snd]; by destruct (out_status out' =? 0).
Qed.

(** [modify] and [query] on a live object: the status is OK exactly when the
    device call succeeded and the answer's status is zero, the object keeps
    its handle and identifier, and the call sent is the caller's mailbox. *)
Theorem obj_modify_query_status (q : bool) o inb outb p h w :
  m_ctx o <> None -> bad_args (Some inb) (Some outb) = false ->
  m_obj_handle o = Some p -> heap w !! p = Some (BObj (Some h)) ->
  let r := (if q then mlx5dv_devx_obj_query else mlx5dv_devx_obj_modify) h inb outb (dev w) in
  exists o' w',
    (if q then obj_query else obj_modify) o (Some inb) (Some outb) w
    = Ret (if (fst (fst r) =? 0) && (out_status (snd (fst r)) =? 0) then DPCP_OK
           else if q then DPCP_ERR_QUERY else DPCP_ERR_MODIFY, o', snd (fst r), w')
    /\ m_obj_handle o' = Some p /\ m_id o' = m_id o /\ heap w' = heap w
    /\ calls w' = (if q then CObjQuery h inb else CObjModify h inb) :: calls w.
Proof.
  intros Hc Hb Ho Hp. destruct q; cbv beta iota zeta.
  - rewrite (obj_query_run o inb outb p h w) by done.
    destruct (mlx5dv_devx_obj_query h inb outb (dev w)) as [[r out'] d].
    do 2 eexists. split; [reflexivity|done].
  - rewrite (obj_modify_run o inb outb p h w) by done.
    destruct (mlx5dv_devx_obj_modify h inb outb (dev w)) as [[r out'] d].
    do 2 eexists. split; [reflexivity|done].
Qed.
(** The call a successful creation made. *)
Lemma obj_create_call o inb outb w o' out w' :
  obj_create o (Some inb) (Some outb) w = Ret ((DPCP_OK, o', out), w') ->
  exists h, head (calls w') = Some (CObjCreate inb (Some h)).
Proof.
  unfold obj_create. destruct (m_ctx o); [|done]. destruct (bad_args _ _); [done|].
  unfold create_obj, bind, alloc, device, ret, store, dealloc. cbn [default].
  destruct (oom w) as [|[] rest]; cbn [heap calls dev next]; try done.
  all: destruct (mlx5dv_devx_obj_create _ _ _ _) as [[[h|] o1] d]; cbn [heap calls fst].
  all: rewrite lookup_insert_eq; cbn [orb]; try done.
  all: destruct (negb _); [done|]; intros E; injection E as _ _ <-; by exists h.
Qed.

(** At most one command is sent; without one, or without an object of the device,
    there is no success. *)
Lemma obj_create_calls o inb outb w st o' out w' :
  obj_create o (Some inb) (Some outb) w = Ret ((st, o', out), w') ->
  calls w' = calls w /\ st <> DPCP_OK
  \/ exists hd, calls w' = CObjCreate inb hd :: calls w /\ (st = DPCP_OK -> hd <> None).
Proof.
  unfold obj_create. destruct (m_ctx o); [|intros [= <- <- <- <-]; by left]. destruct (bad_args _ _); [intros [= <- <- <- <-]; by left|].
  unfold create_obj, bind, alloc, device, ret, store, dealloc. cbn [default].
  destruct (oom w) as [|[] rest]; cbn [heap calls dev next].
  2:{ intros [= <- <- <- <-]. by left. }
  all: destruct (mlx5dv_devx_obj_create _ _ _ _) as [[[h|] o1] d]; cbn [heap calls fst]; rewrite lookup_insert_eq; cbn [orb];
    [destruct (negb _)|]; intros E; injection E as <- _ _ <-; right; eexists; (split; [reflexivity|done]).
Qed.

End facts.

(** ** Ownership rules *)

Definition obj_own (o : obj) : list (Z * kind) := ptr (m_obj_handle o) KObj.

Section own_rules.
Context {D : Type} `{DevX D}.
Implicit Types (w : world D) (l : list (Z * kind)) (h : gmap Z blk).

(** A successful creation leaves an object with a handle. *)
Lemma own_obj_create o inb outb l h Q w :
  own l h w -> m_obj_handle o = None ->
  (forall st o' out w', own (obj_own o' ++ l) h w' -> m_ctx o' = m_ctx o ->
     (st = DPCP_OK -> m_obj_handle o' <> None) -> Q (st, o', out) w') ->
  wp (obj_create o inb outb) Q w.
Proof.
  intros Ho Hn HQ. assert (own (obj_own o ++ l) h w) as Ho0.
  { unfold obj_own. by rewrite Hn. }
  unfold obj_create. destruct (m_ctx o) as [c|] eqn:Ec; [|apply wp_ret; by apply HQ].
  case_if; [apply wp_ret; by apply HQ|]. apply wp_bind. eapply own_create_obj; [exact Ho|].
  intros [p|] out w' Ho'; cbn beta iota; case_if; apply wp_ret; by apply HQ.
Qed.

(** The same, with the command that was sent. *)
Lemma own_obj_create_says o inb outb l h Q w :
  own l h w -> m_obj_handle o = None ->
  (forall st o' out w', own (obj_own o' ++ l) h w' -> m_ctx o' = m_ctx o ->
     (st = DPCP_OK -> m_obj_handle o' <> None /\ exists hd, head (calls w') = Some (CObjCreate inb (Some hd))) ->
     Q (st, o', out) w') ->
  wp (obj_create o (Some inb) (Some outb)) Q w.
Proof.
  intros Ho Hn HQ. eapply wp_mono; [|apply wp_eq, (own_obj_create o _ _ l h (fun r w' =>
    own (obj_own r.1.2 ++ l) h w' /\ m_ctx r.1.2 = m_ctx o /\ (r.1.1 = DPCP_OK -> m_obj_handle r.1.2 <> None)) _ Ho Hn);
    by intros].
  intros [[st o'] out] w' [(Ho' & Hc & Hh) E]. apply HQ; [done|done|]. intros ->. split; [by apply Hh|].
  by eapply obj_create_call.
Qed.

Lemma own_obj_destroy o l h Q w :
  own (obj_own o ++ l) h w -> (forall w', own (obj_own o ++ l) h w' -> Q DPCP_OK w') ->
  wp (obj_destroy o) Q w.
Proof.
  intros Ho HQ. unfold obj_destroy, obj_own in *. destruct (m_obj_handle o) as [p|];
    [|apply wp_ret; by apply HQ].
  apply wp_bind. eapply own_dobj_destroy; [exact Ho|]. intros r w' Ho'. apply wp_ret. by apply HQ.
Qed.

Lemma own_obj_delete o l h Q w :
  own (obj_own o ++ l) h w -> (forall o' w', obj_own o' = [] -> own l h w' -> Q o' w') ->
  wp (obj_delete o) Q w.
Proof.
  intros Ho HQ. unfold obj_delete. apply wp_bind. eapply own_delete_obj; [exact Ho|].
  intros w' Ho'. apply wp_ret. by apply HQ.
Qed.
End own_rules.

(** Witness: an object of a fresh process, destroyed twice before its
    destructor. *)
Lemma obj_lifecycle_witness :
  wp (r <- obj_create (obj_new (Some 1)) (Some (zeros 16)) (Some (zeros 16));; finish 2 r)
     (lifecycle_post (zeros 16) sim_world) sim_world.
Proof. apply obj_lifecycle; [exact sim_world_fresh | reflexivity]. Defined.

(** A process with one live object. *)
Definition one_obj : world sim := mkWorld (mkSim 8 []) {[ 1 := BObj (Some 7) ]} 2 [] [].

(** Witness: a query of that object. *)
Lemma obj_modify_query_status_witness :
  exists o' w',
    obj_query (mkObj 7 (Some 1) (Some 1) 0 0) (Some (zeros 16)) (Some (zeros 16)) one_obj
    = Ret (DPCP_OK, o', sim_answer (mkSim 8 []) (zeros 16), w')
    /\ m_obj_handle o' = Some 1 /\ m_id o' = 7 /\ heap w' = heap one_obj
    /\ calls w' = [CObjQuery 7 (zeros 16)].
Proof.
  destruct (obj_modify_query_status true (mkObj 7 (Some 1) (Some 1) 0 0) (zeros 16) (zeros 16)
              1 7 one_obj) as (o' & w' & E & HR); [discriminate | reflexivity.. |].
  exists o', w'. split; [rewrite E; vm_compute; reflexivity | exact HR].
Defined.
