(* ===== verification/Uar.v ===== *)
(** * UAR pool (src/src/dpcp/adapter.cpp, class [uar_collection])

    User access regions are handed out per queue: one shared UAR for all queues
    that ask for a shared one, or one exclusive UAR per queue, with a pool of
    released exclusive UARs kept in the same multimap under the null key.  The
    mutex makes each operation atomic, so the model is sequential. *)

From S2P Require Import Prelude Dcmd Own Sim.
Open Scope m_scope.
Open Scope list_scope.
Open Scope Z_scope.

Inductive uar_type : Type := SHARED_UAR | EXCLUSIVE_UAR.

(** [struct uar_t] *)
Record uar_t := mkUarT { m_page : Z; m_bf_reg : Z; m_page_id : Z }.

(** The multimap is an association list in insertion order: [find] yields the
    first entry of a key, [erase(key)] removes all of them.  A queue address is
    a key; 0 is the null pointer. *)
Record uar_collection := mkUC {
  m_ex_uars : list (Z * Z);
  m_sh_vc : list Z;
  uc_ctx : Z;
  m_shared_uar : option Z
}.

Definition ex_find (k : Z) (m : list (Z * Z)) : option Z :=
  match list_find (fun kv => kv.1 = k) m with Some (_, kv) => Some kv.2 | None => None end.

Definition ex_erase_all (k : Z) (m : list (Z * Z)) : list (Z * Z) :=
  filter (fun kv => kv.1 <> k) m.

(** [erase(iterator)]: the entry that [find] returned. *)
Fixpoint ex_erase_one (k : Z) (m : list (Z * Z)) : list (Z * Z) :=
  match m with
  | [] => []
  | kv :: r => if decide (kv.1 = k) then r else kv :: ex_erase_one k r
  end.

Section uar.
Context {D : Type} `{DevX D}.

Definition uar_collection_new (ctx : Z) : uar_collection := mkUC [] [] ctx None.

(** [uar_collection::allocate] *)
Definition uar_allocate (c : uar_collection) : M D (option Z) := create_uar (uc_ctx c) 0.

(** [uar_collection::add_uar]; the pointer stored is never null here. *)
Definition add_uar (c : uar_collection) (key u : Z) : option Z * uar_collection :=
  (Some u, mkUC (m_ex_uars c ++ [(key, u)]) (m_sh_vc c) (uc_ctx c) (m_shared_uar c)).

(** [uar_collection::get_uar] *)
Definition get_uar (c : uar_collection) (key : Z) (type : uar_type)
  : M D (option Z * uar_collection) :=
  if key =? 0 then ret (None, c)
  else
    match type with
    | SHARED_UAR =>
        match m_shared_uar c with
        | None =>
            u <- uar_allocate c;;
            match u with
            | Some u => ret (Some u, mkUC (m_ex_uars c) (m_sh_vc c ++ [key]) (uc_ctx c) (Some u))
            | None => ret (None, c)
            end
        | Some u =>
            if decide (key ∈ m_sh_vc c) then ret (Some u, c)
            else ret (Some u, mkUC (m_ex_uars c) (m_sh_vc c ++ [key]) (uc_ctx c) (Some u))
        end
    | EXCLUSIVE_UAR =>
        match ex_find key (m_ex_uars c) with
        | Some u => ret (Some u, c)
        | None =>
            match ex_find 0 (m_ex_uars c) with
            | None =>
                u <- uar_allocate c;;
                match u with
                | None => ret (None, c)
                | Some u => ret (add_uar c key u)
                end
            | Some u =>
                let '(r, c') := add_uar c key u in
                ret (r, mkUC (ex_erase_all 0 (m_ex_uars c')) (m_sh_vc c') (uc_ctx c')
                             (m_shared_uar c'))
            end
        end
    end.

(** [uar_collection::release_uar] *)
Definition release_uar (c : uar_collection) (key : Z) : status * uar_collection :=
  if key =? 0 then (DPCP_ERR_INVALID_PARAM, c)
  else if decide (key ∈ m_sh_vc c)
  then (DPCP_OK, mkUC (m_ex_uars c) (filter (fun k => k <> key) (m_sh_vc c)) (uc_ctx c)
                      (m_shared_uar c))
  else
    match ex_find key (m_ex_uars c) with
    | Some u =>
        let c' := mkUC (ex_erase_one key (m_ex_uars c)) (m_sh_vc c) (uc_ctx c) (m_shared_uar c) in
        (DPCP_OK, snd (add_uar c' 0 u))
    | None => (DPCP_ERR_INVALID_PARAM, c)
    end.

(** [uar_collection::get_uar_page] *)
Definition get_uar_page (u : option Z) : M D (status * uar_t) :=
  match u with
  | None => ret (DPCP_ERR_INVALID_PARAM, mkUarT 0 0 0)
  | Some u =>
      page <- uar_get_page u;;
      reg <- uar_get_reg u;;
      id <- uar_get_id u;;
      ret (DPCP_OK, mkUarT page reg id)
  end.

(** [uar_collection::~uar_collection] *)
Definition uar_collection_delete (c : uar_collection) : M D unit :=
  delete_uar (m_shared_uar c).

(** [num_uars], [num_shared] *)
Definition num_uars (c : uar_collection) : Z :=
  Z.of_nat (length (m_ex_uars c)) + match m_shared_uar c with Some _ => 1 | None => 0 end.

Definition num_shared (c : uar_collection) : Z := Z.of_nat (length (m_sh_vc c)).
End uar.

(** ** Invariant *)

Definition uars_of (c : uar_collection) : list (Z * kind) :=
  ptr (m_shared_uar c) KUar ++ ((fun kv : Z * Z => (kv.2, KUar)) <$> m_ex_uars c).

(** Keys of the exclusive UARs in use, and the UARs of the free pool. *)
Definition used_keys (c : uar_collection) : list Z := (ex_erase_all 0 (m_ex_uars c)).*1.
Definition free_pool (c : uar_collection) : list Z :=
  (filter (fun kv : Z * Z => kv.1 = 0) (m_ex_uars c)).*2.

Record uc_wf (c : uar_collection) : Prop := mkUcWf {
  wf_used : NoDup (used_keys c);
  wf_shared : NoDup (m_sh_vc c);
  wf_null : 0 ∉ m_sh_vc c;
  wf_lazy : m_shared_uar c = None -> m_sh_vc c = []
}.

(** ** The multimap *)

Lemma ex_find_None k m : ex_find k m = None <-> k ∉ m.*1.
Proof.
  unfold ex_find. destruct (list_find _ m) as [[i kv]|] eqn:E.
  - apply list_find_Some in E as (Hl & <- & _). split; [done|]. intros Hk. exfalso. apply Hk.
    apply list_elem_of_lookup_2 in Hl. apply list_elem_of_fmap. by exists kv.
  - rewrite list_find_None in E. split; [|done]. intros _ (kv & -> & Hin)%list_elem_of_fmap.
    rewrite list.Forall_forall in E. by apply (E kv).
Qed.

Lemma ex_find_cons k kv m :
  ex_find k (kv :: m) = if decide (kv.1 = k) then Some kv.2 else ex_find k m.
Proof.
  unfold ex_find. simpl. destruct (decide (kv.1 = k)); [done|].
  destruct (list_find _ m) as [[? ?]|]; done.
Qed.

Lemma ex_find_Some k u m : ex_find k m = Some u -> m ≡ₚ (k, u) :: ex_erase_one k m.
Proof.
  induction m as [|[k' u'] m IH]; [done|]. rewrite ex_find_cons. simpl.
  destruct (decide (k' = k)) as [->|Hk]; intros E; [by simplify_eq|].
  rewrite IH at 1 by done. apply Permutation_swap.
Qed.

Lemma ex_find_elem k u m : ex_find k m = Some u -> (k, u) ∈ m.
Proof. intros E. rewrite (ex_find_Some _ _ _ E). set_solver. Qed.

Lemma free_pool_head c : ex_find 0 (m_ex_uars c) = head (free_pool c).
Proof.
  unfold free_pool. induction (m_ex_uars c) as [|[k u] m IH]; [done|].
  rewrite ex_find_cons, list.filter_cons. simpl. by destruct (decide (k = 0)).
Qed.

Lemma ex_partition (m : list (Z * Z)) :
  m ≡ₚ filter (fun kv => kv.1 = 0) m ++ ex_erase_all 0 m.
Proof.
  unfold ex_erase_all. induction m as [|[k u] m IH]; [done|]. rewrite !list.filter_cons. simpl.
  repeat case_decide; try lia; simpl; rewrite IH at 1; [done|]. solve_Permutation.
Qed.

Lemma erase_all_app k m1 m2 : ex_erase_all k (m1 ++ m2) = ex_erase_all k m1 ++ ex_erase_all k m2.
Proof. apply list.filter_app. Qed.

Lemma erase_all_one k kv : kv.1 <> k -> ex_erase_all k [kv] = [kv].
Proof. intros. unfold ex_erase_all. rewrite list.filter_cons. by case_decide. Qed.

Lemma used_keys_elem k c : k <> 0 -> k ∉ (m_ex_uars c).*1 -> k ∉ used_keys c.
Proof.
  intros Hk Hn (kv & -> & Hin)%list_elem_of_fmap. apply Hn.
  unfold ex_erase_all in Hin. apply list_elem_of_filter in Hin as [_ Hin].
  apply list_elem_of_fmap. by exists kv.
Qed.

(** ** The operations preserve the invariant *)

(** The pool entries that a request drops. *)
Definition dropped (c : uar_collection) (key : Z) (type : uar_type) : list Z :=
  match type with
  | SHARED_UAR => []
  | EXCLUSIVE_UAR =>
      if key =? 0 then []
      else match ex_find key (m_ex_uars c) with
           | Some _ => []
           | None => tail (free_pool c)
           end
  end.

(** Where the UAR handed out for [key] is recorded. *)
Definition recorded (c : uar_collection) (key u : Z) (type : uar_type) : Prop :=
  match type with
  | SHARED_UAR => m_shared_uar c = Some u /\ key ∈ m_sh_vc c
  | EXCLUSIVE_UAR => (key, u) ∈ m_ex_uars c
  end.

Definition KU (p : Z) : Z * kind := (p, KUar).

Section facts.
Context {D : Type} `{DevX D}.
Implicit Types (w : world D) (l : list (Z * kind)) (h : gmap Z blk).

Definition get_uar_post (c : uar_collection) (key : Z) (type : uar_type) l h
    (r : option Z * uar_collection) w : Prop :=
  let '(u, c') := r in
  uc_wf c' /\ own (uars_of c' ++ (KU <$> dropped c key type) ++ l) h w
  /\ match u with
     | Some u => key <> 0 /\ recorded c' key u type
     | None => c' = c
     end.

Lemma wf_add_shared c key u :
  uc_wf c -> key <> 0 -> key ∉ m_sh_vc c ->
  uc_wf (mkUC (m_ex_uars c) (m_sh_vc c ++ [key]) (uc_ctx c) (Some u)).
Proof.
  intros [Hu Hs Hz Hl] Hk Hn. split; simpl; [done| |set_solver|done].
  apply list.NoDup_app. split_and!; [done|set_solver|apply NoDup_singleton].
Qed.

Lemma wf_add_excl c ex key u :
  uc_wf c -> key <> 0 -> key ∉ (m_ex_uars c).*1 ->
  ex_erase_all 0 ex = ex_erase_all 0 (m_ex_uars c) ++ [(key, u)] ->
  uc_wf (mkUC ex (m_sh_vc c) (uc_ctx c) (m_shared_uar c)).
Proof.
  intros [Hu Hs Hz Hl] Hk Hn He. split; simpl; [|done..].
  unfold used_keys. simpl. rewrite He, fmap_app. apply list.NoDup_app. split_and!; [done| |].
  - pose proof (used_keys_elem key c Hk Hn). set_solver.
  - apply NoDup_singleton.
Qed.

Lemma get_uar_shared c key l h w :
  uc_wf c -> key <> 0 -> own (uars_of c ++ l) h w ->
  wp (get_uar c key SHARED_UAR) (get_uar_post c key SHARED_UAR l h) w.
Proof.
  intros Hw Hk Ho. unfold get_uar. rewrite (proj2 (Z.eqb_neq key 0)) by done.
  destruct (m_shared_uar c) as [u|] eqn:Es.
  - case_decide; apply wp_ret; (split_and!; [| |done|..]); simpl; try done; try set_solver.
    + by apply wf_add_shared.
    + unfold uars_of in *. rewrite Es in Ho. done.
  - apply wp_bind. eapply own_create_uar; [exact Ho|]. intros [u|] w' Ho'; apply wp_ret.
    + split_and!; simpl; try done; [|by unfold uars_of in *; rewrite Es in Ho'|set_solver].
      apply wf_add_shared; [done|done|]. rewrite (wf_lazy c) by done. set_solver.
    + done.
Qed.

Lemma pool_head_tail c u :
  head (free_pool c) = Some u ->
  (fun kv : Z * Z => (kv.2, KUar)) <$> m_ex_uars c ≡ₚ
  KU u :: (KU <$> tail (free_pool c)) ++ ((fun kv : Z * Z => (kv.2, KUar)) <$> ex_erase_all 0 (m_ex_uars c)).
Proof.
  intros Hh. rewrite (ex_partition (m_ex_uars c)) at 1. rewrite fmap_app.
  replace ((fun kv : Z * Z => (kv.2, KUar)) <$> filter (fun kv => kv.1 = 0) (m_ex_uars c))
    with (KU <$> free_pool c) by (unfold free_pool; by rewrite <- list_fmap_compose).
  destruct (free_pool c) as [|u' r]; simplify_eq/=. done.
Qed.

Lemma get_uar_excl c key l h w :
  uc_wf c -> key <> 0 -> own (uars_of c ++ l) h w ->
  wp (get_uar c key EXCLUSIVE_UAR) (get_uar_post c key EXCLUSIVE_UAR l h) w.
Proof.
  intros Hw Hk Ho. unfold get_uar, get_uar_post, dropped.
  rewrite (proj2 (Z.eqb_neq key 0)) by done.
  destruct (ex_find key (m_ex_uars c)) as [u|] eqn:Ek.
  { apply wp_ret. split_and!; try done. by apply ex_find_elem. }
  apply ex_find_None in Ek. destruct (ex_find 0 (m_ex_uars c)) as [u|] eqn:E0.
  - rewrite free_pool_head in E0. apply wp_ret. split_and!; [| |done|].
    + apply (wf_add_excl c _ key u); [done..|]. simpl.
      rewrite erase_all_app, erase_all_one by done. unfold ex_erase_all.
      rewrite list.filter_app, list_filter_filter. f_equal; [|by rewrite list.filter_cons; case_decide].
      apply list_filter_iff. naive_solver.
    + eapply own_perm; [| reflexivity | reflexivity | exact Ho]. unfold uars_of. simpl.
      rewrite (pool_head_tail c u E0), erase_all_app, erase_all_one, fmap_app by done.
      simpl. unfold KU. solve_Permutation.
    + simpl. rewrite erase_all_app, erase_all_one by done. set_solver.
  - rewrite free_pool_head in E0. destruct (free_pool c) eqn:Ef; [|done].
    apply wp_bind. eapply own_create_uar; [exact Ho|]. intros [u|] w' Ho'; apply wp_ret.
    + split_and!; [| |done|simpl; set_solver].
      * apply (wf_add_excl c _ key u); [done..|]. simpl. by rewrite erase_all_app, erase_all_one.
      * eapply own_perm; [| reflexivity | reflexivity | exact Ho']. unfold uars_of. simpl.
        rewrite fmap_app. simpl. solve_Permutation.
    + done.
Qed.

(** A request for a UAR keeps the pool well formed and hands out a UAR that
    is recorded for the requesting queue (the shared one, or its own), or, when
    the device or the allocator refuses, changes nothing.  All UARs stay owned
    by the pool except the ones listed by [dropped]: a request that takes an
    exclusive UAR from the free pool forgets the other free ones. *)
Theorem get_uar_ok c key type l h w :
  uc_wf c -> own (uars_of c ++ l) h w ->
  wp (get_uar c key type) (get_uar_post c key type l h) w.
Proof.
  intros Hw Ho. destruct (decide (key = 0)) as [->|Hk].
  - destruct type; by apply wp_ret; split_and!.
  - destruct type; [by apply get_uar_shared|by apply get_uar_excl].
Qed.

Lemma excl_unique c k k' u l h w :
  own (uars_of c ++ l) h w -> (k, u) ∈ m_ex_uars c -> (k', u) ∈ m_ex_uars c -> k = k'.
Proof.
  intros (_ & Hn & _) H1 H2. unfold uars_of in Hn. rewrite !fmap_app in Hn.
  apply list.NoDup_app in Hn as (Hn & _ & _). apply list.NoDup_app in Hn as (_ & _ & Hn).
  rewrite <- list_fmap_compose in Hn. change (NoDup (snd <$> m_ex_uars c)) in Hn.
  apply list_elem_of_lookup in H1 as [i Hi], H2 as [j Hj].
  assert (i = j) as ->; [|congruence].
  eapply NoDup_lookup; [exact Hn|..]; rewrite list_lookup_fmap; by rewrite ?Hi, ?Hj.
Qed.

(** C20. Exclusive UARs are exclusive: after a successful exclusive request no
    other queue holds the same UAR, and it is not the shared one. *)
Theorem get_uar_exclusive c key l h w :
  uc_wf c -> own (uars_of c ++ l) h w ->
  wp (get_uar c key EXCLUSIVE_UAR)
     (fun r _ => forall u, r.1 = Some u ->
        m_shared_uar r.2 <> Some u /\ forall k, (k, u) ∈ m_ex_uars r.2 -> k = key) w.
Proof.
  intros Hw Ho. destruct (decide (key = 0)) as [->|Hk]; [by apply wp_ret|].
  eapply wp_mono; [|by apply get_uar_excl].
  intros [u' c'] w' (Hw' & Ho' & Hr) u Eu. simpl in *. subst u'. destruct Hr as [_ Hin]. split.
  - intros Es. destruct Ho' as (_ & Hn & _). unfold uars_of in Hn. rewrite Es in Hn.
    csimpl in Hn. apply list.NoDup_cons in Hn as [Hn _]. apply Hn.
    rewrite fmap_app. apply elem_of_app. left. rewrite <- list_fmap_compose.
    apply list_elem_of_fmap. by exists (key, u).
  - intros k Hk'. eapply excl_unique; [exact Ho'|exact Hk'|exact Hin].
Qed.
End facts.

(** Releasing: an unknown or null queue is an error that changes nothing; a
    queue of the shared UAR is forgotten; an exclusive UAR moves to the free
    pool.  In every case the pool stays well formed, owns the same UARs, and a
    queue that has only one kind of UAR is unknown afterwards. *)
Theorem release_uar_ok c key :
  uc_wf c ->
  let '(st, c') := release_uar c key in
  uc_wf c' /\ uars_of c' ≡ₚ uars_of c
  /\ (st = DPCP_OK <-> key <> 0 /\ (key ∈ m_sh_vc c \/ key ∈ (m_ex_uars c).*1))
  /\ (st <> DPCP_OK -> st = DPCP_ERR_INVALID_PARAM /\ c' = c)
  /\ (st = DPCP_OK -> key ∉ m_sh_vc c -> free_pool c' ≡ₚ
        option_list (ex_find key (m_ex_uars c)) ++ free_pool c /\ key ∉ used_keys c').
Proof.
  intros [Hu Hs Hz Hl]. unfold release_uar. destruct (Z.eqb_spec key 0) as [->|Hk].
  { split_and!; try done. naive_solver. }
  destruct (decide (key ∈ m_sh_vc c)) as [Hin|Hin].
  { split_and!; try done; [|by split; auto].
    split; simpl; [done|by apply list.NoDup_filter| |].
    - intros Hx. apply list_elem_of_filter in Hx as [_ Hx]. done.
    - intros E. by rewrite Hl. }
  destruct (ex_find key (m_ex_uars c)) as [u|] eqn:Ek; cycle 1.
  { apply ex_find_None in Ek. split_and!; try done. naive_solver. }
  pose proof (ex_find_Some _ _ _ Ek) as Hp. cbn [add_uar snd].
  assert (used_keys c ≡ₚ key :: used_keys (mkUC (ex_erase_one key (m_ex_uars c) ++ [(0, u)])
            (m_sh_vc c) (uc_ctx c) (m_shared_uar c))) as Huk.
  { unfold used_keys, ex_erase_all. simpl. rewrite list.filter_app. simpl.
    rewrite Hp at 1. rewrite !list.filter_cons. simpl. repeat case_decide; try lia.
    simpl. by rewrite app_nil_r. }
  split_and!.
  - rewrite Huk in Hu. apply list.NoDup_cons in Hu as [_ Hu]. by split.
  - unfold uars_of. simpl. apply Permutation_app_head. rewrite fmap_app. rewrite Hp at 2.
    simpl. solve_Permutation.
  - split; [intros _|done]. split; [done|]. right. apply list_elem_of_fmap.
    exists (key, u). split; [done|by apply ex_find_elem].
  - done.
  - intros _ _. split.
    + unfold free_pool. simpl. rewrite list.filter_app. simpl. rewrite Hp at 2.
      rewrite !list.filter_cons. simpl. repeat case_decide; try lia.
      rewrite fmap_app. simpl. solve_Permutation.
    + rewrite Huk in Hu. by apply list.NoDup_cons in Hu as [Hu _].
Qed.

(** ** Witnesses and examples *)

(** A pool with two exclusive UARs, both released, on a simulated device. *)
Definition two_free : uar_collection := mkUC [(0, 1); (0, 2)] [] 1 None.
Definition two_free_world : world sim :=
  mkWorld (mkSim 3 []) (<[1 := BUar 1]> {[2 := BUar 2]}) 3 [] [].

Lemma two_free_own : own (uars_of two_free ++ []) ∅ two_free_world.
Proof.
  split_and!.
  - intros p Hp. simpl in *. rewrite lookup_insert_ne by lia. apply lookup_singleton_ne. lia.
  - simpl. repeat constructor; set_solver.
  - repeat constructor; simpl; [by exists (BUar 1)|by exists (BUar 2)].
  - by vm_compute.
Qed.

Lemma two_free_wf : uc_wf two_free.
Proof. split; simpl; try done; try apply NoDup_nil_2; set_solver. Qed.

Lemma get_uar_ok_witness :
  wp (get_uar two_free 100 EXCLUSIVE_UAR) (get_uar_post two_free 100 EXCLUSIVE_UAR [] ∅)
     two_free_world.
Proof. apply get_uar_ok; [exact two_free_wf | exact two_free_own]. Defined.

Lemma get_uar_exclusive_witness :
  wp (get_uar two_free 100 EXCLUSIVE_UAR)
     (fun r _ => forall u, r.1 = Some u ->
        m_shared_uar r.2 <> Some u /\ forall k, (k, u) ∈ m_ex_uars r.2 -> k = 100) two_free_world.
Proof. apply (get_uar_exclusive two_free 100 [] ∅); [exact two_free_wf | exact two_free_own]. Defined.

Lemma release_uar_ok_witness :
  let c := mkUC [(0, 1); (7, 2)] [] 1 None in
  uc_wf (release_uar c 7).2 /\ uars_of (release_uar c 7).2 ≡ₚ uars_of c.
Proof.
  intros c. pose proof (release_uar_ok c 7) as R.
  destruct R as (R1 & R2 & _); [|by split].
  split; simpl; try done; try apply NoDup_nil_2; [|set_solver].
  unfold used_keys. simpl. apply NoDup_singleton.
Defined.

(** Two queues that each held an exclusive UAR release it, then a third queue asks
    for an exclusive UAR: it gets one of the two, and the other one is neither
    in use nor in the free pool any more although its block is still live. *)
Theorem free_pool_forgotten :
  exists c' w',
    get_uar two_free 100 EXCLUSIVE_UAR two_free_world = Ret (Some 1, c', w')
    /\ m_ex_uars c' = [(100, 1)] /\ heap w' !! 2 = Some (BUar 2) /\ num_uars c' = 1.
Proof. do 2 eexists. split; [reflexivity|]. done. Qed.
