(* ===== verification/Queue.v ===== *)
(** * What the queues share

    [ilog2] and the buffer size computation of the queues, and [reg_mem] of
    src/src/dpcp/adapter.cpp, which registers a buffer with the device. *)

From S2P Require Import Prelude Dcmd Own Uar.
Open Scope m_scope.
Open Scope list_scope.
Open Scope Z_scope.

(** ** [ilog2] (src/src/dpcp/internal.h)

    [while ((1 << e) < n) ++e;] on 32-bit [int].  [1 << 31] is [INT_MIN]; a
    shift by 32 is undefined and is the result [None]. *)
Fixpoint ilog2_loop (fuel : nat) (e n : Z) : option Z :=
  match fuel with
  | O => None
  | S f => if i32 (Z.shiftl 1 e) <? n then ilog2_loop f (e + 1) n else Some e
  end.

(** 32 rounds reach the last defined shift. *)
Definition ilog2 (n : Z) : option Z :=
  if n <=? 0 then Some (-1) else ilog2_loop 32 0 n.

(** [(int)x] of an unsigned argument. *)
Definition ilog2_u (x : Z) : option Z := ilog2 (i32 x).

Lemma ilog2_loop_step f e n :
  0 <= e <= 30 -> 2 ^ e < n -> ilog2_loop (S f) e n = ilog2_loop f (e + 1) n.
Proof.
  intros He Hn. simpl. rewrite Z.shiftl_mul_pow2, Z.mul_1_l by lia.
  assert (2 ^ e <= 2 ^ 30) by (apply Z.pow_le_mono_r; lia).
  assert (0 < 2 ^ e) by (apply Z.pow_pos_nonneg; lia).
  rewrite swrap_small by (simpl Z.sub; lia). by rewrite (proj2 (Z.ltb_lt _ _) Hn).
Qed.

Lemma ilog2_loop_stop f e n :
  0 <= e <= 30 -> n <= 2 ^ e -> ilog2_loop (S f) e n = Some e.
Proof.
  intros He Hn. simpl. rewrite Z.shiftl_mul_pow2, Z.mul_1_l by lia.
  assert (2 ^ e <= 2 ^ 30) by (apply Z.pow_le_mono_r; lia).
  assert (0 < 2 ^ e) by (apply Z.pow_pos_nonneg; lia).
  rewrite swrap_small by (simpl Z.sub; lia). by rewrite (proj2 (Z.ltb_ge _ _) Hn).
Qed.

Lemma ilog2_loop_log2_up k f e n :
  0 <= e -> e + Z.of_nat k <= 30 -> (k < f)%nat -> Z.log2_up n = e + Z.of_nat k -> 1 <= n ->
  ilog2_loop f e n = Some (e + Z.of_nat k).
Proof.
  revert f e. induction k as [|k IH]; intros f e He Hk Hf Hl Hn;
    (destruct f as [|f]; [lia|]).
  - rewrite ilog2_loop_stop; [f_equal; lia|lia|]. replace e with (Z.log2_up n) by lia.
    destruct (Z.eq_dec n 1) as [->|]; [done|]. apply Z.log2_up_spec. lia.
  - rewrite ilog2_loop_step; [|lia|].
    + rewrite IH by lia. f_equal. lia.
    + apply Z.nle_gt. intros Hle. apply Z.log2_up_le_mono in Hle.
      rewrite Z.log2_up_pow2 in Hle by lia. lia.
Qed.

Lemma ilog2_loop_ub k f e n :
  0 <= e -> Z.of_nat k = 31 - e -> (f <= S k)%nat -> 2 ^ 30 < n -> ilog2_loop f e n = None.
Proof.
  revert f e. induction k as [|k IH]; intros f e He Hk Hf Hn; (destruct f as [|f]; [done|]).
  - replace e with 31 by lia. destruct f as [|f]; [|lia]. simpl.
    change (i32 (Z.shiftl 1 31)) with (- 2 ^ 31). by rewrite (proj2 (Z.ltb_lt _ _)) by lia.
  - rewrite ilog2_loop_step; [apply IH; lia|lia|].
    assert (2 ^ e <= 2 ^ 30) by (apply Z.pow_le_mono_r; lia). lia.
Qed.

(** [ilog2] terminates on every argument up to 2^30 and rounds up: it is the
    least [e] with [n <= 2^e], the logarithm for powers of two and -1 for a
    non-positive argument; above 2^30 the loop runs into an undefined shift. *)
Theorem ilog2_ok n :
  ilog2 n = if n <=? 0 then Some (-1)
            else if n <=? 2 ^ 30 then Some (Z.log2_up n) else None.
Proof.
  unfold ilog2. destruct (n <=? 0) eqn:E; [done|]. destruct (n <=? 2 ^ 30) eqn:E2.
  - assert (0 <= Z.log2_up n <= 30) as Hb.
    { split; [apply Z.log2_up_nonneg|]. apply Z.log2_up_le_pow2; lia. }
    rewrite (ilog2_loop_log2_up (Z.to_nat (Z.log2_up n))); try lia. f_equal. lia.
  - apply (ilog2_loop_ub 31); lia.
Qed.

(** For the sizes the queues are made for, powers of two, it is the logarithm. *)
Lemma ilog2_pow2 k : 0 <= k <= 30 -> ilog2_u (2 ^ k) = Some k.
Proof.
  intros Hk. assert (0 < 2 ^ k <= 2 ^ 30) by (split; [lia|apply Z.pow_le_mono_r; lia]).
  unfold ilog2_u. rewrite swrap_small by (simpl Z.sub; lia). rewrite ilog2_ok.
  rewrite (proj2 (Z.leb_gt _ _)), (proj2 (Z.leb_le _ _)) by lia.
  by rewrite Z.log2_up_pow2 by lia.
Qed.

(** ** Page rounding: [(sz + page_size - 1) & ~(page_size - 1)] on [size_t] *)

Definition page_round (page_size sz : Z) : Z :=
  Z.land (u64 (sz + page_size - 1)) (u64 (Z.lnot (page_size - 1))).

Lemma land_high_mask b k z :
  0 <= k <= b -> 0 <= z < 2 ^ b -> Z.land z (wrap b (Z.lnot (Z.ones k))) = z - z mod 2 ^ k.
Proof.
  intros Hk Hz. rewrite wrap_land, Z.land_assoc, (Z.land_comm z), <- Z.land_assoc by lia.
  rewrite Z.land_ones by lia. rewrite (Z.mod_small z) by lia.
  rewrite Z.land_comm. rewrite <- Z.ldiff_land. rewrite Z.ldiff_ones_r by lia.
  rewrite Z.shiftl_mul_pow2, Z.shiftr_div_pow2 by lia.
  pose proof (Z.div_mod z (2 ^ k) ltac:(lia)). lia.
Qed.

(** The size of an aligned buffer is the least multiple of the page size
    that is at least the size asked for, as long as the sum does not wrap. *)
Theorem page_round_ok k sz :
  0 <= k <= 63 -> 0 <= sz -> sz + 2 ^ k - 1 < 2 ^ 64 ->
  let r := page_round (2 ^ k) sz in
  r mod 2 ^ k = 0 /\ sz <= r /\ (forall m, m mod 2 ^ k = 0 -> sz <= m -> r <= m).
Proof.
  intros Hk Hs Hb. assert (0 < 2 ^ k) by lia.
  unfold page_round. rewrite (wrap_small 64) by lia.
  replace (2 ^ k - 1) with (Z.ones k) by (rewrite Z.ones_equiv; lia).
  rewrite land_high_mask by lia. cbv zeta. split_and!.
  - rewrite Zminus_mod_idemp_r. by rewrite Z.sub_diag.
  - pose proof (Z.mod_pos_bound (sz + 2 ^ k - 1) (2 ^ k)). lia.
  - intros m Hm Hle. apply Z.mod_divide in Hm as [q ->]; [|lia].
    set (a := sz + 2 ^ k - 1). pose proof (Z.div_mod a (2 ^ k) ltac:(lia)).
    assert (a / 2 ^ k < q + 1) by (apply Z.div_lt_upper_bound; [lia|]; unfold a; nia).
    nia.
Qed.

Lemma page_round_ok_witness :
  page_round (2 ^ 12) 5000 mod 2 ^ 12 = 0 /\ 5000 <= page_round (2 ^ 12) 5000.
Proof.
  destruct (page_round_ok 12 5000) as (R1 & R2 & _); [lia | lia | lia | by split].
Defined.

(** ** [reg_mem] (src/src/dpcp/adapter.cpp)

    The references [umem] and [mem_id] are passed with their current values and
    returned. *)
Section reg_mem.
Context {D : Type} `{DevX D}.

Definition reg_mem (ctx buf : option Z) (sz : Z) (umem : option Z) (mem_id : Z)
  : M D (status * option Z * Z) :=
  match ctx with
  | None => ret (DPCP_ERR_NO_CONTEXT, umem, mem_id)
  | Some c =>
      match buf with
      | None => ret (DPCP_ERR_NO_MEMORY, umem, mem_id)
      | Some b =>
          if sz =? 0 then ret (DPCP_ERR_OUT_OF_RANGE, umem, mem_id)
          else
            u <- create_umem c b sz 1;;
            match u with
            | None => ret (DPCP_ERR_UMEM, None, mem_id)
            | Some u => id <- umem_get_id u;; ret (DPCP_OK, Some u, u32 id)
            end
      end
  end.

(** The umem returned is owned; it is there exactly on success. *)
Lemma own_reg_mem ctx buf sz id0 l h Q (w : world D) :
  own l h w ->
  (forall st u id w', own (ptr u KUmem ++ l) h w' -> (st = DPCP_OK <-> u <> None) ->
     Q (st, u, id) w') ->
  wp (reg_mem ctx buf sz None id0) Q w.
Proof.
  intros Ho HQ. unfold reg_mem. destruct ctx; [|apply wp_ret; by apply HQ].
  destruct buf; [|apply wp_ret; by apply HQ]. case_if; [apply wp_ret; by apply HQ|].
  apply wp_bind. eapply own_create_umem; [exact Ho|]. intros [u|] w' Ho'.
  - apply wp_bind. eapply own_umem_get_id; [exact Ho'|]. intros i. apply wp_ret. by apply HQ.
  - apply wp_ret. by apply HQ.
Qed.
End reg_mem.

(** ** The resources of a queue

    [basic_rq], [pp_sq] and [cq] own the same things: a copy of the UAR
    description, the work-queue or completion buffer, the doorbell record and the
    registrations of both.  They are kept in one record. *)

Record qres := mkQres {
  r_uar : option (Z * uar_t);     (* m_uar, with what it points to *)
  r_buf : option Z;               (* m_wq_buf, m_cq_buf *)
  r_buf_umem : option Z;          (* m_wq_buf_umem, m_cq_buf_umem *)
  r_db : option Z;                (* m_db_rec *)
  r_db_umem : option Z;           (* m_db_rec_umem *)
  r_buf_sz : Z;                   (* m_wq_buf_sz_bytes, m_cq_buf_sz_bytes *)
  r_buf_umem_id : Z;
  r_db_umem_id : Z
}.

Definition qres_new (buf_sz : Z) : qres := mkQres None None None None None buf_sz 0 0.

Definition with_uar (u : option (Z * uar_t)) (r : qres) : qres :=
  mkQres u (r_buf r) (r_buf_umem r) (r_db r) (r_db_umem r) (r_buf_sz r) (r_buf_umem_id r)
         (r_db_umem_id r).
Definition with_buf (p : option Z) (sz : Z) (r : qres) : qres :=
  mkQres (r_uar r) p (r_buf_umem r) (r_db r) (r_db_umem r) sz (r_buf_umem_id r) (r_db_umem_id r).
Definition with_buf_umem (u : option Z) (id : Z) (r : qres) : qres :=
  mkQres (r_uar r) (r_buf r) u (r_db r) (r_db_umem r) (r_buf_sz r) id (r_db_umem_id r).
Definition with_db (p : option Z) (r : qres) : qres :=
  mkQres (r_uar r) (r_buf r) (r_buf_umem r) p (r_db_umem r) (r_buf_sz r) (r_buf_umem_id r)
         (r_db_umem_id r).
Definition with_db_umem (u : option Z) (id : Z) (r : qres) : qres :=
  mkQres (r_uar r) (r_buf r) (r_buf_umem r) (r_db r) u (r_buf_sz r) (r_buf_umem_id r) id.

(** What the resources of a queue own. *)
Definition qres_own (r : qres) : list (Z * kind) :=
  ptr (fst <$> r_uar r) KMem ++ ptr (r_buf_umem r) KUmem ++ ptr (r_db_umem r) KUmem
  ++ ptr (r_buf r) KRaw ++ ptr (r_db r) KRaw.

Section qres.
Context {D : Type} `{DevX D}.
Implicit Types (w : world D) (l : list (Z * kind)) (h : gmap Z blk).

(** [delete p] of plain storage. *)
Definition delete_mem (p : option Z) : M D unit :=
  match p with None => ret tt | Some p => dealloc p end.

(** The part of [destroy] that follows [obj::destroy]: UAR description, umems,
    buffer and doorbell record, each pointer reset to null. *)
Definition qres_release (r : qres) : M D qres :=
  delete_mem (fst <$> r_uar r);;
  delete_umem (r_buf_umem r);;
  delete_umem (r_db_umem r);;
  aligned_free (r_buf r);;
  aligned_free (r_db r);;
  ret (mkQres None None None None None (r_buf_sz r) (r_buf_umem_id r) (r_db_umem_id r)).

Lemma own_delete_mem p k l h Q w :
  own (ptr p k ++ l) h w -> (forall w', own l h w' -> Q tt w') -> wp (delete_mem p) Q w.
Proof.
  intros Ho HQ. destruct p as [p|]; [|apply wp_ret; by apply HQ].
  eapply own_dealloc; [exact Ho|done].
Qed.

Lemma own_qres_release r l h Q w :
  own (qres_own r ++ l) h w ->
  (forall r' w', qres_own r' = [] -> own l h w' -> Q r' w') -> wp (qres_release r) Q w.
Proof.
  intros Ho HQ. unfold qres_release, qres_own in *. rewrite <- !app_assoc in Ho.
  apply wp_bind. eapply own_delete_mem; [exact Ho|]. intros w1 Ho1.
  apply wp_bind. eapply own_delete_umem; [exact Ho1|]. intros w2 Ho2.
  apply wp_bind. eapply own_delete_umem; [exact Ho2|]. intros w3 Ho3.
  apply wp_bind. eapply own_aligned_free; [exact Ho3|]. intros w4 Ho4.
  apply wp_bind. eapply own_aligned_free; [exact Ho4|]. intros w5 Ho5.
  apply wp_ret. by apply HQ.
Qed.
End qres.
