(* ===== verification/QState.v ===== *)
(** * The queue state machine (rq::modify_state, sq::modify_state)

    Receive and send queues are moved between the states reset, ready and error
    by the same code over different mailboxes: reject two transitions, send the
    modify command with the old and the new state, read the state back with a
    query and compare.  [queue_cmds] is what the two differ in; the code is
    modelled once against it. *)

From S2P Require Import Prelude Codec Prm Dcmd Obj Sim.
Open Scope string_scope.
Open Scope list_scope.
Open Scope Z_scope.
Open Scope m_scope.

(** [enum rq_state] and [enum sq_state] have the same values.  A state is kept
    as its code because the code read back from the device is cast without a
    check. *)
Definition RQ_RST : Z := 0.
Definition RQ_RDY : Z := 1.
Definition RQ_ERR : Z := 3.

(** The commands of a kind of queue. *)
Class queue_cmds := {
  modify_in : Z -> Z -> Z -> list Z;     (* old state, new state, queue number *)
  modify_out_sz : Z;
  query_in : Z -> list Z;                (* queue number *)
  query_out_sz : Z;
  cur_state : list Z -> Z                (* the state in the query answer *)
}.

(** ** Receive queues (src/src/dpcp/rq.cpp) *)

Definition rq_modify_in (state new_state rqn : Z) : list Z :=
  let p_rqc := ADDR_OF ifc.create_rq_in 0 ["ctx"] in
  mailbox ifc.modify_rq_in
    [DEVX_SET ifc.modify_rq_in 0 ["rq_state"] state;
     DEVX_SET ifc.modify_rq_in 0 ["rqn"] rqn;
     DEVX_SET ifc.rqc p_rqc ["state"] new_state;
     DEVX_SET ifc.modify_rq_in 0 ["opcode"] MLX5_CMD_OP_MODIFY_RQ].

Definition rq_query_in (rqn : Z) : list Z :=
  mailbox ifc.query_rq_in
    [DEVX_SET ifc.query_rq_in 0 ["rqn"] rqn;
     DEVX_SET ifc.query_rq_in 0 ["opcode"] MLX5_CMD_OP_QUERY_RQ].

Definition rq_cur_state (query_out : list Z) : Z :=
  let p_rq_ctx := ADDR_OF ifc.query_rq_out 0 ["rq_context"] in
  DEVX_GET ifc.rqc p_rq_ctx ["state"] query_out.

#[global] Instance rq_cmds : queue_cmds := {
  modify_in := rq_modify_in;
  modify_out_sz := ST_SZ_BYTES ifc.modify_rq_out;
  query_in := rq_query_in;
  query_out_sz := ST_SZ_BYTES ifc.query_rq_out;
  cur_state := rq_cur_state
}.

(** ** Send queues (src/src/dpcp/sq.cpp) *)

Definition sq_modify_in (state new_state sqn : Z) : list Z :=
  let p_sqc := ADDR_OF ifc.create_sq_in 0 ["ctx"] in
  mailbox ifc.modify_sq_in
    [DEVX_SET ifc.modify_sq_in 0 ["sq_state"] state;
     DEVX_SET ifc.modify_sq_in 0 ["sqn"] sqn;
     DEVX_SET ifc.sqc p_sqc ["state"] new_state;
     DEVX_SET ifc.modify_sq_in 0 ["opcode"] MLX5_CMD_OP_MODIFY_SQ].

Definition sq_query_in (sqn : Z) : list Z :=
  mailbox ifc.query_sq_in
    [DEVX_SET ifc.query_sq_in 0 ["sqn"] sqn;
     DEVX_SET ifc.query_sq_in 0 ["opcode"] MLX5_CMD_OP_QUERY_SQ].

Definition sq_cur_state (query_out : list Z) : Z :=
  let p_sq_ctx := ADDR_OF ifc.query_sq_out 0 ["sq_context"] in
  DEVX_GET ifc.sqc p_sq_ctx ["state"] query_out.

Definition sq_cmds : queue_cmds := {|
  modify_in := sq_modify_in;
  modify_out_sz := ST_SZ_BYTES ifc.modify_sq_out;
  query_in := sq_query_in;
  query_out_sz := ST_SZ_BYTES ifc.query_sq_out;
  cur_state := sq_cur_state
|}.

(** ** The code *)

(** The two transitions that are refused. *)
Definition refused (state new_state : Z) : bool :=
  ((RQ_ERR =? new_state) && (RQ_RST =? state)) || ((RQ_RDY =? new_state) && (RQ_ERR =? state)).

Section modify_state.
Context {D : Type} `{DevX D} (K : queue_cmds).

(** [modify_state]: the status, the base object and [m_state]. *)
Definition modify_state (o : obj) (state new_state : Z) : M D (status * obj * Z) :=
  if refused state new_state then ret (DPCP_ERR_INVALID_PARAM, o, state)
  else
    let '(r, n) := obj_get_id o in
    if negb (is_ok r) || (n =? 0) then ret (DPCP_ERR_INVALID_ID, o, state)
    else
      '(r, o, _) <- obj_modify o (Some (modify_in state new_state n)) (Some (zeros modify_out_sz));;
      if negb (is_ok r) then ret (r, o, state)
      else
        '(r, o, out) <- obj_query o (Some (query_in n)) (Some (zeros query_out_sz));;
        if negb (is_ok r) then ret (r, o, state)
        else
          let cur := cur_state out in
          if negb (new_state =? cur) then ret (DPCP_ERR_MODIFY, o, cur)
          else ret (DPCP_OK, o, cur).
End modify_state.

Arguments rq_modify_in : simpl never.
Arguments rq_query_in : simpl never.
Arguments rq_cur_state : simpl never.
Arguments sq_modify_in : simpl never.
Arguments sq_query_in : simpl never.
Arguments sq_cur_state : simpl never.
Arguments modify_state : simpl never.

(** ** What is sent *)

(** The modify commands carry the queue number, the state the queue is in
    and the state asked for, each where the modify layout puts it, although the
    code locates the context through the create layout; no field of the context
    is selected by the bit mask. *)
Theorem modify_in_fields state new_state n :
  let b := rq_modify_in state new_state n in
  let c := sq_modify_in state new_state n in
  (DEVX_GET ifc.modify_rq_in 0 ["opcode"] b = MLX5_CMD_OP_MODIFY_RQ
   /\ DEVX_GET ifc.modify_rq_in 0 ["rqn"] b = wrap 24 n
   /\ DEVX_GET ifc.modify_rq_in 0 ["rq_state"] b = wrap 4 state
   /\ DEVX_GET ifc.modify_rq_in 0 ["ctx"; "state"] b = wrap 4 new_state
   /\ DEVX_GET64 ifc.modify_rq_in 0 ["modify_bitmask"] b = 0)
  /\ (DEVX_GET ifc.modify_sq_in 0 ["opcode"] c = MLX5_CMD_OP_MODIFY_SQ
   /\ DEVX_GET ifc.modify_sq_in 0 ["sqn"] c = wrap 24 n
   /\ DEVX_GET ifc.modify_sq_in 0 ["sq_state"] c = wrap 4 state
   /\ DEVX_GET ifc.modify_sq_in 0 ["ctx"; "state"] c = wrap 4 new_state
   /\ DEVX_GET64 ifc.modify_sq_in 0 ["modify_bitmask"] c = 0).
Proof. unfold rq_modify_in, sq_modify_in. cbv zeta. split_and!; mbox; reflexivity. Qed.

(** What the base class needs of the commands. *)
Class queue_cmds_ok (K : queue_cmds) : Prop := {
  modify_args_ok a b n : bad_args (Some (modify_in a b n)) (Some (zeros modify_out_sz)) = false;
  query_args_ok n : bad_args (Some (query_in n)) (Some (zeros query_out_sz)) = false
}.

Lemma bad_args_mailbox l ws n :
  16 <= ST_SZ_BYTES l -> 16 <= n -> bad_args (Some (mailbox l ws)) (Some (zeros n)) = false.
Proof.
  intros Hl Hn. unfold bad_args. rewrite length_mailbox, length_zeros by lia.
  apply orb_false_intro; apply Z.ltb_ge; lia.
Qed.

#[global] Instance rq_cmds_ok : queue_cmds_ok rq_cmds.
Proof. split; intros; by apply bad_args_mailbox. Qed.

#[global] Instance sq_cmds_ok : queue_cmds_ok sq_cmds.
Proof. split; intros; by apply bad_args_mailbox. Qed.

Section fsm.
Context {D : Type} `{DevX D} (K : queue_cmds) `{!queue_cmds_ok K}.
Implicit Types w : world D.

(** A created queue: it has a context, a nonzero number and a live device object. *)
Definition created (o : obj) (h : Z) w : Prop :=
  m_ctx o <> None /\ m_id o <> 0 /\
  exists p, m_obj_handle o = Some p /\ heap w !! p = Some (BObj (Some h)).

(** The outcome of the two device calls: the status and [m_state]. *)
Definition modify_outcome (h n state new_state : Z) (d : D) : status * Z * list call :=
  let '(r1, o1, d1) := mlx5dv_devx_obj_modify h (modify_in state new_state n)
                         (zeros modify_out_sz) d in
  let c1 := CObjModify h (modify_in state new_state n) in
  if negb ((r1 =? 0) && (out_status o1 =? 0)) then (DPCP_ERR_MODIFY, state, [c1])
  else
    let '(r2, o2, d2) := mlx5dv_devx_obj_query h (query_in n) (zeros query_out_sz) d1 in
    let c2 := CObjQuery h (query_in n) in
    if negb ((r2 =? 0) && (out_status o2 =? 0)) then (DPCP_ERR_QUERY, state, [c2; c1])
    else (if new_state =? cur_state o2 then DPCP_OK else DPCP_ERR_MODIFY, cur_state o2, [c2; c1]).

Ltac finish_split p :=
  unfold created; cbv beta iota zeta; split_and!; try reflexivity; try done; exists p; done.
Ltac finish_created p := do 2 eexists; finish_split p.

Lemma modify_state_run o h state new_state w :
  created o h w ->
  exists o' w',
    let '(st, state', cs) :=
      if refused state new_state then (DPCP_ERR_INVALID_PARAM, state, [])
      else modify_outcome h (m_id o) state new_state (dev w) in
    modify_state K o state new_state w = Ret (st, o', state', w')
    /\ calls w' = cs ++ calls w /\ heap w' = heap w /\ created o' h w'
    /\ m_id o' = m_id o.
Proof.
  intros (Hc & Hi & p & Ho & Hp). unfold modify_state, modify_outcome.
  destruct (refused state new_state); [exists o, w; finish_split p|].
  unfold obj_get_id. rewrite Ho. cbn [is_ok negb orb].
  rewrite (proj2 (Z.eqb_neq _ _) Hi). unfold bind at 1.
  rewrite (obj_modify_run o _ _ p h w) by (try done; apply modify_args_ok).
  destruct (mlx5dv_devx_obj_modify _ _ _ _) as [[r1 o1] d1].
  destruct ((r1 =? 0) && (out_status o1 =? 0)); cbn [is_ok negb];
    [|finish_created p].
  unfold bind at 1.
  rewrite (obj_query_run _ _ _ p h _) by (try done; apply query_args_ok). cbn [dev].
  destruct (mlx5dv_devx_obj_query _ _ _ _) as [[r2 o2] d2].
  destruct ((r2 =? 0) && (out_status o2 =? 0)); cbn [is_ok negb];
    [|finish_created p].
  destruct (new_state =? cur_state o2);
    (finish_created p).
Qed.

(** The transitions of the state machine: all but reset to error and error to
    ready. *)
Definition allowed (state new_state : Z) : Prop :=
  ~ (state = RQ_RST /\ new_state = RQ_ERR) /\ ~ (state = RQ_ERR /\ new_state = RQ_RDY).

#[global] Instance allowed_dec s r : Decision (allowed s r).
Proof. unfold allowed. apply _. Defined.

Lemma refused_allowed s r : refused s r = negb (bool_decide (allowed s r)).
Proof.
  unfold refused. case_bool_decide as Ha; unfold allowed in Ha; cbn [negb].
  - apply orb_false_intro; apply andb_false_iff; rewrite !Z.eqb_neq; lia.
  - apply orb_true_iff. rewrite !andb_true_iff, !Z.eqb_eq. lia.
Qed.

(** [modify_state] on a created queue, for receive and send queues: a refused
    transition is an error that touches nothing; otherwise the modify and then
    the query command are sent, [m_state] becomes the state the device reports
    and the result is OK exactly when that is the state asked for; when a
    command fails [m_state] is kept and the error says which one. *)
Theorem modify_state_ok o h state new_state w :
  created o h w ->
  exists o' w',
    let '(st, state', cs) :=
      if bool_decide (allowed state new_state) then modify_outcome h (m_id o) state new_state (dev w)
      else (DPCP_ERR_INVALID_PARAM, state, []) in
    modify_state K o state new_state w = Ret (st, o', state', w')
    /\ calls w' = cs ++ calls w /\ heap w' = heap w /\ created o' h w'
    /\ m_id o' = m_id o.
Proof.
  intros Hc. destruct (modify_state_run o h state new_state w Hc) as (o' & w' & R).
  rewrite refused_allowed in R. exists o', w'. by destruct (bool_decide _).
Qed.

(** A queue that was not created, or whose number is zero, refuses every
    request without touching the device. *)
Lemma modify_state_uncreated o state new_state w :
  m_obj_handle o = None \/ m_id o = 0 ->
  modify_state K o state new_state w
  = Ret (if refused state new_state then DPCP_ERR_INVALID_PARAM else DPCP_ERR_INVALID_ID,
         o, state, w).
Proof.
  intros Hn. unfold modify_state, obj_get_id. destruct (refused _ _); [done|].
  destruct (m_obj_handle o); [|done]. destruct Hn as [|Hn]; [done|]. by rewrite Hn.
Qed.

(** ** Sequences of requests *)

(** The requests in order; the statuses and the last [m_state]. *)
Fixpoint run_requests (o : obj) (state : Z) (reqs : list Z) : M D (list status * obj * Z) :=
  match reqs with
  | [] => ret ([], o, state)
  | r :: rest =>
      '(st, o', state') <- modify_state K o state r;;
      '(sts, o'', state'') <- run_requests o' state' rest;;
      ret (st :: sts, o'', state'')
  end.

(** A walk of the state machine. *)
Inductive walk : Z -> list Z -> Z -> Prop :=
| walk_nil s : walk s [] s
| walk_cons s r rest s' : allowed s r -> walk r rest s' -> walk s (r :: rest) s'.

Lemma modify_outcome_ok h n s r d s' cs :
  modify_outcome h n s r d = (DPCP_OK, s', cs) -> s' = r.
Proof.
  unfold modify_outcome. intros E. repeat case_match; simplify_eq; bool_hyps; done.
Qed.

Lemma run_requests_run reqs : forall o h s w,
  created o h w ->
  exists sts o' s' w',
    run_requests o s reqs w = Ret (sts, o', s', w')
    /\ length sts = length reqs /\ heap w' = heap w /\ created o' h w'
    /\ (Forall (eq DPCP_OK) sts -> walk s reqs s').
Proof.
  induction reqs as [|r rest IH]; intros o h s w Hc.
  { exists [], o, s, w. split_and!; try done. intros _. constructor. }
  destruct (modify_state_run o h s r w Hc) as (o1 & w1 & R).
  destruct (refused s r) eqn:Er.
  - destruct R as (R & _ & Hh & Hc1 & _).
    destruct (IH _ _ s _ Hc1) as (sts & o2 & s2 & w2 & R2 & Hl & Hh2 & Hc2 & _).
    exists (DPCP_ERR_INVALID_PARAM :: sts), o2, s2, w2. simpl. unfold bind at 1.
    rewrite R. unfold bind. rewrite R2. split_and!; try done; [simpl; congruence|congruence|].
    intros Ha. by inversion Ha.
  - destruct (modify_outcome h (m_id o) s r (dev w)) as [[st s1] cs] eqn:Eo.
    destruct R as (R & _ & Hh & Hc1 & _).
    destruct (IH _ _ s1 _ Hc1) as (sts & o2 & s2 & w2 & R2 & Hl & Hh2 & Hc2 & Hw).
    exists (st :: sts), o2, s2, w2. simpl. unfold bind at 1.
    rewrite R. unfold bind. rewrite R2. split_and!; try done; [simpl; congruence|congruence|].
    intros Ha. inversion Ha as [|x y Hx Hy]; subst. apply modify_outcome_ok in Eo as ->.
    constructor; [|auto]. rewrite refused_allowed in Er. by bool_hyps.
Qed.

(** C7. Any sequence of requests on a created queue runs to the end, whatever the
    device answers, keeps the queue created, and when all requests succeed they
    form a walk of the state machine (no reset to error, no error to ready)
    that ends in [m_state]. *)
Theorem run_requests_walk reqs o h s w :
  created o h w ->
  exists sts o' s' w',
    run_requests o s reqs w = Ret (sts, o', s', w')
    /\ length sts = length reqs /\ heap w' = heap w /\ created o' h w'
    /\ (Forall (eq DPCP_OK) sts -> walk s reqs s').
Proof. apply run_requests_run. Qed.

End fsm.

(** ** The other side: a device that keeps the state of the queue *)

(** What the device reads of the commands and writes to the answer, by the
    layouts of the reference manual: the queue number with the state the queue is
    said to be in and the state asked for; the queue number; the state. *)
Class queue_prm := {
  prm_modify : list Z -> option (Z * Z * Z);
  prm_query : list Z -> option Z;
  prm_query_sz : Z;
  prm_state : list Z -> Z
}.

#[global] Instance rq_prm : queue_prm := {
  prm_modify b :=
    if DEVX_GET ifc.modify_rq_in 0 ["opcode"] b =? MLX5_CMD_OP_MODIFY_RQ
    then Some (DEVX_GET ifc.modify_rq_in 0 ["rqn"] b, DEVX_GET ifc.modify_rq_in 0 ["rq_state"] b,
               DEVX_GET ifc.modify_rq_in 0 ["ctx"; "state"] b)
    else None;
  prm_query b :=
    if DEVX_GET ifc.query_rq_in 0 ["opcode"] b =? MLX5_CMD_OP_QUERY_RQ
    then Some (DEVX_GET ifc.query_rq_in 0 ["rqn"] b) else None;
  prm_query_sz := ST_SZ_BYTES ifc.query_rq_out;
  prm_state out := DEVX_GET ifc.query_rq_out 0 ["rq_context"; "state"] out
}.

Definition sq_prm : queue_prm := {|
  prm_modify b :=
    if DEVX_GET ifc.modify_sq_in 0 ["opcode"] b =? MLX5_CMD_OP_MODIFY_SQ
    then Some (DEVX_GET ifc.modify_sq_in 0 ["sqn"] b, DEVX_GET ifc.modify_sq_in 0 ["sq_state"] b,
               DEVX_GET ifc.modify_sq_in 0 ["ctx"; "state"] b)
    else None;
  prm_query b :=
    if DEVX_GET ifc.query_sq_in 0 ["opcode"] b =? MLX5_CMD_OP_QUERY_SQ
    then Some (DEVX_GET ifc.query_sq_in 0 ["sqn"] b) else None;
  prm_query_sz := ST_SZ_BYTES ifc.query_sq_out;
  prm_state out := DEVX_GET ifc.query_sq_out 0 ["sq_context"; "state"] out
|}.

(** The commands of the code say to the device what they mean. *)
Class queue_agrees (K : queue_cmds) (P : queue_prm) : Prop := {
  agree_modify s r n : 0 <= s < 2 ^ 4 -> 0 <= r < 2 ^ 4 -> 0 <= n < 2 ^ 24 -> prm_modify (modify_in s r n) = Some (n, s, r);
  agree_query n : 0 <= n < 2 ^ 24 -> prm_query (query_in n) = Some n;
  agree_query_sz : query_out_sz = prm_query_sz;
  agree_state out : cur_state out = prm_state out
}.

#[global] Instance rq_agrees : queue_agrees rq_cmds rq_prm.
Proof.
  split; [intros s r n Hs Hr Hn|intros n Hn|reflexivity|reflexivity].
  - cbn [prm_modify rq_prm modify_in rq_cmds]. destruct (modify_in_fields s r n) as [(-> & -> & -> & -> & _) _].
    rewrite Z.eqb_refl, !wrap_small by lia. done.
  - cbn [prm_query rq_prm query_in rq_cmds]. unfold rq_query_in.
    assert (DEVX_GET ifc.query_rq_in 0 ["opcode"] (rq_query_in n) = MLX5_CMD_OP_QUERY_RQ
            /\ DEVX_GET ifc.query_rq_in 0 ["rqn"] (rq_query_in n) = wrap 24 n) as [E1 E2] by (unfold rq_query_in; split; mbox; reflexivity).
    unfold rq_query_in in E1, E2. rewrite E1, E2, Z.eqb_refl, wrap_small by lia. done.
Qed.

#[global] Instance sq_agrees : queue_agrees sq_cmds sq_prm.
Proof.
  split; [intros s r n Hs Hr Hn|intros n Hn|reflexivity|reflexivity].
  - cbn [prm_modify sq_prm modify_in sq_cmds]. destruct (modify_in_fields s r n) as [_ (-> & -> & -> & -> & _)].
    rewrite Z.eqb_refl, !wrap_small by lia. done.
  - cbn [prm_query sq_prm query_in sq_cmds]. unfold sq_query_in.
    assert (DEVX_GET ifc.query_sq_in 0 ["opcode"] (sq_query_in n) = MLX5_CMD_OP_QUERY_SQ
            /\ DEVX_GET ifc.query_sq_in 0 ["sqn"] (sq_query_in n) = wrap 24 n) as [E1 E2] by (unfold sq_query_in; split; mbox; reflexivity).
    unfold sq_query_in in E1, E2. rewrite E1, E2, Z.eqb_refl, wrap_small by lia. done.
Qed.

(** The device of a queue: it knows the number and the state of the queue behind
    the handle [h].  A modify command that names the queue and its state is carried
    out when [dq_takes] lists the transition; one that is not listed, or whose
    sender is wrong about the state, is refused and changes nothing.  A query
    answers with the state. *)
Class QueueDevice (D : Type) `{DevX D} (P : queue_prm) (h : Z) := {
  dq_num : D -> Z;
  dq_state : D -> Z;
  dq_takes : Z -> Z -> bool;
  dq_modify b n s r k d :
    prm_modify b = Some (n, s, r) -> n = dq_num d ->
    let '(res, out, d') := mlx5dv_devx_obj_modify h b (zeros k) d in
    dq_num d' = dq_num d
    /\ if (s =? dq_state d) && dq_takes s r then res = 0 /\ out_status out = 0 /\ dq_state d' = r
       else (res <> 0 \/ out_status out <> 0) /\ dq_state d' = dq_state d;
  dq_query b n d :
    prm_query b = Some n -> n = dq_num d ->
    let '(res, out, d') := mlx5dv_devx_obj_query h b (zeros prm_query_sz) d in
    dq_num d' = dq_num d /\ dq_state d' = dq_state d /\ res = 0 /\ out_status out = 0 /\ prm_state out = dq_state d
}.

(** The contract of a queue: the status of a request and the state after it. *)
Definition queue_spec (takes : Z -> Z -> bool) (s r : Z) : status * Z :=
  if bool_decide (allowed s r) then if takes s r then (DPCP_OK, r) else (DPCP_ERR_MODIFY, s)
  else (DPCP_ERR_INVALID_PARAM, s).

Fixpoint queue_spec_run (takes : Z -> Z -> bool) (s : Z) (reqs : list Z) : list status * Z :=
  match reqs with
  | [] => ([], s)
  | r :: rest => let '(st, s1) := queue_spec takes s r in let '(sts, s2) := queue_spec_run takes s1 rest in (st :: sts, s2)
  end.

Definition queue_states : list Z := [RQ_RST; RQ_RDY; RQ_ERR].

(** A walk of the state machine that the device takes succeeds. *)
Lemma queue_spec_walk takes reqs : forall s s',
  walk s reqs s' -> s ∈ queue_states -> Forall (fun r => r ∈ queue_states) reqs ->
  (forall a b, a ∈ queue_states -> b ∈ queue_states -> allowed a b -> takes a b = true) ->
  queue_spec_run takes s reqs = (replicate (length reqs) DPCP_OK, s').
Proof.
  induction reqs as [|r rest IH]; intros s s' Hw Hs Hr Ht; inversion Hw; subst; [done|]. inversion Hr; subst.
  cbn [queue_spec_run]. unfold queue_spec. rewrite bool_decide_eq_true_2, Ht by done. by rewrite (IH r s').
Qed.

Lemma queue_state_range s : s ∈ queue_states -> 0 <= s < 2 ^ 4.
Proof. unfold queue_states, RQ_RST, RQ_RDY, RQ_ERR. rewrite !list.elem_of_cons, list.elem_of_nil. lia. Qed.

Section tracks.
Context {D : Type} `{DevX D} (K : queue_cmds) `{!queue_cmds_ok K} (P : queue_prm) `{!queue_agrees K P} (h : Z) `{!QueueDevice D P h}.
Implicit Types w : world D.

(** The queue and the device agree on the number and the state. *)
Definition in_step (o : obj) (s : Z) w : Prop :=
  created o h w /\ m_id o = dq_num (dev w) /\ 0 < m_id o < 2 ^ 24 /\ s = dq_state (dev w) /\ s ∈ queue_states.

(** The device of [modify_state_run] is the one the two calls leave. *)
Lemma modify_state_dev o state new_state w st o' s' w' :
  created o h w -> refused state new_state = false -> modify_state K o state new_state w = Ret (st, o', s', w') ->
  let '(r1, o1, d1) := mlx5dv_devx_obj_modify h (modify_in state new_state (m_id o)) (zeros modify_out_sz) (dev w) in
  if negb ((r1 =? 0) && (out_status o1 =? 0)) then dev w' = d1
  else dev w' = (mlx5dv_devx_obj_query h (query_in (m_id o)) (zeros query_out_sz) d1).2.
Proof.
  intros (Hc & Hi & p & Ho & Hp) Hr. unfold modify_state. rewrite Hr. unfold obj_get_id. rewrite Ho. cbn [is_ok negb orb].
  rewrite (proj2 (Z.eqb_neq _ _) Hi). unfold bind at 1.
  rewrite (obj_modify_run o _ _ p h w) by (try done; apply modify_args_ok).
  destruct (mlx5dv_devx_obj_modify _ _ _ _) as [[r1 o1] d1].
  destruct ((r1 =? 0) && (out_status o1 =? 0)); cbn [is_ok negb]; [|by intros [= <- <- <- <-]].
  unfold bind at 1. rewrite (obj_query_run _ _ _ p h _) by (try done; apply query_args_ok). cbn [dev].
  destruct (mlx5dv_devx_obj_query _ _ _ _) as [[r2 o2] d2].
  destruct ((r2 =? 0) && (out_status o2 =? 0)); cbn [is_ok negb]; [|by intros [= <- <- <- <-]].
  by destruct (new_state =? cur_state o2); intros [= <- <- <- <-].
Qed.

(** One request follows the contract. *)
Lemma modify_state_tracks o s r w :
  in_step o s w -> r ∈ queue_states ->
  let '(st, s') := queue_spec dq_takes s r in
  exists o' w', modify_state K o s r w = Ret (st, o', s', w') /\ in_step o' s' w' /\ heap w' = heap w.
Proof.
  intros (Hc & Hn & Hlt & Hs & Hst) Hr. pose proof (queue_state_range s Hst) as Bs. pose proof (queue_state_range r Hr) as Br.
  destruct (modify_state_run K o h s r w Hc) as (o' & w' & R). unfold queue_spec. rewrite refused_allowed in R.
  destruct (bool_decide (allowed s r)) eqn:Ea; cbn [negb] in R.
  2:{ destruct R as (R & _ & Hh & Hc' & Hi). unfold modify_state in R. rewrite refused_allowed, Ea in R. injection R as <- <-.
      exists o, w. split_and!; [|done..]. unfold modify_state. by rewrite refused_allowed, Ea. }
  unfold modify_outcome in R.
  pose proof (modify_state_dev o s r w) as Hd.
  pose proof (dq_modify (modify_in s r (m_id o)) (m_id o) s r modify_out_sz (dev w) (agree_modify s r (m_id o) Bs Br ltac:(lia)) Hn) as Hm.
  assert (refused s r = false) as Href by (by rewrite refused_allowed, Ea).
  destruct (mlx5dv_devx_obj_modify h (modify_in s r (m_id o)) (zeros modify_out_sz) (dev w)) as [[r1 o1] d1] eqn:E1.
  destruct Hm as [Hn1 Hm]. rewrite Hs, Z.eqb_refl, <- Hs in Hm. cbn [andb] in Hm. destruct (dq_takes s r).
  - destruct Hm as (-> & Ho1 & Hs1). rewrite Ho1 in *. cbn [Z.eqb andb negb] in *.
    pose proof (dq_query (query_in (m_id o)) (m_id o) d1 (agree_query (m_id o) ltac:(lia)) (eq_trans Hn (eq_sym Hn1))) as Hq.
    rewrite <- (agree_query_sz (K := K)) in Hq.
    destruct (mlx5dv_devx_obj_query h (query_in (m_id o)) (zeros query_out_sz) d1) as [[r2 o2] d2].
    destruct Hq as (Hn2 & Hs2 & -> & Ho2 & Hst2). rewrite Ho2, agree_state, Hst2, Hs1, !Z.eqb_refl in R. cbn [andb negb] in R.
    destruct R as (R & _ & Hh & Hc' & Hi). specialize (Hd _ _ _ _ Hc Href R). cbn [snd] in Hd.
    exists o', w'. split_and!; [done| |done]. split_and!; [done|rewrite Hi, Hn, Hd, Hn2, Hn1; done|lia|lia|rewrite Hd, Hs2; done|done].
  - destruct Hm as [Hf Hs1]. assert ((r1 =? 0) && (out_status o1 =? 0) = false) as Ef by lia. rewrite Ef in *. cbn [negb] in *.
    destruct R as (R & _ & Hh & Hc' & Hi). specialize (Hd _ _ _ _ Hc Href R).
    exists o', w'. split_and!; [done| |done]. split_and!; [done|congruence|lia|lia|congruence|done].
Qed.

(** C18. A queue and its device stay in step.  On a device that keeps the state of
    the queue, carries out the transitions it lists when the command names the
    present state, refuses every other modify command, and answers queries, any
    sequence of requests for the three states follows the contract
    [queue_spec_run]: a transition the library forbids is an invalid parameter,
    one the device refuses an error of the modify command, and both leave the state
    alone; all others succeed.  After every request [m_state] is the state of the
    device.  So when the device takes the transitions the library allows, every
    walk of the state machine is carried out. *)
Theorem queue_tracks_device reqs : forall o s w,
  in_step o s w -> Forall (fun r => r ∈ queue_states) reqs ->
  let '(sts, s') := queue_spec_run dq_takes s reqs in
  (exists o' w', run_requests K o s reqs w = Ret (sts, o', s', w') /\ in_step o' s' w' /\ heap w' = heap w)
  /\ forall s2, walk s reqs s2 -> (forall a b, a ∈ queue_states -> b ∈ queue_states -> allowed a b -> dq_takes a b = true) ->
       sts = replicate (length reqs) DPCP_OK /\ s' = s2.
Proof.
  intros o s w Hi Hr.
  assert (forall sts s', queue_spec_run dq_takes s reqs = (sts, s') ->
    exists o' w', run_requests K o s reqs w = Ret (sts, o', s', w') /\ in_step o' s' w' /\ heap w' = heap w) as Hrun.
  { revert o s w Hi. induction Hr as [|r rest Hr Hrest IH]; intros o s w Hi sts s' E; cbn [queue_spec_run run_requests] in *.
    { injection E as <- <-. by exists o, w. }
    pose proof (modify_state_tracks o s r w Hi Hr) as Ht. destruct (queue_spec dq_takes s r) as [st s1].
    destruct (queue_spec_run dq_takes s1 rest) as [sts1 s2] eqn:E2. injection E as <- <-.
    destruct Ht as (o1 & w1 & R1 & Hi1 & Hh1). destruct (IH o1 s1 w1 Hi1 _ _ E2) as (o2 & w2 & R2 & Hi2 & Hh2).
    exists o2, w2. split_and!; [|done|congruence]. unfold bind at 1. rewrite R1. unfold bind. by rewrite R2. }
  destruct (queue_spec_run dq_takes s reqs) as [sts s'] eqn:E. split; [by apply Hrun|].
  intros s2 Hw Ht. rewrite (queue_spec_walk _ _ _ _ Hw (proj2 (proj2 (proj2 (proj2 Hi)))) Hr Ht) in E. by injection E as <- <-.
Qed.
End tracks.

(** ** A device with one receive queue, for the witnesses *)

(** It keeps the state of the queue and moves it along the edges of the state
    machine, when the command is right about where it is. *)
Record qsim := mkQsim { q_state : Z }.

Definition qsim_takes (s r : Z) : bool :=
  bool_decide ((s, r) ∈ [(0, 0); (0, 1); (1, 0); (1, 1); (1, 3); (3, 0); (3, 3)]).

Definition qsim_modify (b : list Z) (d : qsim) : Z * qsim :=
  match prm_modify b with
  | Some (n, s, r) => if (n =? 9) && ((s =? wrap 4 (q_state d)) && qsim_takes s r) then (0, mkQsim r) else (-1, d)
  | None => (-1, d)
  end.

Definition qsim_query (d : qsim) (outb : list Z) : list Z :=
  exec [DEVX_SET ifc.rqc (ADDR_OF ifc.query_rq_out 0 ["rq_context"]) ["state"] (q_state d)] outb.

#[global] Instance qsim_devx : DevX qsim := {
  mlx5dv_devx_obj_create _ _ o d := (None, o, d);
  mlx5dv_devx_obj_destroy _ d := (0, d);
  mlx5dv_devx_obj_modify _ i o d := ((qsim_modify i d).1, o, (qsim_modify i d).2);
  mlx5dv_devx_obj_query _ _ o d := (0, qsim_query d o, d);
  mlx5dv_devx_general_cmd _ _ o d := (0, o, d);
  mlx5dv_devx_umem_reg _ _ _ _ d := (None, d);
  mlx5dv_devx_umem_dereg _ d := (0, d);
  devx_umem_id h _ := h;
  MLX5_IB_UAPI_UAR_ALLOC_TYPE_BF := 0;
  MLX5_IB_UAPI_UAR_ALLOC_TYPE_NC := 1;
  mlx5dv_devx_alloc_uar _ _ d := (None, d);
  mlx5dv_devx_free_uar _ d := d;
  devx_uar_page_id h _ := h;
  devx_uar_base_addr h _ := h;
  devx_uar_reg_addr h _ := h;
  mlx5dv_pp_alloc _ _ d := (None, d);
  mlx5dv_pp_free _ d := d;
  devx_pp_index h _ := h;
  ibv_reg_mr _ _ _ _ d := (None, d);
  ibv_reg_mr_iova _ _ _ _ _ d := (None, d);
  ibv_dereg_mr _ d := (0, d);
  ibv_mr_lkey h _ := h;
  mlx5dv_create_flow_matcher _ _ d := (None, d);
  mlx5dv_destroy_flow_matcher _ d := d;
  mlx5dv_create_flow_action_modify_header _ _ d := (None, d);
  mlx5dv_create_flow _ _ _ d := (None, d);
  ibv_destroy_flow _ d := d
}.

Definition q_world : world qsim := mkWorld (mkQsim 0) {[ 1 := BObj (Some 9) ]} 2 [] [].
Definition q_obj : obj := mkObj 9 (Some 1) (Some 1) 0 0.

Lemma q_created : created q_obj 9 q_world.
Proof. split_and!; try done. by exists 1. Qed.

#[global] Program Instance qsim_queue : QueueDevice qsim rq_prm 9 := {
  dq_num _ := 9;
  dq_state d := wrap 4 (q_state d);
  dq_takes := qsim_takes
}.
Next Obligation.
  intros b n s r k d E ->. cbn [mlx5dv_devx_obj_modify qsim_devx]. unfold qsim_modify. rewrite E, Z.eqb_refl. cbn [andb].
  destruct ((s =? wrap 4 (q_state d)) && qsim_takes s r) eqn:Et; cbn [fst snd]; split; try done; [|split; [by left|done]].
  split_and!; [done| |].
  - apply get_zeros.
  - bool_hyps. cbn [q_state]. apply wrap_small. unfold qsim_takes in *.
    match goal with H : bool_decide _ = true |- _ => apply bool_decide_eq_true in H; rewrite !list.elem_of_cons, list.elem_of_nil in H;
      repeat destruct H as [H|H]; try done; injection H as -> ->; lia end.
Qed.
Next Obligation.
  intros b n d _ _. cbn [mlx5dv_devx_obj_query qsim_devx]. split_and!; [done..| |].
  - change (out_status (mailbox ifc.query_rq_out [DEVX_SET ifc.rqc (ADDR_OF ifc.query_rq_out 0 ["rq_context"]) ["state"] (q_state d)]) = 0).
    unfold out_status. mbox. reflexivity.
  - change (prm_state (mailbox ifc.query_rq_out [DEVX_SET ifc.rqc (ADDR_OF ifc.query_rq_out 0 ["rq_context"]) ["state"] (q_state d)])
            = wrap 4 (q_state d)). cbn [prm_state rq_prm]. mbox. reflexivity.
Qed.

Lemma q_in_step : in_step rq_prm 9 q_obj RQ_RST q_world.
Proof. split_and!; [exact q_created|done|done|done|done|repeat constructor]. Qed.

Lemma qsim_takes_allowed a b : a ∈ queue_states -> b ∈ queue_states -> allowed a b -> qsim_takes a b = true.
Proof.
  unfold queue_states, RQ_RST, RQ_RDY, RQ_ERR, allowed. rewrite !list.elem_of_cons, !list.elem_of_nil.
  intros [->|[->|[->|[]]]] [->|[->|[->|[]]]] [H1 H2]; try reflexivity; exfalso; [by apply H1|by apply H2].
Qed.

Lemma modify_state_ok_witness :
  exists o' w', modify_state rq_cmds q_obj RQ_RST RQ_RDY q_world = Ret (DPCP_OK, o', RQ_RDY, w').
Proof.
  destruct (modify_state_ok rq_cmds q_obj 9 RQ_RST RQ_RDY q_world q_created) as (o' & w' & R).
  rewrite bool_decide_eq_true_2 in R by (split; intros [? ?]; discriminate).
  assert (modify_outcome rq_cmds 9 (m_id q_obj) RQ_RST RQ_RDY (dev q_world)
    = (DPCP_OK, RQ_RDY, [CObjQuery 9 (rq_query_in 9); CObjModify 9 (rq_modify_in 0 1 9)])) as E by (vm_compute; reflexivity).
  rewrite E in R. exists o', w'. apply R.
Defined.

Lemma run_requests_walk_witness :
  exists sts o' s' w',
    run_requests rq_cmds q_obj RQ_RST [RQ_RDY; RQ_ERR; RQ_RST] q_world = Ret (sts, o', s', w')
    /\ length sts = 3%nat.
Proof.
  destruct (run_requests_walk rq_cmds [RQ_RDY; RQ_ERR; RQ_RST] q_obj 9 RQ_RST q_world q_created)
    as (sts & o' & s' & w' & R & Hl & _).
  exists sts, o', s', w'. split; [exact R | exact Hl].
Defined.

(** The queue is made ready, asked for an error and back; the request that the
    library forbids in between changes nothing. *)
Lemma queue_tracks_device_witness :
  (exists o' w',
    run_requests rq_cmds q_obj RQ_RST [RQ_RDY; RQ_ERR; RQ_RDY; RQ_RST] q_world
    = Ret ([DPCP_OK; DPCP_OK; DPCP_ERR_INVALID_PARAM; DPCP_OK], o', RQ_RST, w') /\ in_step rq_prm 9 o' RQ_RST w')
  /\ exists o' w', run_requests rq_cmds q_obj RQ_RST [RQ_RDY; RQ_ERR; RQ_RST] q_world
                   = Ret (replicate 3 DPCP_OK, o', RQ_RST, w').
Proof.
  split.
  - destruct (queue_tracks_device rq_cmds rq_prm 9 [RQ_RDY; RQ_ERR; RQ_RDY; RQ_RST] q_obj RQ_RST q_world q_in_step) as [(o' & w' & R & Hi & _) _].
    { repeat constructor. }
    exists o', w'. split; [exact R|exact Hi].
  - pose proof (queue_tracks_device rq_cmds rq_prm 9 [RQ_RDY; RQ_ERR; RQ_RST] q_obj RQ_RST q_world q_in_step) as Ht.
    destruct Ht as [(o' & w' & R & _) _]; [repeat constructor|]. exists o', w'. exact R.
Defined.
