(* ===== verification/Rq.v ===== *)
(** * Receive queues (src/src/dpcp/rq.cpp)

    [rq] with its state, [basic_rq] with the buffers it owns, and the three
    concrete queues: striding, regular and in-buffer ([ibq_rq]).  The adapter is
    needed for its protection domain only, which is an argument of the create
    operations. *)

From S2P Require Import Prelude Codec Prm Dcmd Own Sim Obj Uar Queue QState.
Open Scope string_scope.
Open Scope list_scope.
Open Scope Z_scope.
Open Scope m_scope.

Record rq_attr := mkRqAttr {
  buf_stride_sz : Z;
  buf_stride_num : Z;
  rq_user_index : Z;
  rq_cqn : Z;
  rq_wqe_num : Z;
  rq_wqe_sz : Z;
  ts_format : Z;
  ibq_scatter_offset : Z
}.

Definition MEMORY_RQ_INLINE : Z := 0.
Definition MEMORY_RQ_IBQ : Z := 2.
Definition WQ_CYCLIC : Z := 1.
Definition CYCLIC_STRIDING_WQ : Z := 3.
Definition DPCP_IBQ_NOT_INITIALIZED : Z := 5.

Definition MLX5_MAX_SINGLE_STRIDE_LOG_NUM_BYTES : Z := 13.
Definition MLX5_MIN_SINGLE_STRIDE_LOG_NUM_BYTES : Z := 6.
Definition MLX5_MAX_SINGLE_WQE_LOG_NUM_STRIDES : Z := 16.
Definition MLX5_MIN_SINGLE_WQE_LOG_NUM_STRIDES : Z := 9.

Record rq := mkRq { rq_obj : obj; rq_m_attr : rq_attr; rq_m_state : Z }.

(** [rq::rq] *)
Definition rq_new (ctx : option Z) (a : rq_attr) : rq := mkRq (obj_new ctx) a RQ_RST.

(** [rq::get_hw_buff_stride_sz], [get_hw_buff_stride_num], [get_cqn] *)
Definition get_hw_buff_stride_sz (q : rq) : status * Z := (DPCP_OK, buf_stride_sz (rq_m_attr q)).
Definition get_hw_buff_stride_num (q : rq) : status * Z := (DPCP_OK, buf_stride_num (rq_m_attr q)).
Definition rq_get_cqn (q : rq) : status * Z := (DPCP_OK, rq_cqn (rq_m_attr q)).

Record basic_rq := mkBasicRq {
  brq : rq;
  brq_res : qres;
  brq_mem_type : Z
}.

(** [basic_rq::basic_rq] *)
Definition basic_rq_new (ctx : option Z) (a : rq_attr) : basic_rq :=
  mkBasicRq (rq_new ctx a) (qres_new (u32 (u64 (16 * rq_wqe_sz a * rq_wqe_num a))))
            MEMORY_RQ_INLINE.

Definition with_obj (o : obj) (b : basic_rq) : basic_rq :=
  mkBasicRq (mkRq o (rq_m_attr (brq b)) (rq_m_state (brq b))) (brq_res b) (brq_mem_type b).
Definition with_res (r : qres) (b : basic_rq) : basic_rq := mkBasicRq (brq b) r (brq_mem_type b).

Definition get_wqe_num (b : basic_rq) : Z := u32 (rq_wqe_num (rq_m_attr (brq b))).
Definition get_wq_stride_sz (b : basic_rq) : Z := u32 (u64 (rq_wqe_sz (rq_m_attr (brq b)) * 16)).

(** [get_wq_buf], [get_dbrec], [basic_rq::get_uar_page] *)
Definition get_wq_buf (b : basic_rq) : status * Z :=
  match r_buf (brq_res b) with Some p => (DPCP_OK, p) | None => (DPCP_ERR_NO_MEMORY, 0) end.
Definition get_dbrec (b : basic_rq) : status * Z :=
  match r_db (brq_res b) with Some p => (DPCP_OK, p) | None => (DPCP_ERR_NO_MEMORY, 0) end.
Definition rq_get_uar_page (b : basic_rq) : status * Z :=
  match r_uar (brq_res b) with
  | Some (_, u) => (DPCP_OK, m_page u)
  | None => (DPCP_ERR_NO_MEMORY, 0)
  end.

Record ibq_rq := mkIbqRq { ibq : rq; m_protocol : Z; m_mkey : Z }.

Definition ibq_rq_new (ctx : option Z) (a : rq_attr) : ibq_rq :=
  mkIbqRq (rq_new ctx a) DPCP_IBQ_NOT_INITIALIZED 0.

(** [ibq_rq::get_ibq_protocol], [ibq_rq::get_mkey] *)
Definition get_ibq_protocol (q : ibq_rq) : status * Z := (DPCP_OK, m_protocol q).
Definition ibq_get_mkey (q : ibq_rq) : status * Z := (DPCP_OK, m_mkey q).

(** ** Mailboxes *)

Definition p_rqc : Z := ADDR_OF ifc.create_rq_in 0 ["ctx"].
Definition p_rwq : Z := ADDR_OF ifc.rqc p_rqc ["wq"].

(** The receive context that the striding and the regular queue share, up to the
    completion queue number. *)
Definition rqc_writes (b : basic_rq) : list write :=
  [DEVX_SET ifc.rqc p_rqc ["rlkey"] 0;
   DEVX_SET ifc.rqc p_rqc ["delay_drop_en"] 0;
   DEVX_SET ifc.rqc p_rqc ["scatter_fcs"] 0;
   DEVX_SET ifc.rqc p_rqc ["vlan_strip_disable"] 1;
   DEVX_SET ifc.rqc p_rqc ["mem_rq_type"] (brq_mem_type b);
   DEVX_SET ifc.rqc p_rqc ["state"] (rq_m_state (brq b));
   DEVX_SET ifc.rqc p_rqc ["flush_in_error_en"] 1;
   DEVX_SET ifc.rqc p_rqc ["hairpin"] 0;
   DEVX_SET ifc.rqc p_rqc ["ts_format"] (ts_format (rq_m_attr (brq b)));
   DEVX_SET ifc.rqc p_rqc ["user_index"] (Z.land (rq_user_index (rq_m_attr (brq b))) 0xFFFFFF);
   DEVX_SET ifc.rqc p_rqc ["cqn"] (rq_cqn (rq_m_attr (brq b)))].

(** The work queue that follows: type, protection domain, stride and size. *)
Definition rwq_writes (type pd log_wq_stride log_wqe_num : Z) : list write :=
  [DEVX_SET ifc.wq p_rwq ["wq_type"] type;
   DEVX_SET ifc.wq p_rwq ["pd"] (Z.land pd 0xFFFFFF);
   DEVX_SET64 ifc.wq p_rwq ["dbr_addr"] 0;
   DEVX_SET ifc.wq p_rwq ["log_wq_stride"] log_wq_stride;
   DEVX_SET ifc.wq p_rwq ["log_wq_pg_sz"] 0;
   DEVX_SET ifc.wq p_rwq ["log_wq_sz"] log_wqe_num;
   DEVX_SET ifc.wq p_rwq ["dbr_umem_valid"] 1;
   DEVX_SET ifc.wq p_rwq ["wq_umem_valid"] 1].

(** The umem identifiers and the opcode. *)
Definition rq_tail_writes (b : basic_rq) : list write :=
  [DEVX_SET ifc.wq p_rwq ["dbr_umem_id"] (r_db_umem_id (brq_res b));
   DEVX_SET ifc.wq p_rwq ["wq_umem_id"] (r_buf_umem_id (brq_res b));
   DEVX_SET64 ifc.wq p_rwq ["wq_umem_offset"] 0;
   DEVX_SET ifc.create_rq_in 0 ["opcode"] MLX5_CMD_OP_CREATE_RQ].

Definition striding_rq_in (b : basic_rq) (pd log_wq_stride log_wqe_num strides bytes : Z) : list Z :=
  mailbox ifc.create_rq_in
    (rqc_writes b ++ rwq_writes CYCLIC_STRIDING_WQ pd log_wq_stride log_wqe_num
     ++ [DEVX_SET ifc.wq p_rwq ["single_wqe_log_num_of_strides"] strides;
         DEVX_SET ifc.wq p_rwq ["two_byte_shift_en"] 0;
         DEVX_SET ifc.wq p_rwq ["single_stride_log_num_of_bytes"] bytes]
     ++ rq_tail_writes b).

Definition regular_rq_in (b : basic_rq) (pd log_wq_stride log_wqe_num : Z) : list Z :=
  mailbox ifc.create_rq_in
    (rqc_writes b ++ rwq_writes WQ_CYCLIC pd log_wq_stride log_wqe_num ++ rq_tail_writes b).

Definition ibq_rq_in (q : ibq_rq) (pd log_buff_stride_num : Z) : list Z :=
  let a := rq_m_attr (ibq q) in
  mailbox ifc.create_rq_in
    [DEVX_SET ifc.rqc p_rqc ["vlan_strip_disable"] 1;
     DEVX_SET ifc.rqc p_rqc ["mem_rq_type"] MEMORY_RQ_IBQ;
     DEVX_SET ifc.rqc p_rqc ["state"] (rq_m_state (ibq q));
     DEVX_SET ifc.rqc p_rqc ["ts_format"] (ts_format a);
     DEVX_SET ifc.rqc p_rqc ["user_index"] (Z.land (rq_user_index a) 0xFFFFFF);
     DEVX_SET ifc.rqc p_rqc ["cqn"] (rq_cqn a);
     DEVX_SET ifc.rqc p_rqc ["ibq_wire_protocol"] (m_protocol q);
     DEVX_SET ifc.rqc p_rqc ["ibq_segment_size"] (buf_stride_sz a);
     DEVX_SET ifc.rqc p_rqc ["log_ibq_buffer_size"] log_buff_stride_num;
     DEVX_SET ifc.rqc p_rqc ["ibq_scatter_offset"] (ibq_scatter_offset a);
     DEVX_SET ifc.rqc p_rqc ["ibq_mkey"] (m_mkey q);
     DEVX_SET ifc.wq p_rwq ["pd"] (Z.land pd 0xFFFFFF);
     DEVX_SET ifc.create_rq_in 0 ["opcode"] MLX5_CMD_OP_CREATE_RQ].

(** ** Operations *)

Section rq.
Context {D : Type} `{DevX D} (page_size : Z).

(** [rq::modify_state] *)
Definition rq_modify_state (q : rq) (new_state : Z) : M D (status * rq) :=
  '(st, o, s) <- modify_state rq_cmds (rq_obj q) (rq_m_state q) new_state;;
  ret (st, mkRq o (rq_m_attr q) s).

(** Send the create command and return the status of [get_id]. *)
Definition rq_send_create (o : obj) (inb : list Z) : M D (status * obj) :=
  '(r, o', _) <- obj_create o (Some inb) (Some (zeros (ST_SZ_BYTES ifc.create_rq_out)));;
  if negb (is_ok r) then ret (r, o') else ret (fst (obj_get_id o'), o').

(** [striding_rq::create] *)
Definition striding_rq_create (pd : Z) (b : basic_rq) : M D (status * basic_rq) :=
  let a := rq_m_attr (brq b) in
  if pd =? 0 then ret (DPCP_ERR_INVALID_ID, b)
  else
    log_wq_stride <- need (ilog2_u (rq_wqe_sz a)) "ilog2 overflow";;
    log_wqe_num <- need (ilog2_u (rq_wqe_num a)) "ilog2 overflow";;
    strides <- need (ilog2_u (snd (get_hw_buff_stride_num (brq b)))) "ilog2 overflow";;
    if (strides <? MLX5_MIN_SINGLE_WQE_LOG_NUM_STRIDES)
       || (MLX5_MAX_SINGLE_WQE_LOG_NUM_STRIDES <? strides)
    then ret (DPCP_ERR_OUT_OF_RANGE, b)
    else
      bytes <- need (ilog2_u (snd (get_hw_buff_stride_sz (brq b)))) "ilog2 overflow";;
      if (bytes <? MLX5_MIN_SINGLE_STRIDE_LOG_NUM_BYTES)
         || (MLX5_MAX_SINGLE_STRIDE_LOG_NUM_BYTES <? bytes)
      then ret (DPCP_ERR_OUT_OF_RANGE, b)
      else
        '(r, o') <- rq_send_create (rq_obj (brq b))
                      (striding_rq_in b pd log_wq_stride log_wqe_num
                         (strides - MLX5_MIN_SINGLE_WQE_LOG_NUM_STRIDES)
                         (bytes - MLX5_MIN_SINGLE_STRIDE_LOG_NUM_BYTES));;
        ret (r, with_obj o' b).

(** [regular_rq::create] *)
Definition regular_rq_create (pd : Z) (b : basic_rq) : M D (status * basic_rq) :=
  if pd =? 0 then ret (DPCP_ERR_INVALID_ID, b)
  else
    log_wq_stride <- need (ilog2_u (get_wq_stride_sz b)) "ilog2 overflow";;
    log_wqe_num <- need (ilog2_u (rq_wqe_num (rq_m_attr (brq b)))) "ilog2 overflow";;
    '(r, o') <- rq_send_create (rq_obj (brq b)) (regular_rq_in b pd log_wq_stride log_wqe_num);;
    ret (r, with_obj o' b).

(** [ibq_rq::create] *)
Definition ibq_rq_create (pd : Z) (q : ibq_rq) : M D (status * ibq_rq) :=
  log_buff_stride_num <- need (ilog2_u (buf_stride_num (rq_m_attr (ibq q)))) "ilog2 overflow";;
  if pd =? 0 then ret (DPCP_ERR_INVALID_ID, q)
  else
    '(r, o') <- rq_send_create (rq_obj (ibq q)) (ibq_rq_in q pd log_buff_stride_num);;
    ret (r, mkIbqRq (mkRq o' (rq_m_attr (ibq q)) (rq_m_state (ibq q))) (m_protocol q) (m_mkey q)).

(** [ibq_rq::init] *)
Definition ibq_rq_init (pd protocol mkey : Z) (q : ibq_rq) : M D (status * ibq_rq) :=
  ibq_rq_create pd (mkIbqRq (ibq q) protocol mkey).

(** [basic_rq::allocate_wq_buf]: the status, the queue and the buffer. *)
Definition rq_allocate_wq_buf (sz : Z) (b : basic_rq) : M D (status * basic_rq * option Z) :=
  p <- alloc (BRaw (page_round page_size sz));;
  match p with
  | None => ret (DPCP_ERR_NO_MEMORY, b, None)
  | Some p => ret (DPCP_OK, with_res (with_buf (Some p) (u32 sz) (brq_res b)) b, Some p)
  end.

(** [basic_rq::allocate_db_rec]: a whole page; the size reported is 64. *)
Definition rq_allocate_db_rec (b : basic_rq) : M D (status * basic_rq * option Z * Z) :=
  p <- alloc (BRaw page_size);;
  match p with
  | None => ret (DPCP_ERR_NO_MEMORY, b, None, 64)
  | Some p => ret (DPCP_OK, with_res (with_db (Some p) (brq_res b)) b, Some p, 64)
  end.

(** [basic_rq::init], with the virtual [create] as an argument. *)
Definition basic_rq_init (create : basic_rq -> M D (status * basic_rq)) (u : uar_t) (b : basic_rq)
  : M D (status * basic_rq) :=
  if (m_page u =? 0) || (m_page_id u =? 0) then ret (DPCP_ERR_INVALID_PARAM, b)
  else
    p <- alloc BMem;;
    match p with
    | None => ret (DPCP_ERR_NO_MEMORY, b)
    | Some p => create (with_res (with_uar (Some (p, u)) (brq_res b)) b)
    end.

(** [basic_rq::destroy] *)
Definition basic_rq_destroy (b : basic_rq) : M D (status * basic_rq) :=
  st <- obj_destroy (rq_obj (brq b));;
  r <- qres_release (brq_res b);;
  ret (st, with_res r b).

(** [basic_rq::~basic_rq], then [obj::~obj]. *)
Definition basic_rq_delete (b : basic_rq) : M D unit :=
  '(_, b') <- basic_rq_destroy b;;
  _ <- obj_delete (rq_obj (brq b'));;
  ret tt.

(** [ibq_rq::destroy], and [~ibq_rq] followed by [~obj]. *)
Definition ibq_rq_destroy (q : ibq_rq) : M D status := obj_destroy (rq_obj (ibq q)).

Definition ibq_rq_delete (q : ibq_rq) : M D unit :=
  _ <- ibq_rq_destroy q;; _ <- obj_delete (rq_obj (ibq q));; ret tt.
End rq.

Arguments striding_rq_in : simpl never.
Arguments regular_rq_in : simpl never.
Arguments ibq_rq_in : simpl never.

(** ** What the device is told *)

(** Sizes a striding queue accepts: the strides of a WQE and the bytes of a
    stride, as powers of two. *)
Definition striding_sizes (a : rq_attr) (lw ln ls lb : Z) : Prop :=
  rq_wqe_sz a = 2 ^ lw /\ rq_wqe_num a = 2 ^ ln /\ buf_stride_num a = 2 ^ ls /\
  buf_stride_sz a = 2 ^ lb /\ 0 <= lw <= 15 /\ 0 <= ln <= 30 /\
  MLX5_MIN_SINGLE_WQE_LOG_NUM_STRIDES <= ls <= MLX5_MAX_SINGLE_WQE_LOG_NUM_STRIDES /\
  MLX5_MIN_SINGLE_STRIDE_LOG_NUM_BYTES <= lb <= MLX5_MAX_SINGLE_STRIDE_LOG_NUM_BYTES.

(** The wrap of a value that fits is the value. *)
Ltac fits := match goal with |- _ = ?x mod 2 ^ ?k => rewrite (Z.mod_small x (2 ^ k)); lia end.

Lemma striding_rq_in_logs b pd lw ln ls lb :
  let inb := striding_rq_in b pd lw ln ls lb in
  DEVX_GET ifc.wq p_rwq ["wq_type"] inb = CYCLIC_STRIDING_WQ
  /\ DEVX_GET ifc.wq p_rwq ["log_wq_stride"] inb = wrap 4 lw
  /\ DEVX_GET ifc.wq p_rwq ["log_wq_sz"] inb = wrap 5 ln
  /\ DEVX_GET ifc.wq p_rwq ["single_wqe_log_num_of_strides"] inb = wrap 4 ls
  /\ DEVX_GET ifc.wq p_rwq ["single_stride_log_num_of_bytes"] inb = wrap 3 lb.
Proof.
  unfold striding_rq_in, rqc_writes, rwq_writes, rq_tail_writes. cbv zeta.
  split_and!; mbox; reflexivity.
Qed.

Lemma striding_rq_in_ids b pd lw ln ls lb :
  let inb := striding_rq_in b pd lw ln ls lb in
  let a := rq_m_attr (brq b) in
  DEVX_GET ifc.create_rq_in 0 ["opcode"] inb = MLX5_CMD_OP_CREATE_RQ
  /\ DEVX_GET ifc.rqc p_rqc ["state"] inb = wrap 4 (rq_m_state (brq b))
  /\ DEVX_GET ifc.rqc p_rqc ["cqn"] inb = wrap 24 (rq_cqn a)
  /\ DEVX_GET ifc.rqc p_rqc ["user_index"] inb = wrap 24 (rq_user_index a)
  /\ DEVX_GET ifc.wq p_rwq ["pd"] inb = wrap 24 pd
  /\ DEVX_GET ifc.wq p_rwq ["dbr_umem_id"] inb = wrap 32 (r_db_umem_id (brq_res b))
  /\ DEVX_GET ifc.wq p_rwq ["wq_umem_id"] inb = wrap 32 (r_buf_umem_id (brq_res b)).
Proof.
  unfold striding_rq_in, rqc_writes, rwq_writes, rq_tail_writes. cbv zeta.
  assert (forall x, Z.land x 0xFFFFFF mod 2 ^ 24 = wrap 24 x) as L.
  { intros x. change 0xFFFFFF with (Z.ones 24). rewrite Z.land_ones by lia. apply wrap_wrap. }
  split_and!; mbox; first [reflexivity | symmetry; apply L].
Qed.

(** [ilog2] of a size as the code computes it. *)
Lemma ilog2_u_size n : 1 <= n <= 2 ^ 30 -> ilog2_u n = Some (Z.log2_up n).
Proof.
  intros Hn. unfold ilog2_u. rewrite swrap_small by (simpl Z.sub; lia).
  rewrite ilog2_ok, (proj2 (Z.leb_gt n 0)), (proj2 (Z.leb_le n (2 ^ 30))) by lia. done.
Qed.

Lemma log2_up_gt n k : 0 <= k -> 1 <= n -> (k <? Z.log2_up n) = (2 ^ k <? n).
Proof.
  intros Hk Hn. apply eq_true_iff_eq. rewrite !Z.ltb_lt. split; intros Hl.
  - apply Z.nle_gt. intros Hle. apply Z.log2_up_le_pow2 in Hle; lia.
  - apply Z.nle_gt. intros Hle. apply (Z.log2_up_le_pow2 n k) in Hle; lia.
Qed.

(** Number of strides and stride size are in the supported range. *)
Definition strides_in_range (a : rq_attr) : bool :=
  (2 ^ 8 <? buf_stride_num a) && (buf_stride_num a <=? 2 ^ 16)
  && ((2 ^ 5 <? buf_stride_sz a) && (buf_stride_sz a <=? 2 ^ 13)).

Definition size_ok (n : Z) : Prop := 1 <= n <= 2 ^ 30.

Definition sizes_ok (a : rq_attr) : Prop :=
  size_ok (rq_wqe_sz a) /\ size_ok (rq_wqe_num a) /\ size_ok (buf_stride_num a)
  /\ size_ok (buf_stride_sz a).

Lemma range_test n lo hi : 0 < lo -> 0 <= hi -> 1 <= n ->
  (Z.log2_up n <? lo) || (hi <? Z.log2_up n) = negb ((2 ^ (lo - 1) <? n) && (n <=? 2 ^ hi)).
Proof.
  intros Hlo Hhi Hn. rewrite negb_andb, log2_up_gt, <- Z.ltb_antisym by lia. f_equal.
  replace (Z.log2_up n <? lo) with (negb (lo - 1 <? Z.log2_up n)).
  - by rewrite log2_up_gt by lia.
  - apply eq_true_iff_eq. rewrite negb_true_iff, Z.ltb_ge, Z.ltb_lt. lia.
Qed.

Section create.
Context {D : Type} `{DevX D}.
Implicit Types w : world D.

Lemma striding_rq_create_run pd b w :
  let a := rq_m_attr (brq b) in
  sizes_ok a ->
  striding_rq_create pd b w
  = if pd =? 0 then Ret (DPCP_ERR_INVALID_ID, b, w)
    else if strides_in_range a then
      ('(r, o') <- rq_send_create (rq_obj (brq b))
                     (striding_rq_in b pd (Z.log2_up (rq_wqe_sz a)) (Z.log2_up (rq_wqe_num a))
                        (Z.log2_up (buf_stride_num a) - MLX5_MIN_SINGLE_WQE_LOG_NUM_STRIDES)
                        (Z.log2_up (buf_stride_sz a) - MLX5_MIN_SINGLE_STRIDE_LOG_NUM_BYTES));;
       ret (r, with_obj o' b)) w
    else Ret (DPCP_ERR_OUT_OF_RANGE, b, w).
Proof.
  intros a (H1 & H2 & H3 & H4). unfold striding_rq_create, strides_in_range. fold a.
  destruct (pd =? 0); [done|]. cbn [get_hw_buff_stride_num get_hw_buff_stride_sz snd]. fold a.
  rewrite !ilog2_u_size by done. unfold need. unfold bind at 1 2 3. unfold ret at 1 2 3.
  unfold MLX5_MAX_SINGLE_WQE_LOG_NUM_STRIDES, MLX5_MIN_SINGLE_WQE_LOG_NUM_STRIDES,
    MLX5_MIN_SINGLE_STRIDE_LOG_NUM_BYTES, MLX5_MAX_SINGLE_STRIDE_LOG_NUM_BYTES.
  unfold size_ok in *. rewrite range_test by lia.
  change (9 - 1) with 8. destruct ((2 ^ 8 <? buf_stride_num a) && (buf_stride_num a <=? 2 ^ 16));
    cbn [negb andb]; [|done].
  unfold bind at 1. unfold ret at 1. rewrite range_test by lia. change (6 - 1) with 5.
  by destruct ((2 ^ 5 <? buf_stride_sz a) && (buf_stride_sz a <=? 2 ^ 13)).
Qed.

End create.

(** The sizes survive the encoding: for power-of-two attributes in the
    supported ranges the create command carries logarithms from which the device
    recovers the attributes exactly (the WQE size in the 16-byte units of the
    attribute), and the identifiers are those of the queue. *)
Theorem striding_rq_in_decodes b pd lw ln ls lb :
  let a := rq_m_attr (brq b) in
  let inb := striding_rq_in b pd (Z.log2_up (rq_wqe_sz a)) (Z.log2_up (rq_wqe_num a))
               (Z.log2_up (buf_stride_num a) - MLX5_MIN_SINGLE_WQE_LOG_NUM_STRIDES)
               (Z.log2_up (buf_stride_sz a) - MLX5_MIN_SINGLE_STRIDE_LOG_NUM_BYTES) in
  striding_sizes a lw ln ls lb ->
  2 ^ DEVX_GET ifc.wq p_rwq ["log_wq_stride"] inb = rq_wqe_sz a
  /\ 2 ^ DEVX_GET ifc.wq p_rwq ["log_wq_sz"] inb = rq_wqe_num a
  /\ 2 ^ (MLX5_MIN_SINGLE_WQE_LOG_NUM_STRIDES
          + DEVX_GET ifc.wq p_rwq ["single_wqe_log_num_of_strides"] inb) = buf_stride_num a
  /\ 2 ^ (MLX5_MIN_SINGLE_STRIDE_LOG_NUM_BYTES
          + DEVX_GET ifc.wq p_rwq ["single_stride_log_num_of_bytes"] inb) = buf_stride_sz a
  /\ DEVX_GET ifc.create_rq_in 0 ["opcode"] inb = MLX5_CMD_OP_CREATE_RQ
  /\ DEVX_GET ifc.rqc p_rqc ["cqn"] inb = wrap 24 (rq_cqn a)
  /\ DEVX_GET ifc.wq p_rwq ["pd"] inb = wrap 24 pd
  /\ DEVX_GET ifc.wq p_rwq ["dbr_umem_id"] inb = wrap 32 (r_db_umem_id (brq_res b))
  /\ DEVX_GET ifc.wq p_rwq ["wq_umem_id"] inb = wrap 32 (r_buf_umem_id (brq_res b)).
Proof.
  intros a inb (E1 & E2 & E3 & E4 & B1 & B2 & B3 & B4).
  pose proof (striding_rq_in_logs b pd (Z.log2_up (rq_wqe_sz a)) (Z.log2_up (rq_wqe_num a))
               (Z.log2_up (buf_stride_num a) - MLX5_MIN_SINGLE_WQE_LOG_NUM_STRIDES)
               (Z.log2_up (buf_stride_sz a) - MLX5_MIN_SINGLE_STRIDE_LOG_NUM_BYTES))
    as (_ & L1 & L2 & L3 & L4).
  pose proof (striding_rq_in_ids b pd (Z.log2_up (rq_wqe_sz a)) (Z.log2_up (rq_wqe_num a))
               (Z.log2_up (buf_stride_num a) - MLX5_MIN_SINGLE_WQE_LOG_NUM_STRIDES)
               (Z.log2_up (buf_stride_sz a) - MLX5_MIN_SINGLE_STRIDE_LOG_NUM_BYTES))
    as (I1 & _ & I2 & _ & I3 & I4 & I5).
  unfold inb. rewrite L1, L2, L3, L4, I1, I2, I3, I4, I5.
  unfold MLX5_MIN_SINGLE_WQE_LOG_NUM_STRIDES, MLX5_MAX_SINGLE_WQE_LOG_NUM_STRIDES,
    MLX5_MIN_SINGLE_STRIDE_LOG_NUM_BYTES, MLX5_MAX_SINGLE_STRIDE_LOG_NUM_BYTES in *.
  rewrite E1, E2, E3, E4. rewrite !Z.log2_up_pow2 by lia. rewrite !wrap_small by lia.
  split_and!; [reflexivity|reflexivity|f_equal; lia|f_equal; lia|reflexivity..].
Qed.

(** What the create command of a striding queue says to the device, read by the
    layout of the command.  The number of work queue entries, of strides in an
    entry and of bytes in a stride are given by their logarithms, the last two
    counted from the least the device supports. *)
Record striding_says (pd : Z) (b : basic_rq) (inb : list Z) : Prop := mkSays {
  says_opcode : DEVX_GET ifc.create_rq_in 0 ["opcode"] inb = MLX5_CMD_OP_CREATE_RQ;
  says_state : DEVX_GET ifc.create_rq_in 0 ["ctx"; "state"] inb = wrap 4 (rq_m_state (brq b));
  says_cqn : DEVX_GET ifc.create_rq_in 0 ["ctx"; "cqn"] inb = wrap 24 (rq_cqn (rq_m_attr (brq b)));
  says_user : DEVX_GET ifc.create_rq_in 0 ["ctx"; "user_index"] inb = wrap 24 (rq_user_index (rq_m_attr (brq b)));
  says_ts : DEVX_GET ifc.create_rq_in 0 ["ctx"; "ts_format"] inb = wrap 2 (ts_format (rq_m_attr (brq b)));
  says_mem : DEVX_GET ifc.create_rq_in 0 ["ctx"; "mem_rq_type"] inb = wrap 4 (brq_mem_type b);
  says_vlan : DEVX_GET ifc.create_rq_in 0 ["ctx"; "vlan_strip_disable"] inb = 1;
  says_flush : DEVX_GET ifc.create_rq_in 0 ["ctx"; "flush_in_error_en"] inb = 1;
  says_type : DEVX_GET ifc.create_rq_in 0 ["ctx"; "wq"; "wq_type"] inb = CYCLIC_STRIDING_WQ;
  says_pd : DEVX_GET ifc.create_rq_in 0 ["ctx"; "wq"; "pd"] inb = wrap 24 pd;
  says_num : 2 ^ DEVX_GET ifc.create_rq_in 0 ["ctx"; "wq"; "log_wq_sz"] inb = rq_wqe_num (rq_m_attr (brq b));
  says_strides : 2 ^ (9 + DEVX_GET ifc.create_rq_in 0 ["ctx"; "wq"; "single_wqe_log_num_of_strides"] inb)
                 = buf_stride_num (rq_m_attr (brq b));
  says_bytes : 2 ^ (6 + DEVX_GET ifc.create_rq_in 0 ["ctx"; "wq"; "single_stride_log_num_of_bytes"] inb)
               = buf_stride_sz (rq_m_attr (brq b));
  says_shift : DEVX_GET ifc.create_rq_in 0 ["ctx"; "wq"; "two_byte_shift_en"] inb = 0;
  says_dbr : DEVX_GET ifc.create_rq_in 0 ["ctx"; "wq"; "dbr_umem_valid"] inb = 1
             /\ DEVX_GET ifc.create_rq_in 0 ["ctx"; "wq"; "dbr_umem_id"] inb = wrap 32 (r_db_umem_id (brq_res b))
             /\ DEVX_GET64 ifc.create_rq_in 0 ["ctx"; "wq"; "dbr_addr"] inb = 0;
  says_wq : DEVX_GET ifc.create_rq_in 0 ["ctx"; "wq"; "wq_umem_valid"] inb = 1
            /\ DEVX_GET ifc.create_rq_in 0 ["ctx"; "wq"; "wq_umem_id"] inb = wrap 32 (r_buf_umem_id (brq_res b))
            /\ DEVX_GET64 ifc.create_rq_in 0 ["ctx"; "wq"; "wq_umem_offset"] inb = 0
}.

Lemma land_24 x : Z.land x 0xFFFFFF mod 2 ^ 24 = wrap 24 x.
Proof. change 0xFFFFFF with (Z.ones 24). rewrite Z.land_ones by lia. apply wrap_wrap. Qed.

Lemma striding_rq_in_says b pd lw ln ls lb :
  striding_sizes (rq_m_attr (brq b)) lw ln ls lb ->
  striding_says pd b (striding_rq_in b pd lw ln (ls - MLX5_MIN_SINGLE_WQE_LOG_NUM_STRIDES) (lb - MLX5_MIN_SINGLE_STRIDE_LOG_NUM_BYTES)).
Proof.
  unfold striding_sizes, MLX5_MIN_SINGLE_WQE_LOG_NUM_STRIDES, MLX5_MAX_SINGLE_WQE_LOG_NUM_STRIDES,
    MLX5_MIN_SINGLE_STRIDE_LOG_NUM_BYTES, MLX5_MAX_SINGLE_STRIDE_LOG_NUM_BYTES.
  intros (_ & E2 & E3 & E4 & _ & B2 & B3 & B4).
  assert (ln = ln mod 2 ^ 5) as F2 by (symmetry; apply Z.mod_small; lia).
  assert (ls - 9 = (ls - 9) mod 2 ^ 4) as F3 by (symmetry; apply Z.mod_small; lia).
  assert (lb - 6 = (lb - 6) mod 2 ^ 3) as F4 by (symmetry; apply Z.mod_small; lia).
  replace (2 ^ ls) with (2 ^ (9 + (ls - 9))) in E3 by (f_equal; lia).
  replace (2 ^ lb) with (2 ^ (6 + (lb - 6))) in E4 by (f_equal; lia).
  generalize dependent (ls - 9). intros xs E3 F3. generalize dependent (lb - 6). intros xb E4 F4.
  unfold striding_rq_in, rqc_writes, rwq_writes, rq_tail_writes. apply mkSays.
  11:{ rewrite E2. f_equal. mbox. exact F2. }
  11:{ rewrite E3. do 2 f_equal. mbox. exact F3. }
  11:{ rewrite E4. do 2 f_equal. mbox. exact F4. }
  all: repeat match goal with |- _ /\ _ => split end; mbox; first [reflexivity | symmetry; apply land_24].
Qed.

(** ** Ownership *)

Definition brq_own (b : basic_rq) : list (Z * kind) :=
  obj_own (rq_obj (brq b)) ++ qres_own (brq_res b).

(** The regular queue's sizes: the stride in bytes and the number of WQEs. *)
Definition regular_ok (a : rq_attr) : Prop :=
  size_ok (16 * rq_wqe_sz a) /\ size_ok (rq_wqe_num a).

Section own.
Context {D : Type} `{DevX D} (page_size : Z).
Implicit Types (w : world D) (l : list (Z * kind)) (h : gmap Z blk).

(** What [basic_rq::init] relies on when it calls the virtual [create]: it keeps
    the attributes, does not lose a resource, and an OK result comes with a
    device object. *)
Class RqCreate (create : basic_rq -> M D (status * basic_rq)) (ok : rq_attr -> Prop) : Prop :=
  rq_create_own : forall b l h w,
    ok (rq_m_attr (brq b)) -> m_obj_handle (rq_obj (brq b)) = None ->
    own (brq_own b ++ l) h w ->
    wp (create b) (fun r w' => own (brq_own r.2 ++ l) h w'
                    /\ (r.1 = DPCP_OK -> m_obj_handle (rq_obj (brq r.2)) <> None)) w.

Lemma own_rq_send_create b inb l h w :
  m_obj_handle (rq_obj (brq b)) = None -> own (brq_own b ++ l) h w ->
  wp ('(r, o') <- rq_send_create (rq_obj (brq b)) inb;; ret (r, with_obj o' b))
     (fun r w' => own (brq_own r.2 ++ l) h w'
        /\ (r.1 = DPCP_OK -> m_obj_handle (rq_obj (brq r.2)) <> None)) w.
Proof.
  intros Hn Ho. unfold brq_own, obj_own in Ho. rewrite Hn in Ho. simpl in Ho.
  apply wp_bind, wp_bind. eapply own_obj_create; [exact Ho|done|].
  intros st o' out w' Ho' _ Hs. cbn beta iota.
  assert (own (brq_own (with_obj o' b) ++ l) h w') as Hb.
  { unfold brq_own. simpl. rewrite <- app_assoc. exact Ho'. }
  case_if; do 2 apply wp_ret; split; simpl; try done.
  unfold obj_get_id. by destruct (m_obj_handle o').
Qed.

#[global] Instance striding_create pd : RqCreate (striding_rq_create pd) sizes_ok.
Proof.
  intros b l h w Hs Hn Ho. unfold wp. rewrite striding_rq_create_run by done.
  destruct (pd =? 0); [by split|]. destruct (strides_in_range _); [|by split].
  by apply (own_rq_send_create b).
Qed.

#[global] Instance regular_create pd : RqCreate (regular_rq_create pd) regular_ok.
Proof.
  intros b l h w (Hs & Hw) Hn Ho. unfold regular_rq_create.
  destruct (pd =? 0); [by apply wp_ret|]. unfold size_ok in *.
  assert (get_wq_stride_sz b = 16 * rq_wqe_sz (rq_m_attr (brq b))) as ->.
  { unfold get_wq_stride_sz. rewrite Z.mul_comm. rewrite (wrap_small 64) by lia.
    by rewrite wrap_small by lia. }
  rewrite !ilog2_u_size by done. by apply (own_rq_send_create b).
Qed.

Lemma own_basic_rq_destroy b l h Q w :
  own (brq_own b ++ l) h w ->
  (forall b' w', qres_own (brq_res b') = [] -> brq b' = brq b ->
     own (brq_own b' ++ l) h w' -> Q (DPCP_OK, b') w') ->
  wp (basic_rq_destroy b) Q w.
Proof.
  intros Ho HQ. unfold brq_own in Ho. rewrite <- app_assoc in Ho.
  apply wp_bind. eapply own_obj_destroy; [exact Ho|]. intros w1 Ho1.
  apply wp_bind. eapply (own_qres_release _ (obj_own (rq_obj (brq b)) ++ l)).
  { eapply own_perm; [| reflexivity | reflexivity | exact Ho1]. solve_Permutation. }
  intros r w2 Hr Ho2. apply wp_ret. apply HQ; [done|done|].
  unfold brq_own. simpl. rewrite Hr, app_nil_r. done.
Qed.

Lemma own_basic_rq_delete b l h Q w :
  own (brq_own b ++ l) h w -> (forall w', own l h w' -> Q tt w') -> wp (basic_rq_delete b) Q w.
Proof.
  intros Ho HQ. apply wp_bind. eapply own_basic_rq_destroy; [exact Ho|].
  intros b' w1 Hr Eb Ho1. apply wp_bind. eapply own_obj_delete.
  { unfold brq_own in Ho1. rewrite Hr, app_nil_r in Ho1. exact Ho1. }
  intros o' w2 _ Ho2. apply wp_ret. by apply HQ.
Qed.

Lemma own_basic_rq_init create ok `{!RqCreate create ok} u b l h w :
  ok (rq_m_attr (brq b)) -> m_obj_handle (rq_obj (brq b)) = None ->
  r_uar (brq_res b) = None -> own (brq_own b ++ l) h w ->
  wp (basic_rq_init create u b)
     (fun r w' => own (brq_own r.2 ++ l) h w'
        /\ (r.1 = DPCP_OK -> m_obj_handle (rq_obj (brq r.2)) <> None)) w.
Proof.
  intros Ha Hn Hu Ho. unfold basic_rq_init. case_if; [by apply wp_ret|].
  apply wp_bind. eapply own_alloc; [exact Ho| |]; [intros w' Ho'; by apply wp_ret|].
  intros p w' Ho'. apply rq_create_own; [done|done|].
  eapply own_perm; [| reflexivity | reflexivity | exact Ho'].
  unfold brq_own, qres_own. simpl. rewrite Hu. simpl. solve_Permutation.
Qed.

(** Explicit calls of [destroy]. *)
Fixpoint basic_rq_destroy_n (n : nat) (b : basic_rq) : M D basic_rq :=
  match n with
  | O => ret b
  | S m => '(_, b') <- basic_rq_destroy b;; basic_rq_destroy_n m b'
  end.

Lemma own_basic_rq_destroy_n n : forall b l h Q w,
  own (brq_own b ++ l) h w ->
  (forall b' w', own (brq_own b' ++ l) h w' -> Q b' w') ->
  wp (basic_rq_destroy_n n b) Q w.
Proof.
  induction n as [|n IH]; intros b l h Q w Ho HQ; simpl.
  - apply wp_ret. by apply HQ.
  - apply wp_bind. eapply own_basic_rq_destroy; [exact Ho|]. intros b' w' _ _ Ho'. by eapply IH.
Qed.

(** [destroy] releases every buffer, registration and UAR description and
    leaves the queue in a state where calling it again, and then running the
    destructor, is harmless and frees the rest: whatever the queue owned, any
    number of explicit calls of [destroy] followed by the destructor give all of
    it back, and only that. *)
Theorem basic_rq_destroy_all n b l h w :
  own (brq_own b ++ l) h w ->
  wp (b' <- basic_rq_destroy_n n b;; basic_rq_delete b') (fun _ w' => own l h w') w.
Proof.
  intros Ho. apply wp_bind. eapply own_basic_rq_destroy_n; [exact Ho|].
  intros b' w' Ho'. eapply own_basic_rq_delete; [exact Ho'|done].
Qed.
End own.

(** ** Creation *)

Section creation.
Context {D : Type} `{DevX D}.
Implicit Types (w : world D) (l : list (Z * kind)) (h : gmap Z blk).


(** C40. The buffer of a receive queue is a whole number of pages, as registered
    memory must be: its size is the least multiple of the page size that holds the
    bytes asked for; the queue keeps its address and, in 32 bits, the size asked
    for; when the allocation fails the queue is as it was.  The page size is a power
    of two and the rounded size fits 64 bits.  (The alignment of the address is the
    allocator's.) *)
Theorem rq_allocate_wq_buf_ok k sz b l h w :
  0 <= k <= 63 -> 0 <= sz -> sz + 2 ^ k - 1 < 2 ^ 64 -> own l h w ->
  wp (rq_allocate_wq_buf (2 ^ k) sz b) (fun '(st, b', p) w' =>
    match p with
    | None => st = DPCP_ERR_NO_MEMORY /\ b' = b /\ own l h w'
    | Some p => st = DPCP_OK /\ own ((p, KRaw) :: l) h w' /\ r_buf (brq_res b') = Some p
        /\ r_buf_sz (brq_res b') = wrap 32 sz /\ brq b' = brq b
        /\ exists n, heap w' !! p = Some (BRaw n) /\ n mod 2 ^ k = 0 /\ sz <= n /\ forall m, m mod 2 ^ k = 0 -> sz <= m -> n <= m
    end) w.
Proof.
  intros Hk Hs Hb Ho. pose proof (page_round_ok k sz Hk Hs Hb) as Hp. cbv zeta in Hp. apply wp_bind.
  eapply wp_mono; [|apply wp_eq, (own_alloc _ l h (fun p w' => own (match p with Some p => [(p, KRaw)] | None => [] end ++ l) h w') w Ho); by intros].
  intros [p|] w' [Ho' E]; apply wp_ret; [|by split_and!]. split_and!; [done|done|done|done|done|].
  exists (page_round (2 ^ k) sz). split; [|done]. revert E. unfold alloc. destruct (oom w) as [|[] r]; [|done|];
    intros [= <- <-]; cbn [heap]; apply lookup_insert_eq.
Qed.
End creation.

(** ** Witnesses *)

Definition sample_attr : rq_attr := mkRqAttr 2048 1024 77 5 256 4 1 0.
Definition sample_rq : basic_rq := basic_rq_new (Some 1) sample_attr.

Lemma sample_sizes : sizes_ok sample_attr.
Proof. unfold sizes_ok, size_ok. simpl. lia. Qed.

Lemma sample_own : own (brq_own sample_rq ++ []) ∅ sim_world.
Proof. apply own_nil. exact sim_world_fresh. Qed.


Lemma rq_allocate_wq_buf_ok_witness :
  wp (rq_allocate_wq_buf (2 ^ 12) 5000 sample_rq) (fun '(st, b', p) w' =>
    match p with
    | None => st = DPCP_ERR_NO_MEMORY
    | Some p => st = DPCP_OK /\ exists n, heap w' !! p = Some (BRaw n) /\ n mod 2 ^ 12 = 0 /\ 5000 <= n
    end) sim_world.
Proof.
  eapply wp_mono; [|apply (rq_allocate_wq_buf_ok 12 5000 sample_rq [] ∅ sim_world); [lia|lia|lia|apply own_nil; exact sim_world_fresh]].
  intros [[st b'] [p|]] w' Hw; [|apply Hw]. destruct Hw as (H1 & _ & _ & _ & _ & n & H2 & H3 & H4 & _). split; [exact H1|].
  exists n. split_and!; [exact H2|exact H3|exact H4].
Defined.

Lemma striding_rq_in_decodes_witness :
  let a := sample_attr in
  let inb := striding_rq_in sample_rq 3 (Z.log2_up 4) (Z.log2_up 256) (Z.log2_up 1024 - 9)
               (Z.log2_up 2048 - 6) in
  2 ^ DEVX_GET ifc.wq p_rwq ["log_wq_stride"] inb = 4.
Proof.
  intros a inb.
  apply (striding_rq_in_decodes sample_rq 3 2 8 10 11). unfold striding_sizes. simpl.
  unfold MLX5_MIN_SINGLE_WQE_LOG_NUM_STRIDES, MLX5_MAX_SINGLE_WQE_LOG_NUM_STRIDES,
    MLX5_MIN_SINGLE_STRIDE_LOG_NUM_BYTES, MLX5_MAX_SINGLE_STRIDE_LOG_NUM_BYTES. lia.
Defined.

(** A queue with all its resources: blocks 1 to 6. *)
Definition full_rq : basic_rq :=
  mkBasicRq (mkRq (mkObj 9 (Some 1) (Some 1) 0 0) sample_attr RQ_RST)
    (mkQres (Some (2, mkUarT 1 1 1)) (Some 3) (Some 4) (Some 5) (Some 6) 16384 1 2)
    MEMORY_RQ_INLINE.
Definition full_world : world sim :=
  mkWorld (mkSim 9 [])
    (list_to_map [(1, BObj (Some 8)); (2, BMem); (3, BRaw 16384); (4, BUmem 6); (5, BRaw 4096);
                  (6, BUmem 7)]) 7 [] [].

Lemma full_own : own (brq_own full_rq ++ []) ∅ full_world.
Proof.
  split_and!.
  - intros p Hp. change (heap full_world) with
      (list_to_map [(1, BObj (Some 8)); (2, BMem); (3, BRaw 16384); (4, BUmem 6); (5, BRaw 4096);
                  (6, BUmem 7)] : gmap Z blk). change (next full_world) with 7 in Hp.
    apply not_elem_of_list_to_map_1. csimpl. rewrite !not_elem_of_cons.
    split_and!; try lia. apply not_elem_of_nil.
  - apply (bool_decide_unpack _). by vm_compute.
  - repeat constructor; eexists; split; reflexivity.
  - by vm_compute.
Qed.

Lemma basic_rq_destroy_all_witness :
  wp (b' <- basic_rq_destroy_n 2 full_rq;; basic_rq_delete b') (fun _ w' => own [] ∅ w') full_world.
Proof. apply basic_rq_destroy_all. exact full_own. Defined.
