(* ===== verification/Sq.v ===== *)
(** * Send queues and packet pacing (src/src/dpcp/sq.cpp, [packet_pacing] of
      src/src/dpcp/adapter.cpp)

    A [pp_sq] is a send queue with an optional packet-pacing object.  The queue
    owns the same buffers as a receive queue, and the packet-pacing object. *)

From S2P Require Import Prelude Codec Prm Dcmd Own Sim Obj Uar Queue QState Rq.
Open Scope string_scope.
Open Scope list_scope.
Open Scope Z_scope.
Open Scope m_scope.

(** [qos_packet_pacing], [qos_attributes], [sq_attr] *)
Record qos_packet_pacing := mkQosPP { sustained_rate : Z; burst_sz : Z; packet_sz : Z }.

Inductive QOS_TYPE : Type := QOS_NONE | QOS_PACKET_PACING.
#[global] Instance qos_type_eq_dec : EqDecision QOS_TYPE.
Proof. solve_decision. Defined.

Record qos_attributes := mkQos { qos_type : QOS_TYPE; packet_pacing_attr : qos_packet_pacing }.

Record sq_attr := mkSqAttr {
  qos_attrs : option qos_attributes;
  qos_attrs_sz : Z;
  tis_num : Z;
  sq_cqn : Z;
  sq_wqe_num : Z;
  sq_wqe_sz : Z;
  sq_user_index : Z
}.

(** ** [packet_pacing] *)

Definition MLX5_PP_DATA_RATE : Z := 0.

Definition pp_in (a : qos_packet_pacing) : list Z :=
  mailbox ifc.set_pp_rate_limit_context
    [DEVX_SET ifc.set_pp_rate_limit_context 0 ["burst_upper_bound"] (burst_sz a);
     DEVX_SET ifc.set_pp_rate_limit_context 0 ["typical_packet_size"] (packet_sz a);
     DEVX_SET ifc.set_pp_rate_limit_context 0 ["rate_limit"] (sustained_rate a);
     DEVX_SET ifc.set_pp_rate_limit_context 0 ["rate_mode"] MLX5_PP_DATA_RATE].

(** A packet-pacing object is a heap block with its device handle; the index is
    kept beside the pointer. *)
Record packet_pacing := mkPP { pp_ptr : Z; pp_index : Z }.

Section pp.
Context {D : Type} `{DevX D}.

(** [new packet_pacing] *)
Definition pp_new : M D (option packet_pacing) :=
  p <- alloc (BPp None);;
  ret ((fun p => mkPP p 0) <$> p).

(** [packet_pacing::create] *)
Definition pp_create (ctx : option Z) (a : qos_packet_pacing) (pp : packet_pacing)
  : M D (status * packet_pacing) :=
  match ctx with
  | None => ub "null context"
  | Some c =>
      hd <- device (mlx5dv_pp_alloc c (pp_in a)) (CPpAlloc (pp_in a));;
      match hd with
      | None => ret (DPCP_ERR_CREATE, pp)
      | Some x =>
          store (pp_ptr pp) (BPp (Some x));;
          i <- peek (devx_pp_index x);;
          ret (DPCP_OK, mkPP (pp_ptr pp) i)
      end
  end.

(** [packet_pacing::~packet_pacing]; the base object never has a handle. *)
Definition pp_delete (pp : option packet_pacing) : M D unit :=
  match pp with
  | None => ret tt
  | Some pp =>
      b <- load (pp_ptr pp);;
      match b with
      | BPp (Some x) =>
          _ <- device (fun d => (tt, mlx5dv_pp_free x d)) (fun _ => CPpFree x);;
          dealloc (pp_ptr pp)
      | BPp None => dealloc (pp_ptr pp)
      | _ => ub "not a packet_pacing"
      end
  end.
End pp.

(** ** [pp_sq] *)

Record pp_sq := mkPpSq {
  sq_obj : obj;
  sq_m_attr : sq_attr;
  sq_m_state : Z;
  sq_res : qres;
  m_pp : option packet_pacing;
  m_pp_idx : Z
}.

(** [sq::sq] and [pp_sq::pp_sq] *)
Definition pp_sq_new (ctx : option Z) (a : sq_attr) : pp_sq :=
  mkPpSq (obj_new ctx) a RQ_RST (qres_new (u32 (u64 (16 * sq_wqe_sz a * sq_wqe_num a)))) None 0.

Definition sq_with_obj (o : obj) (s : pp_sq) : pp_sq :=
  mkPpSq o (sq_m_attr s) (sq_m_state s) (sq_res s) (m_pp s) (m_pp_idx s).
Definition sq_with_res (r : qres) (s : pp_sq) : pp_sq :=
  mkPpSq (sq_obj s) (sq_m_attr s) (sq_m_state s) r (m_pp s) (m_pp_idx s).
Definition sq_with_pp (p : option packet_pacing) (i : Z) (s : pp_sq) : pp_sq :=
  mkPpSq (sq_obj s) (sq_m_attr s) (sq_m_state s) (sq_res s) p i.

Definition sq_get_wqe_num (s : pp_sq) : status * Z := (DPCP_OK, sq_wqe_num (sq_m_attr s)).
Definition sq_get_wqe_sz (s : pp_sq) : status * Z := (DPCP_OK, sq_wqe_sz (sq_m_attr s)).
Definition sq_get_cqn (s : pp_sq) : status * Z := (DPCP_OK, sq_cqn (sq_m_attr s)).
Definition sq_get_wq_buf (s : pp_sq) : status * Z :=
  match r_buf (sq_res s) with Some p => (DPCP_OK, p) | None => (DPCP_ERR_NO_MEMORY, 0) end.
Definition sq_get_dbrec (s : pp_sq) : status * Z :=
  match r_db (sq_res s) with Some p => (DPCP_OK, p) | None => (DPCP_ERR_NO_MEMORY, 0) end.
Definition sq_get_uar_page (s : pp_sq) : status * Z :=
  match r_uar (sq_res s) with
  | Some (_, u) => (DPCP_OK, m_page u)
  | None => (DPCP_ERR_NO_MEMORY, 0)
  end.
Definition get_bf_reg (s : pp_sq) (offset : Z) : status * Z :=
  match r_uar (sq_res s) with
  | Some (_, u) => (DPCP_OK, u64 (m_bf_reg u + offset))
  | None => (DPCP_ERR_NO_SUPPORT, 0)
  end.

Definition p_sqc : Z := ADDR_OF ifc.create_sq_in 0 ["ctx"].
Definition p_swq : Z := ADDR_OF ifc.sqc p_sqc ["wq"].

(** The create command; [user_index] is written through the receive context. *)
Definition pp_sq_in (s : pp_sq) (pd page_id log_wq_stride log_wqe_num : Z) : list Z :=
  mailbox ifc.create_sq_in
    [DEVX_SET ifc.sqc p_sqc ["rlkey"] 0;
     DEVX_SET ifc.sqc p_sqc ["flush_in_error_en"] 1;
     DEVX_SET ifc.sqc p_sqc ["allow_multi_pkt_send_wqe"] 1;
     DEVX_SET ifc.sqc p_sqc ["flush_in_error_en"] 1;
     DEVX_SET ifc.sqc p_sqc ["min_wqe_inline_mode"] 0;
     DEVX_SET ifc.sqc p_sqc ["state"] (sq_m_state s);
     DEVX_SET ifc.sqc p_sqc ["ts_format"] 1;
     DEVX_SET ifc.rqc p_sqc ["user_index"] (Z.land (sq_user_index (sq_m_attr s)) 0xFFFFFF);
     DEVX_SET ifc.sqc p_sqc ["cqn"] (sq_cqn (sq_m_attr s));
     DEVX_SET ifc.sqc p_sqc ["packet_pacing_rate_limit_index"] (Z.land (m_pp_idx s) 0xFFFF);
     DEVX_SET ifc.sqc p_sqc ["tis_lst_sz"] 1;
     DEVX_SET ifc.sqc p_sqc ["tis_num_0"] (Z.land (tis_num (sq_m_attr s)) 0xFFFFFF);
     DEVX_SET ifc.wq p_swq ["wq_type"] WQ_CYCLIC;
     DEVX_SET ifc.wq p_swq ["pd"] (Z.land pd 0xFFFFFF);
     DEVX_SET ifc.wq p_swq ["uar_page"] (Z.land page_id 0xFFFFFF);
     DEVX_SET64 ifc.wq p_swq ["dbr_addr"] 0;
     DEVX_SET ifc.wq p_swq ["log_wq_stride"] log_wq_stride;
     DEVX_SET ifc.wq p_swq ["log_wq_pg_sz"] 0;
     DEVX_SET ifc.wq p_swq ["log_wq_sz"] log_wqe_num;
     DEVX_SET ifc.wq p_swq ["dbr_umem_valid"] 1;
     DEVX_SET ifc.wq p_swq ["wq_umem_valid"] 1;
     DEVX_SET ifc.wq p_swq ["dbr_umem_id"] (r_db_umem_id (sq_res s));
     DEVX_SET ifc.wq p_swq ["wq_umem_id"] (r_buf_umem_id (sq_res s));
     DEVX_SET64 ifc.wq p_swq ["wq_umem_offset"] 0;
     DEVX_SET ifc.create_sq_in 0 ["opcode"] MLX5_CMD_OP_CREATE_SQ].

(** The command of [pp_sq::modify]. *)
Definition pp_sq_modify_in (sqn pp_idx : Z) : list Z :=
  let p := ADDR_OF ifc.modify_sq_in 0 ["ctx"] in
  mailbox ifc.modify_sq_in
    [DEVX_SET64 ifc.modify_sq_in 0 ["modify_bitmask"] 1;
     DEVX_SET ifc.modify_sq_in 0 ["sqn"] sqn;
     DEVX_SET ifc.modify_sq_in 0 ["sq_state"] RQ_RDY;
     DEVX_SET ifc.sqc p ["state"] RQ_RDY;
     DEVX_SET ifc.sqc p ["packet_pacing_rate_limit_index"] pp_idx;
     DEVX_SET ifc.modify_sq_in 0 ["opcode"] MLX5_CMD_OP_MODIFY_SQ].

(** The attributes ask for packet pacing; its parameters. *)
Definition pp_wanted (a : sq_attr) : option qos_packet_pacing :=
  match qos_attrs a with
  | Some q =>
      if (qos_attrs_sz a =? 1) && bool_decide (qos_type q = QOS_PACKET_PACING)
      then Some (packet_pacing_attr q) else None
  | None => None
  end.

Section sq.
Context {D : Type} `{DevX D}.

(** [sq::modify_state] *)
Definition sq_modify_state (s : pp_sq) (new_state : Z) : M D (status * pp_sq) :=
  '(st, o, x) <- modify_state sq_cmds (sq_obj s) (sq_m_state s) new_state;;
  ret (st, mkPpSq o (sq_m_attr s) x (sq_res s) (m_pp s) (m_pp_idx s)).

(** [pp_sq::create] *)
Definition pp_sq_create (pd : Z) (s : pp_sq) : M D (status * pp_sq) :=
  if pd =? 0 then ret (DPCP_ERR_INVALID_ID, s)
  else
    match r_uar (sq_res s) with
    | None => ub "null m_uar"
    | Some (_, u) =>
        log_wq_stride <- need (ilog2_u (sq_wqe_sz (sq_m_attr s))) "ilog2 overflow";;
        log_wqe_num <- need (ilog2_u (sq_wqe_num (sq_m_attr s))) "ilog2 overflow";;
        '(r, o', _) <- obj_create (sq_obj s)
                         (Some (pp_sq_in s pd (m_page_id u) log_wq_stride log_wqe_num))
                         (Some (zeros (ST_SZ_BYTES ifc.create_sq_out)));;
        if negb (is_ok r) then ret (r, sq_with_obj o' s)
        else ret (fst (obj_get_id o'), sq_with_obj o' s)
    end.

(** [pp_sq::allocate_wq_buf], [pp_sq::allocate_db_rec] *)
Definition sq_allocate_wq_buf (sz : Z) (s : pp_sq) : M D (status * pp_sq * option Z) :=
  p <- alloc (BRaw sz);;
  match p with
  | None => ret (DPCP_ERR_NO_MEMORY, s, None)
  | Some p => ret (DPCP_OK, sq_with_res (with_buf (Some p) (u32 sz) (sq_res s)) s, Some p)
  end.

Definition sq_allocate_db_rec (s : pp_sq) : M D (status * pp_sq * option Z * Z) :=
  p <- alloc (BRaw 64);;
  match p with
  | None => ret (DPCP_ERR_NO_MEMORY, s, None, 64)
  | Some p => ret (DPCP_OK, sq_with_res (with_db (Some p) (sq_res s)) s, Some p, 64)
  end.

(** [pp_sq::init] *)
Definition pp_sq_init (pd : Z) (u : uar_t) (s : pp_sq) : M D (status * pp_sq) :=
  if (m_page u =? 0) || (m_page_id u =? 0) then ret (DPCP_ERR_INVALID_PARAM, s)
  else
    p <- alloc BMem;;
    match p with
    | None => ret (DPCP_ERR_NO_MEMORY, s)
    | Some p =>
        let s := sq_with_res (with_uar (Some (p, u)) (sq_res s)) s in
        match pp_wanted (sq_m_attr s) with
        | None => ret (DPCP_ERR_INVALID_PARAM, s)
        | Some a =>
            if sustained_rate a =? 0 then pp_sq_create pd s
            else
              pp <- pp_new;;
              match pp with
              | None => ret (DPCP_ERR_CREATE, s)
              | Some pp =>
                  '(r, pp') <- pp_create (m_ctx (sq_obj s)) a pp;;
                  if negb (is_ok r) then ret (r, s)
                  else pp_sq_create pd (sq_with_pp (Some pp') (pp_index pp') s)
              end
        end
    end.

(** The second half of [pp_sq::modify], with the new packet-pacing object. *)
Definition pp_sq_modify_send (pp : option packet_pacing) (pp_idx : Z) (s : pp_sq)
  : M D (status * pp_sq) :=
  let '(r, sqn) := obj_get_id (sq_obj s) in
  if negb (is_ok r) || (sqn =? 0) then pp_delete pp;; ret (DPCP_ERR_INVALID_ID, s)
  else
    '(r, o', _) <- obj_modify (sq_obj s) (Some (pp_sq_modify_in sqn pp_idx))
                     (Some (zeros (ST_SZ_BYTES ifc.modify_sq_out)));;
    let s := sq_with_obj o' s in
    if negb (is_ok r) then pp_delete pp;; ret (r, s)
    else
      pp_delete (m_pp s);;
      ret (r, sq_with_pp pp (match pp with Some q => pp_index q | None => 0 end) s).

(** [pp_sq::modify] *)
Definition pp_sq_modify (a : sq_attr) (s : pp_sq) : M D (status * pp_sq) :=
  match pp_wanted a with
  | None => ret (DPCP_ERR_INVALID_PARAM, s)
  | Some pa =>
      if sustained_rate pa =? 0 then pp_sq_modify_send None 0 s
      else
        pp <- pp_new;;
        match pp with
        | None => ret (DPCP_ERR_CREATE, s)
        | Some pp =>
            '(r, pp') <- pp_create (m_ctx (sq_obj s)) pa pp;;
            if negb (is_ok r) then pp_delete (Some pp');; ret (r, s)
            else pp_sq_modify_send (Some pp') (Z.land (pp_index pp') 0xFFFF) s
        end
  end.

(** [pp_sq::destroy]; the packet-pacing object stays. *)
Definition pp_sq_destroy (s : pp_sq) : M D (status * pp_sq) :=
  st <- obj_destroy (sq_obj s);;
  r <- qres_release (sq_res s);;
  ret (st, sq_with_res r s).

(** [pp_sq::~pp_sq], then [obj::~obj]. *)
Definition pp_sq_delete (s : pp_sq) : M D unit :=
  pp_delete (m_pp s);;
  '(_, s') <- pp_sq_destroy (sq_with_pp None (m_pp_idx s) s);;
  _ <- obj_delete (sq_obj s');;
  ret tt.
End sq.

Arguments pp_in : simpl never.
Arguments pp_sq_in : simpl never.
Arguments pp_sq_modify_in : simpl never.

(** ** What the device is told *)

(** The create command of a send queue: the user index lands in the send
    context although it is written through the receive context, and the
    completion queue, TIS, pacing index, protection domain, UAR page and umem
    identifiers are the queue's, each truncated to its field. *)
Theorem pp_sq_in_fields s pd page_id ls ln :
  let b := pp_sq_in s pd page_id ls ln in
  DEVX_GET ifc.create_sq_in 0 ["opcode"] b = MLX5_CMD_OP_CREATE_SQ
  /\ DEVX_GET ifc.sqc p_sqc ["user_index"] b = wrap 24 (sq_user_index (sq_m_attr s))
  /\ DEVX_GET ifc.sqc p_sqc ["cqn"] b = wrap 24 (sq_cqn (sq_m_attr s))
  /\ DEVX_GET ifc.sqc p_sqc ["state"] b = wrap 4 (sq_m_state s)
  /\ DEVX_GET ifc.sqc p_sqc ["packet_pacing_rate_limit_index"] b = wrap 16 (m_pp_idx s)
  /\ DEVX_GET ifc.sqc p_sqc ["tis_lst_sz"] b = 1
  /\ DEVX_GET ifc.sqc p_sqc ["tis_num_0"] b = wrap 24 (tis_num (sq_m_attr s))
  /\ DEVX_GET ifc.wq p_swq ["wq_type"] b = WQ_CYCLIC
  /\ DEVX_GET ifc.wq p_swq ["pd"] b = wrap 24 pd
  /\ DEVX_GET ifc.wq p_swq ["uar_page"] b = wrap 24 page_id
  /\ DEVX_GET ifc.wq p_swq ["log_wq_stride"] b = wrap 4 ls
  /\ DEVX_GET ifc.wq p_swq ["log_wq_sz"] b = wrap 5 ln
  /\ DEVX_GET ifc.wq p_swq ["dbr_umem_id"] b = wrap 32 (r_db_umem_id (sq_res s))
  /\ DEVX_GET ifc.wq p_swq ["wq_umem_id"] b = wrap 32 (r_buf_umem_id (sq_res s)).
Proof.
  unfold pp_sq_in. cbv zeta.
  assert (forall x, Z.land x 0xFFFFFF mod 2 ^ 24 = wrap 24 x) as L.
  { intros x. change 0xFFFFFF with (Z.ones 24). rewrite Z.land_ones by lia. apply wrap_wrap. }
  assert (forall x, Z.land x 0xFFFF mod 2 ^ 16 = wrap 16 x) as L'.
  { intros x. change 0xFFFF with (Z.ones 16). rewrite Z.land_ones by lia. apply wrap_wrap. }
  split_and!; mbox; first [reflexivity | symmetry; apply L | symmetry; apply L'].
Qed.

(** ** Ownership *)

Definition pp_own (pp : option packet_pacing) : list (Z * kind) := ptr (pp_ptr <$> pp) KPp.

Definition sq_own (s : pp_sq) : list (Z * kind) :=
  obj_own (sq_obj s) ++ qres_own (sq_res s) ++ pp_own (m_pp s).

Definition sq_sizes_ok (a : sq_attr) : Prop := size_ok (sq_wqe_sz a) /\ size_ok (sq_wqe_num a).

Section own.
Context {D : Type} `{DevX D}.
Implicit Types (w : world D) (l : list (Z * kind)) (h : gmap Z blk).

Lemma own_pp_new l h Q w :
  own l h w ->
  (forall pp w', own (pp_own pp ++ l) h w' -> Q pp w') -> wp pp_new Q w.
Proof.
  intros Ho HQ. apply wp_bind. eapply own_alloc; [exact Ho| |].
  - intros w' Ho'. apply wp_ret. by apply HQ.
  - intros p w' Ho'. apply wp_ret. by apply HQ.
Qed.

Lemma own_pp_create ctx a pp l h Q w :
  ctx <> None -> own (pp_own (Some pp) ++ l) h w ->
  (forall st pp' w', own (pp_own (Some pp') ++ l) h w' ->
     st = DPCP_OK \/ st = DPCP_ERR_CREATE /\ pp' = pp -> Q (st, pp') w') ->
  wp (pp_create ctx a pp) Q w.
Proof.
  intros Hc Ho HQ. destruct ctx as [c|]; [|done].
  apply wp_bind. eapply own_device; [exact Ho|]. intros [x|] w1 Ho1; cbn beta iota.
  - apply wp_bind. eapply own_store; [exact Ho1|]. intros w2 Ho2.
    apply wp_bind, wp_peek, wp_ret. apply HQ; [done|by left].
  - apply wp_ret. apply HQ; [done|by right].
Qed.

Lemma own_pp_delete pp l h Q w :
  own (pp_own pp ++ l) h w -> (forall w', own l h w' -> Q tt w') -> wp (pp_delete pp) Q w.
Proof.
  intros Ho HQ. destruct pp as [pp|]; [|apply wp_ret; by apply HQ].
  apply wp_bind. eapply own_load; [exact Ho|]. intros b Hk.
  destruct (kind_pp b Hk) as [[x|] ->].
  - apply wp_bind. eapply own_device; [exact Ho|]. intros r w1 Ho1.
    eapply own_dealloc; [exact Ho1|exact HQ].
  - eapply own_dealloc; [exact Ho|exact HQ].
Qed.

(** What [modify] promises: exactly one packet-pacing object, or none, is owned
    afterwards; it is the old one unless the result is OK. *)
Definition modify_post (s : pp_sq) (a : sq_attr) l h (r : status * pp_sq) w : Prop :=
  let '(st, s') := r in
  own (pp_own (m_pp s') ++ l) h w
  /\ sq_res s' = sq_res s /\ sq_m_attr s' = sq_m_attr s /\ sq_m_state s' = sq_m_state s
  /\ m_obj_handle (sq_obj s') = m_obj_handle (sq_obj s)
  /\ if is_ok st
     then exists pa, pp_wanted a = Some pa
          /\ (m_pp s' = None <-> sustained_rate pa = 0)
          /\ m_pp_idx s' = match m_pp s' with Some q => pp_index q | None => 0 end
     else m_pp s' = m_pp s /\ m_pp_idx s' = m_pp_idx s.

Lemma own_modify_send pp idx s a pa p x l h w :
  pp_wanted a = Some pa -> (pp = None <-> sustained_rate pa = 0) ->
  m_ctx (sq_obj s) <> None -> m_obj_handle (sq_obj s) = Some p ->
  h !! p = Some (BObj (Some x)) ->
  own (pp_own pp ++ pp_own (m_pp s) ++ l) h w ->
  wp (pp_sq_modify_send pp idx s) (modify_post s a l h) w.
Proof.
  intros Hw Hr Hc Hp Hx Ho. unfold pp_sq_modify_send, obj_get_id. rewrite Hp. cbn [is_ok negb orb].
  case_if.
  { apply wp_bind. eapply own_pp_delete; [exact Ho|]. intros w1 Ho1. by apply wp_ret. }
  apply wp_bind. pose proof (own_frame p _ _ _ w Ho Hx) as Hl. unfold wp.
  rewrite (obj_modify_run _ _ _ p x) by (try done; by apply bad_args_mailbox).
  destruct (mlx5dv_devx_obj_modify _ _ _ _) as [[r out] d]. cbv beta iota zeta.
  assert (own (pp_own pp ++ pp_own (m_pp s) ++ l) h
            (mkWorld d (heap w) (next w) (oom w)
               (CObjModify x (pp_sq_modify_in (m_id (sq_obj s)) idx) :: calls w))) as Ho'
    by (by apply (own_same _ _ w)).
  set (ok := (r =? 0) && (out_status out =? 0)). destruct ok; cbn [is_ok negb].
  - apply (wp_bind (pp_delete _)). eapply (own_pp_delete (m_pp s) (pp_own pp ++ l)).
    { eapply own_perm; [| reflexivity | reflexivity | exact Ho']. solve_Permutation. }
    intros w2 Ho2. apply wp_ret. split_and!; try done. simpl. by exists pa.
  - apply (wp_bind (pp_delete _)). eapply own_pp_delete; [exact Ho'|].
    intros w2 Ho2. apply wp_ret. by split_and!.
Qed.

(** Changing the pacing rate of a live send queue never leaks or frees twice
    a packet-pacing object, whatever the device and the allocator answer: on
    success the queue owns the new object (none for rate zero) and its index,
    and on any failure it still owns the old one and nothing of it changed. *)
Theorem pp_sq_modify_ok a s p x l h w :
  m_ctx (sq_obj s) <> None -> m_obj_handle (sq_obj s) = Some p ->
  h !! p = Some (BObj (Some x)) -> own (pp_own (m_pp s) ++ l) h w ->
  wp (pp_sq_modify a s) (modify_post s a l h) w.
Proof.
  intros Hc Hp Hx Ho. unfold pp_sq_modify. destruct (pp_wanted a) as [pa|] eqn:Ew;
    [|by apply wp_ret].
  case_if; bool_hyps; [by eapply own_modify_send|].
  apply wp_bind. eapply own_pp_new; [exact Ho|]. intros [pp|] w1 Ho1; [|by apply wp_ret].
  apply wp_bind. eapply own_pp_create; [done|exact Ho1|].
  intros st pp' w2 Ho2 [->|[-> ->]]; cbn [is_ok negb].
  - by eapply own_modify_send.
  - apply wp_bind. eapply own_pp_delete; [exact Ho2|]. intros w3 Ho3. by apply wp_ret.
Qed.

Lemma own_pp_sq_create pd s l h w :
  sq_sizes_ok (sq_m_attr s) -> m_obj_handle (sq_obj s) = None -> r_uar (sq_res s) <> None ->
  own (sq_own s ++ l) h w ->
  wp (pp_sq_create pd s)
     (fun r w' => own (sq_own r.2 ++ l) h w'
        /\ (r.1 = DPCP_OK -> m_obj_handle (sq_obj r.2) <> None)) w.
Proof.
  intros (Hs1 & Hs2) Hn Hu Ho. unfold pp_sq_create. destruct (pd =? 0); [by apply wp_ret|].
  destruct (r_uar (sq_res s)) as [[p u]|] eqn:Eu; [|done].
  rewrite !ilog2_u_size by done. apply wp_bind, wp_ret, wp_bind, wp_ret, wp_bind.
  unfold sq_own, obj_own in Ho. rewrite Hn in Ho. simpl in Ho. rewrite <- app_assoc in Ho.
  eapply own_obj_create; [exact Ho|done|]. intros st o' out w' Ho' _ Hs. cbn beta iota.
  assert (own (sq_own (sq_with_obj o' s) ++ l) h w') as Hb.
  { unfold sq_own. simpl. rewrite <- !app_assoc. exact Ho'. }
  case_if; apply wp_ret; split; simpl; try done.
  unfold obj_get_id. by destruct (m_obj_handle o').
Qed.

Lemma own_pp_sq_destroy s l h Q w :
  own (sq_own s ++ l) h w ->
  (forall s' w', qres_own (sq_res s') = [] -> sq_obj s' = sq_obj s -> m_pp s' = m_pp s ->
     own (sq_own s' ++ l) h w' -> Q (DPCP_OK, s') w') ->
  wp (pp_sq_destroy s) Q w.
Proof.
  intros Ho HQ. unfold sq_own in Ho. rewrite <- app_assoc in Ho.
  apply wp_bind. eapply own_obj_destroy; [exact Ho|]. intros w1 Ho1.
  apply wp_bind. eapply (own_qres_release _ (obj_own (sq_obj s) ++ pp_own (m_pp s) ++ l)).
  { eapply own_perm; [| reflexivity | reflexivity | exact Ho1]. solve_Permutation. }
  intros r w2 Hr Ho2. apply wp_ret. apply HQ; try done.
  unfold sq_own. simpl. rewrite Hr. simpl. rewrite <- app_assoc. exact Ho2.
Qed.

Lemma own_pp_sq_delete s l h Q w :
  own (sq_own s ++ l) h w -> (forall w', own l h w' -> Q tt w') -> wp (pp_sq_delete s) Q w.
Proof.
  intros Ho HQ. apply wp_bind.
  eapply (own_pp_delete (m_pp s) (obj_own (sq_obj s) ++ qres_own (sq_res s) ++ l)).
  { eapply own_perm; [| reflexivity | reflexivity | exact Ho]. unfold sq_own. solve_Permutation. }
  intros w1 Ho1. apply wp_bind.
  eapply (own_pp_sq_destroy _ l).
  { eapply own_perm; [| reflexivity | reflexivity | exact Ho1]. unfold sq_own. simpl.
    rewrite app_nil_r. solve_Permutation. }
  intros s' w2 Hr Eo Ep Ho2. apply wp_bind. eapply own_obj_delete.
  { unfold sq_own in Ho2. rewrite Hr, Ep in Ho2. simpl in Ho2. rewrite app_nil_r in Ho2. exact Ho2. }
  intros o' w3 _ Ho3. apply wp_ret. by apply HQ.
Qed.

(** What [init] owns afterwards: everything of the queue, and on one path one
    more packet-pacing object that the queue does not know. *)
Definition init_post (s : pp_sq) l h (r : status * pp_sq) w : Prop :=
  exists lost, own (sq_own r.2 ++ lost ++ l) h w
    /\ (r.1 = DPCP_OK -> m_obj_handle (sq_obj r.2) <> None /\ lost = [])
    /\ (lost <> [] -> r.1 = DPCP_ERR_CREATE /\ exists p, lost = [(p, KPp)]).

Lemma own_pp_sq_init pd u s l h w :
  sq_sizes_ok (sq_m_attr s) -> m_ctx (sq_obj s) <> None -> m_obj_handle (sq_obj s) = None ->
  r_uar (sq_res s) = None -> m_pp s = None -> own (sq_own s ++ l) h w ->
  wp (pp_sq_init pd u s) (init_post s l h) w.
Proof.
  intros Hs Hc Hn Hu Hp Ho. unfold pp_sq_init.
  assert (forall st s' w', st <> DPCP_OK -> own (sq_own s' ++ l) h w' -> init_post s l h (st, s') w') as Fail.
  { intros st s' w' Hst Ho'. exists []. split_and!; try done. }
  case_if; [apply wp_ret; by apply Fail|].
  apply wp_bind. eapply own_alloc; [exact Ho| |]; [intros w' Ho'; apply wp_ret; by apply Fail|].
  intros p w1 Ho1. cbv zeta. set (s1 := sq_with_res _ s).
  assert (own (sq_own s1 ++ l) h w1) as Ho1'.
  { eapply own_perm; [| reflexivity | reflexivity | exact Ho1]. unfold sq_own, qres_own. simpl.
    rewrite Hu. simpl. solve_Permutation. }
  assert (forall s2 w2, sq_m_attr s2 = sq_m_attr s -> sq_obj s2 = sq_obj s ->
            r_uar (sq_res s2) <> None -> own (sq_own s2 ++ l) h w2 ->
            wp (pp_sq_create pd s2) (init_post s l h) w2) as Create.
  { intros s2 w2 Ea Eo Er Ho2. eapply wp_mono; [|apply own_pp_sq_create]; try done;
      [|by rewrite Ea|by rewrite Eo].
    intros [st s3] w3 [Ho3 Hok]. exists []. split_and!; try done. intros Est. split; [by apply Hok|done]. }
  change (sq_m_attr s1) with (sq_m_attr s). destruct (pp_wanted (sq_m_attr s)) as [a|];
    [|apply wp_ret; by apply Fail].
  case_if; [by apply Create|]. apply wp_bind. eapply own_pp_new; [exact Ho1'|].
  intros [pp|] w2 Ho2; [|apply wp_ret; by apply Fail].
  apply wp_bind. eapply own_pp_create; [done|exact Ho2|].
  intros st pp' w3 Ho3 [->|[-> ->]]; cbn [is_ok negb].
  - apply Create; try done. eapply own_perm; [| reflexivity | reflexivity | exact Ho3].
    unfold sq_own. simpl. rewrite Hp. simpl. solve_Permutation.
  - apply wp_ret. exists [(pp_ptr pp, KPp)]. split_and!; try done; [|by intros _; split; [|eexists]].
    eapply own_perm; [| reflexivity | reflexivity | exact Ho3]. simpl. solve_Permutation.
Qed.

(** Initialising a send queue keeps track of every resource, on every path,
    except one: when the device refuses the packet-pacing object, its host
    object is neither kept by the queue nor freed. *)
Theorem pp_sq_init_ok pd u s l h w :
  sq_sizes_ok (sq_m_attr s) -> m_ctx (sq_obj s) <> None -> m_obj_handle (sq_obj s) = None ->
  r_uar (sq_res s) = None -> m_pp s = None -> own (sq_own s ++ l) h w ->
  wp (pp_sq_init pd u s) (init_post s l h) w.
Proof. apply own_pp_sq_init. Qed.
End own.

(** ** Witnesses *)

Definition pacing_attr : sq_attr :=
  mkSqAttr (Some (mkQos QOS_PACKET_PACING (mkQosPP 1000 0 0))) 1 4 5 256 4 9.
Definition sample_sq : pp_sq := pp_sq_new (Some 1) pacing_attr.

Lemma sample_sq_own : own (sq_own sample_sq ++ []) ∅ sim_world.
Proof. apply (own_nil sim_world), sim_world_fresh. Qed.

Lemma pp_sq_init_ok_witness :
  wp (pp_sq_init 3 (mkUarT 1 1 1) sample_sq) (init_post sample_sq [] ∅) sim_world.
Proof.
  apply pp_sq_init_ok; try reflexivity; try discriminate.
  - unfold sq_sizes_ok, size_ok. simpl. lia.
  - exact sample_sq_own.
Defined.

(** A live send queue without a packet-pacing object. *)
Definition live_sq : pp_sq :=
  mkPpSq (mkObj 9 (Some 1) (Some 1) 0 0) pacing_attr RQ_RDY (qres_new 0) None 0.

Lemma pp_sq_modify_ok_witness :
  wp (pp_sq_modify pacing_attr live_sq) (modify_post live_sq pacing_attr [] {[1 := BObj (Some 7)]})
     one_obj.
Proof.
  apply (pp_sq_modify_ok pacing_attr live_sq 1 7 [] {[1 := BObj (Some 7)]} one_obj);
    [discriminate | reflexivity | apply lookup_singleton_eq |].
  apply own_nil. intros p Hp. apply lookup_singleton_ne. simpl in Hp. lia.
Defined.

(** The path that loses the object, run on a device whose pacing allocation
    fails: after the failed [init] and the destructor one block is still live. *)
Lemma pp_sq_init_leaks :
  exists w',
    ('(st, s) <- pp_sq_init 3 (mkUarT 1 1 1) sample_sq;; pp_sq_delete s;; ret st)
      (mkWorld (mkSim 1 [true]) ∅ 1 [] []) = Ret (DPCP_ERR_CREATE, w')
    /\ heap w' !! 2 = Some (BPp None).
Proof. eexists. split; [vm_compute; reflexivity|]. by vm_compute. Qed.
