(* ===== verification/Cq.v ===== *)
(** * Completion queues (src/src/dpcp/cq.cpp)

    The state of a [cq], its create command and the life of its buffers.  The
    contents of the completion buffer are not kept, but every write to it is
    checked against the size it was allocated with. *)

From S2P Require Import Prelude Codec Prm Dcmd Own Sim Obj Uar Queue QState Rq.
Open Scope string_scope.
Open Scope list_scope.
Open Scope Z_scope.
Open Scope m_scope.

(** [enum cq_attr_use] and [enum cq_flags]: bit numbers of the two bit sets. *)
Definition CQ_SIZE : Z := 0.
Definition CQ_EQ_NUM : Z := 1.
Definition CQ_MODERATION : Z := 2.
Definition CQ_FLAGS : Z := 3.
Definition ATTR_CQ_CQE_COLLAPSED_FLAG : Z := 1.
Definition ATTR_CQ_BREAK_MODERATION_EN_FLAG : Z := 2.
Definition ATTR_CQ_OVERRUN_IGNORE_FLAG : Z := 3.

Definition CQE_SIZE : Z := 64.
Definition MAX_CQ_SZ : Z := Z.shiftl 1 22.

Record cq_attr := mkCqAttr {
  cq_sz : Z;
  eq_num : Z;
  cq_period : Z;
  cq_max_cnt : Z;
  cq_flags : Z;
  cq_attr_use : Z
}.

Record cq := mkCq {
  cq_obj : obj;
  m_user_attr : cq_attr;
  cq_res : qres;
  m_arm_db : option Z;
  m_cqe_num : Z;
  m_cqn : Z;
  m_eqn : Z
}.

(** [cq::cq] *)
Definition cq_new (ctx : option Z) (a : cq_attr) : cq :=
  mkCq (obj_new ctx) a (qres_new (u32 (u64 (CQE_SIZE * cq_sz a)))) None (cq_sz a) 0 0.

Definition cq_with_res (r : qres) (c : cq) : cq :=
  mkCq (cq_obj c) (m_user_attr c) r (m_arm_db c) (m_cqe_num c) (m_cqn c) (m_eqn c).
Definition cq_with_eqn (e : Z) (c : cq) : cq :=
  mkCq (cq_obj c) (m_user_attr c) (cq_res c) (m_arm_db c) (m_cqe_num c) (m_cqn c) e.

Definition cq_get_cq_buf (c : cq) : status * Z :=
  match r_buf (cq_res c) with Some p => (DPCP_OK, p) | None => (DPCP_ERR_NO_MEMORY, 0) end.
Definition cq_get_dbrec (c : cq) : status * Z :=
  match r_db (cq_res c) with Some p => (DPCP_OK, p) | None => (DPCP_ERR_NO_MEMORY, 0) end.
Definition cq_get_uar_page (c : cq) : status * Z :=
  match r_uar (cq_res c) with
  | Some (_, u) => (DPCP_OK, m_page u)
  | None => (DPCP_ERR_NO_MEMORY, 0)
  end.
Definition cq_get_cqe_num (c : cq) : status * Z := (DPCP_OK, u32 (m_cqe_num c)).

(** The create command. *)
Definition p_cqc : Z := ADDR_OF ifc.create_cq_in 0 ["cq_context"].

Definition cq_in (c : cq) (log_cq_buf_sz page_id : Z) : list Z :=
  let a := m_user_attr c in
  mailbox ifc.create_cq_in
    ([DEVX_SET ifc.create_cq_in 0 ["cq_umem_id"] (r_buf_umem_id (cq_res c));
      DEVX_SET64 ifc.create_cq_in 0 ["e_mtt_pointer_or_cq_umem_offset"] 0;
      DEVX_SET ifc.cqc p_cqc ["log_cq_size"] log_cq_buf_sz;
      DEVX_SET ifc.cqc p_cqc ["c_eqn"] (m_eqn c);
      DEVX_SET ifc.cqc p_cqc ["dbr_umem_id"] (r_db_umem_id (cq_res c));
      DEVX_SET64 ifc.cqc p_cqc ["dbr_addr"] 0;
      DEVX_SET ifc.cqc p_cqc ["uar_page"] page_id]
     ++ only (Z.testbit (cq_attr_use a) CQ_MODERATION)
          [DEVX_SET ifc.cqc p_cqc ["cq_period"] (cq_period a);
           DEVX_SET ifc.cqc p_cqc ["cq_max_count"] (cq_max_cnt a)]
     ++ only (Z.testbit (cq_flags a) ATTR_CQ_CQE_COLLAPSED_FLAG)
          [DEVX_SET ifc.cqc p_cqc ["cc"] 1]
     ++ only (Z.testbit (cq_flags a) ATTR_CQ_BREAK_MODERATION_EN_FLAG)
          [DEVX_SET ifc.cqc p_cqc ["scqe_break_moderation_en"] 1]
     ++ only (Z.testbit (cq_flags a) ATTR_CQ_OVERRUN_IGNORE_FLAG)
          [DEVX_SET ifc.cqc p_cqc ["oi"] 1]
     ++ [DEVX_SET ifc.cqc p_cqc ["cqe_compression_en"] 0;
         DEVX_SET ifc.create_cq_in 0 ["opcode"] MLX5_CMD_OP_CREATE_CQ]).

Section cq.
Context {D : Type} `{DevX D}.

(** A write of [n] bytes from the start of a buffer. *)
Definition write_to (p : option Z) (n : Z) : M D unit :=
  match p with
  | None => ub "write through a null pointer"
  | Some p =>
      b <- load p;;
      match b with
      | BRaw sz => if n <=? sz then ret tt else ub "write past the end of a buffer"
      | _ => ub "not a buffer"
      end
  end.

(** [cq::create] *)
Definition cq_create (c : cq) : M D (status * cq) :=
  log_cq_buf_sz <- need (ilog2_u (m_cqe_num c)) "ilog2 overflow";;
  write_to (r_db (cq_res c)) 8;;
  match r_uar (cq_res c) with
  | None => ub "null m_uar"
  | Some (_, u) =>
      let arm := (fun p => p + 4) <$> r_db (cq_res c) in
      '(r, o', _) <- obj_create (cq_obj c) (Some (cq_in c log_cq_buf_sz (m_page_id u)))
                       (Some (zeros (ST_SZ_BYTES ifc.create_cq_out)));;
      if negb (is_ok r)
      then ret (r, mkCq o' (m_user_attr c) (cq_res c) arm (m_cqe_num c) (m_cqn c) (m_eqn c))
      else
        let '(r, id) := obj_get_id o' in
        ret (r, mkCq o' (m_user_attr c) (cq_res c) arm (m_cqe_num c)
                     (if is_ok r then id else m_cqn c) (m_eqn c))
  end.

(** [cq::init]: the loop writes the ownership byte of every entry. *)
Definition cq_init (u : uar_t) (c : cq) : M D (status * cq) :=
  if MAX_CQ_SZ <? cq_sz (m_user_attr c) then ret (DPCP_ERR_INVALID_PARAM, c)
  else if (m_page u =? 0) || (m_page_id u =? 0) then ret (DPCP_ERR_INVALID_PARAM, c)
  else
    let c := cq_with_eqn (eq_num (m_user_attr c)) c in
    p <- alloc BMem;;
    match p with
    | None => ret (DPCP_ERR_NO_MEMORY, c)
    | Some p =>
        let c := cq_with_res (with_uar (Some (p, u)) (cq_res c)) c in
        write_to (r_buf (cq_res c)) (CQE_SIZE * m_cqe_num c);;
        cq_create c
    end.

(** [cq::allocate_cq_buf], [cq::allocate_db_rec] *)
Definition cq_allocate_cq_buf (sz : Z) (c : cq) : M D (status * cq * option Z) :=
  p <- alloc (BRaw sz);;
  match p with
  | None => ret (DPCP_ERR_NO_MEMORY, c, None)
  | Some p => ret (DPCP_OK, cq_with_res (with_buf (Some p) (u32 sz) (cq_res c)) c, Some p)
  end.

Definition cq_allocate_db_rec (c : cq) : M D (status * cq * option Z * Z) :=
  p <- alloc (BRaw 64);;
  match p with
  | None => ret (DPCP_ERR_NO_MEMORY, c, None, 64)
  | Some p => ret (DPCP_OK, cq_with_res (with_db (Some p) (cq_res c)) c, Some p, 64)
  end.

(** [cq::release_cq_buf], [cq::release_db_rec]: the member keeps its value. *)
Definition release_cq_buf (buf : option Z) : M D status := aligned_free buf;; ret DPCP_OK.
Definition release_db_rec (db : option Z) : M D status := aligned_free db;; ret DPCP_OK.

(** [cq::destroy] *)
Definition cq_destroy (c : cq) : M D (status * cq) :=
  st <- obj_destroy (cq_obj c);;
  r <- qres_release (cq_res c);;
  ret (st, cq_with_res r c).

(** [cq::~cq], then [obj::~obj]. *)
Definition cq_delete (c : cq) : M D unit :=
  '(_, c') <- cq_destroy c;;
  _ <- obj_delete (cq_obj c');;
  ret tt.
End cq.

Arguments cq_in : simpl never.

(** ** What the device is told *)

(** The create command of a completion queue: size, event queue, doorbell,
    buffer and UAR are those of the queue; the moderation values are sent exactly
    when the moderation attribute is selected, and each of the three context
    flags is set exactly when its attribute flag is (whether or not the flags
    attribute is selected). *)
Theorem cq_in_fields c log page_id :
  let a := m_user_attr c in
  let b := cq_in c log page_id in
  DEVX_GET ifc.create_cq_in 0 ["opcode"] b = MLX5_CMD_OP_CREATE_CQ
  /\ DEVX_GET ifc.create_cq_in 0 ["cq_umem_id"] b = wrap 32 (r_buf_umem_id (cq_res c))
  /\ DEVX_GET ifc.cqc p_cqc ["log_cq_size"] b = wrap 5 log
  /\ DEVX_GET ifc.cqc p_cqc ["c_eqn"] b = wrap 8 (m_eqn c)
  /\ DEVX_GET ifc.cqc p_cqc ["dbr_umem_id"] b = wrap 32 (r_db_umem_id (cq_res c))
  /\ DEVX_GET ifc.cqc p_cqc ["uar_page"] b = wrap 24 page_id
  /\ DEVX_GET ifc.cqc p_cqc ["cq_period"] b
     = (if Z.testbit (cq_attr_use a) CQ_MODERATION then wrap 12 (cq_period a) else 0)
  /\ DEVX_GET ifc.cqc p_cqc ["cq_max_count"] b
     = (if Z.testbit (cq_attr_use a) CQ_MODERATION then wrap 16 (cq_max_cnt a) else 0)
  /\ DEVX_GET ifc.cqc p_cqc ["cc"] b
     = Z.b2z (Z.testbit (cq_flags a) ATTR_CQ_CQE_COLLAPSED_FLAG)
  /\ DEVX_GET ifc.cqc p_cqc ["scqe_break_moderation_en"] b
     = Z.b2z (Z.testbit (cq_flags a) ATTR_CQ_BREAK_MODERATION_EN_FLAG)
  /\ DEVX_GET ifc.cqc p_cqc ["oi"] b
     = Z.b2z (Z.testbit (cq_flags a) ATTR_CQ_OVERRUN_IGNORE_FLAG).
Proof.
  unfold cq_in. cbv zeta.
  generalize (Z.testbit (cq_attr_use (m_user_attr c)) CQ_MODERATION)
    (Z.testbit (cq_flags (m_user_attr c)) ATTR_CQ_CQE_COLLAPSED_FLAG)
    (Z.testbit (cq_flags (m_user_attr c)) ATTR_CQ_BREAK_MODERATION_EN_FLAG)
    (Z.testbit (cq_flags (m_user_attr c)) ATTR_CQ_OVERRUN_IGNORE_FLAG).
  intros m f1 f2 f3.
  split_and!; mbox; destruct m, f1, f2, f3; reflexivity.
Qed.
