(* ===== verification/Adapter.v ===== *)
(** * The adapter: creation of queues (src/src/dpcp/adapter.cpp)

    [create_cq], [create_striding_rq], [create_regular_rq], [create_ibq_rq] and
    [create_pp_sq] allocate the host object, obtain a UAR from the pool, allocate
    and register the buffers and send the create command.  The order of the
    steps and what each early return releases are those of the code; the address
    of the new object is its key in the UAR pool. *)

From S2P Require Import Prelude Codec Prm Dcmd Own Sim Obj Uar Queue QState Rq Sq Cq.
Open Scope string_scope.
Open Scope list_scope.
Open Scope Z_scope.
Open Scope m_scope.

(** What the queue operations use of the adapter: its context, the UAR pool with
    the block that holds it, and the protection domain number. *)
Record adapter := mkAdapter {
  ad_ctx : Z;
  m_uarpool : option (Z * uar_collection);
  m_pd_id : Z
}.

Definition with_pool (p : Z) (c : uar_collection) (a : adapter) : adapter :=
  mkAdapter (ad_ctx a) (Some (p, c)) (m_pd_id a).

Section queues.
Context {D : Type} `{DevX D} (page_size : Z).

(** "Allocate UAR pool": the pool, or null when the allocation failed. *)
Definition ensure_pool (a : adapter) : M D (option (Z * uar_collection) * adapter) :=
  match m_uarpool a with
  | Some pc => ret (Some pc, a)
  | None =>
      p <- alloc BMem;;
      match p with
      | None => ret (None, a)
      | Some p => let c := uar_collection_new (ad_ctx a) in
                  ret (Some (p, c), with_pool p c a)
      end
  end.

(** [adapter::prepare_basic_rq] on the queue at [self]; [create] is the virtual
    create of the queue. *)
Definition prepare_basic_rq (create : basic_rq -> M D (status * basic_rq)) (self : Z)
    (ctx : Z) (pool : uar_collection) (b : basic_rq) : M D (status * basic_rq * uar_collection) :=
  '(u, pool) <- get_uar pool self SHARED_UAR;;
  match u with
  | None => ret (DPCP_ERR_ALLOC_UAR, b, pool)
  | Some _ =>
      '(r, uar_p) <- get_uar_page u;;
      if negb (is_ok r) then ret (r, b, pool)
      else
        let wq_buf_sz := r_buf_sz (brq_res b) in
        '(r, b, wq_buf) <- rq_allocate_wq_buf page_size wq_buf_sz b;;
        if negb (is_ok r) then ret (r, b, pool)
        else
          '(r, m, id) <- reg_mem (Some ctx) wq_buf wq_buf_sz (r_buf_umem (brq_res b))
                           (r_buf_umem_id (brq_res b));;
          let b := with_res (with_buf_umem m id (brq_res b)) b in
          if negb (is_ok r) then ret (r, b, pool)
          else
            '(r, b, db_rec, db_rec_sz) <- rq_allocate_db_rec page_size b;;
            if negb (is_ok r) then ret (r, b, pool)
            else
              '(r, m, id) <- reg_mem (Some ctx) db_rec db_rec_sz (r_db_umem (brq_res b))
                               (r_db_umem_id (brq_res b));;
              let b := with_res (with_db_umem m id (brq_res b)) b in
              if negb (is_ok r) then ret (r, b, pool)
              else
                '(r, b) <- basic_rq_init create uar_p b;;
                ret (r, b, pool)
  end.

(** [create_striding_rq] and [create_regular_rq]: the same code but for the class
    of the queue.  On failure the unique pointer deletes the queue. *)
Definition create_basic_rq (create : Z -> basic_rq -> M D (status * basic_rq))
    (attr : rq_attr) (a : adapter) : M D (status * option (Z * basic_rq) * adapter) :=
  '(pool, a) <- ensure_pool a;;
  match pool with
  | None => ret (DPCP_ERR_NO_MEMORY, None, a)
  | Some (pp, c) =>
      self <- alloc BMem;;
      match self with
      | None => ret (DPCP_ERR_NO_MEMORY, None, a)
      | Some self =>
          '(r, b, c) <- prepare_basic_rq (create (m_pd_id a)) self (ad_ctx a) c
                          (basic_rq_new (Some (ad_ctx a)) attr);;
          let a := with_pool pp c a in
          if is_ok r then ret (r, Some (self, b), a)
          else basic_rq_delete b;; dealloc self;; ret (r, None, a)
      end
  end.

Definition create_striding_rq := create_basic_rq striding_rq_create.
Definition create_regular_rq := create_basic_rq regular_rq_create.

(** [adapter::create_ibq_rq] *)
Definition create_ibq_rq (attr : rq_attr) (protocol mkey : Z) (a : adapter)
  : M D (status * option (Z * ibq_rq)) :=
  self <- alloc BMem;;
  match self with
  | None => ret (DPCP_ERR_NO_MEMORY, None)
  | Some self =>
      '(r, q) <- ibq_rq_init (m_pd_id a) protocol mkey (ibq_rq_new (Some (ad_ctx a)) attr);;
      if negb (is_ok r) then ibq_rq_delete q;; dealloc self;; ret (r, None)
      else ret (r, Some (self, q))
  end.

(** [adapter::create_pp_sq]: the queue is handed to the caller before it is set
    up, and stays with the caller when a later step fails. *)
Definition create_pp_sq (attr : sq_attr) (a : adapter)
  : M D (status * option (Z * pp_sq) * adapter) :=
  '(pool, a) <- ensure_pool a;;
  match pool with
  | None => ret (DPCP_ERR_NO_MEMORY, None, a)
  | Some (pp, c) =>
      self <- alloc BMem;;
      match self with
      | None => ret (DPCP_ERR_NO_MEMORY, None, a)
      | Some self =>
          let s := pp_sq_new (Some (ad_ctx a)) attr in
          '(u, c) <- get_uar c self SHARED_UAR;;
          let a := with_pool pp c a in
          match u with
          | None => ret (DPCP_ERR_ALLOC_UAR, Some (self, s), a)
          | Some _ =>
              '(r, uar_p) <- get_uar_page u;;
              if negb (is_ok r) then ret (r, Some (self, s), a)
              else
                let wq_buf_sz := r_buf_sz (sq_res s) in
                '(r, s, wq_buf) <- sq_allocate_wq_buf wq_buf_sz s;;
                if negb (is_ok r) then ret (r, Some (self, s), a)
                else
                  '(r, m, id) <- reg_mem (Some (ad_ctx a)) wq_buf wq_buf_sz
                                   (r_buf_umem (sq_res s)) (r_buf_umem_id (sq_res s));;
                  let s := sq_with_res (with_buf_umem m id (sq_res s)) s in
                  if negb (is_ok r) then ret (r, Some (self, s), a)
                  else
                    '(r, s, db_rec, db_rec_sz) <- sq_allocate_db_rec s;;
                    if negb (is_ok r) then ret (r, Some (self, s), a)
                    else
                      '(r, m, id) <- reg_mem (Some (ad_ctx a)) db_rec db_rec_sz
                                       (r_db_umem (sq_res s)) (r_db_umem_id (sq_res s));;
                      let s := sq_with_res (with_db_umem m id (sq_res s)) s in
                      if negb (is_ok r) then ret (r, Some (self, s), a)
                      else
                        '(r, s) <- pp_sq_init (m_pd_id a) uar_p s;;
                        ret (r, Some (self, s), a)
          end
      end
  end.

(** [delete] of a completion queue at [self]. *)
Definition delete_cq (self : Z) (c : cq) : M D unit := cq_delete c;; dealloc self.

(** [adapter::create_cq] *)
Definition create_cq (attrs : cq_attr) (a : adapter) : M D (status * option (Z * cq) * adapter) :=
  if negb (Z.testbit (cq_attr_use attrs) CQ_SIZE) || (cq_sz attrs =? 0)
  then ret (DPCP_ERR_INVALID_PARAM, None, a)
  else if negb (Z.testbit (cq_attr_use attrs) CQ_EQ_NUM)
  then ret (DPCP_ERR_INVALID_PARAM, None, a)
  else
    '(pool, a) <- ensure_pool a;;
    match pool with
    | None => ret (DPCP_ERR_NO_MEMORY, None, a)
    | Some (pp, pool) =>
        self <- alloc BMem;;
        match self with
        | None => ret (DPCP_ERR_NO_MEMORY, None, a)
        | Some self =>
            let cq64 := cq_new (Some (ad_ctx a)) attrs in
            '(u, pool) <- get_uar pool self SHARED_UAR;;
            let a := with_pool pp pool a in
            match u with
            | None => delete_cq self cq64;; ret (DPCP_ERR_ALLOC_UAR, None, a)
            | Some _ =>
                '(r, uar_p) <- get_uar_page u;;
                if negb (is_ok r) then delete_cq self cq64;; ret (r, None, a)
                else
                  let cq_buf_sz := r_buf_sz (cq_res cq64) in
                  '(r, cq64, cq_buf) <- cq_allocate_cq_buf cq_buf_sz cq64;;
                  if negb (is_ok r) then delete_cq self cq64;; ret (r, None, a)
                  else
                    '(r, m, id) <- reg_mem (Some (ad_ctx a)) cq_buf cq_buf_sz
                                     (r_buf_umem (cq_res cq64)) (r_buf_umem_id (cq_res cq64));;
                    let cq64 := cq_with_res (with_buf_umem m id (cq_res cq64)) cq64 in
                    if negb (is_ok r) then
                      _ <- release_cq_buf cq_buf;;
                      delete_cq self cq64;; ret (r, None, a)
                    else
                      '(r, cq64, db_rec, db_rec_sz) <- cq_allocate_db_rec cq64;;
                      if negb (is_ok r) then
                        delete_umem (r_buf_umem (cq_res cq64));;
                        _ <- release_cq_buf cq_buf;;
                        delete_cq self cq64;; ret (r, None, a)
                      else
                        '(r, m, id) <- reg_mem (Some (ad_ctx a)) db_rec db_rec_sz
                                         (r_db_umem (cq_res cq64)) (r_db_umem_id (cq_res cq64));;
                        let cq64 := cq_with_res (with_db_umem m id (cq_res cq64)) cq64 in
                        if negb (is_ok r) then
                          _ <- release_db_rec db_rec;;
                          delete_umem (r_buf_umem (cq_res cq64));;
                          _ <- release_cq_buf cq_buf;;
                          delete_cq self cq64;; ret (r, None, a)
                        else
                          '(r, cq64) <- cq_init uar_p cq64;;
                          if is_ok r then ret (r, Some (self, cq64), a)
                          else
                            delete_umem (r_db_umem (cq_res cq64));;
                            _ <- release_db_rec db_rec;;
                            delete_umem (r_buf_umem (cq_res cq64));;
                            _ <- release_cq_buf cq_buf;;
                            delete_cq self cq64;; ret (r, None, a)
            end
        end
    end.
End queues.

(** ** Ownership of the adapter *)

Definition adapter_own (a : adapter) : list (Z * kind) :=
  match m_uarpool a with Some (p, c) => (p, KMem) :: uars_of c | None => [] end.

Definition adapter_wf (a : adapter) : Prop :=
  match m_uarpool a with Some (_, c) => uc_wf c | None => True end.

Section facts.
Context {D : Type} `{DevX D} (page_size : Z).
Implicit Types (w : world D) (l : list (Z * kind)) (h : gmap Z blk).

Lemma own_ensure_pool a l h Q w :
  adapter_wf a -> own (adapter_own a ++ l) h w ->
  (forall w', own (adapter_own a ++ l) h w' -> Q (None, a) w') ->
  (forall p c w', uc_wf c -> own ((p, KMem) :: uars_of c ++ l) h w' ->
     Q (Some (p, c), with_pool p c a) w') ->
  wp (ensure_pool a) Q w.
Proof.
  intros Hw Ho HN HS. unfold ensure_pool, adapter_wf, adapter_own in *.
  destruct (m_uarpool a) as [[p c]|] eqn:E.
  - apply wp_ret. replace a with (with_pool p c a) at 1; [by apply HS|].
    destruct a; simpl in *. by rewrite E.
  - apply wp_bind. eapply own_alloc; [exact Ho| |]; intros; apply wp_ret; [by apply HN|].
    apply HS; [|done]. split; simpl; try done; try apply NoDup_nil_2. set_solver.
Qed.

Lemma own_get_uar c key l h Q w :
  uc_wf c -> own (uars_of c ++ l) h w ->
  (forall u c' w', uc_wf c' -> own (uars_of c' ++ l) h w' ->
     (forall x, u = Some x -> m_shared_uar c' = Some x) -> Q (u, c') w') ->
  wp (get_uar c key SHARED_UAR) Q w.
Proof.
  intros Hw Ho HQ. destruct (decide (key = 0)) as [->|Hk]; [apply wp_ret; by apply HQ|].
  eapply wp_mono; [|by apply get_uar_shared]. intros [u c'] w' (Hw' & Ho' & Hr).
  simpl in Ho'. apply HQ; [done|done|]. intros x ->. by destruct Hr as (_ & ? & _).
Qed.

Lemma own_get_uar_page c x l h Q w :
  own (uars_of c ++ l) h w -> m_shared_uar c = Some x ->
  (forall u, Q (DPCP_OK, u) w) -> wp (get_uar_page (Some x)) Q w.
Proof.
  intros Ho Hs HQ. unfold uars_of in Ho. rewrite Hs in Ho. simpl in Ho.
  destruct (own_live _ _ _ _ _ Ho) as (b & Hb & Hk). simpl in Hb. destruct b; try done.
  do 3 (do 3 apply wp_bind; eapply wp_load; [exact Hb|]; apply wp_ret, wp_peek).
  apply wp_ret, HQ.
Qed.

(** The outcome of preparing a queue. *)
Definition prepared (l : list (Z * kind)) h (r : status * basic_rq * uar_collection) w : Prop :=
  let '(st, b, c) := r in
  uc_wf c /\ own (uars_of c ++ brq_own b ++ l) h w
  /\ (st = DPCP_OK -> m_obj_handle (rq_obj (brq b)) <> None).

Lemma own_prepare create ok `{!RqCreate create ok} self ctx c b l h w :
  ok (rq_m_attr (brq b)) -> m_obj_handle (rq_obj (brq b)) = None ->
  qres_own (brq_res b) = [] -> uc_wf c -> own (uars_of c ++ l) h w ->
  wp (prepare_basic_rq page_size create self ctx c b) (prepared l h) w.
Proof.
  intros Ha Hn Hr Hw Ho. unfold prepare_basic_rq.
  assert (r_uar (brq_res b) = None /\ r_buf (brq_res b) = None /\ r_buf_umem (brq_res b) = None
          /\ r_db (brq_res b) = None /\ r_db_umem (brq_res b) = None) as (U1 & U2 & U3 & U4 & U5).
  { unfold qres_own in Hr. destruct (brq_res b) as [[[]|] [] [] [] [] ? ? ?]; simpl in *;
      by try discriminate. }
  assert (brq_own b = []) as Hb.
  { unfold brq_own, obj_own. by rewrite Hn, Hr. }
  apply wp_bind. eapply own_get_uar; [done|exact Ho|]. intros u c' w1 Hw1 Ho1 Hu.
  destruct u as [x|]; [|apply wp_ret; split_and!; try done; by rewrite Hb].
  apply wp_bind. eapply own_get_uar_page; [exact Ho1|by apply Hu|]. intros ud.
  cbn [is_ok negb]. cbv zeta.
  apply wp_bind, wp_bind. eapply own_alloc; [exact Ho1| |].
  { intros w2 Ho2. do 2 apply wp_ret. simpl. split_and!; try done. by rewrite Hb. }
  intros p w2 Ho2. apply wp_ret. cbn [is_ok negb]. set (b1 := with_res _ b).
  apply wp_bind. change (r_buf_umem (brq_res b1)) with (r_buf_umem (brq_res b)). rewrite U3.
  eapply own_reg_mem; [exact Ho2|]. intros st m id w3 Ho3 Hst. cbv zeta.
  set (b2 := with_res _ b1).
  assert (own (uars_of c' ++ brq_own b2 ++ l) h w3) as Ho3'.
  { eapply own_perm; [| reflexivity | reflexivity | exact Ho3].
    unfold brq_own, obj_own, qres_own. simpl. rewrite Hn, U1, U4, U5. simpl.
    rewrite ?app_nil_r. solve_Permutation. }
  destruct (is_ok st) eqn:Est; cbn [negb]; [|by apply wp_ret; split_and!; bool_hyps].
  apply wp_bind, wp_bind. eapply own_alloc; [exact Ho3'| |].
  { intros w4 Ho4. do 2 apply wp_ret. simpl. by split_and!. }
  intros q w4 Ho4. apply wp_ret. cbn [is_ok negb]. set (b3 := with_res _ b2).
  apply wp_bind. change (r_db_umem (brq_res b3)) with (r_db_umem (brq_res b)). rewrite U5.
  eapply own_reg_mem; [exact Ho4|]. intros st' m' id' w5 Ho5 Hst'. cbv zeta.
  set (b4 := with_res _ b3).
  assert (own (brq_own b4 ++ uars_of c' ++ l) h w5) as Ho5'.
  { eapply own_perm; [| reflexivity | reflexivity | exact Ho5].
    unfold brq_own, obj_own, qres_own. simpl. rewrite Hn, U1, U4, U5. simpl.
    rewrite ?app_nil_r. solve_Permutation. }
  destruct (is_ok st') eqn:Est'; cbn [negb]; cycle 1.
  { apply wp_ret; split_and!; bool_hyps; try done. by own_perm Ho5'. }
  apply wp_bind. eapply wp_mono; [|by eapply own_basic_rq_init].
  intros [r b5] w6 [Ho6 Hok]. apply wp_ret. split_and!; try done.
  by own_perm Ho6.
Qed.

(** What a caller of a create operation holds: the queue with the block that
    stores it, or nothing. *)
Definition queue_own {A} (own_of : A -> list (Z * kind)) (q : option (Z * A)) : list (Z * kind) :=
  match q with Some (self, b) => (self, KMem) :: own_of b | None => [] end.

Definition created_rq (l : list (Z * kind)) h (r : status * option (Z * basic_rq) * adapter) w : Prop :=
  let '(st, q, a) := r in
  adapter_wf a /\ own (adapter_own a ++ queue_own brq_own q ++ l) h w
  /\ (st = DPCP_OK <-> q <> None)
  /\ (forall self b, q = Some (self, b) -> m_obj_handle (rq_obj (brq b)) <> None).

Lemma own_create_basic_rq create ok attr a l h w :
  (forall pd, RqCreate (D := D) (create pd) ok) -> ok attr -> adapter_wf a ->
  own (adapter_own a ++ l) h w ->
  wp (create_basic_rq page_size create attr a) (created_rq l h) w.
Proof.
  intros HC Ha Hw Ho. unfold create_basic_rq. apply wp_bind.
  eapply own_ensure_pool; [done|exact Ho|intros w' Ho'; by apply wp_ret; split_and!|].
  intros p c w1 Hw1 Ho1. apply wp_bind. eapply own_alloc; [exact Ho1| |].
  { intros w2 Ho2. apply wp_ret. by split_and!. }
  intros self w2 Ho2. apply wp_bind.
  eapply wp_mono; [|eapply (own_prepare _ ok self (ad_ctx _) c _ ((self, KMem) :: (p, KMem) :: l))];
    try done; [|own_perm Ho2].
  intros [[st b] c'] w3 (Hw3 & Ho3 & Hok). cbv zeta. destruct (is_ok st) eqn:Est; bool_hyps.
  - apply wp_ret. split_and!; try done.
    + simpl. own_perm Ho3.
    + by intros ? ? [= <- <-]; apply Hok.
  - apply wp_bind. eapply (own_basic_rq_delete b ((self, KMem) :: (p, KMem) :: uars_of c' ++ l)).
    { own_perm Ho3. }
    intros w4 Ho4. apply wp_bind. eapply own_dealloc; [exact Ho4|]. intros w5 Ho5.
    apply wp_ret. by split_and!.
Qed.

(** C1. Creating a striding or a regular receive queue never leaks and never
    frees twice, for every answer of the device and every failing allocation: on
    success the caller owns the queue with all its buffers and a device object,
    and on failure everything but the (well-formed) UAR pool has been given
    back. *)
Theorem create_rq_safe (striding : bool) attr a l h w :
  (if striding then sizes_ok attr else regular_ok attr) -> adapter_wf a ->
  own (adapter_own a ++ l) h w ->
  wp ((if striding then create_striding_rq page_size else create_regular_rq page_size) attr a)
     (created_rq l h) w.
Proof.
  intros Ha Hw Ho. destruct striding.
  - apply (own_create_basic_rq _ sizes_ok); try done. intros pd. apply striding_create.
  - apply (own_create_basic_rq _ regular_ok); try done. intros pd. apply regular_create.
Qed.

(** ** In-buffer receive queues *)

Definition ibq_own (q : ibq_rq) : list (Z * kind) := obj_own (rq_obj (ibq q)).

(** The same for in-buffer receive queues, which own only their device
    object. *)
Theorem create_ibq_rq_safe attr protocol mkey a l h w :
  size_ok (buf_stride_num attr) -> own l h w ->
  wp (create_ibq_rq attr protocol mkey a)
     (fun r w' => own (queue_own ibq_own r.2 ++ l) h w' /\ (r.1 = DPCP_OK <-> r.2 <> None)) w.
Proof.
  intros Ha Ho. unfold create_ibq_rq, ibq_rq_init, ibq_rq_create. apply wp_bind.
  eapply own_alloc; [exact Ho| |]; [intros w1 Ho1; by apply wp_ret|].
  intros self w1 Ho1. apply wp_bind. simpl. rewrite ilog2_u_size by done.
  apply wp_bind, wp_ret. destruct (m_pd_id a =? 0).
  { apply wp_ret. cbn [is_ok negb]. apply wp_bind. do 2 (apply wp_bind, wp_ret).
    apply wp_ret. simpl. apply wp_bind. eapply own_dealloc; [exact Ho1|].
    intros w2 Ho2. by apply wp_ret. }
  apply wp_bind, wp_bind. eapply own_obj_create; [exact Ho1|done|].
  intros st o' out w2 Ho2 _ Hs. cbn beta iota.
  assert (forall st' w', own (obj_own o' ++ (self, KMem) :: l) h w' ->
    (st' = DPCP_OK -> m_obj_handle o' <> None) ->
    wp (if negb (is_ok st') then
          ibq_rq_delete (mkIbqRq (mkRq o' attr RQ_RST) protocol mkey);; dealloc self;; ret (st', None)
        else ret (st', Some (self, mkIbqRq (mkRq o' attr RQ_RST) protocol mkey)))
      (fun r w' => own (queue_own ibq_own r.2 ++ l) h w' /\ (r.1 = DPCP_OK <-> r.2 <> None)) w')
    as Fin.
  { intros st' w' Ho' Hok. destruct (is_ok st') eqn:Est; cbn [negb]; bool_hyps.
    - apply wp_ret. split; [|done]. simpl. own_perm Ho'.
    - apply wp_bind, wp_bind. eapply own_obj_destroy; [exact Ho'|]. intros w3 Ho3.
      apply wp_bind. eapply own_obj_delete; [exact Ho3|]. intros o3 w4 _ Ho4. apply wp_ret.
      apply wp_bind. eapply own_dealloc; [exact Ho4|]. intros w5 Ho5. by apply wp_ret. }
  case_if; do 2 apply wp_ret; apply Fin; try done.
  unfold obj_get_id. by destruct (m_obj_handle o').
Qed.

(** ** Send queues *)

Definition created_sq (l : list (Z * kind)) h (r : status * option (Z * pp_sq) * adapter) w : Prop :=
  let '(st, q, a) := r in
  adapter_wf a
  /\ (exists lost, own (adapter_own a ++ queue_own sq_own q ++ lost ++ l) h w
        /\ (lost = [] \/ st = DPCP_ERR_CREATE /\ exists p, lost = [(p, KPp)]))
  /\ (q = None -> st = DPCP_ERR_NO_MEMORY)
  /\ (st = DPCP_OK -> exists self s, q = Some (self, s) /\ m_obj_handle (sq_obj s) <> None).

(** C37. Creating a send queue: the caller gets the queue object even when a
    later step fails, and with it everything allocated so far (so deleting it
    frees all of it), except for the packet-pacing object that the device
    refused; only when there is no memory for the queue itself does the caller
    get nothing. *)
Theorem create_pp_sq_safe attr a l h w :
  sq_sizes_ok attr -> adapter_wf a -> own (adapter_own a ++ l) h w ->
  wp (create_pp_sq attr a) (created_sq l h) w.
Proof.
  intros Ha Hw Ho. unfold create_pp_sq. apply wp_bind.
  eapply own_ensure_pool; [done|exact Ho| |].
  { intros w' Ho'. apply wp_ret. split_and!; try done. exists []. auto. }
  intros p c w1 Hw1 Ho1. apply wp_bind. eapply own_alloc; [exact Ho1| |].
  { intros w2 Ho2. apply wp_ret. split_and!; try done. exists []. auto. }
  intros self w2 Ho2. cbv zeta. apply wp_bind.
  eapply (own_get_uar c self ((self, KMem) :: (p, KMem) :: l)); [done|own_perm Ho2|].
  intros u c' w3 Hw3 Ho3 Hu.
  assert (forall st s w', st <> DPCP_OK -> own (uars_of c' ++ sq_own s ++ (self, KMem) :: (p, KMem) :: l) h w' ->
    created_sq l h (st, Some (self, s), with_pool p c' (with_pool p c a)) w') as Fail.
  { intros st s w' Hst Ho'. split_and!; try done. exists []. split; [|by left]. simpl.
    own_perm Ho'. }
  destruct u as [x|]; [|apply wp_ret; by apply Fail].
  apply wp_bind. eapply own_get_uar_page; [exact Ho3|by apply Hu|]. intros ud. cbn [is_ok negb].
  apply wp_bind, wp_bind. eapply own_alloc; [exact Ho3| |].
  { intros w4 Ho4. do 2 apply wp_ret. by apply Fail. }
  intros pb w4 Ho4. apply wp_ret. cbn [is_ok negb]. set (s1 := sq_with_res _ _).
  apply wp_bind. change (r_buf_umem (sq_res s1)) with (@None Z).
  eapply own_reg_mem; [exact Ho4|]. intros st m id w5 Ho5 Hst. set (s2 := sq_with_res _ s1).
  assert (own (uars_of c' ++ sq_own s2 ++ (self, KMem) :: (p, KMem) :: l) h w5) as Ho5'.
  { eapply own_perm; [| reflexivity | reflexivity | exact Ho5].
    unfold sq_own, obj_own, qres_own. simpl. rewrite ?app_nil_r. solve_Permutation. }
  destruct (is_ok st) eqn:Est; cbn [negb]; bool_hyps; [|by apply wp_ret, Fail].
  apply wp_bind, wp_bind. eapply own_alloc; [exact Ho5'| |].
  { intros w6 Ho6. do 2 apply wp_ret. by apply Fail. }
  intros pd w6 Ho6. apply wp_ret. cbn [is_ok negb]. set (s3 := sq_with_res _ s2).
  apply wp_bind. change (r_db_umem (sq_res s3)) with (@None Z).
  eapply own_reg_mem; [exact Ho6|]. intros st' m' id' w7 Ho7 Hst'. set (s4 := sq_with_res _ s3).
  assert (own (sq_own s4 ++ uars_of c' ++ (self, KMem) :: (p, KMem) :: l) h w7) as Ho7'.
  { eapply own_perm; [| reflexivity | reflexivity | exact Ho7].
    unfold sq_own, obj_own, qres_own. simpl. rewrite ?app_nil_r. solve_Permutation. }
  destruct (is_ok st') eqn:Est'; cbn [negb]; bool_hyps;
    [|apply wp_ret, Fail; [done|own_perm Ho7']].
  apply wp_bind. eapply wp_mono; [|by apply (own_pp_sq_init _ ud s4
    (uars_of c' ++ (self, KMem) :: (p, KMem) :: l) h w7)].
  intros [r s5] w8 (lost & Ho8 & Hok & Hl). apply wp_ret. split_and!; try done.
  - exists lost. split; [simpl; own_perm Ho8|]. destruct lost; [by left|right].
    by apply Hl.
  - intros ->. exists self, s5. split; [done|]. by apply Hok.
Qed.

(** ** Completion queues *)

(** A device that refuses every memory registration. *)
Definition refuses_umem : Prop :=
  forall ctx p sz acc d, (mlx5dv_devx_umem_reg ctx p sz acc d).1 = None.

Lemma reg_mem_refused ctx p sz id l h Q w :
  refuses_umem -> own l h w ->
  (forall st id' w', st <> DPCP_OK -> own l h w' -> Q (st, None, id') w') ->
  wp (reg_mem (Some ctx) (Some p) sz None id) Q w.
Proof.
  intros Hr Ho HQ. unfold reg_mem. case_if; [apply wp_ret; by apply HQ|].
  apply wp_bind. unfold create_umem. apply wp_bind. eapply own_alloc; [exact Ho| |].
  { intros w1 Ho1. do 2 apply wp_ret. by apply HQ. }
  intros q w1 Ho1. apply wp_bind, wp_device. intros a d w2 Ea Hh Hn _ _ _.
  pose proof (Hr ctx p sz 1 (dev w1)) as Hd. rewrite Ea in Hd. simpl in Hd. subst a.
  apply wp_bind. eapply own_dealloc; [apply (own_same _ _ w1); [exact Hh|exact Hn|exact Ho1]|].
  intros w3 Ho3. do 2 apply wp_ret. by apply HQ.
Qed.

(** Deleting a queue whose buffer is already free. *)
Lemma delete_cq_dead self c p w :
  m_obj_handle (cq_obj c) = None -> r_uar (cq_res c) = None -> r_buf_umem (cq_res c) = None ->
  r_db_umem (cq_res c) = None -> r_buf (cq_res c) = Some p -> heap w !! p = None ->
  fails (delete_cq self c) w.
Proof.
  intros Hn H1 H2 H3 H4 Hp. do 2 apply fails_head. unfold cq_destroy, obj_destroy. rewrite Hn.
  apply fails_bind, wp_ret, fails_head. unfold qres_release. rewrite H1, H2, H3, H4.
  do 3 apply fails_bind, wp_ret. apply fails_head. by apply fails_dealloc.
Qed.

(** When the device refuses to register the completion buffer, [create_cq]
    frees the buffer and then deletes the queue, whose destructor frees the same
    buffer again: the error path is a double free.  (Any adapter with a UAR pool
    in use, valid attributes and enough memory.) *)
Theorem create_cq_double_free attrs a p c x l h w :
  refuses_umem -> Z.testbit (cq_attr_use attrs) CQ_SIZE = true -> cq_sz attrs <> 0 ->
  Z.testbit (cq_attr_use attrs) CQ_EQ_NUM = true ->
  m_uarpool a = Some (p, c) -> uc_wf c -> m_shared_uar c = Some x -> 0 < next w -> oom w = [] ->
  own (adapter_own a ++ l) h w ->
  fails (create_cq attrs a) w.
Proof.
  intros Hr Hs Hz He Ep Hwf Ex Hn Hoom Ho. unfold create_cq. rewrite Hs, He. cbn [negb orb].
  rewrite (proj2 (Z.eqb_neq _ _) Hz). unfold ensure_pool. rewrite Ep.
  apply fails_bind, wp_ret, fails_bind. unfold adapter_own in Ho. rewrite Ep in Ho.
  unfold wp at 1, alloc. rewrite Hoom. cbv zeta.
  set (w1 := mkWorld _ _ _ _ _).
  assert (own ((next w, KMem) :: (p, KMem) :: uars_of c ++ l) h w1) as Ho1.
  { pose proof (own_alloc BMem _ _ (fun q w' => forall y, q = Some y -> own ((y, KMem) :: (p, KMem) :: uars_of c ++ l) h w') w Ho) as HA.
    unfold wp, alloc in HA. rewrite Hoom in HA. apply HA; [done| |done].
    by intros q w' Ho' y [= ->]. }
  apply fails_bind. assert (own (uars_of c ++ (next w, KMem) :: (p, KMem) :: l) h w1) as Ho1'
    by own_perm Ho1.
  assert (exists c', get_uar c (next w) SHARED_UAR w1 = Ret (Some x, c', w1)
                     /\ m_shared_uar c' = Some x /\ uars_of c' = uars_of c) as (c' & G & Ex' & Eu).
  { unfold get_uar. rewrite (proj2 (Z.eqb_neq _ _)) by lia. rewrite Ex.
    case_decide; eexists; split_and!; try reflexivity; try done. unfold uars_of. by rewrite Ex. }
  unfold wp at 1. rewrite G. rewrite <- Eu in Ho1'.
  apply fails_bind. eapply own_get_uar_page; [exact Ho1'|exact Ex'|]. intros ud. cbn [is_ok negb].
  apply fails_bind, wp_bind. unfold wp at 1, alloc. change (oom w1) with (@nil bool). cbv zeta.
  set (w2 := mkWorld _ _ _ _ _).
  assert (own ((next w1, KRaw) :: uars_of c' ++ (next w, KMem) :: (p, KMem) :: l) h w2) as Ho2.
  { pose proof (own_alloc (BRaw (r_buf_sz (cq_res (cq_new (Some (ad_ctx a)) attrs)))) _ _
      (fun q w' => forall y, q = Some y -> own ((y, KRaw) :: uars_of c' ++ (next w, KMem) :: (p, KMem) :: l) h w') w1 Ho1') as HA.
    unfold wp, alloc in HA. apply HA; [done| |done]. by intros q w' Ho' y [= ->]. }
  apply wp_ret. cbn [is_ok negb]. apply fails_bind.
  eapply reg_mem_refused; [done|exact Ho2|]. intros st id' w3 Hst Ho3.
  assert (is_ok st = false) as -> by (by apply is_ok_false). cbn [negb].
  apply fails_bind, wp_bind. eapply (own_aligned_free (Some (next w1)) KRaw); [exact Ho3|].
  intros w4 Ho4. apply wp_ret. apply fails_head.
  eapply delete_cq_dead; try reflexivity. by eapply own_dead.
Qed.
End facts.

(** ** Witnesses *)

Definition fresh_adapter : adapter := mkAdapter 1 None 3.

Lemma create_rq_safe_witness :
  wp (create_striding_rq 4096 sample_attr fresh_adapter) (created_rq [] ∅) sim_world.
Proof.
  apply (create_rq_safe 4096 true sample_attr fresh_adapter [] ∅ sim_world).
  - exact sample_sizes.
  - exact Logic.I.
  - apply (own_nil sim_world), sim_world_fresh.
Defined.

Lemma create_ibq_rq_safe_witness :
  wp (create_ibq_rq sample_attr 0 7 fresh_adapter)
     (fun r w' => own (queue_own ibq_own r.2 ++ []) ∅ w' /\ (r.1 = DPCP_OK <-> r.2 <> None)) sim_world.
Proof.
  apply create_ibq_rq_safe.
  - unfold size_ok. simpl. lia.
  - apply (own_nil sim_world), sim_world_fresh.
Defined.

Lemma create_pp_sq_safe_witness :
  wp (create_pp_sq pacing_attr fresh_adapter) (created_sq [] ∅) sim_world.
Proof.
  apply create_pp_sq_safe.
  - unfold sq_sizes_ok, size_ok. simpl. lia.
  - exact Logic.I.
  - apply (own_nil sim_world), sim_world_fresh.
Defined.

(** An adapter whose pool already has the shared UAR. *)
Definition used_pool : uar_collection := mkUC [] [50] 1 (Some 2).
Definition used_adapter : adapter := mkAdapter 1 (Some (1, used_pool)) 3.
Definition used_world : world qsim := mkWorld (mkQsim 0) (<[1 := BMem]> {[2 := BUar 5]}) 3 [] [].
Definition valid_cq_attr : cq_attr := mkCqAttr 256 1 0 0 0 3.

Lemma used_world_own : own (adapter_own used_adapter ++ []) ∅ used_world.
Proof.
  split_and!.
  - intros p Hp. simpl in *. rewrite lookup_insert_ne by lia. apply lookup_singleton_ne. lia.
  - apply (bool_decide_unpack _). by vm_compute.
  - repeat constructor; eexists; split; reflexivity.
  - by vm_compute.
Qed.

Lemma create_cq_double_free_witness : fails (create_cq valid_cq_attr used_adapter) used_world.
Proof.
  apply (create_cq_double_free valid_cq_attr used_adapter 1 used_pool 2 [] ∅ used_world);
    try reflexivity; try discriminate.
  - intros ctx p sz acc d. reflexivity.
  - split; simpl; try done; try apply NoDup_nil_2; [apply NoDup_singleton|set_solver].
  - exact used_world_own.
Defined.

(** Successful creation, evaluated on the simulated device: the status, and the
    number of device calls. *)
Example create_striding_rq_run :
  match create_striding_rq 4096 sample_attr fresh_adapter sim_world with
  | Ret (st, Some (_, b), _, w) => (st, m_id (rq_obj (brq b)), length (calls w)) = (DPCP_OK, 4, 4%nat)
  | _ => False
  end.
Proof. vm_compute. reflexivity. Qed.

Example create_cq_run :
  match create_cq valid_cq_attr fresh_adapter sim_world with
  | Ret (st, Some (_, c), _, w) => (st, m_cqn c, length (calls w)) = (DPCP_OK, 4, 4%nat)
  | _ => False
  end.
Proof. vm_compute. reflexivity. Qed.
