(* ===== verification/Mkey.v ===== *)
(** * Memory keys (src/src/dpcp/mkey.cpp)

    Direct, pattern, reserved, reference, external and crypto memory keys.  The
    virtual getters that other components use of a key are the record
    [mkey_view].  The process-wide counter behind the variable byte of a key is
    modelled twice: as the sequential code uses it, and as the interleaving of
    threads that run its compare-and-swap loop. *)

From S2P Require Import Prelude Codec Prm Dcmd Own Sim Obj Queue.
Open Scope string_scope.
Open Scope list_scope.
Open Scope Z_scope.
Open Scope m_scope.

Definition MKEY_NONE : Z := 0.
Definition MKEY_ZERO_BASED : Z := 1.
Definition IBV_ACCESS_LOCAL_WRITE : Z := 1.
Definition IBV_ACCESS_ZERO_BASED : Z := Z.shiftl 1 5.

(** ** The interface of a key: [get_id], [get_address], [get_length], [get_flags] *)
Record mkey_view := mkView {
  v_id : status * Z;
  v_address : status * Z;
  v_length : status * Z;
  v_flags : status * Z
}.

(** ** The counter *)

(** One call of the counter loop with no other thread in between: the value
    obtained and the new counter.  [mkey_cnt + 1] on [INT_MAX] overflows. *)
Definition next_mkey_cnt (g : Z) : option (Z * Z) :=
  if g =? 2 ^ 31 - 1 then None else Some (g, g + 1).

(** [mkey::get_mkey_num] *)
Definition get_mkey_num (g : Z) : status * Z := (DPCP_OK, g).

(** [mkey_cnt % 0xFF] *)
Definition cnt_7_0 (cnt : Z) : Z := Z.rem cnt 0xFF.

(** [m_idx]: 24 bits of index and the variable byte. *)
Definition mkey_idx (index cnt : Z) : Z := Z.lor (u32 (Z.shiftl index 8)) (u32 (cnt_7_0 cnt)).

Definition p_mkeyc : Z := ADDR_OF ifc.create_mkey_in 0 ["memory_key_mkey_entry"].

(** Send the create command; the answer carries the index of the key. *)
Section send.
Context {D : Type} `{DevX D}.

Definition mkey_send (o : obj) (inb : list Z) (cnt : Z) : M D (status * obj * option Z) :=
  '(r, o', out) <- obj_create o (Some inb) (Some (zeros (ST_SZ_BYTES ifc.create_mkey_out)));;
  if negb (is_ok r) then ret (r, o', None)
  else ret (r, o', Some (mkey_idx (DEVX_GET ifc.create_mkey_out 0 ["mkey_index"] out) cnt)).
End send.

(** ** [direct_mkey] *)

Record direct_mkey := mkDirect {
  dm_obj : obj;
  dm_umem : option Z;
  dm_address : Z;
  dm_ibv_mem : option Z;
  dm_length : Z;
  dm_flags : Z;
  dm_idx : Z
}.

Definition direct_mkey_new (ctx : option Z) (address len flags : Z) : direct_mkey :=
  mkDirect (obj_new ctx) None address None len flags 0.

(** The getters. *)
Definition direct_view (k : direct_mkey) : mkey_view :=
  mkView (DPCP_OK, dm_idx k)
    (if dm_address k =? 0 then DPCP_ERR_NO_MEMORY else DPCP_OK, dm_address k)
    (if dm_length k =? 0 then DPCP_ERR_OUT_OF_RANGE else DPCP_OK, dm_length k)
    (DPCP_OK, dm_flags k).

(** The address the device is given: the offset in its page for a zero-based key. *)
Definition direct_start (page_size : Z) (k : direct_mkey) : Z :=
  if has_flag (dm_flags k) MKEY_ZERO_BASED then dm_address k mod page_size else dm_address k.

Definition direct_mkey_in (page_size : Z) (k : direct_mkey) (pd umem_id cnt : Z) : list Z :=
  mailbox ifc.create_mkey_in
    [DEVX_SET ifc.mkc p_mkeyc ["access_mode_4_2"] 0;
     DEVX_SET ifc.mkc p_mkeyc ["lw"] 1;
     DEVX_SET ifc.mkc p_mkeyc ["lr"] 1;
     DEVX_SET ifc.mkc p_mkeyc ["access_mode_1_0"] 1;
     DEVX_SET ifc.mkc p_mkeyc ["qpn"] 0xffffff;
     DEVX_SET ifc.mkc p_mkeyc ["mkey_7_0"] (cnt_7_0 cnt);
     DEVX_SET ifc.mkc p_mkeyc ["pd"] pd;
     DEVX_SET64 ifc.mkc p_mkeyc ["start_addr"] (direct_start page_size k);
     DEVX_SET64 ifc.mkc p_mkeyc ["len"] (dm_length k);
     DEVX_SET ifc.create_mkey_in 0 ["mkey_umem_valid"] 1;
     DEVX_SET ifc.create_mkey_in 0 ["mkey_umem_id"] umem_id;
     DEVX_SET ifc.create_mkey_in 0 ["opcode"] MLX5_CMD_OP_CREATE_MKEY].

Section direct.
Context {D : Type} `{DevX D} (page_size : Z).

(** [direct_mkey::reg_mem] *)
Definition direct_reg_mem (verbs_pd : Z) (k : direct_mkey) : M D (status * direct_mkey) :=
  match m_ctx (dm_obj k) with
  | None => ret (DPCP_ERR_NO_CONTEXT, k)
  | Some _ =>
      if dm_address k =? 0 then ret (DPCP_ERR_NO_MEMORY, k)
      else if dm_length k =? 0 then ret (DPCP_ERR_OUT_OF_RANGE, k)
      else if verbs_pd =? 0 then ret (DPCP_ERR_UMEM, k)
      else
        let access := IBV_ACCESS_LOCAL_WRITE in
        mr <- (if dm_flags k =? MKEY_ZERO_BASED
               then ibv_reg_mem_reg_iova verbs_pd (dm_address k) (dm_length k)
                      (dm_address k mod page_size) (Z.lor access IBV_ACCESS_ZERO_BASED)
               else ibv_reg_mem_reg verbs_pd (dm_address k) (dm_length k) access);;
        match mr with
        | None => ret (DPCP_ERR_UMEM, k)
        | Some x =>
            i <- peek (ibv_mr_lkey x);;
            let k' := mkDirect (dm_obj k) (dm_umem k) (dm_address k) (Some x) (dm_length k)
                               (dm_flags k) i in
            if i =? 0 then ret (DPCP_ERR_NO_MEMORY, k') else ret (DPCP_OK, k')
        end
  end.

(** [direct_mkey::create]; the counter is passed and returned. *)
Definition direct_mkey_create (pd g : Z) (k : direct_mkey) : M D (status * direct_mkey * Z) :=
  match dm_ibv_mem k with
  | Some _ => ret (DPCP_OK, k, g)
  | None =>
      if pd =? 0 then ret (DPCP_ERR_CREATE, k, g)
      else
        match dm_umem k with
        | None => ub "null m_umem"
        | Some u =>
            umem_id <- umem_get_id u;;
            '(cnt, g') <- need (next_mkey_cnt g) "counter overflow";;
            '(r, o', i) <- mkey_send (dm_obj k) (direct_mkey_in page_size k pd umem_id cnt) cnt;;
            ret (r, mkDirect o' (dm_umem k) (dm_address k) (dm_ibv_mem k) (dm_length k)
                             (dm_flags k) (default (dm_idx k) i), g')
        end
  end.

(** [direct_mkey::destroy] *)
Definition direct_mkey_destroy (k : direct_mkey) : M D (status * direct_mkey) :=
  match m_ctx (dm_obj k) with
  | None => ret (DPCP_ERR_NO_CONTEXT, k)
  | Some _ =>
      match dm_ibv_mem k with
      | Some x =>
          err <- ibv_dereg_mem_reg x;;
          if negb (err =? 0) then ret (DPCP_ERR_NO_MEMORY, k)
          else ret (DPCP_OK, mkDirect (dm_obj k) (dm_umem k) (dm_address k) None (dm_length k)
                                      (dm_flags k) (dm_idx k))
      | None =>
          r <- obj_destroy (dm_obj k);;
          delete_umem (dm_umem k);;
          ret (r, k)
      end
  end.

(** [~direct_mkey], then [~obj]. *)
Definition direct_mkey_delete (k : direct_mkey) : M D unit :=
  _ <- direct_mkey_destroy k;; _ <- obj_delete (dm_obj k);; ret tt.

(** [adapter::create_direct_mkey] on an adapter with context [ctx], protection
    domain [pd] and verbs protection domain [ibv_pd]. *)
Definition create_direct_mkey (ctx : option Z) (ibv_pd pd g address len flags : Z)
  : M D (status * option (Z * direct_mkey) * Z) :=
  self <- alloc BMem;;
  match self with
  | None => ret (DPCP_ERR_NO_MEMORY, None, g)
  | Some self =>
      '(r, k) <- direct_reg_mem ibv_pd (direct_mkey_new ctx address len flags);;
      if negb (is_ok r) then direct_mkey_delete k;; dealloc self;; ret (DPCP_ERR_UMEM, None, g)
      else
        '(r, k, g) <- direct_mkey_create pd g k;;
        if negb (is_ok r) then direct_mkey_delete k;; dealloc self;; ret (DPCP_ERR_CREATE, None, g)
        else ret (DPCP_OK, Some (self, k), g)
  end.
End direct.

(** ** [reserved_mkey], [ref_mkey], [extern_mkey] *)

Inductive reserved_mkey_type : Type := MKEY_RESERVED_NONE | MKEY_RESERVED_DUMP_AND_FILL.

(** Fields shared by the reserved and the reference keys. *)
Record plain_mkey := mkPlain { pm_address : Z; pm_length : Z; pm_idx : Z; pm_flags : Z }.

(** The getters fail while there is no index. *)
Definition plain_view (k : plain_mkey) : mkey_view :=
  let st := if pm_idx k =? 0 then DPCP_ERR_CREATE else DPCP_OK in
  mkView (st, pm_idx k) (st, pm_address k)
    (if pm_idx k =? 0 then DPCP_ERR_CREATE
     else if pm_length k =? 0 then DPCP_ERR_OUT_OF_RANGE else DPCP_OK, pm_length k)
    (st, pm_flags k).

(** [reserved_mkey::reserved_mkey] *)
Definition reserved_mkey_new (address len flags : Z) : plain_mkey := mkPlain address len 0 flags.

(** [reserved_mkey::create] *)
Definition reserved_mkey_create (t : reserved_mkey_type) (k : plain_mkey) : status * plain_mkey :=
  match t with
  | MKEY_RESERVED_DUMP_AND_FILL =>
      (DPCP_OK, mkPlain (pm_address k) (pm_length k) 0x700 (pm_flags k))
  | MKEY_RESERVED_NONE => (DPCP_ERR_CREATE, k)
  end.

(** [base_ref_mkey::base_ref_mkey], [ref_mkey::ref_mkey] and
    [extern_mkey::extern_mkey] *)
Definition base_ref_mkey_new (address len idx : Z) : plain_mkey := mkPlain address len idx MKEY_NONE.
Definition ref_mkey_new (address len : Z) : plain_mkey := base_ref_mkey_new address len 0.
Definition extern_mkey_new (address len id : Z) : plain_mkey := base_ref_mkey_new address len id.

(** [ref_mkey::create]: addresses are 64-bit and their sums wrap. *)
Definition ref_mkey_create (parent : option mkey_view) (k : plain_mkey) : status * plain_mkey :=
  match parent with
  | None => (DPCP_ERR_INVALID_PARAM, k)
  | Some p =>
      if (pm_address k =? 0) || (pm_length k =? 0) then (DPCP_ERR_INVALID_PARAM, k)
      else if negb (is_ok (fst (v_id p))) then (fst (v_id p), k)
      else
        let k := mkPlain (pm_address k) (pm_length k) (snd (v_id p)) (pm_flags k) in
        if negb (is_ok (fst (v_address p))) then (fst (v_address p), k)
        else if negb (is_ok (fst (v_length p))) then (fst (v_length p), k)
        else if negb (is_ok (fst (v_flags p))) then (fst (v_flags p), k)
        else
          let k := mkPlain (pm_address k) (pm_length k) (pm_idx k) (snd (v_flags p)) in
          let pa := snd (v_address p) in
          let pl := snd (v_length p) in
          if (pm_address k <? pa) || (u64 (pa + pl) <? u64 (pm_address k + pm_length k))
          then (DPCP_ERR_OUT_OF_RANGE, k)
          else (DPCP_OK, k)
  end.

(** ** [crypto_mkey] *)

Record crypto_mkey := mkCrypto { ck_obj : obj; ck_idx : Z; ck_max_sge : Z }.

(** [crypto_mkey::crypto_mkey] *)
Definition crypto_mkey_new (ctx : option Z) (max_sge : Z) : crypto_mkey := mkCrypto (obj_new ctx) 0 max_sge.

Definition crypto_view (k : crypto_mkey) : mkey_view :=
  mkView (DPCP_OK, ck_idx k) (DPCP_OK, 0) (DPCP_OK, 0) (DPCP_OK, MKEY_ZERO_BASED).

Definition crypto_mkey_in (pd max_sge cnt : Z) : list Z :=
  mailbox ifc.create_mkey_in
    [DEVX_SET ifc.mkc p_mkeyc ["access_mode_1_0"] MLX5_MKC_ACCESS_MODE_KLMS;
     DEVX_SET ifc.mkc p_mkeyc ["log_entity_size"] 0;
     DEVX_SET ifc.mkc p_mkeyc ["free"] 1;
     DEVX_SET ifc.mkc p_mkeyc ["en_rinval"] 1;
     DEVX_SET ifc.mkc p_mkeyc ["lw"] 1;
     DEVX_SET ifc.mkc p_mkeyc ["lr"] 1;
     DEVX_SET ifc.mkc p_mkeyc ["rw"] 0;
     DEVX_SET ifc.mkc p_mkeyc ["rr"] 0;
     DEVX_SET ifc.mkc p_mkeyc ["umr_en"] 1;
     DEVX_SET ifc.mkc p_mkeyc ["qpn"] 0xffffff;
     DEVX_SET ifc.mkc p_mkeyc ["pd"] pd;
     DEVX_SET ifc.mkc p_mkeyc ["translations_octword_size"] 128;
     DEVX_SET ifc.mkc p_mkeyc ["crypto_en"] 1;
     DEVX_SET ifc.mkc p_mkeyc ["bsf_en"] 1;
     DEVX_SET ifc.mkc p_mkeyc ["bsf_octword_size"] max_sge;
     DEVX_SET ifc.mkc p_mkeyc ["mkey_7_0"] (cnt_7_0 cnt);
     DEVX_SET ifc.create_mkey_in 0 ["opcode"] MLX5_CMD_OP_CREATE_MKEY].

Section crypto.
Context {D : Type} `{DevX D}.

(** [crypto_mkey::create] *)
Definition crypto_mkey_create (pd g : Z) (k : crypto_mkey) : M D (status * crypto_mkey * Z) :=
  if pd =? 0 then ret (DPCP_ERR_INVALID_PARAM, k, g)
  else if negb (ck_max_sge k mod 4 =? 0) then ret (DPCP_ERR_INVALID_PARAM, k, g)
  else
    '(cnt, g') <- need (next_mkey_cnt g) "counter overflow";;
    '(r, o', i) <- mkey_send (ck_obj k) (crypto_mkey_in pd (ck_max_sge k) cnt) cnt;;
    ret (r, mkCrypto o' (default (ck_idx k) i) (ck_max_sge k), g').
End crypto.

Arguments direct_mkey_in : simpl never.
Arguments crypto_mkey_in : simpl never.
Arguments mkey_send : simpl never.

(** ** [pattern_mkey] *)

(** [align] of src/src/utils/os.h, on 32 bits. *)
Definition align32 (val alignment : Z) : Z :=
  Z.land (u32 (val + alignment - 1)) (u32 (Z.lnot (alignment - 1))).

Record pattern_mkey_bb := mkBb { bb_key : mkey_view; bb_stride_sz : Z; bb_length : Z }.

Record pattern_mkey := mkPattern {
  pk_obj : obj;
  pk_bbs : list pattern_mkey_bb;
  pk_mkeys_arr : option Z;
  pk_address : Z;
  pk_stride_sz : Z;
  pk_stride_num : Z;
  pk_flags : Z;
  pk_idx : Z
}.

(** [m_stride_sz]: the sum of the block lengths, in a [size_t]. *)
Definition stride_sum (bbs : list pattern_mkey_bb) : Z :=
  fold_left (fun acc b => u64 (acc + bb_length b)) bbs 0.

(** [pattern_mkey::pattern_mkey]; the array of key pointers may be null. *)
Definition pattern_mkey_new {D} (ctx : option Z) (address flags stride_num : Z)
    (bbs : list pattern_mkey_bb) : M D pattern_mkey :=
  arr <- alloc (BRaw (8 * Z.of_nat (length bbs)));;
  ret (mkPattern (obj_new ctx) bbs arr address (stride_sum bbs) stride_num flags 0).

(** [get_stride_sz], [get_stride_num] *)
Definition get_stride_sz (k : pattern_mkey) : status * Z := (DPCP_OK, pk_stride_sz k).
Definition get_stride_num (k : pattern_mkey) : status * Z := (DPCP_OK, pk_stride_num k).

(** [get_mkeys_num], [get_mkeys_lst] *)
Definition get_mkeys_num (k : pattern_mkey) : Z := Z.of_nat (length (pk_bbs k)).
Definition get_mkeys_lst (k : pattern_mkey) : status * option Z :=
  match pk_mkeys_arr k with Some p => (DPCP_OK, Some p) | None => (DPCP_ERR_NO_MEMORY, None) end.

Definition pattern_view (k : pattern_mkey) : mkey_view :=
  let len := u64 (pk_stride_sz k * pk_stride_num k) in
  mkView (DPCP_OK, pk_idx k)
    (if pk_address k =? 0 then DPCP_ERR_NO_MEMORY else DPCP_OK, pk_address k)
    (if len =? 0 then DPCP_ERR_OUT_OF_RANGE else DPCP_OK, len)
    (DPCP_OK, pk_flags k).

(** Stores of big-endian integers in the repeated-block structures. *)
Definition be16_first (a v : Z) : write := W32 (mkField a 16 16) v.    (* bytes 0, 1 *)
Definition be16_second (a v : Z) : write := W32 (mkField a 0 16) v.    (* bytes 2, 3 *)
Definition be32_store (a v : Z) : write := W32 (mkField a 0 32) v.

Definition p_repbls : Z := ADDR_OF ifc.create_mkey_in 0 ["klm_pas_mtt_bsf"].
Definition sizeof_repeat_block : Z := 16.
Definition sizeof_repeat_ent : Z := 16.

(** One entry at address [a]: stride, byte count, memory key and address. *)
Definition entry_writes (a stride len id va : Z) : list write :=
  [be16_first a stride; be16_second a len; be32_store (a + 4) id; W64 (a + 8) va].

(** The loop over the blocks: the statements, or the status of the getter that
    failed. *)
Fixpoint entries_writes (a : Z) (bbs : list pattern_mkey_bb) : status * list write :=
  match bbs with
  | [] => (DPCP_OK, [])
  | b :: r =>
      let '(st, id) := v_id (bb_key b) in
      if negb (is_ok st) then (st, [])
      else
        let '(st, va) := v_address (bb_key b) in
        if negb (is_ok st) then (st, [])
        else
          let '(st, ws) := entries_writes (a + sizeof_repeat_ent) r in
          (st, entry_writes a (bb_stride_sz b) (bb_length b) id va ++ ws)
  end.

(** The mailbox size in bytes. *)
Definition pattern_inlen (bbs_num : Z) : Z :=
  let aligned_sz := align32 (u32 (bbs_num + 1)) 4 in
  let repeat_block_sz := u32 (sizeof_repeat_block + aligned_sz * sizeof_repeat_ent) in
  4 * (size_of ifc.create_mkey_in / 32 + repeat_block_sz / 4).

Definition pattern_head (page_size : Z) (k : pattern_mkey) (pd cnt : Z) : list write :=
  let bbs_num := Z.of_nat (length (pk_bbs k)) in
  let aligned_sz := align32 (u32 (bbs_num + 1)) 4 in
  [DEVX_SET ifc.create_mkey_in 0 ["translations_octword_actual_size"] aligned_sz;
   DEVX_SET ifc.mkc p_mkeyc ["access_mode_4_2"] 0;
   DEVX_SET ifc.mkc p_mkeyc ["lw"] 1;
   DEVX_SET ifc.mkc p_mkeyc ["lr"] 1;
   DEVX_SET ifc.mkc p_mkeyc ["access_mode_1_0"] 2;
   DEVX_SET ifc.mkc p_mkeyc ["qpn"] 0xffffff;
   DEVX_SET ifc.mkc p_mkeyc ["mkey_7_0"] (cnt_7_0 cnt);
   DEVX_SET ifc.mkc p_mkeyc ["pd"] pd;
   DEVX_SET64 ifc.mkc p_mkeyc ["start_addr"]
     (if has_flag (pk_flags k) MKEY_ZERO_BASED then pk_address k mod page_size else pk_address k);
   DEVX_SET64 ifc.mkc p_mkeyc ["len"] (u64 (pk_stride_sz k * pk_stride_num k));
   DEVX_SET ifc.mkc p_mkeyc ["translations_octword_size"] aligned_sz;
   be32_store p_repbls (pk_stride_sz k);
   be32_store (p_repbls + 4) 0x400;
   be32_store (p_repbls + 8) (pk_stride_num k);
   be16_second (p_repbls + 12) bbs_num].

Definition pattern_mkey_in (page_size : Z) (k : pattern_mkey) (pd cnt : Z) (entries : list write)
  : list Z :=
  exec (pattern_head page_size k pd cnt ++ entries
        ++ [DEVX_SET ifc.create_mkey_in 0 ["opcode"] MLX5_CMD_OP_CREATE_MKEY])
       (zeros (pattern_inlen (Z.of_nat (length (pk_bbs k))))).

Section pattern.
Context {D : Type} `{DevX D} (page_size : Z).

(** [pattern_mkey::create]; the mailbox is allocated, and freed on every path. *)
Definition pattern_mkey_create (pd g : Z) (k : pattern_mkey) : M D (status * pattern_mkey * Z) :=
  p <- alloc (BRaw (pattern_inlen (Z.of_nat (length (pk_bbs k)))));;
  match p with
  | None => ret (DPCP_ERR_NO_MEMORY, k, g)
  | Some p =>
      '(cnt, g') <- need (next_mkey_cnt g) "counter overflow";;
      if pd =? 0 then dealloc p;; ret (DPCP_ERR_CREATE, k, g')
      else
        let '(r, entries) := entries_writes (p_repbls + sizeof_repeat_block) (pk_bbs k) in
        if negb (is_ok r) then dealloc p;; ret (r, k, g')
        else
          '(r, o', i) <- mkey_send (pk_obj k) (pattern_mkey_in page_size k pd cnt entries) cnt;;
          dealloc p;;
          ret (r, mkPattern o' (pk_bbs k) (pk_mkeys_arr k) (pk_address k) (pk_stride_sz k) (pk_stride_num k)
                            (pk_flags k) (default (pk_idx k) i), g')
  end.

(** [~pattern_mkey], then [~obj]. *)
Definition pattern_mkey_delete (k : pattern_mkey) : M D unit :=
  aligned_free (pk_mkeys_arr k);; _ <- obj_delete (pk_obj k);; ret tt.

(** [adapter::create_pattern_mkey] *)
Definition create_pattern_mkey (ctx : option Z) (pd g address flags stride_num : Z)
    (bbs : list pattern_mkey_bb) : M D (status * option (Z * pattern_mkey) * Z) :=
  self <- alloc BMem;;
  match self with
  | None => ret (DPCP_ERR_NO_MEMORY, None, g)
  | Some self =>
      k <- pattern_mkey_new ctx address flags stride_num bbs;;
      '(r, k, g) <- pattern_mkey_create pd g k;;
      if negb (is_ok r) then pattern_mkey_delete k;; dealloc self;; ret (DPCP_ERR_CREATE, None, g)
      else ret (DPCP_OK, Some (self, k), g)
  end.

(** [adapter::create_crypto_mkey] *)
Definition create_crypto_mkey (ctx : option Z) (pd g max_sge : Z)
  : M D (status * option (Z * crypto_mkey) * Z) :=
  self <- alloc BMem;;
  match self with
  | None => ret (DPCP_ERR_NO_MEMORY, None, g)
  | Some self =>
      '(r, k, g) <- crypto_mkey_create pd g (crypto_mkey_new ctx max_sge);;
      if negb (is_ok r) then _ <- obj_delete (ck_obj k);; dealloc self;; ret (DPCP_ERR_CREATE, None, g)
      else ret (DPCP_OK, Some (self, k), g)
  end.

(** [adapter::create_reserved_mkey], [create_ref_mkey], [create_extern_mkey]: no
    device call.  The length of a reserved key is cut to 32 bits. *)
Definition create_plain_mkey (k : plain_mkey) (create : plain_mkey -> status * plain_mkey)
  : M D (status * option (Z * plain_mkey)) :=
  self <- alloc BMem;;
  match self with
  | None => ret (DPCP_ERR_NO_MEMORY, None)
  | Some self =>
      let '(r, k) := create k in
      if negb (is_ok r) then dealloc self;; ret (DPCP_ERR_CREATE, None)
      else ret (DPCP_OK, Some (self, k))
  end.

Definition create_reserved_mkey (t : reserved_mkey_type) (address len flags : Z)
  : M D (status * option (Z * plain_mkey)) :=
  create_plain_mkey (reserved_mkey_new address (u32 len) flags) (reserved_mkey_create t).

Definition create_ref_mkey (parent : option mkey_view) (address len : Z)
  : M D (status * option (Z * plain_mkey)) :=
  create_plain_mkey (ref_mkey_new address len) (ref_mkey_create parent).

Definition create_extern_mkey (address len id : Z) : M D (status * option (Z * plain_mkey)) :=
  create_plain_mkey (extern_mkey_new address len id) (fun k => (DPCP_OK, k)).
End pattern.

Arguments pattern_mkey_in : simpl never.

(** ** The identifier of a key *)

Lemma lor_shift_add a b k : 0 <= k -> 0 <= b < 2 ^ k -> Z.lor (Z.shiftl a k) b = a * 2 ^ k + b.
Proof.
  intros Hk Hb. assert (Z.land (Z.shiftl a k) b = 0) as E.
  { zbits. rewrite Z.land_spec, Z.bits_0. destruct (Z.lt_ge_cases n k).
    - rewrite Z.shiftl_spec_low by lia. done.
    - assert (Z.testbit b n = false) as ->; [|by rewrite andb_false_r].
      apply Z.testbit_false; [lia|]. rewrite Z.div_small; [done|].
      split; [lia|]. eapply Z.lt_le_trans; [apply Hb|]. apply Z.pow_le_mono_r; lia. }
  rewrite <- Z.lxor_lor, <- Z.add_nocarry_lxor by done. by rewrite Z.shiftl_mul_pow2 by lia.
Qed.

Lemma mkey_idx_sum index cnt :
  0 <= index < 2 ^ 24 -> 0 <= cnt -> mkey_idx index cnt = index * 256 + cnt mod 255.
Proof.
  intros Hi Hc. unfold mkey_idx, cnt_7_0. rewrite Z.rem_mod_nonneg by lia.
  pose proof (Z.mod_pos_bound cnt 255).
  rewrite (wrap_small 32 (cnt mod 255)) by lia.
  rewrite (wrap_small 32) by (rewrite Z.shiftl_mul_pow2; lia).
  rewrite lor_shift_add by lia. lia.
Qed.

(** The identifier of a key determines the device's index and the variable
    byte, and the byte is the one written to the key context: keys with different
    indices never collide, and 255 consecutive keys with the same index have
    different identifiers. *)
Theorem mkey_idx_ok page_size k pd umem_id index cnt :
  0 <= index < 2 ^ 24 -> 0 <= cnt < 2 ^ 31 ->
  mkey_idx index cnt / 256 = index
  /\ mkey_idx index cnt mod 256
     = DEVX_GET ifc.mkc p_mkeyc ["mkey_7_0"] (direct_mkey_in page_size k pd umem_id cnt)
  /\ 0 <= mkey_idx index cnt < 2 ^ 32
  /\ forall d, 0 < d < 255 -> mkey_idx index (cnt + d) <> mkey_idx index cnt.
Proof.
  intros Hi Hc. pose proof (Z.mod_pos_bound cnt 255).
  assert (DEVX_GET ifc.mkc p_mkeyc ["mkey_7_0"] (direct_mkey_in page_size k pd umem_id cnt)
          = cnt mod 255) as ->.
  { unfold direct_mkey_in. mbox. unfold cnt_7_0. rewrite Z.rem_mod_nonneg by lia.
    symmetry. apply Z.mod_small. change (2 ^ 8) with 256. lia. }
  rewrite mkey_idx_sum by lia. split_and!; try lia.
  - Z.div_mod_to_equations. lia.
  - rewrite Z.add_comm, Z.mod_add, Z.mod_small by lia. done.
  - intros d Hd. rewrite !mkey_idx_sum by lia.
    intros E. assert ((cnt + d) mod 255 = cnt mod 255) as E' by lia.
    Z.div_mod_to_equations. lia.
Qed.

Lemma mkey_idx_ok_witness :
  mkey_idx 5 300 / 256 = 5 /\ 0 <= mkey_idx 5 300 < 2 ^ 32.
Proof.
  destruct (mkey_idx_ok 4096 (direct_mkey_new None 0 0 0) 1 2 5 300) as (H1 & _ & H2 & _);
    [lia | lia | by split].
Defined.

(** ** References *)

(** A reference key is accepted exactly when the parent's getters all
    succeed and the region lies inside the parent's, with 64-bit address
    arithmetic; for regions that do not wrap around the address space this is
    containment of the two intervals.  An accepted key carries the parent's
    identifier and flags. *)
Theorem ref_mkey_create_ok p a len :
  0 < a -> 0 < len -> a + len < 2 ^ 64 ->
  let pa := snd (v_address p) in
  let pl := snd (v_length p) in
  0 <= pa -> 0 <= pl -> pa + pl < 2 ^ 64 ->
  let '(st, k') := ref_mkey_create (Some p) (ref_mkey_new a len) in
  (st = DPCP_OK <->
     fst (v_id p) = DPCP_OK /\ fst (v_address p) = DPCP_OK /\ fst (v_length p) = DPCP_OK
     /\ fst (v_flags p) = DPCP_OK /\ pa <= a /\ a + len <= pa + pl)
  /\ (st = DPCP_OK -> pm_idx k' = snd (v_id p) /\ pm_flags k' = snd (v_flags p)
                      /\ pm_address k' = a /\ pm_length k' = len).
Proof.
  intros Ha Hl Hw pa pl Hpa Hpl Hpw. unfold ref_mkey_create, ref_mkey_new, base_ref_mkey_new. simpl.
  rewrite (proj2 (Z.eqb_neq a 0)), (proj2 (Z.eqb_neq len 0)) by lia. simpl.
  destruct (is_ok (fst (v_id p))) eqn:E1; bool_hyps; simpl; [|naive_solver].
  destruct (is_ok (fst (v_address p))) eqn:E2; bool_hyps; simpl; [|naive_solver].
  destruct (is_ok (fst (v_length p))) eqn:E3; bool_hyps; simpl; [|naive_solver].
  destruct (is_ok (fst (v_flags p))) eqn:E4; bool_hyps; simpl; [|naive_solver].
  fold pa pl. rewrite !wrap_small by lia.
  destruct ((a <? pa) || (pa + pl <? a + len)) eqn:E5.
  - split; [|done]. split; [done|]. intros (_ & _ & _ & _ & H1 & H2).
    apply orb_true_iff in E5 as [E5|E5]; bool_hyps; lia.
  - bool_hyps. split; [|done]. split; [|done]. intros _. split_and!; done || lia.
Qed.

Lemma ref_mkey_create_ok_witness :
  let p := direct_view (mkDirect (obj_new None) None 4096 None 8192 0 7) in
  fst (ref_mkey_create (Some p) (ref_mkey_new 5000 100)) = DPCP_OK.
Proof.
  intros p. pose proof (ref_mkey_create_ok p 5000 100) as R.
  destruct (ref_mkey_create (Some p) (ref_mkey_new 5000 100)) as [st k'].
  destruct R as [R _]; try (simpl; lia). apply R. simpl. split_and!; try done; lia.
Defined.

(** Without the no-wrap hypothesis a region far beyond the parent is accepted:
    the end of the region wraps to a small address. *)
Lemma ref_mkey_wraps :
  let p := direct_view (mkDirect (obj_new None) None 4096 None 8192 0 7) in
  fst (ref_mkey_create (Some p) (ref_mkey_new 5000 (2 ^ 64 - 100))) = DPCP_OK.
Proof. vm_compute. reflexivity. Qed.

(** ** Life of a direct key *)

Section direct_life.
Context {D : Type} `{DevX D} (page_size : Z).
Implicit Types (w : world D) (l : list (Z * kind)) (h : gmap Z blk).

(** The memory registrations made for a key of [a], [len] from the calls [cs]:
    none, a refused one, one that was undone, or one that stands. *)
Definition mr_calls (a len : Z) (live : option Z) (cs cs' : list call) : Prop :=
  match live with
  | Some x => cs' = CMrReg a len (Some x) :: cs
  | None => cs' = cs \/ cs' = CMrReg a len None :: cs
            \/ exists x, cs' = CMrDereg x :: CMrReg a len (Some x) :: cs
  end.

Lemma wp_direct_reg_mem ibv_pd ctx a len fl l h w Q :
  own l h w ->
  (forall st k w', own l h w' -> dm_obj k = obj_new ctx -> dm_umem k = None ->
     (st = DPCP_OK -> dm_ibv_mem k <> None) ->
     (ctx = None -> dm_ibv_mem k = None) ->
     (dm_ibv_mem k = None -> calls w' = calls w \/ calls w' = CMrReg a len None :: calls w) ->
     (forall x, dm_ibv_mem k = Some x -> calls w' = CMrReg a len (Some x) :: calls w) ->
     Q (st, k) w') ->
  wp (direct_reg_mem page_size ibv_pd (direct_mkey_new ctx a len fl)) Q w.
Proof.
  intros Ho HQ. unfold direct_reg_mem. cbn [direct_mkey_new dm_obj m_ctx obj_new dm_address dm_length dm_flags].
  destruct ctx as [c|]; [|apply wp_ret, HQ; auto; done].
  destruct (a =? 0); [apply wp_ret, HQ; auto; done|].
  destruct (len =? 0); [apply wp_ret, HQ; auto; done|].
  destruct (ibv_pd =? 0); [apply wp_ret, HQ; auto; done|].
  cbv zeta. apply wp_bind.
  assert (forall f, wp (device f (CMrReg a len)) (fun mr w1 => own l h w1 /\ calls w1 = CMrReg a len mr :: calls w) w) as Dev.
  { intros f. apply wp_device. intros x d w1 _ Hh Hn _ Hc _. split; [|done].
    by apply (own_same _ _ w). }
  assert (forall mr w1, own l h w1 -> calls w1 = CMrReg a len mr :: calls w ->
    wp match mr with
       | Some x => i <- peek (ibv_mr_lkey x);;
           if i =? 0 then ret (DPCP_ERR_NO_MEMORY, mkDirect (obj_new (Some c)) None a (Some x) len fl i)
           else ret (DPCP_OK, mkDirect (obj_new (Some c)) None a (Some x) len fl i)
       | None => ret (DPCP_ERR_UMEM, mkDirect (obj_new (Some c)) None a None len fl 0)
       end Q w1) as Rest.
  { intros [x|] w1 Ho1 Hc1.
    - apply wp_bind, wp_peek. case_if; apply wp_ret, HQ; try done; by intros ? [= ->].
    - apply wp_ret, HQ; try done. by right. }
  destruct (fl =? MKEY_ZERO_BASED); (eapply wp_mono; [|apply Dev]);
    intros mr w1 [Ho1 Hc1]; by apply Rest.
Qed.

Lemma wp_direct_delete k l h w Q :
  dm_umem k = None -> m_obj_handle (dm_obj k) = None ->
  (m_ctx (dm_obj k) = None -> dm_ibv_mem k = None) -> own l h w ->
  (forall w', own l h w' ->
     calls w' = match dm_ibv_mem k with Some x => CMrDereg x :: calls w | None => calls w end ->
     Q tt w') ->
  wp (direct_mkey_delete k) Q w.
Proof.
  intros Hu Hn Hc Ho HQ. unfold direct_mkey_delete, direct_mkey_destroy. apply wp_bind.
  assert (forall w', own l h w' ->
     calls w' = match dm_ibv_mem k with Some x => CMrDereg x :: calls w | None => calls w end ->
     wp (_ <- obj_delete (dm_obj k);; ret tt) Q w') as Fin.
  { intros w' Ho' Hc'. apply wp_bind. unfold obj_delete. rewrite Hn.
    apply wp_bind, wp_ret, wp_ret, wp_ret. by apply HQ. }
  destruct (m_ctx (dm_obj k)) as [c|]; [|apply wp_ret, Fin; [done|by rewrite Hc]].
  destruct (dm_ibv_mem k) as [x|].
  - apply wp_bind, wp_device. intros e d w1 _ Hh Hx _ Hcs _.
    assert (own l h w1) by (by apply (own_same _ _ w)).
    case_if; apply wp_ret; by apply Fin.
  - apply wp_bind. unfold obj_destroy. rewrite Hn, Hu. apply wp_ret, wp_bind, wp_ret, wp_ret.
    by apply Fin.
Qed.

(** C38. Creating a direct key runs without undefined behaviour for every
    argument and every answer of the device; on success the caller owns the key
    and exactly one memory registration stands, and on failure the memory is
    given back and no registration is left.  The counter is not touched. *)
Theorem create_direct_mkey_safe ctx ibv_pd pd g a len fl l h w :
  own l h w ->
  wp (create_direct_mkey page_size ctx ibv_pd pd g a len fl)
     (fun r w' => let '(st, q, g') := r in
        g' = g /\ (st = DPCP_OK <-> q <> None)
        /\ match q with
           | Some (self, k) => own ((self, KMem) :: l) h w'
                               /\ exists x, dm_ibv_mem k = Some x /\ mr_calls a len (Some x) (calls w) (calls w')
           | None => own l h w' /\ mr_calls a len None (calls w) (calls w')
           end) w.
Proof.
  intros Ho. unfold create_direct_mkey. apply wp_bind.
  eapply wp_mono; [|apply wp_alloc_calls, (own_alloc BMem l h (fun p w' => own (ptr p KMem ++ l) h w'))];
    [|exact Ho|done|done].
  intros [self|] w1 [Ho1 Hc1]; cbn beta iota; [|apply wp_ret; split_and!; try done; by left].
  apply wp_bind. eapply wp_direct_reg_mem; [exact Ho1|].
  intros st k w2 Ho2 Eo Eu Hok Hctx HN HS. destruct (is_ok st) eqn:Est; bool_hyps; cbn [negb].
  - destruct (dm_ibv_mem k) as [x|] eqn:Ex; [|by specialize (Hok Est)].
    apply wp_bind. unfold direct_mkey_create. rewrite Ex. apply wp_ret. cbn [is_ok negb].
    apply wp_ret. split_and!; try done. exists x. split; [done|]. unfold mr_calls.
    rewrite <- Hc1. by apply HS.
  - apply wp_bind. eapply wp_direct_delete; [done|by rewrite Eo|by rewrite Eo|exact Ho2|].
    intros w3 Ho3 Hc3. apply wp_bind.
    eapply wp_mono; [|apply wp_dealloc_calls, (own_dealloc self KMem l h (fun _ w' => own l h w'))];
      [|exact Ho3|done].
    intros [] w4 [Ho4 Hc4]. apply wp_ret. split_and!; try done. unfold mr_calls.
    rewrite Hc4, Hc3. destruct (dm_ibv_mem k) as [x|].
    + right; right. exists x. rewrite (HS x) by done. by rewrite Hc1.
    + destruct (HN eq_refl) as [->| ->]; rewrite Hc1; [by left|by right; left].
Qed.

(** Sending the create command of a key. *)
Lemma own_mkey_send ctx inb cnt l h Q w :
  own l h w ->
  (forall st o' i w', own (obj_own o' ++ l) h w' -> (st = DPCP_OK -> m_obj_handle o' <> None) ->
     Q (st, o', i) w') ->
  wp (mkey_send (obj_new ctx) inb cnt) Q w.
Proof.
  intros Ho HQ. unfold mkey_send. apply wp_bind. eapply own_obj_create; [exact Ho|done|].
  intros st o' out w' Ho' _ Hst. case_if; apply wp_ret; by apply HQ.
Qed.

Lemma wp_next_cnt {A} g (k : Z * Z -> M D A) Q w :
  g <> 2 ^ 31 - 1 -> wp (k (g, g + 1)) Q w ->
  wp (bind (need (next_mkey_cnt g) "counter overflow") k) Q w.
Proof.
  intros Hg Hk. unfold next_mkey_cnt. rewrite (proj2 (Z.eqb_neq _ _)) by done. exact Hk.
Qed.

Definition pattern_own (k : pattern_mkey) : list (Z * kind) :=
  obj_own (pk_obj k) ++ ptr (pk_mkeys_arr k) KRaw.

Lemma own_pattern_create pd g k l h Q w :
  g <> 2 ^ 31 - 1 -> (exists ctx, pk_obj k = obj_new ctx) -> own (ptr (pk_mkeys_arr k) KRaw ++ l) h w ->
  (forall st k' g' w', own (pattern_own k' ++ l) h w' ->
     (st = DPCP_OK -> m_obj_handle (pk_obj k') <> None) -> g <= g' <= g + 1 -> Q (st, k', g') w') ->
  wp (pattern_mkey_create page_size pd g k) Q w.
Proof.
  intros Hg [ctx Ek] Ho HQ. unfold pattern_mkey_create. apply wp_bind.
  assert (forall st g' w', st <> DPCP_OK -> g <= g' <= g + 1 ->
            own (ptr (pk_mkeys_arr k) KRaw ++ l) h w' -> Q (st, k, g') w') as Err.
  { intros. apply HQ; try done. unfold pattern_own, obj_own. by rewrite Ek. }
  eapply own_alloc; [exact Ho|intros w1 Ho1; apply wp_ret; apply Err; try done; lia|].
  intros p w1 Ho1. apply wp_next_cnt; [done|]. cbn beta iota.
  assert (forall st, st <> DPCP_OK ->
            wp (dealloc p;; ret (st, k, g + 1)) Q w1) as ErrD.
  { intros st Hst. apply wp_bind. eapply own_dealloc; [exact Ho1|]. intros w2 Ho2.
    apply wp_ret. apply Err; try done; lia. }
  destruct (pd =? 0); [by apply ErrD|].
  destruct (entries_writes _ _) as [r es]. destruct (is_ok r) eqn:Er; bool_hyps; cbn [negb];
    [|by apply ErrD].
  apply wp_bind. rewrite Ek. eapply own_mkey_send; [exact Ho1|].
  intros st o' i w2 Ho2 Hst. apply wp_bind.
  eapply (own_dealloc p KRaw (obj_own o' ++ ptr (pk_mkeys_arr k) KRaw ++ l)); [own_perm Ho2|].
  intros w3 Ho3. apply wp_ret. apply HQ; [|done|lia]. unfold pattern_own. simpl. own_perm Ho3.
Qed.

Lemma own_pattern_delete k l h Q w :
  own (pattern_own k ++ l) h w -> (forall w', own l h w' -> Q tt w') ->
  wp (pattern_mkey_delete k) Q w.
Proof.
  intros Ho HQ. unfold pattern_mkey_delete. apply wp_bind.
  eapply (own_aligned_free _ KRaw (obj_own (pk_obj k) ++ l)); [unfold pattern_own in Ho; own_perm Ho|].
  intros w1 Ho1. apply wp_bind. eapply own_obj_delete; [exact Ho1|].
  intros o' w2 _ Ho2. apply wp_ret. by apply HQ.
Qed.

(** Creating a pattern key runs without undefined behaviour for every list
    of building blocks and every answer of the device; on success the caller
    owns the key, its device object and its array of keys, and on failure the
    key, the array and the command mailbox are all given back. *)
Theorem create_pattern_mkey_safe ctx pd g a fl n bbs l h w :
  g <> 2 ^ 31 - 1 -> own l h w ->
  wp (create_pattern_mkey page_size ctx pd g a fl n bbs)
     (fun r w' => let '(st, q, g') := r in
        (st = DPCP_OK <-> q <> None) /\ g <= g' <= g + 1
        /\ match q with
           | Some (self, k) => own ((self, KMem) :: pattern_own k ++ l) h w'
                               /\ m_obj_handle (pk_obj k) <> None
           | None => own l h w'
           end) w.
Proof.
  intros Hg Ho. unfold create_pattern_mkey. apply wp_bind.
  eapply own_alloc; [exact Ho|intros w1 Ho1; apply wp_ret; split_and!; by try lia|].
  intros self w1 Ho1. apply wp_bind. unfold pattern_mkey_new. apply wp_bind.
  match goal with |- wp _ (fun a w' => wp (ret (@?k a)) (fun b w'' => wp (@?m b) ?Q w'') w') _ =>
    assert (forall arr w2, own (ptr arr KRaw ++ (self, KMem) :: l) h w2 -> wp (m (k arr)) Q w2) as Rest
  end.
  { intros arr w2 Ho2. apply wp_bind.
    eapply own_pattern_create; [done|by exists ctx|exact Ho2|].
    intros st k' g' w3 Ho3 Hst Hg'. destruct (is_ok st) eqn:Es; bool_hyps; cbn [negb].
    - apply wp_ret. split_and!; try done; try lia; [own_perm Ho3|by apply Hst].
    - apply wp_bind. eapply own_pattern_delete; [exact Ho3|]. intros w4 Ho4.
      apply wp_bind. eapply own_dealloc; [exact Ho4|]. intros w5 Ho5.
      apply wp_ret. by split_and!; try lia. }
  eapply own_alloc; [exact Ho1|intros w2 Ho2|intros p w2 Ho2].
  - apply wp_ret. by apply (Rest None).
  - apply wp_ret. by apply (Rest (Some p)).
Qed.
End direct_life.

Lemma create_direct_mkey_safe_witness :
  wp (create_direct_mkey 4096 (Some 1) 9 3 0 8192 100 0)
     (fun r w' => let '(st, q, g') := r in
        g' = 0 /\ (st = DPCP_OK <-> q <> None)
        /\ match q with
           | Some (self, k) => own ((self, KMem) :: []) ∅ w'
                               /\ exists x, dm_ibv_mem k = Some x /\ mr_calls 8192 100 (Some x) [] (calls w')
           | None => own [] ∅ w' /\ mr_calls 8192 100 None [] (calls w')
           end) sim_world.
Proof.
  apply (create_direct_mkey_safe 4096 (Some 1) 9 3 0 8192 100 0 [] ∅ sim_world).
  apply (own_nil sim_world), sim_world_fresh.
Defined.

Lemma create_pattern_mkey_safe_witness :
  wp (create_pattern_mkey 4096 (Some 1) 3 0 4096 0 8
        [mkBb (mkView (DPCP_OK, 5) (DPCP_OK, 8192) (DPCP_OK, 64) (DPCP_OK, 0)) 64 60])
     (fun r w' => let '(st, q, g') := r in
        (st = DPCP_OK <-> q <> None) /\ 0 <= g' <= 0 + 1
        /\ match q with
           | Some (self, k) => own ((self, KMem) :: pattern_own k ++ []) ∅ w'
                               /\ m_obj_handle (pk_obj k) <> None
           | None => own [] ∅ w'
           end) sim_world.
Proof.
  apply (create_pattern_mkey_safe 4096 (Some 1) 3 0 4096 0 8 _ [] ∅ sim_world); [lia|].
  apply (own_nil sim_world), sim_world_fresh.
Defined.

(** ** What a pattern key tells the device *)

(** Decide integer comparisons in the goal. *)
Ltac zdecide :=
  repeat match goal with
    | |- context [?a =? ?b] =>
        first [rewrite (proj2 (Z.eqb_eq a b)) by lia | rewrite (proj2 (Z.eqb_neq a b)) by lia]
    | |- context [?a <=? ?b] =>
        first [rewrite (proj2 (Z.leb_le a b)) by lia | rewrite (proj2 (Z.leb_gt a b)) by lia]
    end; cbn [andb orb].

Ltac unfold_hits :=
  unfold entry_writes, be16_first, be16_second, be32_store; cbn [seek seek64 hit1 hit64 app];
  unfold f_eqb, f_ok, f_disj, f_out; cbn [f_addr f_sh f_sz].

(** An entry does not touch what lies before or after it. *)
Lemma entry_miss f c st len id va :
  0 <= c -> f_addr f + 4 <= c \/ c + 16 <= f_addr f -> seek f (entry_writes c st len id va) = Miss.
Proof. intros Hc Hf. destruct f as [a sh sz]. simpl in Hf. unfold_hits. destruct Hf; by zdecide. Qed.

Lemma entry_miss64 a c st len id va :
  0 <= c -> a + 8 <= c \/ c + 16 <= a -> seek64 a (entry_writes c st len id va) = Miss.
Proof. intros Hc Hf. unfold_hits. destruct Hf; by zdecide. Qed.

(** A successful loop: every getter succeeded, and the statements are those of
    the first block and those of the rest. *)
Lemma entries_cons a b r ws :
  entries_writes a (b :: r) = (DPCP_OK, ws) ->
  exists id va ws', v_id (bb_key b) = (DPCP_OK, id) /\ v_address (bb_key b) = (DPCP_OK, va)
    /\ entries_writes (a + 16) r = (DPCP_OK, ws')
    /\ ws = entry_writes a (bb_stride_sz b) (bb_length b) id va ++ ws'.
Proof.
  simpl. destruct (v_id (bb_key b)) as [s1 id]. destruct (is_ok s1) eqn:E1; simpl;
    [|by intros [= -> _]].
  destruct (v_address (bb_key b)) as [s2 va]. destruct (is_ok s2) eqn:E2; simpl;
    [|by intros [= -> _]].
  bool_hyps. subst. unfold sizeof_repeat_ent. destruct (entries_writes (a + 16) r) as [s3 ws'].
  intros [= -> <-]. by exists id, va, ws'.
Qed.

Lemma entries_miss bbs : forall a ws f,
  0 <= a -> entries_writes a bbs = (DPCP_OK, ws) -> f_addr f + 4 <= a -> seek f ws = Miss.
Proof.
  induction bbs as [|b r IH]; intros a ws f Ha He Hf; [simpl in He; by simplify_eq|].
  apply entries_cons in He as (id & va & ws' & _ & _ & E & ->).
  rewrite seek_app, (IH (a + 16) ws' f) by (lia || done). apply entry_miss; [lia|by left].
Qed.

Lemma entries_miss64 bbs : forall a ws c,
  0 <= a -> entries_writes a bbs = (DPCP_OK, ws) -> c + 8 <= a -> seek64 c ws = Miss.
Proof.
  induction bbs as [|b r IH]; intros a ws c Ha He Hf; [simpl in He; by simplify_eq|].
  apply entries_cons in He as (id & va & ws' & _ & _ & E & ->).
  rewrite seek64_app, (IH (a + 16) ws' c) by (lia || done). apply entry_miss64; [lia|by left].
Qed.

(** The four fields of entry [i]. *)
Lemma entries_hit bbs : forall a ws i b,
  0 <= a -> entries_writes a bbs = (DPCP_OK, ws) -> bbs !! i = Some b ->
  let c := a + 16 * Z.of_nat i in
  exists id va, v_id (bb_key b) = (DPCP_OK, id) /\ v_address (bb_key b) = (DPCP_OK, va)
    /\ seek (mkField c 16 16) ws = Val (bb_stride_sz b)
    /\ seek (mkField c 0 16) ws = Val (bb_length b)
    /\ seek (mkField (c + 4) 0 32) ws = Val id
    /\ seek64 (c + 8) ws = Val va.
Proof.
  induction bbs as [|b0 r IH]; intros a ws i b Ha He Hi c; [by destruct i|].
  apply entries_cons in He as (id & va & ws' & Hid & Hva & E & ->).
  destruct i as [|i]; simpl in Hi.
  - simplify_eq. replace c with a by (unfold c; lia). exists id, va.
    rewrite !seek_app, !seek64_app.
    rewrite !(entries_miss r (a + 16) ws') by (simpl; lia || done).
    rewrite (entries_miss64 r (a + 16) ws') by (lia || done).
    split_and!; try done; unfold_hits; by zdecide.
  - destruct (IH (a + 16) ws' i b) as (id' & va' & H1 & H2 & H3 & H4 & H5 & H6); [lia|done|done|].
    replace (a + 16 + 16 * Z.of_nat i) with c in * by (unfold c; lia).
    exists id', va'. rewrite !seek_app, !seek64_app, H3, H4, H5, H6. by split_and!.
Qed.

Lemma align32_ge n : 0 <= n -> n + 3 < 2 ^ 32 -> n <= align32 n 4 <= n + 3.
Proof.
  intros Hn Hb. unfold align32. rewrite (wrap_small 32) by lia.
  change (4 - 1) with (Z.ones 2). rewrite (land_high_mask 32 2) by lia.
  pose proof (Z.mod_pos_bound (n + 4 - 1) (2 ^ 2)). change (2 ^ 2) with 4 in *. lia.
Qed.

Lemma pattern_inlen_ge n :
  0 <= n < 2 ^ 16 -> p_repbls + sizeof_repeat_block + 16 * n + 16 <= pattern_inlen n.
Proof.
  intros Hn. unfold pattern_inlen. rewrite (wrap_small 32 (n + 1)) by lia.
  pose proof (align32_ge (n + 1) ltac:(lia) ltac:(lia)) as Ha.
  set (z := align32 (n + 1) 4) in *. unfold sizeof_repeat_block, sizeof_repeat_ent.
  rewrite wrap_small by lia. change (size_of ifc.create_mkey_in / 32) with 68.
  change p_repbls with 272. Z.div_mod_to_equations. lia.
Qed.

(** The command of a pattern key describes every building block: entry [i]
    of the repeated block carries the key, address, length and stride of block
    [i] (the last two truncated to 16 bits), for any number of blocks below
    2^16, and the mailbox is large enough for all entries. *)
Theorem pattern_mkey_in_entries page_size k pd cnt ws i b :
  Z.of_nat (length (pk_bbs k)) < 2 ^ 16 ->
  entries_writes (p_repbls + sizeof_repeat_block) (pk_bbs k) = (DPCP_OK, ws) ->
  pk_bbs k !! i = Some b ->
  let m := pattern_mkey_in page_size k pd cnt ws in
  let c := p_repbls + sizeof_repeat_block + 16 * Z.of_nat i in
  get_field (mkField c 16 16) m = wrap 16 (bb_stride_sz b)
  /\ get_field (mkField c 0 16) m = wrap 16 (bb_length b)
  /\ get_field (mkField (c + 4) 0 32) m = wrap 32 (snd (v_id (bb_key b)))
  /\ be64_to_cpu m (c + 8) = wrap 64 (snd (v_address (bb_key b)))
  /\ c + 16 <= Z.of_nat (length m).
Proof.
  intros Hn He Hi m c. pose proof (lookup_lt_Some _ _ _ Hi) as Hlt.
  assert (0 <= p_repbls + sizeof_repeat_block) as Hb by (by vm_compute).
  destruct (entries_hit _ _ _ i b Hb He Hi) as (id & va & Hid & Hva & S1 & S2 & S3 & S4).
  fold c in S1, S2, S3, S4. rewrite Hid, Hva. cbn [snd].
  pose proof (pattern_inlen_ge (Z.of_nat (length (pk_bbs k))) ltac:(lia)) as Hlen.
  assert (Z.of_nat (length m) = pattern_inlen (Z.of_nat (length (pk_bbs k)))) as Hl.
  { unfold m, pattern_mkey_in. rewrite length_exec, length_zeros; [done|].
    change p_repbls with 272 in Hlen. unfold sizeof_repeat_block in Hlen. lia. }
  assert (c + 16 <= Z.of_nat (length m)) as Hc by (unfold c; lia).
  assert (288 <= c) as Hc0 by (unfold c; change (p_repbls + sizeof_repeat_block) with 288; lia).
  clearbody c. clear Hlen Hb.
  assert (forall f v, f_ok f = true -> c <= f_addr f -> f_addr f + 4 <= c + 16 -> seek f ws = Val v ->
            get_field f m = v mod 2 ^ f_sz f) as G.
  { intros f v Hok H1 H2 Hs. unfold m, pattern_mkey_in.
    set (z := zeros _). set (all := _ ++ _).
    pose proof (get_exec f all z) as X. rewrite <- (length_exec all z) in X.
    change (exec all z) with m in X. specialize (X ltac:(unfold f_in; rewrite Hok; simpl; lia)).
    unfold all in X. rewrite !seek_app in X.
    assert (seek f [DEVX_SET ifc.create_mkey_in 0 ["opcode"] MLX5_CMD_OP_CREATE_MKEY] = Miss) as Hop.
    { unfold DEVX_SET. norm_fld. destruct f as [a sh sz]. cbn [f_addr] in *. unfold_hits. by zdecide. }
    rewrite Hop, Hs in X. exact X. }
  split_and!; [apply (G (mkField c 16 16))|apply (G (mkField c 0 16))|apply (G (mkField (c + 4) 0 32))| |done];
    try done; try (cbn [f_addr]; lia);
    try (unfold f_ok; cbn [f_addr f_sh f_sz]; by zdecide).
  unfold m, pattern_mkey_in. set (z := zeros _). set (all := _ ++ _).
  pose proof (get64_exec (c + 8) all z ltac:(lia)) as X.
  rewrite <- (length_exec all z) in X. change (exec all z) with m in X.
  specialize (X ltac:(lia)). unfold all in X. rewrite !seek64_app in X.
  assert (seek64 (c + 8) [DEVX_SET ifc.create_mkey_in 0 ["opcode"] MLX5_CMD_OP_CREATE_MKEY] = Miss) as Hop.
  { unfold DEVX_SET. norm_fld. unfold_hits. by zdecide. }
  rewrite Hop, S4 in X. exact X.
Qed.

Definition sample_key (i : Z) : mkey_view :=
  mkView (DPCP_OK, i) (DPCP_OK, 4096 * i) (DPCP_OK, 4096) (DPCP_OK, 0).
Definition sample_pattern : pattern_mkey :=
  mkPattern (obj_new (Some 1)) [mkBb (sample_key 3) 64 60; mkBb (sample_key 5) 128 100] (Some 9)
    4096 160 8 0 0.

Lemma pattern_mkey_in_entries_witness :
  let ws := snd (entries_writes (p_repbls + sizeof_repeat_block) (pk_bbs sample_pattern)) in
  let m := pattern_mkey_in 4096 sample_pattern 3 1 ws in
  get_field (mkField (p_repbls + sizeof_repeat_block + 16 * 1 + 4) 0 32) m = wrap 32 5.
Proof.
  intros ws m.
  destruct (pattern_mkey_in_entries 4096 sample_pattern 3 1 ws 1 (mkBb (sample_key 5) 128 100))
    as (_ & _ & R & _); [vm_compute; reflexivity | vm_compute; reflexivity | reflexivity | exact R].
Defined.

(** ** The counter under concurrency

    A call of the loop
    [int c = g.load(); while (!g.compare_exchange_strong(c, c + 1) && c < g);]
    is in one of five places; a failed exchange loads the current value into
    [c].  The counter is an [int]: on its last value [c + 1] overflows. *)
Inductive cas_pc : Type :=
| AtLoad                       (* before the load *)
| AtCas (c : Z)                (* before the exchange *)
| AtTest (c : Z)               (* the exchange failed; before the comparison *)
| Won (c : Z)                  (* left the loop after a successful exchange *)
| Lost (c : Z)                 (* left the loop because the comparison failed *)
| Overflown.                   (* computed [c + 1] for the last value *)

(** One step of one caller on the shared counter. *)
Inductive cas_step (g : Z) : cas_pc -> cas_pc -> Z -> Prop :=
| step_load : cas_step g AtLoad (AtCas g) g
| step_overflow : cas_step g (AtCas (2 ^ 31 - 1)) Overflown g
| step_cas_ok c : c <> 2 ^ 31 - 1 -> c = g -> cas_step g (AtCas c) (Won c) (g + 1)
| step_cas_fail c : c <> 2 ^ 31 - 1 -> c <> g -> cas_step g (AtCas c) (AtTest g) g
| step_test_again c : c < g -> cas_step g (AtTest c) (AtCas c) g
| step_test_exit c : g <= c -> cas_step g (AtTest c) (Lost c) g.

(** The callers of a process, interleaved; with [resets], also the store of
    [init_mkeys], which [provider::get_instance] makes. *)
Inductive cas_run (resets : bool) : Z * list cas_pc -> Z * list cas_pc -> Prop :=
| run_refl s : cas_run resets s s
| run_step g ps i p p' g' s :
    ps !! i = Some p -> cas_step g p p' g' -> cas_run resets (g', <[i := p']> ps) s -> cas_run resets (g, ps) s
| run_reset g ps s : resets = true -> cas_run resets (0, ps) s -> cas_run resets (g, ps) s.

Definition is_won (p : cas_pc) : option Z := match p with Won c => Some c | _ => None end.

(** Every winner took a value below the counter, and no two took the same. *)
Definition cas_inv (s : Z * list cas_pc) : Prop :=
  (forall i c, s.2 !! i = Some (Won c) -> c < s.1)
  /\ forall i j c, s.2 !! i = Some (Won c) -> s.2 !! j = Some (Won c) -> i = j.

Lemma lookup_update (ps : list cas_pc) i p j q :
  <[i := p]> ps !! j = Some q -> (j = i /\ q = p) \/ (j <> i /\ ps !! j = Some q).
Proof.
  destruct (decide (j = i)) as [->|Hj].
  - intros Hl. assert (i < length ps)%nat as Hlt.
    { apply lookup_lt_Some in Hl. by rewrite length_insert in Hl. }
    rewrite list_lookup_insert_eq in Hl by done. left. by simplify_eq.
  - rewrite list_lookup_insert_ne by done. by right.
Qed.

Lemma cas_step_inv g ps i p p' g' :
  ps !! i = Some p -> cas_step g p p' g' -> cas_inv (g, ps) -> cas_inv (g', <[i := p']> ps).
Proof.
  intros Hi Hs [H1 H2]. unfold cas_inv. simpl in *. inversion Hs; subst; split; intros;
    repeat match goal with
      | H : <[_ := _]> _ !! _ = Some _ |- _ => apply lookup_update in H as [[? ?]|[? ?]]
      end; simplify_eq; try done; try (by eapply H1); try (by eapply H2).
  - lia.
  - pose proof (H1 _ _ ltac:(eassumption)). lia.
  - pose proof (H1 _ _ ltac:(eassumption)). lia.
  - pose proof (H1 _ _ ltac:(eassumption)). lia.
Qed.

Lemma cas_run_inv s s' : cas_run false s s' -> cas_inv s -> cas_inv s'.
Proof.
  induction 1 as [|g ps i p p' g' s Hi Hs Hr IH|]; [done| |done]. intros Hv. apply IH.
  by eapply cas_step_inv.
Qed.

(** Callers that leave the loop through a successful exchange have pairwise
    different values, for any number of threads and any interleaving, as long as
    the counter is not set back. *)
Theorem cas_winners_distinct g n s :
  cas_run false (g, replicate n AtLoad) s ->
  forall i j c, s.2 !! i = Some (Won c) -> s.2 !! j = Some (Won c) -> i = j.
Proof.
  intros Hr. apply (cas_run_inv _ _ Hr). split; simpl; intros ? ? Hl.
  - by apply lookup_replicate_1 in Hl as [? _].
  - intros ? Hl'. by apply lookup_replicate_1 in Hl' as [? _].
Qed.

(** But the value of a call is not unique: a caller whose exchange failed leaves
    the loop with the current counter without incrementing it, and the next caller
    takes the same value. *)
Theorem cas_duplicate :
  cas_run false (0, [AtLoad; AtLoad; AtLoad]) (2, [Lost 1; Won 0; Won 1]).
Proof.
  eapply (run_step _ _ _ 0 _ (AtCas 0)); [done|constructor|].
  eapply (run_step _ _ _ 1 _ (AtCas 0)); [done|constructor|].
  eapply (run_step _ _ _ 1 _ (Won 0)); [done|by constructor|].
  eapply (run_step _ _ _ 0 _ (AtTest 1)); [done|by constructor|].
  eapply (run_step _ _ _ 0 _ (Lost 1)); [done|by constructor|].
  eapply (run_step _ _ _ 2 _ (AtCas 1)); [done|constructor|].
  eapply (run_step _ _ _ 2 _ (Won 1)); [done|by constructor|].
  apply run_refl.
Qed.

(** A second [get_instance] sets the counter back while keys are in use. *)
Theorem cas_duplicate_reset : cas_run true (0, [AtLoad; AtLoad]) (1, [Won 0; Won 0]).
Proof.
  eapply (run_step _ _ _ 0 _ (AtCas 0)); [done|constructor|].
  eapply (run_step _ _ _ 0 _ (Won 0)); [done|by constructor|].
  apply run_reset; [done|].
  eapply (run_step _ _ _ 1 _ (AtCas 0)); [done|constructor|].
  eapply (run_step _ _ _ 1 _ (Won 0)); [done|by constructor|].
  apply run_refl.
Qed.

Lemma cas_winners_distinct_witness :
  cas_run false (0, replicate 2 AtLoad) (2, [Won 1; Won 0])
  /\ (forall i j c, [Won 1; Won 0] !! i = Some (Won c) -> [Won 1; Won 0] !! j = Some (Won c) -> i = j).
Proof.
  assert (cas_run false (0, replicate 2 AtLoad) (2, [Won 1; Won 0])) as Hr.
  { eapply (run_step _ _ _ 1 _ (AtCas 0)); [reflexivity | apply step_load |].
    eapply (run_step _ _ _ 1 _ (Won 0)); [reflexivity | apply step_cas_ok; [discriminate | reflexivity] |].
    eapply (run_step _ _ _ 0 _ (AtCas 1)); [reflexivity | apply step_load |].
    eapply (run_step _ _ _ 0 _ (Won 1)); [reflexivity | apply step_cas_ok; [discriminate | reflexivity] |].
    apply run_refl. }
  split; [exact Hr|]. exact (cas_winners_distinct 0 2 (2, [Won 1; Won 0]) Hr).
Defined.
