(* ===== verification/Tir.v ===== *)
(** * Transport interface receive and send objects
      (src/src/dpcp/tir.cpp, src/src/dpcp/tis.cpp)

    A [tir] keeps a copy of its attributes beside the hardware object: the first
    [query] reads them from the device, later ones answer from the copy and
    [modify] updates it.  What the code relies on of the device is the class
    [TirDevice]; the theorems show that under it the copy always agrees with the
    device. *)

From S2P Require Import Prelude Codec Prm Dcmd Own Sim Obj.
Open Scope string_scope.
Open Scope list_scope.
Open Scope Z_scope.
Open Scope m_scope.

Definition TIR_ATTR_LRO : Z := Z.shiftl 1 1.
Definition TIR_ATTR_INLINE_RQN : Z := Z.shiftl 1 2.
Definition TIR_ATTR_TRANSPORT_DOMAIN : Z := Z.shiftl 1 3.
Definition TIR_ATTR_TLS : Z := Z.shiftl 1 4.
Definition TIR_ATTR_NVMEOTCP_ZERO_COPY : Z := Z.shiftl 1 5.
Definition TIR_ATTR_NVMEOTCP_CRC : Z := Z.shiftl 1 6.

(** [tir::attr] *)
Record tir_attr := mkTirAttr {
  ta_flags : Z;
  timeout_period_usecs : Z;
  enable_mask : Z;
  max_msg_sz : Z;
  ta_inline_rqn : Z;
  ta_transport_domain : Z;
  ta_tls_en : Z;
  zerocopy_en : Z;
  crc_en : Z;
  tag_buffer_table_id : Z
}.

Definition tir_attr_zero : tir_attr := mkTirAttr 0 0 0 0 0 0 0 0 0 0.

(** The widths of the bit-fields of [tir::attr]. *)
Definition tir_attr_wf (a : tir_attr) : Prop :=
  (0 <= timeout_period_usecs a < 2 ^ 16) /\ (0 <= enable_mask a < 2 ^ 4) /\ (0 <= max_msg_sz a < 2 ^ 8)
  /\ (0 <= ta_inline_rqn a < 2 ^ 24) /\ (0 <= ta_transport_domain a < 2 ^ 24)
  /\ (0 <= ta_tls_en a < 2 ^ 1) /\ (0 <= zerocopy_en a < 2 ^ 1) /\ (0 <= crc_en a < 2 ^ 1)
  /\ 0 <= tag_buffer_table_id a < 2 ^ 32.

Record tir := mkTir { t_obj : obj; t_attr : tir_attr; t_tirn : Z }.

Definition tir_new (ctx : option Z) : tir := mkTir (obj_new ctx) tir_attr_zero 0.

(** ** Commands *)

(** The statements under [flags & TIR_ATTR_LRO], at the context [p]. *)
Definition lro_writes (p : Z) (a : tir_attr) : list write :=
  [DEVX_SET ifc.tirc p ["lro_timeout_period_usecs"] (timeout_period_usecs a);
   DEVX_SET ifc.tirc p ["lro_enable_mask"] (enable_mask a);
   DEVX_SET ifc.tirc p ["lro_max_ip_payload_size"] (max_msg_sz a)].

Definition tir_create_in (a : tir_attr) : list Z :=
  let p := ADDR_OF ifc.create_tir_in 0 ["tir_context"] in
  mailbox ifc.create_tir_in
    ([DEVX_SET ifc.create_tir_in 0 ["opcode"] MLX5_CMD_OP_CREATE_TIR]
     ++ only (has_flag (ta_flags a) TIR_ATTR_LRO) (lro_writes p a)
     ++ only (has_flag (ta_flags a) TIR_ATTR_TLS)
          [DEVX_SET ifc.tirc p ["self_lb_block"] 3;
           DEVX_SET ifc.tirc p ["tls_en"] (ta_tls_en a)]
     ++ only (has_flag (ta_flags a) TIR_ATTR_INLINE_RQN)
          [DEVX_SET ifc.tirc p ["inline_rqn"] (ta_inline_rqn a)]
     ++ only (has_flag (ta_flags a) TIR_ATTR_TRANSPORT_DOMAIN)
          [DEVX_SET ifc.tirc p ["transport_domain"] (ta_transport_domain a)]
     ++ only (has_flag (ta_flags a) TIR_ATTR_NVMEOTCP_ZERO_COPY)
          [DEVX_SET ifc.tirc p ["self_lb_block"] 3;
           DEVX_SET ifc.tirc p ["nvmeotcp_zerocopy_en"] (zerocopy_en a);
           DEVX_SET ifc.tirc p ["nvmeotcp_tag_buffer_table_id"] (tag_buffer_table_id a)]
     ++ only (has_flag (ta_flags a) TIR_ATTR_NVMEOTCP_CRC)
          [DEVX_SET ifc.tirc p ["self_lb_block"] 3;
           DEVX_SET ifc.tirc p ["nvmeotcp_crc_en"] (crc_en a)]).

Definition tir_modify_in (tirn : Z) (a : tir_attr) : list Z :=
  let p := ADDR_OF ifc.modify_tir_in 0 ["tir_context"] in
  mailbox ifc.modify_tir_in
    ([DEVX_SET ifc.modify_tir_in 0 ["opcode"] MLX5_CMD_OP_MODIFY_TIR;
      DEVX_SET ifc.modify_tir_in 0 ["tirn"] tirn]
     ++ only (has_flag (ta_flags a) TIR_ATTR_LRO)
          (DEVX_SET ifc.modify_tir_in 0 ["bitmask"; "lro"] 1 :: lro_writes p a)).

Definition tir_query_in (tirn : Z) : list Z :=
  mailbox ifc.query_tir_in
    [DEVX_SET ifc.query_tir_in 0 ["opcode"] MLX5_CMD_OP_QUERY_TIR;
     DEVX_SET ifc.query_tir_in 0 ["tirn"] tirn].

(** The flags of a copy read from the device. *)
Definition ALL_TIR_ATTRS : Z :=
  Z.lor (Z.lor (Z.lor (Z.lor (Z.lor TIR_ATTR_LRO TIR_ATTR_TLS) TIR_ATTR_INLINE_RQN)
                      TIR_ATTR_TRANSPORT_DOMAIN) TIR_ATTR_NVMEOTCP_ZERO_COPY) TIR_ATTR_NVMEOTCP_CRC.

(** The attributes of a context, given its members. *)
Definition tir_decode (get : list step -> Z) : tir_attr :=
  mkTirAttr ALL_TIR_ATTRS (get ["lro_timeout_period_usecs"]) (get ["lro_enable_mask"])
    (get ["lro_max_ip_payload_size"]) (get ["inline_rqn"]) (get ["transport_domain"]) (get ["tls_en"])
    (get ["nvmeotcp_zerocopy_en"]) (get ["nvmeotcp_crc_en"]) (get ["nvmeotcp_tag_buffer_table_id"]).

Arguments tir_create_in : simpl never.
Arguments tir_modify_in : simpl never.
Arguments tir_query_in : simpl never.
Arguments tir_decode : simpl never.

Section tir_ops.
Context {D : Type} `{DevX D}.

(** [tir::query].  [self] says that the caller's structure is [m_attr] itself,
    which the function then clears with it; the attributes are those left in
    that structure.  [m_attr.flags] is zero where it is or-ed to. *)
Definition tir_query (self : bool) (t : tir) : M D (status * tir * option tir_attr) :=
  '(st, _) <- obj_get_handle (t_obj t);;
  if negb (is_ok st) then ret (DPCP_ERR_INVALID_PARAM, t, None)
  else if negb (ta_flags (t_attr t) =? 0) then ret (DPCP_OK, t, Some (t_attr t))
  else
    let t := if self then mkTir (t_obj t) tir_attr_zero (t_tirn t) else t in
    '(r, o, out) <- obj_query (t_obj t) (Some (tir_query_in (t_tirn t)))
                              (Some (zeros (ST_SZ_BYTES ifc.query_tir_out)));;
    let t := mkTir o (t_attr t) (t_tirn t) in
    if negb (is_ok r) then ret (r, t, Some tir_attr_zero)
    else
      let p := ADDR_OF ifc.query_tir_out 0 ["tir_context"] in
      let a := tir_decode (fun f => DEVX_GET ifc.tirc p f out) in
      ret (DPCP_OK, mkTir o a (t_tirn t), Some a).

(** [tir::create] *)
Definition tir_create (t : tir) (a : tir_attr) : M D (status * tir) :=
  '(st, _) <- obj_get_handle (t_obj t);;
  if is_ok st then ret (DPCP_ERR_INVALID_PARAM, t)
  else
    '(r, o, _) <- obj_create (t_obj t) (Some (tir_create_in a))
                             (Some (zeros (ST_SZ_BYTES ifc.create_tir_out)));;
    let t := mkTir o (t_attr t) (t_tirn t) in
    if negb (is_ok r) then ret (r, t)
    else
      let '(r, id) := obj_get_id o in
      if negb (is_ok r) then ret (r, t)
      else
        '(r, t, _) <- tir_query true (mkTir o (t_attr t) id);;
        ret (r, t).

(** [m_attr.lro = tir_attr.lro] *)
Definition with_lro (a b : tir_attr) : tir_attr :=
  mkTirAttr (ta_flags a) (timeout_period_usecs b) (enable_mask b) (max_msg_sz b)
    (ta_inline_rqn a) (ta_transport_domain a) (ta_tls_en a) (zerocopy_en a) (crc_en a)
    (tag_buffer_table_id a).

(** [tir::modify] *)
Definition tir_modify (t : tir) (a : tir_attr) : M D (status * tir) :=
  '(st, _) <- obj_get_handle (t_obj t);;
  if negb (is_ok st) then ret (DPCP_ERR_INVALID_PARAM, t)
  else
    '(r, o, _) <- obj_modify (t_obj t) (Some (tir_modify_in (t_tirn t) a))
                             (Some (zeros (ST_SZ_BYTES ifc.modify_tir_out)));;
    ret (r, mkTir o (if is_ok r && has_flag (ta_flags a) TIR_ATTR_LRO
                     then with_lro (t_attr t) a else t_attr t) (t_tirn t)).

(** [adapter::create_tir]; [delete] of a [tir] runs [~obj]. *)
Definition create_tir (ctx : option Z) (a : tir_attr) : M D (status * option (Z * tir)) :=
  self <- alloc BMem;;
  match self with
  | None => ret (DPCP_ERR_NO_MEMORY, None)
  | Some self =>
      '(r, t) <- tir_create (tir_new ctx) a;;
      if negb (is_ok r) then _ <- obj_delete (t_obj t);; dealloc self;; ret (DPCP_ERR_CREATE, None)
      else ret (DPCP_OK, Some (self, t))
  end.
End tir_ops.

(** ** What the code relies on *)

(** The members of a context that the code sets and reads. *)
Definition tir_member (f : list step) : bool :=
  match f with
  | [F n] => existsb (String.eqb n)
               ["lro_timeout_period_usecs"; "lro_enable_mask"; "lro_max_ip_payload_size"; "inline_rqn";
                "transport_domain"; "tls_en"; "nvmeotcp_zerocopy_en"; "nvmeotcp_crc_en";
                "nvmeotcp_tag_buffer_table_id"]
  | _ => false
  end.

(** The members that the [lro] bit of the modify mask selects. *)
Definition lro_member (f : list step) : bool :=
  match f with
  | [F n] => String.eqb n "lro_timeout_period_usecs" || String.eqb n "lro_enable_mask"
             || String.eqb n "lro_max_ip_payload_size"
  | _ => false
  end.

Definition cmd_ok (r : Z) (out : list Z) : bool := (r =? 0) && (out_status out =? 0).

(** A device keeps a context and a number for each object: CREATE_TIR stores the
    context of the command, QUERY_TIR with the right number returns it and
    changes nothing, MODIFY_TIR with the right number replaces the members its
    mask selects, and a command that failed has no effect. *)
Class TirDevice (D : Type) `{DevX D} := {
  tir_field : Z -> list step -> D -> Z;
  tir_num : Z -> D -> Z;
  tir_create_law ctx i o d h o' d' :
    mlx5dv_devx_obj_create ctx i o d = (Some h, o', d') -> out_status o' = 0 ->
    DEVX_GET ifc.create_tir_in 0 ["opcode"] i = MLX5_CMD_OP_CREATE_TIR ->
    tir_num h d' = out_id o'
    /\ forall f, tir_member f = true -> 
       tir_field h f d' = DEVX_GET ifc.tirc (ADDR_OF ifc.create_tir_in 0 ["tir_context"]) f i;
  tir_modify_law h i o d r o' d' :
    mlx5dv_devx_obj_modify h i o d = (r, o', d') ->
    DEVX_GET ifc.modify_tir_in 0 ["opcode"] i = MLX5_CMD_OP_MODIFY_TIR ->
    DEVX_GET ifc.modify_tir_in 0 ["tirn"] i = wrap 24 (tir_num h d) ->
    tir_num h d' = tir_num h d
    /\ forall f, tir_member f = true ->
       tir_field h f d' =
         if cmd_ok r o' && (DEVX_GET ifc.modify_tir_in 0 ["bitmask"; "lro"] i =? 1) && lro_member f
         then DEVX_GET ifc.tirc (ADDR_OF ifc.modify_tir_in 0 ["tir_context"]) f i
         else tir_field h f d;
  tir_query_law h i o d r o' d' :
    mlx5dv_devx_obj_query h i o d = (r, o', d') ->
    DEVX_GET ifc.query_tir_in 0 ["opcode"] i = MLX5_CMD_OP_QUERY_TIR ->
    DEVX_GET ifc.query_tir_in 0 ["tirn"] i = wrap 24 (tir_num h d) ->
    Z.of_nat (length o) = ST_SZ_BYTES ifc.query_tir_out ->
    tir_num h d' = tir_num h d
    /\ (forall f, tir_field h f d' = tir_field h f d)
    /\ (cmd_ok r o' = true -> forall f, tir_member f = true ->
        DEVX_GET ifc.tirc (ADDR_OF ifc.query_tir_out 0 ["tir_context"]) f o' = tir_field h f d)
}.

(** ** The copy agrees with the device *)

Section coherence.
Context {D : Type} `{TirDevice D}.
Implicit Types (w : world D).

Definition tir_live (t : tir) (h : Z) w : Prop :=
  m_ctx (t_obj t) <> None /\ t_tirn t = tir_num h (dev w)
  /\ exists p, m_obj_handle (t_obj t) = Some p /\ heap w !! p = Some (BObj (Some h)).

(** The abstract value of a receive object: the attributes of its context. *)
Definition tir_abs (h : Z) (d : D) : tir_attr := tir_decode (fun f => tir_field h f d).

Definition coherent (t : tir) (h : Z) w : Prop := tir_live t h w /\ t_attr t = tir_abs h (dev w).

Lemma tir_decode_ext g g' :
  (forall f, tir_member f = true -> g f = g' f) -> tir_decode g = tir_decode g'.
Proof. intros Hg. unfold tir_decode. by rewrite !Hg by (vm_compute; reflexivity). Qed.

Lemma tir_abs_ext h d d' :
  (forall f, tir_member f = true -> tir_field h f d' = tir_field h f d) ->
  tir_abs h d' = tir_abs h d.
Proof. apply tir_decode_ext. Qed.

Lemma tir_handle_live t h w Q :
  tir_live t h w -> Q (DPCP_OK, h) w -> wp (obj_get_handle (t_obj t)) Q w.
Proof.
  intros (_ & _ & p & Hp & Hb) HQ. unfold obj_get_handle. rewrite Hp.
  apply wp_bind. by eapply wp_load.
Qed.

Lemma tir_query_numbers n : 
  DEVX_GET ifc.query_tir_in 0 ["opcode"] (tir_query_in n) = MLX5_CMD_OP_QUERY_TIR
  /\ DEVX_GET ifc.query_tir_in 0 ["tirn"] (tir_query_in n) = wrap 24 n.
Proof. split; unfold tir_query_in; mbox; reflexivity. Qed.

(** A query of a live object reads the device, unless the copy is there. *)
Lemma wp_tir_query self t h w Q :
  tir_live t h w -> (ta_flags (t_attr t) = 0 \/ t_attr t = tir_abs h (dev w)) ->
  (forall st t' a w', tir_live t' h w' -> tir_abs h (dev w') = tir_abs h (dev w) ->
     (st = DPCP_OK -> t_attr t' = tir_abs h (dev w) /\ a = Some (tir_abs h (dev w))) ->
     (ta_flags (t_attr t) <> 0 -> st = DPCP_OK /\ w' = w) ->
     heap w' = heap w -> next w' = next w -> obj_own (t_obj t') = obj_own (t_obj t) ->
     Q (st, t', a) w') ->
  wp (tir_query self t) Q w.
Proof.
  intros Hl Ha HQ. unfold tir_query. apply wp_bind. eapply tir_handle_live; [exact Hl|].
  cbn [is_ok negb]. destruct (ta_flags (t_attr t) =? 0) eqn:Ef; bool_hyps; cbn [negb].
  2:{ destruct Ha as [|Ha]; [done|]. apply wp_ret. apply HQ; try done.
      by rewrite <- Ha. }
  cbv zeta. replace (if self then mkTir (t_obj t) tir_attr_zero (t_tirn t) else t)
    with (mkTir (t_obj t) (if self then tir_attr_zero else t_attr t) (t_tirn t)) by (by destruct self, t).
  destruct Hl as (Hc & Hn & p & Hp & Hb). destruct (tir_query_numbers (t_tirn t)) as [E1 E2].
  cbn [t_obj t_attr t_tirn]. unfold wp, bind. rewrite (obj_query_run _ _ _ p h w) by done.
  destruct (mlx5dv_devx_obj_query _ _ _ _) as [[r out] d'] eqn:Eq.
  destruct (tir_query_law _ _ _ _ _ _ _ Eq E1) as (L1 & L2 & L3); [by rewrite E2, Hn|done|].
  assert (tir_abs h d' = tir_abs h (dev w)) as Habs by (apply tir_abs_ext; auto).
  fold (cmd_ok r out). destruct (cmd_ok r out) eqn:Ec; cbn [is_ok negb ret].
  - specialize (L3 eq_refl). rewrite (tir_decode_ext _ (fun f => tir_field h f (dev w)) L3).
    apply HQ; try done. split_and!; [done|cbn; congruence|by exists p].
  - apply HQ; try done. split_and!; [done|cbn; congruence|by exists p].
Qed.

(** The attributes asked for: those flagged, zero elsewhere. *)
Definition tir_requested (a : tir_attr) : tir_attr :=
  let on f v := if has_flag (ta_flags a) f then v else 0 in
  mkTirAttr ALL_TIR_ATTRS
    (on TIR_ATTR_LRO (timeout_period_usecs a)) (on TIR_ATTR_LRO (enable_mask a))
    (on TIR_ATTR_LRO (max_msg_sz a)) (on TIR_ATTR_INLINE_RQN (ta_inline_rqn a))
    (on TIR_ATTR_TRANSPORT_DOMAIN (ta_transport_domain a)) (on TIR_ATTR_TLS (ta_tls_en a))
    (on TIR_ATTR_NVMEOTCP_ZERO_COPY (zerocopy_en a)) (on TIR_ATTR_NVMEOTCP_CRC (crc_en a))
    (on TIR_ATTR_NVMEOTCP_ZERO_COPY (tag_buffer_table_id a)).

Lemma tir_create_in_decodes a :
  tir_attr_wf a ->
  DEVX_GET ifc.create_tir_in 0 ["opcode"] (tir_create_in a) = MLX5_CMD_OP_CREATE_TIR
  /\ tir_decode (fun f => DEVX_GET ifc.tirc (ADDR_OF ifc.create_tir_in 0 ["tir_context"]) f
                                  (tir_create_in a)) = tir_requested a.
Proof.
  intros (?&?&?&?&?&?&?&?&?). unfold tir_create_in, tir_requested, tir_decode. cbv zeta.
  generalize (has_flag (ta_flags a) TIR_ATTR_LRO) (has_flag (ta_flags a) TIR_ATTR_TLS)
    (has_flag (ta_flags a) TIR_ATTR_INLINE_RQN) (has_flag (ta_flags a) TIR_ATTR_TRANSPORT_DOMAIN)
    (has_flag (ta_flags a) TIR_ATTR_NVMEOTCP_ZERO_COPY) (has_flag (ta_flags a) TIR_ATTR_NVMEOTCP_CRC).
  intros f1 f2 f3 f4 f5 f6. unfold lro_writes.
  split; [mbox; by destruct f1, f2, f3, f4, f5, f6|].
  f_equal; mbox; destruct f1, f2, f3, f4, f5, f6;
    first [reflexivity | symmetry; by apply Z.mod_small].
Qed.

Lemma tir_modify_in_fields n a :
  DEVX_GET ifc.modify_tir_in 0 ["opcode"] (tir_modify_in n a) = MLX5_CMD_OP_MODIFY_TIR
  /\ DEVX_GET ifc.modify_tir_in 0 ["tirn"] (tir_modify_in n a) = wrap 24 n
  /\ DEVX_GET ifc.modify_tir_in 0 ["bitmask"; "lro"] (tir_modify_in n a)
     = Z.b2z (has_flag (ta_flags a) TIR_ATTR_LRO).
Proof.
  unfold tir_modify_in, lro_writes. cbv zeta.
  generalize (has_flag (ta_flags a) TIR_ATTR_LRO). intros b.
  split_and!; mbox; by destruct b.
Qed.

Lemma tir_modify_in_lro n a :
  tir_attr_wf a -> has_flag (ta_flags a) TIR_ATTR_LRO = true ->
  let p := ADDR_OF ifc.modify_tir_in 0 ["tir_context"] in
  DEVX_GET ifc.tirc p ["lro_timeout_period_usecs"] (tir_modify_in n a) = timeout_period_usecs a
  /\ DEVX_GET ifc.tirc p ["lro_enable_mask"] (tir_modify_in n a) = enable_mask a
  /\ DEVX_GET ifc.tirc p ["lro_max_ip_payload_size"] (tir_modify_in n a) = max_msg_sz a.
Proof.
  intros (?&?&?&_) Hf. unfold tir_modify_in, lro_writes. rewrite Hf. cbv zeta.
  split_and!; mbox; symmetry; by apply Z.mod_small.
Qed.

Lemma tir_modify_args n a :
  bad_args (Some (tir_modify_in n a)) (Some (zeros (ST_SZ_BYTES ifc.modify_tir_out))) = false.
Proof.
  unfold bad_args, tir_modify_in. by rewrite length_mailbox by (by vm_compute).
Qed.

(** A modify of a live object, copy included. *)
Lemma wp_tir_modify t h a w Q :
  tir_attr_wf a -> coherent t h w ->
  (forall st t' w', coherent t' h w' ->
     tir_abs h (dev w')
     = (if is_ok st && has_flag (ta_flags a) TIR_ATTR_LRO
        then with_lro (tir_abs h (dev w)) a else tir_abs h (dev w)) ->
     Q (st, t') w') ->
  wp (tir_modify t a) Q w.
Proof.
  intros Hwf [Hl Ha] HQ. unfold tir_modify. apply wp_bind. eapply tir_handle_live; [exact Hl|].
  cbn [is_ok negb]. destruct Hl as (Hc & Hn & p & Hp & Hb).
  unfold wp, bind. rewrite (obj_modify_run _ _ _ p h w) by (done || apply tir_modify_args).
  destruct (mlx5dv_devx_obj_modify _ _ _ _) as [[r out] d'] eqn:Em.
  destruct (tir_modify_in_fields (t_tirn t) a) as (E1 & E2 & E3).
  destruct (tir_modify_law _ _ _ _ _ _ _ Em E1) as (L1 & L2); [by rewrite E2, Hn|].
  rewrite E3 in L2. fold (cmd_ok r out). cbn [ret].
  assert (tir_abs h d'
          = if cmd_ok r out && has_flag (ta_flags a) TIR_ATTR_LRO
            then with_lro (tir_abs h (dev w)) a else tir_abs h (dev w)) as Habs.
  { unfold tir_abs, tir_decode. rewrite !L2 by (vm_compute; reflexivity).
    destruct (cmd_ok r out), (has_flag (ta_flags a) TIR_ATTR_LRO) eqn:Ef; try reflexivity.
    destruct (tir_modify_in_lro (t_tirn t) a Hwf Ef) as (F1 & F2 & F3).
    cbn [andb Z.b2z Z.eqb Pos.eqb lro_member String.eqb Ascii.eqb Bool.eqb orb].
    by rewrite F1, F2, F3. }
  assert (is_ok (if cmd_ok r out then DPCP_OK else DPCP_ERR_MODIFY) = cmd_ok r out) as Eok
    by (by destruct (cmd_ok r out)).
  apply HQ; cbn [dev]; rewrite Eok; [|exact Habs].
  split; [split_and!; [done|cbn; congruence|by exists p]|]. cbn [t_attr dev].
  rewrite Habs. rewrite <- Ha. done.
Qed.

(** What a successful [obj::create] leaves, besides what [own_obj_create] says. *)
Lemma wp_obj_create_dev o c inb outb w :
  fresh_ok w -> m_ctx o = Some c -> bad_args (Some inb) (Some outb) = false ->
  wp (obj_create o (Some inb) (Some outb))
     (fun r w' => let '(st, o', out) := r in
        st = DPCP_OK -> exists p h, m_obj_handle o' = Some p /\ heap w' !! p = Some (BObj (Some h))
          /\ mlx5dv_devx_obj_create c inb outb (dev w) = (Some h, out, dev w')
          /\ out_status out = 0 /\ m_id o' = out_id out /\ m_ctx o' = Some c) w.
Proof.
  intros Hf Hc Hb. unfold obj_create. rewrite Hc, Hb. cbn [default from_option id].
  apply wp_bind. unfold create_obj. apply wp_bind, wp_alloc; [done| |].
  { intros. apply wp_ret. cbn [orb]. apply wp_ret. done. }
  intros p w1 _ -> _ Hh1 _ Hd1 _. apply wp_bind, wp_device.
  rewrite Hd1. intros [h out] d w2 Hm Hh2 _ _ _ Hd2. rewrite <- Hd2 in Hm.
  destruct (mlx5dv_devx_obj_create c inb outb (dev w)) as [[h' o'] d'] eqn:E. injection Hm as -> -> ->.
  assert (heap w2 !! next w = Some (BObj None)) as Hp by (by rewrite Hh2, Hh1, lookup_insert_eq).
  destruct h as [h|]; apply wp_bind.
  - eapply wp_store; [exact Hp|]. intros w3 Hh3 _ _ Hd3 _. apply wp_ret. cbn [orb].
    destruct (out_status out =? 0) eqn:Es; bool_hyps; cbn [negb]; apply wp_ret; [|done].
    intros _. exists (next w), h. split_and!; [done|by rewrite Hh3, lookup_insert_eq| |done..].
    by rewrite Hd3.
  - eapply wp_dealloc; [exact Hp|]. intros. apply wp_ret. cbn [orb]. by apply wp_ret.
Qed.

Lemma tir_create_args a :
  bad_args (Some (tir_create_in a)) (Some (zeros (ST_SZ_BYTES ifc.create_tir_out))) = false.
Proof. unfold bad_args, tir_create_in. by rewrite length_mailbox by (by vm_compute). Qed.

Lemma wp_tir_create c a l h w Q :
  tir_attr_wf a -> own l h w ->
  (forall st t w', own (obj_own (t_obj t) ++ l) h w' ->
     (st = DPCP_OK -> exists hd, coherent t hd w' /\ t_attr t = tir_requested a) ->
     Q (st, t) w') ->
  wp (tir_create (tir_new c) a) Q w.
Proof.
  intros Hwf Ho HQ. unfold tir_create. apply wp_bind. cbn [obj_get_handle tir_new t_obj obj_new m_obj_handle].
  apply wp_ret. cbn [is_ok]. apply wp_bind. destruct c as [c|].
  2:{ unfold obj_create. cbn [m_ctx obj_new]. apply wp_ret, wp_ret. by apply HQ. }
  destruct (tir_create_in_decodes a Hwf) as [Eop Edec].
  eapply wp_mono; [|apply wp_and;
    [eapply (own_obj_create (obj_new (Some c)) _ _ l h
               (fun r w' => let '(st, o', _) := r in own (obj_own o' ++ l) h w')); [exact Ho|done|];
     intros; assumption
    |apply (wp_obj_create_dev (obj_new (Some c)) c); [by eapply own_fresh|done|apply tir_create_args]]].
  intros [[st o'] out] w1 [Ho1 Hd]. cbn beta iota zeta. destruct (is_ok st) eqn:Es; bool_hyps; cbn [negb].
  2:{ apply wp_ret. by apply HQ. }
  destruct (Hd Es) as (p & hd & Hp & Hb & Hm & Hst & Hid & Hctx).
  unfold obj_get_id. rewrite Hp. cbn [is_ok negb]. apply wp_bind.
  destruct (tir_create_law _ _ _ _ _ _ _ Hm Hst Eop) as [Ln Lf].
  eapply (wp_tir_query true _ hd); [| by left |].
  { split_and!; [by cbn; rewrite Hctx|cbn; congruence|by exists p]. }
  intros st' t' a' w2 Hl2 Habs Hok _ Hh2 Hn2 Hown. apply wp_ret. apply HQ.
  - rewrite Hown. by apply (own_same _ _ w1).
  - intros Hs. destruct (Hok Hs) as [Ha _]. exists hd. split; [split; [done|by rewrite Habs]|].
    rewrite Ha. unfold tir_abs. rewrite (tir_decode_ext _ _ Lf). exact Edec.
Qed.

(** C25. Creating a receive object with attributes of the declared widths never
    leaks, and when it succeeds the object's copy of the attributes, the
    device's context and the attributes asked for (zero where not flagged) are
    the same. *)
Theorem create_tir_ok ctx a l h w :
  tir_attr_wf a -> own l h w ->
  wp (create_tir ctx a)
     (fun r w' => let '(st, q) := r in
        (st = DPCP_OK <-> q <> None)
        /\ match q with
           | Some (self, t) => own ((self, KMem) :: obj_own (t_obj t) ++ l) h w'
                               /\ t_attr t = tir_requested a
                               /\ exists hd, coherent t hd w'
           | None => own l h w'
           end) w.
Proof.
  intros Hwf Ho. unfold create_tir. apply wp_bind.
  eapply own_alloc; [exact Ho|intros w1 Ho1; by apply wp_ret|]. intros self w1 Ho1. apply wp_bind.
  eapply wp_tir_create; [done|exact Ho1|]. intros st t w2 Ho2 Hok.
  destruct (is_ok st) eqn:Es; bool_hyps; cbn [negb].
  - destruct (Hok Es) as (hd & Hc & Ha). apply wp_ret. split; [done|].
    split_and!; [own_perm Ho2|done|by exists hd].
  - apply wp_bind. eapply own_obj_delete; [exact Ho2|]. intros o' w3 _ Ho3. apply wp_bind.
    eapply own_dealloc; [exact Ho3|]. intros w4 Ho4. by apply wp_ret.
Qed.

(** ** Any sequence of operations *)

Inductive tir_op : Type := TModify (a : tir_attr) | TQuery.

Definition op_wf (o : tir_op) : Prop := match o with TModify a => tir_attr_wf a | TQuery => True end.

(** The operations one after the other, with what each returned. *)
Fixpoint tir_run (t : tir) (ops : list tir_op) : M D (list (status * option tir_attr) * tir) :=
  match ops with
  | [] => ret ([], t)
  | TModify a :: r =>
      '(st, t) <- tir_modify t a;; '(rs, t) <- tir_run t r;; ret ((st, None) :: rs, t)
  | TQuery :: r =>
      '(st, t, a) <- tir_query false t;; '(rs, t) <- tir_run t r;; ret ((st, a) :: rs, t)
  end.

(** The contract: a register of attributes that queries read and that a modify,
    when it succeeds, updates in the part it flags. *)
Inductive tir_spec : tir_attr -> list tir_op -> list (status * option tir_attr) -> tir_attr -> Prop :=
| spec_nil s : tir_spec s [] [] s
| spec_query s ops rs s' :
    tir_spec s ops rs s' -> tir_spec s (TQuery :: ops) ((DPCP_OK, Some s) :: rs) s'
| spec_modify s a st ops rs s' :
    tir_spec (if is_ok st && has_flag (ta_flags a) TIR_ATTR_LRO then with_lro s a else s) ops rs s' ->
    tir_spec s (TModify a :: ops) ((st, None) :: rs) s'.

(** C5. A receive object refines the register: on a device that keeps contexts,
    any sequence of modify and query calls runs without undefined behaviour,
    every query succeeds and returns the value of the register, and the copy
    and the device's context both end as the register does. *)
Theorem tir_refines ops t hd w :
  Forall op_wf ops -> coherent t hd w ->
  wp (tir_run t ops)
     (fun r w' => let '(rs, t') := r in
        tir_spec (t_attr t) ops rs (t_attr t') /\ coherent t' hd w') w.
Proof.
  revert t w. induction ops as [|[a|] ops IH]; intros t w Hwf Hc; cbn [tir_run].
  - apply wp_ret. split; [constructor|done].
  - inversion Hwf as [|? ? Hwa Hwr]; subst. apply wp_bind.
    eapply wp_tir_modify; [exact Hwa|exact Hc|]. intros st t1 w1 Hc1 Habs. apply wp_bind.
    eapply wp_mono; [|by apply IH]. intros [rs t2] w2 [Hs Hc2]. apply wp_ret. split; [|done].
    constructor. destruct Hc as [_ ->], Hc1 as [_ E1]. by rewrite <- Habs, <- E1.
  - inversion Hwf as [|? ? _ Hwr]; subst. apply wp_bind.
    eapply wp_tir_query; [apply Hc|right; apply Hc|].
    intros st t1 a w1 Hl1 Habs Hok Hfl _ _ _.
    assert (ta_flags (t_attr t) <> 0) as Hf by (destruct Hc as [_ ->]; done).
    destruct (Hfl Hf) as [-> ->]. destruct (Hok eq_refl) as [E1 ->].
    apply wp_bind. eapply wp_mono; [|apply (IH t1 w); [done|by split]].
    intros [rs t2] w2 [Hs Hc2]. apply wp_ret. split; [|done].
    destruct Hc as [_ ->]. constructor. by rewrite <- E1.
Qed.
End coherence.

(** ** A device that keeps contexts *)

Record tsim := mkTsim { ts_next : Z; ts_ctx : gmap Z (list Z) }.

Definition ts_at (h : Z) (d : tsim) : list Z := bytes_at (default [] (ts_ctx d !! h)) 0 240.

Definition ts_create (i o : list Z) (d : tsim) : option Z * list Z * tsim :=
  if Z.of_nat (length o) <? 16 then (None, o, d)
  else
    (Some (ts_next d),
     exec [DEVX_SET ifc.status_out 0 ["status"] 0; DEVX_SET ifc.status_out 0 ["id"] (ts_next d)] o,
     mkTsim (ts_next d + 1)
       (<[ts_next d := bytes_at i (ADDR_OF ifc.create_tir_in 0 ["tir_context"]) 240]> (ts_ctx d))).

(** The members the mask selects, copied from the command. *)
Definition ts_merge (i c : list Z) : list Z :=
  let p := ADDR_OF ifc.modify_tir_in 0 ["tir_context"] in
  exec (only (DEVX_GET ifc.modify_tir_in 0 ["bitmask"; "lro"] i =? 1)
          (map (fun f => DEVX_SET ifc.tirc 0 f (DEVX_GET ifc.tirc p f i))
               [["lro_timeout_period_usecs"]; ["lro_enable_mask"]; ["lro_max_ip_payload_size"]])) c.

Definition ts_query (h : Z) (o : list Z) (d : tsim) : list Z :=
  memcpy (ADDR_OF ifc.query_tir_out 0 ["tir_context"]) (ts_at h d)
    (exec1 (DEVX_SET ifc.status_out 0 ["status"] 0) o).

#[global] Instance tsim_devx : DevX tsim := {
  mlx5dv_devx_obj_create _ i o d := ts_create i o d;
  mlx5dv_devx_obj_destroy _ d := (0, d);
  mlx5dv_devx_obj_modify h i o d :=
    (0, exec1 (DEVX_SET ifc.status_out 0 ["status"] 0) o,
     if out_status (exec1 (DEVX_SET ifc.status_out 0 ["status"] 0) o) =? 0
     then mkTsim (ts_next d) (<[h := ts_merge i (ts_at h d)]> (ts_ctx d)) else d);
  mlx5dv_devx_obj_query h _ o d := (0, ts_query h o d, d);
  mlx5dv_devx_general_cmd _ _ o d := (0, o, d);
  mlx5dv_devx_umem_reg _ _ _ _ d := (None, d);
  mlx5dv_devx_umem_dereg _ d := (0, d);
  devx_umem_id h _ := h;
  MLX5_IB_UAPI_UAR_ALLOC_TYPE_BF := 0;
  MLX5_IB_UAPI_UAR_ALLOC_TYPE_NC := 1;
  mlx5dv_devx_alloc_uar _ _ d := (None, d);
  mlx5dv_devx_free_uar _ d := d;
  devx_uar_page_id h _ := h;
  devx_uar_base_addr h _ := h;
  devx_uar_reg_addr h _ := h;
  mlx5dv_pp_alloc _ _ d := (None, d);
  mlx5dv_pp_free _ d := d;
  devx_pp_index h _ := h;
  ibv_reg_mr _ _ _ _ d := (None, d);
  ibv_reg_mr_iova _ _ _ _ _ d := (None, d);
  ibv_dereg_mr _ d := (0, d);
  ibv_mr_lkey h _ := h;
  mlx5dv_create_flow_matcher _ _ d := (None, d);
  mlx5dv_destroy_flow_matcher _ d := d;
  mlx5dv_create_flow_action_modify_header _ _ d := (None, d);
  mlx5dv_create_flow _ _ _ d := (None, d);
  ibv_destroy_flow _ d := d
}.

Lemma length_bytes_at b a n : length (bytes_at b a n) = n.
Proof. revert a. induction n as [|n IH]; intros a; simpl; [done|by rewrite IH]. Qed.

Lemma rd_bytes_at b a n k : 0 <= k < Z.of_nat n -> rd (bytes_at b a n) k = rd b (a + k).
Proof.
  revert a k. induction n as [|n IH]; intros a k Hk; [lia|]. cbn [bytes_at].
  destruct (decide (k = 0)) as [->|Hk0]; [by rewrite Z.add_0_r|].
  replace (rd (rd b a :: bytes_at b (a + 1) n) k) with (rd (bytes_at b (a + 1) n) (k - 1)).
  - rewrite IH by lia. f_equal. lia.
  - unfold rd. replace (Z.to_nat k) with (S (Z.to_nat (k - 1))) by lia. done.
Qed.

(** A member of a slice is the member of the structure at the slice's place. *)
Lemma get_slice l f b a n :
  0 <= f_addr (fld l 0 f) -> f_addr (fld l 0 f) + 4 <= Z.of_nat n ->
  DEVX_GET l 0 f (bytes_at b a n) = DEVX_GET l a f b.
Proof.
  unfold DEVX_GET, get_field, fld. cbn [f_addr f_sh f_sz]. intros H1 H2. unfold be32_to_cpu.
  rewrite !rd_bytes_at by lia. by rewrite Z.add_0_l, !Z.add_assoc.
Qed.

Lemma rd_memcpy_in src a b k :
  0 <= a -> a + Z.of_nat (length src) <= Z.of_nat (length b) -> 0 <= k < Z.of_nat (length src) ->
  rd (memcpy a src b) (a + k) = rd src k.
Proof.
  intros Ha Hl Hk. pose proof (bytes_at_memcpy src a b Ha Hl) as E.
  rewrite <- E at 2. by rewrite rd_bytes_at.
Qed.

Lemma get_memcpy l f src a b :
  0 <= a -> a + Z.of_nat (length src) <= Z.of_nat (length b) ->
  0 <= f_addr (fld l 0 f) -> f_addr (fld l 0 f) + 4 <= Z.of_nat (length src) ->
  DEVX_GET l a f (memcpy a src b) = DEVX_GET l 0 f src.
Proof.
  unfold DEVX_GET, get_field, fld. cbn [f_addr f_sh f_sz]. intros Ha Hl H1 H2. unfold be32_to_cpu.
  rewrite Z.add_0_l, <- !Z.add_assoc. by rewrite !rd_memcpy_in by lia.
Qed.

Lemma get_field_mod f b : 0 <= f_sz f -> get_field f b mod 2 ^ f_sz f = get_field f b.
Proof.
  intros. unfold get_field. rewrite Z.land_ones by done.
  by rewrite Z.mod_mod_divide by apply Z.divide_refl.
Qed.

Arguments bytes_at : simpl never.

(** The cases of a member. *)
Ltac tir_members Hf f :=
  destruct f as [|[n|?] [|? ?]]; try discriminate Hf; cbn [tir_member] in Hf;
  apply existsb_exists in Hf as (x & Hin & He); apply String.eqb_eq in He as <-;
  repeat (destruct Hin as [<-|Hin]; [|]); [..|destruct Hin].

Lemma tir_member_in f :
  tir_member f = true -> 0 <= f_addr (fld ifc.tirc 0 f) /\ f_addr (fld ifc.tirc 0 f) + 4 <= 240.
Proof. intros Hf. tir_members Hf f; by vm_compute. Qed.

Lemma ts_at_get h f d :
  tir_member f = true -> DEVX_GET ifc.tirc 0 f (ts_at h d) = DEVX_GET ifc.tirc 0 f (default [] (ts_ctx d !! h)).
Proof. intros Hf. apply tir_member_in in Hf as [? ?]. by apply get_slice. Qed.

Lemma ts_merge_get i c f :
  Z.of_nat (length c) = 240 -> tir_member f = true ->
  DEVX_GET ifc.tirc 0 f (ts_merge i c)
  = if (DEVX_GET ifc.modify_tir_in 0 ["bitmask"; "lro"] i =? 1) && lro_member f
    then DEVX_GET ifc.tirc (ADDR_OF ifc.modify_tir_in 0 ["tir_context"]) f i
    else DEVX_GET ifc.tirc 0 f c.
Proof.
  intros Hl Hf. unfold ts_merge. cbv zeta. destruct (_ =? 1); [|done]. cbn [only andb].
  match goal with |- DEVX_GET _ _ _ (exec ?ws _) = _ =>
    pose proof (get_exec (fld ifc.tirc 0 f) ws c) as G end.
  rewrite Hl in G. unfold DEVX_GET at 1.
  tir_members Hf f; specialize (G eq_refl); cbn [map] in G; unfold DEVX_SET in G; cbn [seek] in G;
    revert G; norm_fld; intros G; cbn in G; cbn [lro_member String.eqb Ascii.eqb Bool.eqb orb];
    (etransitivity; [exact G|]); first [apply get_field_mod; by vm_compute | reflexivity].
Qed.

(** It is such a device. *)
#[global] Program Instance tsim_tir : TirDevice tsim := {
  tir_field h f d := DEVX_GET ifc.tirc 0 f (ts_at h d);
  tir_num h _ := wrap 24 h
}.
Next Obligation.
  intros ctx i o d h o' d' Hc Hs Hop. cbn [mlx5dv_devx_obj_create tsim_devx] in Hc.
  unfold ts_create in Hc. destruct (Z.of_nat (length o) <? 16) eqn:El; [done|]. bool_hyps.
  rewrite !pair_equal_spec in Hc. destruct Hc as [[Hh <-] <-]. injection Hh as <-. split.
  - symmetry. unfold out_id, DEVX_GET.
    pose proof (get_exec (fld ifc.status_out 0 ["id"])
      [DEVX_SET ifc.status_out 0 ["status"] 0; DEVX_SET ifc.status_out 0 ["id"] (ts_next d)] o) as G.
    apply G. unfold f_in. apply andb_true_intro. split; [done|]. apply Z.leb_le.
    change (f_addr (fld ifc.status_out 0 ["id"])) with 8. lia.
  - intros f Hf. rewrite ts_at_get by done. cbn [ts_ctx]. rewrite lookup_insert_eq.
    apply tir_member_in in Hf as [? ?]. by apply get_slice.
Qed.
Next Obligation.
  intros h i o d r o' d' Hm Hop Hn. cbn [mlx5dv_devx_obj_modify tsim_devx] in Hm.
  rewrite !pair_equal_spec in Hm. destruct Hm as [[<- <-] <-]. split; [done|]. intros f Hf.
  unfold cmd_ok. cbn [Z.eqb andb]. destruct (out_status _ =? 0); [|done]. cbn [andb].
  rewrite <- ts_merge_get by (try done; unfold ts_at; by rewrite length_bytes_at).
  rewrite ts_at_get by done. cbn [ts_ctx]. by rewrite lookup_insert_eq.
Qed.
Next Obligation.
  intros h i o d r o' d' Hq Hop Hn Hl. cbn [mlx5dv_devx_obj_query tsim_devx] in Hq.
  rewrite !pair_equal_spec in Hq. destruct Hq as [[<- <-] <-]. split_and!; [done|done|]. intros _ f Hf. unfold ts_query.
  apply tir_member_in in Hf as [? ?].
  apply get_memcpy; rewrite ?length_exec1, ?Hl; unfold ts_at; rewrite ?length_bytes_at; by try done.
Qed.

Definition ts_world : world tsim := mkWorld (mkTsim 5 ∅) ∅ 1 [] [].

Definition sample_attr : tir_attr := mkTirAttr (Z.lor TIR_ATTR_LRO TIR_ATTR_TLS) 32 3 200 0 0 1 0 0 0.

Lemma sample_attr_wf : tir_attr_wf sample_attr.
Proof. by vm_compute. Qed.

Lemma create_tir_ok_witness :
  wp (create_tir (Some 1) sample_attr)
     (fun r w' => let '(st, q) := r in
        (st = DPCP_OK <-> q <> None)
        /\ match q with
           | Some (self, t) => own ((self, KMem) :: obj_own (t_obj t) ++ []) ∅ w'
                               /\ t_attr t = tir_requested sample_attr
                               /\ exists hd, coherent t hd w'
           | None => own [] ∅ w'
           end) ts_world.
Proof.
  apply (create_tir_ok (Some 1) sample_attr [] ∅ ts_world sample_attr_wf).
  apply (own_nil ts_world). intros p Hp. reflexivity.
Defined.

(** The creation succeeds there. *)
Example create_tir_run :
  match create_tir (Some 1) sample_attr ts_world with
  | Ret (st, Some (_, t), _) => st = DPCP_OK /\ timeout_period_usecs (t_attr t) = 32
  | _ => False
  end.
Proof. by vm_compute. Qed.

Definition ts_world1 : world tsim := mkWorld (mkTsim 6 ∅) {[ 1 := BObj (Some 5) ]} 2 [] [].
Definition ts_tir : tir := mkTir (mkObj 5 (Some 1) (Some 1) 0 0) (tir_abs 5 (dev ts_world1)) 5.

Lemma tir_refines_witness :
  wp (tir_run ts_tir [TModify sample_attr; TQuery])
     (fun r w' => let '(rs, t') := r in
        tir_spec (t_attr ts_tir) [TModify sample_attr; TQuery] rs (t_attr t') /\ coherent t' 5 w')
     ts_world1.
Proof.
  apply (tir_refines [TModify sample_attr; TQuery] ts_tir 5 ts_world1).
  - constructor; [exact sample_attr_wf|]. constructor; [exact Logic.I|constructor].
  - split; [|reflexivity]. split; [discriminate|]. split; [reflexivity|].
    exists 1. split; reflexivity.
Defined.

(** ** [tis] *)

Definition TIS_ATTR_TRANSPORT_DOMAIN : Z := Z.shiftl 1 1.
Definition TIS_ATTR_TLS : Z := Z.shiftl 1 2.
Definition TIS_ATTR_PD : Z := Z.shiftl 1 3.
Definition TIS_ATTR_NVMEOTCP : Z := Z.shiftl 1 4.

(** [tis::attr] *)
Record tis_attr := mkTisAttr {
  sa_flags : Z;
  sa_tls_en : Z;
  sa_nvmeotcp : Z;
  sa_transport_domain : Z;
  sa_pd : Z
}.

Definition tis_attr_zero : tis_attr := mkTisAttr 0 0 0 0 0.

Record tis := mkTis { s_obj : obj; s_attr : tis_attr; s_tisn : Z }.

Definition tis_new (ctx : option Z) : tis := mkTis (obj_new ctx) tis_attr_zero 0.

Definition tis_create_in (a : tis_attr) : list Z :=
  let p := ADDR_OF ifc.create_tis_in 0 ["ctx"] in
  mailbox ifc.create_tis_in
    ([DEVX_SET ifc.create_tis_in 0 ["opcode"] MLX5_CMD_OP_CREATE_TIS]
     ++ only (has_flag (sa_flags a) TIS_ATTR_TRANSPORT_DOMAIN)
          [DEVX_SET ifc.tisc p ["transport_domain"] (sa_transport_domain a)]
     ++ only (has_flag (sa_flags a) TIS_ATTR_TLS) [DEVX_SET ifc.tisc p ["tls_en"] (sa_tls_en a)]
     ++ only (has_flag (sa_flags a) TIS_ATTR_PD) [DEVX_SET ifc.tisc p ["pd"] (sa_pd a)]
     ++ only (has_flag (sa_flags a) TIS_ATTR_NVMEOTCP)
          [DEVX_SET ifc.tisc p ["nvmeotcp_en"] (sa_nvmeotcp a)]).

Definition tis_query_in (tisn : Z) : list Z :=
  mailbox ifc.query_tis_in
    [DEVX_SET ifc.query_tis_in 0 ["opcode"] MLX5_CMD_OP_QUERY_TIS;
     DEVX_SET ifc.query_tis_in 0 ["tisn"] tisn].

(** What a query stores in the copy [a]: the [nvmeotcp] member is kept. *)
Definition tis_store (a : tis_attr) (get : list step -> Z) : tis_attr :=
  mkTisAttr
    (Z.lor (Z.lor (Z.lor (sa_flags a) TIS_ATTR_TRANSPORT_DOMAIN) TIS_ATTR_TLS) TIS_ATTR_PD)
    (get ["tls_en"]) (sa_nvmeotcp a) (get ["transport_domain"]) (get ["pd"]).

Section tis_ops.
Context {D : Type} `{DevX D}.

(** [tis::query] *)
Definition tis_query (self : bool) (t : tis) : M D (status * tis * option tis_attr) :=
  '(st, _) <- obj_get_handle (s_obj t);;
  if negb (is_ok st) then ret (DPCP_ERR_INVALID_PARAM, t, None)
  else if negb (sa_flags (s_attr t) =? 0) then ret (DPCP_OK, t, Some (s_attr t))
  else
    let t := if self then mkTis (s_obj t) tis_attr_zero (s_tisn t) else t in
    '(r, o, out) <- obj_query (s_obj t) (Some (tis_query_in (s_tisn t)))
                              (Some (zeros (ST_SZ_BYTES ifc.query_tis_out)));;
    let t := mkTis o (s_attr t) (s_tisn t) in
    if negb (is_ok r) then ret (r, t, Some tis_attr_zero)
    else
      let p := ADDR_OF ifc.query_tis_out 0 ["tis_context"] in
      let a := tis_store (s_attr t) (fun f => DEVX_GET ifc.tisc p f out) in
      ret (DPCP_OK, mkTis o a (s_tisn t), Some a).

(** [tis::create] *)
Definition tis_create (t : tis) (a : tis_attr) : M D (status * tis) :=
  '(st, _) <- obj_get_handle (s_obj t);;
  if is_ok st then ret (DPCP_ERR_INVALID_PARAM, t)
  else
    '(r, o, _) <- obj_create (s_obj t) (Some (tis_create_in a))
                             (Some (zeros (ST_SZ_BYTES ifc.create_tis_out)));;
    let t := mkTis o (s_attr t) (s_tisn t) in
    if negb (is_ok r) then ret (r, t)
    else
      let '(r, id) := obj_get_id o in
      if negb (is_ok r) then ret (r, t)
      else
        '(r, t, _) <- tis_query true (mkTis o (s_attr t) id);;
        ret (r, t).

(** [tis::get_tisn] *)
Definition get_tisn (t : tis) : status * Z :=
  if s_tisn t =? 0 then (DPCP_ERR_INVALID_ID, 0) else (DPCP_OK, s_tisn t).

(** [adapter::create_tis] *)
Definition create_tis (ctx : option Z) (a : tis_attr) : M D (status * option (Z * tis)) :=
  self <- alloc BMem;;
  match self with
  | None => ret (DPCP_ERR_NO_MEMORY, None)
  | Some self =>
      '(r, t) <- tis_create (tis_new ctx) a;;
      if negb (is_ok r) then _ <- obj_delete (s_obj t);; dealloc self;; ret (DPCP_ERR_CREATE, None)
      else ret (DPCP_OK, Some (self, t))
  end.
End tis_ops.

(** The copy of a send object never shows the [nvmeotcp] attribute it was
    created with: no query reads it. *)
Example tis_nvmeotcp_lost :
  match create_tis (Some 1) (mkTisAttr (Z.lor TIS_ATTR_NVMEOTCP TIS_ATTR_PD) 0 1 0 7) sim_world with
  | Ret (st, Some (_, t), _) => st = DPCP_OK /\ sa_nvmeotcp (s_attr t) = 0 /\ sa_flags (s_attr t) = 14
  | _ => False
  end.
Proof. by vm_compute. Qed.
