(* ===== verification/Fr.v ===== *)
(** * Flow rules (src/src/dpcp/fr.cpp)

    A [flow_rule] keeps match criteria and values, a list of destination TIRs
    and, once applied, a [dcmd::flow].  The TIRs belong to the caller: the rule
    holds pointers, and [tirs] is the store they point into at the time of a
    call. *)

From S2P Require Import Prelude Codec Prm Dcmd Own Sim Obj.
Open Scope string_scope.
Open Scope list_scope.
Open Scope Z_scope.
Open Scope m_scope.

(** [struct match_params]: the 8 bytes of [dst_mac] and the 16 bytes of the two
    address unions are byte lists. *)
Record match_params := mkMatch {
  dst_mac : list Z;
  mp_ethertype : Z;
  mp_vlan_id : Z;
  mp_dst_ip : Z;
  mp_src_ip : Z;
  mp_dst_port : Z;
  mp_src_port : Z;
  mp_protocol : Z;
  mp_ip_version : Z;
  mp_dst : list Z;
  mp_src : list Z
}.

(** The member [ipv4] of an address union, on a little-endian host. *)
Definition u_ipv4 (u : list Z) : Z :=
  rd u 0 + rd u 1 * 2 ^ 8 + rd u 2 * 2 ^ 16 + rd u 3 * 2 ^ 24.

Record flow_rule := mkFlowRule {
  fr_obj : obj;
  fr_mask : match_params;
  fr_value : match_params;
  fr_dst_tir : list Z;
  fr_flow : option Z;
  fr_flow_id : Z;
  fr_priority : Z;
  fr_changed : bool
}.

Definition match_zero : match_params :=
  mkMatch (zeros 8) 0 0 0 0 0 0 0 0 (zeros 16) (zeros 16).

(** [flow_rule::flow_rule] *)
Definition flow_rule_new (ctx : option Z) (priority : Z) (criteria : match_params) : flow_rule :=
  mkFlowRule (obj_new ctx) criteria match_zero [] None 0 priority false.

(** [set_match_value], [set_flow_id] *)
Definition set_match_value (r : flow_rule) (v : match_params) : status * flow_rule :=
  (DPCP_OK, mkFlowRule (fr_obj r) (fr_mask r) v (fr_dst_tir r) (fr_flow r) (fr_flow_id r)
                       (fr_priority r) true).

Definition set_flow_id (r : flow_rule) (id : Z) : status * flow_rule :=
  if 0xFFFFF <? id then (DPCP_ERR_OUT_OF_RANGE, r)
  else (DPCP_OK, mkFlowRule (fr_obj r) (fr_mask r) (fr_value r) (fr_dst_tir r) (fr_flow r) id
                            (fr_priority r) true).

(** [get_match_value], [get_flow_id]: the value is stored in every case. *)
Definition applied_status (r : flow_rule) : status :=
  if fr_changed r && (match fr_flow r with Some _ => true | None => false end)
  then DPCP_ERR_NOT_APPLIED else DPCP_OK.
Definition get_match_value (r : flow_rule) : status * match_params := (applied_status r, fr_value r).
Definition get_flow_id (r : flow_rule) : status * Z := (applied_status r, fr_flow_id r).
Definition get_priority (r : flow_rule) : status * Z := (DPCP_OK, fr_priority r).

Definition with_dst (r : flow_rule) (dst : list Z) (changed : bool) : flow_rule :=
  mkFlowRule (fr_obj r) (fr_mask r) (fr_value r) dst (fr_flow r) (fr_flow_id r) (fr_priority r) changed.

Definition get_num_tirs (r : flow_rule) : status * Z :=
  (DPCP_OK, u32 (Z.of_nat (length (fr_dst_tir r)))).

(** [get_tir]: the bound [size() - 1] is a [size_t], and the access is not
    checked. *)
Definition get_tir {D} (r : flow_rule) (index : Z) : M D (status * option Z) :=
  if u64 (Z.of_nat (length (fr_dst_tir r)) - 1) <? index then ret (DPCP_ERR_OUT_OF_RANGE, None)
  else
    t <- need (fr_dst_tir r !! Z.to_nat index) "index out of range";;
    ret (DPCP_OK, Some t).

(** [add_dest_tir]: the null pointer is 0. *)
Definition add_dest_tir (r : flow_rule) (t : Z) : status * flow_rule :=
  if t =? 0 then (DPCP_ERR_INVALID_PARAM, r)
  else (DPCP_OK, with_dst r (fr_dst_tir r ++ [t]) true).

(** [remove_dest_tir] *)
Definition remove_dest_tir (r : flow_rule) (t : Z) : status * flow_rule :=
  if existsb (Z.eqb t) (fr_dst_tir r)
  then (DPCP_OK, with_dst r (List.filter (fun x => negb (x =? t)) (fr_dst_tir r)) (fr_changed r))
  else (DPCP_ERR_INVALID_PARAM, with_dst r (fr_dst_tir r) true).

(** ** The match buffers *)

(** [copy_ether_mac]: four bytes and two bytes, here as big-endian words. *)
Definition copy_ether_mac (a : Z) (src : list Z) : list write :=
  [W32 (mkField a 0 32) (be32_to_cpu src 0);
   W32 (mkField (a + 4) 16 16) (rd src 4 * 2 ^ 8 + rd src 5)].

(** [dmac ? true : false] over all 8 bytes. *)
Definition dmac_set (m : match_params) : bool := existsb (fun b => negb (b =? 0)) (dst_mac m).

Definition is_ipv4 (m v : match_params) : bool :=
  (mp_ethertype m =? 0xffff) && (mp_ethertype v =? 0x0800)
  && ((mp_ip_version m =? 0xf) && (mp_ip_version v =? 4)).
Definition is_ipv6 (m v : match_params) : bool :=
  (mp_ethertype m =? 0xffff) && (mp_ethertype v =? 0x86DD)
  && ((mp_ip_version m =? 0xf) && (mp_ip_version v =? 6)).

Definition p_src_ip : Z := ADDR_OF ifc.fte_match_set_lyr_2_4 0 ["src_ipv4_src_ipv6"].
Definition p_dst_ip : Z := ADDR_OF ifc.fte_match_set_lyr_2_4 0 ["dst_ipv4_dst_ipv6"].

(** The deprecated members are used when each is set or equal to the union. *)
Definition use_deprecated (x : match_params) : bool :=
  (negb (mp_src_ip x =? 0) || (mp_src_ip x =? u_ipv4 (mp_src x)))
  && (negb (mp_dst_ip x =? 0) || (mp_dst_ip x =? u_ipv4 (mp_dst x))).
Definition src_v4 (x : match_params) : Z := if use_deprecated x then mp_src_ip x else u_ipv4 (mp_src x).
Definition dst_v4 (x : match_params) : Z := if use_deprecated x then mp_dst_ip x else u_ipv4 (mp_dst x).

Definition ipv4_writes (x : match_params) : list write :=
  [DEVX_SET ifc.ipv4_layout p_src_ip ["ipv4"] (src_v4 x);
   DEVX_SET ifc.ipv4_layout p_dst_ip ["ipv4"] (dst_v4 x)].

Definition ipv6_writes (x : match_params) : list write :=
  [WMem (ADDR_OF ifc.ipv6_layout p_src_ip ["ipv6"]) (take 16 (mp_src x));
   WMem (ADDR_OF ifc.ipv6_layout p_dst_ip ["ipv6"]) (take 16 (mp_dst x))].

Definition head_writes (m x : match_params) : list write :=
  [DEVX_SET ifc.fte_match_set_lyr_2_4 0 ["ethertype"] (mp_ethertype x)]
  ++ only (negb (mp_vlan_id m =? 0))
       [DEVX_SET ifc.fte_match_set_lyr_2_4 0 ["cvlan_tag"] 1;
        DEVX_SET ifc.fte_match_set_lyr_2_4 0 ["first_vid"] (mp_vlan_id x)]
  ++ [DEVX_SET ifc.fte_match_set_lyr_2_4 0 ["ip_protocol"] (mp_protocol x)]
  ++ only (negb (mp_ip_version m =? 0))
       [DEVX_SET ifc.fte_match_set_lyr_2_4 0 ["ip_version"] (mp_ip_version x)].

Definition addr_writes (m v x : match_params) : list write :=
  only (dmac_set m)
    (copy_ether_mac (ADDR_OF ifc.fte_match_set_lyr_2_4 0 ["dmac_47_16"]) (dst_mac x))
  ++ only (is_ipv4 m v) (ipv4_writes x)
  ++ only (is_ipv6 m v) (ipv6_writes x).

(** Which ports are set is decided by the protocol of the value. *)
Definition port_writes (v x : match_params) : list write :=
  if negb (mp_protocol v =? 6)
  then [DEVX_SET ifc.fte_match_set_lyr_2_4 0 ["udp_dport"] (mp_dst_port x);
        DEVX_SET ifc.fte_match_set_lyr_2_4 0 ["udp_sport"] (mp_src_port x)]
  else [DEVX_SET ifc.fte_match_set_lyr_2_4 0 ["tcp_dport"] (mp_dst_port x);
        DEVX_SET ifc.fte_match_set_lyr_2_4 0 ["tcp_sport"] (mp_src_port x)].

(** [mask.buf] and [values.buf] *)
Definition mask_buf (m v : match_params) : list Z :=
  mailbox ifc.fte_match_param (head_writes m m ++ addr_writes m v m ++ port_writes v m).
Definition value_buf (m v : match_params) : list Z :=
  mailbox ifc.fte_match_param (head_writes m v ++ port_writes v v ++ addr_writes m v v).

Arguments mask_buf : simpl never.
Arguments value_buf : simpl never.

(** ** Applying and revoking *)

Section apply.
Context {D : Type} `{DevX D}.

(** The loop over the destinations: the handle of each TIR that has one. *)
Fixpoint tir_handles (tirs : gmap Z obj) (dst : list Z) : M D (list (option Z)) :=
  match dst with
  | [] => ret []
  | t :: r =>
      o <- need (tirs !! t) "dangling TIR";;
      '(st, h) <- obj_get_handle o;;
      hs <- tir_handles tirs r;;
      ret ((if is_ok st then Some h else None) :: hs)
  end.

Definition with_flow (r : flow_rule) (f : option Z) (changed : bool) : flow_rule :=
  mkFlowRule (fr_obj r) (fr_mask r) (fr_value r) (fr_dst_tir r) f (fr_flow_id r) (fr_priority r) changed.

Definition rule_desc (r : flow_rule) (dst : list (option Z)) : flow_desc :=
  mkFlowDesc (mask_buf (fr_mask r) (fr_value r)) (value_buf (fr_mask r) (fr_value r))
    dst (fr_flow_id r) (fr_priority r) None.

(** [flow_rule::apply_settings] *)
Definition apply_settings (tirs : gmap Z obj) (r : flow_rule) : M D (status * flow_rule) :=
  match m_ctx (fr_obj r) with
  | None => ret (DPCP_ERR_NO_CONTEXT, r)
  | Some ctx =>
      let n := Z.of_nat (length (fr_dst_tir r)) in
      if n =? 0 then ret (DPCP_ERR_NOT_APPLIED, r)
      else
        dst_tir_obj <- alloc (BRaw (8 * n));;
        dst_formats <- alloc (BRaw (size_of ifc.dest_format_struct * n));;
        match dst_tir_obj, dst_formats with
        | Some _, Some _ =>
            hs <- tir_handles tirs (fr_dst_tir r);;
            f <- create_flow ctx (rule_desc r hs);;
            aligned_free dst_formats;;
            aligned_free dst_tir_obj;;
            ret (match f with None => DPCP_ERR_CREATE | Some _ => DPCP_OK end, with_flow r f false)
        | _, _ =>
            aligned_free dst_formats;;
            aligned_free dst_tir_obj;;
            ret (DPCP_ERR_NO_MEMORY, r)
        end
  end.

(** [flow_rule::revoke_settings] *)
Definition revoke_settings (r : flow_rule) : M D (status * flow_rule) :=
  match fr_flow r with
  | None => ret (DPCP_OK, r)
  | Some f => delete_flow (Some f);; ret (DPCP_OK, with_flow r None (fr_changed r))
  end.

(** [~flow_rule], then [~obj]. *)
Definition flow_rule_delete (r : flow_rule) : M D unit :=
  _ <- revoke_settings r;; _ <- obj_delete (fr_obj r);; ret tt.

(** [adapter::create_flow_rule] *)
Definition create_flow_rule (ctx : option Z) (priority : Z) (criteria : match_params)
  : M D (status * option (Z * flow_rule)) :=
  self <- alloc BMem;;
  match self with
  | None => ret (DPCP_ERR_NO_MEMORY, None)
  | Some self => ret (DPCP_OK, Some (self, flow_rule_new ctx priority criteria))
  end.
End apply.

(** ** What the buffers say *)

Definition match_wf (x : match_params) : Prop :=
  length (mp_src x) = 16%nat /\ length (mp_dst x) = 16%nat.

Lemma ipv4_not_ipv6 m v : is_ipv4 m v = true -> is_ipv6 m v = false.
Proof.
  unfold is_ipv4, is_ipv6. intros. bool_hyps.
  replace (mp_ethertype v) with 0x0800 by done. by rewrite andb_false_r.
Qed.

(** Statements that leave the bytes [a, a + n) alone. *)
Definition clear_of (a n : Z) (w : write) : bool :=
  match w with
  | W32 f _ => (0 <=? f_addr f) && ((f_addr f + 4 <=? a) || (a + n <=? f_addr f))
  | W64 c _ => (0 <=? c) && ((c + 8 <=? a) || (a + n <=? c))
  | WMem c src => (0 <=? c) && ((c + Z.of_nat (length src) <=? a) || (a + n <=? c))
  end.

Lemma bytes_at_exec1 a n w b :
  0 <= a -> clear_of a (Z.of_nat n) w = true -> bytes_at (exec1 w b) a n = bytes_at b a n.
Proof.
  intros Ha Hc. apply bytes_at_ext. intros i Hi.
  destruct w as [f v|c v|c src]; cbn [clear_of exec1] in *; bool_hyps;
    repeat match goal with H : (_ || _)%bool = true |- _ => apply orb_prop in H as [H|H]; bool_hyps end.
  1,2: apply rd_be32_other; lia.
  1,2: unfold cpu_to_be64; rewrite !rd_be32_other by lia; done.
  1,2: apply rd_memcpy_out; lia.
Qed.

Lemma bytes_at_exec a n ws b :
  0 <= a -> forallb (clear_of a (Z.of_nat n)) ws = true -> bytes_at (exec ws b) a n = bytes_at b a n.
Proof.
  intros Ha. revert b. induction ws as [|w r IH]; intros b Hc; [done|]. cbn [forallb exec] in *.
  bool_hyps. rewrite IH by done. by apply bytes_at_exec1.
Qed.

(** The bytes stored by a [memcpy] that no later statement touches. *)
Lemma mailbox_bytes l ws a src ws' :
  0 <= a -> a + Z.of_nat (length src) <= ST_SZ_BYTES l ->
  forallb (clear_of a (Z.of_nat (length src))) ws' = true ->
  bytes_at (mailbox l (ws ++ WMem a src :: ws')) a (length src) = src.
Proof.
  intros Ha Hl Hc. unfold mailbox. rewrite exec_app. cbn [exec exec1].
  rewrite bytes_at_exec by done. apply bytes_at_memcpy; [done|].
  rewrite length_exec, length_zeros by lia. done.
Qed.

(** What a buffer [b] built from criteria [m] and values [v] says of [x], one of
    the two. *)
Definition match_says (m v x : match_params) (b : list Z) : Prop :=
  let get f := DEVX_GET ifc.fte_match_set_lyr_2_4 0 [F f] b in
  let tcp := mp_protocol v =? 6 in
  get "ethertype" = wrap 16 (mp_ethertype x)
  /\ get "ip_protocol" = wrap 8 (mp_protocol x)
  /\ get "cvlan_tag" = Z.b2z (negb (mp_vlan_id m =? 0))
  /\ get "first_vid" = (if mp_vlan_id m =? 0 then 0 else wrap 12 (mp_vlan_id x))
  /\ get "ip_version" = (if mp_ip_version m =? 0 then 0 else wrap 4 (mp_ip_version x))
  /\ get "tcp_dport" = (if tcp then wrap 16 (mp_dst_port x) else 0)
  /\ get "tcp_sport" = (if tcp then wrap 16 (mp_src_port x) else 0)
  /\ get "udp_dport" = (if tcp then 0 else wrap 16 (mp_dst_port x))
  /\ get "udp_sport" = (if tcp then 0 else wrap 16 (mp_src_port x))
  /\ get "dmac_47_16" = (if dmac_set m then wrap 32 (be32_to_cpu (dst_mac x) 0) else 0)
  /\ get "dmac_15_0" = (if dmac_set m then wrap 16 (rd (dst_mac x) 4 * 2 ^ 8 + rd (dst_mac x) 5) else 0)
  /\ (is_ipv4 m v = true ->
      DEVX_GET ifc.ipv4_layout p_src_ip ["ipv4"] b = wrap 32 (src_v4 x)
      /\ DEVX_GET ifc.ipv4_layout p_dst_ip ["ipv4"] b = wrap 32 (dst_v4 x))
  /\ (is_ipv6 m v = true ->
      bytes_at b p_src_ip 16 = mp_src x /\ bytes_at b p_dst_ip 16 = mp_dst x).

(** A list of 16 bytes, element by element. *)
Ltac sixteen s H :=
  do 16 (destruct s as [|? s]; [discriminate H|]); destruct s; [clear H|discriminate H].

Lemma if_only (c : bool) (a b : list write) : (if c then a else b) = only c a ++ only (negb c) b.
Proof. destruct c; [by rewrite app_nil_r|done]. Qed.

Lemma seek_only_miss f c ws : seek f ws = Miss -> seek f (only c ws) = Miss.
Proof. by destruct c. Qed.

(** A member of a buffer with conditional parts: the blocks that do not touch it
    go first, then the cases. *)
Ltac mbox_cond :=
  apply mailbox_DEVX_GET; [vm_compute; reflexivity|];
  unfold DEVX_SET; norm_fld; rewrite !seek_app;
  repeat match goal with |- context [seek ?f (only ?c ?ws)] =>
    rewrite (seek_only_miss f c ws) by (vm_compute; reflexivity) end;
  mbox_seek;
  repeat match goal with b : bool |- context [?c] => constr_eq b c; destruct b end; reflexivity.

(** The address blocks have 16 bytes, and every condition is either way. *)
Ltac match_member Hs Hd :=
  match goal with |- context [ipv6_writes ?x] =>
    unfold ipv6_writes, copy_ether_mac, ipv4_writes;
    generalize (src_v4 x) (dst_v4 x) (be32_to_cpu (dst_mac x) 0) (rd (dst_mac x) 4 * 2 ^ 8 + rd (dst_mac x) 5);
    revert Hs Hd; generalize (mp_src x) (mp_dst x);
    let s := fresh "s" in let d := fresh "d" in
    intros s d Hs Hd; sixteen s Hs; sixteen d Hd
  end; intros; cbn [firstn];
  repeat match goal with
    | |- context [is_ipv4 ?m ?v] => generalize (is_ipv4 m v); intros ?
    | |- context [is_ipv6 ?m ?v] => generalize (is_ipv6 m v); intros ?
    | |- context [dmac_set ?m] => generalize (dmac_set m); intros ?
    | |- context [?a =? ?b] => generalize (a =? b); intros ?
    end; mbox_cond.

Ltac match_ipv4 H4 :=
  rewrite (ipv4_not_ipv6 _ _ H4), H4; unfold ipv4_writes, copy_ether_mac; cbn [only]; split; mbox_cond.

Lemma ipv6_bytes ws x ws' :
  match_wf x -> forallb (clear_of p_src_ip 32) ws' = true ->
  let b := mailbox ifc.fte_match_param (ws ++ ipv6_writes x ++ ws') in
  bytes_at b p_src_ip 16 = mp_src x /\ bytes_at b p_dst_ip 16 = mp_dst x.
Proof.
  intros [Hs Hd] Hc b.
  assert (forall a, a = p_src_ip \/ a = p_dst_ip -> forallb (clear_of a (Z.of_nat 16)) ws' = true) as Hc'.
  { intros a Ha. rewrite forallb_forall in *. intros w Hw. specialize (Hc w Hw). revert Hc.
    assert (32 <= a <= 48) by (destruct Ha as [-> | ->]; by vm_compute).
    change p_src_ip with 32. destruct w; cbn [clear_of]; intros Hc; bool_hyps;
      apply andb_true_intro; (split; [lia|]); apply orb_true_iff;
      match goal with H : (_ || _)%bool = true |- _ => apply orb_prop in H as [H|H] end;
      bool_hyps; [left|right|left|right|left|right]; apply Z.leb_le; lia. }
  unfold b, ipv6_writes. rewrite !firstn_all2 by lia.
  change (ADDR_OF ifc.ipv6_layout p_src_ip ["ipv6"]) with p_src_ip.
  change (ADDR_OF ifc.ipv6_layout p_dst_ip ["ipv6"]) with p_dst_ip. cbn [app]. split.
  - rewrite <- Hs at 1. apply mailbox_bytes; [done|by rewrite Hs|].
    cbn [forallb]. rewrite Hs, Hc' by (by left). cbn [clear_of]. by rewrite Hd.
  - rewrite <- Hd at 1.
    change (ws ++ WMem p_src_ip (mp_src x) :: WMem p_dst_ip (mp_dst x) :: ws')
      with (ws ++ [WMem p_src_ip (mp_src x)] ++ WMem p_dst_ip (mp_dst x) :: ws').
    rewrite app_assoc. apply mailbox_bytes; [done|by rewrite Hd|]. rewrite Hd. apply Hc'. by right.
Qed.

Lemma mask_buf_says m v : match_wf m -> match_says m v m (mask_buf m v).
Proof.
  intros Hwf. pose proof Hwf as [Hs Hd]. unfold match_says, mask_buf. cbv zeta.
  unfold head_writes, addr_writes, port_writes. rewrite if_only. split_and!.
  1-11: match_member Hs Hd.
  - intros H4. match_ipv4 H4.
  - intros H6. rewrite H6. cbn [only]. rewrite !app_assoc.
    match goal with |- context [((?X ++ ipv6_writes m) ++ ?p) ++ ?q] =>
      rewrite <- (app_assoc (X ++ _) p q), <- (app_assoc X _ (p ++ q)) end.
    apply ipv6_bytes; [done|]. by destruct (mp_protocol v =? 6).
Qed.

Lemma value_buf_says m v : match_wf v -> match_says m v v (value_buf m v).
Proof.
  intros Hwf. pose proof Hwf as [Hs Hd]. unfold match_says, value_buf. cbv zeta.
  unfold head_writes, addr_writes, port_writes. rewrite if_only. split_and!.
  1-11: match_member Hs Hd.
  - intros H4. match_ipv4 H4.
  - intros H6. rewrite H6. cbn [only]. rewrite !app_assoc. rewrite <- (app_nil_r (ipv6_writes v)).
    by apply ipv6_bytes.
Qed.

(** The two match buffers of a rule carry every criterion and every value in
    its member: the VLAN, IP version, MAC address and addresses only where the
    criteria ask for them, the ports in the TCP or the UDP members as the
    protocol says, and the members that are not used are zero. *)
Theorem flow_rule_match_fields m v :
  match_wf m -> match_wf v ->
  match_says m v m (mask_buf m v) /\ match_says m v v (value_buf m v).
Proof. intros Hm Hv. split; [by apply mask_buf_says|by apply value_buf_says]. Qed.

Lemma flow_rule_match_fields_witness :
  let m := mkMatch (replicate 6 255 ++ [0; 0]) 0xffff 0 0 0 0xffff 0 255 0xf (replicate 16 255) (zeros 16) in
  let v := mkMatch [1; 2; 3; 4; 5; 6; 0; 0] 0x0800 0 0x0a000001 0 80 0 6 4 (zeros 16) (zeros 16) in
  match_says m v m (mask_buf m v) /\ match_says m v v (value_buf m v).
Proof. intros m v. apply (flow_rule_match_fields m v); split; reflexivity. Defined.

(** ** Life of a rule *)

Section life.
Context {D : Type} `{DevX D}.
Implicit Types (w : world D) (l : list (Z * kind)) (h : gmap Z blk).

(** The TIRs [dst] point to objects of the device with the handles [hs]. *)
Definition tirs_ok (tirs : gmap Z obj) (h : gmap Z blk) (dst hs : list Z) : Prop :=
  Forall2 (fun t hd => exists o p, tirs !! t = Some o /\ m_obj_handle o = Some p
                                   /\ h !! p = Some (BObj (Some hd))) dst hs.

Lemma wp_tir_handles tirs dst hs l h w Q :
  own l h w -> tirs_ok tirs h dst hs -> Q (map Some hs) w -> wp (tir_handles tirs dst) Q w.
Proof.
  intros Ho Ht. revert Q. induction Ht as [|t hd dst hs (o & p & E1 & E2 & E3) _ IH]; intros Q HQ;
    cbn [tir_handles]; [by apply wp_ret|].
  rewrite E1. cbn [need]. apply wp_bind, wp_ret, wp_bind. unfold obj_get_handle. rewrite E2.
  apply wp_bind. eapply wp_load; [by eapply own_frame|]. apply wp_ret, wp_bind, IH, wp_ret. done.
Qed.

(** What a flow asks of the device, and the calls made for it. *)
Definition desc_matcher (desc : flow_desc) : matcher_attr :=
  mkMatcher (fd_priority desc) 1 (match_criteria desc).
Definition desc_acts (desc : flow_desc) (dst : list Z) : list flow_action_attr :=
  flow_tag (flow_id desc) ++ map ActDest dst.

Definition flow_refused (desc : flow_desc) (dst : list Z) (cs cs' : list call) : Prop :=
  cs' = cs \/ cs' = CMatcherCreate (desc_matcher desc) None :: cs
  \/ exists m, cs' = CMatcherDestroy m :: CFlowCreate m (match_value desc) (desc_acts desc dst) None
                     :: CMatcherCreate (desc_matcher desc) (Some m) :: cs.

Definition flow_made (desc : flow_desc) (dst : list Z) (f m : Z) (cs cs' : list call) : Prop :=
  cs' = CFlowCreate m (match_value desc) (desc_acts desc dst) (Some f)
        :: CMatcherCreate (desc_matcher desc) (Some m) :: cs.

Lemma wp_create_flow ctx desc dst l h w Q :
  own l h w -> dst_obj desc = map Some dst -> modify_actions desc = None ->
  (forall w', own l h w' -> flow_refused desc dst (calls w) (calls w') -> Q None w') ->
  (forall p f m w', own ((p, KFlow) :: l) h w' -> heap w' !! p = Some (BFlow f m) ->
     flow_made desc dst f m (calls w) (calls w') -> Q (Some p) w') ->
  wp (create_flow ctx desc) Q w.
Proof.
  intros Ho Hdst Hma HN HS. unfold create_flow. apply wp_bind.
  eapply wp_mono; [|apply wp_alloc_calls, (own_alloc BMem l h (fun p w' => own (ptr p KMem ++ l) h w'));
                    [exact Ho|done|done]].
  intros [p|] w1 [Ho1 Hc1]; [|apply wp_ret, HN; [done|by left]]. cbn [ptr app] in Ho1. cbv zeta.
  change (mkMatcher _ _ _) with (desc_matcher desc).
  assert (forall cs w', own ((p, KMem) :: l) h w' -> calls w' = cs -> flow_refused desc dst (calls w) cs ->
            wp (dealloc p;; ret None) Q w') as Fail.
  { intros cs w' Ho' Hc' Hr. apply wp_bind.
    eapply wp_mono; [|apply wp_dealloc_calls, (own_dealloc p KMem l h (fun _ w' => own l h w')); [exact Ho'|done]].
    intros [] w2 [Ho2 Hc2]. apply wp_ret, HN; [done|]. by rewrite Hc2, Hc'. }
  apply wp_bind, wp_device. intros m d w2 _ Hh2 Hn2 _ Hc2 _.
  assert (own ((p, KMem) :: l) h w2) as Ho2 by (by apply (own_same _ _ w1)).
  destruct m as [m|]; [|eapply Fail; [exact Ho2|exact Hc2|right; left; by rewrite Hc1]].
  rewrite Hma. cbn [flow_modify]. apply wp_bind, wp_ret, wp_bind.
  assert (mapM id (map Some dst) = Some dst) as Em.
  { clear. induction dst as [|x r IH]; [done|]. cbn. by rewrite IH. }
  rewrite Hdst, Em. cbn [need app]. apply wp_ret. fold (desc_acts desc dst).
  apply wp_bind, wp_device. intros f d' w3 _ Hh3 Hn3 _ Hc3 _.
  assert (own ((p, KMem) :: l) h w3) as Ho3 by (by apply (own_same _ _ w2)).
  destruct f as [f|]; apply wp_bind.
  - destruct (own_live _ _ _ _ _ Ho3) as (b & Hb & _).
    eapply wp_mono; [|apply wp_and;
      [apply (own_store p KMem (BFlow f m) l h (fun _ w' => own ((p, KFlow) :: l) h w')); [exact Ho3|done]
      |eapply (wp_store p b _ (fun _ w' => heap w' = <[p := BFlow f m]> (heap w3) /\ calls w' = calls w3));
       [exact Hb|done]]].
    intros [] w4 (Ho4 & Hh4 & Hc4). apply wp_ret. eapply (HS p f m); [done|by rewrite Hh4, lookup_insert_eq|].
    unfold flow_made. by rewrite Hc4, Hc3, Hc2, Hc1.
  - apply wp_device. intros [] d'' w4 _ Hh4 Hn4 _ Hc4 _. eapply Fail; [|exact Hc4|].
    + by apply (own_same _ _ w3).
    + right; right. exists m. by rewrite Hc3, Hc2, Hc1.
Qed.

(** The calls a live flow makes when it goes. *)
Lemma wp_delete_flow p f m l h w Q :
  own ((p, KFlow) :: l) h w -> heap w !! p = Some (BFlow f m) ->
  (forall w', own l h w' -> calls w' = CMatcherDestroy m :: CFlowDestroy f :: calls w -> Q tt w') ->
  wp (delete_flow (Some p)) Q w.
Proof.
  intros Ho Hp HQ. unfold delete_flow. apply wp_bind. eapply wp_load; [exact Hp|].
  apply wp_bind, wp_device. intros [] d1 w1 _ Hh1 Hn1 _ Hc1 _.
  apply wp_bind, wp_device. intros [] d2 w2 _ Hh2 Hn2 _ Hc2 _.
  assert (own ((p, KFlow) :: l) h w2) as Ho2 by (apply (own_same _ _ w1), (own_same _ _ w); done).
  eapply wp_mono; [|apply wp_dealloc_calls, (own_dealloc p KFlow l h (fun _ w' => own l h w')); [exact Ho2|done]].
  intros [] w3 [Ho3 Hc3]. apply HQ; [done|]. by rewrite Hc3, Hc2, Hc1.
Qed.

(** Freeing the two temporary arrays. *)
Lemma wp_free_two {T} a b (k : M D T) l h w Q :
  own (ptr b KRaw ++ ptr a KRaw ++ l) h w ->
  (forall w', own l h w' -> calls w' = calls w -> wp k Q w') ->
  wp (aligned_free b;; aligned_free a;; k) Q w.
Proof.
  assert (forall p l' (w : world D) (R : unit -> world D -> Prop), own (ptr p KRaw ++ l') h w ->
            (forall w', own l' h w' -> calls w' = calls w -> R tt w') -> wp (aligned_free p) R w) as F.
  { intros [p|] l' w0 R Ho HR; [|apply wp_ret; by apply HR]. cbn [aligned_free].
    eapply wp_mono; [|apply wp_dealloc_calls, (own_dealloc p KRaw l' h (fun _ w' => own l' h w')); [exact Ho|done]].
    intros [] w1 [Ho1 Hc1]. by apply HR. }
  intros Ho Hk. apply wp_bind. eapply F; [exact Ho|]. intros w1 Ho1 Hc1. apply wp_bind.
  eapply F; [exact Ho1|]. intros w2 Ho2 Hc2. apply Hk; [done|]. by rewrite Hc2, Hc1.
Qed.

(** [apply_settings] on a rule with live destinations. *)
Lemma wp_apply_settings tirs r hs l h w Q :
  own l h w -> tirs_ok tirs h (fr_dst_tir r) hs ->
  let desc := rule_desc r (map Some hs) in
  (forall st r' w', own l h w' -> st <> DPCP_OK -> r' = r \/ r' = with_flow r None false ->
     flow_refused desc hs (calls w) (calls w') -> Q (st, r') w') ->
  (forall p f m w', own ((p, KFlow) :: l) h w' -> heap w' !! p = Some (BFlow f m) ->
     flow_made desc hs f m (calls w) (calls w') -> Q (DPCP_OK, with_flow r (Some p) false) w') ->
  wp (apply_settings tirs r) Q w.
Proof.
  intros Ho Ht desc HN HS. unfold apply_settings.
  assert (flow_refused desc hs (calls w) (calls w)) as Hid by (by left).
  destruct (m_ctx (fr_obj r)) as [ctx|]; [|apply wp_ret, HN; auto]. cbv zeta.
  case_if; [apply wp_ret, HN; auto|]. apply wp_bind.
  eapply wp_mono; [|apply wp_alloc_calls, (own_alloc (BRaw (8 * Z.of_nat (length (fr_dst_tir r)))) l h
                      (fun p w' => own (ptr p KRaw ++ l) h w')); [exact Ho|done|done]].
  intros a w1 [Ho1 Hc1]. apply wp_bind.
  match goal with |- wp (alloc ?b) _ _ =>
    eapply wp_mono; [|apply wp_alloc_calls, (own_alloc b (ptr a KRaw ++ l) h
                        (fun p w' => own (ptr p KRaw ++ ptr a KRaw ++ l) h w')); [exact Ho1|done|done]]
  end.
  intros b w2 [Ho2 Hc2]. rewrite Hc1 in Hc2.
  assert (wp (aligned_free b;; aligned_free a;; ret (DPCP_ERR_NO_MEMORY, r)) Q w2) as NoMem.
  { eapply wp_free_two; [exact Ho2|]. intros w3 Ho3 Hc3. apply wp_ret, HN; auto.
    by rewrite Hc3, Hc2. }
  destruct a as [a|], b as [b|]; try exact NoMem.
  apply wp_bind. eapply wp_tir_handles; [exact Ho2|exact Ht|]. apply wp_bind.
  eapply (wp_create_flow _ (rule_desc r (map Some hs)) hs); [exact Ho2|done|done| |].
  - intros w3 Ho3 Hr3. eapply wp_free_two; [exact Ho3|]. intros w4 Ho4 Hc4.
    apply wp_ret, HN; auto. by rewrite Hc4, <- Hc2.
  - intros p f m w3 Ho3 Hp3 Hm3. destruct (own_give _ _ _ _ _ _ Ho3 Hp3) as [Ho3' Hhp].
    eapply wp_free_two; [exact Ho3'|]. intros w4 Ho4 Hc4. apply wp_ret.
    apply (HS p f m); [exact (own_take _ _ _ _ _ Ho4 Hhp)| |by rewrite Hc4, <- Hc2].
    eapply own_frame; [exact Ho4|]. by rewrite lookup_insert_eq.
Qed.

(** Applying a rule whose destinations exist and then deleting it runs
    without undefined behaviour and leaks nothing, neither memory nor a matcher
    nor a flow.  When it succeeds the device was asked for one matcher with the
    criteria and the priority and one flow with the values, the tag if there is
    one and every destination in order, and both are destroyed again; when the
    flow is refused, the matcher is destroyed at once. *)
Theorem flow_rule_apply_ok tirs r hs l h w :
  own l h w -> tirs_ok tirs h (fr_dst_tir r) hs -> fr_flow r = None -> m_obj_handle (fr_obj r) = None ->
  let desc := rule_desc r (map Some hs) in
  wp ('(st, r') <- apply_settings tirs r;; flow_rule_delete r';; ret st)
     (fun st w' => own l h w'
        /\ (if is_ok st
            then exists f m cs, flow_made desc hs f m (calls w) cs
                                /\ calls w' = CMatcherDestroy m :: CFlowDestroy f :: cs
            else flow_refused desc hs (calls w) (calls w'))) w.
Proof.
  intros Ho Ht Hf Hob desc.
  assert (forall w', own l h w' -> forall (R : obj -> world D -> Prop), (forall o, R o w') ->
            wp (obj_delete (fr_obj r)) R w') as Del.
  { intros w' Ho' R HR. unfold obj_delete. rewrite Hob. by apply wp_bind, wp_ret, wp_ret. }
  apply wp_bind. eapply wp_apply_settings; [exact Ho|exact Ht| |].
  - intros st r' w1 Ho1 Hst Hr' Hc. apply wp_bind. unfold flow_rule_delete, revoke_settings.
    assert (fr_flow r' = None /\ fr_obj r' = fr_obj r) as [-> ->] by (by destruct Hr' as [-> | ->]).
    apply wp_bind, wp_ret, wp_bind. apply (Del w1 Ho1). intros _. apply wp_ret, wp_ret. split; [done|].
    destruct (is_ok st) eqn:E; bool_hyps; done.
  - intros p f m w1 Ho1 Hp Hm. apply wp_bind. unfold flow_rule_delete, revoke_settings.
    cbn [with_flow fr_flow fr_obj]. apply wp_bind, wp_bind. eapply wp_delete_flow; [exact Ho1|exact Hp|].
    intros w2 Ho2 Hc2. apply wp_ret, wp_bind. apply (Del w2 Ho2). intros _. apply wp_ret, wp_ret.
    split; [done|]. cbn [is_ok]. eauto.
Qed.

(** ** Any use of a rule *)

Inductive rule_op : Type :=
| RValue (v : match_params)
| RFlowId (id : Z)
| RAdd (t : Z)
| RRemove (t : Z)
| RApply
| RRevoke.

Definition rule_step (tirs : gmap Z obj) (r : flow_rule) (o : rule_op) : M D (status * flow_rule) :=
  match o with
  | RValue v => ret (set_match_value r v)
  | RFlowId id => ret (set_flow_id r id)
  | RAdd t => ret (add_dest_tir r t)
  | RRemove t => ret (remove_dest_tir r t)
  | RApply => apply_settings tirs r
  | RRevoke => revoke_settings r
  end.

Fixpoint rule_run (tirs : gmap Z obj) (r : flow_rule) (ops : list rule_op) : M D flow_rule :=
  match ops with
  | [] => ret r
  | o :: rest => '(_, r) <- rule_step tirs r o;; rule_run tirs r rest
  end.

(** Between two applications there is a revocation; [on] says whether the rule
    may be applied now. *)
Fixpoint well_used (on : bool) (ops : list rule_op) : bool :=
  match ops with
  | [] => true
  | RApply :: rest => negb on && well_used true rest
  | RRevoke :: rest => well_used false rest
  | _ :: rest => well_used on rest
  end.

(** Every TIR of the program is an object of the device. *)
Definition all_tirs_ok (tirs : gmap Z obj) (h : gmap Z blk) (ts : list Z) : Prop :=
  forall t, t ∈ ts -> exists hd, tirs_ok tirs h [t] [hd].

Definition op_tirs (o : rule_op) : list Z := match o with RAdd t => [t] | _ => [] end.

Lemma tirs_ok_all tirs h dst :
  all_tirs_ok tirs h dst -> exists hs, tirs_ok tirs h dst hs.
Proof.
  induction dst as [|t dst IH]; intros Ha; [exists []; constructor|].
  destruct (Ha t) as [hd Hd]; [by constructor|]. inversion Hd as [|? ? ? ? Hd1 _]; subst.
  destruct IH as [hs Hs]; [intros x Hx; apply Ha; by constructor|].
  exists (hd :: hs). constructor; [exact Hd1|exact Hs].
Qed.

(** What the rule owns, and what it may be asked. *)
Definition rule_inv (tirs : gmap Z obj) (l : list (Z * kind)) (h : gmap Z blk) (on : bool) (r : flow_rule)
    (w : world D) : Prop :=
  own (ptr (fr_flow r) KFlow ++ l) h w /\ (on = false -> fr_flow r = None)
  /\ m_obj_handle (fr_obj r) = None /\ all_tirs_ok tirs h (fr_dst_tir r).

Lemma wp_rule_step tirs l h on r o w Q :
  rule_inv tirs l h on r w -> all_tirs_ok tirs h (op_tirs o) -> (o = RApply -> on = false) ->
  (forall st r' w',
     rule_inv tirs l h (match o with RApply => true | RRevoke => false | _ => on end) r' w' ->
     Q (st, r') w') ->
  wp (rule_step tirs r o) Q w.
Proof.
  intros (Ho & Hon & Hob & Ht) Hop Hap HQ. destruct o as [v|id|t|t| |]; cbn [rule_step].
  - by apply wp_ret, HQ.
  - apply wp_ret. unfold set_flow_id. case_if; by apply HQ.
  - apply wp_ret. unfold add_dest_tir. case_if; apply HQ; split_and!; try done.
    intros x [Hx|Hx]%elem_of_app; [by apply Ht|by apply Hop].
  - apply wp_ret. unfold remove_dest_tir. case_if; apply HQ; split_and!; try done.
    intros x Hx%list_elem_of_In. apply filter_In in Hx as [Hx _]. by apply Ht, list_elem_of_In.
  - destruct (tirs_ok_all _ _ _ Ht) as [hs Hs]. specialize (Hon (Hap eq_refl)). rewrite Hon in Ho.
    eapply wp_apply_settings; [exact Ho|exact Hs| |].
    + intros st r' w1 Ho1 _ Hr' _. apply HQ. destruct Hr' as [-> | ->]; split_and!; try done.
      by rewrite Hon.
    + intros p f m w1 Ho1 _ _. by apply HQ.
  - unfold revoke_settings. destruct (fr_flow r) as [f|] eqn:Ef.
    + apply wp_bind. eapply own_delete_flow; [exact Ho|]. intros w1 Ho1. by apply wp_ret, HQ.
    + apply wp_ret, HQ. split_and!; try done. by rewrite Ef.
Qed.

(** C8. Any sequence of operations on a rule that revokes it before applying it
    again, followed by its destruction, runs without undefined behaviour and
    gives back everything, whatever the device and the allocator answer. *)
Theorem flow_rule_life tirs ops r l h w :
  own l h w -> fr_flow r = None -> m_obj_handle (fr_obj r) = None ->
  all_tirs_ok tirs h (fr_dst_tir r ++ concat (map op_tirs ops)) -> well_used false ops = true ->
  wp (r' <- rule_run tirs r ops;; flow_rule_delete r') (fun _ w' => own l h w') w.
Proof.
  intros Ho Hf Hob Ht Hw.
  assert (rule_inv tirs l h false r w) as Hi.
  { split_and!; [by rewrite Hf|done|done|]. intros t Hin. apply Ht, elem_of_app. by left. }
  assert (all_tirs_ok tirs h (concat (map op_tirs ops))) as Hop.
  { intros t Hin. apply Ht, elem_of_app. by right. }
  clear Ho Hf Hob Ht. revert r w Hi Hw Hop. generalize false.
  induction ops as [|o ops IH]; intros on r w Hi Hw Hop; cbn [rule_run].
  - destruct Hi as (Ho & _ & Hob & _). apply wp_bind, wp_ret. unfold flow_rule_delete, revoke_settings.
    assert (forall w' o, own l h w' -> m_obj_handle o = None ->
              wp (_ <- obj_delete o;; ret tt) (fun _ w' => own l h w') w') as Del.
    { intros w' o Ho' Eo. apply wp_bind. eapply (own_obj_delete o l h); [unfold obj_own; by rewrite Eo|].
      intros. by apply wp_ret. }
    apply wp_bind. destruct (fr_flow r) as [f|]; [|apply wp_ret; by apply Del].
    apply wp_bind. eapply own_delete_flow; [exact Ho|]. intros w1 Ho1. apply wp_ret. by apply Del.
  - apply wp_bind, wp_bind. eapply (wp_rule_step tirs l h on r o); [exact Hi| | |].
    + intros t Hin. apply Hop. cbn. apply elem_of_app. by left.
    + intros ->. cbn in Hw. bool_hyps. done.
    + intros st r' w' Hi'. specialize (IH _ r' w' Hi').
      assert (well_used (match o with RApply => true | RRevoke => false | _ => on end) ops = true) as Hw'.
      { destruct o; cbn in Hw; bool_hyps; done. }
      apply wp_bind_inv, IH; [exact Hw'|].
      intros t Hin. apply Hop. cbn. apply elem_of_app. by right.
Qed.
End life.

(** ** Witnesses *)

(** A process with one TIR, the object at address 1 of the device's handle 7. *)
Definition fr_world : world sim := mkWorld (mkSim 8 []) {[ 1 := BObj (Some 7) ]} 2 [] [].
Definition fr_tirs : gmap Z obj := {[ 40 := mkObj 7 (Some 1) (Some 1) 0 0 ]}.
Definition fr_rule : flow_rule :=
  mkFlowRule (obj_new (Some 1)) match_zero match_zero [40; 40] None 5 1 false.

Lemma fr_world_own : own [] {[ 1 := BObj (Some 7) ]} fr_world.
Proof.
  apply (own_nil fr_world). intros p Hp. cbn in *. rewrite lookup_singleton_ne by lia. reflexivity.
Defined.

Lemma flow_rule_apply_ok_witness :
  wp ('(st, r') <- apply_settings fr_tirs fr_rule;; flow_rule_delete r';; ret st)
     (fun st w' => own [] {[ 1 := BObj (Some 7) ]} w'
        /\ (if is_ok st
            then exists f m cs, flow_made (rule_desc fr_rule [Some 7; Some 7]) [7; 7] f m [] cs
                                /\ calls w' = CMatcherDestroy m :: CFlowDestroy f :: cs
            else flow_refused (rule_desc fr_rule [Some 7; Some 7]) [7; 7] [] (calls w'))) fr_world.
Proof.
  apply (flow_rule_apply_ok fr_tirs fr_rule [7; 7] [] {[ 1 := BObj (Some 7) ]} fr_world fr_world_own);
    [|reflexivity|reflexivity].
  repeat constructor; exists (mkObj 7 (Some 1) (Some 1) 0 0), 1; repeat split; reflexivity.
Defined.

Lemma flow_rule_life_witness :
  wp (r' <- rule_run fr_tirs fr_rule [RApply; RRevoke; RAdd 40; RApply];; flow_rule_delete r')
     (fun _ w' => own [] {[ 1 := BObj (Some 7) ]} w') fr_world.
Proof.
  apply (flow_rule_life fr_tirs [RApply; RRevoke; RAdd 40; RApply] fr_rule [] {[ 1 := BObj (Some 7) ]}
           fr_world fr_world_own); [reflexivity | reflexivity | | reflexivity].
  intros t Ht. assert (t = 40) as -> by (cbn in Ht; set_solver).
  exists 7. repeat constructor. exists (mkObj 7 (Some 1) (Some 1) 0 0), 1. repeat split; reflexivity.
Defined.

(** Applying twice without revoking loses the first flow: after the destructor a
    block is still live and a flow was never destroyed. *)
Example apply_twice_leaks :
  match (r' <- rule_run fr_tirs fr_rule [RApply; RApply];; flow_rule_delete r') fr_world with
  | Ret (_, w') => heap w' !! 4 = Some (BFlow 9 8) /\ CFlowDestroy 9 ∉ calls w'
  | UB _ => False
  end.
Proof. vm_compute. split; [done|]. intros Hin. repeat (inversion Hin; subst; clear Hin; rename select (_ ∈ _) into Hin). Qed.

(** [get_tir] is in bounds exactly when the rule has a destination: on an empty
    rule the bound wraps and every index is accepted. *)
Lemma get_tir_bounds {D} r index (w : world D) :
  0 <= index < 2 ^ 32 -> Z.of_nat (length (fr_dst_tir r)) < 2 ^ 64 ->
  match fr_dst_tir r with
  | [] => fails (get_tir r index) w
  | _ :: _ =>
      get_tir r index w
      = Ret (if index <? Z.of_nat (length (fr_dst_tir r))
             then (DPCP_OK, fr_dst_tir r !! Z.to_nat index) else (DPCP_ERR_OUT_OF_RANGE, None), w)
  end.
Proof.
  intros Hi Hl. unfold get_tir. destruct (fr_dst_tir r) as [|t ts] eqn:E.
  - cbn [length]. replace (u64 (Z.of_nat 0 - 1)) with (2 ^ 64 - 1) by (by vm_compute).
    rewrite (proj2 (Z.ltb_ge _ _)) by lia. by eexists.
  - rewrite wrap_small by (cbn [length] in *; lia).
    destruct (index <? Z.of_nat (length (t :: ts))) eqn:Eb; bool_hyps.
    + rewrite (proj2 (Z.ltb_ge _ _)) by lia.
      destruct ((t :: ts) !! Z.to_nat index) as [x|] eqn:Ex; [done|].
      apply lookup_ge_None in Ex. lia.
    + rewrite (proj2 (Z.ltb_lt _ _)) by lia. done.
Qed.
