(* ===== verification/Writes.v ===== *)
(** * Moving and reordering the statements of a mailbox

    A function that fills part of a structure is given a pointer to it: its
    statements are those it would run at address 0, moved.  Statements on
    different members commute, so that the order in which independent parts of a
    mailbox are filled does not matter. *)

From S2P Require Import Prelude Codec.
From Stdlib Require Import Btauto.
Open Scope string_scope.
Open Scope list_scope.
Open Scope Z_scope.

(** ** Statements at another address *)

Definition reloc_field (p : Z) (f : field) : field := mkField (p + f_addr f) (f_sh f) (f_sz f).

Definition reloc (p : Z) (w : write) : write :=
  match w with
  | W32 f v => W32 (reloc_field p f) v
  | W64 a v => W64 (p + a) v
  | WMem a src => WMem (p + a) src
  end.

Lemma fld_reloc l p q path : fld l (p + q) path = reloc_field p (fld l q path).
Proof. unfold fld, reloc_field. simpl. f_equal. lia. Qed.

Lemma leb_shift p a b : (p + a <=? p + b) = (a <=? b).
Proof. destruct (Z.leb_spec a b), (Z.leb_spec (p + a) (p + b)); lia. Qed.

Lemma eqb_shift p a b : (p + a =? p + b) = (a =? b).
Proof. destruct (Z.eqb_spec a b), (Z.eqb_spec (p + a) (p + b)); lia. Qed.

Lemma leb0_shift p a : 0 <= p -> (0 <=? a) = true -> (0 <=? p + a) = true.
Proof. intros ? ?%Z.leb_le. apply Z.leb_le. lia. Qed.

Lemma hit1_reloc p f w : 0 <= p -> hit1 f w ≠ Clash -> hit1 (reloc_field p f) (reloc p w) = hit1 f w.
Proof.
  intros Hp. destruct w as [[ga gs gz] v|a v|a src], f as [fa fs fz]; cbn [hit1 reloc];
    unfold f_eqb, f_disj, f_ok, f_out; cbn [reloc_field f_addr f_sh f_sz];
    rewrite <- ?Z.add_assoc, ?leb_shift, ?eqb_shift.
  - destruct (_ && _ && _); [done|].
    destruct (0 <=? ga) eqn:E; [by rewrite (leb0_shift p ga Hp E)|done].
  - destruct (0 <=? a) eqn:E; [by rewrite (leb0_shift p a Hp E)|done].
  - destruct (0 <=? a) eqn:E; [by rewrite (leb0_shift p a Hp E)|done].
Qed.

Lemma seek_reloc p f ws :
  0 <= p -> seek f ws ≠ Clash -> seek (reloc_field p f) (map (reloc p) ws) = seek f ws.
Proof.
  intros Hp. induction ws as [|w r IH]; [done|]. cbn [seek map]. intros Hc.
  destruct (seek f r) eqn:E; rewrite IH by (done || by rewrite E); [by apply hit1_reloc|done|done].
Qed.

Lemma reloc_only p c ws : map (reloc p) (only c ws) = only c (map (reloc p) ws).
Proof. by destruct c. Qed.

Lemma reloc_set l p q path v : reloc p (DEVX_SET l q path v) = DEVX_SET l (p + q) path v.
Proof. unfold DEVX_SET. by rewrite fld_reloc. Qed.

Lemma reloc_addr l p q path : p + ADDR_OF l q path = ADDR_OF l (p + q) path.
Proof. unfold ADDR_OF. lia. Qed.

(** ** Statements that commute *)

Lemma list_rd_ext b b' :
  length b = length b' -> (forall i, 0 <= i < Z.of_nat (length b) -> rd b i = rd b' i) -> b = b'.
Proof.
  intros Hl Hr. apply list_eq_same_length with (length b); [done..|]. intros i x y Hi E E'.
  specialize (Hr (Z.of_nat i) ltac:(lia)). unfold rd in Hr. rewrite Nat2Z.id, E, E' in Hr. done.
Qed.

Lemma wr_comm a c x y b : 0 <= a -> 0 <= c -> a ≠ c -> wr a x (wr c y b) = wr c y (wr a x b).
Proof. intros. unfold wr. apply list_insert_insert_ne. lia. Qed.

Lemma wr_wr a x y b : wr a x (wr a y b) = wr a x b.
Proof. unfold wr. by rewrite list_insert_insert_eq. Qed.

Lemma wr_be32_comm a x c y b :
  0 <= a -> 0 <= c -> (a + 1 <= c \/ c + 4 <= a) ->
  wr a x (cpu_to_be32 c y b) = cpu_to_be32 c y (wr a x b).
Proof. intros. unfold cpu_to_be32. by rewrite !(wr_comm a) by lia. Qed.

Lemma be32_comm a c x y b :
  0 <= a -> 0 <= c -> (a + 4 <= c \/ c + 4 <= a) ->
  cpu_to_be32 a x (cpu_to_be32 c y b) = cpu_to_be32 c y (cpu_to_be32 a x b).
Proof. intros. unfold cpu_to_be32 at 1 4. by rewrite !wr_be32_comm by lia. Qed.

Lemma be32_be32 a x y b : 0 <= a -> cpu_to_be32 a x (cpu_to_be32 a y b) = cpu_to_be32 a x b.
Proof.
  intros. unfold cpu_to_be32.
  rewrite (wr_comm a _ _ _ (wr (a + 2) _ _)), (wr_comm a _ _ _ (wr (a + 1) _ _)), (wr_comm a (a + 1)), wr_wr by lia.
  rewrite (wr_comm (a + 1) (a + 3)), (wr_comm (a + 1) (a + 2)), wr_wr by lia.
  by rewrite (wr_comm (a + 2) (a + 3)), wr_wr, wr_wr by lia.
Qed.

Lemma cpu_to_be32_wrap a w b : cpu_to_be32 a (u32 w) b = cpu_to_be32 a w b.
Proof.
  assert (forall k, 0 <= k -> k + 8 <= 32 -> u8 (u32 w / 2 ^ k) = u8 (w / 2 ^ k)) as E.
  { intros k Hk Hk'. unfold wrap. rewrite <- !Z.shiftr_div_pow2 by lia. zbits.
    destruct (Z.lt_ge_cases n 8); [|rewrite !Z.mod_pow2_bits_high by lia; done].
    rewrite !Z.mod_pow2_bits_low, !Z.shiftr_spec by lia. by rewrite Z.mod_pow2_bits_low by lia. }
  unfold cpu_to_be32. rewrite !E by lia.
  pose proof (E 0 ltac:(lia) ltac:(lia)) as E0. rewrite Z.pow_0_r, !Z.div_1_r in E0. by rewrite E0.
Qed.

(** Storing [x] under one mask and then [y] under another that is disjoint. *)
Lemma word_comm w x y sf zf sg zg :
  0 <= sf -> 0 <= zf -> sf + zf <= 32 -> 0 <= sg -> 0 <= zg -> sg + zg <= 32 ->
  (sf + zf <= sg \/ sg + zg <= sf) ->
  let mf := Z.shiftl (Z.ones zf) sf in let mg := Z.shiftl (Z.ones zg) sg in
  let xf := Z.shiftl (Z.land x (Z.ones zf)) sf in let yg := Z.shiftl (Z.land y (Z.ones zg)) sg in
  u32 (Z.lor (Z.land (u32 (Z.lor (Z.land w (Z.lnot mg)) yg)) (Z.lnot mf)) xf)
  = u32 (Z.lor (Z.land (u32 (Z.lor (Z.land w (Z.lnot mf)) xf)) (Z.lnot mg)) yg).
Proof.
  intros H1 H2 H3 H4 H5 H6 Hd mf mg xf yg. unfold wrap. zbits.
  destruct (Z.lt_ge_cases n 32); [|by rewrite !Z.mod_pow2_bits_high by lia].
  rewrite !Z.mod_pow2_bits_low by lia.
  rewrite !Z.lor_spec, !Z.land_spec, !Z.lnot_spec, !Z.mod_pow2_bits_low by lia.
  rewrite !Z.lor_spec, !Z.land_spec, !Z.lnot_spec by lia.
  unfold mf, mg, xf, yg. rewrite !Z.shiftl_spec, !Z.land_spec by lia.
  assert (Z.testbit (Z.ones zf) (n - sf) = false \/ Z.testbit (Z.ones zg) (n - sg) = false) as [-> | ->]; [|btauto..].
  destruct Hd, (Z.lt_ge_cases n sf), (Z.lt_ge_cases n sg);
    first [ left; apply Z.testbit_neg_r; lia | right; apply Z.testbit_neg_r; lia
          | left; apply Z.ones_spec_high; lia | right; apply Z.ones_spec_high; lia ].
Qed.

Lemma set_field_comm f g x y b :
  f_in f (Z.of_nat (length b)) = true -> f_in g (Z.of_nat (length b)) = true -> f_disj f g = true ->
  set_field f x (set_field g y b) = set_field g y (set_field f x b).
Proof.
  destruct f as [fa fs fz], g as [ga gs gz]. unfold f_in, f_ok, f_disj, set_field.
  cbn [f_addr f_sh f_sz]. intros Hf Hg Hd. bool_hyps.
  destruct (Z.eqb_spec fa ga) as [->|Hne].
  - rewrite !be32_be32, !be32_read_same by lia.
    rewrite <- cpu_to_be32_wrap, <- (cpu_to_be32_wrap ga (Z.lor _ (Z.shiftl (Z.land y _) _))).
    f_equal. apply word_comm; lia.
  - assert (fa + 4 <= ga \/ ga + 4 <= fa) as Hd'.
    { rewrite orb_false_r in Hd. apply orb_prop in Hd as [Hd|Hd]; bool_hyps; lia. }
    rewrite !be32_read_other by lia. apply be32_comm; lia.
Qed.

Lemma set_set_same f x y b :
  f_in f (Z.of_nat (length b)) = true -> set_field f x (set_field f y b) = set_field f x b.
Proof.
  destruct f as [a s z]. unfold f_in, f_ok, set_field. cbn [f_addr f_sh f_sz]. intros. bool_hyps.
  rewrite be32_be32, be32_read_same by lia. rewrite <- cpu_to_be32_wrap, <- (cpu_to_be32_wrap a (Z.lor (Z.land (be32_to_cpu b a) _) _)).
  f_equal. unfold wrap. zbits. destruct (Z.lt_ge_cases n 32); [|by rewrite !Z.mod_pow2_bits_high by lia].
  rewrite !Z.mod_pow2_bits_low by lia.
  rewrite !Z.lor_spec, !Z.land_spec, !Z.lnot_spec, !Z.mod_pow2_bits_low by lia.
  rewrite !Z.lor_spec, !Z.land_spec, !Z.lnot_spec by lia.
  rewrite !Z.shiftl_spec, !Z.land_spec by lia. btauto.
Qed.

(** A statement that reads a member and stores what it makes of it. *)
Definition upd (f : field) (g : Z -> Z) (b : list Z) : list Z := set_field f (g (get_field f b)) b.

Lemma length_upd f g b : length (upd f g b) = length b.
Proof. apply length_set_field. Qed.

Lemma f_disj_sym f g : f_disj f g = f_disj g f.
Proof.
  unfold f_disj. rewrite (Z.eqb_sym (f_addr g)). f_equal; [apply orb_comm|]. f_equal. apply orb_comm.
Qed.

Lemma f_in_ok f n : f_in f n = true -> f_ok f = true.
Proof. unfold f_in. by intros [? _]%andb_prop. Qed.

Lemma upd_comm f g p q b :
  f_in f (Z.of_nat (length b)) = true -> f_in g (Z.of_nat (length b)) = true -> f_disj f g = true ->
  upd f p (upd g q b) = upd g q (upd f p b).
Proof.
  intros Hf Hg Hd. unfold upd.
  pose proof (f_in_ok _ _ Hf). pose proof (f_in_ok _ _ Hg).
  rewrite get_set_other, (get_set_other g f) by (rewrite ?(f_disj_sym g f); done).
  by apply set_field_comm.
Qed.

Lemma set_field_ext f v v' b :
  Z.land v (Z.ones (f_sz f)) = Z.land v' (Z.ones (f_sz f)) -> set_field f v b = set_field f v' b.
Proof. unfold set_field. by intros ->. Qed.

(** Setting bits of a member, in either order. *)
Lemma upd_lor_comm f x y b :
  f_in f (Z.of_nat (length b)) = true ->
  upd f (Z.lor x) (upd f (Z.lor y) b) = upd f (Z.lor y) (upd f (Z.lor x) b).
Proof.
  intros Hf. unfold upd. rewrite !get_set_same, !set_set_same by done.
  assert (0 <= f_sz f) as Hz by (unfold f_in, f_ok in Hf; bool_hyps; lia).
  apply set_field_ext. rewrite <- !Z.land_ones by done. zbits.
  rewrite !Z.land_spec, !Z.lor_spec, !Z.land_spec, !Z.lor_spec. btauto.
Qed.

(** ** Statement lists in another order *)

(** [u] and [v] give the same buffer in either order. *)
Definition commute (n : nat) (u v : write) : Prop :=
  forall b, length b = n -> exec1 u (exec1 v b) = exec1 v (exec1 u b).

Lemma exec_perm n ws ws' b :
  Permutation ws ws' -> length b = n ->
  (forall u v, In u ws -> In v ws -> u = v \/ commute n u v) -> exec ws b = exec ws' b.
Proof.
  intros Hp. revert b. induction Hp as [|w r r' Hp IH|u v r|r1 r2 r3 H12 IH12 H23 IH23]; intros b Hb Hc; cbn [exec].
  - done.
  - apply IH; [by rewrite length_exec1|]. intros. apply Hc; by right.
  - destruct (Hc u v) as [-> | Hu]; [by right; left|by left|done|]. by rewrite Hu.
  - rewrite IH12 by done. apply IH23; [done|]. intros u v Hu Hv.
    apply Hc; by eapply Permutation_in; [symmetry|].
Qed.

Lemma concat_perm {A} (l l' : list (list A)) : Permutation l l' -> Permutation (concat l) (concat l').
Proof.
  induction 1 as [|x l l' _ IH|x y l|l1 l2 l3 _ IH1 _ IH2]; cbn [concat].
  - done.
  - by apply Permutation_app_head.
  - rewrite !app_assoc. apply Permutation_app_tail, Permutation_app_comm.
  - by transitivity (concat l2).
Qed.

(** Stores to members of which no two share a bit, in a buffer of [n] bytes. *)
Fixpoint separate (n : Z) (ws : list write) : bool :=
  match ws with
  | [] => true
  | W32 f _ :: r =>
      f_in f n && separate n r
      && forallb (fun w => match w with W32 g _ => f_disj f g | _ => false end) r
  | _ :: _ => false
  end.

Lemma separate_commute n ws :
  separate (Z.of_nat n) ws = true -> forall u v, In u ws -> In v ws -> u = v \/ commute n u v.
Proof.
  induction ws as [|w r IH]; [done|]. destruct w as [f x| |]; [|done..]. cbn [separate]. intros Hs.
  apply andb_prop in Hs as [Hs Hd]. apply andb_prop in Hs as [Hf Hs]. rewrite forallb_forall in Hd.
  assert (forall v, In v r -> commute n (W32 f x) v) as Hr.
  { intros v Hv b <-. specialize (Hd v Hv). destruct v as [g y| |]; [|done..]. cbn [exec1].
    apply set_field_comm; [done| |done]. clear -Hs Hv. induction r as [|[h z| |] r IH]; [done| |done..].
    cbn [separate] in Hs. bool_hyps. destruct Hv as [E|Hv]; [by injection E as -> ->|by apply IH]. }
  intros u v [<-|Hu] [<-|Hv]; [by left|right; by apply Hr|right|by apply IH].
  intros b Hb. symmetry. by apply Hr.
Qed.

(** Independent stores may be reordered at will. *)
Lemma exec_separate n ws ws' b :
  Permutation ws ws' -> length b = n -> separate (Z.of_nat n) ws = true -> exec ws b = exec ws' b.
Proof. intros Hp Hb Hs. apply (exec_perm n); [done|done|]. by apply separate_commute. Qed.

Lemma f_in_reloc p f k n : 0 <= p -> p + k <= n -> f_in f k = true -> f_in (reloc_field p f) n = true.
Proof.
  destruct f as [a s z]. unfold f_in, f_ok. cbn [reloc_field f_addr f_sh f_sz]. intros. bool_hyps.
  rewrite !andb_true_iff, !Z.leb_le. lia.
Qed.

Lemma f_disj_reloc p f g : f_disj (reloc_field p f) (reloc_field p g) = f_disj f g.
Proof.
  destruct f as [fa fs fz], g as [ga gs gz]. unfold f_disj. cbn [reloc_field f_addr f_sh f_sz].
  by rewrite <- !Z.add_assoc, !leb_shift, eqb_shift.
Qed.

Lemma separate_reloc p k n ws :
  0 <= p -> p + k <= n -> separate k ws = true -> separate n (map (reloc p) ws) = true.
Proof.
  intros Hp Hn. induction ws as [|[f x| |] r IH]; [done| |done..]. cbn [separate map reloc]. intros Hs.
  apply andb_prop in Hs as [Hs Hd]. apply andb_prop in Hs as [Hf Hs].
  rewrite (f_in_reloc p f k n), IH by done. cbn [andb].
  rewrite forallb_forall in *. intros w (u & <- & Hu)%in_map_iff. specialize (Hd u Hu).
  destruct u; [|done..]. cbn [reloc]. by rewrite f_disj_reloc.
Qed.

(** Reading a member at a pointer, when the bytes it points to were zero. *)
Definition zeroed (b : list Z) (p n : Z) : Prop := forall i, p <= i < p + n -> rd b i = 0.

Lemma get_reloc l p path ws b k v :
  0 <= p -> p + k <= Z.of_nat (length b) -> zeroed b p k -> f_in (fld l 0 path) k = true ->
  match seek (fld l 0 path) ws with
  | Miss => v = 0
  | Val x => v = x mod 2 ^ f_sz (fld l 0 path)
  | Clash => False
  end ->
  DEVX_GET l p path (exec (map (reloc p) ws) b) = v.
Proof.
  intros Hp Hl Hz Hf Hs. unfold DEVX_GET. rewrite <- (Z.add_0_r p) at 1. rewrite fld_reloc.
  pose proof (get_exec (reloc_field p (fld l 0 path)) (map (reloc p) ws) b) as He.
  rewrite seek_reloc in He by (done || by destruct (seek _ _)).
  specialize (He (f_in_reloc p _ k _ Hp Hl Hf)). destruct (seek (fld l 0 path) ws) as [|x|]; [|by subst|done].
  rewrite He, Hs. unfold get_field, be32_to_cpu. cbn [reloc_field f_addr f_sh f_sz].
  unfold f_in, f_ok in Hf. bool_hyps. rewrite !Hz by lia. cbn. by rewrite Z.shiftr_0_l.
Qed.

(** Stores at or beyond the address [k]. *)
Definition from (k : Z) (w : write) : bool :=
  match w with W32 g _ => f_ok g && (k <=? f_addr g) | _ => false end.

Lemma seek_below f k ws :
  f_addr f + 4 <= k -> forallb (from k) ws = true -> seek f ws = Miss.
Proof.
  intros Hk. induction ws as [|[g x| |] r IH]; [done| |done..]. cbn [forallb from seek]. intros Hs.
  apply andb_prop in Hs as [Hg Hr]. apply andb_prop in Hg as [Hg Ha]. rewrite IH by done. cbn [hit1].
  unfold f_eqb, f_disj. rewrite Hg. apply Z.leb_le in Ha.
  destruct (Z.eqb_spec (f_addr f) (f_addr g)); [lia|]. cbn [andb].
  by replace (f_addr f + 4 <=? f_addr g) with true by (symmetry; apply Z.leb_le; lia).
Qed.

(** Stores that end at the address [k] or before. *)
Definition until (k : Z) (w : write) : bool :=
  match w with W32 g _ => f_ok g && (f_addr g + 4 <=? k) | _ => false end.

Lemma seek_beyond f k ws :
  k <= f_addr f -> forallb (until k) ws = true -> seek f ws = Miss.
Proof.
  intros Hk. induction ws as [|[g x| |] r IH]; [done| |done..]. cbn [forallb until seek]. intros Hs.
  apply andb_prop in Hs as [Hg Hr]. apply andb_prop in Hg as [Hg Ha]. rewrite IH by done. cbn [hit1].
  unfold f_eqb, f_disj. rewrite Hg. apply Z.leb_le in Ha.
  destruct (Z.eqb_spec (f_addr f) (f_addr g)); [lia|]. cbn [andb].
  replace (f_addr g + 4 <=? f_addr f) with true by (symmetry; apply Z.leb_le; lia).
  by rewrite orb_true_r.
Qed.

Lemma forallb_only P c (ws : list write) : forallb P ws = true -> forallb P (only c ws) = true.
Proof. by destruct c. Qed.

(** Stores beyond a member leave it alone. *)
Lemma get_skip l p path ws rest b k :
  f_in (fld l p path) k = true -> k <= Z.of_nat (length b) -> forallb (from k) rest = true ->
  DEVX_GET l p path (exec (ws ++ rest) b) = DEVX_GET l p path (exec ws b).
Proof.
  intros Hf Hk Hr. rewrite exec_app. unfold DEVX_GET.
  pose proof (get_exec (fld l p path) rest (exec ws b)) as He. rewrite length_exec in He.
  assert (f_addr (fld l p path) + 4 <= k) as Ha by (unfold f_in in Hf; bool_hyps; lia).
  rewrite (seek_below _ k) in He by done. apply He.
  unfold f_in in *. bool_hyps. rewrite andb_true_iff, Z.leb_le. split; [done|lia].
Qed.

(** A member read from a zeroed buffer. *)
Lemma get_zeroed l p path ws n v :
  f_in (fld l p path) n = true ->
  match seek (fld l p path) ws with
  | Miss => v = 0
  | Val x => v = x mod 2 ^ f_sz (fld l p path)
  | Clash => False
  end ->
  DEVX_GET l p path (exec ws (zeros n)) = v.
Proof.
  intros Hf Hs. unfold DEVX_GET. pose proof (get_exec (fld l p path) ws (zeros n)) as He.
  assert (0 <= n) by (unfold f_in, f_ok in Hf; bool_hyps; lia). rewrite length_zeros in He by done.
  specialize (He Hf). destruct (seek _ _); [by rewrite He, get_zeros|by subst|done].
Qed.

Lemma from_reloc p k ws : 0 <= p -> forallb (from k) ws = true -> forallb (from (p + k)) (map (reloc p) ws) = true.
Proof.
  intros Hp. induction ws as [|[[a s z] x| |] r IH]; [done| |done..]. cbn [forallb map reloc]. intros Hs.
  apply andb_prop in Hs as [Hf Hr]. rewrite IH by done. rewrite andb_true_r. cbn [from reloc_field] in *.
  unfold f_ok in *. cbn [f_addr f_sh f_sz] in *. bool_hyps. rewrite !andb_true_iff, !Z.leb_le. cbn. lia.
Qed.

(** Stores below an address leave the bytes from it on. *)
Lemma exec_until_rd k ws b i :
  forallb (until k) ws = true -> k <= i -> rd (exec ws b) i = rd b i.
Proof.
  intros Hs Hi. revert b Hs. induction ws as [|[[a s z] x| |] r IH]; intros b Hs; [done| |done..].
  cbn [forallb] in Hs. apply andb_prop in Hs as [Hf Hr]. cbn [exec]. rewrite IH by done. cbn [exec1].
  cbn [until] in Hf. unfold f_ok in Hf. cbn [f_addr f_sh f_sz] in Hf. bool_hyps.
  unfold set_field. cbn [f_addr]. apply rd_be32_other; lia.
Qed.
