(* ===== verification/Matcher.v ===== *)
(** * Flow matchers (src/src/dpcp/flow_matcher.cpp)

    A [flow_matcher] writes match parameters into the [fte_match_param] part of
    a mailbox at a pointer: the masks of a flow group and the values of its
    rules go through the same code, so that a rule sets the members its group
    matches on and no other.  A filling function is the statements it runs with
    the status it returns; statements that ran before an error stay. *)

From S2P Require Import Prelude Codec Prm Dcmd Own Sim Obj Fr Writes.
Open Scope string_scope.
Open Scope list_scope.
Open Scope Z_scope.

(** ** Match parameters (src/src/api/dpcp.h) *)

(** [struct parser_sample_field] *)
Record parser_sample_field := mkSample { ps_val : Z; ps_id : Z }.

#[global] Instance sample_inhabited : Inhabited parser_sample_field := populate (mkSample 0 0).

(** [struct match_params_lyr_2]: the addresses are 8 bytes each. *)
Record match_params_lyr_2 := mkLyr2 {
  l2_src_mac : list Z;
  l2_dst_mac : list Z;
  l2_ethertype : Z;
  l2_first_vlan_id : Z
}.

Record match_params_lyr_3 := mkLyr3 {
  l3_src_ip : Z;
  l3_dst_ip : Z;
  l3_ip_protocol : Z;
  l3_ip_version : Z
}.

(** [enum match_params_lyr_4_type] *)
Definition lyr4_NONE : Z := 0.
Definition lyr4_TCP : Z := 1.
Definition lyr4_UDP : Z := 2.

Record match_params_lyr_4 := mkLyr4 {
  l4_type : Z;
  l4_src_port : Z;
  l4_dst_port : Z
}.

Record match_params_ex := mkMatchEx {
  match_lyr2 : match_params_lyr_2;
  match_lyr3 : match_params_lyr_3;
  match_lyr4 : match_params_lyr_4;
  match_parser_sample_field_vec : list parser_sample_field;
  match_metadata_reg_c_0 : Z
}.

(** [enum flow_group_match_criteria_enable] *)
Definition FG_MATCH_OUTER_HDR : Z := 0x1.
Definition FG_MATCH_METADATA_REG_C_0 : Z := 0x8.
Definition FG_MATCH_PARSER_FIELDS : Z := 0x20.

(** [struct flow_matcher_attr], the state of a [flow_matcher]. *)
Record flow_matcher := mkFlowMatcher {
  fm_criteria : match_params_ex;
  fm_enabled : Z
}.

(** ** Filling functions *)

(** The result of a filling function: its status and the statements it ran. *)
Definition fill : Type := status * list write.

(** [ret = f(); if (ret != DPCP_OK) return ret; g...] *)
Definition fill_then (f g : fill) : fill :=
  if is_ok (fst f) then (fst g, snd f ++ snd g) else f.

Definition nz (z : Z) : bool := negb (z =? 0).

(** A test of one bit of the enabled criteria. *)
Definition crit_on (m : flow_matcher) (bit : Z) : bool := nz (Z.land (fm_enabled m) bit).

(** [memcmp(mac, zero_mac, 8)] *)
Definition mac_set (mac : list Z) : bool := existsb (fun b => negb (b =? 0)) mac.

(** [flow_matcher::set_outer_header_lyr_2_fields] *)
Definition set_outer_header_lyr_2_fields (m : flow_matcher) (outer : Z) (v : match_params_ex) : fill :=
  let c := match_lyr2 (fm_criteria m) in
  let x := match_lyr2 v in
  (DPCP_OK,
   only (mac_set (l2_dst_mac c))
     (copy_ether_mac (ADDR_OF ifc.fte_match_set_lyr_2_4 outer ["dmac_47_16"]) (l2_dst_mac x))
   ++ only (mac_set (l2_src_mac c))
     (copy_ether_mac (ADDR_OF ifc.fte_match_set_lyr_2_4 outer ["smac_47_16"]) (l2_src_mac x))
   ++ only (nz (l2_ethertype c))
     [DEVX_SET ifc.fte_match_set_lyr_2_4 outer ["ethertype"] (l2_ethertype x)]
   ++ only (nz (l2_first_vlan_id c))
     [DEVX_SET ifc.fte_match_set_lyr_2_4 outer ["first_vid"] (l2_first_vlan_id x);
      DEVX_SET ifc.fte_match_set_lyr_2_4 outer ["cvlan_tag"] 1]).

(** [flow_matcher::set_outer_header_lyr_3_fields] *)
Definition set_outer_header_lyr_3_fields (m : flow_matcher) (outer : Z) (v : match_params_ex) : fill :=
  let c := match_lyr3 (fm_criteria m) in
  let x := match_lyr3 v in
  (DPCP_OK,
   only (nz (l3_dst_ip c))
     [DEVX_SET ifc.fte_match_set_lyr_2_4 outer ["dst_ipv4_dst_ipv6"; "ipv4_layout"; "ipv4"] (l3_dst_ip x)]
   ++ only (nz (l3_src_ip c))
     [DEVX_SET ifc.fte_match_set_lyr_2_4 outer ["src_ipv4_src_ipv6"; "ipv4_layout"; "ipv4"] (l3_src_ip x)]
   ++ only (nz (l3_ip_protocol c))
     [DEVX_SET ifc.fte_match_set_lyr_2_4 outer ["ip_protocol"] (l3_ip_protocol x)]
   ++ only (nz (l3_ip_version c))
     [DEVX_SET ifc.fte_match_set_lyr_2_4 outer ["ip_version"] (l3_ip_version x)]).

(** [flow_matcher::set_outer_header_lyr_4_fields] *)
Definition set_outer_header_lyr_4_fields (m : flow_matcher) (outer : Z) (v : match_params_ex) : fill :=
  let c := match_lyr4 (fm_criteria m) in
  let x := match_lyr4 v in
  if l4_type c =? lyr4_NONE then (DPCP_OK, [])
  else if l4_type c =? lyr4_UDP then
    (DPCP_OK,
     only (nz (l4_dst_port c)) [DEVX_SET ifc.fte_match_set_lyr_2_4 outer ["udp_dport"] (l4_dst_port x)]
     ++ only (nz (l4_src_port c)) [DEVX_SET ifc.fte_match_set_lyr_2_4 outer ["udp_sport"] (l4_src_port x)])
  else if l4_type c =? lyr4_TCP then
    (DPCP_OK,
     only (nz (l4_dst_port c)) [DEVX_SET ifc.fte_match_set_lyr_2_4 outer ["tcp_dport"] (l4_dst_port x)]
     ++ only (nz (l4_src_port c)) [DEVX_SET ifc.fte_match_set_lyr_2_4 outer ["tcp_sport"] (l4_src_port x)])
  else (DPCP_ERR_NO_SUPPORT, []).

(** [flow_matcher::set_outer_header_fields] *)
Definition set_outer_header_fields (m : flow_matcher) (match_params : Z) (v : match_params_ex) : fill :=
  let outer := ADDR_OF ifc.fte_match_param match_params ["outer_headers"] in
  if negb (crit_on m FG_MATCH_OUTER_HDR) then (DPCP_OK, [])
  else
    fill_then (set_outer_header_lyr_2_fields m outer v)
      (fill_then (set_outer_header_lyr_3_fields m outer v)
         (set_outer_header_lyr_4_fields m outer v)).

(** One case of the switch over the number of samples. *)
Definition sample_case (progr : Z) (value id : string) (s : parser_sample_field) : list write :=
  [DEVX_SET ifc.fte_match_set_misc4 progr [F value] (ps_val s);
   DEVX_SET ifc.fte_match_set_misc4 progr [F id] (ps_id s)].

(** The switch: each case falls through to the ones below it.  The indices are
    in range, the caller has compared the sizes. *)
Definition sample_switch (progr : Z) (n : Z) (vec : list parser_sample_field) : fill :=
  let c0 := [] in
  let c1 := sample_case progr "prog_sample_field_value_0" "prog_sample_field_id_0" (vec !!! 0%nat) ++ c0 in
  let c2 := sample_case progr "prog_sample_field_value_1" "prog_sample_field_id_1" (vec !!! 1%nat) ++ c1 in
  let c3 := sample_case progr "prog_sample_field_value_2" "prog_sample_field_id_2" (vec !!! 2%nat) ++ c2 in
  let c4 := sample_case progr "prog_sample_field_value_3" "prog_sample_field_id_3" (vec !!! 3%nat) ++ c3 in
  let c5 := sample_case progr "prog_sample_field_value_4" "prog_sample_field_id_4" (vec !!! 4%nat) ++ c4 in
  let c6 := sample_case progr "prog_sample_field_value_5" "prog_sample_field_id_5" (vec !!! 5%nat) ++ c5 in
  let c7 := sample_case progr "prog_sample_field_value_6" "prog_sample_field_id_6" (vec !!! 6%nat) ++ c6 in
  let c8 := sample_case progr "prog_sample_field_value_7" "prog_sample_field_id_7" (vec !!! 7%nat) ++ c7 in
  match n with
  | 8 => (DPCP_OK, c8)
  | 7 => (DPCP_OK, c7)
  | 6 => (DPCP_OK, c6)
  | 5 => (DPCP_OK, c5)
  | 4 => (DPCP_OK, c4)
  | 3 => (DPCP_OK, c3)
  | 2 => (DPCP_OK, c2)
  | 1 => (DPCP_OK, c1)
  | 0 => (DPCP_OK, c0)
  | _ => (DPCP_ERR_OUT_OF_RANGE, [])
  end.

(** [flow_matcher::set_prog_sample_fileds] *)
Definition set_prog_sample_fileds (m : flow_matcher) (match_params : Z) (v : match_params_ex) : fill :=
  let progr := ADDR_OF ifc.fte_match_param match_params ["misc_parameters_4"] in
  let nc := Z.of_nat (length (match_parser_sample_field_vec (fm_criteria m))) in
  let nv := Z.of_nat (length (match_parser_sample_field_vec v)) in
  if negb (crit_on m FG_MATCH_PARSER_FIELDS) then (DPCP_OK, [])
  else if negb (nc =? nv) then (DPCP_ERR_INVALID_PARAM, [])
  else sample_switch progr nc (match_parser_sample_field_vec v).

(** [flow_matcher::set_metadata_register_0_field] *)
Definition set_metadata_register_0_field (m : flow_matcher) (metadata_registers : Z) (v : match_params_ex)
  : fill :=
  if negb (crit_on m FG_MATCH_METADATA_REG_C_0) then (DPCP_OK, [])
  else
    (DPCP_OK,
     only (nz (match_metadata_reg_c_0 (fm_criteria m)))
       [DEVX_SET ifc.fte_match_set_misc2 metadata_registers ["metadata_reg_c_0"] (match_metadata_reg_c_0 v)]).

(** [flow_matcher::set_metadata_registers_fields] *)
Definition set_metadata_registers_fields (m : flow_matcher) (match_params : Z) (v : match_params_ex) : fill :=
  set_metadata_register_0_field m (ADDR_OF ifc.fte_match_param match_params ["misc_parameters_2"]) v.

(** [flow_matcher::apply] *)
Definition matcher_apply (m : flow_matcher) (match_params : Z) (v : match_params_ex) : fill :=
  fill_then (set_outer_header_fields m match_params v)
    (fill_then (set_prog_sample_fileds m match_params v)
       (set_metadata_registers_fields m match_params v)).

Arguments matcher_apply : simpl never.

(** ** A matcher at another pointer *)

Definition reloc_fill (p : Z) (f : fill) : fill := (fst f, map (reloc p) (snd f)).

Lemma reloc_mac p q mac : map (reloc p) (copy_ether_mac q mac) = copy_ether_mac (p + q) mac.
Proof. unfold copy_ether_mac, reloc, reloc_field. cbn [map f_addr f_sh f_sz]. by rewrite <- !Z.add_assoc. Qed.

Lemma reloc_sample p q a b s : map (reloc p) (sample_case q a b s) = sample_case (p + q) a b s.
Proof. unfold sample_case. cbn [map]. by rewrite !reloc_set. Qed.

Lemma reloc_then p f g : reloc_fill p (fill_then f g) = fill_then (reloc_fill p f) (reloc_fill p g).
Proof.
  destruct f as [s1 w1], g as [s2 w2]. unfold fill_then, reloc_fill. cbn [fst snd].
  destruct (is_ok s1); [|done]. cbn [fst snd]. by rewrite map_app.
Qed.

Ltac reloc_simp :=
  unfold reloc_fill; cbn [fst snd map];
  rewrite ?map_app, ?reloc_only, ?reloc_mac, ?reloc_addr; cbn [map];
  rewrite ?reloc_set, ?reloc_sample, ?reloc_addr; try done.

Lemma reloc_switch p q n vec : reloc_fill p (sample_switch q n vec) = sample_switch (p + q) n vec.
Proof.
  unfold sample_switch. destruct n as [|n|]; [done| |done].
  do 4 (try destruct n as [n|n|]); reloc_simp.
Qed.

(** The matcher writes at a pointer what it writes at 0, moved there. *)
Lemma matcher_reloc m p v : matcher_apply m p v = reloc_fill p (matcher_apply m 0 v).
Proof.
  unfold matcher_apply. rewrite !reloc_then. f_equal; [|f_equal].
  - unfold set_outer_header_fields. destruct (negb _); [done|]. rewrite !reloc_then.
    rewrite <- (Z.add_0_r p) at 1 2 3. rewrite <- !reloc_addr. f_equal; [|f_equal].
    + unfold set_outer_header_lyr_2_fields. reloc_simp.
    + unfold set_outer_header_lyr_3_fields. reloc_simp.
    + unfold set_outer_header_lyr_4_fields. repeat case_match; reloc_simp.
  - unfold set_prog_sample_fileds. repeat case_match; [done..|].
    rewrite reloc_switch, reloc_addr. by rewrite Z.add_0_r.
  - unfold set_metadata_registers_fields, set_metadata_register_0_field. case_match; [done|].
    reloc_simp. by rewrite Z.add_0_r.
Qed.

(** ** The switch as a loop *)

Definition sample_names : list (string * string) :=
  [("prog_sample_field_value_0", "prog_sample_field_id_0");
   ("prog_sample_field_value_1", "prog_sample_field_id_1");
   ("prog_sample_field_value_2", "prog_sample_field_id_2");
   ("prog_sample_field_value_3", "prog_sample_field_id_3");
   ("prog_sample_field_value_4", "prog_sample_field_id_4");
   ("prog_sample_field_value_5", "prog_sample_field_id_5");
   ("prog_sample_field_value_6", "prog_sample_field_id_6");
   ("prog_sample_field_value_7", "prog_sample_field_id_7")].

(** The statements of the switch, as a loop from the last sample to the first. *)
Definition sample_loop (progr : Z) (vec : list parser_sample_field) : list write :=
  concat (reverse (zip_with (fun n s => sample_case progr (fst n) (snd n) s) sample_names vec)).

Lemma sample_switch_loop progr vec :
  sample_switch progr (Z.of_nat (length vec)) vec
  = if (length vec <=? 8)%nat then (DPCP_OK, sample_loop progr vec) else (DPCP_ERR_OUT_OF_RANGE, []).
Proof.
  do 9 (destruct vec as [|? vec]; [reflexivity|]).
  cbn [length]. unfold sample_switch.
  replace (S _ <=? 8)%nat with false by (symmetry; apply Nat.leb_gt; lia).
  destruct (Z.of_nat _) as [|n|n] eqn:E; [lia| |lia].
  do 4 (try destruct n as [n|n|]); try reflexivity; lia.
Qed.

Lemma set_prog_cases m p v :
  set_prog_sample_fileds m p v
  = if negb (crit_on m FG_MATCH_PARSER_FIELDS) then (DPCP_OK, [])
    else if (length (match_parser_sample_field_vec (fm_criteria m)) =? length (match_parser_sample_field_vec v))%nat then
      if (length (match_parser_sample_field_vec v) <=? 8)%nat
      then (DPCP_OK, sample_loop (ADDR_OF ifc.fte_match_param p ["misc_parameters_4"])
                       (match_parser_sample_field_vec v))
      else (DPCP_ERR_OUT_OF_RANGE, [])
    else (DPCP_ERR_INVALID_PARAM, []).
Proof.
  unfold set_prog_sample_fileds. cbv zeta. destruct (negb _); [done|].
  destruct (Nat.eqb_spec (length (match_parser_sample_field_vec (fm_criteria m)))
              (length (match_parser_sample_field_vec v))) as [E|E].
  - rewrite E, Z.eqb_refl. cbn [negb]. apply sample_switch_loop.
  - destruct (Z.eqb_spec (Z.of_nat (length (match_parser_sample_field_vec (fm_criteria m))))
                (Z.of_nat (length (match_parser_sample_field_vec v)))); [lia|done].
Qed.

(** The reference: sample number [i] goes to slot [i], in the order of the
    vector. *)
Definition sample_ref (progr : Z) (vec : list parser_sample_field) (b : list Z) : list Z :=
  foldl (fun b ns =>
           let '((value, id), s) := ns in
           set_field (fld ifc.fte_match_set_misc4 progr [F id]) (ps_id s)
             (set_field (fld ifc.fte_match_set_misc4 progr [F value]) (ps_val s) b))
        b (zip sample_names vec).

Lemma sample_ref_exec progr vec b :
  sample_ref progr vec b
  = exec (concat (zip_with (fun n s => sample_case progr (fst n) (snd n) s) sample_names vec)) b.
Proof.
  unfold sample_ref. generalize sample_names as ns. revert b.
  induction vec as [|s r IH]; intros b [|[x y] ns]; [done..|]. cbn. apply IH.
Qed.

Lemma sample_loop_reloc p q vec : sample_loop (p + q) vec = map (reloc p) (sample_loop q vec).
Proof.
  unfold sample_loop, reverse. rewrite <- !rev_alt, concat_map, map_rev. do 2 f_equal.
  generalize sample_names as ns. induction vec as [|s r IH]; intros [|n ns]; [done..|].
  cbn [zip_with map]. by rewrite reloc_sample, <- IH.
Qed.

Lemma sample_loop_ref p vec b :
  0 <= p -> p + ST_SZ_BYTES ifc.fte_match_param <= Z.of_nat (length b) ->
  let progr := ADDR_OF ifc.fte_match_param p ["misc_parameters_4"] in
  exec (sample_loop progr vec) b = sample_ref progr vec b.
Proof.
  intros Hp Hb progr. rewrite sample_ref_exec. apply (exec_separate (length b)); [|done|].
  - unfold sample_loop. apply concat_perm, list.reverse_Permutation.
  - unfold progr. rewrite <- (Z.add_0_r p), <- reloc_addr, sample_loop_reloc.
    eapply separate_reloc; [done|exact Hb|].
    do 8 (destruct vec as [|? vec]; [vm_compute; reflexivity|]). vm_compute. reflexivity.
Qed.

(** C15. The unrolled fall-through switch over the number of samples does what
    the plain loop does: with programmable fields enabled and as many values as
    criteria, up to eight samples go each to its own slot, in any buffer; a
    different number of values or a ninth sample is refused and nothing is
    written. *)
Theorem prog_samples_equiv m p v b :
  0 <= p -> p + ST_SZ_BYTES ifc.fte_match_param <= Z.of_nat (length b) ->
  let crit := match_parser_sample_field_vec (fm_criteria m) in
  let vec := match_parser_sample_field_vec v in
  let progr := ADDR_OF ifc.fte_match_param p ["misc_parameters_4"] in
  let '(st, ws) := set_prog_sample_fileds m p v in
  (st, exec ws b)
  = if negb (crit_on m FG_MATCH_PARSER_FIELDS) then (DPCP_OK, b)
    else if negb (length crit =? length vec)%nat then (DPCP_ERR_INVALID_PARAM, b)
    else if (8 <? length vec)%nat then (DPCP_ERR_OUT_OF_RANGE, b)
    else (DPCP_OK, sample_ref progr vec b).
Proof.
  intros Hp Hb crit vec progr. rewrite set_prog_cases. fold crit vec progr.
  destruct (crit_on _ _); [|done]. cbn [negb]. destruct (_ =? _)%nat; [|done]. cbn [negb].
  rewrite Nat.ltb_antisym. destruct (_ <=? _)%nat; [|done]. cbn [negb].
  f_equal. by apply sample_loop_ref.
Qed.

Lemma prog_samples_equiv_witness :
  let s := [mkSample 1 2; mkSample 3 4; mkSample 5 6] in
  let x := mkMatchEx (mkLyr2 [] [] 0 0) (mkLyr3 0 0 0 0) (mkLyr4 0 0 0) s 0 in
  let m := mkFlowMatcher x FG_MATCH_PARSER_FIELDS in
  exec (snd (set_prog_sample_fileds m 0 x)) (zeros 512)
  = sample_ref (ADDR_OF ifc.fte_match_param 0 ["misc_parameters_4"]) s (zeros 512).
Proof.
  intros s x m. pose proof (prog_samples_equiv m 0 x (zeros 512)) as H.
  assert (snd (let '(st, ws) := set_prog_sample_fileds m 0 x in (st, exec ws (zeros 512)))
          = sample_ref (ADDR_OF ifc.fte_match_param 0 ["misc_parameters_4"]) s (zeros 512)) as E.
  { cbv zeta in H. destruct (set_prog_sample_fileds m 0 x). rewrite H; [reflexivity|done|].
    apply Z.leb_le. vm_compute. reflexivity. }
  rewrite <- E. by destruct (set_prog_sample_fileds m 0 x).
Defined.

(** ** What the matcher writes *)

(** The status of [apply], by the first part that refuses. *)
Definition match_status (m : flow_matcher) (v : match_params_ex) : status :=
  let n := length (match_parser_sample_field_vec (fm_criteria m)) in
  if crit_on m FG_MATCH_OUTER_HDR && (negb (existsb (Z.eqb (l4_type (match_lyr4 (fm_criteria m)))) [0; 1; 2]))
  then DPCP_ERR_NO_SUPPORT
  else if crit_on m FG_MATCH_PARSER_FIELDS then
    if negb (n =? length (match_parser_sample_field_vec v))%nat then DPCP_ERR_INVALID_PARAM
    else if (8 <? n)%nat then DPCP_ERR_OUT_OF_RANGE else DPCP_OK
  else DPCP_OK.

(** What a buffer says of [v]: a member of the packet headers, a sample or the
    metadata register has its value where the criteria [m] ask for it, and is 0
    otherwise. *)
Definition match_ex_says (m : flow_matcher) (v : match_params_ex) (p : Z) (b : list Z) : Prop :=
  let outer f := DEVX_GET ifc.fte_match_param p [F "outer_headers"; F f] b in
  let c := fm_criteria m in
  let hdr (t : bool) (x : Z) := if crit_on m FG_MATCH_OUTER_HDR && t then x else 0 in
  let c2 := match_lyr2 c in let v2 := match_lyr2 v in
  let c3 := match_lyr3 c in let v3 := match_lyr3 v in
  let c4 := match_lyr4 c in let v4 := match_lyr4 v in
  let tcp := l4_type c4 =? lyr4_TCP in let udp := l4_type c4 =? lyr4_UDP in
  outer "dmac_47_16" = hdr (mac_set (l2_dst_mac c2)) (wrap 32 (be32_to_cpu (l2_dst_mac v2) 0))
  /\ outer "dmac_15_0" = hdr (mac_set (l2_dst_mac c2)) (wrap 16 (rd (l2_dst_mac v2) 4 * 2 ^ 8 + rd (l2_dst_mac v2) 5))
  /\ outer "smac_47_16" = hdr (mac_set (l2_src_mac c2)) (wrap 32 (be32_to_cpu (l2_src_mac v2) 0))
  /\ outer "smac_15_0" = hdr (mac_set (l2_src_mac c2)) (wrap 16 (rd (l2_src_mac v2) 4 * 2 ^ 8 + rd (l2_src_mac v2) 5))
  /\ outer "ethertype" = hdr (nz (l2_ethertype c2)) (wrap 16 (l2_ethertype v2))
  /\ outer "first_vid" = hdr (nz (l2_first_vlan_id c2)) (wrap 12 (l2_first_vlan_id v2))
  /\ outer "cvlan_tag" = hdr (nz (l2_first_vlan_id c2)) 1
  /\ DEVX_GET ifc.fte_match_param p ["outer_headers"; "dst_ipv4_dst_ipv6"; "ipv4_layout"; "ipv4"] b
     = hdr (nz (l3_dst_ip c3)) (wrap 32 (l3_dst_ip v3))
  /\ DEVX_GET ifc.fte_match_param p ["outer_headers"; "src_ipv4_src_ipv6"; "ipv4_layout"; "ipv4"] b
     = hdr (nz (l3_src_ip c3)) (wrap 32 (l3_src_ip v3))
  /\ outer "ip_protocol" = hdr (nz (l3_ip_protocol c3)) (wrap 8 (l3_ip_protocol v3))
  /\ outer "ip_version" = hdr (nz (l3_ip_version c3)) (wrap 4 (l3_ip_version v3))
  /\ outer "udp_dport" = hdr (udp && nz (l4_dst_port c4)) (wrap 16 (l4_dst_port v4))
  /\ outer "udp_sport" = hdr (udp && nz (l4_src_port c4)) (wrap 16 (l4_src_port v4))
  /\ outer "tcp_dport" = hdr (tcp && nz (l4_dst_port c4)) (wrap 16 (l4_dst_port v4))
  /\ outer "tcp_sport" = hdr (tcp && nz (l4_src_port c4)) (wrap 16 (l4_src_port v4))
  /\ DEVX_GET ifc.fte_match_param p ["misc_parameters_2"; "metadata_reg_c_0"] b
     = (if crit_on m FG_MATCH_METADATA_REG_C_0 && nz (match_metadata_reg_c_0 c)
        then wrap 32 (match_metadata_reg_c_0 v) else 0)
  /\ forall i n, sample_names !! i = Some n ->
       let s := if crit_on m FG_MATCH_PARSER_FIELDS
                then default (mkSample 0 0) (match_parser_sample_field_vec v !! i) else mkSample 0 0 in
       DEVX_GET ifc.fte_match_param p [F "misc_parameters_4"; F (fst n)] b = wrap 32 (ps_val s)
       /\ DEVX_GET ifc.fte_match_param p [F "misc_parameters_4"; F (snd n)] b = wrap 32 (ps_id s).

(** The statements of a call that succeeds, block by block. *)
Definition outer_writes (m : flow_matcher) (p : Z) (v : match_params_ex) : list write :=
  let outer := ADDR_OF ifc.fte_match_param p ["outer_headers"] in
  let c4 := match_lyr4 (fm_criteria m) in
  only (crit_on m FG_MATCH_OUTER_HDR)
    (snd (set_outer_header_lyr_2_fields m outer v) ++ snd (set_outer_header_lyr_3_fields m outer v)
     ++ only ((l4_type c4 =? lyr4_UDP) && nz (l4_dst_port c4))
          [DEVX_SET ifc.fte_match_set_lyr_2_4 outer ["udp_dport"] (l4_dst_port (match_lyr4 v))]
     ++ only ((l4_type c4 =? lyr4_UDP) && nz (l4_src_port c4))
          [DEVX_SET ifc.fte_match_set_lyr_2_4 outer ["udp_sport"] (l4_src_port (match_lyr4 v))]
     ++ only ((l4_type c4 =? lyr4_TCP) && nz (l4_dst_port c4))
          [DEVX_SET ifc.fte_match_set_lyr_2_4 outer ["tcp_dport"] (l4_dst_port (match_lyr4 v))]
     ++ only ((l4_type c4 =? lyr4_TCP) && nz (l4_src_port c4))
          [DEVX_SET ifc.fte_match_set_lyr_2_4 outer ["tcp_sport"] (l4_src_port (match_lyr4 v))]).

Definition match_writes (m : flow_matcher) (p : Z) (v : match_params_ex) : list write :=
  outer_writes m p v
  ++ only (crit_on m FG_MATCH_PARSER_FIELDS)
       (sample_loop (ADDR_OF ifc.fte_match_param p ["misc_parameters_4"]) (match_parser_sample_field_vec v))
  ++ only (crit_on m FG_MATCH_METADATA_REG_C_0 && nz (match_metadata_reg_c_0 (fm_criteria m)))
       [DEVX_SET ifc.fte_match_set_misc2 (ADDR_OF ifc.fte_match_param p ["misc_parameters_2"])
          ["metadata_reg_c_0"] (match_metadata_reg_c_0 v)].

Lemma set_outer_cases m p v :
  let c4 := match_lyr4 (fm_criteria m) in
  let r := set_outer_header_fields m p v in
  fst r = (if crit_on m FG_MATCH_OUTER_HDR && negb (existsb (Z.eqb (l4_type c4)) [0; 1; 2])
           then DPCP_ERR_NO_SUPPORT else DPCP_OK).
Proof.
  unfold set_outer_header_fields. cbv zeta. destruct (crit_on m FG_MATCH_OUTER_HDR); [|done].
  cbn [negb]. unfold fill_then. cbn [fst snd is_ok set_outer_header_lyr_2_fields set_outer_header_lyr_3_fields].
  unfold set_outer_header_lyr_4_fields, lyr4_NONE, lyr4_TCP, lyr4_UDP. cbn [existsb andb].
  destruct (_ =? 0), (_ =? 2), (_ =? 1); done.
Qed.

Lemma matcher_status m p v : fst (matcher_apply m p v) = match_status m v.
Proof.
  unfold matcher_apply, match_status. pose proof (set_outer_cases m p v) as Ho. cbv zeta in *.
  destruct (crit_on m FG_MATCH_OUTER_HDR && _).
  - unfold fill_then. rewrite Ho. done.
  - unfold fill_then at 1. rewrite Ho. cbn [is_ok fst]. rewrite set_prog_cases. unfold fill_then.
    destruct (crit_on m FG_MATCH_PARSER_FIELDS); cbn [negb];
      [|cbn; unfold set_metadata_registers_fields, set_metadata_register_0_field; by case_match].
    destruct (Nat.eqb_spec (length (match_parser_sample_field_vec (fm_criteria m)))
                (length (match_parser_sample_field_vec v))) as [<-|]; [|done]. cbn [negb].
    destruct (Nat.ltb_spec 8 (length (match_parser_sample_field_vec (fm_criteria m)))),
      (Nat.leb_spec (length (match_parser_sample_field_vec (fm_criteria m))) 8); try lia; [done|].
    cbn. unfold set_metadata_registers_fields, set_metadata_register_0_field. by case_match.
Qed.

Lemma set_outer_writes m p v :
  fst (set_outer_header_fields m p v) = DPCP_OK ->
  snd (set_outer_header_fields m p v) = outer_writes m p v.
Proof.
  unfold set_outer_header_fields, outer_writes. cbv zeta. destruct (crit_on m FG_MATCH_OUTER_HDR); [|done].
  cbn [negb only]. unfold fill_then. cbn [fst snd is_ok set_outer_header_lyr_2_fields set_outer_header_lyr_3_fields].
  unfold set_outer_header_lyr_4_fields, lyr4_NONE, lyr4_TCP, lyr4_UDP.
  generalize (l4_type (match_lyr4 (fm_criteria m))); intros t.
  destruct (Z.eqb_spec t 0) as [->|]; [cbn; by rewrite !app_nil_r|].
  destruct (Z.eqb_spec t 2) as [->|]; [cbn; intros _; by rewrite !app_nil_r|].
  by destruct (Z.eqb_spec t 1) as [->|].
Qed.

Lemma matcher_writes m p v :
  match_status m v = DPCP_OK -> snd (matcher_apply m p v) = match_writes m p v.
Proof.
  intros Hst. rewrite <- (matcher_status m p v) in Hst. revert Hst. unfold matcher_apply, match_writes, fill_then at 1 3.
  destruct (is_ok (fst (set_outer_header_fields m p v))) eqn:Eo;
    [|intros E; by rewrite E in Eo]. apply is_ok_true in Eo. cbn [fst snd]. intros Hst.
  rewrite set_outer_writes by done. f_equal. revert Hst. rewrite set_prog_cases.
  unfold fill_then, set_metadata_registers_fields, set_metadata_register_0_field.
  destruct (crit_on m FG_MATCH_PARSER_FIELDS); cbn [negb only].
  - destruct (_ =? _)%nat; [|done]. destruct (_ <=? _)%nat; [|done]. cbn [is_ok fst snd].
    intros _. f_equal. by destruct (crit_on m FG_MATCH_METADATA_REG_C_0).
  - intros _. cbn [is_ok fst snd]. by destruct (crit_on m FG_MATCH_METADATA_REG_C_0).
Qed.

Lemma sample_loop_miss f vec :
  f_addr f + 4 <= ADDR_OF ifc.fte_match_param 0 ["misc_parameters_4"] ->
  seek f (sample_loop (ADDR_OF ifc.fte_match_param 0 ["misc_parameters_4"]) vec) = Miss.
Proof.
  intros Hf. eapply seek_below; [exact Hf|].
  do 8 (destruct vec as [|? vec]; [vm_compute; reflexivity|]). vm_compute. reflexivity.
Qed.

Lemma if_miss (c : bool) : (if c then Miss else Miss) = Miss.
Proof. by destruct c. Qed.

(** A member of the headers or the metadata register: the blocks that do not
    touch it go first, then the cases. *)
Ltac match_get :=
  eapply get_reloc; [done|done|done|vm_compute; reflexivity|];
  unfold match_writes, outer_writes, set_outer_header_lyr_2_fields, set_outer_header_lyr_3_fields, copy_ether_mac;
  cbv zeta; cbn [snd]; rewrite !seek_app, !seek_only, sample_loop_miss by (vm_compute; discriminate);
  unfold DEVX_SET; norm_fld; rewrite !seek_app, !seek_only;
  repeat match goal with
    | |- context [crit_on ?m ?b] => generalize (crit_on m b); intros ?
    | |- context [nz ?z] => generalize (nz z); intros ?
    | |- context [mac_set ?z] => generalize (mac_set z); intros ?
    | |- context [?a =? lyr4_TCP] => generalize (a =? lyr4_TCP); intros ?
    | |- context [?a =? lyr4_UDP] => generalize (a =? lyr4_UDP); intros ?
    | |- context [be32_to_cpu ?a ?b] => generalize (be32_to_cpu a b); intros ?
    | |- context [rd ?a ?b] => generalize (rd a b); intros ?
    end;
  mbox_seek; repeat (rewrite if_miss; cbv iota);
  repeat match goal with |- context [if ?b then _ else _] => is_var b; destruct b end; reflexivity.

(** Evaluate what [seek] finds in a list of known statements. *)
Ltac seek_now :=
  match goal with |- context [seek ?f ?ws] =>
    let r := eval vm_compute in (seek f ws) in change (seek f ws) with r end;
  reflexivity.

(** The header statements and the metadata register lie below the samples. *)
Lemma outer_writes_until m v :
  forallb (until (ADDR_OF ifc.fte_match_param 0 ["misc_parameters_4"])) (outer_writes m 0 v) = true.
Proof.
  unfold outer_writes, set_outer_header_lyr_2_fields, set_outer_header_lyr_3_fields. cbv zeta. cbn [snd].
  apply forallb_only. rewrite !forallb_app. rewrite !forallb_only; [done|vm_compute; reflexivity..].
Qed.

Lemma match_samples m p v b i n :
  0 <= p -> p + ST_SZ_BYTES ifc.fte_match_param <= Z.of_nat (length b) ->
  zeroed b p (ST_SZ_BYTES ifc.fte_match_param) ->
  (crit_on m FG_MATCH_PARSER_FIELDS = true -> (length (match_parser_sample_field_vec v) <= 8)%nat) ->
  sample_names !! i = Some n ->
  let s := if crit_on m FG_MATCH_PARSER_FIELDS
           then default (mkSample 0 0) (match_parser_sample_field_vec v !! i) else mkSample 0 0 in
  let b' := exec (map (reloc p) (match_writes m 0 v)) b in
  DEVX_GET ifc.fte_match_param p [F "misc_parameters_4"; F (fst n)] b' = wrap 32 (ps_val s)
  /\ DEVX_GET ifc.fte_match_param p [F "misc_parameters_4"; F (snd n)] b' = wrap 32 (ps_id s).
Proof.
  intros Hp Hb Hz Hl Hi.
  assert (forall f, ADDR_OF ifc.fte_match_param 0 ["misc_parameters_4"] <= f_addr f ->
            seek f (match_writes m 0 v)
            = if crit_on m FG_MATCH_PARSER_FIELDS
              then seek f (sample_loop (ADDR_OF ifc.fte_match_param 0 ["misc_parameters_4"])
                             (match_parser_sample_field_vec v)) else Miss) as Hs.
  { intros f Hf. unfold match_writes. rewrite !seek_app, (seek_only f (crit_on m FG_MATCH_PARSER_FIELDS)), (seek_beyond f _ (outer_writes m 0 v) Hf),
      (seek_beyond f _ (only (_ && _) _) Hf) by (apply outer_writes_until || apply forallb_only; vm_compute; reflexivity).
    destruct (crit_on m FG_MATCH_PARSER_FIELDS); [by destruct (seek _ _)|done]. }
  set (vec := match_parser_sample_field_vec v) in *. intros s b'. subst s b'.
  destruct i as [|[|[|[|[|[|[|[|i]]]]]]]]; [..|done]; injection Hi as <-.
  all: split; (eapply get_reloc; [done|done|done|vm_compute; reflexivity|]).
  all: rewrite Hs by (vm_compute; discriminate); destruct (crit_on m FG_MATCH_PARSER_FIELDS); [|reflexivity].
  all: specialize (Hl eq_refl); clear -Hl.
  all: norm_fld; do 8 (destruct vec as [|? vec]; [seek_now|]); destruct vec; [seek_now|cbn in Hl; lia].
Qed.

Lemma matcher_says m p v b :
  0 <= p -> p + ST_SZ_BYTES ifc.fte_match_param <= Z.of_nat (length b) ->
  zeroed b p (ST_SZ_BYTES ifc.fte_match_param) -> match_status m v = DPCP_OK ->
  match_ex_says m v p (exec (snd (matcher_apply m p v)) b).
Proof.
  intros Hp Hb Hz Hst. rewrite matcher_reloc. unfold reloc_fill. cbn [snd]. rewrite matcher_writes by done.
  unfold match_ex_says. cbv zeta. split_and!.
  1-16: match_get.
  intros i n. apply match_samples; [done..|]. intros Hon. unfold match_status in Hst. rewrite Hon in Hst.
  destruct (_ && _); [done|]. destruct (Nat.eqb_spec (length (match_parser_sample_field_vec (fm_criteria m)))
    (length (match_parser_sample_field_vec v))) as [<-|]; [|done]. cbn [negb] in Hst.
  destruct (Nat.ltb_spec 8 (length (match_parser_sample_field_vec (fm_criteria m)))); [done|lia].
Qed.

(** C28. A matcher refuses an unknown layer 4 type, a wrong number of samples
    and a ninth sample, each with its status.  Otherwise it writes what the
    values say where its criteria ask, and nothing else: at any pointer into any
    buffer that is zero there, every member of the headers, every sample slot and the metadata
    register has the value cut to its width when its criterion is set, and is
    zero otherwise. *)
Theorem matcher_apply_ok m p v b :
  0 <= p -> p + ST_SZ_BYTES ifc.fte_match_param <= Z.of_nat (length b) ->
  zeroed b p (ST_SZ_BYTES ifc.fte_match_param) ->
  fst (matcher_apply m p v) = match_status m v
  /\ (match_status m v = DPCP_OK -> match_ex_says m v p (exec (snd (matcher_apply m p v)) b)).
Proof. intros Hp Hb Hz. split; [apply matcher_status|by apply matcher_says]. Qed.

Lemma matcher_apply_ok_witness :
  let c := mkMatchEx (mkLyr2 (zeros 8) (replicate 6 255 ++ [0; 0]) 0xffff 0) (mkLyr3 0 0xffffffff 255 0xf)
             (mkLyr4 lyr4_TCP 0 0xffff) [mkSample 0xffff 7] 0 in
  let v := mkMatchEx (mkLyr2 (zeros 8) [1; 2; 3; 4; 5; 6; 0; 0] 0x0800 9) (mkLyr3 1 0x0a000001 6 4)
             (mkLyr4 0 1234 80) [mkSample 42 7] 3 in
  let m := mkFlowMatcher c (FG_MATCH_OUTER_HDR + FG_MATCH_PARSER_FIELDS) in
  match_ex_says m v 64 (exec (snd (matcher_apply m 64 v)) (zeros 600)).
Proof.
  intros c v m. apply (matcher_apply_ok m 64 v (zeros 600)).
  - lia.
  - apply Z.leb_le. vm_compute. reflexivity.
  - intros i _. apply rd_zeros.
  - vm_compute. reflexivity.
Defined.

(** The statement depends only on the members of the part. *)
Lemma match_ex_says_ext m v p b b' :
  (forall path, f_in (fld ifc.fte_match_param 0 path) (ST_SZ_BYTES ifc.fte_match_param) = true ->
     DEVX_GET ifc.fte_match_param p path b' = DEVX_GET ifc.fte_match_param p path b) ->
  match_ex_says m v p b -> match_ex_says m v p b'.
Proof.
  intros Hg. unfold match_ex_says. cbv zeta.
  rewrite !Hg by (vm_compute; reflexivity). intros Hs.
  do 16 (let H := fresh in destruct Hs as [H Hs]; split; [exact H|]).
  intros i n Hi. destruct (Hs i n Hi) as [Hv Hid].
  destruct i as [|[|[|[|[|[|[|[|i]]]]]]]]; [..|done]; injection Hi as <-; cbn [fst snd] in *;
    rewrite !Hg by (vm_compute; reflexivity); (split; [exact Hv|exact Hid]).
Qed.

(** Every statement of a matcher lies at or beyond its pointer. *)
Lemma match_writes_from m v : forallb (from 0) (match_writes m 0 v) = true.
Proof.
  unfold match_writes, outer_writes, set_outer_header_lyr_2_fields, set_outer_header_lyr_3_fields.
  cbv zeta. cbn [snd]. rewrite !forallb_app. rewrite (forallb_only _ (crit_on m FG_MATCH_OUTER_HDR)).
  - rewrite !forallb_only; [done|vm_compute; reflexivity|].
    generalize (match_parser_sample_field_vec v) as vec. intros vec.
    do 8 (destruct vec as [|? vec]; [vm_compute; reflexivity|]). vm_compute. reflexivity.
  - rewrite !forallb_app. rewrite !forallb_only; [done|vm_compute; reflexivity..].
Qed.

Lemma matcher_from m p v :
  0 <= p -> match_status m v = DPCP_OK -> forallb (from p) (snd (matcher_apply m p v)) = true.
Proof.
  intros Hp Hst. rewrite matcher_reloc. unfold reloc_fill. cbn [snd]. rewrite matcher_writes by done.
  rewrite <- (Z.add_0_r p) at 1. by apply from_reloc, match_writes_from.
Qed.
