(* ===== verification/FlowAction.v ===== *)
(** * Flow actions (src/src/dpcp/flow_action.cpp, forwardable_obj.cpp,
      src/src/dcmd/linux/action.cpp)

    A flow action contributes to a rule in one of two forms.  On a device table,
    [apply(void* in)] fills the flow context of the rule's mailbox; on the root
    table, [apply(flow_desc&)] fills the description given to [dcmd::flow].  The
    modify action creates its hardware object when it is first applied, the
    reformat action in its constructor. *)

From S2P Require Import Prelude Codec Prm Dcmd Own Sim Obj Fr Writes.
Open Scope string_scope.
Open Scope list_scope.
Open Scope Z_scope.
Open Scope m_scope.

(** ** Statements on the flow context *)

(** [DEVX_SET], or [DEVX_GET] followed by [|=] and [DEVX_SET]. *)
Inductive bop : Type :=
| BSet (f : field) (v : Z)
| BOr (f : field) (v : Z).

Definition bop_field (o : bop) : field := match o with BSet f _ | BOr f _ => f end.

Definition run_op (o : bop) (b : list Z) : list Z :=
  match o with
  | BSet f v => upd f (fun _ => v) b
  | BOr f v => upd f (Z.lor v) b
  end.

Fixpoint run_ops (os : list bop) (b : list Z) : list Z :=
  match os with [] => b | o :: r => run_ops r (run_op o b) end.

Definition p_flow_context : Z := ADDR_OF ifc.set_fte_in 0 ["flow_context"].

Definition fc_set (member : string) (v : Z) : bop :=
  BSet (fld ifc.flow_context p_flow_context [F member]) v.
Definition fc_enable (bit : Z) : bop :=
  BOr (fld ifc.flow_context p_flow_context ["action"]) bit.

(** ** Objects a rule can forward to *)

(** [forwardable_obj]: a TIR or a flow table; [fwd_type] is what the virtual
    [get_fwd_type] returns. *)
Record forwardable_obj := mkFwdObj { fwd_obj : obj; fwd_type : Z }.

Record fwd_dst_desc := mkFwdDesc { fd_type : Z; fd_id : Z; fd_handle : Z }.

Section fwd_obj.
Context {D : Type} `{DevX D}.

(** [forwardable_obj::get_fwd_desc] *)
Definition get_fwd_desc (o : forwardable_obj) : M D (status * option fwd_dst_desc) :=
  '(st, h) <- obj_get_handle (fwd_obj o);;
  if negb (is_ok st) then ret (st, None)
  else
    let '(st2, id) := obj_get_id (fwd_obj o) in
    if negb (is_ok st2) then ret (st2, None)
    else ret (DPCP_OK, Some (mkFwdDesc (fwd_type o) id h)).
End fwd_obj.

(** ** Modify *)

(** [union flow_action_modify_type_attr]; a type that is neither [SET] nor
    [COPY] is [AOther]. *)
Inductive modify_type_attr : Type :=
| ASet (field offset length data : Z)
| ACopy (src_field src_offset length dst_field dst_offset : Z)
| AOther (type : Z).

(** [m_in] and [m_actions_root] are blocks with their contents. *)
Record flow_action_modify := mkModify {
  fam_obj : obj;
  fam_table_type : Z;
  fam_actions : list modify_type_attr;
  fam_is_valid : bool;
  fam_modify_id : Z;
  fam_actions_root : option (Z * list Z);
  fam_out : list Z;
  fam_in : option (Z * list Z)
}.

(** [flow_action_modify::flow_action_modify] *)
Definition flow_action_modify_new (ctx : option Z) (table_type : Z) (actions : list modify_type_attr)
  : flow_action_modify :=
  mkModify (obj_new ctx) table_type actions false 0 None
    (zeros (ST_SZ_BYTES ifc.alloc_modify_header_context_out)) None.

(** [apply_modify_set_action], [apply_modify_copy_action] *)
Definition apply_modify_set_action (p field offset length data : Z) : list write :=
  [DEVX_SET ifc.set_action_in p ["action_type"] MLX5_ACTION_TYPE_SET;
   DEVX_SET ifc.set_action_in p ["field"] field;
   DEVX_SET ifc.set_action_in p ["offset"] offset;
   DEVX_SET ifc.set_action_in p ["length"] length;
   DEVX_SET ifc.set_action_in p ["data"] data].

Definition apply_modify_copy_action (p src_field src_offset length dst_field dst_offset : Z) : list write :=
  [DEVX_SET ifc.copy_action_in p ["action_type"] MLX5_ACTION_TYPE_COPY;
   DEVX_SET ifc.copy_action_in p ["src_field"] src_field;
   DEVX_SET ifc.copy_action_in p ["src_offset"] src_offset;
   DEVX_SET ifc.copy_action_in p ["length"] length;
   DEVX_SET ifc.copy_action_in p ["dst_field"] dst_field;
   DEVX_SET ifc.copy_action_in p ["dst_offset"] dst_offset].

Definition action_size : Z := ST_SZ_BYTES ifc.set_add_copy_action_in_auto.

(** The loop over the actions: the statements run and whether all types are
    known. *)
Fixpoint modify_actions_writes (p : Z) (acts : list modify_type_attr) : status * list write :=
  match acts with
  | [] => (DPCP_OK, [])
  | a :: r =>
      let ws :=
        match a with
        | ASet f o l d => Some (apply_modify_set_action p f o l d)
        | ACopy sf so l df doff => Some (apply_modify_copy_action p sf so l df doff)
        | AOther _ => None
        end in
      match ws with
      | None => (DPCP_ERR_NO_SUPPORT, [])
      | Some ws => let '(st, ws') := modify_actions_writes (p + action_size) r in (st, ws ++ ws')
      end
  end.

(** The bit-fields of [struct modify_action] in their two words: [bf_set sh sz]
    stores to the field of [sz] bits at bit [sh]. *)
Definition bf_set (sh sz v w : Z) : Z :=
  Z.lor (Z.land w (Z.lnot (Z.shiftl (Z.ones sz) sh))) (Z.shiftl (Z.land v (Z.ones sz)) sh).

Definition dst_action_type := bf_set 28 4.
Definition dst_field := bf_set 16 12.
Definition dst_offset := bf_set 8 5.
Definition dst_length := bf_set 0 5.
Definition src_field := bf_set 16 12.
Definition src_offset := bf_set 8 5.

Open Scope dpcp_scope.

(** One element of the array, from its indeterminate contents: the words [dst]
    and [src] before the byte swap. *)
Definition root_action (junk : Z * Z) (a : modify_type_attr) : option (Z * Z) :=
  let '(dst, src) := junk in
  match a with
  | ASet f o l d =>
      Some (dst |> dst_action_type MLX5_ACTION_TYPE_SET |> dst_field f |> dst_length l |> dst_offset o, d)
  | ACopy sf so l df doff =>
      Some (dst |> dst_action_type MLX5_ACTION_TYPE_COPY |> dst_field df |> dst_length l |> dst_offset doff,
            src |> src_field sf |> src_offset so)
  | AOther _ => None
  end.

(** A word in memory after [htobe32]. *)
Definition htobe32 (w : Z) : list Z := [u8 (w / 2 ^ 24); u8 (w / 2 ^ 16); u8 (w / 2 ^ 8); u8 w].

(** The array as bytes, or [None] when a type is unknown. *)
Fixpoint root_actions (junk : list (Z * Z)) (acts : list modify_type_attr) : option (list Z) :=
  match acts with
  | [] => Some []
  | a :: r =>
      match root_action (default (0, 0) (head junk)) a, root_actions (tail junk) r with
      | Some (d, s), Some bytes => Some (htobe32 d ++ htobe32 s ++ bytes)
      | _, _ => None
      end
  end.

Section modify.
Context {D : Type} `{DevX D}.

(** [std::unique_ptr::reset(new (std::nothrow) ...)]: the old block goes after
    the new one was asked for. *)
Definition reset_block (old : option (Z * list Z)) (n : Z) : M D (option Z) :=
  p <- alloc (BRaw n);;
  aligned_free (option_map fst old);;
  ret p.

(** [flow_action_modify::prepare_prm_modify_buff] *)
Definition prepare_prm_modify_buff (a : flow_action_modify) : M D (status * flow_action_modify) :=
  let n := Z.of_nat (length (fam_actions a)) in
  let inlen := ST_SZ_BYTES ifc.alloc_modify_header_context_in + action_size * n in
  let with_in i := mkModify (fam_obj a) (fam_table_type a) (fam_actions a) (fam_is_valid a) (fam_modify_id a)
                     (fam_actions_root a) (fam_out a) i in
  p <- reset_block (fam_in a) inlen;;
  match p with
  | None => ret (DPCP_ERR_NO_MEMORY, with_in None)
  | Some p =>
      let '(st, ws) :=
        modify_actions_writes (ADDR_OF ifc.alloc_modify_header_context_in 0 ["actions"]) (fam_actions a) in
      let inb := exec ([DEVX_SET ifc.alloc_modify_header_context_in 0 ["opcode"] MLX5_CMD_OP_ALLOC_MODIFY_HEADER_CONTEXT;
                        DEVX_SET ifc.alloc_modify_header_context_in 0 ["table_type"] (fam_table_type a);
                        DEVX_SET ifc.alloc_modify_header_context_in 0 ["num_of_actions"] n] ++ ws)
                      (zeros inlen) in
      ret (st, with_in (Some (p, inb)))
  end.

(** [flow_action_modify::create_prm_modify] *)
Definition create_prm_modify (a : flow_action_modify) : M D (status * flow_action_modify) :=
  '(st, a) <- prepare_prm_modify_buff a;;
  if negb (is_ok st) then ret (st, a)
  else
    '(st, o, out) <- obj_create (fam_obj a) (option_map snd (fam_in a)) (Some (fam_out a));;
    let upd valid id := mkModify o (fam_table_type a) (fam_actions a) valid id (fam_actions_root a) out (fam_in a) in
    if negb (is_ok st) then ret (st, upd (fam_is_valid a) (fam_modify_id a))
    else ret (DPCP_OK, upd true (DEVX_GET ifc.alloc_modify_header_context_out 0 ["modify_header_id"] out)).

(** [flow_action_modify::apply(void* in)] *)
Definition modify_apply (a : flow_action_modify) : M D (status * flow_action_modify * list bop) :=
  '(st, a) <- (if fam_is_valid a then ret (DPCP_OK, a) else create_prm_modify a);;
  if negb (is_ok st) then ret (st, a, [])
  else ret (DPCP_OK, a, [fc_enable MLX5_FLOW_CONTEXT_ACTION_MOD_HDR;
                         fc_set "modify_header_id" (fam_modify_id a)]).

(** [flow_action_modify::prepare_flow_desc_buffs]; [junk] is what the new array
    holds. *)
Definition prepare_flow_desc_buffs (junk : list (Z * Z)) (a : flow_action_modify)
  : M D (status * flow_action_modify) :=
  p <- alloc (BRaw (8 * Z.of_nat (length (fam_actions a))));;
  match p with
  | None => ret (DPCP_ERR_NO_MEMORY, a)
  | Some p =>
      match root_actions junk (fam_actions a) with
      | None => dealloc p;; ret (DPCP_ERR_NO_SUPPORT, a)
      | Some bytes =>
          aligned_free (option_map fst (fam_actions_root a));;
          ret (DPCP_OK, mkModify (fam_obj a) (fam_table_type a) (fam_actions a) (fam_is_valid a)
                          (fam_modify_id a) (Some (p, bytes)) (fam_out a) (fam_in a))
      end
  end.

(** [flow_action_modify::apply(flow_desc&)] *)
Definition modify_apply_root (junk : list (Z * Z)) (a : flow_action_modify) (d : flow_desc)
  : M D (status * flow_action_modify * flow_desc) :=
  let fin a := ret (DPCP_OK, a, mkFlowDesc (match_criteria d) (match_value d) (dst_obj d) (flow_id d)
                                  (fd_priority d) (option_map snd (fam_actions_root a))) in
  match fam_actions_root a with
  | Some _ => fin a
  | None =>
      '(st, a) <- prepare_prm_modify_buff a;;
      if negb (is_ok st) then ret (st, a, d)
      else
        '(st, a) <- prepare_flow_desc_buffs junk a;;
        if negb (is_ok st) then ret (st, a, d) else fin a
  end.

(** [get_num_actions], [get_id] *)
Definition get_num_actions (a : flow_action_modify) : status * Z :=
  (DPCP_OK, Z.of_nat (length (fam_actions a))).
Definition modify_get_id (a : flow_action_modify) : status * Z :=
  if fam_is_valid a then (DPCP_OK, fam_modify_id a) else (DPCP_ERR_NOT_APPLIED, 0).

(** [~flow_action_modify]: the two blocks, then [~obj]. *)
Definition flow_action_modify_delete (a : flow_action_modify) : M D unit :=
  aligned_free (option_map fst (fam_in a));;
  aligned_free (option_map fst (fam_actions_root a));;
  _ <- obj_delete (fam_obj a);; ret tt.
End modify.

(** ** Reformat *)

(** [flow_action_reformat_insert_attr]; [ri_data] is the memory [data] points
    to, [None] for a null pointer. *)
Record reformat_insert_attr := mkInsert {
  ri_start_hdr : Z;
  ri_offset : Z;
  ri_data_len : Z;
  ri_data : option (list Z)
}.

Inductive reformat_attr : Type :=
| INSERT_HDR (insert : reformat_insert_attr)
| ROther (type : Z).

Record flow_action_reformat := mkReformat {
  far_obj : obj;
  far_attr : reformat_attr;
  far_is_valid : bool;
  far_reformat_id : Z
}.

Definition p_reformat_ctx : Z := ADDR_OF ifc.alloc_packet_reformat_context_in 0 ["packet_reformat_context"].

(** The length of the mailbox: the padding is 1 to 4 bytes. *)
Definition reformat_in_len (data_len : Z) : Z :=
  let n := ST_SZ_BYTES ifc.alloc_packet_reformat_context_in + data_len in
  n + (4 - n mod 4).

Definition reformat_writes (a : reformat_insert_attr) (data : list Z) : list write :=
  [DEVX_SET ifc.alloc_packet_reformat_context_in 0 ["opcode"] MLX5_CMD_OP_ALLOC_PACKET_REFORMAT_CONTEXT;
   DEVX_SET ifc.packet_reformat_context_in p_reformat_ctx ["reformat_data_size"] (ri_data_len a);
   DEVX_SET ifc.packet_reformat_context_in p_reformat_ctx ["reformat_param_0"] (ri_start_hdr a);
   DEVX_SET ifc.packet_reformat_context_in p_reformat_ctx ["reformat_type"] MLX5_REFORMAT_TYPE_INSERT_HDR;
   DEVX_SET ifc.packet_reformat_context_in p_reformat_ctx ["reformat_param_1"] (ri_offset a);
   WMem (ADDR_OF ifc.packet_reformat_context_in p_reformat_ctx ["reformat_data"]) data].

Section reformat.
Context {D : Type} `{DevX D}.

(** [alloc_reformat_insert_action]: the status and the block with the mailbox. *)
Definition alloc_reformat_insert_action (a : reformat_insert_attr) : M D (status * option (Z * list Z)) :=
  match ri_data a with
  | None => ret (DPCP_ERR_INVALID_PARAM, None)
  | Some data =>
      let in_len := reformat_in_len (ri_data_len a) in
      p <- alloc (BRaw in_len);;
      match p with
      | None => ret (DPCP_ERR_NO_MEMORY, None)
      | Some p =>
          if Z.of_nat (length data) <? ri_data_len a then ub "read beyond the header to insert"
          else ret (DPCP_OK, Some (p, exec (reformat_writes a (take (Z.to_nat (ri_data_len a)) data))
                                          (zeros in_len)))
      end
  end.

(** [flow_action_reformat::flow_action_reformat]: a failure leaves an invalid
    action. *)
Definition flow_action_reformat_new (ctx : option Z) (attr : reformat_attr) : M D flow_action_reformat :=
  let bad o := mkReformat o attr false 0 in
  match attr with
  | ROther _ => ret (bad (obj_new ctx))
  | INSERT_HDR ins =>
      '(st, inb) <- alloc_reformat_insert_action ins;;
      if negb (is_ok st) then ret (bad (obj_new ctx))
      else
        '(st, o, out) <- obj_create (obj_new ctx) (option_map snd inb)
                           (Some (zeros (ST_SZ_BYTES ifc.alloc_packet_reformat_context_out)));;
        aligned_free (option_map fst inb);;
        if negb (is_ok st) then ret (bad o)
        else ret (mkReformat o attr true
                    (DEVX_GET ifc.alloc_packet_reformat_context_out 0 ["packet_reformat_id"] out))
  end.

(** [apply(void* in)], [apply(flow_desc&)], [get_id] *)
Definition reformat_apply (a : flow_action_reformat) : status * list bop :=
  if far_is_valid a
  then (DPCP_OK, [fc_enable MLX5_FLOW_CONTEXT_ACTION_PACKET_REFORMAT;
                  fc_set "packet_reformat_id" (far_reformat_id a)])
  else (DPCP_ERR_NOT_APPLIED, []).
Definition reformat_apply_root (a : flow_action_reformat) : status := DPCP_ERR_NO_SUPPORT.
Definition reformat_get_id (a : flow_action_reformat) : status * Z :=
  if far_is_valid a then (DPCP_OK, far_reformat_id a) else (DPCP_ERR_NOT_APPLIED, 0).

Definition flow_action_reformat_delete (a : flow_action_reformat) : M D unit :=
  _ <- obj_delete (far_obj a);; ret tt.
End reformat.

(** ** Tag *)

Record flow_action_tag := mkTag { fat_obj : obj; fat_tag_id : Z }.

Definition flow_action_tag_new (ctx : option Z) (id : Z) : flow_action_tag := mkTag (obj_new ctx) id.

Definition tag_apply (a : flow_action_tag) : status * list bop :=
  (DPCP_OK, [fc_set "flow_tag" (fat_tag_id a)]).
Definition tag_apply_root (a : flow_action_tag) (d : flow_desc) : status * flow_desc :=
  (DPCP_OK, mkFlowDesc (match_criteria d) (match_value d) (dst_obj d) (fat_tag_id a) (fd_priority d)
              (modify_actions d)).

(** ** Forward *)

(** [dcmd::action_fwd] of the Linux back end: the handles of the destinations,
    and the blocks of the object and of the array. *)
Record action_fwd := mkActionFwd {
  af_self : Z;
  af_array : Z;
  af_handles : list Z
}.

Record flow_action_fwd := mkFwd {
  faf_obj : obj;
  faf_dests : list Z;                       (* forwardable_obj* *)
  faf_root_action_fwd : option action_fwd
}.

Definition flow_action_fwd_new (ctx : option Z) (dests : list Z) : flow_action_fwd :=
  mkFwd (obj_new ctx) dests None.

Definition dest_size : Z := ST_SZ_BYTES ifc.dest_format_struct.
Definition p_destination : Z := ADDR_OF ifc.flow_context p_flow_context ["destination"].

(** The two statements for a destination at [p]. *)
Definition dest_ops (p id type : Z) : list bop :=
  [BSet (fld ifc.dest_format_struct p ["destination_id"]) id;
   BSet (fld ifc.dest_format_struct p ["destination_type"]) type].

Section fwd.
Context {D : Type} `{DevX D}.

(** The loop of [apply(void* in)] over the destinations, from the pointer [p];
    [objs] is the store the pointers point into. *)
Fixpoint fwd_dests (objs : gmap Z forwardable_obj) (p : Z) (dests : list Z) : M D (status * list bop) :=
  match dests with
  | [] => ret (DPCP_OK, [])
  | d :: r =>
      o <- need (objs !! d) "dangling destination";;
      let '(st, id) := obj_get_id (fwd_obj o) in
      if negb (is_ok st) then ret (st, [])
      else
        '(st, ops) <- fwd_dests objs (p + dest_size) r;;
        ret (st, dest_ops p id (fwd_type o) ++ ops)
  end.

(** [flow_action_fwd::apply(void* in)] *)
Definition fwd_apply (objs : gmap Z forwardable_obj) (a : flow_action_fwd) : M D (status * list bop) :=
  '(st, ops) <- fwd_dests objs p_destination (faf_dests a);;
  if negb (is_ok st) then ret (st, ops)
  else ret (DPCP_OK, ops ++ [fc_enable MLX5_FLOW_CONTEXT_ACTION_FWD_DEST;
                             fc_set "destination_list_size" (Z.of_nat (length (faf_dests a)))]).

(** [base_ctx::create_action_fwd] with the constructor of [dcmd::action_fwd]: a
    failed allocation is an exception that becomes a null pointer. *)
Definition create_action_fwd (dests : list fwd_dst_desc) : M D (option action_fwd) :=
  self <- alloc BMem;;
  match self with
  | None => ret None
  | Some self =>
      arr <- alloc (BRaw (8 * Z.of_nat (length dests)));;
      match arr with
      | None => dealloc self;; ret None
      | Some arr => ret (Some (mkActionFwd self arr (map fd_handle dests)))
      end
  end.

(** The loop of [create_root_action_fwd]. *)
Fixpoint fwd_descs (objs : gmap Z forwardable_obj) (dests : list Z) : M D (status * list fwd_dst_desc) :=
  match dests with
  | [] => ret (DPCP_OK, [])
  | d :: r =>
      o <- need (objs !! d) "dangling destination";;
      '(st, desc) <- get_fwd_desc o;;
      match desc with
      | Some desc =>
          '(st, ds) <- fwd_descs objs r;; ret (st, desc :: ds)
      | None => ret (st, [])
      end
  end.

Definition with_root (a : flow_action_fwd) (r : option action_fwd) : flow_action_fwd :=
  mkFwd (faf_obj a) (faf_dests a) r.

(** [flow_action_fwd::create_root_action_fwd] *)
Definition create_root_action_fwd (objs : gmap Z forwardable_obj) (a : flow_action_fwd)
  : M D (status * flow_action_fwd) :=
  '(st, descs) <- fwd_descs objs (faf_dests a);;
  if negb (is_ok st) then ret (st, a)
  else
    _ <- need (m_ctx (faf_obj a)) "null dcmd::ctx";;
    r <- create_action_fwd descs;;
    ret (match r with Some _ => DPCP_OK | None => DPCP_ERR_CREATE end, with_root a r).

(** [action_fwd::apply]: the description points into the action. *)
Definition action_fwd_apply (r : action_fwd) (d : flow_desc) : Z * flow_desc :=
  (DCMD_EOK, mkFlowDesc (match_criteria d) (match_value d) (map Some (af_handles r)) (flow_id d)
               (fd_priority d) (modify_actions d)).

(** [flow_action_fwd::apply(flow_desc&)] *)
Definition fwd_apply_root (objs : gmap Z forwardable_obj) (a : flow_action_fwd) (d : flow_desc)
  : M D (status * flow_action_fwd * flow_desc) :=
  '(st, a) <- (match faf_root_action_fwd a with
               | Some _ => ret (DPCP_OK, a)
               | None => create_root_action_fwd objs a
               end);;
  if negb (is_ok st) then ret (st, a, d)
  else
    r <- need (faf_root_action_fwd a) "null dcmd::action_fwd";;
    let '(e, d') := action_fwd_apply r d in
    if negb (e =? DCMD_EOK) then ret (DPCP_ERR_NOT_APPLIED, a, d') else ret (DPCP_OK, a, d').

Definition get_dest_num (a : flow_action_fwd) : Z := Z.of_nat (length (faf_dests a)).
Definition get_dest_objs (a : flow_action_fwd) : list Z := faf_dests a.

(** [~flow_action_fwd]: the root action with its array, then [~obj]. *)
Definition flow_action_fwd_delete (a : flow_action_fwd) : M D unit :=
  match faf_root_action_fwd a with
  | Some r => dealloc (af_array r);; dealloc (af_self r);; _ <- obj_delete (faf_obj a);; ret tt
  | None => _ <- obj_delete (faf_obj a);; ret tt
  end.
End fwd.

(** ** Reparse *)

Record flow_action_reparse := mkReparse { fap_obj : obj }.

Definition flow_action_reparse_new (ctx : option Z) : flow_action_reparse := mkReparse (obj_new ctx).
Definition reparse_apply (a : flow_action_reparse) : status * list bop :=
  (DPCP_OK, [fc_enable MLX5_FLOW_CONTEXT_ACTION_REPARSE]).
Definition reparse_apply_root (a : flow_action_reparse) : status := DPCP_ERR_NO_SUPPORT.

(** ** The interface [flow_action] *)

Inductive flow_action : Type :=
| AModify (a : flow_action_modify)
| AReformat (a : flow_action_reformat)
| ATag (a : flow_action_tag)
| AFwd (a : flow_action_fwd)
| AReparse (a : flow_action_reparse).

(** [std::type_index(typeid(action))] *)
Inductive action_type := TModify | TReformat | TTag | TFwd | TReparse.

#[global] Instance action_type_eq_dec : EqDecision action_type.
Proof. solve_decision. Defined.

Definition typeid (a : flow_action) : action_type :=
  match a with
  | AModify _ => TModify | AReformat _ => TReformat | ATag _ => TTag | AFwd _ => TFwd | AReparse _ => TReparse
  end.

Section action.
Context {D : Type} `{DevX D}.

(** The virtual [apply(void* in)]. *)
Definition action_apply (objs : gmap Z forwardable_obj) (a : flow_action)
  : M D (status * flow_action * list bop) :=
  match a with
  | AModify m => '(st, m', ops) <- modify_apply m;; ret (st, AModify m', ops)
  | AReformat r => let '(st, ops) := reformat_apply r in ret (st, a, ops)
  | ATag t => let '(st, ops) := tag_apply t in ret (st, a, ops)
  | AFwd f => '(st, ops) <- fwd_apply objs f;; ret (st, a, ops)
  | AReparse r => let '(st, ops) := reparse_apply r in ret (st, a, ops)
  end.

(** The virtual [apply(flow_desc&)]. *)
Definition action_apply_root (junk : list (Z * Z)) (objs : gmap Z forwardable_obj) (a : flow_action)
    (d : flow_desc) : M D (status * flow_action * flow_desc) :=
  match a with
  | AModify m => '(st, m', d') <- modify_apply_root junk m d;; ret (st, AModify m', d')
  | AReformat r => ret (reformat_apply_root r, a, d)
  | ATag t => let '(st, d') := tag_apply_root t d in ret (st, a, d')
  | AFwd f => '(st, f', d') <- fwd_apply_root objs f d;; ret (st, AFwd f', d')
  | AReparse r => ret (reparse_apply_root r, a, d)
  end.

(** The virtual destructor. *)
Definition action_delete (a : flow_action) : M D unit :=
  match a with
  | AModify m => flow_action_modify_delete m
  | AReformat r => flow_action_reformat_delete r
  | ATag t => _ <- obj_delete (fat_obj t);; ret tt
  | AFwd f => flow_action_fwd_delete f
  | AReparse r => _ <- obj_delete (fap_obj r);; ret tt
  end.

(** [flow_action_generator]: the five factories; a null pointer is [None]. *)
Definition make_action (a : M D flow_action) : M D (option (Z * flow_action)) :=
  self <- alloc BMem;;
  match self with
  | None => ret None
  | Some self => a <- a;; ret (Some (self, a))
  end.

Definition create_fwd (ctx : option Z) (dests : list Z) : M D (option (Z * flow_action)) :=
  make_action (ret (AFwd (flow_action_fwd_new ctx dests))).
Definition create_tag (ctx : option Z) (id : Z) : M D (option (Z * flow_action)) :=
  make_action (ret (ATag (flow_action_tag_new ctx id))).
Definition create_reformat (ctx : option Z) (attr : reformat_attr) : M D (option (Z * flow_action)) :=
  make_action (r <- flow_action_reformat_new ctx attr;; ret (AReformat r)).
Definition create_modify (ctx : option Z) (table_type : Z) (acts : list modify_type_attr)
  : M D (option (Z * flow_action)) :=
  make_action (ret (AModify (flow_action_modify_new ctx table_type acts))).
Definition create_reparse (ctx : option Z) : M D (option (Z * flow_action)) :=
  make_action (ret (AReparse (flow_action_reparse_new ctx))).
End action.

(** ** Statements in another order *)

Lemma length_run_op o b : length (run_op o b) = length b.
Proof. destruct o; apply length_upd. Qed.

Lemma length_run_ops os b : length (run_ops os b) = length b.
Proof. revert b. induction os as [|o r IH]; intros; [done|]. cbn [run_ops]. by rewrite IH, length_run_op. Qed.

Lemma run_ops_app os os' b : run_ops (os ++ os') b = run_ops os' (run_ops os b).
Proof. revert b. induction os; intros; cbn; auto. Qed.

(** Two statements that can change places in a buffer of [n] bytes. *)
Definition op_comm (n : Z) (o o' : bop) : Prop :=
  f_in (bop_field o) n = true /\ f_in (bop_field o') n = true
  /\ (f_disj (bop_field o) (bop_field o') = true
      \/ match o, o' with BOr f _, BOr g _ => f = g | _, _ => False end).

Lemma run_op_comm n o o' b :
  Z.of_nat (length b) = n -> op_comm n o o' -> run_op o (run_op o' b) = run_op o' (run_op o b).
Proof.
  intros <- (Hf & Hg & [Hd|Hor]).
  - destruct o, o'; cbn [run_op bop_field] in *; by apply upd_comm.
  - destruct o as [|f v], o' as [|g v']; [done..|]. subst g. by apply upd_lor_comm.
Qed.

Lemma run_ops_comm n os os' b :
  Z.of_nat (length b) = n -> (forall o o', In o os -> In o' os' -> op_comm n o o') ->
  run_ops (os ++ os') b = run_ops (os' ++ os) b.
Proof.
  intros Hb Hc.
  assert (forall o c, In o os -> Z.of_nat (length c) = n -> run_op o (run_ops os' c) = run_ops os' (run_op o c)) as H1.
  { intros o c Ho. revert c. clear b Hb. induction os' as [|o' r IH]; intros c Hl; [done|]. cbn [run_ops].
    rewrite IH; [|intros; apply Hc; [done|by right]|by rewrite length_run_op].
    f_equal. apply (run_op_comm n); [done|]. apply Hc; [done|by left]. }
  rewrite !run_ops_app. revert b Hb. induction os as [|o r IH]; intros b Hb; [done|]. cbn [run_ops].
  rewrite IH; [|intros; apply Hc; [by right|done]|intros; apply H1; [by right|done]|by rewrite length_run_op].
  by rewrite H1 by (done || by left).
Qed.

(** The statements each type of action may run; a forward action has [n]
    destinations. *)
Inductive allowed (n : Z) : action_type -> bop -> Prop :=
| al_modify_on : allowed n TModify (fc_enable MLX5_FLOW_CONTEXT_ACTION_MOD_HDR)
| al_modify_id v : allowed n TModify (fc_set "modify_header_id" v)
| al_reformat_on : allowed n TReformat (fc_enable MLX5_FLOW_CONTEXT_ACTION_PACKET_REFORMAT)
| al_reformat_id v : allowed n TReformat (fc_set "packet_reformat_id" v)
| al_tag v : allowed n TTag (fc_set "flow_tag" v)
| al_fwd_on : allowed n TFwd (fc_enable MLX5_FLOW_CONTEXT_ACTION_FWD_DEST)
| al_fwd_size v : allowed n TFwd (fc_set "destination_list_size" v)
| al_fwd_dest k o id type :
    0 <= k < n -> In o (dest_ops (p_destination + dest_size * k) id type) -> allowed n TFwd o
| al_reparse_on : allowed n TReparse (fc_enable MLX5_FLOW_CONTEXT_ACTION_REPARSE).

Definition fte_len (n : Z) : Z := ST_SZ_BYTES ifc.set_fte_in + dest_size * n.

Lemma dest_id_fld p : fld ifc.dest_format_struct p ["destination_id"] = mkField p 0 24.
Proof. rewrite <- (Z.add_0_r p) at 1. rewrite fld_reloc. norm_fld. unfold reloc_field. cbn. f_equal. lia. Qed.

Lemma dest_type_fld p : fld ifc.dest_format_struct p ["destination_type"] = mkField p 24 8.
Proof. rewrite <- (Z.add_0_r p) at 1. rewrite fld_reloc. norm_fld. unfold reloc_field. cbn. f_equal. lia. Qed.

Lemma fte_len_eq n : fte_len n = 832 + 8 * n.
Proof. reflexivity. Qed.

Lemma dest_op_field n k o id type :
  0 <= k < n -> In o (dest_ops (p_destination + dest_size * k) id type) ->
  f_in (bop_field o) (fte_len n) = true /\ p_destination <= f_addr (bop_field o).
Proof.
  rewrite fte_len_eq. change p_destination with 832. change dest_size with 8.
  intros Hk [<-|[<-|[]]]; cbn [bop_field]; rewrite ?dest_id_fld, ?dest_type_fld; unfold f_in, f_ok;
    cbn [f_addr f_sh f_sz]; rewrite !andb_true_iff, !Z.leb_le; lia.
Qed.

Lemma allowed_in n t o : 0 <= n -> allowed n t o -> f_in (bop_field o) (fte_len n) = true.
Proof.
  intros Hn []; try (by eapply dest_op_field);
    (rewrite fte_len_eq; cbn [bop_field fc_set fc_enable]; norm_fld; unfold f_in, f_ok;
     cbn [f_addr f_sh f_sz]; rewrite !andb_true_iff, !Z.leb_le; lia).
Qed.

(** A statement on the fixed part of the flow context. *)
Definition fixed_part (o : bop) : bool := f_ok (bop_field o) && (f_addr (bop_field o) + 4 <=? p_destination).

Lemma fixed_dest_disj o o' :
  fixed_part o = true -> p_destination <= f_addr (bop_field o') ->
  f_disj (bop_field o) (bop_field o') = true.
Proof.
  unfold fixed_part. intros [_ Ha%Z.leb_le]%andb_prop Hd. unfold f_disj. replace (f_addr (bop_field o) + 4 <=? f_addr (bop_field o')) with true
    by (symmetry; apply Z.leb_le; lia). done.
Qed.

(** Actions of different types run statements that commute. *)
Lemma allowed_comm n t t' o o' :
  0 <= n -> t ≠ t' -> allowed n t o -> allowed n t' o' -> op_comm (fte_len n) o o'.
Proof.
  intros Hn Ht Ho Ho'. split_and!; [by eapply allowed_in|by eapply allowed_in|].
  destruct Ho, Ho'; try done;
    try (left; apply fixed_dest_disj; [vm_compute; reflexivity|by eapply dest_op_field]);
    try (left; rewrite f_disj_sym; apply fixed_dest_disj; [vm_compute; reflexivity|by eapply dest_op_field]);
    try (left; vm_compute; reflexivity); right; reflexivity.
Qed.

(** ** What an action does, by type *)

Section actions.
Context {D : Type} `{DevX D}.
Implicit Types (w : world D).

(** The number of destinations of an action. *)
Definition dest_num (a : flow_action) : Z :=
  match a with AFwd f => get_dest_num f | _ => 0 end.

Lemma fwd_dests_pure objs dests : forall p,
  (exists e, forall w : world D, fwd_dests objs p dests w = UB e)
  \/ exists st ops, (forall w : world D, fwd_dests objs p dests w = Ret ((st, ops), w))
     /\ forall o, In o ops -> exists k id type, 0 <= k < Z.of_nat (length dests)
                                               /\ In o (dest_ops (p + dest_size * k) id type).
Proof.
  induction dests as [|d r IH]; intros p; cbn [fwd_dests]; [right; by exists DPCP_OK, []|].
  destruct (objs !! d) as [o|]; cbn [need]; [|left; by eexists].
  destruct (obj_get_id (fwd_obj o)) as [st id] eqn:Ei.
  destruct (is_ok st) eqn:Es; cbn [negb].
  - destruct (IH (p + dest_size)) as [[e He]|(st' & ops & He & Ho)].
    + left. exists e. intros w. unfold bind, ret. rewrite Ei, Es. cbn [negb]. by rewrite He.
    + right. exists st', (dest_ops p id (fwd_type o) ++ ops). split.
      * intros w. unfold bind, ret. rewrite Ei, Es. cbn [negb]. by rewrite He.
      * intros x [Hx|Hx]%in_app_or.
        -- exists 0, id, (fwd_type o). split; [cbn [length]; lia|]. by rewrite Z.mul_0_r, Z.add_0_r.
        -- destruct (Ho x Hx) as (k & id' & ty & Hk & Hin). exists (k + 1), id', ty. split; [cbn [length]; lia|].
           by replace (p + dest_size * (k + 1)) with (p + dest_size + dest_size * k) by lia.
  - right. exists st, []. split; [|done]. intros w. unfold bind, ret. by rewrite Ei, Es.
Qed.

(** Every action but modify leaves the world alone, and its answer does not
    depend on it. *)
Lemma action_pure objs a :
  typeid a ≠ TModify ->
  (exists e, forall w : world D, action_apply objs a w = UB e)
  \/ exists st ops, forall w : world D, action_apply objs a w = Ret ((st, a, ops), w).
Proof.
  intros Ht. destruct a as [m|r|t|f|r]; [done|..]; cbn [action_apply].
  - right. unfold reformat_apply. destruct (far_is_valid r); by eexists _, _.
  - right. by eexists _, _.
  - unfold fwd_apply. destruct (fwd_dests_pure objs (faf_dests f) p_destination) as [[e He]|(st & ops & He & _)].
    + left. exists e. intros w. unfold bind. by rewrite He.
    + right. destruct (is_ok st) eqn:Es;
        [eexists DPCP_OK, _|exists st, ops]; intros w; unfold bind, ret; rewrite He, Es; reflexivity.
  - right. by eexists _, _.
Qed.

(** The statements of an action are those its type allows, and its type and
    its destinations stay. *)
Lemma action_apply_allowed objs a w st a' ops w' :
  action_apply objs a w = Ret ((st, a', ops), w') ->
  typeid a' = typeid a /\ dest_num a' = dest_num a
  /\ forall o, In o ops -> allowed (dest_num a) (typeid a) o.
Proof.
  destruct a as [m|r|t|f|r]; cbn [action_apply].
  - unfold modify_apply. set (first := if fam_is_valid m then _ else _). unfold bind, ret.
    destruct (first w) as [[[s m'] w1]|]; [|done]. destruct (is_ok s); cbn [negb]; intros E; injection E as <- <- <- <-; (split_and!; [done|done|]); [|done].
    intros o [<-|[<-|[]]]; constructor.
  - unfold reformat_apply. destruct (far_is_valid r); intros E; injection E as <- <- <- <-; split_and!; try done.
    intros o [<-|[<-|[]]]; constructor.
  - intros E; injection E as <- <- <- <-; split_and!; try done. intros o [<-|[]]; constructor.
  - unfold fwd_apply, bind, ret.
    destruct (fwd_dests_pure objs (faf_dests f) p_destination) as [[e He]|(s & dops & He & Ho)]; rewrite He; [done|].
    assert (forall o, In o dops -> allowed (dest_num (AFwd f)) TFwd o) as Hd.
    { intros o (k & id & ty & Hk & Hi)%Ho. by eapply al_fwd_dest. }
    destruct (is_ok s); cbn [negb]; intros E; injection E as <- <- <- <-; (split_and!; [done|done|]); [|exact Hd].
    intros o [Hi|[<-|[<-|[]]]]%in_app_or; [by apply Hd|constructor..].
  - intros E; injection E as <- <- <- <-; split_and!; try done. intros o [<-|[]]; constructor.
Qed.
End actions.

(** ** The encoding of modify actions *)

(** The action that the device reads at [p], by the layouts of the manual. *)
Definition decode_action (b : list Z) (p : Z) : modify_type_attr :=
  let t := DEVX_GET ifc.set_action_in p ["action_type"] b in
  if t =? MLX5_ACTION_TYPE_SET then
    ASet (DEVX_GET ifc.set_action_in p ["field"] b) (DEVX_GET ifc.set_action_in p ["offset"] b)
         (DEVX_GET ifc.set_action_in p ["length"] b) (DEVX_GET ifc.set_action_in p ["data"] b)
  else if t =? MLX5_ACTION_TYPE_COPY then
    ACopy (DEVX_GET ifc.copy_action_in p ["src_field"] b) (DEVX_GET ifc.copy_action_in p ["src_offset"] b)
          (DEVX_GET ifc.copy_action_in p ["length"] b) (DEVX_GET ifc.copy_action_in p ["dst_field"] b)
          (DEVX_GET ifc.copy_action_in p ["dst_offset"] b)
  else AOther t.

(** Attributes within the widths of their C types and PRM members. *)
Definition modify_wf (a : modify_type_attr) : Prop :=
  match a with
  | ASet f o l d => 0 <= f < 2 ^ 12 /\ 0 <= o < 2 ^ 5 /\ 0 <= l < 2 ^ 5 /\ 0 <= d < 2 ^ 32
  | ACopy sf so l df doff =>
      0 <= sf < 2 ^ 12 /\ 0 <= so < 2 ^ 5 /\ 0 <= l < 2 ^ 5 /\ 0 <= df < 2 ^ 12 /\ 0 <= doff < 2 ^ 5
  | AOther _ => False
  end.

(** The statements of one action. *)
Definition action_writes (p : Z) (a : modify_type_attr) : list write :=
  match a with
  | ASet f o l d => apply_modify_set_action p f o l d
  | ACopy sf so l df doff => apply_modify_copy_action p sf so l df doff
  | AOther _ => []
  end.

Lemma modify_actions_writes_ok acts p :
  Forall modify_wf acts ->
  exists r, modify_actions_writes p acts = (DPCP_OK, r)
    /\ r = concat (imap (fun i a => action_writes (p + action_size * Z.of_nat i) a) acts).
Proof.
  intros Hwf. revert p. induction Hwf as [|a acts Ha _ IH]; intros p; [by eexists|].
  destruct (IH (p + action_size)) as (r & E & Er).
  assert (concat (imap (fun i a => action_writes (p + action_size * Z.of_nat i) a) (a :: acts))
          = action_writes p a ++ r) as ->.
  { cbn [imap concat]. rewrite Z.mul_0_r, Z.add_0_r, Er. do 2 f_equal. apply imap_ext. intros i x _.
    cbn. f_equal. lia. }
  destruct a; [..|done]; cbn [modify_actions_writes]; rewrite E; by eexists.
Qed.

(** A member read after statements at a pointer that store it last. *)
Lemma get_at l p q path ws rest b v :
  0 <= p -> p + q <= Z.of_nat (length b) -> f_in (fld l 0 path) q = true ->
  seek (fld l 0 path) ws = Val v -> forallb (from (p + q)) rest = true ->
  0 <= v < 2 ^ f_sz (fld l 0 path) ->
  DEVX_GET l p path (exec (map (reloc p) ws ++ rest) b) = v.
Proof.
  intros Hp Hq Hf Hs Hr Hv. unfold DEVX_GET. rewrite <- (Z.add_0_r p) at 1. rewrite fld_reloc.
  pose proof (get_exec (reloc_field p (fld l 0 path)) (map (reloc p) ws ++ rest) b) as He.
  assert (f_addr (reloc_field p (fld l 0 path)) + 4 <= p + q) as Ha.
  { unfold f_in, f_ok in Hf. bool_hyps. cbn [reloc_field f_addr]. lia. }
  rewrite seek_app, (seek_below _ (p + q) rest Ha Hr), seek_reloc in He by (done || by rewrite Hs).
  rewrite Hs in He. rewrite He by (by eapply f_in_reloc). by apply Z.mod_small.
Qed.

Lemma action_writes_reloc p a : action_writes p a = map (reloc p) (action_writes 0 a).
Proof.
  destruct a; cbn [action_writes]; unfold apply_modify_set_action, apply_modify_copy_action; cbn [map];
    rewrite ?reloc_set, ?Z.add_0_r; done.
Qed.

Lemma action_decode1 p a rest b :
  0 <= p -> p + 8 <= Z.of_nat (length b) -> modify_wf a -> forallb (from (p + 8)) rest = true ->
  decode_action (exec (action_writes p a ++ rest) b) p = a.
Proof.
  intros Hp Hb Ha Hr. rewrite action_writes_reloc. unfold decode_action.
  destruct a as [f o l d|sf so l df doff|]; [| |done]; cbn [action_writes modify_wf] in *;
    destruct Ha as (? & ? & ? & Ha); [|destruct Ha as [? ?]];
    unfold apply_modify_set_action, apply_modify_copy_action, DEVX_SET.
  - rewrite (get_at ifc.set_action_in p 8 ["action_type"] _ rest b MLX5_ACTION_TYPE_SET)
      by (done || (norm_fld; mbox_seek; reflexivity)). cbn [Z.eqb Pos.eqb].
    f_equal; eapply get_at; try done; norm_fld; mbox_seek; reflexivity.
  - rewrite (get_at ifc.set_action_in p 8 ["action_type"] _ rest b MLX5_ACTION_TYPE_COPY)
      by (done || (norm_fld; mbox_seek; reflexivity)). cbn [Z.eqb Pos.eqb].
    f_equal; eapply get_at; try done; norm_fld; mbox_seek; reflexivity.
Qed.

(** The statements of all actions, from [p] on. *)
Definition all_writes (p : Z) (acts : list modify_type_attr) : list write :=
  concat (imap (fun i a => action_writes (p + action_size * Z.of_nat i) a) acts).

Lemma all_writes_cons p a acts : all_writes p (a :: acts) = action_writes p a ++ all_writes (p + 8) acts.
Proof.
  unfold all_writes. cbn [imap concat]. rewrite Z.mul_0_r, Z.add_0_r. do 2 f_equal. apply imap_ext. intros i x _.
  cbn [compose]. change action_size with 8. f_equal. lia.
Qed.

Lemma action_writes_from k p a : 0 <= k <= p -> forallb (from k) (action_writes p a) = true.
Proof.
  intros [H0 Hk]. rewrite action_writes_reloc, forallb_forall. intros w (u & <- & Hu)%in_map_iff.
  assert (match u with W32 g _ => f_ok g = true /\ 0 <= f_addr g | _ => False end) as Hf.
  { destruct a; cbn [action_writes] in Hu; unfold apply_modify_set_action, apply_modify_copy_action, DEVX_SET in Hu;
      repeat destruct Hu as [<-|Hu]; try done; norm_fld; by vm_compute. }
  destruct u as [[ga gs gz] x| |]; [|done..]. destruct Hf as [Hf Ha]. cbn [reloc reloc_field from f_addr] in *.
  unfold f_ok in *. cbn [f_addr f_sh f_sz] in *. bool_hyps. rewrite !andb_true_iff, !Z.leb_le. cbn. lia.
Qed.

Lemma all_writes_from acts : forall k p, 0 <= k <= p -> forallb (from k) (all_writes p acts) = true.
Proof.
  induction acts as [|a r IH]; intros k p Hk; [done|].
  rewrite all_writes_cons, forallb_app, action_writes_from, IH by lia. done.
Qed.

Lemma all_writes_decode acts : forall p b i a,
  Forall modify_wf acts -> 0 <= p -> p + 8 * Z.of_nat (length acts) <= Z.of_nat (length b) ->
  acts !! i = Some a -> decode_action (exec (all_writes p acts) b) (p + 8 * Z.of_nat i) = a.
Proof.
  induction acts as [|a0 r IH]; intros p b i a Hwf Hp Hb Hi; [done|]. rewrite all_writes_cons.
  inversion_clear Hwf as [|?? H0 Hr]. cbn [length] in Hb. destruct i as [|i].
  - injection Hi as ->. rewrite Z.mul_0_r, Z.add_0_r. apply action_decode1; [done|lia|done|].
    apply all_writes_from. lia.
  - rewrite exec_app. replace (p + 8 * Z.of_nat (S i)) with (p + 8 + 8 * Z.of_nat i) by lia.
    apply IH; [done|lia|rewrite length_exec; lia|done].
Qed.

Section modify_proofs.
Context {D : Type} `{DevX D}.
Implicit Types (w : world D).

(** The blocks of a modify action. *)
Definition buf_own (b : option (Z * list Z)) : list (Z * kind) := ptr (option_map fst b) KRaw.

Lemma own_reset old n l h w Q :
  own (buf_own old ++ l) h w ->
  (forall p w', own (ptr p KRaw ++ l) h w' -> Q p w') -> wp (reset_block old n) Q w.
Proof.
  intros Ho HQ. unfold reset_block. apply wp_bind. eapply own_alloc; [exact Ho|..].
  - intros w1 Ho1. apply wp_bind. eapply own_aligned_free; [exact Ho1|]. intros w2 Ho2. apply wp_ret. by apply HQ.
  - intros p w1 Ho1. apply wp_bind. eapply (own_aligned_free _ KRaw ((p, KRaw) :: l)); [own_perm Ho1|].
    intros w2 Ho2. apply wp_ret. by apply HQ.
Qed.

Lemma prepare_buff_len (n : nat) :
  Z.of_nat (length (zeros (ST_SZ_BYTES ifc.alloc_modify_header_context_in + action_size * Z.of_nat n)))
  = 16 + 8 * Z.of_nat n.
Proof. apply length_zeros. change (ST_SZ_BYTES _) with 16. change action_size with 8. lia. Qed.

(** What the mailbox of a modify action says. *)
Definition modify_in_says (a : flow_action_modify) (inb : list Z) : Prop :=
  DEVX_GET ifc.alloc_modify_header_context_in 0 ["opcode"] inb = MLX5_CMD_OP_ALLOC_MODIFY_HEADER_CONTEXT
  /\ DEVX_GET ifc.alloc_modify_header_context_in 0 ["table_type"] inb = wrap 8 (fam_table_type a)
  /\ DEVX_GET ifc.alloc_modify_header_context_in 0 ["num_of_actions"] inb
     = wrap 8 (Z.of_nat (length (fam_actions a)))
  /\ forall i x, fam_actions a !! i = Some x -> decode_action inb (16 + 8 * Z.of_nat i) = x.

Lemma modify_in_ok a :
  Forall modify_wf (fam_actions a) ->
  let n := Z.of_nat (length (fam_actions a)) in
  let inlen := ST_SZ_BYTES ifc.alloc_modify_header_context_in + action_size * n in
  modify_in_says a
    (exec ([DEVX_SET ifc.alloc_modify_header_context_in 0 ["opcode"] MLX5_CMD_OP_ALLOC_MODIFY_HEADER_CONTEXT;
            DEVX_SET ifc.alloc_modify_header_context_in 0 ["table_type"] (fam_table_type a);
            DEVX_SET ifc.alloc_modify_header_context_in 0 ["num_of_actions"] n]
           ++ all_writes 16 (fam_actions a)) (zeros inlen)).
Proof.
  intros Hwf n inlen.
  assert (Z.of_nat (length (zeros inlen)) = 16 + 8 * n) as Hlen by apply prepare_buff_len.
  assert (forall k, 0 <= k <= 16 -> forallb (from k) (all_writes 16 (fam_actions a)) = true) as Hfrom
    by (intros; by apply all_writes_from).
  assert (forall path, f_in (fld ifc.alloc_modify_header_context_in 0 path) 16 = true ->
            f_in (fld ifc.alloc_modify_header_context_in 0 path) inlen = true) as Hin.
  { intros path. unfold f_in. rewrite !andb_true_iff, !Z.leb_le. change inlen with (16 + 8 * n). unfold n.
    intros [? ?]. split; [done|lia]. }
  split_and!.
  1-3: rewrite (get_skip _ _ _ _ _ _ 16) by (done || (rewrite ?Hlen; lia) || (apply Hfrom; lia));
       apply get_zeroed; [apply Hin; vm_compute; reflexivity|unfold DEVX_SET; mbox_seek; reflexivity].
  intros i x Hi. rewrite exec_app. apply all_writes_decode; [done|lia| |done]. rewrite length_exec, Hlen. lia.
Qed.

(** C22. The mailbox of a modify action carries the actions it was given: the
    device reads back, in order, exactly the set and copy actions of the
    attributes; their number is kept modulo 256.  An unknown action type gives
    NO_SUPPORT and a failed allocation NO_MEMORY; the previous mailbox is
    released and nothing else changes hands. *)
Theorem modify_buff_roundtrip a l h w :
  own (buf_own (fam_in a) ++ l) h w ->
  wp (prepare_prm_modify_buff a) (fun r w' =>
    own (buf_own (fam_in (snd r)) ++ l) h w' /\ fam_actions (snd r) = fam_actions a
    /\ (Forall modify_wf (fam_actions a) ->
        (fst r = DPCP_ERR_NO_MEMORY /\ fam_in (snd r) = None)
        \/ (fst r = DPCP_OK /\ exists p inb, fam_in (snd r) = Some (p, inb) /\ modify_in_says a inb))
    /\ ((exists t, In (AOther t) (fam_actions a)) ->
        fst r = DPCP_ERR_NO_MEMORY \/ fst r = DPCP_ERR_NO_SUPPORT)) w.
Proof.
  intros Ho. unfold prepare_prm_modify_buff. apply wp_bind. eapply own_reset; [exact Ho|].
  intros [p|] w' Ho'; [|apply wp_ret; cbn [fst snd fam_in fam_actions]; split_and!; [done|done|by left|by left]].
  destruct (modify_actions_writes _ _) as [st ws] eqn:E. apply wp_ret. cbn [fst snd fam_in fam_actions].
  split_and!; [done|done| |].
  - intros Hwf. right. destruct (modify_actions_writes_ok (fam_actions a) 16 Hwf) as (r & E' & Er).
    change (ADDR_OF _ _ _) with 16 in E. rewrite E' in E. injection E as <- <-. split; [done|].
    exists p. eexists. split; [done|]. rewrite Er. by apply modify_in_ok.
  - intros [t Ht]. right. revert E. generalize (ADDR_OF ifc.alloc_modify_header_context_in 0 ["actions"]).
    clear -Ht. revert st ws. induction (fam_actions a) as [|x r IH]; intros st ws p; [done|].
    cbn [modify_actions_writes]. destruct Ht as [->|Ht]; [by intros [= <- _]|].
    destruct x; [..|by intros [= <- _]];
      destruct (modify_actions_writes (p + action_size) r) as [st' ws'] eqn:E; intros [= <- _]; by eapply IH.
Qed.

End modify_proofs.

Lemma modify_buff_roundtrip_witness :
  let a := flow_action_modify_new (Some 7) 0 [ASet 0xc 0 16 80; ACopy 1 0 0 0x51 4] in
  wp (prepare_prm_modify_buff a) (fun r w' =>
    own (buf_own (fam_in (snd r))) ∅ w'
    /\ ((fst r = DPCP_ERR_NO_MEMORY /\ fam_in (snd r) = None)
        \/ (fst r = DPCP_OK /\ exists p inb, fam_in (snd r) = Some (p, inb) /\ modify_in_says a inb))) sim_world.
Proof.
  intros a. eapply wp_mono; [|apply (modify_buff_roundtrip a [] ∅ sim_world), (own_nil sim_world), sim_world_fresh].
  intros r w' (Ho & _ & Hr & _). rewrite app_nil_r in Ho. split; [exact Ho|]. apply Hr.
  repeat constructor; lia.
Defined.

(** ** The encoding on the root table *)

Definition bf_get (sh sz w : Z) : Z := Z.land (Z.shiftr w sh) (Z.ones sz).

Lemma bf_get_u32 sh sz w : 0 <= sh -> 0 <= sz -> sh + sz <= 32 -> bf_get sh sz (u32 w) = bf_get sh sz w.
Proof.
  intros. unfold bf_get, wrap. zbits. rewrite !Z.land_spec, !Z.shiftr_spec by lia.
  destruct (Z.lt_ge_cases n sz); [by rewrite Z.mod_pow2_bits_low by lia|].
  by rewrite Z.ones_spec_high, !andb_false_r by lia.
Qed.

Lemma bf_get_same sh sz v w :
  0 <= sh -> 0 <= sz -> sh + sz <= 32 -> 0 <= v < 2 ^ sz -> bf_get sh sz (bf_set sh sz v w) = v.
Proof.
  intros. rewrite <- bf_get_u32 by done. unfold bf_get, bf_set. rewrite bits_same by done.
  by apply Z.mod_small.
Qed.

Lemma bf_get_other sh sz sh' sz' v w :
  0 <= sh -> 0 <= sz -> sh + sz <= 32 -> 0 <= sh' -> 0 <= sz' -> sh' + sz' <= 32 ->
  (sh' + sz' <= sh \/ sh + sz <= sh') -> bf_get sh' sz' (bf_set sh sz v w) = bf_get sh' sz' w.
Proof. intros. rewrite <- bf_get_u32 by done. unfold bf_get, bf_set. by apply bits_other. Qed.

Ltac bitfields := repeat first [ rewrite bf_get_same by lia | rewrite bf_get_other by lia ].

Lemma be32_htobe32 w rest : be32_to_cpu (htobe32 w ++ rest) 0 = u32 w.
Proof. unfold be32_to_cpu, htobe32, rd. cbn. apply word_of_bytes. Qed.

Lemma rd_app_r (x y : list Z) i : 0 <= i -> rd (x ++ y) (Z.of_nat (length x) + i) = rd y i.
Proof.
  intros. unfold rd. f_equal. rewrite Z2Nat.inj_add, Nat2Z.id by lia.
  rewrite lookup_app_r by lia. f_equal. lia.
Qed.

Lemma be32_app_r x y i : 0 <= i -> be32_to_cpu (x ++ y) (Z.of_nat (length x) + i) = be32_to_cpu y i.
Proof. intros. unfold be32_to_cpu. rewrite <- !Z.add_assoc. by rewrite !rd_app_r by lia. Qed.

(** What a device reads of the two words of an action. *)
Lemma decode_words b p d s :
  be32_to_cpu b p = u32 d -> be32_to_cpu b (p + 4) = u32 s ->
  decode_action b p
  = if bf_get 28 4 d =? MLX5_ACTION_TYPE_SET
    then ASet (bf_get 16 12 d) (bf_get 8 5 d) (bf_get 0 5 d) (bf_get 0 32 s)
    else if bf_get 28 4 d =? MLX5_ACTION_TYPE_COPY
    then ACopy (bf_get 16 12 d) (bf_get 8 5 d) (bf_get 0 5 d) (bf_get 16 12 s) (bf_get 8 5 s)
    else AOther (bf_get 28 4 d).
Proof.
  intros Hd Hs.
  assert (forall l path o sh sz, fld l 0 path = mkField o sh sz ->
            DEVX_GET l p path b = bf_get sh sz (be32_to_cpu b (p + o))) as Hget.
  { intros l path o sh sz E. unfold DEVX_GET. rewrite <- (Z.add_0_r p) at 1. by rewrite fld_reloc, E. }
  unfold decode_action.
  rewrite (Hget ifc.set_action_in ["action_type"] 0 28 4), (Hget ifc.set_action_in ["field"] 0 16 12),
    (Hget ifc.set_action_in ["offset"] 0 8 5), (Hget ifc.set_action_in ["length"] 0 0 5),
    (Hget ifc.set_action_in ["data"] 4 0 32), (Hget ifc.copy_action_in ["src_field"] 0 16 12),
    (Hget ifc.copy_action_in ["src_offset"] 0 8 5), (Hget ifc.copy_action_in ["length"] 0 0 5),
    (Hget ifc.copy_action_in ["dst_field"] 4 16 12), (Hget ifc.copy_action_in ["dst_offset"] 4 8 5)
    by (vm_compute; reflexivity).
  rewrite Z.add_0_r, Hd, Hs. by rewrite !bf_get_u32 by lia.
Qed.

(** A copy with its source and its destination exchanged. *)
Definition exchange (a : modify_type_attr) : modify_type_attr :=
  match a with
  | ACopy sf so l df doff => ACopy df doff l sf so
  | _ => a
  end.

Lemma root_action_decode junk a d s rest :
  modify_wf a -> root_action junk a = Some (d, s) -> decode_action (htobe32 d ++ htobe32 s ++ rest) 0 = exchange a.
Proof.
  intros Hwf Hr. rewrite (decode_words _ 0 d s);
    [|apply be32_htobe32|rewrite (be32_app_r (htobe32 d) _ 0) by lia; apply be32_htobe32].
  destruct junk as [jd js], a as [f o l x|sf so l df doff|]; [| |done]; cbn [root_action modify_wf exchange] in *;
    injection Hr as <- <-; destruct_and!; unfold dst_action_type, dst_field, dst_length, dst_offset, src_field, src_offset;
    unfold MLX5_ACTION_TYPE_SET, MLX5_ACTION_TYPE_COPY; bitfields; cbn [Z.eqb Pos.eqb].
  - f_equal. unfold bf_get. rewrite Z.shiftr_0_r, Z.land_ones by lia. by apply Z.mod_small.
  - by bitfields.
Qed.

Lemma decode_app x y i :
  0 <= i -> decode_action (x ++ y) (Z.of_nat (length x) + i) = decode_action y i.
Proof.
  intros Hi. unfold decode_action, DEVX_GET, get_field.
  assert (forall l path, 0 <= bit_off l path ->
            be32_to_cpu (x ++ y) (f_addr (fld l (Z.of_nat (length x) + i) path)) = be32_to_cpu y (f_addr (fld l i path))) as E.
  { intros l path Ho. cbn [fld f_addr]. rewrite <- Z.add_assoc. apply be32_app_r.
    assert (0 <= bit_off l path / 32) by (apply Z.div_pos; lia). lia. }
  rewrite !E by (by vm_compute). done.
Qed.

(** On the root table a modify action is encoded differently from the
    mailbox of a device table: set actions agree, but the device reads every
    copy with source and destination exchanged.  The bits the code never stores
    play no part. *)
Theorem root_encoding acts : forall junk bytes,
  root_actions junk acts = Some bytes ->
  Z.of_nat (length bytes) = 8 * Z.of_nat (length acts)
  /\ (Forall modify_wf acts ->
      forall i a, acts !! i = Some a -> decode_action bytes (8 * Z.of_nat i) = exchange a).
Proof.
  induction acts as [|a0 r IH]; intros junk bytes E; cbn [root_actions] in E; [by injection E as <-|].
  destruct (root_action _ a0) as [[d s]|] eqn:Ea; [|done].
  destruct (root_actions (tail junk) r) as [rest|] eqn:Er; [|done]. apply (inj Some) in E as <-.
  destruct (IH _ _ Er) as [Hl Hd]. split; [unfold htobe32; cbn [app length]; lia|].
  intros Hwf. inversion_clear Hwf as [|?? H0 Hr]. intros [|i] a Hi.
  - injection Hi as ->. by eapply root_action_decode.
  - rewrite app_assoc. replace (8 * Z.of_nat (S i)) with (Z.of_nat (length (htobe32 d ++ htobe32 s)) + 8 * Z.of_nat i)
      by (rewrite length_app; cbn [htobe32 length]; lia).
    rewrite decode_app by lia. by apply Hd.
Qed.

Lemma root_encoding_witness :
  let acts := [ASet 0xc 0 16 80; ACopy 1 0 0 0x51 4] in
  decode_action (default [] (root_actions [(0xffffffff, 5); (7, 0xffffffff)] acts)) 8 = ACopy 0x51 4 0 1 0.
Proof.
  intros acts. destruct (root_encoding acts [(0xffffffff, 5); (7, 0xffffffff)]
    (default [] (root_actions [(0xffffffff, 5); (7, 0xffffffff)] acts))) as [_ H]; [vm_compute; reflexivity|].
  apply (H ltac:(repeat constructor; lia) 1%nat (ACopy 1 0 0 0x51 4)). reflexivity.
Defined.

(** ** Reading the flow context *)

Lemma get_run_op_other f o b :
  f_in f (Z.of_nat (length b)) = true -> f_ok (bop_field o) = true -> f_disj f (bop_field o) = true ->
  get_field f (run_op o b) = get_field f b.
Proof. intros. destruct o; cbn [run_op bop_field] in *; unfold upd; by apply get_set_other. Qed.

Lemma get_run_ops_other f os b :
  f_in f (Z.of_nat (length b)) = true ->
  (forall o, In o os -> f_ok (bop_field o) = true /\ f_disj f (bop_field o) = true) ->
  get_field f (run_ops os b) = get_field f b.
Proof.
  intros Hf. revert b Hf. induction os as [|o r IH]; intros b Hf Ho; [done|]. cbn [run_ops].
  rewrite IH by (rewrite ?length_run_op; first [done | intros; apply Ho; by right]).
  destruct (Ho o) as [? ?]; [by left|]. by apply get_run_op_other.
Qed.

Lemma get_run_set f v b :
  f_in f (Z.of_nat (length b)) = true -> get_field f (run_op (BSet f v) b) = v mod 2 ^ f_sz f.
Proof. intros. cbn [run_op]. unfold upd. by apply get_set_same. Qed.

Lemma get_run_or f v b :
  f_in f (Z.of_nat (length b)) = true -> 0 <= v < 2 ^ f_sz f ->
  get_field f (run_op (BOr f v) b) = Z.lor v (get_field f b).
Proof.
  intros Hf Hv. cbn [run_op]. unfold upd. rewrite get_set_same by done.
  assert (0 <= f_sz f) as Hz by (unfold f_in, f_ok in Hf; bool_hyps; lia).
  rewrite <- Z.land_ones by done. unfold get_field. zbits. rewrite !Z.land_spec, !Z.lor_spec, !Z.land_spec.
  destruct (Z.lt_ge_cases n (f_sz f)).
  - rewrite Z.ones_spec_low by lia. by rewrite !andb_true_r.
  - rewrite Z.ones_spec_high by lia. rewrite !andb_false_r, orb_false_r.
    symmetry. rewrite <- (Z.mod_small v (2 ^ f_sz f)) by done. apply Z.mod_pow2_bits_high. lia.
Qed.

Definition f_action : field := fld ifc.flow_context p_flow_context ["action"].

(** The bit of [flow_context.action] that a type of action sets. *)
Definition type_bit (t : action_type) : Z :=
  match t with
  | TModify => MLX5_FLOW_CONTEXT_ACTION_MOD_HDR
  | TReformat => MLX5_FLOW_CONTEXT_ACTION_PACKET_REFORMAT
  | TTag => 0
  | TFwd => MLX5_FLOW_CONTEXT_ACTION_FWD_DEST
  | TReparse => MLX5_FLOW_CONTEXT_ACTION_REPARSE
  end.

Lemma fixed_in f n : f_in f 832 = true -> 832 <= n -> f_in f n = true.
Proof. unfold f_in. intros [? H1%Z.leb_le]%andb_prop Hn. apply andb_true_intro. split; [done|]. apply Z.leb_le. lia. Qed.

Ltac ctx_field := apply fixed_in; [vm_compute; reflexivity|rewrite ?length_run_op, ?length_run_ops; lia].
Ltac ctx_skip := rewrite get_run_op_other by (ctx_field || (vm_compute; reflexivity)).

(** Statements on the destinations leave what lies before them alone. *)
Lemma get_dests_skip {D} `{DevX D} objs p dests (w : world D) st ops w' f b :
  fwd_dests objs p dests w = Ret ((st, ops), w') ->
  f_addr f + 4 <= p -> f_in f (Z.of_nat (length b)) = true -> get_field f (run_ops ops b) = get_field f b.
Proof.
  intros E Hp Hf. destruct (fwd_dests_pure (D := D) objs dests p) as [[e He]|(st' & ops' & He & Ho)]; rewrite He in E; [done|].
  injection E as <- <- <-. apply get_run_ops_other; [done|].
  intros o (k & id & ty & Hk & Hi)%Ho. change dest_size with 8 in Hi. pose proof (f_in_ok _ _ Hf) as Hok.
  unfold f_ok in Hok. bool_hyps.
  destruct Hi as [<-|[<-|[]]]; cbn [bop_field]; rewrite ?dest_id_fld, ?dest_type_fld; unfold f_ok, f_disj;
    cbn [f_addr f_sh f_sz]; (split; [rewrite !andb_true_iff, !Z.leb_le; lia|]);
    replace (f_addr f + 4 <=? p + 8 * k) with true by (symmetry; apply Z.leb_le; lia); done.
Qed.

(** A statement on the fixed part leaves the destinations alone. *)
Lemma get_fixed_skip o f b :
  fixed_part o = true -> 832 <= f_addr f -> f_in f (Z.of_nat (length b)) = true ->
  get_field f (run_op o b) = get_field f b.
Proof.
  unfold fixed_part. intros [Ho Ha%Z.leb_le]%andb_prop Hf Hin. change p_destination with 832 in Ha.
  apply get_run_op_other; [done|done|]. unfold f_disj. rewrite !orb_true_iff, !Z.leb_le. left; right. lia.
Qed.

Section says.
Context {D : Type} `{DevX D}.
Implicit Types (w : world D).

(** The statements of an action that succeeds. *)
Definition ops_of (dops : list bop) (a : flow_action) : list bop :=
  match a with
  | AModify m => [fc_enable MLX5_FLOW_CONTEXT_ACTION_MOD_HDR; fc_set "modify_header_id" (fam_modify_id m)]
  | AReformat r => [fc_enable MLX5_FLOW_CONTEXT_ACTION_PACKET_REFORMAT;
                    fc_set "packet_reformat_id" (far_reformat_id r)]
  | ATag t => [fc_set "flow_tag" (fat_tag_id t)]
  | AFwd f => dops ++ [fc_enable MLX5_FLOW_CONTEXT_ACTION_FWD_DEST;
                       fc_set "destination_list_size" (get_dest_num f)]
  | AReparse r => [fc_enable MLX5_FLOW_CONTEXT_ACTION_REPARSE]
  end.

Definition dests_of (a : flow_action) : list Z := match a with AFwd f => faf_dests f | _ => [] end.

Lemma action_apply_ops objs a w a' ops w' :
  action_apply objs a w = Ret ((DPCP_OK, a', ops), w') ->
  dests_of a' = dests_of a /\ typeid a' = typeid a
  /\ exists dops w0, fwd_dests objs p_destination (dests_of a) w = Ret ((DPCP_OK, dops), w0) /\ ops = ops_of dops a'.
Proof.
  destruct a as [m|r|t|f|r]; cbn [action_apply dests_of typeid].
  - unfold modify_apply. set (first := if fam_is_valid m then _ else _). unfold bind, ret.
    destruct (first w) as [[[s m'] w1]|]; [|done].
    destruct (is_ok s) eqn:Es; cbn [negb]; intros E; [injection E as <- <- <-|injection E as -> _ _ _; done].
    split_and!; [done|done|]. by exists [], w.
  - unfold reformat_apply. destruct (far_is_valid r); intros E; [injection E as <- <- <-|done].
    split_and!; [done|done|]. by exists [], w.
  - intros E; injection E as <- <- <-. split_and!; [done|done|]. by exists [], w.
  - unfold fwd_apply, bind, ret. destruct (fwd_dests objs p_destination (faf_dests f) w) as [[[s dops] w1]|] eqn:Ed; [|done].
    destruct (is_ok s) eqn:Es; cbn [negb]; intros E; [injection E as <- <- <-|injection E as -> _ _ _; done].
    apply is_ok_true in Es as ->. split_and!; [done|done|]. by exists dops, w1.
  - intros E; injection E as <- <- <-. split_and!; [done|done|]. by exists [], w.
Qed.

(** An action that is applied adds its bit to [flow_context.action]. *)
Lemma action_bits objs a w a' ops w' b :
  action_apply objs a w = Ret ((DPCP_OK, a', ops), w') -> 832 <= Z.of_nat (length b) ->
  get_field f_action (run_ops ops b) = Z.lor (type_bit (typeid a)) (get_field f_action b).
Proof.
  intros E Hb. destruct (action_apply_ops _ _ _ _ _ _ E) as (_ & <- & dops & w0 & Ed & ->). clear E.
  destruct a' as [m|r|t|f|r]; cbn [ops_of typeid type_bit]; rewrite ?run_ops_app; cbn [run_ops fc_set fc_enable].
  1,2: ctx_skip; by rewrite get_run_or by (ctx_field || by vm_compute).
  - by ctx_skip.
  - ctx_skip. rewrite get_run_or by (ctx_field || by vm_compute). f_equal.
    eapply get_dests_skip; [exact Ed|by vm_compute|ctx_field].
  - by rewrite get_run_or by (ctx_field || by vm_compute).
Qed.

(** What the flow context says of an action. *)
Definition action_says (objs : gmap Z forwardable_obj) (a : flow_action) (b : list Z) : Prop :=
  let get m := DEVX_GET ifc.flow_context p_flow_context [F m] b in
  match a with
  | AModify m => get "modify_header_id" = wrap 32 (fam_modify_id m)
  | AReformat r => get "packet_reformat_id" = wrap 32 (far_reformat_id r)
  | ATag t => get "flow_tag" = wrap 24 (fat_tag_id t)
  | AFwd f =>
      get "destination_list_size" = wrap 24 (get_dest_num f)
      /\ forall i d, faf_dests f !! i = Some d ->
          exists o, objs !! d = Some o /\ m_obj_handle (fwd_obj o) ≠ None
            /\ DEVX_GET ifc.dest_format_struct (p_destination + 8 * Z.of_nat i) ["destination_id"] b
               = wrap 24 (m_id (fwd_obj o))
            /\ DEVX_GET ifc.dest_format_struct (p_destination + 8 * Z.of_nat i) ["destination_type"] b
               = wrap 8 (fwd_type o)
  | AReparse _ => True
  end.

Ltac dest_in := unfold f_in, f_ok; cbn [bop_field f_addr f_sh f_sz]; rewrite ?andb_true_iff, ?Z.leb_le; lia.

(** The destinations, one after the other. *)
Lemma fwd_dests_says objs dests : forall p w ops w' b i d,
  fwd_dests objs p dests w = Ret ((DPCP_OK, ops), w') -> 0 <= p ->
  p + 8 * Z.of_nat (length dests) <= Z.of_nat (length b) -> dests !! i = Some d ->
  exists o, objs !! d = Some o /\ m_obj_handle (fwd_obj o) ≠ None
    /\ DEVX_GET ifc.dest_format_struct (p + 8 * Z.of_nat i) ["destination_id"] (run_ops ops b)
       = wrap 24 (m_id (fwd_obj o))
    /\ DEVX_GET ifc.dest_format_struct (p + 8 * Z.of_nat i) ["destination_type"] (run_ops ops b)
       = wrap 8 (fwd_type o).
Proof.
  induction dests as [|d0 r IH]; intros p w ops w' b i d E Hp Hb Hi; [done|]. cbn [fwd_dests length] in *.
  destruct (objs !! d0) as [o|] eqn:Eo; cbn [need] in E; [|done]. unfold bind, ret in E. unfold obj_get_id in E.
  destruct (m_obj_handle (fwd_obj o)) as [hd|] eqn:Eh; cbn [is_ok negb] in E; [|done].
  destruct (fwd_dests objs (p + dest_size) r w) as [[[st ops'] w1]|] eqn:Er; [|done]. injection E as -> <- <-.
  cbn [dest_ops app run_ops]. change dest_size with 8 in *. destruct i as [|i].
  - injection Hi as ->. exists o. rewrite Z.mul_0_r, Z.add_0_r. split_and!; [done|by rewrite Eh|..];
      unfold DEVX_GET; rewrite dest_id_fld, ?dest_type_fld;
      (rewrite (get_dests_skip _ _ _ _ _ _ _ _ _ Er);
        [|cbn [f_addr]; lia|rewrite !length_run_op; dest_in]).
    + rewrite get_run_op_other; [|rewrite ?length_run_op; dest_in|dest_in|cbn [bop_field]; unfold f_disj; cbn [f_addr f_sh f_sz]; by rewrite Z.eqb_refl, !orb_true_r].
      rewrite get_run_set by dest_in. done.
    + rewrite get_run_set by (rewrite ?length_run_op; dest_in). done.
  - destruct (IH (p + 8) w ops' w1 (run_op (BSet (fld ifc.dest_format_struct p ["destination_type"]) (fwd_type o))
      (run_op (BSet (fld ifc.dest_format_struct p ["destination_id"]) (m_id (fwd_obj o))) b)) i d Er
      ltac:(lia) ltac:(rewrite !length_run_op; lia) Hi) as (o' & H1 & H2 & H3 & H4).
    exists o'. replace (p + 8 * Z.of_nat (S i)) with (p + 8 + 8 * Z.of_nat i) by lia. done.
Qed.
(** After its statements, the flow context says what the action asks. *)
Lemma action_says_last objs a w a' ops w' b :
  action_apply objs a w = Ret ((DPCP_OK, a', ops), w') ->
  fte_len (Z.of_nat (length (dests_of a))) <= Z.of_nat (length b) -> action_says objs a' (run_ops ops b).
Proof.
  intros E Hb. destruct (action_apply_ops _ _ _ _ _ _ E) as (Hds & _ & dops & w0 & Ed & ->). clear E.
  rewrite <- Hds in *. rewrite fte_len_eq in Hb.
  destruct a' as [m|r|t|f|r]; cbn [ops_of action_says dests_of] in *; cbv zeta; [..|done].
  1,2,3: unfold DEVX_GET; cbn [run_ops]; unfold fc_set; rewrite get_run_set by ctx_field; reflexivity.
  rewrite run_ops_app. cbn [run_ops]. split.
  - unfold DEVX_GET, fc_set. rewrite get_run_set by ctx_field. reflexivity.
  - intros i d Hi.
    destruct (fwd_dests_says objs (faf_dests f) p_destination w dops w0 b i d Ed) as (o & H1 & H2 & H3 & H4);
      [done|change p_destination with 832; lia|done|].
    apply lookup_lt_Some in Hi.
    exists o. split_and!; [done|done|rewrite <- H3|rewrite <- H4]; unfold DEVX_GET; change p_destination with 832;
      rewrite ?dest_id_fld, ?dest_type_fld;
      (rewrite (get_fixed_skip (fc_set _ _)); [|vm_compute; reflexivity|cbn [f_addr]; lia|rewrite ?length_run_op, ?length_run_ops; dest_in]);
      (apply get_fixed_skip; [vm_compute; reflexivity|cbn [f_addr]; lia|rewrite ?length_run_ops; dest_in]).
Qed.
End says.
