(* ===== verification/FlowTable.v ===== *)
(** * Flow tables and flow groups (src/src/dpcp/flow_table.cpp, flow_group.cpp)

    A table owns its groups and a group its rules; the caller keeps shared
    pointers to tables and weak pointers to groups and rules, and a group keeps
    a weak pointer to its table.  A device table ([flow_table_prm]) is a PRM
    object, the root table ([flow_table_kernel]) belongs to the operating
    system.  The store [steering] of FlowRuleEx.v holds the objects; here an
    object is given what its weak pointers lock to. *)

From S2P Require Import Prelude Codec Prm Dcmd Own Sim Obj Fr Writes Matcher FlowAction.
Open Scope string_scope.
Open Scope list_scope.
Open Scope Z_scope.
Open Scope m_scope.

(** ** Attributes (src/src/api/dpcp.h) *)

Definition FT_RX : Z := 0.
Definition FT_TX : Z := 1.
Definition FT_END : Z := 2.
Definition FT_OP_MOD_NORMAL : Z := 0.
Definition FT_MISS_ACTION_DEF : Z := 0.
Definition FT_MISS_ACTION_FWD : Z := 1.
Definition FT_EN_REFORMAT : Z := Z.shiftl 1 0.
Definition FT_EN_DECAP : Z := Z.shiftl 1 1.

(** [struct flow_table_attr]; [table_miss] is a shared pointer, or null. *)
Record flow_table_attr := mkTableAttr {
  fta_flags : Z;
  fta_table_miss : option Z;
  fta_log_size : Z;
  fta_level : Z;
  fta_type : Z;
  fta_op_mod : Z;
  fta_def_miss_action : Z
}.

(** The dynamic class of a table with the members it adds. *)
Inductive table_class : Type :=
| TablePrm (m_table_id : Z) (m_attr : flow_table_attr)
| TableKernel.

Record flow_table := mkTable {
  ft_obj : obj;
  ft_type : Z;
  ft_is_initialized : bool;
  ft_groups : gset Z;                      (* shared_ptr<flow_group> *)
  ft_class : table_class
}.

Definition DEFAULT_LEVEL : Z := 64.
Definition DEFAULT_LOG_SIZE : Z := 16.

(** [flow_table_prm::flow_table_prm], [flow_table_kernel::flow_table_kernel] *)
Definition flow_table_prm_new (ctx : option Z) (attr : flow_table_attr) : flow_table :=
  mkTable (obj_new ctx) (fta_type attr) false ∅ (TablePrm 0 attr).
Definition flow_table_kernel_new (ctx : option Z) (type : Z) : flow_table :=
  mkTable (obj_new ctx) type false ∅ TableKernel.

(** [flow_table::get_flow_table_status], [get_table_type], [get_fwd_type] *)
Definition get_flow_table_status (t : flow_table) : status :=
  if ft_is_initialized t then DPCP_OK else DPCP_ERR_NOT_APPLIED.
Definition get_table_type (t : flow_table) : status * Z :=
  let st := get_flow_table_status t in
  if negb (is_ok st) then (st, FT_END) else (DPCP_OK, ft_type t).
Definition table_fwd_type (t : flow_table) : Z := MLX5_FLOW_DESTINATION_TYPE_FLOW_TABLE.

(** [dynamic_pointer_cast<flow_table_prm>] and [flow_table_prm::get_table_id];
    the identifier is 0 where the code leaves the variable at its initial 0. *)
Definition prm_table (t : flow_table) : option (Z * flow_table_attr) :=
  match ft_class t with TablePrm id a => Some (id, a) | TableKernel => None end.
Definition get_table_id (t : flow_table) (id : Z) : status * Z :=
  let st := get_flow_table_status t in
  if negb (is_ok st) then (st, 0) else (DPCP_OK, id).

(** [get_table_level] of the two classes. *)
Definition get_table_level (t : flow_table) : status * Z :=
  let st := get_flow_table_status t in
  if negb (is_ok st) then (st, 0)
  else (DPCP_OK, match ft_class t with TablePrm _ a => fta_level a | TableKernel => DEFAULT_LEVEL end).

(** [flow_table_prm::set_miss_action]; [miss] is the table [m_attr.table_miss]
    points to. *)
Definition set_miss_action (attr : flow_table_attr) (miss : option flow_table) : status * list write :=
  if fta_def_miss_action attr =? FT_MISS_ACTION_DEF then
    (DPCP_OK, [DEVX_SET ifc.create_flow_table_in 0 ["flow_table_context"; "table_miss_action"] FT_MISS_ACTION_DEF])
  else if fta_def_miss_action attr =? FT_MISS_ACTION_FWD then
    match miss with
    | None => (DPCP_ERR_INVALID_PARAM, [])
    | Some m =>
        match prm_table m with
        | None => (DPCP_ERR_INVALID_PARAM, [])
        | Some (id, _) =>
            let '(st1, miss_id) := get_table_id m id in
            let '(st2, miss_level) := get_table_level m in
            if negb (is_ok st1) || negb (is_ok st2) then (DPCP_ERR_INVALID_PARAM, [])
            else if miss_level <=? fta_level attr then (DPCP_ERR_INVALID_PARAM, [])
            else
              (DPCP_OK,
               [DEVX_SET ifc.create_flow_table_in 0 ["flow_table_context"; "table_miss_action"] FT_MISS_ACTION_FWD;
                DEVX_SET ifc.create_flow_table_in 0 ["flow_table_context"; "table_miss_id"] miss_id])
        end
    end
  else (DPCP_ERR_NO_SUPPORT, []).

Definition b2z_flag (flags bit : Z) : Z := if Z.land flags bit =? 0 then 0 else 1.

(** The statements of [flow_table_prm::create] after the miss action. *)
Definition table_writes (attr : flow_table_attr) : list write :=
  [DEVX_SET ifc.create_flow_table_in 0 ["opcode"] MLX5_CMD_OP_CREATE_FLOW_TABLE;
   DEVX_SET ifc.create_flow_table_in 0 ["table_type"] (fta_type attr);
   DEVX_SET ifc.create_flow_table_in 0 ["flow_table_context"; "level"] (fta_level attr);
   DEVX_SET ifc.create_flow_table_in 0 ["flow_table_context"; "log_size"] (fta_log_size attr);
   DEVX_SET ifc.create_flow_table_in 0 ["flow_table_context"; "decap_en"] (b2z_flag (fta_flags attr) FT_EN_DECAP);
   DEVX_SET ifc.create_flow_table_in 0 ["flow_table_context"; "reformat_en"] (b2z_flag (fta_flags attr) FT_EN_REFORMAT)].

(** The mailbox, or the status of the attribute that is refused. *)
Definition table_in (attr : flow_table_attr) (miss : option flow_table) : status * list Z :=
  let '(st, ws) :=
    if fta_op_mod attr =? FT_OP_MOD_NORMAL then set_miss_action attr miss else (DPCP_ERR_NO_SUPPORT, []) in
  (st, mailbox ifc.create_flow_table_in
         (DEVX_SET ifc.create_flow_table_in 0 ["op_mod"] (fta_op_mod attr) :: ws ++ table_writes attr)).

Arguments table_in : simpl never.

Section table.
Context {D : Type} `{DevX D}.

(** [flow_table_prm::create] *)
Definition table_prm_create (miss : option flow_table) (t : flow_table) (attr : flow_table_attr)
  : M D (status * flow_table) :=
  if ft_is_initialized t then ret (DPCP_OK, t)
  else
    let '(st, inb) := table_in attr miss in
    if negb (is_ok st) then ret (st, t)
    else
      '(st, o, out) <- obj_create (ft_obj t) (Some inb) (Some (zeros (ST_SZ_BYTES ifc.create_flow_table_out)));;
      if negb (is_ok st) then ret (st, mkTable o (ft_type t) false (ft_groups t) (ft_class t))
      else
        let id := DEVX_GET ifc.create_flow_table_out 0 ["table_id"] out in
        ret (DPCP_OK, mkTable o (ft_type t) true (ft_groups t) (TablePrm id attr)).

(** [flow_table_kernel::create] *)
Definition table_kernel_create (t : flow_table) : M D (status * flow_table) :=
  ret (DPCP_OK, mkTable (ft_obj t) (ft_type t) true (ft_groups t) (ft_class t)).

(** The virtual [flow_table::create]. *)
Definition table_create (miss : option flow_table) (t : flow_table) : M D (status * flow_table) :=
  match ft_class t with
  | TablePrm _ attr => table_prm_create miss t attr
  | TableKernel => table_kernel_create t
  end.

(** [flow_table_prm::query]: the caller's attributes are updated in place. *)
Definition table_prm_query (miss : option flow_table) (t : flow_table) (id : Z) (m_attr attr : flow_table_attr)
  : M D (status * flow_table * flow_table_attr) :=
  let st := get_flow_table_status t in
  if negb (is_ok st) then ret (st, t, attr)
  else
    let inb := mailbox ifc.query_flow_table_in
      [DEVX_SET ifc.query_flow_table_in 0 ["opcode"] MLX5_CMD_OP_QUERY_FLOW_TABLE;
       DEVX_SET ifc.query_flow_table_in 0 ["table_id"] id;
       DEVX_SET ifc.query_flow_table_in 0 ["table_type"] (fta_type m_attr)] in
    '(st, o, out) <- obj_query (ft_obj t) (Some inb) (Some (zeros (ST_SZ_BYTES ifc.query_flow_table_out)));;
    let t := mkTable o (ft_type t) (ft_is_initialized t) (ft_groups t) (ft_class t) in
    if negb (is_ok st) then ret (st, t, attr)
    else
      let get m := DEVX_GET ifc.query_flow_table_out 0 [F "flow_table_context"; F m] out in
      let f1 := if get "decap_en" =? 0 then fta_flags attr else Z.lor (fta_flags attr) FT_EN_DECAP in
      let f2 := if get "reformat_en" =? 0 then f1 else Z.lor f1 FT_EN_REFORMAT in
      let a miss := mkTableAttr f2 miss (get "log_size") (get "level") (fta_type m_attr) (fta_op_mod m_attr)
                      (get "table_miss_action") in
      match match miss with Some m => prm_table m | None => None end, miss with
      | Some (mid, _), Some m =>
          let '(st, table_miss) := get_table_id m mid in
          if negb (is_ok st) then ret (st, t, a (fta_table_miss attr))
          else if get "table_miss_id" =? table_miss then ret (DPCP_OK, t, a (fta_table_miss m_attr))
          else ret (DPCP_OK, t, a (fta_table_miss attr))
      | _, _ => ret (DPCP_OK, t, a (fta_table_miss attr))
      end.

(** [flow_table_kernel::query] *)
Definition table_kernel_query (t : flow_table) (attr : flow_table_attr) : status * flow_table_attr :=
  let st := get_flow_table_status t in
  if negb (is_ok st) then (st, attr)
  else (DPCP_OK, mkTableAttr 0 (fta_table_miss attr) DEFAULT_LOG_SIZE DEFAULT_LEVEL (ft_type t)
                   FT_OP_MOD_NORMAL FT_MISS_ACTION_DEF).

(** [adapter::verify_flow_table_receive_attr]: [caps] are the receive
    capabilities (supported, maximal log of the size, maximal level); the
    pointer [m_external_hca_caps] may be null. *)
Definition verify_flow_table_receive_attr (caps : option (bool * Z * Z)) (attr : flow_table_attr) : M D status :=
  '(supported, max_log_size, max_level) <- need caps "null m_external_hca_caps";;
  if negb supported then ret DPCP_ERR_CREATE
  else if max_log_size <? fta_log_size attr then ret DPCP_ERR_INVALID_PARAM
  else if max_level <? fta_level attr then ret DPCP_ERR_INVALID_PARAM
  else ret DPCP_OK.

(** [adapter::create_flow_table] *)
Definition create_flow_table (ctx : option Z) (caps : option (bool * Z * Z)) (attr : flow_table_attr)
  : M D (status * option (Z * flow_table)) :=
  if fta_level attr =? 0 then ret (DPCP_ERR_INVALID_PARAM, None)
  else
    st <- (if fta_type attr =? FT_RX then verify_flow_table_receive_attr caps attr else ret DPCP_ERR_NO_SUPPORT);;
    if negb (is_ok st) then ret (st, None)
    else
      p <- alloc BMem;;
      match p with
      | None => ret (DPCP_ERR_NO_MEMORY, None)
      | Some p => ret (DPCP_OK, Some (p, flow_table_prm_new ctx attr))
      end.
End table.

(** ** Groups *)

Record flow_group_attr := mkGroupAttr {
  fga_start_flow_index : Z;
  fga_end_flow_index : Z;
  fga_match_criteria_enable : Z;
  fga_match_criteria : match_params_ex
}.

Inductive group_class : Type :=
| GroupPrm (m_group_id : Z)
| GroupKernel.

Record flow_group := mkGroup {
  fg_obj : obj;
  fg_attr : flow_group_attr;
  fg_table : Z;                            (* weak_ptr<const flow_table> *)
  fg_is_initialized : bool;
  fg_rules : gset Z;                       (* shared_ptr<flow_rule_ex> *)
  fg_matcher : option flow_matcher;
  fg_class : group_class
}.

Definition flow_group_new (ctx : option Z) (attr : flow_group_attr) (table : Z) (c : group_class) : flow_group :=
  mkGroup (obj_new ctx) attr table false ∅ None c.

(** [flow_group::create], the base class; [table] is what the weak pointer locks
    to. *)
Definition group_base_create (table : option flow_table) (g : flow_group) : status * flow_group :=
  match table with
  | None => (DPCP_ERR_INVALID_PARAM, g)
  | Some _ =>
      if fg_is_initialized g then (DPCP_ERR_CREATE, g)
      else (DPCP_OK,
            mkGroup (fg_obj g) (fg_attr g) (fg_table g) (fg_is_initialized g) (fg_rules g)
              (Some (mkFlowMatcher (fga_match_criteria (fg_attr g)) (fga_match_criteria_enable (fg_attr g))))
              (fg_class g))
  end.

(** The statements of [flow_group_prm::create]; the status of the matcher is
    dropped. *)
Definition group_writes (attr : flow_group_attr) (m : flow_matcher) (table_id : Z) : list write :=
  [DEVX_SET ifc.create_flow_group_in 0 ["opcode"] MLX5_CMD_OP_CREATE_FLOW_GROUP;
   DEVX_SET ifc.create_flow_group_in 0 ["table_id"] table_id;
   DEVX_SET ifc.create_flow_group_in 0 ["start_flow_index"] (fga_start_flow_index attr);
   DEVX_SET ifc.create_flow_group_in 0 ["end_flow_index"] (fga_end_flow_index attr);
   DEVX_SET ifc.create_flow_group_in 0 ["match_criteria_enable"] (fga_match_criteria_enable attr)]
  ++ snd (matcher_apply m (ADDR_OF ifc.create_flow_group_in 0 ["match_criteria"]) (fga_match_criteria attr)).

Definition group_in (attr : flow_group_attr) (m : flow_matcher) (table_id : Z) : list Z :=
  mailbox ifc.create_flow_group_in (group_writes attr m table_id).

Arguments group_in : simpl never.

Definition with_group (g : flow_group) (o : obj) (init : bool) (c : group_class) : flow_group :=
  mkGroup o (fg_attr g) (fg_table g) init (fg_rules g) (fg_matcher g) c.

Section group.
Context {D : Type} `{DevX D}.

(** [flow_group_prm::create] *)
Definition group_prm_create (table : option flow_table) (g : flow_group) (id : Z) : M D (status * flow_group) :=
  let '(st, g) := group_base_create table g in
  if negb (is_ok st) then ret (DPCP_ERR_NO_MEMORY, g)
  else
    match match table with Some t => match prm_table t with Some (i, _) => Some (t, i) | None => None end
                         | None => None end with
    | None => ret (DPCP_ERR_INVALID_PARAM, g)
    | Some (t, i) =>
        let '(st, table_id) := get_table_id t i in
        if negb (is_ok st) then ret (DPCP_ERR_INVALID_PARAM, g)
        else
          m <- need (fg_matcher g) "null matcher";;
          '(st, o, out) <- obj_create (fg_obj g) (Some (group_in (fg_attr g) m table_id))
                             (Some (zeros (ST_SZ_BYTES ifc.create_flow_group_out)));;
          if negb (is_ok st) then ret (st, with_group g o (fg_is_initialized g) (fg_class g))
          else ret (DPCP_OK, with_group g o true
                               (GroupPrm (DEVX_GET ifc.create_flow_group_out 0 ["group_id"] out)))
    end.

(** [flow_group_kernel::create] *)
Definition group_kernel_create (table : option flow_table) (g : flow_group) : M D (status * flow_group) :=
  let '(st, g) := group_base_create table g in
  if negb (is_ok st) then ret (st, g) else ret (DPCP_OK, with_group g (fg_obj g) true (fg_class g)).

(** The virtual [flow_group::create]. *)
Definition group_create (table : option flow_table) (g : flow_group) : M D (status * flow_group) :=
  match fg_class g with
  | GroupPrm id => group_prm_create table g id
  | GroupKernel => group_kernel_create table g
  end.
End group.

(** [flow_group::get_match_criteria], [flow_group_prm::get_group_id] *)
Definition get_match_criteria (g : flow_group) : status * option match_params_ex :=
  if fg_is_initialized g then (DPCP_OK, Some (fga_match_criteria (fg_attr g))) else (DPCP_ERR_NOT_APPLIED, None).
Definition get_group_id (g : flow_group) (id : Z) : status * Z :=
  if fg_is_initialized g then (DPCP_OK, id) else (DPCP_ERR_NOT_APPLIED, 0).

(** [flow_group_prm::get_table_id]: the table is dereferenced unchecked. *)
Definition group_get_table_id {D} (table : option flow_table) (g : flow_group) : M D (status * Z) :=
  if negb (fg_is_initialized g) then ret (DPCP_ERR_NOT_APPLIED, 0)
  else
    t <- need table "null flow_table_prm";;
    '(i, _) <- need (prm_table t) "null flow_table_prm";;
    let '(st, id) := get_table_id t i in
    if negb (is_ok st) then ret (DPCP_ERR_QUERY, 0) else ret (DPCP_OK, id).

(** ** The command of a table *)

(** The miss table may be forwarded to from the level of [attr]. *)
Definition miss_above (attr : flow_table_attr) (m : flow_table) (id : Z) : Prop :=
  exists a, ft_class m = TablePrm id a /\ ft_is_initialized m = true /\ fta_level attr < fta_level a.

(** The miss action is one the table can be created with. *)
Definition miss_fits (attr : flow_table_attr) (miss : option flow_table) : Prop :=
  fta_def_miss_action attr = FT_MISS_ACTION_DEF
  \/ fta_def_miss_action attr = FT_MISS_ACTION_FWD /\ exists m id, miss = Some m /\ miss_above attr m id.

Lemma set_miss_action_ok attr miss :
  fst (set_miss_action attr miss) = DPCP_OK <-> miss_fits attr miss.
Proof.
  unfold set_miss_action, miss_fits, miss_above. destruct (Z.eqb_spec (fta_def_miss_action attr) FT_MISS_ACTION_DEF) as [E|E].
  { split; [by left|done]. }
  destruct (Z.eqb_spec (fta_def_miss_action attr) FT_MISS_ACTION_FWD) as [F|F];
    [|split; [done|intros [?|[? _]]; congruence]].
  destruct miss as [m|]; [|split; [done|intros [?|(_ & m & id & ? & _)]; congruence]].
  unfold prm_table. destruct (ft_class m) as [id a|] eqn:Ec;
    [|split; [done|intros [?|(_ & m' & id & [= <-] & a & ? & _)]; congruence]].
  unfold get_table_id, get_table_level, get_flow_table_status. rewrite Ec.
  destruct (ft_is_initialized m) eqn:Ei; cbn [is_ok negb orb];
    [|split; [done|intros [?|(_ & m' & id' & [= <-] & a' & ? & ? & _)]; congruence]].
  destruct (Z.leb_spec (fta_level a) (fta_level attr)) as [Hl|Hl]; split; try done.
  - intros [?|(_ & m' & id' & [= <-] & a' & Ea & _ & Hlt)]; [congruence|]. rewrite Ec in Ea. injection Ea as <- <-. lia.
  - intros _. right. split; [done|]. exists m, id. split; [done|]. by exists a.
Qed.

(** A table is refused exactly when its mode or its miss action cannot be
    honoured: forwarding needs a miss table that is created on the device and
    has a higher level.  Otherwise the command carries every attribute, with the
    number of the miss table only when misses are forwarded. *)
Theorem table_in_ok attr miss :
  let b := snd (table_in attr miss) in
  (fst (table_in attr miss) = DPCP_OK <-> fta_op_mod attr = FT_OP_MOD_NORMAL /\ miss_fits attr miss)
  /\ (fst (table_in attr miss) = DPCP_OK ->
      DEVX_GET ifc.create_flow_table_in 0 ["opcode"] b = MLX5_CMD_OP_CREATE_FLOW_TABLE
      /\ DEVX_GET ifc.create_flow_table_in 0 ["op_mod"] b = FT_OP_MOD_NORMAL
      /\ DEVX_GET ifc.create_flow_table_in 0 ["table_type"] b = wrap 8 (fta_type attr)
      /\ DEVX_GET ifc.create_flow_table_in 0 ["flow_table_context"; "level"] b = wrap 8 (fta_level attr)
      /\ DEVX_GET ifc.create_flow_table_in 0 ["flow_table_context"; "log_size"] b = wrap 8 (fta_log_size attr)
      /\ DEVX_GET ifc.create_flow_table_in 0 ["flow_table_context"; "decap_en"] b = Z.b2z (Z.testbit (fta_flags attr) 1)
      /\ DEVX_GET ifc.create_flow_table_in 0 ["flow_table_context"; "reformat_en"] b = Z.b2z (Z.testbit (fta_flags attr) 0)
      /\ DEVX_GET ifc.create_flow_table_in 0 ["flow_table_context"; "table_miss_action"] b = fta_def_miss_action attr
      /\ (fta_def_miss_action attr = FT_MISS_ACTION_DEF ->
          DEVX_GET ifc.create_flow_table_in 0 ["flow_table_context"; "table_miss_id"] b = 0)
      /\ (fta_def_miss_action attr = FT_MISS_ACTION_FWD -> exists m id, miss = Some m /\ miss_above attr m id
          /\ DEVX_GET ifc.create_flow_table_in 0 ["flow_table_context"; "table_miss_id"] b = wrap 24 id)).
Proof.
  assert (forall f i, 0 <= i -> b2z_flag f (Z.shiftl 1 i) = Z.b2z (Z.testbit f i)) as Hflag.
  { intros f i Hi. unfold b2z_flag. rewrite Z.shiftl_1_l. destruct (Z.testbit f i) eqn:Et.
    - destruct (Z.eqb_spec (Z.land f (2 ^ i)) 0) as [E|E]; [|done]. 
      assert (Z.testbit (Z.land f (2 ^ i)) i = true) as Hb by (rewrite Z.land_spec, Et, Z.pow2_bits_true by lia; done).
      rewrite E, Z.bits_0 in Hb. done.
    - destruct (Z.eqb_spec (Z.land f (2 ^ i)) 0) as [E|E]; [done|]. destruct E. apply Z.bits_inj'. intros k Hk.
      rewrite Z.land_spec, Z.bits_0, Z.pow2_bits_eqb by lia. destruct (Z.eqb_spec i k) as [<-|]; [by rewrite Et|by rewrite andb_false_r]. }
  cbv zeta. unfold table_in. pose proof (set_miss_action_ok attr miss) as Hs.
  destruct (Z.eqb_spec (fta_op_mod attr) FT_OP_MOD_NORMAL) as [Eo|Eo];
    [|cbn [fst]; split; [split; [done|intros [? _]; done]|done]].
  destruct (set_miss_action attr miss) as [st ws] eqn:Es. cbn [fst snd] in *.
  split; [rewrite Hs; tauto|]. intros ->. rewrite Eo.
  unfold table_writes. unfold FT_EN_DECAP, FT_EN_REFORMAT. rewrite !Hflag by lia.
  generalize (Z.testbit (fta_flags attr) 1) (Z.testbit (fta_flags attr) 0). intros f1 f0.
  destruct (proj1 Hs eq_refl) as [Ed|(Ed & m & id & -> & Ha)].
  - assert (ws = [DEVX_SET ifc.create_flow_table_in 0 ["flow_table_context"; "table_miss_action"] FT_MISS_ACTION_DEF]) as ->
      by (unfold set_miss_action in Es; rewrite Ed in Es; by injection Es as <-).
    rewrite Ed. split_and!; try mbox; try (destruct f1, f0); try reflexivity; done.
  - assert (ws = [DEVX_SET ifc.create_flow_table_in 0 ["flow_table_context"; "table_miss_action"] FT_MISS_ACTION_FWD;
                  DEVX_SET ifc.create_flow_table_in 0 ["flow_table_context"; "table_miss_id"] id]) as ->.
    { destruct Ha as (a & Ec & Ei & Hl). unfold set_miss_action in Es. rewrite Ed in Es. cbn [Z.eqb FT_MISS_ACTION_FWD FT_MISS_ACTION_DEF] in Es.
      unfold prm_table, get_table_id, get_table_level, get_flow_table_status in Es. rewrite Ec, Ei in Es. cbn [is_ok negb orb] in Es.
      rewrite (proj2 (Z.leb_gt _ _)) in Es by done. by injection Es as <-. }
    rewrite Ed. split_and!; try (intros _; exists m, id; split_and!; [done|done|]); try mbox; try (destruct f1, f0); try reflexivity; done.
Qed.
