(* ===== verification/FlowRuleEx.v ===== *)
(** * Extended flow rules and the steering store (src/src/dpcp/flow_rule_ex.cpp,
      flow_group.cpp, flow_table.cpp)

    A rule is created by its group, takes one action of each type and becomes a
    PRM object (on a device table) or a [dcmd::flow] (on the root table).  The
    actions sit in an [unordered_map] keyed by type: the order in which they are
    applied is the parameter [order].

    [steering] is the store of the objects: a weak pointer locks to what the
    store holds at its address.  Rules and groups leave the store when their
    owner erases them. *)

From S2P Require Import Prelude Codec Prm Dcmd Own Sim Obj Fr Writes Matcher FlowAction FlowTable.
Open Scope string_scope.
Open Scope list_scope.
Open Scope Z_scope.
Open Scope m_scope.

(** ** Data *)

(** [struct flow_rule_attr_ex] *)
Record flow_rule_attr_ex := mkRuleAttr {
  fra_priority : Z;
  fra_match_value : match_params_ex;
  fra_flow_index : Z;
  fra_actions : list Z                     (* shared_ptr<flow_action> *)
}.

Inductive rule_class : Type :=
| RulePrm (m_flow_index : Z)
| RuleKernel (m_priority : Z) (m_flow : option Z).

Record flow_rule_ex := mkRuleEx {
  fre_obj : obj;
  fre_match_value : match_params_ex;
  fre_is_initialized : bool;
  fre_table : Z;                           (* weak_ptr<const flow_table> *)
  fre_group : Z;                           (* weak_ptr<const flow_group> *)
  fre_is_valid_actions : bool;
  fre_actions : list (action_type * Z);    (* unordered_map, oldest entry first *)
  fre_matcher : option flow_matcher;
  fre_class : rule_class
}.

Record steering := mkSteering {
  st_tables : gmap Z flow_table;
  st_groups : gmap Z flow_group;
  st_rules : gmap Z flow_rule_ex;
  st_actions : gmap Z flow_action;
  st_tirs : gmap Z forwardable_obj
}.

(** A pointer to a destination: a table or a TIR. *)
Definition st_objs (s : steering) : gmap Z forwardable_obj :=
  ((fun t => mkFwdObj (ft_obj t) (table_fwd_type t)) <$> st_tables s) ∪ st_tirs s.

Definition set_tables (s : steering) t := mkSteering t (st_groups s) (st_rules s) (st_actions s) (st_tirs s).
Definition set_groups (s : steering) g := mkSteering (st_tables s) g (st_rules s) (st_actions s) (st_tirs s).
Definition set_rules (s : steering) r := mkSteering (st_tables s) (st_groups s) r (st_actions s) (st_tirs s).
Definition set_actions (s : steering) a := mkSteering (st_tables s) (st_groups s) (st_rules s) a (st_tirs s).

(** ** Construction *)

(** [m_actions.insert]: an entry of the same type is kept. *)
Definition map_insert (m : list (action_type * Z)) (t : action_type) (a : Z) : list (action_type * Z) :=
  if decide (t ∈ m.*1) then m else m ++ [(t, a)].

(** The loop over the actions; a pointer that is null or dangling is
    dereferenced. *)
Fixpoint insert_actions (acts : gmap Z flow_action) (m : list (action_type * Z)) (l : list Z)
  : option (list (action_type * Z)) :=
  match l with
  | [] => Some m
  | a :: r => match acts !! a with
              | Some x => insert_actions acts (map_insert m (typeid x) a) r
              | None => None
              end
  end.

(** [flow_rule_ex::verify_flow_actions]: the verdict and the map. *)
Definition verify_flow_actions (acts : gmap Z flow_action) (l : list Z) : option (bool * list (action_type * Z)) :=
  match l with
  | [] => Some (false, [])
  | _ =>
      match insert_actions acts [] l with
      | None => None
      | Some m =>
          Some ((length m =? length l)%nat && bool_decide (TFwd ∈ m.*1), m)
      end
  end.

(** The constructors. *)
Definition flow_rule_ex_new (acts : gmap Z flow_action) (ctx : option Z) (attr : flow_rule_attr_ex)
    (table group : Z) (matcher : option flow_matcher) (c : rule_class) : option flow_rule_ex :=
  match verify_flow_actions acts (fra_actions attr) with
  | None => None
  | Some (ok, m) => Some (mkRuleEx (obj_new ctx) (fra_match_value attr) false table group ok m matcher c)
  end.

Definition get_match_value_ex (r : flow_rule_ex) : status * match_params_ex := (DPCP_OK, fre_match_value r).

Section rule.
Context {D : Type} `{DevX D}.
Context (order : list (action_type * Z) -> list (action_type * Z)).

(** ** Rules of device tables *)

(** The number of destinations of the forward action of the rule. *)
Definition rule_dests (s : steering) (r : flow_rule_ex) : option Z :=
  match list_find (fun e => e.1 = TFwd) (fre_actions r) with
  | None => Some 0
  | Some (_, (_, a)) =>
      match st_actions s !! a with Some (AFwd f) => Some (get_dest_num f) | _ => None end
  end.

(** [flow_rule_ex_prm::config_flow_rule]: table and group are dereferenced
    unchecked. *)
Definition config_flow_rule (s : steering) (r : flow_rule_ex) (flow_index : Z) : M D (status * list write) :=
  t <- need (st_tables s !! fre_table r) "null flow_table_prm";;
  '(id, _) <- need (prm_table t) "null flow_table_prm";;
  let head :=
    [DEVX_SET ifc.set_fte_in 0 ["opcode"] MLX5_CMD_OP_SET_FLOW_TABLE_ENTRY;
     DEVX_SET ifc.set_fte_in 0 ["flow_index"] flow_index] in
  let '(st, ft_type) := get_table_type t in
  if negb (is_ok st) then ret (st, head)
  else
    let '(st, ft_id) := get_table_id t id in
    if negb (is_ok st) then ret (st, head ++ [DEVX_SET ifc.set_fte_in 0 ["table_type"] ft_type])
    else
      let head := head ++ [DEVX_SET ifc.set_fte_in 0 ["table_type"] ft_type;
                           DEVX_SET ifc.set_fte_in 0 ["table_id"] ft_id] in
      g <- need (st_groups s !! fre_group r) "null flow_group_prm";;
      gid <- need (match fg_class g with GroupPrm i => Some i | GroupKernel => None end) "null flow_group_prm";;
      let '(st, fg_id) := get_group_id g gid in
      if negb (is_ok st) then ret (st, head)
      else ret (DPCP_OK, head ++ [DEVX_SET ifc.flow_context p_flow_context ["group_id"] fg_id]).

(** The loop over the actions: [acts] is the store of the actions. *)
Fixpoint apply_actions (objs : gmap Z forwardable_obj) (acts : gmap Z flow_action) (l : list Z)
  : M D (status * gmap Z flow_action * list bop) :=
  match l with
  | [] => ret (DPCP_OK, acts, [])
  | p :: r =>
      a <- need (acts !! p) "dangling flow_action";;
      '(st, a', ops) <- action_apply objs a;;
      let acts := <[p := a']> acts in
      if negb (is_ok st) then ret (st, acts, ops)
      else
        '(st, acts, ops') <- apply_actions objs acts r;;
        ret (st, acts, ops ++ ops')
  end.

Definition p_match_value : Z := ADDR_OF ifc.set_fte_in 0 ["flow_context"; "match_value"].

Definition with_rule (r : flow_rule_ex) (o : obj) (init : bool) (c : rule_class) : flow_rule_ex :=
  mkRuleEx o (fre_match_value r) init (fre_table r) (fre_group r) (fre_is_valid_actions r) (fre_actions r)
    (fre_matcher r) c.

(** The mailbox of a rule from its three parts. *)
Definition rule_in (n : Z) (cfg mtch : list write) (ops : list bop) : list Z :=
  run_ops ops (exec (cfg ++ mtch) (zeros (fte_len n))).

(** [flow_rule_ex_prm::create] *)
Definition rule_prm_create (s : steering) (r : flow_rule_ex) (flow_index : Z)
  : M D (status * flow_rule_ex * gmap Z flow_action) :=
  if negb (fre_is_valid_actions r) then ret (DPCP_ERR_INVALID_PARAM, r, st_actions s)
  else
    n <- need (rule_dests s r) "dangling flow_action";;
    p <- alloc (BRaw (fte_len n));;
    match p with
    | None => ret (DPCP_ERR_NO_MEMORY, r, st_actions s)
    | Some p =>
        '(st, cfg) <- config_flow_rule s r flow_index;;
        if negb (is_ok st) then dealloc p;; ret (st, r, st_actions s)
        else
          m <- need (fre_matcher r) "null matcher";;
          let '(st, mtch) := matcher_apply m p_match_value (fre_match_value r) in
          if negb (is_ok st) then dealloc p;; ret (st, r, st_actions s)
          else
            '(st, acts, ops) <- apply_actions (st_objs s) (st_actions s) (order (fre_actions r)).*2;;
            if negb (is_ok st) then dealloc p;; ret (st, r, acts)
            else
              '(st, o, _) <- obj_create (fre_obj r) (Some (rule_in n cfg mtch ops))
                               (Some (zeros (ST_SZ_BYTES ifc.set_fte_out)));;
              dealloc p;;
              ret (st, with_rule r o (if is_ok st then true else fre_is_initialized r) (fre_class r), acts)
    end.

(** ** Rules of the root table *)

(** [flow_rule_ex_kernel::set_match_params]: the status and the two buffers. *)
Definition set_match_params (s : steering) (r : flow_rule_ex) : M D (status * list Z * list Z) :=
  g <- need (st_groups s !! fre_group r) "null flow_group";;
  let '(st, crit) := get_match_criteria g in
  match crit with
  | None => ret (st, [], [])
  | Some crit =>
      m <- need (fre_matcher r) "null matcher";;
      let '(st, ws) := matcher_apply m 0 crit in
      if negb (is_ok st) then ret (st, [], [])
      else
        let '(st, ws') := matcher_apply m 0 (fre_match_value r) in
        if negb (is_ok st) then ret (st, [], [])
        else ret (DPCP_OK, mailbox ifc.fte_match_param ws, mailbox ifc.fte_match_param ws')
  end.

(** The loop over the actions; [junk] is what the array of a modify action holds
    before it is filled. *)
Fixpoint apply_actions_root (junk : list (Z * Z)) (objs : gmap Z forwardable_obj) (acts : gmap Z flow_action)
    (l : list Z) (d : flow_desc) : M D (status * gmap Z flow_action * flow_desc) :=
  match l with
  | [] => ret (DPCP_OK, acts, d)
  | p :: r =>
      a <- need (acts !! p) "dangling flow_action";;
      '(st, a', d) <- action_apply_root junk objs a d;;
      let acts := <[p := a']> acts in
      if negb (is_ok st) then ret (st, acts, d) else apply_actions_root junk objs acts r d
  end.

(** [flow_rule_ex_kernel::create] *)
Definition rule_kernel_create (junk : list (Z * Z)) (s : steering) (r : flow_rule_ex) (priority : Z)
  : M D (status * flow_rule_ex * gmap Z flow_action) :=
  if negb (fre_is_valid_actions r) then ret (DPCP_ERR_INVALID_PARAM, r, st_actions s)
  else
    '(st, mask, values) <- set_match_params s r;;
    if negb (is_ok st) then ret (st, r, st_actions s)
    else
      '(st, acts, d) <- apply_actions_root junk (st_objs s) (st_actions s) (order (fre_actions r)).*2
                          (mkFlowDesc mask values [] 0 priority None);;
      if negb (is_ok st) then ret (st, r, acts)
      else
        ctx <- need (m_ctx (fre_obj r)) "null dcmd::ctx";;
        f <- create_flow ctx d;;
        ret (match f with Some _ => DPCP_OK | None => DPCP_ERR_CREATE end,
             with_rule r (fre_obj r) (fre_is_initialized r) (RuleKernel priority f), acts).

(** The virtual [flow_rule_ex::create]. *)
Definition rule_create (junk : list (Z * Z)) (s : steering) (r : flow_rule_ex)
  : M D (status * flow_rule_ex * gmap Z flow_action) :=
  match fre_class r with
  | RulePrm i => rule_prm_create s r i
  | RuleKernel prio _ => rule_kernel_create junk s r prio
  end.

(** The destructors: [~flow_rule_ex_kernel] deletes the flow; then [~obj]. *)
Definition rule_delete (r : flow_rule_ex) : M D unit :=
  match fre_class r with
  | RulePrm _ => _ <- obj_delete (fre_obj r);; ret tt
  | RuleKernel _ f => delete_flow f;; _ <- obj_delete (fre_obj r);; ret tt
  end.
End rule.

(** ** The store: adding, creating and removing *)

Section store.
Context {D : Type} `{DevX D}.

Definition table_with_groups (t : flow_table) (gs : gset Z) : flow_table :=
  mkTable (ft_obj t) (ft_type t) (ft_is_initialized t) gs (ft_class t).
Definition group_with_rules (g : flow_group) (rs : gset Z) : flow_group :=
  mkGroup (fg_obj g) (fg_attr g) (fg_table g) (fg_is_initialized g) rs (fg_matcher g) (fg_class g).

(** [flow_table::create_flow_group] with the [add_flow_group] of the class:
    the status, the new group and the store. *)
Definition add_flow_group (s : steering) (tp : Z) (attr : flow_group_attr) : M D (status * option Z * steering) :=
  t <- need (st_tables s !! tp) "dangling flow_table";;
  let st := get_flow_table_status t in
  if negb (is_ok st) then ret (st, None, s)
  else
    p <- alloc BMem;;
    match p with
    | None => ret (DPCP_ERR_NO_MEMORY, None, s)
    | Some p =>
        if decide (p ∈ ft_groups t) then dealloc p;; ret (DPCP_ERR_NO_MEMORY, None, s)
        else
          let c := match ft_class t with TablePrm _ _ => GroupPrm 0 | TableKernel => GroupKernel end in
          ret (DPCP_OK, Some p,
               set_groups (set_tables s (<[tp := table_with_groups t ({[p]} ∪ ft_groups t)]> (st_tables s)))
                 (<[p := flow_group_new (m_ctx (ft_obj t)) attr tp c]> (st_groups s)))
    end.

(** [flow_group::create] on a group of the store. *)
Definition store_group_create (s : steering) (gp : Z) : M D (status * steering) :=
  g <- need (st_groups s !! gp) "dangling flow_group";;
  '(st, g) <- group_create (st_tables s !! fg_table g) g;;
  ret (st, set_groups s (<[gp := g]> (st_groups s))).

(** [flow_group::create_flow_rule_ex] with the [add_flow_rule] of the class. *)
Definition add_flow_rule (s : steering) (gp : Z) (attr : flow_rule_attr_ex) : M D (status * option Z * steering) :=
  g <- need (st_groups s !! gp) "dangling flow_group";;
  if negb (fg_is_initialized g) then ret (DPCP_ERR_NOT_APPLIED, None, s)
  else
    p <- alloc BMem;;
    match p with
    | None => ret (DPCP_ERR_NO_MEMORY, None, s)
    | Some p =>
        let c := match fg_class g with
                 | GroupPrm _ => RulePrm (fra_flow_index attr)
                 | GroupKernel => RuleKernel (fra_priority attr) None
                 end in
        r <- need (flow_rule_ex_new (st_actions s) (m_ctx (fg_obj g)) attr (fg_table g) gp (fg_matcher g) c)
               "null flow_action";;
        if decide (p ∈ fg_rules g) then
          rule_delete r;; dealloc p;; ret (DPCP_ERR_NO_MEMORY, None, s)
        else
          ret (DPCP_OK, Some p,
               set_rules (set_groups s (<[gp := group_with_rules g ({[p]} ∪ fg_rules g)]> (st_groups s)))
                 (<[p := r]> (st_rules s)))
    end.

(** [flow_rule_ex::create] on a rule of the store. *)
Definition store_rule_create (order : list (action_type * Z) -> list (action_type * Z)) (junk : list (Z * Z))
    (s : steering) (rp : Z) : M D (status * steering) :=
  r <- need (st_rules s !! rp) "dangling flow_rule_ex";;
  '(st, r, acts) <- rule_create order junk s r;;
  ret (st, set_rules (set_actions s acts) (<[rp := r]> (st_rules s))).

(** The last shared pointer to a rule goes. *)
Definition destroy_rule (s : steering) (rp : Z) : M D steering :=
  r <- need (st_rules s !! rp) "dangling flow_rule_ex";;
  rule_delete r;;
  dealloc rp;;
  ret (set_rules s (delete rp (st_rules s))).

Fixpoint destroy_rules (s : steering) (l : list Z) : M D steering :=
  match l with
  | [] => ret s
  | rp :: r => s <- destroy_rule s rp;; destroy_rules s r
  end.

(** [~flow_group]: the rules of [m_rules], then [~obj]. *)
Definition destroy_group (s : steering) (gp : Z) : M D steering :=
  g <- need (st_groups s !! gp) "dangling flow_group";;
  s <- destroy_rules s (elements (fg_rules g));;
  _ <- obj_delete (fg_obj g);;
  dealloc gp;;
  ret (set_groups s (delete gp (st_groups s))).

Fixpoint destroy_groups (s : steering) (l : list Z) : M D steering :=
  match l with
  | [] => ret s
  | gp :: r => s <- destroy_group s gp;; destroy_groups s r
  end.

(** [flow_group::remove_flow_rule]: the weak pointer may have expired, and an
    expired pointer is in no set. *)
Definition remove_flow_rule (s : steering) (gp rp : Z) : M D (status * steering) :=
  g <- need (st_groups s !! gp) "dangling flow_group";;
  if negb (fg_is_initialized g) then ret (DPCP_ERR_NOT_APPLIED, s)
  else
    match st_rules s !! rp with
    | Some _ =>
        if decide (rp ∈ fg_rules g) then
          s <- destroy_rule (set_groups s (<[gp := group_with_rules g (fg_rules g ∖ {[rp]})]> (st_groups s))) rp;;
          ret (DPCP_OK, s)
        else ret (DPCP_ERR_INVALID_PARAM, s)
    | None => ret (DPCP_ERR_INVALID_PARAM, s)
    end.

(** [flow_table::remove_flow_group] *)
Definition remove_flow_group (s : steering) (tp gp : Z) : M D (status * steering) :=
  t <- need (st_tables s !! tp) "dangling flow_table";;
  let st := get_flow_table_status t in
  if negb (is_ok st) then ret (st, s)
  else
    match st_groups s !! gp with
    | Some _ =>
        if decide (gp ∈ ft_groups t) then
          s <- destroy_group (set_tables s (<[tp := table_with_groups t (ft_groups t ∖ {[gp]})]> (st_tables s))) gp;;
          ret (DPCP_OK, s)
        else ret (DPCP_ERR_INVALID_PARAM, s)
    | None => ret (DPCP_ERR_INVALID_PARAM, s)
    end.

(** The last shared pointer to a table goes, and no table has it as its miss
    table: the groups, then [~obj]. *)
Definition destroy_table (s : steering) (tp : Z) : M D steering :=
  t <- need (st_tables s !! tp) "dangling flow_table";;
  s <- destroy_groups s (elements (ft_groups t));;
  _ <- obj_delete (ft_obj t);;
  dealloc tp;;
  ret (set_tables s (delete tp (st_tables s))).
End store.

(** ** The order of the actions does not matter *)

Section order.
Context {D : Type} `{DevX D}.
Implicit Types (w : world D) (acts : gmap Z flow_action).

(** The pointers [l] name different actions of different types, and a forward
    action has [n] destinations. *)
Definition acts_ok (n : Z) acts (l : list Z) : Prop :=
  NoDup l /\ (forall p a, p ∈ l -> acts !! p = Some a -> 0 <= n /\ (typeid a = TFwd -> dest_num a = n))
  /\ forall p q a c, p ∈ l -> q ∈ l -> acts !! p = Some a -> acts !! q = Some c ->
       typeid a = typeid c -> p = q.

Lemma acts_ok_cons n acts p l a a' :
  acts_ok n acts (p :: l) -> acts !! p = Some a -> typeid a' = typeid a -> dest_num a' = dest_num a ->
  acts_ok n (<[p := a']> acts) l.
Proof.
  intros (Hn & Hd & Ht) Hp Ety Edn. apply list.NoDup_cons in Hn as [Hp' Hn].
  assert (forall q c, q ∈ l -> <[p := a']> acts !! q = Some c -> acts !! q = Some c) as Hsame.
  { intros q c Hq. rewrite lookup_insert_ne; [done|]. by intros <-. }
  split_and!; [done| |].
  - intros q c Hq Hc. apply (Hd q c); [by right|by apply Hsame].
  - intros q q' c c' Hq Hq' Hc Hc'. apply Ht; [by right..|by apply Hsame|by apply Hsame].
Qed.

Lemma acts_ok_perm n acts l l' : Permutation l l' -> acts_ok n acts l -> acts_ok n acts l'.
Proof.
  intros Hp (Hn & Hd & Ht). split_and!; [by rewrite <- Hp| |].
  - intros p a Hin. apply Hd. by rewrite Hp.
  - intros p q a c Hi Hj. apply Ht; by rewrite Hp.
Qed.

Lemma allowed_mono n m t o : (t = TFwd -> m = n) -> allowed m t o -> allowed n t o.
Proof. intros Ht Ha. destruct Ha; try constructor. rewrite <- (Ht eq_refl). by econstructor. Qed.

(** Two actions of different types, one after the other. *)
Lemma apply_swap objs (a c : flow_action) w st1 a' o1 w1 st2 c' o2 w2 :
  typeid a ≠ typeid c ->
  action_apply objs a w = Ret ((st1, a', o1), w1) -> action_apply objs c w1 = Ret ((st2, c', o2), w2) ->
  exists w1', action_apply objs c w = Ret ((st2, c', o2), w1') /\ action_apply objs a w1' = Ret ((st1, a', o1), w2).
Proof.
  intros Ht Ha Hc. destruct (decide (typeid a = TModify)) as [Em|Em].
  - destruct (action_pure (D := D) objs c) as [[e He]|(st & ops & He)]; [congruence|by rewrite He in Hc|].
    rewrite He in Hc. injection Hc as <- <- <- <-. exists w. by rewrite He.
  - destruct (action_pure (D := D) objs a) as [[e He]|(st & ops & He)]; [done|by rewrite He in Ha|].
    rewrite He in Ha. injection Ha as <- <- <- <-. exists w2. by rewrite He.
Qed.

(** The statements of the actions are those of their types. *)
Lemma apply_actions_allowed objs n : forall l acts w st acts' ops w',
  acts_ok n acts l -> apply_actions objs acts l w = Ret ((st, acts', ops), w') ->
  forall o, In o ops -> exists p a, p ∈ l /\ acts !! p = Some a /\ allowed n (typeid a) o.
Proof.
  induction l as [|p l IH]; intros acts w st acts' ops w' Hok E o Ho; cbn [apply_actions] in E;
    [by injection E as <- <- <- <-|].
  destruct (acts !! p) as [a|] eqn:Hp; [|done]. cbn [need] in E. unfold bind at 1, ret at 1 in E.
  unfold bind at 1 in E. destruct (action_apply objs a w) as [[[[st1 a'] o1] w1]|] eqn:Ea; [|done].
  destruct (action_apply_allowed _ _ _ _ _ _ _ Ea) as (Ety & Edn & Hal).
  pose proof Hok as (_ & Hd & _). destruct (Hd p a) as [Hn Hdn]; [by left|done|].
  assert (forall o, In o o1 -> exists p0 a0, p0 ∈ p :: l /\ acts !! p0 = Some a0 /\ allowed n (typeid a0) o) as H1.
  { intros o' Ho'. exists p, a. split_and!; [by left|done|].
    eapply allowed_mono; [exact Hdn|by apply Hal]. }
  destruct (is_ok st1); cbn [negb] in E; [|injection E as <- <- <- <-; by apply H1].
  unfold bind in E. destruct (apply_actions objs _ l w1) as [[[[st2 acts2] o2] w2]|] eqn:Er; [|done].
  injection E as <- <- <- <-. apply in_app_or in Ho as [Ho|Ho]; [by apply H1|].
  destruct (IH _ _ _ _ _ _ (acts_ok_cons n acts p l a a' Hok Hp Ety Edn) Er o Ho) as (q & c & Hq & Hc & Hx).
  exists q, c. split_and!; [by right| |done]. rewrite lookup_insert_ne in Hc; [done|].
  intros <-. destruct Hok as (Hnd & _). by apply list.NoDup_cons in Hnd as [? _].
Qed.
Lemma apply_actions_cons objs acts p l w :
  apply_actions objs acts (p :: l) w
  = match acts !! p with
    | None => UB "dangling flow_action"
    | Some a =>
        match action_apply objs a w with
        | UB e => UB e
        | Ret ((st, a', ops), w1) =>
            if is_ok st then
              match apply_actions objs (<[p := a']> acts) l w1 with
              | UB e => UB e
              | Ret ((st2, acts2, ops2), w2) => Ret ((st2, acts2, ops ++ ops2), w2)
              end
            else Ret ((st, <[p := a']> acts, ops), w1)
        end
    end.
Proof.
  cbn [apply_actions]. destruct (acts !! p) as [a|]; [|done]. cbn [need]. unfold bind, ret.
  destruct (action_apply objs a w) as [[[[st a'] ops] w1]|]; [|done]. destruct (is_ok st); [|done]. cbn [negb].
  by destruct (apply_actions objs _ l w1) as [[[[st2 acts2] ops2] w2]|].
Qed.

(** A run that succeeds in one order succeeds in every order, with the same
    store, the same device and the same mailbox. *)
Lemma apply_actions_perm objs n l l' : Permutation l l' -> forall acts w acts' ops w',
  acts_ok n acts l -> apply_actions objs acts l w = Ret ((DPCP_OK, acts', ops), w') ->
  exists ops', apply_actions objs acts l' w = Ret ((DPCP_OK, acts', ops'), w')
    /\ forall b, Z.of_nat (length b) = fte_len n -> run_ops ops b = run_ops ops' b.
Proof.
  induction 1 as [|p l l' _ IH|p q l|l1 l2 l3 H12 IH12 _ IH23]; intros acts w acts' ops w' Hok E.
  - by exists ops.
  - rewrite apply_actions_cons in *. destruct (acts !! p) as [a|] eqn:Hp; [|done].
    destruct (action_apply objs a w) as [[[[st a'] o1] w1]|] eqn:Ea; [|done].
    destruct (action_apply_allowed _ _ _ _ _ _ _ Ea) as (Ety & Edn & _).
    destruct (is_ok st) eqn:Est; [|by injection E as -> _ _ _].
    destruct (apply_actions objs _ l w1) as [[[[st2 acts2] o2] w2]|] eqn:Er; [|done]. injection E as -> <- <- <-.
    destruct (IH _ _ _ _ _ (acts_ok_cons n acts p l a a' Hok Hp Ety Edn) Er) as (o2' & Er' & Hb).
    rewrite Er'. exists (o1 ++ o2'). split; [done|]. intros b Hl. rewrite !run_ops_app. apply Hb. by rewrite length_run_ops.
  - rewrite apply_actions_cons in E. destruct (acts !! q) as [aq|] eqn:Hq; [|done].
    destruct (action_apply objs aq w) as [[[[st1 q'] o1] w1]|] eqn:Eq; [|done].
    destruct (is_ok st1) eqn:Es1; [|by injection E as -> _ _ _].
    assert (p ≠ q) as Hpq.
    { destruct Hok as (Hnd & _). apply list.NoDup_cons in Hnd as [Hqp _]. set_solver. }
    rewrite apply_actions_cons, lookup_insert_ne in E by done. destruct (acts !! p) as [ap|] eqn:Hp; [|done].
    destruct (action_apply objs ap w1) as [[[[st2 p'] o2] w2]|] eqn:Ep; [|done].
    destruct (is_ok st2) eqn:Es2; [|by injection E as -> _ _ _].
    destruct (apply_actions objs _ l w2) as [[[[st3 acts3] o3] w3]|] eqn:Er; [|done]. injection E as -> <- <- <-.
    assert (typeid aq ≠ typeid ap) as Ht.
    { intros E. destruct Hok as (_ & _ & Hty). apply Hpq. symmetry. eapply (Hty q p); [set_solver..|done|done|done]. }
    destruct (apply_swap objs aq ap w _ _ _ _ _ _ _ _ Ht Eq Ep) as (w1' & Ep' & Eq').
    rewrite apply_actions_cons, Hp, Ep', Es2, apply_actions_cons, lookup_insert_ne, Hq, Eq', Es1 by done.
    rewrite insert_insert_ne, Er by done. exists (o2 ++ o1 ++ o3). split; [done|]. intros b Hb.
    rewrite !app_assoc, !(run_ops_app (_ ++ _)). f_equal.
    apply (run_ops_comm (fte_len n)); [done|]. intros o o' Ho Ho'.
    destruct Hok as (_ & Hd & _). destruct (Hd q aq) as [Hn Hdq]; [set_solver|done|].
    destruct (Hd p ap) as [_ Hdp]; [set_solver|done|].
    destruct (action_apply_allowed _ _ _ _ _ _ _ Eq) as (_ & _ & Haq).
    destruct (action_apply_allowed _ _ _ _ _ _ _ Ep) as (_ & _ & Hap).
    eapply allowed_comm; [done|exact Ht|eapply allowed_mono; [exact Hdq|by apply Haq]
                         |eapply allowed_mono; [exact Hdp|by apply Hap]].
  - destruct (IH12 _ _ _ _ _ Hok E) as (ops2 & E2 & Hb2).
    destruct (IH23 _ _ _ _ _ (acts_ok_perm n acts l1 l2 H12 Hok) E2) as (ops3 & E3 & Hb3).
    exists ops3. split; [done|]. intros b Hb. by rewrite Hb2, Hb3.
Qed.
End order.

(** A rule whose map of actions was built by [verify_flow_actions]. *)
Definition rule_wf (s : steering) (r : flow_rule_ex) : Prop :=
  NoDup (fre_actions r).*1
  /\ Forall (fun e => exists x, st_actions s !! e.2 = Some x /\ typeid x = e.1) (fre_actions r).

Section rule_order.
Context {D : Type} `{DevX D}.
Implicit Types (w : world D) (order : list (action_type * Z) -> list (action_type * Z)).

Lemma entry_unique s r t t' a :
  rule_wf s r -> (t, a) ∈ fre_actions r -> (t', a) ∈ fre_actions r -> t = t'.
Proof.
  intros [_ Hf] H1 H2. rewrite list.Forall_forall in Hf.
  destruct (Hf _ H1) as (x & E & T). destruct (Hf _ H2) as (y & E' & T'). cbn [fst snd] in *. congruence.
Qed.

Lemma rule_wf_acts_ok s r n :
  rule_wf s r -> rule_dests s r = Some n -> acts_ok n (st_actions s) (fre_actions r).*2.
Proof.
  intros Hwf Hd. pose proof Hwf as [Hn Hf]. rewrite list.Forall_forall in Hf.
  assert (forall p a, p ∈ (fre_actions r).*2 -> st_actions s !! p = Some a -> (typeid a, p) ∈ fre_actions r) as Hin.
  { intros p a ([t p'] & -> & He)%list_elem_of_fmap Ha. cbn [snd] in *.
    destruct (Hf _ He) as (x & Ex & T). cbn [fst snd] in *. congruence. }
  assert (forall t p q, (t, p) ∈ fre_actions r -> (t, q) ∈ fre_actions r -> p = q) as Hfun.
  { intros t p q Hp Hq. revert Hn Hp Hq. clear. induction (fre_actions r) as [|[t' x] m IH]; [by inversion 2|].
    cbn [fmap list_fmap fst]. intros [Ht Hn]%list.NoDup_cons Hp Hq.
    apply list.elem_of_cons in Hp as [Hp|Hp]; apply list.elem_of_cons in Hq as [Hq|Hq].
    - congruence.
    - destruct Ht. apply list_elem_of_fmap. exists (t, q). split; [cbn; congruence|done].
    - destruct Ht. apply list_elem_of_fmap. exists (t, p). split; [cbn; congruence|done].
    - by apply IH. }
  split_and!.
  - apply (NoDup_fmap_2_strong snd); [|by eapply NoDup_fmap_1].
    intros [t p] [t' q] H1 H2 E. cbn [snd] in E. subst q. f_equal. by eapply entry_unique.
  - intros p a Hp Ha. specialize (Hin p a Hp Ha). unfold rule_dests in Hd.
    destruct (list_find _ _) as [[i [t q]]|] eqn:El.
    + apply list_find_Some in El as (Hi & Et & _). cbn [fst] in Et. subst t.
      apply list_elem_of_lookup_2 in Hi.
      destruct (st_actions s !! q) as [[]|] eqn:Hq; try done. injection Hd as <-.
      split; [unfold get_dest_num; lia|]. intros Et. rewrite Et in Hin.
      rewrite (Hfun _ _ _ Hin Hi), Hq in Ha. injection Ha as <-. done.
    + injection Hd as <-. split; [done|]. intros Et. apply list_find_None in El.
      rewrite list.Forall_forall in El. rewrite Et in Hin. by destruct (El _ Hin).
  - intros p q a c Hp Hq Ha Hc E. apply (Hfun (typeid a)); [by apply Hin|]. rewrite E. by apply Hin.
Qed.

(** C14. The order in which the hash map yields the actions does not matter: a
    rule that is created in one order is created in every other, with the same
    command to the device, the same rule, the same actions and the same
    memory. *)
Theorem rule_create_any_order order order' s r i w r' acts' w' :
  rule_wf s r -> (forall m, Permutation (order m) m) -> (forall m, Permutation (order' m) m) ->
  rule_prm_create order s r i w = Ret ((DPCP_OK, r', acts'), w') ->
  rule_prm_create order' s r i w = Ret ((DPCP_OK, r', acts'), w').
Proof.
  intros Hwf Hp Hp'. unfold rule_prm_create. destruct (fre_is_valid_actions r); [|done]. cbn [negb].
  destruct (rule_dests s r) as [n|] eqn:Hd; [|done]. cbn [need]. unfold bind, ret.
  destruct (alloc (BRaw (fte_len n)) w) as [[[p|] w1]|]; [|done..].
  destruct (config_flow_rule s r i w1) as [[[st cfg] w2]|]; [|done].
  destruct (is_ok st); cbn [negb]; [|done]. destruct (fre_matcher r) as [m|]; cbn [need]; unfold ret; [|done].
  destruct (matcher_apply m p_match_value (fre_match_value r)) as [st2 mtch]. destruct (is_ok st2); cbn [negb]; [|done].
  destruct (apply_actions _ _ (order (fre_actions r)).*2 w2) as [[[[st3 acts] ops] w3]|] eqn:E; [|done].
  destruct (is_ok st3) eqn:Es3; cbn [negb];
    [|destruct (dealloc p w3) as [[[] w4]|]; [|done]; intros E'; injection E' as -> _ _ _; done].
  apply is_ok_true in Es3 as ->.
  assert (acts_ok n (st_actions s) (order (fre_actions r)).*2) as Hok.
  { eapply acts_ok_perm; [|by apply (rule_wf_acts_ok s r n)]. symmetry. by apply Permutation_map. }
  assert (Permutation (order (fre_actions r)).*2 (order' (fre_actions r)).*2) as Hperm.
  { apply Permutation_map. by rewrite Hp, Hp'. }
  destruct (apply_actions_perm _ n _ _ Hperm _ _ _ _ _ Hok E) as (ops' & E' & Hb).
  rewrite E'. cbn [is_ok negb].
  replace (rule_in n cfg mtch ops') with (rule_in n cfg mtch ops); [done|].
  unfold rule_in. apply Hb. rewrite length_exec. apply length_zeros.
  rewrite fte_len_eq. destruct Hok as (_ & Hd' & _).
  assert (0 <= n) as Hn0; [|lia]. revert Hd. unfold rule_dests. repeat case_match; intros [= <-]; try done.
  unfold get_dest_num. lia.
Qed.
End rule_order.

(** ** What the command of a rule says *)

Section content.
Context {D : Type} `{DevX D}.
Implicit Types (w : world D) (acts : gmap Z flow_action).

(** The bits of [flow_context.action] for the actions [l]. *)
Fixpoint action_mask acts (l : list Z) : Z :=
  match l with
  | [] => 0
  | p :: r => Z.lor (match acts !! p with Some a => type_bit (typeid a) | None => 0 end) (action_mask acts r)
  end.

Lemma action_mask_insert acts p a a' l :
  acts !! p = Some a -> typeid a' = typeid a -> action_mask (<[p := a']> acts) l = action_mask acts l.
Proof.
  intros Hp Ht. induction l as [|q r IH]; [done|]. cbn [action_mask]. rewrite IH.
  destruct (decide (p = q)) as [<-|]; [by rewrite lookup_insert_eq, Hp, Ht|by rewrite lookup_insert_ne].
Qed.

Lemma apply_actions_bits objs : forall l acts w acts' ops w' b,
  apply_actions objs acts l w = Ret ((DPCP_OK, acts', ops), w') -> 832 <= Z.of_nat (length b) ->
  get_field f_action (run_ops ops b) = Z.lor (action_mask acts l) (get_field f_action b).
Proof.
  induction l as [|p l IH]; intros acts w acts' ops w' b E Hb; [by injection E as <- <- <-|].
  rewrite apply_actions_cons in E. destruct (acts !! p) as [a|] eqn:Hp; [|done].
  destruct (action_apply objs a w) as [[[[st a'] o1] w1]|] eqn:Ea; [|done].
  destruct (is_ok st) eqn:Es; [|injection E as -> _ _ _; done]. apply is_ok_true in Es as ->.
  destruct (apply_actions objs _ l w1) as [[[[st2 acts2] o2] w2]|] eqn:Er; [|done]. injection E as -> <- <- <-.
  rewrite run_ops_app, (IH _ _ _ _ _ _ Er), (action_bits _ _ _ _ _ _ _ Ea) by (rewrite ?length_run_ops; done).
  destruct (action_apply_ops _ _ _ _ _ _ Ea) as (_ & Ety & _).
  cbn [action_mask]. rewrite Hp, (action_mask_insert acts p a a') by done.
  rewrite !Z.lor_assoc. f_equal. apply Z.lor_comm.
Qed.

Lemma apply_actions_snoc objs p : forall l acts w acts' ops w',
  apply_actions objs acts (l ++ [p]) w = Ret ((DPCP_OK, acts', ops), w') ->
  exists acts1 o1 w1 a a' o2, apply_actions objs acts l w = Ret ((DPCP_OK, acts1, o1), w1)
    /\ acts1 !! p = Some a /\ action_apply objs a w1 = Ret ((DPCP_OK, a', o2), w')
    /\ acts' = <[p := a']> acts1 /\ ops = o1 ++ o2.
Proof.
  induction l as [|q l IH]; intros acts w acts' ops w' E; cbn [app] in E; rewrite apply_actions_cons in E.
  - destruct (acts !! p) as [a|] eqn:Hp; [|done].
    destruct (action_apply objs a w) as [[[[st a'] o1] w1]|] eqn:Ea; [|done].
    destruct (is_ok st) eqn:Es; [|injection E as -> _ _ _; done]. apply is_ok_true in Es as ->.
    cbn [apply_actions] in E. unfold ret in E. injection E as <- <- <-.
    exists acts, [], w, a, a', o1. split_and!; try done. by rewrite app_nil_r.
  - destruct (acts !! q) as [a|] eqn:Hq; [|done].
    destruct (action_apply objs a w) as [[[[st a'] o1] w1]|] eqn:Ea; [|done].
    destruct (is_ok st) eqn:Es; [|injection E as -> _ _ _; done].
    destruct (apply_actions objs _ (l ++ [p]) w1) as [[[[st2 acts2] o2] w2]|] eqn:Er; [|done].
    injection E as -> <- <- <-.
    destruct (IH _ _ _ _ _ Er) as (acts1 & o1' & w1' & x & x' & o2' & H1 & H2 & H3 & -> & ->).
    exists acts1, (o1 ++ o1'), w1', x, x', o2'. split_and!; try done; [|by rewrite app_assoc].
    by rewrite apply_actions_cons, Hq, Ea, Es, H1.
Qed.

Lemma apply_actions_types objs : forall l acts w acts' ops w' p a,
  apply_actions objs acts l w = Ret ((DPCP_OK, acts', ops), w') -> acts !! p = Some a ->
  exists a', acts' !! p = Some a' /\ typeid a' = typeid a /\ dests_of a' = dests_of a.
Proof.
  induction l as [|q l IH]; intros acts w acts' ops w' p a E Hp; [injection E as <- <- <-; by exists a|].
  rewrite apply_actions_cons in E. destruct (acts !! q) as [c|] eqn:Hq; [|done].
  destruct (action_apply objs c w) as [[[[st c'] o1] w1]|] eqn:Ec; [|done].
  destruct (is_ok st) eqn:Es; [|injection E as -> _ _ _; done]. apply is_ok_true in Es as ->.
  destruct (apply_actions objs _ l w1) as [[[[st2 acts2] o2] w2]|] eqn:Er; [|done]. injection E as -> <- <- <-.
  destruct (action_apply_ops _ _ _ _ _ _ Ec) as (Hds & Ety & _).
  destruct (decide (q = p)) as [->|Hne].
  - rewrite Hp in Hq. injection Hq as <-.
    destruct (IH _ _ _ _ _ p c' Er (lookup_insert_eq _ _ _)) as (a' & H1 & H2 & H3). exists a'. split_and!; congruence.
  - eapply IH; [exact Er|]. by rewrite lookup_insert_ne.
Qed.

(** Every action that was applied is in the flow context. *)
Lemma apply_actions_says objs n l acts w acts' ops w' p b :
  acts_ok n acts l -> apply_actions objs acts l w = Ret ((DPCP_OK, acts', ops), w') -> p ∈ l ->
  Z.of_nat (length b) = fte_len n ->
  exists a a', acts !! p = Some a /\ acts' !! p = Some a' /\ typeid a' = typeid a /\ action_says objs a' (run_ops ops b).
Proof.
  intros Hok E Hp Hb. apply elem_of_Permutation in Hp as [k Hk].
  assert (Permutation l (k ++ [p])) as Hl by (rewrite Hk; apply Permutation_cons_append).
  destruct (apply_actions_perm objs n l _ Hl _ _ _ _ _ Hok E) as (ops' & E' & Hsame).
  destruct (apply_actions_snoc _ _ _ _ _ _ _ _ E') as (acts1 & o1 & w1 & a & a' & o2 & H1 & H2 & H3 & -> & ->).
  destruct (apply_actions_perm objs n l _ Hk _ _ _ _ _ Hok E) as (ops2 & E2 & _).
  rewrite apply_actions_cons in E2. destruct (acts !! p) as [a0|] eqn:Ha0; [|done]. clear E2.
  destruct (apply_actions_types _ _ _ _ _ _ _ _ _ H1 Ha0) as (a1 & Ha1 & T1 & D1).
  rewrite H2 in Ha1. injection Ha1 as <-. destruct (action_apply_ops _ _ _ _ _ _ H3) as (_ & T2 & _).
  exists a0, a'. split_and!; [done|by rewrite lookup_insert_eq|congruence|].
  rewrite Hsame by done. rewrite run_ops_app. eapply action_says_last; [exact H3|].
  rewrite length_run_ops, Hb, D1, !fte_len_eq. destruct Hok as (_ & Hd & _).
  destruct (Hd p a0) as [Hn Hdn]; [rewrite Hk; by left|done|].
  destruct a0; cbn [dests_of length] in *; try lia. specialize (Hdn eq_refl). cbn in Hdn. unfold get_dest_num in Hdn. lia.
Qed.
End content.

Section command.
Context {D : Type} `{DevX D}.
Implicit Types (w : world D) (acts : gmap Z flow_action).

(** Members outside the part of the flow context that actions write. *)
Definition op_fields : list field :=
  map (fun m => fld ifc.flow_context p_flow_context [F m])
    ["action"; "modify_header_id"; "packet_reformat_id"; "flow_tag"; "destination_list_size"].

Lemma allowed_clear f n t o :
  forallb (f_disj f) op_fields = true -> f_addr f + 4 <= 832 -> allowed n t o ->
  f_ok (bop_field o) = true /\ f_disj f (bop_field o) = true.
Proof.
  intros Hf Ha Ho. cbn [op_fields map forallb] in Hf. repeat (apply andb_prop in Hf as [? Hf]).
  destruct Ho as [| | | | | | |k o id type Hk Ho|]; try (split; [vm_compute; reflexivity|assumption]).
  change p_destination with 832 in Ho. change dest_size with 8 in Ho.
  destruct Ho as [<-|[<-|[]]]; cbn [bop_field]; rewrite ?dest_id_fld, ?dest_type_fld;
    (split; [unfold f_ok; cbn [f_addr f_sh f_sz]; rewrite !andb_true_iff, !Z.leb_le; lia|]);
    unfold f_disj; cbn [f_addr]; rewrite !orb_true_iff, !Z.leb_le; left; left; lia.
Qed.

Lemma match_clear f : 128 <= f_addr f -> forallb (f_disj f) op_fields = true.
Proof.
  intros Hf. assert (forall g, f_addr g + 4 <= 128 -> f_disj f g = true) as Hg.
  { intros g Hg. unfold f_disj. rewrite !orb_true_iff, !Z.leb_le. left; right. lia. }
  cbn [op_fields map forallb]. rewrite !Hg by (by vm_compute). done.
Qed.

Definition rule_entry_says (objs : gmap Z forwardable_obj) acts (b : list Z) (e : action_type * Z) : Prop :=
  exists a, acts !! e.2 = Some a /\ typeid a = e.1 /\ action_says objs a b.

(** What the mailbox [b] of a rule says. *)
Definition rule_says (s : steering) acts (r : flow_rule_ex) (flow_index : Z) (b : list Z) : Prop :=
  exists t id attr g gid m,
    st_tables s !! fre_table r = Some t /\ ft_class t = TablePrm id attr
    /\ st_groups s !! fre_group r = Some g /\ fg_class g = GroupPrm gid /\ fre_matcher r = Some m
    /\ DEVX_GET ifc.set_fte_in 0 ["opcode"] b = MLX5_CMD_OP_SET_FLOW_TABLE_ENTRY
    /\ DEVX_GET ifc.set_fte_in 0 ["flow_index"] b = wrap 32 flow_index
    /\ DEVX_GET ifc.set_fte_in 0 ["table_type"] b = wrap 8 (ft_type t)
    /\ DEVX_GET ifc.set_fte_in 0 ["table_id"] b = wrap 24 id
    /\ DEVX_GET ifc.flow_context p_flow_context ["group_id"] b = wrap 32 gid
    /\ match_ex_says m (fre_match_value r) p_match_value b
    /\ DEVX_GET ifc.flow_context p_flow_context ["action"] b
       = foldr (fun e z => Z.lor (type_bit e.1) z) 0 (fre_actions r)
    /\ Forall (rule_entry_says (st_objs s) acts b) (fre_actions r).

(** The configuration of a rule that succeeds. *)
Lemma config_flow_rule_inv s r i w cfg w' :
  config_flow_rule s r i w = Ret ((DPCP_OK, cfg), w') ->
  w' = w /\ exists t id attr g gid,
    st_tables s !! fre_table r = Some t /\ ft_class t = TablePrm id attr
    /\ st_groups s !! fre_group r = Some g /\ fg_class g = GroupPrm gid
    /\ cfg = [DEVX_SET ifc.set_fte_in 0 ["opcode"] MLX5_CMD_OP_SET_FLOW_TABLE_ENTRY;
              DEVX_SET ifc.set_fte_in 0 ["flow_index"] i;
              DEVX_SET ifc.set_fte_in 0 ["table_type"] (ft_type t);
              DEVX_SET ifc.set_fte_in 0 ["table_id"] id;
              DEVX_SET ifc.flow_context p_flow_context ["group_id"] gid].
Proof.
  unfold config_flow_rule. destruct (st_tables s !! fre_table r) as [t|]; [|done]. cbn [need]. unfold bind at 1, ret at 1.
  unfold prm_table. destruct (ft_class t) as [id attr|] eqn:Ec; [|done]. cbn [need]. unfold bind at 1, ret at 1.
  unfold get_table_type, get_table_id, get_flow_table_status. destruct (ft_is_initialized t); cbn [is_ok negb]; [|done].
  destruct (st_groups s !! fre_group r) as [g|]; [|done]. cbn [need]. unfold bind at 1, ret at 1.
  destruct (fg_class g) as [gid|] eqn:Eg; [|done]. cbn [need]. unfold bind at 1, ret at 1.
  unfold get_group_id. destruct (fg_is_initialized g); cbn [is_ok negb]; [|done].
  unfold ret. intros E. injection E as <- <-. split; [done|]. exists t, id, attr, g, gid. by split_and!.
Qed.
(** The five statements of the configuration lie below the match value. *)
Lemma cfg_until v1 v2 v3 v4 v5 :
  forallb (until 128)
    [DEVX_SET ifc.set_fte_in 0 ["opcode"] v1; DEVX_SET ifc.set_fte_in 0 ["flow_index"] v2;
     DEVX_SET ifc.set_fte_in 0 ["table_type"] v3; DEVX_SET ifc.set_fte_in 0 ["table_id"] v4;
     DEVX_SET ifc.flow_context p_flow_context ["group_id"] v5] = true.
Proof. vm_compute. reflexivity. Qed.

(** A member of the configuration in the finished mailbox. *)
Lemma rule_in_cfg n cfg mtch ops l p path v :
  0 <= n -> (forall o, In o ops -> exists t, allowed n t o) -> forallb (from 128) mtch = true ->
  forallb (f_disj (fld l p path)) op_fields = true -> f_in (fld l p path) 128 = true ->
  match seek (fld l p path) cfg with
  | Miss => v = 0
  | Val x => v = x mod 2 ^ f_sz (fld l p path)
  | Clash => False
  end ->
  DEVX_GET l p path (rule_in n cfg mtch ops) = v.
Proof.
  intros Hn Ho Hm Hd Hf Hs. assert (Z.of_nat (length (zeros (fte_len n))) = 832 + 8 * n) as Hl
    by (rewrite fte_len_eq; apply length_zeros; lia).
  assert (forall k, 128 <= k -> f_in (fld l p path) k = true) as Hin.
  { intros k Hk. unfold f_in in *. apply andb_prop in Hf as [? Ha%Z.leb_le]. apply andb_true_intro.
    split; [done|]. apply Z.leb_le. lia. }
  unfold rule_in, DEVX_GET. rewrite get_run_ops_other.
  - fold (DEVX_GET l p path (exec (cfg ++ mtch) (zeros (fte_len n)))).
    rewrite (get_skip _ _ _ _ _ _ 128) by (done || lia). apply get_zeroed; [apply Hin; rewrite fte_len_eq; lia|done].
  - rewrite length_exec, Hl. apply Hin. lia.
  - intros o (t & Ht)%Ho. eapply allowed_clear; [done| |done]. unfold f_in in Hf.
    apply andb_prop in Hf as [? Ha%Z.leb_le]. lia.
Qed.

(** The mask of actions before they are applied. *)
Lemma rule_in_action0 n cfg mtch :
  0 <= n -> forallb (from 128) mtch = true -> seek f_action cfg = Miss ->
  get_field f_action (exec (cfg ++ mtch) (zeros (fte_len n))) = 0.
Proof.
  intros Hn Hm Hs.
  change (DEVX_GET ifc.flow_context p_flow_context ["action"] (exec (cfg ++ mtch) (zeros (fte_len n))) = 0).
  rewrite (get_skip _ _ _ _ _ _ 128); [|vm_compute; reflexivity| |done].
  - unfold f_action in Hs. apply get_zeroed; [|by rewrite Hs]. apply fixed_in; [vm_compute; reflexivity|]. rewrite fte_len_eq. lia.
  - rewrite length_zeros; rewrite fte_len_eq; lia.
Qed.

(** The match value in the finished mailbox. *)
Lemma rule_in_match n cfg m v ops :
  0 <= n -> (forall o, In o ops -> exists t, allowed n t o) -> forallb (until 128) cfg = true ->
  match_status m v = DPCP_OK ->
  match_ex_says m v p_match_value (rule_in n cfg (snd (matcher_apply m p_match_value v)) ops).
Proof.
  intros Hn Ho Hc Hst. change p_match_value with 128.
  assert (Z.of_nat (length (zeros (fte_len n))) = 832 + 8 * n) as Hl
    by (rewrite fte_len_eq; apply length_zeros; lia).
  eapply match_ex_says_ext; [|eapply (matcher_says m 128 v (exec cfg (zeros (fte_len n))))]; [|lia| | |done].
  - intros path Hf. unfold rule_in, DEVX_GET. rewrite <- exec_app.
    assert (f_in (fld ifc.fte_match_param 128 path) 640 = true /\ 128 <= f_addr (fld ifc.fte_match_param 128 path)) as [Hf' Ha].
    { change 128 with (128 + 0). rewrite fld_reloc. split; [by eapply (f_in_reloc 128 _ 512)|].
      unfold f_in, f_ok in Hf. bool_hyps. cbn [reloc_field f_addr]. lia. }
    apply get_run_ops_other.
    + rewrite length_exec, Hl. unfold f_in in *. apply andb_prop in Hf' as [? Hb%Z.leb_le]. apply andb_true_intro.
      split; [done|]. apply Z.leb_le. lia.
    + intros o (t & Ht)%Ho. eapply allowed_clear; [by apply match_clear| |exact Ht].
      unfold f_in in Hf'. apply andb_prop in Hf' as [? Hb%Z.leb_le]. lia.
  - rewrite length_exec, Hl. change (ST_SZ_BYTES _) with 512. lia.
  - intros i Hi. rewrite (exec_until_rd 128) by (done || lia). apply rd_zeros.
Qed.

Lemma rule_dests_nonneg s r n : rule_dests s r = Some n -> 0 <= n.
Proof. unfold rule_dests. repeat case_match; intros [= <-]; try done. unfold get_dest_num. lia. Qed.

Lemma action_mask_perm acts l l' : Permutation l l' -> action_mask acts l = action_mask acts l'.
Proof.
  induction 1 as [|p l l' _ IH|p q l|]; cbn [action_mask]; [done|by rewrite IH| |congruence].
  rewrite !Z.lor_assoc. f_equal. apply Z.lor_comm.
Qed.

Lemma action_mask_wf s r :
  rule_wf s r ->
  action_mask (st_actions s) (fre_actions r).*2 = foldr (fun e z => Z.lor (type_bit e.1) z) 0 (fre_actions r).
Proof.
  intros [_ Hf]. induction Hf as [|[t p] m (x & Hx & Ht) _ IH]; [done|]. cbn in *. rewrite Hx, IH. by subst t.
Qed.

(** The parts of a run that succeeds. *)
Lemma rule_prm_create_inv (order : list (action_type * Z) -> list (action_type * Z)) s r i w r' acts' w' :
  rule_prm_create order s r i w = Ret ((DPCP_OK, r', acts'), w') ->
  exists n cfg m ops w1 w2, rule_dests s r = Some n /\ config_flow_rule s r i w1 = Ret ((DPCP_OK, cfg), w1)
    /\ fre_matcher r = Some m /\ match_status m (fre_match_value r) = DPCP_OK
    /\ apply_actions (st_objs s) (st_actions s) (order (fre_actions r)).*2 w1 = Ret ((DPCP_OK, acts', ops), w2)
    /\ exists h, head (calls w') = Some (CObjCreate
         (rule_in n cfg (snd (matcher_apply m p_match_value (fre_match_value r))) ops) (Some h)).
Proof.
  assert (forall (p : Z) (st : status) (a : flow_rule_ex * gmap Z flow_action) (w0 : world D), is_ok st = false ->
            (match dealloc p w0 with Ret (_, w3) => Ret ((st, a.1, a.2), w3) | UB e => UB e end) = Ret ((DPCP_OK, r', acts'), w')
            -> False) as Hbad.
  { intros p st a w0 Hst. destruct (dealloc p w0) as [[[] w3]|]; [|done]. intros E. injection E as -> _ _ _. done. }
  unfold rule_prm_create. destruct (fre_is_valid_actions r); [|done]. cbn [negb].
  destruct (rule_dests s r) as [n|] eqn:Hd; [|done]. cbn [need]. unfold bind, ret.
  destruct (alloc (BRaw (fte_len n)) w) as [[[p|] w1]|]; [|done..].
  destruct (config_flow_rule s r i w1) as [[[st cfg] w2]|] eqn:Ec; [|done].
  destruct (is_ok st) eqn:Est; cbn [negb]; [|intros E; by destruct (Hbad p st (r, st_actions s) w2 Est)].
  apply is_ok_true in Est as ->. destruct (config_flow_rule_inv _ _ _ _ _ _ Ec) as [-> _].
  destruct (fre_matcher r) as [m|] eqn:Em; cbn [need]; unfold ret; [|done].
  pose proof (matcher_status m p_match_value (fre_match_value r)) as Hms.
  destruct (matcher_apply m p_match_value (fre_match_value r)) as [st2 mtch] eqn:Emt. cbn [fst snd] in *.
  destruct (is_ok st2) eqn:Est; cbn [negb]; [|intros E; by destruct (Hbad p st2 (r, st_actions s) w1 Est)].
  apply is_ok_true in Est as ->.
  destruct (apply_actions _ _ _ w1) as [[[[st3 acts] ops] w3]|] eqn:Ea; [|done].
  destruct (is_ok st3) eqn:Est; cbn [negb]; [|intros E; by destruct (Hbad p st3 (r, acts) w3 Est)].
  apply is_ok_true in Est as ->.
  destruct (obj_create _ _ _ w3) as [[[[st4 o'] out] w4]|] eqn:Eo; [|done].
  unfold dealloc. destruct (heap w4 !! p); [|done]. intros E.
  assert (st4 = DPCP_OK) as -> by congruence. injection E as _ <- <-.
  destruct (obj_create_call _ _ _ _ _ _ _ Eo) as [h Hh]. cbn [calls].
  exists n, cfg, m, ops, w1, w3. split_and!; [done|done|done|congruence|done|].
  exists h. by rewrite Emt.
Qed.

(** C27. The command of a rule on a device table says what the rule is: its
    index, its table and group, every match value its group asks for, exactly
    the action bits of its actions, and for each action its tag, header,
    reformat context or list of destinations, whatever the order they were
    applied in. *)
Theorem rule_create_says (order : list (action_type * Z) -> list (action_type * Z)) s r i w r' acts' w' :
  rule_wf s r -> (forall m, Permutation (order m) m) ->
  rule_prm_create order s r i w = Ret ((DPCP_OK, r', acts'), w') ->
  exists b h, head (calls w') = Some (CObjCreate b (Some h)) /\ rule_says s acts' r i b.
Proof.
  intros Hwf Hp Hrun.
  destruct (rule_prm_create_inv _ _ _ _ _ _ _ _ Hrun) as (n & cfg & m & ops & w1 & w2 & Hd & Ec & Em & Est & Ea & h & Hc).
  exists (rule_in n cfg (snd (matcher_apply m p_match_value (fre_match_value r))) ops), h. split; [done|].
  destruct (config_flow_rule_inv _ _ _ _ _ _ Ec) as (_ & t & id & attr & g & gid & Ht & Htc & Hg & Hgc & ->).
  exists t, id, attr, g, gid, m. pose proof (rule_wf_acts_ok s r n Hwf Hd) as Hok.
  assert (Permutation (fre_actions r).*2 (order (fre_actions r)).*2) as Hperm by (apply Permutation_map; by rewrite Hp).
  pose proof (acts_ok_perm n _ _ _ Hperm Hok) as Hok'.
  assert (0 <= n) as Hn by (by eapply rule_dests_nonneg).
  assert (forall o, In o ops -> exists t, allowed n t o) as Hal.
  { intros o Ho. destruct (apply_actions_allowed _ n _ _ _ _ _ _ _ Hok' Ea o Ho) as (q & a & _ & _ & Hx). by eexists. }
  assert (forallb (from 128) (snd (matcher_apply m p_match_value (fre_match_value r))) = true) as Hfrom
    by (by apply matcher_from).
  split_and!; [done|done|done|done|done|..].
  1-5: apply rule_in_cfg; [done|done|done|vm_compute; reflexivity|vm_compute; reflexivity|
         unfold DEVX_SET; mbox_seek; reflexivity].
  - apply rule_in_match; [done|done|apply cfg_until|done].
  - unfold rule_in, DEVX_GET. fold f_action. rewrite (apply_actions_bits _ _ _ _ _ _ _ _ Ea).
    + rewrite <- (action_mask_wf s r Hwf), (action_mask_perm _ _ _ Hperm).
      rewrite rule_in_action0; [by rewrite Z.lor_0_r|done|done|].
      unfold DEVX_SET; mbox_seek; reflexivity.
    + rewrite length_exec, fte_len_eq, length_zeros by lia. lia.
  - apply list.Forall_forall. intros [ty q] Hin. unfold rule_entry_says, rule_in. cbn [fst snd].
    match goal with |- context [run_ops ops ?x] => set (b := x) end.
    destruct (apply_actions_says _ n _ _ _ _ _ _ q b Hok' Ea) as (a & a' & Ha & Ha' & Hty & Hs).
    + rewrite <- Hperm. apply list_elem_of_fmap. by exists (ty, q).
    + unfold b. rewrite length_exec, fte_len_eq, length_zeros by lia. done.
    + exists a'. split_and!; [done| |exact Hs]. destruct Hwf as [_ Hf]. rewrite list.Forall_forall in Hf.
      destruct (Hf _ Hin) as (x & Hx & Hxt). cbn [fst snd] in *. congruence.
Qed.
End command.

(** ** A rule with three actions *)

Definition sample_crit : match_params_ex :=
  mkMatchEx (mkLyr2 (zeros 8) (zeros 8) 0xffff 0) (mkLyr3 0 0xffffffff 0 0) (mkLyr4 lyr4_TCP 0 0xffff) [] 0.
Definition sample_value : match_params_ex :=
  mkMatchEx (mkLyr2 (zeros 8) (zeros 8) 0x0800 0) (mkLyr3 0 0x0a000001 0 0) (mkLyr4 lyr4_TCP 0 80) [] 0.
Definition sample_table : flow_table :=
  mkTable (mkObj 3 (Some 100) (Some 7) 0 0) FT_RX true {[ 2 ]} (TablePrm 0x33 (mkTableAttr 0 None 4 65 FT_RX 0 0)).
Definition sample_group : flow_group :=
  mkGroup (mkObj 4 (Some 101) (Some 7) 0 0) (mkGroupAttr 0 15 FG_MATCH_OUTER_HDR sample_crit) 1 true {[ 3 ]}
    (Some (mkFlowMatcher sample_crit FG_MATCH_OUTER_HDR)) (GroupPrm 0x44).
Definition sample_rule : flow_rule_ex :=
  mkRuleEx (obj_new (Some 7)) sample_value false 1 2 true [(TTag, 10); (TFwd, 11); (TModify, 12)]
    (Some (mkFlowMatcher sample_crit FG_MATCH_OUTER_HDR)) (RulePrm 5).
Definition sample_store : steering :=
  mkSteering {[ 1 := sample_table ]} {[ 2 := sample_group ]} {[ 3 := sample_rule ]}
    {[ 10 := ATag (flow_action_tag_new (Some 7) 0x77); 11 := AFwd (flow_action_fwd_new (Some 7) [20]);
       12 := AModify (flow_action_modify_new (Some 7) FT_RX [ASet 0xc 0 16 80]) ]}
    {[ 20 := mkFwdObj (mkObj 5 (Some 102) (Some 7) 0 0) MLX5_FLOW_DESTINATION_TYPE_TIR ]}.

Lemma sample_rule_wf : rule_wf sample_store sample_rule.
Proof.
  split; [apply (bool_decide_unpack _); vm_compute; exact Logic.I|].
  repeat constructor; eexists; (split; [vm_compute; reflexivity|reflexivity]).
Qed.

(** The run in the order of insertion. *)
Definition sample_run : res (status * flow_rule_ex * gmap Z flow_action * world sim) :=
  rule_prm_create id sample_store sample_rule 5 sim_world.

Definition run_status {A B} (r : res (status * A * B * world sim)) : option status :=
  match r with Ret ((st, _, _), _) => Some st | UB _ => None end.

Lemma sample_run_ok : run_status sample_run = Some DPCP_OK.
Proof. vm_compute. reflexivity. Qed.

Lemma run_ok_inv {A B} (r : res (status * A * B * world sim)) :
  run_status r = Some DPCP_OK -> exists a b w, r = Ret ((DPCP_OK, a, b), w).
Proof. destruct r as [[[[st a] b] w]|]; [|done]. cbn. intros [= ->]. by exists a, b, w. Qed.

Lemma rule_create_any_order_witness :
  rule_prm_create (@rev _) sample_store sample_rule 5 sim_world = sample_run.
Proof.
  destruct (run_ok_inv sample_run sample_run_ok) as (r' & acts' & w' & E). rewrite E.
  apply (rule_create_any_order id (@rev _) sample_store sample_rule 5 sim_world r' acts' w').
  - apply sample_rule_wf.
  - done.
  - intros m. symmetry. apply Permutation_rev.
  - exact E.
Defined.

Lemma rule_create_says_witness :
  exists (w' : world sim) b h acts', head (calls w') = Some (CObjCreate b (Some h)) /\ rule_says sample_store acts' sample_rule 5 b.
Proof.
  destruct (run_ok_inv sample_run sample_run_ok) as (r' & acts' & w' & E). exists w'.
  destruct (rule_create_says id sample_store sample_rule 5 sim_world r' acts' w') as (b & h & H1 & H2).
  - apply sample_rule_wf.
  - done.
  - exact E.
  - exists b, h, acts'. split; [exact H1|exact H2].
Defined.
