(* ===== verification/Steering.v ===== *)
(** * The steering objects together

    Invariant and ownership of the store of FlowRuleEx.v: tables, groups, rules
    and actions point to each other consistently, own their memory and their
    device objects, and every operation keeps it so.  The unchecked
    dereferences of the rules and groups are safe as long as the objects are
    reached through the store. *)

From S2P Require Import Prelude Codec Prm Dcmd Own Sim Obj Fr Writes Matcher FlowAction FlowTable FlowRuleEx.
Open Scope string_scope.
Open Scope list_scope.
Open Scope Z_scope.
Open Scope m_scope.

(** ** Checking the actions of a rule *)

Definition types_of (acts : gmap Z flow_action) (l : list Z) : list action_type :=
  omap (fun p => typeid <$> acts !! p) l.

Definition entry_ok (acts : gmap Z flow_action) (e : action_type * Z) : Prop :=
  exists x, acts !! e.2 = Some x /\ typeid x = e.1.

Lemma types_of_cons acts p x l : acts !! p = Some x -> types_of acts (p :: l) = typeid x :: types_of acts l.
Proof. intros Hx. unfold types_of. cbn. by rewrite Hx. Qed.

Lemma insert_actions_ok acts l : forall m,
  (forall p, p ∈ l -> is_Some (acts !! p)) -> NoDup m.*1 -> Forall (entry_ok acts) m ->
  exists m', insert_actions acts m l = Some m' /\ NoDup m'.*1 /\ Forall (entry_ok acts) m'
    /\ (length m' <= length m + length l)%nat
    /\ (length m' = (length m + length l)%nat <-> NoDup (m.*1 ++ types_of acts l))
    /\ (forall t, t ∈ m'.*1 <-> t ∈ m.*1 \/ t ∈ types_of acts l).
Proof.
  induction l as [|p l IH]; intros m Hl Hn Hf; cbn [insert_actions].
  - exists m. split_and!; [done|done|done|cbn; lia| |].
    + cbn. rewrite app_nil_r. split; [done|lia].
    + set_solver.
  - destruct (Hl p) as [x Hx]; [by left|]. rewrite Hx, (types_of_cons acts p x l Hx).
    assert (forall q, q ∈ l -> is_Some (acts !! q)) as Hl' by (intros; apply Hl; by right).
    unfold map_insert. case_decide as Hd.
    + destruct (IH m Hl' Hn Hf) as (m' & E & Hn' & Hf' & Hle & Hlen & Ht). exists m'.
      split_and!; [done|done|done|cbn [length]; lia| |].
      * cbn [length]. split; [lia|]. intros [_ [Hdis _]]%list.NoDup_app.
        by destruct (Hdis _ Hd); left.
      * intros t. rewrite Ht. set_solver.
    + destruct (IH (m ++ [(typeid x, p)]) Hl') as (m' & E & Hn' & Hf' & Hle & Hlen & Ht).
      { rewrite fmap_app. cbn. apply list.NoDup_app. split_and!; [done|set_solver|apply NoDup_singleton]. }
      { apply Forall_app. split; [done|]. constructor; [|done]. by exists x. }
      exists m'. rewrite length_app in *. cbn [length] in *. split_and!; [done|done|done|lia| |].
      * rewrite fmap_app, <- app_assoc in Hlen. cbn in Hlen. rewrite <- Hlen. lia.
      * intros t. rewrite Ht, fmap_app. cbn. set_solver.
Qed.

Lemma verify_flow_actions_map acts l :
  (forall p, p ∈ l -> is_Some (acts !! p)) ->
  exists ok m, verify_flow_actions acts l = Some (ok, m) /\ NoDup m.*1 /\ Forall (entry_ok acts) m.
Proof.
  intros Hl. unfold verify_flow_actions. destruct l as [|p l].
  - exists false, []. split_and!; [done|apply NoDup_nil_2|done].
  - destruct (insert_actions_ok acts (p :: l) [] Hl) as (m & E & Hn & Hf & _); [apply NoDup_nil_2|done|].
    rewrite E. by eexists _, m.
Qed.

(** C31. The actions of a rule are accepted exactly when there are some, no two
    have the same type and one of them forwards; the map then holds them all,
    each under its type. *)
Theorem verify_flow_actions_ok acts l :
  (forall p, p ∈ l -> is_Some (acts !! p)) ->
  exists ok m, verify_flow_actions acts l = Some (ok, m) /\ NoDup m.*1 /\ Forall (entry_ok acts) m
    /\ (ok = true <-> NoDup (types_of acts l) /\ TFwd ∈ types_of acts l)
    /\ (ok = true -> length m = length l).
Proof.
  intros Hl. unfold verify_flow_actions. destruct l as [|p l].
  - exists false, []. split_and!; [done|apply NoDup_nil_2|done| |done]. split; [done|]. set_solver.
  - destruct (insert_actions_ok acts (p :: l) [] Hl) as (m & E & Hn & Hf & _ & Hlen & Ht);
      [apply NoDup_nil_2|done|].
    rewrite E. exists ((length m =? length (p :: l))%nat && bool_decide (TFwd ∈ m.*1)), m.
    split_and!; [done|done|done| |].
    + rewrite andb_true_iff, bool_decide_eq_true, Nat.eqb_eq, Ht. cbn [length plus app] in *.
      rewrite Hlen. set_solver.
    + intros [Hle _]%andb_prop. by apply Nat.eqb_eq in Hle.
Qed.

Lemma verify_flow_actions_ok_witness :
  let acts : gmap Z flow_action :=
    {[ 1 := ATag (flow_action_tag_new None 5); 2 := AFwd (flow_action_fwd_new None [9]) ]} in
  exists ok m, verify_flow_actions acts [1; 2] = Some (ok, m) /\ ok = true /\ length m = 2%nat.
Proof.
  intros acts. destruct (verify_flow_actions_ok acts [1; 2]) as (ok & m & E & _ & _ & Hok & Hl).
  - intros p Hp. assert (p = 1 \/ p = 2) as [-> | ->] by set_solver; by eexists.
  - assert (ok = true) as ->; [|by exists true, m; split_and!; [..|apply Hl]].
    apply Hok. change (types_of acts [1; 2]) with [TTag; TFwd]. split; [|set_solver].
    apply (bool_decide_unpack _). vm_compute. exact Logic.I.
Defined.

(** ** Objects of a device that reports errors as null handles *)

(** The device hands out no object together with an error status. *)
Class DevXStatus (D : Type) `{DevX D} : Prop :=
  create_status c i o d h out d' :
    bad_args (Some i) (Some o) = false ->
    mlx5dv_devx_obj_create c i o d = (Some h, out, d') -> out_status out = 0.

#[global] Instance sim_status : DevXStatus sim.
Proof.
  intros c i o d h out d' Hb E. cbn in E. injection E as Eh <- _. unfold sim_handle in Eh.
  unfold sim_answer. destruct (sim_fails d); [done|].
  unfold bad_args in Hb. apply orb_false_elim in Hb as [_ Hb%Z.ltb_ge].
  unfold out_status, DEVX_GET. pose proof (get_exec (fld ifc.status_out 0 ["status"])
    [DEVX_SET ifc.status_out 0 ["status"] 0; DEVX_SET ifc.status_out 0 ["id"] (s_next d)] o) as Hg.
  assert (f_in (fld ifc.status_out 0 ["status"]) (Z.of_nat (length o)) = true) as Hf.
  { norm_fld. unfold f_in, f_ok. cbn [f_addr f_sh f_sz]. rewrite !andb_true_iff, !Z.leb_le. lia. }
  specialize (Hg Hf). revert Hg. unfold DEVX_SET. norm_fld.
  match goal with |- context [seek ?f ?ws] =>
    let r := eval vm_compute in (seek f ws) in change (seek f ws) with r end. intros Hg. exact Hg.
Qed.

Section status.
Context {D : Type} `{DevXStatus D}.
Implicit Types (w : world D) (l : list (Z * kind)) (h : gmap Z blk).

Lemma create_obj_status ctx inb outb w p out w' :
  bad_args (Some inb) (Some outb) = false ->
  create_obj ctx inb outb w = Ret ((Some p, out), w') -> out_status out = 0.
Proof.
  intros Hb. unfold create_obj, bind, alloc, device, ret, store, dealloc.
  destruct (oom w) as [|[] rest]; cbn [heap calls dev next]; [|done|].
  all: destruct (mlx5dv_devx_obj_create ctx inb outb (dev w)) as [[[hd|] o1] d] eqn:E; cbn [heap calls fst];
    rewrite lookup_insert_eq; try done; intros R; injection R as _ <- _; by eapply create_status.
Qed.

(** A creation succeeds exactly when it leaves a handle. *)
Lemma own_obj_create_st o inb outb l h Q w :
  own l h w -> m_obj_handle o = None ->
  (forall st o' out w', own (obj_own o' ++ l) h w' -> m_ctx o' = m_ctx o ->
     (st = DPCP_OK <-> m_obj_handle o' <> None) -> Q (st, o', out) w') ->
  wp (obj_create o (Some inb) (Some outb)) Q w.
Proof.
  intros Ho Hn HQ. assert (own (obj_own o ++ l) h w) as Ho0 by (unfold obj_own; by rewrite Hn).
  unfold obj_create. destruct (m_ctx o) as [c|] eqn:Ec; [|apply wp_ret; by apply HQ].
  destruct (bad_args (Some inb) (Some outb)) eqn:Eb; [apply wp_ret; by apply HQ|].
  apply wp_bind. eapply wp_mono; [|apply wp_eq, (own_create_obj _ _ _ l h (fun r w' => own (ptr r.1 KObj ++ l) h w'));
    [exact Ho|intros p out w' Ho'; exact Ho']].
  intros [[p|] out] w' [Ho' E]; cbn [fst orb] in *.
  - rewrite (create_obj_status _ _ _ _ _ _ _ Eb E). cbn [Z.eqb negb]. apply wp_ret. by apply HQ.
  - apply wp_ret. by apply HQ.
Qed.
End status.

(** ** What the store owns *)

Section map_own.
Context {A : Type} (f : A -> list (Z * kind)).

(** The storage and the blocks of every object of a map. *)
Definition map_own (m : gmap Z A) : list (Z * kind) :=
  map_to_list m ≫= (fun px => (px.1, KMem) :: f px.2).

Lemma map_own_insert m p x : m !! p = None -> map_own (<[p := x]> m) ≡ₚ (p, KMem) :: f x ++ map_own m.
Proof. intros Hp. unfold map_own. rewrite map_to_list_insert by done. done. Qed.

Lemma map_own_delete m p x : m !! p = Some x -> map_own m ≡ₚ (p, KMem) :: f x ++ map_own (delete p m).
Proof. intros Hp. unfold map_own. rewrite <- (map_to_list_delete m p x) by done. done. Qed.

Lemma map_own_update m p x : map_own (<[p := x]> m) ≡ₚ (p, KMem) :: f x ++ map_own (delete p m).
Proof.
  rewrite <- insert_delete_eq. apply map_own_insert. apply lookup_delete_eq.
Qed.

Lemma map_own_same m p x y : m !! p = Some x -> f y = f x -> map_own (<[p := y]> m) ≡ₚ map_own m.
Proof. intros Hp Hf. by rewrite map_own_update, Hf, <- map_own_delete. Qed.

Lemma map_own_in m p x : m !! p = Some x -> (p, KMem) ∈ map_own m.
Proof. intros Hp. rewrite map_own_delete by done. left. Qed.
End map_own.

Definition table_blocks (t : flow_table) : list (Z * kind) := obj_own (ft_obj t).
Definition group_blocks (g : flow_group) : list (Z * kind) := obj_own (fg_obj g).
Definition rule_blocks (r : flow_rule_ex) : list (Z * kind) :=
  match fre_class r with RulePrm _ => [] | RuleKernel _ f => ptr f KFlow end ++ obj_own (fre_obj r).
Definition action_blocks (a : flow_action) : list (Z * kind) :=
  match a with
  | AModify m => buf_own (fam_in m) ++ buf_own (fam_actions_root m) ++ obj_own (fam_obj m)
  | AReformat r => obj_own (far_obj r)
  | ATag t => obj_own (fat_obj t)
  | AFwd f => match faf_root_action_fwd f with
              | Some r => [(af_array r, KRaw); (af_self r, KMem)]
              | None => []
              end ++ obj_own (faf_obj f)
  | AReparse r => obj_own (fap_obj r)
  end.

Definition steer_own (s : steering) : list (Z * kind) :=
  map_own table_blocks (st_tables s) ++ map_own group_blocks (st_groups s)
  ++ map_own rule_blocks (st_rules s) ++ map_own action_blocks (st_actions s).

(** ** The invariant *)

(** An object that was not created has no handle. *)
Definition uncreated (init : bool) (o : obj) : Prop := init = false -> m_obj_handle o = None.

Definition action_inv (a : flow_action) : Prop :=
  match a with AModify m => uncreated (fam_is_valid m) (fam_obj m) | _ => True end.

(** A forward action was made with a context. *)
Definition has_ctx (a : flow_action) : Prop :=
  match a with AFwd f => m_ctx (faf_obj f) ≠ None | _ => True end.

Definition same_class_tg (t : flow_table) (g : flow_group) : Prop :=
  match ft_class t, fg_class g with
  | TablePrm _ _, GroupPrm _ | TableKernel, GroupKernel => True
  | _, _ => False
  end.
Definition same_class_gr (g : flow_group) (r : flow_rule_ex) : Prop :=
  match fg_class g, fre_class r with
  | GroupPrm _, RulePrm _ | GroupKernel, RuleKernel _ _ => True
  | _, _ => False
  end.

(** ** Applying actions *)

Section apply_own.
Context {D : Type} `{DevXStatus D}.
Implicit Types (w : world D) (l : list (Z * kind)) (h : gmap Z blk).

(** Everything but the mailbox stays. *)
Definition same_modify (a b : flow_action_modify) : Prop :=
  fam_obj b = fam_obj a /\ fam_table_type b = fam_table_type a /\ fam_actions b = fam_actions a
  /\ fam_is_valid b = fam_is_valid a /\ fam_modify_id b = fam_modify_id a
  /\ fam_actions_root b = fam_actions_root a /\ fam_out b = fam_out a.

Lemma own_prepare_buff a l h w :
  own (buf_own (fam_in a) ++ l) h w ->
  wp (prepare_prm_modify_buff a) (fun r w' =>
    own (buf_own (fam_in r.2) ++ l) h w' /\ same_modify a r.2 /\ (r.1 = DPCP_OK -> is_Some (fam_in r.2))) w.
Proof.
  intros Ho. unfold prepare_prm_modify_buff. apply wp_bind. eapply own_reset; [exact Ho|].
  intros [p|] w' Ho'; [|by apply wp_ret].
  destruct (modify_actions_writes _ _) as [st ws]. apply wp_ret. by split_and!.
Qed.

Lemma own_modify_apply m l h w :
  own (action_blocks (AModify m) ++ l) h w -> action_inv (AModify m) ->
  wp (modify_apply m) (fun r w' =>
    own (action_blocks (AModify r.1.2) ++ l) h w' /\ action_inv (AModify r.1.2)) w.
Proof.
  intros Ho Hi. unfold modify_apply. apply wp_bind. cbn [action_blocks action_inv] in *.
  destruct (fam_is_valid m) eqn:Ev; [apply wp_ret, wp_ret; cbn [fst snd action_inv]; by rewrite Ev|].
  specialize (Hi eq_refl). unfold create_prm_modify. apply wp_bind. rewrite <- !app_assoc in Ho.
  eapply wp_mono; [|apply (own_prepare_buff m _ h w Ho)].
  intros [st m1] w1 (Ho1 & (E1 & E2 & E3 & E4 & E5 & E6 & E7) & Hin). cbn [fst snd] in *.
  destruct (is_ok st) eqn:Est; cbn [negb];
    [|apply wp_ret; rewrite Est; apply wp_ret; cbn [fst snd]; split; [|by unfold uncreated; rewrite E1];
      rewrite E1, E6, <- !app_assoc; exact Ho1].
  apply is_ok_true in Est. destruct (Hin Est) as [[p inb] Ein]. rewrite Ein. cbn [option_map snd].
  apply wp_bind.
  assert (own (buf_own (fam_in m1) ++ buf_own (fam_actions_root m) ++ l) h w1) as Ho1'.
  { revert Ho1. unfold obj_own. by rewrite Hi. }
  rewrite Ein in Ho1'.
  eapply own_obj_create_st; [exact Ho1'|by rewrite E1|]. intros st2 o' out w2 Ho2 _ Hst.
  destruct (is_ok st2) eqn:Est2; cbn [negb]; apply wp_ret;
    [|rewrite Est2; cbn [negb]]; apply wp_ret; cbn [fst snd fam_in fam_actions_root fam_obj fam_is_valid].
  - split; [rewrite E6; own_perm Ho2|by unfold uncreated].
  - split; [rewrite E6; own_perm Ho2|]. intros _. destruct (m_obj_handle o') eqn:Eh; [|done].
    apply is_ok_false in Est2. destruct Est2. by apply Hst.
Qed.

Lemma own_action_apply objs a l h w :
  own (action_blocks a ++ l) h w -> action_inv a -> has_ctx a -> (forall d, d ∈ dests_of a -> is_Some (objs !! d)) ->
  wp (action_apply objs a) (fun r w' =>
    own (action_blocks r.1.2 ++ l) h w' /\ action_inv r.1.2 /\ has_ctx r.1.2 /\ typeid r.1.2 = typeid a
    /\ dests_of r.1.2 = dests_of a) w.
Proof.
  intros Ho Hi Hc Hd. destruct a as [m|r|t|f|r]; cbn [action_apply].
  - apply wp_bind. eapply wp_mono; [|by apply (own_modify_apply m l h w)].
    intros [[st m'] ops] w' [Ho' Hi']. by apply wp_ret.
  - destruct (reformat_apply r). by apply wp_ret.
  - by apply wp_ret.
  - apply wp_bind. unfold fwd_apply. apply wp_bind.
    assert (forall dests p, (forall d, d ∈ dests -> is_Some (objs !! d)) ->
              wp (fwd_dests (D := D) objs p dests) (fun _ w' => w' = w) w) as Hpure.
    { clear. induction dests as [|d r IH]; intros p Hd; [done|]. cbn [fwd_dests].
      destruct (Hd d) as [o Eo]; [by left|]. rewrite Eo. apply wp_bind, wp_ret.
      destruct (obj_get_id (fwd_obj o)) as [st id]. destruct (is_ok st); cbn [negb]; [|by apply wp_ret].
      apply wp_bind. eapply wp_mono; [|apply IH; intros; apply Hd; by right]. intros [st' ops] w' ->. by apply wp_ret. }
    eapply wp_mono; [|apply Hpure; exact Hd]. intros [st ops] w' ->. destruct (is_ok st); cbn [negb]; by apply wp_ret, wp_ret.
  - by apply wp_ret.
Qed.
End apply_own.

Definition acts_like (a b : gmap Z flow_action) : Prop :=
  forall p, match a !! p, b !! p with
            | Some x, Some y => typeid y = typeid x /\ dests_of y = dests_of x
            | None, None => True
            | _, _ => False
            end.

Lemma acts_like_refl a : acts_like a a.
Proof. intros p. by destruct (a !! p). Qed.

Lemma acts_like_trans a b c : acts_like a b -> acts_like b c -> acts_like a c.
Proof.
  intros Hab Hbc p. specialize (Hab p). specialize (Hbc p).
  destruct (a !! p), (b !! p), (c !! p); try done. destruct Hab, Hbc. split; congruence.
Qed.

Lemma acts_like_insert a p x y :
  a !! p = Some x -> typeid y = typeid x -> dests_of y = dests_of x -> acts_like a (<[p := y]> a).
Proof.
  intros Hx Ht Hd q. destruct (decide (p = q)) as [<-|Hne]; [by rewrite Hx, lookup_insert_eq|].
  rewrite lookup_insert_ne by done. by destruct (a !! q).
Qed.

Lemma acts_like_Some a b p x : acts_like a b -> a !! p = Some x -> exists y, b !! p = Some y /\ typeid y = typeid x /\ dests_of y = dests_of x.
Proof. intros Hab Hx. specialize (Hab p). rewrite Hx in Hab. destruct (b !! p) as [y|]; [|done]. by exists y. Qed.

(** The destinations of every forward action are live objects. *)
Definition dests_live (objs : gmap Z forwardable_obj) (acts : gmap Z flow_action) : Prop :=
  forall p a d, acts !! p = Some a -> d ∈ dests_of a -> is_Some (objs !! d).

Lemma dests_live_like objs a b : acts_like a b -> dests_live objs a -> dests_live objs b.
Proof.
  intros Hab Hd p y d Hy. specialize (Hab p). rewrite Hy in Hab. destruct (a !! p) as [x|] eqn:Hx; [|done].
  destruct Hab as [_ ->]. by eapply Hd.
Qed.

Section loops.
Context {D : Type} `{DevXStatus D}.
Implicit Types (w : world D) (l : list (Z * kind)) (h : gmap Z blk) (acts : gmap Z flow_action).

Lemma own_apply_actions objs l h : forall ps acts w,
  own (map_own action_blocks acts ++ l) h w -> (forall p a, acts !! p = Some a -> action_inv a /\ has_ctx a) ->
  (forall p, p ∈ ps -> is_Some (acts !! p)) -> dests_live objs acts ->
  wp (apply_actions objs acts ps) (fun r w' =>
    own (map_own action_blocks r.1.2 ++ l) h w' /\ acts_like acts r.1.2
    /\ (forall p a, r.1.2 !! p = Some a -> action_inv a /\ has_ctx a)) w.
Proof.
  induction ps as [|p ps IH]; intros acts w Ho Hi Hp Hd; cbn [apply_actions].
  { apply wp_ret. split_and!; [done|apply acts_like_refl|done]. }
  destruct (Hp p) as [a Ha]; [by left|]. rewrite Ha. cbn [need]. apply wp_bind, wp_ret, wp_bind.
  rewrite (map_own_delete _ _ _ _ Ha) in Ho.
  assert (own (action_blocks a ++ ((p, KMem) :: map_own action_blocks (delete p acts) ++ l)) h w) as Ho'.
  { own_perm Ho. }
  destruct (Hi p a Ha) as [Hia Hca].
  eapply wp_mono; [|apply (own_action_apply objs a _ h w Ho' Hia Hca); intros; by eapply Hd].
  intros [[st a'] ops] w1 (Ho1 & Hi1 & Hc1 & Ht1 & Hd1). cbn [fst snd] in *.
  assert (own (map_own action_blocks (<[p := a']> acts) ++ l) h w1) as Ho2.
  { rewrite map_own_update. own_perm Ho1. }
  assert (acts_like acts (<[p := a']> acts)) as Hl by (by eapply acts_like_insert).
  assert (forall q c, <[p := a']> acts !! q = Some c -> action_inv c /\ has_ctx c) as Hi2.
  { intros q c. destruct (decide (p = q)) as [<-|Hne]; [rewrite lookup_insert_eq; by intros [= <-]|].
    rewrite lookup_insert_ne by done. apply Hi. }
  destruct (is_ok st); cbn [negb]; [|by apply wp_ret]. apply wp_bind.
  eapply wp_mono; [|apply (IH _ _ Ho2 Hi2)].
  - intros [[st2 acts2] ops2] w2 (Ho3 & Hl3 & Hi3). apply wp_ret. cbn [fst snd] in *.
    split_and!; [done|by eapply acts_like_trans|done].
  - intros q Hq. destruct (Hp q) as [c Hc]; [by right|]. destruct (acts_like_Some _ _ _ _ Hl Hc) as (y & -> & _). by eexists.
  - by eapply dests_live_like.
Qed.
End loops.

(** ** Applying actions on the root table *)

(** The device objects behind the destinations are owned or belong to the rest
    of the process. *)
Definition handles_owned (objs : gmap Z forwardable_obj) (l : list (Z * kind)) (h : gmap Z blk) : Prop :=
  forall d o p, objs !! d = Some o -> m_obj_handle (fwd_obj o) = Some p ->
    (p, KObj) ∈ l \/ exists hd, h !! p = Some (BObj hd).

Lemma handles_owned_mono objs l l' h : l ⊆ l' -> handles_owned objs l h -> handles_owned objs l' h.
Proof. intros Hs Hh d o p Ho Hp. destruct (Hh d o p Ho Hp) as [Hin|Hin]; [left; by apply Hs|by right]. Qed.

Lemma sub_r {A} (a l : list A) : l ⊆ a ++ l.
Proof. intros x Hx. apply list.elem_of_app. by right. Qed.

Section root_own.
Context {D : Type} `{DevXStatus D}.
Implicit Types (w : world D) (l : list (Z * kind)) (h : gmap Z blk).

Lemma handle_live l h w p :
  own l h w -> (p, KObj) ∈ l \/ (exists hd, h !! p = Some (BObj hd)) -> exists hd, heap w !! p = Some (BObj hd).
Proof.
  intros Ho [Hin|[hd Hp]].
  - destruct Ho as (_ & _ & Ha & _). rewrite list.Forall_forall in Ha. destruct (Ha _ Hin) as (b & Hb & Hk).
    destruct b; try done. by eexists.
  - exists hd. by eapply own_frame.
Qed.

Lemma wp_fwd_descs objs dests l h w :
  own l h w -> handles_owned objs l h -> (forall d, d ∈ dests -> is_Some (objs !! d)) ->
  wp (fwd_descs (D := D) objs dests) (fun _ w' => w' = w) w.
Proof.
  intros Ho Hh. induction dests as [|d r IH]; intros Hd; [done|]. cbn [fwd_descs].
  destruct (Hd d) as [o Eo]; [by left|]. rewrite Eo. apply wp_bind, wp_ret, wp_bind.
  unfold get_fwd_desc, obj_get_handle. apply wp_bind. destruct (m_obj_handle (fwd_obj o)) as [p|] eqn:Ep; [|by apply wp_ret, wp_ret].
  destruct (handle_live l h w p Ho (Hh d o p Eo Ep)) as [hd Hp]. apply wp_bind. eapply wp_load; [exact Hp|].
  apply wp_ret. cbn [is_ok negb]. unfold obj_get_id. rewrite Ep. cbn [is_ok negb]. apply wp_ret, wp_bind.
  eapply wp_mono; [|apply IH; intros; apply Hd; by right]. intros [st ds] w' ->. by apply wp_ret.
Qed.

Definition desc_ok (d : flow_desc) : Prop := exists dst, dst_obj d = map Some dst.

Lemma own_fwd_apply_root objs f d l h w :
  own (action_blocks (AFwd f) ++ l) h w -> handles_owned objs l h -> m_ctx (faf_obj f) ≠ None ->
  (forall x, x ∈ faf_dests f -> is_Some (objs !! x)) -> desc_ok d ->
  wp (fwd_apply_root objs f d) (fun r w' =>
    own (action_blocks (AFwd r.1.2) ++ l) h w' /\ faf_dests r.1.2 = faf_dests f
    /\ faf_obj r.1.2 = faf_obj f /\ desc_ok r.2) w.
Proof.
  intros Ho Hh Hctx Hd Hdesc. unfold fwd_apply_root. cbn [action_blocks] in *. apply wp_bind.
  assert (forall f' w', own (action_blocks (AFwd f') ++ l) h w' -> faf_dests f' = faf_dests f -> faf_obj f' = faf_obj f ->
    is_Some (faf_root_action_fwd f') ->
    wp (r <- need (faf_root_action_fwd f') "null dcmd::action_fwd";;
        (let '(e, d') := action_fwd_apply r d in
         if negb (e =? DCMD_EOK) then ret (DPCP_ERR_NOT_APPLIED, f', d') else ret (DPCP_OK, f', d')))
       (fun r w' => own (action_blocks (AFwd r.1.2) ++ l) h w' /\ faf_dests r.1.2 = faf_dests f
          /\ faf_obj r.1.2 = faf_obj f /\ desc_ok r.2) w') as Hfin.
  { intros f' w' Ho' E1 E2 [r Er]. rewrite Er. apply wp_bind, wp_ret, wp_ret. cbn [fst snd].
    split_and!; [done|done|done|]. by eexists. }
  destruct (faf_root_action_fwd f) as [r|] eqn:Er.
  { apply wp_ret. cbn [is_ok negb]. apply Hfin; [cbn [action_blocks]; by rewrite Er|done|done|by eexists]. }
  cbn [app] in Ho. unfold create_root_action_fwd. apply wp_bind.
  eapply wp_mono; [|eapply (wp_fwd_descs objs (faf_dests f) (obj_own (faf_obj f) ++ l) h w); [exact Ho| |done]];
    [|eapply handles_owned_mono; [|exact Hh]; apply sub_r].
  intros [st descs] w' ->. destruct (is_ok st) eqn:Es; cbn [negb];
    [|apply wp_ret; rewrite Es; apply wp_ret; cbn [fst snd action_blocks]; rewrite Er; by split_and!].
  destruct (m_ctx (faf_obj f)) as [c|]; [|done]. apply wp_bind, wp_ret, wp_bind.
  unfold create_action_fwd. apply wp_bind.
  assert (forall w', own (obj_own (faf_obj f) ++ l) h w' ->
    wp (ret (DPCP_ERR_CREATE, with_root f None)) (fun a w'0 => wp ((let '(st0, a0) := a in
       if negb (is_ok st0) then ret (st0, a0, d) else
       r <- need (faf_root_action_fwd a0) "null dcmd::action_fwd";;
       (let '(e, d') := action_fwd_apply r d in
         if negb (e =? DCMD_EOK) then ret (DPCP_ERR_NOT_APPLIED, a0, d') else ret (DPCP_OK, a0, d'))))
       (fun r w' => own (action_blocks (AFwd r.1.2) ++ l) h w' /\ faf_dests r.1.2 = faf_dests f
          /\ faf_obj r.1.2 = faf_obj f /\ desc_ok r.2) w'0) w') as Hnone.
  { intros w' Ho'. apply wp_ret. cbn [is_ok negb]. apply wp_ret. by split_and!. }
  eapply own_alloc; [exact Ho|intros w1 Ho1; apply wp_ret; by apply Hnone|].
  intros self w1 Ho1. apply wp_bind. eapply own_alloc; [exact Ho1| |].
  - intros w2 Ho2. apply wp_bind. eapply own_dealloc; [exact Ho2|]. intros w3 Ho3. apply wp_ret. by apply Hnone.
  - intros arr w2 Ho2. apply wp_ret, wp_ret. cbn [is_ok negb]. apply Hfin; [exact Ho2|done|done|by eexists].
Qed.
End root_own.

Section root_loop.
Context {D : Type} `{DevXStatus D}.
Implicit Types (w : world D) (l : list (Z * kind)) (h : gmap Z blk).

Lemma own_modify_apply_root junk m d l h w :
  own (action_blocks (AModify m) ++ l) h w -> action_inv (AModify m) -> desc_ok d ->
  wp (modify_apply_root junk m d) (fun r w' =>
    own (action_blocks (AModify r.1.2) ++ l) h w' /\ action_inv (AModify r.1.2) /\ desc_ok r.2) w.
Proof.
  intros Ho Hi Hd. unfold modify_apply_root. cbn [action_blocks action_inv] in *.
  destruct (fam_actions_root m) as [[rp rb]|] eqn:Er; [apply wp_ret; cbn [fst snd]; by rewrite Er|].
  apply wp_bind. cbn [buf_own option_map ptr app] in Ho. rewrite <- app_assoc in Ho.
  eapply wp_mono; [|apply (own_prepare_buff m _ h w Ho)].
  intros [st m1] w1 (Ho1 & (E1 & E2 & E3 & E4 & E5 & E6 & E7) & Hin). cbn [fst snd] in *.
  assert (uncreated (fam_is_valid m1) (fam_obj m1)) as Hi1 by (by rewrite E1, E4).
  assert (own (buf_own (fam_in m1) ++ obj_own (fam_obj m1) ++ l) h w1) as Ho1' by (by rewrite E1).
  destruct (is_ok st); cbn [negb]; [|apply wp_ret; cbn [fst snd]; rewrite E6, Er; split_and!; [own_perm Ho1'|done|done]].
  apply wp_bind. unfold prepare_flow_desc_buffs. apply wp_bind. eapply own_alloc; [exact Ho1'| |].
  - intros w2 Ho2. apply wp_ret. cbn [is_ok negb]. apply wp_ret. cbn [fst snd]. rewrite E6, Er.
    split_and!; [own_perm Ho2|done|done].
  - intros p w2 Ho2. destruct (root_actions junk (fam_actions m1)) as [bytes|].
    + rewrite E6, Er. cbn [option_map aligned_free]. apply wp_bind, wp_ret, wp_ret. cbn [is_ok negb].
      apply wp_ret. cbn [fst snd fam_in fam_actions_root fam_obj fam_is_valid]. split_and!; [own_perm Ho2|done|].
      by destruct Hd as [dst Hd]; exists dst.
    + apply wp_bind. eapply own_dealloc; [exact Ho2|]. intros w3 Ho3. apply wp_ret. cbn [is_ok negb].
      apply wp_ret. cbn [fst snd]. rewrite E6, Er. split_and!; [own_perm Ho3|done|done].
Qed.

Lemma own_action_apply_root junk objs a d l h w :
  own (action_blocks a ++ l) h w -> action_inv a -> has_ctx a -> handles_owned objs l h ->
  (forall x, x ∈ dests_of a -> is_Some (objs !! x)) -> desc_ok d ->
  wp (action_apply_root junk objs a d) (fun r w' =>
    own (action_blocks r.1.2 ++ l) h w' /\ action_inv r.1.2 /\ has_ctx r.1.2 /\ typeid r.1.2 = typeid a
    /\ dests_of r.1.2 = dests_of a /\ desc_ok r.2) w.
Proof.
  intros Ho Hi Hc Hh Hd Hdesc. destruct a as [m|r|t|f|r]; cbn [action_apply_root].
  - apply wp_bind. eapply wp_mono; [|by apply (own_modify_apply_root junk m d l h w)].
    intros [[st m'] d'] w' (Ho' & Hi' & Hd'). by apply wp_ret.
  - by apply wp_ret.
  - apply wp_ret. by split_and!.
  - apply wp_bind. eapply wp_mono; [|by apply (own_fwd_apply_root objs f d l h w)].
    intros [[st f'] d'] w' (Ho' & E1 & E2 & Hd'). apply wp_ret. cbn [fst snd] in *.
    split_and!; try done. cbn [has_ctx] in *. by rewrite E2.
  - by apply wp_ret.
Qed.

Lemma own_apply_actions_root junk objs l h : forall ps acts d w,
  own (map_own action_blocks acts ++ l) h w -> (forall p a, acts !! p = Some a -> action_inv a /\ has_ctx a) ->
  (forall p, p ∈ ps -> is_Some (acts !! p)) -> dests_live objs acts -> handles_owned objs l h -> desc_ok d ->
  wp (apply_actions_root junk objs acts ps d) (fun r w' =>
    own (map_own action_blocks r.1.2 ++ l) h w' /\ acts_like acts r.1.2
    /\ (forall p a, r.1.2 !! p = Some a -> action_inv a /\ has_ctx a) /\ desc_ok r.2) w.
Proof.
  induction ps as [|p ps IH]; intros acts d w Ho Hi Hp Hd Hh Hdesc; cbn [apply_actions_root].
  { apply wp_ret. split_and!; [done|apply acts_like_refl|done|done]. }
  destruct (Hp p) as [a Ha]; [by left|]. rewrite Ha. cbn [need]. apply wp_bind, wp_ret, wp_bind.
  rewrite (map_own_delete _ _ _ _ Ha) in Ho.
  assert (own (action_blocks a ++ ((p, KMem) :: map_own action_blocks (delete p acts) ++ l)) h w) as Ho'.
  { own_perm Ho. }
  destruct (Hi p a Ha) as [Hia Hca].
  eapply wp_mono; [|apply (own_action_apply_root junk objs a d _ h w Ho' Hia Hca);
    [eapply handles_owned_mono; [|exact Hh]; apply (sub_r ((p, KMem) :: _))|intros; by eapply Hd|done]].
  intros [[st a'] d'] w1 (Ho1 & Hi1 & Hc1 & Ht1 & Hd1 & Hdesc1). cbn [fst snd] in *.
  assert (own (map_own action_blocks (<[p := a']> acts) ++ l) h w1) as Ho2.
  { rewrite map_own_update. own_perm Ho1. }
  assert (acts_like acts (<[p := a']> acts)) as Hl by (by eapply acts_like_insert).
  assert (forall q c, <[p := a']> acts !! q = Some c -> action_inv c /\ has_ctx c) as Hi2.
  { intros q c. destruct (decide (p = q)) as [<-|Hne]; [rewrite lookup_insert_eq; by intros [= <-]|].
    rewrite lookup_insert_ne by done. apply Hi. }
  destruct (is_ok st); cbn [negb]; [|by apply wp_ret].
  eapply wp_mono; [|apply (IH _ _ _ Ho2 Hi2)]; [| |by eapply dests_live_like|done|done].
  - intros [[st2 acts2] d2] w2 (Ho3 & Hl3 & Hi3 & Hd3). cbn [fst snd] in *.
    split_and!; [done|by eapply acts_like_trans|done|done].
  - intros q Hq. destruct (Hp q) as [c Hc]; [by right|]. destruct (acts_like_Some _ _ _ _ Hl Hc) as (y & -> & _). by eexists.
Qed.

(** [create_flow]: the flow is owned, or nothing is. *)
Lemma own_create_flow ctx d l h w Q :
  own l h w -> desc_ok d -> (forall p w', own (ptr p KFlow ++ l) h w' -> Q p w') -> wp (create_flow ctx d) Q w.
Proof.
  intros Ho [dst Hd] HQ. unfold create_flow. apply wp_bind.
  eapply own_alloc; [exact Ho|intros w1 Ho1; apply wp_ret; by apply HQ|]. intros p w1 Ho1. cbv zeta.
  assert (forall w', own ((p, KMem) :: l) h w' -> wp (dealloc p;; ret None) Q w') as Fail.
  { intros w' Ho'. apply wp_bind. eapply own_dealloc; [exact Ho'|]. intros w2 Ho2. apply wp_ret. by apply HQ. }
  apply wp_bind. eapply own_device; [exact Ho1|]. intros [m|] w2 Ho2; [|by apply Fail]. apply wp_bind.
  assert (mapM id (map Some dst) = Some dst) as Em by (clear; induction dst as [|x r IH]; [done|]; cbn; by rewrite IH).
  assert (forall acts w', own ((p, KMem) :: l) h w' ->
    wp (match acts with
        | None => dealloc p;; ret None
        | Some acts =>
            dst <- need (mapM id (dst_obj d)) "uninitialised destination";;
            let all := flow_tag (flow_id d) ++ acts ++ map ActDest dst in
            f <- device (mlx5dv_create_flow m (match_value d) all) (CFlowCreate m (match_value d) all);;
            match f with
            | None => _ <- device (fun x => (tt, mlx5dv_destroy_flow_matcher m x)) (fun _ => CMatcherDestroy m);;
                      dealloc p;; ret None
            | Some f => store p (BFlow f m);; ret (Some p)
            end
        end) Q w') as Hrest.
  { intros [acts|] w' Ho'; [|by apply Fail]. rewrite Hd, Em. apply wp_bind, wp_ret, wp_bind.
    eapply own_device; [exact Ho'|]. intros [f|] w3 Ho3; apply wp_bind.
    - eapply own_store; [exact Ho3|]. intros w4 Ho4. apply wp_ret. by apply HQ.
    - eapply own_device; [exact Ho3|]. intros [] w4 Ho4. by apply Fail. }
  destruct (modify_actions d) as [ma|]; cbn [flow_modify]; [|apply wp_ret; by apply (Hrest (Some []))].
  apply wp_bind. eapply own_device; [exact Ho2|]. intros [a|] w3 Ho3; apply wp_ret; [by apply (Hrest (Some _))|by apply (Hrest None)].
Qed.
End root_loop.

(** ** Creating a rule *)

Section rule_own.
Context {D : Type} `{DevXStatus D}.
Context (order : list (action_type * Z) -> list (action_type * Z)) (Horder : forall m, Permutation (order m) m).
Implicit Types (w : world D) (l : list (Z * kind)) (h : gmap Z blk).

(** What a rule keeps when it is created. *)
Definition same_rule (r r' : flow_rule_ex) : Prop :=
  fre_match_value r' = fre_match_value r /\ fre_table r' = fre_table r /\ fre_group r' = fre_group r
  /\ fre_is_valid_actions r' = fre_is_valid_actions r /\ fre_actions r' = fre_actions r
  /\ fre_matcher r' = fre_matcher r /\ m_ctx (fre_obj r') = m_ctx (fre_obj r)
  /\ match fre_class r, fre_class r' with
     | RulePrm i, RulePrm j => i = j
     | RuleKernel p _, RuleKernel q _ => p = q
     | _, _ => False
     end.

Lemma same_rule_refl r : same_rule r r.
Proof. unfold same_rule. by destruct (fre_class r). Qed.

(** The action pointers of a rule of the store are live. *)
Lemma rule_wf_live s r p : rule_wf s r -> p ∈ (order (fre_actions r)).*2 -> is_Some (st_actions s !! p).
Proof.
  intros [_ Hf] Hp. rewrite list.Forall_forall in Hf.
  apply list_elem_of_fmap in Hp as ([t q] & -> & Hin). rewrite (Horder (fre_actions r)) in Hin.
  destruct (Hf _ Hin) as (x & Hx & _). by eexists.
Qed.

Lemma rule_wf_dests s r : rule_wf s r -> is_Some (rule_dests s r).
Proof.
  intros [_ Hf]. rewrite list.Forall_forall in Hf. unfold rule_dests.
  destruct (list_find _ _) as [[i [t q]]|] eqn:El; [|by eexists].
  apply list_find_Some in El as (Hi & Et & _). apply list_elem_of_lookup_2 in Hi.
  destruct (Hf _ Hi) as (x & Hx & Hxt). cbn [fst snd] in *. rewrite Hx. rewrite Et in Hxt.
  by destruct x.
Qed.

(** The configuration needs a live device table and a live device group. *)
Lemma wp_config_flow_rule s r i t id attr g gid w :
  st_tables s !! fre_table r = Some t -> ft_class t = TablePrm id attr ->
  st_groups s !! fre_group r = Some g -> fg_class g = GroupPrm gid ->
  wp (config_flow_rule (D := D) s r i) (fun _ w' => w' = w) w.
Proof.
  intros Ht Htc Hg Hgc. unfold config_flow_rule, prm_table. rewrite Ht. cbn [need]. apply wp_bind, wp_ret.
  rewrite Htc. cbn [need]. apply wp_bind, wp_ret. destruct (get_table_type t) as [st ty].
  destruct (is_ok st); cbn [negb]; [|by apply wp_ret]. destruct (get_table_id t id) as [st2 tid].
  destruct (is_ok st2); cbn [negb]; [|by apply wp_ret]. rewrite Hg. cbn [need]. apply wp_bind, wp_ret.
  rewrite Hgc. cbn [need]. apply wp_bind, wp_ret. destruct (get_group_id g gid) as [st3 gi].
  destruct (is_ok st3); by apply wp_ret.
Qed.

(** A rule after an attempt to create it, with the actions. *)
Definition rule_post (s : steering) (r : flow_rule_ex) l h
    (x : status * flow_rule_ex * gmap Z flow_action) w : Prop :=
  own (rule_blocks x.1.2 ++ map_own action_blocks x.2 ++ l) h w /\ same_rule r x.1.2
  /\ acts_like (st_actions s) x.2 /\ (forall p a, x.2 !! p = Some a -> action_inv a /\ has_ctx a).

Lemma own_rule_prm_create s r i t id attr g gid l h w :
  own (rule_blocks r ++ map_own action_blocks (st_actions s) ++ l) h w ->
  fre_class r = RulePrm i -> m_obj_handle (fre_obj r) = None -> rule_wf s r -> is_Some (fre_matcher r) ->
  st_tables s !! fre_table r = Some t -> ft_class t = TablePrm id attr ->
  st_groups s !! fre_group r = Some g -> fg_class g = GroupPrm gid ->
  (forall p a, st_actions s !! p = Some a -> action_inv a /\ has_ctx a) -> dests_live (st_objs s) (st_actions s) ->
  wp (rule_prm_create order s r i) (rule_post s r l h) w.
Proof.
  intros Ho Hc Hn Hwf Hm Ht Htc Hg Hgc Hi Hd.
  assert (rule_blocks r = []) as Eb by (unfold rule_blocks, obj_own; by rewrite Hc, Hn). rewrite Eb in Ho. cbn [app] in Ho.
  assert (forall st w', own (map_own action_blocks (st_actions s) ++ l) h w' ->
    wp (ret (st, r, st_actions s)) (rule_post s r l h) w') as Hsame.
  { intros st w' Ho'. apply wp_ret. unfold rule_post. cbn [fst snd]. rewrite Eb.
    split_and!; [done|apply same_rule_refl|apply acts_like_refl|done]. }
  unfold rule_prm_create. destruct (fre_is_valid_actions r); cbn [negb]; [|by apply Hsame].
  destruct (rule_wf_dests s r Hwf) as [n En]. rewrite En. cbn [need]. apply wp_bind, wp_ret, wp_bind.
  eapply own_alloc; [exact Ho|intros w1 Ho1; by apply Hsame|]. intros p w1 Ho1. apply wp_bind.
  eapply wp_mono; [|by eapply (wp_config_flow_rule s r i t id attr g gid)]. intros [st cfg] w' ->.
  assert (forall st w', own ((p, KRaw) :: map_own action_blocks (st_actions s) ++ l) h w' ->
    wp (dealloc p;; ret (st, r, st_actions s)) (rule_post s r l h) w') as Hfail.
  { intros st' w' Ho'. apply wp_bind. eapply own_dealloc; [exact Ho'|]. intros w2 Ho2. by apply Hsame. }
  destruct (is_ok st); cbn [negb]; [|by apply Hfail].
  destruct Hm as [m Em]. rewrite Em. cbn [need]. apply wp_bind, wp_ret.
  destruct (matcher_apply m p_match_value (fre_match_value r)) as [st2 mtch].
  destruct (is_ok st2); cbn [negb]; [|by apply Hfail]. apply wp_bind.
  assert (own (map_own action_blocks (st_actions s) ++ ((p, KRaw) :: l)) h w1) as Ho1' by own_perm Ho1.
  eapply wp_mono; [|apply (own_apply_actions _ _ _ _ _ _ Ho1' Hi); [intros q Hq; by eapply rule_wf_live|exact Hd]].
  intros [[st3 acts] ops] w2 (Ho2 & Hl2 & Hi2). cbn [fst snd] in *.
  destruct (is_ok st3); cbn [negb]; apply wp_bind.
  - eapply own_obj_create_st; [exact Ho2|exact Hn|]. intros st4 o' out w3 Ho3 Hctx _. apply wp_bind.
    eapply (own_dealloc p KRaw (obj_own o' ++ map_own action_blocks acts ++ l)); [own_perm Ho3|]. intros w4 Ho4.
    apply wp_ret. unfold rule_post. cbn [fst snd with_rule fre_obj fre_class].
    split_and!; [|unfold same_rule; cbn; by rewrite Hc|done|done]. unfold rule_blocks. cbn [with_rule fre_class fre_obj]. rewrite Hc. done.
  - eapply (own_dealloc p KRaw (map_own action_blocks acts ++ l)); [own_perm Ho2|]. intros w3 Ho3.
    apply wp_ret. unfold rule_post. cbn [fst snd]. rewrite Eb. split_and!; [done|apply same_rule_refl|done|done].
Qed.
Lemma wp_set_match_params s r g w :
  st_groups s !! fre_group r = Some g -> is_Some (fre_matcher r) ->
  wp (set_match_params (D := D) s r) (fun _ w' => w' = w) w.
Proof.
  intros Hg [m Em]. unfold set_match_params, get_match_criteria. rewrite Hg. cbn [need]. apply wp_bind, wp_ret.
  destruct (fg_is_initialized g); [|by apply wp_ret]. rewrite Em. cbn [need]. apply wp_bind, wp_ret.
  destruct (matcher_apply m 0 _) as [st ws]. destruct (is_ok st); cbn [negb]; [|by apply wp_ret].
  destruct (matcher_apply m 0 _) as [st2 ws2]. destruct (is_ok st2); by apply wp_ret.
Qed.

Lemma own_rule_kernel_create junk s r prio g l h w :
  own (rule_blocks r ++ map_own action_blocks (st_actions s) ++ l) h w ->
  fre_class r = RuleKernel prio None -> m_obj_handle (fre_obj r) = None -> m_ctx (fre_obj r) ≠ None ->
  rule_wf s r -> is_Some (fre_matcher r) -> st_groups s !! fre_group r = Some g ->
  (forall p a, st_actions s !! p = Some a -> action_inv a /\ has_ctx a) -> dests_live (st_objs s) (st_actions s) ->
  handles_owned (st_objs s) l h ->
  wp (rule_kernel_create order junk s r prio) (rule_post s r l h) w.
Proof.
  intros Ho Hc Hn Hctx Hwf Hm Hg Hi Hd Hh.
  assert (rule_blocks r = []) as Eb by (unfold rule_blocks, obj_own; by rewrite Hc, Hn). rewrite Eb in Ho. cbn [app] in Ho.
  assert (forall st acts w', own (map_own action_blocks acts ++ l) h w' -> acts_like (st_actions s) acts ->
    (forall p a, acts !! p = Some a -> action_inv a /\ has_ctx a) ->
    wp (ret (st, r, acts)) (rule_post s r l h) w') as Hsame.
  { intros st acts w' Ho' Hl Ha. apply wp_ret. unfold rule_post. cbn [fst snd]. rewrite Eb.
    split_and!; [done|apply same_rule_refl|done|done]. }
  unfold rule_kernel_create. destruct (fre_is_valid_actions r); cbn [negb];
    [|apply Hsame; [done|apply acts_like_refl|done]].
  apply wp_bind. eapply wp_mono; [|by eapply wp_set_match_params]. intros [[st mask] values] w' ->.
  destruct (is_ok st); cbn [negb]; [|apply Hsame; [done|apply acts_like_refl|done]]. apply wp_bind.
  eapply wp_mono; [|apply (own_apply_actions_root junk _ l h _ _ _ _ Ho Hi);
    [intros q Hq; by eapply rule_wf_live|exact Hd|exact Hh|by exists []]].
  intros [[st2 acts] d] w1 (Ho1 & Hl1 & Hi1 & Hd1). cbn [fst snd] in *.
  destruct (is_ok st2); cbn [negb]; [|by apply Hsame]. destruct (m_ctx (fre_obj r)) as [ctx|] eqn:Ectx; [|done].
  cbn [need]. apply wp_bind, wp_ret, wp_bind. eapply own_create_flow; [exact Ho1|exact Hd1|].
  intros f w2 Ho2. apply wp_ret. unfold rule_post. cbn [fst snd].
  split_and!; [|unfold same_rule; cbn; by rewrite Hc|done|done].
  unfold rule_blocks, obj_own. cbn [with_rule fre_class fre_obj]. rewrite Hn. cbn [ptr]. by rewrite app_nil_r.
Qed.
End rule_own.

(** ** Destruction *)

Fixpoint del_all {A} (l : list Z) (m : gmap Z A) : gmap Z A :=
  match l with [] => m | p :: r => del_all r (delete p m) end.

Lemma lookup_del_all {A} (l : list Z) : forall (m : gmap Z A) p,
  del_all l m !! p = if decide (p ∈ l) then None else m !! p.
Proof.
  induction l as [|q r IH]; intros m p; cbn [del_all]; [by rewrite decide_False by set_solver|].
  rewrite IH. destruct (decide (p ∈ r)) as [Hr|Hr]; [by rewrite decide_True by set_solver|].
  destruct (decide (p = q)) as [->|Hne]; [rewrite lookup_delete_eq; by rewrite decide_True by set_solver|].
  rewrite lookup_delete_ne by done. by rewrite decide_False by set_solver.
Qed.

(** Every rule a group lists is there and is its own. *)
Definition rules_there (s : steering) : Prop :=
  forall gp g rp, st_groups s !! gp = Some g -> rp ∈ fg_rules g ->
    exists r, st_rules s !! rp = Some r /\ fre_group r = gp.

(** The store without a group and its rules. *)
Definition del_group (s : steering) (gp : Z) : steering :=
  match st_groups s !! gp with
  | Some g => set_groups (set_rules s (del_all (elements (fg_rules g)) (st_rules s))) (delete gp (st_groups s))
  | None => s
  end.

Fixpoint del_groups (s : steering) (l : list Z) : steering :=
  match l with [] => s | gp :: r => del_groups (del_group s gp) r end.

Lemma del_group_there s gp : rules_there s -> rules_there (del_group s gp).
Proof.
  intros Ht. unfold del_group. destruct (st_groups s !! gp) as [g|] eqn:Hg; [|done].
  intros gp' g' rp Hg' Hrp. cbn [st_groups st_rules set_groups set_rules] in *.
  apply lookup_delete_Some in Hg' as [Hne Hg']. destruct (Ht gp' g' rp Hg' Hrp) as (r & Hr & Hgr).
  exists r. split; [|done]. rewrite lookup_del_all. rewrite decide_False; [done|].
  intros Hin%elem_of_elements. destruct (Ht gp g rp Hg Hin) as (r' & Hr' & Hgr'). congruence.
Qed.

Section destroy_own.
Context {D : Type} `{DevX D}.
Implicit Types (w : world D) (l : list (Z * kind)) (h : gmap Z blk).

Lemma own_rule_delete r l h w Q :
  own (rule_blocks r ++ l) h w -> (forall w', own l h w' -> Q tt w') -> wp (rule_delete r) Q w.
Proof.
  intros Ho HQ. unfold rule_delete, rule_blocks in *. destruct (fre_class r) as [i|prio f].
  - apply wp_bind. eapply own_obj_delete; [exact Ho|]. intros o' w' _ Ho'. apply wp_ret. by apply HQ.
  - rewrite <- app_assoc in Ho. apply wp_bind. eapply own_delete_flow; [exact Ho|]. intros w1 Ho1.
    apply wp_bind. eapply own_obj_delete; [exact Ho1|]. intros o' w' _ Ho'. apply wp_ret. by apply HQ.
Qed.

Lemma own_destroy_rules l h : forall ps s w, NoDup ps -> (forall p, p ∈ ps -> is_Some (st_rules s !! p)) ->
  own (map_own rule_blocks (st_rules s) ++ l) h w ->
  wp (destroy_rules s ps) (fun s' w' =>
    s' = set_rules s (del_all ps (st_rules s)) /\ own (map_own rule_blocks (st_rules s') ++ l) h w') w.
Proof.
  induction ps as [|p ps IH]; intros s w Hn Hp Ho; cbn [destroy_rules].
  { apply wp_ret. by destruct s. }
  apply list.NoDup_cons in Hn as [Hnp Hn]. destruct (Hp p) as [r Hr]; [by left|]. apply wp_bind.
  unfold destroy_rule. rewrite Hr. cbn [need]. apply wp_bind, wp_ret, wp_bind.
  rewrite (map_own_delete _ _ _ _ Hr) in Ho.
  eapply (own_rule_delete r ((p, KMem) :: map_own rule_blocks (delete p (st_rules s)) ++ l)); [own_perm Ho|].
  intros w1 Ho1. apply wp_bind. eapply own_dealloc; [exact Ho1|]. intros w2 Ho2. apply wp_ret.
  eapply wp_mono; [|apply IH; [done| |exact Ho2]].
  - intros s' w' [-> Ho']. split; [done|exact Ho'].
  - intros q Hq. cbn [st_rules set_rules]. rewrite lookup_delete_ne by (by intros <-). apply Hp. by right.
Qed.

Lemma own_destroy_group s gp l h w :
  is_Some (st_groups s !! gp) -> rules_there s ->
  own (map_own group_blocks (st_groups s) ++ map_own rule_blocks (st_rules s) ++ l) h w ->
  wp (destroy_group s gp) (fun s' w' =>
    s' = del_group s gp /\ own (map_own group_blocks (st_groups s') ++ map_own rule_blocks (st_rules s') ++ l) h w') w.
Proof.
  intros [g Hg] Ht Ho. unfold destroy_group, del_group. rewrite Hg. cbn [need]. apply wp_bind, wp_ret, wp_bind.
  eapply wp_mono; [|apply (own_destroy_rules (map_own group_blocks (st_groups s) ++ l) h)].
  - intros s' w1 [-> Ho1]. cbn [st_rules set_rules st_groups] in *. apply wp_bind.
    rewrite (map_own_delete _ _ _ _ Hg) in Ho1.
    eapply (own_obj_delete (fg_obj g) ((gp, KMem) :: map_own group_blocks (delete gp (st_groups s))
              ++ map_own rule_blocks (del_all (elements (fg_rules g)) (st_rules s)) ++ l)); [own_perm Ho1|].
    intros o' w2 _ Ho2. apply wp_bind. eapply own_dealloc; [exact Ho2|]. intros w3 Ho3. apply wp_ret. split; [done|exact Ho3].
  - apply NoDup_elements.
  - intros p Hp%elem_of_elements. destruct (Ht gp g p Hg Hp) as (r & Hr & _). by eexists.
  - own_perm Ho.
Qed.

Lemma del_group_lookup s gp q : q ≠ gp -> st_groups (del_group s gp) !! q = st_groups s !! q.
Proof. intros Hne. unfold del_group. destruct (st_groups s !! gp); [|done]. cbn. by rewrite lookup_delete_ne. Qed.

Lemma own_destroy_groups l h : forall ps s w, NoDup ps -> (forall p, p ∈ ps -> is_Some (st_groups s !! p)) ->
  rules_there s ->
  own (map_own group_blocks (st_groups s) ++ map_own rule_blocks (st_rules s) ++ l) h w ->
  wp (destroy_groups s ps) (fun s' w' =>
    s' = del_groups s ps /\ own (map_own group_blocks (st_groups s') ++ map_own rule_blocks (st_rules s') ++ l) h w') w.
Proof.
  induction ps as [|p ps IH]; intros s w Hn Hp Ht Ho; cbn [destroy_groups del_groups]; [by apply wp_ret|].
  apply list.NoDup_cons in Hn as [Hnp Hn]. apply wp_bind.
  eapply wp_mono; [|apply (own_destroy_group s p l h w); [apply Hp; by left|done|exact Ho]].
  intros s' w' [-> Ho']. apply IH; [done| |by apply del_group_there|exact Ho'].
  intros q Hq. rewrite del_group_lookup by (by intros ->). apply Hp. by right.
Qed.
End destroy_own.
