(* ===== verification/SteerLife.v ===== *)
(** * The life of the steering store

    The operations a client has on tables, groups, rules and actions, as
    functions on the store, and the invariant they keep: pointers between the
    objects are consistent, every object owns its memory and its device object,
    and a table that forwards its misses does so to a created table of a higher
    level. *)

From S2P Require Import Prelude Codec Prm Dcmd Own Sim Obj Fr Writes Matcher FlowAction FlowTable FlowRuleEx Steering.
Open Scope string_scope.
Open Scope list_scope.
Open Scope Z_scope.
Open Scope m_scope.

(** ** The operations *)

(** The store with the root tables the adapter keeps ([m_root_table_arr]). *)
Record session := mkSession { ss_store : steering; ss_roots : gmap Z Z }.

Section ops.
Context {D : Type} `{DevX D}.

(** [adapter::create_flow_table] on the store. *)
Definition store_add_table (ctx : option Z) (caps : option (bool * Z * Z)) (s : steering) (attr : flow_table_attr)
  : M D (status * steering) :=
  '(st, t) <- create_flow_table ctx caps attr;;
  ret (st, match t with Some (p, t) => set_tables s (<[p := t]> (st_tables s)) | None => s end).

(** [adapter::get_root_table] *)
Definition get_root_table (ctx : option Z) (ss : session) (type : Z) : M D (option Z * session) :=
  if (FT_END <=? type) || (type <? 0) then ret (None, ss)
  else
    match ss_roots ss !! type with
    | Some p => ret (Some p, ss)
    | None =>
        p <- alloc BMem;;
        p <- need p "create on a null root table";;
        '(_, t) <- table_kernel_create (flow_table_kernel_new ctx type);;
        ret (Some p, mkSession (set_tables (ss_store ss) (<[p := t]> (st_tables (ss_store ss))))
                       (<[type := p]> (ss_roots ss)))
    end.

(** The miss table of a table. *)
Definition miss_of (s : steering) (t : flow_table) : option flow_table :=
  match ft_class t with
  | TablePrm _ a => match fta_table_miss a with Some p => st_tables s !! p | None => None end
  | TableKernel => None
  end.

(** [flow_table::create] on a table of the store. *)
Definition store_table_create (s : steering) (tp : Z) : M D (status * steering) :=
  t <- need (st_tables s !! tp) "dangling flow_table";;
  '(st, t) <- table_create (miss_of s t) t;;
  ret (st, set_tables s (<[tp := t]> (st_tables s))).

(** An action of [flow_action_generator], kept in the store. *)
Definition store_add_action (s : steering) (make : M D (option (Z * flow_action))) : M D (option Z * steering) :=
  a <- make;;
  ret (match a with
       | Some (p, a) => (Some p, set_actions s (<[p := a]> (st_actions s)))
       | None => (None, s)
       end).

(** The last shared pointer to an action goes. *)
Definition destroy_action (s : steering) (ap : Z) : M D steering :=
  a <- need (st_actions s !! ap) "dangling flow_action";;
  action_delete a;;
  dealloc ap;;
  ret (set_actions s (delete ap (st_actions s))).

Fixpoint destroy_tables (s : steering) (l : list Z) : M D steering :=
  match l with [] => ret s | tp :: r => s <- destroy_table s tp;; destroy_tables s r end.
Fixpoint destroy_actions (s : steering) (l : list Z) : M D steering :=
  match l with [] => ret s | ap :: r => s <- destroy_action s ap;; destroy_actions s r end.
End ops.

(** ** The invariant, map by map *)

Implicit Types (T : gmap Z flow_table) (G : gmap Z flow_group) (R : gmap Z flow_rule_ex) (A : gmap Z flow_action).

(** A created table that forwards its misses. *)
Definition forwards (t : flow_table) : option flow_table_attr :=
  match ft_class t with
  | TablePrm _ a => if ft_is_initialized t && (fta_def_miss_action a =? FT_MISS_ACTION_FWD) then Some a else None
  | TableKernel => None
  end.

(** The miss table of [a] in [T] is created and higher. *)
Definition miss_ok T (a : flow_table_attr) : Prop :=
  exists mp m mid ma, fta_table_miss a = Some mp /\ T !! mp = Some m /\ ft_class m = TablePrm mid ma
    /\ ft_is_initialized m = true /\ fta_level a < fta_level ma.

Definition table_ok T (t : flow_table) : Prop :=
  uncreated (ft_is_initialized t) (ft_obj t) /\ m_ctx (ft_obj t) ≠ None
  /\ (forall id a, ft_class t = TablePrm id a -> 0 <= fta_level a < 256)
  /\ (forall a, forwards t = Some a -> miss_ok T a).

Definition tables_ok T : Prop := forall tp t, T !! tp = Some t -> table_ok T t.

Definition group_ok T (gp : Z) (g : flow_group) : Prop :=
  uncreated (fg_is_initialized g) (fg_obj g) /\ m_ctx (fg_obj g) ≠ None
  /\ (fg_is_initialized g = true -> is_Some (fg_matcher g))
  /\ exists t, T !! fg_table g = Some t /\ gp ∈ ft_groups t /\ same_class_tg t g /\ ft_is_initialized t = true.

Definition groups_ok T G : Prop :=
  (forall tp t gp, T !! tp = Some t -> gp ∈ ft_groups t -> exists g, G !! gp = Some g /\ fg_table g = tp)
  /\ (forall gp g, G !! gp = Some g -> group_ok T gp g).

Definition rule_ok G (rp : Z) (r : flow_rule_ex) : Prop :=
  is_Some (fre_matcher r) /\ m_ctx (fre_obj r) ≠ None
  /\ exists g, G !! fre_group r = Some g /\ rp ∈ fg_rules g /\ same_class_gr g r
       /\ fg_is_initialized g = true /\ fre_table r = fg_table g.

Definition rules_ok G R : Prop :=
  (forall gp g rp, G !! gp = Some g -> rp ∈ fg_rules g -> exists r, R !! rp = Some r /\ fre_group r = gp)
  /\ (forall rp r, R !! rp = Some r -> rule_ok G rp r).

Definition rule_acts A (r : flow_rule_ex) : Prop := NoDup (fre_actions r).*1 /\ Forall (entry_ok A) (fre_actions r).

Definition acts_used R A : Prop := forall rp r, R !! rp = Some r -> rule_acts A r.

Definition actions_ok A : Prop := forall ap a, A !! ap = Some a -> action_inv a /\ has_ctx a.

Record steer_wf (s : steering) : Prop := mkSteerWf {
  wf_tables : tables_ok (st_tables s);
  wf_groups : groups_ok (st_tables s) (st_groups s);
  wf_rules : rules_ok (st_groups s) (st_rules s);
  wf_used : acts_used (st_rules s) (st_actions s);
  wf_actions : actions_ok (st_actions s);
  wf_dests : dests_live (st_objs s) (st_actions s)
}.

(** A case analysis on a lookup in an updated map. *)
Ltac look H :=
  match type of H with
  | <[?p := _]> _ !! ?q = Some _ =>
      let E := fresh "E" in
      apply lookup_insert_Some in H as [[E H]|[E H]]; [subst|]
  | delete _ _ !! _ = Some _ => let E := fresh "E" in apply lookup_delete_Some in H as [E H]
  end.

(** *** Tables *)

(** The same table for its neighbours. *)
Definition table_like (t t' : flow_table) : Prop :=
  (ft_is_initialized t = true -> ft_is_initialized t' = true)
  /\ match ft_class t, ft_class t' with
     | TablePrm _ a, TablePrm _ a' => a = a'
     | TableKernel, TableKernel => True
     | _, _ => False
     end.

Lemma table_like_prm t t' id a : table_like t t' -> ft_class t = TablePrm id a -> exists id', ft_class t' = TablePrm id' a.
Proof. intros [_ Hc] E. rewrite E in Hc. destruct (ft_class t') as [id' a'|]; [subst a'; by exists id'|done]. Qed.

Lemma table_like_class t t' g : table_like t t' -> same_class_tg t g -> same_class_tg t' g.
Proof. intros [_ Hc]. unfold same_class_tg. by destruct (ft_class t), (ft_class t'). Qed.

Lemma miss_ok_set T tp t t' a : T !! tp = Some t -> table_like t t' -> miss_ok T a -> miss_ok (<[tp := t']> T) a.
Proof.
  intros Ht Hl (mp & m & mid & ma & Ea & Em & Ec & Ei & Hlt).
  destruct (decide (tp = mp)) as [<-|Hne].
  - assert (m = t) as -> by congruence. destruct (table_like_prm _ _ _ _ Hl Ec) as [id' Ec'].
    exists tp, t', id', ma. rewrite lookup_insert_eq. split_and!; try done. by apply Hl.
  - exists mp, m, mid, ma. rewrite lookup_insert_ne by done. done.
Qed.

Lemma miss_ok_add T tp t a : T !! tp = None -> miss_ok T a -> miss_ok (<[tp := t]> T) a.
Proof.
  intros Hn (mp & m & mid & ma & Ea & Em & H). exists mp, m, mid, ma.
  rewrite lookup_insert_ne by congruence. done.
Qed.

Lemma table_ok_mono T T' t : (forall a, miss_ok T a -> miss_ok T' a) -> table_ok T t -> table_ok T' t.
Proof. intros Hm (H1 & H2 & H3 & H4). split_and!; [done..|]. intros a Ha. by apply Hm, H4. Qed.

Lemma tables_ok_set T tp t t' :
  tables_ok T -> T !! tp = Some t -> table_like t t' -> table_ok T t' -> tables_ok (<[tp := t']> T).
Proof.
  intros Hok Ht Hl Ht' q x Hx. eapply table_ok_mono; [intros a; by apply miss_ok_set with t|]. look Hx; [done|by eapply Hok].
Qed.

Lemma tables_ok_add T tp t :
  tables_ok T -> T !! tp = None -> table_ok T t -> tables_ok (<[tp := t]> T).
Proof.
  intros Hok Ht Ht' q x Hx. eapply table_ok_mono; [intros a; by apply miss_ok_add|]. look Hx; [done|by eapply Hok].
Qed.

(** No table has [tp] as its miss table. *)
Definition no_miss_to T (tp : Z) : Prop :=
  forall q t id a, T !! q = Some t -> ft_class t = TablePrm id a -> fta_table_miss a ≠ Some tp.

Lemma forwards_class t a : forwards t = Some a -> exists id, ft_class t = TablePrm id a.
Proof. unfold forwards. destruct (ft_class t) as [id b|]; [|done]. case_if; [|done]. intros [= ->]. by exists id. Qed.

Lemma tables_ok_del T tp : tables_ok T -> no_miss_to T tp -> tables_ok (delete tp T).
Proof.
  intros Hok Hn q x Hx. look Hx. destruct (Hok q x Hx) as (H1 & H2 & H3 & H4). split_and!; [done..|].
  intros a Ha. destruct (H4 a Ha) as (mp & m & mid & ma & Ea & Em & H). exists mp, m, mid, ma.
  destruct (forwards_class _ _ Ha) as [id Hc]. rewrite lookup_delete_ne; [done|]. intros <-. exact (Hn q x id a Hx Hc Ea).
Qed.

(** *** Groups *)

Lemma groups_ok_set_table T G tp t t' :
  groups_ok T G -> T !! tp = Some t -> table_like t t' -> ft_groups t' = ft_groups t -> groups_ok (<[tp := t']> T) G.
Proof.
  intros [H1 H2] Ht Hl Eg. split.
  - intros q x gp Hx Hg. look Hx; [apply (H1 _ t); [done|congruence]|by eapply H1].
  - intros gp g Hg. destruct (H2 gp g Hg) as (? & ? & ? & x & Hx & Hin & Hc & Hi). split_and!; [done..|].
    destruct (decide (tp = fg_table g)) as [->|Hne].
    + assert (x = t) as -> by congruence. exists t'. rewrite lookup_insert_eq, Eg.
      split_and!; [done|done|by eapply table_like_class|by apply Hl].
    + exists x. by rewrite lookup_insert_ne.
Qed.

Lemma groups_ok_add_table T G tp t :
  groups_ok T G -> T !! tp = None -> ft_groups t = ∅ -> groups_ok (<[tp := t]> T) G.
Proof.
  intros [H1 H2] Ht Eg. split.
  - intros q x gp Hx Hg. look Hx; [set_solver|by eapply H1].
  - intros gp g Hg. destruct (H2 gp g Hg) as (? & ? & ? & x & Hx & Hi). split_and!; [done..|].
    exists x. rewrite lookup_insert_ne by congruence. done.
Qed.

Lemma groups_ok_add T G tp t gp g :
  groups_ok T G -> T !! tp = Some t -> G !! gp = None -> fg_table g = tp ->
  group_ok (<[tp := table_with_groups t ({[gp]} ∪ ft_groups t)]> T) gp g ->
  groups_ok (<[tp := table_with_groups t ({[gp]} ∪ ft_groups t)]> T) (<[gp := g]> G).
Proof.
  intros [H1 H2] Ht Hn Eg Hok. split.
  - intros q x gp' Hx Hg. look Hx.
    + cbn [ft_groups table_with_groups] in Hg. destruct (decide (gp' = gp)) as [->|Hne];
        [exists g; by rewrite lookup_insert_eq|]. rewrite lookup_insert_ne by done. apply (H1 _ t); [done|set_solver].
    + destruct (H1 q x gp' Hx Hg) as (g' & Hg' & Et). exists g'. by rewrite lookup_insert_ne by congruence.
  - intros gp' g' Hg'. look Hg'; [done|]. destruct (H2 gp' g' Hg') as (? & ? & ? & x & Hx & Hin & Hc & Hi). split_and!; [done..|].
    destruct (decide (tp = fg_table g')) as [->|Hne]; [|exists x; by rewrite lookup_insert_ne].
    assert (x = t) as -> by congruence. eexists. rewrite lookup_insert_eq. split_and!; [done|cbn; set_solver|done|done].
Qed.

Lemma groups_ok_set T G gp g g' :
  groups_ok T G -> G !! gp = Some g -> fg_table g' = fg_table g -> group_ok T gp g' -> groups_ok T (<[gp := g']> G).
Proof.
  intros [H1 H2] Hg Et Hok. split.
  - intros q x gp' Hx Hg'. destruct (H1 q x gp' Hx Hg') as (y & Hy & Ey).
    destruct (decide (gp = gp')) as [<-|Hne]; [exists g'; rewrite lookup_insert_eq; split; congruence|].
    exists y. by rewrite lookup_insert_ne.
  - intros gp' y Hy. look Hy; [done|by eapply H2].
Qed.

(** A group leaves its table. *)
Lemma groups_ok_del T G tp t gp :
  groups_ok T G -> T !! tp = Some t -> (forall g, G !! gp = Some g -> fg_table g = tp) ->
  groups_ok (<[tp := table_with_groups t (ft_groups t ∖ {[gp]})]> T) (delete gp G).
Proof.
  intros [H1 H2] Ht Hg. split.
  - intros q x gp' Hx Hin. look Hx.
    + cbn [ft_groups table_with_groups] in Hin. rewrite lookup_delete_ne by set_solver. apply (H1 _ t); [done|set_solver].
    + destruct (H1 q x gp' Hx Hin) as (y & Hy & Ey). exists y. rewrite lookup_delete_ne; [done|]. intros <-.
      specialize (Hg y Hy). congruence.
  - intros gp' y Hy. look Hy. destruct (H2 gp' y Hy) as (? & ? & ? & x & Hx & Hin & Hc & Hi). split_and!; [done..|].
    destruct (decide (tp = fg_table y)) as [->|Hne]; [|exists x; by rewrite lookup_insert_ne].
    assert (x = t) as -> by congruence. eexists. rewrite lookup_insert_eq. split_and!; [done|cbn; set_solver|done|done].
Qed.

(** *** Rules *)

Definition group_like (g g' : flow_group) : Prop :=
  (fg_is_initialized g = true -> fg_is_initialized g' = true) /\ fg_table g' = fg_table g
  /\ match fg_class g, fg_class g' with
     | GroupPrm _, GroupPrm _ | GroupKernel, GroupKernel => True
     | _, _ => False
     end.

Lemma group_like_class g g' r : group_like g g' -> same_class_gr g r -> same_class_gr g' r.
Proof. intros (_ & _ & Hc). unfold same_class_gr. by destruct (fg_class g), (fg_class g'). Qed.

Lemma rule_ok_set_group G gp g g' rp r :
  rule_ok G rp r -> G !! gp = Some g -> group_like g g' -> (fre_group r = gp -> rp ∈ fg_rules g') ->
  rule_ok (<[gp := g']> G) rp r.
Proof.
  intros (Hm & Hc & x & Hx & Hin & Hs & Hi & Et) Hg Hl Hin'. split_and!; [done..|].
  destruct (decide (gp = fre_group r)) as [->|Hne]; [|exists x; by rewrite lookup_insert_ne].
  assert (x = g) as -> by congruence. exists g'. rewrite lookup_insert_eq. destruct Hl as (Hi' & Et' & Hc').
  split_and!; [done|by apply Hin'|by eapply group_like_class|by apply Hi'|congruence].
Qed.

Lemma rules_ok_set_group G R gp g g' :
  rules_ok G R -> G !! gp = Some g -> group_like g g' -> fg_rules g' = fg_rules g -> rules_ok (<[gp := g']> G) R.
Proof.
  intros [H1 H2] Hg Hl Er. split.
  - intros q x rp Hx Hin. look Hx; [apply (H1 _ g); [done|congruence]|by eapply H1].
  - intros rp r Hr. eapply rule_ok_set_group; [by apply H2|done|done|]. intros <-. rewrite Er.
    destruct (H2 rp r Hr) as (_ & _ & x & Hx & Hin & _). by assert (x = g) as -> by congruence.
Qed.

Lemma rules_ok_add_group G R gp g :
  rules_ok G R -> G !! gp = None -> fg_rules g = ∅ -> rules_ok (<[gp := g]> G) R.
Proof.
  intros [H1 H2] Hg Er. split.
  - intros q x rp Hx Hin. look Hx; [set_solver|by eapply H1].
  - intros rp r Hr. destruct (H2 rp r Hr) as (? & ? & x & Hx & Hi). split_and!; [done..|].
    exists x. rewrite lookup_insert_ne by congruence. done.
Qed.

Lemma group_like_rules g rs : group_like g (group_with_rules g rs).
Proof. unfold group_like. cbn. by destruct (fg_class g). Qed.

Lemma rules_ok_add G R gp g rp r :
  rules_ok G R -> G !! gp = Some g -> R !! rp = None -> fre_group r = gp ->
  rule_ok (<[gp := group_with_rules g ({[rp]} ∪ fg_rules g)]> G) rp r ->
  rules_ok (<[gp := group_with_rules g ({[rp]} ∪ fg_rules g)]> G) (<[rp := r]> R).
Proof.
  intros [H1 H2] Hg Hn Er Hok. split.
  - intros q x rp' Hx Hin. look Hx.
    + cbn [fg_rules group_with_rules] in Hin. destruct (decide (rp' = rp)) as [->|Hne];
        [exists r; by rewrite lookup_insert_eq|]. rewrite lookup_insert_ne by done. apply (H1 _ g); [done|set_solver].
    + destruct (H1 q x rp' Hx Hin) as (y & Hy & Ey). exists y. by rewrite lookup_insert_ne by congruence.
  - intros rp' y Hy. look Hy; [done|]. eapply rule_ok_set_group; [by apply H2|done|apply group_like_rules|].
    intros <-. cbn. destruct (H2 rp' y Hy) as (_ & _ & x & Hx & Hin & _).
    assert (x = g) as -> by congruence. set_solver.
Qed.

Lemma rules_ok_set G R rp r r' :
  rules_ok G R -> R !! rp = Some r -> same_rule r r' -> rules_ok G (<[rp := r']> R).
Proof.
  intros [H1 H2] Hr (E1 & E2 & E3 & E4 & E5 & E6 & E7 & E8). split.
  - intros gp g q Hg Hin. destruct (H1 gp g q Hg Hin) as (y & Hy & Ey).
    destruct (decide (rp = q)) as [<-|Hne]; [exists r'; rewrite lookup_insert_eq; split; congruence|].
    exists y. by rewrite lookup_insert_ne.
  - intros q y Hy. look Hy; [|by apply H2]. destruct (H2 q r Hr) as (Hm & Hc & g & Hg & Hin & Hs & Hi & Et).
    unfold rule_ok. rewrite E2, E3, E6, E7. split_and!; [done..|]. exists g. split_and!; try done.
    unfold same_class_gr in *. by destruct (fg_class g), (fre_class r), (fre_class y).
Qed.

Lemma rules_ok_del G R gp g rp :
  rules_ok G R -> G !! gp = Some g -> (forall r, R !! rp = Some r -> fre_group r = gp) ->
  rules_ok (<[gp := group_with_rules g (fg_rules g ∖ {[rp]})]> G) (delete rp R).
Proof.
  intros [H1 H2] Hg Hr. split.
  - intros q x rp' Hx Hin. look Hx.
    + cbn [fg_rules group_with_rules] in Hin. rewrite lookup_delete_ne by set_solver. apply (H1 _ g); [done|set_solver].
    + destruct (H1 q x rp' Hx Hin) as (y & Hy & Ey). exists y. rewrite lookup_delete_ne; [done|]. intros <-.
      specialize (Hr y Hy). congruence.
  - intros rp' y Hy. look Hy. eapply rule_ok_set_group; [by apply H2|done|apply group_like_rules|].
    intros <-. cbn. destruct (H2 rp' y Hy) as (_ & _ & x & Hx & Hin & _).
    assert (x = g) as -> by congruence. set_solver.
Qed.

Lemma rules_ok_del_group G R gp g :
  rules_ok G R -> G !! gp = Some g -> rules_ok (delete gp G) (del_all (elements (fg_rules g)) R).
Proof.
  intros [H1 H2] Hg. split.
  - intros q x rp Hx Hin. look Hx. destruct (H1 q x rp Hx Hin) as (y & Hy & Ey). exists y. split; [|done].
    rewrite lookup_del_all, decide_False; [done|]. intros Hin'%elem_of_elements.
    destruct (H1 gp g rp Hg Hin') as (z & Hz & Ez). congruence.
  - intros rp r Hr. rewrite lookup_del_all in Hr. case_decide as Hd; [done|].
    destruct (H2 rp r Hr) as (? & ? & x & Hx & Hin & Hi). split_and!; [done..|]. exists x.
    rewrite lookup_delete_ne; [done|]. intros ->. assert (x = g) as -> by congruence. by destruct Hd; apply elem_of_elements.
Qed.

(** *** Actions *)

Lemma entry_ok_like A A' e : acts_like A A' -> entry_ok A e -> entry_ok A' e.
Proof.
  intros Hl (x & Hx & Et). destruct (acts_like_Some _ _ _ _ Hl Hx) as (y & Hy & Ey & _). exists y. split; [done|congruence].
Qed.

Lemma rule_acts_mono A A' r : (forall e, entry_ok A e -> entry_ok A' e) -> rule_acts A r -> rule_acts A' r.
Proof. intros Hm [Hn Hf]. split; [done|]. revert Hf. by apply Forall_impl. Qed.

Lemma acts_used_like R A A' : acts_like A A' -> acts_used R A -> acts_used R A'.
Proof. intros Hl Hu rp r Hr. eapply rule_acts_mono; [intros e; by apply entry_ok_like|by eapply Hu]. Qed.

Lemma acts_used_set R A rp r : acts_used R A -> rule_acts A r -> acts_used (<[rp := r]> R) A.
Proof. intros Hu Hr q x Hx. look Hx; [done|by eapply Hu]. Qed.

Lemma acts_used_sub R R' A : (forall q x, R' !! q = Some x -> R !! q = Some x) -> acts_used R A -> acts_used R' A.
Proof. intros Hs Hu q x Hx. eapply Hu, Hs, Hx. Qed.

Lemma entry_ok_add A ap a e : A !! ap = None -> entry_ok A e -> entry_ok (<[ap := a]> A) e.
Proof. intros Hn (x & Hx & Et). exists x. rewrite lookup_insert_ne by congruence. done. Qed.

Lemma acts_used_add R A ap a : acts_used R A -> A !! ap = None -> acts_used R (<[ap := a]> A).
Proof. intros Hu Hn rp r Hr. eapply rule_acts_mono; [intros e; by apply entry_ok_add|by eapply Hu]. Qed.

(** No rule uses the action [ap]. *)
Definition unused R (ap : Z) : Prop := forall rp r, R !! rp = Some r -> ap ∉ (fre_actions r).*2.

Lemma acts_used_del R A ap : acts_used R A -> unused R ap -> acts_used R (delete ap A).
Proof.
  intros Hu Hn rp r Hr. destruct (Hu rp r Hr) as [Hd Hf]. split; [done|]. rewrite list.Forall_forall in *.
  intros [t q] Hin. destruct (Hf _ Hin) as (x & Hx & Et). exists x. split; [|done]. cbn [snd] in *.
  rewrite lookup_delete_ne; [done|]. intros <-. apply (Hn rp r Hr). apply list_elem_of_fmap. by exists (t, ap).
Qed.

Lemma actions_ok_set A ap a : actions_ok A -> action_inv a -> has_ctx a -> actions_ok (<[ap := a]> A).
Proof. intros Ha Hi Hc q x Hx. look Hx; [done|by eapply Ha]. Qed.

Lemma actions_ok_del A ap : actions_ok A -> actions_ok (delete ap A).
Proof. intros Ha q x Hx. look Hx. by eapply Ha. Qed.

Lemma st_objs_some s d : is_Some (st_objs s !! d) <-> is_Some (st_tables s !! d) \/ is_Some (st_tirs s !! d).
Proof.
  unfold st_objs. rewrite lookup_union_is_Some, lookup_fmap, fmap_is_Some. done.
Qed.

Lemma dests_live_tables s T :
  (forall d, is_Some (st_tables s !! d) -> is_Some (T !! d)) -> dests_live (st_objs s) (st_actions s) ->
  dests_live (st_objs (set_tables s T)) (st_actions s).
Proof.
  intros Hm Hd p a d Ha Hin. apply st_objs_some. destruct (proj1 (st_objs_some s d) (Hd p a d Ha Hin)) as [Ht|Ht];
    [left; by apply Hm|by right].
Qed.

Lemma dests_live_set objs A ap a :
  dests_live objs A -> (forall d, d ∈ dests_of a -> is_Some (objs !! d)) -> dests_live objs (<[ap := a]> A).
Proof. intros Hd Ha q x d Hx Hin. look Hx; [by apply Ha|by eapply Hd]. Qed.

Lemma dests_live_del objs A ap : dests_live objs A -> dests_live objs (delete ap A).
Proof. intros Hd q x d Hx Hin. look Hx. by eapply Hd. Qed.

Lemma lookup_insert_mono {X} (m : gmap Z X) p x d : is_Some (m !! d) -> is_Some (<[p := x]> m !! d).
Proof. intros. apply lookup_insert_is_Some. destruct (decide (p = d)); auto. Qed.

(** ** The operations keep the invariant and the memory *)

Definition steer_ok {D} (s : steering) (l : list (Z * kind)) (h : gmap Z blk) (w : world D) : Prop :=
  steer_wf s /\ own (steer_own s ++ l) h w.

(** The operation left a consistent store and the same TIRs. *)
Definition keeps {D} (s : steering) (l : list (Z * kind)) (h : gmap Z blk) (s' : steering) (w : world D) : Prop :=
  steer_ok s' l h w /\ st_tirs s' = st_tirs s.

Lemma not_in_keys {X} (f : X -> list (Z * kind)) (m : gmap Z X) p : p ∉ (map_own f m).*1 -> m !! p = None.
Proof.
  intros Hn. destruct (m !! p) as [x|] eqn:E; [|done]. destruct Hn. apply list_elem_of_fmap.
  exists (p, KMem). split; [done|]. by eapply map_own_in.
Qed.

(** A new block is the address of no object. *)
Lemma fresh_keys {D} p s l h (w : world D) :
  own ((p, KMem) :: steer_own s ++ l) h w ->
  st_tables s !! p = None /\ st_groups s !! p = None /\ st_rules s !! p = None /\ st_actions s !! p = None.
Proof.
  intros (_ & Hn & _ & _). csimpl in Hn. apply list.NoDup_cons in Hn as [Hp _]. unfold steer_own in Hp.
  rewrite !fmap_app in Hp. rewrite !list.elem_of_app in Hp.
  split_and!; [apply (not_in_keys table_blocks)|apply (not_in_keys group_blocks)|apply (not_in_keys rule_blocks)
    |apply (not_in_keys action_blocks)]; intros Hin; apply Hp; auto 6.
Qed.

Section keep.
Context {D : Type} `{DevXStatus D}.
Implicit Types (w : world D) (l : list (Z * kind)) (h : gmap Z blk).

(** *** Tables *)

Lemma table_in_miss a miss inb :
  table_in a miss = (DPCP_OK, inb) -> fta_def_miss_action a = FT_MISS_ACTION_FWD ->
  exists m mid ma, miss = Some m /\ ft_class m = TablePrm mid ma /\ ft_is_initialized m = true
    /\ fta_level a < fta_level ma.
Proof.
  unfold table_in, set_miss_action. intros E Ha. rewrite Ha in E. cbn [FT_MISS_ACTION_FWD FT_MISS_ACTION_DEF Z.eqb] in E.
  destruct (fta_op_mod a =? FT_OP_MOD_NORMAL); [|done]. destruct miss as [m|]; [|done].
  unfold prm_table in E. destruct (ft_class m) as [mid ma|] eqn:Ec; [|done].
  unfold get_table_id, get_table_level, get_flow_table_status in E. rewrite Ec in E.
  destruct (ft_is_initialized m) eqn:Ei; [|done]. cbn [is_ok negb orb] in E.
  destruct (fta_level ma <=? fta_level a) eqn:El; [done|]. exists m, mid, ma. split_and!; try done. lia.
Qed.

(** What is kept of a table when it is created. *)
Lemma own_table_create T miss t l h w :
  own (table_blocks t ++ l) h w -> table_ok T t ->
  (forall id a, ft_class t = TablePrm id a -> miss = match fta_table_miss a with Some p => T !! p | None => None end) ->
  wp (table_create miss t) (fun r w' =>
    own (table_blocks r.2 ++ l) h w' /\ table_ok T r.2 /\ table_like t r.2 /\ ft_groups r.2 = ft_groups t) w.
Proof.
  intros Ho Hok Hm. pose proof Hok as (Hu & Hc & Hv & Hf). unfold table_create.
  assert (table_like t t) as Hrefl by (unfold table_like; by destruct (ft_class t)).
  destruct (ft_class t) as [id a|] eqn:Ec.
  - unfold table_prm_create. destruct (ft_is_initialized t) eqn:Ei; [by apply wp_ret|].
    destruct (table_in a miss) as [st inb] eqn:Et. destruct (is_ok st) eqn:Es; cbn [negb]; [|by apply wp_ret].
    apply is_ok_true in Es as ->. specialize (Hu eq_refl). apply wp_bind.
    assert (own l h w) as Ho' by (revert Ho; unfold table_blocks, obj_own; by rewrite Hu).
    eapply own_obj_create_st; [exact Ho'|done|]. intros st o' out w' Ho1 Ectx Hst.
    assert (forall x, is_ok st = false -> m_obj_handle o' = x -> x = None) as Hnone.
    { intros [p|] Es Eh; [|done]. apply is_ok_false in Es. destruct Es. apply Hst. by rewrite Eh. }
    destruct (is_ok st) eqn:Es; cbn [negb]; apply wp_ret; cbn [snd]; (split; [exact Ho1|]).
    + split; [|split; [by unfold table_like; rewrite Ec|done]]. split_and!; [|cbn; by rewrite Ectx| |].
      * unfold uncreated. done.
      * cbn. intros ? ? [= _ <-]. by eapply Hv.
      * unfold forwards. cbn. intros a' Ha. destruct (fta_def_miss_action a =? FT_MISS_ACTION_FWD) eqn:Ed; [|done].
        injection Ha as <-. apply Z.eqb_eq in Ed. destruct (table_in_miss _ _ _ Et Ed) as (m & mid & ma & Em & Hrest).
        rewrite (Hm id a eq_refl) in Em. destruct (fta_table_miss a) as [mp|] eqn:Emp; [|done]. by exists mp, m, mid, ma.
    + split; [|split; [unfold table_like; cbn; by rewrite Ec, Ei|done]]. split_and!; [|cbn; by rewrite Ectx| |].
      * intros _. by apply (Hnone _ eq_refl).
      * cbn. rewrite Ec. intros ? ? [= _ <-]. by eapply Hv.
      * unfold forwards. cbn. by rewrite Ec.
  - apply wp_ret. cbn [snd]. split; [exact Ho|].
    split; [|split; [unfold table_like; cbn; by rewrite Ec|done]]. split_and!; [by unfold uncreated|done| |].
    + cbn. by rewrite Ec.
    + unfold forwards. cbn. by rewrite Ec.
Qed.

Lemma own_create_flow_table ctx caps attr l h w :
  own l h w -> is_Some caps ->
  wp (create_flow_table ctx caps attr) (fun r w' =>
    match r.2 with
    | Some (p, t) => own ((p, KMem) :: l) h w' /\ t = flow_table_prm_new ctx attr
    | None => own l h w'
    end) w.
Proof.
  intros Ho [[[sup ml] mlv] ->]. unfold create_flow_table. destruct (fta_level attr =? 0); [by apply wp_ret|].
  apply wp_bind. eapply (wp_mono _ (fun st w' => w' = w)).
  2: { destruct (fta_type attr =? FT_RX); [|by apply wp_ret]. unfold verify_flow_table_receive_attr. apply wp_bind, wp_ret.
       destruct sup; [|by apply wp_ret]. cbn [negb]. destruct (ml <? fta_log_size attr); [by apply wp_ret|].
       destruct (mlv <? fta_level attr); by apply wp_ret. }
  intros st w' ->. destruct (is_ok st); cbn [negb]; [|by apply wp_ret]. apply wp_bind.
  eapply own_alloc; [exact Ho|intros w' Ho'; by apply wp_ret|]. intros p w' Ho'. by apply wp_ret.
Qed.

(** A table that is new to the store. *)
Lemma keep_new_table s p t l h w :
  steer_wf s -> own ((p, KMem) :: steer_own s ++ l) h w -> table_blocks t = [] -> ft_groups t = ∅ ->
  table_ok (st_tables s) t -> keeps s l h (set_tables s (<[p := t]> (st_tables s))) w.
Proof.
  intros [H1 H2 H3 H4 H5 H6] Ho Eb Eg Ht. destruct (fresh_keys _ _ _ _ _ Ho) as (HT & _). split; [|done]. split.
  - constructor; cbn [st_tables st_groups st_rules st_actions set_tables]; try done.
    + by apply tables_ok_add.
    + by apply groups_ok_add_table.
    + apply dests_live_tables; [intros d; apply lookup_insert_mono|done].
  - unfold steer_own in *. cbn [st_tables st_groups st_rules st_actions set_tables].
    rewrite map_own_insert, Eb by done. exact Ho.
Qed.

Lemma keep_add_table ctx caps s attr l h w :
  steer_ok s l h w -> is_Some ctx -> is_Some caps -> 0 <= fta_level attr < 256 ->
  wp (store_add_table ctx caps s attr) (fun r w' => keeps s l h r.2 w') w.
Proof.
  intros [Hwf Ho] [c ->] Hcaps Hlv. unfold store_add_table. apply wp_bind.
  eapply wp_mono; [|by eapply own_create_flow_table]. intros [st [[p t]|]] w'; cbn [snd].
  - intros [Ho' ->]. apply wp_ret. apply keep_new_table; [done|done|done|done|].
    split_and!; [by unfold uncreated|done| |done]. cbn. intros ? ? [= _ <-]. done.
  - intros Ho'. by apply wp_ret.
Qed.

(** The allocation of a new root table succeeds. *)
Definition root_there (ss : session) (type : Z) w : Prop :=
  is_Some (ss_roots ss !! type) \/ head (oom w) ≠ Some true.

Lemma keep_get_root_table ctx ss type l h w :
  steer_ok (ss_store ss) l h w -> is_Some ctx -> root_there ss type w ->
  wp (get_root_table ctx ss type) (fun r w' => keeps (ss_store ss) l h (ss_store r.2) w') w.
Proof.
  intros [Hwf Ho] [c ->] Hr. unfold get_root_table. destruct (_ || _); [by apply wp_ret|].
  destruct (ss_roots ss !! type) as [p|] eqn:Er; [by apply wp_ret|].
  destruct Hr as [[? ?]|Hr]; [congruence|]. apply wp_bind.
  eapply wp_mono; [|apply wp_eq, (own_alloc _ _ _ (fun p w' => own (ptr p KMem ++ steer_own (ss_store ss) ++ l) h w') _ Ho);
    [done|done]].
  intros [p|] w' [Ho' E]; [|unfold alloc in E; by destruct (oom w) as [|[] ?]].
  cbn [need]. apply wp_bind, wp_ret, wp_bind, wp_ret, wp_ret. cbn [snd ss_store].
  apply keep_new_table; [done|done|done|done|]. split_and!; [by unfold uncreated|done|done|done].
Qed.

Lemma keep_table_create s tp l h w :
  steer_ok s l h w -> is_Some (st_tables s !! tp) ->
  wp (store_table_create s tp) (fun r w' => keeps s l h r.2 w') w.
Proof.
  intros [[H1 H2 H3 H4 H5 H6] Ho] [t Ht]. unfold store_table_create. rewrite Ht. cbn [need]. apply wp_bind, wp_ret, wp_bind.
  unfold steer_own in Ho. rewrite (map_own_delete _ _ _ _ Ht) in Ho.
  assert (own (table_blocks t ++ ((tp, KMem) :: map_own table_blocks (delete tp (st_tables s))
            ++ map_own group_blocks (st_groups s) ++ map_own rule_blocks (st_rules s)
            ++ map_own action_blocks (st_actions s) ++ l)) h w) as Ho' by own_perm Ho.
  eapply wp_mono; [|eapply (own_table_create (st_tables s)); [exact Ho'|by eapply H1|]].
  - intros [st t'] w' (Ho1 & Hok & Hl & Eg). cbn [snd] in *. apply wp_ret. cbn [snd]. split; [|done]. split.
    + constructor; cbn [st_tables st_groups st_rules st_actions set_tables]; try done.
      * by eapply tables_ok_set.
      * by eapply groups_ok_set_table.
      * apply dests_live_tables; [intros d; apply lookup_insert_mono|done].
    + unfold steer_own. cbn [st_tables st_groups st_rules st_actions set_tables]. rewrite map_own_update. own_perm Ho1.
  - intros id a Ec. unfold miss_of. by rewrite Ec.
Qed.

(** *** Groups *)

Lemma keep_add_group s tp attr l h w :
  steer_ok s l h w -> is_Some (st_tables s !! tp) ->
  wp (add_flow_group s tp attr) (fun r w' => keeps s l h r.2 w') w.
Proof.
  intros [[H1 H2 H3 H4 H5 H6] Ho] [t Ht]. unfold add_flow_group. rewrite Ht. cbn [need]. apply wp_bind, wp_ret.
  unfold get_flow_table_status. destruct (ft_is_initialized t) eqn:Ei; cbn [is_ok negb]; [|by apply wp_ret].
  apply wp_bind. eapply own_alloc; [exact Ho|intros w' Ho'; by apply wp_ret|]. intros p w' Ho'. 
  destruct (fresh_keys _ _ _ _ _ Ho') as (HT & HG & HR & HA). destruct (H1 tp t Ht) as (Hu & Hc & Hv & Hf).
  case_decide as Hd; [destruct (proj1 H2 tp t p Ht Hd) as (g & Hg & _); congruence|].
  apply wp_ret. cbn [snd]. split; [|done]. split.
  - assert (table_like t (table_with_groups t ({[p]} ∪ ft_groups t))) as Hl.
    { unfold table_like. cbn. by destruct (ft_class t). }
    constructor; cbn [st_tables st_groups st_rules st_actions set_groups set_tables]; try done.
    + eapply tables_ok_set; [done|done|done|]. by split_and!.
    + apply groups_ok_add; [done|done|done|done|]. split_and!; [by unfold uncreated|done|done|].
      eexists. cbn [fg_table flow_group_new]. rewrite lookup_insert_eq.
      split_and!; [done|cbn; set_solver| |done]. unfold same_class_tg. cbn. by destruct (ft_class t).
    + by apply rules_ok_add_group.
    + apply dests_live_tables; [intros d; apply lookup_insert_mono|done].
  - unfold steer_own in *. cbn [st_tables st_groups st_rules st_actions set_groups set_tables].
    rewrite (map_own_same table_blocks _ _ t) by done. rewrite map_own_insert by done. cbn [group_blocks]. own_perm Ho'.
Qed.

Lemma own_group_create T gp g l h w :
  own (group_blocks g ++ l) h w -> group_ok T gp g ->
  wp (group_create (T !! fg_table g) g) (fun r w' =>
    own (group_blocks r.2 ++ l) h w' /\ group_ok T gp r.2 /\ group_like g r.2 /\ fg_rules r.2 = fg_rules g) w.
Proof.
  intros Ho Hok. pose proof Hok as (Hu & Hc & Hm & t & Ht & Hin & Hs & Hi). unfold group_create. rewrite Ht.
  assert (group_like g g) as Hrefl by (unfold group_like; by destruct (fg_class g)).
  unfold same_class_tg in Hs. destruct (fg_class g) as [id|] eqn:Ec.
  - unfold group_prm_create, group_base_create. destruct (fg_is_initialized g) eqn:Ei; cbn [is_ok negb].
    { by apply wp_ret. }
    unfold prm_table. destruct (ft_class t) as [tid a|] eqn:Et; [|done].
    unfold get_table_id, get_flow_table_status. rewrite Hi. cbn [is_ok negb fg_matcher need]. apply wp_bind, wp_ret, wp_bind.
    specialize (Hu eq_refl). assert (own l h w) as Ho' by (revert Ho; unfold group_blocks, obj_own; by rewrite Hu).
    eapply own_obj_create_st; [exact Ho'|done|]. intros st o' out w' Ho1 Ectx Hst. cbn [fg_obj] in Ectx.
    destruct (is_ok st) eqn:Es; cbn [negb]; apply wp_ret; cbn [snd]; (split; [exact Ho1|]).
    + split; [|split; [unfold group_like; cbn; by rewrite Ec|done]].
      split_and!; [by unfold uncreated|cbn; by rewrite Ectx|cbn; by eexists|]. exists t. cbn.
      split_and!; [done|done|unfold same_class_tg; cbn; by rewrite Et|done].
    + split; [|split; [unfold group_like; cbn; by rewrite Ec, Ei|done]].
      split_and!; [|cbn; by rewrite Ectx|cbn; by eexists|].
      * intros _. cbn. destruct (m_obj_handle o') eqn:Eh; [|done]. apply is_ok_false in Es. destruct Es. by apply Hst.
      * exists t. cbn. split_and!; [done|done|unfold same_class_tg; cbn; by rewrite Et, Ec|done].
  - unfold group_kernel_create, group_base_create. destruct (fg_is_initialized g) eqn:Ei; cbn [is_ok negb].
    { by apply wp_ret. }
    apply wp_ret. cbn [snd]. split; [exact Ho|]. split; [|split; [unfold group_like; cbn; by rewrite Ec|done]].
    split_and!; [by unfold uncreated|done|cbn; by eexists|]. exists t. cbn.
    split_and!; [done|done|unfold same_class_tg; cbn; by rewrite Ec|done].
Qed.

Lemma keep_group_create s gp l h w :
  steer_ok s l h w -> is_Some (st_groups s !! gp) ->
  wp (store_group_create s gp) (fun r w' => keeps s l h r.2 w') w.
Proof.
  intros [[H1 H2 H3 H4 H5 H6] Ho] [g Hg]. unfold store_group_create. rewrite Hg. cbn [need]. apply wp_bind, wp_ret, wp_bind.
  unfold steer_own in Ho. rewrite (map_own_delete _ _ _ _ Hg) in Ho.
  assert (own (group_blocks g ++ ((gp, KMem) :: map_own table_blocks (st_tables s)
            ++ map_own group_blocks (delete gp (st_groups s)) ++ map_own rule_blocks (st_rules s)
            ++ map_own action_blocks (st_actions s) ++ l)) h w) as Ho' by own_perm Ho.
  eapply wp_mono; [|eapply (own_group_create (st_tables s) gp); [exact Ho'|by apply H2]].
  intros [st g'] w' (Ho1 & Hok & Hl & Er). cbn [snd] in *. apply wp_ret. cbn [snd]. split; [|done]. split.
  - constructor; cbn [st_tables st_groups st_rules st_actions set_groups]; try done.
    + eapply groups_ok_set; [done|done|apply Hl|done].
    + by eapply rules_ok_set_group.
  - unfold steer_own. cbn [st_tables st_groups st_rules st_actions set_groups]. rewrite map_own_update. own_perm Ho1.
Qed.

(** *** Rules *)

Lemma keep_add_rule s gp attr l h w :
  steer_ok s l h w -> is_Some (st_groups s !! gp) -> (forall p, p ∈ fra_actions attr -> is_Some (st_actions s !! p)) ->
  wp (add_flow_rule s gp attr) (fun r w' => keeps s l h r.2 w') w.
Proof.
  intros [[H1 H2 H3 H4 H5 H6] Ho] [g Hg] Hacts. unfold add_flow_rule. rewrite Hg. cbn [need]. apply wp_bind, wp_ret.
  destruct (fg_is_initialized g) eqn:Ei; cbn [negb]; [|by apply wp_ret].
  apply wp_bind. eapply own_alloc; [exact Ho|intros w' Ho'; by apply wp_ret|]. intros p w' Ho'.
  destruct (fresh_keys _ _ _ _ _ Ho') as (HT & HG & HR & HA). destruct (proj2 H2 gp g Hg) as (Hu & Hc & Hm & t & _).
  unfold flow_rule_ex_new. destruct (verify_flow_actions_map (st_actions s) (fra_actions attr) Hacts) as (ok & m & Ev & Hn & Hf).
  rewrite Ev. cbn [need]. apply wp_bind, wp_ret. case_decide as Hd.
  { destruct (proj1 H3 gp g p Hg Hd) as (r & Hr & _). congruence. }
  apply wp_ret. cbn [snd]. split; [|done]. split.
  - constructor; cbn [st_tables st_groups st_rules st_actions set_rules set_groups]; try done.
    + eapply groups_ok_set; [done|done|done|]. exact (proj2 H2 gp g Hg).
    + apply rules_ok_add; [done|done|done|done|]. split_and!; [by apply Hm|done|].
      eexists. cbn [fre_group]. rewrite lookup_insert_eq. split_and!; [done|cbn; set_solver| |done|done].
      unfold same_class_gr. cbn. by destruct (fg_class g).
    + apply acts_used_set; [done|]. by split.
  - unfold steer_own in *. cbn [st_tables st_groups st_rules st_actions set_rules set_groups].
    rewrite (map_own_same group_blocks _ _ g) by done. rewrite map_own_insert by done.
    assert (forall c, match c with RulePrm _ => [] | RuleKernel _ f => ptr f KFlow end = [] ->
      rule_blocks (mkRuleEx (obj_new (m_ctx (fg_obj g))) (fra_match_value attr) false (fg_table g) gp ok m (fg_matcher g) c) = []) as Eb.
    { intros c Hcl. unfold rule_blocks, obj_own. cbn. by rewrite Hcl. }
    rewrite Eb by (by destruct (fg_class g)). own_perm Ho'.
Qed.

(** The device objects of the TIRs belong to the caller or to the rest of the
    process. *)
Definition tirs_ok (s : steering) l h : Prop := handles_owned (st_tirs s) l h.

(** The rule was not created yet. *)
Definition not_created (r : flow_rule_ex) : Prop :=
  m_obj_handle (fre_obj r) = None /\ match fre_class r with RuleKernel _ (Some _) => False | _ => True end.

Lemma objs_owned s l h : tirs_ok s l h -> handles_owned (st_objs s) (map_own table_blocks (st_tables s) ++ l) h.
Proof.
  intros Ht d o p Ho Hp. unfold st_objs in Ho. apply lookup_union_Some_raw in Ho as [Ho|[_ Ho]].
  - left. apply lookup_fmap_Some in Ho as (t & <- & Hd). cbn [fwd_obj] in Hp. apply list.elem_of_app. left.
    rewrite (map_own_delete _ _ _ _ Hd). right. apply list.elem_of_app. left.
    unfold table_blocks, obj_own. rewrite Hp. by left.
  - destruct (Ht d o p Ho Hp) as [Hin|Hin]; [left; apply list.elem_of_app; by right|by right].
Qed.

Lemma keep_rule_create order junk s rp r l h w :
  (forall m : list (action_type * Z), Permutation (order m) m) ->
  steer_ok s l h w -> st_rules s !! rp = Some r -> not_created r -> tirs_ok s l h ->
  wp (store_rule_create order junk s rp) (fun r w' => keeps s l h r.2 w') w.
Proof.
  intros Hord [[H1 H2 H3 H4 H5 H6] Ho] Hr [Hn Hk] Htir. unfold store_rule_create. rewrite Hr. cbn [need]. apply wp_bind, wp_ret, wp_bind.
  destruct (proj2 H3 rp r Hr) as (Hm & Hctx & g & Hg & Hin & Hs & Hi & Et).
  destruct (proj2 H2 _ g Hg) as (_ & _ & _ & t & Ht & _ & Hst & _).
  unfold steer_own in Ho. rewrite (map_own_delete _ _ _ _ Hr) in Ho.
  set (L := map_own table_blocks (st_tables s) ++ ((rp, KMem) :: map_own group_blocks (st_groups s)
          ++ map_own rule_blocks (delete rp (st_rules s)) ++ l)).
  assert (own (rule_blocks r ++ map_own action_blocks (st_actions s) ++ L) h w) as Ho' by (unfold L; own_perm Ho).
  assert (wp (rule_create order junk s r) (rule_post s r L h) w) as Hrun.
  { unfold rule_create. unfold same_class_gr in Hs. unfold same_class_tg in Hst.
    destruct (fre_class r) as [i|prio f] eqn:Ec; destruct (fg_class g) as [gid|] eqn:Eg; try done.
    - destruct (ft_class t) as [id attr|] eqn:Etc; [|done].
      eapply (own_rule_prm_create order Hord s r i t id attr g gid L h w); try done; [exact (H4 rp r Hr)|by rewrite Et].
    - destruct f as [f|]; [done|].
      eapply (own_rule_kernel_create order Hord junk s r prio g L h w); try done; [exact (H4 rp r Hr)|].
      eapply handles_owned_mono; [|apply (objs_owned s l h Htir)]. unfold L. intros x Hx.
      apply list.elem_of_app in Hx as [Hx|Hx]; apply list.elem_of_app; [by left|]. right. right.
      apply list.elem_of_app. right. apply list.elem_of_app. by right. }
  eapply wp_mono; [|exact Hrun]. intros [[st r'] acts] w' (Ho1 & Hsr & Hl & Ha). cbn [fst snd] in *. apply wp_ret. cbn [snd].
  split; [|done]. split.
  - constructor; cbn [st_tables st_groups st_rules st_actions set_rules set_actions]; try done.
    + by eapply rules_ok_set.
    + apply acts_used_set; [by eapply acts_used_like|]. destruct Hsr as (_ & _ & _ & _ & Ea & _).
      eapply rule_acts_mono; [intros e; by apply entry_ok_like|]. unfold rule_acts. rewrite Ea. by eapply H4.
    + by eapply dests_live_like.
  - unfold steer_own. cbn [st_tables st_groups st_rules st_actions set_rules set_actions]. rewrite map_own_update.
    unfold L in Ho1. own_perm Ho1.
Qed.

Lemma keep_remove_rule s gp rp l h w :
  steer_ok s l h w -> is_Some (st_groups s !! gp) ->
  wp (remove_flow_rule s gp rp) (fun r w' => keeps s l h r.2 w'
     /\ (r.1 = DPCP_OK -> st_rules r.2 !! rp = None)) w.
Proof.
  intros [[H1 H2 H3 H4 H5 H6] Ho] [g Hg]. unfold remove_flow_rule. rewrite Hg. cbn [need]. apply wp_bind, wp_ret.
  destruct (fg_is_initialized g) eqn:Ei; cbn [negb]; [|by apply wp_ret].
  destruct (st_rules s !! rp) as [r|] eqn:Hr; [|by apply wp_ret]. case_decide as Hd; [|by apply wp_ret].
  apply wp_bind. unfold destroy_rule. cbn [st_rules set_groups]. rewrite Hr. cbn [need]. apply wp_bind, wp_ret, wp_bind.
  unfold steer_own in Ho. rewrite (map_own_delete _ _ _ _ Hr) in Ho.
  eapply (own_rule_delete r ((rp, KMem) :: map_own table_blocks (st_tables s) ++ map_own group_blocks (st_groups s)
            ++ map_own rule_blocks (delete rp (st_rules s)) ++ map_own action_blocks (st_actions s) ++ l)); [own_perm Ho|].
  intros w1 Ho1. apply wp_bind. eapply own_dealloc; [exact Ho1|]. intros w2 Ho2. apply wp_ret, wp_ret. cbn [fst snd].
  split; [split; [|done]; split|].
  - constructor; cbn [st_tables st_groups st_rules st_actions set_rules set_groups]; try done.
    + eapply groups_ok_set; [done|done|done|]. exact (proj2 H2 gp g Hg).
    + apply rules_ok_del; [done|done|]. intros r' Hr'. destruct (proj1 H3 gp g rp Hg Hd) as (r2 & Hr2 & E2). congruence.
    + eapply acts_used_sub; [|exact H4]. intros q x Hx. by look Hx.
  - unfold steer_own. cbn [st_tables st_groups st_rules st_actions set_rules set_groups].
    rewrite (map_own_same group_blocks _ _ g) by done. own_perm Ho2.
  - intros _. cbn. apply lookup_delete_eq.
Qed.

Lemma rules_there_ok s : rules_ok (st_groups s) (st_rules s) -> rules_there s.
Proof. intros [H1 _]. exact H1. Qed.

Lemma keep_remove_group s tp gp l h w :
  steer_ok s l h w -> is_Some (st_tables s !! tp) ->
  wp (remove_flow_group s tp gp) (fun r w' => keeps s l h r.2 w'
     /\ (r.1 = DPCP_OK -> st_groups r.2 !! gp = None)) w.
Proof.
  intros [[H1 H2 H3 H4 H5 H6] Ho] [t Ht]. unfold remove_flow_group. rewrite Ht. cbn [need]. apply wp_bind, wp_ret.
  unfold get_flow_table_status. destruct (ft_is_initialized t) eqn:Ei; cbn [is_ok negb]; [|by apply wp_ret].
  destruct (st_groups s !! gp) as [g|] eqn:Hg; [|by apply wp_ret]. case_decide as Hd; [|by apply wp_ret].
  apply wp_bind.
  match goal with |- wp (destroy_group ?x gp) _ _ => set (s1 := x) end.
  assert (own (map_own group_blocks (st_groups s1) ++ map_own rule_blocks (st_rules s1)
           ++ (map_own table_blocks (st_tables s) ++ map_own action_blocks (st_actions s) ++ l)) h w) as Ho'.
  { unfold steer_own in Ho. unfold s1. cbn [st_groups st_rules set_tables]. own_perm Ho. }
  eapply wp_mono; [|eapply (own_destroy_group s1 gp); [by eexists|by apply (rules_there_ok s)|exact Ho']].
  intros s' w' [-> Ho1]. apply wp_ret. cbn [fst snd]. unfold del_group in *.
  assert (st_groups s1 !! gp = Some g) as Hg1 by done. rewrite Hg1 in *.
  split; [split; [|done]; split|].
  - constructor; cbn [st_tables st_groups st_rules st_actions set_rules set_groups set_tables s1]; try done.
    + eapply tables_ok_set; [done|done| |by apply H1 in Ht]. unfold table_like. cbn. by destruct (ft_class t).
    + apply groups_ok_del; [done|done|]. intros g' Hg'. destruct (proj1 H2 tp t gp Ht Hd) as (g2 & Hg2 & E2). congruence.
    + by apply rules_ok_del_group.
    + eapply acts_used_sub; [|exact H4]. intros q x. rewrite lookup_del_all. by case_decide.
    + apply dests_live_tables; [intros d; apply lookup_insert_mono|done].
  - unfold steer_own. unfold s1 in *. cbn [st_tables st_groups st_rules st_actions set_rules set_groups set_tables] in *.
    rewrite (map_own_same table_blocks _ _ t) by done. own_perm Ho1.
  - intros _. cbn. apply lookup_delete_eq.
Qed.

(** *** The end of tables and actions *)

Lemma del_group_keeps s gp :
  st_tables (del_group s gp) = st_tables s /\ st_actions (del_group s gp) = st_actions s
  /\ st_tirs (del_group s gp) = st_tirs s /\ st_groups (del_group s gp) !! gp = None
  /\ (forall q x, st_rules (del_group s gp) !! q = Some x -> st_rules s !! q = Some x)
  /\ (rules_ok (st_groups s) (st_rules s) -> rules_ok (st_groups (del_group s gp)) (st_rules (del_group s gp))).
Proof.
  unfold del_group. destruct (st_groups s !! gp) as [g|] eqn:Hg; [|by split_and!].
  cbn [st_tables st_actions st_tirs st_groups st_rules set_groups set_rules].
  split_and!; [done|done|done|apply lookup_delete_eq| |intros; by apply rules_ok_del_group].
  intros q x. rewrite lookup_del_all. by case_decide.
Qed.

Lemma del_groups_keeps ps : forall s,
  st_tables (del_groups s ps) = st_tables s /\ st_actions (del_groups s ps) = st_actions s
  /\ st_tirs (del_groups s ps) = st_tirs s
  /\ (forall q, st_groups (del_groups s ps) !! q = if decide (q ∈ ps) then None else st_groups s !! q)
  /\ (forall q x, st_rules (del_groups s ps) !! q = Some x -> st_rules s !! q = Some x)
  /\ (rules_ok (st_groups s) (st_rules s) -> rules_ok (st_groups (del_groups s ps)) (st_rules (del_groups s ps))).
Proof.
  induction ps as [|p ps IH]; intros s; cbn [del_groups].
  { by split_and!. }
  destruct (IH (del_group s p)) as (E1 & E2 & E3 & E4 & E5 & E6).
  destruct (del_group_keeps s p) as (F1 & F2 & F3 & F4 & F5 & F6).
  split_and!; [congruence|congruence|congruence| |by intros q x Hx%E5%F5|auto].
  intros q. rewrite E4. destruct (decide (q ∈ ps)); [by rewrite decide_True by set_solver|].
  destruct (decide (q = p)) as [->|Hne]; [by rewrite decide_True by set_solver|].
  rewrite decide_False by set_solver. by rewrite del_group_lookup.
Qed.

(** What is needed of the store to destroy a table. *)
Lemma own_destroy_table s tp l h w :
  own (steer_own s ++ l) h w -> groups_ok (st_tables s) (st_groups s) -> rules_ok (st_groups s) (st_rules s) ->
  is_Some (st_tables s !! tp) ->
  wp (destroy_table s tp) (fun s' w' => own (steer_own s' ++ l) h w'
    /\ groups_ok (st_tables s') (st_groups s') /\ rules_ok (st_groups s') (st_rules s')
    /\ st_tables s' = delete tp (st_tables s) /\ st_actions s' = st_actions s /\ st_tirs s' = st_tirs s
    /\ (forall q x, st_rules s' !! q = Some x -> st_rules s !! q = Some x)) w.
Proof.
  intros Ho H2 H3 [t Ht]. unfold destroy_table. rewrite Ht. cbn [need]. apply wp_bind, wp_ret, wp_bind.
  assert (own (map_own group_blocks (st_groups s) ++ map_own rule_blocks (st_rules s)
           ++ (map_own table_blocks (st_tables s) ++ map_own action_blocks (st_actions s) ++ l)) h w) as Ho'.
  { unfold steer_own in Ho. own_perm Ho. }
  eapply wp_mono; [|eapply (own_destroy_groups _ h (elements (ft_groups t)));
    [apply NoDup_elements| |by apply rules_there_ok|exact Ho']].
  - intros s' w' [-> Ho1]. destruct (del_groups_keeps (elements (ft_groups t)) s) as (E1 & E2 & E3 & E4 & E5 & E6).
    set (s1 := del_groups s (elements (ft_groups t))) in *. apply wp_bind.
    rewrite (map_own_delete _ _ _ _ Ht) in Ho1.
    eapply (own_obj_delete (ft_obj t) ((tp, KMem) :: map_own table_blocks (delete tp (st_tables s))
       ++ map_own group_blocks (st_groups s1) ++ map_own rule_blocks (st_rules s1)
       ++ map_own action_blocks (st_actions s) ++ l)); [own_perm Ho1|]. intros o' w2 _ Ho2.
    apply wp_bind. eapply own_dealloc; [exact Ho2|]. intros w3 Ho3. apply wp_ret.
    cbn [st_tables st_groups st_rules st_actions st_tirs set_tables]. split_and!; [| |auto|by rewrite E1|done|done|done].
    + unfold steer_own. cbn [st_tables st_groups st_rules st_actions set_tables]. rewrite E1, E2. own_perm Ho3.
    + rewrite E1. split.
      * intros q x gp Hx Hin. look Hx. destruct (proj1 H2 q x gp Hx Hin) as (g & Hg & Eg). exists g. split; [|done].
        rewrite E4, decide_False; [done|]. intros Hin'%elem_of_elements.
        destruct (proj1 H2 tp t gp Ht Hin') as (g2 & Hg2 & Eg2). congruence.
      * intros gp g Hg. rewrite E4 in Hg. case_decide as Hd; [done|].
        destruct (proj2 H2 gp g Hg) as (? & ? & ? & x & Hx & Hin & Hrest). split_and!; [done..|]. exists x.
        rewrite lookup_delete_ne; [done|]. intros ->. assert (x = t) as -> by congruence. by destruct Hd; apply elem_of_elements.
  - intros p Hp%elem_of_elements. destruct (proj1 H2 tp t p Ht Hp) as (g & Hg & _). by eexists.
Qed.

(** No action forwards to [tp]. *)
Definition no_dest_to A (tp : Z) : Prop := forall ap a, A !! ap = Some a -> tp ∉ dests_of a.

Lemma keep_destroy_table s tp l h w :
  steer_ok s l h w -> is_Some (st_tables s !! tp) -> no_miss_to (st_tables s) tp -> no_dest_to (st_actions s) tp ->
  wp (destroy_table s tp) (fun s' w' => keeps s l h s' w') w.
Proof.
  intros [[H1 H2 H3 H4 H5 H6] Ho] Ht Hnm Hnd. eapply wp_mono; [|by apply own_destroy_table].
  intros s' w' (Ho' & Hg & Hr & E1 & E2 & E3 & Hsub). split; [|done]. split; [|done].
  constructor; [rewrite E1; by apply tables_ok_del|done|done|rewrite E2; by eapply acts_used_sub|by rewrite E2|].
  rewrite E2. intros p a d Ha Hin. apply st_objs_some. rewrite E1, E3.
  destruct (proj1 (st_objs_some s d) (H6 p a d Ha Hin)) as [Hd|Hd]; [left|by right].
  rewrite lookup_delete_ne; [done|]. intros <-. exact (Hnd p a Ha Hin).
Qed.

Lemma own_action_delete a l h Q w :
  own (action_blocks a ++ l) h w -> (forall w', own l h w' -> Q tt w') -> wp (action_delete a) Q w.
Proof.
  intros Ho HQ. destruct a as [m|r|t|f|r]; cbn [action_delete action_blocks] in *.
  - unfold flow_action_modify_delete. rewrite <- !app_assoc in Ho. apply wp_bind.
    unfold buf_own in Ho. eapply (own_aligned_free (option_map fst (fam_in m)) KRaw); [exact Ho|]. intros w1 Ho1.
    apply wp_bind. eapply own_aligned_free; [exact Ho1|]. intros w2 Ho2. apply wp_bind.
    eapply own_obj_delete; [exact Ho2|]. intros o' w3 _ Ho3. apply wp_ret. by apply HQ.
  - apply wp_bind. eapply own_obj_delete; [exact Ho|]. intros o' w' _ Ho'. apply wp_ret. by apply HQ.
  - apply wp_bind. eapply own_obj_delete; [exact Ho|]. intros o' w' _ Ho'. apply wp_ret. by apply HQ.
  - unfold flow_action_fwd_delete. destruct (faf_root_action_fwd f) as [r|]; apply wp_bind.
    + eapply own_dealloc; [exact Ho|]. intros w1 Ho1. apply wp_bind. eapply own_dealloc; [exact Ho1|]. intros w2 Ho2.
      apply wp_bind. eapply own_obj_delete; [exact Ho2|]. intros o' w' _ Ho'. apply wp_ret. by apply HQ.
    + eapply own_obj_delete; [exact Ho|]. intros o' w' _ Ho'. apply wp_ret. by apply HQ.
  - apply wp_bind. eapply own_obj_delete; [exact Ho|]. intros o' w' _ Ho'. apply wp_ret. by apply HQ.
Qed.

Lemma own_destroy_action s ap l h w :
  own (steer_own s ++ l) h w -> is_Some (st_actions s !! ap) ->
  wp (destroy_action s ap) (fun s' w' =>
    own (steer_own s' ++ l) h w' /\ s' = set_actions s (delete ap (st_actions s))) w.
Proof.
  intros Ho [a Ha]. unfold destroy_action. rewrite Ha. cbn [need]. apply wp_bind, wp_ret, wp_bind.
  unfold steer_own in Ho. rewrite (map_own_delete _ _ _ _ Ha) in Ho.
  eapply (own_action_delete a ((ap, KMem) :: map_own table_blocks (st_tables s) ++ map_own group_blocks (st_groups s)
            ++ map_own rule_blocks (st_rules s) ++ map_own action_blocks (delete ap (st_actions s)) ++ l)); [own_perm Ho|].
  intros w1 Ho1. apply wp_bind. eapply own_dealloc; [exact Ho1|]. intros w2 Ho2. apply wp_ret. split; [|done].
  unfold steer_own. cbn [st_tables st_groups st_rules st_actions set_actions]. own_perm Ho2.
Qed.

Lemma keep_destroy_action s ap l h w :
  steer_ok s l h w -> is_Some (st_actions s !! ap) -> unused (st_rules s) ap ->
  wp (destroy_action s ap) (fun s' w' => keeps s l h s' w') w.
Proof.
  intros [[H1 H2 H3 H4 H5 H6] Ho] Ha Hu. eapply wp_mono; [|by apply own_destroy_action].
  intros s' w' [Ho' ->]. split; [|done]. split; [|done].
  constructor; cbn [st_tables st_groups st_rules st_actions set_actions]; try done.
  - by apply acts_used_del.
  - by apply actions_ok_del.
  - by apply dests_live_del.
Qed.

(** An action made by a factory. *)
Definition made L h (r : option (Z * flow_action)) (P : flow_action -> Prop) w : Prop :=
  match r with
  | Some (p, a) => own ((p, KMem) :: action_blocks a ++ L) h w /\ action_inv a /\ has_ctx a /\ P a
  | None => own L h w
  end.

Lemma keep_add_action s make P l h w :
  steer_ok s l h w -> wp make (fun r w' => made (steer_own s ++ l) h r P w') w ->
  (forall a d, P a -> d ∈ dests_of a -> is_Some (st_objs s !! d)) ->
  wp (store_add_action s make) (fun r w' => keeps s l h r.2 w') w.
Proof.
  intros [Hwf Ho] Hm Hd. unfold store_add_action. apply wp_bind. eapply wp_mono; [|exact Hm].
  intros [[p a]|] w' Hr; apply wp_ret; cbn [snd]; [|by split]. destruct Hr as (Ho' & Hi & Hc & Hp).
  assert (own ((p, KMem) :: steer_own s ++ (action_blocks a ++ l)) h w') as Ho2 by own_perm Ho'.
  destruct (fresh_keys _ _ _ _ _ Ho2) as (_ & _ & _ & HA). destruct Hwf as [H1 H2 H3 H4 H5 H6]. split; [|done]. split.
  - constructor; cbn [st_tables st_groups st_rules st_actions set_actions]; try done.
    + by apply acts_used_add.
    + by apply actions_ok_set.
    + apply dests_live_set; [done|]. intros d. by apply Hd.
  - unfold steer_own in *. cbn [st_tables st_groups st_rules st_actions set_actions]. rewrite map_own_insert by done. own_perm Ho2.
Qed.

(** *** The factories *)

Lemma made_plain a L h P w :
  own L h w -> action_blocks a = [] -> action_inv a -> has_ctx a -> P a ->
  wp (make_action (ret a)) (fun r w' => made L h r P w') w.
Proof.
  intros Ho Eb Hi Hc HP. unfold make_action. apply wp_bind.
  eapply own_alloc; [exact Ho|intros w' Ho'; by apply wp_ret|]. intros p w' Ho'.
  apply wp_bind, wp_ret, wp_ret. unfold made. rewrite Eb. by split_and!.
Qed.

(** The header to insert is readable. *)
Definition readable (a : reformat_attr) : Prop :=
  match a with
  | INSERT_HDR i => match ri_data i with Some d => ri_data_len i <= Z.of_nat (length d) | None => True end
  | ROther _ => True
  end.

Lemma made_reformat ctx attr L h w :
  own L h w -> readable attr ->
  wp (create_reformat ctx attr) (fun r w' => made L h r (fun a => dests_of a = []) w') w.
Proof.
  intros Ho Hr. unfold create_reformat, make_action. apply wp_bind.
  eapply own_alloc; [exact Ho|intros w' Ho'; by apply wp_ret|]. intros p w1 Ho1. apply wp_bind, wp_bind.
  assert (forall o v i w', own (obj_own o ++ (p, KMem) :: L) h w' ->
    wp (ret (mkReformat o attr v i)) (fun a w' => wp (ret (AReformat a)) (fun a w' => wp (ret (Some (p, a)))
      (fun r w' => made L h r (fun a => dests_of a = []) w') w') w') w') as Hfin.
  { intros o v i w' Ho'. apply wp_ret, wp_ret, wp_ret. unfold made. cbn [action_blocks far_obj].
    split_and!; [own_perm Ho'|done|done|done]. }
  unfold flow_action_reformat_new. destruct attr as [ins|ty]; [|by apply Hfin]. apply wp_bind.
  unfold alloc_reformat_insert_action. cbn [readable] in Hr. destruct (ri_data ins) as [d|]; [|apply wp_ret; by apply Hfin].
  apply wp_bind. eapply own_alloc; [exact Ho1|intros w' Ho'; apply wp_ret; by apply Hfin|]. intros b w2 Ho2.
  destruct (Z.ltb_spec (Z.of_nat (length d)) (ri_data_len ins)); [lia|]. apply wp_ret. cbn [is_ok negb option_map fst snd].
  apply wp_bind. eapply own_obj_create; [exact Ho2|done|]. intros st o out w3 Ho3 _ _. apply wp_bind.
  eapply (own_dealloc b KRaw (obj_own o ++ (p, KMem) :: L)); [own_perm Ho3|]. intros w4 Ho4.
  destruct (is_ok st); by apply Hfin.
Qed.
End keep.

(** ** Sequences of operations *)

Inductive sop : Type :=
| OpTable (attr : flow_table_attr)
| OpRoot (type : Z)
| OpTableCreate (tp : Z)
| OpGroup (tp : Z) (attr : flow_group_attr)
| OpGroupCreate (gp : Z)
| OpRule (gp : Z) (attr : flow_rule_attr_ex)
| OpRuleCreate (rp : Z)
| OpRemoveRule (gp rp : Z)
| OpRemoveGroup (tp gp : Z)
| OpFwd (dests : list Z)
| OpTag (id : Z)
| OpModify (table_type : Z) (acts : list modify_type_attr)
| OpReformat (attr : reformat_attr)
| OpReparse
| OpDropAction (ap : Z)
| OpDropTable (tp : Z).

Section life.
Context {D : Type} `{DevX D}.
Context (order : list (action_type * Z) -> list (action_type * Z)) (junk : list (Z * Z)).
Context (ctx : option Z) (caps : option (bool * Z * Z)).

Definition on_store {X : Type} (ss : session) (m : M D (X * steering)) : M D session :=
  r <- m;; ret (mkSession r.2 (ss_roots ss)).
Definition on_store' (ss : session) (m : M D steering) : M D session :=
  s <- m;; ret (mkSession s (ss_roots ss)).

Definition sop_run (ss : session) (o : sop) : M D session :=
  let s := ss_store ss in
  match o with
  | OpTable attr => on_store ss (store_add_table ctx caps s attr)
  | OpRoot type => r <- get_root_table ctx ss type;; ret r.2
  | OpTableCreate tp => on_store ss (store_table_create s tp)
  | OpGroup tp attr => on_store ss (add_flow_group s tp attr)
  | OpGroupCreate gp => on_store ss (store_group_create s gp)
  | OpRule gp attr => on_store ss (add_flow_rule s gp attr)
  | OpRuleCreate rp => on_store ss (store_rule_create order junk s rp)
  | OpRemoveRule gp rp => on_store ss (remove_flow_rule s gp rp)
  | OpRemoveGroup tp gp => on_store ss (remove_flow_group s tp gp)
  | OpFwd dests => on_store ss (store_add_action s (create_fwd ctx dests))
  | OpTag id => on_store ss (store_add_action s (create_tag ctx id))
  | OpModify ty acts => on_store ss (store_add_action s (create_modify ctx ty acts))
  | OpReformat attr => on_store ss (store_add_action s (create_reformat ctx attr))
  | OpReparse => on_store ss (store_add_action s (create_reparse ctx))
  | OpDropAction ap => on_store' ss (destroy_action s ap)
  | OpDropTable tp => on_store' ss (destroy_table s tp)
  end.

Fixpoint sops_run (ss : session) (os : list sop) : M D session :=
  match os with [] => ret ss | o :: r => ss <- sop_run ss o;; sops_run ss r end.

(** What the client may do: objects it names are there, a rule is created once (a
    second creation leaves the first device object behind), an object is dropped
    when nothing points to it any more, the level of a table is a [uint8_t], the
    header to insert is readable, and a new root table gets its memory (the code
    uses the pointer without a test). *)
Definition may (ss : session) (w : world D) (o : sop) : Prop :=
  let s := ss_store ss in
  match o with
  | OpTable attr => 0 <= fta_level attr < 256
  | OpRoot type => root_there ss type w
  | OpTableCreate tp | OpGroup tp _ | OpRemoveGroup tp _ => is_Some (st_tables s !! tp)
  | OpGroupCreate gp | OpRemoveRule gp _ => is_Some (st_groups s !! gp)
  | OpRule gp attr => is_Some (st_groups s !! gp) /\ Forall (fun a => is_Some (st_actions s !! a)) (fra_actions attr)
  | OpRuleCreate rp => match st_rules s !! rp with Some r => not_created r | None => False end
  | OpFwd dests => Forall (fun d => is_Some (st_objs s !! d)) dests
  | OpTag _ | OpModify _ _ | OpReparse => True
  | OpReformat attr => readable attr
  | OpDropAction ap => is_Some (st_actions s !! ap) /\ unused (st_rules s) ap
  | OpDropTable tp => is_Some (st_tables s !! tp) /\ no_miss_to (st_tables s) tp /\ no_dest_to (st_actions s) tp
      /\ (forall ty, ss_roots ss !! ty ≠ Some tp)
  end.

Fixpoint may_all (ss : session) (w : world D) (os : list sop) : Prop :=
  match os with
  | [] => True
  | o :: r => may ss w o /\ (forall ss' w', sop_run ss o w = Ret (ss', w') -> may_all ss' w' r)
  end.

(** The end of the process: every table with its groups and rules, then the
    actions. *)
Definition shutdown (ss : session) : M D steering :=
  s <- destroy_tables (ss_store ss) (map_to_list (st_tables (ss_store ss))).*1;;
  destroy_actions s (map_to_list (st_actions s)).*1.
End life.

Section life_thm.
Context {D : Type} `{DevXStatus D}.
Context (order : list (action_type * Z) -> list (action_type * Z)) (Horder : forall m, Permutation (order m) m).
Context (junk : list (Z * Z)) (ctx : Z) (caps : bool * Z * Z).
Implicit Types (w : world D) (l : list (Z * kind)) (h : gmap Z blk).

Lemma on_store_keeps {X : Type} ss (m : M D (X * steering)) s l h w :
  wp m (fun r w' => keeps s l h r.2 w') w -> wp (on_store ss m) (fun ss' w' => keeps s l h (ss_store ss') w') w.
Proof. intros Hm. apply wp_bind. eapply wp_mono; [|exact Hm]. intros r w' Hk. by apply wp_ret. Qed.

Lemma on_store'_keeps ss (m : M D steering) s l h w :
  wp m (fun r w' => keeps s l h r w') w -> wp (on_store' ss m) (fun ss' w' => keeps s l h (ss_store ss') w') w.
Proof. intros Hm. apply wp_bind. eapply wp_mono; [|exact Hm]. intros r w' Hk. by apply wp_ret. Qed.

Lemma sop_keeps ss o l h w :
  steer_ok (ss_store ss) l h w -> tirs_ok (ss_store ss) l h -> may ss w o ->
  wp (sop_run order junk (Some ctx) (Some caps) ss o) (fun ss' w' => keeps (ss_store ss) l h (ss_store ss') w') w.
Proof.
  intros Hok Ht Hm. pose proof (proj2 Hok) as Ho. destruct o; cbn [sop_run may] in *.
  2: { apply wp_bind. eapply wp_mono; [|apply keep_get_root_table; [exact Hok|by eexists|done]].
       intros r w' Hk. by apply wp_ret. }
  14-15: apply on_store'_keeps.
  1-13: apply on_store_keeps.
  - apply keep_add_table; [done|by eexists|by eexists|done].
  - by apply keep_table_create.
  - by apply keep_add_group.
  - by apply keep_group_create.
  - destruct Hm as [Hg Hf]. rewrite list.Forall_forall in Hf. by apply keep_add_rule.
  - destruct (st_rules (ss_store ss) !! rp) as [r|] eqn:Hr; [|done]. by eapply keep_rule_create.
  - eapply wp_mono; [|by apply keep_remove_rule]. by intros r w' [Hk _].
  - eapply wp_mono; [|by apply keep_remove_group]. by intros r w' [Hk _].
  - rewrite list.Forall_forall in Hm. eapply (keep_add_action _ _ (fun a => dests_of a = dests)); [exact Hok| |].
    + by apply made_plain.
    + intros a d -> Hin. by apply Hm.
  - eapply (keep_add_action _ _ (fun a => dests_of a = [])); [exact Hok|by apply made_plain|intros a d ->; set_solver].
  - eapply (keep_add_action _ _ (fun a => dests_of a = [])); [exact Hok|by apply made_plain|intros a d ->; set_solver].
  - eapply (keep_add_action _ _ (fun a => dests_of a = [])); [exact Hok|by apply made_reformat|intros a d ->; set_solver].
  - eapply (keep_add_action _ _ (fun a => dests_of a = [])); [exact Hok|by apply made_plain|intros a d ->; set_solver].
  - destruct Hm. by apply keep_destroy_action.
  - destruct Hm as (? & ? & ? & _). by apply keep_destroy_table.
Qed.

Lemma sops_keep l h : forall os ss w,
  steer_ok (ss_store ss) l h w -> tirs_ok (ss_store ss) l h ->
  may_all order junk (Some ctx) (Some caps) ss w os ->
  wp (sops_run order junk (Some ctx) (Some caps) ss os)
     (fun ss' w' => steer_ok (ss_store ss') l h w' /\ tirs_ok (ss_store ss') l h) w.
Proof.
  induction os as [|o os IH]; intros ss w Hok Ht Hm; cbn [sops_run may_all] in *; [by apply wp_ret|].
  destruct Hm as [Hm Hr]. apply wp_bind. eapply wp_mono; [|by eapply wp_eq, sop_keeps].
  intros ss' w' [[Hok' Et] Erun]. apply IH; [done| |by apply Hr]. unfold tirs_ok. by rewrite Et.
Qed.

Lemma own_destroy_tables l h : forall ps s w, NoDup ps -> (forall p, p ∈ ps -> is_Some (st_tables s !! p)) ->
  own (steer_own s ++ l) h w -> groups_ok (st_tables s) (st_groups s) -> rules_ok (st_groups s) (st_rules s) ->
  wp (destroy_tables s ps) (fun s' w' => own (steer_own s' ++ l) h w'
    /\ groups_ok (st_tables s') (st_groups s') /\ rules_ok (st_groups s') (st_rules s')
    /\ st_tables s' = del_all ps (st_tables s)) w.
Proof.
  induction ps as [|p ps IH]; intros s w Hn Hp Ho Hg Hr; cbn [destroy_tables del_all]; [by apply wp_ret|].
  apply list.NoDup_cons in Hn as [Hnp Hn]. apply wp_bind.
  eapply wp_mono; [|apply own_destroy_table; [exact Ho|done|done|apply Hp; by left]].
  intros s' w' (Ho' & Hg' & Hr' & E1 & _). rewrite <- E1. apply IH; [done| |done|done|done].
  intros q Hq. rewrite E1, lookup_delete_ne by (by intros ->). apply Hp. by right.
Qed.

Lemma own_destroy_actions l h : forall ps s w, NoDup ps -> (forall p, p ∈ ps -> is_Some (st_actions s !! p)) ->
  own (steer_own s ++ l) h w ->
  wp (destroy_actions s ps) (fun s' w' => own (steer_own s' ++ l) h w'
    /\ s' = set_actions s (del_all ps (st_actions s))) w.
Proof.
  induction ps as [|p ps IH]; intros s w Hn Hp Ho; cbn [destroy_actions del_all]; [apply wp_ret; by destruct s|].
  apply list.NoDup_cons in Hn as [Hnp Hn]. apply wp_bind.
  eapply wp_mono; [|apply own_destroy_action; [exact Ho|apply Hp; by left]].
  intros s' w' [Ho' ->]. eapply wp_mono; [|apply IH; [done| |exact Ho']].
  - intros s2 w2 [Ho2 ->]. by split.
  - intros q Hq. cbn. rewrite lookup_delete_ne by (by intros ->). apply Hp. by right.
Qed.

Lemma keys_all {X : Type} (m : gmap Z X) :
  NoDup (map_to_list m).*1 /\ (forall p, p ∈ (map_to_list m).*1 -> is_Some (m !! p)) /\ del_all (map_to_list m).*1 m = ∅.
Proof.
  assert (forall p, p ∈ (map_to_list m).*1 <-> is_Some (m !! p)) as Hk.
  { intros p. rewrite list_elem_of_fmap. split.
    - intros ([q x] & -> & Hin%elem_of_map_to_list). by eexists.
    - intros [x Hx]. exists (p, x). by rewrite elem_of_map_to_list. }
  split_and!; [apply NoDup_fst_map_to_list|by intros p ?%Hk|]. apply map_eq. intros p. rewrite lookup_del_all, lookup_empty.
  case_decide as Hd; [done|]. destruct (m !! p) eqn:E; [|done]. destruct Hd. apply Hk. by eexists.
Qed.

Lemma own_shutdown ss l h w :
  steer_ok (ss_store ss) l h w -> wp (shutdown ss) (fun s' w' => own l h w' /\ steer_own s' = []) w.
Proof.
  intros [[H1 H2 H3 H4 H5 H6] Ho]. unfold shutdown. apply wp_bind.
  destruct (keys_all (st_tables (ss_store ss))) as (Hn & Hi & He).
  eapply wp_mono; [|by eapply own_destroy_tables]. intros s' w' (Ho' & [_ Hg] & [_ Hr] & E). rewrite He in E.
  assert (st_groups s' = ∅) as EG.
  { apply map_empty. intros gp. destruct (st_groups s' !! gp) as [g|] eqn:Eg; [|done].
    destruct (Hg gp g Eg) as (_ & _ & _ & t & Ht & _). by rewrite E, lookup_empty in Ht. }
  assert (st_rules s' = ∅) as ER.
  { apply map_empty. intros rp. destruct (st_rules s' !! rp) as [r|] eqn:Er; [|done].
    destruct (Hr rp r Er) as (_ & _ & g & Hg' & _). by rewrite EG, lookup_empty in Hg'. }
  destruct (keys_all (st_actions s')) as (Hn' & Hi' & He').
  eapply wp_mono; [|by eapply own_destroy_actions]. intros s2 w2 [Ho2 ->]. rewrite He' in *.
  assert (steer_own (set_actions s' ∅) = []) as Eo by (unfold steer_own; cbn; by rewrite E, EG, ER). split; [|done].
  by rewrite Eo in Ho2.
Qed.

(** C6. The steering objects of an adapter that has its context and capabilities: a
    sequence of operations on tables, groups, rules and actions within the
    following limits ([may]) runs without undefined behaviour, whatever the device
    answers and whatever the order of the action maps; the store stays
    consistent, and destroying what is left brings the heap back to what it was
    outside of the store, so that every object with its device object is gone.
    The limits: an operation names objects of the store; a rule is created on the
    device at most once (a second [create] would leak); an action or a table is
    dropped only when no rule, miss table, destination or root slot points to it;
    levels are those of a [uint8_t]; the header to insert is as long as it says;
    and the first [get_root_table] of a type gets memory for the table object,
    which the code uses without a test: every other allocation may fail. *)
Theorem steering_life ss os h w :
  steer_ok (ss_store ss) [] h w -> tirs_ok (ss_store ss) [] h ->
  may_all order junk (Some ctx) (Some caps) ss w os ->
  wp (sops_run order junk (Some ctx) (Some caps) ss os) (fun ss' w1 =>
    steer_wf (ss_store ss') /\ wp (shutdown ss') (fun _ w2 => heap w2 = h) w1) w.
Proof.
  intros Hok Ht Hm. eapply wp_mono; [|by apply (sops_keep [] h)]. intros ss' w1 [Hok' _].
  split; [apply Hok'|]. eapply wp_mono; [|by apply own_shutdown]. intros s2 w2 [Ho _]. by apply own_nil_heap in Ho.
Qed.
End life_thm.

(** ** Chains of miss tables *)

(** Where a packet goes that matches no rule of the table [tp]. *)
Definition next_miss T (tp : Z) : option Z :=
  match T !! tp with Some t => match forwards t with Some a => fta_table_miss a | None => None end | None => None end.

(** The table where it stops. *)
Fixpoint follow T (fuel : nat) (tp : Z) : option Z :=
  match fuel with
  | O => None
  | S f => match next_miss T tp with None => Some tp | Some q => follow T f q end
  end.

Lemma follow_ends T : tables_ok T -> forall fuel tp t id a,
  T !! tp = Some t -> ft_class t = TablePrm id a -> 256 - fta_level a <= Z.of_nat fuel ->
  exists q, follow T fuel tp = Some q /\ is_Some (T !! q) /\ next_miss T q = None.
Proof.
  intros Hok. induction fuel as [|f IH]; intros tp t id a Ht Hc Hl.
  { destruct (Hok tp t Ht) as (_ & _ & Hv & _). specialize (Hv id a Hc). lia. }
  cbn [follow]. destruct (next_miss T tp) as [q|] eqn:En; [|exists tp; split_and!; [done|by eexists|done]].
  unfold next_miss in En. rewrite Ht in En. destruct (forwards t) as [a'|] eqn:Ef; [|done].
  destruct (forwards_class _ _ Ef) as [id' Hc']. assert (a' = a) as -> by congruence.
  destruct (Hok tp t Ht) as (_ & _ & _ & Hm). destruct (Hm a Ef) as (mp & m & mid & ma & E1 & E2 & E3 & _ & Hlt).
  assert (q = mp) as -> by congruence. apply (IH mp m mid ma E2 E3). lia.
Qed.

Section chain.
Context {D : Type} `{DevXStatus D}.
Context (order : list (action_type * Z) -> list (action_type * Z)) (Horder : forall m, Permutation (order m) m).
Context (junk : list (Z * Z)) (ctx : Z) (caps : bool * Z * Z).

(** C16. In every store the operations can reach, the chain of miss tables that
    starts at any table ends after at most 256 tables in a live table that does
    not forward its misses: no packet is forwarded for ever. *)
Theorem miss_chain_ends ss os h (w : world D) :
  steer_ok (ss_store ss) [] h w -> tirs_ok (ss_store ss) [] h ->
  may_all order junk (Some ctx) (Some caps) ss w os ->
  wp (sops_run order junk (Some ctx) (Some caps) ss os) (fun ss' _ =>
    let T := st_tables (ss_store ss') in
    forall tp, is_Some (T !! tp) -> exists q, follow T 256 tp = Some q /\ is_Some (T !! q) /\ next_miss T q = None) w.
Proof.
  intros Hok Ht Hm. eapply wp_mono; [|by apply (sops_keep order Horder junk ctx caps [] h)]. intros ss' w1 [[[Htab _ _ _ _ _] _] _].
  intros T tp [t E]. destruct (ft_class t) as [id a|] eqn:Ec.
  - eapply follow_ends; [done|done|done|]. destruct (Htab tp t E) as (_ & _ & Hv & _). specialize (Hv id a Ec). lia.
  - exists tp. assert (next_miss T tp = None) as En by (unfold next_miss, forwards; by rewrite E, Ec).
    split_and!; [cbn [follow]; by rewrite En|by eexists|done].
Qed.
End chain.

(** ** A session *)

(** One TIR at address 900 whose device object lives outside. *)
Definition demo_tirs : gmap Z forwardable_obj :=
  {[ 900 := mkFwdObj (mkObj 1 (Some 901) (Some 7) 0 0) MLX5_FLOW_DESTINATION_TYPE_TIR ]}.
Definition demo_heap : gmap Z blk := {[ 901 := BObj (Some 55) ]}.
Definition demo_world : world sim := mkWorld (dev sim_world) demo_heap 1000 [] [].
Definition demo_session : session := mkSession (mkSteering ∅ ∅ ∅ ∅ demo_tirs) ∅.

Lemma demo_ok : steer_ok (ss_store demo_session) [] demo_heap demo_world.
Proof.
  split.
  - constructor; cbn.
    + intros tp t E. by rewrite lookup_empty in E.
    + split; [intros tp t gp E|intros gp g E]; by rewrite lookup_empty in E.
    + split; [intros gp g rp E|intros rp r E]; by rewrite lookup_empty in E.
    + intros rp r E. by rewrite lookup_empty in E.
    + intros ap a E. by rewrite lookup_empty in E.
    + intros p a d E. by rewrite lookup_empty in E.
  - apply own_nil. unfold fresh_ok. intros p Hp. cbn in *. unfold demo_heap. apply lookup_singleton_None. lia.
Qed.

Lemma demo_tirs_ok : tirs_ok (ss_store demo_session) [] demo_heap.
Proof.
  intros d o p Ho Hp. right. change (st_tirs _) with demo_tirs in Ho. unfold demo_tirs in Ho. apply lookup_singleton_Some in Ho as [_ <-]. cbn in Hp. injection Hp as <-.
  exists (Some 55). apply lookup_singleton_eq.
Qed.

(** Two tables, the lower one forwarding its misses to the higher one, a group
    and a rule that tags packets and forwards them to the TIR, removed again. *)
Definition demo_ops : list sop :=
  [OpTable (mkTableAttr 0 None 4 66 FT_RX FT_OP_MOD_NORMAL FT_MISS_ACTION_DEF);
   OpTableCreate 1000;
   OpTable (mkTableAttr 0 (Some 1000) 4 65 FT_RX FT_OP_MOD_NORMAL FT_MISS_ACTION_FWD);
   OpTableCreate 1002;
   OpGroup 1002 (mkGroupAttr 0 15 FG_MATCH_OUTER_HDR sample_crit);
   OpGroupCreate 1004;
   OpTag 0x77;
   OpFwd [900];
   OpRule 1004 (mkRuleAttr 0 sample_value 3 [1006; 1007]);
   OpRuleCreate 1008;
   OpRemoveRule 1004 1008].

Lemma may_all_step {D} `{DevX D} order junk ctx caps ss (w : world D) o os x :
  sop_run order junk ctx caps ss o w = Ret x -> may ss w o -> may_all order junk ctx caps x.1 x.2 os ->
  may_all order junk ctx caps ss w (o :: os).
Proof. intros E Hm Hr. split; [done|]. intros ss' w' E'. rewrite E in E'. by injection E' as ->. Qed.

Ltac may_step :=
  eapply may_all_step; [vm_compute; reflexivity|..].

Lemma demo_may : may_all id [] (Some 7) (Some (true, 10, 100)) demo_session demo_world demo_ops.
Proof.
  unfold demo_ops. may_step; [cbn; lia|]. may_step; [vm_compute; by eexists|]. may_step; [cbn; lia|].
  may_step; [vm_compute; by eexists|]. may_step; [vm_compute; by eexists|]. may_step; [vm_compute; by eexists|].
  may_step; [done|]. may_step; [vm_compute; repeat constructor; by eexists|].
  may_step; [vm_compute; repeat constructor; by eexists|].
  may_step; [vm_compute; done|]. may_step; [vm_compute; by eexists|]. exact Logic.I.
Qed.

(** The rule of the session reaches the device. *)
Lemma demo_rule_created :
  match sops_run id [] (Some 7) (Some (true, 10, 100)) demo_session (take 10 demo_ops) demo_world with
  | Ret (ss, _) => match st_rules (ss_store ss) !! 1008 with Some r => fre_is_initialized r | None => false end
  | UB _ => false
  end = true.
Proof. vm_compute. reflexivity. Qed.

Lemma steering_life_witness :
  wp (sops_run id [] (Some 7) (Some (true, 10, 100)) demo_session demo_ops) (fun ss' w1 =>
    steer_wf (ss_store ss') /\ wp (shutdown ss') (fun _ w2 => heap w2 = demo_heap) w1) demo_world.
Proof.
  apply (steering_life id (fun m => Permutation_refl m) [] 7 (true, 10, 100)).
  - exact demo_ok.
  - exact demo_tirs_ok.
  - exact demo_may.
Defined.

Lemma miss_chain_ends_witness :
  wp (sops_run id [] (Some 7) (Some (true, 10, 100)) demo_session demo_ops) (fun ss' _ =>
    let T := st_tables (ss_store ss') in
    forall tp, is_Some (T !! tp) -> exists q, follow T 256 tp = Some q /\ is_Some (T !! q) /\ next_miss T q = None) demo_world.
Proof.
  apply (miss_chain_ends id (fun m => Permutation_refl m) [] 7 (true, 10, 100) demo_session demo_ops demo_heap).
  - exact demo_ok.
  - exact demo_tirs_ok.
  - exact demo_may.
Defined.
