(* ===== verification/Dek.v ===== *)
(** * Crypto keys and tag buffer tables (src/src/dpcp/dek.cpp,
      tag_buffer_table_obj.cpp, and their factories in adapter.cpp)

    A data encryption key is a general object whose mailbox holds the key
    itself; the classes differ in the blobs they accept and where they place
    them.  A tag buffer table is a general object with one attribute. *)

From S2P Require Import Prelude Codec Prm Dcmd Own Sim Obj Fr Tir.
Open Scope string_scope.
Open Scope list_scope.
Open Scope Z_scope.
Open Scope m_scope.

Definition KEY_128_BIT_SIZE_IN_BYTES : Z := 16.
Definition KEY_256_BIT_SIZE_IN_BYTES : Z := 32.

(** [struct dek_attr]; [key_blob] is the memory the pointer refers to, [None]
    for a null pointer. *)
Record dek_attr := mkDekAttr {
  key_blob : option (list Z);
  key_blob_size : Z;
  key_size : Z;
  da_pd_id : Z;
  da_opaque : Z
}.

(** The fields are of their declared types. *)
Definition dek_attr_wf (a : dek_attr) : Prop :=
  0 <= key_blob_size a < 2 ^ 32 /\ 0 <= key_size a < 2 ^ 32 /\ 0 <= da_pd_id a < 2 ^ 32
  /\ 0 <= da_opaque a < 2 ^ 64.

(** The dynamic class of a key. *)
Inductive dek_class : Type := TlsDek | IpsecDek | AesXtsDek.

Record dek := mkDek { dek_obj : obj; m_key_id : Z; dek_cls : dek_class }.

Definition dek_new (ctx : option Z) (c : dek_class) : dek := mkDek (obj_new ctx) 0 c.

Record key_params := mkKeyParams { kp_type : Z; kp_size : Z; kp_has_keytag : bool; kp_offset : Z }.

(** [get_key_type] of the three classes. *)
Definition get_key_type (c : dek_class) : Z :=
  match c with
  | TlsDek => MLX5_GENERAL_OBJECT_TYPE_ENCRYPTION_KEY_TYPE_TLS
  | IpsecDek => MLX5_GENERAL_OBJECT_TYPE_ENCRYPTION_KEY_TYPE_IPSEC
  | AesXtsDek => MLX5_GENERAL_OBJECT_TYPE_ENCRYPTION_KEY_TYPE_AES_XTS
  end.

(** [dek::get_key_params] *)
Definition dek_get_key_params (c : dek_class) (blob_size size : Z) : status * option key_params :=
  if negb (blob_size =? size) then (DPCP_ERR_INVALID_PARAM, None)
  else if size =? KEY_128_BIT_SIZE_IN_BYTES then
    (DPCP_OK, Some (mkKeyParams (get_key_type c) MLX5_GENERAL_OBJECT_TYPE_ENCRYPTION_KEY_KEY_SIZE_128 false size))
  else if size =? KEY_256_BIT_SIZE_IN_BYTES then
    (DPCP_OK, Some (mkKeyParams (get_key_type c) MLX5_GENERAL_OBJECT_TYPE_ENCRYPTION_KEY_KEY_SIZE_256 false 0))
  else (DPCP_ERR_INVALID_PARAM, None).

(** [aes_xts_dek::key_size_to_blob_size], in 32 bits. *)
Definition key_size_to_blob_size (size : Z) (has_keytag : bool) : Z := wrap 32 (size * 2 + Z.b2z has_keytag * 8).

(** [aes_xts_dek::get_key_params] *)
Definition aes_xts_get_key_params (blob_size size : Z) : status * option key_params :=
  let k s tag := Some (mkKeyParams (get_key_type AesXtsDek) s tag 0) in
  let p :=
    if blob_size =? key_size_to_blob_size KEY_128_BIT_SIZE_IN_BYTES false then
      k MLX5_GENERAL_OBJECT_TYPE_ENCRYPTION_KEY_KEY_SIZE_128 false
    else if blob_size =? key_size_to_blob_size KEY_128_BIT_SIZE_IN_BYTES true then
      k MLX5_GENERAL_OBJECT_TYPE_ENCRYPTION_KEY_KEY_SIZE_128 true
    else if blob_size =? key_size_to_blob_size KEY_256_BIT_SIZE_IN_BYTES false then
      k MLX5_GENERAL_OBJECT_TYPE_ENCRYPTION_KEY_KEY_SIZE_256 false
    else if blob_size =? key_size_to_blob_size KEY_256_BIT_SIZE_IN_BYTES true then
      k MLX5_GENERAL_OBJECT_TYPE_ENCRYPTION_KEY_KEY_SIZE_256 true
    else None in
  match p with
  | None => (DPCP_ERR_INVALID_PARAM, None)
  | Some p =>
      if negb (key_size_to_blob_size size (kp_has_keytag p) =? blob_size) then (DPCP_ERR_INVALID_PARAM, None)
      else (DPCP_OK, Some p)
  end.

(** The virtual [get_key_params]. *)
Definition get_key_params (c : dek_class) (blob_size size : Z) : status * option key_params :=
  match c with
  | AesXtsDek => aes_xts_get_key_params blob_size size
  | _ => dek_get_key_params c blob_size size
  end.

(** [dek::key_size_flag_to_bytes_size] *)
Definition key_size_flag_to_bytes_size (f : Z) : Z :=
  if f =? MLX5_GENERAL_OBJECT_TYPE_ENCRYPTION_KEY_KEY_SIZE_128 then KEY_128_BIT_SIZE_IN_BYTES
  else if f =? MLX5_GENERAL_OBJECT_TYPE_ENCRYPTION_KEY_KEY_SIZE_256 then KEY_256_BIT_SIZE_IN_BYTES
  else 0.

(** [dek::verify_attr] *)
Definition verify_attr (a : dek_attr) : status :=
  if da_pd_id a =? 0 then DPCP_ERR_INVALID_PARAM
  else match key_blob a with
       | None => DPCP_ERR_INVALID_PARAM
       | Some _ =>
           if key_blob_size a =? 0 then DPCP_ERR_INVALID_PARAM
           else if key_size a =? 0 then DPCP_ERR_INVALID_PARAM
           else DPCP_OK
       end.

Definition p_key_obj : Z := ADDR_OF ifc.create_encryption_key_in 0 ["encryption_key_object"].
Definition p_key : Z := ADDR_OF ifc.encryption_key_obj p_key_obj ["key"].

(** The mailbox of [dek::create]; [key] is what [memcpy] reads. *)
Definition dek_create_in (a : dek_attr) (p : key_params) (key : list Z) : list Z :=
  mailbox ifc.create_encryption_key_in
    [WMem (p_key + kp_offset p) key;
     DEVX_SET ifc.encryption_key_obj p_key_obj ["key_size"] (kp_size p);
     DEVX_SET ifc.encryption_key_obj p_key_obj ["has_keytag"] (Z.b2z (kp_has_keytag p));
     DEVX_SET ifc.encryption_key_obj p_key_obj ["key_type"] (kp_type p);
     DEVX_SET ifc.general_obj_in_cmd_hdr 0 ["opcode"] MLX5_CMD_OP_CREATE_GENERAL_OBJECT;
     DEVX_SET ifc.general_obj_in_cmd_hdr 0 ["obj_type"] MLX5_GENERAL_OBJECT_TYPES_ENCRYPTION_KEY;
     DEVX_SET ifc.encryption_key_obj p_key_obj ["pd"] (da_pd_id a);
     DEVX_SET64 ifc.encryption_key_obj p_key_obj ["opaque"] (da_opaque a)].

(** The mailbox of [dek::modify]. *)
Definition dek_modify_in (a : dek_attr) (p : key_params) (key_id : Z) (key : list Z) : list Z :=
  mailbox ifc.create_encryption_key_in
    [WMem (p_key + kp_offset p) key;
     DEVX_SET64 ifc.encryption_key_obj p_key_obj ["modify_field_select"] 1;
     DEVX_SET ifc.encryption_key_obj p_key_obj ["key_size"] (kp_size p);
     DEVX_SET ifc.encryption_key_obj p_key_obj ["key_type"] (kp_type p);
     DEVX_SET ifc.general_obj_in_cmd_hdr 0 ["opcode"] MLX5_CMD_OP_MODIFY_GENERAL_OBJECT;
     DEVX_SET ifc.general_obj_in_cmd_hdr 0 ["obj_type"] MLX5_GENERAL_OBJECT_TYPES_ENCRYPTION_KEY;
     DEVX_SET ifc.general_obj_in_cmd_hdr 0 ["obj_id"] key_id;
     DEVX_SET ifc.encryption_key_obj p_key_obj ["pd"] (da_pd_id a);
     DEVX_SET64 ifc.encryption_key_obj p_key_obj ["opaque"] (da_opaque a)].

(** The mailbox of a query of a general object. *)
Definition general_query_in (obj_type obj_id : Z) : list Z :=
  mailbox ifc.general_obj_in_cmd_hdr
    [DEVX_SET ifc.general_obj_in_cmd_hdr 0 ["opcode"] MLX5_CMD_OP_QUERY_GENERAL_OBJECT;
     DEVX_SET ifc.general_obj_in_cmd_hdr 0 ["obj_type"] obj_type;
     DEVX_SET ifc.general_obj_in_cmd_hdr 0 ["obj_id"] obj_id].

Arguments dek_create_in : simpl never.
Arguments dek_modify_in : simpl never.
Arguments general_query_in : simpl never.

Section ops.
Context {D : Type} `{DevX D}.

(** [memcpy(key_p, attr.key_blob, attr.key_blob_size)]: the bytes read. *)
Definition read_blob (a : dek_attr) : M D (list Z) :=
  match key_blob a with
  | Some b => if Z.of_nat (length b) <? key_blob_size a then ub "read beyond the key blob"
              else ret (take (Z.to_nat (key_blob_size a)) b)
  | None => ub "null key blob"
  end.

(** [dek::create] *)
Definition dek_create (k : dek) (a : dek_attr) : M D (status * dek) :=
  let st := verify_attr a in
  if negb (is_ok st) then ret (st, k)
  else
    match get_key_params (dek_cls k) (key_blob_size a) (key_size a) with
    | (st, None) => ret (st, k)
    | (_, Some p) =>
        key <- read_blob a;;
        '(st, o, out) <- obj_create (dek_obj k) (Some (dek_create_in a p key))
                           (Some (zeros (ST_SZ_BYTES ifc.general_obj_out_cmd_hdr)));;
        if negb (is_ok st) then ret (st, mkDek o (m_key_id k) (dek_cls k))
        else ret (DPCP_OK, mkDek o (DEVX_GET ifc.general_obj_out_cmd_hdr 0 ["obj_id"] out) (dek_cls k))
    end.

(** [dek::modify] *)
Definition dek_modify (k : dek) (a : dek_attr) : M D (status * dek) :=
  let st := verify_attr a in
  if negb (is_ok st) then ret (st, k)
  else
    '(st, _) <- obj_get_handle (dek_obj k);;
    if negb (is_ok st) then ret (DPCP_ERR_INVALID_PARAM, k)
    else
      match get_key_params (dek_cls k) (key_blob_size a) (key_size a) with
      | (st, None) => ret (st, k)
      | (_, Some p) =>
          key <- read_blob a;;
          '(st, o, _) <- obj_modify (dek_obj k) (Some (dek_modify_in a p (m_key_id k) key))
                           (Some (zeros (ST_SZ_BYTES ifc.general_obj_out_cmd_hdr)));;
          ret (st, mkDek o (m_key_id k) (dek_cls k))
      end.

(** [dek::query]: the attributes left in the caller's structure. *)
Definition dek_attr_zero : dek_attr := mkDekAttr None 0 0 0 0.
Definition dek_decode (out : list Z) : dek_attr :=
  let p := ADDR_OF ifc.query_encryption_key_out 0 ["encryption_key_object"] in
  mkDekAttr None 0 (key_size_flag_to_bytes_size (DEVX_GET ifc.encryption_key_obj p ["key_size"] out))
    (DEVX_GET ifc.encryption_key_obj p ["pd"] out) (DEVX_GET64 ifc.encryption_key_obj p ["opaque"] out).
Definition dek_query (k : dek) : M D (status * dek * dek_attr) :=
  '(st, _) <- obj_get_handle (dek_obj k);;
  if negb (is_ok st) then ret (DPCP_ERR_INVALID_PARAM, k, dek_attr_zero)
  else
    '(st, o, out) <- obj_query (dek_obj k)
                       (Some (general_query_in MLX5_GENERAL_OBJECT_TYPES_ENCRYPTION_KEY (m_key_id k)))
                       (Some (zeros (ST_SZ_BYTES ifc.query_encryption_key_out)));;
    let k := mkDek o (m_key_id k) (dek_cls k) in
    if negb (is_ok st) then ret (DPCP_ERR_QUERY, k, dek_attr_zero)
    else ret (DPCP_OK, k, dek_decode out).

(** [adapter::create_tls_dek], [create_ipsec_dek], [create_aes_txs_dek]:
    [key_caps] is [general_object_types_encryption_key] when the capabilities
    are available. *)
Definition create_dek (c : dek_class) (ctx : option Z) (key_caps : option bool) (a : dek_attr)
  : M D (status * option (Z * dek)) :=
  if match key_caps with Some b => negb b | None => false end then ret (DPCP_ERR_NO_SUPPORT, None)
  else
    self <- alloc BMem;;
    match self with
    | None => ret (DPCP_ERR_NO_MEMORY, None)
    | Some self =>
        '(st, k) <- dek_create (dek_new ctx c) a;;
        if negb (is_ok st) then _ <- obj_delete (dek_obj k);; dealloc self;; ret (DPCP_ERR_CREATE, None)
        else ret (DPCP_OK, Some (self, k))
    end.
Definition create_tls_dek := create_dek TlsDek.
Definition create_ipsec_dek := create_dek IpsecDek.
Definition create_aes_txs_dek := create_dek AesXtsDek.

(** [adapter::sync_crypto_tls] *)
Definition sync_crypto_tls (ctx : Z) : M D status :=
  '(r, _) <- exec_cmd ctx
     (mailbox ifc.sync_crypto_in
        [DEVX_SET ifc.sync_crypto_in 0 ["opcode"] MLX5_CMD_OP_SYNC_CRYPTO;
         DEVX_SET ifc.sync_crypto_in 0 ["crypto_type"] MLX5_GENERAL_OBJECT_TYPE_ENCRYPTION_KEY_TYPE_TLS])
     (zeros (ST_SZ_BYTES ifc.sync_crypto_out));;
  if negb (r =? 0) then ret DPCP_ERR_MODIFY else ret DPCP_OK.
End ops.

(** ** Tag buffer tables *)

(** [tag_buffer_table_obj::attr] *)
Record tbt_attr := mkTbtAttr { tbt_modify_field_select : Z; log_tag_buffer_table_size : Z }.
Record tag_buffer_table_obj := mkTbt { tbt_obj : obj; tbt_key_id : Z }.

Definition tbt_new (ctx : option Z) : tag_buffer_table_obj := mkTbt (obj_new ctx) 0.

Definition p_tbt : Z := ADDR_OF ifc.create_tag_buffer_table_obj_in 0 ["tag_buffer_table_object"].

Definition tbt_create_in (a : tbt_attr) : list Z :=
  mailbox ifc.create_tag_buffer_table_obj_in
    [DEVX_SET ifc.general_obj_in_cmd_hdr 0 ["opcode"] MLX5_CMD_OP_CREATE_GENERAL_OBJECT;
     DEVX_SET ifc.general_obj_in_cmd_hdr 0 ["obj_type"] MLX5_GENERAL_OBJECT_TYPES_NVMEOTCP_TAG_BUFFER_TABLE;
     DEVX_SET ifc.tag_buffer_table_obj p_tbt ["log_tag_buffer_table_size"] (log_tag_buffer_table_size a)].

Arguments tbt_create_in : simpl never.

Section tbt.
Context {D : Type} `{DevX D}.

(** [tag_buffer_table_obj::create] *)
Definition tbt_create (t : tag_buffer_table_obj) (a : tbt_attr) : M D (status * tag_buffer_table_obj) :=
  '(st, o, out) <- obj_create (tbt_obj t) (Some (tbt_create_in a))
                     (Some (zeros (ST_SZ_BYTES ifc.general_obj_out_cmd_hdr)));;
  ret (st, mkTbt o (if is_ok st then DEVX_GET ifc.general_obj_out_cmd_hdr 0 ["obj_id"] out else tbt_key_id t)).

(** [tag_buffer_table_obj::query]: the caller's structure is kept when the object
    is not there, cleared otherwise. *)
Definition tbt_query (t : tag_buffer_table_obj) (a : tbt_attr) : M D (status * tag_buffer_table_obj * tbt_attr) :=
  '(st, _) <- obj_get_handle (tbt_obj t);;
  if negb (is_ok st) then ret (DPCP_ERR_INVALID_PARAM, t, a)
  else
    '(st, o, out) <- obj_query (tbt_obj t)
                       (Some (general_query_in MLX5_GENERAL_OBJECT_TYPES_NVMEOTCP_TAG_BUFFER_TABLE (tbt_key_id t)))
                       (Some (zeros (ST_SZ_BYTES ifc.query_tag_buffer_table_obj_out)));;
    let t := mkTbt o (tbt_key_id t) in
    if negb (is_ok st) then ret (DPCP_ERR_QUERY, t, mkTbtAttr 0 0)
    else
      let p := ADDR_OF ifc.query_tag_buffer_table_obj_out 0 ["tag_buffer_table_object"] in
      ret (DPCP_OK, t, mkTbtAttr 0 (DEVX_GET ifc.tag_buffer_table_obj p ["log_tag_buffer_table_size"] out)).

(** [adapter::create_tag_buffer_table_obj] *)
Definition create_tag_buffer_table_obj (ctx : option Z) (a : tbt_attr) : M D (status * option (Z * tag_buffer_table_obj)) :=
  self <- alloc BMem;;
  match self with
  | None => ret (DPCP_ERR_NO_MEMORY, None)
  | Some self =>
      '(st, t) <- tbt_create (tbt_new ctx) a;;
      if negb (is_ok st) then _ <- obj_delete (tbt_obj t);; dealloc self;; ret (DPCP_ERR_CREATE, None)
      else ret (DPCP_OK, Some (self, t))
  end.
End tbt.

(** ** The keys each class accepts *)

(** The size of a blob: one key, or two keys and a tag. *)
Definition blob_size_of (c : dek_class) (size : Z) (tag : bool) : option Z :=
  match c, tag with
  | AesXtsDek, _ => Some (2 * size + if tag then 8 else 0)
  | _, false => Some size
  | _, true => None
  end.

(** The sizes of a key. *)
Definition key_size_ok (size : Z) : Prop := size = KEY_128_BIT_SIZE_IN_BYTES \/ size = KEY_256_BIT_SIZE_IN_BYTES.

(** A plain key ends where the 32 bytes of the member end; the keys of AES-XTS
    start where it starts and stay before the wrapped key. *)
Definition placed (c : dek_class) (p : key_params) (blob_size : Z) : Prop :=
  match c with
  | AesXtsDek => kp_offset p = 0 /\ p_key + blob_size <= ADDR_OF ifc.encryption_key_obj p_key_obj ["sw_wrapped_dek"]
  | _ => kp_offset p + blob_size = 32
  end.

(** A key is accepted exactly when its size is 128 or 256 bits and its blob
    has the size its class asks for; the command then names that size, which a
    later query turns back into the same number of bytes, the type of the
    class, whether there is a tag, and a place for the blob inside the key. *)
Theorem get_key_params_ok c blob_size size :
  0 <= size < 2 ^ 31 ->
  match get_key_params c blob_size size with
  | (st, Some p) =>
      st = DPCP_OK /\ key_size_ok size /\ blob_size_of c size (kp_has_keytag p) = Some blob_size
      /\ kp_type p = get_key_type c /\ key_size_flag_to_bytes_size (kp_size p) = size /\ placed c p blob_size
  | (st, None) =>
      st = DPCP_ERR_INVALID_PARAM
      /\ ~ (key_size_ok size /\ exists tag, blob_size_of c size tag = Some blob_size)
  end.
Proof.
  intros Hs. unfold key_size_ok, KEY_128_BIT_SIZE_IN_BYTES, KEY_256_BIT_SIZE_IN_BYTES. destruct c; cbn [get_key_params].
  1-2: unfold dek_get_key_params, KEY_128_BIT_SIZE_IN_BYTES, KEY_256_BIT_SIZE_IN_BYTES;
    destruct (Z.eqb_spec blob_size size) as [->|Hne]; cbn [negb];
      [|split; [done|]; intros [_ [[] E]]; [done|]; injection E as E; done];
    destruct (Z.eqb_spec size 16) as [->|]; [split_and!; [done|by left|done|done|done|done]|];
    destruct (Z.eqb_spec size 32) as [->|]; [split_and!; [done|by right|done|done|done|done]|];
    split; [done|]; intros [[]]; done.
  unfold aes_xts_get_key_params. change (key_size_to_blob_size KEY_128_BIT_SIZE_IN_BYTES false) with 32.
  change (key_size_to_blob_size KEY_128_BIT_SIZE_IN_BYTES true) with 40.
  change (key_size_to_blob_size KEY_256_BIT_SIZE_IN_BYTES false) with 64.
  change (key_size_to_blob_size KEY_256_BIT_SIZE_IN_BYTES true) with 72. cbv zeta.
  assert (forall tag b, 32 <= b <= 72 -> (key_size_to_blob_size size tag = b <-> size * 2 + Z.b2z tag * 8 = b)) as Hk.
  { intros tag b Hb. unfold key_size_to_blob_size, wrap. assert (0 <= Z.b2z tag <= 1) by (destruct tag; cbn; lia).
    pose proof (Z.mod_pos_bound (size * 2 + Z.b2z tag * 8) (2 ^ 32)).
    pose proof (Z.div_mod (size * 2 + Z.b2z tag * 8) (2 ^ 32)). lia. }
  destruct (Z.eqb_spec blob_size 32) as [->|]; [|destruct (Z.eqb_spec blob_size 40) as [->|];
    [|destruct (Z.eqb_spec blob_size 64) as [->|]; [|destruct (Z.eqb_spec blob_size 72) as [->|]]]]; cbv iota beta;
    cbn [kp_has_keytag blob_size_of];
    try (match goal with |- context [negb (?a =? ?b)] =>
           destruct (Z.eqb_spec a b) as [E|E]; rewrite Hk in E by lia; cbn [Z.b2z negb] in * end).
  all: try (assert (size = 16) as -> by lia; split_and!; [done|by left|done|done|done|by vm_compute]).
  all: try (assert (size = 32) as -> by lia; split_and!; [done|by right|done|done|done|by vm_compute]).
  all: split; [done|]; intros [[-> | ->] [[] E']]; apply (inj Some) in E'; lia.
Qed.

Lemma get_key_params_ok_witness :
  match get_key_params AesXtsDek 72 32 with
  | (st, Some p) => st = DPCP_OK /\ kp_has_keytag p = true /\ key_size_flag_to_bytes_size (kp_size p) = 32
  | _ => False
  end.
Proof.
  pose proof (get_key_params_ok AesXtsDek 72 32 ltac:(lia)) as Hp.
  destruct (get_key_params AesXtsDek 72 32) as [st [p|]] eqn:E; [|by vm_compute in E].
  destruct Hp as (-> & _ & _ & _ & Hs & _). split_and!; [done| |exact Hs]. vm_compute in E. by injection E as <-.
Defined.

(** The sizes are compared in 32 bits: an AES-XTS key of 2 GiB and 16 bytes
    passes for one of 16 bytes. *)
Lemma aes_xts_size_wraps :
  fst (get_key_params AesXtsDek 32 (2 ^ 31 + 16)) = DPCP_OK.
Proof. vm_compute. reflexivity. Qed.

(** ** The commands *)

(** The key object of a command or of an answer, at [p]. *)
Record key_ctx := mkKeyCtx { kc_size : Z; kc_type : Z; kc_tag : Z; kc_pd : Z; kc_opaque : Z }.
Definition key_ctx_at (p : Z) (b : list Z) : key_ctx :=
  mkKeyCtx (DEVX_GET ifc.encryption_key_obj p ["key_size"] b) (DEVX_GET ifc.encryption_key_obj p ["key_type"] b)
    (DEVX_GET ifc.encryption_key_obj p ["has_keytag"] b) (DEVX_GET ifc.encryption_key_obj p ["pd"] b)
    (DEVX_GET64 ifc.encryption_key_obj p ["opaque"] b).

(** What the attributes ask the key object to be. *)
Definition key_ctx_of (a : dek_attr) (p : key_params) : key_ctx :=
  mkKeyCtx (kp_size p) (kp_type p) (Z.b2z (kp_has_keytag p)) (wrap 24 (da_pd_id a)) (da_opaque a).

(** The key bytes of a blob that was accepted. *)
Definition blob_of (a : dek_attr) : list Z :=
  match key_blob a with Some b => take (Z.to_nat (key_blob_size a)) b | None => [] end.

Definition accepted (c : dek_class) (a : dek_attr) (p : key_params) : Prop :=
  verify_attr a = DPCP_OK /\ get_key_params c (key_blob_size a) (key_size a) = (DPCP_OK, Some p).

(** The blob is as long as its size says. *)
Definition blob_there (a : dek_attr) : Prop :=
  match key_blob a with Some b => key_blob_size a <= Z.of_nat (length b) | None => True end.

Lemma accepted_fits c a p :
  accepted c a p ->
  (kp_size p = 0 \/ kp_size p = 1) /\ kp_type p = get_key_type c /\ 0 <= kp_offset p
  /\ kp_offset p + key_blob_size a <= 72 /\ 0 <= key_blob_size a.
Proof.
  intros [_ E]. destruct c; cbn [get_key_params] in E.
  1-2: unfold dek_get_key_params in E;
    destruct (Z.eqb_spec (key_blob_size a) (key_size a)) as [->|]; cbn [negb] in E; [|done];
    unfold KEY_128_BIT_SIZE_IN_BYTES, KEY_256_BIT_SIZE_IN_BYTES in E;
    destruct (Z.eqb_spec (key_size a) 16) as [->|]; [injection E as <-; split_and!; try done; by left|];
    destruct (Z.eqb_spec (key_size a) 32) as [->|]; [injection E as <-; split_and!; try done; by right|done].
  unfold aes_xts_get_key_params in E. cbv zeta in E.
  change (key_size_to_blob_size KEY_128_BIT_SIZE_IN_BYTES false) with 32 in E.
  change (key_size_to_blob_size KEY_128_BIT_SIZE_IN_BYTES true) with 40 in E.
  change (key_size_to_blob_size KEY_256_BIT_SIZE_IN_BYTES false) with 64 in E.
  change (key_size_to_blob_size KEY_256_BIT_SIZE_IN_BYTES true) with 72 in E.
  destruct (Z.eqb_spec (key_blob_size a) 32) as [->|]; [|destruct (Z.eqb_spec (key_blob_size a) 40) as [->|];
    [|destruct (Z.eqb_spec (key_blob_size a) 64) as [->|]; [|destruct (Z.eqb_spec (key_blob_size a) 72) as [->|]; [|done]]]];
    cbn beta iota in E; destruct (negb _); try done; injection E as <-; split_and!; try done; (by left) || (by right).
Qed.

Lemma length_blob_of a : blob_there a -> verify_attr a = DPCP_OK -> 0 <= key_blob_size a ->
  Z.of_nat (length (blob_of a)) = key_blob_size a.
Proof.
  unfold blob_there, verify_attr, blob_of. destruct (da_pd_id a =? 0); [done|]. destruct (key_blob a) as [b|]; [|done].
  intros Hb _ Hn. rewrite length_take. lia.
Qed.

(** A member of a mailbox that starts with the key bytes. *)
Lemma key_bytes l ws a src :
  0 <= a -> a + Z.of_nat (length src) <= ST_SZ_BYTES l -> forallb (clear_of a (Z.of_nat (length src))) ws = true ->
  bytes_at (mailbox l (WMem a src :: ws)) a (length src) = src.
Proof. intros. by apply (mailbox_bytes l []). Qed.

Lemma dek_create_in_says c a p :
  dek_attr_wf a -> accepted c a p -> blob_there a ->
  let b := dek_create_in a p (blob_of a) in
  DEVX_GET ifc.general_obj_in_cmd_hdr 0 ["opcode"] b = MLX5_CMD_OP_CREATE_GENERAL_OBJECT
  /\ DEVX_GET ifc.general_obj_in_cmd_hdr 0 ["obj_type"] b = MLX5_GENERAL_OBJECT_TYPES_ENCRYPTION_KEY
  /\ key_ctx_at p_key_obj b = key_ctx_of a p
  /\ bytes_at b (p_key + kp_offset p) (length (blob_of a)) = blob_of a.
Proof.
  intros (_ & _ & _ & Hop) Hacc Hb. destruct (accepted_fits c a p Hacc) as (Hs & Ht & Ho & Hl & Hz).
  pose proof (length_blob_of a Hb (proj1 Hacc) Hz) as Hlen. cbv zeta. unfold dek_create_in.
  split_and!; [mbox; reflexivity|mbox; reflexivity| |].
  - unfold key_ctx_at, key_ctx_of. f_equal.
    + mbox. by destruct Hs as [-> | ->].
    + mbox. rewrite Ht. by destruct c.
    + mbox. by destruct (kp_has_keytag p).
    + mbox. reflexivity.
    + mbox. symmetry. by apply Z.mod_small.
  - assert (p_key = 80) as -> by (vm_compute; reflexivity).
    apply key_bytes; [lia|change (ST_SZ_BYTES _) with 528; lia|].
    unfold DEVX_SET, DEVX_SET64. norm_fld. rewrite Hlen. cbn [forallb clear_of f_addr].
    repeat match goal with |- context [?x <=? ?y] => destruct (Z.leb_spec x y); try lia end; reflexivity.
Qed.

(** A modify command carries the same object, except that it never says that
    there is a tag. *)
Lemma dek_modify_in_says c a p id :
  dek_attr_wf a -> accepted c a p -> blob_there a ->
  let b := dek_modify_in a p id (blob_of a) in
  DEVX_GET ifc.general_obj_in_cmd_hdr 0 ["opcode"] b = MLX5_CMD_OP_MODIFY_GENERAL_OBJECT
  /\ DEVX_GET ifc.general_obj_in_cmd_hdr 0 ["obj_id"] b = wrap 32 id
  /\ DEVX_GET64 ifc.encryption_key_obj p_key_obj ["modify_field_select"] b = 1
  /\ key_ctx_at p_key_obj b
     = mkKeyCtx (kp_size p) (kp_type p) 0 (wrap 24 (da_pd_id a)) (da_opaque a)
  /\ bytes_at b (p_key + kp_offset p) (length (blob_of a)) = blob_of a.
Proof.
  intros (_ & _ & _ & Hop) Hacc Hb. destruct (accepted_fits c a p Hacc) as (Hs & Ht & Ho & Hl & Hz).
  pose proof (length_blob_of a Hb (proj1 Hacc) Hz) as Hlen. cbv zeta. unfold dek_modify_in.
  assert (p_key = 80) as -> by (vm_compute; reflexivity).
  split_and!; [mbox; reflexivity|mbox; reflexivity|mbox; reflexivity| |].
  - unfold key_ctx_at. f_equal.
    + mbox. by destruct Hs as [-> | ->].
    + mbox. rewrite Ht. by destruct c.
    + apply mailbox_DEVX_GET; [vm_compute; reflexivity|]. unfold DEVX_SET, DEVX_SET64. norm_fld.
      assert (forall x, f_out {| f_addr := 24; f_sh := 7; f_sz := 1 |} (80 + kp_offset p) x = true) as Hx.
      { intros x. unfold f_out. cbn [f_addr]. apply orb_true_intro. left. apply Z.leb_le. lia. }
      assert (hit1 {| f_addr := 24; f_sh := 7; f_sz := 1 |} (WMem (80 + kp_offset p) (blob_of a)) = Miss) as Hm.
      { cbn [hit1]. rewrite Hx. by rewrite (proj2 (Z.leb_le _ _)) by lia. }
      cbn [seek]. rewrite Hm. reflexivity.
    + mbox. reflexivity.
    + mbox. symmetry. by apply Z.mod_small.
  - apply key_bytes; [lia|change (ST_SZ_BYTES _) with 528; lia|].
    unfold DEVX_SET, DEVX_SET64. norm_fld. rewrite Hlen. cbn [forallb clear_of f_addr].
    repeat match goal with |- context [?x <=? ?y] => destruct (Z.leb_spec x y); try lia end; reflexivity.
Qed.

Section dek_safe.
Context {D : Type} `{DevX D}.
Implicit Types (w : world D) (l : list (Z * kind)) (h : gmap Z blk).

(** The status says whether there are parameters. *)
Lemma get_key_params_status c b s st p :
  get_key_params c b s = (st, p) -> (st = DPCP_OK <-> is_Some p).
Proof.
  assert (forall x : status * option key_params,
    (exists q, x = (DPCP_OK, Some q)) \/ x = (DPCP_ERR_INVALID_PARAM, None) -> x = (st, p) -> (st = DPCP_OK <-> is_Some p)) as Hx.
  { intros x [[q ->] | ->] [= <- <-]; (split; [|done || by intros [? ?]]); [by eexists|done]. }
  apply Hx. clear. destruct c; cbn [get_key_params].
  1-2: unfold dek_get_key_params; destruct (negb _); [by right|]; destruct (_ =? _); [left; by eexists|];
    destruct (_ =? _); [left; by eexists|by right].
  unfold aes_xts_get_key_params. cbv zeta.
  match goal with |- context [match ?q with Some p => if negb (_ =? _) then _ else _ | None => _ end] => destruct q as [p|] end; [|by right].
  destruct (negb _); [by right|left; by eexists].
Qed.

Lemma wp_read_blob a w : blob_there a -> verify_attr a = DPCP_OK ->
  wp (read_blob (D := D) a) (fun k w' => k = blob_of a /\ w' = w) w.
Proof.
  unfold blob_there, verify_attr, read_blob, blob_of. destruct (da_pd_id a =? 0); [done|].
  destruct (key_blob a) as [b|]; [|done]. intros Hb _. destruct (Z.ltb_spec (Z.of_nat (length b)) (key_blob_size a)); [lia|].
  by apply wp_ret.
Qed.

(** A key that was created: its command says what was asked for. *)
Definition dek_says (c : dek_class) (a : dek_attr) (b : list Z) : Prop :=
  exists p, accepted c a p
    /\ DEVX_GET ifc.general_obj_in_cmd_hdr 0 ["opcode"] b = MLX5_CMD_OP_CREATE_GENERAL_OBJECT
    /\ DEVX_GET ifc.general_obj_in_cmd_hdr 0 ["obj_type"] b = MLX5_GENERAL_OBJECT_TYPES_ENCRYPTION_KEY
    /\ key_ctx_at p_key_obj b = key_ctx_of a p
    /\ bytes_at b (p_key + kp_offset p) (length (blob_of a)) = blob_of a.

Lemma own_dek_create c ctx a l h w Q :
  dek_attr_wf a -> blob_there a -> own l h w ->
  (forall st k w', own (obj_own (dek_obj k) ++ l) h w' ->
     (st = DPCP_OK -> exists b hd, head (calls w') = Some (CObjCreate b (Some hd)) /\ dek_says c a b) -> Q (st, k) w') ->
  wp (dek_create (dek_new ctx c) a) Q w.
Proof.
  intros Hwf Hb Ho HQ. unfold dek_create. destruct (is_ok (verify_attr a)) eqn:Ev; cbn [negb].
  2:{ apply wp_ret. apply HQ; [done|]. intros E. by rewrite E in Ev. }
  apply is_ok_true in Ev. cbn [dek_new dek_cls dek_obj m_key_id].
  destruct (get_key_params c (key_blob_size a) (key_size a)) as [st [p|]] eqn:Ep.
  - assert (st = DPCP_OK) as -> by (by apply (get_key_params_status _ _ _ _ _ Ep)). apply wp_bind.
    eapply wp_mono; [|by apply wp_read_blob]. intros key w' [-> ->]. apply wp_bind.
    eapply own_obj_create_says; [exact Ho|done|]. intros st o' out w' Ho' _ Hs.
    destruct (is_ok st) eqn:Es; cbn [negb]; apply wp_ret; apply HQ; try done.
    + intros _. apply is_ok_true in Es. destruct (Hs Es) as (_ & hd & Hc). eexists _, hd. split; [exact Hc|].
      exists p. split; [by split|]. by apply (dek_create_in_says c).
    + intros ->. done.
  - apply wp_ret. apply HQ; [done|]. intros Hst. by apply (get_key_params_status _ _ _ _ _ Ep) in Hst as [? ?].
Qed.

(** C32. Creating a key never leaks and reads no memory beyond its blob: on
    success the object is the caller's and the command that made it carries the
    type and size of the key, its tag bit, domain and opaque value, and the
    bytes of the blob at their place; on any failure everything is released. *)
Theorem create_dek_ok c ctx caps a l h w :
  dek_attr_wf a -> blob_there a -> own l h w ->
  wp (create_dek c ctx caps a) (fun r w' =>
    (r.1 = DPCP_OK <-> r.2 <> None)
    /\ match r.2 with
       | Some (self, k) => own ((self, KMem) :: obj_own (dek_obj k) ++ l) h w' /\ caps <> Some false
           /\ exists b hd, head (calls w') = Some (CObjCreate b (Some hd)) /\ dek_says c a b
       | None => own l h w'
       end) w.
Proof.
  intros Hwf Hb Ho. unfold create_dek.
  destruct (match caps with Some b => negb b | None => false end) eqn:Ec; [by apply wp_ret|]. apply wp_bind.
  eapply own_alloc; [exact Ho|intros w1 Ho1; by apply wp_ret|]. intros self w1 Ho1. apply wp_bind.
  eapply own_dek_create; [done|done|exact Ho1|]. intros st k w2 Ho2 Hs.
  destruct (is_ok st) eqn:Es; cbn [negb].
  - apply is_ok_true in Es. apply wp_ret. cbn [fst snd]. split; [done|].
    split_and!; [own_perm Ho2|by intros ->|by apply Hs].
  - apply wp_bind. eapply own_obj_delete; [exact Ho2|]. intros o' w3 _ Ho3. apply wp_bind.
    eapply own_dealloc; [exact Ho3|]. intros w4 Ho4. by apply wp_ret.
Qed.

(** Creating a tag buffer table never leaks. *)
Lemma create_tag_buffer_table_safe ctx a l h w :
  own l h w ->
  wp (create_tag_buffer_table_obj ctx a) (fun r w' =>
    (r.1 = DPCP_OK <-> r.2 <> None)
    /\ match r.2 with
       | Some (self, t) => own ((self, KMem) :: obj_own (tbt_obj t) ++ l) h w'
           /\ exists hd, head (calls w') = Some (CObjCreate (tbt_create_in a) (Some hd))
       | None => own l h w'
       end) w.
Proof.
  intros Ho. unfold create_tag_buffer_table_obj. apply wp_bind.
  eapply own_alloc; [exact Ho|intros w1 Ho1; by apply wp_ret|]. intros self w1 Ho1. apply wp_bind.
  unfold tbt_create. apply wp_bind. eapply own_obj_create_says; [exact Ho1|done|]. intros st o' out w2 Ho2 _ Hs.
  apply wp_ret. destruct (is_ok st) eqn:Es; cbn [negb].
  - apply is_ok_true in Es. apply wp_ret. cbn [fst snd]. split; [done|]. split; [own_perm Ho2|by apply Hs].
  - apply wp_bind. eapply own_obj_delete; [exact Ho2|]. intros o2 w3 _ Ho3. apply wp_bind.
    eapply own_dealloc; [exact Ho3|]. intros w4 Ho4. by apply wp_ret.
Qed.
End dek_safe.

Definition sample_key : dek_attr := mkDekAttr (Some (repeat 0xab 16)) 16 16 5 9.

Lemma create_dek_ok_witness :
  match create_dek TlsDek (Some 7) (Some true) sample_key sim_world with Ret (r, _) => is_ok r.1 | UB _ => false end = true
  /\ wp (create_dek TlsDek (Some 7) (Some true) sample_key) (fun r w' =>
    (r.1 = DPCP_OK <-> r.2 <> None)
    /\ match r.2 with
       | Some (self, k) => own ((self, KMem) :: obj_own (dek_obj k) ++ []) ∅ w' /\ Some true <> Some false
           /\ exists b hd, head (calls w') = Some (CObjCreate b (Some hd)) /\ dek_says TlsDek sample_key b
       | None => own [] ∅ w'
       end) sim_world.
Proof.
  split; [vm_compute; reflexivity|]. apply (create_dek_ok TlsDek (Some 7) (Some true) sample_key [] ∅ sim_world).
  - unfold dek_attr_wf. cbn. lia.
  - unfold blob_there. cbn. lia.
  - apply own_nil, sim_world_fresh.
Defined.
