(* ===== verification/Caps.v ===== *)
(** * HCA capabilities (src/src/dpcp/adapter.cpp)

    The adapter queries nine groups of capabilities when it is constructed and
    copies the members it publishes into [adapter_hca_capabilities], one
    function per group of members.  The structure is a map from the name of a
    member to its value; a member that was never assigned is zero, as [new
    adapter_hca_capabilities()] makes it.  An assignment is a row: the member
    and the field of the answer it comes from. *)

From stdpp Require Import strings.
From S2P Require Import Prelude Codec Prm PrmCaps Dcmd Own Sim Obj.
Open Scope string_scope.
Open Scope list_scope.
Open Scope Z_scope.
Open Scope m_scope.

(** ** Members *)

(** The declared type of a member, and the conversion an assignment makes. *)
Inductive ctype := CBool | CU8 | CU16 | CU32 | CU64.

Definition conv (t : ctype) (v : Z) : Z :=
  match t with
  | CBool => if v =? 0 then 0 else 1
  | CU8 => wrap 8 v
  | CU16 => wrap 16 v
  | CU32 => wrap 32 v
  | CU64 => wrap 64 v
  end.

(** [caps_map_t]: the answer for each group, and [adapter_hca_capabilities]. *)
Notation caps_map_t := (gmap Z (list Z)).
Notation hca_capabilities := (gmap string Z).

Definition cap_of (e : hca_capabilities) (m : string) : Z := default 0 (e !! m).

(** The members of the structures with their types; those of a member that is a
    structure carry its name first. *)
Definition inside (pre : string) (ms : list (string * ctype)) : list (string * ctype) :=
  map (fun mt => (String.append pre (String.append "." mt.1), mt.2)) ms.

Definition flow_table_fields_capabilities_members : list (string * ctype) :=
  [("outer_ethertype", CBool);
   ("outer_udp_dport", CBool);
   ("prog_sample_field", CBool);
   ("metadata_reg_c_0", CBool);
   ("metadata_reg_c_1", CBool)].

Definition modify_flow_action_capabilities_members : list (string * ctype) :=
  [("max_obj_log_num", CU8);
   ("max_obj_in_flow_rule", CU32);
   ("log_max_num_header_modify_argument", CU8);
   ("log_header_modify_argument_granularity", CU8);
   ("log_header_modify_argument_max_alloc", CU8)]
  ++ inside "set_fields_support" flow_table_fields_capabilities_members
  ++ inside "copy_fields_support" flow_table_fields_capabilities_members.

Definition reformat_flow_action_capabilities_members : list (string * ctype) :=
  [("max_size_reformat_insert_buff", CU8);
   ("max_reformat_insert_offset", CU8);
   ("max_log_num_of_packet_reformat", CU8)].

Definition flow_table_type_capabilities_members : list (string * ctype) :=
  [("is_flow_table_supported", CBool);
   ("is_flow_action_tag_supported", CBool);
   ("is_flow_action_modify_supported", CBool);
   ("is_flow_action_reformat_supported", CBool);
   ("is_flow_action_reformat_from_type_insert_supported", CBool);
   ("is_flow_action_non_tunnel_reformat_and_fwd_to_flow_table", CBool);
   ("is_flow_action_reformat_and_modify_supported", CBool);
   ("is_flow_action_reformat_and_fwd_to_flow_table", CBool);
   ("max_steering_depth", CU32);
   ("max_log_size_flow_table", CU8);
   ("max_flow_table_level", CU32);
   ("max_log_num_of_flow_table", CU8);
   ("max_log_num_of_flow_rule", CU8);
   ("is_flow_action_reparse_supported", CBool)]
  ++ inside "modify_flow_action_caps" modify_flow_action_capabilities_members
  ++ inside "ft_field_support" flow_table_fields_capabilities_members.

Definition flow_table_capabilities_members : list (string * ctype) :=
  inside "reformat_flow_action_caps" reformat_flow_action_capabilities_members
  ++ inside "receive" flow_table_type_capabilities_members.

Definition nvmeotcp_capabilities_members : list (string * ctype) :=
  [("enabled", CBool);
   ("zerocopy", CBool);
   ("crc_rx", CBool);
   ("crc_tx", CBool);
   ("version", CU8);
   ("log_max_nvmeotcp_tag_buffer_table", CU8);
   ("log_max_nvmeotcp_tag_buffer_size", CU8)].

Definition adapter_hca_capabilities_members : list (string * ctype) :=
  [("device_frequency_khz", CU32);
   ("tls_tx", CBool);
   ("tls_rx", CBool);
   ("tls_1_2_aes_gcm_128", CBool);
   ("tls_1_2_aes_gcm_256", CBool);
   ("general_object_types_encryption_key", CBool);
   ("synchronize_dek", CBool);
   ("log_max_num_deks", CU8);
   ("log_max_dek", CU8);
   ("crypto_enable", CBool);
   ("aes_xts_multi_block_le_tweak", CBool);
   ("aes_xts_tweak_inc_64", CBool);
   ("aes_xts_single_block_le_tweak", CBool);
   ("aes_xts_multi_block_be_tweak", CBool);
   ("aes_xts_tweak_inc_shift", CBool);
   ("sq_ts_format", CU8);
   ("rq_ts_format", CU8);
   ("lro_cap", CBool);
   ("lro_psh_flag", CBool);
   ("lro_time_stamp", CBool);
   ("lro_max_msg_sz_mode", CU8);
   ("lro_min_mss_size", CU16);
   ("lro_timer_supported_periods[0]", CU8);
   ("lro_timer_supported_periods[1]", CU8);
   ("lro_timer_supported_periods[2]", CU8);
   ("lro_timer_supported_periods[3]", CU8);
   ("ibq", CBool);
   ("ibq_wire_protocol", CU64);
   ("ibq_max_scatter_offset", CU16);
   ("general_object_types_parse_graph_node", CBool);
   ("parse_graph_node_in", CU32);
   ("parse_graph_header_length_mode", CU16);
   ("parse_graph_flow_match_sample_offset_mode", CU16);
   ("max_num_parse_graph_arc_in", CU8);
   ("max_num_parse_graph_flow_match_sample", CU8);
   ("parse_graph_flow_match_sample_id_in_out", CBool);
   ("max_parse_graph_header_length_base_value", CU16);
   ("max_parse_graph_flow_match_sample_field_base_offset_value", CU8);
   ("parse_graph_header_length_field_mask_width", CU8);
   ("is_flow_table_caps_supported", CBool)]
  ++ inside "flow_table_caps" flow_table_capabilities_members
  ++ inside "nvmeotcp_caps" nvmeotcp_capabilities_members.

Fixpoint member_type (m : string) (ms : list (string * ctype)) : option ctype :=
  match ms with
  | [] => None
  | (x, t) :: r => if String.eqb x m then Some t else member_type m r
  end.

(** One assignment [external_hca_caps->member = DEVX_GET(...)]. *)
Record cap_row := mkRow {
  row_member : string;
  row_cap : Z;                             (* the group the answer belongs to *)
  row_lro : bool;                          (* read as the offload structure at [capability] *)
  row_path : list step;
  row_64 : bool                            (* DEVX_GET64 *)
}.

#[global] Instance step_eq_dec : EqDecision step.
Proof. solve_decision. Defined.
#[global] Instance cap_row_eq_dec : EqDecision cap_row.
Proof. solve_decision. Defined.

Definition p_capability : Z := ADDR_OF cap.query_hca_cap_out 0 ["capability"].
Definition row_layout (r : cap_row) : layout :=
  if row_lro r then cap.per_protocol_networking_offload_caps else cap.query_hca_cap_out.
Definition row_base (r : cap_row) : Z := if row_lro r then p_capability else 0.

Definition row_raw (r : cap_row) (out : list Z) : Z :=
  (if row_64 r then DEVX_GET64 else DEVX_GET) (row_layout r) (row_base r) (row_path r) out.

Definition type_of (m : string) : ctype := default CU64 (member_type m adapter_hca_capabilities_members).
Definition assign (m : string) (v : Z) (e : hca_capabilities) : hca_capabilities := <[m := conv (type_of m) v]> e.

Definition assign_row (caps : caps_map_t) (e : hca_capabilities) (r : cap_row) : hca_capabilities :=
  assign (row_member r) (row_raw r (default [] (caps !! row_cap r))) e.

(** A function that returns when one of the groups [needs] is not in the map and
    then makes the assignments [rows]. *)
Definition has_caps (caps : caps_map_t) (needs : list Z) : bool := forallb (fun c => bool_decide (is_Some (caps !! c))) needs.
Definition store_rows (needs : list Z) (rows : list cap_row) (caps : caps_map_t) (e : hca_capabilities)
  : hca_capabilities :=
  if has_caps caps needs then foldl (assign_row caps) e rows else e.

(** A field of the answer for a group. *)
Definition out_row (cap : Z) (group : string) (m : string) (path : list step) : cap_row :=
  mkRow m cap false ([F "capability"; F group] ++ path) false.
Definition lro_row (m : string) (path : list step) : cap_row :=
  mkRow m MLX5_CAP_ETHERNET_OFFLOADS true path false.

(** ** The functions that store the capabilities *)

Definition rows_device_frequency_khz_caps : list cap_row :=
  [out_row MLX5_CAP_GENERAL "cmd_hca_cap" "device_frequency_khz" [F "device_frequency_khz"]].
Definition store_hca_device_frequency_khz_caps := store_rows [MLX5_CAP_GENERAL] rows_device_frequency_khz_caps.

Definition rows_tls_caps : list cap_row :=
  [out_row MLX5_CAP_GENERAL "cmd_hca_cap" "tls_tx" [F "tls_tx"];
   out_row MLX5_CAP_GENERAL "cmd_hca_cap" "tls_rx" [F "tls_rx"]].
Definition store_hca_tls_caps := store_rows [MLX5_CAP_GENERAL] rows_tls_caps.

Definition rows_cap_crypto_enable : list cap_row :=
  [out_row MLX5_CAP_GENERAL "cmd_hca_cap" "crypto_enable" [F "crypto"];
   out_row MLX5_CAP_GENERAL "cmd_hca_cap" "aes_xts_multi_block_le_tweak" [F "aes_xts_multi_block_le_tweak"];
   out_row MLX5_CAP_GENERAL "cmd_hca_cap" "aes_xts_tweak_inc_shift" [F "aes_xts_tweak_inc_shift"];
   out_row MLX5_CAP_GENERAL "cmd_hca_cap" "aes_xts_single_block_le_tweak" [F "aes_xts_single_block_le_tweak"];
   out_row MLX5_CAP_GENERAL "cmd_hca_cap" "aes_xts_tweak_inc_64" [F "aes_xts_tweak_inc_64"];
   out_row MLX5_CAP_GENERAL "cmd_hca_cap" "aes_xts_multi_block_be_tweak" [F "aes_xts_multi_block_be_tweak"]].
Definition store_hca_cap_crypto_enable := store_rows [MLX5_CAP_GENERAL] rows_cap_crypto_enable.

(** The bit of an object type in [general_obj_types]. *)
Definition general_obj_types (caps : caps_map_t) : Z :=
  DEVX_GET64 cap.query_hca_cap_out 0 [F "capability"; F "cmd_hca_cap"; F "general_obj_types"] (default [] (caps !! MLX5_CAP_GENERAL)).

Definition store_hca_general_object_types_encryption_key_caps (caps : caps_map_t) (e : hca_capabilities) : hca_capabilities :=
  if has_caps caps [MLX5_CAP_GENERAL] then
    if Z.land (general_obj_types caps) MLX5_HCA_CAP_GENERAL_OBJECT_TYPES_ENCRYPTION_KEY =? 0 then e
    else assign "general_object_types_encryption_key" 1 e
  else e.

Definition rows_log_max_dek_caps : list cap_row :=
  [out_row MLX5_CAP_GENERAL "cmd_hca_cap" "log_max_dek" [F "log_max_dek"]].
Definition store_hca_log_max_dek_caps := store_rows [MLX5_CAP_GENERAL] rows_log_max_dek_caps.

Definition rows_tls_1_2_aes_gcm_caps : list cap_row :=
  [out_row MLX5_CAP_TLS "tls_cap" "tls_1_2_aes_gcm_128" [F "tls_1_2_aes_gcm_128"];
   out_row MLX5_CAP_TLS "tls_cap" "tls_1_2_aes_gcm_256" [F "tls_1_2_aes_gcm_256"]].
Definition store_hca_tls_1_2_aes_gcm_caps := store_rows [MLX5_CAP_TLS] rows_tls_1_2_aes_gcm_caps.

Definition rows_sq_ts_format_caps : list cap_row :=
  [out_row MLX5_CAP_GENERAL "cmd_hca_cap" "sq_ts_format" [F "sq_ts_format"]].
Definition store_hca_sq_ts_format_caps := store_rows [MLX5_CAP_GENERAL] rows_sq_ts_format_caps.

Definition rows_rq_ts_format_caps : list cap_row :=
  [out_row MLX5_CAP_GENERAL "cmd_hca_cap" "rq_ts_format" [F "rq_ts_format"]].
Definition store_hca_rq_ts_format_caps := store_rows [MLX5_CAP_GENERAL] rows_rq_ts_format_caps.

Definition rows_lro_caps : list cap_row :=
  [lro_row "lro_cap" [F "lro_cap"];
   lro_row "lro_psh_flag" [F "lro_psh_flag"];
   lro_row "lro_time_stamp" [F "lro_time_stamp"];
   lro_row "lro_max_msg_sz_mode" [F "lro_max_msg_sz_mode"];
   lro_row "lro_min_mss_size" [F "lro_min_mss_size"];
   lro_row "lro_timer_supported_periods[0]" [F "lro_timer_supported_periods"; I 0];
   lro_row "lro_timer_supported_periods[1]" [F "lro_timer_supported_periods"; I 1];
   lro_row "lro_timer_supported_periods[2]" [F "lro_timer_supported_periods"; I 2];
   lro_row "lro_timer_supported_periods[3]" [F "lro_timer_supported_periods"; I 3]].
Definition store_hca_lro_caps := store_rows [MLX5_CAP_ETHERNET_OFFLOADS] rows_lro_caps.

Definition rows_ibq_caps : list cap_row :=
  [out_row MLX5_CAP_GENERAL "cmd_hca_cap" "ibq" [F "ibq"];
   mkRow "ibq_wire_protocol" MLX5_CAP_DPP false [F "capability"; F "ibq_cap"; F "ibq_wire_protocol"] true;
   out_row MLX5_CAP_DPP "ibq_cap" "ibq_max_scatter_offset" [F "ibq_max_scatter_offset"]].
Definition store_hca_ibq_caps := store_rows [MLX5_CAP_GENERAL; MLX5_CAP_DPP] rows_ibq_caps.

Definition rows_parse_graph_node_caps : list cap_row :=
  [out_row MLX5_CAP_PARSE_GRAPH_NODE "parse_graph_node_cap" "parse_graph_node_in" [F "parse_graph_node_in"];
   out_row MLX5_CAP_PARSE_GRAPH_NODE "parse_graph_node_cap" "parse_graph_header_length_mode" [F "parse_graph_header_length_mode"];
   out_row MLX5_CAP_PARSE_GRAPH_NODE "parse_graph_node_cap" "parse_graph_flow_match_sample_offset_mode" [F "parse_graph_flow_match_sample_offset_mode"];
   out_row MLX5_CAP_PARSE_GRAPH_NODE "parse_graph_node_cap" "max_num_parse_graph_arc_in" [F "max_num_parse_graph_arc_in"];
   out_row MLX5_CAP_PARSE_GRAPH_NODE "parse_graph_node_cap" "max_num_parse_graph_flow_match_sample" [F "max_num_parse_graph_flow_match_sample"];
   out_row MLX5_CAP_PARSE_GRAPH_NODE "parse_graph_node_cap" "parse_graph_flow_match_sample_id_in_out" [F "parse_graph_flow_match_sample_id_in_out"];
   out_row MLX5_CAP_PARSE_GRAPH_NODE "parse_graph_node_cap" "max_parse_graph_header_length_base_value" [F "max_parse_graph_header_length_base_value"];
   out_row MLX5_CAP_PARSE_GRAPH_NODE "parse_graph_node_cap" "max_parse_graph_flow_match_sample_field_base_offset_value" [F "max_parse_graph_flow_match_sample_field_base_offset_value"];
   out_row MLX5_CAP_PARSE_GRAPH_NODE "parse_graph_node_cap" "parse_graph_header_length_field_mask_width" [F "parse_graph_header_length_field_mask_width"]].

Definition store_hca_parse_graph_node_caps (caps : caps_map_t) (e : hca_capabilities) : hca_capabilities :=
  if has_caps caps [MLX5_CAP_PARSE_GRAPH_NODE; MLX5_CAP_GENERAL] then
    let e := if Z.land (general_obj_types caps) MLX5_HCA_CAP_GENERAL_OBJECT_TYPES_PARSE_GRAPH_NODE =? 0 then e
             else assign "general_object_types_parse_graph_node" 1 e in
    foldl (assign_row caps) e rows_parse_graph_node_caps
  else e.

Definition rows_2_reformat_caps : list cap_row :=
  [out_row MLX5_CAP_GENERAL_2 "cmd_hca_cap_2" "flow_table_caps.reformat_flow_action_caps.max_size_reformat_insert_buff" [F "max_reformat_insert_size"];
   out_row MLX5_CAP_GENERAL_2 "cmd_hca_cap_2" "flow_table_caps.reformat_flow_action_caps.max_reformat_insert_offset" [F "max_reformat_insert_offset"];
   out_row MLX5_CAP_GENERAL_2 "cmd_hca_cap_2" "flow_table_caps.receive.is_flow_action_non_tunnel_reformat_and_fwd_to_flow_table" [F "non_tunnel_reformat"]].
Definition store_hca_2_reformat_caps := store_rows [MLX5_CAP_GENERAL_2] rows_2_reformat_caps.

Definition rows_flow_table_caps : list cap_row :=
  [out_row MLX5_CAP_GENERAL "cmd_hca_cap" "is_flow_table_caps_supported" [F "nic_flow_table"];
   out_row MLX5_CAP_FLOW_TABLE "flow_table_nic_cap" "flow_table_caps.receive.max_steering_depth" [F "nic_receive_max_steering_depth"];
   out_row MLX5_CAP_FLOW_TABLE "flow_table_nic_cap" "flow_table_caps.reformat_flow_action_caps.max_log_num_of_packet_reformat" [F "log_max_packet_reformat_context"]].
Definition store_hca_flow_table_caps := store_rows [MLX5_CAP_GENERAL; MLX5_CAP_FLOW_TABLE] rows_flow_table_caps.

Definition rows_properties_nic_receive : list cap_row :=
  [out_row MLX5_CAP_FLOW_TABLE "flow_table_nic_cap" "flow_table_caps.receive.is_flow_table_supported" [F "flow_table_properties_nic_receive"; F "ft_support"];
   out_row MLX5_CAP_FLOW_TABLE "flow_table_nic_cap" "flow_table_caps.receive.is_flow_action_tag_supported" [F "flow_table_properties_nic_receive"; F "flow_tag"];
   out_row MLX5_CAP_FLOW_TABLE "flow_table_nic_cap" "flow_table_caps.receive.is_flow_action_modify_supported" [F "flow_table_properties_nic_receive"; F "flow_modify_en"];
   out_row MLX5_CAP_FLOW_TABLE "flow_table_nic_cap" "flow_table_caps.receive.is_flow_action_reformat_supported" [F "flow_table_properties_nic_receive"; F "reformat"];
   out_row MLX5_CAP_FLOW_TABLE "flow_table_nic_cap" "flow_table_caps.receive.is_flow_action_reformat_and_modify_supported" [F "flow_table_properties_nic_receive"; F "reformat_and_modify_action"];
   out_row MLX5_CAP_FLOW_TABLE "flow_table_nic_cap" "flow_table_caps.receive.is_flow_action_reformat_and_fwd_to_flow_table" [F "flow_table_properties_nic_receive"; F "reformat_and_fwd_to_table"];
   out_row MLX5_CAP_FLOW_TABLE "flow_table_nic_cap" "flow_table_caps.receive.max_log_size_flow_table" [F "flow_table_properties_nic_receive"; F "log_max_ft_size"];
   out_row MLX5_CAP_FLOW_TABLE "flow_table_nic_cap" "flow_table_caps.receive.modify_flow_action_caps.max_obj_log_num" [F "flow_table_properties_nic_receive"; F "log_max_modify_header_context"];
   out_row MLX5_CAP_FLOW_TABLE "flow_table_nic_cap" "flow_table_caps.receive.ft_field_support.outer_udp_dport" [F "flow_table_properties_nic_receive"; F "ft_field_support"; F "outer_udp_dport"];
   out_row MLX5_CAP_FLOW_TABLE "flow_table_nic_cap" "flow_table_caps.receive.ft_field_support.prog_sample_field" [F "flow_table_properties_nic_receive"; F "ft_field_support"; F "prog_sample_field"];
   out_row MLX5_CAP_FLOW_TABLE "flow_table_nic_cap" "flow_table_caps.receive.ft_field_support.metadata_reg_c_0" [F "flow_table_properties_nic_receive"; F "ft_field_support"; F "metadata_reg_c_0"];
   out_row MLX5_CAP_FLOW_TABLE "flow_table_nic_cap" "flow_table_caps.receive.ft_field_support.metadata_reg_c_1" [F "flow_table_properties_nic_receive"; F "ft_field_support"; F "metadata_reg_c_1"];
   out_row MLX5_CAP_FLOW_TABLE "flow_table_nic_cap" "flow_table_caps.receive.modify_flow_action_caps.max_obj_in_flow_rule" [F "flow_table_properties_nic_receive"; F "max_modify_header_actions"];
   out_row MLX5_CAP_GENERAL "cmd_hca_cap" "flow_table_caps.receive.modify_flow_action_caps.log_max_num_header_modify_argument" [F "log_max_num_header_modify_argument"];
   out_row MLX5_CAP_GENERAL "cmd_hca_cap" "flow_table_caps.receive.modify_flow_action_caps.log_header_modify_argument_granularity" [F "log_header_modify_argument_granularity"];
   out_row MLX5_CAP_GENERAL "cmd_hca_cap" "flow_table_caps.receive.modify_flow_action_caps.log_header_modify_argument_max_alloc" [F "log_header_modify_argument_max_alloc"];
   out_row MLX5_CAP_FLOW_TABLE "flow_table_nic_cap" "flow_table_caps.receive.max_flow_table_level" [F "flow_table_properties_nic_receive"; F "max_ft_level"];
   out_row MLX5_CAP_FLOW_TABLE "flow_table_nic_cap" "flow_table_caps.receive.is_flow_action_reformat_from_type_insert_supported" [F "flow_table_properties_nic_receive"; F "reformat_insert"];
   out_row MLX5_CAP_FLOW_TABLE "flow_table_nic_cap" "flow_table_caps.receive.max_log_num_of_flow_table" [F "flow_table_properties_nic_receive"; F "log_max_ft_num"];
   out_row MLX5_CAP_FLOW_TABLE "flow_table_nic_cap" "flow_table_caps.receive.modify_flow_action_caps.max_obj_log_num" [F "flow_table_properties_nic_receive"; F "log_max_modify_header_context"];
   out_row MLX5_CAP_FLOW_TABLE "flow_table_nic_cap" "flow_table_caps.receive.max_log_num_of_flow_rule" [F "flow_table_properties_nic_receive"; F "log_max_flow"];
   out_row MLX5_CAP_FLOW_TABLE "flow_table_nic_cap" "flow_table_caps.receive.is_flow_action_reparse_supported" [F "flow_table_properties_nic_receive"; F "reparse"]].
Definition rows_header_modify_nic_receive : list cap_row :=
  [out_row MLX5_CAP_FLOW_TABLE "flow_table_nic_cap" "flow_table_caps.receive.modify_flow_action_caps.set_fields_support.outer_ethertype" [F "header_modify_nic_receive"; F "set_action_field_support"; F "outer_ether_type"];
   out_row MLX5_CAP_FLOW_TABLE "flow_table_nic_cap" "flow_table_caps.receive.modify_flow_action_caps.set_fields_support.outer_udp_dport" [F "header_modify_nic_receive"; F "set_action_field_support"; F "outer_udp_dport"];
   out_row MLX5_CAP_FLOW_TABLE "flow_table_nic_cap" "flow_table_caps.receive.modify_flow_action_caps.set_fields_support.metadata_reg_c_0" [F "header_modify_nic_receive"; F "set_action_field_support"; F "metadata_reg_c_0"];
   out_row MLX5_CAP_FLOW_TABLE "flow_table_nic_cap" "flow_table_caps.receive.modify_flow_action_caps.set_fields_support.metadata_reg_c_1" [F "header_modify_nic_receive"; F "set_action_field_support"; F "metadata_reg_c_1"];
   out_row MLX5_CAP_FLOW_TABLE "flow_table_nic_cap" "flow_table_caps.receive.modify_flow_action_caps.copy_fields_support.outer_udp_dport" [F "header_modify_nic_receive"; F "copy_action_field_support"; F "outer_udp_dport"];
   out_row MLX5_CAP_FLOW_TABLE "flow_table_nic_cap" "flow_table_caps.receive.modify_flow_action_caps.copy_fields_support.metadata_reg_c_0" [F "header_modify_nic_receive"; F "copy_action_field_support"; F "metadata_reg_c_0"];
   out_row MLX5_CAP_FLOW_TABLE "flow_table_nic_cap" "flow_table_caps.receive.modify_flow_action_caps.copy_fields_support.metadata_reg_c_1" [F "header_modify_nic_receive"; F "copy_action_field_support"; F "metadata_reg_c_1"]].
Definition rows_flow_table_nic_receive_caps : list cap_row := rows_properties_nic_receive ++ rows_header_modify_nic_receive.
Definition store_hca_flow_table_nic_receive_caps := store_rows [MLX5_CAP_FLOW_TABLE; MLX5_CAP_GENERAL] rows_flow_table_nic_receive_caps.

Definition rows_crypto_caps : list cap_row :=
  [out_row MLX5_CAP_CRYPTO "crypto_cap" "synchronize_dek" [F "synchronize_dek"];
   out_row MLX5_CAP_CRYPTO "crypto_cap" "log_max_num_deks" [F "log_max_num_deks"]].
Definition store_hca_crypto_caps := store_rows [MLX5_CAP_CRYPTO] rows_crypto_caps.

Definition rows_nvmeotcp_caps : list cap_row :=
  [out_row MLX5_CAP_GENERAL "cmd_hca_cap" "nvmeotcp_caps.enabled" [F "nvmeotcp"]].
Definition rows_nvmeotcp_on : list cap_row :=
  [out_row MLX5_CAP_NVMEOTCP "nvmeotcp_cap" "nvmeotcp_caps.zerocopy" [F "zerocopy"];
   out_row MLX5_CAP_NVMEOTCP "nvmeotcp_cap" "nvmeotcp_caps.crc_rx" [F "crc_rx"];
   out_row MLX5_CAP_NVMEOTCP "nvmeotcp_cap" "nvmeotcp_caps.crc_tx" [F "crc_tx"];
   out_row MLX5_CAP_NVMEOTCP "nvmeotcp_cap" "nvmeotcp_caps.log_max_nvmeotcp_tag_buffer_table" [F "log_max_nvmeotcp_tag_buffer_table"];
   out_row MLX5_CAP_NVMEOTCP "nvmeotcp_cap" "nvmeotcp_caps.log_max_nvmeotcp_tag_buffer_size" [F "log_max_nvmeotcp_tag_buffer_size"]].

Definition store_hca_nvmeotcp_caps (caps : caps_map_t) (e : hca_capabilities) : hca_capabilities :=
  if has_caps caps [MLX5_CAP_GENERAL; MLX5_CAP_NVMEOTCP] then
    let e := foldl (assign_row caps) e rows_nvmeotcp_caps in
    if negb (cap_of e "nvmeotcp_caps.enabled" =? 0) then foldl (assign_row caps) e rows_nvmeotcp_on
    else assign "nvmeotcp_caps.crc_rx" 0 (assign "nvmeotcp_caps.crc_tx" 0 (assign "nvmeotcp_caps.zerocopy" 0 e))
  else e.

(** [caps_callbacks] *)
Definition caps_callbacks : list (caps_map_t -> hca_capabilities -> hca_capabilities) :=
  [store_hca_device_frequency_khz_caps;
   store_hca_tls_caps;
   store_hca_general_object_types_encryption_key_caps;
   store_hca_log_max_dek_caps;
   store_hca_tls_1_2_aes_gcm_caps;
   store_hca_cap_crypto_enable;
   store_hca_sq_ts_format_caps;
   store_hca_rq_ts_format_caps;
   store_hca_lro_caps;
   store_hca_ibq_caps;
   store_hca_parse_graph_node_caps;
   store_hca_2_reformat_caps;
   store_hca_flow_table_caps;
   store_hca_flow_table_nic_receive_caps;
   store_hca_crypto_caps;
   store_hca_nvmeotcp_caps].

(** [adapter::set_external_hca_caps] *)
Definition set_external_hca_caps (cbs : list (caps_map_t -> hca_capabilities -> hca_capabilities)) (caps : caps_map_t)
  : hca_capabilities := foldl (fun e cb => cb caps e) ∅ cbs.

(** [s_supported_cap_types] *)
Definition s_supported_cap_types : list Z :=
  [MLX5_CAP_GENERAL; MLX5_CAP_TLS; MLX5_CAP_PARSE_GRAPH_NODE; MLX5_CAP_ETHERNET_OFFLOADS; MLX5_CAP_GENERAL_2;
   MLX5_CAP_FLOW_TABLE; MLX5_CAP_DPP; MLX5_CAP_NVMEOTCP; MLX5_CAP_CRYPTO].

(** ** The query of the groups *)

Definition query_hca_cap_ws (cap_type : Z) : list write :=
  [DEVX_SET ifc.query_hca_cap_in 0 ["opcode"] MLX5_CMD_OP_QUERY_HCA_CAP;
   DEVX_SET ifc.query_hca_cap_in 0 ["op_mod"] (Z.lor (Z.shiftl cap_type 1) HCA_CAP_OPMOD_GET_CUR)].

Section query.
Context {D : Type} `{DevX D}.

(** The loop of [adapter::query_hca_caps]: one command buffer for all the groups;
    the answer is written to the buffer of the group, whatever the result. *)
Fixpoint query_loop (ctx : Z) (types : list Z) (inb : list Z) (caps : caps_map_t) : M D caps_map_t :=
  match types with
  | [] => ret caps
  | t :: ts =>
      let inb := exec (query_hca_cap_ws t) inb in
      '(_, o) <- exec_cmd ctx inb (default [] (caps !! t));;
      query_loop ctx ts inb (<[t := o]> caps)
  end.

Definition query_hca_caps (ctx : Z) (caps : caps_map_t) : M D (status * caps_map_t) :=
  caps <- query_loop ctx s_supported_cap_types (zeros (ST_SZ_BYTES ifc.query_hca_cap_in)) caps;;
  ret (DPCP_OK, caps).
End query.

(** [adapter::get_hca_caps_frequency_khz]; a status and, when it is OK, the value. *)
Definition get_hca_caps_frequency_khz (available : bool) (e : hca_capabilities) : status * option Z :=
  if negb available then (DPCP_ERR_QUERY, None)
  else (DPCP_OK, Some (cap_of e "device_frequency_khz")).

(** ** What the functions write

    Each function writes its own members and nothing it writes depends on what
    was stored before it: it is the addition of a fixed map. *)

Definition adds (caps : caps_map_t) (cb : caps_map_t -> hca_capabilities -> hca_capabilities) (ms : list string) : Prop :=
  exists d : hca_capabilities, (forall m, is_Some (d !! m) -> m ∈ ms) /\ forall e, cb caps e = d ∪ e.

Lemma assign_union m v (d e : hca_capabilities) : assign m v (d ∪ e) = assign m v d ∪ e.
Proof. apply insert_union_l. Qed.

Lemma rows_union caps rows (d e : hca_capabilities) :
  foldl (assign_row caps) (d ∪ e) rows = foldl (assign_row caps) d rows ∪ e.
Proof. revert d; induction rows as [|r rows IH]; intros d; [done|]. simpl. unfold assign_row at 2 4. by rewrite assign_union, IH. Qed.

Lemma rows_dom caps rows (d : hca_capabilities) m :
  is_Some (foldl (assign_row caps) d rows !! m) -> is_Some (d !! m) \/ m ∈ map row_member rows.
Proof.
  revert d; induction rows as [|r rows IH]; intros d Hm; [by left|]. simpl in *.
  apply IH in Hm as [Hm|Hm]; [|right; by constructor 2]. unfold assign_row, assign in Hm.
  destruct (decide (row_member r = m)) as [<-|]; [right; by constructor|]. rewrite lookup_insert_ne in Hm by done. by left.
Qed.

Lemma adds_rows needs rows caps : adds caps (store_rows needs rows) (map row_member rows).
Proof.
  unfold store_rows. destruct (has_caps caps needs) eqn:E.
  - exists (foldl (assign_row caps) ∅ rows). split.
    + intros m Hm. by apply rows_dom in Hm as [[x Hx]|Hm].
    + intros e. rewrite E. rewrite <- rows_union. f_equal. symmetry. apply (left_id_L ∅ (∪)).
  - exists ∅. split; [by intros m [x Hx]|]. intros e. rewrite E. symmetry. apply (left_id_L ∅ (∪)).
Qed.

Lemma adds_assign m v (d : hca_capabilities) (ms : list string) :
  (forall x, is_Some (d !! x) -> x ∈ ms) -> m ∈ ms -> forall x, is_Some (assign m v d !! x) -> x ∈ ms.
Proof.
  intros Hd Hm x Hx. unfold assign in Hx. destruct (decide (m = x)) as [<-|]; [done|].
  rewrite lookup_insert_ne in Hx by done. by apply Hd.
Qed.

Lemma adds_key caps : adds caps store_hca_general_object_types_encryption_key_caps ["general_object_types_encryption_key"].
Proof.
  unfold store_hca_general_object_types_encryption_key_caps.
  exists (store_hca_general_object_types_encryption_key_caps caps ∅).
  unfold store_hca_general_object_types_encryption_key_caps. split.
  - intros m. case_match; [|by intros []]. case_match; [by intros []|].
    apply (adds_assign _ _ _); [by intros ? []|by constructor].
  - intros e. case_match; [|by rewrite (left_id_L ∅ (∪))]. case_match; [by rewrite (left_id_L ∅ (∪))|].
    by rewrite <- assign_union, (left_id_L ∅ (∪)).
Qed.

Lemma adds_parse_graph caps :
  adds caps store_hca_parse_graph_node_caps
    ("general_object_types_parse_graph_node" :: map row_member rows_parse_graph_node_caps).
Proof.
  exists (store_hca_parse_graph_node_caps caps ∅). unfold store_hca_parse_graph_node_caps. split.
  - intros m. case_match; [|by intros []]. intros Hm. apply rows_dom in Hm as [Hm|Hm]; [|by constructor 2].
    case_match; [by destruct Hm|]. revert Hm. apply (adds_assign _ _ _); [by intros ? []|by constructor].
  - intros e. case_match; [|by rewrite (left_id_L ∅ (∪))]. rewrite <- rows_union. f_equal.
    case_match; [by rewrite (left_id_L ∅ (∪))|]. by rewrite <- assign_union, (left_id_L ∅ (∪)).
Qed.

(** The flag the NVMe/TCP function tests is the one it has just stored. *)
Lemma nvmeotcp_enabled caps (e : hca_capabilities) :
  cap_of (foldl (assign_row caps) e rows_nvmeotcp_caps) "nvmeotcp_caps.enabled" =
  cap_of (foldl (assign_row caps) ∅ rows_nvmeotcp_caps) "nvmeotcp_caps.enabled".
Proof. unfold cap_of, rows_nvmeotcp_caps. cbn [foldl]. unfold assign_row, assign. by rewrite !lookup_insert_eq. Qed.

Definition nvmeotcp_members : list string := map row_member (rows_nvmeotcp_caps ++ rows_nvmeotcp_on).

Lemma adds_nvmeotcp caps : adds caps store_hca_nvmeotcp_caps nvmeotcp_members.
Proof.
  exists (store_hca_nvmeotcp_caps caps ∅). unfold store_hca_nvmeotcp_caps. cbv zeta. split.
  - assert (forall x, is_Some (foldl (assign_row caps) ∅ rows_nvmeotcp_caps !! x) -> x ∈ nvmeotcp_members) as H0.
    { intros x Hx. apply rows_dom in Hx as [[]|Hx]; [done|]. unfold nvmeotcp_members. rewrite map_app. apply list.elem_of_app. by left. }
    intros m. case_match; [|by intros []]. case_match.
    + intros Hm. apply rows_dom in Hm as [Hm|Hm]; [by apply H0|]. unfold nvmeotcp_members. rewrite map_app. apply list.elem_of_app. by right.
    + revert m. do 3 (apply (adds_assign _ _ _); [|unfold nvmeotcp_members; set_solver]). exact H0.
  - intros e. case_match; [|by rewrite (left_id_L ∅ (∪))]. rewrite (nvmeotcp_enabled caps e).
    case_match; rewrite <- ?rows_union, <- ?assign_union, <- ?rows_union, (left_id_L ∅ (∪)); done.
Qed.

(** The members each function writes, in the order of [caps_callbacks]. *)
Definition written : list (list string) :=
  [map row_member rows_device_frequency_khz_caps; map row_member rows_tls_caps;
   ["general_object_types_encryption_key"]; map row_member rows_log_max_dek_caps;
   map row_member rows_tls_1_2_aes_gcm_caps; map row_member rows_cap_crypto_enable;
   map row_member rows_sq_ts_format_caps; map row_member rows_rq_ts_format_caps;
   map row_member rows_lro_caps; map row_member rows_ibq_caps;
   "general_object_types_parse_graph_node" :: map row_member rows_parse_graph_node_caps;
   map row_member rows_2_reformat_caps; map row_member rows_flow_table_caps;
   map row_member rows_flow_table_nic_receive_caps; map row_member rows_crypto_caps; nvmeotcp_members].

Lemma callbacks_add caps : Forall2 (adds caps) caps_callbacks written.
Proof.
  repeat constructor; first [apply adds_rows|apply adds_key|apply adds_parse_graph|apply adds_nvmeotcp].
Qed.

(** No two functions write the same member. *)
Definition disjoint_lists (mss : list (list string)) : bool :=
  bool_decide (NoDup (mjoin ((fun ms => remove_dups ms) <$> mss))).

Lemma written_disjoint : disjoint_lists written = true.
Proof. vm_compute. reflexivity. Qed.

Notation callback := (caps_map_t -> hca_capabilities -> hca_capabilities).

Lemma disjoint_nth mss i j ms ms' x :
  disjoint_lists mss = true -> mss !! i = Some ms -> mss !! j = Some ms' -> x ∈ ms -> x ∈ ms' -> i = j.
Proof.
  unfold disjoint_lists. rewrite bool_decide_eq_true. revert i j. induction mss as [|a mss IH]; intros i j Hd Hi Hj Hx Hx'; [done|].
  csimpl in Hd. apply list.NoDup_app in Hd as (_ & Hno & Hd).
  assert (forall k l, mss !! k = Some l -> x ∈ l -> x ∈ mjoin ((fun ms => remove_dups ms) <$> mss)) as Hc.
  { intros k l Hk Hl. apply list_elem_of_join. exists (remove_dups l). split; [by apply elem_of_remove_dups|].
    apply list_elem_of_fmap. exists l. split; [done|]. by apply list_elem_of_lookup_2 in Hk. }
  destruct i as [|i], j as [|j]; [done| | |f_equal; by apply IH]; simpl in *; simplify_eq; exfalso;
    (eapply Hno; [by apply elem_of_remove_dups|eapply Hc; eauto]).
Qed.

(** Two functions of the table commute. *)
Lemma adds_comm caps (cb cb' : callback) ms ms' e :
  adds caps cb ms -> adds caps cb' ms' -> (forall x, x ∈ ms -> x ∈ ms' -> False) ->
  cb caps (cb' caps e) = cb' caps (cb caps e).
Proof.
  intros (d & Hd & E) (d' & Hd' & E') Hdis. rewrite !E, !E'.
  rewrite !(assoc_L (∪)). f_equal. apply map_union_comm. apply map_disjoint_spec.
  intros x a b Ha Hb. eapply (Hdis x); [apply Hd|apply Hd']; eauto.
Qed.

Lemma callbacks_comm caps e (cb cb' : callback) :
  cb ∈ caps_callbacks -> cb' ∈ caps_callbacks -> cb caps (cb' caps e) = cb' caps (cb caps e).
Proof.
  intros [i Hi]%list_elem_of_lookup_1 [j Hj]%list_elem_of_lookup_1.
  destruct (decide (i = j)) as [->|Hij]; [by simplify_eq|].
  destruct (Forall2_lookup_l _ _ _ _ _ (callbacks_add caps) Hi) as (ms & Hms & Ha).
  destruct (Forall2_lookup_l _ _ _ _ _ (callbacks_add caps) Hj) as (ms' & Hms' & Ha').
  apply (adds_comm _ _ _ _ _ _ Ha Ha'). intros x Hx Hx'. apply Hij.
  eapply (disjoint_nth written _ _ _ _ _ written_disjoint); eauto.
Qed.

Lemma foldl_perm caps (l l' : list callback) :
  l ≡ₚ l' -> (forall cb cb' e, cb ∈ l -> cb' ∈ l -> cb caps (cb' caps e) = cb' caps (cb caps e)) ->
  forall e, foldl (fun e cb => cb caps e) e l = foldl (fun e cb => cb caps e) e l'.
Proof.
  induction 1 as [|x l l' Hl IH|x y l|l1 l2 l3 H1 IH1 H2 IH2]; intros Hc e; [done| | |].
  - simpl. apply IH. intros. apply Hc; by constructor.
  - simpl. f_equal. apply Hc; repeat constructor.
  - rewrite IH1 by done. apply IH2. intros. apply Hc; by rewrite H1.
Qed.

(** C17. The order in which the functions that decode the capabilities run does
    not matter: any order of the table stores the same structure, so no function
    overwrites or depends on what another one stored. *)
Theorem caps_any_order caps cbs :
  cbs ≡ₚ caps_callbacks -> set_external_hca_caps cbs caps = set_external_hca_caps caps_callbacks caps.
Proof.
  intros Hp. symmetry. unfold set_external_hca_caps. apply foldl_perm; [by symmetry|].
  intros. by apply callbacks_comm.
Qed.

Lemma caps_any_order_witness :
  set_external_hca_caps (rev caps_callbacks) ∅ = set_external_hca_caps caps_callbacks ∅.
Proof. apply caps_any_order. symmetry. apply Permutation_rev. Defined.

(** ** What the members hold *)

Definition width (t : ctype) : Z :=
  match t with CBool => 1 | CU8 => 8 | CU16 => 16 | CU32 => 32 | CU64 => 64 end.

(** The field is no wider than the member it is stored to. *)
Definition row_fits (r : cap_row) : bool :=
  match member_type (row_member r) adapter_hca_capabilities_members with
  | Some t => if row_64 r then width t =? 64
              else (0 <=? f_sz (fld (row_layout r) (row_base r) (row_path r)))
                   && (f_sz (fld (row_layout r) (row_base r) (row_path r)) <=? width t)
  | None => false
  end.

(** The members that are stored whenever their groups are there. *)
Definition plain_rows : list cap_row :=
  rows_device_frequency_khz_caps ++ rows_tls_caps ++ rows_log_max_dek_caps ++ rows_tls_1_2_aes_gcm_caps
  ++ rows_cap_crypto_enable ++ rows_sq_ts_format_caps ++ rows_rq_ts_format_caps ++ rows_lro_caps ++ rows_ibq_caps
  ++ rows_parse_graph_node_caps ++ rows_2_reformat_caps ++ rows_flow_table_caps ++ rows_flow_table_nic_receive_caps
  ++ rows_crypto_caps ++ rows_nvmeotcp_caps.

(** The members that are narrower than their field: 32 bits cut to 8. *)
Definition narrowed : list string :=
  ["lro_timer_supported_periods[0]"; "lro_timer_supported_periods[1]";
   "lro_timer_supported_periods[2]"; "lro_timer_supported_periods[3]"].

Definition is_u8 (m : string) : bool := match type_of m with CU8 => true | _ => false end.

Lemma rows_fit :
  forallb (fun r => if bool_decide (row_member r ∈ narrowed) then is_u8 (row_member r) else row_fits r)
    (plain_rows ++ rows_nvmeotcp_on) = true.
Proof. vm_compute. reflexivity. Qed.

(** Bytes, as a buffer in memory holds them. *)
Definition is_bytes (b : list Z) : Prop := Forall (fun x => 0 <= x < 256) b.

Lemma get_field_range f b : 0 <= f_sz f -> 0 <= get_field f b < 2 ^ f_sz f.
Proof. intros. unfold get_field. rewrite Z.land_ones by done. apply Z.mod_pos_bound. lia. Qed.

Lemma rd_byte b a : is_bytes b -> 0 <= rd b a < 256.
Proof.
  intros Hb. unfold rd. destruct (b !! Z.to_nat a) as [x|] eqn:E; [|simpl; lia].
  by apply (Forall_lookup_1 _ _ _ _ Hb E).
Qed.

Lemma be32_range b a : is_bytes b -> 0 <= be32_to_cpu b a < 2 ^ 32.
Proof.
  intros Hb. unfold be32_to_cpu.
  pose proof (rd_byte b a Hb). pose proof (rd_byte b (a + 1) Hb).
  pose proof (rd_byte b (a + 2) Hb). pose proof (rd_byte b (a + 3) Hb). lia.
Qed.

Lemma be64_range b a : is_bytes b -> 0 <= be64_to_cpu b a < 2 ^ 64.
Proof. intros Hb. unfold be64_to_cpu. pose proof (be32_range b a Hb). pose proof (be32_range b (a + 4) Hb). lia. Qed.

Lemma conv_fits t v : 0 <= v < 2 ^ width t -> conv t v = v.
Proof.
  intros Hv. destruct t; simpl in *; try (unfold wrap; apply Z.mod_small; lia).
  destruct (v =? 0) eqn:E; lia.
Qed.

(** Nothing is cut off. *)
Lemma row_conv r b : row_fits r = true -> is_bytes b -> conv (type_of (row_member r)) (row_raw r b) = row_raw r b.
Proof.
  unfold row_fits, type_of, row_raw. intros Hf Hb. apply conv_fits.
  destruct (member_type _ _) as [t|]; [|done]. simpl. destruct (row_64 r).
  - apply Z.eqb_eq in Hf. rewrite Hf. unfold DEVX_GET64. case_match; by apply be64_range.
  - apply andb_true_iff in Hf as [H0 Hf]. apply Z.leb_le in H0, Hf. unfold DEVX_GET.
    pose proof (get_field_range _ b H0) as Hr. split; [lia|]. eapply Z.lt_le_trans; [apply Hr|].
    apply Z.pow_le_mono_r; lia.
Qed.

(** The value a member is to hold: the field of the answer, cut to 8 bits for the
    four timer periods. *)
Definition published (r : cap_row) (b : list Z) : Z :=
  if bool_decide (row_member r ∈ narrowed) then row_raw r b mod 256 else row_raw r b.

Lemma row_published r b :
  r ∈ plain_rows ++ rows_nvmeotcp_on -> is_bytes b -> conv (type_of (row_member r)) (row_raw r b) = published r b.
Proof.
  intros Hr Hb. pose proof rows_fit as Hf. rewrite forallb_forall in Hf.
  apply list_elem_of_In in Hr. specialize (Hf r Hr). unfold published. case_bool_decide.
  - unfold is_u8 in Hf. by destruct (type_of _).
  - by apply row_conv.
Qed.

(** A member is what the last of its rows stores; the rows of a member agree. *)
Definition rows_agree (rows : list cap_row) : bool :=
  forallb (fun r => forallb (fun r' => negb (String.eqb (row_member r) (row_member r')) || bool_decide (r = r')) rows) rows.

Lemma rows_agree_spec rows r r' :
  rows_agree rows = true -> r ∈ rows -> r' ∈ rows -> row_member r = row_member r' -> r = r'.
Proof.
  unfold rows_agree. rewrite forallb_forall. intros Ha Hr%list_elem_of_In Hr'%list_elem_of_In Hm.
  specialize (Ha r Hr). rewrite forallb_forall in Ha. specialize (Ha r' Hr').
  rewrite Hm, String.eqb_refl in Ha. simpl in Ha. by apply bool_decide_eq_true in Ha.
Qed.

Lemma rows_lookup caps rows (e : hca_capabilities) r :
  (forall r', r' ∈ rows -> row_member r' = row_member r -> r' = r) -> r ∈ rows ->
  foldl (assign_row caps) e rows !! row_member r
    = Some (conv (type_of (row_member r)) (row_raw r (default [] (caps !! row_cap r)))).
Proof.
  revert e. induction rows as [|x rows IH] using rev_ind; intros e Hag Hr; [by apply not_elem_of_nil in Hr|].
  rewrite foldl_app. cbn [foldl]. unfold assign_row at 1, assign. destruct (decide (row_member x = row_member r)) as [E|E].
  - rewrite (Hag x) by (done || set_solver). by rewrite lookup_insert_eq.
  - rewrite lookup_insert_ne by done. apply IH; set_solver.
Qed.

(** What the table leaves in a member is what its own function stores. *)
Lemma table_untouched caps cbs mss (e : hca_capabilities) m :
  Forall2 (adds caps) cbs mss -> (forall ms, ms ∈ mss -> m ∉ ms) ->
  foldl (fun e (cb : callback) => cb caps e) e cbs !! m = e !! m.
Proof.
  intros Ha. revert e. induction Ha as [|cb ms cbs mss (d & Hd & E) Ha IH]; intros e Hm; [done|].
  cbn [foldl]. rewrite IH by set_solver. rewrite E. apply lookup_union_r.
  apply eq_None_not_Some. intros Hs. apply (Hm ms); [by constructor|by apply Hd].
Qed.

Lemma table_lookup caps cbs mss (e : hca_capabilities) i (cb : callback) ms m :
  Forall2 (adds caps) cbs mss -> disjoint_lists mss = true -> cbs !! i = Some cb -> mss !! i = Some ms -> m ∈ ms ->
  e !! m = None -> foldl (fun e (cb : callback) => cb caps e) e cbs !! m = cb caps ∅ !! m.
Proof.
  intros Ha Hdis. revert e i. induction Ha as [|c l cbs mss (d & Hd & E) Ha IH]; intros e i Hcb Hms Hm He; [done|].
  assert (forall j l', mss !! j = Some l' -> l' ∈ mss) as Hin by (intros; by eapply list_elem_of_lookup_2).
  destruct i as [|i]; cbn [foldl].
  - simpl in Hcb, Hms. simplify_eq. rewrite (table_untouched caps cbs mss).
    + rewrite !E. rewrite (right_id_L ∅ (∪)). by apply lookup_union_l.
    + done.
    + intros l' [j Hj]%list_elem_of_lookup_1 Hml.
      assert (0%nat = S j) by (eapply (disjoint_nth (ms :: mss) 0 (S j)); done). done.
  - simpl in Hcb, Hms. apply IH with i; [|done..|].
    + unfold disjoint_lists in *. rewrite bool_decide_eq_true in *. csimpl in Hdis. by apply list.NoDup_app in Hdis as (_ & _ & ?).
    + rewrite E, lookup_union_r; [done|]. apply eq_None_not_Some. intros Hs%Hd.
      assert (0%nat = S i) by (eapply (disjoint_nth (l :: mss) 0 (S i)); done). done.
Qed.

Lemma external_lookup caps i (cb : callback) ms m :
  caps_callbacks !! i = Some cb -> written !! i = Some ms -> m ∈ ms ->
  set_external_hca_caps caps_callbacks caps !! m = cb caps ∅ !! m.
Proof.
  intros. unfold set_external_hca_caps.
  by apply (table_lookup _ _ written ∅ i _ ms); [apply callbacks_add|exact written_disjoint|..].
Qed.

(** The answers of all the groups are there. *)
Definition all_there (caps : caps_map_t) : Prop := forall t, t ∈ s_supported_cap_types -> is_Some (caps !! t).

Lemma has_caps_all caps needs :
  all_there caps -> forallb (fun t => bool_decide (t ∈ s_supported_cap_types)) needs = true -> has_caps caps needs = true.
Proof.
  unfold has_caps. rewrite !forallb_forall. intros Ha Hn t Ht. specialize (Hn t Ht).
  apply bool_decide_eq_true in Hn. apply bool_decide_eq_true. by apply Ha.
Qed.

Lemma external_rows caps i needs rows r :
  all_there caps -> caps_callbacks !! i = Some (store_rows needs rows) -> written !! i = Some (map row_member rows) ->
  forallb (fun t => bool_decide (t ∈ s_supported_cap_types)) needs && rows_agree rows = true -> r ∈ rows ->
  set_external_hca_caps caps_callbacks caps !! row_member r
    = Some (conv (type_of (row_member r)) (row_raw r (default [] (caps !! row_cap r)))).
Proof.
  intros Ha Hc Hw [Hn Hag]%andb_true_iff Hr. rewrite (external_lookup caps i _ _ _ Hc Hw).
  - unfold store_rows. rewrite has_caps_all by done. apply rows_lookup; [|done]. intros. by apply (rows_agree_spec rows).
  - apply list_elem_of_fmap. by exists r.
Qed.

Lemma external_parse caps :
  all_there caps ->
  (forall r, r ∈ rows_parse_graph_node_caps -> set_external_hca_caps caps_callbacks caps !! row_member r
     = Some (conv (type_of (row_member r)) (row_raw r (default [] (caps !! row_cap r)))))
  /\ cap_of (set_external_hca_caps caps_callbacks caps) "general_object_types_parse_graph_node"
     = Z.b2z (negb (Z.land (general_obj_types caps) MLX5_HCA_CAP_GENERAL_OBJECT_TYPES_PARSE_GRAPH_NODE =? 0)).
Proof.
  intros Ha. set (ms := "general_object_types_parse_graph_node" :: map row_member rows_parse_graph_node_caps).
  assert (forall m, m ∈ ms -> set_external_hca_caps caps_callbacks caps !! m = store_hca_parse_graph_node_caps caps ∅ !! m) as Hl.
  { intros m Hm. by apply (external_lookup caps 10 _ ms). }
  unfold store_hca_parse_graph_node_caps in Hl. rewrite (has_caps_all caps) in Hl by done. split.
  - intros r Hr. rewrite Hl by (constructor 2; apply list_elem_of_fmap; by exists r). apply rows_lookup; [|done].
    intros. by apply (rows_agree_spec rows_parse_graph_node_caps).
  - unfold cap_of. rewrite Hl by by constructor.
    assert (forall e : hca_capabilities, foldl (assign_row caps) e rows_parse_graph_node_caps !! "general_object_types_parse_graph_node"
      = e !! "general_object_types_parse_graph_node") as ->.
    { intros e. unfold rows_parse_graph_node_caps. cbn [foldl]. unfold assign_row, assign.
      repeat (rewrite lookup_insert_ne by done). done. }
    by destruct (_ =? 0); [|unfold assign; rewrite lookup_insert_eq].
Qed.

Lemma external_key caps :
  all_there caps -> cap_of (set_external_hca_caps caps_callbacks caps) "general_object_types_encryption_key"
     = Z.b2z (negb (Z.land (general_obj_types caps) MLX5_HCA_CAP_GENERAL_OBJECT_TYPES_ENCRYPTION_KEY =? 0)).
Proof.
  intros Ha. unfold cap_of. rewrite (external_lookup caps 2 _ _ "general_object_types_encryption_key" eq_refl eq_refl) by by constructor.
  unfold store_hca_general_object_types_encryption_key_caps. rewrite (has_caps_all caps) by done.
  by destruct (_ =? 0); [|unfold assign; rewrite lookup_insert_eq].
Qed.

(** The NVMe/TCP members: the flag, and the rest when it is set. *)
Definition nvmeotcp_row : cap_row := out_row MLX5_CAP_GENERAL "cmd_hca_cap" "nvmeotcp_caps.enabled" [F "nvmeotcp"].

Lemma external_nvmeotcp caps :
  all_there caps ->
  let e := set_external_hca_caps caps_callbacks caps in
  let on := conv CBool (row_raw nvmeotcp_row (default [] (caps !! MLX5_CAP_GENERAL))) in
  e !! "nvmeotcp_caps.enabled" = Some on
  /\ forall r, r ∈ rows_nvmeotcp_on -> cap_of e (row_member r) =
       if on =? 0 then 0 else conv (type_of (row_member r)) (row_raw r (default [] (caps !! row_cap r))).
Proof.
  intros Ha e on. set (e1 := foldl (assign_row caps) ∅ rows_nvmeotcp_caps).
  assert (forall m, m ∈ nvmeotcp_members -> e !! m = store_hca_nvmeotcp_caps caps ∅ !! m) as Hl.
  { intros m Hm. by apply (external_lookup caps 15 _ nvmeotcp_members). }
  unfold store_hca_nvmeotcp_caps in Hl. rewrite (has_caps_all caps) in Hl by done. cbv zeta in Hl. fold e1 in Hl.
  assert (e1 = <["nvmeotcp_caps.enabled" := on]> ∅) as He1 by done.
  assert (cap_of e1 "nvmeotcp_caps.enabled" = on) as Hon by by rewrite He1; unfold cap_of; rewrite lookup_insert_eq.
  rewrite Hon in Hl. clearbody e e1 on. split.
  - rewrite Hl by by constructor. destruct (on =? 0); cbn [negb].
    + unfold assign. rewrite !lookup_insert_ne by done. rewrite He1. apply lookup_insert_eq.
    + unfold rows_nvmeotcp_on. cbn [foldl]. unfold assign_row, assign. rewrite !lookup_insert_ne by done. rewrite He1. apply lookup_insert_eq.
  - intros r Hr. unfold cap_of. rewrite Hl by (unfold nvmeotcp_members; rewrite map_app; apply list.elem_of_app; right; apply list_elem_of_fmap; by exists r).
    destruct (on =? 0); cbn [negb].
    + unfold rows_nvmeotcp_on in Hr. rewrite !list.elem_of_cons in Hr. rewrite He1. unfold assign.
      destruct Hr as [->|[->|[->|[->|[->|Hr]]]]]; [..|by apply not_elem_of_nil in Hr]; by vm_compute.
    + rewrite (rows_lookup caps rows_nvmeotcp_on e1 r); [done| |done]. intros. by apply (rows_agree_spec rows_nvmeotcp_on).
Qed.

Lemma external_plain caps r :
  all_there caps -> r ∈ plain_rows ->
  set_external_hca_caps caps_callbacks caps !! row_member r
    = Some (conv (type_of (row_member r)) (row_raw r (default [] (caps !! row_cap r)))).
Proof.
  intros Ha. unfold plain_rows. rewrite !list.elem_of_app.
  intros Hr. repeat match type of Hr with _ \/ _ => destruct Hr as [Hr|Hr] end.
  - by apply (external_rows caps 0 [MLX5_CAP_GENERAL] rows_device_frequency_khz_caps).
  - by apply (external_rows caps 1 [MLX5_CAP_GENERAL] rows_tls_caps).
  - by apply (external_rows caps 3 [MLX5_CAP_GENERAL] rows_log_max_dek_caps).
  - by apply (external_rows caps 4 [MLX5_CAP_TLS] rows_tls_1_2_aes_gcm_caps).
  - by apply (external_rows caps 5 [MLX5_CAP_GENERAL] rows_cap_crypto_enable).
  - by apply (external_rows caps 6 [MLX5_CAP_GENERAL] rows_sq_ts_format_caps).
  - by apply (external_rows caps 7 [MLX5_CAP_GENERAL] rows_rq_ts_format_caps).
  - by apply (external_rows caps 8 [MLX5_CAP_ETHERNET_OFFLOADS] rows_lro_caps).
  - by apply (external_rows caps 9 [MLX5_CAP_GENERAL; MLX5_CAP_DPP] rows_ibq_caps).
  - by apply external_parse.
  - by apply (external_rows caps 11 [MLX5_CAP_GENERAL_2] rows_2_reformat_caps).
  - by apply (external_rows caps 12 [MLX5_CAP_GENERAL; MLX5_CAP_FLOW_TABLE] rows_flow_table_caps).
  - apply (external_rows caps 13 [MLX5_CAP_FLOW_TABLE; MLX5_CAP_GENERAL] rows_flow_table_nic_receive_caps); [done..|by vm_compute|done].
  - by apply (external_rows caps 14 [MLX5_CAP_CRYPTO] rows_crypto_caps).
  - apply list_elem_of_singleton in Hr. subst r. apply (external_nvmeotcp caps Ha).
Qed.

(** Some declared members are never stored. *)
Definition never_stored : list string :=
  ["flow_table_caps.receive.modify_flow_action_caps.set_fields_support.prog_sample_field";
   "flow_table_caps.receive.modify_flow_action_caps.copy_fields_support.outer_ethertype";
   "flow_table_caps.receive.modify_flow_action_caps.copy_fields_support.prog_sample_field";
   "flow_table_caps.receive.ft_field_support.outer_ethertype";
   "nvmeotcp_caps.version"].

Lemma never_stored_spec :
  filter (fun m => m ∉ mjoin written) (map fst adapter_hca_capabilities_members) = never_stored.
Proof. vm_compute. reflexivity. Qed.

(** ** What the members stand for

    The members of dpcp.h against the fields of the reference manual, by group.
    Most carry the name of their field; the others are listed with it. *)
Record source := mkSource { src_member : string; src_cap : Z; src_group : string; src_path : list step }.

Definition field_value (d : source) (b : list Z) : Z :=
  DEVX_GET cap.query_hca_cap_out 0 ([F "capability"; F (src_group d)] ++ src_path d) b.

(** Members, behind a prefix, that are called as the fields they report. *)
Definition named (c : Z) (group pre : string) (names : list string) : list source :=
  map (fun n => mkSource (String.append pre n) c group [F n]) names.
(** Members with the names of their fields, in a structure inside the group. *)
Definition named_in (c : Z) (group pre : string) (path : list step) (names : list string) : list source :=
  map (fun n => mkSource (String.append pre n) c group (path ++ [F n])) names.
(** Members with the fields they report. *)
Definition renamed (c : Z) (group pre : string) (path : list step) (ms : list (string * string)) : list source :=
  map (fun m => mkSource (String.append pre m.1) c group (path ++ [F m.2])) ms.

Definition documented_fields : list source :=
  named MLX5_CAP_GENERAL "cmd_hca_cap" ""
    ["device_frequency_khz"; "tls_tx"; "tls_rx"; "log_max_dek"; "aes_xts_multi_block_le_tweak"; "aes_xts_tweak_inc_64";
     "aes_xts_single_block_le_tweak"; "aes_xts_multi_block_be_tweak"; "aes_xts_tweak_inc_shift"; "sq_ts_format"; "rq_ts_format"; "ibq"]
  ++ named MLX5_CAP_GENERAL "cmd_hca_cap" "flow_table_caps.receive.modify_flow_action_caps."
    ["log_max_num_header_modify_argument"; "log_header_modify_argument_granularity"; "log_header_modify_argument_max_alloc"]
  ++ renamed MLX5_CAP_GENERAL "cmd_hca_cap" "" []
    [("crypto_enable", "crypto"); ("is_flow_table_caps_supported", "nic_flow_table"); ("nvmeotcp_caps.enabled", "nvmeotcp")]
  ++ named MLX5_CAP_TLS "tls_cap" "" ["tls_1_2_aes_gcm_128"; "tls_1_2_aes_gcm_256"]
  ++ named MLX5_CAP_CRYPTO "crypto_cap" "" ["synchronize_dek"; "log_max_num_deks"]
  ++ named MLX5_CAP_DPP "ibq_cap" "" ["ibq_max_scatter_offset"]
  ++ named MLX5_CAP_ETHERNET_OFFLOADS "per_protocol_networking_offload_caps" ""
    ["lro_cap"; "lro_psh_flag"; "lro_time_stamp"; "lro_max_msg_sz_mode"; "lro_min_mss_size"]
  ++ map (fun mi => mkSource mi.1 MLX5_CAP_ETHERNET_OFFLOADS "per_protocol_networking_offload_caps" [F "lro_timer_supported_periods"; I mi.2])
    [("lro_timer_supported_periods[0]", 0); ("lro_timer_supported_periods[1]", 1);
     ("lro_timer_supported_periods[2]", 2); ("lro_timer_supported_periods[3]", 3)]
  ++ named MLX5_CAP_PARSE_GRAPH_NODE "parse_graph_node_cap" ""
    ["parse_graph_node_in"; "parse_graph_header_length_mode"; "parse_graph_flow_match_sample_offset_mode"; "max_num_parse_graph_arc_in";
     "max_num_parse_graph_flow_match_sample"; "parse_graph_flow_match_sample_id_in_out"; "max_parse_graph_header_length_base_value";
     "max_parse_graph_flow_match_sample_field_base_offset_value"; "parse_graph_header_length_field_mask_width"]
  ++ renamed MLX5_CAP_GENERAL_2 "cmd_hca_cap_2" "flow_table_caps." []
    [("reformat_flow_action_caps.max_size_reformat_insert_buff", "max_reformat_insert_size");
     ("reformat_flow_action_caps.max_reformat_insert_offset", "max_reformat_insert_offset");
     ("receive.is_flow_action_non_tunnel_reformat_and_fwd_to_flow_table", "non_tunnel_reformat")]
  ++ renamed MLX5_CAP_FLOW_TABLE "flow_table_nic_cap" "flow_table_caps." []
    [("receive.max_steering_depth", "nic_receive_max_steering_depth");
     ("reformat_flow_action_caps.max_log_num_of_packet_reformat", "log_max_packet_reformat_context")]
  ++ renamed MLX5_CAP_FLOW_TABLE "flow_table_nic_cap" "flow_table_caps.receive." [F "flow_table_properties_nic_receive"]
    [("is_flow_table_supported", "ft_support"); ("is_flow_action_tag_supported", "flow_tag");
     ("is_flow_action_modify_supported", "flow_modify_en"); ("is_flow_action_reformat_supported", "reformat");
     ("is_flow_action_reformat_from_type_insert_supported", "reformat_insert");
     ("is_flow_action_reformat_and_modify_supported", "reformat_and_modify_action");
     ("is_flow_action_reformat_and_fwd_to_flow_table", "reformat_and_fwd_to_table");
     ("is_flow_action_reparse_supported", "reparse"); ("max_log_size_flow_table", "log_max_ft_size");
     ("max_flow_table_level", "max_ft_level"); ("max_log_num_of_flow_table", "log_max_ft_num");
     ("max_log_num_of_flow_rule", "log_max_flow");
     ("modify_flow_action_caps.max_obj_log_num", "log_max_modify_header_context");
     ("modify_flow_action_caps.max_obj_in_flow_rule", "max_modify_header_actions")]
  ++ named_in MLX5_CAP_FLOW_TABLE "flow_table_nic_cap" "flow_table_caps.receive.ft_field_support."
    [F "flow_table_properties_nic_receive"; F "ft_field_support"]
    ["outer_udp_dport"; "prog_sample_field"; "metadata_reg_c_0"; "metadata_reg_c_1"]
  ++ renamed MLX5_CAP_FLOW_TABLE "flow_table_nic_cap" "flow_table_caps.receive.modify_flow_action_caps.set_fields_support."
    [F "header_modify_nic_receive"; F "set_action_field_support"] [("outer_ethertype", "outer_ether_type")]
  ++ named_in MLX5_CAP_FLOW_TABLE "flow_table_nic_cap" "flow_table_caps.receive.modify_flow_action_caps.set_fields_support."
    [F "header_modify_nic_receive"; F "set_action_field_support"] ["outer_udp_dport"; "metadata_reg_c_0"; "metadata_reg_c_1"]
  ++ named_in MLX5_CAP_FLOW_TABLE "flow_table_nic_cap" "flow_table_caps.receive.modify_flow_action_caps.copy_fields_support."
    [F "header_modify_nic_receive"; F "copy_action_field_support"] ["outer_udp_dport"; "metadata_reg_c_0"; "metadata_reg_c_1"].

(** Members that are reported when the NVMe/TCP group is on. *)
Definition nvmeotcp_fields : list source :=
  named MLX5_CAP_NVMEOTCP "nvmeotcp_cap" "nvmeotcp_caps."
    ["zerocopy"; "crc_rx"; "crc_tx"; "log_max_nvmeotcp_tag_buffer_table"; "log_max_nvmeotcp_tag_buffer_size"].

(** The member of 64 bits, and the members that are bits of the object types. *)
Definition other_members : list string :=
  ["ibq_wire_protocol"; "general_object_types_encryption_key"; "general_object_types_parse_graph_node"].

(** Every member of the structure is accounted for, once. *)
Lemma members_accounted :
  map fst adapter_hca_capabilities_members ≡ₚ
  map src_member documented_fields ++ map src_member nvmeotcp_fields ++ other_members ++ never_stored.
Proof. apply (bool_decide_unpack _). vm_compute. exact Logic.I. Qed.

(** The value of a member: the field, of which the four timer periods keep the low
    byte. *)
Definition reported (d : source) (b : list Z) : Z :=
  if bool_decide (src_member d ∈ narrowed) then field_value d b mod 2 ^ 8 else field_value d b.

(** The assignment that serves a member reads the field. *)
Definition served_by (d : source) (r : cap_row) : bool :=
  String.eqb (row_member r) (src_member d) && (row_cap r =? src_cap d) && negb (row_64 r)
  && f_eqb (fld (row_layout r) (row_base r) (row_path r)) (fld cap.query_hca_cap_out 0 ([F "capability"; F (src_group d)] ++ src_path d)).

Lemma fields_served :
  forallb (fun d => existsb (served_by d) plain_rows) documented_fields
  && forallb (fun d => existsb (served_by d) rows_nvmeotcp_on) nvmeotcp_fields = true.
Proof. vm_compute. reflexivity. Qed.

Lemma served_reported d r b : served_by d r = true ->
  row_member r = src_member d /\ row_cap r = src_cap d /\ published r b = reported d b.
Proof.
  unfold served_by. rewrite !andb_true_iff. intros (((E1%String.eqb_eq & E2%Z.eqb_eq) & E3%negb_true_iff) & E4%f_eqb_eq).
  split_and!; [done|done|]. unfold published, reported, row_raw, field_value, DEVX_GET. by rewrite E1, E3, E4.
Qed.

(** What the structure says when the groups were answered with [ans]. *)
Record caps_reported (ans : Z -> list Z) (e : hca_capabilities) : Prop := mkReported {
  cr_fields : forall d, d ∈ documented_fields -> cap_of e (src_member d) = reported d (ans (src_cap d));
  cr_ibq : cap_of e "ibq_wire_protocol" =
    DEVX_GET64 cap.query_hca_cap_out 0 [F "capability"; F "ibq_cap"; F "ibq_wire_protocol"] (ans MLX5_CAP_DPP);
  cr_key : cap_of e "general_object_types_encryption_key" =
    Z.b2z (negb (Z.land (DEVX_GET64 cap.query_hca_cap_out 0 [F "capability"; F "cmd_hca_cap"; F "general_obj_types"] (ans MLX5_CAP_GENERAL))
                        MLX5_HCA_CAP_GENERAL_OBJECT_TYPES_ENCRYPTION_KEY =? 0));
  cr_parse : cap_of e "general_object_types_parse_graph_node" =
    Z.b2z (negb (Z.land (DEVX_GET64 cap.query_hca_cap_out 0 [F "capability"; F "cmd_hca_cap"; F "general_obj_types"] (ans MLX5_CAP_GENERAL))
                        MLX5_HCA_CAP_GENERAL_OBJECT_TYPES_PARSE_GRAPH_NODE =? 0));
  cr_nvmeotcp : forall d, d ∈ nvmeotcp_fields -> cap_of e (src_member d) =
    if DEVX_GET cap.query_hca_cap_out 0 [F "capability"; F "cmd_hca_cap"; F "nvmeotcp"] (ans MLX5_CAP_GENERAL) =? 0
    then 0 else reported d (ans (src_cap d));
  cr_never : forall m, m ∈ never_stored -> cap_of e m = 0
}.

Lemma served_in d ds rows :
  forallb (fun d => existsb (served_by d) rows) ds = true -> d ∈ ds -> exists r, r ∈ rows /\ served_by d r = true.
Proof.
  rewrite forallb_forall. intros Hf Hd%list_elem_of_In%Hf. apply existsb_exists in Hd as (r & Hr & E).
  exists r. split; [by apply list_elem_of_In|done].
Qed.

Lemma documented_served d : d ∈ documented_fields -> exists r, r ∈ plain_rows /\ served_by d r = true.
Proof. pose proof fields_served as Hf. apply andb_prop in Hf as [Hf _]. exact (served_in d _ _ Hf). Qed.

Lemma nvmeotcp_served d : d ∈ nvmeotcp_fields -> exists r, r ∈ rows_nvmeotcp_on /\ served_by d r = true.
Proof. pose proof fields_served as Hf. apply andb_prop in Hf as [_ Hf]. exact (served_in d _ _ Hf). Qed.

Lemma external_never caps m : m ∈ never_stored -> cap_of (set_external_hca_caps caps_callbacks caps) m = 0.
Proof.
  intros Hm. unfold cap_of, set_external_hca_caps. rewrite (table_untouched caps caps_callbacks written ∅ m); [done| |].
  - apply callbacks_add.
  - intros ms Hms Hin. rewrite <- never_stored_spec in Hm. apply list_elem_of_filter in Hm as [Hm _].
    apply Hm. apply list_elem_of_join. by exists ms.
Qed.

Lemma row_cap_supported r : r ∈ plain_rows ++ rows_nvmeotcp_on -> row_cap r ∈ s_supported_cap_types.
Proof.
  intros Hr. assert (forallb (fun r => bool_decide (row_cap r ∈ s_supported_cap_types)) (plain_rows ++ rows_nvmeotcp_on) = true) as Hc
    by (vm_compute; reflexivity).
  rewrite forallb_forall in Hc. apply list_elem_of_In in Hr. specialize (Hc r Hr). by apply bool_decide_eq_true in Hc.
Qed.

Lemma external_reported ans caps :
  (forall t, t ∈ s_supported_cap_types -> caps !! t = Some (ans t)) -> (forall t, is_bytes (ans t)) ->
  caps_reported ans (set_external_hca_caps caps_callbacks caps).
Proof.
  intros Hans Hb. assert (all_there caps) as Ha by (intros t Ht; rewrite Hans by done; by eexists).
  assert (caps !! MLX5_CAP_GENERAL = Some (ans MLX5_CAP_GENERAL)) as Hg by (apply Hans; constructor).
  assert (forall r, r ∈ plain_rows -> cap_of (set_external_hca_caps caps_callbacks caps) (row_member r) = published r (ans (row_cap r))) as Hplain.
  { intros r Hr. assert (r ∈ plain_rows ++ rows_nvmeotcp_on) as Hr' by (apply list.elem_of_app; by left).
    unfold cap_of. rewrite external_plain, Hans by (done || by apply row_cap_supported). by apply row_published. }
  split.
  - intros d Hd. destruct (documented_served d Hd) as (r & Hr & E). destruct (served_reported d r (ans (src_cap d)) E) as (E1 & E2 & <-).
    rewrite <- E1, <- E2. by apply Hplain.
  - set (r := mkRow "ibq_wire_protocol" MLX5_CAP_DPP false [F "capability"; F "ibq_cap"; F "ibq_wire_protocol"] true).
    apply (Hplain r). apply (bool_decide_unpack _). vm_compute. exact Logic.I.
  - rewrite external_key by done. unfold general_obj_types. by rewrite Hg.
  - destruct (external_parse caps Ha) as [_ ->]. unfold general_obj_types. by rewrite Hg.
  - intros d Hd. destruct (nvmeotcp_served d Hd) as (r & Hr & E). destruct (served_reported d r (ans (src_cap d)) E) as (E1 & E2 & <-).
    rewrite <- E1, <- E2. assert (r ∈ plain_rows ++ rows_nvmeotcp_on) as Hr' by (apply list.elem_of_app; by right).
    destruct (external_nvmeotcp caps Ha) as [_ ->]; [|done]. rewrite Hg, Hans by by apply row_cap_supported. simpl default.
    rewrite row_published by done. unfold conv.
    change (row_raw nvmeotcp_row (ans MLX5_CAP_GENERAL)) with
      (DEVX_GET cap.query_hca_cap_out 0 [F "capability"; F "cmd_hca_cap"; F "nvmeotcp"] (ans MLX5_CAP_GENERAL)).
    generalize (DEVX_GET cap.query_hca_cap_out 0 [F "capability"; F "cmd_hca_cap"; F "nvmeotcp"] (ans MLX5_CAP_GENERAL)). intros z.
    by destruct (z =? 0).
  - intros m. apply external_never.
Qed.

(** ** The queries *)

Definition query_in (t : Z) : list Z := mailbox ifc.query_hca_cap_in (query_hca_cap_ws t).

(** The command buffers of the loop, one per group. *)
Fixpoint loop_bufs (types : list Z) (inb : list Z) : list (list Z) :=
  match types with
  | [] => []
  | t :: ts => let inb := exec (query_hca_cap_ws t) inb in inb :: loop_bufs ts inb
  end.

Lemma loop_bufs_eq : loop_bufs s_supported_cap_types (zeros (ST_SZ_BYTES ifc.query_hca_cap_in)) = map query_in s_supported_cap_types.
Proof. vm_compute. reflexivity. Qed.

(** A query names its group and asks for the current values. *)
Lemma query_in_says t :
  0 <= t < 2 ^ 15 ->
  DEVX_GET ifc.query_hca_cap_in 0 ["opcode"] (query_in t) = MLX5_CMD_OP_QUERY_HCA_CAP
  /\ DEVX_GET ifc.query_hca_cap_in 0 ["op_mod"] (query_in t) = 2 * t + 1.
Proof.
  intros Ht. assert (Z.lor (Z.shiftl t 1) HCA_CAP_OPMOD_GET_CUR = 2 * t + 1) as E.
  { destruct t as [|p|p]; [done|done|lia]. }
  unfold query_in, query_hca_cap_ws. rewrite E. assert (0 <= 2 * t + 1 < 2 ^ 16) as Hv by lia.
  generalize dependent (2 * t + 1). intros v E Hv. split; mbox; [done|]. symmetry. by apply Z.mod_small.
Qed.

Section query_ok.
Context {D : Type} `{DevX D}.

(** The device answers the query of a group with [ans]. *)
Definition answers (ctx : Z) (ans : Z -> list Z) : Prop :=
  forall t d, t ∈ s_supported_cap_types ->
    (mlx5dv_devx_general_cmd ctx (query_in t) (zeros (ST_SZ_BYTES cap.query_hca_cap_out)) d).1.2 = ans t.

Lemma wp_exec_cmd ctx inb outb Q (w : world D) :
  (forall r o d w', mlx5dv_devx_general_cmd ctx inb outb (dev w) = (r, o, d) -> heap w' = heap w -> next w' = next w ->
     oom w' = oom w -> calls w' = CGeneralCmd inb :: calls w -> dev w' = d ->
     Q (if r =? 0 then DCMD_EOK else DCMD_EIO, o) w') ->
  wp (exec_cmd ctx inb outb) Q w.
Proof.
  intros HQ. unfold exec_cmd. apply wp_bind, wp_device. intros [r o] d w' E Hh Hn Ho Hc Hd. apply wp_ret.
  destruct (mlx5dv_devx_general_cmd ctx inb outb (dev w)) as [[r' o'] d'] eqn:E'. simplify_eq. by eapply HQ.
Qed.

(** The loop leaves the answer of each group in its buffer. *)
Lemma query_loop_ok ctx ans types inb (caps : caps_map_t) bufs w :
  loop_bufs types inb = map query_in bufs -> types = bufs -> NoDup types ->
  (forall t, t ∈ types -> t ∈ s_supported_cap_types /\ caps !! t = Some (zeros (ST_SZ_BYTES cap.query_hca_cap_out))) ->
  answers ctx ans ->
  wp (query_loop ctx types inb caps) (fun caps' w' =>
    (forall t, caps' !! t = if decide (t ∈ types) then Some (ans t) else caps !! t)
    /\ heap w' = heap w /\ next w' = next w /\ oom w' = oom w
    /\ calls w' = rev (map (fun t => CGeneralCmd (query_in t)) types) ++ calls w) w.
Proof.
  intros Hb -> Hnd Ht Hans. revert inb caps w Hb Hnd Ht. induction bufs as [|t ts IH]; intros inb caps w Hb Hnd Ht.
  - apply wp_ret. split_and!; [|done..]. intros t. by rewrite decide_False by apply not_elem_of_nil.
  - cbn [query_loop]. cbn [loop_bufs map] in Hb.
    pose proof (f_equal head Hb) as E1. pose proof (f_equal tail Hb) as E2. cbn [head tail] in E1, E2. apply (inj Some) in E1. clear Hb.
    assert (t ∈ t :: ts) as Hin by constructor. destruct (Ht t Hin) as [Hs ->]. simpl default.
    rewrite E1 in *.
    apply list.NoDup_cons in Hnd as [Hnt Hnd].
    apply wp_bind, wp_exec_cmd. intros r o d w1 E Hh Hn Ho Hc Hd.
    assert (o = ans t) as -> by (by rewrite <- (Hans t (dev w) Hs), E).
    eapply wp_mono; [|apply IH; [done|done|]].
    + intros caps' w' (Hc' & Hh' & Hn' & Ho' & Hca). split_and!; [|congruence..|].
      * intros x. rewrite Hc'. destruct (decide (x = t)) as [->|Hx].
        -- rewrite lookup_insert_eq, (decide_False (P := t ∈ ts)) by done. by rewrite decide_True by constructor.
        -- rewrite lookup_insert_ne by done. destruct (decide (x ∈ ts)); [by rewrite decide_True by by constructor|].
           by rewrite decide_False by (by intros [|]%list.elem_of_cons).
      * rewrite Hca, Hc. simpl. by rewrite <- app_assoc.
    + intros x Hx. destruct (Ht x) as [? ?]; [by constructor|]. rewrite lookup_insert_ne; [done|]. by intros ->.
Qed.
End query_ok.
