(* ===== verification/AdapterLife.v ===== *)
(** * The adapter: construction, domains, opening, clock, destruction
      (src/src/dpcp/adapter.cpp, the domain classes of internal.h and the
      context of src/src/dcmd/linux/ctx.cpp)

    The adapter owns the context, a protection domain, a transport domain, the
    UAR pool, the answers of the capability queries and the structure they were
    decoded to.  Its construction, the operations that set or create the
    domains, [open] and the destructor are modelled on the heap of the other
    components. *)

From stdpp Require Import strings.
From S2P Require Import Prelude Codec Prm PrmCaps Dcmd Own Sim Obj Uar Caps.
Open Scope string_scope.
Open Scope list_scope.
Open Scope Z_scope.
Open Scope m_scope.

(** ** The device functions used here *)

Class DevXDomain (D : Type) := {
  ibv_alloc_pd : Z -> D -> option Z * D;
  ibv_dealloc_pd : Z -> D -> Z * D;
  mlx5dv_init_pd : Z -> D -> Z * Z * D;            (* result and [pdn] *)
  mlx5dv_query_clock : Z -> D -> Z * option Z * D; (* result and [hca_core_clock] *)
  mlx5dv_devx_query_eqn : Z -> Z -> D -> Z * Z * D;
  clock_page : Z -> D -> list Z;                   (* the mapped registers *)
  ibv_close_device : Z -> D -> D
}.

(** ** Domains *)

(** [pd_devx], or [pd_ibv] with [m_ibv_pd] and [m_is_external_ibv_pd]. *)
Inductive pd_class : Type := PdDevx | PdIbv (ibv : option Z) (external : bool).
Record pd := mkPd { pd_obj : obj; pd_pd_id : Z; pd_cls : pd_class }.
Record td := mkTd { td_obj : obj; td_td_id : Z }.

Definition pd_devx_new (ctx : option Z) : pd := mkPd (obj_new ctx) 0 PdDevx.
Definition pd_ibv_new (ctx : option Z) (ibv : option Z) : pd :=
  mkPd (obj_new ctx) 0 (PdIbv ibv (match ibv with Some _ => true | None => false end)).
Definition td_new (ctx : option Z) : td := mkTd (obj_new ctx) 0.

(** [pd_ibv::get_ibv_pd] *)
Definition get_ibv_pd (p : pd) : option Z := match pd_cls p with PdIbv i _ => i | PdDevx => None end.

Definition alloc_pd_in : list Z := mailbox ifc.alloc_pd_in [DEVX_SET ifc.alloc_pd_in 0 ["opcode"] MLX5_CMD_OP_ALLOC_PD].
Definition alloc_td_in : list Z :=
  mailbox ifc.alloc_transport_domain_in [DEVX_SET ifc.alloc_transport_domain_in 0 ["opcode"] MLX5_CMD_OP_ALLOC_TRANSPORT_DOMAIN].

Section domains.
Context {D : Type} `{DevX D} `{DevXDomain D}.

(** [pd_devx::create] *)
Definition pd_devx_create (p : pd) : M D (status * pd) :=
  '(st, o, out) <- obj_create (pd_obj p) (Some alloc_pd_in) (Some (zeros (ST_SZ_BYTES ifc.alloc_pd_out)));;
  ret (st, mkPd o (if is_ok st then DEVX_GET ifc.alloc_pd_out 0 ["pd"] out else pd_pd_id p) (pd_cls p)).

(** [ctx::create_ibv_pd]: the result and [pdn] *)
Definition DCMD_EINVAL : Z := 22.
Definition ctx_create_ibv_pd (ibv pdn : Z) : M D (Z * Z) :=
  '(r, n) <- device (fun d => let '(r, n, d') := mlx5dv_init_pd ibv d in ((r, n), d')) (fun _ => CQueryDevice);;
  ret (if r =? 0 then (DCMD_EOK, n) else (DCMD_EINVAL, pdn)).

(** The end of [pd_ibv::create]: the number of the domain [ibv]. *)
Definition pd_ibv_number (p : pd) (ibv : Z) (ext : bool) : M D (status * pd) :=
  '(err, pdn) <- ctx_create_ibv_pd ibv (pd_pd_id p);;
  ret (if err =? DCMD_EOK then DPCP_OK else DPCP_ERR_INVALID_ID, mkPd (pd_obj p) pdn (PdIbv (Some ibv) ext)).

(** [pd_ibv::create] *)
Definition pd_ibv_create (p : pd) (ibv : option Z) (ext : bool) : M D (status * pd) :=
  match m_ctx (pd_obj p) with
  | None => ret (DPCP_ERR_NO_CONTEXT, p)
  | Some ctx =>
      if negb ext then
        i <- device (ibv_alloc_pd ctx) CPdAlloc;;
        match i with
        | None => ret (DPCP_ERR_CREATE, mkPd (pd_obj p) (pd_pd_id p) (PdIbv None ext))
        | Some i => pd_ibv_number p i ext
        end
      else
        i <- need ibv "external domain without a handle";;
        pd_ibv_number p i ext
  end.

(** [m_pd->create()], and [delete m_pd] with its block. *)
Definition pd_create (p : pd) : M D (status * pd) :=
  match pd_cls p with
  | PdDevx => pd_devx_create p
  | PdIbv ibv ext => pd_ibv_create p ibv ext
  end.

Definition pd_ibv_dealloc (p : pd) : M D unit :=
  match pd_cls p with
  | PdIbv (Some i) false => _ <- device (ibv_dealloc_pd i) (fun _ => CPdDealloc i);; ret tt
  | _ => ret tt
  end.

Definition pd_delete (pp : option (Z * pd)) : M D unit :=
  match pp with
  | None => ret tt
  | Some (self, p) => pd_ibv_dealloc p;; _ <- obj_delete (pd_obj p);; dealloc self
  end.

(** [td::create], and [delete m_td] with its block. *)
Definition td_create (t : td) : M D (status * td) :=
  '(st, o, out) <- obj_create (td_obj t) (Some alloc_td_in) (Some (zeros (ST_SZ_BYTES ifc.alloc_transport_domain_out)));;
  ret (st, mkTd o (if is_ok st then DEVX_GET ifc.alloc_transport_domain_out 0 ["transport_domain"] out else td_td_id t)).

Definition td_delete (tt_ : option (Z * td)) : M D unit :=
  match tt_ with
  | None => ret tt
  | Some (self, t) => _ <- obj_delete (td_obj t);; dealloc self
  end.

(** ** The context's clock *)

(** [ctx::hca_iseg_mapping]: the result and the mapping, [None] when the library
    left it null. *)
Definition hca_iseg_mapping (ctx : Z) : M D (Z * option Z) :=
  '(r, c) <- device (fun d => let '(r, c, d') := mlx5dv_query_clock ctx d in ((r, c), d')) (fun _ => CQueryDevice);;
  ret (if r =? 0 then DCMD_EOK else DCMD_EIO, c).

Definition HCA_CORE_CLOCK_TO_REAL_TIME_CLOCK_OFFSET : Z := 64.

(** [ctx::get_real_time] *)
Definition ctx_get_real_time (clock : option Z) : M D Z :=
  p <- need clock "null hca_core_clock";;
  peek (fun d => be64_to_cpu (clock_page p d) HCA_CORE_CLOCK_TO_REAL_TIME_CLOCK_OFFSET).
End domains.

(** ** State *)

Record adapter_state := mkAS {
  a_ctx : Z;                                   (* m_dcmd_ctx *)
  a_clock : option Z;                          (* hca_core_clock of the context *)
  a_td : option (Z * td);
  a_pd : option (Z * pd);
  a_uarpool : option (Z * uar_collection);
  a_ibv_pd : option Z;
  a_pd_id : Z;
  a_td_id : Z;
  a_eqn : Z;
  a_caps_available : bool;
  a_caps : list (Z * Z);                       (* m_caps: the buffer of each group *)
  a_hca : Z * hca_capabilities;                (* m_external_hca_caps *)
  a_opened : bool
}.

Definition set_domains (a : adapter_state) (p : option (Z * pd)) (ibv : option Z) (id : Z) : adapter_state :=
  mkAS (a_ctx a) (a_clock a) (a_td a) p (a_uarpool a) ibv id (a_td_id a) (a_eqn a) (a_caps_available a) (a_caps a) (a_hca a) (a_opened a).
Definition set_tdom (a : adapter_state) (t : option (Z * td)) (id : Z) : adapter_state :=
  mkAS (a_ctx a) (a_clock a) t (a_pd a) (a_uarpool a) (a_ibv_pd a) (a_pd_id a) id (a_eqn a) (a_caps_available a) (a_caps a) (a_hca a) (a_opened a).
Definition set_pool (a : adapter_state) (u : option (Z * uar_collection)) : adapter_state :=
  mkAS (a_ctx a) (a_clock a) (a_td a) (a_pd a) u (a_ibv_pd a) (a_pd_id a) (a_td_id a) (a_eqn a) (a_caps_available a) (a_caps a) (a_hca a) (a_opened a).
Definition set_clock (a : adapter_state) (c : option Z) (opened : bool) : adapter_state :=
  mkAS (a_ctx a) c (a_td a) (a_pd a) (a_uarpool a) (a_ibv_pd a) (a_pd_id a) (a_td_id a) (a_eqn a) (a_caps_available a) (a_caps a) (a_hca a) opened.
Definition set_eqn (a : adapter_state) (e : Z) : adapter_state :=
  mkAS (a_ctx a) (a_clock a) (a_td a) (a_pd a) (a_uarpool a) (a_ibv_pd a) (a_pd_id a) (a_td_id a) e (a_caps_available a) (a_caps a) (a_hca a) (a_opened a).

(** The [int] value of a 32-bit pattern. *)
Definition int32 (v : Z) : Z := let u := wrap 32 v in if u <? 2 ^ 31 then u else u - 2 ^ 32.

(** [adapter::get_real_time] on the value of the register. *)
Definition real_time_of (rtc : Z) : status * option Z :=
  if rtc =? 0 then (DPCP_ERR_NO_CONTEXT, None)
  else
    let nanoseconds := wrap 32 (Z.land rtc (wrap 64 (Z.lnot (int32 (Z.shiftl 0x3 30))))) in
    let seconds := wrap 32 (Z.shiftr rtc 32) in
    (DPCP_OK, Some (wrap 64 (nanoseconds + seconds * 1000000000))).

Section adapter.
Context {D : Type} `{DevX D} `{DevXDomain D}.

(** The constructor: a zeroed buffer per group, the queries, the decoding.  A null
    buffer would be dereferenced by the decoding, and the [new] of the
    structure is the one that throws. *)
Fixpoint alloc_caps (types : list Z) : M D (list (Z * Z)) :=
  match types with
  | [] => ret []
  | t :: ts =>
      p <- alloc (BRaw (ST_SZ_BYTES cap.query_hca_cap_out));;
      p <- need p "null capability buffer";;
      r <- alloc_caps ts;;
      ret ((t, p) :: r)
  end.

Definition zeroed_caps (types : list Z) : caps_map_t :=
  list_to_map (map (fun t => (t, zeros (ST_SZ_BYTES cap.query_hca_cap_out))) types).

Definition adapter_new (ctx : Z) : M D adapter_state :=
  bufs <- alloc_caps s_supported_cap_types;;
  '(_, caps) <- query_hca_caps ctx (zeroed_caps s_supported_cap_types);;
  p <- alloc BMem;;
  p <- need p "std::bad_alloc";;
  ret (mkAS ctx None None None None None 0 0 0 true bufs (p, set_external_hca_caps caps_callbacks caps) false).

(** [adapter::set_pd] *)
Definition set_pd (a : adapter_state) (pdn : Z) (ibv : option Z) : status * adapter_state :=
  match ibv with
  | Some i => if pdn =? 0 then (DPCP_ERR_INVALID_PARAM, a) else (DPCP_OK, set_domains a (a_pd a) (Some i) pdn)
  | None => (DPCP_ERR_INVALID_PARAM, a)
  end.

(** [adapter::create_ibv_pd] *)
Definition create_ibv_pd (a : adapter_state) (ibv : option Z) : M D (status * adapter_state) :=
  match a_pd a with
  | Some _ => ret (if bool_decide (a_ibv_pd a = ibv) then DPCP_OK else DPCP_ERR_CREATE, a)
  | None =>
      self <- alloc BMem;;
      match self with
      | None => ret (DPCP_ERR_NO_MEMORY, a)
      | Some self =>
          '(st, p) <- pd_create (pd_ibv_new (Some (a_ctx a)) ibv);;
          let a := set_domains a (Some (self, p)) (a_ibv_pd a) (a_pd_id a) in
          if negb (is_ok st) then ret (st, a)
          else ret (set_pd a (pd_pd_id p) (get_ibv_pd p))
      end
  end.

(** [adapter::create_own_pd] *)
Definition create_own_pd (a : adapter_state) : M D (status * adapter_state) :=
  self <- alloc BMem;;
  match self with
  | None => ret (DPCP_ERR_NO_MEMORY, set_domains a None (a_ibv_pd a) (a_pd_id a))
  | Some self =>
      '(st, p) <- pd_create (pd_devx_new (Some (a_ctx a)));;
      if negb (is_ok st) then ret (st, set_domains a (Some (self, p)) (a_ibv_pd a) (a_pd_id a))
      else
        let '(st, id) := obj_get_id (pd_obj p) in
        ret (st, set_domains a (Some (self, p)) (a_ibv_pd a) (if is_ok st then id else a_pd_id a))
  end.

(** [adapter::set_td] *)
Definition set_td (a : adapter_state) (tdn : Z) : M D (status * adapter_state) :=
  if tdn =? 0 then ret (DPCP_ERR_INVALID_PARAM, a)
  else td_delete (a_td a);; ret (DPCP_OK, set_tdom a None tdn).

(** The parts of [adapter::open]. *)
Definition open_pd (a : adapter_state) : M D (status * adapter_state) :=
  if a_pd_id a =? 0 then create_ibv_pd a None else ret (DPCP_OK, a).

Definition open_td (a : adapter_state) : M D (status * adapter_state) :=
  if a_td_id a =? 0 then
    self <- alloc BMem;;
    match self with
    | None => ret (DPCP_ERR_NO_MEMORY, set_tdom a None (a_td_id a))
    | Some self =>
        '(st, t) <- td_create (td_new (Some (a_ctx a)));;
        if negb (is_ok st) then ret (st, set_tdom a (Some (self, t)) (a_td_id a))
        else
          let '(st, id) := obj_get_id (td_obj t) in
          ret (st, set_tdom a (Some (self, t)) (if is_ok st then id else a_td_id a))
    end
  else ret (DPCP_OK, a).

Definition open_pool (a : adapter_state) : M D (status * adapter_state) :=
  match a_uarpool a with
  | Some _ => ret (DPCP_OK, a)
  | None =>
      p <- alloc BMem;;
      match p with
      | None => ret (DPCP_ERR_NO_MEMORY, a)
      | Some p => ret (DPCP_OK, set_pool a (Some (p, uar_collection_new (a_ctx a))))
      end
  end.

Definition open_clock (a : adapter_state) : M D (status * adapter_state) :=
  '(err, c) <- hca_iseg_mapping (a_ctx a);;
  if err =? 0 then ret (DPCP_OK, set_clock a c true) else ret (DPCP_ERR_NO_CONTEXT, set_clock a c (a_opened a)).

(** [m; if (DPCP_OK != ret) return ret; k] *)
Definition then_ok (m : M D (status * adapter_state)) (k : adapter_state -> M D (status * adapter_state))
  : M D (status * adapter_state) :=
  '(st, a) <- m;; if is_ok st then k a else ret (st, a).

(** [adapter::open] *)
Definition open (a : adapter_state) : M D (status * adapter_state) :=
  if a_opened a then ret (DPCP_OK, a)
  else then_ok (open_pd a) (fun a => then_ok (open_td a) (fun a => then_ok (open_pool a) open_clock)).

(** [adapter::query_eqn] *)
Definition query_eqn (a : adapter_state) (cpu_vector : Z) : M D (status * adapter_state) :=
  '(r, e) <- device (fun d => let '(r, e, d') := mlx5dv_devx_query_eqn (a_ctx a) cpu_vector d in ((r, e), d'))
                    (fun _ => CQueryEqn cpu_vector);;
  ret (if r =? 0 then (DPCP_OK, set_eqn a e) else (DPCP_ERR_QUERY, a)).

(** [adapter::get_real_time] *)
Definition get_real_time (a : adapter_state) : M D (status * option Z) :=
  rtc <- ctx_get_real_time (a_clock a);;
  ret (real_time_of rtc).

(** [adapter::~adapter] *)
Fixpoint free_caps (bufs : list (Z * Z)) : M D unit :=
  match bufs with
  | [] => ret tt
  | (_, p) :: r => dealloc p;; free_caps r
  end.

Definition pool_delete (u : option (Z * uar_collection)) : M D unit :=
  match u with
  | None => ret tt
  | Some (self, c) => uar_collection_delete c;; dealloc self
  end.

Definition adapter_delete (a : adapter_state) : M D unit :=
  pd_delete (a_pd a);; td_delete (a_td a);; pool_delete (a_uarpool a);; free_caps (a_caps a);;
  dealloc (a_hca a).1;;
  _ <- device (fun d => (tt, ibv_close_device (a_ctx a) d)) (fun _ => CCloseDevice (a_ctx a));;
  ret tt.
End adapter.

(** ** The domains of verbs that are alive

    From the calls made: those allocated and not yet released. *)
Fixpoint remove1 (i : Z) (l : list Z) : list Z :=
  match l with [] => [] | x :: r => if x =? i then r else x :: remove1 i r end.

Fixpoint live_pds (cs : list call) : list Z :=
  match cs with
  | [] => []
  | CPdAlloc (Some i) :: r => i :: live_pds r
  | CPdDealloc i :: r => remove1 i (live_pds r)
  | _ :: r => live_pds r
  end.

(** A computation that allocates and releases none. *)
Definition quiet {D A} (m : M D A) : Prop :=
  forall w, match m w with Ret (_, w') => live_pds (calls w') = live_pds (calls w) | UB _ => True end.

Section quiet.
Context {D : Type}.

Lemma quiet_ret {A} (a : A) : quiet (ret (D := D) a).
Proof. by intros w. Qed.

Lemma quiet_bind {A B} (m : M D A) (k : A -> M D B) : quiet m -> (forall a, quiet (k a)) -> quiet (bind m k).
Proof.
  intros Hm Hk w. unfold bind. specialize (Hm w). destruct (m w) as [[a w1]|]; [|done].
  specialize (Hk a w1). destruct (k a w1) as [[b w2]|]; [congruence|done].
Qed.

Lemma quiet_alloc b : quiet (D := D) (alloc b).
Proof. intros w. unfold alloc. by destruct (oom w) as [|[] r]. Qed.
Lemma quiet_dealloc p : quiet (D := D) (dealloc p).
Proof. intros w. unfold dealloc. by destruct (heap w !! p). Qed.
Lemma quiet_load p : quiet (D := D) (load p).
Proof. intros w. unfold load. by destruct (heap w !! p). Qed.
Lemma quiet_store p b : quiet (D := D) (store p b).
Proof. intros w. unfold store. by destruct (heap w !! p). Qed.
Lemma quiet_need {A} (o : option A) s : quiet (D := D) (need o s).
Proof. by destruct o. Qed.
Lemma quiet_ub {A} s : quiet (D := D) (A := A) (ub s).
Proof. done. Qed.

Lemma quiet_device {A} (f : D -> A * D) (c : A -> call) :
  (forall a cs, live_pds (c a :: cs) = live_pds cs) -> quiet (device f c).
Proof. intros Hc w. unfold device. destruct (f (dev w)) as [a d]. apply Hc. Qed.

Lemma wp_quiet {A} (m : M D A) Q w :
  quiet m -> wp m Q w -> wp m (fun a w' => Q a w' /\ live_pds (calls w') = live_pds (calls w)) w.
Proof. intros Hq. specialize (Hq w). unfold wp. by destruct (m w) as [[a w']|]. Qed.
End quiet.

Create HintDb quiet_db.
#[export] Hint Resolve quiet_ret quiet_alloc quiet_dealloc quiet_load quiet_store quiet_need quiet_ub : quiet_db.

Ltac quiet :=
  repeat first
    [ progress intros
    | apply quiet_bind
    | apply quiet_device; done
    | solve [auto with quiet_db]
    | match goal with |- quiet (match ?x with _ => _ end) => destruct x end ].

Section quiet_objs.
Context {D : Type} `{DevX D} `{DevXDomain D}.

Lemma quiet_obj_create o i ob : quiet (obj_create o i ob).
Proof. unfold obj_create, create_obj. quiet. Qed.
Lemma quiet_obj_delete o : quiet (obj_delete o).
Proof. unfold obj_delete, delete_obj, dobj_destroy. quiet. Qed.
Lemma quiet_pool_delete u : quiet (pool_delete u).
Proof. unfold pool_delete, uar_collection_delete, delete_uar. quiet. Qed.
Lemma quiet_get_uar c k t : quiet (get_uar c k t).
Proof. unfold get_uar, uar_allocate, create_uar. quiet. Qed.
Lemma quiet_free_caps l : quiet (D := D) (free_caps l).
Proof. induction l as [|[t p] l IH]; simpl; quiet. Qed.
Lemma quiet_td_create t : quiet (td_create t).
Proof. unfold td_create. apply quiet_bind; [apply quiet_obj_create|]. quiet. Qed.
Lemma quiet_pd_devx_create t : quiet (pd_devx_create t).
Proof. unfold pd_devx_create. apply quiet_bind; [apply quiet_obj_create|]. quiet. Qed.
Lemma quiet_td_delete t : quiet (td_delete t).
Proof. unfold td_delete. destruct t as [[s t]|]; [|quiet]. apply quiet_bind; [apply quiet_obj_delete|]. quiet. Qed.
Lemma quiet_pd_number p i e : quiet (pd_ibv_number p i e).
Proof. unfold pd_ibv_number, ctx_create_ibv_pd. quiet. Qed.
End quiet_objs.
#[export] Hint Resolve quiet_obj_create quiet_obj_delete quiet_pool_delete quiet_get_uar quiet_free_caps
  quiet_td_create quiet_pd_devx_create quiet_td_delete quiet_pd_number : quiet_db.

(** ** Invariant *)

Definition pd_own (p : option (Z * pd)) : list (Z * kind) :=
  match p with Some (s, p) => (s, KMem) :: obj_own (pd_obj p) | None => [] end.
Definition td_own (t : option (Z * td)) : list (Z * kind) :=
  match t with Some (s, t) => (s, KMem) :: obj_own (td_obj t) | None => [] end.
Definition pool_own (u : option (Z * uar_collection)) : list (Z * kind) :=
  match u with Some (s, c) => (s, KMem) :: uars_of c | None => [] end.
Definition caps_own (a : adapter_state) : list (Z * kind) :=
  map (fun b => (b.2, KRaw)) (a_caps a) ++ [((a_hca a).1, KMem)].

Definition as_own (a : adapter_state) : list (Z * kind) :=
  pd_own (a_pd a) ++ td_own (a_td a) ++ pool_own (a_uarpool a) ++ caps_own a.

(** The verbs domain the adapter must release. *)
Definition pds_of (p : option (Z * pd)) : list Z :=
  match p with Some (_, mkPd _ _ (PdIbv (Some i) false)) => [i] | _ => [] end.

(** No queue holds an exclusive UAR. *)
Definition pool_wf (u : option (Z * uar_collection)) : Prop :=
  match u with Some (_, c) => uc_wf c /\ m_ex_uars c = [] | None => True end.

(** [l], [h]: what else is on the heap; [ps]: the domains others allocated. *)
Definition as_ok {D} (a : adapter_state) (l : list (Z * kind)) (h : gmap Z blk) (ps : list Z) (w : world D) : Prop :=
  pool_wf (a_uarpool a) /\ own (as_own a ++ l) h w /\ live_pds (calls w) = pds_of (a_pd a) ++ ps.

Section own_rules.
Context {D : Type} `{DevX D} `{DevXDomain D}.
Implicit Types (w : world D) (l : list (Z * kind)) (h : gmap Z blk).

Lemma own_td_create t l h Q w :
  own l h w -> m_obj_handle (td_obj t) = None ->
  (forall st t' w', own (obj_own (td_obj t') ++ l) h w' -> Q (st, t') w') -> wp (td_create t) Q w.
Proof.
  intros Ho Hn HQ. unfold td_create. apply wp_bind. eapply own_obj_create; [exact Ho|done|].
  intros st o out w' Ho' _ _. apply wp_ret. by apply HQ.
Qed.

Lemma own_td_delete t l h Q w :
  own (td_own t ++ l) h w -> (forall w', own l h w' -> Q tt w') -> wp (td_delete t) Q w.
Proof.
  intros Ho HQ. destruct t as [[s t]|]; [|by apply wp_ret, HQ]. apply wp_bind.
  eapply (own_obj_delete _ ((s, KMem) :: l)); [own_perm Ho|]. intros o w' _ Ho'. by eapply own_dealloc.
Qed.

(** The deletion of a domain releases its verbs domain. *)
Lemma own_pd_delete p l h ps Q w :
  own (pd_own p ++ l) h w -> live_pds (calls w) = pds_of p ++ ps ->
  (forall w', own l h w' -> live_pds (calls w') = ps -> Q tt w') -> wp (pd_delete p) Q w.
Proof.
  intros Ho Hp HQ. destruct p as [[s p]|]; [|by apply wp_ret, HQ]. unfold pd_delete.
  assert (wp (pd_ibv_dealloc p) (fun _ w' => own (pd_own (Some (s, p)) ++ l) h w' /\ live_pds (calls w') = ps) w) as Hd.
  { unfold pd_ibv_dealloc. destruct p as [o i [|[v|] []]]; try by apply wp_ret. simpl in Hp.
    apply wp_bind, wp_device. intros r d w' _ Hh Hn _ Hc _. apply wp_ret. split; [by apply (own_same _ _ w)|].
    rewrite Hc. simpl. rewrite Hp. simpl. by rewrite Z.eqb_refl. }
  apply wp_bind. eapply wp_mono; [|exact Hd]. intros _ w1 [Ho1 Hp1].
  apply wp_bind. eapply wp_mono; [|apply wp_quiet; [apply quiet_obj_delete|]].
  2:{ eapply (own_obj_delete _ ((s, KMem) :: l) h (fun _ w' => own ((s, KMem) :: l) h w')); [own_perm Ho1|]. by intros. }
  intros o w2 [Ho2 Hp2]. eapply wp_mono; [|apply wp_quiet; [apply quiet_dealloc|]].
  2:{ eapply (own_dealloc _ _ _ _ (fun _ w' => own l h w')); [exact Ho2|]. by intros. }
  intros [] w3 [Ho3 Hp3]. apply HQ; [done|congruence].
Qed.

Lemma own_pool_delete u l h Q w :
  own (pool_own u ++ l) h w -> pool_wf u -> (forall w', own l h w' -> Q tt w') -> wp (pool_delete u) Q w.
Proof.
  intros Ho Hw HQ. destruct u as [[s c]|]; [|by apply wp_ret, HQ]. destruct Hw as [_ He].
  unfold pool_delete, uar_collection_delete. apply wp_bind.
  apply (own_delete_uar _ ((s, KMem) :: l) h); [|intros w' Ho'; by eapply own_dealloc].
  simpl in Ho. unfold uars_of in Ho. rewrite He in Ho. own_perm Ho.
Qed.

Lemma own_free_caps bufs l h Q w :
  own (map (fun b => (b.2, KRaw)) bufs ++ l) h w -> (forall w', own l h w' -> Q tt w') -> wp (free_caps bufs) Q w.
Proof.
  revert w. induction bufs as [|[t p] r IH]; intros w Ho HQ; [by apply wp_ret, HQ|].
  simpl. apply wp_bind. eapply own_dealloc; [exact Ho|]. intros w' Ho'. by apply IH.
Qed.

(** A new domain, created. *)
Lemma own_pd_create p l h ps Q w :
  own l h w -> m_obj_handle (pd_obj p) = None ->
  match pd_cls p with PdIbv i e => e = match i with Some _ => true | None => false end | PdDevx => True end ->
  live_pds (calls w) = ps ->
  (forall s st p' w', own (obj_own (pd_obj p') ++ l) h w' -> live_pds (calls w') = pds_of (Some (s, p')) ++ ps ->
     Q (st, p') w') ->
  wp (pd_create p) Q w.
Proof.
  intros Ho Hn Hc Hp HQ. unfold pd_create. destruct p as [o id [|i e]]; simpl in *.
  - eapply wp_mono; [|apply wp_quiet; [apply quiet_pd_devx_create|]].
    2:{ unfold pd_devx_create. apply wp_bind. eapply (own_obj_create _ _ _ _ _
          (fun r w' => wp _ (fun r w' => own (obj_own (pd_obj r.2) ++ l) h w' /\ pd_cls r.2 = PdDevx) w')); [exact Ho|done|].
        intros st o' out w' Ho' _ _. by apply wp_ret. }
    intros [st [o' id' c']] w' [[Ho' Hd] Hp']. simpl in *. subst c'. apply (HQ 0); [done|]. simpl. congruence.
  - assert (forall w1 x, own l h w1 -> live_pds (calls w1) = (if e then [] else [x]) ++ ps ->
      wp (pd_ibv_number (mkPd o id (PdIbv i e)) x e) Q w1) as Hnum.
    { intros w1 x Ho1 Hp1. unfold pd_ibv_number, ctx_create_ibv_pd. apply wp_bind, wp_bind, wp_device.
      intros [r n] d w2 _ Hh Hn2 _ Hcs _. apply wp_ret.
      assert (own (obj_own o ++ l) h w2) as Ho2 by (unfold obj_own; rewrite Hn; by apply (own_same _ _ w1)).
      assert (live_pds (calls w2) = (if e then [] else [x]) ++ ps) as Hp2 by by rewrite Hcs.
      destruct (r =? 0); apply wp_ret; (apply (HQ 0); [done|]); simpl; by destruct e. }
    unfold pd_ibv_create. simpl. destruct (m_ctx o) as [c|].
    2:{ apply wp_ret. apply (HQ 0); [simpl; unfold obj_own; by rewrite Hn|]. simpl. by destruct i, e. }
    destruct i as [i|]; subst e; cbn [negb].
    + apply wp_bind, wp_ret. by apply Hnum.
    + apply wp_bind, wp_device. intros [x|] d w2 _ Hh Hn2 _ Hcs _.
      * apply Hnum; [by apply (own_same _ _ w)|]. rewrite Hcs. simpl. by rewrite Hp.
      * apply wp_ret. apply (HQ 0); [unfold obj_own; simpl; rewrite Hn; by apply (own_same _ _ w)|]. rewrite Hcs. simpl. done.
Qed.
End own_rules.

(** ** Sequences of operations *)

(** The operations of an adapter; [AShared] is a queue asking for the shared UAR. *)
Inductive aop : Type :=
| AOpen | ASetPd (pdn : Z) (ibv : option Z) | ASetTd (tdn : Z) | AIbvPd (ibv : option Z) | AOwnPd | AEqn (v : Z) | AShared (key : Z).

Section ops.
Context {D : Type} `{DevX D} `{DevXDomain D}.

Definition shared_uar (a : adapter_state) (key : Z) : M D (status * adapter_state) :=
  match a_uarpool a with
  | None => ret (DPCP_ERR_NO_CONTEXT, a)
  | Some (p, c) => '(u, c) <- get_uar c key SHARED_UAR;;
                   ret (match u with Some _ => DPCP_OK | None => DPCP_ERR_ALLOC_UAR end, set_pool a (Some (p, c)))
  end.

Definition aop_run (a : adapter_state) (o : aop) : M D (status * adapter_state) :=
  match o with
  | AOpen => open a
  | ASetPd n i => ret (set_pd a n i)
  | ASetTd n => set_td a n
  | AIbvPd i => create_ibv_pd a i
  | AOwnPd => create_own_pd a
  | AEqn v => query_eqn a v
  | AShared k => shared_uar a k
  end.

(** [create_own_pd] replaces the domain without deleting it, and so does [open]
    with the transport domain while the number of the old one is zero. *)
Definition amay (a : adapter_state) (o : aop) : Prop :=
  match o with
  | AOpen => a_opened a = false -> a_td_id a = 0 -> a_td a = None
  | AOwnPd => a_pd a = None
  | _ => True
  end.

Fixpoint aops_run (a : adapter_state) (os : list aop) : M D adapter_state :=
  match os with
  | [] => ret a
  | o :: os => '(_, a) <- aop_run a o;; aops_run a os
  end.

(** Each operation is one that may be made in the state it meets. *)
Fixpoint amay_all (a : adapter_state) (w : world D) (os : list aop) : Prop :=
  match os with
  | [] => True
  | o :: os => amay a o /\ match aop_run a o w with Ret (_, a', w') => amay_all a' w' os | UB _ => True end
  end.
End ops.

Section life.
Context {D : Type} `{DevX D} `{DevXDomain D}.
Implicit Types (w : world D) (l : list (Z * kind)) (h : gmap Z blk).

Definition keeps l h ps (r : status * adapter_state) w : Prop := as_ok r.2 l h ps w.

(** Heap primitives and object creation leave the domains alone. *)
Lemma own_alloc_pds b l h ps Q w :
  own l h w -> live_pds (calls w) = ps ->
  (forall w', own l h w' -> live_pds (calls w') = ps -> Q None w') ->
  (forall p w', own ((p, kind_of b) :: l) h w' -> live_pds (calls w') = ps -> Q (Some p) w') ->
  wp (alloc b) Q w.
Proof.
  intros Ho Hp HN HS. eapply wp_mono; [|apply wp_quiet; [apply quiet_alloc|]].
  2:{ eapply (own_alloc b l h (fun p w' => own (match p with Some p => [(p, kind_of b)] | None => [] end ++ l) h w')); [exact Ho|by intros..]. }
  intros [p|] w' [Ho' Hp']; [apply HS|apply HN]; by rewrite ?Hp'.
Qed.

Lemma keep_create_ibv_pd a i l h ps w : as_ok a l h ps w -> wp (create_ibv_pd a i) (keeps l h ps) w.
Proof.
  intros Hok. pose proof Hok as (Hw & Ho & Hp). unfold create_ibv_pd. destruct (a_pd a) as [x|] eqn:E; [by apply wp_ret|].
  unfold as_own in Ho. rewrite E in Ho. apply wp_bind. eapply own_alloc_pds; [exact Ho|exact Hp| |].
  - intros w' Ho' Hp'. apply wp_ret. split_and!; [done| |by simpl; rewrite E]. simpl. unfold as_own. by rewrite E.
  - intros s w1 Ho1 Hp1. apply wp_bind. eapply own_pd_create; [exact Ho1|done|by destruct i|exact Hp1|].
    intros s0 st p w2 Ho2 Hp2. cbv zeta.
    assert (forall ibv id, as_ok (set_domains a (Some (s, p)) ibv id) l h ps w2) as Hk.
    { intros. split_and!; [done| |done]. eapply own_perm; [|done|done|exact Ho2].
      unfold as_own, caps_own. simpl. solve_Permutation. }
    destruct (is_ok st); cbn [negb]; apply wp_ret; [|apply Hk]. unfold keeps, set_pd.
    destruct (get_ibv_pd p); [|apply Hk]. destruct (_ =? 0); apply Hk.
Qed.

Lemma keep_create_own_pd a l h ps w : as_ok a l h ps w -> a_pd a = None -> wp (create_own_pd a) (keeps l h ps) w.
Proof.
  intros (Hw & Ho & Hp) E. unfold create_own_pd. unfold as_own in Ho. rewrite E in Ho, Hp.
  apply wp_bind. eapply own_alloc_pds; [exact Ho|exact Hp| |].
  - intros w' Ho' Hp'. apply wp_ret. by split_and!.
  - intros s w1 Ho1 Hp1. apply wp_bind. eapply own_pd_create; [exact Ho1|done|done|exact Hp1|].
    intros s0 st p w2 Ho2 Hp2.
    assert (forall ibv id, as_ok (set_domains a (Some (s, p)) ibv id) l h ps w2) as Hk.
    { intros. split_and!; [done| |done]. eapply own_perm; [|done|done|exact Ho2].
      unfold as_own, caps_own. simpl. solve_Permutation. }
    destruct (is_ok st); cbn [negb]; [|apply wp_ret; apply Hk]. destruct (obj_get_id _). apply wp_ret. apply Hk.
Qed.

Lemma keep_set_td a n l h ps w : as_ok a l h ps w -> wp (set_td a n) (keeps l h ps) w.
Proof.
  intros Hok. pose proof Hok as (Hw & Ho & Hp). unfold set_td. destruct (n =? 0); [by apply wp_ret|].
  apply wp_bind. eapply wp_mono; [|apply wp_quiet; [apply quiet_td_delete|]].
  2:{ eapply (own_td_delete _ (pd_own (a_pd a) ++ pool_own (a_uarpool a) ++ caps_own a ++ l) h
        (fun _ w' => own (pd_own (a_pd a) ++ pool_own (a_uarpool a) ++ caps_own a ++ l) h w')); [|by intros].
      unfold as_own in Ho. own_perm Ho. }
  intros [] w' [Ho' Hp']. apply wp_ret. split_and!; [done| |by rewrite Hp'].
  unfold as_own, caps_own in *. simpl. own_perm Ho'.
Qed.

Lemma keep_open_td a l h ps w :
  as_ok a l h ps w -> (a_td_id a = 0 -> a_td a = None) -> wp (open_td a) (keeps l h ps) w.
Proof.
  intros Hok Ht. pose proof Hok as (Hw & Ho & Hp). unfold open_td. destruct (a_td_id a =? 0) eqn:E; [|by apply wp_ret].
  apply Z.eqb_eq in E. specialize (Ht E). unfold as_own in Ho. rewrite Ht in Ho.
  apply wp_bind. eapply own_alloc_pds; [exact Ho|exact Hp| |].
  - intros w' Ho' Hp'. apply wp_ret. by split_and!.
  - intros s w1 Ho1 Hp1. apply wp_bind. eapply wp_mono; [|apply wp_quiet; [apply quiet_td_create|]].
    2:{ eapply (own_td_create _ _ _ (fun r w' => own (obj_own (td_obj r.2) ++ _) h w')); [exact Ho1|done|]. by intros. }
    intros [st t] w2 [Ho2 Hp2]. cbn beta iota in *.
    assert (forall id, as_ok (set_tdom a (Some (s, t)) id) l h ps w2) as Hk.
    { intros. split_and!; [done| |by rewrite Hp2]. eapply own_perm; [|done|done|exact Ho2].
      unfold as_own, caps_own. simpl. solve_Permutation. }
    destruct (is_ok st); cbn [negb]; [|apply wp_ret; apply Hk]. destruct (obj_get_id _). apply wp_ret. apply Hk.
Qed.

Lemma uc_wf_new c : uc_wf (uar_collection_new c).
Proof. split; simpl; [apply NoDup_nil_2|apply NoDup_nil_2|apply not_elem_of_nil|done]. Qed.

Lemma keep_open_pool a l h ps w : as_ok a l h ps w -> wp (open_pool a) (keeps l h ps) w.
Proof.
  intros Hok. pose proof Hok as (Hw & Ho & Hp). unfold open_pool. destruct (a_uarpool a) as [x|] eqn:E; [by apply wp_ret|].
  unfold as_own in Ho. rewrite E in Ho. apply wp_bind. eapply own_alloc_pds; [exact Ho|exact Hp| |].
  - intros w' Ho' Hp'. apply wp_ret. split_and!; [simpl; by rewrite E| |done]. simpl. unfold as_own. by rewrite E.
  - intros s w1 Ho1 Hp1. apply wp_ret. split_and!; [split; [apply uc_wf_new|done]|..|done].
    eapply own_perm; [|done|done|exact Ho1]. unfold as_own, caps_own. simpl. solve_Permutation.
Qed.

Lemma keep_open_clock a l h ps w : as_ok a l h ps w -> wp (open_clock a) (keeps l h ps) w.
Proof.
  intros (Hw & Ho & Hp). unfold open_clock, hca_iseg_mapping. apply wp_bind, wp_bind, wp_device.
  intros [r c] d w' _ Hh Hn _ Hc _. apply wp_ret.
  assert (forall b, as_ok (set_clock a c b) l h ps w') as Hk.
  { intros. split_and!; [done| |by rewrite Hc]. by apply (own_same _ _ w). }
  destruct (_ =? 0); apply wp_ret; apply Hk.
Qed.

Lemma keep_then_ok m k l h ps w :
  wp m (keeps l h ps) w -> (forall a w', as_ok a l h ps w' -> m w = Ret (DPCP_OK, a, w') -> wp (k a) (keeps l h ps) w') ->
  wp (then_ok m k) (keeps l h ps) w.
Proof.
  intros Hm Hk. unfold then_ok. apply wp_bind. eapply wp_mono; [|by apply wp_eq]. intros [st a] w' [Ha E].
  destruct (is_ok st) eqn:Es; [|by apply wp_ret]. apply is_ok_true in Es. subst st. by apply Hk.
Qed.

(** The protection domain does not change the transport domain. *)
Lemma open_pd_td a : returns (fun r => a_td r.2 = a_td a /\ a_td_id r.2 = a_td_id a) (open_pd a).
Proof.
  unfold open_pd. destruct (_ =? 0); [|by apply returns_ret]. unfold create_ibv_pd.
  destruct (a_pd a); [by apply returns_ret|]. apply returns_bind. intros [s|]; [|by apply returns_ret].
  apply returns_bind. intros [st p]. cbv zeta. destruct (is_ok st); cbn [negb]; apply returns_ret; [|done].
  unfold set_pd. destruct (get_ibv_pd p); [|done]. by destruct (_ =? 0).
Qed.

Lemma keep_open a l h ps w :
  as_ok a l h ps w -> amay a AOpen -> wp (open a) (keeps l h ps) w.
Proof.
  intros Hok Hm. unfold open. destruct (a_opened a) eqn:E; [by apply wp_ret|]. simpl in Hm. apply keep_then_ok.
  - unfold open_pd. destruct (_ =? 0); [by apply keep_create_ibv_pd|by apply wp_ret].
  - intros a1 w1 Hok1 E1. destruct (returns_run _ _ _ _ _ (open_pd_td a) E1) as [Ht Hi]. simpl in Ht, Hi.
    apply keep_then_ok; [apply keep_open_td; [done|rewrite Ht, Hi; by apply Hm]|].
    intros a2 w2 Hok2 _. apply keep_then_ok; [by apply keep_open_pool|]. intros a3 w3 Hok3 _. by apply keep_open_clock.
Qed.

(** *** When a domain is replaced

    [open] overwrites the pointer to a transport domain that has no number, and
    [create_own_pd] the pointer to any protection domain: the old one is lost.
    [loses lost l h ps]: what [keeps] says, with [lost] and the verbs domains
    [gone] no longer reachable. *)
Definition loses (lost l : list (Z * kind)) h (gone ps : list Z) (r : status * adapter_state) w : Prop :=
  as_ok r.2 (lost ++ l) h (gone ++ ps) w.

Lemma as_ok_forget_td a l h ps w : as_ok a l h ps w -> as_ok (set_tdom a None (a_td_id a)) (td_own (a_td a) ++ l) h ps w.
Proof.
  intros (Hw & Ho & Hp). split_and!; [done| |done]. unfold as_own, caps_own in *. simpl. own_perm Ho.
Qed.

Lemma as_ok_forget_pd a l h ps w :
  as_ok a l h ps w -> as_ok (set_domains a None (a_ibv_pd a) (a_pd_id a)) (pd_own (a_pd a) ++ l) h (pds_of (a_pd a) ++ ps) w.
Proof.
  intros (Hw & Ho & Hp). split_and!; [done| |done]. unfold as_own, caps_own in *. simpl. own_perm Ho.
Qed.

Lemma lose_open_td a l h ps w :
  as_ok a l h ps w -> wp (open_td a) (loses (if a_td_id a =? 0 then td_own (a_td a) else []) l h [] ps) w.
Proof.
  intros Hok. destruct (a_td_id a =? 0) eqn:E.
  - replace (open_td a) with (open_td (set_tdom a None (a_td_id a))) by (unfold open_td; simpl; by rewrite E).
    apply (keep_open_td (set_tdom a None (a_td_id a)) (td_own (a_td a) ++ l)); [by apply as_ok_forget_td|done].
  - apply (keep_open_td a l h ps w Hok). intros Hz. rewrite Hz in E. done.
Qed.

Lemma lose_create_own_pd a l h ps w :
  as_ok a l h ps w -> wp (create_own_pd a) (loses (pd_own (a_pd a)) l h (pds_of (a_pd a)) ps) w.
Proof.
  intros Hok. change (create_own_pd a) with (create_own_pd (set_domains a None (a_ibv_pd a) (a_pd_id a))).
  apply (keep_create_own_pd _ (pd_own (a_pd a) ++ l) h (pds_of (a_pd a) ++ ps)); [by apply as_ok_forget_pd|done].
Qed.

Lemma lose_open a l h ps w :
  as_ok a l h ps w ->
  wp (open a) (fun r w' => exists lost, loses lost l h [] ps r w'
    /\ (lost = [] \/ a_opened a = false /\ a_td_id a = 0 /\ lost = td_own (a_td a))) w.
Proof.
  intros Hok. unfold open. destruct (a_opened a) eqn:E; [apply wp_ret; exists []; split; [done|by left]|].
  unfold then_ok at 1. apply wp_bind. eapply wp_mono; [|apply wp_eq, (fun H => H : wp (open_pd a) (keeps l h ps) w)].
  2:{ unfold open_pd. destruct (_ =? 0); [by apply keep_create_ibv_pd|by apply wp_ret]. }
  intros [st a1] w1 [Hok1 E1]. destruct (is_ok st) eqn:Es; [|apply wp_ret; exists []; split; [done|by left]].
  destruct (returns_run _ _ _ _ _ (open_pd_td a) E1) as [Ht Hi]. simpl in Ht, Hi.
  set (lost := if a_td_id a1 =? 0 then td_own (a_td a1) else []).
  assert (lost = [] \/ false = false /\ a_td_id a = 0 /\ lost = td_own (a_td a)) as Hl.
  { unfold lost. rewrite Ht, Hi. destruct (a_td_id a =? 0) eqn:Ez; [right|by left]. apply Z.eqb_eq in Ez. by split_and!. }
  eapply (wp_mono _ (keeps (lost ++ l) h ps)); [intros r w' Hk; by exists lost|].
  apply keep_then_ok; [by apply lose_open_td|]. intros a2 w2 Hok2 _.
  apply keep_then_ok; [by apply keep_open_pool|]. intros a3 w3 Hok3 _. by apply keep_open_clock.
Qed.

Lemma keep_query_eqn a v l h ps w : as_ok a l h ps w -> wp (query_eqn a v) (keeps l h ps) w.
Proof.
  intros (Hw & Ho & Hp). unfold query_eqn. apply wp_bind, wp_device. intros [r e] d w' _ Hh Hn _ Hc _. apply wp_ret.
  assert (own (as_own a ++ l) h w') by (by apply (own_same _ _ w)).
  destruct (r =? 0); split_and!; simpl; try done; by rewrite Hc.
Qed.

Lemma get_shared_ex c k : returns (fun r => m_ex_uars r.2 = m_ex_uars c) (get_uar (D := D) c k SHARED_UAR).
Proof.
  unfold get_uar. destruct (k =? 0); [by apply returns_ret|]. destruct (m_shared_uar c) as [u|].
  - destruct (decide _); by apply returns_ret.
  - apply returns_bind. intros [u|]; by apply returns_ret.
Qed.

Lemma keep_shared a k l h ps w : as_ok a l h ps w -> wp (shared_uar a k) (keeps l h ps) w.
Proof.
  intros Hok. pose proof Hok as (Hw & Ho & Hp). unfold shared_uar. destruct (a_uarpool a) as [[s c]|] eqn:E; [|by apply wp_ret].
  destruct Hw as [Hw He]. set (rest := pd_own (a_pd a) ++ td_own (a_td a) ++ (s, KMem) :: caps_own a ++ l).
  apply wp_bind. destruct (decide (k = 0)) as [->|Hk].
  { apply wp_ret. simpl. apply wp_ret. split_and!; [done| |done]. unfold as_own, caps_own in *. simpl. by rewrite E in Ho. }
  eapply wp_mono; [|apply wp_eq, wp_quiet; [apply quiet_get_uar|apply (get_uar_shared c k rest h); [done|done|]]].
  2:{ unfold as_own in Ho. rewrite E in Ho. unfold rest. own_perm Ho. }
  intros [u c'] w' [[(Hw' & Ho' & Hr) Hp'] Er]. apply wp_ret.
  pose proof (returns_run _ _ _ _ _ (get_shared_ex c k) Er) as He'. simpl in He'.
  split_and!; [split; [done|by simpl; rewrite He']| |by rewrite Hp'].
  unfold rest in Ho'. simpl in Ho'. unfold as_own, caps_own in *. simpl. own_perm Ho'.
Qed.

Lemma keep_op a o l h ps w : as_ok a l h ps w -> amay a o -> wp (aop_run a o) (keeps l h ps) w.
Proof.
  intros Hok Hm. destruct o; simpl.
  - by apply keep_open.
  - apply wp_ret. destruct Hok as (Hw & Ho & Hp). unfold keeps, set_pd. destruct ibv; [|done]. by destruct (_ =? 0).
  - by apply keep_set_td.
  - by apply keep_create_ibv_pd.
  - by apply keep_create_own_pd.
  - by apply keep_query_eqn.
  - by apply keep_shared.
Qed.

(** The domain an operation may overwrite: its blocks and its verbs domain. *)
Definition replaced (a : adapter_state) (o : aop) : list (Z * kind) * list Z :=
  match o with
  | AOpen => (td_own (a_td a), [])
  | AOwnPd => (pd_own (a_pd a), pds_of (a_pd a))
  | _ => ([], [])
  end.

(** Any operation: it loses nothing, or the domain it replaces, and nothing when it
    replaces none. *)
Lemma lose_op a o l h ps w :
  as_ok a l h ps w ->
  wp (aop_run a o) (fun r w' => exists lost gone, loses lost l h gone ps r w'
    /\ ((lost, gone) = ([], []) \/ (lost, gone) = replaced a o) /\ (amay a o -> lost = [] /\ gone = [])) w.
Proof.
  intros Hok. assert (amay a o -> wp (aop_run a o) (fun r w' => exists lost gone, loses lost l h gone ps r w'
    /\ ((lost, gone) = ([], []) \/ (lost, gone) = replaced a o) /\ (amay a o -> lost = [] /\ gone = [])) w) as Hsame.
  { intros Hm. eapply wp_mono; [|by apply keep_op]. intros r w' Hk. exists [], []. split_and!; [done|by left|done]. }
  destruct o; try (by apply Hsame); clear Hsame.
  - eapply wp_mono; [|by apply (lose_open a l h ps)]. intros r w' (lost & Hl & Hc). exists lost, []. split; [done|].
    simpl. destruct Hc as [->|(E1 & E2 & ->)]; [split; [by left|done]|]. split; [by right|]. intros Hm. by rewrite (Hm E1 E2).
  - eapply wp_mono; [|by apply (lose_create_own_pd a l h ps)]. intros r w' Hl. exists (pd_own (a_pd a)), (pds_of (a_pd a)).
    split_and!; [done|by right|]. simpl. by intros ->.
Qed.

Lemma keep_ops os a l h ps w :
  as_ok a l h ps w -> amay_all a w os -> wp (aops_run a os) (fun a' w' => as_ok a' l h ps w') w.
Proof.
  revert a w. induction os as [|o os IH]; intros a w Hok Hm; [by apply wp_ret|]. destruct Hm as [Hm Hms].
  apply wp_bind. eapply wp_mono; [|apply wp_eq; by apply keep_op]. intros [st a'] w' [Ha E]. rewrite E in Hms. by apply IH.
Qed.

Lemma own_adapter_delete a l h ps w :
  as_ok a l h ps w -> wp (adapter_delete a) (fun _ w' => own l h w' /\ live_pds (calls w') = ps) w.
Proof.
  intros (Hw & Ho & Hp). unfold adapter_delete. unfold as_own in Ho.
  apply wp_bind. eapply own_pd_delete; [|exact Hp|].
  { rewrite <- !app_assoc in Ho. exact Ho. }
  intros w1 Ho1 Hp1.
  assert (quiet (td_delete (a_td a);; pool_delete (a_uarpool a);; free_caps (a_caps a);; dealloc (a_hca a).1;;
     _ <- device (fun d => (tt, ibv_close_device (a_ctx a) d)) (fun _ => CCloseDevice (a_ctx a));; ret tt)) as Hq by quiet.
  rewrite <- Hp1. apply wp_quiet; [exact Hq|].
  apply wp_bind. eapply own_td_delete; [exact Ho1|]. intros w2 Ho2.
  apply wp_bind. eapply own_pool_delete; [exact Ho2|done|]. intros w3 Ho3. unfold caps_own in Ho3. rewrite <- app_assoc in Ho3.
  apply wp_bind. eapply own_free_caps; [exact Ho3|]. intros w4 Ho4.
  apply wp_bind. eapply own_dealloc; [exact Ho4|]. intros w5 Ho5.
  apply wp_bind. eapply own_device; [exact Ho5|]. intros _ w6 Ho6. by apply wp_ret.
Qed.

(** ** Construction *)

(** The allocations of the constructor succeed. *)
Definition enough_memory w : Prop := Forall (eq false) (take 10 (oom w)).

Lemma alloc_works b l h w :
  own l h w -> head (oom w) <> Some true ->
  wp (alloc b) (fun p w' => exists q, p = Some q /\ own ((q, kind_of b) :: l) h w' /\ calls w' = calls w /\ oom w' = tail (oom w)) w.
Proof.
  intros Ho Hm. eapply wp_mono; [|apply wp_eq; eapply (own_alloc b l h (fun p w' => match p with
      Some q => own ((q, kind_of b) :: l) h w' | None => True end)); [exact Ho|done|done]].
  intros p w' [Hp E]. unfold alloc in E. destruct (oom w) as [|[] r] eqn:Eo; [|done|]; simplify_eq; by eexists.
Qed.

Lemma alloc_caps_works types l h w :
  own l h w -> Forall (eq false) (take (length types) (oom w)) ->
  wp (alloc_caps types) (fun bufs w' => own (map (fun b => (b.2, KRaw)) bufs ++ l) h w' /\ calls w' = calls w
     /\ oom w' = drop (length types) (oom w)) w.
Proof.
  revert l w. induction types as [|t ts IH]; intros l w Ho Hm; [by apply wp_ret|]. cbn [alloc_caps].
  apply wp_bind. eapply wp_mono; [|apply alloc_works; [exact Ho|]].
  2:{ simpl in Hm. destruct (oom w) as [|[] r]; [done| |done]. by inversion Hm. }
  intros ? w1 (p & -> & Ho1 & Hc1 & Hm1). apply wp_bind, wp_ret, wp_bind. eapply wp_mono; [|apply IH; [exact Ho1|]].
  2:{ rewrite Hm1. destruct (oom w) as [|x r]; [simpl; rewrite take_nil; constructor|]. simpl in Hm. by inversion Hm. }
  intros bufs w2 (Ho2 & Hc2 & Hm2). apply wp_ret. split_and!; [|congruence|].
  - simpl. own_perm Ho2.
  - rewrite Hm2, Hm1. destruct (oom w); [simpl; by rewrite drop_nil|done].
Qed.

Lemma tail_drop_S {A} n (l : list A) : tail (drop n l) = drop (S n) l.
Proof. revert l; induction n as [|n IH]; intros [|x l]; [done|done|done|apply IH]. Qed.

Lemma zeroed_caps_lookup types t :
  t ∈ types -> zeroed_caps types !! t = Some (zeros (ST_SZ_BYTES cap.query_hca_cap_out)).
Proof.
  intros Ht. unfold zeroed_caps. induction types as [|x r IH]; [by apply not_elem_of_nil in Ht|]. csimpl.
  destruct (decide (x = t)) as [->|Hx]; [by rewrite lookup_insert_eq|]. rewrite lookup_insert_ne by done. apply IH.
  by apply list.elem_of_cons in Ht as [->|?].
Qed.

(** The constructor, with the calls it makes and what it publishes. *)
Lemma adapter_new_spec ctx ans l h w :
  own l h w -> enough_memory w -> answers ctx ans -> (forall t, is_bytes (ans t)) ->
  wp (adapter_new ctx) (fun a w' => as_ok a l h (live_pds (calls w)) w'
    /\ a_opened a = false /\ a_pd a = None /\ a_td a = None /\ a_td_id a = 0 /\ a_pd_id a = 0 /\ a_uarpool a = None
    /\ a_ibv_pd a = None /\ a_ctx a = ctx
    /\ a_caps_available a = true /\ caps_reported ans (a_hca a).2
    /\ calls w' = rev (map (fun t => CGeneralCmd (query_in t)) s_supported_cap_types) ++ calls w
    /\ oom w' = drop 10 (oom w)) w.
Proof.
  intros Ho Hm Hans Hb. unfold adapter_new. apply wp_bind. eapply wp_mono; [|apply alloc_caps_works; [exact Ho|]].
  2:{ unfold enough_memory in Hm. change (length s_supported_cap_types) with 9%nat.
      rewrite <- (take_drop 9 (take 10 (oom w))) in Hm. apply Forall_app in Hm as [Hm _]. by rewrite take_take in Hm. }
  intros bufs w1 (Ho1 & Hc1 & Hm1). unfold query_hca_caps. apply wp_bind, wp_bind.
  eapply wp_mono; [|apply (query_loop_ok ctx ans _ _ _ s_supported_cap_types _ loop_bufs_eq); try done].
  2:{ apply (bool_decide_unpack _). vm_compute. exact Logic.I. }
  2:{ intros t Ht. split; [done|by apply zeroed_caps_lookup]. }
  intros caps w2 (Hca & Hh2 & Hn2 & Hm2 & Hc2). apply wp_ret, wp_bind. cbn beta iota.
  eapply wp_mono; [|apply alloc_works; [eapply (own_same _ _ w1); [exact Hh2|exact Hn2|exact Ho1]|]].
  2:{ rewrite Hm2, Hm1. change (length s_supported_cap_types) with 9%nat. unfold enough_memory in Hm.
      destruct (drop 9 (oom w)) as [|x r] eqn:E; [done|]. simpl. intros [= ->].
      assert (oom w !! 9%nat = Some true) as E9 by (rewrite <- (Nat.add_0_r 9), <- lookup_drop, E; done).
      assert (take 10 (oom w) !! 9%nat = Some true) as E9' by (rewrite lookup_take_lt by lia; done).
      by apply (Forall_lookup_1 _ _ _ _ Hm) in E9'. }
  intros ? w3 (p & -> & Ho3 & Hc3 & Hm3). apply wp_bind, wp_ret, wp_ret.
  assert (calls w3 = rev (map (fun t => CGeneralCmd (query_in t)) s_supported_cap_types) ++ calls w) as Hcs.
  { by rewrite Hc3, Hc2, Hc1. }
  split_and!; simpl; try done.
  - split_and!; [done| |by rewrite Hcs]. unfold as_own, caps_own. simpl. own_perm Ho3.
  - apply external_reported; [|done]. intros t Ht. rewrite Hca. by rewrite decide_True.
  - rewrite Hm3, Hm2, Hm1. change (length s_supported_cap_types) with 9%nat. apply tail_drop_S.
Qed.

(** The life of an adapter: it is constructed, any sequence of openings and
    of operations on its domains, event queues and shared UAR is run on it (as
    long as no domain that is still held is replaced), and it is deleted.  No
    dead block is ever touched, everything allocated on the way is given back,
    whatever the device and the allocator answer after the construction, and a
    verbs protection domain is released exactly when the adapter allocated it:
    one that the caller passed in is left alone. *)
Theorem adapter_life ctx ans w :
  fresh_ok w -> enough_memory w -> answers ctx ans -> (forall t, is_bytes (ans t)) ->
  wp (adapter_new ctx) (fun a w1 => forall os, amay_all a w1 os ->
    wp (a' <- aops_run a os;; adapter_delete a')
       (fun _ w' => heap w' = heap w /\ live_pds (calls w') = live_pds (calls w)) w1) w.
Proof.
  intros Hf Hm Hans Hb. eapply wp_mono; [|apply (adapter_new_spec ctx ans [] (heap w)); try done; by apply own_nil].
  intros a w1 [Hok _] os Hos. apply wp_bind. eapply wp_mono; [|by apply keep_ops]. intros a' w2 Hok'.
  eapply wp_mono; [|by apply (own_adapter_delete _ _ _ _ _ Hok')]. intros [] w' [Ho Hp]. split; [by apply own_nil_heap|done].
Qed.

(** C29. What the constructor publishes when its allocations succeed: the adapter
    sends one query per group of capabilities and then reports, for each member
    of [documented_fields], the field of the answer that the table names; the
    protocols of in-buffer queues and the two object types likewise; the members
    of NVMe/TCP when that group is on and zero otherwise.  Nothing is lost but the
    high 24 bits of the four timer periods.  The five members of [never_stored]
    are zero whatever the device answers.  These are all the members there are. *)
Theorem adapter_new_reports ctx ans w :
  fresh_ok w -> enough_memory w -> answers ctx ans -> (forall t, is_bytes (ans t)) ->
  wp (adapter_new ctx) (fun a w' =>
    caps_reported ans (a_hca a).2
    /\ map fst adapter_hca_capabilities_members ≡ₚ
       map src_member documented_fields ++ map src_member nvmeotcp_fields ++ other_members ++ never_stored
    /\ get_hca_caps_frequency_khz (a_caps_available a) (a_hca a).2
       = (DPCP_OK, Some (DEVX_GET cap.query_hca_cap_out 0 [F "capability"; F "cmd_hca_cap"; F "device_frequency_khz"] (ans MLX5_CAP_GENERAL)))
    /\ calls w' = rev (map (fun t => CGeneralCmd (query_in t)) s_supported_cap_types) ++ calls w
    /\ forall t, t ∈ s_supported_cap_types ->
         DEVX_GET ifc.query_hca_cap_in 0 ["opcode"] (query_in t) = MLX5_CMD_OP_QUERY_HCA_CAP
         /\ DEVX_GET ifc.query_hca_cap_in 0 ["op_mod"] (query_in t) = 2 * t + 1) w.
Proof.
  intros Hf Hm Hans Hb. eapply wp_mono; [|apply (adapter_new_spec ctx ans [] (heap w)); try done; by apply own_nil].
  intros a w' (_ & _ & _ & _ & _ & _ & _ & _ & _ & Hav & Hr & Hc & _). split_and!; [done|exact members_accounted| |done|].
  - unfold get_hca_caps_frequency_khz. rewrite Hav. cbn [negb]. do 2 f_equal.
    apply (cr_fields _ _ Hr (mkSource "device_frequency_khz" MLX5_CAP_GENERAL "cmd_hca_cap" [F "device_frequency_khz"])).
    constructor.
  - intros t Ht. apply query_in_says.
    assert (Forall (fun t => 0 <= t < 2 ^ 15) s_supported_cap_types) as Hall by (repeat constructor; by vm_compute).
    rewrite list.Forall_forall in Hall. by apply Hall.
Qed.
End life.

(** ** The clock *)

(** C39. The register holds seconds in its high half and nanoseconds in its low 30
    bits: the time returned is their sum in nanoseconds, which never overflows
    64 bits, and it never goes back while the register counts up with less than
    a second in its low half; zero means that there is no clock. *)
Theorem real_time_ok rtc :
  0 <= rtc < 2 ^ 64 ->
  (rtc = 0 -> real_time_of rtc = (DPCP_ERR_NO_CONTEXT, None))
  /\ (rtc <> 0 ->
      real_time_of rtc = (DPCP_OK, Some (1000000000 * (rtc / 2 ^ 32) + rtc mod 2 ^ 30))
      /\ 1000000000 * (rtc / 2 ^ 32) + rtc mod 2 ^ 30 < 2 ^ 64
      /\ forall rtc' t t', 0 <= rtc' <= rtc -> rtc' mod 2 ^ 32 < 1000000000 -> rtc mod 2 ^ 32 < 1000000000 ->
           real_time_of rtc' = (DPCP_OK, Some t') -> real_time_of rtc = (DPCP_OK, Some t) -> t' <= t).
Proof.
  assert (forall r, 0 < r < 2 ^ 64 ->
    real_time_of r = (DPCP_OK, Some (1000000000 * (r / 2 ^ 32) + r mod 2 ^ 30)) /\ 1000000000 * (r / 2 ^ 32) + r mod 2 ^ 30 < 2 ^ 64) as Hv.
  { intros r Hr. assert (0 <= r / 2 ^ 32 < 2 ^ 32) as Hs.
    { split; [apply Z.div_pos; lia|]. apply Z.div_lt_upper_bound; lia. }
    pose proof (Z.mod_pos_bound r (2 ^ 30) ltac:(lia)) as Hn. split; [|lia].
    unfold real_time_of. rewrite (proj2 (Z.eqb_neq r 0)) by lia.
    change (wrap 64 (Z.lnot (int32 (Z.shiftl 3 30)))) with (Z.ones 30). rewrite Z.land_ones by lia.
    rewrite Z.shiftr_div_pow2 by lia. unfold wrap. rewrite (Z.mod_small (r mod 2 ^ 30)), (Z.mod_small (r / 2 ^ 32)) by lia.
    rewrite Z.mod_small by lia. do 2 f_equal. lia. }
  intros Hr. split; [by intros ->|]. intros H0. destruct (Hv rtc) as [E Hlt]; [lia|]. split_and!; [done|done|].
  intros rtc' t t' Hle Hn' Hn Et' Et. rewrite E in Et. simplify_eq. destruct (decide (rtc' = 0)) as [->|Hz]; [done|].
  destruct (Hv rtc') as [E' _]; [lia|]. rewrite E' in Et'. simplify_eq.
  pose proof (Z.div_le_mono rtc' rtc (2 ^ 32) ltac:(lia) ltac:(lia)) as Hd.
  assert (forall r, 0 <= r -> r mod 2 ^ 32 < 1000000000 -> r mod 2 ^ 30 = r mod 2 ^ 32) as Hm.
  { intros r H1 H2. rewrite <- (Z.mod_small (r mod 2 ^ 32) (2 ^ 30)) by (pose proof (Z.mod_pos_bound r (2 ^ 32) ltac:(lia)); lia).
    symmetry. rewrite <- Znumtheory.Zmod_div_mod; [done|lia|lia|]. exists (2 ^ 2). lia. }
  rewrite !Hm by lia. rewrite (Z.div_mod rtc (2 ^ 32)) in Hle by lia. rewrite (Z.div_mod rtc' (2 ^ 32)) in Hle by lia.
  pose proof (Z.mod_pos_bound rtc (2 ^ 32) ltac:(lia)). pose proof (Z.mod_pos_bound rtc' (2 ^ 32) ltac:(lia)). lia.
Qed.

Lemma real_time_ok_witness :
  real_time_of 0x0000000700000005 = (DPCP_OK, Some 7000000005)
  /\ (0x0000000700000005 <> 0 -> real_time_of 0x0000000700000005 =
      (DPCP_OK, Some (1000000000 * (0x0000000700000005 / 2 ^ 32) + 0x0000000700000005 mod 2 ^ 30))).
Proof.
  split; [reflexivity|]. intros Hz. destruct (real_time_ok 0x0000000700000005) as [_ Hr]; [lia|]. by apply Hr.
Defined.

(** ** Opening *)

Section opening.
Context {D : Type} `{DevX D} `{DevXDomain D}.
Implicit Types w : world D.

Lemma returns_then_ok (P Q : status * adapter_state -> Prop) (m : M D _) k :
  returns P m -> (forall st a, P (st, a) -> st <> DPCP_OK -> Q (st, a)) ->
  (forall a, P (DPCP_OK, a) -> returns Q (k a)) -> returns Q (then_ok m k).
Proof.
  intros Hm He Hk w. unfold then_ok, bind. specialize (Hm w). destruct (m w) as [[[st a] w1]|]; [|done].
  destruct (is_ok st) eqn:E; [apply is_ok_true in E; subst st; by apply Hk|]. simpl. apply He; [done|by apply is_ok_false].
Qed.

(** The adapter holds a domain that was never given a number. *)
Definition half_made (a : adapter_state) : Prop := a_pd_id a = 0 /\ a_pd a <> None /\ a_ibv_pd a = None.

(** What each part of [open] leaves. *)
Lemma open_pd_says a :
  returns (fun r => a_opened r.2 = a_opened a /\ a_uarpool r.2 = a_uarpool a
                   /\ (r.1 = DPCP_OK -> a_pd_id r.2 <> 0 \/ a_pd_id r.2 = 0 /\ half_made a)) (open_pd a).
Proof.
  unfold open_pd. destruct (a_pd_id a =? 0) eqn:E; [|apply returns_ret; apply Z.eqb_neq in E; naive_solver].
  apply Z.eqb_eq in E. unfold create_ibv_pd. destruct (a_pd a) as [x|] eqn:Ex.
  { apply returns_ret. simpl. split_and!; [done|done|]. case_bool_decide as Hi; [|done]. intros _. right.
    split; [done|]. split_and!; [done|by rewrite Ex|done]. }
  apply returns_bind. intros [s|]; [|by apply returns_ret].
  apply returns_bind. intros [st p]. cbv zeta. destruct (is_ok st) eqn:Es; cbn [negb]; apply returns_ret; simpl.
  - unfold set_pd. destruct (get_ibv_pd p); [|done]. destruct (pd_pd_id p =? 0) eqn:Ep; [done|]. apply Z.eqb_neq in Ep. naive_solver.
  - split_and!; [done|done|]. intros ->. done.
Qed.

Lemma open_td_says a :
  returns (fun r => a_opened r.2 = a_opened a /\ a_pd_id r.2 = a_pd_id a /\ a_uarpool r.2 = a_uarpool a
                   /\ (r.1 = DPCP_OK -> a_td_id r.2 <> 0 \/ is_Some (a_td r.2))) (open_td a).
Proof.
  unfold open_td. destruct (a_td_id a =? 0) eqn:E; [|apply returns_ret; apply Z.eqb_neq in E; naive_solver].
  apply returns_bind. intros [s|]; [|by apply returns_ret]. apply returns_bind. intros [st t].
  destruct (is_ok st) eqn:Es; cbn [negb].
  - destruct (obj_get_id (td_obj t)). apply returns_ret. split_and!; try done. intros _. right. by eexists.
  - apply returns_ret. split_and!; try done. intros _. right. by eexists.
Qed.

Lemma open_pool_says a :
  returns (fun r => a_opened r.2 = a_opened a /\ a_pd_id r.2 = a_pd_id a /\ a_td_id r.2 = a_td_id a /\ a_td r.2 = a_td a
                   /\ (r.1 = DPCP_OK -> is_Some (a_uarpool r.2))) (open_pool (D := D) a).
Proof.
  unfold open_pool. destruct (a_uarpool a) as [u|] eqn:E; [apply returns_ret; split_and!; try done; simpl; by rewrite E|].
  apply returns_bind. intros [p|]; by apply returns_ret.
Qed.

Lemma open_clock_says a :
  returns (fun r => a_pd_id r.2 = a_pd_id a /\ a_td_id r.2 = a_td_id a /\ a_td r.2 = a_td a /\ a_uarpool r.2 = a_uarpool a
                   /\ (r.1 = DPCP_OK -> a_opened r.2 = true) /\ (r.1 <> DPCP_OK -> a_opened r.2 = a_opened a)) (open_clock a).
Proof. unfold open_clock. apply returns_bind. intros [e c]. destruct (e =? 0); by apply returns_ret. Qed.

Definition open_post (a : adapter_state) (r : status * adapter_state) : Prop :=
  (r.1 = DPCP_OK -> a_opened r.2 = true /\ (a_pd_id r.2 <> 0 \/ a_pd_id r.2 = 0 /\ half_made a)
                    /\ (a_td_id r.2 <> 0 \/ is_Some (a_td r.2)) /\ is_Some (a_uarpool r.2))
  /\ (r.1 <> DPCP_OK -> a_opened r.2 = false).

Lemma open_says a : a_opened a = false -> returns (open_post a) (open a).
Proof.
  intros Ho. unfold open. rewrite Ho. eapply returns_then_ok; [by apply open_pd_says| |].
  { intros st x (E1 & _) Hst. split; [done|]. simpl in *. congruence. }
  intros a1 (E1 & E2 & E3). simpl in *. specialize (E3 eq_refl). eapply returns_then_ok; [apply open_td_says| |].
  { intros st x (F1 & _) Hst. split; [done|]. simpl in *. congruence. }
  intros a2 (F1 & F2 & F3 & F4). simpl in *. specialize (F4 eq_refl). eapply returns_then_ok; [apply open_pool_says| |].
  { intros st x (G1 & _) Hst. split; [done|]. simpl in *. congruence. }
  intros a3 (G1 & G2 & G3 & G4 & G5). simpl in *. specialize (G5 eq_refl). intros w. pose proof (open_clock_says a3 w) as Hc.
  destruct (open_clock a3 w) as [[[st a4] w']|]; [|done]. destruct Hc as (K1 & K2 & K3 & K4 & K5 & K6). simpl in *. split; simpl.
  - intros Hst. split_and!; [by apply K5|rewrite K1, G2, F2; done|rewrite K2, K3, G3, G4; done|by rewrite K4].
  - intros Hst. rewrite K6 by done. congruence.
Qed.

(** C30. Opening a closed adapter, in whatever state earlier calls left it, either
    fails and leaves it closed, or opens it with a transport domain, a UAR pool and
    a protection domain whose number is not zero, with one exception: when the
    adapter still holds a domain that never got a number ([half_made], as a
    failed [open] leaves it), [open] takes it for a finished one and the number is
    zero.  Nothing is lost but the transport domain of an earlier [open] that
    failed to give it a number, which is overwritten.  A second [open] of the open
    adapter makes no call and changes nothing. *)
Theorem open_ok a l h ps w :
  as_ok a l h ps w -> a_opened a = false ->
  wp (open a) (fun r w' => open_post a r
    /\ (exists lost, loses lost l h [] ps r w' /\ (lost = [] \/ a_td_id a = 0 /\ lost = td_own (a_td a)))
    /\ (r.1 = DPCP_OK -> open r.2 w' = Ret ((DPCP_OK, r.2), w'))) w.
Proof.
  intros Hok Ho. eapply wp_mono; [|apply wp_eq; by apply (lose_open a l h ps)].
  intros [st a'] w' [(lost & Hk & Hl) E]. pose proof (returns_run _ _ _ _ _ (open_says a Ho) E) as Hp. split_and!; [done| |].
  { exists lost. split; [done|]. destruct Hl as [->|(_ & Hz & ->)]; [by left|by right]. }
  simpl. intros ->. destruct Hp as [Hp _]. destruct (Hp eq_refl) as (Hop & _). simpl in Hop. unfold open. by rewrite Hop.
Qed.

(** When the creation of the verbs protection domain fails, the half-made
    domain stays in the adapter, and the next [open] takes it for a finished one:
    its first part reports success without a call while the number of the domain
    is still zero. *)
Theorem reopen_without_pd a st a1 w w1 :
  a_pd a = None -> a_pd_id a = 0 -> a_ibv_pd a = None ->
  create_ibv_pd a None w = Ret ((st, a1), w1) -> st <> DPCP_OK -> st <> DPCP_ERR_NO_MEMORY ->
  open_pd a1 w1 = Ret ((DPCP_OK, a1), w1) /\ a_pd_id a1 = 0.
Proof.
  intros Hpd Hid Hi. unfold create_ibv_pd. rewrite Hpd. unfold bind.
  destruct (alloc BMem w) as [[[s|] w0]|]; [| |done]; cbn beta iota; [|intros E ? Hm; unfold ret in E; by simplify_eq].
  destruct (pd_create _ w0) as [[[st' p] w2]|]; [|done]. cbn beta iota zeta.
  assert (forall a', is_Some (a_pd a') -> a_ibv_pd a' = None -> a_pd_id a' = 0 ->
    open_pd a' w1 = Ret ((DPCP_OK, a'), w1)) as Hre.
  { intros a' [x Hx] Hb Hz. unfold open_pd. rewrite Hz. simpl. unfold create_ibv_pd. rewrite Hx, Hb. by rewrite bool_decide_eq_true_2. }
  unfold ret. destruct (is_ok st') eqn:Es; cbn [negb]; intros E Hst _.
  - unfold set_pd in E. destruct (get_ibv_pd p); [destruct (pd_pd_id p =? 0)|]; simplify_eq; simpl;
      (split; [apply Hre; by simpl|by simpl]).
  - simplify_eq. simpl. split; [apply Hre; by simpl|done].
Qed.
End opening.

(** ** A run on the simulated device *)

#[global] Instance sim_domain : DevXDomain sim := {
  ibv_alloc_pd _ d := (sim_handle d, sim_tick d);
  ibv_dealloc_pd _ d := (0, d);
  mlx5dv_init_pd i d := (0, i, d);
  mlx5dv_query_clock _ d := (sim_result d, Some 1, sim_tick d);
  mlx5dv_devx_query_eqn _ v d := (0, v, d);
  clock_page _ _ := cpu_to_be32 64 7 (cpu_to_be32 68 5 (zeros 72));
  ibv_close_device _ d := d
}.

Definition sim_ans (t : Z) : list Z := sim_register (zeros (ST_SZ_BYTES cap.query_hca_cap_out)).

Lemma sim_answers ctx : answers (D := sim) ctx sim_ans.
Proof. by intros t d _. Qed.

Lemma sim_ans_bytes t : is_bytes (sim_ans t).
Proof.
  assert (forallb (fun x => (0 <=? x) && (x <? 256)) (sim_ans t) = true) as Hb by (vm_compute; reflexivity).
  rewrite forallb_forall in Hb. apply list.Forall_forall. intros x Hx%list_elem_of_In. apply Hb in Hx. lia.
Qed.

Lemma sim_memory : enough_memory sim_world.
Proof. constructor. Qed.

Definition sample_ops : list aop := [AIbvPd (Some 99); AOpen; AShared 7; ASetTd 4; AEqn 1; AOpen; AIbvPd None].

(** The state and the world the constructor ends in. *)
Definition built : option (adapter_state * world sim) := match adapter_new 1 sim_world with Ret aw => Some aw | UB _ => None end.

Lemma adapter_life_witness :
  match built with Some (a, w1) => amay_all a w1 sample_ops | None => False end
  /\ wp (adapter_new 1) (fun a w1 => forall os, amay_all a w1 os ->
       wp (a' <- aops_run a os;; adapter_delete a')
          (fun _ w' => heap w' = heap sim_world /\ live_pds (calls w') = live_pds (calls sim_world)) w1) sim_world.
Proof.
  split.
  - vm_compute. repeat split; intros; done.
  - apply (adapter_life 1 sim_ans); [apply sim_world_fresh|apply sim_memory|apply sim_answers|apply sim_ans_bytes].
Defined.

Lemma adapter_new_reports_witness :
  wp (adapter_new 1) (fun a w' => caps_reported sim_ans (a_hca a).2
    /\ get_hca_caps_frequency_khz (a_caps_available a) (a_hca a).2 = (DPCP_OK, Some 156250)) sim_world.
Proof.
  eapply wp_mono; [|apply (adapter_new_reports 1 sim_ans); [apply sim_world_fresh|apply sim_memory|apply sim_answers|apply sim_ans_bytes]].
  intros a w' (Hr & _ & Hf & _). split; [exact Hr|]. etransitivity; [exact Hf|]. vm_compute. reflexivity.
Defined.

Definition bare_adapter (hca : Z) : adapter_state := mkAS 1 None None None None None 0 0 0 true [] (hca, ∅) false.
Definition bare_world (fail : list bool) : world sim := mkWorld (mkSim 5 fail) {[ 1 := BMem ]} 2 [] [].

Lemma bare_ok fail : as_ok (bare_adapter 1) [] ∅ [] (bare_world fail).
Proof.
  split_and!; [done| |done]. split_and!.
  - intros p Hp. simpl in *. apply lookup_singleton_ne. lia.
  - apply NoDup_singleton.
  - constructor; [by exists BMem|constructor].
  - apply map_eq. intros i. rewrite lookup_without. case_decide as Hd; [done|]. simpl in *.
    apply lookup_singleton_ne. intros Hi. apply Hd. rewrite <- Hi. constructor.
Qed.

(** A first [open], which succeeds. *)
Lemma open_ok_witness :
  wp (open (bare_adapter 1)) (fun r w' => open_post (bare_adapter 1) r
    /\ (exists lost, loses lost [] ∅ [] [] r w' /\ (lost = [] \/ a_td_id (bare_adapter 1) = 0 /\ lost = td_own (a_td (bare_adapter 1))))
    /\ (r.1 = DPCP_OK -> open r.2 w' = Ret ((DPCP_OK, r.2), w'))) (bare_world [])
  /\ match open (bare_adapter 1) (bare_world []) with Ret ((st, a), _) => st = DPCP_OK /\ a_pd_id a <> 0 | UB _ => False end.
Proof. split; [apply (open_ok (bare_adapter 1) [] ∅ []); [apply bare_ok|done]|vm_compute; done]. Defined.

(** The first [open] is refused a domain; the second succeeds with domain zero. *)

Lemma reopen_without_pd_witness :
  (exists st a1 w1, create_ibv_pd (bare_adapter 1) None (bare_world [true]) = Ret ((st, a1), w1)
     /\ open_pd a1 w1 = Ret ((DPCP_OK, a1), w1) /\ a_pd_id a1 = 0)
  /\ match open (bare_adapter 1) (bare_world [true]) with
     | Ret ((st, a1), w1) => st = DPCP_ERR_CREATE
         /\ match open a1 w1 with Ret ((st2, a2), _) => st2 = DPCP_OK /\ a_opened a2 = true /\ a_pd_id a2 = 0 | UB _ => False end
     | UB _ => False
     end.
Proof.
  split; [|vm_compute; done].
  destruct (create_ibv_pd (bare_adapter 1) None (bare_world [true])) as [[[st a1] w1]|e] eqn:E; [|by vm_compute in E].
  exists st, a1, w1. split; [done|].
  apply (reopen_without_pd (bare_adapter 1) st a1 (bare_world [true]) w1); [done|done|done|exact E| |]; vm_compute in E; by simplify_eq.
Defined.

(** A second [open] after a failed creation of the transport domain loses the
    block of the first one. *)
Lemma reopen_leaks_td :
  match open (bare_adapter 1) (bare_world [false; true]) with
  | Ret ((st, a1), w1) => st <> DPCP_OK
      /\ match open a1 w1 with
         | Ret ((_, a2), w2) => match adapter_delete a2 w2 with Ret (_, w3) => heap w3 <> ∅ | UB _ => False end
         | UB _ => False
         end
  | UB _ => False
  end.
Proof. vm_compute. done. Qed.

(** The clock before [open] is a null pointer. *)
Lemma real_time_before_open (w : world sim) : get_real_time (bare_adapter 1) w = UB "null hca_core_clock".
Proof. reflexivity. Qed.
