(* ===== verification/ParserGraph.v ===== *)
(** * Parser graph nodes (src/src/dpcp/parser_graph_node.cpp and
      [adapter::create_parser_graph_node])

    A programmable node of the parser: a general object whose mailbox describes
    a header, the fields to sample from it and the arc that leads to it.  The
    adapter checks the attributes against the capabilities before it creates
    the node.  The capabilities are those of [Caps]. *)

From stdpp Require Import strings.
From S2P Require Import Prelude Codec Prm PrmCaps Dcmd Own Sim Obj Writes Caps.
Open Scope string_scope.
Open Scope list_scope.
Open Scope Z_scope.
Open Scope m_scope.

(** ** Attributes *)

Record parse_graph_arc_attr := mkArc {
  compare_condition_value : Z;
  start_inner_tunnel : bool;
  arc_parse_graph_node : Z;
  parse_graph_node_handle : Z
}.

Record parse_graph_flow_match_sample_attr := mkSample {
  sa_enabled : bool;
  sa_field_offset : Z;
  sa_offset_mode : Z;
  sa_field_offset_mask : Z;
  sa_field_offset_shift : Z;
  sa_field_base_offset : Z;
  sa_tunnel_mode : Z;
  sa_field_id : Z
}.

Record parser_graph_node_attr := mkNodeAttr {
  header_length_base_value : Z;
  header_length_field_offset : Z;
  header_length_field_mask : Z;
  header_length_mode : Z;
  header_length_field_shift : Z;
  na_samples : list parse_graph_flow_match_sample_attr;
  na_in_arcs : list parse_graph_arc_attr
}.

Record parser_graph_node := mkNode {
  pgn_obj : obj;
  m_attrs : parser_graph_node_attr;
  m_sample_ids : list Z;
  m_parser_graph_node_id : Z
}.

Definition parser_graph_node_new (ctx : option Z) (a : parser_graph_node_attr) : parser_graph_node :=
  mkNode (obj_new ctx) a [] 0.

(** [get_num_of_samples], [get_id] *)
Definition get_num_of_samples (n : parser_graph_node) : Z := wrap 16 (Z.of_nat (length (m_sample_ids n))).
Definition pgn_get_id (n : parser_graph_node) : status * Z := (DPCP_OK, m_parser_graph_node_id n).

(** ** The command *)

Definition p_hdr : Z := ADDR_OF ifc.create_parse_graph_node_in 0 ["hdr"].
Definition p_node : Z := ADDR_OF ifc.create_parse_graph_node_in 0 ["node"].
Definition p_sample : Z := ADDR_OF ifc.parse_graph_node p_node ["flow_match_sample"].
Definition p_in_arc : Z := ADDR_OF ifc.parse_graph_node p_node ["input_arc"].
Definition SAMPLE_SZ : Z := ST_SZ_BYTES ifc.parse_graph_flow_match_sample.

(** The statements for the header of the node. *)
Definition node_ws (a : parser_graph_node_attr) : list write :=
  [DEVX_SET ifc.general_obj_in_cmd_hdr p_hdr ["opcode"] MLX5_CMD_OP_CREATE_GENERAL_OBJECT;
   DEVX_SET ifc.general_obj_in_cmd_hdr p_hdr ["obj_type"] MLX5_GENERAL_OBJECT_TYPES_PARSE_GRAPH_NODE;
   DEVX_SET ifc.parse_graph_node p_node ["header_length_mode"] (header_length_mode a);
   DEVX_SET ifc.parse_graph_node p_node ["header_length_base_value"] (header_length_base_value a);
   DEVX_SET ifc.parse_graph_node p_node ["header_length_field_offset"] (header_length_field_offset a);
   DEVX_SET ifc.parse_graph_node p_node ["header_length_field_shift"] (header_length_field_shift a);
   DEVX_SET ifc.parse_graph_node p_node ["header_length_field_mask"] (header_length_field_mask a)].

(** Those for one sample, at its place. *)
Definition sample_ws (p : Z) (s : parse_graph_flow_match_sample_attr) : list write :=
  only (sa_enabled s)
    [DEVX_SET ifc.parse_graph_flow_match_sample p ["flow_match_sample_en"] (Z.b2z (sa_enabled s));
     DEVX_SET ifc.parse_graph_flow_match_sample p ["flow_match_sample_field_offset"] (sa_field_offset s);
     DEVX_SET ifc.parse_graph_flow_match_sample p ["flow_match_sample_offset_mode"] (sa_offset_mode s);
     DEVX_SET ifc.parse_graph_flow_match_sample p ["flow_match_sample_field_offset_mask"] (sa_field_offset_mask s);
     DEVX_SET ifc.parse_graph_flow_match_sample p ["flow_match_sample_field_offset_shift"] (sa_field_offset_shift s);
     DEVX_SET ifc.parse_graph_flow_match_sample p ["flow_match_sample_field_base_offset"] (sa_field_base_offset s);
     DEVX_SET ifc.parse_graph_flow_match_sample p ["flow_match_sample_tunnel_mode"] (sa_tunnel_mode s)].

Definition sample_addr (i : nat) : Z := p_sample + Z.of_nat i * SAMPLE_SZ.

(** The loop over the samples, from the sample of index [i]. *)
Fixpoint samples_ws (i : nat) (ss : list parse_graph_flow_match_sample_attr) : list write :=
  match ss with
  | [] => []
  | s :: r => sample_ws (sample_addr i) s ++ samples_ws (S i) r
  end.

Definition arc_ws (c : parse_graph_arc_attr) : list write :=
  only (negb (arc_parse_graph_node c =? 0))
    [DEVX_SET ifc.parse_graph_arc p_in_arc ["compare_condition_value"] (compare_condition_value c);
     DEVX_SET ifc.parse_graph_arc p_in_arc ["start_inner_tunnel"] (Z.b2z (start_inner_tunnel c));
     DEVX_SET ifc.parse_graph_arc p_in_arc ["arc_parse_graph_node"] (arc_parse_graph_node c);
     DEVX_SET ifc.parse_graph_arc p_in_arc ["parse_graph_node_handle"] (parse_graph_node_handle c)].

Definition node_in (a : parser_graph_node_attr) (c : parse_graph_arc_attr) : list Z :=
  mailbox ifc.create_parse_graph_node_in (node_ws a ++ samples_ws 0 (na_samples a) ++ arc_ws c).

(** Every sample that is written lies in the command buffer. *)
Fixpoint samples_fit (i : nat) (ss : list parse_graph_flow_match_sample_attr) : bool :=
  match ss with
  | [] => true
  | s :: r => (negb (sa_enabled s) || (sample_addr i + SAMPLE_SZ <=? ST_SZ_BYTES ifc.create_parse_graph_node_in))
              && samples_fit (S i) r
  end.

Definition node_query_in (id : Z) : list Z :=
  mailbox ifc.general_obj_in_cmd_hdr
    [DEVX_SET ifc.general_obj_in_cmd_hdr 0 ["opcode"] MLX5_CMD_OP_QUERY_GENERAL_OBJECT;
     DEVX_SET ifc.general_obj_in_cmd_hdr 0 ["obj_type"] MLX5_GENERAL_OBJECT_TYPES_PARSE_GRAPH_NODE;
     DEVX_SET ifc.general_obj_in_cmd_hdr 0 ["obj_id"] id].

(** The identifiers of the enabled samples of an answer, for the first [n]
    samples from index [i]. *)
Fixpoint answered_ids (i : nat) (n : nat) (out : list Z) : list Z :=
  match n with
  | O => []
  | S n =>
      (if DEVX_GET ifc.parse_graph_flow_match_sample (sample_addr i) ["flow_match_sample_en"] out =? 0 then []
       else [DEVX_GET ifc.parse_graph_flow_match_sample (sample_addr i) ["flow_match_sample_field_id"] out])
      ++ answered_ids (S i) n out
  end.

Section node.
Context {D : Type} `{DevX D}.

(** [parser_graph_node::create] *)
Definition pgn_create (n : parser_graph_node) : M D (status * parser_graph_node) :=
  let a := m_attrs n in
  if negb (samples_fit 0 (na_samples a)) then ub "sample outside the command buffer"
  else
    c <- need (head (na_in_arcs a)) "first arc of an empty vector";;
    '(st, o, out) <- obj_create (pgn_obj n) (Some (node_in a c)) (Some (zeros (ST_SZ_BYTES ifc.general_obj_out_cmd_hdr)));;
    if negb (is_ok st) then ret (DPCP_ERR_CREATE, mkNode o a (m_sample_ids n) (m_parser_graph_node_id n))
    else ret (DPCP_OK, mkNode o a (m_sample_ids n) (DEVX_GET ifc.general_obj_out_cmd_hdr 0 ["obj_id"] out)).

(** [parser_graph_node::query]: the identifiers are added to the ones it has. *)
Definition pgn_query (n : parser_graph_node) : M D (status * parser_graph_node) :=
  let '(st, id) := pgn_get_id n in
  if negb (is_ok st) then ret (DPCP_ERR_QUERY, n)
  else
    '(st, o, out) <- obj_query (pgn_obj n) (Some (node_query_in id)) (Some (zeros (ST_SZ_BYTES ifc.create_parse_graph_node_out)));;
    if negb (is_ok st) then ret (DPCP_ERR_QUERY, mkNode o (m_attrs n) (m_sample_ids n) (m_parser_graph_node_id n))
    else
      let k := length (na_samples (m_attrs n)) in
      if negb (sample_addr k <=? ST_SZ_BYTES ifc.create_parse_graph_node_out) then ub "sample outside the answer"
      else
        let ids := m_sample_ids n ++ answered_ids 0 k out in
        let n := mkNode o (m_attrs n) ids (m_parser_graph_node_id n) in
        ret (if Nat.eqb k (length ids) then DPCP_OK else DPCP_ERR_QUERY, n).

(** ** The checks of the adapter *)

(** [1 << v] as an [int], undefined from the width of the type on. *)
Definition shl1 (v : Z) : M D Z := if v <? 32 then ret (Z.shiftl 1 v) else ub "shift by the width of the type".

Definition sample_ok (e : hca_capabilities) (s : parse_graph_flow_match_sample_attr) : M D bool :=
  if negb (sa_enabled s) then ret true
  else if negb (sa_field_base_offset s <=? cap_of e "max_parse_graph_flow_match_sample_field_base_offset_value") then ret false
  else
    b <- shl1 (sa_offset_mode s);;
    if Z.land b (cap_of e "parse_graph_header_length_mode") =? 0 then ret false
    else ret ((sa_field_id s =? 0) || negb (cap_of e "parse_graph_flow_match_sample_id_in_out" =? 0)).

Fixpoint samples_ok (e : hca_capabilities) (ss : list parse_graph_flow_match_sample_attr) : M D bool :=
  match ss with
  | [] => ret true
  | s :: r => ok <- sample_ok e s;; if ok then samples_ok e r else ret false
  end.

(** The test of the length mask; [(1 << 31) - 1] overflows an [int]. *)
Definition mask_ok (e : hca_capabilities) (mask : Z) : M D bool :=
  if mask =? 0 then ret true
  else
    let width := cap_of e "parse_graph_header_length_field_mask_width" in
    if width <? 31 then ret (negb (Z.land mask (wrap 32 (Z.shiftl 1 width - 1)) =? 0))
    else ub "overflow of (1 << width) - 1".

(** The checks of [adapter::create_parser_graph_node]; they all report the same
    error. *)
Definition node_supported (e : hca_capabilities) (a : parser_graph_node_attr) : M D bool :=
  if cap_of e "general_object_types_parse_graph_node" =? 0 then ret false
  else
    m <- shl1 (header_length_mode a);;
    if Z.land m (cap_of e "parse_graph_header_length_mode") =? 0 then ret false
    else
      w <- mask_ok e (header_length_field_mask a);;
      if negb w then ret false
      else if negb (header_length_base_value a <=? cap_of e "max_parse_graph_header_length_base_value") then ret false
      else if negb (Z.of_nat (length (na_in_arcs a)) <=? Z.min (cap_of e "max_num_parse_graph_arc_in") 1) then ret false
      else
        c <- need (head (na_in_arcs a)) "first arc of an empty vector";;
        n <- shl1 (arc_parse_graph_node c);;
        if Z.land n (cap_of e "parse_graph_node_in") =? 0 then ret false
        else if negb (Z.of_nat (length (na_samples a)) <=? cap_of e "max_num_parse_graph_flow_match_sample") then ret false
        else samples_ok e (na_samples a).

(** [adapter::create_parser_graph_node] *)
Definition create_parser_graph_node (ctx : option Z) (caps : option hca_capabilities) (a : parser_graph_node_attr)
  : M D (status * option (Z * parser_graph_node)) :=
  e <- need caps "null m_external_hca_caps";;
  ok <- node_supported e a;;
  if negb ok then ret (DPCP_ERR_NO_SUPPORT, None)
  else
    self <- alloc BMem;;
    match self with
    | None => ret (DPCP_ERR_NO_MEMORY, None)
    | Some self =>
        '(st, n) <- pgn_create (parser_graph_node_new ctx a);;
        if negb (is_ok st) then _ <- obj_delete (pgn_obj n);; dealloc self;; ret (DPCP_ERR_CREATE, None)
        else ret (DPCP_OK, Some (self, n))
    end.
End node.

(** ** What the command says *)

Definition in_range (bits v : Z) : Prop := 0 <= v < 2 ^ bits.

Definition sample_wf (s : parse_graph_flow_match_sample_attr) : Prop :=
  in_range 16 (sa_field_offset s) /\ in_range 4 (sa_offset_mode s) /\ in_range 32 (sa_field_offset_mask s)
  /\ in_range 4 (sa_field_offset_shift s) /\ in_range 8 (sa_field_base_offset s) /\ in_range 3 (sa_tunnel_mode s)
  /\ in_range 32 (sa_field_id s).
Definition arc_wf (c : parse_graph_arc_attr) : Prop :=
  in_range 16 (compare_condition_value c) /\ in_range 8 (arc_parse_graph_node c) /\ in_range 32 (parse_graph_node_handle c).
Definition node_attr_wf (a : parser_graph_node_attr) : Prop :=
  in_range 16 (header_length_base_value a) /\ in_range 16 (header_length_field_offset a)
  /\ in_range 32 (header_length_field_mask a) /\ in_range 4 (header_length_mode a) /\ in_range 4 (header_length_field_shift a)
  /\ Forall sample_wf (na_samples a) /\ Forall arc_wf (na_in_arcs a).

(** The attributes a command carries, as the device reads them. *)
Definition decode_sample (b : list Z) (i : nat) : parse_graph_flow_match_sample_attr :=
  let get f := DEVX_GET ifc.parse_graph_flow_match_sample (sample_addr i) [F f] b in
  mkSample (negb (get "flow_match_sample_en" =? 0)) (get "flow_match_sample_field_offset") (get "flow_match_sample_offset_mode")
    (get "flow_match_sample_field_offset_mask") (get "flow_match_sample_field_offset_shift")
    (get "flow_match_sample_field_base_offset") (get "flow_match_sample_tunnel_mode") (get "flow_match_sample_field_id").

Definition decode_arc (b : list Z) : parse_graph_arc_attr :=
  let get f := DEVX_GET ifc.parse_graph_arc p_in_arc [F f] b in
  mkArc (get "compare_condition_value") (negb (get "start_inner_tunnel" =? 0)) (get "arc_parse_graph_node") (get "parse_graph_node_handle").

Definition decode_node (b : list Z) : parser_graph_node_attr :=
  let get f := DEVX_GET ifc.parse_graph_node p_node [F f] b in
  mkNodeAttr (get "header_length_base_value") (get "header_length_field_offset") (get "header_length_field_mask")
    (get "header_length_mode") (get "header_length_field_shift") (map (decode_sample b) (seq 0 8)) [decode_arc b].

(** What can be sent of a sample: a disabled one is all zero, and the identifier is
    never sent. *)
Definition no_sample : parse_graph_flow_match_sample_attr := mkSample false 0 0 0 0 0 0 0.
Definition no_arc : parse_graph_arc_attr := mkArc 0 false 0 0.
Definition sent_sample (s : parse_graph_flow_match_sample_attr) : parse_graph_flow_match_sample_attr :=
  if sa_enabled s then
    mkSample true (sa_field_offset s) (sa_offset_mode s) (sa_field_offset_mask s) (sa_field_offset_shift s)
      (sa_field_base_offset s) (sa_tunnel_mode s) 0
  else no_sample.
Definition sent_arc (c : parse_graph_arc_attr) : parse_graph_arc_attr := if arc_parse_graph_node c =? 0 then no_arc else c.

(** Statements that store outside [lo, hi). *)
Definition outside (lo hi : Z) (ws : list write) : Prop :=
  Forall (fun w => match w with W32 f _ => f_ok f = true /\ (f_addr f + 4 <= lo \/ hi <= f_addr f) | _ => False end) ws.

Lemma seek_outside f ws lo hi :
  f_ok f = true -> lo <= f_addr f -> f_addr f + 4 <= hi -> outside lo hi ws -> seek f ws = Miss.
Proof.
  intros Hf Hl Hh. induction 1 as [|w r Hw _ IH]; [done|]. cbn [seek]. rewrite IH. destruct w as [g v| |]; [|done..].
  destruct Hw as [Hg Hd]. cbn [hit1]. unfold f_eqb. rewrite (proj2 (Z.eqb_neq (f_addr f) (f_addr g))) by lia. cbn [andb].
  rewrite Hg. unfold f_disj. destruct Hd.
  - rewrite (proj2 (Z.leb_le (f_addr g + 4) (f_addr f))) by lia. by rewrite orb_true_r.
  - by rewrite (proj2 (Z.leb_le (f_addr f + 4) (f_addr g))) by lia.
Qed.

Lemma sample_ws_reloc p s : sample_ws p s = map (reloc p) (sample_ws 0 s).
Proof. unfold sample_ws. rewrite reloc_only. cbn [map]. by rewrite !reloc_set, !Z.add_0_r. Qed.

(** The statements of a sample stay in its 16 bytes. *)
Lemma sample_ws_in s :
  Forall (fun w => match w with W32 f _ => f_ok f = true /\ 0 <= f_addr f <= 12 | _ => False end) (sample_ws 0 s).
Proof. unfold sample_ws, only. destruct (sa_enabled s); [|constructor]. repeat (apply Forall_cons; [split; [reflexivity|by vm_compute]|]). constructor. Qed.

Lemma sample_ws_outside p s lo hi : 0 <= p -> (p + 16 <= lo \/ hi <= p) -> outside lo hi (sample_ws p s).
Proof.
  intros Hp Hd. rewrite sample_ws_reloc. unfold outside. apply Forall_map. eapply list.Forall_impl; [apply sample_ws_in|].
  intros [f v| |]; [|done..]. intros [Hf Ha]. cbn [reloc]. unfold f_ok in *. cbn [reloc_field f_addr f_sh f_sz].
  apply andb_true_iff in Hf as [Hf H3]. apply andb_true_iff in Hf as [Hf H2]. apply andb_true_iff in Hf as [H0 H1].
  rewrite H1, H2, H3, leb0_shift by done. split; [done|]. lia.
Qed.

Lemma sample_addr_eq i : sample_addr i = p_sample + 16 * Z.of_nat i.
Proof. unfold sample_addr. change SAMPLE_SZ with 16. lia. Qed.

Lemma samples_ws_outside i ss lo hi :
  hi <= sample_addr i \/ sample_addr (i + length ss) <= lo -> outside lo hi (samples_ws i ss).
Proof.
  revert i. induction ss as [|s r IH]; intros i Hd; [constructor|]. cbn [samples_ws]. apply Forall_app. split.
  - apply sample_ws_outside; rewrite !sample_addr_eq in *; cbn [length] in Hd; [|lia].
    assert (0 <= p_sample) by by vm_compute. lia.
  - apply IH. rewrite !sample_addr_eq in *. cbn [length] in Hd. lia.
Qed.

(** A member of the sample of index [i], among the statements of all of them. *)
Lemma seek_samples g i ss s :
  f_ok g = true -> 0 <= f_addr g <= 12 -> ss !! i = Some s -> seek g (sample_ws 0 s) <> Clash ->
  seek (reloc_field (sample_addr i) g) (samples_ws 0 ss) = seek g (sample_ws 0 s).
Proof.
  intros Hg Ha Hs Hc. assert (0 <= p_sample) as Hp by by vm_compute.
  assert (f_ok (reloc_field (sample_addr i) g) = true) as Hok.
  { unfold f_ok in *. cbn [reloc_field f_addr f_sh f_sz]. apply andb_true_iff in Hg as [Hg H3]. apply andb_true_iff in Hg as [Hg H2].
    apply andb_true_iff in Hg as [H0 H1]. rewrite H1, H2, H3, leb0_shift; [done| |done]. rewrite sample_addr_eq. lia. }
  rewrite <- (take_drop_middle ss i s Hs).
  assert (forall l j r, samples_ws j (l ++ r) = samples_ws j l ++ samples_ws (j + length l) r) as Happ.
  { induction l as [|x l IH]; intros j r; cbn [app samples_ws length]; [by rewrite Nat.add_0_r|].
    rewrite IH, <- app_assoc. do 2 f_equal. f_equal. lia. }
  rewrite Happ, seek_app. cbn [samples_ws]. rewrite seek_app.
  rewrite length_take_le by (apply lookup_lt_Some in Hs; lia). rewrite Nat.add_0_l.
  rewrite (seek_outside _ (samples_ws (S i) _) (sample_addr i) (sample_addr (S i))); [|done|..].
  - rewrite sample_ws_reloc, seek_reloc; [|rewrite sample_addr_eq; lia|done].
    destruct (seek g (sample_ws 0 s)) eqn:E; [|done|done].
    apply (seek_outside _ _ (sample_addr i) (sample_addr (S i))); [done|cbn [reloc_field f_addr]; lia|cbn [reloc_field f_addr]; rewrite !sample_addr_eq; lia|].
    apply samples_ws_outside. right. rewrite length_take. rewrite !sample_addr_eq. lia.
  - cbn [reloc_field f_addr]. lia.
  - cbn [reloc_field f_addr]. rewrite !sample_addr_eq. lia.
  - apply samples_ws_outside. left. lia.
Qed.

Lemma node_ws_outside a hi : outside p_sample hi (node_ws a).
Proof. unfold node_ws. repeat (apply Forall_cons; [split; [reflexivity|left; by vm_compute]|]). constructor. Qed.

Lemma arc_ws_outside c lo : outside lo p_in_arc (arc_ws c).
Proof.
  unfold arc_ws, only. destruct (negb _); [|constructor].
  repeat (apply Forall_cons; [split; [reflexivity|right; by vm_compute]|]). constructor.
Qed.

Lemma outside_weaken lo hi lo' hi' ws : lo <= lo' -> hi' <= hi -> outside lo hi ws -> outside lo' hi' ws.
Proof. intros Hl Hh. apply Forall_impl. intros [f v| |]; [|done..]. intros [Hf Hd]. split; [done|lia]. Qed.

(** A member of the command, by the part it belongs to. *)
Definition found (f : field) (h : hit) (v : Z) : Prop :=
  match h with Miss => v = 0 | Val x => v = x mod 2 ^ f_sz f | Clash => False end.

Section says.
Context (a : parser_graph_node_attr) (c : parse_graph_arc_attr).
Let ss := na_samples a.

Lemma node_in_get f v :
  f_in f (ST_SZ_BYTES ifc.create_parse_graph_node_in) = true ->
  found f (seek f (node_ws a ++ samples_ws 0 ss ++ arc_ws c)) v -> get_field f (node_in a c) = v.
Proof. intros Hf Hs. apply hit_val_ok in Hs as [? <-]. by apply mailbox_get. Qed.

Lemma node_get_head f v :
  f_in f (ST_SZ_BYTES ifc.create_parse_graph_node_in) = true -> f_addr f + 4 <= p_sample ->
  found f (seek f (node_ws a)) v -> get_field f (node_in a c) = v.
Proof.
  intros Hf Ha Hs. pose proof (f_in_ok _ _ Hf) as Hok. apply node_in_get; [done|]. rewrite !seek_app.
  rewrite (seek_outside f (arc_ws c) (f_addr f) (f_addr f + 4)), (seek_outside f (samples_ws 0 ss) (f_addr f) (f_addr f + 4)); [done|done|lia|lia| |done|lia|lia|].
  - apply samples_ws_outside. left. rewrite sample_addr_eq. lia.
  - apply (outside_weaken (f_addr f) p_in_arc); [lia| |apply arc_ws_outside].
    assert (p_sample <= p_in_arc) by by vm_compute. lia.
Qed.

Lemma node_get_arc f v :
  f_in f (ST_SZ_BYTES ifc.create_parse_graph_node_in) = true -> p_in_arc <= f_addr f -> (length ss <= 8)%nat ->
  found f (seek f (arc_ws c)) v -> get_field f (node_in a c) = v.
Proof.
  intros Hf Ha Hlen Hs. pose proof (f_in_ok _ _ Hf) as Hok. apply node_in_get; [done|]. rewrite !seek_app.
  assert (p_in_arc = p_sample + 128) as Hp by by vm_compute.
  rewrite (seek_outside f (node_ws a) (f_addr f) (f_addr f + 4)), (seek_outside f (samples_ws 0 ss) (f_addr f) (f_addr f + 4));
    [by destruct (seek f (arc_ws c))|done|lia|lia| |done|lia|lia|].
  - apply samples_ws_outside. right. rewrite sample_addr_eq. lia.
  - apply (outside_weaken p_sample (f_addr f + 4)); [lia|lia|apply node_ws_outside].
Qed.

(** The sample of an index: sent, or left out. *)
Definition ws_at (i : nat) : list write := match ss !! i with Some s => sample_ws 0 s | None => [] end.

Lemma node_get_sample g i v :
  f_ok g = true -> 0 <= f_addr g <= 12 -> (i < 8)%nat -> found g (seek g (ws_at i)) v -> (length ss <= 8)%nat ->
  get_field (reloc_field (sample_addr i) g) (node_in a c) = v.
Proof.
  intros Hg Ha Hi Hs Hlen. assert (p_in_arc = p_sample + 128) as Hp by by vm_compute.
  assert (0 <= p_sample /\ p_sample + 128 + 4 <= ST_SZ_BYTES ifc.create_parse_graph_node_in) as [Hp0 Hsz] by by vm_compute.
  pose proof (sample_addr_eq i) as Hai. set (f := reloc_field (sample_addr i) g) in *.
  assert (f_addr f = sample_addr i + f_addr g) as Hfa by done.
  assert (f_ok f = true) as Hok.
  { unfold f_ok in *. unfold f. cbn [reloc_field f_addr f_sh f_sz]. apply andb_true_iff in Hg as [Hg H3]. apply andb_true_iff in Hg as [Hg H2].
    apply andb_true_iff in Hg as [H0 H1]. rewrite H1, H2, H3, leb0_shift; [done|lia|done]. }
  apply node_in_get; [unfold f_in; rewrite Hok; apply Z.leb_le; lia|]. rewrite !seek_app.
  rewrite (seek_outside f (node_ws a) p_sample (f_addr f + 4)), (seek_outside f (arc_ws c) (f_addr f) p_in_arc);
    [|done|lia|lia|apply arc_ws_outside|done|lia|lia|apply node_ws_outside].
  unfold ws_at in Hs. destruct (ss !! i) as [s|] eqn:E.
  - unfold f. rewrite (seek_samples g i ss s); [by destruct (seek g (sample_ws 0 s))|done|done|done|by destruct (seek g _)].
  - rewrite (seek_outside f (samples_ws 0 ss) (f_addr f) (f_addr f + 4)); [done|done|lia|lia|].
    apply samples_ws_outside. right. apply lookup_ge_None in E. rewrite sample_addr_eq. lia.
Qed.
End says.

Lemma found_small f x v : Z.of_nat 0 <= f_sz f -> v = x -> 0 <= x < 2 ^ f_sz f -> found f (Val x) v.
Proof. intros _ -> Hx. simpl. symmetry. by apply Z.mod_small. Qed.

Lemma sample_get a c i name v :
  let g := fld ifc.parse_graph_flow_match_sample 0 [F name] in
  f_ok g && (0 <=? f_addr g) && (f_addr g <=? 12) = true -> (i < 8)%nat -> (length (na_samples a) <= 8)%nat ->
  found g (seek g (ws_at a i)) v ->
  DEVX_GET ifc.parse_graph_flow_match_sample (sample_addr i) [F name] (node_in a c) = v.
Proof.
  intros g Hg Hi Hlen Hs. apply andb_true_iff in Hg as [Hg H2%Z.leb_le]. apply andb_true_iff in Hg as [Hg H1%Z.leb_le].
  unfold DEVX_GET. rewrite <- (Z.add_0_r (sample_addr i)), fld_reloc. by apply node_get_sample.
Qed.

(** The seven members that are sent, and the one that is not. *)
Lemma sample_sent s :
  sample_wf s ->
  let get f v := let g := fld ifc.parse_graph_flow_match_sample 0 [F f] in found g (seek g (sample_ws 0 s)) v in
  let t := sent_sample s in
  get "flow_match_sample_en" (Z.b2z (sa_enabled t)) /\ get "flow_match_sample_field_offset" (sa_field_offset t)
  /\ get "flow_match_sample_offset_mode" (sa_offset_mode t) /\ get "flow_match_sample_field_offset_mask" (sa_field_offset_mask t)
  /\ get "flow_match_sample_field_offset_shift" (sa_field_offset_shift t)
  /\ get "flow_match_sample_field_base_offset" (sa_field_base_offset t) /\ get "flow_match_sample_tunnel_mode" (sa_tunnel_mode t)
  /\ get "flow_match_sample_field_id" 0.
Proof.
  intros (H1 & H2 & H3 & H4 & H5 & H6 & _). unfold in_range in *. cbv zeta. unfold sample_ws, sent_sample.
  destruct (sa_enabled s); [|done]. cbn [only sa_enabled sa_field_offset sa_offset_mode sa_field_offset_mask sa_field_offset_shift
    sa_field_base_offset sa_tunnel_mode Z.b2z].
  unfold DEVX_SET. split_and!; norm_fld; cbn [seek hit1 f_eqb f_ok f_disj f_addr f_sh f_sz Z.eqb Z.leb Z.compare andb orb];
    first [reflexivity | apply found_small; [done|done|done]].
Qed.

Lemma decode_sample_in a c i :
  Forall sample_wf (na_samples a) -> (length (na_samples a) <= 8)%nat -> (i < 8)%nat ->
  decode_sample (node_in a c) i = match na_samples a !! i with Some s => sent_sample s | None => no_sample end.
Proof.
  intros Hwf Hlen Hi. unfold decode_sample. cbv zeta.
  assert (exists t, t = match na_samples a !! i with Some s => sent_sample s | None => no_sample end) as [t Ht] by by eexists.
  rewrite <- Ht. assert (forall name v, let g := fld ifc.parse_graph_flow_match_sample 0 [F name] in
    f_ok g && (0 <=? f_addr g) && (f_addr g <=? 12) = true -> found g (seek g (ws_at a i)) v ->
    DEVX_GET ifc.parse_graph_flow_match_sample (sample_addr i) [F name] (node_in a c) = v) as Hget.
  { intros name v g Hg Hf. by apply sample_get. }
  unfold ws_at in Hget. destruct (na_samples a !! i) as [s|] eqn:E.
  - destruct (sample_sent s) as (E1 & E2 & E3 & E4 & E5 & E6 & E7 & E8); [by eapply Forall_lookup_1|]. rewrite <- Ht in *.
    rewrite (Hget "flow_match_sample_en" _ eq_refl E1),
      (Hget "flow_match_sample_field_offset" _ eq_refl E2),
      (Hget "flow_match_sample_offset_mode" _ eq_refl E3),
      (Hget "flow_match_sample_field_offset_mask" _ eq_refl E4),
      (Hget "flow_match_sample_field_offset_shift" _ eq_refl E5),
      (Hget "flow_match_sample_field_base_offset" _ eq_refl E6),
      (Hget "flow_match_sample_tunnel_mode" _ eq_refl E7),
      (Hget "flow_match_sample_field_id" _ eq_refl E8).
    subst t. unfold sent_sample. by destruct (sa_enabled s).
  - subst t. by rewrite (Hget "flow_match_sample_en" 0 eq_refl eq_refl),
      (Hget "flow_match_sample_field_offset" 0 eq_refl eq_refl),
      (Hget "flow_match_sample_offset_mode" 0 eq_refl eq_refl),
      (Hget "flow_match_sample_field_offset_mask" 0 eq_refl eq_refl),
      (Hget "flow_match_sample_field_offset_shift" 0 eq_refl eq_refl),
      (Hget "flow_match_sample_field_base_offset" 0 eq_refl eq_refl),
      (Hget "flow_match_sample_tunnel_mode" 0 eq_refl eq_refl),
      (Hget "flow_match_sample_field_id" 0 eq_refl eq_refl).
Qed.

Lemma decode_arc_in a c :
  arc_wf c -> (length (na_samples a) <= 8)%nat -> decode_arc (node_in a c) = sent_arc c.
Proof.
  intros (H1 & H2 & H3) Hlen. unfold in_range in *. unfold decode_arc. cbv zeta. unfold DEVX_GET.
  assert (forall name v, let f := fld ifc.parse_graph_arc p_in_arc [F name] in
    f_in f (ST_SZ_BYTES ifc.create_parse_graph_node_in) && (p_in_arc <=? f_addr f) = true -> found f (seek f (arc_ws c)) v ->
    get_field f (node_in a c) = v) as Hget.
  { intros name v f [Hf Ha%Z.leb_le]%andb_true_iff Hs. by apply node_get_arc. }
  unfold arc_ws, sent_arc in *. destruct (arc_parse_graph_node c =? 0) eqn:E; cbn [negb only] in Hget.
  - by rewrite (Hget "compare_condition_value" 0 eq_refl eq_refl), (Hget "start_inner_tunnel" 0 eq_refl eq_refl),
      (Hget "arc_parse_graph_node" 0 eq_refl eq_refl), (Hget "parse_graph_node_handle" 0 eq_refl eq_refl).
  - destruct c as [v t n x]. cbn [compare_condition_value start_inner_tunnel arc_parse_graph_node parse_graph_node_handle] in *.
    rewrite (Hget "compare_condition_value" v), (Hget "start_inner_tunnel" (Z.b2z t)), (Hget "arc_parse_graph_node" n),
      (Hget "parse_graph_node_handle" x); [by destruct t|..]; try reflexivity;
    unfold DEVX_SET; norm_fld; cbn [seek hit1 f_eqb f_ok f_disj f_addr f_sh f_sz Z.eqb Z.leb Z.compare Pos.compare Pos.compare_cont Pos.eqb andb orb];
    (apply found_small; [done|done|try done; by destruct t]).
Qed.

(** C21. The command that creates a parser graph node carries its attributes: read
    back as the device reads it, it gives the header description, every enabled
    sample at its index and zeros for the others, and the input arc; the only
    attribute of a sample that is lost is its identifier. *)
Theorem node_roundtrip a c :
  node_attr_wf a -> na_in_arcs a = [c] -> (length (na_samples a) <= 8)%nat ->
  decode_node (node_in a c) =
    mkNodeAttr (header_length_base_value a) (header_length_field_offset a) (header_length_field_mask a) (header_length_mode a)
      (header_length_field_shift a) (map sent_sample (na_samples a) ++ replicate (8 - length (na_samples a)) no_sample) [sent_arc c]
  /\ DEVX_GET ifc.general_obj_in_cmd_hdr p_hdr ["opcode"] (node_in a c) = MLX5_CMD_OP_CREATE_GENERAL_OBJECT
  /\ DEVX_GET ifc.general_obj_in_cmd_hdr p_hdr ["obj_type"] (node_in a c) = MLX5_GENERAL_OBJECT_TYPES_PARSE_GRAPH_NODE.
Proof.
  intros (H1 & H2 & H3 & H4 & H5 & Hs & Ha) Hc Hlen. unfold in_range in *.
  assert (forall l p path v, let f := fld l p path in
    f_in f (ST_SZ_BYTES ifc.create_parse_graph_node_in) && (f_addr f + 4 <=? p_sample) = true -> found f (seek f (node_ws a)) v ->
    DEVX_GET l p path (node_in a c) = v) as Hget.
  { intros l p path v f [Hf Hl%Z.leb_le]%andb_true_iff Hv. by apply node_get_head. }
  assert (map (decode_sample (node_in a c)) (seq 0 8) =
    map sent_sample (na_samples a) ++ replicate (8 - length (na_samples a)) no_sample) as Hsm.
  { apply list_eq. intros i. change (map ?f ?l) with (f <$> l).
    destruct (decide (i < 8)%nat) as [Hi|Hi].
    - rewrite list_lookup_fmap, lookup_seq_lt by done. simpl. rewrite decode_sample_in by done.
      destruct (na_samples a !! i) as [s|] eqn:E.
      + rewrite lookup_app_l by (rewrite length_fmap; by eapply lookup_lt_Some). by rewrite list_lookup_fmap, E.
      + apply lookup_ge_None in E. rewrite lookup_app_r by (by rewrite length_fmap). rewrite length_fmap.
        by rewrite lookup_replicate_2 by lia.
    - rewrite lookup_ge_None_2 by (rewrite length_fmap, length_seq; lia). symmetry. apply lookup_ge_None_2.
      rewrite length_app, length_fmap, length_replicate. lia. }
  split_and!.
  - unfold decode_node. cbv zeta. rewrite Hsm, decode_arc_in; [|rewrite Hc in Ha; by inversion Ha|done].
    f_equal; (apply Hget; [reflexivity|]); unfold node_ws, DEVX_SET; norm_fld;
      cbn [seek hit1 f_eqb f_ok f_disj f_addr f_sh f_sz Z.eqb Z.leb Z.compare Pos.compare Pos.compare_cont Pos.eqb andb orb];
      (apply found_small; [done|done|done]).
  - apply Hget; reflexivity.
  - apply Hget; reflexivity.
Qed.

Definition sample_node : parser_graph_node_attr :=
  mkNodeAttr 16 0 0x3f 0 0 [mkSample true 0 0 0 0 4 0 0; mkSample false 9 1 1 1 1 1 1] [mkArc 0x1234 true 5 0].

Lemma sample_node_wf : node_attr_wf sample_node.
Proof. repeat split; try lia; repeat constructor; unfold in_range; simpl; lia. Qed.

Lemma node_roundtrip_witness :
  decode_node (node_in sample_node (mkArc 0x1234 true 5 0))
  = mkNodeAttr 16 0 0x3f 0 0 (mkSample true 0 0 0 0 4 0 0 :: replicate 7 no_sample) [mkArc 0x1234 true 5 0].
Proof. apply (node_roundtrip sample_node); [apply sample_node_wf|reflexivity|simpl; lia]. Defined.

(** ** Creation *)

(** The limits that dpcp.h documents for the attributes of a node and that the
    adapter tests: kind of object, header length mode and base, number of arcs and
    the node of the arc, number of samples, and of each sample in use the base
    offset and the setting of identifiers. *)
Record node_limits (e : hca_capabilities) (a : parser_graph_node_attr) (c : parse_graph_arc_attr) : Prop := mkLimits {
  lim_on : cap_of e "general_object_types_parse_graph_node" <> 0;
  lim_mode : Z.testbit (cap_of e "parse_graph_header_length_mode") (header_length_mode a) = true;
  lim_base : header_length_base_value a <= cap_of e "max_parse_graph_header_length_base_value";
  lim_arcs : na_in_arcs a = [c] /\ 1 <= cap_of e "max_num_parse_graph_arc_in";
  lim_arc : Z.testbit (cap_of e "parse_graph_node_in") (arc_parse_graph_node c) = true;
  lim_num : Z.of_nat (length (na_samples a)) <= cap_of e "max_num_parse_graph_flow_match_sample";
  lim_samples : Forall (fun s => sa_enabled s = true ->
    sa_field_base_offset s <= cap_of e "max_parse_graph_flow_match_sample_field_base_offset_value"
    /\ (sa_field_id s = 0 \/ cap_of e "parse_graph_flow_match_sample_id_in_out" <> 0)) (na_samples a)
}.

(** The two limits it documents and tests otherwise: the bits of the mask lie below
    the width, and the offset modes of the samples are supported offset modes. *)
Definition mask_within (e : hca_capabilities) (a : parser_graph_node_attr) : Prop :=
  forall k, 0 <= k -> Z.testbit (header_length_field_mask a) k = true -> k < cap_of e "parse_graph_header_length_field_mask_width".
Definition modes_in (e : hca_capabilities) (cap : string) (a : parser_graph_node_attr) : Prop :=
  Forall (fun s => sa_enabled s = true -> Z.testbit (cap_of e cap) (sa_offset_mode s) = true) (na_samples a).

(** All the documented limits. *)
Definition node_within (e : hca_capabilities) (a : parser_graph_node_attr) (c : parse_graph_arc_attr) : Prop :=
  node_limits e a c /\ mask_within e a /\ modes_in e "parse_graph_flow_match_sample_offset_mode" a.

(** The tests of the adapter.  A mask passes with one bit in range, and the offset
    mode of a sample is looked up among the header length modes. *)
Definition sample_passes (e : hca_capabilities) (s : parse_graph_flow_match_sample_attr) : Prop :=
  sa_enabled s = true ->
  sa_field_base_offset s <= cap_of e "max_parse_graph_flow_match_sample_field_base_offset_value"
  /\ Z.testbit (cap_of e "parse_graph_header_length_mode") (sa_offset_mode s) = true
  /\ (sa_field_id s = 0 \/ cap_of e "parse_graph_flow_match_sample_id_in_out" <> 0).

Record node_passes (e : hca_capabilities) (a : parser_graph_node_attr) (c : parse_graph_arc_attr) : Prop := mkPasses {
  nf_on : cap_of e "general_object_types_parse_graph_node" <> 0;
  nf_mode : Z.testbit (cap_of e "parse_graph_header_length_mode") (header_length_mode a) = true;
  nf_mask : header_length_field_mask a = 0 \/
    exists k, 0 <= k < cap_of e "parse_graph_header_length_field_mask_width" /\ Z.testbit (header_length_field_mask a) k = true;
  nf_base : header_length_base_value a <= cap_of e "max_parse_graph_header_length_base_value";
  nf_arcs : na_in_arcs a = [c] /\ 1 <= cap_of e "max_num_parse_graph_arc_in";
  nf_arc : Z.testbit (cap_of e "parse_graph_node_in") (arc_parse_graph_node c) = true;
  nf_num : Z.of_nat (length (na_samples a)) <= cap_of e "max_num_parse_graph_flow_match_sample";
  nf_samples : Forall (sample_passes e) (na_samples a)
}.

Lemma land_shl1 n m : 0 <= n -> (Z.land (Z.shiftl 1 n) m =? 0) = negb (Z.testbit m n).
Proof.
  intros Hn. assert (Z.land (Z.shiftl 1 n) m = if Z.testbit m n then Z.shiftl 1 n else 0) as ->.
  { apply Z.bits_inj'. intros k Hk. rewrite Z.land_spec. destruct (decide (k = n)) as [->|Hkn].
    - rewrite Z.shiftl_spec, Z.sub_diag by lia. simpl. destruct (Z.testbit m n); [|by rewrite Z.bits_0].
      rewrite Z.shiftl_spec, Z.sub_diag by lia. done.
    - assert (Z.testbit (Z.shiftl 1 n) k = false) as E.
      { rewrite Z.shiftl_1_l. apply Z.pow2_bits_false. lia. }
      rewrite E. simpl. destruct (Z.testbit m n); [by rewrite E|by rewrite Z.bits_0]. }
  destruct (Z.testbit m n); [|done]. apply Z.eqb_neq. rewrite Z.shiftl_1_l. pose proof (Z.pow_pos_nonneg 2 n). lia.
Qed.

(** The mask test: some bit below the width. *)
Lemma land_mask mask w :
  0 <= mask < 2 ^ 32 -> 0 <= w < 31 ->
  negb (Z.land mask (wrap 32 (Z.shiftl 1 w - 1)) =? 0) = true <-> exists k, 0 <= k < w /\ Z.testbit mask k = true.
Proof.
  intros Hm Hw. assert (wrap 32 (Z.shiftl 1 w - 1) = Z.ones w) as ->.
  { rewrite Z.shiftl_1_l, Z.ones_equiv. unfold wrap. rewrite Z.mod_small; [lia|].
    pose proof (Z.pow_pos_nonneg 2 w). pose proof (Z.pow_le_mono_r 2 w 31). lia. }
  rewrite negb_true_iff, Z.eqb_neq. split.
  - intros Hne. destruct (decide (Exists (fun k => Z.testbit mask (Z.of_nat k) = true) (seq 0 (Z.to_nat w)))) as [Hex|Hno].
    + apply Exists_exists in Hex as (k & Hk & Ht). exists (Z.of_nat k). apply in_seq in Hk. split; [lia|done].
    + exfalso. apply Hne. apply Z.bits_inj'. intros k Hk. rewrite Z.land_spec, Z.bits_0.
      destruct (decide (k < w)) as [Hkw|Hkw]; [|rewrite Z.ones_spec_high by lia; apply andb_false_r].
      rewrite Z.ones_spec_low, andb_true_r by lia. apply not_true_iff_false. intros Ht. apply Hno.
      apply Exists_exists. exists (Z.to_nat k). split; [apply in_seq; lia|]. by rewrite Z2Nat.id.
  - intros (k & Hk & Ht) E. assert (Z.testbit (Z.land mask (Z.ones w)) k = true) as Hb.
    { rewrite Z.land_spec, Ht, Z.ones_spec_low by lia. done. }
    rewrite E in Hb. by rewrite Z.bits_0 in Hb.
Qed.

Section creation.
Context {D : Type} `{DevX D}.
Implicit Types (w : world D) (l : list (Z * kind)) (h : gmap Z blk).

Lemma wp_shl1 v Q w : v < 32 -> Q (Z.shiftl 1 v) w -> wp (shl1 v) Q w.
Proof. intros Hv HQ. unfold shl1. rewrite (proj2 (Z.ltb_lt v 32)) by done. by apply wp_ret. Qed.

Lemma sample_ok_spec e s w :
  sample_wf s -> wp (sample_ok e s) (fun b w' => w' = w /\ (b = true <-> sample_passes e s)) w.
Proof.
  intros (_ & Hm & _). unfold in_range in Hm. unfold sample_ok, sample_passes.
  destruct (sa_enabled s); cbn [negb]; [|by apply wp_ret].
  destruct (Z.leb_spec (sa_field_base_offset s) (cap_of e "max_parse_graph_flow_match_sample_field_base_offset_value")); cbn [negb].
  2:{ apply wp_ret. split; [done|]. split; [done|]. intros Hf. destruct (Hf eq_refl) as [? _]. lia. }
  apply wp_bind, wp_shl1; [lia|]. rewrite land_shl1 by lia. destruct (Z.testbit _ _) eqn:Et; cbn [negb]; apply wp_ret; (split; [done|]).
  - split.
    + intros Hb _. split_and!; [done|done|]. apply orb_true_iff in Hb as [Hb|Hb]; [left; lia|right].
      apply negb_true_iff in Hb. lia.
    + intros Hf. destruct (Hf eq_refl) as (_ & _ & [E|E]); apply orb_true_iff; [left; lia|right]. apply negb_true_iff. lia.
  - split; [done|]. intros Hf. by destruct (Hf eq_refl) as (_ & ? & _).
Qed.

Lemma samples_ok_spec e ss w :
  Forall sample_wf ss -> wp (samples_ok e ss) (fun b w' => w' = w /\ (b = true <-> Forall (sample_passes e) ss)) w.
Proof.
  induction 1 as [|s r Hs _ IH]; [by apply wp_ret|]. cbn [samples_ok]. apply wp_bind. eapply wp_mono; [|by apply sample_ok_spec].
  intros [] w' [-> Hb].
  - eapply wp_mono; [|exact IH]. intros b w' [-> Hr]. split; [done|]. rewrite Hr, list.Forall_cons. tauto.
  - apply wp_ret. split; [done|]. rewrite list.Forall_cons. split; [done|]. intros [Hx _]. by apply Hb.
Qed.

(** What the device reports that the code relies on: no shift by the width of an
    [int], and no more samples than the command has room for. *)
Definition caps_sane (e : hca_capabilities) : Prop :=
  0 <= cap_of e "parse_graph_header_length_field_mask_width" < 31
  /\ cap_of e "max_num_parse_graph_flow_match_sample" <= 8.

Lemma mask_ok_spec e mask w :
  0 <= mask < 2 ^ 32 -> caps_sane e ->
  wp (mask_ok e mask) (fun b w' => w' = w /\ (b = true <-> mask = 0 \/
    exists k, 0 <= k < cap_of e "parse_graph_header_length_field_mask_width" /\ Z.testbit mask k = true)) w.
Proof.
  intros Hm [Hw _]. unfold mask_ok. destruct (Z.eqb_spec mask 0) as [E|E]; [apply wp_ret; split; [done|]; split; [by left|done]|].
  cbv zeta. rewrite (proj2 (Z.ltb_lt _ 31)) by lia. apply wp_ret. split; [done|]. rewrite land_mask by done.
  split; [by right|]. by intros [|].
Qed.

Lemma node_supported_spec e a c w :
  node_attr_wf a -> caps_sane e -> head (na_in_arcs a) = Some c -> arc_parse_graph_node c < 32 ->
  wp (node_supported e a) (fun b w' => w' = w /\ (b = true <-> node_passes e a c)) w.
Proof.
  intros (Hb & _ & Hm & Hmo & _ & Hss & Harc) Hsane Hc Hn. unfold in_range in *.
  assert (0 <= arc_parse_graph_node c) as Hn0.
  { destruct (na_in_arcs a) as [|x r]; [done|]. simpl in Hc. simplify_eq. inversion Harc as [|? ? (_ & ? & _)]. unfold in_range in *. lia. }
  assert (forall P : Prop, ~ P -> (false = true <-> P)) as Hno by (intros P HP; split; [done|by intros ?%HP]).
  unfold node_supported.
  destruct (Z.eqb_spec (cap_of e "general_object_types_parse_graph_node") 0); [apply wp_ret; split; [done|]; apply Hno; by intros []|].
  apply wp_bind, wp_shl1; [lia|]. rewrite land_shl1 by lia.
  destruct (Z.testbit (cap_of e "parse_graph_header_length_mode") (header_length_mode a)) eqn:Et; cbn [negb];
    [|apply wp_ret; split; [done|]; apply Hno; intros []; congruence].
  apply wp_bind. eapply wp_mono; [|by apply mask_ok_spec]. intros [] w' [-> Hmask]; cbn [negb];
    [|apply wp_ret; split; [done|]; apply Hno; intros [_ _ Hx]; by apply Hmask in Hx].
  destruct (Z.leb_spec (header_length_base_value a) (cap_of e "max_parse_graph_header_length_base_value")); cbn [negb];
    [|apply wp_ret; split; [done|]; apply Hno; intros []; lia].
  destruct (Z.leb_spec (Z.of_nat (length (na_in_arcs a))) (Z.min (cap_of e "max_num_parse_graph_arc_in") 1)) as [Hl|Hl]; cbn [negb].
  2:{ apply wp_ret; split; [done|]; apply Hno. intros [_ _ _ _ [E ?] _ _ _]. rewrite E in Hl. simpl in Hl. lia. }
  rewrite Hc. apply wp_bind, wp_ret, wp_bind, wp_shl1; [done|]. rewrite land_shl1 by done.
  destruct (Z.testbit (cap_of e "parse_graph_node_in") (arc_parse_graph_node c)) eqn:Ea; cbn [negb];
    [|apply wp_ret; split; [done|]; apply Hno; intros []; congruence].
  destruct (Z.leb_spec (Z.of_nat (length (na_samples a))) (cap_of e "max_num_parse_graph_flow_match_sample")); cbn [negb];
    [|apply wp_ret; split; [done|]; apply Hno; intros []; lia].
  eapply wp_mono; [|by apply samples_ok_spec]. intros b w' [-> Hs]. split; [done|]. rewrite Hs.
  split; [|by intros []]. intros Hf. split; try done; [by apply Hmask|].
  destruct (na_in_arcs a) as [|x [|y r]]; simpl in Hc, Hl; [done| |lia]. simplify_eq. split; [done|lia].
Qed.

(** Up to eight samples fit. *)
Lemma samples_fit_small i ss : (i + length ss <= 8)%nat -> samples_fit i ss = true.
Proof.
  revert i. induction ss as [|s r IH]; intros i Hl; [done|]. cbn [samples_fit length] in *. rewrite IH by lia.
  rewrite andb_true_r. apply orb_true_iff. right. apply Z.leb_le. rewrite sample_addr_eq. change SAMPLE_SZ with 16.
  assert (p_sample + 128 <= ST_SZ_BYTES ifc.create_parse_graph_node_in) by by vm_compute. lia.
Qed.

End creation.

(** The tests pass only within the limits that are tested as documented, and they
    pass within all the limits when the offset modes are header length modes too. *)
Lemma passes_limits e a c : node_passes e a c -> node_limits e a c.
Proof.
  intros [H1 H2 _ H4 H5 H6 H7 H8]. split; try done. revert H8. apply Forall_impl. intros s Hs Hen. by destruct (Hs Hen) as (? & _ & ?).
Qed.

Lemma within_passes e a c :
  0 <= header_length_field_mask a -> node_within e a c -> modes_in e "parse_graph_header_length_mode" a -> node_passes e a c.
Proof.
  intros Hpos ([H1 H2 H4 H5 H6 H7 H8] & Hmask & _) Hmodes. split; try done.
  - destruct (Z.eq_dec (header_length_field_mask a) 0) as [|Hnz]; [by left|right].
    exists (Z.log2 (header_length_field_mask a)). assert (Z.testbit (header_length_field_mask a) (Z.log2 (header_length_field_mask a)) = true) as Hb
      by (apply Z.bit_log2; lia). split; [|done]. split; [apply Z.log2_nonneg|]. apply Hmask; [apply Z.log2_nonneg|done].
  - unfold modes_in in Hmodes. rewrite !list.Forall_forall in *. intros s Hs Hen. destruct (H8 s Hs Hen). by split_and!; [|apply Hmodes|].
Qed.

Section created.
Context {D : Type} `{DevX D}.
Implicit Types (w : world D) (l : list (Z * kind)) (h : gmap Z blk).

End created.

(** ** Queries *)

Section queries.
Context {D : Type} `{DevX D}.

(** A query only ever adds identifiers, and succeeds exactly when there are then as
    many as samples. *)
Lemma query_adds n :
  returns (fun r => m_attrs r.2 = m_attrs n /\ (exists new, m_sample_ids r.2 = m_sample_ids n ++ new)
                    /\ (r.1 = DPCP_OK -> length (m_sample_ids r.2) = length (na_samples (m_attrs n)))) (pgn_query (D := D) n).
Proof.
  unfold pgn_query. cbn [pgn_get_id is_ok negb]. apply returns_bind. intros [[st o] out].
  destruct (is_ok st); cbn [negb]; [|intros w; split_and!; [done|by exists []; simpl; rewrite app_nil_r|done]].
  cbv zeta. destruct (_ <=? _); cbn [negb]; [|done]. intros w. simpl. split_and!; [done|by eexists|].
  destruct (Nat.eqb_spec (length (na_samples (m_attrs n))) (length (m_sample_ids n ++ answered_ids 0 (length (na_samples (m_attrs n))) out))); [|done].
  done.
Qed.

(** [k] more queries. *)
Fixpoint queries (k : nat) (r : status * parser_graph_node) : M D (status * parser_graph_node) :=
  match k with
  | O => ret r
  | S k => r' <- pgn_query r.2;; queries k r'
  end.

(** With more identifiers than samples no query succeeds any more. *)
Lemma queries_fail k r :
  r.1 <> DPCP_OK -> (length (na_samples (m_attrs r.2)) < length (m_sample_ids r.2))%nat ->
  returns (fun r' => r'.1 <> DPCP_OK) (queries k r).
Proof.
  revert r. induction k as [|k IH]; intros r Hst Hlen w; [done|]. cbn [queries]. unfold bind.
  pose proof (query_adds r.2 w) as Hq. destruct (pgn_query r.2 w) as [[r' w']|]; [|done].
  destruct Hq as (Ha & [new Hn] & Hok). apply IH; rewrite ?Ha, Hn, length_app in *; [intros E; specialize (Hok E)|]; lia.
Qed.

(** The identifiers of a node are those of its first query: when it holds one
    for every sample, a further query either leaves them as they are or appends
    to them, and then that query and all the later ones report an error. *)
Theorem query_repeat n k :
  length (m_sample_ids n) = length (na_samples (m_attrs n)) ->
  returns (fun r => m_sample_ids r.2 = m_sample_ids n
                    \/ r.1 <> DPCP_OK /\ returns (fun r' => r'.1 <> DPCP_OK) (queries k r)) (pgn_query (D := D) n).
Proof.
  intros Hlen w. pose proof (query_adds n w) as Hq. destruct (pgn_query n w) as [[[st n1] w1]|]; [|done].
  destruct Hq as (Ha & [new Hn] & Hok). simpl in *. destruct new as [|x new]; [left; by rewrite Hn, app_nil_r|right].
  assert (length (na_samples (m_attrs n1)) < length (m_sample_ids n1))%nat as Hgt by (rewrite Ha, Hn, length_app; simpl; lia).
  assert (st <> DPCP_OK) as Hst by (intros E; specialize (Hok E); rewrite Ha in Hgt; lia).
  split; [done|]. by apply queries_fail.
Qed.
End queries.

(** ** On the simulated device *)

Definition graph_caps : hca_capabilities :=
  list_to_map [("general_object_types_parse_graph_node", 1); ("parse_graph_header_length_mode", 1);
    ("parse_graph_header_length_field_mask_width", 6); ("max_parse_graph_header_length_base_value", 64);
    ("max_num_parse_graph_arc_in", 8); ("parse_graph_node_in", 0x20); ("max_num_parse_graph_flow_match_sample", 8);
    ("max_parse_graph_flow_match_sample_field_base_offset_value", 32)].

(** The limits hold of the sample node, and it is created. *)
Lemma sample_node_within :
  node_within (<["parse_graph_flow_match_sample_offset_mode" := 1]> graph_caps) sample_node (mkArc 0x1234 true 5 0)
  /\ modes_in (<["parse_graph_flow_match_sample_offset_mode" := 1]> graph_caps) "parse_graph_header_length_mode" sample_node.
Proof.
  unfold node_within. split_and!.
  - apply mkLimits; [vm_compute; discriminate|vm_compute; reflexivity|vm_compute; discriminate
      |split; [reflexivity|vm_compute; discriminate]|vm_compute; reflexivity|vm_compute; discriminate|].
    apply Forall_cons; [intros _; split; [vm_compute; discriminate|by left]|]. by apply Forall_cons.
  - intros k Hk Hb. simpl in Hb. change (k < 6). apply Z.nle_gt. intros Hge.
    rewrite (Z.bits_above_log2 0x3f k) in Hb; [done|lia|]. change (Z.log2 0x3f) with 5. lia.
  - apply Forall_cons; [intros _; vm_compute; reflexivity|]. by apply Forall_cons.
  - apply Forall_cons; [intros _; vm_compute; reflexivity|]. by apply Forall_cons.
Qed.


Lemma query_repeat_witness :
  returns (fun r => m_sample_ids r.2 = [7]
                    \/ r.1 <> DPCP_OK /\ returns (fun r' => r'.1 <> DPCP_OK) (queries (D := sim) 3 r))
    (pgn_query (D := sim) (mkNode (obj_new (Some 1)) (mkNodeAttr 0 0 0 0 0 [no_sample] []) [7] 1)).
Proof. apply (query_repeat (mkNode (obj_new (Some 1)) (mkNodeAttr 0 0 0 0 0 [no_sample] []) [7] 1) 3). reflexivity. Defined.

(** A mask with bits above the supported width is accepted. *)
Lemma wide_mask_accepted :
  mask_ok graph_caps 0xffffffff sim_world = Ret (true, sim_world).
Proof. reflexivity. Qed.

(** An offset mode that is supported is refused when the header length mode of the
    same number is not. *)
Lemma offset_mode_cap (w : world sim) :
  sample_ok (<["parse_graph_flow_match_sample_offset_mode" := 2]> graph_caps) (mkSample true 0 1 0 0 0 0 0) w = Ret (false, w).
Proof. reflexivity. Qed.

(** Attributes without an arc reach past the end of the vector. *)
Lemma no_arc_ub (w : world sim) :
  node_supported graph_caps (mkNodeAttr 16 0 0 0 0 [] []) w = UB "first arc of an empty vector".
Proof. reflexivity. Qed.
