(* ===== verification/Provider.v ===== *)
(** * The provider (src/src/dpcp/dpcp.cpp, src/src/dcmd/linux/provider.cpp,
      device.cpp and the context constructor of ctx.cpp)

    The entry point of the library: the check of the version the client asks
    for, the enumeration of the devices that can be opened, and the opening of
    an adapter by its identifier. *)

From Stdlib Require Import Ascii.
From stdpp Require Import strings.
From S2P Require Import Prelude Codec Prm PrmCaps Dcmd Own Sim Obj Caps AdapterLife.
Open Scope string_scope.
Open Scope list_scope.
Open Scope Z_scope.
Open Scope m_scope.

(** ** [sscanf] with the format of a version *)

Definition code (c : ascii) : Z := Z.of_nat (nat_of_ascii c).
Definition is_space (c : ascii) : bool := ((9 <=? code c) && (code c <=? 13)) || (code c =? 32).
Definition is_digit (c : ascii) : bool := (48 <=? code c) && (code c <=? 57).

Fixpoint skip_space (s : list ascii) : list ascii :=
  match s with c :: r => if is_space c then skip_space r else s | [] => [] end.

(** The longest run of digits and what follows it. *)
Fixpoint digits (s : list ascii) : list ascii * list ascii :=
  match s with
  | c :: r => if is_digit c then let '(d, t) := digits r in (c :: d, t) else ([], s)
  | [] => ([], [])
  end.

Definition value (d : list ascii) : Z := foldl (fun v c => 10 * v + (code c - 48)) 0 d.

Definition dot : ascii := "."%char.
Definition minus : ascii := "-"%char.
Definition plus : ascii := "+"%char.

(** [%d] *)
Definition scan_int (s : list ascii) : option (Z * list ascii) :=
  let s := skip_space s in
  let '(neg, s) := match s with
                   | c :: r => if Ascii.eqb c minus then (true, r) else if Ascii.eqb c plus then (false, r) else (false, s)
                   | [] => (false, s)
                   end in
  match digits s with
  | ([], _) => None
  | (d, r) => Some (if neg then - value d else value d, r)
  end.

(** A character of the format that stands for itself. *)
Definition scan_dot (s : list ascii) : option (list ascii) :=
  match s with c :: r => if Ascii.eqb c dot then Some r else None | [] => None end.

(** [%d.%d.%d]: the values assigned, and the input that is left. *)
Definition scan_version (s : list ascii) : list Z * list ascii :=
  match scan_int s with
  | None => ([], s)
  | Some (a, s) =>
      match scan_dot s with
      | None => ([a], s)
      | Some s =>
          match scan_int s with
          | None => ([a], s)
          | Some (b, s) =>
              match scan_dot s with
              | None => ([a; b], s)
              | Some s => match scan_int s with None => ([a; b], s) | Some (c, s) => ([a; b; c], s) end
              end
          end
      end
  end.

(** An [int] variable cannot take a larger value: the behaviour is undefined. *)
Definition fits_int (v : Z) : bool := (- 2 ^ 31 <=? v) && (v <? 2 ^ 31).

Definition dpcp_version : string := "1.1.52".

(** The two calls of [sscanf] and the comparison: [None] goes on. *)
Definition check_version {D} (self version : list ascii) : M D (option status) :=
  let '(sv, _) := scan_version self in
  let '(uv, rest) := scan_version version in
  if negb (forallb fits_int (sv ++ uv)) then ub "sscanf: value out of range"
  else
    match sv with
    | [s0; s1; s2] =>
        match uv, rest with
        | [u0; u1; u2], [] =>
            if negb (u0 =? s0) || (s1 <? u1) then ret (Some DPCP_ERR_NO_SUPPORT) else ret None
        | _, _ => ret (Some DPCP_ERR_INVALID_PARAM)
        end
    | _ => ret (Some DPCP_ERR_INVALID_PARAM)
    end.

(** ** Devices *)

Class DevXEnum (D : Type) := {
  ibv_get_device_list : D -> option (list Z) * D;
  ibv_device_name : Z -> string;
  mlx5dv_open_device : Z -> D -> option Z * D;
  ibv_query_device : Z -> D -> option (Z * Z) * D      (* vendor and part *)
}.

(** [dcmd::device] with its block. *)
Record device_t := mkDevice {
  dev_block : Z;
  dev_id : string;
  dev_name : string;
  dev_handle : Z;
  dev_vendor_id : Z;
  dev_vendor_part_id : Z
}.

(** [dcmd::ctx] with its block and that of [m_dv_context]. *)
Record ctx_t := mkCtx { ctx_block : Z; ctx_dv : Z; ctx_handle : Z }.

(** [dcmd::provider]: [m_dev_array] with its block, null before the first call. *)
Definition dcmd_provider : Type := option (Z * list device_t).

(** [dpcp::provider]: what it copied from the list. *)
Record provider := mkProvider { pr_devices : list device_t; m_num_devices : Z }.

Section devices.
Context {D : Type} `{DevX D} `{DevXDomain D} `{DevXEnum D}.

(** [device::create_ctx]: a constructor that throws releases the storage of the
    context, not the [mlx5dv_context] it had allocated. *)
Definition create_ctx (dv : device_t) : M D (option ctx_t) :=
  b <- alloc BMem;;
  match b with
  | None => ret None
  | Some b =>
      m <- alloc BMem;;
      match m with
      | None => dealloc b;; ret None
      | Some m =>
          h <- device (mlx5dv_open_device (dev_handle dv)) (fun _ => CQueryDevice);;
          match h with
          | None => dealloc b;; ret None
          | Some h => ret (Some (mkCtx b m h))
          end
      end
  end.

(** [ctx::~ctx] and its storage *)
Definition ctx_delete (c : ctx_t) : M D unit :=
  _ <- device (fun d => (tt, ibv_close_device (ctx_handle c) d)) (fun _ => CCloseDevice (ctx_handle c));;
  dealloc (ctx_dv c);; dealloc (ctx_block c).

(** [provider::create_device]: a device that cannot be opened is not deleted. *)
Definition create_device (handle : Z) : M D (option device_t) :=
  b <- alloc BMem;;
  match b with
  | None => ret None
  | Some b =>
      let dv := mkDevice b (ibv_device_name handle) (ibv_device_name handle) handle 0 0 in
      c <- create_ctx dv;;
      match c with
      | None => ret None
      | Some c =>
          q <- device (ibv_query_device (ctx_handle c)) (fun _ => CQueryDevice);;
          ctx_delete c;;
          ret (Some (match q with
                     | Some (v, p) => mkDevice b (dev_id dv) (dev_name dv) handle v p
                     | None => dv
                     end))
      end
  end.

(** The loop of [provider::get_device_list] *)
Fixpoint create_devices (hs : list Z) : M D (list device_t) :=
  match hs with
  | [] => ret []
  | h :: hs =>
      d <- create_device h;;
      r <- create_devices hs;;
      ret (match d with Some d => d :: r | None => r end)
  end.

(** [provider::get_device_list]: the devices, [None] for a null array; the array is
    built once. *)
Definition get_device_list (p : dcmd_provider) : M D (option (list device_t) * dcmd_provider) :=
  match p with
  | Some (_, ds) => ret (Some ds, p)
  | None =>
      l <- device ibv_get_device_list (fun _ => CQueryDevice);;
      match l with
      | None => ret (None, None)
      | Some hs =>
          b <- alloc (BRaw (8 * Z.of_nat (length hs)));;
          match b with
          | None => ret (None, None)
          | Some b => ds <- create_devices hs;; ret (Some ds, Some (b, ds))
          end
      end
  end.

(** [mkey::init_mkeys] on the counter of the memory keys. *)
Definition init_mkeys (g : Z) : Z := 0.

(** [provider::get_instance]: the status, the instance when it is OK, the dcmd
    provider and the counter of the memory keys. *)
Definition get_instance (version : option string) (p : dcmd_provider) (g : Z)
  : M D (status * option provider * dcmd_provider * Z) :=
  match version with
  | None => ret (DPCP_ERR_INVALID_PARAM, None, p, g)
  | Some v =>
      st <- check_version (String.list_ascii_of_string dpcp_version) (String.list_ascii_of_string v);;
      match st with
      | Some st => ret (st, None, p, g)
      | None =>
          '(ds, p) <- get_device_list p;;
          match ds with
          | None => ret (DPCP_ERR_NO_DEVICES, None, p, g)
          | Some ds => ret (DPCP_OK, Some (mkProvider ds (Z.of_nat (length ds))), p, init_mkeys g)
          end
      end
  end.
End devices.

(** [adapter_info], and [provider::get_adapter_info_lst]: the status, [adapter_num] and
    the caller's array ([None] for a null pointer). *)
Record adapter_info := mkInfo { ai_name : string; ai_id : string; ai_vendor_id : Z; ai_vendor_part_id : Z }.

Definition info_of (d : device_t) : adapter_info := mkInfo (dev_name d) (dev_id d) (dev_vendor_id d) (dev_vendor_part_id d).

Fixpoint fill_infos (i : nat) (ds : list device_t) (lst : list adapter_info) : list adapter_info :=
  match ds with
  | [] => lst
  | d :: r => fill_infos (S i) r (<[i := info_of d]> lst)
  end.

Definition get_adapter_info_lst (pr : provider) (lst : option (list adapter_info)) (adapter_num : Z)
  : status * Z * option (list adapter_info) :=
  match lst with
  | Some l =>
      if (adapter_num =? 0) || (adapter_num <? m_num_devices pr) then (DPCP_ERR_OUT_OF_RANGE, m_num_devices pr, Some l)
      else (DPCP_OK, adapter_num, Some (fill_infos 0 (pr_devices pr) l))
  | None => (DPCP_ERR_OUT_OF_RANGE, m_num_devices pr, None)
  end.

(** [provider::open_adapter] *)
Section open_adapter.
Context {D : Type} `{DevX D} `{DevXDomain D} `{DevXEnum D}.

Fixpoint open_adapter_loop (id : string) (ds : list device_t) : M D (status * option (Z * ctx_t * adapter_state)) :=
  match ds with
  | [] => ret (DPCP_ERR_NO_DEVICES, None)
  | d :: r =>
      if String.eqb (dev_id d) id then
        c <- create_ctx d;;
        match c with
        | None => ret (DPCP_ERR_NO_DEVICES, None)
        | Some c =>
            self <- alloc BMem;;
            match self with
            | None => open_adapter_loop id r
            | Some self => a <- adapter_new (ctx_handle c);; ret (DPCP_OK, Some (self, c, a))
            end
        end
      else open_adapter_loop id r
  end.

Definition open_adapter (pr : provider) (id : string) : M D (status * option (Z * ctx_t * adapter_state)) :=
  if String.eqb id "" then ret (DPCP_ERR_INVALID_ID, None)
  else open_adapter_loop id (take (Z.to_nat (m_num_devices pr)) (pr_devices pr)).
End open_adapter.

(** ** The version, specified *)

(** The text of a number: blanks, a sign, digits. *)
Inductive sign_text : list ascii -> bool -> Prop :=
| sign_none : sign_text [] false
| sign_plus : sign_text [plus] false
| sign_minus : sign_text [minus] true.

Definition int_text (s : list ascii) (v : Z) : Prop :=
  exists ws sg d neg, s = ws ++ sg ++ d /\ Forall (fun c => is_space c = true) ws /\ sign_text sg neg
    /\ d <> [] /\ Forall (fun c => is_digit c = true) d /\ v = if neg then - value d else value d.

(** MAJOR.MINOR.PATCH *)
Definition version_text (s : list ascii) (a b c : Z) : Prop :=
  exists ta tb tc, s = ta ++ dot :: tb ++ dot :: tc /\ int_text ta a /\ int_text tb b /\ int_text tc c.

(** What follows a number does not continue it. *)
Definition stops (s : list ascii) : Prop := match s with c :: _ => is_digit c = false | [] => True end.

Lemma digits_run d s : Forall (fun c => is_digit c = true) d -> stops s -> digits (d ++ s) = (d, s).
Proof.
  induction 1 as [|c d Hc _ IH]; intros Hs.
  - destruct s as [|c r]; [done|]. simpl in *. by rewrite Hs.
  - simpl. rewrite Hc, IH by done. done.
Qed.

Lemma digits_spec s d t : digits s = (d, t) -> s = d ++ t /\ Forall (fun c => is_digit c = true) d /\ stops t.
Proof.
  revert d t. induction s as [|c r IH]; intros d t E; simpl in E; [by simplify_eq|].
  destruct (is_digit c) eqn:Ec; [|by simplify_eq]. destruct (digits r) as [d' t'] eqn:Er.
  destruct (IH d' t' eq_refl) as (-> & Hd & Ht). injection E as <- <-. split_and!; [done|by constructor|done].
Qed.

Lemma skip_space_run ws s :
  Forall (fun c => is_space c = true) ws -> match s with c :: _ => is_space c = false | [] => True end ->
  skip_space (ws ++ s) = s.
Proof.
  induction 1 as [|c ws Hc _ IH]; intros Hs; [|simpl; by rewrite Hc, IH].
  destruct s as [|c r]; [done|]. simpl. by rewrite Hs.
Qed.

Lemma skip_space_spec s : exists ws, s = ws ++ skip_space s /\ Forall (fun c => is_space c = true) ws.
Proof.
  induction s as [|c r (ws & E & Hw)]; [by exists []|]. simpl. destruct (is_space c) eqn:Ec; [|by exists []].
  exists (c :: ws). split; [simpl; by f_equal|by constructor].
Qed.

(** A digit is neither a blank nor a sign. *)
Lemma digit_not c : is_digit c = true -> is_space c = false /\ Ascii.eqb c minus = false /\ Ascii.eqb c plus = false.
Proof. destruct c as [[] [] [] [] [] [] [] []]; vm_compute; intros; done. Qed.

Lemma scan_int_complete s v t : int_text s v -> stops t -> scan_int (s ++ t) = Some (v, t).
Proof.
  intros (ws & sg & d & neg & -> & Hw & Hsg & Hd & Hdd & ->) Ht. unfold scan_int. rewrite <- !app_assoc.
  destruct d as [|c d]; [done|]. assert (is_digit c = true) as Hc by by inversion Hdd.
  destruct (digit_not c Hc) as (Hs & Hm & Hp).
  assert (digits ((c :: d) ++ t) = (c :: d, t)) as Hrun by by apply digits_run.
  rewrite skip_space_run; [|done|by destruct Hsg].
  cbn [app] in Hrun. destruct Hsg; cbn [app].
  - rewrite Hm, Hp. cbv zeta beta iota. by rewrite Hrun.
  - change (Ascii.eqb plus minus) with false. change (Ascii.eqb plus plus) with true. cbv zeta beta iota. by rewrite Hrun.
  - change (Ascii.eqb minus minus) with true. cbv zeta beta iota. by rewrite Hrun.
Qed.

Lemma scan_int_sound s v t : scan_int s = Some (v, t) -> exists u, s = u ++ t /\ int_text u v /\ stops t.
Proof.
  unfold scan_int. destruct (skip_space_spec s) as (ws & E & Hw). cbv zeta.
  assert (forall sg neg r, skip_space s = sg ++ r -> sign_text sg neg ->
    match digits r with ([], _) => None | (d, r') => Some (if neg then - value d else value d, r') end = Some (v, t) ->
    exists u, s = u ++ t /\ int_text u v /\ stops t) as Hgo.
  { intros sg neg r Es Hsg Hd. destruct (digits r) as [[|c d] r'] eqn:Er; [done|].
    apply digits_spec in Er as (-> & Hdd & Ht). simplify_eq. exists (ws ++ sg ++ (c :: d)). split_and!; [|by exists ws, sg, (c :: d), neg|done].
    rewrite E, Es. by rewrite <- !app_assoc. }
  destruct (skip_space s) as [|c r] eqn:Es; [intros Hx; by apply (Hgo [] false [])|]. 
  destruct (Ascii.eqb c minus) eqn:Em; [|destruct (Ascii.eqb c plus) eqn:Ep].
  - apply Ascii.eqb_eq in Em as ->. intros Hx. apply (Hgo [minus] true r); [done|constructor|done].
  - apply Ascii.eqb_eq in Ep as ->. intros Hx. apply (Hgo [plus] false r); [done|constructor|done].
  - intros Hx. apply (Hgo [] false (c :: r)); [done|constructor|done].
Qed.

Lemma scan_dot_spec s t : scan_dot s = Some t <-> s = dot :: t.
Proof.
  destruct s as [|c r]; [done|]. simpl. destruct (Ascii.eqb c dot) eqn:E.
  - apply Ascii.eqb_eq in E as ->. split; by intros [= ->].
  - split; [done|]. intros [= -> ->]. by rewrite Ascii.eqb_refl in E.
Qed.

(** The scanner accepts a whole text exactly when it is a version. *)
Lemma scan_version_spec s a b c : scan_version s = ([a; b; c], []) <-> version_text s a b c.
Proof.
  split.
  - unfold scan_version. destruct (scan_int s) as [[a' s1]|] eqn:E1; [|done].
    destruct (scan_dot s1) as [s2|] eqn:D1; [|done]. destruct (scan_int s2) as [[b' s3]|] eqn:E2; [|done].
    destruct (scan_dot s3) as [s4|] eqn:D2; [|done]. destruct (scan_int s4) as [[c' s5]|] eqn:E3; [|done].
    intros [= -> -> -> ->]. apply scan_dot_spec in D1 as ->, D2 as ->.
    apply scan_int_sound in E1 as (u1 & -> & H1 & _), E2 as (u2 & -> & H2 & _), E3 as (u3 & -> & H3 & _).
    exists u1, u2, u3. rewrite app_nil_r. done.
  - intros (ta & tb & tc & -> & Ha & Hb & Hc). unfold scan_version.
    assert (forall r, stops (dot :: r)) as Hst by done.
    rewrite (scan_int_complete ta a) by done. cbn [scan_dot]. rewrite Ascii.eqb_refl.
    rewrite (scan_int_complete tb b) by done. cbn [scan_dot]. rewrite Ascii.eqb_refl.
    rewrite <- (app_nil_r tc), (scan_int_complete tc c [] Hc Logic.I). done.
Qed.

Definition fits_version (s : list ascii) : Prop := forallb fits_int (scan_version s).1 = true.

(** The version this library answers to. *)
Lemma self_version : scan_version (String.list_ascii_of_string dpcp_version) = ([1; 1; 52], []).
Proof. vm_compute. reflexivity. Qed.

(** C35. The version check accepts exactly the texts of the form MAJOR.MINOR.PATCH,
    with nothing after them, whose major number is the library's and whose minor
    number is not newer; other well-formed versions are reported as not
    supported and every other text as an invalid parameter.  Nothing is done to
    the device or to memory. *)
Theorem check_version_ok {D} (version : list ascii) (w : world D) :
  fits_version version ->
  exists r, check_version (String.list_ascii_of_string dpcp_version) version w = Ret (r, w)
    /\ (r = None <-> exists a b c, version_text version a b c /\ a = 1 /\ b <= 1)
    /\ (r = Some DPCP_ERR_NO_SUPPORT <-> exists a b c, version_text version a b c /\ ~ (a = 1 /\ b <= 1))
    /\ (r = Some DPCP_ERR_INVALID_PARAM <-> ~ exists a b c, version_text version a b c).
Proof.
  intros Hf. unfold check_version. rewrite self_version. cbv zeta beta iota. unfold fits_version in Hf.
  assert (forall a b c, version_text version a b c -> scan_version version = ([a; b; c], [])) as Hc by (intros; by apply scan_version_spec).
  assert (forall a b c, scan_version version = ([a; b; c], []) -> version_text version a b c) as Hs by (intros; by apply scan_version_spec).
  destruct (scan_version version) as [uv rest] eqn:E. simpl in Hf.
  rewrite forallb_app, Hf. change (forallb fits_int [1; 1; 52]) with true. cbn [andb negb].
  assert (forall (uv : list Z) (rest : list ascii), (forall a b c, (uv, rest) = ([a; b; c], []) -> False) ->
    (forall a b c, version_text version a b c -> (uv, rest) = ([a; b; c], [])) ->
    exists r, @ret D _ (Some DPCP_ERR_INVALID_PARAM) w = Ret (r, w)
    /\ (r = None <-> exists a b c, version_text version a b c /\ a = 1 /\ b <= 1)
    /\ (r = Some DPCP_ERR_NO_SUPPORT <-> exists a b c, version_text version a b c /\ ~ (a = 1 /\ b <= 1))
    /\ (r = Some DPCP_ERR_INVALID_PARAM <-> ~ exists a b c, version_text version a b c)) as Hbad.
  { intros uv' rest' Hn Hv. eexists. split; [reflexivity|].
    assert (~ exists a b c, version_text version a b c) as Hno by (intros (a & b & c & Ht); by eapply Hn, Hv).
    split_and!; (split; [done|]); [intros (a & b & c & Ht & _)|intros (a & b & c & Ht & _)|done]; exfalso; apply Hno; eauto. }
  destruct uv as [|a [|b [|c [|x uv]]]]; [by apply (Hbad [] rest)|by apply (Hbad [a] rest)|by apply (Hbad [a; b] rest)| |by apply (Hbad (a :: b :: c :: x :: uv) rest)].
  destruct rest as [|y rest]; [|by apply (Hbad [a; b; c] (y :: rest))].
  assert (version_text version a b c) as Ht by by apply Hs.
  assert (forall a' b' c', version_text version a' b' c' -> a' = a /\ b' = b) as Hu by (intros ? ? ? Hx; apply Hc in Hx; by simplify_eq).
  destruct (negb (a =? 1) || (1 <? b)) eqn:Eb; eexists; (split; [reflexivity|]).
  - assert (~ (a = 1 /\ b <= 1)) as Hn by lia. split_and!.
    + split; [done|]. intros (a' & b' & c' & Hx & Hok). destruct (Hu _ _ _ Hx) as [-> ->]. done.
    + split; [|done]. intros _. by exists a, b, c.
    + split; [done|]. intros Hno. exfalso. apply Hno. by exists a, b, c.
  - assert (a = 1 /\ b <= 1) as Hn by lia. split_and!.
    + split; [|done]. intros _. by exists a, b, c.
    + split; [done|]. intros (a' & b' & c' & Hx & Hok). destruct (Hu _ _ _ Hx) as [-> ->]. done.
    + split; [done|]. intros Hno. exfalso. apply Hno. by exists a, b, c.
Qed.

Lemma check_version_ok_witness :
  (exists r, check_version (String.list_ascii_of_string dpcp_version) (String.list_ascii_of_string "1.0.99") sim_world = Ret (r, sim_world)
    /\ (r = None <-> exists a b c, version_text (String.list_ascii_of_string "1.0.99") a b c /\ a = 1 /\ b <= 1))
  /\ check_version (String.list_ascii_of_string dpcp_version) (String.list_ascii_of_string "1.2.0") sim_world
     = Ret (Some DPCP_ERR_NO_SUPPORT, sim_world)
  /\ check_version (String.list_ascii_of_string dpcp_version) (String.list_ascii_of_string "1.1.52x") sim_world
     = Ret (Some DPCP_ERR_INVALID_PARAM, sim_world).
Proof.
  split_and!; [|reflexivity|reflexivity].
  destruct (check_version_ok (String.list_ascii_of_string "1.0.99") sim_world) as (r & E & Hr & _); [reflexivity|].
  exists r. split; [exact E|exact Hr].
Defined.

(** ** The list of adapters *)

Lemma fill_infos_spec ds i lst :
  (i + length ds <= length lst)%nat ->
  fill_infos i ds lst = take i lst ++ map info_of ds ++ drop (i + length ds) lst.
Proof.
  revert i lst. induction ds as [|d r IH]; intros i lst Hl; simpl in *.
  - by rewrite Nat.add_0_r, take_drop.
  - rewrite IH by (rewrite length_insert; lia).
    rewrite drop_insert_lt by lia. rewrite (take_S_r _ _ (info_of d)) by (apply list_lookup_insert_eq; lia).
    rewrite take_insert_ge by lia. rewrite <- app_assoc. simpl. do 3 f_equal. f_equal. lia.
Qed.

(** The list of adapters: a call without an array, or with one that is too
    small, changes nothing and answers with the number of devices; a call whose
    array has at least that many entries fills the first of them with the
    devices in order, leaves the rest as they were and never writes past the
    array.  So the second call of a client that sizes its array with the first
    one gets all the devices. *)
Theorem get_adapter_info_ok pr lst num :
  m_num_devices pr = Z.of_nat (length (pr_devices pr)) -> pr_devices pr <> [] ->
  (forall l, lst = Some l -> Z.of_nat (length l) = num) ->
  let '(st, num', lst') := get_adapter_info_lst pr lst num in
  (st = DPCP_ERR_OUT_OF_RANGE /\ num' = m_num_devices pr /\ lst' = lst /\ (lst = None \/ num < m_num_devices pr)
   /\ forall l, Z.of_nat (length l) = num' -> get_adapter_info_lst pr (Some l) num' = (DPCP_OK, num', Some (map info_of (pr_devices pr))))
  \/ (st = DPCP_OK /\ num' = num /\ m_num_devices pr <= num
      /\ exists l l', lst = Some l /\ lst' = Some l' /\ length l' = length l
           /\ take (length (pr_devices pr)) l' = map info_of (pr_devices pr)
           /\ drop (length (pr_devices pr)) l' = drop (length (pr_devices pr)) l).
Proof.
  intros Hn Hne Hl. set (ds := pr_devices pr) in *. assert (0 < length ds)%nat as Hpos by (destruct ds; [done|simpl; lia]).
  assert (forall l, Z.of_nat (length l) = m_num_devices pr ->
    get_adapter_info_lst pr (Some l) (m_num_devices pr) = (DPCP_OK, m_num_devices pr, Some (map info_of ds))) as Hagain.
  { intros l Hll. unfold get_adapter_info_lst. rewrite (proj2 (Z.eqb_neq _ 0)), (proj2 (Z.ltb_ge _ _)) by lia. simpl.
    rewrite fill_infos_spec by (fold ds; lia). fold ds. rewrite take_0. simpl. do 2 f_equal.
    rewrite drop_ge by lia. apply app_nil_r. }
  unfold get_adapter_info_lst. destruct lst as [l|]; [|left; split_and!; [done|done|done|by left|done]].
  specialize (Hl l eq_refl). destruct ((num =? 0) || (num <? m_num_devices pr)) eqn:E.
  - left. split_and!; [done|done|done|right; lia|done].
  - right. apply orb_false_iff in E as [E1 E2]. apply Z.ltb_ge in E2. split_and!; [done|done|done|].
    eexists l, _. split_and!; [done|done|..]; rewrite fill_infos_spec by (fold ds; lia); fold ds; rewrite take_0; simpl.
    + rewrite length_app, length_map, length_drop. lia.
    + rewrite take_app_length' by (by rewrite length_map). done.
    + rewrite drop_app_length' by (by rewrite length_map). done.
Qed.

Lemma get_adapter_info_ok_witness :
  let d := mkDevice 1 "mlx5_0" "mlx5_0" 5 0x15b3 0x101d in
  let pr := mkProvider [d] 1 in
  let '(st, num', lst') := get_adapter_info_lst pr None 0 in
  (st = DPCP_ERR_OUT_OF_RANGE /\ num' = 1 /\ lst' = None)
  /\ forall l, Z.of_nat (length l) = num' -> get_adapter_info_lst pr (Some l) num' = (DPCP_OK, num', Some [info_of d]).
Proof.
  cbv zeta.
  pose proof (get_adapter_info_ok (mkProvider [mkDevice 1 "mlx5_0" "mlx5_0" 5 0x15b3 0x101d] 1) None 0 eq_refl) as Ho.
  assert (pr_devices (mkProvider [mkDevice 1 "mlx5_0" "mlx5_0" 5 0x15b3 0x101d] 1) <> []) as H1 by discriminate.
  assert (forall l, None = Some l -> Z.of_nat (length (l : list adapter_info)) = 0) as H2 by discriminate.
  specialize (Ho H1 H2). cbn in Ho |- *. destruct Ho as [(H3 & H4 & H5 & _ & H6)|(H3 & _)]; [|discriminate].
  split; [by split_and!|exact H6].
Defined.

(** ** The enumeration *)

Section enumeration.
Context {D : Type} `{DevX D} `{DevXDomain D} `{DevXEnum D}.
Implicit Types (w : world D) (l : list (Z * kind)) (h : gmap Z blk).

(** A context: opened as the library opens the device, or not; [~ plenty] when the
    library was not asked. *)
Lemma track_create_ctx dv l h Q w :
  own l h w ->
  (forall c w', own ((ctx_block c, KMem) :: (ctx_dv c, KMem) :: l) h w' ->
     mlx5dv_open_device (dev_handle dv) (dev w) = (Some (ctx_handle c), dev w') -> (plenty w -> plenty w') -> Q (Some c) w') ->
  (forall m w', own ((m, KMem) :: l) h w' ->
     mlx5dv_open_device (dev_handle dv) (dev w) = (None, dev w') -> (plenty w -> plenty w') -> Q None w') ->
  (forall w', own l h w' -> dev w' = dev w -> ~ plenty w -> Q None w') ->
  wp (create_ctx dv) Q w.
Proof.
  intros Ho HS HN HM. unfold create_ctx. apply wp_bind.
  eapply alloc_track; [exact Ho|intros w1 Ho1 Hd1 Hp1; by apply wp_ret, HM|].
  intros b w1 Ho1 Hd1 Hp1. apply wp_bind. eapply alloc_track; [exact Ho1| |].
  - intros w2 Ho2 Hd2 Hp2. apply wp_bind. eapply dealloc_track; [exact Ho2|]. intros w3 Ho3 Hd3 _. apply wp_ret, HM; [done|congruence|tauto].
  - intros m w2 Ho2 Hd2 Hp2. apply wp_bind. eapply device_track; [exact Ho2|]. intros [x|] w3 Ho3 E Hm; rewrite Hd2, Hd1 in E.
    + apply wp_ret, HS; simpl; [own_perm Ho3|done|]. unfold plenty in *. rewrite Hm. tauto.
    + apply wp_bind. eapply (dealloc_track b KMem ((m, KMem) :: l)); [own_perm Ho3|]. intros w4 Ho4 Hd4 Hm4.
      apply wp_ret, (HN m); [done|by rewrite Hd4|]. unfold plenty in *. rewrite Hm4, Hm. tauto.
Qed.

Lemma track_ctx_delete c l h Q w :
  own ((ctx_block c, KMem) :: (ctx_dv c, KMem) :: l) h w ->
  (forall w', own l h w' -> dev w' = ibv_close_device (ctx_handle c) (dev w) -> oom w' = oom w -> Q tt w') -> wp (ctx_delete c) Q w.
Proof.
  intros Ho HQ. unfold ctx_delete. apply wp_bind. eapply device_track; [exact Ho|]. intros [] w1 Ho1 [= E1] Hm1.
  apply wp_bind. eapply (dealloc_track _ _ ((ctx_block c, KMem) :: l)); [own_perm Ho1|]. intros w2 Ho2 Hd2 Hm2.
  eapply dealloc_track; [exact Ho2|]. intros w3 Ho3 Hd3 Hm3. apply HQ; [done|congruence|congruence].
Qed.

(** *** What the library below says can be opened *)

(** The devices of a list that open when they are tried one after the other, each
    closed again before the next, with the vendor and the part the query gives; 0
    and 0 when it fails. *)
Fixpoint openable (hs : list Z) (d : D) : list (Z * (Z * Z)) * D :=
  match hs with
  | [] => ([], d)
  | x :: hs =>
      let '(c, d) := mlx5dv_open_device x d in
      match c with
      | None => openable hs d
      | Some c =>
          let '(q, d) := ibv_query_device c d in
          let '(r, d) := openable hs (ibv_close_device c d) in
          ((x, default (0, 0) q) :: r, d)
      end
  end.

(** A device of the provider is the one the library described. *)
Definition described (x : Z * (Z * Z)) (dv : device_t) : Prop :=
  dev_handle dv = x.1 /\ dev_id dv = ibv_device_name x.1 /\ dev_name dv = ibv_device_name x.1
  /\ dev_vendor_id dv = x.2.1 /\ dev_vendor_part_id dv = x.2.2.

Lemma openable_length hs d : (length (openable hs d).1 <= length hs)%nat.
Proof.
  revert d. induction hs as [|x hs IH]; intros d; [done|]. simpl. destruct (mlx5dv_open_device x d) as [[c|] d1].
  - destruct (ibv_query_device c d1) as [q d2]. pose proof (IH (ibv_close_device c d2)).
    destruct (openable hs (ibv_close_device c d2)). simpl in *. lia.
  - pose proof (IH d1). lia.
Qed.

(** One device: opened and described, not opened (two blocks stay behind), or not
    tried because memory ran out (its own block may stay behind). *)
Lemma track_create_device x l h Q w :
  own l h w ->
  (forall c dv q d w', own ((dev_block dv, KMem) :: l) h w' -> mlx5dv_open_device x (dev w) = (Some c, d) ->
     ibv_query_device c d = q -> dev w' = ibv_close_device c q.2 -> described (x, default (0, 0) q.1) dv ->
     (plenty w -> plenty w') -> Q (Some dv) w') ->
  (forall a b w', own ((a, KMem) :: (b, KMem) :: l) h w' -> mlx5dv_open_device x (dev w) = (None, dev w') ->
     (plenty w -> plenty w') -> Q None w') ->
  (forall lost w', own (lost ++ l) h w' -> (length lost <= 1)%nat -> dev w' = dev w -> ~ plenty w -> Q None w') ->
  wp (create_device x) Q w.
Proof.
  intros Ho HS HN HM. unfold create_device. apply wp_bind.
  eapply alloc_track; [exact Ho|intros w1 Ho1 Hd1 Hp1; apply wp_ret, (HM []); simpl; [done|lia|done|done]|].
  intros b w1 Ho1 Hd1 Hp1. cbv zeta. apply wp_bind. eapply track_create_ctx; [exact Ho1|..].
  - intros c w2 Ho2 E2 Hp2. apply wp_bind. eapply device_track; [exact Ho2|]. intros q w3 Ho3 E3 Hm3. apply wp_bind.
    eapply track_ctx_delete; [exact Ho3|]. intros w4 Ho4 Hd4 Hm4. cbn [dev_handle] in E2. rewrite Hd1 in E2. apply wp_ret.
    assert (plenty w -> plenty w4) by (unfold plenty in *; rewrite Hm4, Hm3; tauto).
    destruct q as [[v p]|]; eapply HS; [exact Ho4|exact E2|exact E3|done|done|done|exact Ho4|exact E2|exact E3|done|done|done].
  - intros m w2 Ho2 E2 Hp2. cbn [dev_handle] in E2. rewrite Hd1 in E2. apply wp_ret. eapply HN; [exact Ho2|exact E2|tauto].
  - intros w2 Ho2 Hd2 Hp2. apply wp_ret, (HM [(b, KMem)]); [done|simpl; lia|congruence|tauto].
Qed.

(** The loop: the devices that were tried, in the order of the list, are listed as
    far as they opened; all are tried when memory suffices. *)
Lemma track_create_devices hs l h Q w :
  own l h w ->
  (forall ds lost tried w', own (map (fun d => (dev_block d, KMem)) ds ++ lost ++ l) h w' ->
     sublist tried hs -> Forall2 described (openable tried (dev w)).1 ds -> dev w' = (openable tried (dev w)).2 ->
     (length lost <= 2 * (length hs - length ds))%nat -> 
     (plenty w -> tried = hs /\ length lost = (2 * (length hs - length ds))%nat) -> Q ds w') ->
  wp (create_devices hs) Q w.
Proof.
  revert l Q w. induction hs as [|x hs IH]; intros l Q w Ho HQ.
  { apply wp_ret. by apply (HQ [] [] []). }
  cbn [create_devices]. apply wp_bind. eapply track_create_device; [exact Ho|..].
  - intros c dv q d w1 Ho1 E1 Eq Hd1 Hds Hp1. apply wp_bind. eapply IH; [exact Ho1|].
    intros ds lost tried w2 Ho2 Hs Hf Hd2 Hl Hp2. apply wp_ret. apply (HQ (dv :: ds) lost (x :: tried));
      [simpl; own_perm Ho2|by constructor|..|cbn [length]; lia|intros Hp; destruct (Hp2 (Hp1 Hp)) as [-> ->]; by split];
      simpl; rewrite E1; destruct q as [q d']; rewrite Eq; cbn in Hd1; rewrite <- Hd1;
      destruct (openable tried (dev w1)) as [r d2]; [by constructor|done].
  - intros a b w1 Ho1 E1 Hp1. apply wp_bind. eapply IH; [exact Ho1|].
    intros ds lost tried w2 Ho2 Hs Hf Hd2 Hl Hp2. apply wp_ret.
    assert (length ds <= length hs)%nat as Hle.
    { rewrite <- (Forall2_length Hf). etrans; [apply openable_length|by apply sublist_length]. }
    apply (HQ ds (lost ++ [(a, KMem); (b, KMem)]) (x :: tried)); [by rewrite <- app_assoc|by constructor|..].
    1, 2: simpl; by rewrite E1.
    + rewrite length_app. cbn [length]. lia.
    + intros Hp. destruct (Hp2 (Hp1 Hp)) as [-> Hll]. split; [done|]. rewrite length_app, Hll. cbn [length]. lia.
  - intros lost1 w1 Ho1 Hl1 Hd1 Hp1. apply wp_bind. eapply IH; [exact Ho1|].
    intros ds lost tried w2 Ho2 Hs Hf Hd2 Hl Hp2. apply wp_ret. rewrite Hd1 in Hf, Hd2.
    assert (length ds <= length hs)%nat as Hle.
    { rewrite <- (Forall2_length Hf). etrans; [apply openable_length|by apply sublist_length]. }
    apply (HQ ds (lost ++ lost1) tried); [by rewrite <- app_assoc|by constructor|done|done| |done].
    rewrite length_app. cbn [length]. lia.
Qed.

(** What a first call leaves when the library gave the list [hs] and was then in the
    state [d]: the array [p] of the devices [ds], which are those that open among
    the ones tried; at most two blocks [lost] for each of the others. *)
Definition listed (hs : list Z) (d : D) (mem : bool) (ds : list device_t) (p : dcmd_provider) l h w : Prop :=
  exists b lost tried, p = Some (b, ds) /\ own ((b, KRaw) :: map (fun d => (dev_block d, KMem)) ds ++ lost ++ l) h w
    /\ sublist tried hs /\ Forall2 described (openable tried d).1 ds /\ dev w = (openable tried d).2
    /\ (length lost <= 2 * (length hs - length ds))%nat
    /\ (mem = true -> tried = hs /\ length lost = (2 * (length hs - length ds))%nat).

Lemma track_get_device_list l h w :
  own l h w ->
  wp (get_device_list None) (fun r w' =>
    match (ibv_get_device_list (dev w)).1, r.1 with
    | Some hs, Some ds => listed hs (ibv_get_device_list (dev w)).2 (bool_decide (plenty w)) ds r.2 l h w'
    | Some _, None => ~ plenty w /\ r.2 = None /\ own l h w' /\ dev w' = (ibv_get_device_list (dev w)).2
    | None, Some _ => False
    | None, None => r.2 = None /\ own l h w' /\ dev w' = (ibv_get_device_list (dev w)).2
    end) w.
Proof.
  intros Ho. unfold get_device_list. apply wp_bind. eapply device_track; [exact Ho|].
  intros [hs|] w1 Ho1 E1 Hm1; rewrite E1; [|by apply wp_ret]. cbn [fst snd].
  assert (plenty w <-> plenty w1) as Hpl by (unfold plenty; by rewrite Hm1).
  apply wp_bind. eapply alloc_track; [exact Ho1|intros w2 Ho2 Hd2 Hp2; apply wp_ret; simpl; split_and!; [tauto|done..]|].
  intros b w2 Ho2 Hd2 Hp2. apply wp_bind.
  eapply track_create_devices; [exact Ho2|]. intros ds lost tried w3 Ho3 Hs Hf Hd3 Hl Hall. apply wp_ret. simpl.
  rewrite Hd2 in Hf, Hd3. exists b, lost, tried. split_and!; try done; [own_perm Ho3|].
  intros Hp. apply bool_decide_eq_true in Hp. tauto.
Qed.

(** C34. The instance, on Linux: for a version the library answers to, the first call
    asks the library below for its list of devices.  Without a list there is no
    instance, the status says so and nothing is kept.  With a list [hs], the
    devices of the instance are those of [hs] that open when they are tried one
    after the other ([openable]), in the order of [hs], each under the name, vendor
    and part the library gives for it (0 when that query fails); a device for
    whose objects there is no memory is not tried, and when no allocation fails
    all are tried, so exactly the devices that open are listed.  Only a failed
    allocation of the array leaves no instance in spite of a list.  No dead
    memory is touched; for each device that is not listed at most two blocks stay
    behind, and exactly two when no allocation fails.  Every later call returns
    the same devices without a call to the device or an allocation, and sets the
    counter of the memory keys back to zero. *)
Theorem get_instance_ok v g l h w :
  fits_version (String.list_ascii_of_string v) ->
  (exists a b c, version_text (String.list_ascii_of_string v) a b c /\ a = 1 /\ b <= 1) -> own l h w ->
  wp (get_instance (Some v) None g) (fun r w' =>
    let '(st, pr, p, g') := r in
    match (ibv_get_device_list (dev w)).1, pr with
    | Some hs, Some pr => st = DPCP_OK /\ m_num_devices pr = Z.of_nat (length (pr_devices pr))
        /\ listed hs (ibv_get_device_list (dev w)).2 (bool_decide (plenty w)) (pr_devices pr) p l h w'
        /\ g' = 0 /\ forall g2, get_instance (Some v) p g2 w' = Ret ((DPCP_OK, Some pr, p, 0), w')
    | Some _, None => ~ plenty w /\ st = DPCP_ERR_NO_DEVICES /\ p = None /\ g' = g /\ own l h w'
    | None, Some _ => False
    | None, None => st = DPCP_ERR_NO_DEVICES /\ p = None /\ g' = g /\ own l h w'
    end) w.
Proof.
  intros Hf Hv Ho. assert (forall w0 : world D, check_version (String.list_ascii_of_string dpcp_version) (String.list_ascii_of_string v) w0 = Ret (None, w0)) as Hck.
  { intros w0. destruct Hv as (a & b & c & Hv & -> & Hb). apply scan_version_spec in Hv.
    unfold check_version. rewrite self_version, Hv. cbv zeta beta iota. unfold fits_version in Hf. rewrite Hv in Hf. simpl fst in Hf.
    rewrite forallb_app, Hf. change (forallb fits_int [1; 1; 52]) with true. cbn [andb negb].
    by rewrite Z.eqb_refl, (proj2 (Z.ltb_ge 1 b)) by lia. }
  unfold get_instance. unfold wp, bind. rewrite Hck. cbv beta iota.
  pose proof (track_get_device_list l h w Ho) as Hl. unfold wp in Hl.
  destruct (get_device_list None w) as [[[[ds|] p] w1]|]; [| |done]; simpl in Hl; simpl;
    destruct (ibv_get_device_list (dev w)) as [[hs|] d]; simpl in *; try done.
  - split_and!; try done. intros g2. rewrite Hck. by destruct Hl as (b & lost & tried & -> & _).
  - by destruct Hl as (Hp & -> & Ho1 & _).
  - by destruct Hl as (-> & Ho1 & _).
Qed.

(** An identifier that no device has opens nothing. *)
Lemma open_adapter_none pr id w :
  Forall (fun d => dev_id d <> id) (pr_devices pr) -> id <> "" -> open_adapter pr id w = Ret ((DPCP_ERR_NO_DEVICES, None), w).
Proof.
  intros Hf Hid. unfold open_adapter. destruct (String.eqb_spec id ""); [done|].
  assert (Forall (fun d => dev_id d <> id) (take (Z.to_nat (m_num_devices pr)) (pr_devices pr))) as Ht by by apply Forall_take.
  induction Ht as [|d r Hd _ IH]; [done|]. simpl. by destruct (String.eqb_spec (dev_id d) id).
Qed.

(** An adapter that was opened is that of the first device with the identifier. *)
Lemma open_adapter_first pr id w st self c a w' :
  open_adapter pr id w = Ret ((st, Some (self, c, a)), w') -> st = DPCP_OK /\ a_ctx a = ctx_handle c.
Proof.
  unfold open_adapter. destruct (String.eqb id ""); [done|]. generalize (take (Z.to_nat (m_num_devices pr)) (pr_devices pr)). intros ds.
  revert w. induction ds as [|d r IH]; intros w E; [done|]. simpl in E. destruct (String.eqb (dev_id d) id); [|by eapply IH].
  unfold bind in E. destruct (create_ctx d w) as [[[c'|] w1]|]; [|done|done].
  destruct (alloc BMem w1) as [[[s|] w2]|]; [|by eapply IH|done].
  destruct (adapter_new (ctx_handle c') w2) as [[a' w3]|] eqn:En; [|done]. unfold ret in E. simplify_eq. split; [done|].
  revert En. unfold adapter_new, bind, query_hca_caps, need. repeat (case_match; try done). intros. unfold ret in *. by simplify_eq.
Qed.
End enumeration.

(** ** On the simulated device *)

#[global] Instance sim_enum : DevXEnum sim := {
  ibv_get_device_list d := (Some [5; 6; 8], d);
  ibv_device_name h := if h =? 5 then "mlx5_0" else if h =? 6 then "mlx5_1" else "mlx5_2";
  mlx5dv_open_device _ d := (sim_handle d, sim_tick d);
  ibv_query_device _ d := (Some (0x15b3, 0x101d), d)
}.

(** The second of three devices cannot be opened. *)
Definition enum_world : world sim := mkWorld (mkSim 1 [false; true; false]) ∅ 1 [] [].

Lemma enum_world_fresh : fresh_ok enum_world.
Proof. by intros p Hp. Qed.

Lemma get_instance_ok_witness :
  exists st pr p w', get_instance (Some "1.1.0") None 9 enum_world = Ret ((st, Some pr, p, 0), w')
    /\ st = DPCP_OK /\ m_num_devices pr = 2
    /\ Forall2 described [(5, (0x15b3, 0x101d)); (8, (0x15b3, 0x101d))] (pr_devices pr)
    /\ map dev_name (pr_devices pr) = ["mlx5_0"; "mlx5_2"]
    /\ forall g2, get_instance (Some "1.1.0") p g2 w' = Ret ((DPCP_OK, Some pr, p, 0), w').
Proof.
  assert (exists a b c, version_text (String.list_ascii_of_string "1.1.0") a b c /\ a = 1 /\ b <= 1) as Hv.
  { exists 1, 1, 0. split; [apply scan_version_spec; reflexivity|lia]. }
  pose proof (get_instance_ok "1.1.0" 9 [] ∅ enum_world eq_refl Hv (own_nil enum_world enum_world_fresh)) as Hi.
  unfold wp in Hi. destruct (get_instance (Some "1.1.0") None 9 enum_world) as [[[[[st [pr|]] p] g'] w']|e]; [| |done].
  - destruct Hi as (-> & Hn & (b & lost & tried & _ & _ & _ & Hd & _ & _ & Ht) & -> & Hagain).
    destruct (Ht eq_refl) as [-> _]. change (openable _ _).1 with [(5, (0x15b3, 0x101d)); (8, (0x15b3, 0x101d))] in Hd.
    exists DPCP_OK, pr, p, w'. split_and!; [done|done|by rewrite Hn, <- (Forall2_length Hd)|done| |done].
    inversion Hd as [|? d1 ? ? (_ & _ & E1 & _) Hd1]; subst. inversion Hd1 as [|? d2 ? ? (_ & _ & E2 & _) Hd2]; subst.
    inversion Hd2; subst. simpl. by rewrite E1, E2.
  - destruct Hi as (Hp & _). exfalso. apply Hp. constructor.
Defined.

(** A device that cannot be opened stays behind, with the context structure. *)
Lemma unopened_device_leaks :
  match get_instance (Some "1.1.0") None 9 enum_world with
  | Ret (_, w') => size (heap w') = 5%nat | UB _ => False end.
Proof. vm_compute. reflexivity. Qed.

(** Blanks and signs pass as parts of a version. *)
Lemma odd_version_accepted :
  check_version (String.list_ascii_of_string dpcp_version) (String.list_ascii_of_string " 1. -5.+7") sim_world = Ret (None, sim_world).
Proof. reflexivity. Qed.
