(* ===== verification/PrmContexts.v ===== *)
(** * Contexts, events and shared parts of [src/src/dcmd/prm.h]

    The structures of the header that are parts of commands and events and that
    the library itself does not fill: [ctxs.x] is [struct mlx5_ifc_x_bits]
    member for member.  With the structures of Prm.v and PrmCaps.v they are what
    the commands of PrmCommands.v are made of. *)

From S2P Require Import Prelude Codec Prm PrmCaps.
Open Scope string_scope.
Open Scope list_scope.
Open Scope Z_scope.

Module ctxs.

Definition uint64 : layout :=
  LStruct [
    ("hi", LBits 0x20); ("lo", LBits 0x20) ].

Definition ads : layout :=
  LStruct [
    ("fl", LBits 0x1); ("free_ar", LBits 0x1); ("reserved_at_2", LBits 0xe); ("pkey_index", LBits 0x10);
    ("reserved_at_20", LBits 0x8); ("grh", LBits 0x1); ("mlid", LBits 0x7); ("rlid", LBits 0x10);
    ("ack_timeout", LBits 0x5); ("reserved_at_45", LBits 0x3); ("src_addr_index", LBits 0x8);
    ("reserved_at_50", LBits 0x4); ("stat_rate", LBits 0x4); ("hop_limit", LBits 0x8);
    ("reserved_at_60", LBits 0x4); ("tclass", LBits 0x8); ("flow_label", LBits 0x14);
    ("rgid_rip", LArr 16 (LBits 0x8)); ("reserved_at_100", LBits 0x4); ("f_dscp", LBits 0x1);
    ("f_ecn", LBits 0x1); ("reserved_at_106", LBits 0x1); ("f_eth_prio", LBits 0x1); ("ecn", LBits 0x2);
    ("dscp", LBits 0x6); ("udp_sport", LBits 0x10); ("dei_cfi", LBits 0x1); ("eth_prio", LBits 0x3);
    ("sl", LBits 0x4); ("vhca_port_num", LBits 0x8); ("rmac_47_32", LBits 0x10); ("rmac_31_0", LBits 0x20) ].

Definition debug_cap : layout :=
  LStruct [
    ("reserved_at_0", LBits 0x20); ("reserved_at_20", LBits 0x2); ("stall_detect", LBits 0x1);
    ("reserved_at_23", LBits 0x1d); ("reserved_at_40", LBits 0x7c0) ].

Definition device_mem_cap : layout :=
  LStruct [
    ("memic", LBits 0x1); ("reserved_at_1", LBits 0x1f); ("reserved_at_20", LBits 0xb);
    ("log_min_memic_alloc_size", LBits 0x5); ("reserved_at_30", LBits 0x8);
    ("log_max_memic_addr_alignment", LBits 0x8); ("memic_bar_start_addr", LBits 0x40);
    ("memic_bar_size", LBits 0x20); ("max_memic_size", LBits 0x20); ("reserved_at_c0", LBits 0x740) ].

Definition rq_num : layout :=
  LStruct [
    ("reserved_at_0", LBits 0x8); ("rq_num", LBits 0x18) ].

Definition mac_address_layout : layout :=
  LStruct [
    ("reserved_at_0", LBits 0x10); ("mac_addr_47_32", LBits 0x10); ("mac_addr_31_0", LBits 0x20) ].

Definition vlan_layout : layout :=
  LStruct [
    ("reserved_at_0", LBits 0x14); ("vlan", LBits 0x0c); ("reserved_at_20", LBits 0x20) ].

Definition cong_control_r_roce_ecn_np : layout :=
  LStruct [
    ("reserved_at_0", LBits 0xa0); ("min_time_between_cnps", LBits 0x20); ("reserved_at_c0", LBits 0x12);
    ("cnp_dscp", LBits 0x6); ("reserved_at_d8", LBits 0x4); ("cnp_prio_mode", LBits 0x1);
    ("cnp_802p_prio", LBits 0x3); ("reserved_at_e0", LBits 0x720) ].

Definition cong_control_r_roce_ecn_rp : layout :=
  LStruct [
    ("reserved_at_0", LBits 0x60); ("reserved_at_60", LBits 0x4); ("clamp_tgt_rate", LBits 0x1);
    ("reserved_at_65", LBits 0x3); ("clamp_tgt_rate_after_time_inc", LBits 0x1);
    ("reserved_at_69", LBits 0x17); ("reserved_at_80", LBits 0x20); ("rpg_time_reset", LBits 0x20);
    ("rpg_byte_reset", LBits 0x20); ("rpg_threshold", LBits 0x20); ("rpg_max_rate", LBits 0x20);
    ("rpg_ai_rate", LBits 0x20); ("rpg_hai_rate", LBits 0x20); ("rpg_gd", LBits 0x20);
    ("rpg_min_dec_fac", LBits 0x20); ("rpg_min_rate", LBits 0x20); ("reserved_at_1c0", LBits 0xe0);
    ("rate_to_set_on_first_cnp", LBits 0x20); ("dce_tcp_g", LBits 0x20); ("dce_tcp_rtt", LBits 0x20);
    ("rate_reduce_monitor_period", LBits 0x20); ("reserved_at_320", LBits 0x20);
    ("initial_alpha_value", LBits 0x20); ("reserved_at_360", LBits 0x4a0) ].

Definition cong_control_802_1qau_rp : layout :=
  LStruct [
    ("reserved_at_0", LBits 0x80); ("rppp_max_rps", LBits 0x20); ("rpg_time_reset", LBits 0x20);
    ("rpg_byte_reset", LBits 0x20); ("rpg_threshold", LBits 0x20); ("rpg_max_rate", LBits 0x20);
    ("rpg_ai_rate", LBits 0x20); ("rpg_hai_rate", LBits 0x20); ("rpg_gd", LBits 0x20);
    ("rpg_min_dec_fac", LBits 0x20); ("rpg_min_rate", LBits 0x20); ("reserved_at_1c0", LBits 0x640) ].

Definition resize_field_select : layout :=
  LStruct [
    ("resize_field_select", LBits 0x20) ].

Definition modify_field_select : layout :=
  LStruct [
    ("modify_field_select", LBits 0x20) ].

Definition field_select_r_roce_np : layout :=
  LStruct [
    ("field_select_r_roce_np", LBits 0x20) ].

Definition field_select_r_roce_rp : layout :=
  LStruct [
    ("field_select_r_roce_rp", LBits 0x20) ].

Definition field_select_802_1qau_rp : layout :=
  LStruct [
    ("field_select_8021qaurp", LBits 0x20) ].

Definition phys_layer_cntrs : layout :=
  LStruct [
    ("time_since_last_clear_high", LBits 0x20); ("time_since_last_clear_low", LBits 0x20);
    ("symbol_errors_high", LBits 0x20); ("symbol_errors_low", LBits 0x20);
    ("sync_headers_errors_high", LBits 0x20); ("sync_headers_errors_low", LBits 0x20);
    ("edpl_bip_errors_lane0_high", LBits 0x20); ("edpl_bip_errors_lane0_low", LBits 0x20);
    ("edpl_bip_errors_lane1_high", LBits 0x20); ("edpl_bip_errors_lane1_low", LBits 0x20);
    ("edpl_bip_errors_lane2_high", LBits 0x20); ("edpl_bip_errors_lane2_low", LBits 0x20);
    ("edpl_bip_errors_lane3_high", LBits 0x20); ("edpl_bip_errors_lane3_low", LBits 0x20);
    ("fc_fec_corrected_blocks_lane0_high", LBits 0x20); ("fc_fec_corrected_blocks_lane0_low", LBits 0x20);
    ("fc_fec_corrected_blocks_lane1_high", LBits 0x20); ("fc_fec_corrected_blocks_lane1_low", LBits 0x20);
    ("fc_fec_corrected_blocks_lane2_high", LBits 0x20); ("fc_fec_corrected_blocks_lane2_low", LBits 0x20);
    ("fc_fec_corrected_blocks_lane3_high", LBits 0x20); ("fc_fec_corrected_blocks_lane3_low", LBits 0x20);
    ("fc_fec_uncorrectable_blocks_lane0_high", LBits 0x20);
    ("fc_fec_uncorrectable_blocks_lane0_low", LBits 0x20);
    ("fc_fec_uncorrectable_blocks_lane1_high", LBits 0x20);
    ("fc_fec_uncorrectable_blocks_lane1_low", LBits 0x20);
    ("fc_fec_uncorrectable_blocks_lane2_high", LBits 0x20);
    ("fc_fec_uncorrectable_blocks_lane2_low", LBits 0x20);
    ("fc_fec_uncorrectable_blocks_lane3_high", LBits 0x20);
    ("fc_fec_uncorrectable_blocks_lane3_low", LBits 0x20); ("rs_fec_corrected_blocks_high", LBits 0x20);
    ("rs_fec_corrected_blocks_low", LBits 0x20); ("rs_fec_uncorrectable_blocks_high", LBits 0x20);
    ("rs_fec_uncorrectable_blocks_low", LBits 0x20); ("rs_fec_no_errors_blocks_high", LBits 0x20);
    ("rs_fec_no_errors_blocks_low", LBits 0x20); ("rs_fec_single_error_blocks_high", LBits 0x20);
    ("rs_fec_single_error_blocks_low", LBits 0x20); ("rs_fec_corrected_symbols_total_high", LBits 0x20);
    ("rs_fec_corrected_symbols_total_low", LBits 0x20); ("rs_fec_corrected_symbols_lane0_high", LBits 0x20);
    ("rs_fec_corrected_symbols_lane0_low", LBits 0x20); ("rs_fec_corrected_symbols_lane1_high", LBits 0x20);
    ("rs_fec_corrected_symbols_lane1_low", LBits 0x20); ("rs_fec_corrected_symbols_lane2_high", LBits 0x20);
    ("rs_fec_corrected_symbols_lane2_low", LBits 0x20); ("rs_fec_corrected_symbols_lane3_high", LBits 0x20);
    ("rs_fec_corrected_symbols_lane3_low", LBits 0x20); ("link_down_events", LBits 0x20);
    ("successful_recovery_events", LBits 0x20); ("reserved_at_640", LBits 0x180) ].

Definition phys_layer_statistical_cntrs : layout :=
  LStruct [
    ("time_since_last_clear_high", LBits 0x20); ("time_since_last_clear_low", LBits 0x20);
    ("phy_received_bits_high", LBits 0x20); ("phy_received_bits_low", LBits 0x20);
    ("phy_symbol_errors_high", LBits 0x20); ("phy_symbol_errors_low", LBits 0x20);
    ("phy_corrected_bits_high", LBits 0x20); ("phy_corrected_bits_low", LBits 0x20);
    ("phy_corrected_bits_lane0_high", LBits 0x20); ("phy_corrected_bits_lane0_low", LBits 0x20);
    ("phy_corrected_bits_lane1_high", LBits 0x20); ("phy_corrected_bits_lane1_low", LBits 0x20);
    ("phy_corrected_bits_lane2_high", LBits 0x20); ("phy_corrected_bits_lane2_low", LBits 0x20);
    ("phy_corrected_bits_lane3_high", LBits 0x20); ("phy_corrected_bits_lane3_low", LBits 0x20);
    ("reserved_at_200", LBits 0x5c0) ].

Definition ib_port_cntrs_grp_data_layout : layout :=
  LStruct [
    ("symbol_error_counter", LBits 0x10); ("link_error_recovery_counter", LBits 0x8);
    ("link_downed_counter", LBits 0x8); ("port_rcv_errors", LBits 0x10);
    ("port_rcv_remote_physical_errors", LBits 0x10); ("port_rcv_switch_relay_errors", LBits 0x10);
    ("port_xmit_discards", LBits 0x10); ("port_xmit_constraint_errors", LBits 0x8);
    ("port_rcv_constraint_errors", LBits 0x8); ("reserved_at_70", LBits 0x8);
    ("link_overrun_errors", LBits 0x8); ("reserved_at_80", LBits 0x10); ("vl_15_dropped", LBits 0x10);
    ("reserved_at_a0", LBits 0x80); ("port_xmit_wait", LBits 0x20) ].

Definition eth_per_traffic_grp_data_layout : layout :=
  LStruct [
    ("transmit_queue_high", LBits 0x20); ("transmit_queue_low", LBits 0x20); ("reserved_at_40", LBits 0x780) ].

Definition eth_per_prio_grp_data_layout : layout :=
  LStruct [
    ("rx_octets_high", LBits 0x20); ("rx_octets_low", LBits 0x20); ("reserved_at_40", LBits 0xc0);
    ("rx_frames_high", LBits 0x20); ("rx_frames_low", LBits 0x20); ("tx_octets_high", LBits 0x20);
    ("tx_octets_low", LBits 0x20); ("reserved_at_180", LBits 0xc0); ("tx_frames_high", LBits 0x20);
    ("tx_frames_low", LBits 0x20); ("rx_pause_high", LBits 0x20); ("rx_pause_low", LBits 0x20);
    ("rx_pause_duration_high", LBits 0x20); ("rx_pause_duration_low", LBits 0x20);
    ("tx_pause_high", LBits 0x20); ("tx_pause_low", LBits 0x20); ("tx_pause_duration_high", LBits 0x20);
    ("tx_pause_duration_low", LBits 0x20); ("rx_pause_transition_high", LBits 0x20);
    ("rx_pause_transition_low", LBits 0x20); ("reserved_at_3c0", LBits 0x40);
    ("device_stall_minor_watermark_cnt_high", LBits 0x20);
    ("device_stall_minor_watermark_cnt_low", LBits 0x20);
    ("device_stall_critical_watermark_cnt_high", LBits 0x20);
    ("device_stall_critical_watermark_cnt_low", LBits 0x20); ("reserved_at_480", LBits 0x340) ].

Definition eth_extended_cntrs_grp_data_layout : layout :=
  LStruct [
    ("port_transmit_wait_high", LBits 0x20); ("port_transmit_wait_low", LBits 0x20);
    ("reserved_at_40", LBits 0x100); ("rx_buffer_almost_full_high", LBits 0x20);
    ("rx_buffer_almost_full_low", LBits 0x20); ("rx_buffer_full_high", LBits 0x20);
    ("rx_buffer_full_low", LBits 0x20); ("reserved_at_1c0", LBits 0x600) ].

Definition eth_3635_cntrs_grp_data_layout : layout :=
  LStruct [
    ("dot3stats_alignment_errors_high", LBits 0x20); ("dot3stats_alignment_errors_low", LBits 0x20);
    ("dot3stats_fcs_errors_high", LBits 0x20); ("dot3stats_fcs_errors_low", LBits 0x20);
    ("dot3stats_single_collision_frames_high", LBits 0x20);
    ("dot3stats_single_collision_frames_low", LBits 0x20);
    ("dot3stats_multiple_collision_frames_high", LBits 0x20);
    ("dot3stats_multiple_collision_frames_low", LBits 0x20); ("dot3stats_sqe_test_errors_high", LBits 0x20);
    ("dot3stats_sqe_test_errors_low", LBits 0x20); ("dot3stats_deferred_transmissions_high", LBits 0x20);
    ("dot3stats_deferred_transmissions_low", LBits 0x20); ("dot3stats_late_collisions_high", LBits 0x20);
    ("dot3stats_late_collisions_low", LBits 0x20); ("dot3stats_excessive_collisions_high", LBits 0x20);
    ("dot3stats_excessive_collisions_low", LBits 0x20);
    ("dot3stats_internal_mac_transmit_errors_high", LBits 0x20);
    ("dot3stats_internal_mac_transmit_errors_low", LBits 0x20);
    ("dot3stats_carrier_sense_errors_high", LBits 0x20); ("dot3stats_carrier_sense_errors_low", LBits 0x20);
    ("dot3stats_frame_too_longs_high", LBits 0x20); ("dot3stats_frame_too_longs_low", LBits 0x20);
    ("dot3stats_internal_mac_receive_errors_high", LBits 0x20);
    ("dot3stats_internal_mac_receive_errors_low", LBits 0x20); ("dot3stats_symbol_errors_high", LBits 0x20);
    ("dot3stats_symbol_errors_low", LBits 0x20); ("dot3control_in_unknown_opcodes_high", LBits 0x20);
    ("dot3control_in_unknown_opcodes_low", LBits 0x20); ("dot3in_pause_frames_high", LBits 0x20);
    ("dot3in_pause_frames_low", LBits 0x20); ("dot3out_pause_frames_high", LBits 0x20);
    ("dot3out_pause_frames_low", LBits 0x20); ("reserved_at_400", LBits 0x3c0) ].

Definition eth_2819_cntrs_grp_data_layout : layout :=
  LStruct [
    ("ether_stats_drop_events_high", LBits 0x20); ("ether_stats_drop_events_low", LBits 0x20);
    ("ether_stats_octets_high", LBits 0x20); ("ether_stats_octets_low", LBits 0x20);
    ("ether_stats_pkts_high", LBits 0x20); ("ether_stats_pkts_low", LBits 0x20);
    ("ether_stats_broadcast_pkts_high", LBits 0x20); ("ether_stats_broadcast_pkts_low", LBits 0x20);
    ("ether_stats_multicast_pkts_high", LBits 0x20); ("ether_stats_multicast_pkts_low", LBits 0x20);
    ("ether_stats_crc_align_errors_high", LBits 0x20); ("ether_stats_crc_align_errors_low", LBits 0x20);
    ("ether_stats_undersize_pkts_high", LBits 0x20); ("ether_stats_undersize_pkts_low", LBits 0x20);
    ("ether_stats_oversize_pkts_high", LBits 0x20); ("ether_stats_oversize_pkts_low", LBits 0x20);
    ("ether_stats_fragments_high", LBits 0x20); ("ether_stats_fragments_low", LBits 0x20);
    ("ether_stats_jabbers_high", LBits 0x20); ("ether_stats_jabbers_low", LBits 0x20);
    ("ether_stats_collisions_high", LBits 0x20); ("ether_stats_collisions_low", LBits 0x20);
    ("ether_stats_pkts64octets_high", LBits 0x20); ("ether_stats_pkts64octets_low", LBits 0x20);
    ("ether_stats_pkts65to127octets_high", LBits 0x20); ("ether_stats_pkts65to127octets_low", LBits 0x20);
    ("ether_stats_pkts128to255octets_high", LBits 0x20); ("ether_stats_pkts128to255octets_low", LBits 0x20);
    ("ether_stats_pkts256to511octets_high", LBits 0x20); ("ether_stats_pkts256to511octets_low", LBits 0x20);
    ("ether_stats_pkts512to1023octets_high", LBits 0x20); ("ether_stats_pkts512to1023octets_low", LBits 0x20);
    ("ether_stats_pkts1024to1518octets_high", LBits 0x20);
    ("ether_stats_pkts1024to1518octets_low", LBits 0x20);
    ("ether_stats_pkts1519to2047octets_high", LBits 0x20);
    ("ether_stats_pkts1519to2047octets_low", LBits 0x20);
    ("ether_stats_pkts2048to4095octets_high", LBits 0x20);
    ("ether_stats_pkts2048to4095octets_low", LBits 0x20);
    ("ether_stats_pkts4096to8191octets_high", LBits 0x20);
    ("ether_stats_pkts4096to8191octets_low", LBits 0x20);
    ("ether_stats_pkts8192to10239octets_high", LBits 0x20);
    ("ether_stats_pkts8192to10239octets_low", LBits 0x20); ("reserved_at_540", LBits 0x280) ].

Definition eth_2863_cntrs_grp_data_layout : layout :=
  LStruct [
    ("if_in_octets_high", LBits 0x20); ("if_in_octets_low", LBits 0x20);
    ("if_in_ucast_pkts_high", LBits 0x20); ("if_in_ucast_pkts_low", LBits 0x20);
    ("if_in_discards_high", LBits 0x20); ("if_in_discards_low", LBits 0x20);
    ("if_in_errors_high", LBits 0x20); ("if_in_errors_low", LBits 0x20);
    ("if_in_unknown_protos_high", LBits 0x20); ("if_in_unknown_protos_low", LBits 0x20);
    ("if_out_octets_high", LBits 0x20); ("if_out_octets_low", LBits 0x20);
    ("if_out_ucast_pkts_high", LBits 0x20); ("if_out_ucast_pkts_low", LBits 0x20);
    ("if_out_discards_high", LBits 0x20); ("if_out_discards_low", LBits 0x20);
    ("if_out_errors_high", LBits 0x20); ("if_out_errors_low", LBits 0x20);
    ("if_in_multicast_pkts_high", LBits 0x20); ("if_in_multicast_pkts_low", LBits 0x20);
    ("if_in_broadcast_pkts_high", LBits 0x20); ("if_in_broadcast_pkts_low", LBits 0x20);
    ("if_out_multicast_pkts_high", LBits 0x20); ("if_out_multicast_pkts_low", LBits 0x20);
    ("if_out_broadcast_pkts_high", LBits 0x20); ("if_out_broadcast_pkts_low", LBits 0x20);
    ("reserved_at_340", LBits 0x480) ].

Definition eth_802_3_cntrs_grp_data_layout : layout :=
  LStruct [
    ("a_frames_transmitted_ok_high", LBits 0x20); ("a_frames_transmitted_ok_low", LBits 0x20);
    ("a_frames_received_ok_high", LBits 0x20); ("a_frames_received_ok_low", LBits 0x20);
    ("a_frame_check_sequence_errors_high", LBits 0x20); ("a_frame_check_sequence_errors_low", LBits 0x20);
    ("a_alignment_errors_high", LBits 0x20); ("a_alignment_errors_low", LBits 0x20);
    ("a_octets_transmitted_ok_high", LBits 0x20); ("a_octets_transmitted_ok_low", LBits 0x20);
    ("a_octets_received_ok_high", LBits 0x20); ("a_octets_received_ok_low", LBits 0x20);
    ("a_multicast_frames_xmitted_ok_high", LBits 0x20); ("a_multicast_frames_xmitted_ok_low", LBits 0x20);
    ("a_broadcast_frames_xmitted_ok_high", LBits 0x20); ("a_broadcast_frames_xmitted_ok_low", LBits 0x20);
    ("a_multicast_frames_received_ok_high", LBits 0x20); ("a_multicast_frames_received_ok_low", LBits 0x20);
    ("a_broadcast_frames_received_ok_high", LBits 0x20); ("a_broadcast_frames_received_ok_low", LBits 0x20);
    ("a_in_range_length_errors_high", LBits 0x20); ("a_in_range_length_errors_low", LBits 0x20);
    ("a_out_of_range_length_field_high", LBits 0x20); ("a_out_of_range_length_field_low", LBits 0x20);
    ("a_frame_too_long_errors_high", LBits 0x20); ("a_frame_too_long_errors_low", LBits 0x20);
    ("a_symbol_error_during_carrier_high", LBits 0x20); ("a_symbol_error_during_carrier_low", LBits 0x20);
    ("a_mac_control_frames_transmitted_high", LBits 0x20);
    ("a_mac_control_frames_transmitted_low", LBits 0x20); ("a_mac_control_frames_received_high", LBits 0x20);
    ("a_mac_control_frames_received_low", LBits 0x20); ("a_unsupported_opcodes_received_high", LBits 0x20);
    ("a_unsupported_opcodes_received_low", LBits 0x20); ("a_pause_mac_ctrl_frames_received_high", LBits 0x20);
    ("a_pause_mac_ctrl_frames_received_low", LBits 0x20);
    ("a_pause_mac_ctrl_frames_transmitted_high", LBits 0x20);
    ("a_pause_mac_ctrl_frames_transmitted_low", LBits 0x20); ("reserved_at_4c0", LBits 0x300) ].

Definition pcie_perf_cntrs_grp_data_layout : layout :=
  LStruct [
    ("life_time_counter_high", LBits 0x20); ("life_time_counter_low", LBits 0x20); ("rx_errors", LBits 0x20);
    ("tx_errors", LBits 0x20); ("l0_to_recovery_eieos", LBits 0x20); ("l0_to_recovery_ts", LBits 0x20);
    ("l0_to_recovery_framing", LBits 0x20); ("l0_to_recovery_retrain", LBits 0x20);
    ("crc_error_dllp", LBits 0x20); ("crc_error_tlp", LBits 0x20);
    ("tx_overflow_buffer_pkt_high", LBits 0x20); ("tx_overflow_buffer_pkt_low", LBits 0x20);
    ("outbound_stalled_reads", LBits 0x20); ("outbound_stalled_writes", LBits 0x20);
    ("outbound_stalled_reads_events", LBits 0x20); ("outbound_stalled_writes_events", LBits 0x20);
    ("reserved_at_200", LBits 0x5c0) ].

Definition cmd_inter_comp_event : layout :=
  LStruct [
    ("command_completion_vector", LBits 0x20); ("reserved_at_20", LBits 0xc0) ].

Definition stall_vl_event : layout :=
  LStruct [
    ("reserved_at_0", LBits 0x18); ("port_num", LBits 0x1); ("reserved_at_19", LBits 0x3); ("vl", LBits 0x4);
    ("reserved_at_20", LBits 0xa0) ].

Definition db_bf_congestion_event : layout :=
  LStruct [
    ("event_subtype", LBits 0x8); ("reserved_at_8", LBits 0x8); ("congestion_level", LBits 0x8);
    ("reserved_at_18", LBits 0x8); ("reserved_at_20", LBits 0xa0) ].

Definition gpio_event : layout :=
  LStruct [
    ("reserved_at_0", LBits 0x60); ("gpio_event_hi", LBits 0x20); ("gpio_event_lo", LBits 0x20);
    ("reserved_at_a0", LBits 0x40) ].

Definition port_state_change_event : layout :=
  LStruct [
    ("reserved_at_0", LBits 0x40); ("port_num", LBits 0x4); ("reserved_at_44", LBits 0x1c);
    ("reserved_at_60", LBits 0x80) ].

Definition dropped_packet_logged : layout :=
  LStruct [
    ("reserved_at_0", LBits 0xe0) ].

Definition cq_error : layout :=
  LStruct [
    ("reserved_at_0", LBits 0x8); ("cqn", LBits 0x18); ("reserved_at_20", LBits 0x20);
    ("reserved_at_40", LBits 0x18); ("syndrome", LBits 0x8); ("reserved_at_60", LBits 0x80) ].

Definition rdma_page_fault_event : layout :=
  LStruct [
    ("bytes_committed", LBits 0x20); ("r_key", LBits 0x20); ("reserved_at_40", LBits 0x10);
    ("packet_len", LBits 0x10); ("rdma_op_len", LBits 0x20); ("rdma_va", LBits 0x40);
    ("reserved_at_c0", LBits 0x5); ("rdma", LBits 0x1); ("write", LBits 0x1); ("requestor", LBits 0x1);
    ("qp_number", LBits 0x18) ].

Definition wqe_associated_page_fault_event : layout :=
  LStruct [
    ("bytes_committed", LBits 0x20); ("reserved_at_20", LBits 0x10); ("wqe_index", LBits 0x10);
    ("reserved_at_40", LBits 0x10); ("len", LBits 0x10); ("reserved_at_60", LBits 0x60);
    ("reserved_at_c0", LBits 0x5); ("rdma", LBits 0x1); ("write_read", LBits 0x1); ("requestor", LBits 0x1);
    ("qpn", LBits 0x18) ].

Definition qp_events : layout :=
  LStruct [
    ("reserved_at_0", LBits 0xa0); ("type", LBits 0x8); ("reserved_at_a8", LBits 0x18);
    ("reserved_at_c0", LBits 0x8); ("qpn_rqn_sqn", LBits 0x18) ].

Definition dct_events : layout :=
  LStruct [
    ("reserved_at_0", LBits 0xc0); ("reserved_at_c0", LBits 0x8); ("dct_number", LBits 0x18) ].

Definition comp_event : layout :=
  LStruct [
    ("reserved_at_0", LBits 0xc0); ("reserved_at_c0", LBits 0x8); ("cq_number", LBits 0x18) ].

Definition qpc : layout :=
  LStruct [
    ("state", LBits 0x4); ("lag_tx_port_affinity", LBits 0x4); ("st", LBits 0x8);
    ("reserved_at_10", LBits 0x3); ("pm_state", LBits 0x2); ("reserved_at_15", LBits 0x3);
    ("offload_type", LBits 0x4); ("end_padding_mode", LBits 0x2); ("reserved_at_1e", LBits 0x2);
    ("wq_signature", LBits 0x1); ("block_lb_mc", LBits 0x1); ("atomic_like_write_en", LBits 0x1);
    ("latency_sensitive", LBits 0x1); ("reserved_at_24", LBits 0x1); ("drain_sigerr", LBits 0x1);
    ("reserved_at_26", LBits 0x2); ("pd", LBits 0x18); ("mtu", LBits 0x3); ("log_msg_max", LBits 0x5);
    ("reserved_at_48", LBits 0x1); ("log_rq_size", LBits 0x4); ("log_rq_stride", LBits 0x3);
    ("no_sq", LBits 0x1); ("log_sq_size", LBits 0x4); ("reserved_at_55", LBits 0x6); ("rlky", LBits 0x1);
    ("ulp_stateless_offload_mode", LBits 0x4); ("counter_set_id", LBits 0x8); ("uar_page", LBits 0x18);
    ("reserved_at_80", LBits 0x8); ("user_index", LBits 0x18); ("reserved_at_a0", LBits 0x3);
    ("log_page_size", LBits 0x5); ("remote_qpn", LBits 0x18); ("primary_address_path", ads);
    ("secondary_address_path", ads); ("log_ack_req_freq", LBits 0x4); ("reserved_at_384", LBits 0x4);
    ("log_sra_max", LBits 0x3); ("reserved_at_38b", LBits 0x2); ("retry_count", LBits 0x3);
    ("rnr_retry", LBits 0x3); ("reserved_at_393", LBits 0x1); ("fre", LBits 0x1);
    ("cur_rnr_retry", LBits 0x3); ("cur_retry_count", LBits 0x3); ("reserved_at_39b", LBits 0x5);
    ("reserved_at_3a0", LBits 0x20); ("reserved_at_3c0", LBits 0x8); ("next_send_psn", LBits 0x18);
    ("reserved_at_3e0", LBits 0x8); ("cqn_snd", LBits 0x18); ("reserved_at_400", LBits 0x8);
    ("deth_sqpn", LBits 0x18); ("reserved_at_420", LBits 0x20); ("reserved_at_440", LBits 0x8);
    ("last_acked_psn", LBits 0x18); ("reserved_at_460", LBits 0x8); ("ssn", LBits 0x18);
    ("reserved_at_480", LBits 0x8); ("log_rra_max", LBits 0x3); ("reserved_at_48b", LBits 0x1);
    ("atomic_mode", LBits 0x4); ("rre", LBits 0x1); ("rwe", LBits 0x1); ("rae", LBits 0x1);
    ("reserved_at_493", LBits 0x1); ("page_offset", LBits 0x6); ("reserved_at_49a", LBits 0x3);
    ("cd_slave_receive", LBits 0x1); ("cd_slave_send", LBits 0x1); ("cd_master", LBits 0x1);
    ("reserved_at_4a0", LBits 0x3); ("min_rnr_nak", LBits 0x5); ("next_rcv_psn", LBits 0x18);
    ("reserved_at_4c0", LBits 0x8); ("xrcd", LBits 0x18); ("reserved_at_4e0", LBits 0x8);
    ("cqn_rcv", LBits 0x18); ("dbr_addr", LBits 0x40); ("q_key", LBits 0x20); ("reserved_at_560", LBits 0x5);
    ("rq_type", LBits 0x3); ("srqn_rmpn_xrqn", LBits 0x18); ("reserved_at_580", LBits 0x8);
    ("rmsn", LBits 0x18); ("hw_sq_wqebb_counter", LBits 0x10); ("sw_sq_wqebb_counter", LBits 0x10);
    ("hw_rq_counter", LBits 0x20); ("sw_rq_counter", LBits 0x20); ("reserved_at_600", LBits 0x20);
    ("reserved_at_620", LBits 0xf); ("cgs", LBits 0x1); ("cs_req", LBits 0x8); ("cs_res", LBits 0x8);
    ("dc_access_key", LBits 0x40); ("reserved_at_680", LBits 0xa0); ("dbr_umem_id", LBits 0x20) ].

Definition roce_addr_layout : layout :=
  LStruct [
    ("source_l3_address", LArr 16 (LBits 0x8)); ("reserved_at_80", LBits 0x3); ("vlan_valid", LBits 0x1);
    ("vlan_id", LBits 0xc); ("source_mac_47_32", LBits 0x10); ("source_mac_31_0", LBits 0x20);
    ("reserved_at_c0", LBits 0x14); ("roce_l3_type", LBits 0x4); ("roce_version", LBits 0x8);
    ("reserved_at_e0", LBits 0x20) ].

Definition xrc_srqc : layout :=
  LStruct [
    ("state", LBits 0x4); ("log_xrc_srq_size", LBits 0x4); ("reserved_at_8", LBits 0x18);
    ("wq_signature", LBits 0x1); ("cont_srq", LBits 0x1); ("reserved_at_22", LBits 0x1); ("rlky", LBits 0x1);
    ("basic_cyclic_rcv_wqe", LBits 0x1); ("log_rq_stride", LBits 0x3); ("xrcd", LBits 0x18);
    ("page_offset", LBits 0x6); ("reserved_at_46", LBits 0x2); ("cqn", LBits 0x18);
    ("reserved_at_60", LBits 0x20); ("user_index_equal_xrc_srqn", LBits 0x1); ("reserved_at_81", LBits 0x1);
    ("log_page_size", LBits 0x6); ("user_index", LBits 0x18); ("reserved_at_a0", LBits 0x20);
    ("reserved_at_c0", LBits 0x8); ("pd", LBits 0x18); ("lwm", LBits 0x10); ("wqe_cnt", LBits 0x10);
    ("reserved_at_100", LBits 0x40); ("db_record_addr_h", LBits 0x20); ("db_record_addr_l", LBits 0x1e);
    ("reserved_at_17e", LBits 0x2); ("reserved_at_180", LBits 0x80) ].

Definition vnic_diagnostic_statistics : layout :=
  LStruct [
    ("counter_error_queues", LBits 0x20); ("total_error_queues", LBits 0x20);
    ("send_queue_priority_update_flow", LBits 0x20); ("reserved_at_60", LBits 0x20);
    ("nic_receive_steering_discard", LBits 0x40); ("receive_discard_vport_down", LBits 0x40);
    ("transmit_discard_vport_down", LBits 0x40); ("reserved_at_140", LBits 0xec0) ].

Definition traffic_counter : layout :=
  LStruct [
    ("packets", LBits 0x40); ("octets", LBits 0x40) ].

Definition srqc : layout :=
  LStruct [
    ("state", LBits 0x4); ("log_srq_size", LBits 0x4); ("reserved_at_8", LBits 0x18);
    ("wq_signature", LBits 0x1); ("cont_srq", LBits 0x1); ("reserved_at_22", LBits 0x1); ("rlky", LBits 0x1);
    ("reserved_at_24", LBits 0x1); ("log_rq_stride", LBits 0x3); ("xrcd", LBits 0x18);
    ("page_offset", LBits 0x6); ("reserved_at_46", LBits 0x2); ("cqn", LBits 0x18);
    ("reserved_at_60", LBits 0x20); ("reserved_at_80", LBits 0x2); ("log_page_size", LBits 0x6);
    ("reserved_at_88", LBits 0x18); ("reserved_at_a0", LBits 0x20); ("reserved_at_c0", LBits 0x8);
    ("pd", LBits 0x18); ("lwm", LBits 0x10); ("wqe_cnt", LBits 0x10); ("reserved_at_100", LBits 0x40);
    ("dbr_addr", LBits 0x40); ("reserved_at_180", LBits 0x80) ].

Definition scheduling_context : layout :=
  LStruct [
    ("element_type", LBits 0x8); ("reserved_at_8", LBits 0x18); ("element_attributes", LBits 0x20);
    ("parent_element_id", LBits 0x20); ("reserved_at_60", LBits 0x40); ("bw_share", LBits 0x20);
    ("max_average_bw", LBits 0x20); ("reserved_at_e0", LBits 0x120) ].

Definition rqtc : layout :=
  LStruct [
    ("reserved_at_0", LBits 0xa0); ("reserved_at_a0", LBits 0x10); ("rqt_max_size", LBits 0x10);
    ("reserved_at_c0", LBits 0x10); ("rqt_actual_size", LBits 0x10); ("reserved_at_e0", LBits 0x6a0);
    ("rq_num", LArr 0 (rq_num)) ].

Definition rmpc : layout :=
  LStruct [
    ("reserved_at_0", LBits 0x8); ("state", LBits 0x4); ("reserved_at_c", LBits 0x14);
    ("basic_cyclic_rcv_wqe", LBits 0x1); ("reserved_at_21", LBits 0x1f); ("reserved_at_40", LBits 0x140);
    ("wq", ifc.wq) ].

Definition nic_vport_context : layout :=
  LStruct [
    ("reserved_at_0", LBits 0x5); ("min_wqe_inline_mode", LBits 0x3); ("reserved_at_8", LBits 0x15);
    ("disable_mc_local_lb", LBits 0x1); ("disable_uc_local_lb", LBits 0x1); ("roce_en", LBits 0x1);
    ("arm_change_event", LBits 0x1); ("reserved_at_21", LBits 0x1a); ("event_on_mtu", LBits 0x1);
    ("event_on_promisc_change", LBits 0x1); ("event_on_vlan_change", LBits 0x1);
    ("event_on_mc_address_change", LBits 0x1); ("event_on_uc_address_change", LBits 0x1);
    ("reserved_at_40", LBits 0xc); ("affiliation_criteria", LBits 0x4); ("affiliated_vhca_id", LBits 0x10);
    ("reserved_at_60", LBits 0xd0); ("mtu", LBits 0x10); ("system_image_guid", LBits 0x40);
    ("port_guid", LBits 0x40); ("node_guid", LBits 0x40); ("reserved_at_200", LBits 0x140);
    ("qkey_violation_counter", LBits 0x10); ("reserved_at_350", LBits 0x430); ("promisc_uc", LBits 0x1);
    ("promisc_mc", LBits 0x1); ("promisc_all", LBits 0x1); ("reserved_at_783", LBits 0x2);
    ("allowed_list_type", LBits 0x3); ("reserved_at_788", LBits 0xc); ("allowed_list_size", LBits 0xc);
    ("permanent_address", mac_address_layout); ("reserved_at_7e0", LBits 0x20);
    ("current_uc_mac_address", LArr 0 (LBits 0x40)) ].

Definition pkey : layout :=
  LStruct [
    ("reserved_at_0", LBits 0x10); ("pkey", LBits 0x10) ].

Definition array128_auto : layout :=
  LStruct [
    ("array128_auto", LArr 16 (LBits 0x8)) ].

Definition hca_vport_context : layout :=
  LStruct [
    ("field_select", LBits 0x20); ("reserved_at_20", LBits 0xe0); ("sm_virt_aware", LBits 0x1);
    ("has_smi", LBits 0x1); ("has_raw", LBits 0x1); ("grh_required", LBits 0x1);
    ("reserved_at_104", LBits 0xc); ("port_physical_state", LBits 0x4); ("vport_state_policy", LBits 0x4);
    ("port_state", LBits 0x4); ("vport_state", LBits 0x4); ("reserved_at_120", LBits 0x20);
    ("system_image_guid", LBits 0x40); ("port_guid", LBits 0x40); ("node_guid", LBits 0x40);
    ("cap_mask1", LBits 0x20); ("cap_mask1_field_select", LBits 0x20); ("cap_mask2", LBits 0x20);
    ("cap_mask2_field_select", LBits 0x20); ("reserved_at_280", LBits 0x80); ("lid", LBits 0x10);
    ("reserved_at_310", LBits 0x4); ("init_type_reply", LBits 0x4); ("lmc", LBits 0x3);
    ("subnet_timeout", LBits 0x5); ("sm_lid", LBits 0x10); ("sm_sl", LBits 0x4);
    ("reserved_at_334", LBits 0xc); ("qkey_violation_counter", LBits 0x10);
    ("pkey_violation_counter", LBits 0x10); ("reserved_at_360", LBits 0xca0) ].

Definition esw_vport_context : layout :=
  LStruct [
    ("reserved_at_0", LBits 0x3); ("vport_svlan_strip", LBits 0x1); ("vport_cvlan_strip", LBits 0x1);
    ("vport_svlan_insert", LBits 0x1); ("vport_cvlan_insert", LBits 0x2); ("reserved_at_8", LBits 0x18);
    ("reserved_at_20", LBits 0x20); ("svlan_cfi", LBits 0x1); ("svlan_pcp", LBits 0x3);
    ("svlan_id", LBits 0xc); ("cvlan_cfi", LBits 0x1); ("cvlan_pcp", LBits 0x3); ("cvlan_id", LBits 0xc);
    ("reserved_at_60", LBits 0x7a0) ].

Definition eqc : layout :=
  LStruct [
    ("status", LBits 0x4); ("reserved_at_4", LBits 0x9); ("ec", LBits 0x1); ("oi", LBits 0x1);
    ("reserved_at_f", LBits 0x5); ("st", LBits 0x4); ("reserved_at_18", LBits 0x8);
    ("reserved_at_20", LBits 0x20); ("reserved_at_40", LBits 0x14); ("page_offset", LBits 0x6);
    ("reserved_at_5a", LBits 0x6); ("reserved_at_60", LBits 0x3); ("log_eq_size", LBits 0x5);
    ("uar_page", LBits 0x18); ("reserved_at_80", LBits 0x20); ("reserved_at_a0", LBits 0x18);
    ("intr", LBits 0x8); ("reserved_at_c0", LBits 0x3); ("log_page_size", LBits 0x5);
    ("reserved_at_c8", LBits 0x18); ("reserved_at_e0", LBits 0x60); ("reserved_at_140", LBits 0x8);
    ("consumer_counter", LBits 0x18); ("reserved_at_160", LBits 0x8); ("producer_counter", LBits 0x18);
    ("reserved_at_180", LBits 0x80) ].

Definition dctc : layout :=
  LStruct [
    ("reserved_at_0", LBits 0x4); ("state", LBits 0x4); ("reserved_at_8", LBits 0x18);
    ("reserved_at_20", LBits 0x8); ("user_index", LBits 0x18); ("reserved_at_40", LBits 0x8);
    ("cqn", LBits 0x18); ("counter_set_id", LBits 0x8); ("atomic_mode", LBits 0x4); ("rre", LBits 0x1);
    ("rwe", LBits 0x1); ("rae", LBits 0x1); ("atomic_like_write_en", LBits 0x1);
    ("latency_sensitive", LBits 0x1); ("rlky", LBits 0x1); ("free_ar", LBits 0x1);
    ("reserved_at_73", LBits 0xd); ("reserved_at_80", LBits 0x8); ("cs_res", LBits 0x8);
    ("reserved_at_90", LBits 0x3); ("min_rnr_nak", LBits 0x5); ("reserved_at_98", LBits 0x8);
    ("reserved_at_a0", LBits 0x8); ("srqn_xrqn", LBits 0x18); ("reserved_at_c0", LBits 0x8);
    ("pd", LBits 0x18); ("tclass", LBits 0x8); ("reserved_at_e8", LBits 0x4); ("flow_label", LBits 0x14);
    ("dc_access_key", LBits 0x40); ("reserved_at_140", LBits 0x5); ("mtu", LBits 0x3); ("port", LBits 0x8);
    ("pkey_index", LBits 0x10); ("reserved_at_160", LBits 0x8); ("my_addr_index", LBits 0x8);
    ("reserved_at_170", LBits 0x8); ("hop_limit", LBits 0x8); ("dc_access_key_violation_count", LBits 0x20);
    ("reserved_at_1a0", LBits 0x14); ("dei_cfi", LBits 0x1); ("eth_prio", LBits 0x3); ("ecn", LBits 0x2);
    ("dscp", LBits 0x6); ("reserved_at_1c0", LBits 0x40) ].

Definition cong_control_roce_ecn_auto : layout :=
  LUnion [
    ("cong_control_802_1qau_rp", cong_control_802_1qau_rp);
    ("cong_control_r_roce_ecn_rp", cong_control_r_roce_ecn_rp);
    ("cong_control_r_roce_ecn_np", cong_control_r_roce_ecn_np); ("reserved_at_0", LBits 0x800) ].

Definition query_adapter_param_block : layout :=
  LStruct [
    ("reserved_at_0", LBits 0xc0); ("reserved_at_c0", LBits 0x8); ("ieee_vendor_id", LBits 0x18);
    ("reserved_at_e0", LBits 0x10); ("vsd_vendor_id", LBits 0x10); ("vsd", LArr 208 (LBits 0x8));
    ("vsd_contd_psid", LArr 16 (LBits 0x8)) ].

Definition tag_matching_topology_context : layout :=
  LStruct [
    ("log_matching_list_sz", LBits 0x4); ("reserved_at_4", LBits 0xc); ("append_next_index", LBits 0x10);
    ("sw_phase_cnt", LBits 0x10); ("hw_phase_cnt", LBits 0x10); ("reserved_at_40", LBits 0x40) ].

Definition xrqc : layout :=
  LStruct [
    ("state", LBits 0x4); ("rlkey", LBits 0x1); ("reserved_at_5", LBits 0xf); ("topology", LBits 0x4);
    ("reserved_at_18", LBits 0x4); ("offload", LBits 0x4); ("reserved_at_20", LBits 0x8);
    ("user_index", LBits 0x18); ("reserved_at_40", LBits 0x8); ("cqn", LBits 0x18);
    ("reserved_at_60", LBits 0xa0); ("tag_matching_topology_context", tag_matching_topology_context);
    ("reserved_at_180", LBits 0x280); ("wq", ifc.wq) ].

Definition modify_field_select_resize_field_select_auto : layout :=
  LUnion [
    ("modify_field_select", modify_field_select); ("resize_field_select", resize_field_select);
    ("reserved_at_0", LBits 0x20) ].

Definition field_select_802_1_r_roce_auto : layout :=
  LUnion [
    ("field_select_802_1qau_rp", field_select_802_1qau_rp);
    ("field_select_r_roce_rp", field_select_r_roce_rp); ("field_select_r_roce_np", field_select_r_roce_np);
    ("reserved_at_0", LBits 0x20) ].

Definition eth_cntrs_grp_data_layout_auto : layout :=
  LUnion [
    ("eth_802_3_cntrs_grp_data_layout", eth_802_3_cntrs_grp_data_layout);
    ("eth_2863_cntrs_grp_data_layout", eth_2863_cntrs_grp_data_layout);
    ("eth_2819_cntrs_grp_data_layout", eth_2819_cntrs_grp_data_layout);
    ("eth_3635_cntrs_grp_data_layout", eth_3635_cntrs_grp_data_layout);
    ("eth_extended_cntrs_grp_data_layout", eth_extended_cntrs_grp_data_layout);
    ("eth_per_prio_grp_data_layout", eth_per_prio_grp_data_layout);
    ("eth_per_traffic_grp_data_layout", eth_per_traffic_grp_data_layout);
    ("ib_port_cntrs_grp_data_layout", ib_port_cntrs_grp_data_layout); ("phys_layer_cntrs", phys_layer_cntrs);
    ("phys_layer_statistical_cntrs", phys_layer_statistical_cntrs); ("reserved_at_0", LBits 0x7c0) ].

Definition pcie_cntrs_grp_data_layout_auto : layout :=
  LUnion [
    ("pcie_perf_cntrs_grp_data_layout", pcie_perf_cntrs_grp_data_layout); ("reserved_at_0", LBits 0x7c0) ].

Definition event_auto : layout :=
  LUnion [
    ("comp_event", comp_event); ("dct_events", dct_events); ("qp_events", qp_events);
    ("wqe_associated_page_fault_event", wqe_associated_page_fault_event);
    ("rdma_page_fault_event", rdma_page_fault_event); ("cq_error", cq_error);
    ("dropped_packet_logged", dropped_packet_logged); ("port_state_change_event", port_state_change_event);
    ("gpio_event", gpio_event); ("db_bf_congestion_event", db_bf_congestion_event);
    ("stall_vl_event", stall_vl_event); ("cmd_inter_comp_event", cmd_inter_comp_event);
    ("reserved_at_0", LBits 0xe0) ].

Definition health_buffer : layout :=
  LStruct [
    ("reserved_at_0", LBits 0x100); ("assert_existptr", LBits 0x20); ("assert_callra", LBits 0x20);
    ("reserved_at_140", LBits 0x40); ("fw_version", LBits 0x20); ("hw_id", LBits 0x20);
    ("reserved_at_1c0", LBits 0x20); ("irisc_index", LBits 0x8); ("synd", LBits 0x8); ("ext_synd", LBits 0x10) ].

Definition register_loopback_control : layout :=
  LStruct [
    ("no_lb", LBits 0x1); ("reserved_at_1", LBits 0x7); ("port", LBits 0x8); ("reserved_at_10", LBits 0x10);
    ("reserved_at_20", LBits 0x60) ].

Definition vport_tc_element : layout :=
  LStruct [
    ("traffic_class", LBits 0x4); ("reserved_at_4", LBits 0xc); ("vport_number", LBits 0x10) ].

Definition vport_element : layout :=
  LStruct [
    ("reserved_at_0", LBits 0x10); ("vport_number", LBits 0x10) ].

Definition tsar_element : layout :=
  LStruct [
    ("reserved_at_0", LBits 0x8); ("tsar_type", LBits 0x8); ("reserved_at_10", LBits 0x10) ].

Definition esw_vport_context_fields_select : layout :=
  LStruct [
    ("reserved_at_0", LBits 0x1c); ("vport_cvlan_insert", LBits 0x1); ("vport_svlan_insert", LBits 0x1);
    ("vport_cvlan_strip", LBits 0x1); ("vport_svlan_strip", LBits 0x1) ].

Definition modify_tis_bitmask : layout :=
  LStruct [
    ("reserved_at_0", LBits 0x20); ("reserved_at_20", LBits 0x1d); ("lag_tx_port_affinity", LBits 0x1);
    ("strict_lag_tx_port_affinity", LBits 0x1); ("prio", LBits 0x1) ].

Definition rqt_bitmask : layout :=
  LStruct [
    ("reserved_at_0", LBits 0x20); ("reserved_at_20", LBits 0x1f); ("rqn_list", LBits 0x1) ].

Definition rmp_bitmask : layout :=
  LStruct [
    ("reserved_at_0", LBits 0x20); ("reserved_at_20", LBits 0x1f); ("lwm", LBits 0x1) ].

Definition modify_nic_vport_field_select : layout :=
  LStruct [
    ("reserved_at_0", LBits 0x12); ("affiliation", LBits 0x1); ("reserved_at_e", LBits 0x1);
    ("disable_uc_local_lb", LBits 0x1); ("disable_mc_local_lb", LBits 0x1); ("node_guid", LBits 0x1);
    ("port_guid", LBits 0x1); ("min_inline", LBits 0x1); ("mtu", LBits 0x1); ("change_event", LBits 0x1);
    ("promisc", LBits 0x1); ("permanent_address", LBits 0x1); ("addresses_list", LBits 0x1);
    ("roce_en", LBits 0x1); ("reserved_at_1f", LBits 0x1) ].

End ctxs.

Definition context_layouts : list layout :=
  [ctxs.uint64; ctxs.ads; ctxs.debug_cap; ctxs.device_mem_cap; ctxs.rq_num; ctxs.mac_address_layout;
    ctxs.vlan_layout; ctxs.cong_control_r_roce_ecn_np; ctxs.cong_control_r_roce_ecn_rp;
    ctxs.cong_control_802_1qau_rp; ctxs.resize_field_select; ctxs.modify_field_select;
    ctxs.field_select_r_roce_np; ctxs.field_select_r_roce_rp; ctxs.field_select_802_1qau_rp;
    ctxs.phys_layer_cntrs; ctxs.phys_layer_statistical_cntrs; ctxs.ib_port_cntrs_grp_data_layout;
    ctxs.eth_per_traffic_grp_data_layout; ctxs.eth_per_prio_grp_data_layout;
    ctxs.eth_extended_cntrs_grp_data_layout; ctxs.eth_3635_cntrs_grp_data_layout;
    ctxs.eth_2819_cntrs_grp_data_layout; ctxs.eth_2863_cntrs_grp_data_layout;
    ctxs.eth_802_3_cntrs_grp_data_layout; ctxs.pcie_perf_cntrs_grp_data_layout; ctxs.cmd_inter_comp_event;
    ctxs.stall_vl_event; ctxs.db_bf_congestion_event; ctxs.gpio_event; ctxs.port_state_change_event;
    ctxs.dropped_packet_logged; ctxs.cq_error; ctxs.rdma_page_fault_event;
    ctxs.wqe_associated_page_fault_event; ctxs.qp_events; ctxs.dct_events; ctxs.comp_event; ctxs.qpc;
    ctxs.roce_addr_layout; ctxs.xrc_srqc; ctxs.vnic_diagnostic_statistics; ctxs.traffic_counter; ctxs.srqc;
    ctxs.scheduling_context; ctxs.rqtc; ctxs.rmpc; ctxs.nic_vport_context; ctxs.pkey; ctxs.array128_auto;
    ctxs.hca_vport_context; ctxs.esw_vport_context; ctxs.eqc; ctxs.dctc; ctxs.cong_control_roce_ecn_auto;
    ctxs.query_adapter_param_block; ctxs.tag_matching_topology_context; ctxs.xrqc;
    ctxs.modify_field_select_resize_field_select_auto; ctxs.field_select_802_1_r_roce_auto;
    ctxs.eth_cntrs_grp_data_layout_auto; ctxs.pcie_cntrs_grp_data_layout_auto; ctxs.event_auto;
    ctxs.health_buffer; ctxs.register_loopback_control; ctxs.vport_tc_element; ctxs.vport_element;
    ctxs.tsar_element; ctxs.esw_vport_context_fields_select; ctxs.modify_tis_bitmask; ctxs.rqt_bitmask;
    ctxs.rmp_bitmask; ctxs.modify_nic_vport_field_select]%list.
