(* ===== verification/PrmRegisters.v ===== *)
(** * The registers of [src/src/dcmd/prm.h]

    The access registers of ports, management and quality of service, the
    initial segment that a context maps to read the clock, and the unions that
    gather them: [regs.x] is [struct mlx5_ifc_x_bits] member for member. *)

From S2P Require Import Prelude Codec Prm PrmCaps PrmContexts.
Open Scope string_scope.
Open Scope list_scope.
Open Scope Z_scope.

Module regs.

Definition sltp_reg : layout :=
  LStruct [
    ("status", LBits 0x4); ("version", LBits 0x4); ("local_port", LBits 0x8); ("pnat", LBits 0x2);
    ("reserved_at_12", LBits 0x2); ("lane", LBits 0x4); ("reserved_at_18", LBits 0x8);
    ("reserved_at_20", LBits 0x20); ("reserved_at_40", LBits 0x7); ("polarity", LBits 0x1);
    ("ob_tap0", LBits 0x8); ("ob_tap1", LBits 0x8); ("ob_tap2", LBits 0x8); ("reserved_at_60", LBits 0xc);
    ("ob_preemp_mode", LBits 0x4); ("ob_reg", LBits 0x8); ("ob_bias", LBits 0x8);
    ("reserved_at_80", LBits 0x20) ].

Definition slrg_reg : layout :=
  LStruct [
    ("status", LBits 0x4); ("version", LBits 0x4); ("local_port", LBits 0x8); ("pnat", LBits 0x2);
    ("reserved_at_12", LBits 0x2); ("lane", LBits 0x4); ("reserved_at_18", LBits 0x8);
    ("time_to_link_up", LBits 0x10); ("reserved_at_30", LBits 0xc); ("grade_lane_speed", LBits 0x4);
    ("grade_version", LBits 0x8); ("grade", LBits 0x18); ("reserved_at_60", LBits 0x4);
    ("height_grade_type", LBits 0x4); ("height_grade", LBits 0x18); ("height_dz", LBits 0x10);
    ("height_dv", LBits 0x10); ("reserved_at_a0", LBits 0x10); ("height_sigma", LBits 0x10);
    ("reserved_at_c0", LBits 0x20); ("reserved_at_e0", LBits 0x4); ("phase_grade_type", LBits 0x4);
    ("phase_grade", LBits 0x18); ("reserved_at_100", LBits 0x8); ("phase_eo_pos", LBits 0x8);
    ("reserved_at_110", LBits 0x8); ("phase_eo_neg", LBits 0x8); ("ffe_set_tested", LBits 0x10);
    ("test_errors_per_lane", LBits 0x10) ].

Definition pvlc_reg : layout :=
  LStruct [
    ("reserved_at_0", LBits 0x8); ("local_port", LBits 0x8); ("reserved_at_10", LBits 0x10);
    ("reserved_at_20", LBits 0x1c); ("vl_hw_cap", LBits 0x4); ("reserved_at_40", LBits 0x1c);
    ("vl_admin", LBits 0x4); ("reserved_at_60", LBits 0x1c); ("vl_operational", LBits 0x4) ].

Definition pude_reg : layout :=
  LStruct [
    ("swid", LBits 0x8); ("local_port", LBits 0x8); ("reserved_at_10", LBits 0x4);
    ("admin_status", LBits 0x4); ("reserved_at_18", LBits 0x4); ("oper_status", LBits 0x4);
    ("reserved_at_20", LBits 0x60) ].

Definition ptys_reg : layout :=
  LStruct [
    ("reserved_at_0", LBits 0x1); ("an_disable_admin", LBits 0x1); ("an_disable_cap", LBits 0x1);
    ("reserved_at_3", LBits 0x5); ("local_port", LBits 0x8); ("reserved_at_10", LBits 0xd);
    ("proto_mask", LBits 0x3); ("an_status", LBits 0x4); ("reserved_at_24", LBits 0x3c);
    ("eth_proto_capability", LBits 0x20); ("ib_link_width_capability", LBits 0x10);
    ("ib_proto_capability", LBits 0x10); ("reserved_at_a0", LBits 0x20); ("eth_proto_admin", LBits 0x20);
    ("ib_link_width_admin", LBits 0x10); ("ib_proto_admin", LBits 0x10); ("reserved_at_100", LBits 0x20);
    ("eth_proto_oper", LBits 0x20); ("ib_link_width_oper", LBits 0x10); ("ib_proto_oper", LBits 0x10);
    ("reserved_at_160", LBits 0x1c); ("connector_type", LBits 0x4); ("eth_proto_lp_advertise", LBits 0x20);
    ("reserved_at_1a0", LBits 0x60) ].

Definition mlcr_reg : layout :=
  LStruct [
    ("reserved_at_0", LBits 0x8); ("local_port", LBits 0x8); ("reserved_at_10", LBits 0x20);
    ("beacon_duration", LBits 0x10); ("reserved_at_40", LBits 0x10); ("beacon_remain", LBits 0x10) ].

Definition ptas_reg : layout :=
  LStruct [
    ("reserved_at_0", LBits 0x20); ("algorithm_options", LBits 0x10); ("reserved_at_30", LBits 0x4);
    ("repetitions_mode", LBits 0x4); ("num_of_repetitions", LBits 0x8); ("grade_version", LBits 0x8);
    ("height_grade_type", LBits 0x4); ("phase_grade_type", LBits 0x4); ("height_grade_weight", LBits 0x8);
    ("phase_grade_weight", LBits 0x8); ("gisim_measure_bits", LBits 0x10);
    ("adaptive_tap_measure_bits", LBits 0x10); ("ber_bath_high_error_threshold", LBits 0x10);
    ("ber_bath_mid_error_threshold", LBits 0x10); ("ber_bath_low_error_threshold", LBits 0x10);
    ("one_ratio_high_threshold", LBits 0x10); ("one_ratio_high_mid_threshold", LBits 0x10);
    ("one_ratio_low_mid_threshold", LBits 0x10); ("one_ratio_low_threshold", LBits 0x10);
    ("ndeo_error_threshold", LBits 0x10); ("mixer_offset_step_size", LBits 0x10);
    ("reserved_at_110", LBits 0x8); ("mix90_phase_for_voltage_bath", LBits 0x8);
    ("mixer_offset_start", LBits 0x10); ("mixer_offset_end", LBits 0x10); ("reserved_at_140", LBits 0x15);
    ("ber_test_time", LBits 0xb) ].

Definition pspa_reg : layout :=
  LStruct [
    ("swid", LBits 0x8); ("local_port", LBits 0x8); ("sub_port", LBits 0x8); ("reserved_at_18", LBits 0x8);
    ("reserved_at_20", LBits 0x20) ].

Definition pqdr_reg : layout :=
  LStruct [
    ("reserved_at_0", LBits 0x8); ("local_port", LBits 0x8); ("reserved_at_10", LBits 0x5);
    ("prio", LBits 0x3); ("reserved_at_18", LBits 0x6); ("mode", LBits 0x2); ("reserved_at_20", LBits 0x20);
    ("reserved_at_40", LBits 0x10); ("min_threshold", LBits 0x10); ("reserved_at_60", LBits 0x10);
    ("max_threshold", LBits 0x10); ("reserved_at_80", LBits 0x10);
    ("mark_probability_denominator", LBits 0x10); ("reserved_at_a0", LBits 0x60) ].

Definition ppsc_reg : layout :=
  LStruct [
    ("reserved_at_0", LBits 0x8); ("local_port", LBits 0x8); ("reserved_at_10", LBits 0x10);
    ("reserved_at_20", LBits 0x60); ("reserved_at_80", LBits 0x1c); ("wrps_admin", LBits 0x4);
    ("reserved_at_a0", LBits 0x1c); ("wrps_status", LBits 0x4); ("reserved_at_c0", LBits 0x8);
    ("up_threshold", LBits 0x8); ("reserved_at_d0", LBits 0x8); ("down_threshold", LBits 0x8);
    ("reserved_at_e0", LBits 0x20); ("reserved_at_100", LBits 0x1c); ("srps_admin", LBits 0x4);
    ("reserved_at_120", LBits 0x1c); ("srps_status", LBits 0x4); ("reserved_at_140", LBits 0x40) ].

Definition pplr_reg : layout :=
  LStruct [
    ("reserved_at_0", LBits 0x8); ("local_port", LBits 0x8); ("reserved_at_10", LBits 0x10);
    ("reserved_at_20", LBits 0x8); ("lb_cap", LBits 0x8); ("reserved_at_30", LBits 0x8); ("lb_en", LBits 0x8) ].

Definition pplm_reg : layout :=
  LStruct [
    ("reserved_at_0", LBits 0x8); ("local_port", LBits 0x8); ("reserved_at_10", LBits 0x10);
    ("reserved_at_20", LBits 0x20); ("port_profile_mode", LBits 0x8); ("static_port_profile", LBits 0x8);
    ("active_port_profile", LBits 0x8); ("reserved_at_58", LBits 0x8); ("retransmission_active", LBits 0x8);
    ("fec_mode_active", LBits 0x18); ("reserved_at_80", LBits 0x20) ].

Definition ppcnt_reg : layout :=
  LStruct [
    ("swid", LBits 0x8); ("local_port", LBits 0x8); ("pnat", LBits 0x2); ("reserved_at_12", LBits 0x8);
    ("grp", LBits 0x6); ("clr", LBits 0x1); ("reserved_at_21", LBits 0x1c); ("prio_tc", LBits 0x3);
    ("counter_set", ctxs.eth_cntrs_grp_data_layout_auto) ].

Definition mpcnt_reg : layout :=
  LStruct [
    ("reserved_at_0", LBits 0x8); ("pcie_index", LBits 0x8); ("reserved_at_10", LBits 0xa);
    ("grp", LBits 0x6); ("clr", LBits 0x1); ("reserved_at_21", LBits 0x1f);
    ("counter_set", ctxs.pcie_cntrs_grp_data_layout_auto) ].

Definition ppad_reg : layout :=
  LStruct [
    ("reserved_at_0", LBits 0x3); ("single_mac", LBits 0x1); ("reserved_at_4", LBits 0x4);
    ("local_port", LBits 0x8); ("mac_47_32", LBits 0x10); ("mac_31_0", LBits 0x20);
    ("reserved_at_40", LBits 0x40) ].

Definition pmtu_reg : layout :=
  LStruct [
    ("reserved_at_0", LBits 0x8); ("local_port", LBits 0x8); ("reserved_at_10", LBits 0x10);
    ("max_mtu", LBits 0x10); ("reserved_at_30", LBits 0x10); ("admin_mtu", LBits 0x10);
    ("reserved_at_50", LBits 0x10); ("oper_mtu", LBits 0x10); ("reserved_at_70", LBits 0x10) ].

Definition pmpr_reg : layout :=
  LStruct [
    ("reserved_at_0", LBits 0x8); ("module", LBits 0x8); ("reserved_at_10", LBits 0x10);
    ("reserved_at_20", LBits 0x18); ("attenuation_5g", LBits 0x8); ("reserved_at_40", LBits 0x18);
    ("attenuation_7g", LBits 0x8); ("reserved_at_60", LBits 0x18); ("attenuation_12g", LBits 0x8) ].

Definition pmpe_reg : layout :=
  LStruct [
    ("reserved_at_0", LBits 0x8); ("module", LBits 0x8); ("reserved_at_10", LBits 0xc);
    ("module_status", LBits 0x4); ("reserved_at_20", LBits 0x60) ].

Definition pmpc_reg : layout :=
  LStruct [
    ("module_state_updated", LArr 32 (LBits 0x8)) ].

Definition pmlpn_reg : layout :=
  LStruct [
    ("reserved_at_0", LBits 0x4); ("mlpn_status", LBits 0x4); ("local_port", LBits 0x8);
    ("reserved_at_10", LBits 0x10); ("e", LBits 0x1); ("reserved_at_21", LBits 0x1f) ].

Definition pmlp_reg : layout :=
  LStruct [
    ("rxtx", LBits 0x1); ("reserved_at_1", LBits 0x7); ("local_port", LBits 0x8);
    ("reserved_at_10", LBits 0x8); ("width", LBits 0x8); ("lane0_module_mapping", LBits 0x20);
    ("lane1_module_mapping", LBits 0x20); ("lane2_module_mapping", LBits 0x20);
    ("lane3_module_mapping", LBits 0x20); ("reserved_at_a0", LBits 0x160) ].

Definition pmaos_reg : layout :=
  LStruct [
    ("reserved_at_0", LBits 0x8); ("module", LBits 0x8); ("reserved_at_10", LBits 0x4);
    ("admin_status", LBits 0x4); ("reserved_at_18", LBits 0x4); ("oper_status", LBits 0x4);
    ("ase", LBits 0x1); ("ee", LBits 0x1); ("reserved_at_22", LBits 0x1c); ("e", LBits 0x2);
    ("reserved_at_40", LBits 0x40) ].

Definition plpc_reg : layout :=
  LStruct [
    ("reserved_at_0", LBits 0x4); ("profile_id", LBits 0xc); ("reserved_at_10", LBits 0x4);
    ("proto_mask", LBits 0x4); ("reserved_at_18", LBits 0x8); ("reserved_at_20", LBits 0x10);
    ("lane_speed", LBits 0x10); ("reserved_at_40", LBits 0x17); ("lpbf", LBits 0x1);
    ("fec_mode_policy", LBits 0x8); ("retransmission_capability", LBits 0x8);
    ("fec_mode_capability", LBits 0x18); ("retransmission_support_admin", LBits 0x8);
    ("fec_mode_support_admin", LBits 0x18); ("retransmission_request_admin", LBits 0x8);
    ("fec_mode_request_admin", LBits 0x18); ("reserved_at_c0", LBits 0x80) ].

Definition plib_reg : layout :=
  LStruct [
    ("reserved_at_0", LBits 0x8); ("local_port", LBits 0x8); ("reserved_at_10", LBits 0x8);
    ("ib_port", LBits 0x8); ("reserved_at_20", LBits 0x60) ].

Definition plbf_reg : layout :=
  LStruct [
    ("reserved_at_0", LBits 0x8); ("local_port", LBits 0x8); ("reserved_at_10", LBits 0xd);
    ("lbf_mode", LBits 0x3); ("reserved_at_20", LBits 0x20) ].

Definition pipg_reg : layout :=
  LStruct [
    ("reserved_at_0", LBits 0x8); ("local_port", LBits 0x8); ("reserved_at_10", LBits 0x10);
    ("dic", LBits 0x1); ("reserved_at_21", LBits 0x19); ("ipg", LBits 0x4); ("reserved_at_3e", LBits 0x2) ].

Definition pifr_reg : layout :=
  LStruct [
    ("reserved_at_0", LBits 0x8); ("local_port", LBits 0x8); ("reserved_at_10", LBits 0x10);
    ("reserved_at_20", LBits 0xe0); ("port_filter", LArr 8 (LBits 0x20));
    ("port_filter_update_en", LArr 8 (LBits 0x20)) ].

Definition pfcc_reg : layout :=
  LStruct [
    ("reserved_at_0", LBits 0x8); ("local_port", LBits 0x8); ("reserved_at_10", LBits 0xb);
    ("ppan_mask_n", LBits 0x1); ("minor_stall_mask", LBits 0x1); ("critical_stall_mask", LBits 0x1);
    ("reserved_at_1e", LBits 0x2); ("ppan", LBits 0x4); ("reserved_at_24", LBits 0x4);
    ("prio_mask_tx", LBits 0x8); ("reserved_at_30", LBits 0x8); ("prio_mask_rx", LBits 0x8);
    ("pptx", LBits 0x1); ("aptx", LBits 0x1); ("pptx_mask_n", LBits 0x1); ("reserved_at_43", LBits 0x5);
    ("pfctx", LBits 0x8); ("reserved_at_50", LBits 0x10); ("pprx", LBits 0x1); ("aprx", LBits 0x1);
    ("pprx_mask_n", LBits 0x1); ("reserved_at_63", LBits 0x5); ("pfcrx", LBits 0x8);
    ("reserved_at_70", LBits 0x10); ("device_stall_minor_watermark", LBits 0x10);
    ("device_stall_critical_watermark", LBits 0x10); ("reserved_at_a0", LBits 0x60) ].

Definition pelc_reg : layout :=
  LStruct [
    ("op", LBits 0x4); ("reserved_at_4", LBits 0x4); ("local_port", LBits 0x8);
    ("reserved_at_10", LBits 0x10); ("op_admin", LBits 0x8); ("op_capability", LBits 0x8);
    ("op_request", LBits 0x8); ("op_active", LBits 0x8); ("admin", LBits 0x40); ("capability", LBits 0x40);
    ("request", LBits 0x40); ("active", LBits 0x40); ("reserved_at_140", LBits 0x80) ].

Definition peir_reg : layout :=
  LStruct [
    ("reserved_at_0", LBits 0x8); ("local_port", LBits 0x8); ("reserved_at_10", LBits 0x10);
    ("reserved_at_20", LBits 0xc); ("error_count", LBits 0x4); ("reserved_at_30", LBits 0x10);
    ("reserved_at_40", LBits 0xc); ("lane", LBits 0x4); ("reserved_at_50", LBits 0x8);
    ("error_type", LBits 0x8) ].

Definition pcam_enhanced_features : layout :=
  LStruct [
    ("reserved_at_0", LBits 0x76); ("pfcc_mask", LBits 0x1); ("reserved_at_77", LBits 0x4);
    ("rx_buffer_fullness_counters", LBits 0x1); ("ptys_connector_type", LBits 0x1);
    ("reserved_at_7d", LBits 0x1); ("ppcnt_discard_group", LBits 0x1); ("ppcnt_statistical_group", LBits 0x1) ].

Definition pcam_reg : layout :=
  LStruct [
    ("reserved_at_0", LBits 0x8); ("feature_group", LBits 0x8); ("reserved_at_10", LBits 0x8);
    ("access_reg_group", LBits 0x8); ("reserved_at_20", LBits 0x20);
    ("port_access_reg_cap_mask", LUnion [("reserved_at_0", LBits 0x80)]); ("reserved_at_c0", LBits 0x80);
    ("feature_cap_mask", LUnion [("enhanced_features", pcam_enhanced_features); ("reserved_at_0", LBits 0x80)]);
    ("reserved_at_1c0", LBits 0xc0) ].

Definition mcam_enhanced_features : layout :=
  LStruct [
    ("reserved_at_0", LBits 0x7b); ("pcie_outbound_stalled", LBits 0x1);
    ("tx_overflow_buffer_pkt", LBits 0x1); ("mtpps_enh_out_per_adj", LBits 0x1); ("mtpps_fs", LBits 0x1);
    ("pcie_performance_group", LBits 0x1) ].

Definition mcam_access_reg : layout :=
  LStruct [
    ("reserved_at_0", LBits 0x1c); ("mcda", LBits 0x1); ("mcc", LBits 0x1); ("mcqi", LBits 0x1);
    ("reserved_at_1f", LBits 0x1); ("regs_95_to_64", LBits 0x20); ("regs_63_to_32", LBits 0x20);
    ("regs_31_to_0", LBits 0x20) ].

Definition mcam_reg : layout :=
  LStruct [
    ("reserved_at_0", LBits 0x8); ("feature_group", LBits 0x8); ("reserved_at_10", LBits 0x8);
    ("access_reg_group", LBits 0x8); ("reserved_at_20", LBits 0x20);
    ("mng_access_reg_cap_mask", LUnion [("access_regs", mcam_access_reg); ("reserved_at_0", LBits 0x80)]);
    ("reserved_at_c0", LBits 0x80);
    ("mng_feature_cap_mask", LUnion [("enhanced_features", mcam_enhanced_features); ("reserved_at_0", LBits 0x80)]);
    ("reserved_at_1c0", LBits 0x80) ].

Definition qcam_access_reg_cap_mask : layout :=
  LStruct [
    ("qcam_access_reg_cap_mask_127_to_20", LBits 0x6C); ("qpdpm", LBits 0x1);
    ("qcam_access_reg_cap_mask_18_to_4", LBits 0x0F); ("qdpm", LBits 0x1); ("qpts", LBits 0x1);
    ("qcap", LBits 0x1); ("qcam_access_reg_cap_mask_0", LBits 0x1) ].

Definition qcam_qos_feature_cap_mask : layout :=
  LStruct [
    ("qcam_qos_feature_cap_mask_127_to_1", LBits 0x7F); ("qpts_trust_both", LBits 0x1) ].

Definition qcam_reg : layout :=
  LStruct [
    ("reserved_at_0", LBits 0x8); ("feature_group", LBits 0x8); ("reserved_at_10", LBits 0x8);
    ("access_reg_group", LBits 0x8); ("reserved_at_20", LBits 0x20);
    ("qos_access_reg_cap_mask", LUnion [("reg_cap", qcam_access_reg_cap_mask); ("reserved_at_0", LBits 0x80)]);
    ("reserved_at_c0", LBits 0x80);
    ("qos_feature_cap_mask", LUnion [("feature_cap", qcam_qos_feature_cap_mask); ("reserved_at_0", LBits 0x80)]);
    ("reserved_at_1c0", LBits 0x80) ].

Definition pcap_reg : layout :=
  LStruct [
    ("reserved_at_0", LBits 0x8); ("local_port", LBits 0x8); ("reserved_at_10", LBits 0x10);
    ("port_capability_mask", LArr 4 (LBits 0x20)) ].

Definition paos_reg : layout :=
  LStruct [
    ("swid", LBits 0x8); ("local_port", LBits 0x8); ("reserved_at_10", LBits 0x4);
    ("admin_status", LBits 0x4); ("reserved_at_18", LBits 0x4); ("oper_status", LBits 0x4);
    ("ase", LBits 0x1); ("ee", LBits 0x1); ("reserved_at_22", LBits 0x1c); ("e", LBits 0x2);
    ("reserved_at_40", LBits 0x40) ].

Definition pamp_reg : layout :=
  LStruct [
    ("reserved_at_0", LBits 0x8); ("opamp_group", LBits 0x8); ("reserved_at_10", LBits 0xc);
    ("opamp_group_type", LBits 0x4); ("start_index", LBits 0x10); ("reserved_at_30", LBits 0x4);
    ("num_of_indices", LBits 0xc); ("index_data", LArr 18 (LBits 0x10)) ].

Definition pcmr_reg : layout :=
  LStruct [
    ("reserved_at_0", LBits 0x8); ("local_port", LBits 0x8); ("reserved_at_10", LBits 0x2e);
    ("fcs_cap", LBits 0x1); ("reserved_at_3f", LBits 0x1f); ("fcs_chk", LBits 0x1);
    ("reserved_at_5f", LBits 0x1) ].

Definition lane_2_module_mapping : layout :=
  LStruct [
    ("reserved_at_0", LBits 0x6); ("rx_lane", LBits 0x2); ("reserved_at_8", LBits 0x6);
    ("tx_lane", LBits 0x2); ("reserved_at_10", LBits 0x8); ("module", LBits 0x8) ].

Definition bufferx_reg : layout :=
  LStruct [
    ("reserved_at_0", LBits 0x6); ("lossy", LBits 0x1); ("epsb", LBits 0x1); ("reserved_at_8", LBits 0xc);
    ("size", LBits 0xc); ("xoff_threshold", LBits 0x10); ("xon_threshold", LBits 0x10) ].

Definition register_power_settings : layout :=
  LStruct [
    ("reserved_at_0", LBits 0x18); ("power_settings_level", LBits 0x8); ("reserved_at_20", LBits 0x60) ].

Definition register_host_endianness : layout :=
  LStruct [
    ("he", LBits 0x1); ("reserved_at_1", LBits 0x1f); ("reserved_at_20", LBits 0x60) ].

Definition umr_pointer_desc_argument : layout :=
  LStruct [
    ("reserved_at_0", LBits 0x20); ("mkey", LBits 0x20); ("addressh_63_32", LBits 0x20);
    ("addressl_31_0", LBits 0x20) ].

Definition ud_adrs_vector : layout :=
  LStruct [
    ("dc_key", LBits 0x40); ("ext", LBits 0x1); ("reserved_at_41", LBits 0x7);
    ("destination_qp_dct", LBits 0x18); ("static_rate", LBits 0x4); ("sl_eth_prio", LBits 0x4);
    ("fl", LBits 0x1); ("mlid", LBits 0x7); ("rlid_udp_sport", LBits 0x10); ("reserved_at_80", LBits 0x20);
    ("rmac_47_16", LBits 0x20); ("rmac_15_0", LBits 0x10); ("tclass", LBits 0x8); ("hop_limit", LBits 0x8);
    ("reserved_at_e0", LBits 0x1); ("grh", LBits 0x1); ("reserved_at_e2", LBits 0x2);
    ("src_addr_index", LBits 0x8); ("flow_label", LBits 0x14); ("rgid_rip", LArr 16 (LBits 0x8)) ].

Definition pages_req_event : layout :=
  LStruct [
    ("reserved_at_0", LBits 0x10); ("function_id", LBits 0x10); ("num_pages", LBits 0x20);
    ("reserved_at_40", LBits 0xa0) ].

Definition eqe : layout :=
  LStruct [
    ("reserved_at_0", LBits 0x8); ("event_type", LBits 0x8); ("reserved_at_10", LBits 0x8);
    ("event_sub_type", LBits 0x8); ("reserved_at_20", LBits 0xe0); ("event_data", ctxs.event_auto);
    ("reserved_at_1e0", LBits 0x10); ("signature", LBits 0x8); ("reserved_at_1f8", LBits 0x7);
    ("owner", LBits 0x1) ].

Definition cmd_queue_entry : layout :=
  LStruct [
    ("type", LBits 0x8); ("reserved_at_8", LBits 0x18); ("input_length", LBits 0x20);
    ("input_mailbox_pointer_63_32", LBits 0x20); ("input_mailbox_pointer_31_9", LBits 0x17);
    ("reserved_at_77", LBits 0x9); ("command_input_inline_data", LArr 16 (LBits 0x8));
    ("command_output_inline_data", LArr 16 (LBits 0x8)); ("output_mailbox_pointer_63_32", LBits 0x20);
    ("output_mailbox_pointer_31_9", LBits 0x17); ("reserved_at_1b7", LBits 0x9);
    ("output_length", LBits 0x20); ("token", LBits 0x8); ("signature", LBits 0x8);
    ("reserved_at_1f0", LBits 0x8); ("status", LBits 0x7); ("ownership", LBits 0x1) ].

Definition cmd_if_box : layout :=
  LStruct [
    ("mailbox_data", LArr 512 (LBits 0x8)); ("reserved_at_1000", LBits 0x180);
    ("next_pointer_63_32", LBits 0x20); ("next_pointer_31_10", LBits 0x16); ("reserved_at_11b6", LBits 0xa);
    ("block_number", LBits 0x20); ("reserved_at_11e0", LBits 0x8); ("token", LBits 0x8);
    ("ctrl_signature", LBits 0x8); ("signature", LBits 0x8) ].

Definition mtt : layout :=
  LStruct [
    ("ptag_63_32", LBits 0x20); ("ptag_31_8", LBits 0x18); ("reserved_at_38", LBits 0x6);
    ("wr_en", LBits 0x1); ("rd_en", LBits 0x1) ].

Definition initial_seg : layout :=
  LStruct [
    ("fw_rev_minor", LBits 0x10); ("fw_rev_major", LBits 0x10); ("cmd_interface_rev", LBits 0x10);
    ("fw_rev_subminor", LBits 0x10); ("reserved_at_40", LBits 0x40); ("cmdq_phy_addr_63_32", LBits 0x20);
    ("cmdq_phy_addr_31_12", LBits 0x14); ("reserved_at_b4", LBits 0x2); ("nic_interface", LBits 0x2);
    ("log_cmdq_size", LBits 0x4); ("log_cmdq_stride", LBits 0x4); ("command_doorbell_vector", LBits 0x20);
    ("reserved_at_e0", LBits 0xf00); ("initializing", LBits 0x1); ("reserved_at_fe1", LBits 0x4);
    ("nic_interface_supported", LBits 0x3); ("reserved_at_fe8", LBits 0x18);
    ("health_buffer", ctxs.health_buffer); ("no_dram_nic_offset", LBits 0x20);
    ("reserved_at_1220", LBits 0x6e40); ("reserved_at_8060", LBits 0x1f); ("clear_int", LBits 0x1);
    ("health_syndrome", LBits 0x8); ("health_counter", LBits 0x18); ("reserved_at_80a0", LBits 0x160);
    ("real_time", LBits 0x40); ("reserved_at_9", LBits 0x17e20) ].

Definition mtpps_reg : layout :=
  LStruct [
    ("reserved_at_0", LBits 0xc); ("cap_number_of_pps_pins", LBits 0x4); ("reserved_at_10", LBits 0x4);
    ("cap_max_num_of_pps_in_pins", LBits 0x4); ("reserved_at_18", LBits 0x4);
    ("cap_max_num_of_pps_out_pins", LBits 0x4); ("reserved_at_20", LBits 0x24); ("cap_pin_3_mode", LBits 0x4);
    ("reserved_at_48", LBits 0x4); ("cap_pin_2_mode", LBits 0x4); ("reserved_at_50", LBits 0x4);
    ("cap_pin_1_mode", LBits 0x4); ("reserved_at_58", LBits 0x4); ("cap_pin_0_mode", LBits 0x4);
    ("reserved_at_60", LBits 0x4); ("cap_pin_7_mode", LBits 0x4); ("reserved_at_68", LBits 0x4);
    ("cap_pin_6_mode", LBits 0x4); ("reserved_at_70", LBits 0x4); ("cap_pin_5_mode", LBits 0x4);
    ("reserved_at_78", LBits 0x4); ("cap_pin_4_mode", LBits 0x4); ("field_select", LBits 0x20);
    ("reserved_at_a0", LBits 0x60); ("enable", LBits 0x1); ("reserved_at_101", LBits 0xb);
    ("pattern", LBits 0x4); ("reserved_at_110", LBits 0x4); ("pin_mode", LBits 0x4); ("pin", LBits 0x8);
    ("reserved_at_120", LBits 0x20); ("time_stamp", LBits 0x40); ("out_pulse_duration", LBits 0x10);
    ("out_periodic_adjustment", LBits 0x10); ("enhanced_out_periodic_adjustment", LBits 0x20);
    ("reserved_at_1c0", LBits 0x20) ].

Definition mtppse_reg : layout :=
  LStruct [
    ("reserved_at_0", LBits 0x18); ("pin", LBits 0x8); ("event_arm", LBits 0x1);
    ("reserved_at_21", LBits 0x1b); ("event_generation_mode", LBits 0x4); ("reserved_at_40", LBits 0x40) ].

Definition mcqi_cap : layout :=
  LStruct [
    ("supported_info_bitmask", LBits 0x20); ("component_size", LBits 0x20);
    ("max_component_size", LBits 0x20); ("log_mcda_word_size", LBits 0x4); ("reserved_at_64", LBits 0xc);
    ("mcda_max_write_size", LBits 0x10); ("rd_en", LBits 0x1); ("reserved_at_81", LBits 0x1);
    ("match_chip_id", LBits 0x1); ("match_psid", LBits 0x1); ("check_user_timestamp", LBits 0x1);
    ("match_base_guid_mac", LBits 0x1); ("reserved_at_86", LBits 0x1a) ].

Definition mcqi_reg : layout :=
  LStruct [
    ("read_pending_component", LBits 0x1); ("reserved_at_1", LBits 0xf); ("component_index", LBits 0x10);
    ("reserved_at_20", LBits 0x20); ("reserved_at_40", LBits 0x1b); ("info_type", LBits 0x5);
    ("info_size", LBits 0x20); ("offset", LBits 0x20); ("reserved_at_a0", LBits 0x10);
    ("data_size", LBits 0x10); ("data", LArr 0 (LBits 0x20)) ].

Definition mcc_reg : layout :=
  LStruct [
    ("reserved_at_0", LBits 0x4); ("time_elapsed_since_last_cmd", LBits 0xc); ("reserved_at_10", LBits 0x8);
    ("instruction", LBits 0x8); ("reserved_at_20", LBits 0x10); ("component_index", LBits 0x10);
    ("reserved_at_40", LBits 0x8); ("update_handle", LBits 0x18); ("handle_owner_type", LBits 0x4);
    ("handle_owner_host_id", LBits 0x4); ("reserved_at_68", LBits 0x1); ("control_progress", LBits 0x7);
    ("error_code", LBits 0x8); ("reserved_at_78", LBits 0x4); ("control_state", LBits 0x4);
    ("component_size", LBits 0x20); ("reserved_at_a0", LBits 0x60) ].

Definition mcda_reg : layout :=
  LStruct [
    ("reserved_at_0", LBits 0x8); ("update_handle", LBits 0x18); ("offset", LBits 0x20);
    ("reserved_at_40", LBits 0x10); ("size", LBits 0x10); ("reserved_at_60", LBits 0x20);
    ("data", LArr 0 (LBits 0x20)) ].

Definition ports_control_registers_document : layout :=
  LUnion [
    ("bufferx_reg", bufferx_reg); ("eth_2819_cntrs_grp_data_layout", ctxs.eth_2819_cntrs_grp_data_layout);
    ("eth_2863_cntrs_grp_data_layout", ctxs.eth_2863_cntrs_grp_data_layout);
    ("eth_3635_cntrs_grp_data_layout", ctxs.eth_3635_cntrs_grp_data_layout);
    ("eth_802_3_cntrs_grp_data_layout", ctxs.eth_802_3_cntrs_grp_data_layout);
    ("eth_extended_cntrs_grp_data_layout", ctxs.eth_extended_cntrs_grp_data_layout);
    ("eth_per_prio_grp_data_layout", ctxs.eth_per_prio_grp_data_layout);
    ("eth_per_traffic_grp_data_layout", ctxs.eth_per_traffic_grp_data_layout);
    ("lane_2_module_mapping", lane_2_module_mapping); ("pamp_reg", pamp_reg); ("paos_reg", paos_reg);
    ("pcap_reg", pcap_reg); ("peir_reg", peir_reg); ("pelc_reg", pelc_reg); ("pfcc_reg", pfcc_reg);
    ("ib_port_cntrs_grp_data_layout", ctxs.ib_port_cntrs_grp_data_layout);
    ("phys_layer_cntrs", ctxs.phys_layer_cntrs); ("pifr_reg", pifr_reg); ("pipg_reg", pipg_reg);
    ("plbf_reg", plbf_reg); ("plib_reg", plib_reg); ("plpc_reg", plpc_reg); ("pmaos_reg", pmaos_reg);
    ("pmlp_reg", pmlp_reg); ("pmlpn_reg", pmlpn_reg); ("pmpc_reg", pmpc_reg); ("pmpe_reg", pmpe_reg);
    ("pmpr_reg", pmpr_reg); ("pmtu_reg", pmtu_reg); ("ppad_reg", ppad_reg); ("ppcnt_reg", ppcnt_reg);
    ("mpcnt_reg", mpcnt_reg); ("pplm_reg", pplm_reg); ("pplr_reg", pplr_reg); ("ppsc_reg", ppsc_reg);
    ("pqdr_reg", pqdr_reg); ("pspa_reg", pspa_reg); ("ptas_reg", ptas_reg); ("ptys_reg", ptys_reg);
    ("mlcr_reg", mlcr_reg); ("pude_reg", pude_reg); ("pvlc_reg", pvlc_reg); ("slrg_reg", slrg_reg);
    ("sltp_reg", sltp_reg); ("mtpps_reg", mtpps_reg); ("mtppse_reg", mtppse_reg); ("mcqi_reg", mcqi_reg);
    ("mcc_reg", mcc_reg); ("mcda_reg", mcda_reg); ("reserved_at_0", LBits 0x60e0) ].

Definition debug_enhancements_document : layout :=
  LUnion [
    ("health_buffer", ctxs.health_buffer); ("reserved_at_0", LBits 0x200) ].

Definition uplink_pci_interface_document : layout :=
  LUnion [
    ("initial_seg", initial_seg); ("reserved_at_0", LBits 0x20060) ].

Definition ets_tcn_config_reg : layout :=
  LStruct [
    ("g", LBits 0x1); ("b", LBits 0x1); ("r", LBits 0x1); ("reserved_at_3", LBits 0x9); ("group", LBits 0x4);
    ("reserved_at_10", LBits 0x9); ("bw_allocation", LBits 0x7); ("reserved_at_20", LBits 0xc);
    ("max_bw_units", LBits 0x4); ("reserved_at_30", LBits 0x8); ("max_bw_value", LBits 0x8) ].

Definition ets_global_config_reg : layout :=
  LStruct [
    ("reserved_at_0", LBits 0x2); ("r", LBits 0x1); ("reserved_at_3", LBits 0x1d);
    ("reserved_at_20", LBits 0xc); ("max_bw_units", LBits 0x4); ("reserved_at_30", LBits 0x8);
    ("max_bw_value", LBits 0x8) ].

Definition qetc_reg : layout :=
  LStruct [
    ("reserved_at_0", LBits 0x8); ("port_number", LBits 0x8); ("reserved_at_10", LBits 0x30);
    ("tc_configuration", LArr 8 (ets_tcn_config_reg)); ("global_configuration", ets_global_config_reg) ].

Definition qpdpm_dscp_reg : layout :=
  LStruct [
    ("e", LBits 0x1); ("reserved_at_01", LBits 0x0b); ("prio", LBits 0x04) ].

Definition qpdpm_reg : layout :=
  LStruct [
    ("reserved_at_0", LBits 0x8); ("local_port", LBits 0x8); ("reserved_at_10", LBits 0x10);
    ("dscp", LArr 64 (qpdpm_dscp_reg)) ].

Definition qpts_reg : layout :=
  LStruct [
    ("reserved_at_0", LBits 0x8); ("local_port", LBits 0x8); ("reserved_at_10", LBits 0x2d);
    ("trust_state", LBits 0x3) ].

Definition qtct_reg : layout :=
  LStruct [
    ("reserved_at_0", LBits 0x8); ("port_number", LBits 0x8); ("reserved_at_10", LBits 0xd);
    ("prio", LBits 0x3); ("reserved_at_20", LBits 0x1d); ("tclass", LBits 0x3) ].

Definition mcia_reg : layout :=
  LStruct [
    ("l", LBits 0x1); ("reserved_at_1", LBits 0x7); ("module", LBits 0x8); ("reserved_at_10", LBits 0x8);
    ("status", LBits 0x8); ("i2c_device_address", LBits 0x8); ("page_number", LBits 0x8);
    ("device_address", LBits 0x10); ("reserved_at_40", LBits 0x10); ("size", LBits 0x10);
    ("reserved_at_60", LBits 0x20); ("dword_0", LBits 0x20); ("dword_1", LBits 0x20); ("dword_2", LBits 0x20);
    ("dword_3", LBits 0x20); ("dword_4", LBits 0x20); ("dword_5", LBits 0x20); ("dword_6", LBits 0x20);
    ("dword_7", LBits 0x20); ("dword_8", LBits 0x20); ("dword_9", LBits 0x20); ("dword_10", LBits 0x20);
    ("dword_11", LBits 0x20) ].

Definition dcbx_param : layout :=
  LStruct [
    ("dcbx_cee_cap", LBits 0x1); ("dcbx_ieee_cap", LBits 0x1); ("dcbx_standby_cap", LBits 0x1);
    ("reserved_at_0", LBits 0x5); ("port_number", LBits 0x8); ("reserved_at_10", LBits 0xa);
    ("max_application_table_size", LBits 6); ("reserved_at_20", LBits 0x15); ("version_oper", LBits 0x3);
    ("reserved_at_38", LBits 5); ("version_admin", LBits 0x3); ("willing_admin", LBits 0x1);
    ("reserved_at_41", LBits 0x3); ("pfc_cap_oper", LBits 0x4); ("reserved_at_48", LBits 0x4);
    ("pfc_cap_admin", LBits 0x4); ("reserved_at_50", LBits 0x4); ("num_of_tc_oper", LBits 0x4);
    ("reserved_at_58", LBits 0x4); ("num_of_tc_admin", LBits 0x4); ("remote_willing", LBits 0x1);
    ("reserved_at_61", LBits 3); ("remote_pfc_cap", LBits 4); ("reserved_at_68", LBits 0x14);
    ("remote_num_of_tc", LBits 0x4); ("reserved_at_80", LBits 0x18); ("error", LBits 0x8);
    ("reserved_at_a0", LBits 0x160) ].

Definition lagc : layout :=
  LStruct [
    ("reserved_at_0", LBits 0x1d); ("lag_state", LBits 0x3); ("reserved_at_20", LBits 0x14);
    ("tx_remap_affinity_2", LBits 0x4); ("reserved_at_38", LBits 0x4); ("tx_remap_affinity_1", LBits 0x4) ].

Definition umem : layout :=
  LStruct [
    ("modify_field_select", LBits 0x40); ("reserved_at_40", LBits 0x5b); ("log_page_size", LBits 0x5);
    ("page_offset", LBits 0x20); ("num_of_mtt", LBits 0x40); ("mtt", LArr 0 (mtt)) ].

Definition uctx : layout :=
  LStruct [
    ("modify_field_select", LBits 0x40); ("reserved_at_40", LBits 0x1c0) ].

Definition device_emulation_bar_register : layout :=
  LStruct [
    ("reserved_at_0", LBits 0x40); ("reserved_at_40", LBits 0x10); ("function_id", LBits 0x10);
    ("reserved_at_60", LBits 0x20); ("register_data", LArr 0 (LBits 0x20)) ].

Definition device_emulation_qp_to_nvme_map : layout :=
  LStruct [
    ("modify_field_select", LBits 0x40); ("reserved_at_40", LBits 0x10); ("function_id", LBits 0x10);
    ("reserved_at_60", LBits 0x20); ("reserved_at_80", LBits 0x4); ("offload_type", LBits 0x4);
    ("channel_qpn", LBits 0x18); ("reserved_at_a0", LBits 0x18); ("msix_vec", LBits 0x8);
    ("nvme_sqe_base_addr", LBits 0x40); ("reserved_at_100", LBits 0x8); ("nvme_sqe_entry_size", LBits 0x8);
    ("nvme_sqe_num_of_entries", LBits 0x10); ("nvme_sqe_doorbell_offset", LBits 0x20);
    ("reserved_at_140", LBits 0x6c0) ].

Definition tls_static_params : layout :=
  LStruct [
    ("const_2", LBits 0x2); ("tls_version", LBits 0x4); ("const_1", LBits 0x2); ("reserved_at_8", LBits 0x14);
    ("encryption_standard", LBits 0x4); ("reserved_at_20", LBits 0x20); ("initial_record_number", LBits 0x40);
    ("resync_tcp_sn", LBits 0x20); ("gcm_iv", LBits 0x20); ("implicit_iv", LBits 0x40);
    ("reserved_at_100", LBits 0x8); ("dek_index", LBits 0x18); ("reserved_at_120", LBits 0xe0) ].

Definition tls_progress_params : layout :=
  LStruct [
    ("next_record_tcp_sn", LBits 0x20); ("hw_resync_tcp_sn", LBits 0x20); ("record_tracker_state", LBits 0x2);
    ("auth_state", LBits 0x2); ("reserved_at_44", LBits 0x4); ("hw_offset_record_number", LBits 0x18) ].

End regs.

Definition register_layouts : list layout :=
  [regs.sltp_reg; regs.slrg_reg; regs.pvlc_reg; regs.pude_reg; regs.ptys_reg; regs.mlcr_reg; regs.ptas_reg;
    regs.pspa_reg; regs.pqdr_reg; regs.ppsc_reg; regs.pplr_reg; regs.pplm_reg; regs.ppcnt_reg;
    regs.mpcnt_reg; regs.ppad_reg; regs.pmtu_reg; regs.pmpr_reg; regs.pmpe_reg; regs.pmpc_reg;
    regs.pmlpn_reg; regs.pmlp_reg; regs.pmaos_reg; regs.plpc_reg; regs.plib_reg; regs.plbf_reg;
    regs.pipg_reg; regs.pifr_reg; regs.pfcc_reg; regs.pelc_reg; regs.peir_reg; regs.pcam_enhanced_features;
    regs.pcam_reg; regs.mcam_enhanced_features; regs.mcam_access_reg; regs.mcam_reg;
    regs.qcam_access_reg_cap_mask; regs.qcam_qos_feature_cap_mask; regs.qcam_reg; regs.pcap_reg;
    regs.paos_reg; regs.pamp_reg; regs.pcmr_reg; regs.lane_2_module_mapping; regs.bufferx_reg;
    regs.register_power_settings; regs.register_host_endianness; regs.umr_pointer_desc_argument;
    regs.ud_adrs_vector; regs.pages_req_event; regs.eqe; regs.cmd_queue_entry; regs.cmd_if_box; regs.mtt;
    regs.initial_seg; regs.mtpps_reg; regs.mtppse_reg; regs.mcqi_cap; regs.mcqi_reg; regs.mcc_reg;
    regs.mcda_reg; regs.ports_control_registers_document; regs.debug_enhancements_document;
    regs.uplink_pci_interface_document; regs.ets_tcn_config_reg; regs.ets_global_config_reg; regs.qetc_reg;
    regs.qpdpm_dscp_reg; regs.qpdpm_reg; regs.qpts_reg; regs.qtct_reg; regs.mcia_reg; regs.dcbx_param;
    regs.lagc; regs.umem; regs.uctx; regs.device_emulation_bar_register;
    regs.device_emulation_qp_to_nvme_map; regs.tls_static_params; regs.tls_progress_params]%list.
