(* ===== verification/PrmCommands.v ===== *)
(** * The commands of [src/src/dcmd/prm.h] that the library does not send

    Input and output structures: [cmds.x] is [struct mlx5_ifc_x_bits] member for
    member.  One output structure is missing: [query_packet_reformat_context_out]
    holds a host pointer where the device answers with the structure itself. *)

From S2P Require Import Prelude Codec Prm PrmCaps PrmContexts PrmRegisters.
Open Scope string_scope.
Open Scope list_scope.
Open Scope Z_scope.

Module cmds.

Definition teardown_hca_out : layout :=
  LStruct [
    ("status", LBits 0x8); ("reserved_at_8", LBits 0x18); ("syndrome", LBits 0x20);
    ("reserved_at_40", LBits 0x3f); ("force_state", LBits 0x1) ].

Definition teardown_hca_in : layout :=
  LStruct [
    ("opcode", LBits 0x10); ("uid", LBits 0x10); ("reserved_at_20", LBits 0x10); ("op_mod", LBits 0x10);
    ("reserved_at_40", LBits 0x10); ("profile", LBits 0x10); ("reserved_at_60", LBits 0x20) ].

Definition sqerr2rts_qp_out : layout :=
  LStruct [
    ("status", LBits 0x8); ("reserved_at_8", LBits 0x18); ("syndrome", LBits 0x20);
    ("reserved_at_40", LBits 0x40) ].

Definition sqerr2rts_qp_in : layout :=
  LStruct [
    ("opcode", LBits 0x10); ("uid", LBits 0x10); ("reserved_at_20", LBits 0x10); ("op_mod", LBits 0x10);
    ("reserved_at_40", LBits 0x8); ("qpn", LBits 0x18); ("reserved_at_60", LBits 0x1);
    ("cmd_on_behalf", LBits 0x1); ("reserved_at_62", LBits 0xe); ("function_id", LBits 0x10);
    ("opt_param_mask", LBits 0x20); ("reserved_at_a0", LBits 0x20); ("qpc", ctxs.qpc);
    ("reserved_at_800", LBits 0x80) ].

Definition sqd2rts_qp_out : layout :=
  LStruct [
    ("status", LBits 0x8); ("reserved_at_8", LBits 0x18); ("syndrome", LBits 0x20);
    ("reserved_at_40", LBits 0x40) ].

Definition sqd2rts_qp_in : layout :=
  LStruct [
    ("opcode", LBits 0x10); ("uid", LBits 0x10); ("reserved_at_20", LBits 0x10); ("op_mod", LBits 0x10);
    ("reserved_at_40", LBits 0x8); ("qpn", LBits 0x18); ("reserved_at_60", LBits 0x1);
    ("cmd_on_behalf", LBits 0x1); ("reserved_at_62", LBits 0xe); ("function_id", LBits 0x10);
    ("opt_param_mask", LBits 0x20); ("reserved_at_a0", LBits 0x20); ("qpc", ctxs.qpc);
    ("reserved_at_800", LBits 0x80) ].

Definition set_roce_address_out : layout :=
  LStruct [
    ("status", LBits 0x8); ("reserved_at_8", LBits 0x18); ("syndrome", LBits 0x20);
    ("reserved_at_40", LBits 0x40) ].

Definition set_roce_address_in : layout :=
  LStruct [
    ("opcode", LBits 0x10); ("uid", LBits 0x10); ("reserved_at_20", LBits 0x10); ("op_mod", LBits 0x10);
    ("roce_address_index", LBits 0x10); ("reserved_at_50", LBits 0xc); ("vhca_port_num", LBits 0x4);
    ("reserved_at_60", LBits 0x1); ("cmd_on_behalf", LBits 0x1); ("reserved_at_62", LBits 0xe);
    ("function_id", LBits 0x10); ("roce_address", ctxs.roce_addr_layout) ].

Definition set_mad_demux_out : layout :=
  LStruct [
    ("status", LBits 0x8); ("reserved_at_8", LBits 0x18); ("syndrome", LBits 0x20);
    ("reserved_at_40", LBits 0x40) ].

Definition set_mad_demux_in : layout :=
  LStruct [
    ("opcode", LBits 0x10); ("uid", LBits 0x10); ("reserved_at_20", LBits 0x10); ("op_mod", LBits 0x10);
    ("reserved_at_40", LBits 0x20); ("reserved_at_60", LBits 0x6); ("demux_mode", LBits 0x2);
    ("reserved_at_68", LBits 0x18) ].

Definition set_l2_table_entry_out : layout :=
  LStruct [
    ("status", LBits 0x8); ("reserved_at_8", LBits 0x18); ("syndrome", LBits 0x20);
    ("reserved_at_40", LBits 0x40) ].

Definition set_l2_table_entry_in : layout :=
  LStruct [
    ("opcode", LBits 0x10); ("uid", LBits 0x10); ("reserved_at_20", LBits 0x10); ("op_mod", LBits 0x10);
    ("reserved_at_40", LBits 0x60); ("reserved_at_a0", LBits 0x8); ("table_index", LBits 0x18);
    ("reserved_at_c0", LBits 0x20); ("reserved_at_e0", LBits 0x13); ("vlan_valid", LBits 0x1);
    ("vlan", LBits 0xc); ("mac_address", ctxs.mac_address_layout); ("reserved_at_140", LBits 0xc0) ].

Definition set_issi_out : layout :=
  LStruct [
    ("status", LBits 0x8); ("reserved_at_8", LBits 0x18); ("syndrome", LBits 0x20);
    ("reserved_at_40", LBits 0x40) ].

Definition set_issi_in : layout :=
  LStruct [
    ("opcode", LBits 0x10); ("uid", LBits 0x10); ("reserved_at_20", LBits 0x10); ("op_mod", LBits 0x10);
    ("reserved_at_40", LBits 0x10); ("current_issi", LBits 0x10); ("reserved_at_60", LBits 0x20) ].

Definition set_hca_cap_out : layout :=
  LStruct [
    ("status", LBits 0x8); ("reserved_at_8", LBits 0x18); ("syndrome", LBits 0x20);
    ("reserved_at_40", LBits 0x40) ].

Definition set_hca_cap_in : layout :=
  LStruct [
    ("opcode", LBits 0x10); ("uid", LBits 0x10); ("reserved_at_20", LBits 0x10); ("op_mod", LBits 0x10);
    ("reserved_at_40", LBits 0x40); ("capability", cap.hca_cap_union) ].

Definition rts2rts_qp_out : layout :=
  LStruct [
    ("status", LBits 0x8); ("reserved_at_8", LBits 0x18); ("syndrome", LBits 0x20);
    ("reserved_at_40", LBits 0x40) ].

Definition rts2rts_qp_in : layout :=
  LStruct [
    ("opcode", LBits 0x10); ("uid", LBits 0x10); ("reserved_at_20", LBits 0x10); ("op_mod", LBits 0x10);
    ("reserved_at_40", LBits 0x8); ("qpn", LBits 0x18); ("reserved_at_60", LBits 0x1);
    ("cmd_on_behalf", LBits 0x1); ("reserved_at_62", LBits 0xe); ("function_id", LBits 0x10);
    ("opt_param_mask", LBits 0x20); ("reserved_at_a0", LBits 0x20); ("qpc", ctxs.qpc);
    ("reserved_at_800", LBits 0x80) ].

Definition rtr2rts_qp_out : layout :=
  LStruct [
    ("status", LBits 0x8); ("reserved_at_8", LBits 0x18); ("syndrome", LBits 0x20);
    ("reserved_at_40", LBits 0x40) ].

Definition rtr2rts_qp_in : layout :=
  LStruct [
    ("opcode", LBits 0x10); ("uid", LBits 0x10); ("reserved_at_20", LBits 0x10); ("op_mod", LBits 0x10);
    ("reserved_at_40", LBits 0x8); ("qpn", LBits 0x18); ("reserved_at_60", LBits 0x1);
    ("cmd_on_behalf", LBits 0x1); ("reserved_at_62", LBits 0xe); ("function_id", LBits 0x10);
    ("opt_param_mask", LBits 0x20); ("reserved_at_a0", LBits 0x20); ("qpc", ctxs.qpc);
    ("reserved_at_800", LBits 0x80) ].

Definition rst2init_qp_out : layout :=
  LStruct [
    ("status", LBits 0x8); ("reserved_at_8", LBits 0x18); ("syndrome", LBits 0x20);
    ("reserved_at_40", LBits 0x40) ].

Definition rst2init_qp_in : layout :=
  LStruct [
    ("opcode", LBits 0x10); ("uid", LBits 0x10); ("reserved_at_20", LBits 0x10); ("op_mod", LBits 0x10);
    ("reserved_at_40", LBits 0x8); ("qpn", LBits 0x18); ("reserved_at_60", LBits 0x1);
    ("cmd_on_behalf", LBits 0x1); ("reserved_at_62", LBits 0xe); ("function_id", LBits 0x10);
    ("opt_param_mask", LBits 0x20); ("reserved_at_a0", LBits 0x20); ("qpc", ctxs.qpc);
    ("reserved_at_800", LBits 0x80) ].

Definition query_xrq_out : layout :=
  LStruct [
    ("status", LBits 0x8); ("reserved_at_8", LBits 0x18); ("syndrome", LBits 0x20);
    ("reserved_at_40", LBits 0x40); ("xrq_context", ctxs.xrqc) ].

Definition query_xrq_in : layout :=
  LStruct [
    ("opcode", LBits 0x10); ("uid", LBits 0x10); ("reserved_at_20", LBits 0x10); ("op_mod", LBits 0x10);
    ("reserved_at_40", LBits 0x8); ("xrqn", LBits 0x18); ("reserved_at_60", LBits 0x20) ].

Definition query_xrc_srq_out : layout :=
  LStruct [
    ("status", LBits 0x8); ("reserved_at_8", LBits 0x18); ("syndrome", LBits 0x20);
    ("reserved_at_40", LBits 0x40); ("xrc_srq_context_entry", ctxs.xrc_srqc);
    ("reserved_at_280", LBits 0x600); ("pas", LArr 0 (LBits 0x40)) ].

Definition query_xrc_srq_in : layout :=
  LStruct [
    ("opcode", LBits 0x10); ("uid", LBits 0x10); ("reserved_at_20", LBits 0x10); ("op_mod", LBits 0x10);
    ("reserved_at_40", LBits 0x8); ("xrc_srqn", LBits 0x18); ("reserved_at_60", LBits 0x20) ].

Definition query_vport_state_out : layout :=
  LStruct [
    ("status", LBits 0x8); ("reserved_at_8", LBits 0x18); ("syndrome", LBits 0x20);
    ("reserved_at_40", LBits 0x20); ("reserved_at_60", LBits 0x18); ("admin_state", LBits 0x4);
    ("state", LBits 0x4) ].

Definition query_vport_state_in : layout :=
  LStruct [
    ("opcode", LBits 0x10); ("uid", LBits 0x10); ("reserved_at_20", LBits 0x10); ("op_mod", LBits 0x10);
    ("other_vport", LBits 0x1); ("reserved_at_41", LBits 0xf); ("vport_number", LBits 0x10);
    ("reserved_at_60", LBits 0x20) ].

Definition query_vnic_env_out : layout :=
  LStruct [
    ("status", LBits 0x8); ("reserved_at_8", LBits 0x18); ("syndrome", LBits 0x20);
    ("reserved_at_40", LBits 0x40); ("vport_env", ctxs.vnic_diagnostic_statistics) ].

Definition query_vnic_env_in : layout :=
  LStruct [
    ("opcode", LBits 0x10); ("reserved_at_10", LBits 0x10); ("reserved_at_20", LBits 0x10);
    ("op_mod", LBits 0x10); ("other_vport", LBits 0x1); ("reserved_at_41", LBits 0xf);
    ("vport_number", LBits 0x10); ("reserved_at_60", LBits 0x20) ].

Definition query_vport_counter_out : layout :=
  LStruct [
    ("status", LBits 0x8); ("reserved_at_8", LBits 0x18); ("syndrome", LBits 0x20);
    ("reserved_at_40", LBits 0x40); ("received_errors", ctxs.traffic_counter);
    ("transmit_errors", ctxs.traffic_counter); ("received_ib_unicast", ctxs.traffic_counter);
    ("transmitted_ib_unicast", ctxs.traffic_counter); ("received_ib_multicast", ctxs.traffic_counter);
    ("transmitted_ib_multicast", ctxs.traffic_counter); ("received_eth_broadcast", ctxs.traffic_counter);
    ("transmitted_eth_broadcast", ctxs.traffic_counter); ("received_eth_unicast", ctxs.traffic_counter);
    ("transmitted_eth_unicast", ctxs.traffic_counter); ("received_eth_multicast", ctxs.traffic_counter);
    ("transmitted_eth_multicast", ctxs.traffic_counter); ("reserved_at_680", LBits 0xa00) ].

Definition query_vport_counter_in : layout :=
  LStruct [
    ("opcode", LBits 0x10); ("uid", LBits 0x10); ("reserved_at_20", LBits 0x10); ("op_mod", LBits 0x10);
    ("other_vport", LBits 0x1); ("reserved_at_41", LBits 0xb); ("port_num", LBits 0x4);
    ("vport_number", LBits 0x10); ("reserved_at_60", LBits 0x60); ("clear", LBits 0x1);
    ("reserved_at_c1", LBits 0x1f); ("reserved_at_e0", LBits 0x20) ].

Definition query_srq_out : layout :=
  LStruct [
    ("status", LBits 0x8); ("reserved_at_8", LBits 0x18); ("syndrome", LBits 0x20);
    ("reserved_at_40", LBits 0x40); ("srq_context_entry", ctxs.srqc); ("reserved_at_280", LBits 0x600);
    ("pas", LArr 0 (LBits 0x40)) ].

Definition query_srq_in : layout :=
  LStruct [
    ("opcode", LBits 0x10); ("uid", LBits 0x10); ("reserved_at_20", LBits 0x10); ("op_mod", LBits 0x10);
    ("reserved_at_40", LBits 0x8); ("srqn", LBits 0x18); ("reserved_at_60", LBits 0x20) ].

Definition query_special_contexts_out : layout :=
  LStruct [
    ("status", LBits 0x8); ("reserved_at_8", LBits 0x18); ("syndrome", LBits 0x20);
    ("dump_fill_mkey", LBits 0x20); ("resd_lkey", LBits 0x20); ("null_mkey", LBits 0x20);
    ("reserved_at_a0", LBits 0x60) ].

Definition query_special_contexts_in : layout :=
  LStruct [
    ("opcode", LBits 0x10); ("uid", LBits 0x10); ("reserved_at_20", LBits 0x10); ("op_mod", LBits 0x10);
    ("reserved_at_40", LBits 0x40) ].

Definition query_scheduling_element_out : layout :=
  LStruct [
    ("opcode", LBits 0x10); ("uid", LBits 0x10); ("reserved_at_20", LBits 0x10); ("op_mod", LBits 0x10);
    ("reserved_at_40", LBits 0xc0); ("scheduling_context", ctxs.scheduling_context);
    ("reserved_at_300", LBits 0x100) ].

Definition query_scheduling_element_in : layout :=
  LStruct [
    ("opcode", LBits 0x10); ("uid", LBits 0x10); ("reserved_at_20", LBits 0x10); ("op_mod", LBits 0x10);
    ("scheduling_hierarchy", LBits 0x8); ("reserved_at_48", LBits 0x18);
    ("scheduling_element_id", LBits 0x20); ("reserved_at_80", LBits 0x180) ].

Definition query_rqt_out : layout :=
  LStruct [
    ("status", LBits 0x8); ("reserved_at_8", LBits 0x18); ("syndrome", LBits 0x20);
    ("reserved_at_40", LBits 0xc0); ("rqt_context", ctxs.rqtc) ].

Definition query_rqt_in : layout :=
  LStruct [
    ("opcode", LBits 0x10); ("uid", LBits 0x10); ("reserved_at_20", LBits 0x10); ("op_mod", LBits 0x10);
    ("reserved_at_40", LBits 0x8); ("rqtn", LBits 0x18); ("reserved_at_60", LBits 0x20) ].

Definition query_roce_address_out : layout :=
  LStruct [
    ("status", LBits 0x8); ("reserved_at_8", LBits 0x18); ("syndrome", LBits 0x20);
    ("reserved_at_40", LBits 0x40); ("roce_address", ctxs.roce_addr_layout) ].

Definition query_roce_address_in : layout :=
  LStruct [
    ("opcode", LBits 0x10); ("uid", LBits 0x10); ("reserved_at_20", LBits 0x10); ("op_mod", LBits 0x10);
    ("roce_address_index", LBits 0x10); ("reserved_at_50", LBits 0xc); ("vhca_port_num", LBits 0x4);
    ("reserved_at_60", LBits 0x1); ("cmd_on_behalf", LBits 0x1); ("reserved_at_62", LBits 0xe);
    ("function_id", LBits 0x10) ].

Definition query_rmp_out : layout :=
  LStruct [
    ("status", LBits 0x8); ("reserved_at_8", LBits 0x18); ("syndrome", LBits 0x20);
    ("reserved_at_40", LBits 0xc0); ("rmp_context", ctxs.rmpc) ].

Definition query_rmp_in : layout :=
  LStruct [
    ("opcode", LBits 0x10); ("uid", LBits 0x10); ("reserved_at_20", LBits 0x10); ("op_mod", LBits 0x10);
    ("reserved_at_40", LBits 0x8); ("rmpn", LBits 0x18); ("reserved_at_60", LBits 0x20) ].

Definition query_qp_out : layout :=
  LStruct [
    ("status", LBits 0x8); ("reserved_at_8", LBits 0x18); ("syndrome", LBits 0x20);
    ("reserved_at_40", LBits 0x40); ("opt_param_mask", LBits 0x20); ("reserved_at_a0", LBits 0x20);
    ("qpc", ctxs.qpc); ("reserved_at_800", LBits 0x80); ("pas", LArr 0 (LBits 0x40)) ].

Definition query_qp_in : layout :=
  LStruct [
    ("opcode", LBits 0x10); ("uid", LBits 0x10); ("reserved_at_20", LBits 0x10); ("op_mod", LBits 0x10);
    ("reserved_at_40", LBits 0x8); ("qpn", LBits 0x18); ("reserved_at_60", LBits 0x1);
    ("cmd_on_behalf", LBits 0x1); ("reserved_at_62", LBits 0xe); ("function_id", LBits 0x10) ].

Definition query_q_counter_out : layout :=
  LStruct [
    ("status", LBits 0x8); ("reserved_at_8", LBits 0x18); ("syndrome", LBits 0x20);
    ("reserved_at_40", LBits 0x40); ("rx_write_requests", LBits 0x20); ("reserved_at_a0", LBits 0x20);
    ("rx_read_requests", LBits 0x20); ("reserved_at_e0", LBits 0x20); ("rx_atomic_requests", LBits 0x20);
    ("reserved_at_120", LBits 0x20); ("rx_dct_connect", LBits 0x20); ("reserved_at_160", LBits 0x20);
    ("out_of_buffer", LBits 0x20); ("reserved_at_1a0", LBits 0x20); ("out_of_sequence", LBits 0x20);
    ("reserved_at_1e0", LBits 0x20); ("duplicate_request", LBits 0x20); ("reserved_at_220", LBits 0x20);
    ("rnr_nak_retry_err", LBits 0x20); ("reserved_at_260", LBits 0x20); ("packet_seq_err", LBits 0x20);
    ("reserved_at_2a0", LBits 0x20); ("implied_nak_seq_err", LBits 0x20); ("reserved_at_2e0", LBits 0x20);
    ("local_ack_timeout_err", LBits 0x20); ("reserved_at_320", LBits 0xa0);
    ("resp_local_length_error", LBits 0x20); ("req_local_length_error", LBits 0x20);
    ("resp_local_qp_error", LBits 0x20); ("local_operation_error", LBits 0x20);
    ("resp_local_protection", LBits 0x20); ("req_local_protection", LBits 0x20);
    ("resp_cqe_error", LBits 0x20); ("req_cqe_error", LBits 0x20); ("req_mw_binding", LBits 0x20);
    ("req_bad_response", LBits 0x20); ("req_remote_invalid_request", LBits 0x20);
    ("resp_remote_invalid_request", LBits 0x20); ("req_remote_access_errors", LBits 0x20);
    ("resp_remote_access_errors", LBits 0x20); ("req_remote_operation_errors", LBits 0x20);
    ("req_transport_retries_exceeded", LBits 0x20); ("cq_overflow", LBits 0x20);
    ("resp_cqe_flush_error", LBits 0x20); ("req_cqe_flush_error", LBits 0x20);
    ("reserved_at_620", LBits 0x1e0) ].

Definition query_q_counter_in : layout :=
  LStruct [
    ("opcode", LBits 0x10); ("uid", LBits 0x10); ("reserved_at_20", LBits 0x10); ("op_mod", LBits 0x10);
    ("reserved_at_40", LBits 0x80); ("clear", LBits 0x1); ("reserved_at_c1", LBits 0x1f);
    ("reserved_at_e0", LBits 0x18); ("counter_set_id", LBits 0x8) ].

Definition query_pages_out : layout :=
  LStruct [
    ("status", LBits 0x8); ("reserved_at_8", LBits 0x18); ("syndrome", LBits 0x20);
    ("reserved_at_40", LBits 0x10); ("function_id", LBits 0x10); ("num_pages", LBits 0x20) ].

Definition query_pages_in : layout :=
  LStruct [
    ("opcode", LBits 0x10); ("uid", LBits 0x10); ("reserved_at_20", LBits 0x10); ("op_mod", LBits 0x10);
    ("reserved_at_40", LBits 0x10); ("function_id", LBits 0x10); ("reserved_at_60", LBits 0x20) ].

Definition query_nic_vport_context_out : layout :=
  LStruct [
    ("status", LBits 0x8); ("reserved_at_8", LBits 0x18); ("syndrome", LBits 0x20);
    ("reserved_at_40", LBits 0x40); ("nic_vport_context", ctxs.nic_vport_context) ].

Definition query_nic_vport_context_in : layout :=
  LStruct [
    ("opcode", LBits 0x10); ("uid", LBits 0x10); ("reserved_at_20", LBits 0x10); ("op_mod", LBits 0x10);
    ("other_vport", LBits 0x1); ("reserved_at_41", LBits 0xf); ("vport_number", LBits 0x10);
    ("reserved_at_60", LBits 0x5); ("allowed_list_type", LBits 0x3); ("reserved_at_68", LBits 0x18) ].

Definition query_mkey_out : layout :=
  LStruct [
    ("status", LBits 0x8); ("reserved_at_8", LBits 0x18); ("syndrome", LBits 0x20);
    ("reserved_at_40", LBits 0x40); ("memory_key_mkey_entry", ifc.mkc); ("reserved_at_280", LBits 0x600);
    ("bsf0_klm0_pas_mtt0_1", LArr 16 (LBits 0x8)); ("bsf1_klm1_pas_mtt2_3", LArr 16 (LBits 0x8)) ].

Definition query_mkey_in : layout :=
  LStruct [
    ("opcode", LBits 0x10); ("uid", LBits 0x10); ("reserved_at_20", LBits 0x10); ("op_mod", LBits 0x10);
    ("reserved_at_40", LBits 0x8); ("mkey_index", LBits 0x18); ("pg_access", LBits 0x1);
    ("reserved_at_61", LBits 0x1f) ].

Definition query_mad_demux_out : layout :=
  LStruct [
    ("status", LBits 0x8); ("reserved_at_8", LBits 0x18); ("syndrome", LBits 0x20);
    ("reserved_at_40", LBits 0x40); ("mad_dumux_parameters_block", LBits 0x20) ].

Definition query_mad_demux_in : layout :=
  LStruct [
    ("opcode", LBits 0x10); ("uid", LBits 0x10); ("reserved_at_20", LBits 0x10); ("op_mod", LBits 0x10);
    ("reserved_at_40", LBits 0x40) ].

Definition query_l2_table_entry_out : layout :=
  LStruct [
    ("status", LBits 0x8); ("reserved_at_8", LBits 0x18); ("syndrome", LBits 0x20);
    ("reserved_at_40", LBits 0xa0); ("reserved_at_e0", LBits 0x13); ("vlan_valid", LBits 0x1);
    ("vlan", LBits 0xc); ("mac_address", ctxs.mac_address_layout); ("reserved_at_140", LBits 0xc0) ].

Definition query_l2_table_entry_in : layout :=
  LStruct [
    ("opcode", LBits 0x10); ("uid", LBits 0x10); ("reserved_at_20", LBits 0x10); ("op_mod", LBits 0x10);
    ("reserved_at_40", LBits 0x60); ("reserved_at_a0", LBits 0x8); ("table_index", LBits 0x18);
    ("reserved_at_c0", LBits 0x140) ].

Definition query_issi_out : layout :=
  LStruct [
    ("status", LBits 0x8); ("reserved_at_8", LBits 0x18); ("syndrome", LBits 0x20);
    ("reserved_at_40", LBits 0x10); ("current_issi", LBits 0x10); ("reserved_at_60", LBits 0xa0);
    ("reserved_at_100", LArr 76 (LBits 0x8)); ("supported_issi_dw0", LBits 0x20) ].

Definition query_issi_in : layout :=
  LStruct [
    ("opcode", LBits 0x10); ("uid", LBits 0x10); ("reserved_at_20", LBits 0x10); ("op_mod", LBits 0x10);
    ("reserved_at_40", LBits 0x40) ].

Definition set_driver_version_out : layout :=
  LStruct [
    ("status", LBits 0x8); ("reserved_0", LBits 0x18); ("syndrome", LBits 0x20); ("reserved_1", LBits 0x40) ].

Definition set_driver_version_in : layout :=
  LStruct [
    ("opcode", LBits 0x10); ("uid", LBits 0x10); ("reserved_1", LBits 0x10); ("op_mod", LBits 0x10);
    ("reserved_2", LBits 0x40); ("driver_version", LArr 64 (LBits 0x8)) ].

Definition query_hca_vport_pkey_out : layout :=
  LStruct [
    ("status", LBits 0x8); ("reserved_at_8", LBits 0x18); ("syndrome", LBits 0x20);
    ("reserved_at_40", LBits 0x40); ("pkey", LArr 0 (ctxs.pkey)) ].

Definition query_hca_vport_pkey_in : layout :=
  LStruct [
    ("opcode", LBits 0x10); ("uid", LBits 0x10); ("reserved_at_20", LBits 0x10); ("op_mod", LBits 0x10);
    ("other_vport", LBits 0x1); ("reserved_at_41", LBits 0xb); ("port_num", LBits 0x4);
    ("vport_number", LBits 0x10); ("reserved_at_60", LBits 0x10); ("pkey_index", LBits 0x10) ].

Definition query_hca_vport_gid_out : layout :=
  LStruct [
    ("status", LBits 0x8); ("reserved_at_8", LBits 0x18); ("syndrome", LBits 0x20);
    ("reserved_at_40", LBits 0x20); ("gids_num", LBits 0x10); ("reserved_at_70", LBits 0x10);
    ("gid", LArr 0 (ctxs.array128_auto)) ].

Definition query_hca_vport_gid_in : layout :=
  LStruct [
    ("opcode", LBits 0x10); ("uid", LBits 0x10); ("reserved_at_20", LBits 0x10); ("op_mod", LBits 0x10);
    ("other_vport", LBits 0x1); ("reserved_at_41", LBits 0xb); ("port_num", LBits 0x4);
    ("vport_number", LBits 0x10); ("reserved_at_60", LBits 0x10); ("gid_index", LBits 0x10) ].

Definition query_hca_vport_context_out : layout :=
  LStruct [
    ("status", LBits 0x8); ("reserved_at_8", LBits 0x18); ("syndrome", LBits 0x20);
    ("reserved_at_40", LBits 0x40); ("hca_vport_context", ctxs.hca_vport_context) ].

Definition query_hca_vport_context_in : layout :=
  LStruct [
    ("opcode", LBits 0x10); ("uid", LBits 0x10); ("reserved_at_20", LBits 0x10); ("op_mod", LBits 0x10);
    ("other_vport", LBits 0x1); ("reserved_at_41", LBits 0xb); ("port_num", LBits 0x4);
    ("vport_number", LBits 0x10); ("reserved_at_60", LBits 0x20) ].

Definition query_fte_out : layout :=
  LStruct [
    ("status", LBits 0x8); ("reserved_at_8", LBits 0x18); ("syndrome", LBits 0x20);
    ("reserved_at_40", LBits 0x1c0); ("flow_context", ifc.flow_context) ].

Definition query_fte_in : layout :=
  LStruct [
    ("opcode", LBits 0x10); ("uid", LBits 0x10); ("reserved_at_20", LBits 0x10); ("op_mod", LBits 0x10);
    ("reserved_at_40", LBits 0x40); ("table_type", LBits 0x8); ("reserved_at_88", LBits 0x18);
    ("reserved_at_a0", LBits 0x8); ("table_id", LBits 0x18); ("reserved_at_c0", LBits 0x40);
    ("flow_index", LBits 0x20); ("reserved_at_120", LBits 0xe0) ].

Definition query_flow_group_out : layout :=
  LStruct [
    ("status", LBits 0x8); ("reserved_at_8", LBits 0x18); ("syndrome", LBits 0x20);
    ("reserved_at_40", LBits 0xa0); ("start_flow_index", LBits 0x20); ("reserved_at_100", LBits 0x20);
    ("end_flow_index", LBits 0x20); ("reserved_at_140", LBits 0xa0); ("reserved_at_1e0", LBits 0x18);
    ("match_criteria_enable", LBits 0x8); ("match_criteria", ifc.fte_match_param);
    ("reserved_at_1200", LBits 0xe00) ].

Definition query_flow_group_in : layout :=
  LStruct [
    ("opcode", LBits 0x10); ("uid", LBits 0x10); ("reserved_at_20", LBits 0x10); ("op_mod", LBits 0x10);
    ("reserved_at_40", LBits 0x40); ("table_type", LBits 0x8); ("reserved_at_88", LBits 0x18);
    ("reserved_at_a0", LBits 0x8); ("table_id", LBits 0x18); ("group_id", LBits 0x20);
    ("reserved_at_e0", LBits 0x120) ].

Definition query_flow_counter_out : layout :=
  LStruct [
    ("status", LBits 0x8); ("reserved_at_8", LBits 0x18); ("syndrome", LBits 0x20);
    ("reserved_at_40", LBits 0x40); ("flow_statistics", LArr 0 (ctxs.traffic_counter)) ].

Definition query_flow_counter_in : layout :=
  LStruct [
    ("opcode", LBits 0x10); ("uid", LBits 0x10); ("reserved_at_20", LBits 0x10); ("op_mod", LBits 0x10);
    ("reserved_at_40", LBits 0x80); ("clear", LBits 0x1); ("reserved_at_c1", LBits 0xf);
    ("num_of_counters", LBits 0x10); ("flow_counter_id", LBits 0x20) ].

Definition query_esw_vport_context_out : layout :=
  LStruct [
    ("status", LBits 0x8); ("reserved_at_8", LBits 0x18); ("syndrome", LBits 0x20);
    ("reserved_at_40", LBits 0x40); ("esw_vport_context", ctxs.esw_vport_context) ].

Definition query_esw_vport_context_in : layout :=
  LStruct [
    ("opcode", LBits 0x10); ("uid", LBits 0x10); ("reserved_at_20", LBits 0x10); ("op_mod", LBits 0x10);
    ("other_vport", LBits 0x1); ("reserved_at_41", LBits 0xf); ("vport_number", LBits 0x10);
    ("reserved_at_60", LBits 0x20) ].

Definition modify_esw_vport_context_out : layout :=
  LStruct [
    ("status", LBits 0x8); ("reserved_at_8", LBits 0x18); ("syndrome", LBits 0x20);
    ("reserved_at_40", LBits 0x40) ].

Definition modify_esw_vport_context_in : layout :=
  LStruct [
    ("opcode", LBits 0x10); ("uid", LBits 0x10); ("reserved_at_20", LBits 0x10); ("op_mod", LBits 0x10);
    ("other_vport", LBits 0x1); ("reserved_at_41", LBits 0xf); ("vport_number", LBits 0x10);
    ("field_select", ctxs.esw_vport_context_fields_select); ("esw_vport_context", ctxs.esw_vport_context) ].

Definition query_eq_out : layout :=
  LStruct [
    ("status", LBits 0x8); ("reserved_at_8", LBits 0x18); ("syndrome", LBits 0x20);
    ("reserved_at_40", LBits 0x40); ("eq_context_entry", ctxs.eqc); ("reserved_at_280", LBits 0x40);
    ("event_bitmask", LBits 0x40); ("reserved_at_300", LBits 0x580); ("pas", LArr 0 (LBits 0x40)) ].

Definition query_eq_in : layout :=
  LStruct [
    ("opcode", LBits 0x10); ("uid", LBits 0x10); ("reserved_at_20", LBits 0x10); ("op_mod", LBits 0x10);
    ("reserved_at_40", LBits 0x18); ("eq_number", LBits 0x8); ("reserved_at_60", LBits 0x20) ].

Definition query_packet_reformat_context_in : layout :=
  LStruct [
    ("opcode", LBits 0x10); ("reserved_at_10", LBits 0x10); ("reserved_at_20", LBits 0x10);
    ("op_mod", LBits 0x10); ("packet_reformat_id", LBits 0x20); ("reserved_at_60", LBits 0xa0) ].

Definition dealloc_packet_reformat_context_out : layout :=
  LStruct [
    ("status", LBits 0x8); ("reserved_at_8", LBits 0x18); ("syndrome", LBits 0x20);
    ("reserved_at_40", LBits 0x40) ].

Definition dealloc_packet_reformat_context_in : layout :=
  LStruct [
    ("opcode", LBits 0x10); ("reserved_at_10", LBits 0x10); ("reserved_20", LBits 0x10);
    ("op_mod", LBits 0x10); ("packet_reformat_id", LBits 0x20); ("reserved_60", LBits 0x20) ].

Definition encap_header_in : layout :=
  LStruct [
    ("reserved_at_0", LBits 0x5); ("header_type", LBits 0x3); ("reserved_at_8", LBits 0xe);
    ("encap_header_size", LBits 0xa); ("reserved_at_20", LBits 0x10); ("encap_header", LArr 2 (LBits 0x8));
    ("more_encap_header", LArr 0 (LBits 0x8)) ].

Definition query_encap_header_out : layout :=
  LStruct [
    ("status", LBits 0x8); ("reserved_at_8", LBits 0x18); ("syndrome", LBits 0x20);
    ("reserved_at_40", LBits 0xa0); ("encap_header", LArr 0 (encap_header_in)) ].

Definition query_encap_header_in : layout :=
  LStruct [
    ("opcode", LBits 0x10); ("uid", LBits 0x10); ("reserved_at_20", LBits 0x10); ("op_mod", LBits 0x10);
    ("encap_id", LBits 0x20); ("reserved_at_60", LBits 0xa0) ].

Definition alloc_encap_header_out : layout :=
  LStruct [
    ("status", LBits 0x8); ("reserved_at_8", LBits 0x18); ("syndrome", LBits 0x20); ("encap_id", LBits 0x20);
    ("reserved_at_60", LBits 0x20) ].

Definition alloc_encap_header_in : layout :=
  LStruct [
    ("opcode", LBits 0x10); ("uid", LBits 0x10); ("reserved_at_20", LBits 0x10); ("op_mod", LBits 0x10);
    ("reserved_at_40", LBits 0xa0); ("encap_header", encap_header_in) ].

Definition dealloc_encap_header_out : layout :=
  LStruct [
    ("status", LBits 0x8); ("reserved_at_8", LBits 0x18); ("syndrome", LBits 0x20);
    ("reserved_at_40", LBits 0x40) ].

Definition dealloc_encap_header_in : layout :=
  LStruct [
    ("opcode", LBits 0x10); ("uid", LBits 0x10); ("reserved_20", LBits 0x10); ("op_mod", LBits 0x10);
    ("encap_id", LBits 0x20); ("reserved_60", LBits 0x20) ].

Definition dealloc_modify_header_context_out : layout :=
  LStruct [
    ("status", LBits 0x8); ("reserved_at_8", LBits 0x18); ("syndrome", LBits 0x20);
    ("reserved_at_40", LBits 0x40) ].

Definition dealloc_modify_header_context_in : layout :=
  LStruct [
    ("opcode", LBits 0x10); ("uid", LBits 0x10); ("reserved_at_20", LBits 0x10); ("op_mod", LBits 0x10);
    ("modify_header_id", LBits 0x20); ("reserved_at_60", LBits 0x20) ].

Definition query_dct_out : layout :=
  LStruct [
    ("status", LBits 0x8); ("reserved_at_8", LBits 0x18); ("syndrome", LBits 0x20);
    ("reserved_at_40", LBits 0x40); ("dct_context_entry", ctxs.dctc); ("reserved_at_280", LBits 0x180) ].

Definition query_dct_in : layout :=
  LStruct [
    ("opcode", LBits 0x10); ("uid", LBits 0x10); ("reserved_at_20", LBits 0x10); ("op_mod", LBits 0x10);
    ("reserved_at_40", LBits 0x8); ("dctn", LBits 0x18); ("reserved_at_60", LBits 0x20) ].

Definition query_cq_out : layout :=
  LStruct [
    ("status", LBits 0x8); ("reserved_at_8", LBits 0x18); ("syndrome", LBits 0x20);
    ("reserved_at_40", LBits 0x40); ("cq_context", ifc.cqc); ("reserved_at_280", LBits 0x600);
    ("pas", LArr 0 (LBits 0x40)) ].

Definition query_cq_in : layout :=
  LStruct [
    ("opcode", LBits 0x10); ("uid", LBits 0x10); ("reserved_at_20", LBits 0x10); ("op_mod", LBits 0x10);
    ("reserved_at_40", LBits 0x8); ("cqn", LBits 0x18); ("reserved_at_60", LBits 0x20) ].

Definition query_cong_status_out : layout :=
  LStruct [
    ("status", LBits 0x8); ("reserved_at_8", LBits 0x18); ("syndrome", LBits 0x20);
    ("reserved_at_40", LBits 0x20); ("enable", LBits 0x1); ("tag_enable", LBits 0x1);
    ("reserved_at_62", LBits 0x1e) ].

Definition query_cong_status_in : layout :=
  LStruct [
    ("opcode", LBits 0x10); ("uid", LBits 0x10); ("reserved_at_20", LBits 0x10); ("op_mod", LBits 0x10);
    ("reserved_at_40", LBits 0x18); ("priority", LBits 0x4); ("cong_protocol", LBits 0x4);
    ("reserved_at_60", LBits 0x20) ].

Definition query_cong_statistics_out : layout :=
  LStruct [
    ("status", LBits 0x8); ("reserved_at_8", LBits 0x18); ("syndrome", LBits 0x20);
    ("reserved_at_40", LBits 0x40); ("rp_cur_flows", LBits 0x20); ("sum_flows", LBits 0x20);
    ("rp_cnp_ignored_high", LBits 0x20); ("rp_cnp_ignored_low", LBits 0x20);
    ("rp_cnp_handled_high", LBits 0x20); ("rp_cnp_handled_low", LBits 0x20); ("reserved_at_140", LBits 0x100);
    ("time_stamp_high", LBits 0x20); ("time_stamp_low", LBits 0x20); ("accumulators_period", LBits 0x20);
    ("np_ecn_marked_roce_packets_high", LBits 0x20); ("np_ecn_marked_roce_packets_low", LBits 0x20);
    ("np_cnp_sent_high", LBits 0x20); ("np_cnp_sent_low", LBits 0x20); ("reserved_at_320", LBits 0x560) ].

Definition query_cong_statistics_in : layout :=
  LStruct [
    ("opcode", LBits 0x10); ("uid", LBits 0x10); ("reserved_at_20", LBits 0x10); ("op_mod", LBits 0x10);
    ("clear", LBits 0x1); ("reserved_at_41", LBits 0x1f); ("reserved_at_60", LBits 0x20) ].

Definition query_cong_params_out : layout :=
  LStruct [
    ("status", LBits 0x8); ("reserved_at_8", LBits 0x18); ("syndrome", LBits 0x20);
    ("reserved_at_40", LBits 0x40); ("congestion_parameters", ctxs.cong_control_roce_ecn_auto) ].

Definition query_cong_params_in : layout :=
  LStruct [
    ("opcode", LBits 0x10); ("uid", LBits 0x10); ("reserved_at_20", LBits 0x10); ("op_mod", LBits 0x10);
    ("reserved_at_40", LBits 0x1c); ("cong_protocol", LBits 0x4); ("reserved_at_60", LBits 0x20) ].

Definition query_adapter_out : layout :=
  LStruct [
    ("status", LBits 0x8); ("reserved_at_8", LBits 0x18); ("syndrome", LBits 0x20);
    ("reserved_at_40", LBits 0x40); ("query_adapter_struct", ctxs.query_adapter_param_block) ].

Definition query_adapter_in : layout :=
  LStruct [
    ("opcode", LBits 0x10); ("uid", LBits 0x10); ("reserved_at_20", LBits 0x10); ("op_mod", LBits 0x10);
    ("reserved_at_40", LBits 0x40) ].

Definition qp_2rst_out : layout :=
  LStruct [
    ("status", LBits 0x8); ("reserved_at_8", LBits 0x18); ("syndrome", LBits 0x20);
    ("reserved_at_40", LBits 0x40) ].

Definition qp_2rst_in : layout :=
  LStruct [
    ("opcode", LBits 0x10); ("uid", LBits 0x10); ("reserved_at_20", LBits 0x10); ("op_mod", LBits 0x10);
    ("reserved_at_40", LBits 0x8); ("qpn", LBits 0x18); ("reserved_at_60", LBits 0x20) ].

Definition qp_2err_out : layout :=
  LStruct [
    ("status", LBits 0x8); ("reserved_at_8", LBits 0x18); ("syndrome", LBits 0x20);
    ("reserved_at_40", LBits 0x40) ].

Definition qp_2err_in : layout :=
  LStruct [
    ("opcode", LBits 0x10); ("uid", LBits 0x10); ("reserved_at_20", LBits 0x10); ("op_mod", LBits 0x10);
    ("reserved_at_40", LBits 0x8); ("qpn", LBits 0x18); ("reserved_at_60", LBits 0x20) ].

Definition page_fault_resume_out : layout :=
  LStruct [
    ("status", LBits 0x8); ("reserved_at_8", LBits 0x18); ("syndrome", LBits 0x20);
    ("reserved_at_40", LBits 0x40) ].

Definition page_fault_resume_in : layout :=
  LStruct [
    ("opcode", LBits 0x10); ("uid", LBits 0x10); ("reserved_at_20", LBits 0x10); ("op_mod", LBits 0x10);
    ("error", LBits 0x1); ("reserved_at_41", LBits 0x4); ("page_fault_type", LBits 0x3);
    ("wq_number", LBits 0x18); ("reserved_at_60", LBits 0x8); ("token", LBits 0x18) ].

Definition nop_out : layout :=
  LStruct [
    ("status", LBits 0x8); ("reserved_at_8", LBits 0x18); ("syndrome", LBits 0x20);
    ("reserved_at_40", LBits 0x40) ].

Definition nop_in : layout :=
  LStruct [
    ("opcode", LBits 0x10); ("uid", LBits 0x10); ("reserved_at_20", LBits 0x10); ("op_mod", LBits 0x10);
    ("reserved_at_40", LBits 0x40) ].

Definition modify_vport_state_out : layout :=
  LStruct [
    ("status", LBits 0x8); ("reserved_at_8", LBits 0x18); ("syndrome", LBits 0x20);
    ("reserved_at_40", LBits 0x40) ].

Definition modify_vport_state_in : layout :=
  LStruct [
    ("opcode", LBits 0x10); ("uid", LBits 0x10); ("reserved_at_20", LBits 0x10); ("op_mod", LBits 0x10);
    ("other_vport", LBits 0x1); ("reserved_at_41", LBits 0xf); ("vport_number", LBits 0x10);
    ("reserved_at_60", LBits 0x18); ("admin_state", LBits 0x4); ("reserved_at_7c", LBits 0x4) ].

Definition modify_tis_out : layout :=
  LStruct [
    ("status", LBits 0x8); ("reserved_at_8", LBits 0x18); ("syndrome", LBits 0x20);
    ("reserved_at_40", LBits 0x40) ].

Definition modify_tis_in : layout :=
  LStruct [
    ("opcode", LBits 0x10); ("uid", LBits 0x10); ("reserved_at_20", LBits 0x10); ("op_mod", LBits 0x10);
    ("reserved_at_40", LBits 0x8); ("tisn", LBits 0x18); ("reserved_at_60", LBits 0x20);
    ("bitmask", ctxs.modify_tis_bitmask); ("reserved_at_c0", LBits 0x40); ("ctx", ifc.tisc) ].

Definition modify_scheduling_element_out : layout :=
  LStruct [
    ("status", LBits 0x8); ("reserved_at_8", LBits 0x18); ("syndrome", LBits 0x20);
    ("reserved_at_40", LBits 0x1c0) ].

Definition modify_scheduling_element_in : layout :=
  LStruct [
    ("opcode", LBits 0x10); ("uid", LBits 0x10); ("reserved_at_20", LBits 0x10); ("op_mod", LBits 0x10);
    ("scheduling_hierarchy", LBits 0x8); ("reserved_at_48", LBits 0x18);
    ("scheduling_element_id", LBits 0x20); ("reserved_at_80", LBits 0x20); ("modify_bitmask", LBits 0x20);
    ("reserved_at_c0", LBits 0x40); ("scheduling_context", ctxs.scheduling_context);
    ("reserved_at_300", LBits 0x100) ].

Definition modify_rqt_out : layout :=
  LStruct [
    ("status", LBits 0x8); ("reserved_at_8", LBits 0x18); ("syndrome", LBits 0x20);
    ("reserved_at_40", LBits 0x40) ].

Definition modify_rqt_in : layout :=
  LStruct [
    ("opcode", LBits 0x10); ("uid", LBits 0x10); ("reserved_at_20", LBits 0x10); ("op_mod", LBits 0x10);
    ("reserved_at_40", LBits 0x8); ("rqtn", LBits 0x18); ("reserved_at_60", LBits 0x20);
    ("bitmask", ctxs.rqt_bitmask); ("reserved_at_c0", LBits 0x40); ("ctx", ctxs.rqtc) ].

Definition modify_rmp_out : layout :=
  LStruct [
    ("status", LBits 0x8); ("reserved_at_8", LBits 0x18); ("syndrome", LBits 0x20);
    ("reserved_at_40", LBits 0x40) ].

Definition modify_rmp_in : layout :=
  LStruct [
    ("opcode", LBits 0x10); ("uid", LBits 0x10); ("reserved_at_20", LBits 0x10); ("op_mod", LBits 0x10);
    ("rmp_state", LBits 0x4); ("reserved_at_44", LBits 0x4); ("rmpn", LBits 0x18);
    ("reserved_at_60", LBits 0x20); ("bitmask", ctxs.rmp_bitmask); ("reserved_at_c0", LBits 0x40);
    ("ctx", ctxs.rmpc) ].

Definition modify_nic_vport_context_out : layout :=
  LStruct [
    ("status", LBits 0x8); ("reserved_at_8", LBits 0x18); ("syndrome", LBits 0x20);
    ("reserved_at_40", LBits 0x40) ].

Definition modify_nic_vport_context_in : layout :=
  LStruct [
    ("opcode", LBits 0x10); ("uid", LBits 0x10); ("reserved_at_20", LBits 0x10); ("op_mod", LBits 0x10);
    ("other_vport", LBits 0x1); ("reserved_at_41", LBits 0xf); ("vport_number", LBits 0x10);
    ("field_select", ctxs.modify_nic_vport_field_select); ("reserved_at_80", LBits 0x780);
    ("nic_vport_context", ctxs.nic_vport_context) ].

Definition modify_hca_vport_context_out : layout :=
  LStruct [
    ("status", LBits 0x8); ("reserved_at_8", LBits 0x18); ("syndrome", LBits 0x20);
    ("reserved_at_40", LBits 0x40) ].

Definition modify_hca_vport_context_in : layout :=
  LStruct [
    ("opcode", LBits 0x10); ("uid", LBits 0x10); ("reserved_at_20", LBits 0x10); ("op_mod", LBits 0x10);
    ("other_vport", LBits 0x1); ("reserved_at_41", LBits 0xb); ("port_num", LBits 0x4);
    ("vport_number", LBits 0x10); ("reserved_at_60", LBits 0x20);
    ("hca_vport_context", ctxs.hca_vport_context) ].

Definition modify_cq_out : layout :=
  LStruct [
    ("status", LBits 0x8); ("reserved_at_8", LBits 0x18); ("syndrome", LBits 0x20);
    ("reserved_at_40", LBits 0x40) ].

Definition modify_cq_in : layout :=
  LStruct [
    ("opcode", LBits 0x10); ("uid", LBits 0x10); ("reserved_at_20", LBits 0x10); ("op_mod", LBits 0x10);
    ("reserved_at_40", LBits 0x8); ("cqn", LBits 0x18);
    ("modify_field_select_resize_field_select", ctxs.modify_field_select_resize_field_select_auto);
    ("cq_context", ifc.cqc); ("reserved_at_280", LBits 0x600); ("pas", LArr 0 (LBits 0x40)) ].

Definition modify_cong_status_out : layout :=
  LStruct [
    ("status", LBits 0x8); ("reserved_at_8", LBits 0x18); ("syndrome", LBits 0x20);
    ("reserved_at_40", LBits 0x40) ].

Definition modify_cong_status_in : layout :=
  LStruct [
    ("opcode", LBits 0x10); ("uid", LBits 0x10); ("reserved_at_20", LBits 0x10); ("op_mod", LBits 0x10);
    ("reserved_at_40", LBits 0x18); ("priority", LBits 0x4); ("cong_protocol", LBits 0x4);
    ("enable", LBits 0x1); ("tag_enable", LBits 0x1); ("reserved_at_62", LBits 0x1e) ].

Definition modify_cong_params_out : layout :=
  LStruct [
    ("status", LBits 0x8); ("reserved_at_8", LBits 0x18); ("syndrome", LBits 0x20);
    ("reserved_at_40", LBits 0x40) ].

Definition modify_cong_params_in : layout :=
  LStruct [
    ("opcode", LBits 0x10); ("uid", LBits 0x10); ("reserved_at_20", LBits 0x10); ("op_mod", LBits 0x10);
    ("reserved_at_40", LBits 0x1c); ("cong_protocol", LBits 0x4);
    ("field_select", ctxs.field_select_802_1_r_roce_auto); ("reserved_at_80", LBits 0x80);
    ("congestion_parameters", ctxs.cong_control_roce_ecn_auto) ].

Definition manage_pages_out : layout :=
  LStruct [
    ("status", LBits 0x8); ("reserved_at_8", LBits 0x18); ("syndrome", LBits 0x20);
    ("output_num_entries", LBits 0x20); ("reserved_at_60", LBits 0x20); ("pas", LArr 0 (LBits 0x40)) ].

Definition manage_pages_in : layout :=
  LStruct [
    ("opcode", LBits 0x10); ("uid", LBits 0x10); ("reserved_at_20", LBits 0x10); ("op_mod", LBits 0x10);
    ("reserved_at_40", LBits 0x10); ("function_id", LBits 0x10); ("input_num_entries", LBits 0x20);
    ("pas", LArr 0 (LBits 0x40)) ].

Definition mad_ifc_out : layout :=
  LStruct [
    ("status", LBits 0x8); ("reserved_at_8", LBits 0x18); ("syndrome", LBits 0x20);
    ("reserved_at_40", LBits 0x40); ("response_mad_packet", LArr 256 (LBits 0x8)) ].

Definition mad_ifc_in : layout :=
  LStruct [
    ("opcode", LBits 0x10); ("uid", LBits 0x10); ("reserved_at_20", LBits 0x10); ("op_mod", LBits 0x10);
    ("remote_lid", LBits 0x10); ("reserved_at_50", LBits 0x8); ("port", LBits 0x8);
    ("reserved_at_60", LBits 0x20); ("mad", LArr 256 (LBits 0x8)) ].

Definition init_hca_out : layout :=
  LStruct [
    ("status", LBits 0x8); ("reserved_at_8", LBits 0x18); ("syndrome", LBits 0x20);
    ("reserved_at_40", LBits 0x40) ].

Definition init_hca_in : layout :=
  LStruct [
    ("opcode", LBits 0x10); ("uid", LBits 0x10); ("reserved_at_20", LBits 0x10); ("op_mod", LBits 0x10);
    ("reserved_at_40", LBits 0x20); ("cmd_on_behalf", LBits 0x1); ("reserved_at_41", LBits 0xf);
    ("function_id", LBits 0x10); ("sw_owner_id", LArr 4 (LBits 0x20)) ].

Definition init2rtr_qp_out : layout :=
  LStruct [
    ("status", LBits 0x8); ("reserved_at_8", LBits 0x18); ("syndrome", LBits 0x20);
    ("reserved_at_40", LBits 0x40) ].

Definition init2rtr_qp_in : layout :=
  LStruct [
    ("opcode", LBits 0x10); ("uid", LBits 0x10); ("reserved_at_20", LBits 0x10); ("op_mod", LBits 0x10);
    ("reserved_at_40", LBits 0x8); ("qpn", LBits 0x18); ("reserved_at_60", LBits 0x1);
    ("cmd_on_behalf", LBits 0x1); ("reserved_at_62", LBits 0xe); ("function_id", LBits 0x10);
    ("opt_param_mask", LBits 0x20); ("reserved_at_a0", LBits 0x20); ("qpc", ctxs.qpc);
    ("reserved_at_800", LBits 0x80) ].

Definition init2init_qp_out : layout :=
  LStruct [
    ("status", LBits 0x8); ("reserved_at_8", LBits 0x18); ("syndrome", LBits 0x20);
    ("reserved_at_40", LBits 0x40) ].

Definition init2init_qp_in : layout :=
  LStruct [
    ("opcode", LBits 0x10); ("uid", LBits 0x10); ("reserved_at_20", LBits 0x10); ("op_mod", LBits 0x10);
    ("reserved_at_40", LBits 0x8); ("qpn", LBits 0x18); ("reserved_at_60", LBits 0x1);
    ("cmd_on_behalf", LBits 0x1); ("reserved_at_62", LBits 0xe); ("function_id", LBits 0x10);
    ("opt_param_mask", LBits 0x20); ("reserved_at_a0", LBits 0x20); ("qpc", ctxs.qpc);
    ("reserved_at_800", LBits 0x80) ].

Definition get_dropped_packet_log_out : layout :=
  LStruct [
    ("status", LBits 0x8); ("reserved_at_8", LBits 0x18); ("syndrome", LBits 0x20);
    ("reserved_at_40", LBits 0x40); ("packet_headers_log", LArr 128 (LBits 0x8));
    ("packet_syndrome", LArr 64 (LBits 0x8)) ].

Definition get_dropped_packet_log_in : layout :=
  LStruct [
    ("opcode", LBits 0x10); ("uid", LBits 0x10); ("reserved_at_20", LBits 0x10); ("op_mod", LBits 0x10);
    ("reserved_at_40", LBits 0x40) ].

Definition gen_eqe_in : layout :=
  LStruct [
    ("opcode", LBits 0x10); ("uid", LBits 0x10); ("reserved_at_20", LBits 0x10); ("op_mod", LBits 0x10);
    ("reserved_at_40", LBits 0x18); ("eq_number", LBits 0x8); ("reserved_at_60", LBits 0x20);
    ("eqe", LArr 64 (LBits 0x8)) ].

Definition gen_eq_out : layout :=
  LStruct [
    ("status", LBits 0x8); ("reserved_at_8", LBits 0x18); ("syndrome", LBits 0x20);
    ("reserved_at_40", LBits 0x40) ].

Definition enable_hca_out : layout :=
  LStruct [
    ("status", LBits 0x8); ("reserved_at_8", LBits 0x18); ("syndrome", LBits 0x20);
    ("reserved_at_40", LBits 0x40) ].

Definition enable_hca_in : layout :=
  LStruct [
    ("opcode", LBits 0x10); ("uid", LBits 0x10); ("reserved_at_20", LBits 0x10); ("op_mod", LBits 0x10);
    ("reserved_at_40", LBits 0x1); ("cmd_on_behalf", LBits 0x1); ("reserved_at_42", LBits 0xe);
    ("function_id", LBits 0x10); ("reserved_at_60", LBits 0x20) ].

Definition drain_dct_out : layout :=
  LStruct [
    ("status", LBits 0x8); ("reserved_at_8", LBits 0x18); ("syndrome", LBits 0x20);
    ("reserved_at_40", LBits 0x40) ].

Definition drain_dct_in : layout :=
  LStruct [
    ("opcode", LBits 0x10); ("uid", LBits 0x10); ("reserved_at_20", LBits 0x10); ("op_mod", LBits 0x10);
    ("reserved_at_40", LBits 0x8); ("dctn", LBits 0x18); ("reserved_at_60", LBits 0x20) ].

Definition disable_hca_out : layout :=
  LStruct [
    ("status", LBits 0x8); ("reserved_at_8", LBits 0x18); ("syndrome", LBits 0x20);
    ("reserved_at_40", LBits 0x20) ].

Definition disable_hca_in : layout :=
  LStruct [
    ("opcode", LBits 0x10); ("uid", LBits 0x10); ("reserved_at_20", LBits 0x10); ("op_mod", LBits 0x10);
    ("reserved_at_40", LBits 0x1); ("cmd_on_behalf", LBits 0x1); ("reserved_at_42", LBits 0xe);
    ("function_id", LBits 0x10); ("reserved_at_60", LBits 0x20) ].

Definition detach_from_mcg_out : layout :=
  LStruct [
    ("status", LBits 0x8); ("reserved_at_8", LBits 0x18); ("syndrome", LBits 0x20);
    ("reserved_at_40", LBits 0x40) ].

Definition detach_from_mcg_in : layout :=
  LStruct [
    ("opcode", LBits 0x10); ("uid", LBits 0x10); ("reserved_at_20", LBits 0x10); ("op_mod", LBits 0x10);
    ("reserved_at_40", LBits 0x8); ("qpn", LBits 0x18); ("reserved_at_60", LBits 0x20);
    ("multicast_gid", LArr 16 (LBits 0x8)) ].

Definition destroy_xrq_out : layout :=
  LStruct [
    ("status", LBits 0x8); ("reserved_at_8", LBits 0x18); ("syndrome", LBits 0x20);
    ("reserved_at_40", LBits 0x40) ].

Definition destroy_xrq_in : layout :=
  LStruct [
    ("opcode", LBits 0x10); ("uid", LBits 0x10); ("reserved_at_20", LBits 0x10); ("op_mod", LBits 0x10);
    ("reserved_at_40", LBits 0x8); ("xrqn", LBits 0x18); ("reserved_at_60", LBits 0x20) ].

Definition destroy_xrc_srq_out : layout :=
  LStruct [
    ("status", LBits 0x8); ("reserved_at_8", LBits 0x18); ("syndrome", LBits 0x20);
    ("reserved_at_40", LBits 0x40) ].

Definition destroy_xrc_srq_in : layout :=
  LStruct [
    ("opcode", LBits 0x10); ("uid", LBits 0x10); ("reserved_at_20", LBits 0x10); ("op_mod", LBits 0x10);
    ("reserved_at_40", LBits 0x8); ("xrc_srqn", LBits 0x18); ("reserved_at_60", LBits 0x20) ].

Definition destroy_tis_out : layout :=
  LStruct [
    ("status", LBits 0x8); ("reserved_at_8", LBits 0x18); ("syndrome", LBits 0x20);
    ("reserved_at_40", LBits 0x40) ].

Definition destroy_tis_in : layout :=
  LStruct [
    ("opcode", LBits 0x10); ("uid", LBits 0x10); ("reserved_at_20", LBits 0x10); ("op_mod", LBits 0x10);
    ("reserved_at_40", LBits 0x8); ("tisn", LBits 0x18); ("reserved_at_60", LBits 0x20) ].

Definition destroy_tir_out : layout :=
  LStruct [
    ("status", LBits 0x8); ("reserved_at_8", LBits 0x18); ("syndrome", LBits 0x20);
    ("reserved_at_40", LBits 0x40) ].

Definition destroy_tir_in : layout :=
  LStruct [
    ("opcode", LBits 0x10); ("uid", LBits 0x10); ("reserved_at_20", LBits 0x10); ("op_mod", LBits 0x10);
    ("reserved_at_40", LBits 0x8); ("tirn", LBits 0x18); ("reserved_at_60", LBits 0x20) ].

Definition destroy_srq_out : layout :=
  LStruct [
    ("status", LBits 0x8); ("reserved_at_8", LBits 0x18); ("syndrome", LBits 0x20);
    ("reserved_at_40", LBits 0x40) ].

Definition destroy_srq_in : layout :=
  LStruct [
    ("opcode", LBits 0x10); ("uid", LBits 0x10); ("reserved_at_20", LBits 0x10); ("op_mod", LBits 0x10);
    ("reserved_at_40", LBits 0x8); ("srqn", LBits 0x18); ("reserved_at_60", LBits 0x20) ].

Definition destroy_sq_out : layout :=
  LStruct [
    ("status", LBits 0x8); ("reserved_at_8", LBits 0x18); ("syndrome", LBits 0x20);
    ("reserved_at_40", LBits 0x40) ].

Definition destroy_sq_in : layout :=
  LStruct [
    ("opcode", LBits 0x10); ("uid", LBits 0x10); ("reserved_at_20", LBits 0x10); ("op_mod", LBits 0x10);
    ("reserved_at_40", LBits 0x8); ("sqn", LBits 0x18); ("reserved_at_60", LBits 0x20) ].

Definition destroy_scheduling_element_out : layout :=
  LStruct [
    ("status", LBits 0x8); ("reserved_at_8", LBits 0x18); ("syndrome", LBits 0x20);
    ("reserved_at_40", LBits 0x1c0) ].

Definition destroy_scheduling_element_in : layout :=
  LStruct [
    ("opcode", LBits 0x10); ("uid", LBits 0x10); ("reserved_at_20", LBits 0x10); ("op_mod", LBits 0x10);
    ("scheduling_hierarchy", LBits 0x8); ("reserved_at_48", LBits 0x18);
    ("scheduling_element_id", LBits 0x20); ("reserved_at_80", LBits 0x180) ].

Definition destroy_rqt_out : layout :=
  LStruct [
    ("status", LBits 0x8); ("reserved_at_8", LBits 0x18); ("syndrome", LBits 0x20);
    ("reserved_at_40", LBits 0x40) ].

Definition destroy_rqt_in : layout :=
  LStruct [
    ("opcode", LBits 0x10); ("uid", LBits 0x10); ("reserved_at_20", LBits 0x10); ("op_mod", LBits 0x10);
    ("reserved_at_40", LBits 0x8); ("rqtn", LBits 0x18); ("reserved_at_60", LBits 0x20) ].

Definition destroy_rq_out : layout :=
  LStruct [
    ("status", LBits 0x8); ("reserved_at_8", LBits 0x18); ("syndrome", LBits 0x20);
    ("reserved_at_40", LBits 0x40) ].

Definition destroy_rq_in : layout :=
  LStruct [
    ("opcode", LBits 0x10); ("uid", LBits 0x10); ("reserved_at_20", LBits 0x10); ("op_mod", LBits 0x10);
    ("reserved_at_40", LBits 0x8); ("rqn", LBits 0x18); ("reserved_at_60", LBits 0x20) ].

Definition set_delay_drop_params_in : layout :=
  LStruct [
    ("opcode", LBits 0x10); ("uid", LBits 0x10); ("reserved_at_20", LBits 0x10); ("op_mod", LBits 0x10);
    ("reserved_at_40", LBits 0x20); ("reserved_at_60", LBits 0x10); ("delay_drop_timeout", LBits 0x10) ].

Definition set_delay_drop_params_out : layout :=
  LStruct [
    ("status", LBits 0x8); ("reserved_at_8", LBits 0x18); ("syndrome", LBits 0x20);
    ("reserved_at_40", LBits 0x40) ].

Definition destroy_rmp_out : layout :=
  LStruct [
    ("status", LBits 0x8); ("reserved_at_8", LBits 0x18); ("syndrome", LBits 0x20);
    ("reserved_at_40", LBits 0x40) ].

Definition destroy_rmp_in : layout :=
  LStruct [
    ("opcode", LBits 0x10); ("uid", LBits 0x10); ("reserved_at_20", LBits 0x10); ("op_mod", LBits 0x10);
    ("reserved_at_40", LBits 0x8); ("rmpn", LBits 0x18); ("reserved_at_60", LBits 0x20) ].

Definition destroy_qp_out : layout :=
  LStruct [
    ("status", LBits 0x8); ("reserved_at_8", LBits 0x18); ("syndrome", LBits 0x20);
    ("reserved_at_40", LBits 0x40) ].

Definition destroy_qp_in : layout :=
  LStruct [
    ("opcode", LBits 0x10); ("uid", LBits 0x10); ("reserved_at_20", LBits 0x10); ("op_mod", LBits 0x10);
    ("reserved_at_40", LBits 0x8); ("qpn", LBits 0x18); ("reserved_at_60", LBits 0x1);
    ("cmd_on_behalf", LBits 0x1); ("reserved_at_62", LBits 0xe); ("function_id", LBits 0x10) ].

Definition destroy_psv_out : layout :=
  LStruct [
    ("status", LBits 0x8); ("reserved_at_8", LBits 0x18); ("syndrome", LBits 0x20);
    ("reserved_at_40", LBits 0x40) ].

Definition destroy_psv_in : layout :=
  LStruct [
    ("opcode", LBits 0x10); ("uid", LBits 0x10); ("function_id", LBits 0x10); ("op_mod", LBits 0x10);
    ("reserved_at_40", LBits 0x7); ("cmd_on_behalf", LBits 0x1); ("psvn", LBits 0x18);
    ("reserved_at_60", LBits 0x20) ].

Definition destroy_mkey_out : layout :=
  LStruct [
    ("status", LBits 0x8); ("reserved_at_8", LBits 0x18); ("syndrome", LBits 0x20);
    ("reserved_at_40", LBits 0x40) ].

Definition destroy_mkey_in : layout :=
  LStruct [
    ("opcode", LBits 0x10); ("uid", LBits 0x10); ("reserved_at_20", LBits 0x10); ("op_mod", LBits 0x10);
    ("reserved_at_40", LBits 0x8); ("mkey_index", LBits 0x18); ("reserved_at_60", LBits 0x2);
    ("cmd_on_behalf", LBits 0x1); ("reserved_at_63", LBits 0xd); ("function_id", LBits 0x10) ].

Definition destroy_flow_table_out : layout :=
  LStruct [
    ("status", LBits 0x8); ("reserved_at_8", LBits 0x18); ("syndrome", LBits 0x20);
    ("reserved_at_40", LBits 0x40) ].

Definition destroy_flow_table_in : layout :=
  LStruct [
    ("opcode", LBits 0x10); ("uid", LBits 0x10); ("reserved_at_20", LBits 0x10); ("op_mod", LBits 0x10);
    ("other_vport", LBits 0x1); ("reserved_at_41", LBits 0xf); ("vport_number", LBits 0x10);
    ("reserved_at_60", LBits 0x20); ("table_type", LBits 0x8); ("reserved_at_88", LBits 0x18);
    ("reserved_at_a0", LBits 0x8); ("table_id", LBits 0x18); ("reserved_at_c0", LBits 0x140) ].

Definition destroy_flow_group_out : layout :=
  LStruct [
    ("status", LBits 0x8); ("reserved_at_8", LBits 0x18); ("syndrome", LBits 0x20);
    ("reserved_at_40", LBits 0x40) ].

Definition destroy_flow_group_in : layout :=
  LStruct [
    ("opcode", LBits 0x10); ("uid", LBits 0x10); ("reserved_at_20", LBits 0x10); ("op_mod", LBits 0x10);
    ("other_vport", LBits 0x1); ("reserved_at_41", LBits 0xf); ("vport_number", LBits 0x10);
    ("reserved_at_60", LBits 0x20); ("table_type", LBits 0x8); ("reserved_at_88", LBits 0x18);
    ("reserved_at_a0", LBits 0x8); ("table_id", LBits 0x18); ("group_id", LBits 0x20);
    ("reserved_at_e0", LBits 0x120) ].

Definition destroy_eq_out : layout :=
  LStruct [
    ("status", LBits 0x8); ("reserved_at_8", LBits 0x18); ("syndrome", LBits 0x20);
    ("reserved_at_40", LBits 0x40) ].

Definition destroy_eq_in : layout :=
  LStruct [
    ("opcode", LBits 0x10); ("uid", LBits 0x10); ("reserved_at_20", LBits 0x10); ("op_mod", LBits 0x10);
    ("reserved_at_40", LBits 0x18); ("eq_number", LBits 0x8); ("reserved_at_60", LBits 0x20) ].

Definition destroy_dct_out : layout :=
  LStruct [
    ("status", LBits 0x8); ("reserved_at_8", LBits 0x18); ("syndrome", LBits 0x20);
    ("reserved_at_40", LBits 0x40) ].

Definition destroy_dct_in : layout :=
  LStruct [
    ("opcode", LBits 0x10); ("uid", LBits 0x10); ("reserved_at_20", LBits 0x10); ("op_mod", LBits 0x10);
    ("reserved_at_40", LBits 0x8); ("dctn", LBits 0x18); ("reserved_at_60", LBits 0x20) ].

Definition destroy_cq_out : layout :=
  LStruct [
    ("status", LBits 0x8); ("reserved_at_8", LBits 0x18); ("syndrome", LBits 0x20);
    ("reserved_at_40", LBits 0x40) ].

Definition destroy_cq_in : layout :=
  LStruct [
    ("opcode", LBits 0x10); ("uid", LBits 0x10); ("reserved_at_20", LBits 0x10); ("op_mod", LBits 0x10);
    ("reserved_at_40", LBits 0x8); ("cqn", LBits 0x18); ("reserved_at_60", LBits 0x20) ].

Definition delete_vxlan_udp_dport_out : layout :=
  LStruct [
    ("status", LBits 0x8); ("reserved_at_8", LBits 0x18); ("syndrome", LBits 0x20);
    ("reserved_at_40", LBits 0x40) ].

Definition delete_vxlan_udp_dport_in : layout :=
  LStruct [
    ("opcode", LBits 0x10); ("uid", LBits 0x10); ("reserved_at_20", LBits 0x10); ("op_mod", LBits 0x10);
    ("reserved_at_40", LBits 0x20); ("reserved_at_60", LBits 0x10); ("vxlan_udp_port", LBits 0x10) ].

Definition delete_l2_table_entry_out : layout :=
  LStruct [
    ("status", LBits 0x8); ("reserved_at_8", LBits 0x18); ("syndrome", LBits 0x20);
    ("reserved_at_40", LBits 0x40) ].

Definition delete_l2_table_entry_in : layout :=
  LStruct [
    ("opcode", LBits 0x10); ("uid", LBits 0x10); ("reserved_at_20", LBits 0x10); ("op_mod", LBits 0x10);
    ("reserved_at_40", LBits 0x60); ("reserved_at_a0", LBits 0x8); ("table_index", LBits 0x18);
    ("reserved_at_c0", LBits 0x140) ].

Definition delete_fte_out : layout :=
  LStruct [
    ("status", LBits 0x8); ("reserved_at_8", LBits 0x18); ("syndrome", LBits 0x20);
    ("reserved_at_40", LBits 0x40) ].

Definition delete_fte_in : layout :=
  LStruct [
    ("opcode", LBits 0x10); ("uid", LBits 0x10); ("reserved_at_20", LBits 0x10); ("op_mod", LBits 0x10);
    ("other_vport", LBits 0x1); ("reserved_at_41", LBits 0xf); ("vport_number", LBits 0x10);
    ("reserved_at_60", LBits 0x20); ("table_type", LBits 0x8); ("reserved_at_88", LBits 0x18);
    ("reserved_at_a0", LBits 0x8); ("table_id", LBits 0x18); ("reserved_at_c0", LBits 0x40);
    ("flow_index", LBits 0x20); ("reserved_at_120", LBits 0xe0) ].

Definition dealloc_xrcd_out : layout :=
  LStruct [
    ("status", LBits 0x8); ("reserved_at_8", LBits 0x18); ("syndrome", LBits 0x20);
    ("reserved_at_40", LBits 0x40) ].

Definition dealloc_xrcd_in : layout :=
  LStruct [
    ("opcode", LBits 0x10); ("uid", LBits 0x10); ("reserved_at_20", LBits 0x10); ("op_mod", LBits 0x10);
    ("reserved_at_40", LBits 0x8); ("xrcd", LBits 0x18); ("reserved_at_60", LBits 0x20) ].

Definition dealloc_uar_out : layout :=
  LStruct [
    ("status", LBits 0x8); ("reserved_at_8", LBits 0x18); ("syndrome", LBits 0x20);
    ("reserved_at_40", LBits 0x40) ].

Definition dealloc_uar_in : layout :=
  LStruct [
    ("opcode", LBits 0x10); ("uid", LBits 0x10); ("reserved_at_20", LBits 0x10); ("op_mod", LBits 0x10);
    ("reserved_at_40", LBits 0x8); ("uar", LBits 0x18); ("reserved_at_60", LBits 0x20) ].

Definition dealloc_transport_domain_out : layout :=
  LStruct [
    ("status", LBits 0x8); ("reserved_at_8", LBits 0x18); ("syndrome", LBits 0x20);
    ("reserved_at_40", LBits 0x40) ].

Definition dealloc_transport_domain_in : layout :=
  LStruct [
    ("opcode", LBits 0x10); ("uid", LBits 0x10); ("reserved_at_20", LBits 0x10); ("op_mod", LBits 0x10);
    ("reserved_at_40", LBits 0x8); ("transport_domain", LBits 0x18); ("reserved_at_60", LBits 0x20) ].

Definition dealloc_q_counter_out : layout :=
  LStruct [
    ("status", LBits 0x8); ("reserved_at_8", LBits 0x18); ("syndrome", LBits 0x20);
    ("reserved_at_40", LBits 0x40) ].

Definition dealloc_q_counter_in : layout :=
  LStruct [
    ("opcode", LBits 0x10); ("uid", LBits 0x10); ("reserved_at_20", LBits 0x10); ("op_mod", LBits 0x10);
    ("reserved_at_40", LBits 0x18); ("counter_set_id", LBits 0x8); ("reserved_at_60", LBits 0x20) ].

Definition dealloc_pd_out : layout :=
  LStruct [
    ("status", LBits 0x8); ("reserved_at_8", LBits 0x18); ("syndrome", LBits 0x20);
    ("reserved_at_40", LBits 0x40) ].

Definition dealloc_pd_in : layout :=
  LStruct [
    ("opcode", LBits 0x10); ("uid", LBits 0x10); ("reserved_at_20", LBits 0x10); ("op_mod", LBits 0x10);
    ("reserved_at_40", LBits 0x8); ("pd", LBits 0x18); ("reserved_at_60", LBits 0x20) ].

Definition dealloc_flow_counter_out : layout :=
  LStruct [
    ("status", LBits 0x8); ("reserved_at_8", LBits 0x18); ("syndrome", LBits 0x20);
    ("reserved_at_40", LBits 0x40) ].

Definition dealloc_flow_counter_in : layout :=
  LStruct [
    ("opcode", LBits 0x10); ("uid", LBits 0x10); ("reserved_at_20", LBits 0x10); ("op_mod", LBits 0x10);
    ("flow_counter_id", LBits 0x20); ("reserved_at_60", LBits 0x20) ].

Definition create_xrq_out : layout :=
  LStruct [
    ("status", LBits 0x8); ("reserved_at_8", LBits 0x18); ("syndrome", LBits 0x20);
    ("reserved_at_40", LBits 0x8); ("xrqn", LBits 0x18); ("reserved_at_60", LBits 0x20) ].

Definition create_xrq_in : layout :=
  LStruct [
    ("opcode", LBits 0x10); ("uid", LBits 0x10); ("reserved_at_20", LBits 0x10); ("op_mod", LBits 0x10);
    ("reserved_at_40", LBits 0x40); ("xrq_context", ctxs.xrqc) ].

Definition create_xrc_srq_out : layout :=
  LStruct [
    ("status", LBits 0x8); ("reserved_at_8", LBits 0x18); ("syndrome", LBits 0x20);
    ("reserved_at_40", LBits 0x8); ("xrc_srqn", LBits 0x18); ("reserved_at_60", LBits 0x20) ].

Definition create_xrc_srq_in : layout :=
  LStruct [
    ("opcode", LBits 0x10); ("uid", LBits 0x10); ("reserved_at_20", LBits 0x10); ("op_mod", LBits 0x10);
    ("reserved_at_40", LBits 0x40); ("xrc_srq_context_entry", ctxs.xrc_srqc);
    ("reserved_at_280", LBits 0x600); ("pas", LArr 0 (LBits 0x40)) ].

Definition create_srq_out : layout :=
  LStruct [
    ("status", LBits 0x8); ("reserved_at_8", LBits 0x18); ("syndrome", LBits 0x20);
    ("reserved_at_40", LBits 0x8); ("srqn", LBits 0x18); ("reserved_at_60", LBits 0x20) ].

Definition create_srq_in : layout :=
  LStruct [
    ("opcode", LBits 0x10); ("uid", LBits 0x10); ("reserved_at_20", LBits 0x10); ("op_mod", LBits 0x10);
    ("reserved_at_40", LBits 0x40); ("srq_context_entry", ctxs.srqc); ("reserved_at_280", LBits 0x600);
    ("pas", LArr 0 (LBits 0x40)) ].

Definition create_scheduling_element_out : layout :=
  LStruct [
    ("status", LBits 0x8); ("reserved_at_8", LBits 0x18); ("syndrome", LBits 0x20);
    ("reserved_at_40", LBits 0x40); ("scheduling_element_id", LBits 0x20); ("reserved_at_a0", LBits 0x160) ].

Definition create_scheduling_element_in : layout :=
  LStruct [
    ("opcode", LBits 0x10); ("uid", LBits 0x10); ("reserved_at_20", LBits 0x10); ("op_mod", LBits 0x10);
    ("scheduling_hierarchy", LBits 0x8); ("reserved_at_48", LBits 0x18); ("reserved_at_60", LBits 0xa0);
    ("scheduling_context", ctxs.scheduling_context); ("reserved_at_300", LBits 0x100) ].

Definition create_rqt_out : layout :=
  LStruct [
    ("status", LBits 0x8); ("reserved_at_8", LBits 0x18); ("syndrome", LBits 0x20);
    ("reserved_at_40", LBits 0x8); ("rqtn", LBits 0x18); ("reserved_at_60", LBits 0x20) ].

Definition create_rqt_in : layout :=
  LStruct [
    ("opcode", LBits 0x10); ("uid", LBits 0x10); ("reserved_at_20", LBits 0x10); ("op_mod", LBits 0x10);
    ("reserved_at_40", LBits 0xc0); ("rqt_context", ctxs.rqtc) ].

Definition create_rmp_out : layout :=
  LStruct [
    ("status", LBits 0x8); ("reserved_at_8", LBits 0x18); ("syndrome", LBits 0x20);
    ("reserved_at_40", LBits 0x8); ("rmpn", LBits 0x18); ("reserved_at_60", LBits 0x20) ].

Definition create_rmp_in : layout :=
  LStruct [
    ("opcode", LBits 0x10); ("uid", LBits 0x10); ("reserved_at_20", LBits 0x10); ("op_mod", LBits 0x10);
    ("reserved_at_40", LBits 0xc0); ("ctx", ctxs.rmpc) ].

Definition create_qp_out : layout :=
  LStruct [
    ("status", LBits 0x8); ("reserved_at_8", LBits 0x18); ("syndrome", LBits 0x20);
    ("reserved_at_40", LBits 0x8); ("qpn", LBits 0x18); ("reserved_at_60", LBits 0x20) ].

Definition create_qp_in : layout :=
  LStruct [
    ("opcode", LBits 0x10); ("uid", LBits 0x10); ("reserved_at_20", LBits 0x10); ("op_mod", LBits 0x10);
    ("reserved_at_40", LBits 0x20); ("reserved_at_60", LBits 0x1); ("cmd_on_behalf", LBits 0x1);
    ("reserved_at_62", LBits 0xe); ("function_id", LBits 0x10); ("opt_param_mask", LBits 0x20);
    ("reserved_at_a0", LBits 0x20); ("qpc", ctxs.qpc); ("wq_umem_offset", LBits 0x40);
    ("wq_umem_id", LBits 0x20); ("reserved_at_860", LBits 0x20); ("pas", LArr 0 (LBits 0x40)) ].

Definition create_psv_out : layout :=
  LStruct [
    ("status", LBits 0x8); ("reserved_at_8", LBits 0x18); ("syndrome", LBits 0x20);
    ("reserved_at_40", LBits 0x40); ("reserved_at_80", LBits 0x8); ("psv0_index", LBits 0x18);
    ("reserved_at_a0", LBits 0x8); ("psv1_index", LBits 0x18); ("reserved_at_c0", LBits 0x8);
    ("psv2_index", LBits 0x18); ("reserved_at_e0", LBits 0x8); ("psv3_index", LBits 0x18) ].

Definition create_psv_in : layout :=
  LStruct [
    ("opcode", LBits 0x10); ("uid", LBits 0x10); ("function_id", LBits 0x10); ("op_mod", LBits 0x10);
    ("num_psv", LBits 0x4); ("reserved_at_44", LBits 0x3); ("cmd_on_behalf", LBits 0x1); ("pd", LBits 0x18);
    ("reserved_at_60", LBits 0x20) ].

Definition create_eq_out : layout :=
  LStruct [
    ("status", LBits 0x8); ("reserved_at_8", LBits 0x18); ("syndrome", LBits 0x20);
    ("reserved_at_40", LBits 0x18); ("eq_number", LBits 0x8); ("reserved_at_60", LBits 0x20) ].

Definition create_eq_in : layout :=
  LStruct [
    ("opcode", LBits 0x10); ("uid", LBits 0x10); ("reserved_at_20", LBits 0x10); ("op_mod", LBits 0x10);
    ("reserved_at_40", LBits 0x40); ("eq_context_entry", ctxs.eqc); ("reserved_at_280", LBits 0x40);
    ("event_bitmask", LBits 0x40); ("reserved_at_300", LBits 0x580); ("pas", LArr 0 (LBits 0x40)) ].

Definition create_dct_out : layout :=
  LStruct [
    ("status", LBits 0x8); ("reserved_at_8", LBits 0x18); ("syndrome", LBits 0x20);
    ("reserved_at_40", LBits 0x8); ("dctn", LBits 0x18); ("reserved_at_60", LBits 0x20) ].

Definition create_dct_in : layout :=
  LStruct [
    ("opcode", LBits 0x10); ("uid", LBits 0x10); ("reserved_at_20", LBits 0x10); ("op_mod", LBits 0x10);
    ("reserved_at_40", LBits 0x40); ("dct_context_entry", ctxs.dctc); ("reserved_at_280", LBits 0x180) ].

Definition config_int_moderation_out : layout :=
  LStruct [
    ("status", LBits 0x8); ("reserved_at_8", LBits 0x18); ("syndrome", LBits 0x20);
    ("reserved_at_40", LBits 0x4); ("min_delay", LBits 0xc); ("int_vector", LBits 0x10);
    ("reserved_at_60", LBits 0x20) ].

Definition config_int_moderation_in : layout :=
  LStruct [
    ("opcode", LBits 0x10); ("uid", LBits 0x10); ("reserved_at_20", LBits 0x10); ("op_mod", LBits 0x10);
    ("reserved_at_40", LBits 0x4); ("min_delay", LBits 0xc); ("int_vector", LBits 0x10);
    ("reserved_at_60", LBits 0x20) ].

Definition attach_to_mcg_out : layout :=
  LStruct [
    ("status", LBits 0x8); ("reserved_at_8", LBits 0x18); ("syndrome", LBits 0x20);
    ("reserved_at_40", LBits 0x40) ].

Definition attach_to_mcg_in : layout :=
  LStruct [
    ("opcode", LBits 0x10); ("uid", LBits 0x10); ("reserved_at_20", LBits 0x10); ("op_mod", LBits 0x10);
    ("reserved_at_40", LBits 0x8); ("qpn", LBits 0x18); ("reserved_at_60", LBits 0x20);
    ("multicast_gid", LArr 16 (LBits 0x8)) ].

Definition arm_xrq_out : layout :=
  LStruct [
    ("status", LBits 0x8); ("reserved_at_8", LBits 0x18); ("syndrome", LBits 0x20);
    ("reserved_at_40", LBits 0x40) ].

Definition arm_xrq_in : layout :=
  LStruct [
    ("opcode", LBits 0x10); ("uid", LBits 0x10); ("reserved_at_20", LBits 0x10); ("op_mod", LBits 0x10);
    ("reserved_at_40", LBits 0x8); ("xrqn", LBits 0x18); ("reserved_at_60", LBits 0x10); ("lwm", LBits 0x10) ].

Definition arm_xrc_srq_out : layout :=
  LStruct [
    ("status", LBits 0x8); ("reserved_at_8", LBits 0x18); ("syndrome", LBits 0x20);
    ("reserved_at_40", LBits 0x40) ].

Definition arm_xrc_srq_in : layout :=
  LStruct [
    ("opcode", LBits 0x10); ("uid", LBits 0x10); ("reserved_at_20", LBits 0x10); ("op_mod", LBits 0x10);
    ("reserved_at_40", LBits 0x8); ("xrc_srqn", LBits 0x18); ("reserved_at_60", LBits 0x10);
    ("lwm", LBits 0x10) ].

Definition arm_rq_out : layout :=
  LStruct [
    ("status", LBits 0x8); ("reserved_at_8", LBits 0x18); ("syndrome", LBits 0x20);
    ("reserved_at_40", LBits 0x40) ].

Definition arm_rq_in : layout :=
  LStruct [
    ("opcode", LBits 0x10); ("uid", LBits 0x10); ("reserved_at_20", LBits 0x10); ("op_mod", LBits 0x10);
    ("reserved_at_40", LBits 0x8); ("srq_number", LBits 0x18); ("reserved_at_60", LBits 0x10);
    ("lwm", LBits 0x10) ].

Definition arm_dct_out : layout :=
  LStruct [
    ("status", LBits 0x8); ("reserved_at_8", LBits 0x18); ("syndrome", LBits 0x20);
    ("reserved_at_40", LBits 0x40) ].

Definition arm_dct_in : layout :=
  LStruct [
    ("opcode", LBits 0x10); ("uid", LBits 0x10); ("reserved_at_20", LBits 0x10); ("op_mod", LBits 0x10);
    ("reserved_at_40", LBits 0x8); ("dct_number", LBits 0x18); ("reserved_at_60", LBits 0x20) ].

Definition alloc_xrcd_out : layout :=
  LStruct [
    ("status", LBits 0x8); ("reserved_at_8", LBits 0x18); ("syndrome", LBits 0x20);
    ("reserved_at_40", LBits 0x8); ("xrcd", LBits 0x18); ("reserved_at_60", LBits 0x20) ].

Definition alloc_xrcd_in : layout :=
  LStruct [
    ("opcode", LBits 0x10); ("uid", LBits 0x10); ("reserved_at_20", LBits 0x10); ("op_mod", LBits 0x10);
    ("reserved_at_40", LBits 0x40) ].

Definition alloc_uar_out : layout :=
  LStruct [
    ("status", LBits 0x8); ("reserved_at_8", LBits 0x18); ("syndrome", LBits 0x20);
    ("reserved_at_40", LBits 0x8); ("uar", LBits 0x18); ("reserved_at_60", LBits 0x20) ].

Definition alloc_uar_in : layout :=
  LStruct [
    ("opcode", LBits 0x10); ("uid", LBits 0x10); ("reserved_at_20", LBits 0x10); ("op_mod", LBits 0x10);
    ("reserved_at_40", LBits 0x40) ].

Definition alloc_q_counter_out : layout :=
  LStruct [
    ("status", LBits 0x8); ("reserved_at_8", LBits 0x18); ("syndrome", LBits 0x20);
    ("reserved_at_40", LBits 0x18); ("counter_set_id", LBits 0x8); ("reserved_at_60", LBits 0x20) ].

Definition alloc_q_counter_in : layout :=
  LStruct [
    ("opcode", LBits 0x10); ("uid", LBits 0x10); ("reserved_at_20", LBits 0x10); ("op_mod", LBits 0x10);
    ("reserved_at_40", LBits 0x40) ].

Definition alloc_flow_counter_out : layout :=
  LStruct [
    ("status", LBits 0x8); ("reserved_at_8", LBits 0x18); ("syndrome", LBits 0x20);
    ("flow_counter_id", LBits 0x20); ("reserved_at_60", LBits 0x20) ].

Definition alloc_flow_counter_in : layout :=
  LStruct [
    ("opcode", LBits 0x10); ("uid", LBits 0x10); ("reserved_at_20", LBits 0x10); ("op_mod", LBits 0x10);
    ("reserved_at_40", LBits 0x40) ].

Definition add_vxlan_udp_dport_out : layout :=
  LStruct [
    ("status", LBits 0x8); ("reserved_at_8", LBits 0x18); ("syndrome", LBits 0x20);
    ("reserved_at_40", LBits 0x40) ].

Definition add_vxlan_udp_dport_in : layout :=
  LStruct [
    ("opcode", LBits 0x10); ("uid", LBits 0x10); ("reserved_at_20", LBits 0x10); ("op_mod", LBits 0x10);
    ("reserved_at_40", LBits 0x20); ("reserved_at_60", LBits 0x10); ("vxlan_udp_port", LBits 0x10) ].

Definition set_pp_rate_limit_out : layout :=
  LStruct [
    ("status", LBits 0x8); ("reserved_at_8", LBits 0x18); ("syndrome", LBits 0x20);
    ("reserved_at_40", LBits 0x40) ].

Definition set_pp_rate_limit_in : layout :=
  LStruct [
    ("opcode", LBits 0x10); ("uid", LBits 0x10); ("reserved_at_20", LBits 0x10); ("op_mod", LBits 0x10);
    ("reserved_at_40", LBits 0x10); ("rate_limit_index", LBits 0x10); ("reserved_at_60", LBits 0x20);
    ("ctx", ifc.set_pp_rate_limit_context) ].

Definition access_register_out : layout :=
  LStruct [
    ("status", LBits 0x8); ("reserved_at_8", LBits 0x18); ("syndrome", LBits 0x20);
    ("reserved_at_40", LBits 0x40); ("register_data", LArr 0 (LBits 0x20)) ].

Definition access_register_in : layout :=
  LStruct [
    ("opcode", LBits 0x10); ("uid", LBits 0x10); ("reserved_at_20", LBits 0x10); ("op_mod", LBits 0x10);
    ("reserved_at_40", LBits 0x10); ("register_id", LBits 0x10); ("argument", LBits 0x20);
    ("register_data", LArr 0 (LBits 0x20)) ].

Definition set_node_in : layout :=
  LStruct [
    ("node_description", LArr 64 (LBits 0x8)) ].

Definition cmd_out : layout :=
  LStruct [
    ("status", LBits 0x8); ("reserved_at_8", LBits 0x18); ("syndrome", LBits 0x20);
    ("command_output", LBits 0x20) ].

Definition cmd_in : layout :=
  LStruct [
    ("opcode", LBits 0x10); ("uid", LBits 0x10); ("reserved_at_20", LBits 0x10); ("op_mod", LBits 0x10);
    ("command", LArr 0 (LBits 0x20)) ].

Definition query_wol_rol_out : layout :=
  LStruct [
    ("status", LBits 0x8); ("reserved_at_8", LBits 0x18); ("syndrome", LBits 0x20);
    ("reserved_at_40", LBits 0x10); ("rol_mode", LBits 0x8); ("wol_mode", LBits 0x8);
    ("reserved_at_60", LBits 0x20) ].

Definition query_wol_rol_in : layout :=
  LStruct [
    ("opcode", LBits 0x10); ("uid", LBits 0x10); ("reserved_at_20", LBits 0x10); ("op_mod", LBits 0x10);
    ("reserved_at_40", LBits 0x40) ].

Definition set_wol_rol_out : layout :=
  LStruct [
    ("status", LBits 0x8); ("reserved_at_8", LBits 0x18); ("syndrome", LBits 0x20);
    ("reserved_at_40", LBits 0x40) ].

Definition set_wol_rol_in : layout :=
  LStruct [
    ("opcode", LBits 0x10); ("uid", LBits 0x10); ("reserved_at_20", LBits 0x10); ("op_mod", LBits 0x10);
    ("rol_mode_valid", LBits 0x1); ("wol_mode_valid", LBits 0x1); ("reserved_at_42", LBits 0xe);
    ("rol_mode", LBits 0x8); ("wol_mode", LBits 0x8); ("reserved_at_60", LBits 0x20) ].

Definition set_flow_table_root_out : layout :=
  LStruct [
    ("status", LBits 0x8); ("reserved_at_8", LBits 0x18); ("syndrome", LBits 0x20);
    ("reserved_at_40", LBits 0x40) ].

Definition set_flow_table_root_in : layout :=
  LStruct [
    ("opcode", LBits 0x10); ("uid", LBits 0x10); ("reserved_at_20", LBits 0x10); ("op_mod", LBits 0x10);
    ("other_vport", LBits 0x1); ("reserved_at_41", LBits 0xf); ("vport_number", LBits 0x10);
    ("reserved_at_60", LBits 0x20); ("table_type", LBits 0x8); ("reserved_at_88", LBits 0x18);
    ("reserved_at_a0", LBits 0x8); ("table_id", LBits 0x18); ("reserved_at_c0", LBits 0x8);
    ("underlay_qpn", LBits 0x18); ("reserved_at_e0", LBits 0x120) ].

Definition modify_flow_table_out : layout :=
  LStruct [
    ("status", LBits 0x8); ("reserved_at_8", LBits 0x18); ("syndrome", LBits 0x20);
    ("reserved_at_40", LBits 0x40) ].

Definition modify_flow_table_in : layout :=
  LStruct [
    ("opcode", LBits 0x10); ("uid", LBits 0x10); ("reserved_at_20", LBits 0x10); ("op_mod", LBits 0x10);
    ("other_vport", LBits 0x1); ("reserved_at_41", LBits 0xf); ("vport_number", LBits 0x10);
    ("reserved_at_60", LBits 0x10); ("modify_field_select", LBits 0x10); ("table_type", LBits 0x8);
    ("reserved_at_88", LBits 0x18); ("reserved_at_a0", LBits 0x8); ("table_id", LBits 0x18);
    ("flow_table_context", ifc.flow_table_context) ].

Definition create_lag_out : layout :=
  LStruct [
    ("status", LBits 0x8); ("reserved_at_8", LBits 0x18); ("syndrome", LBits 0x20);
    ("reserved_at_40", LBits 0x40) ].

Definition create_lag_in : layout :=
  LStruct [
    ("opcode", LBits 0x10); ("uid", LBits 0x10); ("reserved_at_20", LBits 0x10); ("op_mod", LBits 0x10);
    ("ctx", regs.lagc) ].

Definition modify_lag_out : layout :=
  LStruct [
    ("status", LBits 0x8); ("reserved_at_8", LBits 0x18); ("syndrome", LBits 0x20);
    ("reserved_at_40", LBits 0x40) ].

Definition modify_lag_in : layout :=
  LStruct [
    ("opcode", LBits 0x10); ("uid", LBits 0x10); ("reserved_at_20", LBits 0x10); ("op_mod", LBits 0x10);
    ("reserved_at_40", LBits 0x20); ("field_select", LBits 0x20); ("ctx", regs.lagc) ].

Definition query_lag_out : layout :=
  LStruct [
    ("status", LBits 0x8); ("reserved_at_8", LBits 0x18); ("syndrome", LBits 0x20);
    ("reserved_at_40", LBits 0x40); ("ctx", regs.lagc) ].

Definition query_lag_in : layout :=
  LStruct [
    ("opcode", LBits 0x10); ("uid", LBits 0x10); ("reserved_at_20", LBits 0x10); ("op_mod", LBits 0x10);
    ("reserved_at_40", LBits 0x40) ].

Definition destroy_lag_out : layout :=
  LStruct [
    ("status", LBits 0x8); ("reserved_at_8", LBits 0x18); ("syndrome", LBits 0x20);
    ("reserved_at_40", LBits 0x40) ].

Definition destroy_lag_in : layout :=
  LStruct [
    ("opcode", LBits 0x10); ("uid", LBits 0x10); ("reserved_at_20", LBits 0x10); ("op_mod", LBits 0x10);
    ("reserved_at_40", LBits 0x40) ].

Definition create_vport_lag_out : layout :=
  LStruct [
    ("status", LBits 0x8); ("reserved_at_8", LBits 0x18); ("syndrome", LBits 0x20);
    ("reserved_at_40", LBits 0x40) ].

Definition create_vport_lag_in : layout :=
  LStruct [
    ("opcode", LBits 0x10); ("uid", LBits 0x10); ("reserved_at_20", LBits 0x10); ("op_mod", LBits 0x10);
    ("reserved_at_40", LBits 0x40) ].

Definition destroy_vport_lag_out : layout :=
  LStruct [
    ("status", LBits 0x8); ("reserved_at_8", LBits 0x18); ("syndrome", LBits 0x20);
    ("reserved_at_40", LBits 0x40) ].

Definition destroy_vport_lag_in : layout :=
  LStruct [
    ("opcode", LBits 0x10); ("uid", LBits 0x10); ("reserved_at_20", LBits 0x10); ("op_mod", LBits 0x10);
    ("reserved_at_40", LBits 0x40) ].

Definition alloc_memic_in : layout :=
  LStruct [
    ("opcode", LBits 0x10); ("uid", LBits 0x10); ("reserved_at_20", LBits 0x10); ("op_mod", LBits 0x10);
    ("reserved_at_30", LBits 0x20); ("reserved_at_40", LBits 0x18); ("log_memic_addr_alignment", LBits 0x8);
    ("range_start_addr", LBits 0x40); ("range_size", LBits 0x20); ("memic_size", LBits 0x20) ].

Definition alloc_memic_out : layout :=
  LStruct [
    ("status", LBits 0x8); ("reserved_at_8", LBits 0x18); ("syndrome", LBits 0x20);
    ("memic_start_addr", LBits 0x40) ].

Definition dealloc_memic_in : layout :=
  LStruct [
    ("opcode", LBits 0x10); ("uid", LBits 0x10); ("reserved_at_20", LBits 0x10); ("op_mod", LBits 0x10);
    ("reserved_at_40", LBits 0x40); ("memic_start_addr", LBits 0x40); ("memic_size", LBits 0x20);
    ("reserved_at_e0", LBits 0x20) ].

Definition dealloc_memic_out : layout :=
  LStruct [
    ("status", LBits 0x8); ("reserved_at_8", LBits 0x18); ("syndrome", LBits 0x20);
    ("reserved_at_40", LBits 0x40) ].

Definition create_umem_in : layout :=
  LStruct [
    ("hdr", ifc.general_obj_in_cmd_hdr); ("umem", regs.umem) ].

Definition create_uctx_in : layout :=
  LStruct [
    ("hdr", ifc.general_obj_in_cmd_hdr); ("uctx", regs.uctx) ].

Definition flow_spec_in : layout :=
  LStruct [
    ("match_criteria_enable", LBits 0x8); ("reserved", LBits 0x18); ("match_criteria", ifc.fte_match_param);
    ("match_value", ifc.fte_match_param) ].

Definition fs_rule_add_in : layout :=
  LStruct [
    ("flow_spec", flow_spec_in); ("dest", ifc.dest_format_struct); ("prio", LBits 0x8);
    ("reserved", LBits 0x18) ].

End cmds.

Definition other_command_layouts : list layout :=
  [cmds.teardown_hca_out; cmds.teardown_hca_in; cmds.sqerr2rts_qp_out; cmds.sqerr2rts_qp_in;
    cmds.sqd2rts_qp_out; cmds.sqd2rts_qp_in; cmds.set_roce_address_out; cmds.set_roce_address_in;
    cmds.set_mad_demux_out; cmds.set_mad_demux_in; cmds.set_l2_table_entry_out; cmds.set_l2_table_entry_in;
    cmds.set_issi_out; cmds.set_issi_in; cmds.set_hca_cap_out; cmds.set_hca_cap_in; cmds.rts2rts_qp_out;
    cmds.rts2rts_qp_in; cmds.rtr2rts_qp_out; cmds.rtr2rts_qp_in; cmds.rst2init_qp_out; cmds.rst2init_qp_in;
    cmds.query_xrq_out; cmds.query_xrq_in; cmds.query_xrc_srq_out; cmds.query_xrc_srq_in;
    cmds.query_vport_state_out; cmds.query_vport_state_in; cmds.query_vnic_env_out; cmds.query_vnic_env_in;
    cmds.query_vport_counter_out; cmds.query_vport_counter_in; cmds.query_srq_out; cmds.query_srq_in;
    cmds.query_special_contexts_out; cmds.query_special_contexts_in; cmds.query_scheduling_element_out;
    cmds.query_scheduling_element_in; cmds.query_rqt_out; cmds.query_rqt_in; cmds.query_roce_address_out;
    cmds.query_roce_address_in; cmds.query_rmp_out; cmds.query_rmp_in; cmds.query_qp_out; cmds.query_qp_in;
    cmds.query_q_counter_out; cmds.query_q_counter_in; cmds.query_pages_out; cmds.query_pages_in;
    cmds.query_nic_vport_context_out; cmds.query_nic_vport_context_in; cmds.query_mkey_out;
    cmds.query_mkey_in; cmds.query_mad_demux_out; cmds.query_mad_demux_in; cmds.query_l2_table_entry_out;
    cmds.query_l2_table_entry_in; cmds.query_issi_out; cmds.query_issi_in; cmds.set_driver_version_out;
    cmds.set_driver_version_in; cmds.query_hca_vport_pkey_out; cmds.query_hca_vport_pkey_in;
    cmds.query_hca_vport_gid_out; cmds.query_hca_vport_gid_in; cmds.query_hca_vport_context_out;
    cmds.query_hca_vport_context_in; cmds.query_fte_out; cmds.query_fte_in; cmds.query_flow_group_out;
    cmds.query_flow_group_in; cmds.query_flow_counter_out; cmds.query_flow_counter_in;
    cmds.query_esw_vport_context_out; cmds.query_esw_vport_context_in; cmds.modify_esw_vport_context_out;
    cmds.modify_esw_vport_context_in; cmds.query_eq_out; cmds.query_eq_in;
    cmds.query_packet_reformat_context_in; cmds.dealloc_packet_reformat_context_out;
    cmds.dealloc_packet_reformat_context_in; cmds.encap_header_in; cmds.query_encap_header_out;
    cmds.query_encap_header_in; cmds.alloc_encap_header_out; cmds.alloc_encap_header_in;
    cmds.dealloc_encap_header_out; cmds.dealloc_encap_header_in; cmds.dealloc_modify_header_context_out;
    cmds.dealloc_modify_header_context_in; cmds.query_dct_out; cmds.query_dct_in; cmds.query_cq_out;
    cmds.query_cq_in; cmds.query_cong_status_out; cmds.query_cong_status_in; cmds.query_cong_statistics_out;
    cmds.query_cong_statistics_in; cmds.query_cong_params_out; cmds.query_cong_params_in;
    cmds.query_adapter_out; cmds.query_adapter_in; cmds.qp_2rst_out; cmds.qp_2rst_in; cmds.qp_2err_out;
    cmds.qp_2err_in; cmds.page_fault_resume_out; cmds.page_fault_resume_in; cmds.nop_out; cmds.nop_in;
    cmds.modify_vport_state_out; cmds.modify_vport_state_in; cmds.modify_tis_out; cmds.modify_tis_in;
    cmds.modify_scheduling_element_out; cmds.modify_scheduling_element_in; cmds.modify_rqt_out;
    cmds.modify_rqt_in; cmds.modify_rmp_out; cmds.modify_rmp_in; cmds.modify_nic_vport_context_out;
    cmds.modify_nic_vport_context_in; cmds.modify_hca_vport_context_out; cmds.modify_hca_vport_context_in;
    cmds.modify_cq_out; cmds.modify_cq_in; cmds.modify_cong_status_out; cmds.modify_cong_status_in;
    cmds.modify_cong_params_out; cmds.modify_cong_params_in; cmds.manage_pages_out; cmds.manage_pages_in;
    cmds.mad_ifc_out; cmds.mad_ifc_in; cmds.init_hca_out; cmds.init_hca_in; cmds.init2rtr_qp_out;
    cmds.init2rtr_qp_in; cmds.init2init_qp_out; cmds.init2init_qp_in; cmds.get_dropped_packet_log_out;
    cmds.get_dropped_packet_log_in; cmds.gen_eqe_in; cmds.gen_eq_out; cmds.enable_hca_out;
    cmds.enable_hca_in; cmds.drain_dct_out; cmds.drain_dct_in; cmds.disable_hca_out; cmds.disable_hca_in;
    cmds.detach_from_mcg_out; cmds.detach_from_mcg_in; cmds.destroy_xrq_out; cmds.destroy_xrq_in;
    cmds.destroy_xrc_srq_out; cmds.destroy_xrc_srq_in; cmds.destroy_tis_out; cmds.destroy_tis_in;
    cmds.destroy_tir_out; cmds.destroy_tir_in; cmds.destroy_srq_out; cmds.destroy_srq_in;
    cmds.destroy_sq_out; cmds.destroy_sq_in; cmds.destroy_scheduling_element_out;
    cmds.destroy_scheduling_element_in; cmds.destroy_rqt_out; cmds.destroy_rqt_in; cmds.destroy_rq_out;
    cmds.destroy_rq_in; cmds.set_delay_drop_params_in; cmds.set_delay_drop_params_out; cmds.destroy_rmp_out;
    cmds.destroy_rmp_in; cmds.destroy_qp_out; cmds.destroy_qp_in; cmds.destroy_psv_out; cmds.destroy_psv_in;
    cmds.destroy_mkey_out; cmds.destroy_mkey_in; cmds.destroy_flow_table_out; cmds.destroy_flow_table_in;
    cmds.destroy_flow_group_out; cmds.destroy_flow_group_in; cmds.destroy_eq_out; cmds.destroy_eq_in;
    cmds.destroy_dct_out; cmds.destroy_dct_in; cmds.destroy_cq_out; cmds.destroy_cq_in;
    cmds.delete_vxlan_udp_dport_out; cmds.delete_vxlan_udp_dport_in; cmds.delete_l2_table_entry_out;
    cmds.delete_l2_table_entry_in; cmds.delete_fte_out; cmds.delete_fte_in; cmds.dealloc_xrcd_out;
    cmds.dealloc_xrcd_in; cmds.dealloc_uar_out; cmds.dealloc_uar_in; cmds.dealloc_transport_domain_out;
    cmds.dealloc_transport_domain_in; cmds.dealloc_q_counter_out; cmds.dealloc_q_counter_in;
    cmds.dealloc_pd_out; cmds.dealloc_pd_in; cmds.dealloc_flow_counter_out; cmds.dealloc_flow_counter_in;
    cmds.create_xrq_out; cmds.create_xrq_in; cmds.create_xrc_srq_out; cmds.create_xrc_srq_in;
    cmds.create_srq_out; cmds.create_srq_in; cmds.create_scheduling_element_out;
    cmds.create_scheduling_element_in; cmds.create_rqt_out; cmds.create_rqt_in; cmds.create_rmp_out;
    cmds.create_rmp_in; cmds.create_qp_out; cmds.create_qp_in; cmds.create_psv_out; cmds.create_psv_in;
    cmds.create_eq_out; cmds.create_eq_in; cmds.create_dct_out; cmds.create_dct_in;
    cmds.config_int_moderation_out; cmds.config_int_moderation_in; cmds.attach_to_mcg_out;
    cmds.attach_to_mcg_in; cmds.arm_xrq_out; cmds.arm_xrq_in; cmds.arm_xrc_srq_out; cmds.arm_xrc_srq_in;
    cmds.arm_rq_out; cmds.arm_rq_in; cmds.arm_dct_out; cmds.arm_dct_in; cmds.alloc_xrcd_out;
    cmds.alloc_xrcd_in; cmds.alloc_uar_out; cmds.alloc_uar_in; cmds.alloc_q_counter_out;
    cmds.alloc_q_counter_in; cmds.alloc_flow_counter_out; cmds.alloc_flow_counter_in;
    cmds.add_vxlan_udp_dport_out; cmds.add_vxlan_udp_dport_in; cmds.set_pp_rate_limit_out;
    cmds.set_pp_rate_limit_in; cmds.access_register_out; cmds.access_register_in; cmds.set_node_in;
    cmds.cmd_out; cmds.cmd_in; cmds.query_wol_rol_out; cmds.query_wol_rol_in; cmds.set_wol_rol_out;
    cmds.set_wol_rol_in; cmds.set_flow_table_root_out; cmds.set_flow_table_root_in;
    cmds.modify_flow_table_out; cmds.modify_flow_table_in; cmds.create_lag_out; cmds.create_lag_in;
    cmds.modify_lag_out; cmds.modify_lag_in; cmds.query_lag_out; cmds.query_lag_in; cmds.destroy_lag_out;
    cmds.destroy_lag_in; cmds.create_vport_lag_out; cmds.create_vport_lag_in; cmds.destroy_vport_lag_out;
    cmds.destroy_vport_lag_in; cmds.alloc_memic_in; cmds.alloc_memic_out; cmds.dealloc_memic_in;
    cmds.dealloc_memic_out; cmds.create_umem_in; cmds.create_uctx_in; cmds.flow_spec_in; cmds.fs_rule_add_in]%list.
