(* ===== verification/PrmAll.v ===== *)
(** * The header [src/src/dcmd/prm.h] as a whole

    All the structures of Prm.v, PrmCaps.v, PrmContexts.v, PrmRegisters.v and
    PrmCommands.v: every member they name can be accessed with the macros, every
    command starts and every answer ends up where [dpcp::obj] looks for it, and
    no two commands have the same code. *)

From S2P Require Import Prelude Codec Prm PrmCaps PrmContexts PrmRegisters PrmCommands Dcmd Own Sim Obj.
Open Scope string_scope.
Open Scope list_scope.
Open Scope Z_scope.

(** ** Members *)

Definition cap_layouts : list layout :=
  [cap.flow_table_fields_supported; cap.flow_table_prop_layout; cap.odp_per_transport_service_cap;
    cap.header_modify_cap_properties; cap.flow_table_fields_supported_2; cap.flow_table_nic_cap;
    cap.flow_table_eswitch_cap; cap.e_switch_cap; cap.qos_cap; cap.per_protocol_networking_offload_caps;
    cap.roce_cap; cap.atomic_caps; cap.odp_cap; cap.calc_op; cap.vector_calc_cap; cap.cmd_hca_cap;
    cap.cmd_hca_cap_2; cap.emulation_cap; cap.tls_cap; cap.crypto_cap; cap.nvmeotcp_cap; cap.ibq_cap;
    cap.parse_graph_node_cap; cap.hca_cap_union; cap.query_hca_cap_out]%list.

(** A designator of named members: no part of it is a reserved filler. *)
Definition reserved (s : string) : bool := String.prefix "reserved" s.

Fixpoint named (p : list step) : bool :=
  match p with
  | [] => true
  | F s :: r => negb (reserved s) && named r
  | I _ :: r => named r
  end.

(** What a designator names. *)
Fixpoint target (l : layout) (p : list step) : option layout :=
  match p with
  | [] => Some l
  | F s :: r =>
      match l with
      | LStruct fs => match find_member 0 fs s with Some (_, t) => target t r | None => None end
      | LUnion fs => match find_alt fs s with Some t => target t r | None => None end
      | _ => None
      end
  | I i :: r => match l with LArr n e => if (0 <=? i) && (i <? n) then target e r else None | _ => None end
  end.

(** Every named member of [l] of at most 32 bits lies in one dword when [l] starts
    at the bit [off]: one pass over the structure. *)
Fixpoint aligned (off : Z) (l : layout) : bool :=
  match l with
  | LBits n => (32 <? n) || (off mod 32 + n <=? 32)
  | LStruct fs =>
      (fix go (off : Z) (fs : list (string * layout)) : bool :=
         match fs with
         | [] => true
         | (s, t) :: r => (reserved s || aligned off t) && go (off + size_of t) r
         end) off fs
  | LUnion fs =>
      (fix go (fs : list (string * layout)) : bool :=
         match fs with [] => true | (s, t) :: r => (reserved s || aligned off t) && go r end) fs
  | LArr n e =>
      if size_of e mod 32 =? 0 then aligned off e
      else forallb (fun i => aligned (off + Z.of_nat i * size_of e) e) (List.seq 0 (Z.to_nat n))
  end.

Lemma aligned_mod l : forall off off', off mod 32 = off' mod 32 -> aligned off l = aligned off' l.
Proof.
  revert l. fix IH 1. intros [n|fs|fs|n e] off off' E; simpl.
  - by rewrite E.
  - revert off off' E. induction fs as [|[s t] r IHr]; intros off off' E; [done|].
    rewrite (IH t off off' E). f_equal. apply IHr. rewrite Z.add_mod, E, <- Z.add_mod; lia.
  - induction fs as [|[s t] r IHr]; [done|]. by rewrite (IH t off off' E), IHr.
  - destruct (size_of e mod 32 =? 0); [by apply IH|].
    induction (List.seq 0 (Z.to_nat n)) as [|i r IHr]; [done|]. simpl. rewrite IHr. f_equal.
    apply IH. rewrite Z.add_mod, E, <- Z.add_mod; lia.
Qed.

Lemma aligned_member off fs o0 s o t :
  aligned off (LStruct fs) = true -> find_member o0 fs s = Some (o, t) -> reserved s = false ->
  aligned (off + o - o0) t = true.
Proof.
  revert off o0. induction fs as [|[s' x] r IH]; intros off o0 Ha Hf Hr; simpl in *; [done|].
  apply andb_true_iff in Ha as [Hx Ha]. destruct (String.eqb_spec s' s) as [->|].
  - simplify_eq. rewrite Hr in Hx. simpl in Hx. by replace (off + o - o) with off by lia.
  - specialize (IH (off + size_of x) _ Ha Hf Hr). by replace (off + o - o0) with (off + size_of x + o - (o0 + size_of x)) by lia.
Qed.

Lemma aligned_alt off fs s t :
  aligned off (LUnion fs) = true -> find_alt fs s = Some t -> reserved s = false -> aligned off t = true.
Proof.
  induction fs as [|[s' x] r IH]; intros Ha Hf Hr; simpl in *; [done|]. apply andb_true_iff in Ha as [Hx Ha].
  destruct (String.eqb_spec s' s) as [->|]; [simplify_eq; by rewrite Hr in Hx|by apply IH].
Qed.

Lemma aligned_elt off n e i : aligned off (LArr n e) = true -> 0 <= i < n -> aligned (off + i * size_of e) e = true.
Proof.
  intros Ha Hi. simpl in Ha. destruct (Z.eqb_spec (size_of e mod 32) 0) as [E|E].
  - rewrite <- Ha. apply aligned_mod. rewrite Z.add_mod, Z.mul_mod, E, Z.mul_0_r by lia. simpl. rewrite Z.add_0_r. apply Z.mod_mod. lia.
  - rewrite List.forallb_forall in Ha. specialize (Ha (Z.to_nat i)). rewrite Z2Nat.id in Ha by lia. apply Ha.
    apply List.in_seq. lia.
Qed.

(** The pass covers every designator. *)
Lemma aligned_dw p : forall l off n,
  aligned off l = true -> named p = true -> target l p = Some (LBits n) -> n <= 32 ->
  exists o, resolve l p = Some (o, n) /\ path_in l p = true /\ (off + o) mod 32 + n <= 32.
Proof.
  induction p as [|[s|i] r IH]; intros l off n Ha Hn Ht Hb; simpl in Ht, Hn.
  - simplify_eq. exists 0. simpl in *. split_and!; [done|done|]. rewrite Z.add_0_r. destruct (Z.ltb_spec 32 n); [lia|]. simpl in Ha. lia.
  - apply andb_true_iff in Hn as [Hs Hn]. apply negb_true_iff in Hs. destruct l as [|fs|fs|]; try done; simpl.
    + destruct (find_member 0 fs s) as [[o t]|] eqn:E; [|done].
      destruct (IH t (off + o) n) as (o' & -> & Hp & Ho); try done.
      { pose proof (aligned_member off fs 0 s o t Ha E Hs) as H. by rewrite Z.sub_0_r in H. }
      exists (o + o'). split_and!; [done|done|]. by rewrite Z.add_assoc.
    + destruct (find_alt fs s) as [t|] eqn:E; [|done]. apply IH; try done. by eapply aligned_alt.
  - destruct l as [| | |m e]; try done. destruct ((0 <=? i) && (i <? m)) eqn:E; [|done].
    destruct (IH e (off + i * size_of e) n) as (o & Hr & Hp & Ho); try done.
    { apply aligned_elt with (n := m); [done|]. apply andb_true_iff in E. lia. }
    exists (i * size_of e + o). simpl. rewrite Hr, E, Hp. split_and!; [done|done|]. by rewrite Z.add_assoc.
Qed.

(** The structures of the header that are a whole number of dwords long; the only
    other one is the entry of the array of [qpdpm_reg]. *)
Definition header_layouts : list layout :=
  command_layouts ++ cap_layouts ++ context_layouts ++ filter (fun l => size_of l mod 32 = 0) register_layouts
  ++ other_command_layouts.

Definition whole_ok (l : layout) : bool := wf_layout l && (size_of l mod 32 =? 0) && aligned 0 l.

Lemma header_whole : forallb whole_ok header_layouts = true.
Proof. vm_compute. reflexivity. Qed.

(** C13. The whole header can be used with the macros: for every structure of
    prm.h that is a whole number of dwords and every designator of a named
    member of at most 32 bits, whatever nesting, union or array index it goes
    through, reading the member back after a write gives the value cut to its
    width. *)
Theorem header_roundtrip l path n p v b :
  l ∈ header_layouts -> named path = true -> target l path = Some (LBits n) -> 0 < n <= 32 ->
  0 <= p -> p + ST_SZ_BYTES l <= Z.of_nat (length b) ->
  bit_sz l path = n /\ DEVX_GET l p path (exec1 (DEVX_SET l p path v) b) = wrap n v.
Proof.
  intros Hl Hn Ht Hs Hp Hb. pose proof header_whole as Hw. rewrite List.forallb_forall in Hw.
  specialize (Hw l ltac:(by apply list_elem_of_In)). unfold whole_ok in Hw. bool_hyps.
  destruct (aligned_dw path l 0 n) as (o & Hr & Hi & Ho); [assumption..|lia|].
  assert (bit_sz l path = n) as Hz by (unfold bit_sz; by rewrite Hr). split; [done|]. rewrite <- Hz.
  apply get_set_same. apply dw_member_in; [assumption|lia| |lia|done|done].
  unfold dw_member. rewrite Hi, Hr. simpl. apply Z.leb_le. exact Ho.
Qed.

(** The clock of the initial segment: its nested members too. *)
Lemma header_roundtrip_witness :
  bit_sz regs.initial_seg ["health_buffer"; "fw_version"] = 32
  /\ DEVX_GET regs.initial_seg 0 ["health_buffer"; "fw_version"]
       (exec1 (DEVX_SET regs.initial_seg 0 ["health_buffer"; "fw_version"] 77)
          (zeros (ST_SZ_BYTES regs.initial_seg))) = wrap 32 77.
Proof.
  apply (header_roundtrip regs.initial_seg ["health_buffer"; "fw_version"] 32 0 77 (zeros (ST_SZ_BYTES regs.initial_seg)));
    [|done|vm_compute; reflexivity|lia|lia|vm_compute; done].
  unfold header_layouts. do 3 (apply elem_of_app; right). apply elem_of_app. left.
  apply list_elem_of_filter. split; [vm_compute; reflexivity|]. unfold register_layouts. repeat (apply elem_of_cons; (left; reflexivity) || right).
Defined.

(** ** Commands and answers *)

(** The answers of the header, and its commands. *)
Definition answer_layouts : list layout :=
  [ifc.status_out; ifc.set_fte_out; ifc.query_tis_out; ifc.query_tir_out; ifc.query_sq_out;
    ifc.query_rq_out; ifc.alloc_packet_reformat_context_out; ifc.alloc_modify_header_context_out;
    ifc.modify_tir_out; ifc.modify_sq_out; ifc.modify_rq_out; ifc.create_tis_out; ifc.create_tir_out;
    ifc.create_sq_out; ifc.create_rq_out; ifc.create_mkey_out; ifc.create_flow_table_out;
    ifc.create_flow_group_out; ifc.create_cq_out; ifc.alloc_transport_domain_out; ifc.alloc_pd_out;
    ifc.query_encryption_key_out; ifc.query_tag_buffer_table_obj_out; ifc.query_flow_table_out;
    ifc.sync_crypto_out; cap.query_hca_cap_out; cmds.teardown_hca_out; cmds.sqerr2rts_qp_out;
    cmds.sqd2rts_qp_out; cmds.set_roce_address_out; cmds.set_mad_demux_out; cmds.set_l2_table_entry_out;
    cmds.set_issi_out; cmds.set_hca_cap_out; cmds.rts2rts_qp_out; cmds.rtr2rts_qp_out; cmds.rst2init_qp_out;
    cmds.query_xrq_out; cmds.query_xrc_srq_out; cmds.query_vport_state_out; cmds.query_vnic_env_out;
    cmds.query_vport_counter_out; cmds.query_srq_out; cmds.query_special_contexts_out; cmds.query_rqt_out;
    cmds.query_roce_address_out; cmds.query_rmp_out; cmds.query_qp_out; cmds.query_q_counter_out;
    cmds.query_pages_out; cmds.query_nic_vport_context_out; cmds.query_mkey_out; cmds.query_mad_demux_out;
    cmds.query_l2_table_entry_out; cmds.query_issi_out; cmds.set_driver_version_out;
    cmds.query_hca_vport_pkey_out; cmds.query_hca_vport_gid_out; cmds.query_hca_vport_context_out;
    cmds.query_fte_out; cmds.query_flow_group_out; cmds.query_flow_counter_out;
    cmds.query_esw_vport_context_out; cmds.modify_esw_vport_context_out; cmds.query_eq_out;
    cmds.dealloc_packet_reformat_context_out; cmds.query_encap_header_out; cmds.alloc_encap_header_out;
    cmds.dealloc_encap_header_out; cmds.dealloc_modify_header_context_out; cmds.query_dct_out;
    cmds.query_cq_out; cmds.query_cong_status_out; cmds.query_cong_statistics_out;
    cmds.query_cong_params_out; cmds.query_adapter_out; cmds.qp_2rst_out; cmds.qp_2err_out;
    cmds.page_fault_resume_out; cmds.nop_out; cmds.modify_vport_state_out; cmds.modify_tis_out;
    cmds.modify_scheduling_element_out; cmds.modify_rqt_out; cmds.modify_rmp_out;
    cmds.modify_nic_vport_context_out; cmds.modify_hca_vport_context_out; cmds.modify_cq_out;
    cmds.modify_cong_status_out; cmds.modify_cong_params_out; cmds.manage_pages_out; cmds.mad_ifc_out;
    cmds.init_hca_out; cmds.init2rtr_qp_out; cmds.init2init_qp_out; cmds.get_dropped_packet_log_out;
    cmds.gen_eq_out; cmds.enable_hca_out; cmds.drain_dct_out; cmds.disable_hca_out;
    cmds.detach_from_mcg_out; cmds.destroy_xrq_out; cmds.destroy_xrc_srq_out; cmds.destroy_tis_out;
    cmds.destroy_tir_out; cmds.destroy_srq_out; cmds.destroy_sq_out; cmds.destroy_scheduling_element_out;
    cmds.destroy_rqt_out; cmds.destroy_rq_out; cmds.set_delay_drop_params_out; cmds.destroy_rmp_out;
    cmds.destroy_qp_out; cmds.destroy_psv_out; cmds.destroy_mkey_out; cmds.destroy_flow_table_out;
    cmds.destroy_flow_group_out; cmds.destroy_eq_out; cmds.destroy_dct_out; cmds.destroy_cq_out;
    cmds.delete_vxlan_udp_dport_out; cmds.delete_l2_table_entry_out; cmds.delete_fte_out;
    cmds.dealloc_xrcd_out; cmds.dealloc_uar_out; cmds.dealloc_transport_domain_out;
    cmds.dealloc_q_counter_out; cmds.dealloc_pd_out; cmds.dealloc_flow_counter_out; cmds.create_xrq_out;
    cmds.create_xrc_srq_out; cmds.create_srq_out; cmds.create_scheduling_element_out; cmds.create_rqt_out;
    cmds.create_rmp_out; cmds.create_qp_out; cmds.create_psv_out; cmds.create_eq_out; cmds.create_dct_out;
    cmds.config_int_moderation_out; cmds.attach_to_mcg_out; cmds.arm_xrq_out; cmds.arm_xrc_srq_out;
    cmds.arm_rq_out; cmds.arm_dct_out; cmds.alloc_xrcd_out; cmds.alloc_uar_out; cmds.alloc_q_counter_out;
    cmds.alloc_flow_counter_out; cmds.add_vxlan_udp_dport_out; cmds.set_pp_rate_limit_out;
    cmds.access_register_out; cmds.cmd_out; cmds.query_wol_rol_out; cmds.set_wol_rol_out;
    cmds.set_flow_table_root_out; cmds.modify_flow_table_out; cmds.create_lag_out; cmds.modify_lag_out;
    cmds.query_lag_out; cmds.destroy_lag_out; cmds.create_vport_lag_out; cmds.destroy_vport_lag_out;
    cmds.alloc_memic_out; cmds.dealloc_memic_out]%list.
Definition input_layouts : list layout :=
  [ifc.set_fte_in; ifc.query_tis_in; ifc.query_tir_in; ifc.query_sq_in; ifc.query_rq_in;
    ifc.query_hca_cap_in; ifc.query_flow_table_in; ifc.alloc_packet_reformat_context_in;
    ifc.alloc_modify_header_context_in; ifc.modify_tir_in; ifc.modify_sq_in; ifc.modify_rq_in;
    ifc.create_tis_in; ifc.create_tir_in; ifc.create_sq_in; ifc.create_rq_in; ifc.create_mkey_in;
    ifc.create_flow_table_in; ifc.create_flow_group_in; ifc.create_cq_in; ifc.alloc_transport_domain_in;
    ifc.alloc_pd_in; ifc.create_encryption_key_in; ifc.create_tag_buffer_table_obj_in;
    ifc.create_parse_graph_node_in; ifc.sync_crypto_in; cmds.teardown_hca_in; cmds.sqerr2rts_qp_in;
    cmds.sqd2rts_qp_in; cmds.set_roce_address_in; cmds.set_mad_demux_in; cmds.set_l2_table_entry_in;
    cmds.set_issi_in; cmds.set_hca_cap_in; cmds.rts2rts_qp_in; cmds.rtr2rts_qp_in; cmds.rst2init_qp_in;
    cmds.query_xrq_in; cmds.query_xrc_srq_in; cmds.query_vport_state_in; cmds.query_vnic_env_in;
    cmds.query_vport_counter_in; cmds.query_srq_in; cmds.query_special_contexts_in;
    cmds.query_scheduling_element_in; cmds.query_rqt_in; cmds.query_roce_address_in; cmds.query_rmp_in;
    cmds.query_qp_in; cmds.query_q_counter_in; cmds.query_pages_in; cmds.query_nic_vport_context_in;
    cmds.query_mkey_in; cmds.query_mad_demux_in; cmds.query_l2_table_entry_in; cmds.query_issi_in;
    cmds.set_driver_version_in; cmds.query_hca_vport_pkey_in; cmds.query_hca_vport_gid_in;
    cmds.query_hca_vport_context_in; cmds.query_fte_in; cmds.query_flow_group_in;
    cmds.query_flow_counter_in; cmds.query_esw_vport_context_in; cmds.modify_esw_vport_context_in;
    cmds.query_eq_in; cmds.query_packet_reformat_context_in; cmds.dealloc_packet_reformat_context_in;
    cmds.query_encap_header_in; cmds.alloc_encap_header_in; cmds.dealloc_encap_header_in;
    cmds.dealloc_modify_header_context_in; cmds.query_dct_in; cmds.query_cq_in; cmds.query_cong_status_in;
    cmds.query_cong_statistics_in; cmds.query_cong_params_in; cmds.query_adapter_in; cmds.qp_2rst_in;
    cmds.qp_2err_in; cmds.page_fault_resume_in; cmds.nop_in; cmds.modify_vport_state_in; cmds.modify_tis_in;
    cmds.modify_scheduling_element_in; cmds.modify_rqt_in; cmds.modify_rmp_in;
    cmds.modify_nic_vport_context_in; cmds.modify_hca_vport_context_in; cmds.modify_cq_in;
    cmds.modify_cong_status_in; cmds.modify_cong_params_in; cmds.manage_pages_in; cmds.mad_ifc_in;
    cmds.init_hca_in; cmds.init2rtr_qp_in; cmds.init2init_qp_in; cmds.get_dropped_packet_log_in;
    cmds.gen_eqe_in; cmds.enable_hca_in; cmds.drain_dct_in; cmds.disable_hca_in; cmds.detach_from_mcg_in;
    cmds.destroy_xrq_in; cmds.destroy_xrc_srq_in; cmds.destroy_tis_in; cmds.destroy_tir_in;
    cmds.destroy_srq_in; cmds.destroy_sq_in; cmds.destroy_scheduling_element_in; cmds.destroy_rqt_in;
    cmds.destroy_rq_in; cmds.set_delay_drop_params_in; cmds.destroy_rmp_in; cmds.destroy_qp_in;
    cmds.destroy_psv_in; cmds.destroy_mkey_in; cmds.destroy_flow_table_in; cmds.destroy_flow_group_in;
    cmds.destroy_eq_in; cmds.destroy_dct_in; cmds.destroy_cq_in; cmds.delete_vxlan_udp_dport_in;
    cmds.delete_l2_table_entry_in; cmds.delete_fte_in; cmds.dealloc_xrcd_in; cmds.dealloc_uar_in;
    cmds.dealloc_transport_domain_in; cmds.dealloc_q_counter_in; cmds.dealloc_pd_in;
    cmds.dealloc_flow_counter_in; cmds.create_xrq_in; cmds.create_xrc_srq_in; cmds.create_srq_in;
    cmds.create_scheduling_element_in; cmds.create_rqt_in; cmds.create_rmp_in; cmds.create_qp_in;
    cmds.create_psv_in; cmds.create_eq_in; cmds.create_dct_in; cmds.config_int_moderation_in;
    cmds.attach_to_mcg_in; cmds.arm_xrq_in; cmds.arm_xrc_srq_in; cmds.arm_rq_in; cmds.arm_dct_in;
    cmds.alloc_xrcd_in; cmds.alloc_uar_in; cmds.alloc_q_counter_in; cmds.alloc_flow_counter_in;
    cmds.add_vxlan_udp_dport_in; cmds.set_pp_rate_limit_in; cmds.access_register_in; cmds.cmd_in;
    cmds.query_wol_rol_in; cmds.set_wol_rol_in; cmds.set_flow_table_root_in; cmds.modify_flow_table_in;
    cmds.create_lag_in; cmds.modify_lag_in; cmds.query_lag_in; cmds.destroy_lag_in;
    cmds.create_vport_lag_in; cmds.destroy_vport_lag_in; cmds.alloc_memic_in; cmds.dealloc_memic_in;
    cmds.create_umem_in; cmds.create_uctx_in]%list.

Definition at_place (o s : Z) (r : option (Z * Z)) : bool :=
  match r with Some (o', s') => (o =? o') && (s =? s') | None => false end.

(** A member of the head of a command, which general objects keep in a structure
    of its own. *)
Definition head_path (l : layout) (m : string) : list step :=
  match resolve l [F m] with
  | Some _ => [F m]
  | None => match resolve l [F "hdr"; F m] with
            | Some _ => [F "hdr"; F m]
            | None => match resolve l [F "general_obj_out_cmd_hdr"; F m] with
                      | Some _ => [F "general_obj_out_cmd_hdr"; F m]
                      | None => [F "general_obj_in_cmd_hdr"; F m]
                      end
            end
  end.

(** Two answers are missing from the list: the header declares them with the head
    of a command, so that they have no status. *)
Definition headless_answers : list layout := [ifc.create_parse_graph_node_out; cmds.query_scheduling_element_out].

Lemma answers_without_status :
  forallb (fun l => at_place 0 16 (resolve l (head_path l "opcode")) && negb (at_place 0 8 (resolve l (head_path l "status"))))
    headless_answers = true.
Proof. vm_compute. reflexivity. Qed.

(** The number of a new object: in 24 bits where [obj::create] looks for it, or in
    the whole dword. *)
Definition numbers : list (layout * string) :=
  [(ifc.create_mkey_out, "mkey_index"); (ifc.create_cq_out, "cqn"); (ifc.create_rq_out, "rqn");
   (ifc.create_sq_out, "sqn"); (ifc.create_tir_out, "tirn"); (ifc.create_tis_out, "tisn");
   (ifc.alloc_pd_out, "pd"); (ifc.alloc_transport_domain_out, "transport_domain");
   (ifc.create_flow_table_out, "table_id"); (ifc.create_flow_group_out, "group_id")].
Definition wide_numbers : list (layout * string) :=
  [(ifc.alloc_modify_header_context_out, "modify_header_id");
   (ifc.alloc_packet_reformat_context_out, "packet_reformat_id");
   (ifc.general_obj_out_cmd_hdr, "obj_id")].

(** Two members at the same place are read alike. *)
Lemma same_place l l' p path path' b :
  resolve l path = resolve l' path' -> DEVX_GET l p path b = DEVX_GET l' p path' b.
Proof. intros E. unfold DEVX_GET, fld, bit_off, bit_sz. by rewrite E. Qed.

Lemma at_place_eq o s r : at_place o s r = true -> r = Some (o, s).
Proof. destruct r as [[o' s']|]; simpl; [|done]. intros H. apply andb_true_iff in H as [?%Z.eqb_eq ?%Z.eqb_eq]. by subst. Qed.

Lemma answers_checked :
  forallb (fun l => at_place 0 8 (resolve l (head_path l "status")) && at_place 32 32 (resolve l (head_path l "syndrome"))) answer_layouts = true.
Proof. vm_compute. reflexivity. Qed.

Lemma inputs_checked : forallb (fun l => at_place 0 16 (resolve l (head_path l "opcode"))) input_layouts = true.
Proof. vm_compute. reflexivity. Qed.

Lemma numbers_checked : forallb (fun lm => at_place 72 24 (resolve lm.1 [F lm.2])) numbers = true.
Proof. vm_compute. reflexivity. Qed.

Lemma wide_numbers_checked : forallb (fun lm => at_place 64 32 (resolve lm.1 [F lm.2])) wide_numbers = true.
Proof. vm_compute. reflexivity. Qed.

(** The first byte of a half word. *)
Lemma high_byte_of_half l path b :
  resolve l path = Some (0, 16) -> DEVX_GET l 0 path b / 2 ^ 8 = out_status b.
Proof.
  intros E. unfold out_status, DEVX_GET, fld, bit_off, bit_sz. rewrite E. unfold get_field.
  cbn -[be32_to_cpu Z.pow Z.ones Z.shiftr Z.land Z.div]. rewrite <- Z.shiftr_div_pow2, Z.shiftr_land, Z.shiftr_shiftr by lia. reflexivity.
Qed.


(** An answer to CREATE_RQ, bytes as the device sends them, and one to the creation
    of a general object with a number of 32 bits. *)
Definition rq_answer : list Z := [5; 0; 0; 0; 0x11; 0x22; 0x33; 0x44; 0; 0x12; 0x34; 0x56; 0; 0; 0; 0].
Definition general_answer : list Z := [0; 0; 0; 0; 0; 0; 0; 0; 0xab; 0x12; 0x34; 0x56; 0; 0; 0; 0].


(** ** Command codes *)

(** The enumeration [MLX5_CMD_OP_*]. *)
Definition cmd_opcodes_1 : list (string * Z) :=
  [("QUERY_HCA_CAP", 0x100); ("QUERY_ADAPTER", 0x101); ("INIT_HCA", 0x102); ("TEARDOWN_HCA", 0x103);
    ("ENABLE_HCA", 0x104); ("DISABLE_HCA", 0x105); ("QUERY_PAGES", 0x107); ("MANAGE_PAGES", 0x108);
    ("SET_HCA_CAP", 0x109); ("QUERY_ISSI", 0x10a); ("SET_ISSI", 0x10b); ("SET_DRIVER_VERSION", 0x10d);
    ("CREATE_MKEY", 0x200); ("QUERY_MKEY", 0x201); ("DESTROY_MKEY", 0x202);
    ("QUERY_SPECIAL_CONTEXTS", 0x203); ("PAGE_FAULT_RESUME", 0x204); ("ALLOC_MEMIC", 0x205);
    ("DEALLOC_MEMIC", 0x206); ("CREATE_EQ", 0x301); ("DESTROY_EQ", 0x302); ("QUERY_EQ", 0x303);
    ("GEN_EQE", 0x304); ("CREATE_CQ", 0x400); ("DESTROY_CQ", 0x401); ("QUERY_CQ", 0x402);
    ("MODIFY_CQ", 0x403); ("CREATE_QP", 0x500); ("DESTROY_QP", 0x501); ("RST2INIT_QP", 0x502);
    ("INIT2RTR_QP", 0x503); ("RTR2RTS_QP", 0x504); ("RTS2RTS_QP", 0x505); ("SQERR2RTS_QP", 0x506);
    ("2ERR_QP", 0x507); ("2RST_QP", 0x50a); ("QUERY_QP", 0x50b); ("SQD_RTS_QP", 0x50c);
    ("INIT2INIT_QP", 0x50e); ("CREATE_PSV", 0x600); ("DESTROY_PSV", 0x601); ("CREATE_SRQ", 0x700);
    ("DESTROY_SRQ", 0x701); ("QUERY_SRQ", 0x702); ("ARM_RQ", 0x703); ("CREATE_XRC_SRQ", 0x705);
    ("DESTROY_XRC_SRQ", 0x706); ("QUERY_XRC_SRQ", 0x707); ("ARM_XRC_SRQ", 0x708); ("CREATE_DCT", 0x710);
    ("DESTROY_DCT", 0x711); ("DRAIN_DCT", 0x712); ("QUERY_DCT", 0x713);
    ("ARM_DCT_FOR_KEY_VIOLATION", 0x714); ("CREATE_XRQ", 0x717); ("DESTROY_XRQ", 0x718);
    ("QUERY_XRQ", 0x719); ("ARM_XRQ", 0x71a); ("QUERY_VPORT_STATE", 0x750); ("MODIFY_VPORT_STATE", 0x751);
    ("QUERY_ESW_VPORT_CONTEXT", 0x752); ("MODIFY_ESW_VPORT_CONTEXT", 0x753);
    ("QUERY_NIC_VPORT_CONTEXT", 0x754); ("MODIFY_NIC_VPORT_CONTEXT", 0x755); ("QUERY_ROCE_ADDRESS", 0x760);
    ("SET_ROCE_ADDRESS", 0x761); ("QUERY_HCA_VPORT_CONTEXT", 0x762); ("MODIFY_HCA_VPORT_CONTEXT", 0x763);
    ("QUERY_HCA_VPORT_GID", 0x764); ("QUERY_HCA_VPORT_PKEY", 0x765); ("QUERY_VNIC_ENV", 0x76f);
    ("QUERY_VPORT_COUNTER", 0x770); ("ALLOC_Q_COUNTER", 0x771); ("DEALLOC_Q_COUNTER", 0x772);
    ("QUERY_Q_COUNTER", 0x773); ("SET_PP_RATE_LIMIT", 0x780); ("QUERY_RATE_LIMIT", 0x781);
    ("CREATE_SCHEDULING_ELEMENT", 0x782); ("DESTROY_SCHEDULING_ELEMENT", 0x783);
    ("QUERY_SCHEDULING_ELEMENT", 0x784); ("MODIFY_SCHEDULING_ELEMENT", 0x785);
    ("CREATE_QOS_PARA_VPORT", 0x786); ("DESTROY_QOS_PARA_VPORT", 0x787); ("ALLOC_PD", 0x800);
    ("DEALLOC_PD", 0x801); ("ALLOC_UAR", 0x802); ("DEALLOC_UAR", 0x803); ("CONFIG_INT_MODERATION", 0x804);
    ("ACCESS_REG", 0x805); ("ATTACH_TO_MCG", 0x806); ("DETACH_FROM_MCG", 0x807);
    ("GET_DROPPED_PACKET_LOG", 0x80a); ("MAD_IFC", 0x50d); ("QUERY_MAD_DEMUX", 0x80b);
    ("SET_MAD_DEMUX", 0x80c); ("NOP", 0x80d); ("ALLOC_XRCD", 0x80e); ("DEALLOC_XRCD", 0x80f);
    ("ALLOC_TRANSPORT_DOMAIN", 0x816); ("DEALLOC_TRANSPORT_DOMAIN", 0x817); ("QUERY_CONG_STATUS", 0x822);
    ("MODIFY_CONG_STATUS", 0x823); ("QUERY_CONG_PARAMS", 0x824); ("MODIFY_CONG_PARAMS", 0x825);
    ("QUERY_CONG_STATISTICS", 0x826); ("ADD_VXLAN_UDP_DPORT", 0x827); ("DELETE_VXLAN_UDP_DPORT", 0x828);
    ("SET_L2_TABLE_ENTRY", 0x829); ("QUERY_L2_TABLE_ENTRY", 0x82a); ("DELETE_L2_TABLE_ENTRY", 0x82b);
    ("SET_WOL_ROL", 0x830); ("QUERY_WOL_ROL", 0x831); ("CREATE_LAG", 0x840); ("MODIFY_LAG", 0x841);
    ("QUERY_LAG", 0x842); ("DESTROY_LAG", 0x843); ("CREATE_VPORT_LAG", 0x844); ("DESTROY_VPORT_LAG", 0x845);
    ("CREATE_TIR", 0x900); ("MODIFY_TIR", 0x901); ("DESTROY_TIR", 0x902); ("QUERY_TIR", 0x903);
    ("CREATE_SQ", 0x904); ("MODIFY_SQ", 0x905); ("DESTROY_SQ", 0x906); ("QUERY_SQ", 0x907);
    ("CREATE_RQ", 0x908); ("MODIFY_RQ", 0x909); ("SET_DELAY_DROP_PARAMS", 0x910); ("DESTROY_RQ", 0x90a);
    ("QUERY_RQ", 0x90b); ("CREATE_RMP", 0x90c); ("MODIFY_RMP", 0x90d); ("DESTROY_RMP", 0x90e);
    ("QUERY_RMP", 0x90f); ("CREATE_TIS", 0x912); ("MODIFY_TIS", 0x913); ("DESTROY_TIS", 0x914);
    ("QUERY_TIS", 0x915); ("CREATE_RQT", 0x916); ("MODIFY_RQT", 0x917); ("DESTROY_RQT", 0x918);
    ("QUERY_RQT", 0x919); ("SET_FLOW_TABLE_ROOT", 0x92f); ("CREATE_FLOW_TABLE", 0x930);
    ("DESTROY_FLOW_TABLE", 0x931); ("QUERY_FLOW_TABLE", 0x932); ("CREATE_FLOW_GROUP", 0x933);
    ("DESTROY_FLOW_GROUP", 0x934); ("QUERY_FLOW_GROUP", 0x935)].
Definition cmd_opcodes_2 : list (string * Z) :=
  [("SET_FLOW_TABLE_ENTRY", 0x936); ("QUERY_FLOW_TABLE_ENTRY", 0x937); ("DELETE_FLOW_TABLE_ENTRY", 0x938);
    ("ALLOC_FLOW_COUNTER", 0x939); ("DEALLOC_FLOW_COUNTER", 0x93a); ("QUERY_FLOW_COUNTER", 0x93b);
    ("MODIFY_FLOW_TABLE", 0x93c); ("ALLOC_PACKET_REFORMAT_CONTEXT", 0x93d);
    ("DEALLOC_PACKET_REFORMAT_CONTEXT", 0x93e); ("QUERY_PACKET_REFORMAT_CONTEXT", 0x93f);
    ("ALLOC_MODIFY_HEADER_CONTEXT", 0x940); ("DEALLOC_MODIFY_HEADER_CONTEXT", 0x941);
    ("QUERY_MODIFY_HEADER_CONTEXT", 0x942); ("FPGA_CREATE_QP", 0x960); ("FPGA_MODIFY_QP", 0x961);
    ("FPGA_QUERY_QP", 0x962); ("FPGA_DESTROY_QP", 0x963); ("FPGA_QUERY_QP_COUNTERS", 0x964);
    ("CREATE_GENERAL_OBJECT", 0xa00); ("MODIFY_GENERAL_OBJECT", 0xa01); ("QUERY_GENERAL_OBJECT", 0xa02);
    ("DESTROY_GENERAL_OBJECT", 0xa03); ("SYNC_CRYPTO", 0xB12)].

(** No two commands have the same code, and the constants the library uses are
    entries of the table. *)
Definition used_opcodes : list (string * Z) :=
  [("QUERY_HCA_CAP", MLX5_CMD_OP_QUERY_HCA_CAP); ("CREATE_MKEY", MLX5_CMD_OP_CREATE_MKEY);
    ("CREATE_CQ", MLX5_CMD_OP_CREATE_CQ); ("ALLOC_PD", MLX5_CMD_OP_ALLOC_PD);
    ("ALLOC_TRANSPORT_DOMAIN", MLX5_CMD_OP_ALLOC_TRANSPORT_DOMAIN); ("CREATE_TIR", MLX5_CMD_OP_CREATE_TIR);
    ("MODIFY_TIR", MLX5_CMD_OP_MODIFY_TIR); ("QUERY_TIR", MLX5_CMD_OP_QUERY_TIR);
    ("CREATE_SQ", MLX5_CMD_OP_CREATE_SQ); ("MODIFY_SQ", MLX5_CMD_OP_MODIFY_SQ);
    ("QUERY_SQ", MLX5_CMD_OP_QUERY_SQ); ("CREATE_RQ", MLX5_CMD_OP_CREATE_RQ);
    ("MODIFY_RQ", MLX5_CMD_OP_MODIFY_RQ); ("QUERY_RQ", MLX5_CMD_OP_QUERY_RQ);
    ("CREATE_TIS", MLX5_CMD_OP_CREATE_TIS); ("QUERY_TIS", MLX5_CMD_OP_QUERY_TIS);
    ("CREATE_FLOW_TABLE", MLX5_CMD_OP_CREATE_FLOW_TABLE);
    ("QUERY_FLOW_TABLE", MLX5_CMD_OP_QUERY_FLOW_TABLE);
    ("CREATE_FLOW_GROUP", MLX5_CMD_OP_CREATE_FLOW_GROUP);
    ("SET_FLOW_TABLE_ENTRY", MLX5_CMD_OP_SET_FLOW_TABLE_ENTRY);
    ("ALLOC_PACKET_REFORMAT_CONTEXT", MLX5_CMD_OP_ALLOC_PACKET_REFORMAT_CONTEXT);
    ("ALLOC_MODIFY_HEADER_CONTEXT", MLX5_CMD_OP_ALLOC_MODIFY_HEADER_CONTEXT);
    ("CREATE_GENERAL_OBJECT", MLX5_CMD_OP_CREATE_GENERAL_OBJECT);
    ("MODIFY_GENERAL_OBJECT", MLX5_CMD_OP_MODIFY_GENERAL_OBJECT);
    ("QUERY_GENERAL_OBJECT", MLX5_CMD_OP_QUERY_GENERAL_OBJECT); ("SYNC_CRYPTO", MLX5_CMD_OP_SYNC_CRYPTO)].

Lemma opcodes_distinct : NoDup (cmd_opcodes_1 ++ cmd_opcodes_2).*2.
Proof. apply (bool_decide_unpack _). vm_compute. exact Logic.I. Qed.

Lemma used_opcodes_listed : Forall (fun e => e ∈ cmd_opcodes_1 ++ cmd_opcodes_2) used_opcodes.
Proof. apply (bool_decide_unpack _). vm_compute. exact Logic.I. Qed.
