(* ===== verification/PrmEnums.v ===== *)
(** * The enumerations of src/src/dcmd/prm.h

    Every enumeration of the header but the command codes (PrmAll.v), as the list
    of its enumerators with their values.  In each of them a value stands for one
    enumerator; the constants used elsewhere in the development are the values of
    the header; and for the enumerations that describe a member of a structure,
    writing an enumerator to the member and reading it back names the same
    enumerator. *)

From S2P Require Import Prelude Codec Prm PrmCaps PrmContexts PrmCommands PrmRegisters Dcmd.
Open Scope string_scope.
Open Scope list_scope.
Open Scope Z_scope.

Definition enumeration : Type := list (string * Z).

Definition enum_mlx5_event_type_coding : enumeration :=
  [ ("MLX5_EVENT_TYPE_CODING_COMPLETION_EVENTS", 0x0); ("MLX5_EVENT_TYPE_CODING_PATH_MIGRATED_SUCCEEDED", 0x1);
    ("MLX5_EVENT_TYPE_CODING_COMMUNICATION_ESTABLISHED", 0x2); ("MLX5_EVENT_TYPE_CODING_SEND_QUEUE_DRAINED", 0x3);
    ("MLX5_EVENT_TYPE_CODING_LAST_WQE_REACHED", 0x13); ("MLX5_EVENT_TYPE_CODING_SRQ_LIMIT", 0x14);
    ("MLX5_EVENT_TYPE_CODING_DCT_ALL_CONNECTIONS_CLOSED", 0x1c);
    ("MLX5_EVENT_TYPE_CODING_DCT_ACCESS_KEY_VIOLATION", 0x1d); ("MLX5_EVENT_TYPE_CODING_CQ_ERROR", 0x4);
    ("MLX5_EVENT_TYPE_CODING_LOCAL_WQ_CATASTROPHIC_ERROR", 0x5);
    ("MLX5_EVENT_TYPE_CODING_PATH_MIGRATION_FAILED", 0x7); ("MLX5_EVENT_TYPE_CODING_PAGE_FAULT_EVENT", 0xc);
    ("MLX5_EVENT_TYPE_CODING_INVALID_REQUEST_LOCAL_WQ_ERROR", 0x10);
    ("MLX5_EVENT_TYPE_CODING_LOCAL_ACCESS_VIOLATION_WQ_ERROR", 0x11);
    ("MLX5_EVENT_TYPE_CODING_LOCAL_SRQ_CATASTROPHIC_ERROR", 0x12); ("MLX5_EVENT_TYPE_CODING_INTERNAL_ERROR", 0x8);
    ("MLX5_EVENT_TYPE_CODING_PORT_STATE_CHANGE", 0x9); ("MLX5_EVENT_TYPE_CODING_GPIO_EVENT", 0x15);
    ("MLX5_EVENT_TYPE_CODING_REMOTE_CONFIGURATION_PROTOCOL_EVENT", 0x19);
    ("MLX5_EVENT_TYPE_CODING_DOORBELL_BLUEFLAME_CONGESTION_EVENT", 0x1a);
    ("MLX5_EVENT_TYPE_CODING_STALL_VL_EVENT", 0x1b); ("MLX5_EVENT_TYPE_CODING_DROPPED_PACKET_LOGGED_EVENT", 0x1f);
    ("MLX5_EVENT_TYPE_CODING_COMMAND_INTERFACE_COMPLETION", 0xa); ("MLX5_EVENT_TYPE_CODING_PAGE_REQUEST", 0xb);
    ("MLX5_EVENT_TYPE_CODING_FPGA_ERROR", 0x20) ].
Definition enum_mlx5_modify_tir_bitmask : enumeration :=
  [ ("MLX5_MODIFY_TIR_BITMASK_LRO", 0x0); ("MLX5_MODIFY_TIR_BITMASK_INDIRECT_TABLE", 0x1);
    ("MLX5_MODIFY_TIR_BITMASK_HASH", 0x2); ("MLX5_MODIFY_TIR_BITMASK_TUNNELED_OFFLOAD_EN", 0x3) ].
Definition enum_mlx5_cap_mode : enumeration :=
  [ ("HCA_CAP_OPMOD_GET_MAX", 0x0); ("HCA_CAP_OPMOD_GET_CUR", 0x1) ].
Definition enum_mlx5_cap_type : enumeration :=
  [ ("MLX5_CAP_GENERAL", 0x0); ("MLX5_CAP_ETHERNET_OFFLOADS", 0x1); ("MLX5_CAP_ODP", 0x2);
    ("MLX5_CAP_ATOMIC", 0x3); ("MLX5_CAP_ROCE", 0x4); ("MLX5_CAP_IPOIB_OFFLOADS", 0x5);
    ("MLX5_CAP_IPOIB_ENHANCED_OFFLOADS", 0x6); ("MLX5_CAP_FLOW_TABLE", 0x7); ("MLX5_CAP_ESWITCH_FLOW_TABLE", 0x8);
    ("MLX5_CAP_ESWITCH", 0x9); ("MLX5_CAP_RESERVED", 0xa); ("MLX5_CAP_VECTOR_CALC", 0xb); ("MLX5_CAP_QOS", 0xc);
    ("MLX5_CAP_DEBUG", 0xd); ("MLX5_CAP_RESERVED_14", 0xe); ("MLX5_CAP_DEV_MEM", 0xf);
    ("MLX5_CAP_RESERVED_16", 0x10); ("MLX5_CAP_TLS", 0x11); ("MLX5_CAP_DPP", 0x12);
    ("MLX5_CAP_VDPA_EMULATION", 0x13); ("MLX5_CAP_DEV_EVENT", 0x14); ("MLX5_CAP_IPSEC", 0x15);
    ("MLX5_CAP_PARSE_GRAPH_NODE", 0x1c); ("MLX5_CAP_NVMEOTCP", 0x19); ("MLX5_CAP_CRYPTO", 0x1a);
    ("MLX5_CAP_GENERAL_2", 0x20); ("MLX5_CAP_NUM", 0x21) ].
Definition enum_mlx5_set_hca_cap_op_mod : enumeration :=
  [ ("MLX5_SET_HCA_CAP_OP_MOD_GENERAL_DEVICE", 0x0); ("MLX5_SET_HCA_CAP_OP_MOD_ATOMIC", 0x3) ].
Definition enum_mlx5_general_obj_types_cap : enumeration :=
  [ ("MLX5_GENERAL_OBJ_TYPES_CAP_UCTX", 0x10); ("MLX5_GENERAL_OBJ_TYPES_CAP_UMEM", 0x20) ].
Definition enum_mlx5_obj_type : enumeration :=
  [ ("MLX5_OBJ_TYPE_UCTX", 0x4); ("MLX5_OBJ_TYPE_UMEM", 0x5);
    ("MLX5_OBJ_TYPE_DEVICE_EMULATION_BAR_REGISTERS", 0x6); ("MLX5_OBJ_TYPE_DEVICE_QP_TO_NVME_MAP", 0x7) ].
Definition enum_mlx5_ads_stat_rate : enumeration :=
  [ ("MLX5_ADS_STAT_RATE_NO_LIMIT", 0x0); ("MLX5_ADS_STAT_RATE_2_5GBPS", 0x7); ("MLX5_ADS_STAT_RATE_10GBPS", 0x8);
    ("MLX5_ADS_STAT_RATE_30GBPS", 0x9); ("MLX5_ADS_STAT_RATE_5GBPS", 0xa); ("MLX5_ADS_STAT_RATE_20GBPS", 0xb);
    ("MLX5_ADS_STAT_RATE_40GBPS", 0xc); ("MLX5_ADS_STAT_RATE_60GBPS", 0xd); ("MLX5_ADS_STAT_RATE_80GBPS", 0xe);
    ("MLX5_ADS_STAT_RATE_120GBPS", 0xf) ].
Definition enum_mlx5_atomic_caps_atomic_size_qp : enumeration :=
  [ ("MLX5_ATOMIC_CAPS_ATOMIC_SIZE_QP_1_BYTE", 0x0); ("MLX5_ATOMIC_CAPS_ATOMIC_SIZE_QP_2_BYTES", 0x2);
    ("MLX5_ATOMIC_CAPS_ATOMIC_SIZE_QP_4_BYTES", 0x4); ("MLX5_ATOMIC_CAPS_ATOMIC_SIZE_QP_8_BYTES", 0x8);
    ("MLX5_ATOMIC_CAPS_ATOMIC_SIZE_QP_16_BYTES", 0x10); ("MLX5_ATOMIC_CAPS_ATOMIC_SIZE_QP_32_BYTES", 0x20);
    ("MLX5_ATOMIC_CAPS_ATOMIC_SIZE_QP_64_BYTES", 0x40); ("MLX5_ATOMIC_CAPS_ATOMIC_SIZE_QP_128_BYTES", 0x80);
    ("MLX5_ATOMIC_CAPS_ATOMIC_SIZE_QP_256_BYTES", 0x100) ].
Definition enum_mlx5_atomic_caps_atomic_size_dc : enumeration :=
  [ ("MLX5_ATOMIC_CAPS_ATOMIC_SIZE_DC_1_BYTE", 0x1); ("MLX5_ATOMIC_CAPS_ATOMIC_SIZE_DC_2_BYTES", 0x2);
    ("MLX5_ATOMIC_CAPS_ATOMIC_SIZE_DC_4_BYTES", 0x4); ("MLX5_ATOMIC_CAPS_ATOMIC_SIZE_DC_8_BYTES", 0x8);
    ("MLX5_ATOMIC_CAPS_ATOMIC_SIZE_DC_16_BYTES", 0x10); ("MLX5_ATOMIC_CAPS_ATOMIC_SIZE_DC_32_BYTES", 0x20);
    ("MLX5_ATOMIC_CAPS_ATOMIC_SIZE_DC_64_BYTES", 0x40); ("MLX5_ATOMIC_CAPS_ATOMIC_SIZE_DC_128_BYTES", 0x80);
    ("MLX5_ATOMIC_CAPS_ATOMIC_SIZE_DC_256_BYTES", 0x100) ].
Definition enum_mlx5_wq_type : enumeration :=
  [ ("MLX5_WQ_TYPE_LINKED_LIST", 0x0); ("MLX5_WQ_TYPE_CYCLIC", 0x1);
    ("MLX5_WQ_TYPE_LINKED_LIST_STRIDING_RQ", 0x2); ("MLX5_WQ_TYPE_CYCLIC_STRIDING_RQ", 0x3) ].
Definition enum_mlx5_wq_end_pad_mode : enumeration :=
  [ ("MLX5_WQ_END_PAD_MODE_NONE", 0x0); ("MLX5_WQ_END_PAD_MODE_ALIGN", 0x1) ].
Definition enum_mlx5_cmd_hca_cap_gid_table_size : enumeration :=
  [ ("MLX5_CMD_HCA_CAP_GID_TABLE_SIZE_8_GID_ENTRIES", 0x0);
    ("MLX5_CMD_HCA_CAP_GID_TABLE_SIZE_16_GID_ENTRIES", 0x1);
    ("MLX5_CMD_HCA_CAP_GID_TABLE_SIZE_32_GID_ENTRIES", 0x2);
    ("MLX5_CMD_HCA_CAP_GID_TABLE_SIZE_64_GID_ENTRIES", 0x3);
    ("MLX5_CMD_HCA_CAP_GID_TABLE_SIZE_128_GID_ENTRIES", 0x4) ].
Definition enum_mlx5_cmd_hca_cap_pkey_table_size : enumeration :=
  [ ("MLX5_CMD_HCA_CAP_PKEY_TABLE_SIZE_128_ENTRIES", 0x0); ("MLX5_CMD_HCA_CAP_PKEY_TABLE_SIZE_256_ENTRIES", 0x1);
    ("MLX5_CMD_HCA_CAP_PKEY_TABLE_SIZE_512_ENTRIES", 0x2); ("MLX5_CMD_HCA_CAP_PKEY_TABLE_SIZE_1K_ENTRIES", 0x3);
    ("MLX5_CMD_HCA_CAP_PKEY_TABLE_SIZE_2K_ENTRIES", 0x4); ("MLX5_CMD_HCA_CAP_PKEY_TABLE_SIZE_4K_ENTRIES", 0x5) ].
Definition enum_mlx5_cmd_hca_cap_port_type : enumeration :=
  [ ("MLX5_CMD_HCA_CAP_PORT_TYPE_IB", 0x0); ("MLX5_CMD_HCA_CAP_PORT_TYPE_ETHERNET", 0x1) ].
Definition enum_mlx5_cmd_hca_cap_cmdif_checksum : enumeration :=
  [ ("MLX5_CMD_HCA_CAP_CMDIF_CHECKSUM_DISABLED", 0x0); ("MLX5_CMD_HCA_CAP_CMDIF_CHECKSUM_INITIAL_STATE", 0x1);
    ("MLX5_CMD_HCA_CAP_CMDIF_CHECKSUM_ENABLED", 0x3) ].
Definition enum_mlx5_cap_port_type : enumeration :=
  [ ("MLX5_CAP_PORT_TYPE_IB", 0x0); ("MLX5_CAP_PORT_TYPE_ETH", 0x1) ].
Definition enum_mlx5_cap_umr_fence : enumeration :=
  [ ("MLX5_CAP_UMR_FENCE_STRONG", 0x0); ("MLX5_CAP_UMR_FENCE_SMALL", 0x1); ("MLX5_CAP_UMR_FENCE_NONE", 0x2) ].
Definition enum_mlx5_flow_destination_type : enumeration :=
  [ ("MLX5_FLOW_DESTINATION_TYPE_VPORT", 0x0); ("MLX5_FLOW_DESTINATION_TYPE_FLOW_TABLE", 0x1);
    ("MLX5_FLOW_DESTINATION_TYPE_TIR", 0x2); ("MLX5_FLOW_DESTINATION_TYPE_PORT", 0x99);
    ("MLX5_FLOW_DESTINATION_TYPE_COUNTER", 0x100); ("MLX5_FLOW_DESTINATION_TYPE_FLOW_TABLE_NUM", 0x101) ].
Definition enum_mlx5_rx_hash_field_select_selected_fields : enumeration :=
  [ ("MLX5_RX_HASH_FIELD_SELECT_SELECTED_FIELDS_SRC_IP", 0x0);
    ("MLX5_RX_HASH_FIELD_SELECT_SELECTED_FIELDS_DST_IP", 0x1);
    ("MLX5_RX_HASH_FIELD_SELECT_SELECTED_FIELDS_L4_SPORT", 0x2);
    ("MLX5_RX_HASH_FIELD_SELECT_SELECTED_FIELDS_L4_DPORT", 0x3);
    ("MLX5_RX_HASH_FIELD_SELECT_SELECTED_FIELDS_IPSEC_SPI", 0x4) ].
Definition enum_mlx5_wq_wq_type_wq : enumeration :=
  [ ("MLX5_WQ_WQ_TYPE_WQ_LINKED_LIST", 0x0); ("MLX5_WQ_WQ_TYPE_WQ_CYCLIC", 0x1) ].
Definition enum_mlx5_wq_end_padding_mode_end_pad : enumeration :=
  [ ("MLX5_WQ_END_PADDING_MODE_END_PAD_NONE", 0x0); ("MLX5_WQ_END_PADDING_MODE_END_PAD_ALIGN", 0x1) ].
Definition enum_mlx5_resize_field_select_resize_field_select : enumeration :=
  [ ("MLX5_RESIZE_FIELD_SELECT_RESIZE_FIELD_SELECT_LOG_CQ_SIZE", 0x1);
    ("MLX5_RESIZE_FIELD_SELECT_RESIZE_FIELD_SELECT_PAGE_OFFSET", 0x2);
    ("MLX5_RESIZE_FIELD_SELECT_RESIZE_FIELD_SELECT_LOG_PAGE_SIZE", 0x4) ].
Definition enum_mlx5_modify_field_select_modify_field_select : enumeration :=
  [ ("MLX5_MODIFY_FIELD_SELECT_MODIFY_FIELD_SELECT_CQ_PERIOD", 0x1);
    ("MLX5_MODIFY_FIELD_SELECT_MODIFY_FIELD_SELECT_CQ_MAX_COUNT", 0x2);
    ("MLX5_MODIFY_FIELD_SELECT_MODIFY_FIELD_SELECT_OI", 0x4);
    ("MLX5_MODIFY_FIELD_SELECT_MODIFY_FIELD_SELECT_C_EQN", 0x8) ].
Definition enum_mlx5_field_select_802_1qau_rp_field_select_8021qaurp : enumeration :=
  [ ("MLX5_FIELD_SELECT_802_1QAU_RP_FIELD_SELECT_8021QAURP_RPPP_MAX_RPS", 0x4);
    ("MLX5_FIELD_SELECT_802_1QAU_RP_FIELD_SELECT_8021QAURP_RPG_TIME_RESET", 0x8);
    ("MLX5_FIELD_SELECT_802_1QAU_RP_FIELD_SELECT_8021QAURP_RPG_BYTE_RESET", 0x10);
    ("MLX5_FIELD_SELECT_802_1QAU_RP_FIELD_SELECT_8021QAURP_RPG_THRESHOLD", 0x20);
    ("MLX5_FIELD_SELECT_802_1QAU_RP_FIELD_SELECT_8021QAURP_RPG_MAX_RATE", 0x40);
    ("MLX5_FIELD_SELECT_802_1QAU_RP_FIELD_SELECT_8021QAURP_RPG_AI_RATE", 0x80);
    ("MLX5_FIELD_SELECT_802_1QAU_RP_FIELD_SELECT_8021QAURP_RPG_HAI_RATE", 0x100);
    ("MLX5_FIELD_SELECT_802_1QAU_RP_FIELD_SELECT_8021QAURP_RPG_GD", 0x200);
    ("MLX5_FIELD_SELECT_802_1QAU_RP_FIELD_SELECT_8021QAURP_RPG_MIN_DEC_FAC", 0x400);
    ("MLX5_FIELD_SELECT_802_1QAU_RP_FIELD_SELECT_8021QAURP_RPG_MIN_RATE", 0x800) ].
Definition enum_mlx5_cq_error_syndrome_cq : enumeration :=
  [ ("MLX5_CQ_ERROR_SYNDROME_CQ_OVERRUN", 0x1); ("MLX5_CQ_ERROR_SYNDROME_CQ_ACCESS_VIOLATION_ERROR", 0x2) ].
Definition enum_mlx5_qpc_state : enumeration :=
  [ ("MLX5_QPC_STATE_RST", 0x0); ("MLX5_QPC_STATE_INIT", 0x1); ("MLX5_QPC_STATE_RTR", 0x2);
    ("MLX5_QPC_STATE_RTS", 0x3); ("MLX5_QPC_STATE_SQER", 0x4); ("MLX5_QPC_STATE_ERR", 0x6);
    ("MLX5_QPC_STATE_SQD", 0x7); ("MLX5_QPC_STATE_SUSPENDED", 0x9) ].
Definition enum_mlx5_qpc_st : enumeration :=
  [ ("MLX5_QPC_ST_RC", 0x0); ("MLX5_QPC_ST_UC", 0x1); ("MLX5_QPC_ST_UD", 0x2); ("MLX5_QPC_ST_XRC", 0x3);
    ("MLX5_QPC_ST_DCI", 0x5); ("MLX5_QPC_ST_QP0", 0x7); ("MLX5_QPC_ST_QP1", 0x8);
    ("MLX5_QPC_ST_RAW_DATAGRAM", 0x9); ("MLX5_QPC_ST_REG_UMR", 0xc) ].
Definition enum_mlx5_qpc_pm_state : enumeration :=
  [ ("MLX5_QPC_PM_STATE_ARMED", 0x0); ("MLX5_QPC_PM_STATE_REARM", 0x1); ("MLX5_QPC_PM_STATE_RESERVED", 0x2);
    ("MLX5_QPC_PM_STATE_MIGRATED", 0x3) ].
Definition enum_mlx5_qpc_offload : enumeration :=
  [ ("MLX5_QPC_OFFLOAD_TYPE_RNDV", 0x1) ].
Definition enum_mlx5_qpc_end_padding_mode : enumeration :=
  [ ("MLX5_QPC_END_PADDING_MODE_SCATTER_AS_IS", 0x0);
    ("MLX5_QPC_END_PADDING_MODE_PAD_TO_CACHE_LINE_ALIGNMENT", 0x1) ].
Definition enum_mlx5_qpc_mtu : enumeration :=
  [ ("MLX5_QPC_MTU_256_BYTES", 0x1); ("MLX5_QPC_MTU_512_BYTES", 0x2); ("MLX5_QPC_MTU_1K_BYTES", 0x3);
    ("MLX5_QPC_MTU_2K_BYTES", 0x4); ("MLX5_QPC_MTU_4K_BYTES", 0x5); ("MLX5_QPC_MTU_RAW_ETHERNET_QP", 0x7) ].
Definition enum_mlx5_qpc_atomic_mode : enumeration :=
  [ ("MLX5_QPC_ATOMIC_MODE_IB_SPEC", 0x1); ("MLX5_QPC_ATOMIC_MODE_ONLY_8B", 0x2);
    ("MLX5_QPC_ATOMIC_MODE_UP_TO_8B", 0x3); ("MLX5_QPC_ATOMIC_MODE_UP_TO_16B", 0x4);
    ("MLX5_QPC_ATOMIC_MODE_UP_TO_32B", 0x5); ("MLX5_QPC_ATOMIC_MODE_UP_TO_64B", 0x6);
    ("MLX5_QPC_ATOMIC_MODE_UP_TO_128B", 0x7); ("MLX5_QPC_ATOMIC_MODE_UP_TO_256B", 0x8) ].
Definition enum_mlx5_qpc_cs_req : enumeration :=
  [ ("MLX5_QPC_CS_REQ_DISABLE", 0x0); ("MLX5_QPC_CS_REQ_UP_TO_32B", 0x11); ("MLX5_QPC_CS_REQ_UP_TO_64B", 0x22) ].
Definition enum_mlx5_qpc_cs_res : enumeration :=
  [ ("MLX5_QPC_CS_RES_DISABLE", 0x0); ("MLX5_QPC_CS_RES_UP_TO_32B", 0x1); ("MLX5_QPC_CS_RES_UP_TO_64B", 0x2) ].
Definition enum_mlx5_flow_context_action : enumeration :=
  [ ("MLX5_FLOW_CONTEXT_ACTION_ALLOW", 0x1); ("MLX5_FLOW_CONTEXT_ACTION_DROP", 0x2);
    ("MLX5_FLOW_CONTEXT_ACTION_FWD_DEST", 0x4); ("MLX5_FLOW_CONTEXT_ACTION_COUNT", 0x8);
    ("MLX5_FLOW_CONTEXT_ACTION_PACKET_REFORMAT", 0x10); ("MLX5_FLOW_CONTEXT_ACTION_DECAP", 0x20);
    ("MLX5_FLOW_CONTEXT_ACTION_MOD_HDR", 0x40); ("MLX5_FLOW_CONTEXT_ACTION_VLAN_POP", 0x80);
    ("MLX5_FLOW_CONTEXT_ACTION_VLAN_PUSH", 0x100); ("MLX5_FLOW_CONTEXT_ACTION_REPARSE", 0x8000) ].
Definition enum_mlx5_xrc_srqc_state : enumeration :=
  [ ("MLX5_XRC_SRQC_STATE_GOOD", 0x0); ("MLX5_XRC_SRQC_STATE_ERROR", 0x1) ].
Definition enum_mlx5_tirc_disp_type : enumeration :=
  [ ("MLX5_TIRC_DISP_TYPE_DIRECT", 0x0); ("MLX5_TIRC_DISP_TYPE_INDIRECT", 0x1) ].
Definition enum_mlx5_tirc_lro_enable_mask : enumeration :=
  [ ("MLX5_TIRC_LRO_ENABLE_MASK_IPV4_LRO", 0x1); ("MLX5_TIRC_LRO_ENABLE_MASK_IPV6_LRO", 0x2) ].
Definition enum_mlx5_rx_hash_fn : enumeration :=
  [ ("MLX5_RX_HASH_FN_NONE", 0x0); ("MLX5_RX_HASH_FN_INVERTED_XOR8", 0x1); ("MLX5_RX_HASH_FN_TOEPLITZ", 0x2) ].
Definition enum_mlx5_tirc_self_lb_block_block : enumeration :=
  [ ("MLX5_TIRC_SELF_LB_BLOCK_BLOCK_UNICAST_", 0x1); ("MLX5_TIRC_SELF_LB_BLOCK_BLOCK_MULTICAST_", 0x2) ].
Definition enum_mlx5_srqc_state : enumeration :=
  [ ("MLX5_SRQC_STATE_GOOD", 0x0); ("MLX5_SRQC_STATE_ERROR", 0x1) ].
Definition enum_mlx5_sqc_state : enumeration :=
  [ ("MLX5_SQC_STATE_RST", 0x0); ("MLX5_SQC_STATE_RDY", 0x1); ("MLX5_SQC_STATE_ERR", 0x3) ].
Definition enum_scheduling_context_element_type : enumeration :=
  [ ("SCHEDULING_CONTEXT_ELEMENT_TYPE_TSAR", 0x0); ("SCHEDULING_CONTEXT_ELEMENT_TYPE_VPORT", 0x1);
    ("SCHEDULING_CONTEXT_ELEMENT_TYPE_VPORT_TC", 0x2); ("SCHEDULING_CONTEXT_ELEMENT_TYPE_PARA_VPORT_TC", 0x3) ].
Definition enum_mlx5_rqc_mem_rq_type_memory_rq : enumeration :=
  [ ("MLX5_RQC_MEM_RQ_TYPE_MEMORY_RQ_INLINE", 0x0); ("MLX5_RQC_MEM_RQ_TYPE_MEMORY_RQ_RMP", 0x1) ].
Definition enum_mlx5_rqc_state : enumeration :=
  [ ("MLX5_RQC_STATE_RST", 0x0); ("MLX5_RQC_STATE_RDY", 0x1); ("MLX5_RQC_STATE_ERR", 0x3) ].
Definition enum_mlx5_rmpc_state : enumeration :=
  [ ("MLX5_RMPC_STATE_RDY", 0x1); ("MLX5_RMPC_STATE_ERR", 0x3) ].
Definition enum_mlx5_mkc_access_mode : enumeration :=
  [ ("MLX5_MKC_ACCESS_MODE_PA", 0x0); ("MLX5_MKC_ACCESS_MODE_MTT", 0x1); ("MLX5_MKC_ACCESS_MODE_KLMS", 0x2);
    ("MLX5_MKC_ACCESS_MODE_KSM", 0x3); ("MLX5_MKC_ACCESS_MODE_MEMIC", 0x5) ].
Definition enum_mlx5_eqc_status : enumeration :=
  [ ("MLX5_EQC_STATUS_OK", 0x0); ("MLX5_EQC_STATUS_EQ_WRITE_FAILURE", 0xa) ].
Definition enum_mlx5_eqc_st : enumeration :=
  [ ("MLX5_EQC_ST_ARMED", 0x9); ("MLX5_EQC_ST_FIRED", 0xa) ].
Definition enum_mlx5_dctc_state : enumeration :=
  [ ("MLX5_DCTC_STATE_ACTIVE", 0x0); ("MLX5_DCTC_STATE_DRAINING", 0x1); ("MLX5_DCTC_STATE_DRAINED", 0x2) ].
Definition enum_mlx5_dctc_cs_res : enumeration :=
  [ ("MLX5_DCTC_CS_RES_DISABLE", 0x0); ("MLX5_DCTC_CS_RES_NA", 0x1); ("MLX5_DCTC_CS_RES_UP_TO_64B", 0x2) ].
Definition enum_mlx5_dctc_mtu : enumeration :=
  [ ("MLX5_DCTC_MTU_256_BYTES", 0x1); ("MLX5_DCTC_MTU_512_BYTES", 0x2); ("MLX5_DCTC_MTU_1K_BYTES", 0x3);
    ("MLX5_DCTC_MTU_2K_BYTES", 0x4); ("MLX5_DCTC_MTU_4K_BYTES", 0x5) ].
Definition enum_mlx5_cqc_status : enumeration :=
  [ ("MLX5_CQC_STATUS_OK", 0x0); ("MLX5_CQC_STATUS_CQ_OVERFLOW", 0x9); ("MLX5_CQC_STATUS_CQ_WRITE_FAIL", 0xa) ].
Definition enum_mlx5_cqc_cqe_sz : enumeration :=
  [ ("MLX5_CQC_CQE_SZ_64_BYTES", 0x0); ("MLX5_CQC_CQE_SZ_128_BYTES", 0x1) ].
Definition enum_mlx5_cqc_st : enumeration :=
  [ ("MLX5_CQC_ST_SOLICITED_NOTIFICATION_REQUEST_ARMED", 0x6); ("MLX5_CQC_ST_NOTIFICATION_REQUEST_ARMED", 0x9);
    ("MLX5_CQC_ST_FIRED", 0xa) ].
Definition enum_mlx5_cq_period : enumeration :=
  [ ("MLX5_CQ_PERIOD_MODE_START_FROM_EQE", 0x0); ("MLX5_CQ_PERIOD_MODE_START_FROM_CQE", 0x1);
    ("MLX5_CQ_PERIOD_NUM_MODES", 0x2) ].
Definition enum_mlx5_xrqc_state : enumeration :=
  [ ("MLX5_XRQC_STATE_GOOD", 0x0); ("MLX5_XRQC_STATE_ERROR", 0x1) ].
Definition enum_mlx5_xrqc_topology : enumeration :=
  [ ("MLX5_XRQC_TOPOLOGY_NO_SPECIAL_TOPOLOGY", 0x0); ("MLX5_XRQC_TOPOLOGY_TAG_MATCHING", 0x1) ].
Definition enum_mlx5_xrqc : enumeration :=
  [ ("MLX5_XRQC_OFFLOAD_RNDV", 0x1) ].
Definition enum_tsar_element_tsar_type : enumeration :=
  [ ("TSAR_ELEMENT_TSAR_TYPE_DWRR", 0x0); ("TSAR_ELEMENT_TSAR_TYPE_ROUND_ROBIN", 0x1);
    ("TSAR_ELEMENT_TSAR_TYPE_ETS", 0x2) ].
Definition enum_mlx5_teardown_hca_out_force_state : enumeration :=
  [ ("MLX5_TEARDOWN_HCA_OUT_FORCE_STATE_SUCCESS", 0x0); ("MLX5_TEARDOWN_HCA_OUT_FORCE_STATE_FAIL", 0x1) ].
Definition enum_mlx5_teardown_hca_in_profile : enumeration :=
  [ ("MLX5_TEARDOWN_HCA_IN_PROFILE_GRACEFUL_CLOSE", 0x0); ("MLX5_TEARDOWN_HCA_IN_PROFILE_FORCE_CLOSE", 0x1) ].
Definition enum_mlx5_set_mad_demux_in_demux_mode : enumeration :=
  [ ("MLX5_SET_MAD_DEMUX_IN_DEMUX_MODE_PASS_ALL", 0x0); ("MLX5_SET_MAD_DEMUX_IN_DEMUX_MODE_SELECTIVE", 0x2) ].
Definition enum_mlx5_set_fte_modify_enable_mask : enumeration :=
  [ ("MLX5_SET_FTE_MODIFY_ENABLE_MASK_ACTION", 0x0); ("MLX5_SET_FTE_MODIFY_ENABLE_MASK_FLOW_TAG", 0x1);
    ("MLX5_SET_FTE_MODIFY_ENABLE_MASK_DESTINATION_LIST", 0x2);
    ("MLX5_SET_FTE_MODIFY_ENABLE_MASK_FLOW_COUNTERS", 0x3) ].
Definition enum_mlx5_query_vport_state_out_state : enumeration :=
  [ ("MLX5_QUERY_VPORT_STATE_OUT_STATE_DOWN", 0x0); ("MLX5_QUERY_VPORT_STATE_OUT_STATE_UP", 0x1) ].
Definition enum_mlx5_query_vport_state_in_op_mod : enumeration :=
  [ ("MLX5_QUERY_VPORT_STATE_IN_OP_MOD_VNIC_VPORT", 0x0); ("MLX5_QUERY_VPORT_STATE_IN_OP_MOD_ESW_VPORT", 0x1) ].
Definition enum_mlx5_query_vnic_env_in_op_mod_vport : enumeration :=
  [ ("MLX5_QUERY_VNIC_ENV_IN_OP_MOD_VPORT_DIAG_STATISTICS", 0x0) ].
Definition enum_mlx5_query_vport_counter_in_op_mod : enumeration :=
  [ ("MLX5_QUERY_VPORT_COUNTER_IN_OP_MOD_VPORT_COUNTERS", 0x0) ].
Definition enum_scheduling_hierarchy : enumeration :=
  [ ("SCHEDULING_HIERARCHY_E_SWITCH", 0x2) ].
Definition enum_mlx5_query_pages_in_op_mod : enumeration :=
  [ ("MLX5_QUERY_PAGES_IN_OP_MOD_BOOT_PAGES", 0x1); ("MLX5_QUERY_PAGES_IN_OP_MOD_INIT_PAGES", 0x2);
    ("MLX5_QUERY_PAGES_IN_OP_MOD_REGULAR_PAGES", 0x3) ].
Definition enum_mlx5_hca_vport_sel : enumeration :=
  [ ("MLX5_HCA_VPORT_SEL_PORT_GUID", 0x1); ("MLX5_HCA_VPORT_SEL_NODE_GUID", 0x2);
    ("MLX5_HCA_VPORT_SEL_STATE_POLICY", 0x4) ].
Definition enum_mlx5_query_flow_group_out_match_criteria_enable : enumeration :=
  [ ("MLX5_QUERY_FLOW_GROUP_OUT_MATCH_CRITERIA_ENABLE_OUTER_HEADERS", 0x0);
    ("MLX5_QUERY_FLOW_GROUP_OUT_MATCH_CRITERIA_ENABLE_MISC_PARAMETERS", 0x1);
    ("MLX5_QUERY_FLOW_GROUP_OUT_MATCH_CRITERIA_ENABLE_INNER_HEADERS", 0x2) ].
Definition enum_mlx5_reformat_context_anchor : enumeration :=
  [ ("MLX5_REFORMAT_CONTEXT_ANCHOR_MAC_START", 0x1); ("MLX5_REFORMAT_CONTEXT_ANCHOR_IP_START", 0x7);
    ("MLX5_REFORMAT_CONTEXT_ANCHOR_TCP_UDP_START", 0x9) ].
Definition enum_mlx5_reformat_ctx_type : enumeration :=
  [ ("MLX5_REFORMAT_TYPE_L2_TO_VXLAN", 0x0); ("MLX5_REFORMAT_TYPE_L2_TO_NVGRE", 0x1);
    ("MLX5_REFORMAT_TYPE_L2_TO_L2_TUNNEL", 0x2); ("MLX5_REFORMAT_TYPE_L3_TUNNEL_TO_L2", 0x3);
    ("MLX5_REFORMAT_TYPE_L2_TO_L3_TUNNEL", 0x4); ("MLX5_REFORMAT_TYPE_ADD_ESP_TRANSPORT_OVER_IPV4", 0x5);
    ("MLX5_REFORMAT_TYPE_DEL_ESP_TRANSPORT", 0x8); ("MLX5_REFORMAT_TYPE_ADD_ESP_TRANSPORT_OVER_IPV6", 0xb);
    ("MLX5_REFORMAT_TYPE_INSERT_HDR", 0xf); ("MLX5_REFORMAT_TYPE_REMOVE_HDR", 0x10) ].
Definition enum_mlx5_action_type : enumeration :=
  [ ("MLX5_ACTION_TYPE_SET", 0x1); ("MLX5_ACTION_TYPE_ADD", 0x2); ("MLX5_ACTION_TYPE_COPY", 0x3) ].
Definition enum_mlx5_action_in_field_out : enumeration :=
  [ ("MLX5_ACTION_IN_FIELD_OUT_SMAC_47_16", 0x1); ("MLX5_ACTION_IN_FIELD_OUT_SMAC_15_0", 0x2);
    ("MLX5_ACTION_IN_FIELD_OUT_ETHERTYPE", 0x3); ("MLX5_ACTION_IN_FIELD_OUT_DMAC_47_16", 0x4);
    ("MLX5_ACTION_IN_FIELD_OUT_DMAC_15_0", 0x5); ("MLX5_ACTION_IN_FIELD_OUT_IP_DSCP", 0x6);
    ("MLX5_ACTION_IN_FIELD_OUT_TCP_FLAGS", 0x7); ("MLX5_ACTION_IN_FIELD_OUT_TCP_SPORT", 0x8);
    ("MLX5_ACTION_IN_FIELD_OUT_TCP_DPORT", 0x9); ("MLX5_ACTION_IN_FIELD_OUT_IP_TTL", 0xa);
    ("MLX5_ACTION_IN_FIELD_OUT_UDP_SPORT", 0xb); ("MLX5_ACTION_IN_FIELD_OUT_UDP_DPORT", 0xc);
    ("MLX5_ACTION_IN_FIELD_OUT_SIPV6_127_96", 0xd); ("MLX5_ACTION_IN_FIELD_OUT_SIPV6_95_64", 0xe);
    ("MLX5_ACTION_IN_FIELD_OUT_SIPV6_63_32", 0xf); ("MLX5_ACTION_IN_FIELD_OUT_SIPV6_31_0", 0x10);
    ("MLX5_ACTION_IN_FIELD_OUT_DIPV6_127_96", 0x11); ("MLX5_ACTION_IN_FIELD_OUT_DIPV6_95_64", 0x12);
    ("MLX5_ACTION_IN_FIELD_OUT_DIPV6_63_32", 0x13); ("MLX5_ACTION_IN_FIELD_OUT_DIPV6_31_0", 0x14);
    ("MLX5_ACTION_IN_FIELD_OUT_SIPV4", 0x15); ("MLX5_ACTION_IN_FIELD_OUT_DIPV4", 0x16);
    ("MLX5_ACTION_IN_FIELD_OUT_IPV6_HOPLIMIT", 0x47) ].
Definition enum_modify_scheduling_element_in_modify_bitmask : enumeration :=
  [ ("MODIFY_SCHEDULING_ELEMENT_IN_MODIFY_BITMASK_BW_SHARE", 0x1);
    ("MODIFY_SCHEDULING_ELEMENT_IN_MODIFY_BITMASK_MAX_AVERAGE_BW", 0x2) ].
Definition enum_mlx5_modify_rq_in_modify_bitmask : enumeration :=
  [ ("MLX5_MODIFY_RQ_IN_MODIFY_BITMASK_VSD", 0x2); ("MLX5_MODIFY_RQ_IN_MODIFY_BITMASK_SCATTER_FCS", 0x4);
    ("MLX5_MODIFY_RQ_IN_MODIFY_BITMASK_RQ_COUNTER_SET_ID", 0x8) ].
Definition enum_mlx5_modify_cq_in_op_mod : enumeration :=
  [ ("MLX5_MODIFY_CQ_IN_OP_MOD_MODIFY_CQ", 0x0); ("MLX5_MODIFY_CQ_IN_OP_MOD_RESIZE_CQ", 0x1) ].
Definition enum_mlx5_manage_pages_in_op_mod : enumeration :=
  [ ("MLX5_MANAGE_PAGES_IN_OP_MOD_ALLOCATION_FAIL", 0x0); ("MLX5_MANAGE_PAGES_IN_OP_MOD_ALLOCATION_SUCCESS", 0x1);
    ("MLX5_MANAGE_PAGES_IN_OP_MOD_HCA_RETURN_PAGES", 0x2) ].
Definition enum_mlx5_create_flow_group_in_match_criteria_enable : enumeration :=
  [ ("MLX5_CREATE_FLOW_GROUP_IN_MATCH_CRITERIA_ENABLE_OUTER_HEADERS", 0x0);
    ("MLX5_CREATE_FLOW_GROUP_IN_MATCH_CRITERIA_ENABLE_MISC_PARAMETERS", 0x1);
    ("MLX5_CREATE_FLOW_GROUP_IN_MATCH_CRITERIA_ENABLE_INNER_HEADERS", 0x2) ].
Definition enum_mlx5_config_int_moderation_in_op_mod : enumeration :=
  [ ("MLX5_CONFIG_INT_MODERATION_IN_OP_MOD_WRITE", 0x0); ("MLX5_CONFIG_INT_MODERATION_IN_OP_MOD_READ", 0x1) ].
Definition enum_mlx5_arm_xrc_srq_in_op_mod : enumeration :=
  [ ("MLX5_ARM_XRC_SRQ_IN_OP_MOD_XRC_SRQ", 0x1) ].
Definition enum_mlx5_arm_rq_in_op_mod : enumeration :=
  [ ("MLX5_ARM_RQ_IN_OP_MOD_SRQ", 0x1); ("MLX5_ARM_RQ_IN_OP_MOD_XRQ", 0x2) ].
Definition enum_mlx5_access_register_in_op_mod : enumeration :=
  [ ("MLX5_ACCESS_REGISTER_IN_OP_MOD_WRITE", 0x0); ("MLX5_ACCESS_REGISTER_IN_OP_MOD_READ", 0x1) ].
Definition enum_mlx5_cmd_queue_entry_type_pcie_cmd : enumeration :=
  [ ("MLX5_CMD_QUEUE_ENTRY_TYPE_PCIE_CMD_IF_TRANSPORT", 0x7) ].
Definition enum_mlx5_initial_seg_nic_interface : enumeration :=
  [ ("MLX5_INITIAL_SEG_NIC_INTERFACE_FULL_DRIVER", 0x0); ("MLX5_INITIAL_SEG_NIC_INTERFACE_DISABLED", 0x1);
    ("MLX5_INITIAL_SEG_NIC_INTERFACE_NO_DRAM_NIC", 0x2) ].
Definition enum_mlx5_initial_seg_nic_interface_supported : enumeration :=
  [ ("MLX5_INITIAL_SEG_NIC_INTERFACE_SUPPORTED_FULL_DRIVER", 0x0);
    ("MLX5_INITIAL_SEG_NIC_INTERFACE_SUPPORTED_DISABLED", 0x1);
    ("MLX5_INITIAL_SEG_NIC_INTERFACE_SUPPORTED_NO_DRAM_NIC", 0x2) ].
Definition enum_mlx5_initial_seg_health_syndrome : enumeration :=
  [ ("MLX5_INITIAL_SEG_HEALTH_SYNDROME_FW_INTERNAL_ERR", 0x1);
    ("MLX5_INITIAL_SEG_HEALTH_SYNDROME_DEAD_IRISC", 0x7); ("MLX5_INITIAL_SEG_HEALTH_SYNDROME_HW_FATAL_ERR", 0x8);
    ("MLX5_INITIAL_SEG_HEALTH_SYNDROME_FW_CRC_ERR", 0x9);
    ("MLX5_INITIAL_SEG_HEALTH_SYNDROME_ICM_FETCH_PCI_ERR", 0xa);
    ("MLX5_INITIAL_SEG_HEALTH_SYNDROME_ICM_PAGE_ERR", 0xb);
    ("MLX5_INITIAL_SEG_HEALTH_SYNDROME_ASYNCHRONOUS_EQ_BUF_OVERRUN", 0xc);
    ("MLX5_INITIAL_SEG_HEALTH_SYNDROME_EQ_IN_ERR", 0xd); ("MLX5_INITIAL_SEG_HEALTH_SYNDROME_EQ_INV", 0xe);
    ("MLX5_INITIAL_SEG_HEALTH_SYNDROME_FFSER_ERR", 0xf); ("MLX5_INITIAL_SEG_HEALTH_SYNDROME_HIGH_TEMP_ERR", 0x10) ].
Definition enum_mlx5_modify_flow_table : enumeration :=
  [ ("MLX5_MODIFY_FLOW_TABLE_MISS_TABLE_ID", 0x1); ("MLX5_MODIFY_FLOW_TABLE_LAG_NEXT_TABLE_ID", 0x8000) ].
Definition enum_mlx5_general_object_type_encryption_key_key_size : enumeration :=
  [ ("MLX5_GENERAL_OBJECT_TYPE_ENCRYPTION_KEY_KEY_SIZE_128", 0x0);
    ("MLX5_GENERAL_OBJECT_TYPE_ENCRYPTION_KEY_KEY_SIZE_256", 0x1) ].
Definition enum_mlx5_general_object_type_encryption_key_type : enumeration :=
  [ ("MLX5_GENERAL_OBJECT_TYPE_ENCRYPTION_KEY_TYPE_TLS", 0x1);
    ("MLX5_GENERAL_OBJECT_TYPE_ENCRYPTION_KEY_TYPE_IPSEC", 0x2);
    ("MLX5_GENERAL_OBJECT_TYPE_ENCRYPTION_KEY_TYPE_AES_XTS", 0x3) ].
Definition enum_mlx5_general_object_types : enumeration :=
  [ ("MLX5_GENERAL_OBJECT_TYPES_ENCRYPTION_KEY", 0xc); ("MLX5_GENERAL_OBJECT_TYPES_IPSEC", 0x13);
    ("MLX5_GENERAL_OBJECT_TYPES_SAMPLER", 0x20); ("MLX5_GENERAL_OBJECT_TYPES_NVMEOTCP_TAG_BUFFER_TABLE", 0x21);
    ("MLX5_GENERAL_OBJECT_TYPES_PARSE_GRAPH_NODE", 0x22) ].
Definition enum_mlx5_hca_cap_general_object_types : enumeration :=
  [ ("MLX5_HCA_CAP_GENERAL_OBJECT_TYPES_ENCRYPTION_KEY", 0x1000);
    ("MLX5_HCA_CAP_GENERAL_OBJECT_TYPES_IPSEC", 0x80000);
    ("MLX5_HCA_CAP_GENERAL_OBJECT_TYPES_SAMPLER", 0x100000000);
    ("MLX5_HCA_CAP_GENERAL_OBJECT_TYPES_NVMEOTCP_TAG_BUFFER_TABLE", 0x200000000);
    ("MLX5_HCA_CAP_GENERAL_OBJECT_TYPES_PARSE_GRAPH_NODE", 0x400000000) ].

(** All of them. *)
Definition enumerations : list enumeration :=
  [ enum_mlx5_event_type_coding; enum_mlx5_modify_tir_bitmask; enum_mlx5_cap_mode; enum_mlx5_cap_type;
    enum_mlx5_set_hca_cap_op_mod; enum_mlx5_general_obj_types_cap; enum_mlx5_obj_type; enum_mlx5_ads_stat_rate;
    enum_mlx5_atomic_caps_atomic_size_qp; enum_mlx5_atomic_caps_atomic_size_dc; enum_mlx5_wq_type;
    enum_mlx5_wq_end_pad_mode; enum_mlx5_cmd_hca_cap_gid_table_size; enum_mlx5_cmd_hca_cap_pkey_table_size;
    enum_mlx5_cmd_hca_cap_port_type; enum_mlx5_cmd_hca_cap_cmdif_checksum; enum_mlx5_cap_port_type;
    enum_mlx5_cap_umr_fence; enum_mlx5_flow_destination_type; enum_mlx5_rx_hash_field_select_selected_fields;
    enum_mlx5_wq_wq_type_wq; enum_mlx5_wq_end_padding_mode_end_pad;
    enum_mlx5_resize_field_select_resize_field_select; enum_mlx5_modify_field_select_modify_field_select;
    enum_mlx5_field_select_802_1qau_rp_field_select_8021qaurp; enum_mlx5_cq_error_syndrome_cq;
    enum_mlx5_qpc_state; enum_mlx5_qpc_st; enum_mlx5_qpc_pm_state; enum_mlx5_qpc_offload;
    enum_mlx5_qpc_end_padding_mode; enum_mlx5_qpc_mtu; enum_mlx5_qpc_atomic_mode; enum_mlx5_qpc_cs_req;
    enum_mlx5_qpc_cs_res; enum_mlx5_flow_context_action; enum_mlx5_xrc_srqc_state; enum_mlx5_tirc_disp_type;
    enum_mlx5_tirc_lro_enable_mask; enum_mlx5_rx_hash_fn; enum_mlx5_tirc_self_lb_block_block;
    enum_mlx5_srqc_state; enum_mlx5_sqc_state; enum_scheduling_context_element_type;
    enum_mlx5_rqc_mem_rq_type_memory_rq; enum_mlx5_rqc_state; enum_mlx5_rmpc_state; enum_mlx5_mkc_access_mode;
    enum_mlx5_eqc_status; enum_mlx5_eqc_st; enum_mlx5_dctc_state; enum_mlx5_dctc_cs_res; enum_mlx5_dctc_mtu;
    enum_mlx5_cqc_status; enum_mlx5_cqc_cqe_sz; enum_mlx5_cqc_st; enum_mlx5_cq_period; enum_mlx5_xrqc_state;
    enum_mlx5_xrqc_topology; enum_mlx5_xrqc; enum_tsar_element_tsar_type; enum_mlx5_teardown_hca_out_force_state;
    enum_mlx5_teardown_hca_in_profile; enum_mlx5_set_mad_demux_in_demux_mode;
    enum_mlx5_set_fte_modify_enable_mask; enum_mlx5_query_vport_state_out_state;
    enum_mlx5_query_vport_state_in_op_mod; enum_mlx5_query_vnic_env_in_op_mod_vport;
    enum_mlx5_query_vport_counter_in_op_mod; enum_scheduling_hierarchy; enum_mlx5_query_pages_in_op_mod;
    enum_mlx5_hca_vport_sel; enum_mlx5_query_flow_group_out_match_criteria_enable;
    enum_mlx5_reformat_context_anchor; enum_mlx5_reformat_ctx_type; enum_mlx5_action_type;
    enum_mlx5_action_in_field_out; enum_modify_scheduling_element_in_modify_bitmask;
    enum_mlx5_modify_rq_in_modify_bitmask; enum_mlx5_modify_cq_in_op_mod; enum_mlx5_manage_pages_in_op_mod;
    enum_mlx5_create_flow_group_in_match_criteria_enable; enum_mlx5_config_int_moderation_in_op_mod;
    enum_mlx5_arm_xrc_srq_in_op_mod; enum_mlx5_arm_rq_in_op_mod; enum_mlx5_access_register_in_op_mod;
    enum_mlx5_cmd_queue_entry_type_pcie_cmd; enum_mlx5_initial_seg_nic_interface;
    enum_mlx5_initial_seg_nic_interface_supported; enum_mlx5_initial_seg_health_syndrome;
    enum_mlx5_modify_flow_table; enum_mlx5_general_object_type_encryption_key_key_size;
    enum_mlx5_general_object_type_encryption_key_type; enum_mlx5_general_object_types;
    enum_mlx5_hca_cap_general_object_types ].

(** The enumerator of a value, and the value of an enumerator. *)
Definition enum_name (e : enumeration) (v : Z) : option string := fst <$> find (fun x => x.2 =? v) e.
Definition enum_value (e : enumeration) (n : string) : option Z := snd <$> find (fun x => String.eqb x.1 n) e.

(** ** Names and values *)

Lemma values_distinct : Forall (fun e : enumeration => NoDup e.*2) enumerations.
Proof. apply (bool_decide_unpack _). vm_compute. exact Logic.I. Qed.

Lemma find_unique {A} (f : A -> Z) l x : NoDup (f <$> l) -> x ∈ l -> find (fun y => f y =? f x) l = Some x.
Proof.
  intros Hn Hx. induction l as [|y l IH]; [by apply not_elem_of_nil in Hx|]. csimpl in *. apply list.NoDup_cons in Hn as [Hy Hn].
  destruct (Z.eqb_spec (f y) (f x)) as [E|E].
  - apply elem_of_cons in Hx as [->|Hx]; [done|]. exfalso. apply Hy. rewrite E. by apply list_elem_of_fmap_2.
  - apply elem_of_cons in Hx as [->|Hx]; [done|]. by apply IH.
Qed.

(** In every enumeration of the header a value names its enumerator. *)
Theorem enum_name_value e n v : e ∈ enumerations -> (n, v) ∈ e -> enum_name e v = Some n.
Proof.
  intros He Hn. pose proof values_distinct as Hd. rewrite list.Forall_forall in Hd. unfold enum_name.
  pose proof (find_unique snd e (n, v) (Hd e He) Hn) as E. cbn [snd] in E. by rewrite E.
Qed.

(** The constants of the development. *)
Definition used_constants : list (enumeration * string * Z) :=
  [ (enum_mlx5_cap_mode, "HCA_CAP_OPMOD_GET_MAX", HCA_CAP_OPMOD_GET_MAX);
    (enum_mlx5_cap_mode, "HCA_CAP_OPMOD_GET_CUR", HCA_CAP_OPMOD_GET_CUR);
    (enum_mlx5_cap_type, "MLX5_CAP_GENERAL", MLX5_CAP_GENERAL);
    (enum_mlx5_cap_type, "MLX5_CAP_ETHERNET_OFFLOADS", MLX5_CAP_ETHERNET_OFFLOADS);
    (enum_mlx5_cap_type, "MLX5_CAP_FLOW_TABLE", MLX5_CAP_FLOW_TABLE);
    (enum_mlx5_cap_type, "MLX5_CAP_TLS", MLX5_CAP_TLS); (enum_mlx5_cap_type, "MLX5_CAP_DPP", MLX5_CAP_DPP);
    (enum_mlx5_cap_type, "MLX5_CAP_PARSE_GRAPH_NODE", MLX5_CAP_PARSE_GRAPH_NODE);
    (enum_mlx5_cap_type, "MLX5_CAP_NVMEOTCP", MLX5_CAP_NVMEOTCP);
    (enum_mlx5_cap_type, "MLX5_CAP_CRYPTO", MLX5_CAP_CRYPTO);
    (enum_mlx5_cap_type, "MLX5_CAP_GENERAL_2", MLX5_CAP_GENERAL_2);
    (enum_mlx5_flow_destination_type, "MLX5_FLOW_DESTINATION_TYPE_FLOW_TABLE", MLX5_FLOW_DESTINATION_TYPE_FLOW_TABLE);
    (enum_mlx5_flow_destination_type, "MLX5_FLOW_DESTINATION_TYPE_TIR", MLX5_FLOW_DESTINATION_TYPE_TIR);
    (enum_mlx5_flow_context_action, "MLX5_FLOW_CONTEXT_ACTION_FWD_DEST", MLX5_FLOW_CONTEXT_ACTION_FWD_DEST);
    (enum_mlx5_flow_context_action, "MLX5_FLOW_CONTEXT_ACTION_PACKET_REFORMAT", MLX5_FLOW_CONTEXT_ACTION_PACKET_REFORMAT);
    (enum_mlx5_flow_context_action, "MLX5_FLOW_CONTEXT_ACTION_MOD_HDR", MLX5_FLOW_CONTEXT_ACTION_MOD_HDR);
    (enum_mlx5_flow_context_action, "MLX5_FLOW_CONTEXT_ACTION_REPARSE", MLX5_FLOW_CONTEXT_ACTION_REPARSE);
    (enum_mlx5_mkc_access_mode, "MLX5_MKC_ACCESS_MODE_KLMS", MLX5_MKC_ACCESS_MODE_KLMS);
    (enum_mlx5_reformat_ctx_type, "MLX5_REFORMAT_TYPE_INSERT_HDR", MLX5_REFORMAT_TYPE_INSERT_HDR);
    (enum_mlx5_action_type, "MLX5_ACTION_TYPE_SET", MLX5_ACTION_TYPE_SET);
    (enum_mlx5_action_type, "MLX5_ACTION_TYPE_COPY", MLX5_ACTION_TYPE_COPY);
    (enum_mlx5_create_flow_group_in_match_criteria_enable, "MLX5_CREATE_FLOW_GROUP_IN_MATCH_CRITERIA_ENABLE_OUTER_HEADERS", MLX5_CREATE_FLOW_GROUP_IN_MATCH_CRITERIA_ENABLE_OUTER_HEADERS);
    (enum_mlx5_general_object_type_encryption_key_key_size, "MLX5_GENERAL_OBJECT_TYPE_ENCRYPTION_KEY_KEY_SIZE_128", MLX5_GENERAL_OBJECT_TYPE_ENCRYPTION_KEY_KEY_SIZE_128);
    (enum_mlx5_general_object_type_encryption_key_key_size, "MLX5_GENERAL_OBJECT_TYPE_ENCRYPTION_KEY_KEY_SIZE_256", MLX5_GENERAL_OBJECT_TYPE_ENCRYPTION_KEY_KEY_SIZE_256);
    (enum_mlx5_general_object_type_encryption_key_type, "MLX5_GENERAL_OBJECT_TYPE_ENCRYPTION_KEY_TYPE_TLS", MLX5_GENERAL_OBJECT_TYPE_ENCRYPTION_KEY_TYPE_TLS);
    (enum_mlx5_general_object_type_encryption_key_type, "MLX5_GENERAL_OBJECT_TYPE_ENCRYPTION_KEY_TYPE_IPSEC", MLX5_GENERAL_OBJECT_TYPE_ENCRYPTION_KEY_TYPE_IPSEC);
    (enum_mlx5_general_object_type_encryption_key_type, "MLX5_GENERAL_OBJECT_TYPE_ENCRYPTION_KEY_TYPE_AES_XTS", MLX5_GENERAL_OBJECT_TYPE_ENCRYPTION_KEY_TYPE_AES_XTS);
    (enum_mlx5_general_object_types, "MLX5_GENERAL_OBJECT_TYPES_ENCRYPTION_KEY", MLX5_GENERAL_OBJECT_TYPES_ENCRYPTION_KEY);
    (enum_mlx5_general_object_types, "MLX5_GENERAL_OBJECT_TYPES_NVMEOTCP_TAG_BUFFER_TABLE", MLX5_GENERAL_OBJECT_TYPES_NVMEOTCP_TAG_BUFFER_TABLE);
    (enum_mlx5_general_object_types, "MLX5_GENERAL_OBJECT_TYPES_PARSE_GRAPH_NODE", MLX5_GENERAL_OBJECT_TYPES_PARSE_GRAPH_NODE) ].

Lemma used_constants_listed : Forall (fun c => enum_value c.1.1 c.1.2 = Some c.2) used_constants.
Proof. apply (bool_decide_unpack _). vm_compute. exact Logic.I. Qed.

(** ** Enumerations of members *)

(** An enumeration with the member it describes. *)
Definition described : list (enumeration * layout * string) :=
  [ (enum_mlx5_ads_stat_rate, ctxs.ads, "stat_rate");
    (enum_mlx5_atomic_caps_atomic_size_qp, cap.atomic_caps, "atomic_size_qp");
    (enum_mlx5_atomic_caps_atomic_size_dc, cap.atomic_caps, "atomic_size_dc");
    (enum_mlx5_rx_hash_field_select_selected_fields, ifc.rx_hash_field_select, "selected_fields");
    (enum_mlx5_wq_wq_type_wq, ifc.wq, "wq_type");
    (enum_mlx5_wq_end_padding_mode_end_pad, ifc.wq, "end_padding_mode");
    (enum_mlx5_resize_field_select_resize_field_select, ctxs.resize_field_select, "resize_field_select");
    (enum_mlx5_modify_field_select_modify_field_select, ctxs.modify_field_select, "modify_field_select");
    (enum_mlx5_field_select_802_1qau_rp_field_select_8021qaurp, ctxs.field_select_802_1qau_rp, "field_select_8021qaurp");
    (enum_mlx5_cq_error_syndrome_cq, ctxs.cq_error, "syndrome"); (enum_mlx5_qpc_state, ctxs.qpc, "state");
    (enum_mlx5_qpc_st, ctxs.qpc, "st"); (enum_mlx5_qpc_pm_state, ctxs.qpc, "pm_state");
    (enum_mlx5_qpc_end_padding_mode, ctxs.qpc, "end_padding_mode"); (enum_mlx5_qpc_mtu, ctxs.qpc, "mtu");
    (enum_mlx5_qpc_atomic_mode, ctxs.qpc, "atomic_mode"); (enum_mlx5_qpc_cs_req, ctxs.qpc, "cs_req");
    (enum_mlx5_qpc_cs_res, ctxs.qpc, "cs_res"); (enum_mlx5_flow_context_action, ifc.flow_context, "action");
    (enum_mlx5_xrc_srqc_state, ctxs.xrc_srqc, "state"); (enum_mlx5_tirc_disp_type, ifc.tirc, "disp_type");
    (enum_mlx5_tirc_lro_enable_mask, ifc.tirc, "lro_enable_mask");
    (enum_mlx5_tirc_self_lb_block_block, ifc.tirc, "self_lb_block"); (enum_mlx5_srqc_state, ctxs.srqc, "state");
    (enum_mlx5_sqc_state, ifc.sqc, "state");
    (enum_scheduling_context_element_type, ctxs.scheduling_context, "element_type");
    (enum_mlx5_rqc_mem_rq_type_memory_rq, ifc.rqc, "mem_rq_type"); (enum_mlx5_rqc_state, ifc.rqc, "state");
    (enum_mlx5_rmpc_state, ctxs.rmpc, "state"); (enum_mlx5_eqc_status, ctxs.eqc, "status");
    (enum_mlx5_eqc_st, ctxs.eqc, "st"); (enum_mlx5_dctc_state, ctxs.dctc, "state");
    (enum_mlx5_dctc_cs_res, ctxs.dctc, "cs_res"); (enum_mlx5_dctc_mtu, ctxs.dctc, "mtu");
    (enum_mlx5_cqc_status, ifc.cqc, "status"); (enum_mlx5_cqc_cqe_sz, ifc.cqc, "cqe_sz");
    (enum_mlx5_cqc_st, ifc.cqc, "st"); (enum_mlx5_xrqc_state, ctxs.xrqc, "state");
    (enum_mlx5_xrqc_topology, ctxs.xrqc, "topology");
    (enum_tsar_element_tsar_type, ctxs.tsar_element, "tsar_type");
    (enum_mlx5_teardown_hca_out_force_state, cmds.teardown_hca_out, "force_state");
    (enum_mlx5_teardown_hca_in_profile, cmds.teardown_hca_in, "profile");
    (enum_mlx5_set_mad_demux_in_demux_mode, cmds.set_mad_demux_in, "demux_mode");
    (enum_mlx5_query_vport_state_out_state, cmds.query_vport_state_out, "state");
    (enum_mlx5_query_vport_state_in_op_mod, cmds.query_vport_state_in, "op_mod");
    (enum_mlx5_query_vnic_env_in_op_mod_vport, cmds.query_vnic_env_in, "op_mod");
    (enum_mlx5_query_vport_counter_in_op_mod, cmds.query_vport_counter_in, "op_mod");
    (enum_mlx5_query_pages_in_op_mod, cmds.query_pages_in, "op_mod");
    (enum_mlx5_query_flow_group_out_match_criteria_enable, cmds.query_flow_group_out, "match_criteria_enable");
    (enum_modify_scheduling_element_in_modify_bitmask, cmds.modify_scheduling_element_in, "modify_bitmask");
    (enum_mlx5_modify_cq_in_op_mod, cmds.modify_cq_in, "op_mod");
    (enum_mlx5_manage_pages_in_op_mod, cmds.manage_pages_in, "op_mod");
    (enum_mlx5_create_flow_group_in_match_criteria_enable, ifc.create_flow_group_in, "match_criteria_enable");
    (enum_mlx5_config_int_moderation_in_op_mod, cmds.config_int_moderation_in, "op_mod");
    (enum_mlx5_arm_xrc_srq_in_op_mod, cmds.arm_xrc_srq_in, "op_mod");
    (enum_mlx5_arm_rq_in_op_mod, cmds.arm_rq_in, "op_mod");
    (enum_mlx5_access_register_in_op_mod, cmds.access_register_in, "op_mod");
    (enum_mlx5_cmd_queue_entry_type_pcie_cmd, regs.cmd_queue_entry, "type");
    (enum_mlx5_initial_seg_nic_interface, regs.initial_seg, "nic_interface");
    (enum_mlx5_initial_seg_nic_interface_supported, regs.initial_seg, "nic_interface_supported");
    (enum_mlx5_initial_seg_health_syndrome, regs.initial_seg, "health_syndrome") ].

Definition described_ok (d : enumeration * layout * string) : bool :=
  let '(e, l, m) := d in
  bool_decide (e ∈ enumerations) && wf_layout l && (size_of l mod 32 =? 0) && dw_member l [F m] && (0 <? bit_sz l [F m])
  && forallb (fun x => (0 <=? x.2) && (x.2 <? 2 ^ bit_sz l [F m])) e.

Lemma described_checked : forallb described_ok described = true.
Proof. vm_compute. reflexivity. Qed.

(** An enumerator written to the member it is for is read back as that
    enumerator: none is too wide for its member, and none shares its value. *)
Theorem enum_member_roundtrip e l m n v p b :
  (e, l, m) ∈ described -> (n, v) ∈ e -> 0 <= p -> p + ST_SZ_BYTES l <= Z.of_nat (length b) ->
  enum_name e (DEVX_GET l p [F m] (exec1 (DEVX_SET l p [F m] v) b)) = Some n.
Proof.
  intros Hd Hn Hp Hb. pose proof described_checked as Hc. rewrite forallb_forall in Hc. apply list_elem_of_In in Hd.
  apply Hc in Hd. unfold described_ok in Hd. repeat (apply andb_true_iff in Hd as [Hd ?]). apply bool_decide_eq_true in Hd.
  match goal with H : forallb _ e = true |- _ => rewrite forallb_forall in H; specialize (H (n, v)) end.
  match goal with H : In _ _ -> _ |- _ => rename H into Hv end. rewrite <- list_elem_of_In in Hv. specialize (Hv Hn). cbn [snd] in Hv.
  apply andb_true_iff in Hv as [Hv1 Hv2].
  assert (DEVX_GET l p [F m] (exec1 (DEVX_SET l p [F m] v) b) = wrap (bit_sz l [F m]) v) as ->.
  { apply get_set_same. apply dw_member_in; try done; lia. }
  unfold wrap. rewrite Z.mod_small by lia. by eapply enum_name_value.
Qed.

Lemma enum_member_roundtrip_witness :
  enum_name enum_mlx5_rqc_state
    (DEVX_GET ifc.rqc 0 ["state"] (exec1 (DEVX_SET ifc.rqc 0 ["state"] 1) (zeros (ST_SZ_BYTES ifc.rqc)))) = Some "MLX5_RQC_STATE_RDY".
Proof.
  apply (enum_member_roundtrip enum_mlx5_rqc_state ifc.rqc "state" "MLX5_RQC_STATE_RDY" 1 0 (zeros (ST_SZ_BYTES ifc.rqc)));
    [|by apply elem_of_cons; right; apply elem_of_cons; left|lia|vm_compute; done].
  unfold described. repeat (apply elem_of_cons; (left; reflexivity) || right).
Defined.
