(* ===== verification/AppLife.v ===== *)
(** * An application on an adapter

    The factories of the adapter put together: an application creates queues,
    transport objects, keys, tables, parser nodes and memory keys in any order,
    changes and queries the ones it has, deletes them in any order and leaves.
    One step function runs the factory, method or destructor that a request
    names; the objects the application holds are a map by address. *)

From S2P Require Import Prelude Codec Prm Dcmd Own Sim Obj Uar Queue QState Rq Adapter Tir Dek Mkey Caps ParserGraph AdapterLife.
Open Scope string_scope.
Open Scope list_scope.
Open Scope Z_scope.
Open Scope m_scope.

(** ** State and requests *)

(** An object of the application, by its class. *)
Inductive handle : Type :=
| HRq (b : basic_rq)
| HIbq (q : ibq_rq)
| HTir (t : tir)
| HTis (t : tis)
| HDek (k : dek)
| HTbt (t : tag_buffer_table_obj)
| HNode (n : parser_graph_node)
| HDirect (k : direct_mkey)
| HPattern (k : pattern_mkey)
| HCrypto (k : crypto_mkey)
| HPlain (k : plain_mkey).

(** The adapter, the key counter of the process, and the objects. *)
Record app := mkApp { ap_ad : adapter; ap_cnt : Z; ap_objs : gmap Z handle }.

Inductive request : Type :=
| RStridingRq (attr : rq_attr)
| RRegularRq (attr : rq_attr)
| RIbqRq (attr : rq_attr) (protocol mkey : Z)
| RTir (a : tir_attr)
| RTis (a : tis_attr)
| RDek (c : dek_class) (a : dek_attr)
| RTbt (a : tbt_attr)
| RNode (a : parser_graph_node_attr)
| RDirect (address len flags : Z)
| RPattern (address flags stride_num : Z) (bbs : list pattern_mkey_bb)
| RCrypto (max_sge : Z)
| RReserved (t : reserved_mkey_type) (address len flags : Z)
| RExtern (address len id : Z)
| RState (p new_state : Z)
| RTirModify (p : Z) (a : tir_attr)
| RQuery (p : Z)
| RDekModify (p : Z) (a : dek_attr)
| RDelete (p : Z).

Section ops.
Context {D : Type} `{DevX D} (page_size ibv_pd : Z) (caps : hca_capabilities).

(** [delete] of an object at [p]: its destructors, then its storage. *)
Definition handle_delete (p : Z) (x : handle) : M D unit :=
  match x with
  | HRq b => basic_rq_delete b
  | HIbq q => ibq_rq_delete q
  | HTir t => _ <- obj_delete (t_obj t);; ret tt
  | HTis t => _ <- obj_delete (s_obj t);; ret tt
  | HDek k => _ <- obj_delete (dek_obj k);; ret tt
  | HTbt t => _ <- obj_delete (tbt_obj t);; ret tt
  | HNode n => _ <- obj_delete (pgn_obj n);; ret tt
  | HDirect k => direct_mkey_delete k
  | HPattern k => pattern_mkey_delete k
  | HCrypto k => _ <- obj_delete (ck_obj k);; ret tt
  | HPlain _ => ret tt
  end;;
  dealloc p.

(** A factory that made an object, or none. *)
Definition keep {A} (s : app) (H : A -> handle) (r : status * option (Z * A)) : status * app :=
  let '(st, q) := r in
  (st, match q with
       | Some (p, x) => mkApp (ap_ad s) (ap_cnt s) (<[p := H x]> (ap_objs s))
       | None => s
       end).

Definition keep_rq (s : app) (r : status * option (Z * basic_rq) * adapter) : status * app :=
  let '(st, q, a) := r in keep (mkApp a (ap_cnt s) (ap_objs s)) HRq (st, q).

Definition keep_key {A} (s : app) (H : A -> handle) (r : status * option (Z * A) * Z) : status * app :=
  let '(st, q, g) := r in keep (mkApp (ap_ad s) g (ap_objs s)) H (st, q).

(** A method that returns the object with it. *)
Definition update {A} (s : app) (p : Z) (H : A -> handle) (r : status * A) : status * app :=
  (r.1, mkApp (ap_ad s) (ap_cnt s) (<[p := H r.2]> (ap_objs s))).

(** [query] of an object; queues and memory keys have none. *)
Definition query_handle (s : app) (p : Z) (x : handle) : M D (status * app) :=
  match x with
  | HTir t => '(st, t, _) <- tir_query false t;; ret (update s p HTir (st, t))
  | HTis t => '(st, t, _) <- tis_query false t;; ret (update s p HTis (st, t))
  | HDek k => '(st, k, _) <- dek_query k;; ret (update s p HDek (st, k))
  | HTbt t => '(st, t, _) <- tbt_query t (mkTbtAttr 0 0);; ret (update s p HTbt (st, t))
  | HNode n => r <- pgn_query n;; ret (update s p HNode r)
  | _ => ub "the class has no query"
  end.

Definition app_step (s : app) (r : request) : M D (status * app) :=
  let ad := ap_ad s in
  let ctx := Some (ad_ctx ad) in
  match r with
  | RStridingRq attr => r <- create_striding_rq page_size attr ad;; ret (keep_rq s r)
  | RRegularRq attr => r <- create_regular_rq page_size attr ad;; ret (keep_rq s r)
  | RIbqRq attr protocol mkey => r <- create_ibq_rq attr protocol mkey ad;; ret (keep s HIbq r)
  | RTir a => r <- create_tir ctx a;; ret (keep s HTir r)
  | RTis a => r <- create_tis ctx a;; ret (keep s HTis r)
  | RDek c a =>
      r <- create_dek c ctx (Some (negb (cap_of caps "general_object_types_encryption_key" =? 0))) a;;
      ret (keep s HDek r)
  | RTbt a => r <- create_tag_buffer_table_obj ctx a;; ret (keep s HTbt r)
  | RNode a => r <- create_parser_graph_node ctx (Some caps) a;; ret (keep s HNode r)
  | RDirect address len flags =>
      r <- create_direct_mkey page_size ctx ibv_pd (m_pd_id ad) (ap_cnt s) address len flags;; ret (keep_key s HDirect r)
  | RPattern address flags n bbs =>
      r <- create_pattern_mkey page_size ctx (m_pd_id ad) (ap_cnt s) address flags n bbs;; ret (keep_key s HPattern r)
  | RCrypto n => r <- create_crypto_mkey ctx (m_pd_id ad) (ap_cnt s) n;; ret (keep_key s HCrypto r)
  | RReserved t address len flags => r <- create_reserved_mkey t address len flags;; ret (keep s HPlain r)
  | RExtern address len id => r <- create_extern_mkey address len id;; ret (keep s HPlain r)
  | RState p new_state =>
      x <- need (ap_objs s !! p) "dangling pointer";;
      match x with
      | HRq b =>
          '(st, q) <- rq_modify_state (brq b) new_state;;
          ret (update s p HRq (st, mkBasicRq q (brq_res b) (brq_mem_type b)))
      | HIbq q =>
          '(st, r) <- rq_modify_state (ibq q) new_state;;
          ret (update s p HIbq (st, mkIbqRq r (m_protocol q) (m_mkey q)))
      | _ => ub "not a receive queue"
      end
  | RTirModify p a =>
      x <- need (ap_objs s !! p) "dangling pointer";;
      match x with HTir t => r <- tir_modify t a;; ret (update s p HTir r) | _ => ub "not a tir" end
  | RQuery p => x <- need (ap_objs s !! p) "dangling pointer";; query_handle s p x
  | RDekModify p a =>
      x <- need (ap_objs s !! p) "dangling pointer";;
      match x with HDek k => r <- dek_modify k a;; ret (update s p HDek r) | _ => ub "not a dek" end
  | RDelete p =>
      x <- need (ap_objs s !! p) "dangling pointer";;
      handle_delete p x;;
      ret (DPCP_OK, mkApp ad (ap_cnt s) (delete p (ap_objs s)))
  end.

Fixpoint app_run (s : app) (rs : list request) : M D (list status * app) :=
  match rs with
  | [] => ret ([], s)
  | r :: rs => '(st, s) <- app_step s r;; '(sts, s) <- app_run s rs;; ret (st :: sts, s)
  end.

(** The application leaves: what it still holds is deleted, then the pool of the
    adapter. *)
Fixpoint delete_all (objs : list (Z * handle)) : M D unit :=
  match objs with [] => ret tt | (p, x) :: r => handle_delete p x;; delete_all r end.

Definition app_close (s : app) : M D unit :=
  delete_all (map_to_list (ap_objs s));; pool_delete (m_uarpool (ap_ad s)).

Definition app_life (s : app) (rs : list request) : M D (list status) :=
  '(sts, s) <- app_run s rs;; app_close s;; ret sts.
End ops.

(** ** The invariant *)

(** The device object of an [obj] is there. *)
Definition alive {D} (o : obj) (w : world D) : Prop :=
  exists p hd, m_obj_handle o = Some p /\ heap w !! p = Some (BObj (Some hd)).

Definition handle_own (x : handle) : list (Z * kind) :=
  match x with
  | HRq b => brq_own b
  | HIbq q => ibq_own q
  | HTir t => obj_own (t_obj t)
  | HTis t => obj_own (s_obj t)
  | HDek k => obj_own (dek_obj k)
  | HTbt t => obj_own (tbt_obj t)
  | HNode n => obj_own (pgn_obj n)
  | HDirect _ | HPlain _ => []
  | HPattern k => pattern_own k
  | HCrypto k => obj_own (ck_obj k)
  end.

(** What the methods rely on. *)
Definition handle_ok {D} (x : handle) (w : world D) : Prop :=
  match x with
  | HRq b => alive (rq_obj (brq b)) w
  | HIbq q => alive (rq_obj (ibq q)) w
  | HTir t => alive (t_obj t) w
  | HTis t => alive (s_obj t) w
  | HDek k => alive (dek_obj k) w
  | HTbt t => alive (tbt_obj t) w
  | HNode n => alive (pgn_obj n) w /\ (length (na_samples (m_attrs n)) <= 8)%nat
  | HDirect k => dm_umem k = None /\ m_obj_handle (dm_obj k) = None /\ m_ctx (dm_obj k) <> None
  | HPattern _ | HCrypto _ | HPlain _ => True
  end.

Definition entry_own (e : Z * handle) : list (Z * kind) := (e.1, KMem) :: handle_own e.2.
Definition objs_own (O : gmap Z handle) : list (Z * kind) := flat_map entry_own (map_to_list O).

Definition app_own (s : app) : list (Z * kind) := adapter_own (ap_ad s) ++ objs_own (ap_objs s).

Definition app_ok {D} (s : app) (l : list (Z * kind)) (h : gmap Z blk) (w : world D) : Prop :=
  pool_wf (m_uarpool (ap_ad s)) /\ own (app_own s ++ l) h w
  /\ map_Forall (fun _ x => handle_ok x w) (ap_objs s).

(** Attributes for which the creation is defined: the sizes of a receive queue are
    from 1 to 2^30 (above, [ilog2] shifts out of an [int]); the blob of an
    encryption key has the bytes it says; the attributes of a parser node fit the
    members of its command, its first incoming arc
    exists and is numbered below 32, and the adapter's capabilities give its
    header masks fewer than 31 bits and at most 8 samples (the tests of the node
    read the first arc unasked and shift by these numbers, see [no_arc_ub]). *)
Definition attrs_ok (caps : hca_capabilities) (r : request) : Prop :=
  match r with
  | RStridingRq a => sizes_ok a
  | RRegularRq a => regular_ok a
  | RIbqRq a _ _ => size_ok (buf_stride_num a)
  | RDek _ a | RDekModify _ a => dek_attr_wf a /\ blob_there a
  | RNode a => node_attr_wf a /\ caps_sane caps /\ exists c, head (na_in_arcs a) = Some c /\ arc_parse_graph_node c < 32
  | _ => True
  end.

(** The object a request names is one the application holds, of the right class;
    the key counter, an [int] that every key increments, is not at its last value. *)
Definition holds (s : app) (r : request) : bool :=
  match r with
  | RPattern _ _ _ _ | RCrypto _ => negb (ap_cnt s =? 2 ^ 31 - 1)
  | RState p _ => match ap_objs s !! p with Some (HRq _) | Some (HIbq _) => true | _ => false end
  | RTirModify p _ => match ap_objs s !! p with Some (HTir _) => true | _ => false end
  | RQuery p =>
      match ap_objs s !! p with
      | Some (HTir _) | Some (HTis _) | Some (HDek _) | Some (HTbt _) | Some (HNode _) => true
      | _ => false
      end
  | RDekModify p _ => match ap_objs s !! p with Some (HDek _) => true | _ => false end
  | RDelete p => match ap_objs s !! p with Some _ => true | None => false end
  | _ => true
  end.

(** What the application may ask for. *)
Definition may_ask (caps : hca_capabilities) (s : app) (r : request) : Prop := attrs_ok caps r /\ holds s r = true.

(** Every request of a run is one the application may ask for, with [step] the
    step of the platform. *)
Fixpoint may_run {D} (caps : hca_capabilities) (step : app -> request -> M D (status * app)) (s : app) (w : world D)
    (rs : list request) : Prop :=
  match rs with
  | [] => True
  | r :: rs => may_ask caps s r /\ forall st s' w', step s r w = Ret (st, s', w') -> may_run caps step s' w' rs
  end.

(** *** The map of objects *)

Lemma objs_own_empty : objs_own ∅ = [].
Proof. unfold objs_own. by rewrite map_to_list_empty. Qed.

Lemma flat_map_perm {A B} (f : A -> list B) l l' : l ≡ₚ l' -> flat_map f l ≡ₚ flat_map f l'.
Proof.
  induction 1 as [|x l l' Hp IH|x y l|l l' l2 Hp1 IH1 Hp2 IH2]; simpl; [done|by rewrite IH| |by rewrite IH1].
  rewrite !app_assoc. by rewrite (Permutation_app_comm (f y)).
Qed.

Lemma objs_own_insert (O : gmap Z handle) p x : O !! p = None -> objs_own (<[p := x]> O) ≡ₚ entry_own (p, x) ++ objs_own O.
Proof. intros Hp. unfold objs_own. by rewrite (flat_map_perm entry_own _ _ (map_to_list_insert O p x Hp)). Qed.

Lemma objs_own_lookup (O : gmap Z handle) p x : O !! p = Some x -> objs_own O ≡ₚ entry_own (p, x) ++ objs_own (delete p O).
Proof.
  intros Hp. rewrite <- (insert_delete_id O p x) at 1 by done. apply objs_own_insert, lookup_delete_eq.
Qed.

Lemma objs_own_elem (O : gmap Z handle) p x q : O !! p = Some x -> q ∈ (entry_own (p, x)).*1 -> q ∈ (objs_own O).*1.
Proof.
  intros Hp Hq. assert ((objs_own O).*1 ≡ₚ (entry_own (p, x) ++ objs_own (delete p O)).*1) as ->
    by (apply fmap_Permutation; by apply objs_own_lookup).
  rewrite fmap_app. by apply elem_of_app; left.
Qed.

(** A block that is not among those of the objects is not the address of one. *)
Lemma objs_own_fresh {D} (O : gmap Z handle) p k l h (w : world D) : own ((p, k) :: objs_own O ++ l) h w -> O !! p = None.
Proof.
  intros (_ & Hn & _ & _). destruct (O !! p) as [x|] eqn:E; [exfalso|done]. csimpl in Hn.
  apply list.NoDup_cons in Hn as [Hn _]. apply Hn. rewrite fmap_app. apply elem_of_app. left.
  apply (objs_own_elem O p x); [done|]. csimpl. by apply elem_of_cons; left.
Qed.

Lemma alive_same {D} o (w w' : world D) :
  (forall p, p ∈ (obj_own o).*1 -> heap w' !! p = heap w !! p) -> alive o w -> alive o w'.
Proof.
  intros Hs (p & hd & Hp & Hb). exists p, hd. split; [done|]. rewrite Hs; [done|].
  unfold obj_own. rewrite Hp. simpl. by apply elem_of_cons; left.
Qed.

Lemma handle_ok_same {D} x (w w' : world D) :
  (forall p, p ∈ (handle_own x).*1 -> heap w' !! p = heap w !! p) -> handle_ok x w -> handle_ok x w'.
Proof.
  intros Hs. destruct x; cbn in *; try done; try (by apply alive_same).
  - apply alive_same. intros p Hp. apply Hs. unfold brq_own. rewrite fmap_app. by apply elem_of_app; left.
  - intros [Ha Hn]. split; [by eapply alive_same|done].
Qed.

(** *** Created objects are alive *)

(** Commands on an object leave its heap blocks as they are. *)
Definition same_blocks {D} (w w' : world D) : Prop := heap w' = heap w /\ next w' = next w.

Section alive.
Context {D : Type} `{DevX D}.
Implicit Types w : world D.

(** A command on an object that is alive. *)
Lemma wp_alive_query o i x w :
  alive o w -> wp (obj_query o i x) (fun r w' => m_obj_handle r.1.2 = m_obj_handle o /\ same_blocks w w') w.
Proof.
  intros (p & hd & Hp & Hb). unfold obj_query. rewrite Hp. destruct (m_ctx o); [|by apply wp_ret].
  destruct (bad_args i x); [by apply wp_ret|]. apply wp_bind, wp_bind. eapply wp_load; [exact Hb|].
  apply wp_bind, wp_device. intros [r out] d w' _ Hh Hn _ _ _. apply wp_ret. cbn. by destruct (_ || _); apply wp_ret.
Qed.

Lemma wp_alive_modify o i x w :
  alive o w -> wp (obj_modify o i x) (fun r w' => m_obj_handle r.1.2 = m_obj_handle o /\ same_blocks w w') w.
Proof.
  intros (p & hd & Hp & Hb). unfold obj_modify. rewrite Hp. destruct (m_ctx o); [|by apply wp_ret].
  destruct (bad_args i x); [by apply wp_ret|]. apply wp_bind, wp_bind. eapply wp_load; [exact Hb|].
  apply wp_bind, wp_device. intros [r out] d w' _ Hh Hn _ _ _. apply wp_ret. cbn.
  destruct (negb _); [by apply wp_ret|]. by destruct (negb _); apply wp_ret.
Qed.

Lemma wp_alive_get_handle o Q w : alive o w -> (forall x, Q (DPCP_OK, x) w) -> wp (obj_get_handle o) Q w.
Proof.
  intros (p & hd & Hp & Hb) HQ. unfold obj_get_handle. rewrite Hp. apply wp_bind. eapply wp_load; [exact Hb|]. apply wp_ret, HQ.
Qed.

Lemma alive_after o o' w w' : alive o w -> m_obj_handle o' = m_obj_handle o -> same_blocks w w' -> alive o' w'.
Proof. intros (p & hd & Hp & Hb) Ho [Hh _]. exists p, hd. by rewrite Ho, Hh. Qed.

Lemma wlp_obj_create o i x w :
  wlp (obj_create o i x) (fun r w' => r.1.1 = DPCP_OK -> alive r.1.2 w') w.
Proof.
  unfold obj_create. destruct (m_ctx o) as [c|]; [|by apply wlp_ret]. destruct (bad_args i x); [by apply wlp_ret|].
  apply wlp_bind. unfold create_obj. apply wlp_any. intros [p|] w1; [|apply wlp_ret, wlp_ret; done].
  apply wlp_any. intros [[hd|] out] w2; cbn beta iota.
  - apply wlp_bind. unfold wlp at 1, store. destruct (heap w2 !! p) as [b|]; [|done]. apply wlp_ret.
    destruct (_ || _); apply wlp_ret; [done|]. intros _. exists p, hd. split; [done|]. apply lookup_insert_eq.
  - apply wlp_any. intros [] w3. apply wlp_ret. by apply wlp_ret.
Qed.

(** The outcome of a step that creates a device object last. *)
Definition makes_alive {A} (obj_of : A -> obj) (r : status * A) w : Prop := r.1 = DPCP_OK -> alive (obj_of r.2) w.

Lemma wlp_rq_send_create o i w : wlp (rq_send_create o i) (makes_alive id) w.
Proof.
  apply wlp_bind. eapply wlp_mono; [|apply wlp_obj_create]. intros [[st o'] out] w' Ha. cbn beta iota.
  destruct (is_ok st) eqn:E; cbn [negb]; apply wlp_ret; [|by apply is_ok_false in E].
  intros _. apply Ha. by apply is_ok_true.
Qed.

Definition brq_obj (b : basic_rq) : obj := rq_obj (brq b).

Lemma wlp_rq_create (striding : bool) pd b w :
  wlp (if striding then striding_rq_create pd b else regular_rq_create pd b) (makes_alive brq_obj) w.
Proof.
  assert (forall i w', wlp ('(r, o') <- rq_send_create (rq_obj (brq b)) i;; ret (r, with_obj o' b)) (makes_alive brq_obj) w') as Hs.
  { intros i w'. apply wlp_bind. eapply wlp_mono; [|apply wlp_rq_send_create]. by intros [r o'] w2 Ha. }
  destruct striding; unfold striding_rq_create, regular_rq_create; cbv zeta.
  - destruct (pd =? 0); [by apply wlp_ret|]. do 3 (apply wlp_any; intros). destruct (_ || _); [by apply wlp_ret|].
    apply wlp_any; intros. destruct (_ || _); [by apply wlp_ret|]. apply Hs.
  - destruct (pd =? 0); [by apply wlp_ret|]. do 2 (apply wlp_any; intros). apply Hs.
Qed.

Lemma wlp_prepare ps create self c pool b w :
  (forall b w, wlp (create b) (makes_alive brq_obj) w) ->
  wlp (prepare_basic_rq ps create self c pool b) (fun r w' => makes_alive brq_obj r.1 w' /\ m_ex_uars r.2 = m_ex_uars pool) w.
Proof.
  intros Hc. unfold prepare_basic_rq. apply wlp_bind.
  assert (wlp (get_uar pool self SHARED_UAR) (fun r w' => m_ex_uars r.2 = m_ex_uars pool) w) as Hg.
  { unfold get_uar. destruct (self =? 0); [by apply wlp_ret|]. destruct (m_shared_uar pool); [case_decide; by apply wlp_ret|].
    apply wlp_any. intros [u|] w1; by apply wlp_ret. }
  eapply wlp_mono; [|exact Hg]. intros [[u|] pool'] w1 Hex; cbn [snd] in Hex; [|by apply wlp_ret].
  assert (forall r b1 w2, r <> DPCP_OK ->
    wlp (ret (D := D) (r, b1, pool')) (fun r w' => makes_alive brq_obj r.1 w' /\ m_ex_uars r.2 = m_ex_uars pool) w2) as Hbad.
  { intros r b1 w2 Hr. apply wlp_ret. split; [|done]. by intros ?. }
  apply wlp_any. intros [r uar_p] w2. destruct (is_ok r) eqn:Er; cbn [negb]; [|apply Hbad; by apply is_ok_false].
  cbv zeta. apply wlp_any. intros [[r1 b1] wq] w3. destruct (is_ok r1) eqn:Er1; cbn [negb]; [|apply Hbad; by apply is_ok_false].
  apply wlp_any. intros [[r2 m] i] w4. destruct (is_ok r2) eqn:Er2; cbn [negb]; [|apply Hbad; by apply is_ok_false].
  apply wlp_any. intros [[[r3 b3] db] sz] w5. destruct (is_ok r3) eqn:Er3; cbn [negb]; [|apply Hbad; by apply is_ok_false].
  apply wlp_any. intros [[r4 m4] i4] w6. destruct (is_ok r4) eqn:Er4; cbn [negb]; [|apply Hbad; by apply is_ok_false].
  apply wlp_bind. eapply (wlp_mono _ (makes_alive brq_obj)).
  - intros [r5 b5] w7 Ha. apply wlp_ret. by split.
  - unfold basic_rq_init. destruct (_ || _); [by apply wlp_ret|]. apply wlp_any. intros [p|] w7; [apply Hc|by apply wlp_ret].
Qed.

(** The exclusive UARs of an adapter. *)
Definition exclusives (a : adapter) : list (Z * Z) := match m_uarpool a with Some (_, c) => m_ex_uars c | None => [] end.

Lemma wlp_create_basic_rq ps create attr a w :
  (forall pd b w, wlp (create pd b) (makes_alive brq_obj) w) ->
  wlp (create_basic_rq ps create attr a) (fun r w' =>
    (forall p b, r.1.2 = Some (p, b) -> alive (brq_obj b) w') /\ exclusives r.2 = exclusives a) w.
Proof.
  intros Hc. unfold create_basic_rq. apply wlp_bind.
  assert (wlp (ensure_pool a) (fun r (w' : world D) => exclusives r.2 = exclusives a
            /\ match r.1 with Some (p, c) => m_ex_uars c = exclusives a | None => True end) w) as He.
  { unfold ensure_pool, exclusives. destruct (m_uarpool a) as [[p c]|] eqn:E; [apply wlp_ret; cbn; by rewrite E|].
    apply wlp_any. intros [p|] w1; apply wlp_ret; cbn; [done|by rewrite E]. }
  eapply wlp_mono; [|exact He]. intros [[[pp c]|] a'] w1 [E1 E2]; cbn [fst snd] in *; [|apply wlp_ret; by split].
  apply wlp_any. intros [self|] w2; [|apply wlp_ret; by split]. apply wlp_bind.
  eapply wlp_mono; [|apply wlp_prepare; intros; apply Hc]. intros [[r b] c'] w3 [Ha Ex]; cbn [fst snd] in *. cbv zeta.
  destruct (is_ok r) eqn:Er.
  - apply wlp_ret. split; [|cbn; congruence]. intros p b' [= <- <-]. apply Ha. by apply is_ok_true.
  - do 2 (apply wlp_any; intros). apply wlp_ret. split; [done|]. cbn. congruence.
Qed.

(** *** Methods *)

Lemma wp_tir_query_alive self t w : alive (t_obj t) w ->
  wp (tir_query self t) (fun r w' => m_obj_handle (t_obj r.1.2) = m_obj_handle (t_obj t) /\ same_blocks w w') w.
Proof.
  intros Ha. unfold tir_query. apply wp_bind. apply wp_alive_get_handle; [done|]. intros x. cbn [is_ok negb]. destruct (negb _); [by apply wp_ret|]. cbv zeta. apply wp_bind.
  eapply wp_mono; [|apply wp_alive_query; by destruct self]. intros [[st' o] out] w' [Ho Hs]; cbn [fst snd] in *.
  destruct (negb _); apply wp_ret; (split; [cbn; rewrite Ho; by destruct self|done]).
Qed.

Lemma wp_tis_query_alive self t w : alive (s_obj t) w ->
  wp (tis_query self t) (fun r w' => m_obj_handle (s_obj r.1.2) = m_obj_handle (s_obj t) /\ same_blocks w w') w.
Proof.
  intros Ha. unfold tis_query. apply wp_bind. apply wp_alive_get_handle; [done|]. intros x. cbn [is_ok negb]. destruct (negb _); [by apply wp_ret|]. cbv zeta. apply wp_bind.
  eapply wp_mono; [|apply wp_alive_query; by destruct self]. intros [[st' o] out] w' [Ho Hs]; cbn [fst snd] in *.
  destruct (negb _); apply wp_ret; (split; [cbn; rewrite Ho; by destruct self|done]).
Qed.

Lemma wp_tir_modify_alive t a w : alive (t_obj t) w ->
  wp (tir_modify t a) (fun r w' => m_obj_handle (t_obj r.2) = m_obj_handle (t_obj t) /\ same_blocks w w') w.
Proof.
  intros Ha. unfold tir_modify. apply wp_bind. apply wp_alive_get_handle; [done|]. intros x. cbn [is_ok negb]. apply wp_bind.
  eapply wp_mono; [|by apply wp_alive_modify]. intros [[st' o] out] w' Ho. by apply wp_ret.
Qed.

Lemma wp_dek_query_alive k w : alive (dek_obj k) w ->
  wp (dek_query k) (fun r w' => m_obj_handle (dek_obj r.1.2) = m_obj_handle (dek_obj k) /\ same_blocks w w') w.
Proof.
  intros Ha. unfold dek_query. apply wp_bind. apply wp_alive_get_handle; [done|]. intros x. cbn [is_ok negb]. apply wp_bind.
  eapply wp_mono; [|by apply wp_alive_query]. intros [[st' o] out] w' Ho. cbv zeta. by destruct (negb _); apply wp_ret.
Qed.

Lemma wp_tbt_query_alive t a w : alive (tbt_obj t) w ->
  wp (tbt_query t a) (fun r w' => m_obj_handle (tbt_obj r.1.2) = m_obj_handle (tbt_obj t) /\ same_blocks w w') w.
Proof.
  intros Ha. unfold tbt_query. apply wp_bind. apply wp_alive_get_handle; [done|]. intros x. cbn [is_ok negb]. apply wp_bind.
  eapply wp_mono; [|by apply wp_alive_query]. intros [[st' o] out] w' Ho. cbv zeta. by destruct (negb _); apply wp_ret.
Qed.

Lemma wp_dek_modify_alive k a w : alive (dek_obj k) w -> dek_attr_wf a -> blob_there a ->
  wp (dek_modify k a) (fun r w' => m_obj_handle (dek_obj r.2) = m_obj_handle (dek_obj k) /\ same_blocks w w') w.
Proof.
  intros Ha Hwf Hb. unfold dek_modify. cbv zeta. destruct (is_ok (verify_attr a)) eqn:Ev; cbn [negb]; [|by apply wp_ret].
  apply is_ok_true in Ev. apply wp_bind. apply wp_alive_get_handle; [done|]. intros x. cbn [is_ok negb]. destruct (get_key_params _ _ _) as [st [p|]]; [|by apply wp_ret].
  apply wp_bind. eapply wp_mono; [|by apply wp_read_blob]. intros key w' [_ ->]. apply wp_bind.
  eapply wp_mono; [|by apply wp_alive_modify]. intros [[st' o] out] w' Ho. by apply wp_ret.
Qed.

Lemma wp_pgn_query_alive n w : alive (pgn_obj n) w -> (length (na_samples (m_attrs n)) <= 8)%nat ->
  wp (pgn_query n) (fun r w' => m_obj_handle (pgn_obj r.2) = m_obj_handle (pgn_obj n) /\ m_attrs r.2 = m_attrs n /\ same_blocks w w') w.
Proof.
  intros Ha Hl. unfold pgn_query. cbn [pgn_get_id is_ok negb]. apply wp_bind.
  eapply wp_mono; [|by apply wp_alive_query]. intros [[st' o] out] w' [Ho Hs]. cbn [fst snd] in *.
  destruct (is_ok st'); cbn [negb]; [|by apply wp_ret]. cbv zeta. rewrite sample_addr_eq.
  assert (p_sample + 128 <= ST_SZ_BYTES ifc.create_parse_graph_node_out) as Hz by by vm_compute. change SAMPLE_SZ with 16.
  rewrite (proj2 (Z.leb_le _ _)) by lia. by apply wp_ret.
Qed.

Lemma wp_modify_state_alive K o s s' w : alive o w ->
  wp (modify_state K o s s') (fun r w' => m_obj_handle r.1.2 = m_obj_handle o /\ same_blocks w w') w.
Proof.
  intros Ha. unfold modify_state. destruct (refused s s'); [by apply wp_ret|]. destruct (obj_get_id o) as [r n].
  destruct (_ || _); [by apply wp_ret|]. apply wp_bind. eapply wp_mono; [|by apply wp_alive_modify].
  intros [[st o1] out] w1 [Ho1 Hs1]. cbn [fst snd] in *. destruct (is_ok st); cbn [negb]; [|by apply wp_ret].
  apply wp_bind. eapply wp_mono; [|apply wp_alive_query; by eapply alive_after].
  intros [[st2 o2] out2] w2 [Ho2 [Hh2 Hn2]]. cbn [fst snd] in *. destruct Hs1 as [Hh1 Hn1].
  assert (m_obj_handle o2 = m_obj_handle o /\ same_blocks w w2) as Hok by (split; [congruence|split; congruence]).
  destruct (is_ok st2); cbn [negb]; [|by apply wp_ret]. cbv zeta. by destruct (negb _); apply wp_ret.
Qed.

Lemma wp_rq_modify_state_alive q s w : alive (rq_obj q) w ->
  wp (rq_modify_state q s) (fun r w' => m_obj_handle (rq_obj r.2) = m_obj_handle (rq_obj q) /\ same_blocks w w') w.
Proof.
  intros Ha. apply wp_bind. eapply wp_mono; [|by apply wp_modify_state_alive]. intros [[st o] s'] w' Ho. by apply wp_ret.
Qed.
End alive.

(** *** Factories *)

Section factories.
Context {D : Type} `{DevX D}.
Implicit Types (w : world D) (l : list (Z * kind)) (h : gmap Z blk).

(** A new object that owns what its class says and is alive, or nothing. *)
Definition made {A} (Hx : A -> handle) h (q : option (Z * A)) w : Prop :=
  match q with
  | Some (p, x) => own (entry_own (p, Hx x)) h w /\ handle_ok (Hx x) w
  | None => own [] h w
  end.
Definition makes {A} (Hx : A -> handle) (m : M D (status * option (Z * A))) : Prop :=
  forall h w, own [] h w -> wp m (fun r w' => made Hx h r.2 w') w.

Lemma own_create_alive o i x l h w :
  own l h w -> m_obj_handle o = None ->
  wp (obj_create o i x) (fun r w' => own (obj_own r.1.2 ++ l) h w' /\ (r.1.1 = DPCP_OK -> alive r.1.2 w')) w.
Proof.
  intros Ho Hn. apply wp_wlp; [|apply wlp_obj_create].
  eapply (own_obj_create o _ _ l h (fun r w' => own (obj_own r.1.2 ++ l) h w')); [exact Ho|done|by intros].
Qed.

(** The pattern of the factories: storage, [create], and on failure [delete]. *)
Lemma makes_factory {A} (Hx : A -> handle) (obj_of : A -> obj) (create : M D (status * A)) e e' :
  (forall x, handle_own (Hx x) = obj_own (obj_of x)) ->
  (forall l h w, own l h w ->
     wp create (fun r w' => own (obj_own (obj_of r.2) ++ l) h w' /\ (r.1 = DPCP_OK -> handle_ok (Hx r.2) w')) w) ->
  makes Hx (self <- alloc BMem;;
            match self with
            | None => ret (e, None)
            | Some self =>
                '(r, t) <- create;;
                if negb (is_ok r) then _ <- obj_delete (obj_of t);; dealloc self;; ret (e', None)
                else ret (DPCP_OK, Some (self, t))
            end).
Proof.
  intros Hown Hc h w Ho. apply wp_bind. eapply own_alloc; [exact Ho|intros w1 Ho1; by apply wp_ret|].
  intros self w1 Ho1. apply wp_bind. eapply wp_mono; [|by apply Hc]. intros [r t] w2 [Ho2 Hok]; cbn [fst snd] in *.
  destruct (is_ok r) eqn:Er; cbn [negb].
  - apply wp_ret. split; [|apply Hok; by apply is_ok_true]. unfold entry_own. cbn [fst snd]. rewrite Hown.
    eapply own_perm; [|reflexivity|reflexivity|exact Ho2]. cbn [kind_of]. by rewrite Permutation_app_comm.
  - apply wp_bind. eapply own_obj_delete; [exact Ho2|]. intros o' w3 _ Ho3. apply wp_bind.
    eapply own_dealloc; [exact Ho3|]. intros w4 Ho4. by apply wp_ret.
Qed.

Lemma makes_tir ctx a : makes HTir (create_tir ctx a).
Proof.
  apply (makes_factory HTir t_obj); [done|]. intros l h w Ho. unfold tir_create. apply wp_bind, wp_ret. cbn [is_ok].
  apply wp_bind. eapply wp_mono; [|by apply own_create_alive]. intros [[st o] out] w1 [Ho1 Ha]; cbn [fst snd] in *. cbv zeta.
  destruct (is_ok st) eqn:Es; cbn [negb]; [|apply wp_ret; split; [done|]; intros E; cbn [fst] in E; by rewrite E in Es].
  specialize (Ha (proj1 (is_ok_true _) Es)). unfold obj_get_id. pose proof Ha as (p & hd & Hp & _). rewrite Hp. cbn [is_ok negb].
  apply wp_bind. eapply wp_mono; [|by apply wp_tir_query_alive]. intros [[r t] x] w2 [Ht [Hh Hn]]; cbn [fst snd] in *.
  apply wp_ret. cbn [fst snd]. split.
  - apply (own_same _ _ w1); [done|done|]. unfold obj_own in *. by rewrite Ht.
  - intros _. by eapply alive_after.
Qed.

Lemma makes_tis ctx a : makes HTis (create_tis ctx a).
Proof.
  apply (makes_factory HTis s_obj); [done|]. intros l h w Ho. unfold tis_create. apply wp_bind, wp_ret. cbn [is_ok].
  apply wp_bind. eapply wp_mono; [|by apply own_create_alive]. intros [[st o] out] w1 [Ho1 Ha]; cbn [fst snd] in *. cbv zeta.
  destruct (is_ok st) eqn:Es; cbn [negb]; [|apply wp_ret; split; [done|]; intros E; cbn [fst] in E; by rewrite E in Es].
  specialize (Ha (proj1 (is_ok_true _) Es)). unfold obj_get_id. pose proof Ha as (p & hd & Hp & _). rewrite Hp. cbn [is_ok negb].
  apply wp_bind. eapply wp_mono; [|by apply wp_tis_query_alive]. intros [[r t] x] w2 [Ht [Hh Hn]]; cbn [fst snd] in *.
  apply wp_ret. cbn [fst snd]. split.
  - apply (own_same _ _ w1); [done|done|]. unfold obj_own in *. by rewrite Ht.
  - intros _. by eapply alive_after.
Qed.

Lemma makes_tbt ctx a : makes HTbt (create_tag_buffer_table_obj ctx a).
Proof.
  apply (makes_factory HTbt tbt_obj); [done|]. intros l h w Ho. unfold tbt_create. apply wp_bind.
  eapply wp_mono; [|by apply own_create_alive]. intros [[st o] out] w1 Hw1. by apply wp_ret.
Qed.

Lemma makes_dek c ctx caps a : dek_attr_wf a -> blob_there a -> makes HDek (create_dek c ctx caps a).
Proof.
  intros Hwf Hb h w Ho. unfold create_dek. destruct (match caps with Some b => negb b | None => false end); [by apply wp_ret|].
  revert h w Ho. apply (makes_factory HDek dek_obj); [done|]. intros l h w Ho. apply wp_wlp.
  - eapply (own_dek_create c ctx a l h w (fun r w' => own (obj_own (dek_obj r.2) ++ l) h w')); [done|done|exact Ho|by intros].
  - unfold dek_create. cbv zeta. destruct (is_ok (verify_attr a)) eqn:Ev; cbn [negb]; [|apply wlp_ret; intros E; cbn [fst] in E; by rewrite E in Ev].
    destruct (get_key_params _ _ _) as [st [p|]] eqn:Ep.
    2:{ apply wlp_ret. cbn [fst]. intros Hst. by apply (get_key_params_status _ _ _ _ _ Ep) in Hst as [? ?]. }
    apply wlp_any. intros key w1. apply wlp_bind. eapply wlp_mono; [|apply wlp_obj_create].
    intros [[st' o] out] w2 Ha; cbn [fst snd] in *. destruct (is_ok st') eqn:Es; cbn [negb]; apply wlp_ret; cbn [fst snd].
    + intros _. apply Ha. by apply is_ok_true.
    + by intros ->.
Qed.

Lemma makes_node ctx e a :
  node_attr_wf a -> caps_sane e -> (exists c, head (na_in_arcs a) = Some c /\ arc_parse_graph_node c < 32) ->
  makes HNode (create_parser_graph_node ctx (Some e) a).
Proof.
  intros Hwf Hsane (c & Hc & Hn) h w Ho. unfold create_parser_graph_node. apply wp_bind, wp_ret, wp_bind.
  eapply wp_mono; [|by apply (node_supported_spec e a c)]. intros [] w' [-> Hf]; cbn [negb]; [|by apply wp_ret].
  destruct (proj1 Hf eq_refl) as [_ _ _ _ _ _ Hnum _]. destruct Hsane as [_ Hmax].
  revert h w Ho. apply (makes_factory HNode pgn_obj); [done|]. intros l h w Ho. unfold pgn_create. cbv zeta.
  cbn [parser_graph_node_new m_attrs pgn_obj]. rewrite samples_fit_small by lia. cbn [negb]. rewrite Hc.
  apply wp_bind, wp_ret, wp_bind. eapply wp_mono; [|by apply own_create_alive].
  intros [[st o] out] w1 [Ho1 Ha]; cbn [fst snd] in *. destruct (is_ok st) eqn:Es; cbn [negb]; apply wp_ret; cbn [fst snd].
  - split; [done|]. intros _. split; [apply Ha; by apply is_ok_true|]. cbn. lia.
  - by split.
Qed.

(** From what a factory gives to its caller. *)
Lemma made_of {A} (Hx : A -> handle) h q w :
  own (queue_own (fun x => handle_own (Hx x)) q ++ []) h w ->
  (forall p x, q = Some (p, x) -> handle_ok (Hx x) w) -> made Hx h q w.
Proof. rewrite app_nil_r. intros Ho Hok. destruct q as [[p x]|]; [|done]. split; [done|by eapply Hok]. Qed.

Lemma makes_ibq attr protocol mkey a : size_ok (buf_stride_num attr) -> makes HIbq (create_ibq_rq attr protocol mkey a).
Proof.
  intros Hz h w Ho.
  assert (wlp (create_ibq_rq attr protocol mkey a) (fun r w' => forall p q, r.2 = Some (p, q) -> alive (rq_obj (ibq q)) w') w) as Ha.
  { apply wlp_any. intros [self|] w1; [|by apply wlp_ret]. apply wlp_bind.
    apply (wlp_mono _ (makes_alive (fun q => rq_obj (ibq q)))).
    - intros [r q] w2 Hm. destruct (is_ok r) eqn:Er; cbn [negb].
      + apply wlp_ret. intros p q' [= <- <-]. apply Hm. by apply is_ok_true.
      + do 2 (apply wlp_any; intros). by apply wlp_ret.
    - unfold ibq_rq_init, ibq_rq_create. apply wlp_any. intros n w2. destruct (m_pd_id a =? 0); [by apply wlp_ret|].
      apply wlp_bind. eapply wlp_mono; [|apply wlp_rq_send_create]. intros [r o] w3 Hm. by apply wlp_ret. }
  eapply wp_mono; [|apply wp_wlp; [by apply (create_ibq_rq_safe attr protocol mkey a [] h w)|exact Ha]].
  intros [st q] w' [[Ho' _] Ha']. by apply made_of.
Qed.

Lemma makes_plain k create : makes HPlain (create_plain_mkey k create).
Proof.
  intros h w Ho. unfold create_plain_mkey. apply wp_bind. eapply own_alloc; [exact Ho|intros w1 Ho1; by apply wp_ret|].
  intros self w1 Ho1. destruct (create k) as [r k']. destruct (is_ok r); cbn [negb]; [by apply wp_ret|].
  apply wp_bind. eapply own_dealloc; [exact Ho1|]. intros w2 Ho2. by apply wp_ret.
Qed.

(** The factories of memory keys also return the counter. *)
Definition makes_key {A} (Hx : A -> handle) (m : M D (status * option (Z * A) * Z)) : Prop :=
  forall h w, own [] h w -> wp m (fun r w' => made Hx h r.1.2 w') w.

Lemma makes_direct ps ctx ibv_pd pd g a len fl : makes_key HDirect (create_direct_mkey ps (Some ctx) ibv_pd pd g a len fl).
Proof.
  intros h w Ho. unfold create_direct_mkey. apply wp_bind. eapply own_alloc; [exact Ho|intros w1 Ho1; by apply wp_ret|].
  intros self w1 Ho1. apply wp_bind. eapply wp_direct_reg_mem; [exact Ho1|]. intros st k w2 Ho2 Ek Eu Hm _ _ _.
  destruct (is_ok st) eqn:Es; cbn [negb].
  - apply is_ok_true in Es. apply wp_bind. unfold direct_mkey_create. destruct (dm_ibv_mem k) as [x|] eqn:Em; [|by destruct (Hm Es)].
    apply wp_ret. cbn [is_ok negb]. apply wp_ret. split; [done|]. cbn. by rewrite Ek.
  - apply wp_bind. eapply wp_direct_delete; [done|by rewrite Ek|by rewrite Ek|exact Ho2|]. intros w3 Ho3 _.
    apply wp_bind. eapply own_dealloc; [exact Ho3|]. intros w4 Ho4. by apply wp_ret.
Qed.

Lemma makes_pattern ps ctx pd g a fl n bbs : g <> 2 ^ 31 - 1 -> makes_key HPattern (create_pattern_mkey ps ctx pd g a fl n bbs).
Proof.
  intros Hg h w Ho. eapply wp_mono; [|by apply (create_pattern_mkey_safe ps ctx pd g a fl n bbs [] h w)].
  intros [[st [[p k]|]] g'] w' (_ & _ & Hq); cbn [fst snd]; [|done]. destruct Hq as [Ho' _]. rewrite app_nil_r in Ho'. by split.
Qed.

Lemma makes_crypto ctx pd g n : g <> 2 ^ 31 - 1 -> makes_key HCrypto (create_crypto_mkey ctx pd g n).
Proof.
  intros Hg h w Ho. unfold create_crypto_mkey. apply wp_bind. eapply own_alloc; [exact Ho|intros w1 Ho1; by apply wp_ret|].
  intros self w1 Ho1. apply wp_bind. cbn [kind_of] in Ho1.
  assert (forall r k g' w', own (obj_own (ck_obj k) ++ [(self, KMem)]) h w' ->
    wp (if negb (is_ok r) then _ <- obj_delete (ck_obj k);; dealloc self;; ret (DPCP_ERR_CREATE, None, g')
        else ret (DPCP_OK, Some (self, k), g')) (fun (r : status * option (Z * crypto_mkey) * Z) w' => made HCrypto h r.1.2 w') w') as Fin.
  { intros r k g' w' Ho'. destruct (is_ok r); cbn [negb].
    - apply wp_ret. split; [|done]. unfold entry_own. cbn. by rewrite Permutation_app_comm in Ho'.
    - apply wp_bind. eapply own_obj_delete; [exact Ho'|]. intros o w2 _ Ho2. apply wp_bind.
      eapply own_dealloc; [exact Ho2|]. intros w3 Ho3. by apply wp_ret. }
  unfold crypto_mkey_create. cbn [ck_obj ck_idx ck_max_sge]. destruct (pd =? 0); [apply wp_ret; by apply Fin|].
  destruct (negb _); [apply wp_ret; by apply Fin|]. apply wp_next_cnt; [done|]. apply wp_bind.
  eapply own_mkey_send; [exact Ho1|]. intros st o i w2 Ho2 _. apply wp_ret. by apply Fin.
Qed.
End factories.

(** ** Every step keeps the invariant *)

Section steps.
Context {D : Type} `{DevX D}.
Implicit Types (w : world D) (l : list (Z * kind)) (h : gmap Z blk).

(** A computation that works on [F] only, in a bigger heap. *)
Lemma wp_frame {A} (m : M D A) F L h w (F' : A -> list (Z * kind)) (P : A -> world D -> Prop) :
  own (F ++ L) h w -> (forall h', own F h' w -> wp m (fun r w' => own (F' r) h' w' /\ P r w') w) ->
  wp m (fun r w' => own (F' r ++ L) h w' /\ P r w' /\ forall p, p ∈ L.*1 -> heap w' !! p = heap w !! p) w.
Proof.
  intros Ho Hm. destruct (own_split L F h w Ho) as (h' & HF & Hrest). eapply wp_mono; [|exact (Hm h' HF)].
  intros r w' [Ho' HP]. destruct (Hrest _ _ Ho'). by split_and!.
Qed.

(** The objects that were there are as they were. *)
Lemma objs_ok_same (O : gmap Z handle) (L : list Z) w w' :
  (forall p x, O !! p = Some x -> forall q, q ∈ (handle_own x).*1 -> q ∈ L) ->
  (forall q, q ∈ L -> heap w' !! q = heap w !! q) ->
  map_Forall (fun _ x => handle_ok x w) O -> map_Forall (fun _ x => handle_ok x w') O.
Proof. intros Hin Hs Hok p x Hp. eapply handle_ok_same; [|by apply (Hok p)]. intros q Hq. apply Hs. by eapply Hin. Qed.

Lemma objs_in (O : gmap Z handle) L1 L2 p x q :
  O !! p = Some x -> q ∈ (handle_own x).*1 -> q ∈ (L1 ++ objs_own O ++ L2).*1.
Proof.
  intros Hp Hq. rewrite !fmap_app. apply elem_of_app. right. apply elem_of_app. left.
  eapply objs_own_elem; [exact Hp|]. csimpl. by apply elem_of_cons; right.
Qed.

Definition made_own {A} (Hx : A -> handle) (q : option (Z * A)) : list (Z * kind) :=
  match q with Some (p, x) => entry_own (p, Hx x) | None => [] end.

Lemma made_split {A} (Hx : A -> handle) h q w :
  made Hx h q w -> own (made_own Hx q) h w /\ (forall p x, q = Some (p, x) -> handle_ok (Hx x) w).
Proof. destruct q as [[p x]|]; [|done]. intros [Ho Hok]. split; [done|]. by intros p' x' [= <- <-]. Qed.

(** A new object, with the adapter [a] the factory left. *)
Lemma app_made {A} (Hx : A -> handle) s a g q L l h w w' :
  app_ok s l h w -> pool_wf (m_uarpool a) ->
  own (adapter_own a ++ made_own Hx q ++ objs_own (ap_objs s) ++ l) h w' ->
  (forall p x, q = Some (p, x) -> handle_ok (Hx x) w') ->
  (forall r, r ∈ (L ++ objs_own (ap_objs s) ++ l).*1 -> heap w' !! r = heap w !! r) ->
  app_ok (keep (mkApp a g (ap_objs s)) Hx (DPCP_OK, q)).2 l h w'.
Proof.
  intros (_ & _ & Hok) Hw Ho Hx' Hs.
  assert (map_Forall (fun _ x => handle_ok x w') (ap_objs s)) as Hold.
  { eapply objs_ok_same; [|exact Hs|exact Hok]. intros p x Hp r Hr. by eapply objs_in. }
  destruct q as [[p x]|]; cbn [keep snd ap_ad ap_cnt ap_objs made_own] in *.
  - assert (ap_objs s !! p = None) as Hp.
    { eapply (objs_own_fresh _ p KMem (adapter_own a ++ handle_own (Hx x) ++ l)). own_perm Ho. }
    split_and!; cbn [ap_ad ap_objs]; [done| |].
    + unfold app_own. cbn [ap_ad ap_objs]. rewrite objs_own_insert by done. own_perm Ho.
    + apply map_Forall_insert_2; [by apply (Hx' p)|done].
  - split_and!; [done| |done]. unfold app_own. cbn [ap_ad ap_objs]. own_perm Ho.
Qed.

Lemma keep_status {A} (Hx : A -> handle) s st q : (keep s Hx (st, q)).2 = (keep s Hx (DPCP_OK, q)).2.
Proof. done. Qed.

(** Factories that do not touch the adapter. *)
Lemma app_makes {A} (Hx : A -> handle) (m : M D (status * option (Z * A))) s l h w :
  app_ok s l h w -> makes Hx m -> wp (r <- m;; ret (keep s Hx r)) (fun r w' => app_ok r.2 l h w') w.
Proof.
  intros Hok Hm. pose proof Hok as (Hp & Ho & _). apply wp_bind. eapply wp_mono; [|
    apply (wp_frame m [] (app_own s ++ l) h w (fun r => made_own Hx r.2) (fun r w' => forall p x, r.2 = Some (p, x) -> handle_ok (Hx x) w'));
    [exact Ho|]].
  - intros [st q] w' (Ho' & Hx' & Hs). apply wp_ret. rewrite keep_status. destruct s as [a g O].
    eapply (app_made Hx (mkApp a g O) a g q (adapter_own a)); [exact Hok|done| |done|].
    + unfold app_own in Ho'. cbn [ap_ad ap_objs snd] in *. own_perm Ho'.
    + intros r Hr. apply Hs. unfold app_own. by rewrite <- app_assoc.
  - intros h' Ho'. eapply wp_mono; [|by apply Hm]. intros r w' Hr. by apply made_split.
Qed.

Lemma app_makes_key {A} (Hx : A -> handle) (m : M D (status * option (Z * A) * Z)) s l h w :
  app_ok s l h w -> makes_key Hx m -> wp (r <- m;; ret (keep_key s Hx r)) (fun r w' => app_ok r.2 l h w') w.
Proof.
  intros Hok Hm. pose proof Hok as (Hp & Ho & _). apply wp_bind. eapply wp_mono; [|
    apply (wp_frame m [] (app_own s ++ l) h w (fun r => made_own Hx r.1.2) (fun r w' => forall p x, r.1.2 = Some (p, x) -> handle_ok (Hx x) w'));
    [exact Ho|]].
  - intros [[st q] g'] w' (Ho' & Hx' & Hs). apply wp_ret. cbn [keep_key]. rewrite keep_status. destruct s as [a g O].
    eapply (app_made Hx (mkApp a g O) a g' q (adapter_own a)); [exact Hok|done| |done|].
    + unfold app_own in Ho'. cbn [ap_ad ap_objs snd fst] in *. own_perm Ho'.
    + intros r Hr. apply Hs. unfold app_own. by rewrite <- app_assoc.
  - intros h' Ho'. eapply wp_mono; [|by apply Hm]. intros r w' Hr. by apply made_split.
Qed.

(** Receive queues: the pool of the adapter may have changed too. *)
Lemma pool_wf_of (a a' : adapter) :
  pool_wf (m_uarpool a) -> adapter_wf a' -> exclusives a' = exclusives a -> pool_wf (m_uarpool a').
Proof.
  unfold pool_wf, adapter_wf, exclusives. destruct (m_uarpool a') as [[p' c']|]; [|done]. intros Hp Hw E. split; [done|].
  rewrite E. destruct (m_uarpool a) as [[p c]|]; [apply Hp|done].
Qed.

Lemma adapter_wf_of (a : adapter) : pool_wf (m_uarpool a) -> adapter_wf a.
Proof. unfold pool_wf, adapter_wf. by destruct (m_uarpool a) as [[p c]|]; [intros []|]. Qed.

Lemma app_makes_rq ps create ok attr s l h w :
  app_ok s l h w -> (forall pd, RqCreate (D := D) (create pd) ok) -> ok attr ->
  (forall pd b w, wlp (create pd b) (makes_alive brq_obj) w) ->
  wp (r <- create_basic_rq ps create attr (ap_ad s);; ret (keep_rq s r)) (fun r w' => app_ok r.2 l h w') w.
Proof.
  intros Hok HC Ha Hal. pose proof Hok as (Hp & Ho & _). apply wp_bind. eapply wp_mono; [|
    apply (wp_frame _ (adapter_own (ap_ad s)) (objs_own (ap_objs s) ++ l) h w
      (fun r => adapter_own r.2 ++ made_own HRq r.1.2)
      (fun r w' => pool_wf (m_uarpool r.2) /\ forall p x, r.1.2 = Some (p, x) -> handle_ok (HRq x) w'))].
  - intros [[st q] a'] w' (Ho' & [Hp' Hx'] & Hs). apply wp_ret. cbn [keep_rq]. rewrite keep_status.
    eapply (app_made HRq s a' (ap_cnt s) q []); [exact Hok|done| |done|exact Hs].
    cbn [fst snd] in Ho'. own_perm Ho'.
  - unfold app_own in Ho. own_perm Ho.
  - intros h' Ho'. eapply wp_mono; [|apply wp_wlp;
      [apply (own_create_basic_rq ps create ok attr (ap_ad s) [] h' w); [done|done|by apply adapter_wf_of|by rewrite app_nil_r]
      |by apply wlp_create_basic_rq]].
    intros [[st q] a'] w' [(Hw' & Ho2 & _ & _) [Hal' Ex]]. cbn [fst snd] in *. rewrite app_nil_r in Ho2.
    split_and!; [done|by eapply pool_wf_of|done].
Qed.

(** A method of an object the application holds. *)
Lemma app_updated {A} (Hx : A -> handle) s p x st y l h w w' :
  app_ok s l h w -> ap_objs s !! p = Some (Hx x) ->
  handle_own (Hx y) = handle_own (Hx x) -> handle_ok (Hx y) w' -> same_blocks w w' ->
  app_ok (update s p Hx (st, y)).2 l h w'.
Proof.
  intros (Hp & Ho & Hok) Hin Eo Hy [Hh Hn]. cbn [update snd fst] in *. split_and!; cbn [ap_ad ap_objs]; [done| |].
  - apply (own_same _ _ w); [done|done|]. unfold app_own in *. cbn [ap_ad ap_objs].
    rewrite <- insert_delete_eq, objs_own_insert by apply lookup_delete_eq. rewrite (objs_own_lookup _ _ _ Hin) in Ho.
    unfold entry_own in *. cbn [fst snd] in *. by rewrite Eo.
  - apply map_Forall_insert_2; [done|]. intros q z Hq. eapply handle_ok_same; [|by apply (Hok q)]. intros r _. by rewrite Hh.
Qed.

(** The same, for the methods that keep the device object. *)
Lemma app_commanded {A} (Hx : A -> handle) (obj_of : A -> obj) s p x st y l h w w' :
  (m_obj_handle (obj_of y) = m_obj_handle (obj_of x) -> handle_own (Hx y) = handle_own (Hx x)) ->
  (forall y (w : world D), handle_ok (Hx y) w = alive (obj_of y) w) ->
  app_ok s l h w -> ap_objs s !! p = Some (Hx x) ->
  m_obj_handle (obj_of y) = m_obj_handle (obj_of x) /\ same_blocks w w' ->
  app_ok (update s p Hx (st, y)).2 l h w'.
Proof.
  intros Hown Hal Hok Hin [Eh Hs]. eapply app_updated; [done|exact Hin|by apply Hown| |done].
  rewrite Hal. eapply alive_after; [|done|done]. rewrite <- Hal. destruct Hok as (_ & _ & Hok). by apply (Hok p).
Qed.

(** Deleting an object. *)
Lemma own_handle_delete p x l h w :
  own (entry_own (p, x) ++ l) h w -> handle_ok x w -> wp (handle_delete p x) (fun _ w' => own l h w') w.
Proof.
  intros Ho Hok. apply wp_bind.
  assert (forall w', own ((p, KMem) :: l) h w' -> wp (dealloc p) (fun _ w' => own l h w') w') as Fin.
  { intros w' Ho'. eapply own_dealloc; [exact Ho'|by intros]. }
  assert (own (handle_own x ++ (p, KMem) :: l) h w) as Ho1.
  { unfold entry_own in Ho. cbn [fst snd] in Ho. own_perm Ho. }
  assert (forall o, own (obj_own o ++ (p, KMem) :: l) h w ->
    wp (_ <- obj_delete o;; ret tt) (fun _ w' => wp (dealloc p) (fun _ w' => own l h w') w') w) as Obj.
  { intros o Ho'. apply wp_bind. eapply own_obj_delete; [exact Ho'|]. intros o' w1 _ Ho2. apply wp_ret. by apply Fin. }
  destruct x as [b|q|t|t|k|t|n|k|k|k|k]; cbn [handle_own handle_ok] in *; try (by apply Obj).
  - eapply own_basic_rq_delete; [exact Ho1|exact Fin].
  - unfold ibq_rq_delete, ibq_rq_destroy. apply wp_bind. eapply own_obj_destroy; [exact Ho1|]. intros w1 Ho2.
    apply wp_bind. eapply own_obj_delete; [exact Ho2|]. intros o' w2 _ Ho3. apply wp_ret. by apply Fin.
  - destruct Hok as (Eu & Eh & Ec). eapply wp_direct_delete; [done|done|by intros ?%Ec|exact Ho1|]. intros w1 Ho2 _. by apply Fin.
  - eapply own_pattern_delete; [exact Ho1|exact Fin].
  - by apply wp_ret, Fin.
Qed.

Lemma app_delete s p x l h w :
  app_ok s l h w -> ap_objs s !! p = Some x ->
  wp (handle_delete p x;; ret (DPCP_OK, mkApp (ap_ad s) (ap_cnt s) (delete p (ap_objs s)))) (fun r w' => app_ok r.2 l h w') w.
Proof.
  intros (Hp & Ho & Hok) Hin. apply wp_bind. eapply wp_mono; [|
    apply (wp_frame _ (entry_own (p, x)) (adapter_own (ap_ad s) ++ objs_own (delete p (ap_objs s)) ++ l) h w (fun _ => []) (fun _ _ => True))].
  - intros [] w' (Ho' & _ & Hs). apply wp_ret. split_and!; cbn [snd ap_ad ap_objs]; [done| |].
    + unfold app_own. cbn [ap_ad ap_objs]. own_perm Ho'.
    + eapply objs_ok_same; [|exact Hs|by apply map_Forall_delete]. intros q y Hq r Hr. by eapply objs_in.
  - unfold app_own in Ho. rewrite (objs_own_lookup _ _ _ Hin) in Ho. own_perm Ho.
  - intros h' Ho'. eapply wp_mono; [|apply (own_handle_delete p x [] h' w); [by rewrite app_nil_r|by apply (Hok p)]]. by intros.
Qed.

Lemma obj_own_handle o o' : m_obj_handle o' = m_obj_handle o -> obj_own o' = obj_own o.
Proof. unfold obj_own. by intros ->. Qed.

Section step.
Context (page_size ibv_pd : Z) (caps : hca_capabilities).

Lemma app_state s p new_state l h w :
  app_ok s l h w -> may_ask caps s (RState p new_state) ->
  wp (app_step page_size ibv_pd caps s (RState p new_state)) (fun r w' => app_ok r.2 l h w') w.
Proof.
  intros Hok [_ Hin]. pose proof Hok as (_ & _ & Hall). cbn [app_step holds] in *.
  destruct (ap_objs s !! p) as [[b|q| | | | | | | | |]|] eqn:Hp; try done;
    apply wp_bind, wp_ret, wp_bind; (eapply wp_mono; [|apply wp_rq_modify_state_alive; by apply (Hall p _ Hp)]);
    intros [st q'] w' Hq; apply wp_ret.
  - eapply (app_commanded HRq brq_obj _ _ b); [|done|done|done|exact Hq].
    intros Hy. cbn. unfold brq_own. f_equal. by apply obj_own_handle.
  - eapply (app_commanded HIbq (fun q => rq_obj (ibq q)) _ _ q); [|done|done|done|exact Hq]. apply obj_own_handle.
Qed.

Lemma app_query s p l h w :
  app_ok s l h w -> may_ask caps s (RQuery p) ->
  wp (app_step page_size ibv_pd caps s (RQuery p)) (fun r w' => app_ok r.2 l h w') w.
Proof.
  intros Hok [_ Hin]. pose proof Hok as (_ & _ & Hall). cbn [app_step holds] in *.
  destruct (ap_objs s !! p) as [[| |t|t|k|t|n| | | |]|] eqn:Hp; try done;
    apply wp_bind, wp_ret; cbn [query_handle]; apply wp_bind; specialize (Hall p _ Hp); cbn in Hall.
  - eapply wp_mono; [|by apply wp_tir_query_alive]. intros [[st y] x] w' Hq. apply wp_ret.
    eapply (app_commanded HTir t_obj _ _ t); [apply obj_own_handle|done|done|done|exact Hq].
  - eapply wp_mono; [|by apply wp_tis_query_alive]. intros [[st y] x] w' Hq. apply wp_ret.
    eapply (app_commanded HTis s_obj _ _ t); [apply obj_own_handle|done|done|done|exact Hq].
  - eapply wp_mono; [|by apply wp_dek_query_alive]. intros [[st y] x] w' Hq. apply wp_ret.
    eapply (app_commanded HDek dek_obj _ _ k); [apply obj_own_handle|done|done|done|exact Hq].
  - eapply wp_mono; [|by apply wp_tbt_query_alive]. intros [[st y] x] w' Hq. apply wp_ret.
    eapply (app_commanded HTbt tbt_obj _ _ t); [apply obj_own_handle|done|done|done|exact Hq].
  - destruct Hall as [Ha Hn]. eapply wp_mono; [|by apply wp_pgn_query_alive]. intros [st y] w' (Eh & Ea & Hs). apply wp_ret.
    eapply (app_updated HNode _ _ n); [done|done|by apply obj_own_handle| |done]. cbn [handle_ok snd] in *. rewrite Ea.
    split; [by eapply alive_after|done].
Qed.

Lemma app_step_keeps s r l h w :
  app_ok s l h w -> may_ask caps s r ->
  wp (app_step page_size ibv_pd caps s r) (fun r w' => app_ok r.2 l h w') w.
Proof.
  intros Hok Hm. pose proof Hok as (_ & _ & Hall). destruct r; try (by apply app_state); try (by apply app_query);
    destruct Hm as [Ha Hm]; cbn [app_step attrs_ok holds] in *.
  - apply (app_makes_rq _ _ sizes_ok); [done|intros pd; apply striding_create|done|].
    intros pd b w'. apply (wlp_rq_create true).
  - apply (app_makes_rq _ _ regular_ok); [done|intros pd; apply regular_create|done|].
    intros pd b w'. apply (wlp_rq_create false).
  - by apply app_makes, makes_ibq.
  - apply app_makes; [done|apply makes_tir].
  - apply app_makes; [done|apply makes_tis].
  - destruct Ha. by apply app_makes, makes_dek.
  - apply app_makes; [done|apply makes_tbt].
  - destruct Ha as (? & ? & ?). by apply app_makes, makes_node.
  - apply app_makes_key; [done|apply makes_direct].
  - apply app_makes_key, makes_pattern; [done|]. by bool_hyps.
  - apply app_makes_key, makes_crypto; [done|]. by bool_hyps.
  - apply app_makes; [done|apply makes_plain].
  - apply app_makes; [done|apply makes_plain].
  - destruct (ap_objs s !! p) as [[| |t| | | | | | | |]|] eqn:Hp; try done. apply wp_bind, wp_ret, wp_bind.
    eapply wp_mono; [|apply wp_tir_modify_alive; by apply (Hall p _ Hp)]. intros [st y] w' Hq. apply wp_ret.
    eapply (app_commanded HTir t_obj _ _ t); [apply obj_own_handle|done|done|done|exact Hq].
  - destruct Ha as [Hwf Hb]. destruct (ap_objs s !! p) as [[| | | |k| | | | | |]|] eqn:Hp; try done. apply wp_bind, wp_ret, wp_bind.
    eapply wp_mono; [|apply wp_dek_modify_alive; [by apply (Hall p _ Hp)|done|done]]. intros [st y] w' Hq. apply wp_ret.
    eapply (app_commanded HDek dek_obj _ _ k); [apply obj_own_handle|done|done|done|exact Hq].
  - destruct (ap_objs s !! p) as [x|] eqn:Hp; [|done]. apply wp_bind, wp_ret. by apply app_delete.
Qed.
End step.

Section run.
Context (page_size ibv_pd : Z) (caps : hca_capabilities).

Lemma app_run_keeps rs : forall s l h w,
  app_ok s l h w -> may_run caps (app_step page_size ibv_pd caps) s w rs ->
  wp (app_run page_size ibv_pd caps s rs) (fun r w' => app_ok r.2 l h w' /\ length r.1 = length rs) w.
Proof.
  induction rs as [|r rs IH]; intros s l h w Hok Hm; cbn [app_run may_run] in *; [by apply wp_ret|].
  destruct Hm as [Hr Hrest]. apply wp_bind. eapply wp_mono; [|by apply wp_eq, app_step_keeps].
  intros [st s'] w1 [Hok1 E]. apply wp_bind. eapply wp_mono; [|apply (IH s' l h w1); [done|by eapply Hrest]].
  intros [sts s2] w2 [Hok2 Hl]. apply wp_ret. split; [done|]. cbn in *. by rewrite Hl.
Qed.

Lemma own_delete_all objs : forall l h w,
  own (flat_map entry_own objs ++ l) h w -> Forall (fun e => handle_ok e.2 w) objs ->
  wp (delete_all objs) (fun _ w' => own l h w') w.
Proof.
  induction objs as [|[p x] objs IH]; intros l h w Ho Hok; [by apply wp_ret|]. cbn [delete_all].
  inversion Hok as [|? ? Hx Hrest]; subst. apply wp_bind.
  eapply wp_mono; [|apply (wp_frame _ (entry_own (p, x)) (flat_map entry_own objs ++ l) h w (fun _ => []) (fun _ _ => True))].
  - intros [] w' (Ho' & _ & Hs). apply (IH _ h); [done|]. rewrite list.Forall_forall in *. intros [q y] Hin.
    eapply handle_ok_same; [|by apply (Hrest (q, y))]. intros r Hr. apply Hs. rewrite fmap_app. apply elem_of_app. left.
    apply list_elem_of_fmap in Hr as ([r' k] & -> & Hr). apply list_elem_of_fmap. exists (r', k). split; [done|].
    apply list_elem_of_In, in_flat_map. exists (q, y). split; [by apply list_elem_of_In|]. right. by apply list_elem_of_In.
  - cbn [flat_map] in Ho. own_perm Ho.
  - intros h' Ho'. eapply wp_mono; [|apply (own_handle_delete p x [] h' w); [by rewrite app_nil_r|done]]. by intros.
Qed.

Lemma own_app_close s l h w : app_ok s l h w -> wp (app_close s) (fun _ w' => own l h w') w.
Proof.
  intros (Hp & Ho & Hok). apply wp_bind.
  eapply wp_mono; [|apply (own_delete_all (map_to_list (ap_objs s)) (adapter_own (ap_ad s) ++ l) h w)].
  - intros [] w' Ho'. eapply own_pool_delete; [exact Ho'|done|by intros].
  - unfold app_own, objs_own in Ho. own_perm Ho.
  - apply map_Forall_to_list in Hok. revert Hok. apply Forall_impl. by intros [].
Qed.

Lemma own_app_life s rs l h w :
  app_ok s l h w -> may_run caps (app_step page_size ibv_pd caps) s w rs ->
  wp (app_life page_size ibv_pd caps s rs) (fun sts w' => own l h w' /\ length sts = length rs) w.
Proof.
  intros Hok Hm. apply wp_bind. eapply wp_mono; [|by apply app_run_keeps]. intros [sts s'] w1 [Hok1 Hl].
  apply wp_bind. eapply wp_mono; [|by apply own_app_close]. intros [] w2 Ho2. by apply wp_ret.
Qed.

(** An adapter that was just opened, and no objects. *)
Definition new_app (ctx pd g : Z) : app := mkApp (mkAdapter ctx None pd) g ∅.

Lemma new_app_ok ctx pd g w : fresh_ok w -> app_ok (new_app ctx pd g) [] (heap w) w.
Proof.
  intros Hf. split_and!; [done| |by apply map_Forall_empty]. unfold app_own. cbn. rewrite objs_own_empty. by apply own_nil.
Qed.

(** An application on an adapter leaves nothing behind.  Whatever objects it
    creates, changes, queries and deletes, in any order, with attributes in range
    ([attrs_ok]) and naming objects it holds ([holds]), and whatever the device
    answers and whichever allocations fail, there is no undefined behaviour (no
    double free, no access to a deleted object or to a null handle), every
    request gets a status, and when it has deleted its objects and the pool the
    heap is what it was. *)
Theorem app_leaves_nothing ctx pd g rs w :
  fresh_ok w -> may_run caps (app_step page_size ibv_pd caps) (new_app ctx pd g) w rs ->
  wp (app_life page_size ibv_pd caps (new_app ctx pd g) rs) (fun sts w' => heap w' = heap w /\ length sts = length rs) w.
Proof.
  intros Hf Hm. eapply wp_mono; [|by apply own_app_life; [apply new_app_ok|]].
  intros sts w' [Ho Hl]. split; [by apply own_nil_heap|done].
Qed.
End run.
End steps.

(** ** Witness *)

(** The part of the obligations that is computed along a run. *)
Fixpoint holds_run {D} (step : app -> request -> M D (status * app)) (s : app) (w : world D) (rs : list request) : bool :=
  match rs with
  | [] => true
  | r :: rs => holds s r && match step s r w with Ret (_, s', w') => holds_run step s' w' rs | UB _ => true end
  end.

Lemma may_run_computed {D} caps (step : app -> request -> M D (status * app)) rs : forall s w,
  Forall (attrs_ok caps) rs -> holds_run step s w rs = true -> may_run caps step s w rs.
Proof.
  induction rs as [|r rs IH]; intros s w Ha Hh; [done|]. cbn [holds_run may_run] in *. inversion Ha; subst.
  apply andb_true_iff in Hh as [Hh1 Hh2]. split; [by split|]. intros st s' w' E. rewrite E in Hh2. by apply IH.
Qed.

(** A striding queue, a receive object, a pattern key and an in-buffer queue; the
    queue is made ready, the object queried, and both are deleted. *)
Definition demo_requests : list request :=
  [RStridingRq Rq.sample_attr; RTir tir_attr_zero; RPattern 4096 0 4 []; RIbqRq Rq.sample_attr 0 7;
   RState 2 RQ_RDY; RQuery 10; RDelete 10; RDelete 2].

Lemma demo_attrs_ok : Forall (attrs_ok ∅) demo_requests.
Proof. repeat constructor; try exact sample_sizes; cbn; lia. Qed.

Lemma app_leaves_nothing_witness :
  match app_life 4096 9 ∅ (new_app 1 3 0) demo_requests sim_world with
  | Ret (sts, _) => forallb is_ok (take 4 sts) | UB _ => false
  end = true
  /\ wp (app_life 4096 9 ∅ (new_app 1 3 0) demo_requests)
     (fun sts w' => heap w' = ∅ /\ length sts = 8%nat) sim_world.
Proof.
  split; [vm_compute; reflexivity|]. apply (app_leaves_nothing 4096 9 ∅ 1 3 0 demo_requests sim_world).
  - exact sim_world_fresh.
  - apply may_run_computed; [exact demo_attrs_ok|vm_compute; reflexivity].
Defined.
