(* ===== verification/Windows.v ===== *)
(** * The Windows back end (src/src/dcmd/windows): contexts, objects, memory

    The second implementation of the [dcmd] classes, over the functions [devx_*]
    of the vendor library.  They report an error as a small negative pointer, an
    object sends its commands through the context it keeps, and a registration
    keeps its number.  The classes are modelled on the heap of Dcmd.v; the
    functions of the vendor library are the class [WinDevX].

    A client of [dcmd] is a program over its operations.  Whatever the Linux back
    end does for such a program over a device that answers as the vendor library
    does, the Windows back end does too: what the development shows of the
    classes above [dcmd] holds on both. *)

From S2P Require Import Prelude Codec Prm Dcmd Own Sim Obj.
Open Scope string_scope.
Open Scope list_scope.
Open Scope Z_scope.
Open Scope m_scope.

(** ** The vendor library *)

(** A pointer is the signed value [LONG_PTR] has: small negative values are
    errors. *)
Class WinDevX (D : Type) := {
  devx_obj_create : Z -> list Z -> list Z -> D -> Z * list Z * D;
  devx_obj_destroy : Z -> D -> Z * D;
  devx_cmd : Z -> list Z -> list Z -> D -> Z * list Z * D;
  devx_umem_reg : Z -> Z -> Z -> Z -> D -> Z * Z * D;     (* handle and number *)
  devx_umem_unreg : Z -> D -> Z * D;
  devx_alloc_uar : Z -> Z -> D -> Z * D;
  devx_free_uar : Z -> D -> D;
  uar_index : Z -> D -> Z;
  uar_page : Z -> D -> Z;
  win_reg_mr : Z -> Z -> Z -> Z -> D -> option Z * D;
  win_reg_mr_iova2 : Z -> Z -> Z -> Z -> Z -> D -> option Z * D;
  win_dereg_mr : Z -> D -> Z * D;
  win_mr_lkey : Z -> D -> Z
}.

Definition UM_MAX_ERRNO : Z := 999.
Definition UM_ENOMEM : Z := 12.

(** [mlx5dv_l2w_is_error], the macro [IS_ERR] *)
Definition mlx5dv_l2w_is_error (p : Z) : bool := (- UM_MAX_ERRNO <=? p) && (p <=? 0).

(** [mlx5dv_l2w_ptr_error], the macro [PTR_ERR]; the cast keeps 32 bits. *)
Definition mlx5dv_l2w_ptr_error (p : Z) : Z := if p =? 0 then - UM_ENOMEM else swrap 32 p.

(** What the pointer stands for. *)
Definition good (p : Z) : option Z := if mlx5dv_l2w_is_error p then None else Some p.

(** ** The classes *)

Section windows.
Context {D : Type} `{WinDevX D}.

(** [ctx::exec_cmd] *)
Definition win_exec_cmd (ctx : Z) (inb outb : list Z) : M D (Z * list Z) :=
  '(r, o) <- device (fun d => let '(r, o, d') := devx_cmd ctx inb outb d in ((r, o), d'))
                    (fun _ => CGeneralCmd inb);;
  ret (if r =? 0 then DCMD_EOK else DCMD_EIO, o).

(** [ctx::create_obj] with the constructor of [obj] *)
Definition win_create_obj (ctx : Z) (inb outb : list Z) : M D (option Z * list Z) :=
  p <- alloc (BWinObj ctx None);;
  match p with
  | None => ret (None, outb)
  | Some p =>
      '(h, out') <- device (fun d => let '(h, o, d') := devx_obj_create ctx inb outb d in ((h, o), d'))
                           (fun r => CObjCreate inb (good (fst r)));;
      if mlx5dv_l2w_is_error h then dealloc p;; ret (None, out')
      else store p (BWinObj ctx (Some h));; ret (Some p, out')
  end.

(** [obj::destroy] *)
Definition win_obj_destroy (p : Z) : M D Z :=
  b <- load p;;
  match b with
  | BWinObj ctx (Some h) =>
      r <- device (devx_obj_destroy h) (fun _ => CObjDestroy h);;
      store p (BWinObj ctx None);; ret r
  | BWinObj _ None => ret DCMD_EOK
  | _ => ub "not a dcmd::obj"
  end.

(** [delete] of an [obj*] *)
Definition win_delete_obj (p : option Z) : M D unit :=
  match p with
  | None => ret tt
  | Some p => _ <- win_obj_destroy p;; dealloc p
  end.

(** [obj::query] and [obj::modify]: both are [devx_cmd] on the context, whatever
    the handle of the object is. *)
Definition win_obj_query (p : Z) (inb outb : list Z) : M D (Z * list Z) :=
  b <- load p;;
  match b with
  | BWinObj ctx _ =>
      '(r, o) <- device (fun d => let '(r, o, d') := devx_cmd ctx inb outb d in ((r, o), d'))
                        (fun _ => CObjQuery ctx inb);;
      ret (if r =? 0 then DCMD_EOK else DCMD_EIO, o)
  | _ => ub "not a dcmd::obj"
  end.

Definition win_obj_modify (p : Z) (inb outb : list Z) : M D (Z * list Z) :=
  b <- load p;;
  match b with
  | BWinObj ctx _ =>
      '(r, o) <- device (fun d => let '(r, o, d') := devx_cmd ctx inb outb d in ((r, o), d'))
                        (fun _ => CObjModify ctx inb);;
      ret (if r =? 0 then DCMD_EOK else DCMD_EIO, o)
  | _ => ub "not a dcmd::obj"
  end.

(** [obj::get_handle] *)
Definition win_obj_get_handle (p : Z) : M D Z :=
  b <- load p;;
  match b with BWinObj _ h => ret (default 0 h) | _ => ub "not a dcmd::obj" end.

(** [ctx::create_umem] with the constructor of [umem] *)
Definition win_create_umem (ctx addr sz access : Z) : M D (option Z) :=
  p <- alloc BMem;;
  match p with
  | None => ret None
  | Some p =>
      '(h, id) <- device (fun d => let '(h, i, d') := devx_umem_reg ctx addr sz access d in ((h, i), d'))
                         (fun r => CUmemReg addr sz (good (fst r)));;
      if mlx5dv_l2w_is_error h then dealloc p;; ret None
      else store p (BWinUmem h (wrap 32 id));; ret (Some p)
  end.

(** [delete] of a [umem*] *)
Definition win_delete_umem (p : option Z) : M D unit :=
  match p with
  | None => ret tt
  | Some p =>
      b <- load p;;
      match b with
      | BWinUmem h _ => _ <- device (devx_umem_unreg h) (fun _ => CUmemDereg h);; dealloc p
      | _ => ub "not a dcmd::umem"
      end
  end.

(** [umem::get_id] *)
Definition win_umem_get_id (p : Z) : M D Z :=
  b <- load p;;
  match b with BWinUmem _ id => ret id | _ => ub "not a dcmd::umem" end.

(** [ctx::create_uar] with the constructor of [uar]; [desc->flags] has 32 bits. *)
Definition win_create_uar (ctx flags : Z) : M D (option Z) :=
  p <- alloc BMem;;
  match p with
  | None => ret None
  | Some p =>
      h <- device (devx_alloc_uar ctx (wrap 32 flags)) (fun r => CUarAlloc (wrap 32 flags) (good r));;
      if mlx5dv_l2w_is_error h then dealloc p;; ret None
      else store p (BUar h);; ret (Some p)
  end.

(** [delete] of a [uar*] *)
Definition win_delete_uar (p : option Z) : M D unit :=
  match p with
  | None => ret tt
  | Some p =>
      b <- load p;;
      match b with
      | BUar h => _ <- device (fun d => (tt, devx_free_uar h d)) (fun _ => CUarFree h);; dealloc p
      | _ => ub "not a dcmd::uar"
      end
  end.

(** [uar::get_id], [uar::get_page], [uar::get_reg] *)
Definition win_uar_get_id (p : Z) : M D Z := h <- uar_handle p;; peek (uar_index h).
Definition win_uar_get_page (p : Z) : M D Z := h <- uar_handle p;; peek (uar_page h).
Definition win_uar_get_reg (p : Z) : M D Z :=
  h <- uar_handle p;; peek (fun d => wrap 64 (uar_page h d + 0x800)).

(** [ctx::ibv_reg_mem_reg], [ctx::ibv_reg_mem_reg_iova], [ctx::ibv_dereg_mem_reg] *)
Definition win_ibv_reg_mem_reg (pd addr len access : Z) : M D (option Z) :=
  device (win_reg_mr pd addr len access) (CMrReg addr len).
Definition win_ibv_reg_mem_reg_iova (pd addr len iova access : Z) : M D (option Z) :=
  device (win_reg_mr_iova2 pd addr len iova access) (CMrReg addr len).
Definition win_ibv_dereg_mem_reg (mr : Z) : M D Z :=
  device (win_dereg_mr mr) (fun _ => CMrDereg mr).
End windows.

(** ** Clients of [dcmd] *)

(** The operations, by the type of their answers: host memory, the methods of a
    context and of the objects it hands out, and the fields of a registration.
    What a client does with the number of a handle is not one of them: of
    [get_handle] it only learns that the object is there. *)
Inductive dop : Type -> Type :=
| OAlloc (raw : option Z) : dop (option Z)        (* a buffer of that size, or an object *)
| OFree (p : Z) : dop unit
| OSize (p : Z) : dop Z                           (* the size of a buffer *)
| OExecCmd (ctx : Z) (inb outb : list Z) : dop (Z * list Z)
| OCreateObj (ctx : Z) (inb outb : list Z) : dop (option Z * list Z)
| ODestroy (p : Z) : dop Z
| ODeleteObj (p : option Z) : dop unit
| OQuery (p : Z) (inb outb : list Z) : dop (Z * list Z)
| OModify (p : Z) (inb outb : list Z) : dop (Z * list Z)
| OGetHandle (p : Z) : dop unit
| OCreateUmem (ctx addr sz access : Z) : dop (option Z)
| ODeleteUmem (p : option Z) : dop unit
| OUmemId (p : Z) : dop Z
| OCreateUar (ctx flags : Z) : dop (option Z)
| ODeleteUar (p : option Z) : dop unit
| OUarId (p : Z) : dop Z
| OUarPage (p : Z) : dop Z
| OUarReg (p : Z) : dop Z
| ORegMr (pd addr len access : Z) : dop (option Z)
| ORegMrIova (pd addr len iova access : Z) : dop (option Z)
| ODeregMr (mr : Z) : dop Z
| OMrLkey (mr : Z) : dop Z.

(** A program over the operations; it may also run into undefined behaviour of its
    own. *)
Inductive prog (A : Type) : Type :=
| PRet (a : A)
| PUb (why : string)
| POp {B : Type} (o : dop B) (k : B -> prog A).
Arguments PRet {A}.
Arguments PUb {A}.
Arguments POp {A B}.

(** A program run with an implementation of the operations. *)
Fixpoint run {D A} (step : forall B, dop B -> M D B) (p : prog A) : M D A :=
  match p with
  | PRet a => ret a
  | PUb why => ub why
  | POp o k => b <- step _ o;; run step (k b)
  end.

Fixpoint pbind {A B} (p : prog A) (k : A -> prog B) : prog B :=
  match p with
  | PRet a => k a
  | PUb why => PUb why
  | POp o q => POp o (fun b => pbind (q b) k)
  end.

Lemma run_pbind {D A B} (step : forall B, dop B -> M D B) (p : prog A) (k : A -> prog B) w :
  run step (pbind p k) w = bind (run step p) (fun a => run step (k a)) w.
Proof.
  revert w. induction p as [a|why|C o q IH]; intros w; [done|done|]. cbn. unfold bind at 1 2 3.
  destruct (step C o w) as [[b w']|]; [|done]. apply IH.
Qed.

Definition block_of (raw : option Z) : blk := match raw with Some n => BRaw n | None => BMem end.

(** [obj::get_handle] of the Linux back end *)
Definition dobj_get_handle {D} (p : Z) : M D Z :=
  b <- load p;;
  match b with BObj h => ret (default 0 h) | _ => ub "not a dcmd::obj" end.

(** The size of a buffer. *)
Definition raw_size {D} (p : Z) : M D Z :=
  b <- load p;; match b with BRaw n => ret n | _ => ub "not a buffer" end.

Definition linux_step {D} `{DevX D} (B : Type) (o : dop B) : M D B :=
  match o with
  | OAlloc raw => alloc (block_of raw)
  | OFree p => dealloc p
  | OSize p => raw_size p
  | OExecCmd c i o => exec_cmd c i o
  | OCreateObj c i o => create_obj c i o
  | ODestroy p => dobj_destroy p
  | ODeleteObj p => delete_obj p
  | OQuery p i o => dobj_query p i o
  | OModify p i o => dobj_modify p i o
  | OGetHandle p => _ <- dobj_get_handle p;; ret tt
  | OCreateUmem c a s x => create_umem c a s x
  | ODeleteUmem p => delete_umem p
  | OUmemId p => umem_get_id p
  | OCreateUar c f => create_uar c f
  | ODeleteUar p => delete_uar p
  | OUarId p => uar_get_id p
  | OUarPage p => uar_get_page p
  | OUarReg p => uar_get_reg p
  | ORegMr pd a l x => ibv_reg_mem_reg pd a l x
  | ORegMrIova pd a l i x => ibv_reg_mem_reg_iova pd a l i x
  | ODeregMr m => ibv_dereg_mem_reg m
  | OMrLkey m => peek (ibv_mr_lkey m)
  end.

Definition windows_step {D} `{WinDevX D} (B : Type) (o : dop B) : M D B :=
  match o with
  | OAlloc raw => alloc (block_of raw)
  | OFree p => dealloc p
  | OSize p => raw_size p
  | OExecCmd c i o => win_exec_cmd c i o
  | OCreateObj c i o => win_create_obj c i o
  | ODestroy p => win_obj_destroy p
  | ODeleteObj p => win_delete_obj p
  | OQuery p i o => win_obj_query p i o
  | OModify p i o => win_obj_modify p i o
  | OGetHandle p => _ <- win_obj_get_handle p;; ret tt
  | OCreateUmem c a s x => win_create_umem c a s x
  | ODeleteUmem p => win_delete_umem p
  | OUmemId p => win_umem_get_id p
  | OCreateUar c f => win_create_uar c f
  | ODeleteUar p => win_delete_uar p
  | OUarId p => win_uar_get_id p
  | OUarPage p => win_uar_get_page p
  | OUarReg p => win_uar_get_reg p
  | ORegMr pd a l x => win_ibv_reg_mem_reg pd a l x
  | ORegMrIova pd a l i x => win_ibv_reg_mem_reg_iova pd a l i x
  | ODeregMr m => win_ibv_dereg_mem_reg m
  | OMrLkey m => peek (win_mr_lkey m)
  end.

(** ** The vendor library as a device of the Linux back end

    Error pointers become null, the handle of an object carries its context and
    the handle of a registration its number.  The second, non-cached attempt of the
    Linux constructor of [uar] is refused.  What the operations above do not use
    is refused too. *)

Definition UAR_BF : Z := 2 ^ 32.
Definition UAR_NC : Z := 2 ^ 33.
Definition with_id (h id : Z) : Z := h * 2 ^ 32 + id.

(** A handle with its context, as one number. *)
Definition with_ctx (c h : Z) : Z := Z.pos (encode (c, h)).
Definition of_ctx (x : Z) : Z * Z := match x with Z.pos p => default (0, 0) (decode p) | _ => (0, 0) end.

Lemma of_with_ctx c h : of_ctx (with_ctx c h) = (c, h).
Proof. unfold of_ctx, with_ctx. by rewrite decode_encode. Qed.

Definition as_linux {D} `{WinDevX D} : DevX D := {|
  mlx5dv_devx_obj_create ctx i o d := let '(h, o', d') := devx_obj_create ctx i o d in
    (with_ctx ctx <$> good h, o', d');
  mlx5dv_devx_obj_destroy x d := devx_obj_destroy (of_ctx x).2 d;
  mlx5dv_devx_obj_modify x i o d := devx_cmd (of_ctx x).1 i o d;
  mlx5dv_devx_obj_query x i o d := devx_cmd (of_ctx x).1 i o d;
  mlx5dv_devx_general_cmd ctx i o d := devx_cmd ctx i o d;
  mlx5dv_devx_umem_reg ctx a s x d :=
    let '(h, id, d') := devx_umem_reg ctx a s x d in
    (match good h with Some h => Some (with_id h (wrap 32 id)) | None => None end, d');
  mlx5dv_devx_umem_dereg h d := devx_umem_unreg (h / 2 ^ 32) d;
  devx_umem_id h _ := h mod 2 ^ 32;
  MLX5_IB_UAPI_UAR_ALLOC_TYPE_BF := UAR_BF;
  MLX5_IB_UAPI_UAR_ALLOC_TYPE_NC := UAR_NC;
  mlx5dv_devx_alloc_uar ctx f d :=
    if Z.testbit f 33 then (None, d) else let '(h, d') := devx_alloc_uar ctx (wrap 32 f) d in (good h, d');
  mlx5dv_devx_free_uar h d := devx_free_uar h d;
  devx_uar_page_id h d := uar_index h d;
  devx_uar_base_addr h d := uar_page h d;
  devx_uar_reg_addr h d := wrap 64 (uar_page h d + 0x800);
  mlx5dv_pp_alloc _ _ d := (None, d);
  mlx5dv_pp_free _ d := d;
  devx_pp_index _ _ := 0;
  ibv_reg_mr pd a l x d := win_reg_mr pd a l x d;
  ibv_reg_mr_iova pd a l i x d := win_reg_mr_iova2 pd a l i x d;
  ibv_dereg_mr m d := win_dereg_mr m d;
  ibv_mr_lkey m d := win_mr_lkey m d;
  mlx5dv_create_flow_matcher _ _ d := (None, d);
  mlx5dv_destroy_flow_matcher _ d := d;
  mlx5dv_create_flow_action_modify_header _ _ d := (None, d);
  mlx5dv_create_flow _ _ _ d := (None, d);
  ibv_destroy_flow _ d := d
|}.

(** ** The simulation *)

(** A block of the Windows process as the Linux back end would hold it. *)
Definition lin_blk (b : blk) : blk :=
  match b with
  | BWinObj ctx h => BObj (with_ctx ctx <$> h)
  | BWinUmem h id => BUmem (with_id h id)
  | _ => b
  end.

(** The blocks of a Windows process. *)
Definition win_blk (b : blk) : Prop :=
  match b with
  | BWinUmem _ id => 0 <= id < 2 ^ 32
  | BObj _ | BUmem _ => False
  | _ => True
  end.

(** [sees w1 w2]: the Windows process [w1] and the Linux process [w2] are in the
    same state. *)
Definition sees {D} (w1 w2 : world D) : Prop :=
  dev w1 = dev w2 /\ next w1 = next w2 /\ oom w1 = oom w2
  /\ heap w2 = lin_blk <$> heap w1 /\ map_Forall (fun _ => win_blk) (heap w1).

(** A Windows computation does what the Linux one does. *)
Definition follows {D A} (m1 m2 : M D A) : Prop :=
  forall w1 w2 a w2', sees w1 w2 -> m2 w2 = Ret (a, w2') ->
  exists w1', m1 w1 = Ret (a, w1') /\ sees w1' w2'.

Section follows.
Context {D : Type}.
Implicit Types w : world D.

Lemma follows_ret {A} (a : A) : follows (D := D) (ret a) (ret a).
Proof. intros w1 w2 a' w2' Hs [= <- <-]. by exists w1. Qed.

Lemma follows_ub {A} (m : M D A) why : follows m (ub why).
Proof. intros w1 w2 a w2' _ E. done. Qed.

Lemma follows_bind {A B} (m1 m2 : M D A) (k1 k2 : A -> M D B) :
  follows m1 m2 -> (forall a, follows (k1 a) (k2 a)) -> follows (bind m1 k1) (bind m2 k2).
Proof.
  intros Hm Hk w1 w2 b w2' Hs. unfold bind. destruct (m2 w2) as [[a w]|] eqn:E; [|done]. intros E2.
  destruct (Hm _ _ _ _ Hs E) as (w1' & -> & Hs'). by apply (Hk a w1' w).
Qed.

Lemma sees_lookup w1 w2 p : sees w1 w2 -> heap w2 !! p = lin_blk <$> (heap w1 !! p).
Proof. intros (_ & _ & _ & -> & _). apply lookup_fmap. Qed.

Lemma sees_insert w1 w2 p b (d : D) n o cs cs' :
  sees w1 w2 -> win_blk b ->
  sees (mkWorld d (<[p := b]> (heap w1)) n o cs) (mkWorld d (<[p := lin_blk b]> (heap w2)) n o cs').
Proof.
  intros (_ & _ & _ & Hh & Hb) Hw. split_and!; try done; simpl.
  - by rewrite fmap_insert, Hh.
  - by apply map_Forall_insert_2.
Qed.

Lemma follows_alloc b : win_blk b -> follows (D := D) (alloc b) (alloc (lin_blk b)).
Proof.
  intros Hb w1 w2 a w2' Hs. unfold alloc. pose proof Hs as (Hd & Hn & Ho & Hh & Hf). rewrite <- Ho.
  assert (forall r, sees (mkWorld (dev w1) (heap w1) (next w1) r (calls w1)) (mkWorld (dev w2) (heap w2) (next w2) r (calls w2))) as Hsame
    by (intros r; by split_and!).
  destruct (oom w1) as [|[] r]; intros [= <- <-]; rewrite <- ?Hn, <- ?Hd;
    (eexists; split; [done|]); [by apply sees_insert|specialize (Hsame r); by rewrite <- Hn, <- Hd in Hsame|by apply sees_insert].
Qed.

Lemma follows_dealloc p : follows (D := D) (dealloc p) (dealloc p).
Proof.
  intros w1 w2 a w2' Hs. unfold dealloc. rewrite (sees_lookup w1 w2) by done. destruct Hs as (Hd & Hn & Ho & Hh & Hf).
  destruct (heap w1 !! p); [|done]. intros [= <- <-]. eexists. split; [done|]. split_and!; try done; simpl.
  - by rewrite Hh, fmap_delete.
  - by apply map_Forall_delete.
Qed.

Lemma follows_load {A} p (k1 k2 : blk -> M D A) :
  (forall b, win_blk b -> follows (k1 b) (k2 (lin_blk b))) -> follows (bind (load p) k1) (bind (load p) k2).
Proof.
  intros Hk w1 w2 a w2' Hs. unfold bind, load. rewrite (sees_lookup w1 w2) by done.
  destruct (heap w1 !! p) as [b|] eqn:E; [|done]. cbn. intros E2. eapply (Hk b); [|exact Hs|exact E2].
  destruct Hs as (_ & _ & _ & _ & Hf). exact (Hf p b E).
Qed.

Lemma follows_store p b : win_blk b -> follows (D := D) (store p b) (store p (lin_blk b)).
Proof.
  intros Hb w1 w2 a w2' Hs. unfold store. rewrite (sees_lookup w1 w2) by done.
  pose proof Hs as (Hd & Hn & Ho & _). destruct (heap w1 !! p); [|done]. intros [= <- <-].
  eexists. split; [done|]. rewrite <- Hd, <- Hn, <- Ho. by apply sees_insert.
Qed.

(** Two calls to the device whose answers correspond. *)
Lemma follows_device {A1 A2 B} (f1 : D -> A1 * D) (f2 : D -> A2 * D) c1 c2 (g : A1 -> A2) (k1 : A1 -> M D B) k2 :
  (forall d, f2 d = (g (f1 d).1, (f1 d).2)) -> (forall a, follows (k1 a) (k2 (g a))) ->
  follows (bind (device f1 c1) k1) (bind (device f2 c2) k2).
Proof.
  intros Hf Hk w1 w2 b w2' Hs. unfold bind, device. rewrite Hf. destruct Hs as (Hd & Hn & Ho & Hh & Hb). rewrite <- Hd.
  destruct (f1 (dev w1)) as [a d]. cbn. intros E. eapply (Hk a); [|exact E]. by split_and!.
Qed.

Lemma follows_peek {A} (f : D -> A) : follows (peek f) (peek f).
Proof. intros w1 w2 a w2' Hs [= <- <-]. exists w1. split; [|done]. unfold peek. by destruct Hs as (-> & _). Qed.
End follows.

Create HintDb sim.
#[export] Hint Resolve follows_ret follows_ub follows_dealloc follows_peek : sim.

Section steps.
Context {D : Type} `{WinDevX D}.

(** The device calls of the two back ends, related by the tests on their answers. *)
Ltac dev_step g :=
  eapply (follows_device _ _ _ _ g);
    [intros d; cbn -[with_ctx of_ctx]; rewrite ?of_with_ctx; cbn [fst snd]; try (by apply surjective_pairing); by repeat case_match
    |let x := fresh "ans" in intros x; cbn beta iota].

Lemma good_some h : mlx5dv_l2w_is_error h = false -> good h = Some h.
Proof. unfold good. by intros ->. Qed.
Lemma good_none h : mlx5dv_l2w_is_error h = true -> good h = None.
Proof. unfold good. by intros ->. Qed.

Lemma follows_create_obj c inb outb :
  follows (win_create_obj c inb outb) (create_obj (H := as_linux) c inb outb).
Proof.
  apply follows_bind; [by apply (follows_alloc (BWinObj c None))|]. intros [p|]; [|apply follows_ret].
  dev_step (fun r : Z * list Z => (with_ctx c <$> good r.1, r.2)). destruct ans as [h out]. cbn -[with_ctx].
  destruct (mlx5dv_l2w_is_error h) eqn:E; rewrite ?good_none, ?good_some by done;
    (apply follows_bind; [|auto with sim]); [auto with sim|by apply (follows_store p (BWinObj c (Some h)))].
Qed.

Lemma follows_destroy p : follows (win_obj_destroy p) (dobj_destroy (H := as_linux) p).
Proof.
  apply follows_load. intros [] Hb; try done; try (destruct Hb; fail); cbn -[with_ctx of_ctx]; auto with sim.
  destruct h as [h|]; [|auto with sim]. cbn -[with_ctx of_ctx]. rewrite of_with_ctx. dev_step (fun r : Z => r).
  apply follows_bind; [by apply (follows_store p (BWinObj ctx None))|auto with sim].
Qed.

Lemma follows_delete_obj p : follows (win_delete_obj p) (delete_obj (H := as_linux) p).
Proof. destruct p; [|apply follows_ret]. apply follows_bind; [apply follows_destroy|auto with sim]. Qed.

Lemma follows_query p inb outb : follows (win_obj_query p inb outb) (dobj_query (H := as_linux) p inb outb).
Proof.
  apply follows_load. intros [] Hb; try destruct Hb; cbn -[with_ctx of_ctx]; auto with sim. destruct h as [h|]; [|apply follows_ub].
  dev_step (fun r : Z * list Z => r). destruct ans. auto with sim.
Qed.

Lemma follows_modify p inb outb : follows (win_obj_modify p inb outb) (dobj_modify (H := as_linux) p inb outb).
Proof.
  apply follows_load. intros [] Hb; try destruct Hb; cbn -[with_ctx of_ctx]; auto with sim. destruct h as [h|]; [|apply follows_ub].
  dev_step (fun r : Z * list Z => r). destruct ans. auto with sim.
Qed.

Lemma follows_get_handle p :
  follows (D := D) (_ <- win_obj_get_handle p;; ret tt) (_ <- dobj_get_handle p;; ret tt).
Proof.
  intros w1 w2 a w2' Hs. unfold win_obj_get_handle, dobj_get_handle, bind, load. rewrite (sees_lookup w1 w2) by done.
  destruct Hs as (Hd & Hn & Ho & Hh & Hf). destruct (heap w1 !! p) as [b|] eqn:E; [|done]. apply (Hf p b) in E.
  destruct b; try done; try (destruct E; fail). cbn -[with_ctx]. intros [= <- <-]. exists w1. by split_and!.
Qed.

Lemma with_id_div h id : 0 <= id < 2 ^ 32 -> with_id h id / 2 ^ 32 = h.
Proof. intros. unfold with_id. rewrite Z.div_add_l by lia. rewrite Z.div_small by lia. lia. Qed.
Lemma with_id_mod h id : 0 <= id < 2 ^ 32 -> with_id h id mod 2 ^ 32 = id.
Proof. intros. unfold with_id. rewrite Z.add_comm, Z.mod_add by lia. by apply Z.mod_small. Qed.

Lemma follows_create_umem c a sz x : follows (win_create_umem c a sz x) (create_umem (H := as_linux) c a sz x).
Proof.
  apply follows_bind; [by apply (follows_alloc BMem)|]. intros [p|]; [|apply follows_ret].
  eapply (follows_device _ _ _ _ (fun r : Z * Z => match good r.1 with Some h => Some (with_id h (wrap 32 r.2)) | None => None end));
    [intros d; cbn; by destruct (devx_umem_reg c a sz x d) as [[? ?] ?]|intros ans; cbn beta iota].
  destruct ans as [h id]. cbn.
  destruct (mlx5dv_l2w_is_error h) eqn:E; rewrite ?good_none, ?good_some by done;
    (apply follows_bind; [|auto with sim]); [auto with sim|].
  apply (follows_store p (BWinUmem h (wrap 32 id))). apply Z.mod_pos_bound. lia.
Qed.

Lemma follows_delete_umem p : follows (win_delete_umem p) (delete_umem (H := as_linux) p).
Proof.
  destruct p as [p|]; [|apply follows_ret]. apply follows_load. intros [] Hb; try destruct Hb; cbn; auto with sim.
  rewrite with_id_div by done. dev_step (fun r : Z => r). auto with sim.
Qed.

Lemma follows_umem_id p : follows (win_umem_get_id p) (umem_get_id (H := as_linux) p).
Proof.
  apply follows_load. intros [] Hb; try (destruct Hb; fail); cbn; auto with sim.
  intros w1 w2 a w2' Hs [= <- <-]. exists w1. by rewrite with_id_mod.
Qed.

(** The flags of the two attempts of the Linux constructor. *)
Lemma first_flags f : Z.land (Z.lor f UAR_BF) (Z.lnot UAR_NC) mod 2 ^ 32 = f mod 2 ^ 32
  /\ Z.testbit (Z.land (Z.lor f UAR_BF) (Z.lnot UAR_NC)) 33 = false.
Proof.
  split.
  - apply Z.bits_inj'. intros n Hn. rewrite !Z.testbit_mod_pow2 by lia. destruct (n <? 32) eqn:E; [|done].
    apply Z.ltb_lt in E. rewrite Z.land_spec, Z.lor_spec, Z.lnot_spec by done. unfold UAR_BF, UAR_NC.
    rewrite !Z.pow2_bits_false by lia. by rewrite orb_false_r, andb_true_r.
  - rewrite Z.land_spec, Z.lnot_spec by lia. unfold UAR_NC. rewrite Z.pow2_bits_true by lia. apply andb_false_r.
Qed.

Lemma second_flags f : Z.testbit (Z.land (Z.lor f UAR_NC) (Z.lnot UAR_BF)) 33 = true.
Proof.
  rewrite Z.land_spec, Z.lor_spec, Z.lnot_spec by lia. unfold UAR_NC, UAR_BF.
  rewrite Z.pow2_bits_true, Z.pow2_bits_false by lia. by rewrite orb_true_r.
Qed.

(** The attempts themselves: the first one is the call of the Windows
    constructor, the second one is refused. *)
Definition first (f : Z) : Z := Z.land (Z.lor f UAR_BF) (Z.lnot UAR_NC).
Definition second (f : Z) : Z := Z.land (Z.lor (first f) UAR_NC) (Z.lnot UAR_BF).

Lemma alloc_first c f d :
  mlx5dv_devx_alloc_uar (DevX := as_linux) c (first f) d
  = (good (devx_alloc_uar c (wrap 32 f) d).1, (devx_alloc_uar c (wrap 32 f) d).2).
Proof.
  transitivity (if Z.testbit (first f) 33 then (None, d)
                else let '(h, d') := devx_alloc_uar c (wrap 32 (first f)) d in (good h, d')); [done|].
  destruct (first_flags f) as [Hf1 Hf2]. unfold first. rewrite Hf2. unfold wrap. rewrite Hf1.
  by destruct (devx_alloc_uar _ _ _).
Qed.

Lemma alloc_second c f d : mlx5dv_devx_alloc_uar (DevX := as_linux) c (second f) d = (None, d).
Proof.
  transitivity (if Z.testbit (second f) 33 then (None, d)
                else let '(h, d') := devx_alloc_uar c (wrap 32 (second f)) d in (good h, d')); [done|].
  unfold second. by rewrite second_flags.
Qed.

Lemma follows_create_uar c f : follows (win_create_uar c f) (create_uar (H := as_linux) c f).
Proof.
  apply follows_bind; [by apply (follows_alloc BMem)|]. intros [p|]; [|apply follows_ret].
  apply (follows_device _ _ _ _ good); [intros d; apply alloc_first|intros h].
  destruct (mlx5dv_l2w_is_error h) eqn:E; rewrite ?good_none, ?good_some by done.
  - intros w1 w2 r w2' Hs E2. change (bind (device (mlx5dv_devx_alloc_uar (DevX := as_linux) c (second f)) (CUarAlloc (second f)))
      (fun h => match h with Some h => store p (BUar h);; ret (Some p) | None => dealloc p;; ret None end) w2 = Ret (r, w2')) in E2.
    unfold bind at 1, device in E2. rewrite alloc_second in E2.
    eapply (follows_bind (dealloc p) (dealloc p)); [auto with sim|intros; apply follows_ret| |exact E2].
    by destruct Hs as (? & ? & ? & ? & ?).
  - apply follows_bind; [by apply (follows_store p (BUar h))|auto with sim].
Qed.

Lemma follows_delete_uar p : follows (win_delete_uar p) (delete_uar (H := as_linux) p).
Proof.
  destruct p as [p|]; [|apply follows_ret]. apply follows_load. intros [] Hb; try destruct Hb; cbn; auto with sim.
  dev_step (fun r : unit => r). auto with sim.
Qed.

Lemma follows_uar_handle p (k1 k2 : Z -> M D Z) :
  (forall h, follows (k1 h) (k2 h)) -> follows (bind (uar_handle p) k1) (bind (uar_handle p) k2).
Proof.
  intros Hk. apply follows_bind; [|done]. apply follows_load. intros [] Hb; try destruct Hb; cbn; auto with sim.
Qed.

Lemma follows_call {A} (f : D -> A * D) k : follows (device f k) (device f k).
Proof.
  intros w1 w2 a w2' (Hd & Hn & Ho & Hh & Hb). unfold device. rewrite <- Hd. destruct (f (dev w1)) as [b d].
  intros [= <- <-]. eexists. split; [done|]. by split_and!.
Qed.

(** Every operation of the Windows back end does what the Linux one does. *)
Lemma step_follows B (o : dop B) : follows (windows_step B o) (linux_step (H := as_linux) B o).
Proof.
  destruct o; cbn; auto using follows_create_obj, follows_destroy, follows_delete_obj, follows_query, follows_modify,
    follows_create_umem, follows_delete_umem, follows_umem_id, follows_create_uar, follows_delete_uar, follows_dealloc, follows_get_handle.
  - destruct raw as [n|]; [by apply (follows_alloc (BRaw n))|by apply (follows_alloc BMem)].
  - apply follows_load. intros [] Hb; try destruct Hb; cbn; auto with sim.
  - dev_step (fun r : Z * list Z => r). destruct ans. auto with sim.
  - apply follows_uar_handle. intros h. apply (follows_peek (uar_index h)).
  - apply follows_uar_handle. intros h. apply (follows_peek (uar_page h)).
  - apply follows_uar_handle. intros h. apply (follows_peek (fun d => wrap 64 (uar_page h d + 0x800))).
  - apply (follows_call (win_reg_mr _ _ _ _)).
  - apply (follows_call (win_reg_mr_iova2 _ _ _ _ _)).
  - apply (follows_call (win_dereg_mr _)).
  - apply (follows_peek (win_mr_lkey _)).
Qed.

Lemma run_follows {A} (p : prog A) : follows (run windows_step p) (run (linux_step (H := as_linux)) p).
Proof. induction p as [a|why|B o k IH]; [apply follows_ret|apply follows_ub|]. apply follows_bind; [apply step_follows|exact IH]. Qed.
End steps.

(** ** The theorem *)

(** Leak freedom and absence of double frees carry over with the rest: the two
    processes have live blocks at the same addresses. *)
Lemma sees_dom {D} (w1 w2 : world D) : sees w1 w2 -> dom (heap w1) = dom (heap w2).
Proof. intros (_ & _ & _ & -> & _). by rewrite dom_fmap_L. Qed.

Lemma run_wp {D} `{WinDevX D} {A} (p : prog A) (Q : A -> world D -> Prop) w1 w2 :
  sees w1 w2 -> wp (run (linux_step (H := as_linux)) p) Q w2 ->
  wp (run windows_step p) (fun a w1' => exists w2', Q a w2' /\ sees w1' w2' /\ dom (heap w1') = dom (heap w2')) w1.
Proof.
  intros Hs Hw. unfold wp in *. destruct (run linux_step p w2) as [[a w2']|] eqn:E; [|done].
  destruct (run_follows p w1 w2 a w2' Hs E) as (w1' & -> & Hs'). exists w2'. split_and!; [done|done|by eapply sees_dom].
Qed.

(** C4. What holds of a client of [dcmd] on the Linux back end holds on the Windows
    back end: run over the vendor library, every program of operations on
    objects, registrations, doorbell pages and host memory, in any contexts and
    whatever it decides from the answers, has no undefined behaviour and ends with
    the same result, the same device and live blocks at the same addresses as the
    Linux back end over the device that answers as the vendor library does. *)
Theorem windows_refines_linux {D} `{WinDevX D} {A} (p : prog A) (Q : A -> world D -> Prop) w1 w2 :
  sees w1 w2 -> wp (run (linux_step (H := as_linux)) p) Q w2 ->
  wp (run windows_step p) (fun a w1' => exists w2', Q a w2' /\ sees w1' w2' /\ dom (heap w1') = dom (heap w2')) w1.
Proof. apply run_wp. Qed.

(** ** A simulated vendor library *)

(** The device of Sim.v behind pointers: [-12] for a refusal. *)
Definition wsim_ptr (d : sim) : Z := if sim_fails d then -12 else 4096 * s_next d.

#[global] Instance wsim : WinDevX sim := {
  devx_obj_create _ _ o d := (wsim_ptr d, sim_answer d o, sim_tick d);
  devx_obj_destroy _ d := (0, d);
  devx_cmd _ _ o d := (sim_result d, sim_answer d o, sim_tick d);
  devx_umem_reg _ _ _ _ d := (wsim_ptr d, s_next d, sim_tick d);
  devx_umem_unreg _ d := (0, d);
  devx_alloc_uar _ _ d := (wsim_ptr d, sim_tick d);
  devx_free_uar _ d := d;
  uar_index h _ := h / 4096;
  uar_page h _ := h;
  win_reg_mr _ _ _ _ d := (sim_handle d, sim_tick d);
  win_reg_mr_iova2 _ _ _ _ _ d := (sim_handle d, sim_tick d);
  win_dereg_mr _ d := (0, d);
  win_mr_lkey h _ := h
}.

(** A buffer with its registration, and objects in two contexts: one is modified,
    and both are deleted. *)
Definition demo_client (inb : list Z) : prog (Z * Z * Z) :=
  POp (OAlloc (Some 4096)) (fun buf =>
  POp (OCreateUmem 5 (default 0 buf) 4096 1) (fun um =>
  POp (OCreateObj 5 inb (zeros 16)) (fun '(o1, _) =>
  POp (OCreateObj 6 inb (zeros 16)) (fun '(o2, _) =>
  POp (OModify (default 0 o2) inb (zeros 16)) (fun '(st, _) =>
  POp (OUmemId (default 0 um)) (fun id =>
  POp (OSize (default 0 buf)) (fun n =>
  POp (ODeleteObj o1) (fun _ => POp (ODeleteObj o2) (fun _ => POp (ODeleteUmem um) (fun _ =>
  POp (OFree (default 0 buf)) (fun _ => PRet (st, id, n)))))))))))).

Lemma sim_sees : sees sim_world sim_world.
Proof. split_and!; try done; by vm_compute. Qed.

Lemma windows_refines_linux_witness :
  wp (run windows_step (demo_client (zeros 16))) (fun a w' =>
    exists w2', (a = (DCMD_EOK, 1, 4096) /\ heap w2' = ∅) /\ sees w' w2' /\ dom (heap w') = dom (heap w2')) sim_world.
Proof.
  apply (windows_refines_linux (demo_client (zeros 16)) (fun a w2' => a = (DCMD_EOK, 1, 4096) /\ heap w2' = ∅)
           sim_world sim_world sim_sees).
  vm_compute. split; reflexivity.
Defined.

(** A refusal of the vendor library is a null object and nothing stays behind. *)
Example win_create_refused :
  match win_create_obj 5 (zeros 16) (zeros 16) (mkWorld (mkSim 1 [true]) ∅ 1 [] []) with
  | Ret ((o, _), w') => o = None /\ heap w' = ∅
  | UB _ => False
  end.
Proof. vm_compute. done. Qed.

(** The error pointers are those below the first page: a result that is not an
    error is kept whole, an error is turned into its number. *)
Lemma is_error_range p : mlx5dv_l2w_is_error p = true <-> -999 <= p <= 0.
Proof. unfold mlx5dv_l2w_is_error, UM_MAX_ERRNO. rewrite andb_true_iff, !Z.leb_le. lia. Qed.

Lemma ptr_error_range p : mlx5dv_l2w_is_error p = true -> -999 <= mlx5dv_l2w_ptr_error p < 0.
Proof.
  rewrite is_error_range. intros Hp. unfold mlx5dv_l2w_ptr_error, UM_ENOMEM, swrap.
  destruct (Z.eqb_spec p 0); [lia|]. rewrite Z.mod_small by lia. lia.
Qed.
