(* ===== verification/Portable.v ===== *)
(** * The classes of libdpcp as clients of the dcmd layer

    The classes above [dcmd] are the same code on both platforms; they reach the
    device and the objects of [dcmd] through the operations of Windows.v only.
    An instance of [Client m] is that statement for the computation [m]: a program
    over the operations that is [m] on every device library of the Linux back end.
    [port m] is the program over the Windows back end: what was shown of [m] holds
    of [port m]. *)

From S2P Require Import Prelude Codec Prm Dcmd Own Sim Obj Uar Queue QState Rq Cq Adapter Tir Dek Mkey Caps ParserGraph AdapterLife AppLife Windows.
Open Scope string_scope.
Open Scope list_scope.
Open Scope Z_scope.
Open Scope m_scope.

(** ** Clients *)

(** A computation given for every device library of the Linux back end. *)
Notation comp A := (forall D : Type, DevX D -> M D A).

Class Client {A} (m : comp A) : Type := {
  client_prog : prog A;
  client_runs : forall D (H : DevX D) w, run linux_step client_prog w = m D H w
}.
Arguments client_prog {A} m {_}.
Arguments client_runs {A} m {_}.

(** The computation on the Windows back end. *)
Definition port {A} (m : comp A) `{!Client m} {D} `{WinDevX D} : M D A := run windows_step (client_prog m).

(** *** Composition *)

#[global] Instance client_ret {A} (a : A) : Client (fun D _ => ret a).
Proof. by exists (PRet a). Defined.

#[global] Instance client_ub {A} why : Client (fun D _ => ub (A := A) why).
Proof. by exists (PUb why). Defined.

Definition client_bind {A B} (m : comp A) (k : forall D, DevX D -> A -> M D B) :
  Client m -> (forall a, Client (fun D H => k D H a)) -> Client (fun D H => bind (m D H) (k D H)).
Proof.
  intros Cm Ck. exists (pbind (client_prog m) (fun a => client_prog (fun D H => k D H a))). intros D H w.
  rewrite run_pbind. unfold bind. rewrite client_runs. destruct (m D H w) as [[a w']|]; [|done].
  apply (client_runs (fun D H => k D H a)).
Defined.

(** One operation. *)
Definition client_op {B} (m : comp B) (o : dop B) :
  (forall D (H : DevX D) w, linux_step B o w = m D H w) -> Client m.
Proof.
  intros Ho. exists (POp o PRet). intros D H w. cbn. unfold bind. rewrite Ho. by destruct (m D H w) as [[a w']|].
Defined.

(** [get_handle] of an object, whose number is not used. *)
#[global] Instance client_get_handle {A} (o : obj) (k : forall D, DevX D -> status -> M D A) :
  (forall st, Client (fun D H => k D H st)) ->
  Client (fun D H => bind (obj_get_handle o) (fun x => match x with (st, _) => k D H st end)).
Proof.
  intros Ck. destruct (m_obj_handle o) as [p|] eqn:E.
  - exists (POp (OGetHandle p) (fun _ => client_prog (fun D H => k D H DPCP_OK))). intros D H w. cbn.
    unfold obj_get_handle, dobj_get_handle, bind, load. rewrite E. destruct (heap w !! p) as [[]|]; try done.
    apply (client_runs (fun D H => k D H DPCP_OK)).
  - exists (client_prog (fun D H => k D H DPCP_ERR_CREATE)). intros D H w.
    unfold obj_get_handle, bind. rewrite E. apply (client_runs (fun D H => k D H DPCP_ERR_CREATE)).
Defined.

(** The program of a computation: binds and the operations with their instances,
    case analysis on values in between. *)
Ltac client_step :=
  cbv beta zeta;
  lazymatch goal with
  | |- Client (fun D H => bind (obj_get_handle _) _) => notypeclasses refine (client_get_handle _ _ _); intros ?
  | |- Client (fun D H => bind _ _) => notypeclasses refine (client_bind _ _ _ _); [|intros ?]
  | |- Client (fun D H => match ?x with _ => _ end) => destruct x
  | |- Client _ => typeclasses eauto
  end.
Ltac client := repeat client_step.

(** *** The operations of the dcmd layer *)

#[global] Instance client_alloc_raw n : Client (fun D _ => alloc (BRaw n)).
Proof. by apply (client_op _ (OAlloc (Some n))). Defined.
#[global] Instance client_alloc_mem : Client (fun D _ => alloc BMem).
Proof. by apply (client_op _ (OAlloc None)). Defined.
#[global] Instance client_dealloc p : Client (fun D _ => dealloc p).
Proof. by apply (client_op _ (OFree p)). Defined.
#[global] Instance client_exec_cmd c i o : Client (fun D H => exec_cmd c i o).
Proof. by apply (client_op _ (OExecCmd c i o)). Defined.
#[global] Instance client_create_obj c i o : Client (fun D H => create_obj c i o).
Proof. by apply (client_op _ (OCreateObj c i o)). Defined.
#[global] Instance client_dobj_destroy p : Client (fun D H => dobj_destroy p).
Proof. by apply (client_op _ (ODestroy p)). Defined.
#[global] Instance client_delete_obj p : Client (fun D H => delete_obj p).
Proof. by apply (client_op _ (ODeleteObj p)). Defined.
#[global] Instance client_dobj_query p i o : Client (fun D H => dobj_query p i o).
Proof. by apply (client_op _ (OQuery p i o)). Defined.
#[global] Instance client_dobj_modify p i o : Client (fun D H => dobj_modify p i o).
Proof. by apply (client_op _ (OModify p i o)). Defined.
#[global] Instance client_create_umem c a s x : Client (fun D H => create_umem c a s x).
Proof. by apply (client_op _ (OCreateUmem c a s x)). Defined.
#[global] Instance client_delete_umem p : Client (fun D H => delete_umem p).
Proof. by apply (client_op _ (ODeleteUmem p)). Defined.
#[global] Instance client_umem_get_id p : Client (fun D H => umem_get_id p).
Proof. by apply (client_op _ (OUmemId p)). Defined.
#[global] Instance client_create_uar c f : Client (fun D H => create_uar c f).
Proof. by apply (client_op _ (OCreateUar c f)). Defined.
#[global] Instance client_delete_uar p : Client (fun D H => delete_uar p).
Proof. by apply (client_op _ (ODeleteUar p)). Defined.
#[global] Instance client_uar_get_id p : Client (fun D H => uar_get_id p).
Proof. by apply (client_op _ (OUarId p)). Defined.
#[global] Instance client_uar_get_page p : Client (fun D H => uar_get_page p).
Proof. by apply (client_op _ (OUarPage p)). Defined.
#[global] Instance client_uar_get_reg p : Client (fun D H => uar_get_reg p).
Proof. by apply (client_op _ (OUarReg p)). Defined.
#[global] Instance client_reg_mr pd a l x : Client (fun D H => ibv_reg_mem_reg pd a l x).
Proof. by apply (client_op _ (ORegMr pd a l x)). Defined.
#[global] Instance client_reg_mr_iova pd a l i x : Client (fun D H => ibv_reg_mem_reg_iova pd a l i x).
Proof. by apply (client_op _ (ORegMrIova pd a l i x)). Defined.
#[global] Instance client_dereg_mr m : Client (fun D H => ibv_dereg_mem_reg m).
Proof. by apply (client_op _ (ODeregMr m)). Defined.
#[global] Instance client_mr_lkey m : Client (fun D H => peek (ibv_mr_lkey m)).
Proof. by apply (client_op _ (OMrLkey m)). Defined.

#[global] Instance client_aligned_free p : Client (fun D _ => aligned_free p).
Proof. unfold aligned_free. client. Defined.
#[global] Instance client_need {A} (o : option A) why : Client (fun D _ => need o why).
Proof. unfold need. client. Defined.

(** ** [dpcp::obj] *)

#[global] Instance client_obj_destroy o : Client (fun D H => obj_destroy o).
Proof. unfold obj_destroy. client. Defined.
#[global] Instance client_obj_delete o : Client (fun D H => obj_delete o).
Proof. unfold obj_delete. client. Defined.
#[global] Instance client_obj_create o i x : Client (fun D H => obj_create o i x).
Proof. unfold obj_create. client. Defined.
#[global] Instance client_obj_modify o i x : Client (fun D H => obj_modify o i x).
Proof. unfold obj_modify. client. Defined.
#[global] Instance client_obj_query o i x : Client (fun D H => obj_query o i x).
Proof. unfold obj_query. client. Defined.

(** ** UAR pool, queue resources and queues *)

#[global] Instance client_get_uar c key t : Client (fun D H => get_uar c key t).
Proof. unfold get_uar, uar_allocate. client. Defined.
#[global] Instance client_get_uar_page u : Client (fun D H => get_uar_page u).
Proof. unfold get_uar_page. client. Defined.
#[global] Instance client_uar_collection_delete c : Client (fun D H => uar_collection_delete c).
Proof. unfold uar_collection_delete. client. Defined.

#[global] Instance client_reg_mem c b sz u id : Client (fun D H => reg_mem c b sz u id).
Proof. unfold reg_mem. client. Defined.
#[global] Instance client_delete_mem p : Client (fun D _ => delete_mem p).
Proof. unfold delete_mem. client. Defined.
#[global] Instance client_qres_release r : Client (fun D H => qres_release r).
Proof. unfold qres_release. client. Defined.
#[global] Instance client_modify_state K o s s' : Client (fun D H => modify_state K o s s').
Proof. unfold modify_state. client. Defined.

#[global] Instance client_rq_modify_state q s : Client (fun D H => rq_modify_state q s).
Proof. unfold rq_modify_state. client. Defined.
#[global] Instance client_rq_send_create o i : Client (fun D H => rq_send_create o i).
Proof. unfold rq_send_create. client. Defined.
#[global] Instance client_striding_rq_create pd b : Client (fun D H => striding_rq_create pd b).
Proof. unfold striding_rq_create. client. Defined.
#[global] Instance client_regular_rq_create pd b : Client (fun D H => regular_rq_create pd b).
Proof. unfold regular_rq_create. client. Defined.
#[global] Instance client_ibq_rq_init pd pr k q : Client (fun D H => ibq_rq_init pd pr k q).
Proof. unfold ibq_rq_init, ibq_rq_create. client. Defined.
#[global] Instance client_rq_allocate_wq_buf ps sz b : Client (fun D _ => rq_allocate_wq_buf ps sz b).
Proof. unfold rq_allocate_wq_buf. client. Defined.
#[global] Instance client_rq_allocate_db_rec ps b : Client (fun D _ => rq_allocate_db_rec ps b).
Proof. unfold rq_allocate_db_rec. client. Defined.
#[global] Instance client_basic_rq_init (create : forall D, DevX D -> basic_rq -> M D (status * basic_rq)) u b :
  (forall b, Client (fun D H => create D H b)) -> Client (fun D H => basic_rq_init (create D H) u b).
Proof. intros Cc. unfold basic_rq_init. client. Defined.
#[global] Instance client_basic_rq_delete b : Client (fun D H => basic_rq_delete b).
Proof. unfold basic_rq_delete, basic_rq_destroy. client. Defined.
#[global] Instance client_ibq_rq_delete q : Client (fun D H => ibq_rq_delete q).
Proof. unfold ibq_rq_delete, ibq_rq_destroy. client. Defined.

(** The bounds check of a completion queue reads the size of its buffer. *)
#[global] Instance client_write_to p n : Client (fun D _ => write_to p n).
Proof.
  unfold write_to. destruct p as [p|]; [|client].
  exists (POp (OSize p) (fun sz => if n <=? sz then PRet tt else PUb "write past the end of a buffer")).
  intros D H w. cbn. unfold raw_size, bind, load. destruct (heap w !! p) as [[]|]; try done. cbn. by destruct (n <=? _).
Defined.
#[global] Instance client_cq_init u c : Client (fun D H => cq_init u c).
Proof. unfold cq_init, cq_create. client. Defined.
#[global] Instance client_cq_delete c : Client (fun D H => cq_delete c).
Proof. unfold cq_delete, cq_destroy. client. Defined.

(** ** The factories of the adapter *)

#[global] Instance client_ensure_pool a : Client (fun D _ => ensure_pool a).
Proof. unfold ensure_pool. client. Defined.
#[global] Instance client_prepare_basic_rq ps (create : forall D, DevX D -> basic_rq -> M D (status * basic_rq)) self c pool b :
  (forall b, Client (fun D H => create D H b)) -> Client (fun D H => prepare_basic_rq ps (create D H) self c pool b).
Proof. intros Cc. unfold prepare_basic_rq. client. Defined.
#[global] Instance client_create_striding_rq ps attr a : Client (fun D H => create_striding_rq ps attr a).
Proof. unfold create_striding_rq, create_basic_rq. client. Defined.
#[global] Instance client_create_regular_rq ps attr a : Client (fun D H => create_regular_rq ps attr a).
Proof. unfold create_regular_rq, create_basic_rq. client. Defined.
#[global] Instance client_create_ibq_rq attr pr k a : Client (fun D H => create_ibq_rq attr pr k a).
Proof. unfold create_ibq_rq. client. Defined.
#[global] Instance client_create_cq attrs a : Client (fun D H => create_cq attrs a).
Proof.
  unfold create_cq, delete_cq, cq_allocate_cq_buf, cq_allocate_db_rec, release_cq_buf, release_db_rec. client.
Defined.

#[global] Instance client_tir_query s t : Client (fun D H => tir_query s t).
Proof. unfold tir_query. client. Defined.
#[global] Instance client_tir_modify t a : Client (fun D H => tir_modify t a).
Proof. unfold tir_modify. client. Defined.
#[global] Instance client_create_tir c a : Client (fun D H => create_tir c a).
Proof. unfold create_tir, tir_create. client. Defined.
#[global] Instance client_tis_query s t : Client (fun D H => tis_query s t).
Proof. unfold tis_query. client. Defined.
#[global] Instance client_create_tis c a : Client (fun D H => create_tis c a).
Proof. unfold create_tis, tis_create. client. Defined.

#[global] Instance client_read_blob a : Client (fun D _ => read_blob a).
Proof. unfold read_blob. client. Defined.
#[global] Instance client_dek_modify k a : Client (fun D H => dek_modify k a).
Proof. unfold dek_modify. client. Defined.
#[global] Instance client_dek_query k : Client (fun D H => dek_query k).
Proof. unfold dek_query. client. Defined.
#[global] Instance client_create_dek c ctx caps a : Client (fun D H => create_dek c ctx caps a).
Proof. unfold create_dek, dek_create. client. Defined.
#[global] Instance client_sync_crypto_tls ctx : Client (fun D H => sync_crypto_tls ctx).
Proof. unfold sync_crypto_tls. client. Defined.
#[global] Instance client_tbt_query t a : Client (fun D H => tbt_query t a).
Proof. unfold tbt_query. client. Defined.
#[global] Instance client_create_tbt c a : Client (fun D H => create_tag_buffer_table_obj c a).
Proof. unfold create_tag_buffer_table_obj, tbt_create. client. Defined.

#[global] Instance client_mkey_send o i cnt : Client (fun D H => mkey_send o i cnt).
Proof. unfold mkey_send. client. Defined.
#[global] Instance client_direct_mkey_delete k : Client (fun D H => direct_mkey_delete k).
Proof. unfold direct_mkey_delete, direct_mkey_destroy. client. Defined.
#[global] Instance client_create_direct_mkey ps c vpd pd g a l f : Client (fun D H => create_direct_mkey ps c vpd pd g a l f).
Proof. unfold create_direct_mkey, direct_reg_mem, direct_mkey_create. client. Defined.
#[global] Instance client_pattern_mkey_delete k : Client (fun D H => pattern_mkey_delete k).
Proof. unfold pattern_mkey_delete. client. Defined.
#[global] Instance client_create_pattern_mkey ps c pd g a f n bbs : Client (fun D H => create_pattern_mkey ps c pd g a f n bbs).
Proof. unfold create_pattern_mkey, pattern_mkey_new, pattern_mkey_create. client. Defined.
#[global] Instance client_create_crypto_mkey c pd g n : Client (fun D H => create_crypto_mkey c pd g n).
Proof. unfold create_crypto_mkey, crypto_mkey_create. client. Defined.
#[global] Instance client_create_plain_mkey k create : Client (fun D _ => create_plain_mkey k create).
Proof. unfold create_plain_mkey. client. Defined.

#[global] Instance client_shl1 v : Client (fun D _ => shl1 v).
Proof. unfold shl1. client. Defined.
#[global] Instance client_samples_ok e ss : Client (fun D _ => samples_ok e ss).
Proof. induction ss as [|s r IH]; cbn [samples_ok]; unfold sample_ok; client. Defined.
#[global] Instance client_node_supported e a : Client (fun D _ => node_supported e a).
Proof. unfold node_supported, mask_ok. client. Defined.
#[global] Instance client_pgn_query n : Client (fun D H => pgn_query n).
Proof. unfold pgn_query. client. Defined.
#[global] Instance client_create_parser_graph_node c caps a : Client (fun D H => create_parser_graph_node c caps a).
Proof. unfold create_parser_graph_node, pgn_create. client. Defined.

(** ** Applications *)

(** The instances are found by the names of the operations. *)
#[local] Hint Constants Opaque : typeclass_instances.

#[global] Instance client_handle_delete p x : Client (fun D H => handle_delete p x).
Proof. unfold handle_delete. client. Defined.
#[global] Instance client_query_handle s p x : Client (fun D H => query_handle s p x).
Proof. unfold query_handle. client. Defined.
#[global] Instance client_app_step ps vpd caps s r : Client (fun D H => app_step ps vpd caps s r).
Proof. unfold app_step, create_reserved_mkey, create_extern_mkey. client. Defined.
#[global] Instance client_app_run ps vpd caps rs s : Client (fun D H => app_run ps vpd caps s rs).
Proof. revert s. induction rs as [|r rs IH]; intros s; cbn [app_run]; client. Defined.
#[global] Instance client_delete_all objs : Client (fun D H => delete_all objs).
Proof. induction objs as [|[p x] objs IH]; cbn [delete_all]; client. Defined.
#[global] Instance client_app_close s : Client (fun D H => app_close s).
Proof. unfold app_close, pool_delete. client. Defined.
#[global] Instance client_app_life ps vpd caps s rs : Client (fun D H => app_life ps vpd caps s rs).
Proof. unfold app_life. client. Defined.

(** ** The Windows side *)

Section port.
Context {D : Type} `{WinDevX D}.
Implicit Types w : world D.

(** The parts of a ported computation are ported, and its operations are the ones
    of the Windows back end. *)
Lemma port_bind {A B} (m : comp A) (k : forall D, DevX D -> A -> M D B) `{!Client m} `{!forall a, Client (fun D H => k D H a)} w :
  port (Client0 := client_bind m k _ _) (fun D H => bind (m D H) (k D H)) w
  = bind (port m) (fun a => port (fun D H => k D H a)) w.
Proof. apply run_pbind. Qed.

Lemma port_create_obj c i o w : port (fun D H => create_obj c i o) w = win_create_obj c i o w.
Proof. unfold port. cbn. unfold bind. by destruct (win_create_obj c i o w) as [[a w']|]. Qed.

Lemma port_modify p i o w : port (fun D H => dobj_modify p i o) w = win_obj_modify p i o w.
Proof. unfold port. cbn. unfold bind. by destruct (win_obj_modify p i o w) as [[a w']|]. Qed.

Lemma port_follows {A} (m : comp A) `{!Client m} : follows (port m) (m D as_linux).
Proof. intros w1 w2 a w2' Hs E. rewrite <- (client_runs m D as_linux) in E. by eapply run_follows. Qed.

(** What was shown of a computation holds of the ported one. *)
Lemma port_wp {A} (m : comp A) `{!Client m} (Q : A -> world D -> Prop) w1 w2 :
  sees w1 w2 -> wp (m D as_linux) Q w2 -> wp (port m) (fun a w1' => exists w2', Q a w2' /\ sees w1' w2') w1.
Proof.
  intros Hs Hw. unfold wp in *. destruct (m D as_linux w2) as [[a w2']|] eqn:E; [|done].
  destruct (port_follows m w1 w2 a w2' Hs E) as (w1' & -> & Hs'). by exists w2'.
Qed.
End port.

(** The Linux process that a Windows process corresponds to. *)
Definition lin_world {D} (w : world D) : world D := mkWorld (dev w) (lin_blk <$> heap w) (next w) (oom w) (calls w).

(** The heap of a Windows process. *)
Definition win_heap {D} (w : world D) : Prop := map_Forall (fun _ => win_blk) (heap w).

Lemma sees_lin {D} (w : world D) : win_heap w -> sees w (lin_world w).
Proof. by intros Hw. Qed.

Lemma sees_fresh {D} (w1 w2 : world D) : sees w1 w2 -> fresh_ok w1 -> fresh_ok w2.
Proof. intros Hs Hf p Hp. rewrite (sees_lookup w1 w2) by done. destruct Hs as (_ & Hn & _). rewrite Hf by lia. done. Qed.

Section applications.
Context {D : Type} `{WinDevX D} (page_size ibv_pd : Z) (caps : hca_capabilities).
Implicit Types w : world D.

(** The step of an application on Windows. *)
Definition win_app_step (s : app) (r : request) : M D (status * app) := port (fun D H => app_step page_size ibv_pd caps s r).
Definition win_app_life (s : app) (rs : list request) : M D (list status) := port (fun D H => app_life page_size ibv_pd caps s rs).

(** An application that asks for what it may on Windows does on Linux too. *)
Lemma may_run_linux rs : forall s w1 w2,
  sees w1 w2 -> may_run caps win_app_step s w1 rs -> may_run caps (app_step (H := as_linux) page_size ibv_pd caps) s w2 rs.
Proof.
  induction rs as [|r rs IH]; intros s w1 w2 Hs Hm; [done|]. destruct Hm as [Hr Hrest]. split; [done|]. intros st s' w2' E.
  pose proof (port_follows (fun D H => app_step page_size ibv_pd caps s r) w1 w2 (st, s') w2' Hs) as Hfol.
  destruct (Hfol E) as (w1' & E1 & Hs').
  apply (IH s' w1' w2' Hs'). by apply (Hrest st s').
Qed.

(** C3. The same code over the Windows back end, for an application that stays
    within the range in which the code is defined ([may_run]).  Such an
    application creates, changes, queries and deletes objects of an adapter in any
    order; each request names objects that it holds and are of the right class;
    the sizes of receive queues are from 1 to 2^30; the blobs of encryption keys
    have the bytes they say; the attributes of a parser node fit the members of its
    command, and it has a first incoming arc, numbered below 32, on an adapter whose capabilities give header masks of fewer than 31 bits
    and at most 8 samples (without an arc, or with a larger number, the tests of
    the node are undefined: [no_arc_ub]); no memory key is created when the key
    counter is at the last value of an [int].  Then, whatever the vendor library
    answers and whichever allocations fail, there is no undefined behaviour, every
    request gets a status, and when the application has deleted its objects and
    the pool the live blocks of the process are those it started with. *)
Theorem app_leaves_nothing_on_windows ctx pd g rs w :
  fresh_ok w -> win_heap w -> may_run caps win_app_step (new_app ctx pd g) w rs ->
  wp (win_app_life (new_app ctx pd g) rs) (fun sts w' => dom (heap w') = dom (heap w) /\ length sts = length rs) w.
Proof.
  intros Hf Hw Hm. pose proof (sees_lin w Hw) as Hs. eapply wp_mono; [|
    eapply (port_wp (fun D H => app_life page_size ibv_pd caps (new_app ctx pd g) rs)
             (fun sts w' => own [] (heap (lin_world w)) w' /\ length sts = length rs) w (lin_world w) Hs)].
  - intros sts w1' (w2' & [Ho Hl] & Hs'). split; [|done]. rewrite (sees_dom _ _ Hs'), (own_nil_heap _ _ Ho). by rewrite <- (sees_dom _ _ Hs).
  - apply (own_app_life (H := as_linux)); [by apply new_app_ok, (sees_fresh w)|by apply (may_run_linux rs _ w)].
Qed.
End applications.

(** ** Witness *)

(** The requests of AppLife.v over the simulated vendor library. *)
Lemma app_leaves_nothing_on_windows_witness :
  match win_app_life 4096 9 ∅ (new_app 1 3 0) demo_requests sim_world with
  | Ret (sts, _) => forallb is_ok (take 4 sts) | UB _ => false
  end = true
  /\ wp (win_app_life 4096 9 ∅ (new_app 1 3 0) demo_requests)
        (fun sts w' => dom (heap w') = ∅ /\ length sts = 8%nat) sim_world.
Proof.
  split; [vm_compute; reflexivity|]. apply (app_leaves_nothing_on_windows 4096 9 ∅ 1 3 0 demo_requests sim_world).
  - exact sim_world_fresh.
  - apply map_Forall_empty.
  - apply may_run_computed; [exact demo_attrs_ok|vm_compute; reflexivity].
Defined.
