(* ===== verification/Process.v ===== *)
(** * A process on one adapter

    Everything between the construction of an adapter and its destructor: the
    operations on the adapter itself (AdapterLife.v) and the requests of the
    application (AppLife.v), in any interleaving, on the state they share, the
    pool of UARs, the domains and the capabilities the adapter published. *)

From S2P Require Import Prelude Codec Prm PrmCaps Dcmd Own Sim Obj Uar Queue QState Rq Adapter Tir Dek Mkey Caps ParserGraph AdapterLife AppLife Windows Portable.
Open Scope string_scope.
Open Scope list_scope.
Open Scope Z_scope.
Open Scope m_scope.

(** ** State and events *)

Record process := mkProc { pr_ad : adapter_state; pr_cnt : Z; pr_objs : gmap Z handle }.

(** What the factories see of the adapter. *)
Definition app_of (p : process) : app :=
  mkApp (mkAdapter (a_ctx (pr_ad p)) (a_uarpool (pr_ad p)) (a_pd_id (pr_ad p))) (pr_cnt p) (pr_objs p).

(** What they leave. *)
Definition with_app (p : process) (s : app) : process :=
  mkProc (set_pool (pr_ad p) (m_uarpool (ap_ad s))) (ap_cnt s) (ap_objs s).

Inductive event : Type := EAdapter (o : aop) | ERequest (r : request).

Section ops.
Context {D : Type} `{DevX D} `{DevXDomain D} (page_size : Z).

Definition proc_step (p : process) (e : event) : M D (status * process) :=
  match e with
  | EAdapter o => '(st, a) <- aop_run (pr_ad p) o;; ret (st, mkProc a (pr_cnt p) (pr_objs p))
  | ERequest r =>
      '(st, s) <- app_step page_size (default 0 (a_ibv_pd (pr_ad p))) (a_hca (pr_ad p)).2 (app_of p) r;;
      ret (st, with_app p s)
  end.

Fixpoint proc_run (p : process) (es : list event) : M D (list status * process) :=
  match es with
  | [] => ret ([], p)
  | e :: es => '(st, p) <- proc_step p e;; '(sts, p) <- proc_run p es;; ret (st :: sts, p)
  end.

(** The application deletes what it still holds, then the adapter. *)
Definition proc_exit (p : process) : M D unit := delete_all (map_to_list (pr_objs p));; adapter_delete (pr_ad p).

(** A condition on the events of a run, each in the state it meets. *)
Fixpoint along (P : process -> event -> Prop) (p : process) (w : world D) (es : list event) : Prop :=
  match es with
  | [] => True
  | e :: es => P p e /\ forall st p' w', proc_step p e w = Ret (st, p', w') -> along P p' w' es
  end.

(** The requests of the application are ones it may make ([may_ask] of
    AppLife.v); the operations on the adapter are free. *)
Definition may_happen (p : process) (e : event) : Prop :=
  match e with EAdapter _ => True | ERequest r => may_ask (a_hca (pr_ad p)).2 (app_of p) r end.
Definition may_happen_all := along may_happen.

(** No operation on the adapter replaces a domain that it still holds ([amay] of
    AdapterLife.v). *)
Definition replaces_none (p : process) (e : event) : Prop :=
  match e with EAdapter o => amay (pr_ad p) o | ERequest _ => True end.
Definition replaces_none_all := along replaces_none.

(** What an event may leave unreachable, and what a run lost: for each event
    nothing, or the domain it replaced. *)
Definition event_replaced (p : process) (e : event) : list (Z * kind) * list Z :=
  match e with EAdapter o => replaced (pr_ad p) o | ERequest _ => ([], []) end.

Fixpoint lost_along (p : process) (w : world D) (es : list event) (lost : list (Z * kind)) (gone : list Z) : Prop :=
  match es with
  | [] => lost = [] /\ gone = []
  | e :: es => exists l1 g1 l2 g2, lost = l2 ++ l1 /\ gone = g2 ++ g1
      /\ ((l1, g1) = ([], []) \/ (l1, g1) = event_replaced p e)
      /\ forall st p' w', proc_step p e w = Ret (st, p', w') -> lost_along p' w' es l2 g2
  end.
End ops.

(** ** Clients leave the verbs domains alone *)

Section quiet.
Context {D : Type} `{DevX D}.

Lemma quiet_peek {A} (f : D -> A) : quiet (peek f).
Proof. by intros w. Qed.
#[local] Hint Resolve quiet_peek : quiet_db.

Lemma quiet_step B (o : dop B) : quiet (linux_step B o).
Proof.
  destruct o; cbn [linux_step]; unfold raw_size, exec_cmd, create_obj, delete_obj, dobj_destroy, dobj_query, dobj_modify,
    dobj_get_handle, create_umem, delete_umem, umem_get_id, create_uar, delete_uar, uar_get_id, uar_get_page, uar_get_reg, uar_handle;
    quiet.
Qed.

Lemma quiet_client {A} (m : comp A) `{!Client m} : quiet (m D H).
Proof.
  intros w. rewrite <- (client_runs m D H). revert w. change (quiet (run linux_step (client_prog m))).
  induction (client_prog m) as [a|why|B o k IH]; cbn [run]; [apply quiet_ret|apply quiet_ub|].
  apply quiet_bind; [apply quiet_step|exact IH].
Qed.
End quiet.

(** ** The invariant *)

Definition proc_ok {D} (p : process) l h ps (w : world D) : Prop :=
  as_ok (pr_ad p) (objs_own (pr_objs p) ++ l) h ps w /\ map_Forall (fun _ x => handle_ok x w) (pr_objs p).

(** What the adapter owns besides the pool. *)
Definition rest_own (a : adapter_state) : list (Z * kind) := pd_own (a_pd a) ++ td_own (a_td a) ++ caps_own a.

Section keep.
Context {D : Type} `{DevX D} `{DevXDomain D} (page_size : Z).
Implicit Types (w : world D) (l : list (Z * kind)) (h : gmap Z blk).

(** The two views of the state. *)
Lemma proc_app p l h ps w :
  proc_ok p l h ps w <->
  app_ok (app_of p) (rest_own (pr_ad p) ++ l) h w /\ live_pds (calls w) = pds_of (a_pd (pr_ad p)) ++ ps.
Proof.
  unfold proc_ok, as_ok, app_ok, app_own, as_own, rest_own, app_of. cbn [ap_ad ap_objs m_uarpool].
  assert (forall L, own ((pd_own (a_pd (pr_ad p)) ++ td_own (a_td (pr_ad p)) ++ L ++ caps_own (pr_ad p)) ++ objs_own (pr_objs p) ++ l) h w
    <-> own ((L ++ objs_own (pr_objs p)) ++ (pd_own (a_pd (pr_ad p)) ++ td_own (a_td (pr_ad p)) ++ caps_own (pr_ad p)) ++ l) h w) as E.
  { intros L. apply own_perm; [|done|done]. solve_Permutation. }
  rewrite E. change (adapter_own _) with (pool_own (a_uarpool (pr_ad p))). naive_solver.
Qed.

Lemma proc_with_app p s l h ps w :
  app_ok s (rest_own (pr_ad p) ++ l) h w -> live_pds (calls w) = pds_of (a_pd (pr_ad p)) ++ ps -> proc_ok (with_app p s) l h ps w.
Proof.
  intros (Hp & Ho & Hok) Hl. apply proc_app. split; [|done]. split_and!; [exact Hp| |exact Hok]. exact Ho.
Qed.

Lemma keep_event p e l h ps w :
  proc_ok p l h ps w -> may_happen p e ->
  wp (proc_step page_size p e) (fun r w' => exists lost gone, proc_ok r.2 (lost ++ l) h (gone ++ ps) w'
    /\ ((lost, gone) = ([], []) \/ (lost, gone) = event_replaced p e) /\ (replaces_none p e -> lost = [] /\ gone = [])) w.
Proof.
  intros Hok Hm. destruct e as [o|r]; cbn [proc_step may_happen replaces_none event_replaced] in *; apply wp_bind.
  - destruct Hok as [(Hp & Ho & Hl) Hall].
    destruct (own_split (objs_own (pr_objs p) ++ l) (as_own (pr_ad p)) h w Ho) as (h' & Ho' & Hrest).
    eapply wp_mono; [|apply (lose_op (pr_ad p) o [] h' ps w)].
    + intros [st a] w' (lost & gone & (Hp' & Ho2 & Hl') & Hno). apply wp_ret. cbn [snd] in *. rewrite app_nil_r in Ho2.
      destruct (Hrest _ _ Ho2) as [Ho3 Hs]. exists lost, gone. split; [|done]. split.
      * split_and!; [done| |done]. cbn [pr_ad pr_objs]. own_perm Ho3.
      * cbn [pr_objs]. eapply objs_ok_same; [|exact Hs|exact Hall]. intros q x Hq r Hr. by apply (objs_in _ [] l q x).
    + split_and!; [done|by rewrite app_nil_r|done].
  - apply proc_app in Hok as [Hok Hl].
    eapply wp_mono; [|apply wp_quiet; [apply (quiet_client (fun D (HD : DevX D) => app_step page_size (default 0 (a_ibv_pd (pr_ad p))) (a_hca (pr_ad p)).2 (app_of p) r))|by apply app_step_keeps]].
    intros [st s] w' [Hok' Hl']. apply wp_ret. exists [], []. split_and!; [|by left|done]. apply proc_with_app; [done|]. by rewrite Hl'.
Qed.

Lemma keep_events es : forall p l h ps w,
  proc_ok p l h ps w -> may_happen_all page_size p w es ->
  wp (proc_run page_size p es) (fun r w' => exists lost gone, proc_ok r.2 (lost ++ l) h (gone ++ ps) w' /\ length r.1 = length es
    /\ lost_along page_size p w es lost gone /\ (replaces_none_all page_size p w es -> lost = [] /\ gone = [])) w.
Proof.
  unfold may_happen_all, replaces_none_all.
  induction es as [|e es IH]; intros p l h ps w Hok Hm; cbn [proc_run along lost_along] in *; [apply wp_ret; by exists [], []|].
  destruct Hm as [He Hrest]. apply wp_bind. eapply wp_mono; [|by apply wp_eq, keep_event].
  intros [st p'] w1 [(lost & gone & Hok1 & Hwas & Hno) E]. apply wp_bind.
  eapply wp_mono; [|apply (IH p' (lost ++ l) h (gone ++ ps) w1); [done|by eapply Hrest]].
  intros [sts p2] w2 (lost2 & gone2 & Hok2 & Hl & Hwas2 & Hno2). apply wp_ret. exists (lost2 ++ lost), (gone2 ++ gone). cbn [fst snd] in *.
  rewrite <- !app_assoc. split_and!; [done|cbn; by rewrite Hl| |].
  { exists lost, gone, lost2, gone2. split_and!; [done|done|done|]. intros st' p2' w2' E'. rewrite E in E'. by injection E' as <- <- <-. }
  intros [Hr1 Hr2]. destruct (Hno Hr1) as [-> ->]. destruct (Hno2 (Hr2 _ _ _ E)) as [-> ->]. done.
Qed.

Lemma own_proc_exit p l h ps w :
  proc_ok p l h ps w -> wp (proc_exit p) (fun _ w' => own l h w' /\ live_pds (calls w') = ps) w.
Proof.
  intros [(Hp & Ho & Hl) Hall]. apply wp_bind.
  eapply wp_mono; [|apply wp_quiet; [apply (quiet_client (fun D (HD : DevX D) => delete_all (map_to_list (pr_objs p))))|
    apply (own_delete_all (map_to_list (pr_objs p)) (as_own (pr_ad p) ++ l) h w)]].
  - intros [] w' [Ho' Hl']. apply own_adapter_delete. split_and!; [done|done|by rewrite Hl'].
  - unfold objs_own in Ho. own_perm Ho.
  - apply map_Forall_to_list in Hall. revert Hall. apply Forall_impl. by intros [].
Qed.

(** C2. What a process leaves behind.  An adapter is constructed, its allocations
    succeeding and its queries answered; then operations on the adapter (opening
    it, replacing its domains, event queues, the shared UAR) and requests of the
    application (queues, transport objects, keys, tables, parser nodes, memory
    keys: created, changed, queried and deleted) happen in any order; then what is
    left is deleted, and the adapter.  The operations on the adapter are free; a
    request names an object the application holds and has attributes in range
    ([may_ask]: queue sizes from 1 to 2^30, key blobs as long as they say, a parser
    node whose attributes fit its command and whose first arc exists and is
    numbered below 32, on capabilities with header masks of fewer than 31 bits and
    at most 8 samples, a key counter that is not at its last value), for the code
    is undefined outside.  Whatever the device and the
    allocator answer then, there is no undefined behaviour and every event gets a
    status.  In a run where no operation replaces a domain the adapter still holds
    ([replaces_none_all]) the heap ends as it began and the verbs domains the
    adapter allocated are released, and only those; in any other run the difference
    is exactly domains that were replaced ([lost_along]). *)
Theorem process_leaves_nothing ctx ans g w :
  fresh_ok w -> enough_memory w -> answers ctx ans -> (forall t, is_bytes (ans t)) ->
  wp (adapter_new ctx) (fun a w1 => forall es, may_happen_all page_size (mkProc a g ∅) w1 es ->
    wp ('(sts, p) <- proc_run page_size (mkProc a g ∅) es;; proc_exit p;; ret sts)
       (fun sts w' => length sts = length es
          /\ (exists lost gone, lost_along page_size (mkProc a g ∅) w1 es lost gone
                /\ own lost (heap w) w' /\ live_pds (calls w') = gone ++ live_pds (calls w))
          /\ (replaces_none_all page_size (mkProc a g ∅) w1 es ->
               heap w' = heap w /\ live_pds (calls w') = live_pds (calls w))) w1) w.
Proof.
  intros Hf Hm Hans Hb. eapply wp_mono; [|apply (adapter_new_spec ctx ans [] (heap w)); try done; by apply own_nil].
  intros a w1 [Hok _] es Hes. apply wp_bind.
  eapply wp_mono; [|apply (keep_events es (mkProc a g ∅) [] (heap w) (live_pds (calls w)) w1); [|done]].
  - intros [sts p] w2 (lost & gone & Hok2 & Hl & Hwas & Hno). apply wp_bind. eapply wp_mono; [|by apply own_proc_exit].
    intros [] w3 [Ho3 Hp3]. apply wp_ret. rewrite app_nil_r in Ho3. split_and!; [done|by exists lost, gone|].
    intros Hr. destruct (Hno Hr) as [-> ->]. split; [by apply own_nil_heap|done].
  - split; [|by apply map_Forall_empty]. cbn [pr_ad pr_objs]. by rewrite objs_own_empty.
Qed.
End keep.

(** ** Witness *)

(** The obligations that are computed along a run. *)
Fixpoint there_run {D} `{DevX D} `{DevXDomain D} (page_size : Z) (p : process) (w : world D) (es : list event) : Prop :=
  match es with
  | [] => True
  | e :: es =>
      match e with EAdapter o => amay (pr_ad p) o | ERequest r => holds (app_of p) r = true end
      /\ match proc_step page_size p e w with Ret (_, p', w') => there_run page_size p' w' es | UB _ => True end
  end.

Definition event_attrs_ok (e : event) : Prop := match e with EAdapter _ => True | ERequest r => forall caps, attrs_ok caps r end.

Lemma may_happen_computed {D} `{DevX D} `{DevXDomain D} page_size es : forall p (w : world D),
  Forall event_attrs_ok es -> there_run page_size p w es ->
  may_happen_all page_size p w es /\ replaces_none_all page_size p w es.
Proof.
  unfold may_happen_all, replaces_none_all.
  induction es as [|e es IH]; intros p w Ha Hh; [done|]. cbn [there_run along] in *. inversion Ha as [|? ? He Hes]; subst.
  destruct Hh as [Hh1 Hh2]. split; split.
  - destruct e as [o|r]; [done|]. split; [apply He|done].
  - intros st p' w' E. rewrite E in Hh2. by apply IH.
  - by destruct e.
  - intros st p' w' E. rewrite E in Hh2. by apply IH.
Qed.

(** The adapter is opened; a striding queue, a receive object and a direct key are
    made, with a query of an event queue in between; the queue is made ready, the
    object queried and deleted. *)
Definition demo_events : list event :=
  [EAdapter AOpen; ERequest (RStridingRq Rq.sample_attr); ERequest (RTir tir_attr_zero); EAdapter (AEqn 1);
   ERequest (RDirect 8192 100 0); ERequest (RState 15 RQ_RDY); ERequest (RQuery 23); ERequest (RDelete 23)].

Lemma demo_events_attrs : Forall event_attrs_ok demo_events.
Proof. repeat constructor; intros; try exact sample_sizes; done. Qed.

Lemma process_leaves_nothing_witness :
  match built with
  | Some (a, w1) => may_happen_all 4096 (mkProc a 0 ∅) w1 demo_events /\ replaces_none_all 4096 (mkProc a 0 ∅) w1 demo_events
  | None => False
  end
  /\ wp (adapter_new 1) (fun a w1 => forall es, may_happen_all 4096 (mkProc a 0 ∅) w1 es ->
       wp ('(sts, p) <- proc_run 4096 (mkProc a 0 ∅) es;; proc_exit p;; ret sts)
          (fun sts w' => length sts = length es
             /\ (exists lost gone, lost_along 4096 (mkProc a 0 ∅) w1 es lost gone /\ own lost (heap sim_world) w' /\ live_pds (calls w') = gone ++ live_pds (calls sim_world))
             /\ (replaces_none_all 4096 (mkProc a 0 ∅) w1 es ->
                  heap w' = heap sim_world /\ live_pds (calls w') = live_pds (calls sim_world))) w1) sim_world.
Proof.
  split.
  - assert (match built with Some (a, w1) => there_run 4096 (mkProc a 0 ∅) w1 demo_events | None => False end) as Ht
      by (vm_compute; repeat split; intros; done).
    destruct built as [[a w1]|]; [|done]. apply may_happen_computed; [exact demo_events_attrs|exact Ht].
  - apply (process_leaves_nothing 4096 1 sim_ans 0 sim_world);
      [apply sim_world_fresh|apply sim_memory|apply sim_answers|apply sim_ans_bytes].
Defined.
