(* ===== verification/CompChannel.v ===== *)
(** * Completion channels (src/src/dpcp/eq.cpp, the [compchannel] classes of
      src/src/dcmd/linux and src/src/dcmd/windows, [adapter::create_comp_channel])

    A [comp_channel] binds a completion queue to a channel of the operating
    system and asks for notifications.  The [dpcp] class is written against the
    interface [Channel] of the [dcmd] class; [ChannelLaws] ties the [dcmd] class
    to the calls of its platform, and both back ends provide it.  The deletion of
    a channel is defined on Windows only ([ChannelEnds]). *)

From S2P Require Import Prelude Codec Prm Dcmd Own Sim Obj Windows.
Open Scope string_scope.
Open Scope list_scope.
Open Scope Z_scope.
Open Scope m_scope.

Definition DCMD_ENOTSUP : Z := 134.
(** [DCMD_EINVAL] of dcmd.h *)
Definition EINVAL : Z := 22.

(** ** The interface *)

(** [C] is the [dcmd::compchannel] with its block; a constructor that throws gives
    [None].  A null queue handle is 0. *)
Class Channel (D C : Type) := {
  cc_new : Z -> M D (option C);
  cc_bind : C -> Z -> bool -> M D (Z * C);
  cc_unbind : C -> M D (Z * C);
  cc_get : C -> M D (Z * Z);
  cc_request : C -> M D (Z * Z * C);          (* result and number of events *)
  cc_flush : C -> Z -> M D unit;
  cc_delete : C -> M D unit;
  cc_obj_handle : Z -> M D Z                  (* [dcmd::obj::get_handle] *)
}.

(** ** [dpcp::comp_channel] *)

(** [m_cc] is [None] while the pointer has no value: the constructor catches the
    exception of [dcmd::compchannel] and goes on. *)
Record comp_channel (C : Type) := mkCompChannel { cch_obj : obj; m_cc : option C }.
Arguments mkCompChannel {C}.
Arguments cch_obj {C}.
Arguments m_cc {C}.

Section comp_channel.
Context {D C : Type} `{Channel D C}.

Definition comp_channel_new (ctx : Z) : M D (comp_channel C) :=
  c <- cc_new ctx;;
  ret (mkCompChannel (obj_new (Some ctx)) c).

Definition cc_of (ch : comp_channel C) : M D C := need (m_cc ch) "m_cc has no value".

(** [~comp_channel]; the base class holds no dcmd object. *)
Definition comp_channel_delete (ch : comp_channel C) : M D unit := c <- cc_of ch;; cc_delete c.

(** [get_handle] of the queue that is bound *)
Definition cq_get_handle (in_cq : obj) : M D (status * Z) :=
  match m_obj_handle in_cq with
  | Some p => h <- cc_obj_handle p;; ret (DPCP_OK, h)
  | None => ret (DPCP_ERR_CREATE, 0)
  end.

Definition comp_channel_bind (ch : comp_channel C) (in_cq : obj) : M D (status * comp_channel C) :=
  '(st, obj_h) <- cq_get_handle in_cq;;
  if negb (is_ok st) then ret (st, ch)
  else
    c <- cc_of ch;;
    '(err, c) <- cc_bind c obj_h false;;
    ret (if err =? 0 then DPCP_OK else DPCP_ERR_NO_DEVICES, mkCompChannel (cch_obj ch) (Some c)).

(** The queue that [unbind], [request] and [flush] take is not used. *)
Definition comp_channel_unbind (ch : comp_channel C) (to_unbind : obj) : M D (status * comp_channel C) :=
  c <- cc_of ch;;
  '(err, c) <- cc_unbind c;;
  ret (if err =? 0 then DPCP_OK else DPCP_ERR_NO_CONTEXT, mkCompChannel (cch_obj ch) (Some c)).

Definition comp_channel_get (ch : comp_channel C) : M D (status * Z) :=
  c <- cc_of ch;;
  '(err, e) <- cc_get c;;
  ret (if err =? 0 then (DPCP_OK, e) else (DPCP_ERR_NO_CONTEXT, e)).

(** The status and [num_eqe], which is left alone on an error. *)
Definition comp_channel_request (ch : comp_channel C) (for_cq : obj) (num_eqe : Z) : M D (status * Z * comp_channel C) :=
  c <- cc_of ch;;
  '(err, n, c) <- cc_request c;;
  let ch := mkCompChannel (cch_obj ch) (Some c) in
  ret (if err =? 0 then (DPCP_OK, n, ch) else (DPCP_ERR_NO_CONTEXT, num_eqe, ch)).

Definition comp_channel_flush (ch : comp_channel C) (for_cq : obj) : M D status :=
  c <- cc_of ch;; cc_flush c 0;; ret DPCP_OK.

(** [adapter::create_comp_channel] *)
Definition create_comp_channel (ctx : Z) : M D (status * option (Z * comp_channel C)) :=
  self <- alloc BMem;;
  match self with
  | None => ret (DPCP_ERR_NO_MEMORY, None)
  | Some self => ch <- comp_channel_new ctx;; ret (DPCP_OK, Some (self, ch))
  end.

(** [delete] of what it gave *)
Definition delete_comp_channel (self : Z) (ch : comp_channel C) : M D unit := comp_channel_delete ch;; dealloc self.
End comp_channel.

(** ** The Linux class *)

(** [ibv_req_notify_cq] is called with the handle of a DevX object, which the code
    casts to an [ibv_cq]; that the library takes it is an assumption of the model. *)
Class DevXEvents (D : Type) := {
  ibv_create_comp_channel : Z -> D -> option Z * D;
  ibv_destroy_comp_channel : Z -> D -> Z * D;
  ibv_req_notify_cq : Z -> bool -> D -> Z * D;
  ibv_get_cq_event : Z -> D -> Z * Z * Z * D;            (* result, queue and its context *)
  ibv_ack_cq_events : Z -> Z -> D -> D
}.

(** [m_event_channel] is a copy of the structure the library returned; the pointer
    to the library's own is not kept. *)
Inductive chan_ptr : Type := LibraryChannel (ch : Z) | InteriorCopy (block : Z).

Record lin_channel := mkLin {
  lc_block : Z;
  lc_ctx : Z;
  lc_cq_obj : option Z;
  lc_binded : bool;
  lc_solicited : bool
}.

Section linux.
Context {D : Type} `{DevXEvents D}.

Definition lin_cc_new (ctx : Z) : M D (option lin_channel) :=
  b <- alloc BMem;;
  match b with
  | None => ret None
  | Some b =>
      c <- device (ibv_create_comp_channel ctx) CChanCreate;;
      match c with
      | None => dealloc b;; ret None
      | Some _ => ret (Some (mkLin b ctx None false false))
      end
  end.

Definition lin_cc_bind (c : lin_channel) (cq_obj : Z) (solicited_only : bool) : M D (Z * lin_channel) :=
  if cq_obj =? 0 then ret (EINVAL, c)
  else
    let c := mkLin (lc_block c) (lc_ctx c) (Some cq_obj) (lc_binded c) solicited_only in
    err <- device (ibv_req_notify_cq cq_obj solicited_only) (fun _ => CNotify cq_obj solicited_only);;
    if negb (err =? 0) then ret (DCMD_EIO, c)
    else ret (err, mkLin (lc_block c) (lc_ctx c) (lc_cq_obj c) true (lc_solicited c)).

Definition lin_cc_unbind (c : lin_channel) : M D (Z * lin_channel) :=
  ret (DCMD_EOK, mkLin (lc_block c) (lc_ctx c) (lc_cq_obj c) false (lc_solicited c)).

(** The address of [m_event_channel], named by the object it lies in. *)
Definition lin_cc_get (c : lin_channel) : M D (Z * Z) := ret (DCMD_EOK, lc_block c).

Definition lin_cc_request (c : lin_channel) : M D (Z * Z * lin_channel) :=
  q <- need (lc_cq_obj c) "null completion queue";;
  err <- device (ibv_req_notify_cq q (lc_solicited c)) (fun _ => CNotify q (lc_solicited c));;
  ret (if negb (err =? 0) then DCMD_EIO else DCMD_EOK, 0, c).

(** [compchannel::query]: the result and the context of the queue. *)
Definition lin_cc_query (c : lin_channel) (ctx : Z) : M D (Z * Z) :=
  '(err, event_cq, cq_ctx) <- device (fun d => let '(e, q, x, d') := ibv_get_cq_event (lc_block c) d in ((e, q, x), d'))
                                     (fun _ => CGetEvent);;
  if negb (err =? 0) then ret (DCMD_EIO, ctx)
  else if negb (default 0 (lc_cq_obj c) =? event_cq) then ret (DCMD_EIO, ctx)
  else ret (DCMD_EOK, cq_ctx).

Definition lin_cc_flush (c : lin_channel) (nevents : Z) : M D unit :=
  match lc_cq_obj c with
  | Some q =>
      if negb (nevents =? 0)
      then _ <- device (fun d => (tt, ibv_ack_cq_events q nevents d)) (fun _ => CAckEvents q nevents);; ret tt
      else ret tt
  | None => ret tt
  end.

(** The library destroys, and frees, a channel that it created; the address of a
    copy inside another object is no such channel. *)
Definition destroy_channel (p : chan_ptr) : M D Z :=
  match p with
  | LibraryChannel ch => device (ibv_destroy_comp_channel ch) (fun _ => CChanDestroy ch)
  | InteriorCopy _ => ub "ibv_destroy_comp_channel: not a channel of the library"
  end.

(** The destructor passes the address of [m_event_channel]. *)
Definition lin_cc_delete (c : lin_channel) : M D unit :=
  _ <- destroy_channel (InteriorCopy (lc_block c));;
  dealloc (lc_block c).

#[global] Instance linux_channel : Channel D lin_channel := {
  cc_new := lin_cc_new;
  cc_bind := lin_cc_bind;
  cc_unbind := lin_cc_unbind;
  cc_get := lin_cc_get;
  cc_request := lin_cc_request;
  cc_flush := lin_cc_flush;
  cc_delete := lin_cc_delete;
  cc_obj_handle := dobj_get_handle
}.
End linux.

(** ** The Windows class *)

Class WinEvents (D : Type) := {
  ECANCELED : Z;
  devx_overlapped_file_open : Z -> D -> Z * Z * D;       (* result and handle *)
  devx_overlapped_io_enable : Z -> D -> Z * D;
  devx_overlapped_io_park : Z -> Z -> D -> Z * Z * D;    (* result and number of events *)
  devx_overlapped_io_flush : Z -> D -> D;
  CloseHandle : Z -> D -> D
}.

(** [m_cq_obj] has no value before [bind], [m_adapter_shutdown] before a cancelled
    request. *)
Record win_channel := mkWin {
  wc_block : Z;
  wc_ctx : Z;
  wc_cq_obj : option Z;
  wc_handle : Z;
  wc_binded : bool;
  wc_adapter_shutdown : option bool
}.

Section windows.
Context {D : Type} `{WinEvents D}.

Definition win_cc_new (ctx : Z) : M D (option win_channel) :=
  b <- alloc BMem;;
  match b with
  | None => ret None
  | Some b =>
      '(err, h) <- device (fun d => let '(e, h, d') := devx_overlapped_file_open ctx d in ((e, h), d'))
                          (fun r => CFileOpen (if fst r =? 0 then Some (snd r) else None));;
      if negb (err =? 0) then dealloc b;; ret None
      else ret (Some (mkWin b ctx None h false None))
  end.

Definition win_cc_bind (c : win_channel) (src_obj : Z) (solicited : bool) : M D (Z * win_channel) :=
  if src_obj =? 0 then ret (EINVAL, c)
  else
    let c := mkWin (wc_block c) (wc_ctx c) (Some src_obj) (wc_handle c) (wc_binded c) (wc_adapter_shutdown c) in
    err <- device (devx_overlapped_io_enable src_obj) (fun _ => CIoEnable src_obj);;
    if negb (err =? 0) then ret (DCMD_EIO, c)
    else ret (err, mkWin (wc_block c) (wc_ctx c) (wc_cq_obj c) (wc_handle c) true (wc_adapter_shutdown c)).

Definition win_cc_flush (c : win_channel) (unused : Z) : M D unit :=
  if wc_binded c then
    q <- need (wc_cq_obj c) "m_cq_obj has no value";;
    _ <- device (fun d => (tt, devx_overlapped_io_flush q d)) (fun _ => CIoFlush q);; ret tt
  else ret tt.

Definition win_cc_unbind (c : win_channel) : M D (Z * win_channel) :=
  win_cc_flush c 0;;
  ret (DCMD_EOK, mkWin (wc_block c) (wc_ctx c) (wc_cq_obj c) (wc_handle c) false (wc_adapter_shutdown c)).

Definition win_cc_get (c : win_channel) : M D (Z * Z) := ret (DCMD_EOK, wc_handle c).

Definition win_cc_request (c : win_channel) : M D (Z * Z * win_channel) :=
  q <- need (wc_cq_obj c) "m_cq_obj has no value";;
  '(err, n) <- device (fun d => let '(e, n, d') := devx_overlapped_io_park (wc_handle c) q d in ((e, n), d'))
                      (fun _ => CIoPark (wc_handle c) q);;
  if negb (err =? 0) then
    if negb (err =? - ECANCELED) then ret (DCMD_EIO, 0, c)
    else ret (DCMD_ENOTSUP, 0, mkWin (wc_block c) (wc_ctx c) (wc_cq_obj c) (wc_handle c) (wc_binded c) (Some true))
  else ret (DCMD_EOK, n, c).

Definition win_cc_delete (c : win_channel) : M D unit :=
  win_cc_flush c 0;;
  _ <- device (fun d => (tt, CloseHandle (wc_handle c) d)) (fun _ => CFileClose (wc_handle c));;
  dealloc (wc_block c).

#[global] Instance windows_channel : Channel D win_channel := {
  cc_new := win_cc_new;
  cc_bind := win_cc_bind;
  cc_unbind := win_cc_unbind;
  cc_get := win_cc_get;
  cc_request := win_cc_request;
  cc_flush := win_cc_flush;
  cc_delete := win_cc_delete;
  cc_obj_handle := win_obj_get_handle
}.
End windows.

#[local] Obligation Tactic := idtac.

(** ** The contract of a channel *)

(** What a caller can know of a channel: what [get_comp_channel] names, the queue it
    was last given, and whether notifications are on. *)
Record chan := mkChan { name : Z; given : option Z; bound : bool }.

(** The operations of the class, with the queue each of them names; [CRequest] also
    has the caller's [num_eqe]. *)
Inductive cop : Type :=
  CBind (q : obj) | CUnbind (q : obj) | CGet | CRequest (q : obj) (num_eqe : Z) | CFlush (q : obj).

(** The handle a queue answers with: none when it was never created. *)
Inductive answer : Type := NoObject | Handle (z : Z).

(** The calls of a platform that stand behind the operations. *)
Class Platform (D : Type) := {
  pf_open : Z -> D -> bool * D;               (* create a channel on a context *)
  pf_enable : Z -> D -> Z * D;                (* turn the notifications of a queue on *)
  pf_request : Z -> Z -> D -> Z * Z * D;      (* ask a channel for those of a queue: result, events *)
  pf_quiet : Z -> D -> D;                     (* stop the notifications of a queue *)
  pf_flushes : bool                           (* whether a flush reaches the device *)
}.

(** The contract: for an operation, the state of the channel and that of the device,
    the status, what is handed to the caller, and the two states after it. *)
Section contract.
Context {D : Type} (P : Platform D) (ans : obj -> answer).

Definition quieted (c : chan) (d : D) : D :=
  match bound c, given c with true, Some z => pf_quiet z d | _, _ => d end.

Definition chan_op (o : cop) (c : chan) (d : D) : status * option Z * chan * D :=
  match o with
  | CBind q =>
      match ans q with
      | NoObject => (DPCP_ERR_CREATE, None, c, d)
      | Handle z =>
          if z =? 0 then (DPCP_ERR_NO_DEVICES, None, c, d)
          else let '(r, d') := pf_enable z d in
               if r =? 0 then (DPCP_OK, None, mkChan (name c) (Some z) true, d')
               else (DPCP_ERR_NO_DEVICES, None, mkChan (name c) (Some z) (bound c), d')
      end
  | CUnbind _ => (DPCP_OK, None, mkChan (name c) (given c) false, quieted c d)
  | CGet => (DPCP_OK, Some (name c), c, d)
  | CRequest _ n =>
      match given c with
      | None => (DPCP_ERR_NO_CONTEXT, Some n, c, d)
      | Some z => let '(r, k, d') := pf_request (name c) z d in
                  if r =? 0 then (DPCP_OK, Some k, c, d') else (DPCP_ERR_NO_CONTEXT, Some n, c, d')
      end
  | CFlush _ => (DPCP_OK, None, c, quieted c d)
  end.

Fixpoint chan_ops (os : list cop) (c : chan) (d : D) : list (status * option Z) * chan * D :=
  match os with
  | [] => ([], c, d)
  | o :: os => let '(st, out, c, d) := chan_op o c d in
               let '(r, c, d) := chan_ops os c d in ((st, out) :: r, c, d)
  end.
End contract.

(** ** What the [dpcp] class relies on *)

(** [cc_view] is the channel seen from outside, [cc_ok] what the class keeps. *)
Class ChannelLaws (D C : Type) {HC : Channel D C} (P : Platform D) := {
  cc_block : C -> Z;
  cc_view : C -> chan;
  cc_ok : C -> Prop;
  blk_handle : blk -> option Z;               (* the handle in a [dcmd::obj] *)
  handle_law p b z l h (w : world D) :
    own l h w -> h !! p = Some b -> blk_handle b = Some z -> cc_obj_handle p w = Ret (z, w);
  new_law ctx l h (w : world D) :
    own l h w ->
    wp (cc_new ctx) (fun r w' => match r with
      | Some c => own ((cc_block c, KMem) :: l) h w' /\ cc_ok c /\ given (cc_view c) = None /\ bound (cc_view c) = false
          /\ pf_open ctx (dev w) = (true, dev w')
      | None => own l h w' /\ (plenty w -> pf_open ctx (dev w) = (false, dev w')) end) w;
  bind_null_law c (w : world D) : exists r, r <> 0 /\ cc_bind c 0 false w = Ret ((r, c), w);
  bind_law c q l h (w : world D) :
    own l h w -> cc_ok c -> q <> 0 ->
    wp (cc_bind c q false) (fun '(r, c') w' => own l h w' /\ cc_block c' = cc_block c /\ cc_ok c'
      /\ exists e, pf_enable q (dev w) = (e, dev w') /\ (r =? 0) = (e =? 0)
         /\ cc_view c' = mkChan (name (cc_view c)) (Some q) (if e =? 0 then true else bound (cc_view c))) w;
  unbind_law c l h (w : world D) :
    own l h w -> cc_ok c ->
    wp (cc_unbind c) (fun '(r, c') w' => own l h w' /\ cc_block c' = cc_block c /\ cc_ok c' /\ r = 0
      /\ cc_view c' = mkChan (name (cc_view c)) (given (cc_view c)) false
      /\ dev w' = quieted P (cc_view c) (dev w)) w;
  get_law c (w : world D) : cc_get c w = Ret ((0, name (cc_view c)), w);
  request_law c q l h (w : world D) :
    own l h w -> cc_ok c -> given (cc_view c) = Some q ->
    wp (cc_request c) (fun '(r, k, c') w' => own l h w' /\ cc_block c' = cc_block c /\ cc_ok c' /\ cc_view c' = cc_view c
      /\ exists e n, pf_request (name (cc_view c)) q (dev w) = (e, n, dev w') /\ (r =? 0) = (e =? 0) /\ (e = 0 -> k = n)) w;
  flush_law c n l h (w : world D) :
    own l h w -> cc_ok c -> pf_flushes = true ->
    wp (cc_flush c n) (fun _ w' => own l h w' /\ dev w' = quieted P (cc_view c) (dev w)) w
}.

(** Where the destructor of the [dcmd] class is defined: it quiets the queue, closes
    the channel and gives the memory back. *)
Class ChannelEnds (D C : Type) {HC : Channel D C} {P : Platform D} {HL : ChannelLaws D C P} := {
  pf_close : Z -> D -> D;
  delete_law c l h (w : world D) :
    own ((cc_block c, KMem) :: l) h w -> cc_ok c ->
    wp (cc_delete c) (fun _ w' => own l h w' /\ dev w' = pf_close (name (cc_view c)) (quieted P (cc_view c) (dev w))) w
}.

Definition lin_blk_handle (b : blk) : option Z := match b with BObj h => Some (default 0 h) | _ => None end.
Definition win_blk_handle (b : blk) : option Z := match b with BWinObj _ h => Some (default 0 h) | _ => None end.

Section linux_laws.
Context {D : Type} `{DevXEvents D}.

(** A request is a new notification of any completion, not only of solicited ones;
    no events are counted.  Nothing is asked of the device to stop it, and a flush
    of [dpcp] does not reach it. *)
Definition linux_platform : Platform D := {|
  pf_open ctx d := let '(c, d) := ibv_create_comp_channel ctx d in (bool_decide (is_Some c), d);
  pf_enable q d := ibv_req_notify_cq q false d;
  pf_request _ q d := let '(r, d) := ibv_req_notify_cq q false d in (r, 0, d);
  pf_quiet _ d := d;
  pf_flushes := false
|}.

#[global] Program Instance linux_channel_laws : ChannelLaws D lin_channel linux_platform := {
  cc_block := lc_block;
  cc_view c := mkChan (lc_block c) (lc_cq_obj c) (lc_binded c);
  cc_ok c := lc_solicited c = false;
  blk_handle := lin_blk_handle
}.
Next Obligation.
  intros p b z l h w Ho Hb Hz. pose proof (own_frame p b l h w Ho Hb) as Hp. cbn. unfold dobj_get_handle, bind, load. rewrite Hp.
  destruct b; try done. by injection Hz as <-.
Qed.
Next Obligation.
  intros ctx l h w Ho. apply wp_bind. eapply alloc_track; [exact Ho|intros; apply wp_ret; by split|].
  intros p w1 Ho1 Hd1 _. apply wp_bind.
  eapply device_track; [exact Ho1|]. intros [c|] w2 Ho2 E _; rewrite Hd1 in E.
  - apply wp_ret. cbn. by rewrite E.
  - apply wp_bind. eapply dealloc_track; [exact Ho2|]. intros w3 Ho3 Hd3 _. apply wp_ret. cbn. rewrite E. split; [done|]. intros _. by rewrite Hd3.
Qed.
Next Obligation. intros c w. by exists EINVAL. Qed.
Next Obligation.
  intros c q l h w Ho Hok Hq. cbn. unfold lin_cc_bind. rewrite (proj2 (Z.eqb_neq q 0)) by done. cbv zeta. apply wp_bind.
  eapply device_track; [exact Ho|]. intros r w1 Ho1 E _. destruct (Z.eqb_spec r 0) as [->|Hr]; apply wp_ret; cbn; split_and!; try done;
    eexists; split_and!; try exact E; try done; by rewrite (proj2 (Z.eqb_neq r 0)).
Qed.
Next Obligation. intros c l h w Ho Hok. apply wp_ret. cbn. split_and!; try done. unfold quieted. cbn. by repeat case_match. Qed.
Next Obligation. done. Qed.
Next Obligation.
  intros c q l h w Ho Hok Hg. cbn in *. unfold lin_cc_request. rewrite Hg. apply wp_bind, wp_ret, wp_bind. rewrite Hok.
  eapply device_track; [exact Ho|]. intros r w1 Ho1 E _. apply wp_ret. rewrite E. split_and!; [done..|by rewrite Hg|].
  exists r, 0. split_and!; [done| |done]. by destruct (r =? 0).
Qed.
Next Obligation. done. Qed.
End linux_laws.

Section windows_laws.
Context {D : Type} `{WinEvents D}.

Definition windows_platform : Platform D := {|
  pf_open ctx d := let '(e, _, d) := devx_overlapped_file_open ctx d in (e =? 0, d);
  pf_enable := devx_overlapped_io_enable;
  pf_request := devx_overlapped_io_park;
  pf_quiet := devx_overlapped_io_flush;
  pf_flushes := true
|}.

Definition win_view (c : win_channel) : chan := mkChan (wc_handle c) (wc_cq_obj c) (wc_binded c).

Lemma win_flush_own (c : win_channel) n l h (w : world D) (Q : unit -> world D -> Prop) :
  own l h w -> (wc_binded c = true -> wc_cq_obj c <> None) ->
  (forall w', own l h w' -> dev w' = quieted windows_platform (win_view c) (dev w) -> Q tt w') -> wp (win_cc_flush c n) Q w.
Proof.
  intros Ho Hg HQ. unfold win_cc_flush. unfold quieted in HQ. cbn in HQ. destruct (wc_binded c); [|apply wp_ret; by apply HQ].
  destruct (wc_cq_obj c) as [q|]; [|by destruct Hg]. apply wp_bind, wp_ret, wp_bind. eapply device_track; [exact Ho|].
  intros [] w1 Ho1 [= E] _. apply wp_ret. by apply HQ.
Qed.

#[global] Program Instance windows_channel_laws : ChannelLaws D win_channel windows_platform := {
  cc_block := wc_block;
  cc_view := win_view;
  cc_ok c := wc_binded c = true -> wc_cq_obj c <> None;
  blk_handle := win_blk_handle
}.
Next Obligation.
  intros p b z l h w Ho Hb Hz. pose proof (own_frame p b l h w Ho Hb) as Hp. cbn. unfold win_obj_get_handle, bind, load. rewrite Hp.
  destruct b; try done. by injection Hz as <-.
Qed.
Next Obligation.
  intros ctx l h w Ho. apply wp_bind. eapply alloc_track; [exact Ho|intros; apply wp_ret; by split|].
  intros p w1 Ho1 Hd1 _. apply wp_bind. eapply device_track; [exact Ho1|]. intros [e x] w2 Ho2 E _. rewrite Hd1 in E.
  destruct (devx_overlapped_file_open ctx (dev w)) as [[e' x'] d'] eqn:Ef. injection E as -> -> ->.
  destruct (e =? 0) eqn:Ee; cbn [negb].
  - apply wp_ret. cbn. by rewrite Ef, Ee.
  - apply wp_bind. eapply dealloc_track; [exact Ho2|]. intros w3 Ho3 Hd3 _. apply wp_ret. cbn. rewrite Ef, Ee. split; [done|]. intros _. by rewrite Hd3.
Qed.
Next Obligation. intros c w. by exists EINVAL. Qed.
Next Obligation.
  intros c q l h w Ho Hok Hq. cbn. unfold win_cc_bind. rewrite (proj2 (Z.eqb_neq q 0)) by done. cbv zeta. apply wp_bind.
  eapply device_track; [exact Ho|]. intros r w1 Ho1 E _. destruct (Z.eqb_spec r 0) as [->|Hr]; apply wp_ret; cbn; split_and!; try done;
    eexists; split_and!; try exact E; try done; by rewrite (proj2 (Z.eqb_neq r 0)).
Qed.
Next Obligation.
  intros c l h w Ho Hok. apply wp_bind. eapply win_flush_own; [exact Ho|done|]. intros w1 Ho1 Hd. apply wp_ret. by split_and!.
Qed.
Next Obligation. done. Qed.
Next Obligation.
  intros c q l h w Ho Hok Hg. cbn in *. unfold win_cc_request. rewrite Hg. apply wp_bind, wp_ret, wp_bind.
  eapply device_track; [exact Ho|]. intros [e n] w1 Ho1 E _.
  destruct (devx_overlapped_io_park (wc_handle c) q (dev w)) as [[e' n'] d'] eqn:Ef. injection E as -> -> ->.
  destruct (Z.eqb_spec e 0) as [->|He]; cbn [negb].
  - apply wp_ret. split_and!; try done. by eexists _, _.
  - destruct (negb (e =? - ECANCELED)); apply wp_ret; (split; [done|]; split; [done|]; split; [first [exact Hok|done]|]; split; [unfold win_view; cbn; by rewrite ?Hg|]);
      exists e, n; (split; [done|]); by rewrite (proj2 (Z.eqb_neq e 0)).
Qed.
Next Obligation. intros c n l h w Ho Hok _. by eapply win_flush_own. Qed.

#[global] Program Instance windows_channel_ends : ChannelEnds D win_channel (HL := windows_channel_laws) := { pf_close := CloseHandle }.
Next Obligation.
  intros c l h w Ho Hok. apply wp_bind. eapply win_flush_own; [exact Ho|done|]. intros w1 Ho1 Hd1. apply wp_bind.
  eapply device_track; [exact Ho1|]. intros [] w2 Ho2 [= E] _. eapply dealloc_track; [exact Ho2|]. intros w3 Ho3 Hd3 _.
  split; [done|]. by rewrite Hd3, <- E, Hd1.
Qed.
End windows_laws.

(** ** The class follows the contract *)

Section life.
Context {D C : Type} {HC : Channel D C} {P : Platform D} {HL : ChannelLaws D C P}.
Implicit Types (w : world D) (ch : comp_channel C).

(** One operation of the class with what it hands out, and a sequence. *)
Definition cop_run ch (o : cop) : M D (status * option Z * comp_channel C) :=
  match o with
  | CBind q => '(st, ch) <- comp_channel_bind ch q;; ret (st, None, ch)
  | CUnbind q => '(st, ch) <- comp_channel_unbind ch q;; ret (st, None, ch)
  | CGet => '(st, e) <- comp_channel_get ch;; ret (st, Some e, ch)
  | CRequest q n => '(st, n, ch) <- comp_channel_request ch q n;; ret (st, Some n, ch)
  | CFlush q => st <- comp_channel_flush ch q;; ret (st, None, ch)
  end.

Fixpoint cops_run ch (os : list cop) : M D (list (status * option Z) * comp_channel C) :=
  match os with
  | [] => ret ([], ch)
  | o :: os => '(st, out, ch) <- cop_run ch o;; '(r, ch) <- cops_run ch os;; ret ((st, out) :: r, ch)
  end.

(** What the queues answer: they live in the part [h] of the heap that the channel
    leaves alone. *)
Definition answer_in (h : gmap Z blk) (q : obj) : answer :=
  match m_obj_handle q with
  | None => NoObject
  | Some p => match h !! p with Some b => Handle (default 0 (blk_handle b)) | None => NoObject end
  end.

Definition queue_there (h : gmap Z blk) (q : obj) : Prop :=
  forall p, m_obj_handle q = Some p -> exists b z, h !! p = Some b /\ blk_handle b = Some z.

(** [q] is the queue that the channel was last given, if it was given one. *)
Definition names (h : gmap Z blk) (g : option Z) (q : obj) : Prop := forall z, g = Some z -> answer_in h q = Handle z.

(** A sequence the caller may run on a channel that was last given [g]: the queues
    it binds are alive, the other operations name the queue that was last given,
    nothing is requested before there is one, and a flush is called only where it
    reaches the device. *)
Definition now_given (h : gmap Z blk) (g : option Z) (o : cop) : option Z :=
  match o with
  | CBind q => match answer_in h q with Handle z => if z =? 0 then g else Some z | NoObject => g end
  | _ => g
  end.

Definition may_op (h : gmap Z blk) (g : option Z) (o : cop) : Prop :=
  match o with
  | CBind q => queue_there h q
  | CUnbind q => names h g q
  | CGet => True
  | CRequest q _ => g <> None /\ names h g q
  | CFlush q => pf_flushes = true /\ names h g q
  end.

Fixpoint may_ops (h : gmap Z blk) (g : option Z) (os : list cop) : Prop :=
  match os with
  | [] => True
  | o :: os => may_op h g o /\ may_ops h (now_given h g o) os
  end.

Lemma chan_op_given h o c d st out c' d' :
  chan_op P (answer_in h) o c d = (st, out, c', d') -> given c' = now_given h (given c) o /\ name c' = name c.
Proof.
  destruct o as [q| | | |]; simpl; try (intros; by simplify_eq).
  - destruct (answer_in h q) as [|z]; [intros; by simplify_eq|]. destruct (z =? 0); [intros; by simplify_eq|].
    destruct (pf_enable z d) as [r d1]. destruct (r =? 0); intros; by simplify_eq.
  - destruct (given c) as [z|] eqn:E; [|intros; by simplify_eq]. destruct (pf_request (name c) z d) as [[r k] d1].
    destruct (r =? 0); intros; simplify_eq; by rewrite E.
Qed.

(** One operation does what the contract says and keeps the memory. *)
Lemma cop_run_step o obj c l h w :
  own ((cc_block c, KMem) :: l) h w -> cc_ok c -> may_op h (given (cc_view c)) o ->
  wp (cop_run (mkCompChannel obj (Some c)) o) (fun '(st, out, ch') w' => exists c', ch' = mkCompChannel obj (Some c')
    /\ own ((cc_block c', KMem) :: l) h w' /\ cc_ok c'
    /\ chan_op P (answer_in h) o (cc_view c) (dev w) = (st, out, cc_view c', dev w')) w.
Proof.
  intros Ho Hc Hm. destruct o as [q|q| |q n|q]; cbn [cop_run may_op chan_op] in *.
  - unfold comp_channel_bind, cq_get_handle. apply wp_bind. destruct (m_obj_handle q) as [p|] eqn:Ep.
    2:{ apply wp_bind, wp_ret, wp_ret, wp_ret. exists c. split_and!; try done. unfold answer_in. by rewrite Ep. }
    destruct (Hm p Ep) as (b & z & Hb & Hz). apply wp_bind, wp_bind. unfold wp at 1. rewrite (handle_law p b z _ _ _ Ho Hb Hz).
    assert (answer_in h q = Handle z) as -> by (unfold answer_in; by rewrite Ep, Hb, Hz).
    apply wp_ret. cbn. apply wp_bind, wp_ret, wp_bind. destruct (Z.eqb_spec z 0) as [->|Hz0].
    + destruct (bind_null_law c w) as (r & Hr & E). unfold wp at 1. rewrite E. apply wp_ret, wp_ret. rewrite (proj2 (Z.eqb_neq r 0)) by done.
      by exists c.
    + eapply wp_mono; [|by apply bind_law]. intros [r c'] w1 (Ho1 & Hbl & Hok & e & He & Hre & Hv). apply wp_ret, wp_ret.
      exists c'. rewrite Hbl, He, Hre, Hv. split_and!; try done. by destruct (e =? 0).
  - apply wp_bind, wp_bind, wp_ret, wp_bind. eapply wp_mono; [|by apply unbind_law].
    intros [r c'] w1 (Ho1 & Hbl & Hok & -> & Hv & Hd). apply wp_ret, wp_ret. exists c'. by rewrite Hbl, Hv, Hd.
  - apply wp_bind, wp_bind, wp_ret, wp_bind. unfold wp at 1. rewrite get_law. apply wp_ret, wp_ret. by exists c.
  - destruct Hm as [Hg _]. destruct (given (cc_view c)) as [z|] eqn:Eg; [|done].
    apply wp_bind, wp_bind, wp_ret, wp_bind. eapply wp_mono; [|by apply (request_law c z)].
    intros [[r k] c'] w1 (Ho1 & Hbl & Hok & Hv & e & m & He & Hre & Hk). apply wp_ret. rewrite Hre, He.
    destruct (Z.eqb_spec e 0) as [->|]; apply wp_ret; exists c'; rewrite Hbl, Hv; split_and!; try done. by rewrite Hk.
  - destruct Hm as [Hf _]. apply wp_bind, wp_bind, wp_ret, wp_bind. eapply wp_mono; [|by apply flush_law].
    intros [] w1 (Ho1 & Hd). apply wp_ret, wp_ret. exists c. by rewrite Hd.
Qed.

Lemma cops_run_contract os : forall obj c l h w,
  own ((cc_block c, KMem) :: l) h w -> cc_ok c -> may_ops h (given (cc_view c)) os ->
  wp (cops_run (mkCompChannel obj (Some c)) os) (fun '(res, ch') w' => exists c', ch' = mkCompChannel obj (Some c')
    /\ own ((cc_block c', KMem) :: l) h w' /\ cc_ok c'
    /\ chan_ops P (answer_in h) os (cc_view c) (dev w) = (res, cc_view c', dev w')) w.
Proof.
  induction os as [|o os IH]; intros obj c l h w Ho Hc Hm.
  { apply wp_ret. by exists c. }
  destruct Hm as [Hm1 Hm]. cbn [cops_run chan_ops]. apply wp_bind. eapply wp_mono; [|by apply (cop_run_step o obj c l h w)].
  intros [[st out] ch] w1 (c1 & -> & Ho1 & Hc1 & Hs). apply wp_bind. rewrite Hs.
  destruct (chan_op_given _ _ _ _ _ _ _ _ Hs) as [Hg _]. rewrite <- Hg in Hm.
  eapply wp_mono; [|by apply (IH obj c1 l h w1)].
  intros [res ch] w2 (c2 & -> & Ho2 & Hc2 & Ht). apply wp_ret. exists c2. by rewrite Ht.
Qed.


(** Where the destructor is defined, deleting a channel after any permitted sequence
    quiets its queue if the flag is set, closes the channel and gives all memory
    back. *)
Theorem channel_deletion `{!ChannelEnds D C (HL := HL)} os obj c self l h w :
  own ((cc_block c, KMem) :: (self, KMem) :: l) h w -> cc_ok c -> may_ops h (given (cc_view c)) os ->
  wp (cops_run (mkCompChannel obj (Some c)) os) (fun '(_, ch') w1 =>
    wp (delete_comp_channel self ch') (fun _ w2 => own l h w2
      /\ let '(_, v, d) := chan_ops P (answer_in h) os (cc_view c) (dev w) in dev w2 = pf_close (name v) (quieted P v d)) w1) w.
Proof.
  intros Ho Hok Hm. eapply wp_mono; [|by apply (cops_run_contract os)]. intros [res ch] w1 (c' & -> & Ho1 & Hok1 & ->).
  unfold delete_comp_channel, comp_channel_delete, cc_of. cbn. apply wp_bind, wp_bind, wp_ret.
  eapply wp_mono; [|by apply delete_law]. intros [] w2 (Ho2 & Hd2). eapply dealloc_track; [exact Ho2|]. intros w3 Ho3 Hd3 _.
  split; [done|]. by rewrite Hd3.
Qed.
End life.

(** ** Instances, and what the contract leaves open *)

#[global] Instance sim_events : DevXEvents sim := {
  ibv_create_comp_channel _ d := (sim_handle d, sim_tick d);
  ibv_destroy_comp_channel _ d := (0, d);
  ibv_req_notify_cq _ _ d := (sim_result d, sim_tick d);
  ibv_get_cq_event _ d := (sim_result d, 7, 70, sim_tick d);
  ibv_ack_cq_events _ _ d := d
}.

#[global] Instance wsim_events : WinEvents sim := {
  ECANCELED := 105;
  devx_overlapped_file_open _ d := (sim_result d, s_next d, sim_tick d);
  devx_overlapped_io_enable _ d := (sim_result d, sim_tick d);
  devx_overlapped_io_park _ _ d := (sim_result d, 3, sim_tick d);
  devx_overlapped_io_flush _ d := sim_tick d;
  CloseHandle _ d := sim_tick d
}.

(** A queue whose dcmd object is the block 1, with the handle 7, on Windows; the
    platform refuses the second binding. *)
Definition demo_cq : obj := mkObj 5 (Some 1) (Some 5) 0 0.
Definition demo_heap : gmap Z blk := {[ 1 := BWinObj 5 (Some 7) ]}.
Definition demo_events : world sim := mkWorld (mkSim 8 [false; false; false; true]) demo_heap 2 [] [].
Definition demo_session : list cop := [CGet; CBind demo_cq; CRequest demo_cq 9; CBind demo_cq; CFlush demo_cq; CUnbind demo_cq].

Lemma demo_events_own : own [] demo_heap demo_events.
Proof. apply (own_nil demo_events). intros p Hp. simpl in *. apply lookup_singleton_ne. lia. Qed.

Lemma demo_names : names (HL := windows_channel_laws (D := sim)) demo_heap (Some 7) demo_cq.
Proof. intros z [= <-]. reflexivity. Qed.

Lemma demo_there : queue_there (HL := windows_channel_laws (D := sim)) demo_heap demo_cq.
Proof. intros p [= <-]. by exists (BWinObj 5 (Some 7)), 7. Qed.

Lemma demo_session_may : may_ops (HL := windows_channel_laws (D := sim)) demo_heap None demo_session.
Proof. pose proof demo_names. pose proof demo_there. repeat split; done. Qed.


(** The same session on either back end, as far as Linux goes: the same statuses. *)
Definition channel_session {C} `{Channel sim C} (q : obj) : M sim (list status) :=
  '(_, r) <- create_comp_channel (C := C) 5;;
  '(self, ch) <- need r "no channel";;
  '(res, ch) <- cops_run ch [CGet; CBind q; CRequest q 9; CUnbind q];;
  ret (map fst res).

Example sessions_agree :
  match channel_session (C := lin_channel) demo_cq (mkWorld (mkSim 8 []) {[ 1 := BObj (Some 7) ]} 2 [] []),
        channel_session (C := win_channel) demo_cq (mkWorld (mkSim 8 []) {[ 1 := BWinObj 5 (Some 7) ]} 2 [] []) with
  | Ret (s1, _), Ret (s2, _) => s1 = s2 /\ s1 = repeat DPCP_OK 4
  | _, _ => False
  end.
Proof. vm_compute. split_and!; reflexivity. Qed.

(** When the [dcmd] channel cannot be created, [create_comp_channel] reports success all
    the same, and every use of the result, its deletion included, reads the
    pointer that was never set. *)
Lemma refused_channel_reported_ok {D C} `{ChannelLaws D C} ctx l h (w : world D) :
  own l h w ->
  wp (create_comp_channel ctx) (fun '(st, r) w1 => forall self ch, r = Some (self, ch) -> m_cc ch = None ->
    st = DPCP_OK /\ fails (delete_comp_channel self ch) w1 /\ forall q, fails (comp_channel_unbind ch q) w1
    /\ fails (comp_channel_flush ch q) w1 /\ fails (comp_channel_request ch q 0) w1) w.
Proof.
  intros Ho. apply wp_bind. eapply own_alloc; [exact Ho|by intros|]. intros self w1 Ho1. apply wp_bind, wp_bind.
  eapply wp_mono; [|by apply new_law]. intros r w2 _. apply wp_ret, wp_ret. intros self' ch [= <- <-]. simpl. intros ->.
  split_and!; [done|by eexists|]. intros q. split_and!; by eexists.
Qed.

(** Linux: a flush of [dpcp] passes no number of events, so it never acknowledges
    one: no call is made. *)
Lemma linux_flush_no_call {D} `{DevXEvents D} obj q (c : lin_channel) (w : world D) :
  comp_channel_flush (mkCompChannel obj (Some c)) q w = Ret (DPCP_OK, w).
Proof. unfold comp_channel_flush, cc_of, bind. cbn. unfold lin_cc_flush. by destruct (lc_cq_obj c). Qed.

(** Linux: the destructor passes the library the address of the copy inside the
    object, which is no channel of the library: the deletion of a channel is
    undefined, and the channel that the library created is never given back. *)
Lemma linux_channel_deletion_ub {D} `{DevXEvents D} obj self (c : lin_channel) (w : world D) :
  fails (delete_comp_channel self (mkCompChannel obj (Some c))) w.
Proof. by eexists. Qed.

(** The events of a queue that is not the bound one are an error, and so is a failed
    wait. *)
Lemma linux_query_status {D} `{DevXEvents D} (c : lin_channel) ctx (w : world D) :
  wp (lin_cc_query c ctx) (fun '(r, x) _ =>
    (r = DCMD_EOK -> exists d, ibv_get_cq_event (lc_block c) (dev w) = (0, default 0 (lc_cq_obj c), x, d))
    /\ (r <> DCMD_EOK -> r = DCMD_EIO /\ x = ctx)) w.
Proof.
  apply wp_bind. apply wp_device. intros [[e q] x] d w1 E _ _ _ _ _.
  destruct (ibv_get_cq_event (lc_block c) (dev w)) as [[[e' q'] x'] d'] eqn:Eg. injection E as -> -> -> ->.
  destruct (Z.eqb_spec e 0) as [->|]; cbn [negb]; [|by apply wp_ret].
  destruct (Z.eqb_spec (default 0 (lc_cq_obj c)) q) as [->|]; cbn [negb]; apply wp_ret; [|done].
  split; [|done]. intros _. by eexists.
Qed.
