(* ===== verification/WinFlow.v ===== *)
(** * Flow rules of the Windows back end (src/src/dcmd/windows/flow.cpp,
      action.cpp)

    A rule is one message to the vendor library: priority, tag, criteria and
    values, the first destination in the structure and the others after it.
    The structure [devx_fs_rule_add_in] is declared in the vendor's header: it
    is a parameter, of which the class [RuleIn] says that its members do not
    overlap. *)

From S2P Require Import Prelude Codec Prm Dcmd Own Sim Obj Windows Tir Fr Writes FlowAction.
Open Scope string_scope.
Open Scope list_scope.
Open Scope Z_scope.
Open Scope m_scope.

(** ** The message *)

(** The members that are set, and the parts that are copied. *)
Inductive scalar : Type := Prio | FlowTag | CriteriaEnable | ExtraCount | ModifyId | HasModify.
Inductive part : Type := Criteria | Value | Dest.

Definition scalar_name (s : scalar) : string :=
  match s with
  | Prio => "prio"
  | FlowTag => "flow_tag"
  | CriteriaEnable => "match_criteria_enable"
  | ExtraCount => "extra_dests_count"
  | ModifyId => "modify_header_id"
  | HasModify => "has_modify_header_id"
  end.
Definition part_name (p : part) : string :=
  match p with Criteria => "match_criteria" | Value => "match_value" | Dest => "dest" end.
Definition part_size (p : part) : Z := match p with Dest => 8 | _ => 512 end.

Definition sfld (l : layout) (s : scalar) : field := fld l 0 [F (scalar_name s)].
Definition paddr (l : layout) (p : part) : Z := ADDR_OF l 0 [F (part_name p)].

Arguments sfld : simpl never.
Arguments paddr : simpl never.

(** Every member lies in the structure and none of them overlap. *)
Definition rule_in_checked (l : layout) : Prop :=
  (forall s, f_in (sfld l s) (ST_SZ_BYTES l) = true /\ 0 < f_sz (sfld l s))
  /\ (forall s t, s <> t -> f_disj (sfld l s) (sfld l t) = true)
  /\ (forall p, 0 <= paddr l p /\ paddr l p + part_size p <= ST_SZ_BYTES l)
  /\ (forall s p, f_out (sfld l s) (paddr l p) (part_size p) = true)
  /\ (forall p q, p <> q -> paddr l p + part_size p <= paddr l q \/ paddr l q + part_size q <= paddr l p).

Class RuleIn := { devx_fs_rule_add_in : layout; rule_in_ok : rule_in_checked devx_fs_rule_add_in }.

(** [flow_desc] as this back end reads it; [dst_formats] is the memory of the array,
    whose elements are 64 bytes apart: [sizeof] counts a byte for every bit. *)
Record win_flow_desc := mkWinFlow {
  wf_criteria : list Z;
  wf_value : list Z;
  wf_dst_formats : list Z;
  wf_num_dst : Z;
  wf_flow_id : Z;
  wf_priority : Z;
  wf_modify : option (list Z * list Z)      (* command and answer of the modify action *)
}.

Definition FORMAT_STRIDE : Z := size_of ifc.dest_format_struct.
Definition FORMAT_SZ : Z := ST_SZ_BYTES ifc.dest_format_struct.

(** [action_fwd::action_fwd]: the array of the destinations, in the memory [junk] that
    [new] returned; only the first bytes of it are cleared. *)
Fixpoint format_ws (i : Z) (dests : list fwd_dst_desc) : list write :=
  match dests with
  | [] => []
  | d :: r =>
      DEVX_SET ifc.dest_format_struct (FORMAT_STRIDE * i) ["destination_type"] (fd_type d)
      :: DEVX_SET ifc.dest_format_struct (FORMAT_STRIDE * i) ["destination_id"] (fd_id d)
      :: format_ws (i + 1) r
  end.

Definition win_dst_formats (junk : list Z) (dests : list fwd_dst_desc) : list Z :=
  exec (WMem 0 (zeros (FORMAT_SZ * Z.of_nat (length dests))) :: format_ws 0 dests) junk.

Section message.
Context `{RuleIn}.

Definition rule_set (s : scalar) (v : Z) : write := DEVX_SET devx_fs_rule_add_in 0 [F (scalar_name s)] v.
Definition rule_addr (p : part) : Z := paddr devx_fs_rule_add_in p.

(** "WinOF2 doesn't accept ip_version so far" *)
Definition no_ip_version (p : part) : write :=
  DEVX_SET ifc.fte_match_set_lyr_2_4 (ADDR_OF ifc.fte_match_param (rule_addr p) ["outer_headers"]) ["ip_version"] 0.

Definition extra_dest_num (d : win_flow_desc) : Z := wf_num_dst d - 1.
Definition rule_len (d : win_flow_desc) : Z := ST_SZ_BYTES devx_fs_rule_add_in + FORMAT_SZ * extra_dest_num d.

(** [in_len] has 32 bits. *)
Definition rule_in_len (d : win_flow_desc) : Z := wrap 32 (rule_len d).

(** The copies stay in the members and in the buffer. *)
Definition rule_fits (d : win_flow_desc) : bool :=
  (Z.of_nat (length (wf_criteria d)) <=? part_size Criteria) && (Z.of_nat (length (wf_value d)) <=? part_size Value)
  && (rule_len d <=? rule_in_len d).

(** The statements up to the modify action, and those of it. *)
Definition rule_ws (d : win_flow_desc) : list write :=
  [rule_set Prio (wf_priority d);
   rule_set FlowTag (wf_flow_id d);
   rule_set CriteriaEnable (Z.shiftl 1 MLX5_CREATE_FLOW_GROUP_IN_MATCH_CRITERIA_ENABLE_OUTER_HEADERS);
   WMem (rule_addr Criteria) (wf_criteria d);
   no_ip_version Criteria;
   WMem (rule_addr Value) (wf_value d);
   no_ip_version Value;
   WMem (rule_addr Dest) (bytes_at (wf_dst_formats d) 0 (Z.to_nat FORMAT_SZ))]
  ++ only (negb (extra_dest_num d =? 0))
       [rule_set ExtraCount (extra_dest_num d);
        WMem (ST_SZ_BYTES devx_fs_rule_add_in)
             (bytes_at (wf_dst_formats d) FORMAT_STRIDE (Z.to_nat (FORMAT_SZ * extra_dest_num d)))].

Definition modify_ws (id : option Z) : list write :=
  match id with
  | None => []
  | Some id => [rule_set ModifyId id; rule_set HasModify 1]
  end.

Definition rule_msg (d : win_flow_desc) (id : option Z) : list Z :=
  exec (rule_ws d ++ modify_ws id) (zeros (rule_in_len d)).
End message.

(** ** The class *)

Class WinRules (D : Type) := {
  devx_fs_rule_add : Z -> list Z -> D -> Z * D;
  devx_fs_rule_del : Z -> D -> Z * D
}.

Section flow.
Context {D : Type} `{WinDevX D} `{WinRules D} `{RuleIn}.

(** The call of [devx_fs_rule_add] and what follows it in the constructor, with the
    object [m] of the modify action; an exception destroys that object. *)
Definition win_flow_add (ctx p inp : Z) (msg : list Z) (m : option Z) : M D (option Z) :=
  h <- device (devx_fs_rule_add ctx msg) (fun r => CRuleAdd msg (good r));;
  dealloc inp;;
  if mlx5dv_l2w_is_error h then win_delete_obj m;; dealloc p;; ret None
  else store p (BWinFlow h m);; ret (Some p).

(** [new flow(m_handle, desc)] in [ctx::create_flow].  The buffer is not released when
    it is the object of the modify action that throws. *)
Definition win_create_flow (ctx : Z) (d : win_flow_desc) : M D (option Z) :=
  p <- alloc BMem;;
  match p with
  | None => ret None
  | Some p =>
      if wf_num_dst d =? 0 then dealloc p;; ret None
      else
        inp <- alloc (BRaw (rule_in_len d));;
        inp <- need inp "memset of a null buffer";;
        if negb (rule_fits d) then ub "copy beyond the buffer" else
        match wf_modify d with
        | None => win_flow_add ctx p inp (rule_msg d None) None
        | Some (mi, mo) =>
            '(m, out) <- win_create_obj ctx mi mo;;
            match m with
            | None => dealloc p;; ret None
            | Some m =>
                win_flow_add ctx p inp
                  (rule_msg d (Some (DEVX_GET ifc.alloc_modify_header_context_out 0 ["modify_header_id"] out))) (Some m)
            end
        end
  end.

(** [delete] of a [flow*]: the rule, then the object of its modify action. *)
Definition win_delete_flow (p : option Z) : M D unit :=
  match p with
  | None => ret tt
  | Some p =>
      b <- load p;;
      match b with
      | BWinFlow h m => _ <- device (devx_fs_rule_del h) (fun _ => CRuleDel h);; win_delete_obj m;; dealloc p
      | _ => ub "not a dcmd::flow"
      end
  end.
End flow.

(** ** What the message says *)

(** The field [ip_version] of the headers at an address. *)
Lemma ip_version_fld a :
  fld ifc.fte_match_set_lyr_2_4 (ADDR_OF ifc.fte_match_param a ["outer_headers"]) ["ip_version"] = mkField (a + 0 + 16) 9 4.
Proof. unfold fld, ADDR_OF. f_equal. Qed.

Section says.
Context `{RuleIn}.
#[local] Notation L := devx_fs_rule_add_in.

Lemma scalar_miss s t v : s <> t -> hit1 (sfld L s) (rule_set t v) = Miss.
Proof.
  intros Hst. destruct rule_in_ok as (Hin & Hd & _). unfold rule_set, DEVX_SET, hit1. change (fld L 0 [F (scalar_name t)]) with (sfld L t).
  destruct (f_eqb (sfld L s) (sfld L t)) eqn:E.
  - apply f_eqb_eq in E. specialize (Hd s t Hst). destruct (Hin s) as [Hi Hs]. rewrite <- E in Hd.
    unfold f_disj in Hd. unfold f_in, f_ok in Hi. bool_hyps. rewrite !orb_true_iff, andb_true_iff, orb_true_iff, !Z.leb_le in Hd. lia.
  - rewrite Hd by done. destruct (Hin t) as [Hi _]. unfold f_in in Hi. apply andb_true_iff in Hi as [-> _]. done.
Qed.

Lemma scalar_hit s v : hit1 (sfld L s) (rule_set s v) = Val v.
Proof. unfold rule_set, DEVX_SET, hit1. change (fld L 0 [F (scalar_name s)]) with (sfld L s). unfold f_eqb. by rewrite !Z.eqb_refl. Qed.

(** A statement that stays in a part, or in what follows the structure. *)
Definition in_part (p : part) (w : write) : Prop :=
  match w with
  | W32 f _ => f_ok f = true /\ paddr L p <= f_addr f /\ f_addr f + 4 <= paddr L p + part_size p
  | WMem a src => a = paddr L p /\ Z.of_nat (length src) <= part_size p
  | W64 _ _ => False
  end.
Definition in_tail (w : write) : Prop := match w with WMem a _ => ST_SZ_BYTES L <= a | _ => False end.

Lemma scalar_miss_part s p w : in_part p w -> hit1 (sfld L s) w = Miss.
Proof.
  destruct rule_in_ok as (Hin & _ & Hp & Ho & _). destruct (Hin s) as [Hi Hs]. destruct (Hp p). specialize (Ho s p).
  unfold f_out in *. apply orb_true_iff in Ho. rewrite !Z.leb_le in Ho. destruct w as [f v|a v|a src]; simpl; [|done|].
  - intros (Hf & Ha & Hb). unfold f_in, f_ok in Hi. bool_hyps. unfold f_eqb. rewrite (proj2 (Z.eqb_neq _ _)) by lia. simpl. rewrite Hf.
    assert (f_disj (sfld L s) f = true) as ->; [|done]. unfold f_disj. rewrite !orb_true_iff, !Z.leb_le. lia.
  - intros [-> Hl]. rewrite (proj2 (Z.leb_le 0 _)) by lia. cbn [andb].
    assert (f_out (sfld L s) (paddr L p) (Z.of_nat (length src)) = true) as ->; [|done].
    unfold f_out. rewrite orb_true_iff, !Z.leb_le. lia.
Qed.

Lemma scalar_miss_tail s w : in_tail w -> hit1 (sfld L s) w = Miss.
Proof.
  destruct rule_in_ok as (Hin & _). destruct (Hin s) as [Hi _]. unfold f_in, f_ok in *. bool_hyps. destruct w as [| |a src]; simpl; [done|done|].
  intros Ha. rewrite (proj2 (Z.leb_le 0 a)) by lia. cbn [andb].
  assert (f_out (sfld L s) a (Z.of_nat (length src)) = true) as ->; [|done]. unfold f_out. rewrite orb_true_iff, !Z.leb_le. lia.
Qed.

(** The bytes of a part are not touched by the rest. *)
Lemma part_clear_scalar p s v : clear_of (paddr L p) (part_size p) (rule_set s v) = true.
Proof.
  destruct rule_in_ok as (Hin & _ & Hp & Ho & _). destruct (Hin s) as [Hi _]. specialize (Ho s p). unfold rule_set, DEVX_SET, clear_of.
  change (fld L 0 [F (scalar_name s)]) with (sfld L s). unfold f_in, f_ok, f_out in *. bool_hyps. by rewrite (proj2 (Z.leb_le 0 _)).
Qed.

Lemma part_clear_part p q w : p <> q -> in_part q w -> clear_of (paddr L p) (part_size p) w = true.
Proof.
  intros Hpq. destruct rule_in_ok as (_ & _ & Hp & _ & Hd). specialize (Hd p q Hpq). destruct (Hp p), (Hp q).
  destruct w as [f v|a v|a src]; simpl; [|done|].
  - intros (Hf & Ha & Hb). rewrite (proj2 (Z.leb_le 0 _)) by lia. simpl. rewrite orb_true_iff, !Z.leb_le. lia.
  - intros [-> Hl]. rewrite (proj2 (Z.leb_le 0 _)) by lia. simpl. rewrite orb_true_iff, !Z.leb_le. lia.
Qed.

Lemma part_clear_tail p w : in_tail w -> clear_of (paddr L p) (part_size p) w = true.
Proof.
  destruct rule_in_ok as (_ & _ & Hp & _). destruct (Hp p). destruct w as [| |a src]; simpl; try done. intros Ha.
  assert (0 < part_size p) by (destruct p; simpl; lia). rewrite (proj2 (Z.leb_le 0 _)) by lia. simpl. rewrite orb_true_iff, !Z.leb_le. lia.
Qed.

Lemma ip_version_in_part p : p <> Dest -> in_part p (no_ip_version p).
Proof.
  intros Hp. destruct rule_in_ok as (_ & _ & Hr & _). destruct (Hr p) as [H0 _]. unfold no_ip_version, DEVX_SET, in_part, rule_addr in *.
  set (a := paddr devx_fs_rule_add_in p) in *.
  rewrite ip_version_fld. cbn [f_addr f_sh f_sz]. unfold f_ok. cbn [f_addr f_sh f_sz]. split_and!; [|lia|destruct p; simpl; lia || done].
  rewrite (proj2 (Z.leb_le 0 _)) by lia. done.
Qed.

(** The lengths the callers pass. *)
Definition desc_wf (d : win_flow_desc) : Prop :=
  length (wf_criteria d) = 512%nat /\ length (wf_value d) = 512%nat /\ 0 < wf_num_dst d /\ rule_len d < 2 ^ 32
  /\ Z.of_nat (length (wf_dst_formats d)) = FORMAT_STRIDE * wf_num_dst d.

Lemma length_bytes b a n : length (bytes_at b a n) = n.
Proof. revert a. induction n as [|n IH]; intros a; simpl; [done|]. by rewrite IH. Qed.

Lemma seek_cons f w ws h : hit1 f w = h -> seek f (w :: ws) = match seek f ws with Miss => h | x => x end.
Proof. intros <-. done. Qed.

(** What a member is to hold. *)
Definition scalar_value (d : win_flow_desc) (id : option Z) (s : scalar) : Z :=
  match s with
  | Prio => wf_priority d
  | FlowTag => wf_flow_id d
  | CriteriaEnable => 1
  | ExtraCount => wf_num_dst d - 1
  | ModifyId => default 0 id
  | HasModify => if id then 1 else 0
  end.

(** Finds the last statement that touches a member. *)
Ltac rule_stmt :=
  first [ apply scalar_miss; discriminate | apply scalar_hit
        | apply (scalar_miss_part _ Criteria); solve [apply ip_version_in_part; discriminate | split; [reflexivity|]; simpl; lia]
        | apply (scalar_miss_part _ Value); solve [apply ip_version_in_part; discriminate | split; [reflexivity|]; simpl; lia]
        | apply (scalar_miss_part _ Dest); solve [split; [reflexivity|]; simpl; rewrite ?length_bytes; simpl; lia]
        | apply scalar_miss_tail; simpl; lia ].
Ltac rule_seek := repeat (erewrite seek_cons by rule_stmt); try reflexivity.

Lemma seek_scalar d id s :
  desc_wf d ->
  match seek (sfld L s) (rule_ws d ++ modify_ws id) with
  | Miss => scalar_value d id s = 0
  | Val v => v = scalar_value d id s
  | Clash => False
  end.
Proof.
  intros (Hc & Hv & Hn & Hb & Hf). rewrite seek_app. unfold rule_ws. rewrite seek_app, seek_only. unfold extra_dest_num.
  destruct id as [id|], (Z.eqb_spec (wf_num_dst d - 1) 0) as [E|E]; destruct s; cbn [modify_ws negb]; rule_seek; simpl; lia.
Qed.
End says.

(** ** The bytes of the parts *)

Lemma bytes_at_wr c v a n b :
  0 <= a -> 0 <= c < Z.of_nat n -> a + Z.of_nat n <= Z.of_nat (length b) ->
  bytes_at (wr (a + c) v b) a n = wr c v (bytes_at b a n).
Proof.
  intros Ha Hc Hl. apply list_rd_ext; [by rewrite length_wr, !length_bytes|]. rewrite length_bytes. intros i Hi.
  rewrite rd_bytes_at by lia. destruct (decide (i = c)) as [->|Hne].
  - rewrite !rd_wr_eq; [done|rewrite length_bytes; lia|lia].
  - rewrite !rd_wr_ne by lia. by rewrite rd_bytes_at by lia.
Qed.

Lemma bytes_at_set_field f v a n b :
  0 <= a -> f_in f (Z.of_nat n) = true -> a + Z.of_nat n <= Z.of_nat (length b) ->
  bytes_at (set_field (reloc_field a f) v b) a n = set_field f v (bytes_at b a n).
Proof.
  intros Ha Hf Hl. unfold f_in, f_ok in Hf. bool_hyps. unfold set_field, reloc_field. cbn [f_addr f_sh f_sz].
  replace (be32_to_cpu (bytes_at b a n) (f_addr f)) with (be32_to_cpu b (a + f_addr f))
    by (unfold be32_to_cpu; rewrite !rd_bytes_at by lia; by rewrite !Z.add_assoc).
  unfold cpu_to_be32. rewrite <- !Z.add_assoc. by rewrite !bytes_at_wr by (rewrite ?length_wr; lia).
Qed.

(** The bytes a [memcpy] stores and no later statement touches. *)
Lemma copy_after a src ws ws' b :
  0 <= a -> a + Z.of_nat (length src) <= Z.of_nat (length b) ->
  forallb (clear_of a (Z.of_nat (length src))) ws' = true ->
  bytes_at (exec (ws ++ WMem a src :: ws') b) a (length src) = src.
Proof.
  intros Ha Hl Hc. rewrite exec_app. cbn [exec exec1]. rewrite bytes_at_exec by done.
  apply bytes_at_memcpy; [done|]. by rewrite length_exec.
Qed.

(** The field [ip_version] in the parameters of a match. *)
Definition ip_version : field := fld ifc.fte_match_param 0 ["outer_headers"; "ip_version"].

Section parts.
Context `{RuleIn}.
#[local] Notation L := devx_fs_rule_add_in.

(** A part that is copied, cleared of [ip_version], and left alone. *)
Lemma part_after p src ws ws' b :
  p <> Dest -> Z.of_nat (length src) = part_size p -> ST_SZ_BYTES L <= Z.of_nat (length b) ->
  forallb (clear_of (paddr L p) (part_size p)) ws' = true ->
  bytes_at (exec (ws ++ WMem (rule_addr p) src :: no_ip_version p :: ws') b) (rule_addr p) (length src)
  = set_field ip_version 0 src.
Proof.
  intros Hp Hs Hb Hw. destruct rule_in_ok as (_ & _ & Hr & _). destruct (Hr p) as [Ha Hl]. unfold rule_addr.
  rewrite exec_app. cbn [exec]. rewrite bytes_at_exec by (rewrite ?Hs; done).
  unfold no_ip_version, DEVX_SET, exec1, rule_addr. rewrite ip_version_fld, Z.add_0_r. change (mkField (paddr L p + 16) 9 4) with (reloc_field (paddr L p) ip_version).
  rewrite bytes_at_set_field; [|done|rewrite Hs; by destruct p|rewrite length_memcpy, length_exec; lia].
  f_equal. apply bytes_at_memcpy; [done|]. rewrite length_exec. lia.
Qed.

(** The statements that follow the copy of a part leave it alone. *)
Ltac clear_stmt :=
  first [ apply part_clear_scalar
        | apply (part_clear_part _ Criteria); [discriminate|]; solve [apply ip_version_in_part; discriminate | split; [reflexivity|]; simpl; lia]
        | apply (part_clear_part _ Value); [discriminate|]; solve [apply ip_version_in_part; discriminate | split; [reflexivity|]; simpl; lia]
        | apply (part_clear_part _ Dest); [discriminate|]; solve [split; [reflexivity|]; simpl; rewrite ?length_bytes; simpl; lia]
        | apply part_clear_tail; simpl; lia ].
Ltac clear_all := cbn [forallb app]; rewrite ?andb_true_iff; repeat split; first [clear_stmt | reflexivity].

Lemma modify_clear p id : forallb (clear_of (paddr L p) (part_size p)) (modify_ws id) = true.
Proof. destruct id; [|done]. cbn [modify_ws forallb]. clear_all. Qed.

Lemma extra_clear p d :
  forallb (clear_of (paddr L p) (part_size p))
    (only (negb (extra_dest_num d =? 0))
       [rule_set ExtraCount (extra_dest_num d);
        WMem (ST_SZ_BYTES L) (bytes_at (wf_dst_formats d) FORMAT_STRIDE (Z.to_nat (FORMAT_SZ * extra_dest_num d)))]) = true.
Proof. apply forallb_only. cbn [forallb]. clear_all. Qed.

Lemma ST_SZ_nonneg : 0 <= ST_SZ_BYTES L.
Proof. destruct rule_in_ok as (_ & _ & Hr & _). destruct (Hr Dest). simpl in *. lia. Qed.

Lemma rule_in_len_ok d : 0 < wf_num_dst d -> rule_len d < 2 ^ 32 -> rule_in_len d = rule_len d /\ ST_SZ_BYTES L <= rule_len d.
Proof.
  intros Hn Hb. pose proof ST_SZ_nonneg. unfold rule_in_len, wrap. assert (ST_SZ_BYTES L <= rule_len d) by (unfold rule_len, extra_dest_num; change FORMAT_SZ with 8; lia).
  split; [|done]. apply Z.mod_small. lia.
Qed.

Lemma length_rule_msg d id : desc_wf d -> Z.of_nat (length (rule_msg d id)) = rule_len d.
Proof.
  intros (_ & _ & Hn & Hb & _). destruct (rule_in_len_ok d Hn Hb) as [E Hl]. pose proof ST_SZ_nonneg. unfold rule_msg.
  rewrite length_exec, E, length_zeros; lia.
Qed.

Lemma rule_buffer d : 0 < wf_num_dst d -> rule_len d < 2 ^ 32 -> ST_SZ_BYTES L <= Z.of_nat (length (zeros (rule_in_len d))).
Proof.
  intros Hn Hb. destruct (rule_in_len_ok d Hn Hb) as [-> Hl]. pose proof ST_SZ_nonneg. rewrite length_zeros by lia. lia.
Qed.

Lemma msg_criteria d id :
  desc_wf d -> bytes_at (rule_msg d id) (rule_addr Criteria) 512 = set_field ip_version 0 (wf_criteria d).
Proof.
  intros (Hc & Hv & Hn & Hb & Hf). unfold rule_msg, rule_ws. rewrite <- Hc, <- app_assoc.
  apply (part_after Criteria (wf_criteria d) (firstn 3 (rule_ws d))); [done|by rewrite Hc|by apply rule_buffer|].
  cbn [app forallb]. rewrite forallb_app, extra_clear, modify_clear. clear_all.
Qed.

Lemma msg_value d id :
  desc_wf d -> bytes_at (rule_msg d id) (rule_addr Value) 512 = set_field ip_version 0 (wf_value d).
Proof.
  intros (Hc & Hv & Hn & Hb & Hf). unfold rule_msg, rule_ws. rewrite <- Hv, <- app_assoc.
  apply (part_after Value (wf_value d) (firstn 5 (rule_ws d))); [done|by rewrite Hv|by apply rule_buffer|].
  cbn [app forallb]. rewrite forallb_app, extra_clear, modify_clear. clear_all.
Qed.

Lemma msg_dest d id :
  desc_wf d -> bytes_at (rule_msg d id) (rule_addr Dest) 8 = bytes_at (wf_dst_formats d) 0 8.
Proof.
  intros (Hc & Hv & Hn & Hb & Hf). destruct rule_in_ok as (_ & _ & Hr & _). destruct (Hr Dest) as [Ha Hl]. simpl in Hl.
  pose proof (rule_buffer d Hn Hb). unfold rule_msg, rule_ws. rewrite <- app_assoc.
  apply (copy_after (rule_addr Dest) (bytes_at (wf_dst_formats d) 0 8) (firstn 7 (rule_ws d))); [done| |].
  - rewrite length_bytes. unfold rule_addr. lia.
  - rewrite length_bytes. cbn [app]. by rewrite forallb_app, (extra_clear Dest), (modify_clear Dest).
Qed.

Lemma modify_in n id : forallb (clear_of (ST_SZ_BYTES L) n) (modify_ws id) = true.
Proof.
  destruct id as [id|]; [|done]. destruct rule_in_ok as (Hin & _). destruct (Hin ModifyId) as [Hm _], (Hin HasModify) as [Hh _].
  unfold f_in, f_ok in *. bool_hyps. cbn [modify_ws forallb]. unfold rule_set, DEVX_SET.
  change (fld L 0 [F (scalar_name ModifyId)]) with (sfld L ModifyId). change (fld L 0 [F (scalar_name HasModify)]) with (sfld L HasModify).
  cbn [clear_of]. rewrite !andb_true_iff, !orb_true_iff, !Z.leb_le. lia.
Qed.

(** What follows the structure. *)
Lemma msg_extra d id :
  desc_wf d ->
  bytes_at (rule_msg d id) (ST_SZ_BYTES L) (Z.to_nat (8 * (wf_num_dst d - 1)))
  = bytes_at (wf_dst_formats d) FORMAT_STRIDE (Z.to_nat (8 * (wf_num_dst d - 1))).
Proof.
  intros (Hc & Hv & Hn & Hb & Hf). pose proof ST_SZ_nonneg as Hz. destruct (Z.eqb_spec (extra_dest_num d) 0) as [E|E].
  { unfold extra_dest_num in E. by rewrite E. }
  unfold rule_msg, rule_ws. rewrite (proj2 (Z.eqb_neq _ _)) by done. cbn [negb only]. rewrite <- app_assoc.
  unfold extra_dest_num in *. change FORMAT_SZ with 8. set (X := bytes_at (wf_dst_formats d) FORMAT_STRIDE _).
  assert (HX : length X = Z.to_nat (8 * (wf_num_dst d - 1))) by apply length_bytes. rewrite <- HX.
  apply (copy_after _ X (firstn 8 (rule_ws d) ++ [rule_set ExtraCount (wf_num_dst d - 1)])); [done| |].
  - destruct (rule_in_len_ok d Hn Hb) as [-> Hl]. rewrite length_zeros, HX by lia. unfold rule_len, extra_dest_num. change FORMAT_SZ with 8. lia.
  - apply modify_in.
Qed.
End parts.

(** ** The destinations *)

#[local] Notation DT := (fun a => fld ifc.dest_format_struct a ["destination_type"]).
#[local] Notation DI := (fun a => fld ifc.dest_format_struct a ["destination_id"]).

Lemma fmt_type_fld a : DT a = mkField a 24 8.
Proof. unfold fld. f_equal. apply Z.add_0_r. Qed.
Lemma fmt_id_fld a : DI a = mkField a 0 24.
Proof. unfold fld. f_equal. apply Z.add_0_r. Qed.

Lemma format_from i dests : 0 <= i -> forallb (from (FORMAT_STRIDE * i)) (format_ws i dests) = true.
Proof.
  intros Hi. assert (forall j, i <= j -> forallb (from (FORMAT_STRIDE * i)) (format_ws j dests) = true) as Hj; [|by apply Hj].
  induction dests as [|d r IH]; intros j Hj; [done|]. cbn [format_ws forallb]. rewrite IH by lia. unfold DEVX_SET.
  rewrite fmt_type_fld, fmt_id_fld. cbn [from f_addr]. unfold f_ok. cbn [f_addr f_sh f_sz]. change FORMAT_STRIDE with 64.
  rewrite !(proj2 (Z.leb_le 0 (64 * j))), !(proj2 (Z.leb_le (64 * i) (64 * j))) by lia. done.
Qed.

Lemma seek_format dests i k d :
  dests !! k = Some d -> 0 <= i ->
  seek (DT (FORMAT_STRIDE * (i + Z.of_nat k))) (format_ws i dests) = Val (fd_type d)
  /\ seek (DI (FORMAT_STRIDE * (i + Z.of_nat k))) (format_ws i dests) = Val (fd_id d).
Proof.
  revert i k. induction dests as [|e r IH]; intros i k Hk Hi; [done|]. destruct k as [|k].
  - simplify_eq/=. rewrite Z.add_0_r. assert (FORMAT_STRIDE * i + 4 <= FORMAT_STRIDE * (i + 1)) by (change FORMAT_STRIDE with 64; lia).
    rewrite !(seek_below _ (FORMAT_STRIDE * (i + 1))) by (rewrite ?fmt_type_fld, ?fmt_id_fld; done || apply format_from; lia).
    unfold DEVX_SET. rewrite fmt_type_fld, fmt_id_fld. cbn [hit1]. unfold f_eqb, f_ok, f_disj. cbn [f_addr f_sh f_sz].
    rewrite !Z.eqb_refl, (proj2 (Z.leb_le 0 _)) by (change FORMAT_STRIDE with 64; lia). cbn. by rewrite !orb_true_r.
  - replace (i + Z.of_nat (S k)) with (i + 1 + Z.of_nat k) by lia. destruct (IH (i + 1) k Hk ltac:(lia)) as [E1 E2].
    cbn [format_ws seek]. by rewrite E1, E2.
Qed.

Lemma length_formats junk dests : length (win_dst_formats junk dests) = length junk.
Proof. apply length_exec. Qed.

(** Every destination is in the array, at its own element. *)
Lemma formats_hold junk dests k d :
  Z.of_nat (length junk) = FORMAT_STRIDE * Z.of_nat (length dests) -> dests !! k = Some d ->
  DEVX_GET ifc.dest_format_struct (FORMAT_STRIDE * Z.of_nat k) ["destination_type"] (win_dst_formats junk dests) = fd_type d mod 2 ^ 8
  /\ DEVX_GET ifc.dest_format_struct (FORMAT_STRIDE * Z.of_nat k) ["destination_id"] (win_dst_formats junk dests) = fd_id d mod 2 ^ 24.
Proof.
  intros Hj Hk. pose proof (lookup_lt_Some _ _ _ Hk). change FORMAT_STRIDE with 64 in *.
  destruct (seek_format dests 0 k d Hk ltac:(lia)) as [E1 E2]. change FORMAT_STRIDE with 64 in *. rewrite Z.add_0_l in *.
  assert (forall f, f = DT (64 * Z.of_nat k) \/ f = DI (64 * Z.of_nat k) -> f_in f (Z.of_nat (length junk)) = true) as Hin.
  { intros f [->| ->]; rewrite ?fmt_type_fld, ?fmt_id_fld; unfold f_in, f_ok; cbn [f_addr f_sh f_sz]; rewrite Hj, !andb_true_iff, !Z.leb_le; lia. }
  unfold DEVX_GET, win_dst_formats.
  pose proof (get_exec _ (WMem 0 (zeros (FORMAT_SZ * Z.of_nat (length dests))) :: format_ws 0 dests) junk (Hin _ (or_introl eq_refl))) as G1.
  pose proof (get_exec _ (WMem 0 (zeros (FORMAT_SZ * Z.of_nat (length dests))) :: format_ws 0 dests) junk (Hin _ (or_intror eq_refl))) as G2.
  cbn [seek] in G1, G2. rewrite E1 in G1. rewrite E2 in G2. by rewrite G1, G2.
Qed.

(** What [new] left behind the second destination stays. *)
Lemma format_clear i dests : 0 <= i -> forallb (clear_of 72 56) (format_ws i dests) = true.
Proof.
  revert i. induction dests as [|d r IH]; intros i Hi; [done|]. cbn [format_ws forallb]. rewrite IH by lia. unfold DEVX_SET.
  rewrite fmt_type_fld, fmt_id_fld. cbn [clear_of f_addr]. change FORMAT_STRIDE with 64.
  rewrite !andb_true_iff, !orb_true_iff, !Z.leb_le. lia.
Qed.

Lemma formats_gap junk dests i :
  Z.of_nat (length dests) <= 9 -> 72 <= i < 128 -> rd (win_dst_formats junk dests) i = rd junk i.
Proof.
  intros Hn Hi. pose proof (bytes_at_exec 72 56 (WMem 0 (zeros (FORMAT_SZ * Z.of_nat (length dests))) :: format_ws 0 dests) junk) as E.
  replace i with (72 + (i - 72)) by lia. rewrite <- !(rd_bytes_at _ 72 56) by lia. unfold win_dst_formats. rewrite E; [done|lia|].
  cbn [forallb]. rewrite (format_clear 0) by lia. cbn [clear_of]. change FORMAT_SZ with 8. rewrite length_zeros by lia.
  rewrite !andb_true_iff, !orb_true_iff, !Z.leb_le. lia.
Qed.

Section destinations.
Context `{RuleIn}.
#[local] Notation L := devx_fs_rule_add_in.

(** Where the device reads destination [k]. *)
Definition dest_addr (k : Z) : Z := if k =? 0 then rule_addr Dest else ST_SZ_BYTES L + 8 * (k - 1).

(** The description [flow_rule_ex] and [action_fwd] hand over. *)
Definition forwards (d : win_flow_desc) (junk : list Z) (dests : list fwd_dst_desc) : Prop :=
  length (wf_criteria d) = 512%nat /\ length (wf_value d) = 512%nat
  /\ dests <> [] /\ wf_num_dst d = Z.of_nat (length dests) /\ rule_len d < 2 ^ 32
  /\ Z.of_nat (length junk) = FORMAT_STRIDE * Z.of_nat (length dests) /\ wf_dst_formats d = win_dst_formats junk dests.

Lemma forwards_wf d junk dests : forwards d junk dests -> desc_wf d.
Proof.
  intros (Hc & Hv & Hd & Hn & Hb & Hj & Hf). unfold desc_wf. rewrite Hf, length_formats, Hn. destruct dests; [done|]. simpl in *.
  by split_and!.
Qed.

(** The bytes of destination [k] are those at [64 + 8 * (k - 1)] of the array. *)
Lemma dest_reads d id (path : list step) k :
  desc_wf d -> 0 <= k < wf_num_dst d -> path = ["destination_type"] \/ path = ["destination_id"] ->
  DEVX_GET ifc.dest_format_struct (dest_addr k) path (rule_msg d id)
  = DEVX_GET ifc.dest_format_struct (if k =? 0 then 0 else 64 + 8 * (k - 1)) path (wf_dst_formats d).
Proof.
  intros Hw Hk Hp. assert (f_addr (fld ifc.dest_format_struct 0 path) = 0) as Ha by (by destruct Hp as [->| ->]).
  unfold dest_addr. destruct (Z.eqb_spec k 0) as [->|Hk0].
  - rewrite <- (get_slice _ path (rule_msg d id) _ 8), <- (get_slice _ path (wf_dst_formats d) 0 8) by lia. f_equal. by apply msg_dest.
  - pose proof (msg_extra d id Hw) as E. change FORMAT_STRIDE with 64 in E.
    assert (forall b a, DEVX_GET ifc.dest_format_struct (a + 8 * (k - 1)) path b
      = DEVX_GET ifc.dest_format_struct (8 * (k - 1)) path (bytes_at b a (Z.to_nat (8 * (wf_num_dst d - 1))))) as Hs.
    { intros b a. unfold DEVX_GET, get_field. destruct Hp as [->| ->]; rewrite ?fmt_type_fld, ?fmt_id_fld; cbn [f_addr f_sh f_sz];
        unfold be32_to_cpu; rewrite !rd_bytes_at by lia; by rewrite !Z.add_assoc. }
    by rewrite !Hs, E.
Qed.

(** C24. The message of [dcmd::flow::flow] on Windows says what was asked for: it has the
    size that is passed with it; priority, tag, the enabled criteria, the number of further
    destinations and the modify header hold their values, cut to the width of the member;
    criteria and values are those of the description without [ip_version]; and the first two
    destinations are those of the forward action. *)
Theorem win_rule_says d id junk dests :
  forwards d junk dests ->
  Z.of_nat (length (rule_msg d id)) = rule_in_len d /\ rule_in_len d = ST_SZ_BYTES L + 8 * (wf_num_dst d - 1)
  /\ (forall s, DEVX_GET L 0 [F (scalar_name s)] (rule_msg d id) = scalar_value d id s mod 2 ^ f_sz (sfld L s))
  /\ bytes_at (rule_msg d id) (rule_addr Criteria) 512 = set_field ip_version 0 (wf_criteria d)
  /\ bytes_at (rule_msg d id) (rule_addr Value) 512 = set_field ip_version 0 (wf_value d)
  /\ forall k t, dests !! k = Some t -> (k < 2)%nat ->
       DEVX_GET ifc.dest_format_struct (dest_addr (Z.of_nat k)) ["destination_type"] (rule_msg d id) = fd_type t mod 2 ^ 8
       /\ DEVX_GET ifc.dest_format_struct (dest_addr (Z.of_nat k)) ["destination_id"] (rule_msg d id) = fd_id t mod 2 ^ 24.
Proof.
  intros Hf. pose proof (forwards_wf _ _ _ Hf) as Hw. destruct Hf as (Hc & Hv & Hd & Hn & Hb & Hj & Hf).
  assert (0 < wf_num_dst d) as H0 by apply Hw. destruct (rule_in_len_ok d H0 Hb) as [El Hl]. split_and!.
  - rewrite El. by apply length_rule_msg.
  - done.
  - intros s. pose proof (seek_scalar d id s Hw) as Hs. pose proof rule_in_ok as (Hin & _). destruct (Hin s) as [Hi _].
    assert (f_in (sfld L s) (rule_in_len d) = true) as Hi'.
    { unfold f_in in *. rewrite El. bool_hyps. rewrite andb_true_iff, Z.leb_le. split; [done|lia]. }
    apply get_zeroed; [done|]. change (fld L 0 [F (scalar_name s)]) with (sfld L s). destruct (seek _ _); [by rewrite Hs|by subst|done].
  - by apply msg_criteria.
  - by apply msg_value.
  - intros k t Hk Hk2. pose proof (lookup_lt_Some _ _ _ Hk). rewrite !dest_reads by (by auto || lia). rewrite Hf.
    replace (if Z.of_nat k =? 0 then 0 else 64 + 8 * (Z.of_nat k - 1)) with (FORMAT_STRIDE * Z.of_nat k)
      by (destruct k as [|[|k]]; [done|done|lia]).
    by apply formats_hold.
Qed.

(** From the third destination on the message carries what the memory of the array held
    before: the array is read 8 bytes apart and written 64 bytes apart. *)
Lemma third_destination_is_junk d id junk dests k (path : list step) :
  forwards d junk dests -> Z.of_nat (length dests) <= 9 -> 2 <= k < Z.of_nat (length dests) ->
  path = ["destination_type"] \/ path = ["destination_id"] ->
  DEVX_GET ifc.dest_format_struct (dest_addr k) path (rule_msg d id)
  = DEVX_GET ifc.dest_format_struct (64 + 8 * (k - 1)) path junk.
Proof.
  intros Hf Hn Hk Hp. pose proof (forwards_wf _ _ _ Hf) as Hw. destruct Hf as (_ & _ & _ & Hd & _ & _ & Hf).
  rewrite dest_reads by (done || lia). rewrite (proj2 (Z.eqb_neq _ _)) by lia. rewrite Hf. unfold DEVX_GET, get_field.
  destruct Hp as [->| ->]; rewrite ?fmt_type_fld, ?fmt_id_fld; cbn [f_addr f_sh f_sz]; unfold be32_to_cpu; by rewrite !formats_gap by lia.
Qed.
End destinations.

(** ** The life of a rule *)

(** The blocks [l] are held with these contents, memory is available, and these are the
    calls so far and the state of the vendor library. *)
Definition kinds (l : list (Z * blk)) : list (Z * kind) := map (fun pb => (pb.1, kind_of pb.2)) l.

Definition held {D} (l : list (Z * blk)) (h : gmap Z blk) (cs : list call) (dv : D) (w : world D) : Prop :=
  own (kinds l) h w /\ Forall (fun pb => heap w !! pb.1 = Some pb.2) l /\ oom w = [] /\ calls w = cs /\ dev w = dv.

Section held.
Context {D : Type}.
Implicit Types (w : world D) (l : list (Z * blk)).

#[global] Instance held_perm : Proper (Permutation ==> eq ==> eq ==> eq ==> eq ==> iff) (@held D).
Proof. intros l l' Hl h ? <- cs ? <- dv ? <- w ? <-. unfold held, kinds. by rewrite Hl. Qed.

(** The rest of the blocks, after a step on the first. *)
Lemma held_rest p b l h w w' :
  own (kinds ((p, b) :: l)) h w -> (forall q, q <> p -> heap w' !! q = heap w !! q) ->
  Forall (fun pb => heap w !! pb.1 = Some pb.2) l -> Forall (fun pb => heap w' !! pb.1 = Some pb.2) l.
Proof.
  intros (_ & Hd & _) Hq. unfold kinds in Hd. rewrite <- (list_fmap_compose (fun pb : Z * blk => (pb.1, kind_of pb.2)) fst) in Hd.
  cbn in Hd. apply list.NoDup_cons in Hd as [Hn _]. rewrite !list.Forall_forall. intros Hf [q c] Hi. cbn. rewrite Hq; [by apply (Hf (q, c))|].
  intros ->. apply Hn. apply list_elem_of_fmap. by exists (p, c).
Qed.

Lemma held_alloc b l h cs dv Q w :
  held l h cs dv w -> (forall p w', held ((p, b) :: l) h cs dv w' -> Q (Some p) w') -> wp (alloc b) Q w.
Proof.
  intros (Ho & Hb & Hm & Hc & Hv) HQ.
  assert (wp (alloc b) (fun p w' => forall q, p = Some q -> own (kinds ((q, b) :: l)) h w') w) as Hw.
  { eapply own_alloc; [exact Ho|done|]. by intros p w' Ho' q [= <-]. }
  revert Hw. unfold wp, alloc. rewrite Hm. cbn [tail]. intros Hw. apply HQ. specialize (Hw _ eq_refl).
  split_and!; [done| |done|done|done]. constructor; [by apply lookup_insert_eq|].
  refine (held_rest _ _ _ _ _ _ Hw _ _); [done|]. eapply list.Forall_impl; [exact Hb|]. intros [q c] E. cbn in *.
  rewrite lookup_insert_ne; [done|]. intros <-. destruct Ho as (Hf & _). rewrite Hf in E by lia. done.
Qed.

Lemma held_dealloc p b l h cs dv Q w :
  held ((p, b) :: l) h cs dv w -> (forall w', held l h cs dv w' -> Q tt w') -> wp (dealloc p) Q w.
Proof.
  intros (Ho & Hb & Hm & Hc & Hv) HQ. inversion Hb as [|? ? _ Hb']; subst. clear Hb; rename Hb' into Hb.
  assert (wp (dealloc p) (fun _ w' => own (kinds l) h w') w) as Hw by (eapply own_dealloc; [exact Ho|done]).
  revert Hw. unfold wp, dealloc. destruct (heap w !! p); [|done]. intros Hw. apply HQ. split_and!; [done| |done|done|done].
  refine (held_rest _ _ _ _ _ _ Ho _ Hb). intros q Hq. by apply lookup_delete_ne.
Qed.

Lemma held_store p b b' l h cs dv Q w :
  held ((p, b) :: l) h cs dv w -> (forall w', held ((p, b') :: l) h cs dv w' -> Q tt w') -> wp (store p b') Q w.
Proof.
  intros (Ho & Hb & Hm & Hc & Hv) HQ. inversion Hb as [|? ? _ Hb']; subst. clear Hb; rename Hb' into Hb.
  assert (wp (store p b') (fun _ w' => own (kinds ((p, b') :: l)) h w') w) as Hw by (eapply own_store; [exact Ho|done]).
  revert Hw. unfold wp, store. destruct (heap w !! p); [|done]. intros Hw. apply HQ. split_and!; [done| |done|done|done].
  constructor; [by apply lookup_insert_eq|]. refine (held_rest _ _ _ _ _ _ Ho _ Hb). intros q Hq. by apply lookup_insert_ne.
Qed.

Lemma held_load p b l h cs dv Q w : held ((p, b) :: l) h cs dv w -> Q b w -> wp (load p) Q w.
Proof. intros (_ & Hb & _). inversion Hb as [|? ? Hp _]; subst. by apply wp_load. Qed.

Lemma held_device {A} (f : D -> A * D) c l h cs dv Q w :
  held l h cs dv w -> (forall a dv' w', f dv = (a, dv') -> held l h (c a :: cs) dv' w' -> Q a w') -> wp (device f c) Q w.
Proof.
  intros (Ho & Hb & Hm & <- & <-) HQ. apply wp_device. intros a d w' Hf Hh Hn Ho' Hc Hd. apply (HQ a d); [done|].
  split_and!; [|by rewrite Hh|congruence|done|done].
  by apply (own_same _ _ w).
Qed.
End held.

Section life.
Context {D : Type} `{WinDevX D} `{WinRules D} `{RuleIn}.
Implicit Types (w : world D) (l : list (Z * blk)).

(** The object of a modify action. *)
Lemma held_create_obj ctx inb outb l h cs dv Q w :
  held l h cs dv w ->
  (forall out dv' w', held l h (CObjCreate inb None :: cs) dv' w' -> Q (None, out) w') ->
  (forall p x out dv' w', devx_obj_create ctx inb outb dv = (x, out, dv') ->
     held ((p, BWinObj ctx (Some x)) :: l) h (CObjCreate inb (Some x) :: cs) dv' w' -> Q (Some p, out) w') ->
  wp (win_create_obj ctx inb outb) Q w.
Proof.
  intros Hw HN HS. apply wp_bind. eapply held_alloc; [exact Hw|]. intros p w1 Hw1. apply wp_bind.
  eapply held_device; [exact Hw1|]. intros [x out] dv2 w2 Ed Hw2. cbn beta iota. cbn [fst] in Hw2.
  destruct (devx_obj_create ctx inb outb dv) as [[x' out'] dv'] eqn:Ec. injection Ed as -> -> ->.
  destruct (mlx5dv_l2w_is_error x) eqn:E; apply wp_bind.
  - rewrite good_none in Hw2 by done. eapply held_dealloc; [exact Hw2|]. intros w3 Hw3. apply wp_ret. by eapply HN.
  - rewrite good_some in Hw2 by done. eapply held_store; [exact Hw2|]. intros w3 Hw3. apply wp_ret. by eapply HS.
Qed.

(** The block of the object a rule has, and the call that destroys it. *)
Definition modify_blk (ctx : Z) (m : option (Z * Z)) : list (Z * blk) :=
  match m with Some (p, x) => [(p, BWinObj ctx (Some x))] | None => [] end.
Definition modify_end (m : option (Z * Z)) : list call := match m with Some (_, x) => [CObjDestroy x] | None => [] end.

Lemma held_delete_obj m ctx l h cs dv Q w :
  held (modify_blk ctx m ++ l) h cs dv w -> (forall dv' w', held l h (modify_end m ++ cs) dv' w' -> Q tt w') ->
  wp (win_delete_obj (fst <$> m)) Q w.
Proof.
  intros Hw HQ. destruct m as [[p x]|]; [|by eapply wp_ret, HQ]. apply wp_bind. apply wp_bind. eapply held_load; [exact Hw|]. apply wp_bind.
  eapply held_device; [exact Hw|]. intros r dv1 w1 _ Hw1. apply wp_bind. eapply held_store; [exact Hw1|]. intros w2 Hw2.
  apply wp_ret. eapply held_dealloc; [exact Hw2|]. apply HQ.
Qed.

(** The number the vendor library gives the modify object. *)
Definition modify_id (ctx : Z) (mi mo : list Z) (dv : D) : Z :=
  DEVX_GET ifc.alloc_modify_header_context_out 0 ["modify_header_id"] (devx_obj_create ctx mi mo dv).1.2.

(** What a rule may come to: the blocks left behind and the calls, the last one first,
    of its creation and its deletion. *)
Inductive rule_life (ctx : Z) (d : win_flow_desc) (dv : D) : option Z -> list (Z * blk) -> list call -> Prop :=
| life_no_dest : wf_num_dst d = 0 -> rule_life ctx d dv None [] []
| life_refused : wf_num_dst d <> 0 -> wf_modify d = None -> rule_life ctx d dv None [] [CRuleAdd (rule_msg d None) None]
| life_rule p r : wf_num_dst d <> 0 -> wf_modify d = None ->
    rule_life ctx d dv (Some p) [] [CRuleDel r; CRuleAdd (rule_msg d None) (Some r)]
| life_modify_refused inp mi mo : wf_num_dst d <> 0 -> wf_modify d = Some (mi, mo) ->
    rule_life ctx d dv None [(inp, BRaw (rule_in_len d))] [CObjCreate mi None]
| life_modify_then_refused mi mo o : wf_num_dst d <> 0 -> wf_modify d = Some (mi, mo) ->
    rule_life ctx d dv None [] [CObjDestroy o; CRuleAdd (rule_msg d (Some (modify_id ctx mi mo dv))) None; CObjCreate mi (Some o)]
| life_modify p r mi mo o : wf_num_dst d <> 0 -> wf_modify d = Some (mi, mo) ->
    rule_life ctx d dv (Some p) [] [CObjDestroy o; CRuleDel r; CRuleAdd (rule_msg d (Some (modify_id ctx mi mo dv))) (Some r); CObjCreate mi (Some o)].

(** [ctx::create_flow], and [delete] of what it returned *)
Definition win_flow_session (ctx : Z) (d : win_flow_desc) : M D (option Z) :=
  p <- win_create_flow ctx d;; win_delete_flow p;; ret p.

(** The rule and its deletion, with the object of the modify action. *)
Lemma held_flow_add ctx p inp n msg m l h cs dv Q w :
  held ((inp, BRaw n) :: (p, BMem) :: modify_blk ctx m ++ l) h cs dv w ->
  (forall dv' w', held l h (modify_end m ++ CRuleAdd msg None :: cs) dv' w' -> Q None w') ->
  (forall r dv' w', held l h (modify_end m ++ CRuleDel r :: CRuleAdd msg (Some r) :: cs) dv' w' -> Q (Some p) w') ->
  wp (win_flow_add ctx p inp msg (fst <$> m)) (fun q => wp (win_delete_flow q;; ret q) Q) w.
Proof.
  intros Hw HN HS. apply wp_bind. eapply held_device; [exact Hw|]. intros r dv1 w1 _ Hw1. apply wp_bind.
  eapply held_dealloc; [exact Hw1|]. intros w2 Hw2. destruct (mlx5dv_l2w_is_error r) eqn:E.
  - rewrite good_none in Hw2 by done. rewrite (Permutation_middle (modify_blk ctx m) l (p, BMem)) in Hw2. apply wp_bind.
    eapply held_delete_obj; [exact Hw2|]. intros dv3 w3 Hw3. apply wp_bind. eapply held_dealloc; [exact Hw3|]. intros w4 Hw4.
    apply wp_ret, wp_bind, wp_ret, wp_ret. by eapply HN.
  - rewrite good_some in Hw2 by done. apply wp_bind. eapply held_store; [exact Hw2|]. intros w3 Hw3. apply wp_ret, wp_bind, wp_bind.
    eapply held_load; [exact Hw3|]. apply wp_bind. eapply held_device; [exact Hw3|]. intros r' dv4 w4 _ Hw4. apply wp_bind.
    rewrite (Permutation_middle (modify_blk ctx m) l) in Hw4. eapply held_delete_obj; [exact Hw4|]. intros dv5 w5 Hw5.
    eapply held_dealloc; [exact Hw5|]. intros w6 Hw6. apply wp_ret. by eapply (HS r).
Qed.

(** C23. A rule of the Windows back end is created and deleted with balanced calls: with
    memory available and copies that fit and any answers of the vendor library, [dcmd::flow] has no undefined
    behaviour, sends the message of the description, deletes exactly the rule and the modify
    object it was given, and gives its memory back, save for the message buffer when the modify
    object is refused. *)
Theorem win_flow_life ctx d l h cs dv w :
  held l h cs dv w -> rule_fits d = true ->
  wp (win_flow_session ctx d) (fun p w' => exists left new dv', rule_life ctx d dv p left new /\ held (left ++ l) h (new ++ cs) dv' w') w.
Proof.
  intros Hw Hfit. apply wp_bind, wp_bind. eapply held_alloc; [exact Hw|]. intros p w1 Hw1. cbn beta iota.
  destruct (Z.eqb_spec (wf_num_dst d) 0) as [E|E].
  { apply wp_bind. eapply held_dealloc; [exact Hw1|]. intros w2 Hw2. apply wp_ret, wp_bind, wp_ret, wp_ret.
    eexists [], [], _. split; [by constructor|exact Hw2]. }
  apply wp_bind. eapply held_alloc; [exact Hw1|]. intros inp w2 Hw2. apply wp_bind, wp_ret. rewrite Hfit. cbn [negb].
  destruct (wf_modify d) as [[mi mo]|] eqn:Em.
  - apply wp_bind. eapply held_create_obj; [exact Hw2| |]; cbn beta iota.
    + intros out dv3 w3 Hw3. rewrite (Permutation_swap _ _ l) in Hw3. apply wp_bind. eapply held_dealloc; [exact Hw3|]. intros w4 Hw4.
      apply wp_ret, wp_bind, wp_ret, wp_ret. eexists [(inp, BRaw (rule_in_len d))], [CObjCreate mi None], _. split; [by econstructor|exact Hw4].
    + intros m x out dv3 w3 Ed Hw3.
      assert (DEVX_GET ifc.alloc_modify_header_context_out 0 ["modify_header_id"] out = modify_id ctx mi mo dv) as -> by (unfold modify_id; by rewrite Ed).
      rewrite (Permutation_swap (inp, _) _ _), (Permutation_swap (p, BMem) _ l) in Hw3.
      eapply (held_flow_add _ _ _ _ _ (Some (m, x))); [exact Hw3| |].
      * intros dv4 w4 Hw4. eexists [], [_; _; _], _. split; [by eapply life_modify_then_refused|exact Hw4].
      * intros r dv4 w4 Hw4. eexists [], [_; _; _; _], _. split; [by eapply life_modify|exact Hw4].
  - eapply (held_flow_add _ _ _ _ _ None); [exact Hw2| |].
    + intros dv4 w4 Hw4. eexists [], [_], _. split; [by constructor|exact Hw4].
    + intros r dv4 w4 Hw4. eexists [], [_; _], _. split; [by constructor|exact Hw4].
Qed.

(** Without memory for the message, a null pointer is passed to [memset]. *)
Lemma no_memory_is_undefined ctx d w :
  oom w = [false; true] -> wf_num_dst d <> 0 -> fails (win_create_flow ctx d) w.
Proof.
  intros Ho Hn. unfold fails, win_create_flow, bind, alloc. rewrite Ho. cbn. rewrite (proj2 (Z.eqb_neq _ _)) by done.
  eexists. reflexivity.
Qed.
End life.

(** ** Rules on a concrete library *)

(** A structure with the members the code names. *)
Definition demo_rule_in : layout :=
  LStruct [
    ("prio", LBits 0x10); ("match_criteria_enable", LBits 0x8); ("has_modify_header_id", LBits 0x1);
    ("reserved_at_19", LBits 0x7); ("flow_tag", LBits 0x20); ("extra_dests_count", LBits 0x20);
    ("modify_header_id", LBits 0x20); ("dest", ifc.dest_format_struct);
    ("match_criteria", ifc.fte_match_param); ("match_value", ifc.fte_match_param) ].

Lemma demo_rule_ok : rule_in_checked demo_rule_in.
Proof.
  unfold rule_in_checked. split_and!.
  - intros []; by vm_compute.
  - intros [] [] Hn; by vm_compute.
  - intros []; by vm_compute.
  - intros [] []; by vm_compute.
  - intros [] [] Hn; try done; vm_compute; (by left) || (by right).
Qed.

#[local] Instance demo_rule : RuleIn := { devx_fs_rule_add_in := demo_rule_in; rule_in_ok := demo_rule_ok }.

#[local] Instance demo_rules : WinRules sim := {
  devx_fs_rule_add _ _ d := (wsim_ptr d, sim_tick d);
  devx_fs_rule_del _ d := (0, d)
}.

Definition demo_dests : list fwd_dst_desc := [mkFwdDesc 2 0x41 0; mkFwdDesc 1 0x77 0; mkFwdDesc 2 0x99 0].
Definition demo_junk : list Z := repeat 0xcd 192.
Definition demo_desc (m : option (list Z * list Z)) : win_flow_desc :=
  mkWinFlow (repeat 0xff 512) (repeat 1 512) (win_dst_formats demo_junk demo_dests) 3 0x1234 5 m.

Lemma demo_forwards m : forwards (demo_desc m) demo_junk demo_dests.
Proof. split_and!; done || by vm_compute. Qed.

Lemma win_rule_says_witness :
  let b := rule_msg (demo_desc None) (Some 9) in
  Z.of_nat (length b) = 1064
  /\ DEVX_GET demo_rule_in 0 ["flow_tag"] b = 0x1234
  /\ DEVX_GET demo_rule_in 0 ["extra_dests_count"] b = 2
  /\ DEVX_GET ifc.dest_format_struct (dest_addr 1) ["destination_id"] b = 0x77.
Proof.
  destruct (win_rule_says (demo_desc None) (Some 9) demo_junk demo_dests (demo_forwards None)) as (Hl & _ & Hs & _ & _ & Hd).
  cbv zeta. split_and!; [exact Hl|exact (Hs FlowTag)|exact (Hs ExtraCount)|].
  apply (Hd 1%nat (mkFwdDesc 1 0x77 0) eq_refl). lia.
Defined.

(** The third destination: neither its type nor its number is sent. *)
Example third_destination :
  DEVX_GET ifc.dest_format_struct (dest_addr 2) ["destination_id"] (rule_msg (demo_desc None) None) = 0xcdcdcd.
Proof. by vm_compute. Qed.

Lemma demo_held (d : sim) : held [] ∅ [] d (mkWorld d ∅ 1 [] []).
Proof. split_and!; try done. apply (own_nil (mkWorld d ∅ 1 [] [])). by intros p _. Qed.

Definition demo_modify : option (list Z * list Z) := Some (zeros 64, zeros 16).

(** A rule with a modify action on a library that refuses the rule: the object of the action
    is destroyed again and no memory stays behind. *)
Lemma win_flow_life_witness :
  let w := mkWorld (mkSim 1 [false; true]) ∅ 1 [] [] in
  wp (win_flow_session 5 (demo_desc demo_modify))
     (fun p w' => (exists left new dv', rule_life 5 (demo_desc demo_modify) (dev w) p left new
                                        /\ held (left ++ []) ∅ (new ++ []) dv' w')
                  /\ p = None /\ heap w' = ∅ /\ length (calls w') = 3%nat) w.
Proof.
  cbv zeta. apply wp_and; [|vm_compute; split_and!; reflexivity].
  apply (win_flow_life 5 (demo_desc demo_modify) [] ∅ [] (mkSim 1 [false; true])); [apply demo_held|reflexivity].
Defined.

(** With the modify object refused, the buffer of the message stays allocated. *)
Example modify_refused_leaks :
  match win_flow_session 5 (demo_desc demo_modify) (mkWorld (mkSim 1 [true]) ∅ 1 [] []) with
  | Ret (p, w') => p = None /\ heap w' = {[ 2 := BRaw 1064 ]}
  | UB _ => False
  end.
Proof. by vm_compute. Qed.
