(* ===== verification/WinDevice.v ===== *)
(** * Devices of the Windows back end (src/src/dcmd/windows/device.cpp,
      provider.cpp and the rest of ctx.cpp)

    The enumeration of the adapters, the description of one, and its context:
    the constructor, the event queues, the mapping of the initialisation segment
    and the clock in it.  A device is known by the text of its LUID, and its
    vendor by the text of its plug-and-play identifier. *)

From Stdlib Require Import Ascii.
From stdpp Require Import strings.
From S2P Require Import Prelude Codec Prm PrmRegisters Dcmd Own Sim Obj Tir AdapterLife Provider Windows.
Open Scope string_scope.
Open Scope list_scope.
Open Scope Z_scope.
Open Scope m_scope.

(** ** Texts *)

(** [_ui64toa] with base 16: lower case, without leading zeros. *)
Definition hex_digit (n : Z) : ascii := ascii_of_nat (Z.to_nat (if n <? 10 then 48 + n else 87 + n)).

Fixpoint ui64toa_loop (fuel : nat) (n : Z) (acc : list ascii) : list ascii :=
  match fuel with
  | O => acc
  | S f => if n <? 16 then hex_digit n :: acc else ui64toa_loop f (n / 16) (hex_digit (n mod 16) :: acc)
  end.

(** A 64-bit number has at most 16 digits. *)
Definition ui64toa_16 (n : Z) : list ascii := ui64toa_loop 16 n [].

(** The value of a hexadecimal digit of either case. *)
Definition hex_val (c : ascii) : option Z :=
  let v := code c in
  if (48 <=? v) && (v <=? 57) then Some (v - 48)
  else if (97 <=? v) && (v <=? 102) then Some (v - 87)
  else if (65 <=? v) && (v <=? 70) then Some (v - 55)
  else None.

Definition is_hex (c : ascii) : bool := if hex_val c then true else false.

Fixpoint hex_digits (s : list ascii) : list ascii * list ascii :=
  match s with
  | c :: r => if is_hex c then let '(d, t) := hex_digits r in (c :: d, t) else ([], s)
  | [] => ([], [])
  end.

Definition hex_value (d : list ascii) : Z := foldl (fun v c => 16 * v + default 0 (hex_val c)) 0 d.

(** [%x]: blanks, a sign, the prefix [0x], digits. *)
Definition scan_sign (s : list ascii) : bool * list ascii :=
  match s with
  | c :: r => if Ascii.eqb c minus then (true, r) else if Ascii.eqb c plus then (false, r) else (false, s)
  | [] => (false, s)
  end.

Definition scan_0x (s : list ascii) : list ascii :=
  match s with
  | a :: b :: r => if Ascii.eqb a "0" && (Ascii.eqb b "x" || Ascii.eqb b "X") then r else s
  | _ => s
  end.

Definition scan_hex (s : list ascii) : option (Z * list ascii) :=
  let '(neg, s) := scan_sign (skip_space s) in
  match hex_digits (scan_0x s) with
  | ([], _) => None
  | (d, r) => Some (if neg then - hex_value d else hex_value d, r)
  end.

(** Characters of the format that stand for themselves. *)
Fixpoint scan_lit (l s : list ascii) : option (list ascii) :=
  match l, s with
  | [], _ => Some s
  | c :: l, x :: s => if Ascii.eqb c x then scan_lit l s else None
  | _ :: _, [] => None
  end.

Definition VEN : list ascii := String.list_ascii_of_string "PCI\VEN_".
Definition DEV : list ascii := String.list_ascii_of_string "&DEV_".

(** [sscanf_s(s, "PCI\VEN_%x&DEV_%x&", ...)]: the values assigned. *)
Definition scan_pnp (s : list ascii) : list Z :=
  match scan_lit VEN s with
  | None => []
  | Some s =>
      match scan_hex s with
      | None => []
      | Some (v, s) =>
          match scan_lit DEV s with
          | None => [v]
          | Some s => match scan_hex s with None => [v] | Some (p, _) => [v; p] end
          end
      end
  end.

(** ** Devices *)

(** [devx_device], as far as it is read. *)
Record win_info := mkWinInfo {
  wi_bdf : Z;
  wi_net_luid : Z;
  wi_dev_pnp_id : list ascii;
  wi_name : string;
  wi_provider_ver : Z;
  wi_driver_ver : Z;
  wi_fw_ver : Z
}.

Class WinEnum (D : Type) := {
  devx_get_device_list : D -> option (list Z) * D;      (* [None]: an error *)
  devx_free_device_list : D -> D;
  devx_query_device : Z -> D -> win_info * D;           (* what [m_dev_info] then holds *)
  devx_open_device : Z -> D -> Z * D;
  devx_close_device : Z -> D -> D;
  devx_query_eqn : Z -> Z -> D -> Z * Z * D;
  devx_query_hca_iseg_mapping : Z -> D -> Z * option (option Z) * D;   (* result; the pointer, if it was stored *)
  iseg_bytes : Z -> D -> list Z;
  ibv_pd_handle : Z -> D -> Z
}.

(** [parse_version], and the versions of a driver and of the firmware *)
Definition parse_version (ms_offset ver : Z) : Z * Z * Z :=
  (Z.land (Z.shiftr ver ms_offset) 0xffff, Z.land (Z.shiftr ver (ms_offset - 16)) 0xffff,
   Z.land (Z.shiftr ver (ms_offset - 32)) 0xffff).
Definition parse_version_driver (ver : Z) : Z * Z * Z := parse_version 48 ver.
Definition parse_version_fw (ver : Z) : Z * Z * Z := parse_version 32 ver.

(** [dcmd::device] with its block; [None]: the vendor members have no value. *)
Record win_device := mkWinDevice {
  wd_block : Z;
  wd_info : win_info;
  wd_id : list ascii;
  wd_vendor : option (Z * Z)
}.

(** [dcmd::ctx] with its block; [None]: [m_pv_iseg] has no value. *)
Record win_ctx := mkWinCtx { wc_block : Z; wc_handle : Z; wc_iseg : option (option Z) }.

Definition fits_uint (v : Z) : bool := (- 2 ^ 32 <? v) && (v <? 2 ^ 32).

Section devices.
Context {D : Type} `{WinEnum D}.

(** The vendor of a device: what [sscanf_s] read, in 32 bits. *)
Definition read_vendor (pnp : list ascii) : M D (option (Z * Z)) :=
  let vs := scan_pnp pnp in
  if negb (forallb fits_uint vs) then ub "number out of the range of the variable"
  else
    match map (wrap 32) vs with
    | [ven_id; ven_part_id] =>
        ret (if (ven_id =? 0) || (ven_part_id =? 0) then None else Some (ven_id, ven_part_id))
    | _ => ret None
    end.

(** [device::device]; the versions it parses are only logged. *)
Definition win_device_new (b handle : Z) : M D win_device :=
  i <- device (devx_query_device handle) (fun _ => CQueryDevice);;
  v <- read_vendor (wi_dev_pnp_id i);;
  ret (mkWinDevice b i (ui64toa_16 (wi_net_luid i)) v).

Definition win_get_name (d : win_device) : string := wi_name (wd_info d).
Definition win_get_vendor_id (d : win_device) : M D Z := '(v, _) <- need (wd_vendor d) "m_vendor_id has no value";; ret v.
Definition win_get_vendor_part_id (d : win_device) : M D Z := '(_, p) <- need (wd_vendor d) "m_vendor_part_id has no value";; ret p.

(** [device::create_ctx] with the constructor of [ctx] *)
Definition win_create_ctx (dv : win_device) : M D (option win_ctx) :=
  b <- alloc BMem;;
  match b with
  | None => ret None
  | Some b =>
      h <- device (devx_open_device (wi_bdf (wd_info dv))) (fun _ => CQueryDevice);;
      if mlx5dv_l2w_is_error h then dealloc b;; ret None
      else ret (Some (mkWinCtx b h None))
  end.

(** [ctx::~ctx] and its storage *)
Definition win_ctx_delete (c : win_ctx) : M D unit :=
  _ <- device (fun d => (tt, devx_close_device (wc_handle c) d)) (fun _ => CCloseDevice (wc_handle c));;
  dealloc (wc_block c).

(** [ctx::query_eqn]: the result and the number. *)
Definition win_query_eqn (c : win_ctx) (cpu_num : Z) : M D (Z * Z) :=
  '(r, e) <- device (fun d => let '(r, e, d') := devx_query_eqn (wc_handle c) cpu_num d in ((r, e), d'))
                    (fun _ => CQueryEqn cpu_num);;
  ret (if r =? 0 then DCMD_EOK else DCMD_EIO, e).

(** [ctx::hca_iseg_mapping]: a call that stores nothing leaves the member as it is. *)
Definition win_hca_iseg_mapping (c : win_ctx) : M D (Z * win_ctx) :=
  '(r, p) <- device (fun d => let '(r, p, d') := devx_query_hca_iseg_mapping (wc_handle c) d in ((r, p), d'))
                    (fun _ => CQueryDevice);;
  let c := match p with Some p => mkWinCtx (wc_block c) (wc_handle c) (Some p) | None => c end in
  ret (if r =? 0 then DCMD_EOK else DCMD_EIO, c).

(** [ctx::get_real_time] *)
Definition win_get_real_time (c : win_ctx) : M D Z :=
  p <- need (wc_iseg c) "m_pv_iseg has no value";;
  match p with
  | None => ret 0
  | Some p => peek (fun d => DEVX_GET64 regs.initial_seg 0 ["real_time"] (iseg_bytes p d))
  end.

(** [ctx::create_ibv_pd] *)
Definition win_create_ibv_pd (pd : Z) : M D (Z * Z) := n <- peek (ibv_pd_handle pd);; ret (0, wrap 32 n).

(** [provider::create_device]: a device that cannot be opened is not deleted. *)
Definition win_create_device (handle : Z) : M D (option win_device) :=
  b <- alloc BMem;;
  match b with
  | None => ret None
  | Some b =>
      dv <- win_device_new b handle;;
      c <- win_create_ctx dv;;
      match c with
      | None => ret None
      | Some c => win_ctx_delete c;; ret (Some dv)
      end
  end.

(** The loop of [provider::get_device_list] *)
Fixpoint win_create_devices (hs : list Z) : M D (list win_device) :=
  match hs with
  | [] => ret []
  | h :: hs =>
      d <- win_create_device h;;
      r <- win_create_devices hs;;
      ret (match d with Some d => d :: r | None => r end)
  end.

(** [provider::get_device_list]: the devices, [None] for a null array; the array is built
    once. *)
Definition win_provider : Type := option (Z * list win_device).

Definition win_get_device_list (p : win_provider) : M D (option (list win_device) * win_provider) :=
  match p with
  | Some (_, ds) => ret (Some ds, p)
  | None =>
      l <- device devx_get_device_list (fun _ => CQueryDevice);;
      match l with
      | None => ret (None, None)
      | Some hs =>
          b <- alloc (BRaw (8 * Z.of_nat (length hs)));;
          match b with
          | None => _ <- device (fun d => (tt, devx_free_device_list d)) (fun _ => CQueryDevice);; ret (None, None)
          | Some b =>
              ds <- win_create_devices hs;;
              _ <- device (fun d => (tt, devx_free_device_list d)) (fun _ => CQueryDevice);;
              ret (Some ds, Some (b, ds))
          end
      end
  end.

(** [base_provider::~base_provider] *)
Fixpoint delete_devices (ds : list win_device) : M D unit :=
  match ds with
  | [] => ret tt
  | d :: r => dealloc (wd_block d);; delete_devices r
  end.

Definition win_provider_delete (p : win_provider) : M D unit :=
  match p with
  | None => ret tt
  | Some (b, ds) => delete_devices ds;; dealloc b
  end.
End devices.

(** ** The texts, specified *)

Lemma hex_val_digit n : 0 <= n < 16 -> hex_val (hex_digit n) = Some n.
Proof. intros Hn. assert (n ∈ seqZ 0 16) as Hi by (apply elem_of_seqZ; lia). repeat (apply elem_of_cons in Hi as [->|Hi]; [done|]). by apply elem_of_nil in Hi. Qed.

Definition hex_text (s : list ascii) : Prop := s <> [] /\ Forall (fun c => is_hex c = true) s.

Lemma ui64toa_loop_value fuel n acc :
  0 <= n < 16 ^ Z.of_nat fuel -> (0 < fuel)%nat ->
  foldl (fun v c => 16 * v + default 0 (hex_val c)) 0 (ui64toa_loop fuel n acc) = foldl (fun v c => 16 * v + default 0 (hex_val c)) n acc.
Proof.
  revert n acc. induction fuel as [|f IH]; intros n acc Hn Hf; [lia|]. cbn [ui64toa_loop].
  destruct (Z.ltb_spec n 16) as [Hl|Hl].
  - cbn [foldl]. rewrite hex_val_digit by lia. done.
  - rewrite Nat2Z.inj_succ, Z.pow_succ_r in Hn by lia. pose proof (Z.div_mod n 16 ltac:(lia)). pose proof (Z.mod_pos_bound n 16 ltac:(lia)).
    assert (0 < f)%nat by (destruct f; [simpl in Hn; lia|lia]). rewrite IH; [|split; [lia|apply Z.div_lt_upper_bound; lia]|done].
    cbn [foldl]. rewrite hex_val_digit by lia. cbn. by rewrite <- (Z.div_mod n 16) by lia.
Qed.

Lemma ui64toa_loop_hex fuel n acc :
  0 <= n -> Forall (fun c => is_hex c = true) acc -> Forall (fun c => is_hex c = true) (ui64toa_loop fuel n acc).
Proof.
  revert n acc. induction fuel as [|f IH]; intros n acc Hn Ha; [done|]. cbn [ui64toa_loop]. pose proof (Z.mod_pos_bound n 16 ltac:(lia)).
  destruct (Z.ltb_spec n 16); [constructor; [|done]|apply IH; [apply Z.div_pos; lia|constructor; [|done]]];
    unfold is_hex; by rewrite hex_val_digit by lia.
Qed.

Lemma hex_value_text n : 0 <= n < 2 ^ 64 -> hex_value (ui64toa_16 n) = n.
Proof. intros Hn. unfold hex_value, ui64toa_16. rewrite ui64toa_loop_value by (simpl; lia). done. Qed.

Lemma ui64toa_loop_nonempty fuel n acc : (0 < fuel)%nat \/ acc <> [] -> ui64toa_loop fuel n acc <> [].
Proof.
  revert n acc. induction fuel as [|f IH]; intros n acc Hf; cbn [ui64toa_loop]; [destruct Hf; [lia|done]|].
  destruct (n <? 16); [done|]. apply IH. by right.
Qed.

Lemma hex_text_of n : 0 <= n -> hex_text (ui64toa_16 n).
Proof. intros Hn. split; [apply ui64toa_loop_nonempty; left; lia|by apply ui64toa_loop_hex]. Qed.

Lemma hex_digits_run d t :
  Forall (fun c => is_hex c = true) d -> match t with c :: _ => is_hex c = false | [] => True end -> hex_digits (d ++ t) = (d, t).
Proof.
  induction 1 as [|c d Hc _ IH]; intros Ht.
  - destruct t as [|c r]; [done|]. cbn. by rewrite Ht.
  - cbn. rewrite Hc, IH by done. done.
Qed.

Lemma scan_lit_app l s : scan_lit l (l ++ s) = Some s.
Proof. induction l as [|c l IH]; [done|]. cbn. by rewrite Ascii.eqb_refl. Qed.

(** What follows a number. *)
Definition ends (t : list ascii) : Prop :=
  match t with c :: _ => is_hex c = false /\ c <> "x"%char /\ c <> "X"%char | [] => True end.

Lemma hex_not c x : is_hex c = true -> is_hex x = false -> Ascii.eqb c x = false.
Proof. intros Hc Hx. apply Ascii.eqb_neq. intros ->. congruence. Qed.

Lemma hex_not_space c : is_hex c = true -> is_space c = false.
Proof. unfold is_hex, hex_val, is_space. destruct ((48 <=? code c) && _) eqn:E1; [|destruct ((97 <=? code c) && _) eqn:E2; [|destruct ((65 <=? code c) && _) eqn:E3; [|done]]]; intros _; bool_hyps; apply orb_false_iff; rewrite andb_false_iff, Z.eqb_neq, !Z.leb_gt; lia. Qed.

Lemma scan_0x_hex d t : hex_text d -> ends t -> scan_0x (d ++ t) = d ++ t.
Proof.
  intros [Hn Hd] Ht. destruct d as [|a [|b d]]; [done| |].
  - destruct t as [|c t]; [done|]. destruct Ht as (_ & Hx & HX). cbn.
    rewrite (proj2 (Ascii.eqb_neq c "x") Hx), (proj2 (Ascii.eqb_neq c "X") HX). by rewrite andb_false_r.
  - inversion Hd as [|? ? _ Hd']; subst. inversion Hd' as [|? ? Hb _]; subst. cbn. rewrite !(hex_not b) by done. by rewrite andb_false_r.
Qed.

Lemma scan_hex_text d t : hex_text d -> ends t -> scan_hex (d ++ t) = Some (hex_value d, t).
Proof.
  intros Hd Ht. pose proof (scan_0x_hex d t Hd Ht) as H0. destruct Hd as [Hn Hd]. unfold scan_hex.
  assert (skip_space (d ++ t) = d ++ t) as ->.
  { destruct d as [|c d]; [done|]. inversion Hd as [|? ? Hc _]; subst. cbn. by rewrite hex_not_space. }
  assert (scan_sign (d ++ t) = (false, d ++ t)) as ->.
  { destruct d as [|c d]; [done|]. inversion Hd as [|? ? Hc _]; subst. cbn. by rewrite !(hex_not c). }
  rewrite H0, hex_digits_run; [|done|by destruct t; [|apply Ht]]. by destruct d.
Qed.

(** A plug-and-play identifier with these numbers. *)
Definition pnp_text (s : list ascii) (v p : Z) : Prop :=
  exists dv dp t, s = VEN ++ dv ++ DEV ++ dp ++ t /\ hex_text dv /\ hex_text dp /\ ends t /\ hex_value dv = v /\ hex_value dp = p.

Lemma scan_pnp_text s v p : pnp_text s v p -> scan_pnp s = [v; p].
Proof.
  intros (dv & dp & t & -> & Hv & Hp & Ht & <- & <-). unfold scan_pnp. rewrite scan_lit_app, scan_hex_text; [|done|by split].
  by rewrite scan_lit_app, scan_hex_text.
Qed.

(** The identifier a description has. *)
Definition describes (i : win_info) (d : win_device) : Prop := wd_info d = i /\ wd_id d = ui64toa_16 (wi_net_luid i).

(** Every number the library can hand to [sscanf_s] fits its variable. *)
Definition readable (i : win_info) : Prop := forallb fits_uint (scan_pnp (wi_dev_pnp_id i)) = true.

Section described.
Context {D : Type} `{WinEnum D}.
Implicit Types (w : world D) (l : list (Z * kind)).

Lemma wp_read_vendor pnp Q w :
  forallb fits_uint (scan_pnp pnp) = true -> (forall v, Q v w) -> wp (read_vendor pnp) Q w.
Proof.
  intros Hf HQ. unfold read_vendor. rewrite Hf. cbn [negb]. destruct (map _ _) as [|a [|b [|c r]]]; by apply wp_ret.
Qed.

Lemma own_device_new b handle l h Q w :
  own l h w -> readable (devx_query_device handle (dev w)).1 ->
  (forall d w', own l h w' -> describes (devx_query_device handle (dev w)).1 d -> wd_block d = b -> Q d w') ->
  wp (win_device_new b handle) Q w.
Proof.
  intros Ho Hr HQ. apply wp_bind, wp_device. intros i d w' E Hh Hn _ _ _. rewrite E in Hr, HQ. cbn [fst] in *.
  apply wp_bind, wp_read_vendor; [done|]. intros v. apply wp_ret, HQ; [by apply (own_same _ _ w)|done|done].
Qed.
End described.

Section texts.
Context {D : Type} `{WinEnum D}.

(** C36. A device of the Windows back end is described by its texts: its identifier is the
    hexadecimal text of the LUID, from which the LUID can be read back, so that two devices have
    one identifier only when they have one LUID; vendor and part are the numbers its
    plug-and-play identifier names. *)
Theorem win_device_described b handle v p (w : world D) :
  let i := (devx_query_device handle (dev w)).1 in
  pnp_text (wi_dev_pnp_id i) v p -> 0 < v < 2 ^ 32 -> 0 < p < 2 ^ 32 -> 0 <= wi_net_luid i < 2 ^ 64 ->
  wp (win_device_new b handle) (fun d w' =>
    hex_text (wd_id d) /\ hex_value (wd_id d) = wi_net_luid i /\ heap w' = heap w
    /\ (forall d2 i2, describes i2 d2 -> 0 <= wi_net_luid i2 < 2 ^ 64 -> (wd_id d2 = wd_id d <-> wi_net_luid i2 = wi_net_luid i))
    /\ win_get_vendor_id d w' = Ret (v, w') /\ win_get_vendor_part_id d w' = Ret (p, w')) w.
Proof.
  intros i Ht Hv Hp Hl. apply wp_bind, wp_device. intros i' d w' E Hh _ _ _ _. subst i. rewrite E in *. cbn [fst] in *.
  apply wp_bind. unfold read_vendor. rewrite (scan_pnp_text _ v p Ht). cbn [forallb map]. unfold fits_uint.
  rewrite !(proj2 (Z.ltb_lt _ _)) by lia. cbn [andb negb]. unfold wrap. rewrite !Z.mod_small by lia.
  rewrite !(proj2 (Z.eqb_neq _ _)) by lia. apply wp_ret, wp_ret. cbn [wd_id wd_vendor]. split_and!; try done.
  - apply hex_text_of. lia.
  - by apply hex_value_text.
  - intros d2 i2 [_ ->] H2. split; [|by intros ->]. intros Hid. rewrite <- (hex_value_text (wi_net_luid i2)), Hid by done. by apply hex_value_text.
Qed.
End texts.

(** ** The enumeration *)

Section enumeration.
Context {D : Type} `{WinEnum D}.
Implicit Types (w : world D) (l : list (Z * kind)).

Lemma own_win_create_ctx dv l h Q w :
  own l h w ->
  (forall c w', own ((wc_block c, KMem) :: l) h w' -> wc_iseg c = None -> Q (Some c) w') -> (forall w', own l h w' -> Q None w') ->
  wp (win_create_ctx dv) Q w.
Proof.
  intros Ho HS HN. apply wp_bind. eapply own_alloc; [exact Ho|intros w1 Ho1; by apply wp_ret, HN|]. intros b w1 Ho1. apply wp_bind.
  eapply own_device; [exact Ho1|]. intros x w2 Ho2. cbn beta. destruct (mlx5dv_l2w_is_error x).
  - apply wp_bind. eapply own_dealloc; [exact Ho2|]. intros w3 Ho3. by apply wp_ret, HN.
  - by apply wp_ret, HS.
Qed.

Lemma own_win_ctx_delete c l h Q w :
  own ((wc_block c, KMem) :: l) h w -> (forall w', own l h w' -> Q tt w') -> wp (win_ctx_delete c) Q w.
Proof. intros Ho HQ. apply wp_bind. eapply own_device; [exact Ho|]. intros _ w1 Ho1. by eapply own_dealloc. Qed.

(** The library hands out identifiers whose numbers fit. *)
Context (Hread : forall handle d, readable (devx_query_device handle d).1).

(** The device of an entry of the library's list. *)
Definition device_of (handle : Z) (d : win_device) : Prop := exists dv, describes (devx_query_device handle dv).1 d.

Lemma own_win_create_device handle l h Q w :
  own l h w ->
  (forall d w', own ((wd_block d, KMem) :: l) h w' -> device_of handle d -> Q (Some d) w') ->
  (forall lost w', own (lost ++ l) h w' -> (length lost <= 1)%nat -> Q None w') ->
  wp (win_create_device handle) Q w.
Proof.
  intros Ho HS HN. apply wp_bind. eapply own_alloc; [exact Ho|intros w1 Ho1; apply wp_ret, (HN []); simpl; [done|lia]|].
  intros b w1 Ho1. apply wp_bind. eapply own_device_new; [exact Ho1|apply Hread|]. intros d w2 Ho2 Hd Hb. apply wp_bind.
  eapply own_win_create_ctx; [exact Ho2| |].
  - intros c w3 Ho3 _. apply wp_bind. eapply own_win_ctx_delete; [exact Ho3|]. intros w4 Ho4. apply wp_ret, HS; [by rewrite Hb|by eexists].
  - intros w3 Ho3. by apply wp_ret, (HN [(b, KMem)]).
Qed.

Lemma own_win_create_devices hs l h Q w :
  own l h w ->
  (forall ds lost w', own (map (fun d => (wd_block d, KMem)) ds ++ lost ++ l) h w' ->
     (exists opened, sublist opened hs /\ Forall2 device_of opened ds) -> (length lost + length ds <= length hs)%nat -> Q ds w') ->
  wp (win_create_devices hs) Q w.
Proof.
  revert l Q w. induction hs as [|x hs IH]; intros l Q w Ho HQ.
  - apply wp_ret. apply (HQ [] []); [done|by exists []|done].
  - cbn [win_create_devices]. apply wp_bind. eapply own_win_create_device; [exact Ho| |].
    + intros d w1 Ho1 Hd. apply wp_bind. eapply IH; [exact Ho1|]. intros ds lost w2 Ho2 (os & Hs & Hf) Hl. apply wp_ret.
      apply (HQ (d :: ds) lost); [simpl; own_perm Ho2|exists (x :: os); by split; constructor|simpl; lia].
    + intros lost w1 Ho1 Hl1. apply wp_bind. eapply IH; [exact Ho1|]. intros ds lost' w2 Ho2 (os & Hs & Hf) Hl. apply wp_ret.
      apply (HQ ds (lost' ++ lost)); [by rewrite <- app_assoc|exists os; split; [by constructor|done]|]. rewrite length_app. simpl. lia.
Qed.

Lemma own_delete_devices ds l h Q w :
  own (map (fun d => (wd_block d, KMem)) ds ++ l) h w -> (forall w', own l h w' -> Q tt w') -> wp (delete_devices ds) Q w.
Proof.
  revert w. induction ds as [|d r IH]; intros w Ho HQ; [by apply wp_ret, HQ|]. cbn. apply wp_bind.
  eapply own_dealloc; [exact Ho|]. intros w1 Ho1. by apply IH.
Qed.

(** The devices of the Windows back end: whatever the library answers, the
    enumeration has no undefined behaviour; it holds the devices that could be opened, in the
    order of the library and with their descriptions; the list is built once and later calls return it; an
    adapter that cannot be opened is not in the list and costs at most one block that is never
    released; the rest is released with the provider. *)
Theorem win_device_list_ok l h w :
  own l h w ->
  wp (win_get_device_list None) (fun r w' =>
    match r.1 with
    | None => r.2 = None /\ own l h w'
    | Some ds => exists b lost hs opened,
        (devx_get_device_list (dev w)).1 = Some hs /\ r.2 = Some (b, ds)
        /\ sublist opened hs /\ Forall2 device_of opened ds /\ (length lost + length ds <= length hs)%nat
        /\ own ((b, KRaw) :: map (fun d => (wd_block d, KMem)) ds ++ lost ++ l) h w'
        /\ (forall w2, win_get_device_list r.2 w2 = Ret (r, w2))
        /\ wp (win_provider_delete r.2) (fun _ w2 => own (lost ++ l) h w2) w'
    end) w.
Proof.
  intros Ho. apply wp_bind, wp_device. intros [hs|] dv w1 El Hh Hn _ _ _; assert (own l h w1) as Ho1 by (by apply (own_same _ _ w)); [|by apply wp_ret].
  rewrite El. apply wp_bind. eapply own_alloc; [exact Ho1| |].
  { intros w2 Ho2. apply wp_bind. eapply own_device; [exact Ho2|]. intros _ w3 Ho3. by apply wp_ret. }
  intros b w2 Ho2. apply wp_bind. eapply own_win_create_devices; [exact Ho2|]. intros ds lost w3 Ho3 (opened & Hs & Hf) Hl. apply wp_bind.
  eapply own_device; [exact Ho3|]. intros _ w4 Ho4. apply wp_ret. exists b, lost, hs, opened. split_and!; try done.
  - own_perm Ho4.
  - apply wp_bind. eapply own_delete_devices; [exact Ho4|]. intros w5 Ho5.
    eapply (own_dealloc b KRaw (lost ++ l)); [own_perm Ho5|]. by intros w6 Ho6.
Qed.
End enumeration.

(** ** The clock *)

(** The member [real_time] of the segment is the register the Linux back end reads in the
    page of the clock, which starts at the byte 0x1000 of the segment. *)
Lemma clock_of_segment seg page n :
  page = bytes_at seg 0x1000 n -> (72 <= n)%nat ->
  DEVX_GET64 regs.initial_seg 0 ["real_time"] seg = be64_to_cpu page HCA_CORE_CLOCK_TO_REAL_TIME_CLOCK_OFFSET.
Proof.
  intros -> Hn. unfold DEVX_GET64.
  assert (bit_off regs.initial_seg ["real_time"] mod 64 =? 0 = true) as -> by (vm_compute; reflexivity).
  assert (fld64 regs.initial_seg 0 ["real_time"] = 4160) as -> by (vm_compute; reflexivity).
  unfold be64_to_cpu, be32_to_cpu, HCA_CORE_CLOCK_TO_REAL_TIME_CLOCK_OFFSET. rewrite !Tir.rd_bytes_at by lia. done.
Qed.

Section clock.
Context {D : Type} `{WinEnum D} `{DevXDomain D}.

(** On one adapter the clocks of the two back ends agree. *)
Lemma clocks_agree (c : win_ctx) p q n (w : world D) :
  wc_iseg c = Some (Some p) -> clock_page q (dev w) = bytes_at (iseg_bytes p (dev w)) 0x1000 n -> (72 <= n)%nat ->
  win_get_real_time c w = ctx_get_real_time (Some q) w.
Proof.
  intros Hc Hp Hn. unfold win_get_real_time, ctx_get_real_time, bind, need, peek, ret. rewrite Hc. cbv beta iota.
  by rewrite (clock_of_segment _ _ _ Hp Hn).
Qed.

(** A segment the library left null gives no time; before the first mapping the test for null
    reads a member that has no value. *)
Lemma clock_of_null (c : win_ctx) (w : world D) : wc_iseg c = Some None -> win_get_real_time c w = Ret (0, w).
Proof. unfold win_get_real_time, bind, need. by intros ->. Qed.

Lemma clock_before_mapping dv (w w' : world D) c :
  win_create_ctx dv w = Ret (Some c, w') -> fails (win_get_real_time c) w'.
Proof.
  unfold win_create_ctx, bind. destruct (alloc BMem w) as [[[b|] w1]|]; [|done|done]. unfold device.
  destruct (devx_open_device _ _) as [x d]. destruct (mlx5dv_l2w_is_error x).
  - unfold dealloc. by destruct (_ !! b).
  - intros [= <- <-]. by eexists.
Qed.

(** A mapping that succeeds and stores the segment makes the clock readable. *)
Lemma clock_after_mapping (c : win_ctx) (w : world D) :
  (forall ctx d r p d', devx_query_hca_iseg_mapping ctx d = (r, p, d') -> r = 0 -> p <> None) ->
  wp (win_hca_iseg_mapping c) (fun r w' => r.1 = DCMD_EOK -> exists t, win_get_real_time r.2 w' = Ret (t, w')) w.
Proof.
  intros Hm. apply wp_bind, wp_device. intros [r p] d w' E _ _ _ _ _. apply wp_ret. cbn [fst snd].
  destruct (devx_query_hca_iseg_mapping _ _) as [[r' p'] d'] eqn:Em. injection E as -> -> ->.
  destruct (Z.eqb_spec r 0) as [->|Hr]; [|done]. intros _. specialize (Hm _ _ _ _ _ Em eq_refl).
  destruct p as [[p|]|]; [| |done]; by eexists.
Qed.
End clock.

(** The three words of a version. *)
Lemma parse_version_words a b c d :
  0 <= a < 2 ^ 16 -> 0 <= b < 2 ^ 16 -> 0 <= c < 2 ^ 16 -> 0 <= d < 2 ^ 16 ->
  parse_version_driver (a * 2 ^ 48 + b * 2 ^ 32 + c * 2 ^ 16 + d) = (a, b, c)
  /\ parse_version_fw (a * 2 ^ 32 + b * 2 ^ 16 + c) = (a, b, c).
Proof.
  intros Ha Hb Hc Hd. unfold parse_version_driver, parse_version_fw, parse_version. change 0xffff with (Z.ones 16).
  rewrite !Z.land_ones, !Z.shiftr_div_pow2 by lia. cbn in *.
  split; repeat f_equal; Z.to_euclidean_division_equations; lia.
Qed.

(** ** On a simulated library *)

Definition demo_pnp : list ascii := String.list_ascii_of_string "PCI\VEN_15B3&DEV_1014&SUBSYS_000815B3&REV_80\6&c1a15f4&0&2".

#[local] Instance wsim_enum : WinEnum sim := {
  devx_get_device_list d := (Some [5; 6; 8], d);
  devx_free_device_list d := d;
  devx_query_device h d := (mkWinInfo h (0x6008000000 + h) demo_pnp "ConnectX" 0 0 0, d);
  devx_open_device _ d := (wsim_ptr d, sim_tick d);
  devx_close_device _ d := d;
  devx_query_eqn _ v d := (0, v, d);
  devx_query_hca_iseg_mapping _ d := (0, Some (Some 7), d);
  iseg_bytes _ _ := zeros 16396;
  ibv_pd_handle _ _ := 3
}.

Lemma demo_pnp_text : pnp_text demo_pnp 0x15b3 0x1014.
Proof.
  exists (String.list_ascii_of_string "15B3"), (String.list_ascii_of_string "1014"),
    (String.list_ascii_of_string "&SUBSYS_000815B3&REV_80\6&c1a15f4&0&2").
  unfold hex_text. split_and!; try done; repeat constructor; done.
Qed.

Lemma win_device_described_witness :
  wp (win_device_new 1 5) (fun d w' => hex_value (wd_id d) = 0x6008000005 /\ win_get_vendor_id d w' = Ret (0x15b3, w')) sim_world.
Proof.
  eapply wp_mono; [|apply (win_device_described (H := wsim_enum) 1 5 0x15b3 0x1014 sim_world demo_pnp_text); lia || (cbn; lia)].
  intros d w' (_ & H1 & _ & _ & H2 & _). split; [exact H1|exact H2].
Defined.

Lemma demo_readable : forall handle (d : sim), readable (devx_query_device handle d).1.
Proof. intros handle d. reflexivity. Qed.

(** The second of three adapters cannot be opened. *)
Lemma win_device_list_ok_witness :
  wp (win_get_device_list None) (fun r w' =>
    exists ds b lost, r = (Some ds, Some (b, ds)) /\ (length lost + length ds <= 3)%nat
      /\ wp (win_provider_delete r.2) (fun _ w2 => own (lost ++ []) ∅ w2) w'
      /\ map (fun d => wi_bdf (wd_info d)) ds = [5; 8]) enum_world.
Proof.
  pose proof (win_device_list_ok (H := wsim_enum) demo_readable [] ∅ enum_world (own_nil _ enum_world_fresh)) as Hw.
  assert (wp (win_get_device_list None) (fun r _ => map (fun d => wi_bdf (wd_info d)) (default [] r.1) = [5; 8]) enum_world) as Hc
    by (vm_compute; reflexivity).
  eapply wp_mono; [|exact (wp_and _ _ _ _ Hw Hc)]. intros [[ds|] p] w' [Hr Hb]; [|discriminate Hb]. cbn [fst snd] in *.
  destruct Hr as (b & lost & hs & opened & Hs & -> & _ & _ & Hl & _ & _ & Hd). injection Hs as <-. exists ds, b, lost. by split_and!.
Defined.
