(* ===== verification/Utils.v ===== *)
(** * Utilities (src/src/utils, both platforms)

    The trace level, the size of a cache line and the dump of a buffer.  A dump
    is shown to stay in its buffer and to read back as the bytes it prints. *)

From Stdlib Require Import Ascii.
From stdpp Require Import strings.
From S2P Require Import Prelude Codec Dcmd Provider WinDevice.
Open Scope string_scope.
Open Scope list_scope.
Open Scope Z_scope.

(** ** The trace level *)

Definition is_octal (c : ascii) : bool := (48 <=? code c) && (code c <=? 55).

Fixpoint octal_digits (s : list ascii) : list ascii :=
  match s with c :: r => if is_octal c then c :: octal_digits r else [] | [] => [] end.

Definition octal_value (d : list ascii) : Z := foldl (fun v c => 8 * v + (code c - 48)) 0 d.

(** [strtol] with base 0: hexadecimal after [0x], octal after [0]; a [long] of [bits] bits
    holds the nearest value. *)
Definition magnitude (s : list ascii) : Z :=
  match s with
  | "0"%char :: x :: h :: _ =>
      if (Ascii.eqb x "x" || Ascii.eqb x "X") && is_hex h then hex_value (hex_digits (drop 2 s)).1 else octal_value (octal_digits s)
  | "0"%char :: _ => octal_value (octal_digits s)
  | _ => value (digits s).1
  end.

Definition clamp (bits v : Z) : Z := Z.max (- 2 ^ (bits - 1)) (Z.min v (2 ^ (bits - 1) - 1)).

Definition strtol_0 (bits : Z) (s : list ascii) : Z :=
  let '(neg, s) := scan_sign (skip_space s) in
  clamp bits (if neg then - magnitude s else magnitude s).

(** [check_log_level] on the global [dpcp_log_level], with the value of [DPCP_TRACELEVEL]:
    whether a message of that level is printed, and the global afterwards. *)
Definition lin_check_log_level (env : option (list ascii)) (level dpcp_log_level : Z) : bool * Z :=
  let l := if dpcp_log_level <? 0 then
             match env with Some s => swrap 32 (strtol_0 64 s) | None => dpcp_log_level end
           else dpcp_log_level in
  (level <? l, l).

(** [dcmd_getenv] gives the empty text for a variable that is not set. *)
Definition win_check_log_level (env : option (list ascii)) (level dpcp_log_level : Z) : bool * Z :=
  let l := if dpcp_log_level <? 0 then
             match default [] env with [] => dpcp_log_level | s => swrap 32 (strtol_0 32 s) end
           else dpcp_log_level in
  (level <? l, l).

(** The levels of the macros. *)
Inductive severity : Type := Fatal | Error | Warn | Info | Trace | Hexdump.
Definition severity_level (s : severity) : Z :=
  match s with Fatal => 0 | Error => 1 | Warn => 2 | Info => 3 | Trace => 4 | Hexdump => 5 end.

(** A run: the environment at each message and the messages that are printed. *)
Fixpoint log_run (check : option (list ascii) -> Z -> Z -> bool * Z) (g : Z) (ms : list (option (list ascii) * severity))
  : list bool * Z :=
  match ms with
  | [] => ([], g)
  | (e, s) :: r => let '(b, g) := check e (severity_level s) g in let '(bs, g) := log_run check g r in (b :: bs, g)
  end.

(** ** The size of a cache line *)

Definition DPCP_DEFAULT_CACHELINE_SIZE : Z := 64.

(** [operator>>] into a [size_t]: the largest value for a number that does not fit, zero for a
    text without one. *)
Definition read_size_t (s : list ascii) : Z :=
  let '(neg, s) := scan_sign (skip_space s) in
  let v := value (digits s).1 in
  if 2 ^ 64 <=? v then 2 ^ 64 - 1 else wrap 64 (if neg then - v else v).

(** [get_cacheline_size] on Linux; [None]: the file cannot be opened, which sets [failbit] and
    not [badbit], and nothing is read. *)
Definition lin_get_cacheline_size (file : option (list ascii)) : Z :=
  match file with None => DPCP_DEFAULT_CACHELINE_SIZE | Some s => read_size_t s end.

(** [get_cacheline_size] on Windows: the entries of the system as relation, level and size;
    [None]: no memory. *)
Record cpu_info := mkCpuInfo { ci_cache : bool; ci_level : Z; ci_line : Z }.

Fixpoint first_l1 (result : Z) (infos : list cpu_info) : Z :=
  match infos with
  | [] => result
  | i :: r => if ci_cache i && (ci_level i =? 1) then ci_line i else first_l1 result r
  end.

Definition win_get_cacheline_size (infos : option (list cpu_info)) : Z :=
  match infos with None => DPCP_DEFAULT_CACHELINE_SIZE | Some l => first_l1 DPCP_DEFAULT_CACHELINE_SIZE l end.

(** ** The dump *)

(** [%06x] and [%02x] *)
Definition pad (n : nat) (s : list ascii) : list ascii := replicate (n - length s) "0"%char ++ s.
Definition fmt_06x (n : Z) : list ascii := pad 6 (ui64toa_loop 8 n []).
Definition fmt_02x (b : Z) : list ascii := pad 2 (ui64toa_loop 8 b []).

Definition isprint (b : Z) : bool := (32 <=? b) && (b <=? 126).

Definition OUT_BUF : Z := 256.

Definition space : ascii := " "%char.
Definition colon : ascii := ":"%char.
Definition newline : ascii := ascii_of_nat 10.

(** The two inner loops. *)
Definition dump_hex (buf : list Z) (i : Z) (j : nat) : list ascii :=
  match buf !! Z.to_nat (i + Z.of_nat j) with Some b => fmt_02x b ++ [space] | None => [space; space; space] end.

Definition dump_char (buf : list Z) (i : Z) (j : nat) : list ascii :=
  match buf !! Z.to_nat (i + Z.of_nat j) with
  | Some b => [if isprint b then ascii_of_nat (Z.to_nat b) else dot]
  | None => []
  end.

(** What [out_buf] holds for the line at [i]. *)
Definition dump_line (buf : list Z) (i : Z) : list ascii :=
  (fmt_06x i ++ [colon; space]) ++ concat (map (dump_hex buf i) (seq 0 16)) ++ [space]
  ++ concat (map (dump_char buf i) (seq 0 16)) ++ [newline].

(** The loop: [n] more lines from [i] on. *)
Fixpoint dump_lines (buf : list Z) (n : nat) (i : Z) : list (list ascii) :=
  match n with O => [] | S n => dump_line buf i :: dump_lines buf n (i + 16) end.

Definition dump_trips (buflen : Z) : nat := Z.to_nat ((buflen + 15) / 16).

(** [sys_hexdump]: the lines that are logged after the one with the address; [i += 16] must stay in an [int], and a line with
    its terminator in [out_buf]. *)
Definition sys_hexdump (buf : list Z) : res (list (list ascii)) :=
  let buflen := Z.of_nat (length buf) in
  let lines := dump_lines buf (dump_trips buflen) 0 in
  if 2 ^ 31 <=? 16 * Z.of_nat (dump_trips buflen) then UB "signed overflow"
  else if forallb (fun l => Z.of_nat (length l) + 1 <=? OUT_BUF) lines then Ret lines
  else UB "write beyond out_buf".

(** ** The dump read back *)

Fixpoint undump_bytes (n : nat) (s : list ascii) : list Z :=
  match n, s with
  | S n, a :: b :: _ :: r =>
      match hex_val a, hex_val b with Some x, Some y => 16 * x + y :: undump_bytes n r | _, _ => [] end
  | _, _ => []
  end.

Fixpoint after_colon (s : list ascii) : list ascii :=
  match s with c :: r => if Ascii.eqb c colon then drop 1 r else after_colon r | [] => [] end.

Definition undump_line (s : list ascii) : list Z := undump_bytes 16 (after_colon s).

Lemma length_ui64toa_loop f n acc : (length (ui64toa_loop f n acc) <= f + length acc)%nat.
Proof.
  revert n acc. induction f as [|f IH]; intros n acc; cbn [ui64toa_loop]; [lia|]. destruct (n <? 16); [simpl; lia|].
  etrans; [apply IH|]. simpl. lia.
Qed.

Lemma length_fmt_06x n : (length (fmt_06x n) <= 8)%nat.
Proof. unfold fmt_06x, pad. rewrite length_app, length_replicate. pose proof (length_ui64toa_loop 8 n []). simpl in *. lia. Qed.

Lemma fmt_02x_digits b : 0 <= b < 256 -> fmt_02x b = [hex_digit (b / 16); hex_digit (b mod 16)].
Proof.
  intros Hb. unfold fmt_02x. cbn [ui64toa_loop]. pose proof (Z.div_lt_upper_bound b 16 16 ltac:(lia) ltac:(lia)).
  destruct (Z.ltb_spec b 16).
  - rewrite Z.div_small, Z.mod_small by lia. done.
  - rewrite (proj2 (Z.ltb_lt (b / 16) 16)) by lia. done.
Qed.

Definition byte (b : Z) : Prop := 0 <= b < 256.

Lemma length_dump_hex buf i j : Forall byte buf -> length (dump_hex buf i j) = 3%nat.
Proof.
  intros Hb. unfold dump_hex. destruct (buf !! _) as [b|] eqn:E; [|done]. rewrite fmt_02x_digits; [done|].
  by apply (proj1 (Forall_lookup _ _) Hb _ _ E).
Qed.

Lemma length_concat_le (f : nat -> list ascii) k l : (forall j, (length (f j) <= k)%nat) -> (length (concat (map f l)) <= k * length l)%nat.
Proof. intros Hf. induction l as [|x l IH]; simpl; [lia|]. rewrite length_app. specialize (Hf x). lia. Qed.

Lemma length_dump_line buf i : Forall byte buf -> (length (dump_line buf i) <= 76)%nat.
Proof.
  intros Hb. unfold dump_line. rewrite !length_app.
  pose proof (length_concat_le (dump_hex buf i) 3 (seq 0 16)) as H1. pose proof (length_concat_le (dump_char buf i) 1 (seq 0 16)) as H2.
  pose proof (length_fmt_06x i). rewrite length_seq in *. simpl length in *.
  assert (forall j, (length (dump_hex buf i j) <= 3)%nat) as Hh by (intros j; by rewrite length_dump_hex).
  assert (forall j, (length (dump_char buf i j) <= 1)%nat) as Hc by (intros j; unfold dump_char; destruct (_ !! _); simpl; lia).
  specialize (H1 Hh). specialize (H2 Hc). cbn [length] in *. lia.
Qed.

Lemma undump_hex buf i n k rest :
  Forall byte buf -> 0 <= i ->
  undump_bytes n (concat (map (dump_hex buf i) (seq k n)) ++ rest) = take n (drop (Z.to_nat i + k) buf).
Proof.
  intros Hb Hi. revert k. induction n as [|n IH]; intros k; [done|]. cbn [seq map concat]. rewrite <- app_assoc. unfold dump_hex at 1.
  replace (Z.to_nat (i + Z.of_nat k)) with (Z.to_nat i + k)%nat by lia.
  destruct (buf !! (Z.to_nat i + k)%nat) as [b|] eqn:E.
  - pose proof (proj1 (Forall_lookup _ _) Hb _ _ E) as Hr. unfold byte in Hr. rewrite fmt_02x_digits by done. rewrite (drop_S _ _ _ E). cbn [app undump_bytes take].
    pose proof (Z.mod_pos_bound b 16 ltac:(lia)). pose proof (Z.div_lt_upper_bound b 16 16 ltac:(lia) ltac:(lia)). pose proof (Z.div_pos b 16 ltac:(lia) ltac:(lia)).
    rewrite !hex_val_digit by lia. rewrite <- (Z.div_mod b 16) by lia. f_equal. rewrite IH. do 2 f_equal. lia.
  - apply lookup_ge_None in E. rewrite drop_ge by done. done.
Qed.

Lemma after_colon_text d s : Forall (fun c => is_hex c = true) d -> after_colon (d ++ colon :: space :: s) = s.
Proof.
  induction 1 as [|c d Hc _ IH]; [done|]. cbn [app after_colon]. by rewrite (hex_not c colon).
Qed.

Lemma fmt_06x_hex n : 0 <= n -> Forall (fun c => is_hex c = true) (fmt_06x n).
Proof.
  intros Hn. unfold fmt_06x, pad. apply Forall_app. split; [by apply Forall_replicate|by apply ui64toa_loop_hex].
Qed.

Lemma undump_dump_line buf i : Forall byte buf -> 0 <= i -> undump_line (dump_line buf i) = take 16 (drop (Z.to_nat i) buf).
Proof.
  intros Hb Hi. unfold undump_line, dump_line. rewrite <- app_assoc. cbn [app]. rewrite after_colon_text by by apply fmt_06x_hex.
  rewrite undump_hex by done. by rewrite Nat.add_0_r.
Qed.

Lemma undump_lines buf n i :
  Forall byte buf -> 0 <= i -> concat (map undump_line (dump_lines buf n i)) = take (16 * n) (drop (Z.to_nat i) buf).
Proof.
  intros Hb. revert i. induction n as [|n IH]; intros i Hi; [done|]. cbn [dump_lines map concat]. rewrite undump_dump_line, IH by (done || lia).
  replace (Z.to_nat (i + 16)) with (Z.to_nat i + 16)%nat by lia. rewrite <- (drop_drop buf 16 (Z.to_nat i)).
  replace (16 * S n)%nat with (16 + 16 * n)%nat by lia. apply take_take_drop.
Qed.

Lemma dump_trips_bound n : 0 <= n -> n <= 16 * Z.of_nat (dump_trips n) < n + 16.
Proof. intros Hn. unfold dump_trips. rewrite Z2Nat.id by (apply Z.div_pos; lia). Z.to_euclidean_division_equations. lia. Qed.

(** A dump of up to 2^31 - 16 bytes never writes beyond the 256 characters of its line, has
    one line for sixteen bytes, and shows the buffer: the hexadecimal columns of its lines read
    back as the bytes. *)
Theorem hexdump_roundtrip buf :
  Forall byte buf -> Z.of_nat (length buf) <= 2 ^ 31 - 16 ->
  exists lines, sys_hexdump buf = Ret lines /\ concat (map undump_line lines) = buf
    /\ length lines = dump_trips (Z.of_nat (length buf)) /\ Forall (fun l => (length l < 256)%nat) lines.
Proof.
  intros Hb Hl. pose proof (dump_trips_bound (Z.of_nat (length buf)) ltac:(lia)) as Ht. unfold sys_hexdump.
  set (n := dump_trips (Z.of_nat (length buf))) in *. rewrite (proj2 (Z.leb_gt _ _)) by lia.
  assert (forall k i, Forall (fun l => (length l <= 76)%nat) (dump_lines buf k i)) as Hlen.
  { induction k as [|k IH]; intros i; constructor; [by apply length_dump_line|apply IH]. }
  assert (forall k i, length (dump_lines buf k i) = k) as Hk by (induction k as [|k IH]; intros i; simpl; [done|by rewrite IH]).
  assert (forallb (fun l => Z.of_nat (length l) + 1 <=? OUT_BUF) (dump_lines buf n 0) = true) as ->.
  { apply List.forallb_forall. intros l Hi. apply Z.leb_le. unfold OUT_BUF. pose proof (proj1 (list.Forall_forall _ _) (Hlen n 0) l (proj2 (list_elem_of_In _ _) Hi)). simpl in *. lia. }
  eexists. split; [done|]. split_and!.
  - rewrite undump_lines by (done || lia). cbn [Z.to_nat drop]. apply take_ge. lia.
  - apply Hk.
  - eapply list.Forall_impl; [apply (Hlen n 0)|]. simpl. lia.
Qed.

(** A longer buffer overflows the counter of the loop. *)
Lemma hexdump_overflows buf : 2 ^ 31 - 16 < Z.of_nat (length buf) -> sys_hexdump buf = UB "signed overflow".
Proof.
  intros Hl. pose proof (dump_trips_bound (Z.of_nat (length buf)) ltac:(lia)). unfold sys_hexdump. by rewrite (proj2 (Z.leb_le _ _)) by lia.
Qed.

(** ** Properties of the levels *)

(** A level that was read stays: later values of the variable are not looked at. *)
Lemma level_stays check ms g :
  (forall e l g, 0 <= g -> check e l g = (l <? g, g)) -> 0 <= g ->
  log_run check g ms = (map (fun m => severity_level m.2 <? g) ms, g).
Proof. intros Hc Hg. induction ms as [|[e s] r IH]; [done|]. cbn. rewrite Hc by done. by rewrite IH. Qed.

Lemma lin_read_once e l g : 0 <= g -> lin_check_log_level e l g = (l <? g, g).
Proof. intros Hg. unfold lin_check_log_level. by rewrite (proj2 (Z.ltb_ge g 0)) by lia. Qed.
Lemma win_read_once e l g : 0 <= g -> win_check_log_level e l g = (l <? g, g).
Proof. intros Hg. unfold win_check_log_level. by rewrite (proj2 (Z.ltb_ge g 0)) by lia. Qed.

(** Without the variable nothing is printed, and a message that is printed leaves none of the
    more severe ones out. *)
Lemma lin_silent l : 0 <= l -> lin_check_log_level None l (-1) = (false, -1).
Proof. intros Hl. unfold lin_check_log_level. cbn. by rewrite (proj2 (Z.ltb_ge l (-1))) by lia. Qed.

Lemma lin_monotone e l l' g : l' <= l -> (lin_check_log_level e l g).1 = true -> (lin_check_log_level e l' g).1 = true.
Proof. unfold lin_check_log_level. cbn [fst]. rewrite !Z.ltb_lt. lia. Qed.

Example level_texts :
  map (fun s => strtol_0 64 (String.list_ascii_of_string s)) ["5"; " -3x"; "0x1f"; "017"; "0"; "off"; ""] = [5; -3; 31; 15; 0; 0; 0].
Proof. reflexivity. Qed.

(** An empty text is level zero on Linux and no text on Windows. *)
Lemma empty_text_differs : lin_check_log_level (Some []) 0 (-1) = (false, 0) /\ win_check_log_level (Some []) 0 (-1) = (false, -1).
Proof. done. Qed.

(** A file without a number makes the size of a cache line zero instead of the default. *)
Lemma cacheline_of_bad_file : lin_get_cacheline_size (Some []) = 0 /\ lin_get_cacheline_size None = 64
  /\ lin_get_cacheline_size (Some (String.list_ascii_of_string "128")) = 128.
Proof. done. Qed.

(** On Windows it is the line of the first cache of level 1. *)
Lemma win_cacheline_ok (infos : list cpu_info) :
  match List.find (fun i => ci_cache i && (ci_level i =? 1)) infos with
  | Some i => win_get_cacheline_size (Some infos) = ci_line i
  | None => win_get_cacheline_size (Some infos) = DPCP_DEFAULT_CACHELINE_SIZE
  end.
Proof. induction infos as [|i r IH]; [done|]. cbn. destruct (ci_cache i && (ci_level i =? 1)); [done|exact IH]. Qed.

Lemma hexdump_roundtrip_witness :
  exists lines, sys_hexdump [0x41; 0x0a; 0xff] = Ret lines /\ concat (map undump_line lines) = [0x41; 0x0a; 0xff]
    /\ lines = [String.list_ascii_of_string "000000: 41 0a ff                                         A.." ++ [newline]].
Proof.
  destruct (hexdump_roundtrip [0x41; 0x0a; 0xff]) as (lines & E & Hr & _); [repeat constructor; lia|simpl; lia|].
  exists lines. split; [exact E|]. split; [exact Hr|]. vm_compute in E. injection E as <-. reflexivity.
Defined.
